(* ===== verification/_CoqProject ===== *)
-Q . S2P
Prelude.v
Cursor.v
CString.v
RingBuffer.v
Serial.v
MqttPacket.v
MqttSerialize.v
MqttDeserialize.v
MqttPacketRead.v
MqttFormat.v
Sha1.v
Base64.v
WebSocket.v
Dhcp.v
Dns.v
StateMonad.v
Network.v
MqttTopic.v
MqttClient.v
MqttHandlers.v
MqttClientSafe.v
MqttClientSession.v
MqttTask.v
Sensor.v
Telemetry.v
EncRegisters.v
Enc28j60.v
EncChip.v
EncDriver.v
EncInit.v
EncStartup.v
Settings.v
SettingsStore.v
Allocator.v
Post.v
SettingsForm.v
Http.v
HttpLwip.v
HttpSend.v
HttpRequest.v
HttpGet.v
HttpPost.v
HttpConnections.v
MakeFsData.v
FsDataReader.v
FsDataText.v
FsDataFiles.v
FsDataNames.v
FsDataPages.v
MakeFsDataTree.v
MakeFsDataOk.v
WebPages.v
Wifi.v
WebHandlers.v
Ip4.v
Ip4Packets.v
Startup.v
Factory.v
StartupModes.v
StartupLinks.v
CaptivePortal.v
Provisioning.v
