(* ===== verification/Prelude.v ===== *)
(** * RadProt_IOT: the firmware of a radiation-protection gateway, verified

    The firmware runs on a Raspberry Pi Pico W under FreeRTOS.  It reads lines from serial sensors, publishes what they
    say to an MQTT broker and to WebSocket clients, and is configured through a web interface; a new device opens an
    access point of its own, with DHCP and DNS servers that lead every client to that interface.

    ** Parts, files and sources (all sources are under src/)

    Common ground:
    - Prelude: machine integers ([u8], [u16], [u32], [s32]), regions of bytes as lists of [Z] with checked access
      ([rd], [wr], [rd_n], [wr_n]), the type [outcome] of what C code gives (a value, undefined behaviour [Ub], or a
      loop that ran out of fuel), tactics and lemmas.  Cursor: pointers that advance while a packet is written or read.
      CString: C strings and the functions on them.  StateMonad: [ST S A], C functions that change a state, with Hoare
      triples ([triple], partial in the fuel, total in the absence of [Ub]) and total ones ([wp]).

    From a sensor to the broker:
    - RingBuffer (inc/ringbuffer.h) and Serial (hal/src/serial.cpp): the characters of a UART, queued by the interrupt
      handler, taken out by [read_string].  The queue is the class [CharQueue]; Serial is proved against the class.
    - Sensor (src/sensor.cpp, inc/sensor.h): a line is cut into fields, which are averaged and put into the queues of
      the MQTT task and the WebSocket server.
    - MqttTask (src/MQTT.cpp, MQTTFreeRTOS.cpp): the task that connects to the broker and publishes what is queued.
    - MqttClient, MqttHandlers, MqttClientSafe, MqttClientSession, MqttTopic (MQTTClient-C/src/MQTTClient.cpp and .h):
      the client, its table of handlers, its memory safety, its exchanges with a broker, the matching of topics.
      Network (FreeRTOSTimers.cpp, MQTTFreeRTOS.cpp): its timers and sockets, as classes with laws.
    - MqttPacket, MqttSerialize, MqttDeserialize, MqttPacketRead (MQTTPacket/src): the wire format, writers and readers of
      packets in a buffer, and the two readers of packets from a source of bytes.  MqttFormat (MQTTFormat.cpp): the text
      forms of packets.
    - Telemetry: the way of a line through Serial, Sensor, MqttTask, MqttClient and WebSocket together.
    - WebSocket (src/websocket.cpp), Sha1 and Base64 (src/crypto.cpp): the server, its handshake and its frames.

    Configuration:
    - Settings, SettingsStore (src/settings.cpp, inc/settings.h): the settings, their image in flash, their document.
      Post, SettingsForm, WebHandlers (src/post.cpp): the handlers of the web interface.  Wifi (src/wifi_fns.cpp): the
      networks that a scan finds.
    - Http, HttpSend, HttpRequest, HttpGet, HttpPost, HttpLwip (httpserver/httpd.cpp, httpd.h, httpd_structs.h, fs.cpp):
      the HTTP server: a connection, responses, requests, GET, POST; what it relies on of lwIP.  HttpConnections: all
      connections, interleaved, with the [current_connection] they share.
    - MakeFsData (httpserver/makefsdata/makefsdata.c): the tool that turns the directory of web pages into
      httpserver/fsdata.c.  FsDataReader: what a C compiler makes of such a file, as a specification.  FsDataText,
      FsDataFiles, FsDataNames, FsDataPages, MakeFsDataTree, MakeFsDataOk: bytes and comments, content and header, names of
      variables, one page, the tree, the whole file and the options.  WebPages: from the directory to the browser, with
      the first page of fsdata.c.
    - Allocator (inc/arduinojson_cust_alloc.h): the heap of the JSON documents.
    - Dhcp (dhcpserver/dhcpserver.cpp), Dns (dns/dnsserver.cpp): the servers of the access point.
    - Ip4, Ip4Packets (lwip_patch/ip4.c): the patched IPv4 layer, which takes in packets for a secondary address.
    - Startup, StartupModes, StartupLinks (src/main.cpp, src/wifi_fns.cpp, src/ethernet_fns.cpp): [main_task].  Factory
      (src/settings.cpp): the settings a device is delivered with.
    - CaptivePortal: start-up, names, packets and redirection together.  Provisioning: a form posted to a new device, its
      settings, the restart and the start-up that joins the network of the form.

    Ethernet:
    - EncRegisters, Enc28j60 (enc28j60/inc, enc28j60/src, hal/src/spi.cpp): the driver of the ENC28J60.  EncChip: the
      controller by its data sheet, as laws of the board.  EncDriver, EncInit: what the driver does to it.
      EncStartup (enc28j60/src/enc28j60_LWIP_FreeRTOS.cpp): the interface in lwIP and the task of the interrupts.

    ** How the model corresponds to the code

    A function of the code is a definition of the same name.  Members of a class or a struct are the fields of a record;
    a pointer into a buffer is an offset, or the rest of the list; an access outside an object is [Ub], and so is the use
    of a null pointer.  Integers have the width of the code where it can matter ([int] where values can pass 2^31, always
    for sizes that come from the network); [char] is unsigned and numbers in memory are little-endian, as on the target.
    Uninitialised memory is an argument, usually called [junk], for which the theorems hold whatever it is.

    What is not under src/ is a parameter with laws: lwIP ([Tcp], [Lwip], [Lwip4], the sockets of Network), FreeRTOS
    queues and ticks, the SDK ([Flash], [Board]), ArduinoJson ([JsonDoc], and the text of a
    document, [serializeJson], of which only the length of the answers it is used for is assumed), ETL ([NetSet]), the C library's [strtof].
    Each class of laws has an instance, and the witness of a theorem uses it, so no theorem is about nothing.

    Interleaving: a part that runs in one task is a state machine whose steps are what that task does between two points
    where it waits; an interrupt handler is a step of its own (Serial), so is every turn of [MQTTRun] (MqttTask).  The
    callbacks of the HTTP server run in the one thread of lwIP, each as a step.

    ** Fuel

    A loop with no obvious bound takes [fuel], and a theorem about its result gives the fuel that is enough: the turns of
    the MQTT client's loops are bounded by its timers, DNS labels and DHCP options by the length of a packet, the polls
    of the Ethernet driver by 20 ms of ticks, [http_send] by the bytes of the headers ([hdr_fuel]), the attempts of
    [main_task] to join a network by how long the network stays away ([Patient]), the names makefsdata tries by 999, where
    it gives up.  Theorems of safety and invariants
    (triples) hold for every fuel.

    ** What the theorems show

    - The whole system: the characters of a line arrive as PUBLISH packets at the broker and as frames at the page
      (Telemetry); a new device that is given a network through its web page joins it (Provisioning); every name a client
      of the access point asks for leads it to the device (CaptivePortal); what is in the directory of web pages when the
      firmware is built is what a browser gets (WebPages).
    - Data paths: characters to lines (refinement of a FIFO queue, lines delivered whole), readings to averages, topics and
      payloads to PUBLISH packets and back, a directory to fsdata.c and back (round trips), PUBLISH and CONNECT exchanged with a broker, WebSocket frames,
      the settings form from the network into the flash and back onto the page, responses byte for byte.
    - Equivalence with standards: SHA-1 (FIPS 180-4), Base 64 (RFC 4648), topic filters (MQTT 4.7, with the exceptions
      found), the Internet checksum (RFC 1071); of the two readers of packets with each other.
    - Simulation: the HTTP server with interleaved connections does for each client what a table of clients says, and
      answers a post exactly when it was the last to begin.
    - Safety: no access out of bounds in the MQTT client whatever the broker sends (its one over-read characterised
      exactly), in sensor lines, in the WebSocket server's loop (its one overflow characterised exactly); a lease is never
      taken from its holder; in normal operation no posted request changes the settings without the password, and the
      restart and the scan for networks are all that is set off without it (WebHandlers).
    - Invariants and liveness: the server loop, the registers of the Ethernet controller, the modes of start-up; every
      response with data from a file is delivered, a stalled connection is closed, a lost station is joined again.
    - Errors: lemmas state each defect found exactly as the code has it, with an example that shows it.

    ** Not modelled, and why

    - Compiled out by httpd_opts.h, lwipopts.h and lwIP's defaults: SSI, CGI, keep-alive, dynamic file reads and
      error pages of the HTTP server; forwarding, IGMP, header options, loopback and hints of the IPv4 layer.
    - Generated or foreign: the arrays of httpserver/fsdata.c but the first (the output of makefsdata; what is in the
      pages is an input), tinydir.h (what it lists is an input of makefsdata), the C++ template MQTTClient/src, which is
      not built, StackTrace, the page sources.  Compression in makefsdata is compiled out.
    - Wrappers of one SDK call each (hal/src/spi.cpp, hal/src/gpio.cpp): the class [Board] of Enc28j60 stands for them.
    - Set-up without decisions: the creation of tasks, queues, sockets and control blocks ([mqtt_init], the [init]s of
      servers and sensors), pins and UARTs, [main], hooks, the redirections of [malloc] and [new], log output, the test
      signal of [feedWatchdogTask], the headers tcp_server.h and tcp_server_command.h, which declare functions without
      bodies that nothing calls.
    - [write_ap_mode_settings], which nothing calls, and [dump_tsv] (debug output). *)

From stdpp Require Export base tactics numbers list option.
From stdpp Require Export strings.
From Stdlib Require Export ZArith Lia.

#[global] Open Scope Z_scope.

Declare Scope c_scope.
Delimit Scope c_scope with c.

(** ** Machine integers *)

Definition u8 (z : Z) : Z := z mod 256.
Definition u16 (z : Z) : Z := z mod 65536.
Definition u32 (z : Z) : Z := z mod 4294967296.
Definition u64 (z : Z) : Z := z mod 18446744073709551616.

(** The value of a 32-bit pattern read as a two's complement [int32_t]. *)
Definition s32 (z : Z) : Z :=
  let r := u32 z in if r <? 2147483648 then r else r - 4294967296.

Definition is_u8 (z : Z) : Prop := 0 <= z < 256.
Definition is_u16 (z : Z) : Prop := 0 <= z < 65536.
Definition is_u32 (z : Z) : Prop := 0 <= z < 4294967296.

#[export] Instance is_u8_dec z : Decision (is_u8 z).
Proof. unfold is_u8. apply _. Defined.
#[export] Instance is_u16_dec z : Decision (is_u16 z).
Proof. unfold is_u16. apply _. Defined.
#[export] Instance is_u32_dec z : Decision (is_u32 z).
Proof. unfold is_u32. apply _. Defined.

(** A C boolean expression used as an integer. *)
Definition b2z (b : bool) : Z := if b then 1 else 0.

(** The characters of a string literal. *)
Definition chars (s : string) : list Z := map (λ a, Z.of_N (Ascii.N_of_ascii a)) (String.list_ascii_of_string s).

Abbreviation zlen l := (Z.of_nat (length l)).

(** ** Outcomes of C code

    [Ok a] is a normal result, [Ub] an access outside an object (the model stops there, since C
    gives no meaning to what follows) and [OutOfFuel] a loop the given fuel did not finish. *)
Inductive outcome (A : Type) : Type :=
| Ok (a : A)
| Ub
| OutOfFuel.
Arguments Ok {A} a.
Arguments Ub {A}.
Arguments OutOfFuel {A}.

#[export] Instance outcome_ret : MRet outcome := fun A a => Ok a.
#[export] Instance outcome_bind : MBind outcome := fun A B f m =>
  match m with Ok a => f a | Ub => Ub | OutOfFuel => OutOfFuel end.
#[export] Instance outcome_fmap : FMap outcome := fun A B f m =>
  match m with Ok a => Ok (f a) | Ub => Ub | OutOfFuel => OutOfFuel end.

#[export] Instance outcome_eq_dec `{EqDecision A} : EqDecision (outcome A).
Proof. solve_decision. Defined.

Lemma bind_ok {A B} (f : A → outcome B) a : (Ok a ≫= f) = f a.
Proof. reflexivity. Qed.

Lemma bind_assoc {A B C} (m : outcome A) (f : A → outcome B) (g : B → outcome C) :
  ((m ≫= f) ≫= g) = (m ≫= λ a, f a ≫= g).
Proof. by destruct m. Qed.

(** ** Memory regions

    An array object of C is the list of its elements.  Reading or writing outside is [Ub]. *)
Definition rd (b : list Z) (i : Z) : outcome Z :=
  if decide (0 <= i) then
    match b !! Z.to_nat i with Some v => Ok v | None => Ub end
  else Ub.

(** [memcpy] out of a region: [n] bytes from offset [i]. *)
Definition rd_n (b : list Z) (i n : Z) : outcome (list Z) :=
  if decide (0 <= i ∧ 0 <= n ∧ i + n <= zlen b)
  then Ok (take (Z.to_nat n) (drop (Z.to_nat i) b)) else Ub.

(** [memcpy] into a region: the bytes [l] at offset [i]. *)
Definition wr_n (b : list Z) (i : Z) (l : list Z) : outcome (list Z) :=
  if decide (0 <= i ∧ i + zlen l <= zlen b)
  then Ok (take (Z.to_nat i) b ++ l ++ drop (Z.to_nat i + length l) b) else Ub.

Definition wr (b : list Z) (i : Z) (v : Z) : outcome (list Z) := wr_n b i [v].

(** ** Automation *)

Create Rewrite HintDb lens.
#[export] Hint Rewrite @length_app @length_drop @length_take @length_replicate @length_insert
  @length_map @length_fmap @length_seq @length_reverse : lens.

(** A decidable fact of concrete values. *)
Ltac decided := apply (bool_decide_unpack _); vm_compute; exact I.

(** Linear arithmetic with [/], [mod], [Z.quot] and [Z.rem]. *)
Ltac zdiv := Z.to_euclidean_division_equations; lia.

(** Normalise list lengths, then linear arithmetic. *)
Ltac lens :=
  repeat match goal with H : context [length (_ :: _)] |- _ => progress cbn [length] in H end;
  autorewrite with lens in *; cbn [length] in *; autorewrite with lens; lia.

(** Case analysis of the first [decide] or boolean test in the goal. *)
Ltac dec :=
  match goal with
  | |- context [decide ?P] => destruct (decide P); try lia
  end.

(** Split an equation between results into one per component. *)
Ltac oks := repeat match goal with
  | |- Ok _ = Ok _ => f_equal
  | |- (_, _) = (_, _) => f_equal
  end.

(** Equations between lists, pairs and lengths: congruence down to linear arithmetic. *)
Ltac leq := repeat first [done | lens | progress f_equal].

Create HintDb bytes.

Lemma u8_range z : is_u8 (u8 z).
Proof. unfold is_u8, u8. zdiv. Qed.
Lemma u16_range z : is_u16 (u16 z).
Proof. unfold is_u16, u16. zdiv. Qed.
Lemma u32_range z : is_u32 (u32 z).
Proof. unfold is_u32, u32. zdiv. Qed.
Lemma u8_id z : is_u8 z → u8 z = z.
Proof. unfold is_u8, u8. zdiv. Qed.
Lemma u16_id z : is_u16 z → u16 z = z.
Proof. unfold is_u16, u16. zdiv. Qed.
Lemma u32_id z : is_u32 z → u32 z = z.
Proof. unfold is_u32, u32. zdiv. Qed.
#[export] Hint Resolve u8_range u16_range u32_range : bytes.

(** A property of bytes decided by checking all 256 of them. *)
Lemma byte_check (P : Z → bool) :
  forallb P (seqZ 0 256) = true → ∀ c, is_u8 c → P c = true.
Proof.
  intros H c Hc. rewrite forallb_forall in H. apply H.
  apply list_elem_of_In, elem_of_seqZ. unfold is_u8 in Hc. lia.
Qed.

(** Two functions of a byte agree when they agree on all 256. *)
Lemma byte_eq (f g : Z → Z) :
  forallb (λ c, f c =? g c) (seqZ 0 256) = true → ∀ c, is_u8 c → f c = g c.
Proof. intros H c Hc. apply Z.eqb_eq. by apply (byte_check (λ c, f c =? g c)). Qed.

(** ** Lemmas on regions *)

Lemma rd_app p x r : rd (p ++ x :: r) (zlen p) = Ok x.
Proof.
  unfold rd. dec. rewrite Nat2Z.id, lookup_app_r by lia.
  by rewrite Nat.sub_diag.
Qed.

(** Reading the [k]-th byte of the middle part of a region. *)
Lemma rd_mid p l r k x : l !! k = Some x → rd (p ++ l ++ r) (zlen p + Z.of_nat k) = Ok x.
Proof.
  intros H. unfold rd. dec.
  pose proof (lookup_lt_Some _ _ _ H).
  rewrite lookup_app_r by lia.
  replace (Z.to_nat (zlen p + Z.of_nat k) - length p)%nat with k by lia.
  by rewrite lookup_app_l, H by lia.
Qed.

Lemma rd_Ok_bounds b i v : rd b i = Ok v → 0 <= i < zlen b.
Proof.
  unfold rd. dec; [|done]. destruct (b !! _) eqn:E; [|done].
  apply lookup_lt_Some in E. intros _. lia.
Qed.

Lemma rd_in_bounds b i : 0 <= i < zlen b → ∃ v, rd b i = Ok v ∧ b !! Z.to_nat i = Some v.
Proof.
  intros H. unfold rd. dec.
  destruct (lookup_lt_is_Some_2 b (Z.to_nat i)) as [v E]; [lia|]. rewrite E. eauto.
Qed.

Lemma rd_nth b i : 0 <= i < zlen b → rd b i = Ok (nth (Z.to_nat i) b 0).
Proof.
  intros H. destruct (rd_in_bounds b i H) as (v & E & El). rewrite E.
  by rewrite (nth_lookup_Some b _ 0 v El).
Qed.

(** Reading the [k]-th element behind a prefix. *)
Lemma rd_suffix p l k : 0 <= k < zlen l → rd (p ++ l) (zlen p + k) = Ok (nth (Z.to_nat k) l 0).
Proof.
  intros H. rewrite rd_nth by lens. f_equal. rewrite app_nth2 by lia. f_equal. lia.
Qed.

Lemma rd_oob b i : i < 0 ∨ zlen b <= i → rd b i = Ub.
Proof.
  intros H. unfold rd. dec; [|done]. rewrite lookup_ge_None_2; [done|lia].
Qed.

Lemma rd_n_app p l r : rd_n (p ++ l ++ r) (zlen p) (zlen l) = Ok l.
Proof.
  unfold rd_n. rewrite decide_True by lens.
  rewrite !Nat2Z.id, drop_app_length, take_app_length. done.
Qed.

Lemma rd_n_0 l n : n = zlen l → rd_n l 0 n = Ok l.
Proof. intros ->. pose proof (rd_n_app [] l []) as H. by rewrite app_nil_r in H. Qed.

Lemma rd_n_length b i n l : rd_n b i n = Ok l → zlen l = n.
Proof. unfold rd_n. dec; [|done]. intros [= <-]. lens. Qed.

Lemma wr_n_app p r l :
  (length l ≤ length r)%nat → wr_n (p ++ r) (zlen p) l = Ok (p ++ l ++ drop (length l) r).
Proof.
  intros H. unfold wr_n. rewrite decide_True by lens.
  rewrite Nat2Z.id, take_app_length, <- drop_drop, drop_app_length. done.
Qed.

Lemma wr_n_oob b i l : i < 0 ∨ zlen b < i + zlen l → wr_n b i l = Ub.
Proof. intros H. unfold wr_n. by rewrite decide_False by lia. Qed.

Lemma wr_n_length b i l b' : wr_n b i l = Ok b' → length b' = length b.
Proof. unfold wr_n. dec; [|done]. intros [= <-]. lens. Qed.

Lemma wr_lookup b i v :
  0 <= i < zlen b → wr b i v = Ok (<[Z.to_nat i := v]> b).
Proof.
  intros H. unfold wr, wr_n. rewrite decide_True by lens.
  f_equal. symmetry. rewrite insert_take_drop by lia.
  by replace (Z.to_nat i + length [v])%nat with (S (Z.to_nat i)) by (simpl; lia).
Qed.

Lemma wr_oob b i v : i < 0 ∨ zlen b <= i → wr b i v = Ub.
Proof. intros H. apply wr_n_oob. simpl. lia. Qed.

(** ** Counted loops

    [for_ n i body s]: [n] turns of a [for] loop whose counter starts at [i]. *)
Fixpoint for_ {S : Type} (n : nat) (i : Z) (body : Z → S → outcome S) (s : S) : outcome S :=
  match n with
  | O => Ok s
  | Datatypes.S n => s ← body i s; for_ n (i + 1) body s
  end.

Lemma for_S {S} n i (body : Z → S → outcome S) s :
  for_ (Datatypes.S n) i body s = s ← body i s; for_ n (i + 1) body s.
Proof. reflexivity. Qed.

(** A loop whose every turn succeeds follows the invariant [inv]. *)
Lemma for_ind {S} (inv : Z → S → Prop) n i (body : Z → S → outcome S) s :
  inv i s →
  (∀ j s, i <= j < i + Z.of_nat n → inv j s → ∃ s', body j s = Ok s' ∧ inv (j + 1) s') →
  ∃ s', for_ n i body s = Ok s' ∧ inv (i + Z.of_nat n) s'.
Proof.
  revert i s. induction n as [|n IH]; intros i s H0 Hb.
  - exists s. split; [done|]. by replace (i + Z.of_nat 0) with i by lia.
  - destruct (Hb i s) as (s1 & E1 & H1); [lia|done|].
    destruct (IH (i + 1) s1 H1) as (s2 & E2 & H2); [intros j t Hj; apply Hb; lia|].
    exists s2. rewrite for_S, E1, bind_ok. split; [done|].
    by replace (i + Z.of_nat (Datatypes.S n)) with (i + 1 + Z.of_nat n) by lia.
Qed.

(** ** Bits *)

(** Putting a low part under a shifted one is an addition. *)
Lemma lor_shift x y n : 0 <= n → 0 <= y < 2 ^ n → Z.lor (Z.shiftl x n) y = x * 2 ^ n + y.
Proof.
  intros Hn Hy. rewrite Z.shiftl_mul_pow2 by done. pose proof (Z.add_lor_land (x * 2 ^ n) y).
  enough (Z.land (x * 2 ^ n) y = 0) by lia.
  apply Z.bits_inj'. intros k Hk. rewrite Z.land_spec, Z.bits_0.
  destruct (Z.ltb_spec k n).
  - rewrite Z.mul_pow2_bits_low by lia. done.
  - destruct (Z.eq_dec y 0) as [->|]; [rewrite Z.bits_0; apply andb_false_r|].
    rewrite (Z.bits_above_log2 y k), andb_false_r; [done|lia|].
    apply Z.lt_le_trans with n; [|done]. apply Z.log2_lt_pow2; lia.
Qed.

(** Big-endian numbers of 16 and 32 bits. *)
Definition be16 (a b : Z) : Z := a * 256 + b.
Definition be32 (a b c d : Z) : Z := ((a * 256 + b) * 256 + c) * 256 + d.

Lemma lor_be16 a b : is_u8 b → Z.lor (Z.shiftl a 8) b = be16 a b.
Proof. intros H. by apply (lor_shift a b 8). Qed.

Lemma lor_be32 a b c d : is_u8 b → is_u8 c → is_u8 d →
  Z.lor (Z.lor (Z.lor (Z.shiftl a 24) (Z.shiftl b 16)) (Z.shiftl c 8)) d = be32 a b c d.
Proof.
  unfold is_u8. intros. rewrite <- !Z.lor_assoc.
  rewrite (lor_shift c d 8), (lor_shift b _ 16), (lor_shift a _ 24) by lia.
  unfold be32. lia.
Qed.

(** Bits of 32-bit words. *)
Lemma u32_bits x n : 0 <= n → Z.testbit (u32 x) n = (n <? 32) && Z.testbit x n.
Proof.
  intros Hn. change (u32 x) with (x mod 2 ^ 32). destruct (Z.ltb_spec n 32).
  - by rewrite Z.mod_pow2_bits_low.
  - by rewrite Z.mod_pow2_bits_high by lia.
Qed.

Lemma is_u32_bits x n : is_u32 x → 32 <= n → Z.testbit x n = false.
Proof.
  intros Hx Hn. rewrite <- (u32_id x Hx), u32_bits by lia.
  by destruct (Z.ltb_spec n 32); [lia|].
Qed.

Lemma u32_lxor a b : is_u32 a → is_u32 b → is_u32 (Z.lxor a b).
Proof.
  intros Ha Hb. replace (Z.lxor a b) with (u32 (Z.lxor a b)); [apply u32_range|].
  apply Z.bits_inj'. intros n Hn. rewrite u32_bits, !Z.lxor_spec by done.
  destruct (Z.ltb_spec n 32); [done|]. by rewrite !is_u32_bits.
Qed.
#[export] Hint Resolve u32_lxor : bytes.

(** ** Sequences of stores *)

Lemma wr_n_app_l b i l1 l2 :
  wr_n b i (l1 ++ l2) = b ← wr_n b i l1; wr_n b (i + zlen l1) l2.
Proof.
  destruct (decide (0 <= i ∧ i + zlen l1 <= zlen b)) as [H1|H1];
    [|rewrite !wr_n_oob by (rewrite ?length_app; lia); done].
  unfold wr_n. rewrite (decide_True (P := 0 <= i ∧ i + zlen l1 <= zlen b)), bind_ok by done.
  assert (length (take (Z.to_nat i) b ++ l1 ++ drop (Z.to_nat i + length l1) b) = length b) as E by lens.
  rewrite E, length_app. destruct (decide (0 <= i ∧ i + Z.of_nat (length l1 + length l2) <= zlen b)).
  - rewrite decide_True by lia. f_equal.
    replace (Z.to_nat (i + zlen l1)) with (length (take (Z.to_nat i) b ++ l1)) by lens.
    set (q := drop (Z.to_nat i + length l1) b). rewrite (app_assoc _ l1 q), take_app_length, drop_app_add.
    unfold q. rewrite drop_drop, <- !app_assoc. leq.
  - by rewrite decide_False by lia.
Qed.

Lemma wr_n_nil b i : 0 <= i <= zlen b → wr_n b i [] = Ok b.
Proof.
  intros H. unfold wr_n. rewrite decide_True by (cbn; lia). cbn [length app].
  by rewrite Nat.add_0_r, take_drop.
Qed.

(** A loop that stores one value per turn stores the list of the values. *)
Lemma for_store k i (g : Z → Z) b n : 0 <= n <= zlen b →
  for_ k i (λ i bn, b ← wr bn.1 bn.2 (g i); Ok (b, bn.2 + 1)) (b, n)
    = b ← wr_n b n (map g (seqZ i (Z.of_nat k))); Ok (b, n + Z.of_nat k).
Proof.
  revert i b n. induction k as [|k IH]; intros i b n Hn.
  - cbn. rewrite wr_n_nil, Z.add_0_r by done. done.
  - rewrite for_S, seqZ_cons by lia. cbn [fst snd map].
    change (g i :: ?l) with ([g i] ++ l). rewrite wr_n_app_l. unfold wr.
    destruct (wr_n b n [g i]) as [b1| |] eqn:E; [|done..]. rewrite !bind_ok.
    assert (n < zlen b) by (unfold wr_n in E; case_decide; [cbn in *; lia|done]).
    apply wr_n_length in E. rewrite IH by lia. cbn [length].
    replace (Z.succ i) with (i + 1) by lia. replace (Z.pred _) with (Z.of_nat k) by lia.
    destruct (wr_n _ _ _); [|done..]. rewrite !bind_ok. leq.
Qed.

Lemma land_127 c : is_u8 c → Z.land c 127 = c mod 128.
Proof. intros _. by apply (Z.land_ones c 7). Qed.

Lemma land_128 c : is_u8 c → Z.land c 128 = if c <? 128 then 0 else 128.
Proof.
  apply (byte_eq (λ c, Z.land c 128) (λ c, if c <? 128 then 0 else 128)). vm_compute. reflexivity.
Qed.

Lemma lor_128 c : 0 <= c < 128 → Z.lor c 128 = c + 128.
Proof.
  intros H. assert (is_u8 c) as Hc by (unfold is_u8; lia). revert c Hc H.
  assert (∀ c, is_u8 c → Z.lor c 128 = if c <? 128 then c + 128 else c) as E.
  { apply (byte_eq (λ c, Z.lor c 128) (λ c, if c <? 128 then c + 128 else c)).
    vm_compute. reflexivity. }
  intros c Hc H. rewrite E by done. by destruct (Z.ltb_spec c 128); [|lia].
Qed.

(** A loop that reaches a turn which is undefined behaviour from every state. *)
Lemma for_hits_ub {S} (inv : S → Prop) n i (body : Z → S → outcome S) s j :
  inv s → i <= j < i + Z.of_nat n →
  (∀ k s, i <= k < j → inv s → body k s = Ub ∨ ∃ s', body k s = Ok s' ∧ inv s') →
  (∀ s, inv s → body j s = Ub) → for_ n i body s = Ub.
Proof.
  revert i s. induction n as [|n IH]; intros i s Hs Hj Hb Hu; [lia|]. rewrite for_S.
  destruct (Z.eq_dec i j) as [->|]; [by rewrite Hu|].
  destruct (Hb i s) as [->|(s' & -> & H')]; [lia|done|done|]. rewrite bind_ok.
  apply IH; [done|lia| |done]. intros k t Hk. apply Hb. lia.
Qed.
