(* ===== verification/Cursor.v ===== *)
(** Cursors into byte buffers: the C idiom of a pointer that is advanced while a packet is written
    ([unsigned char *ptr], [uint8_t *opt], ...) or read.  The writers of the MQTT, DHCP and
    WebSocket code are values of [writer]; [emits f l] says exactly what a writer does: it stores
    the bytes [l] at the cursor when they fit and is undefined behaviour when they do not. *)
From S2P Require Import Prelude.

(** A buffer and the offset of the pointer into it. *)
Record wptr := W { w_buf : list Z; w_pos : Z }.

Abbreviation writer := (wptr → outcome wptr).

(** Store [l] at the cursor and advance it. *)
Definition put (l : list Z) : writer := λ w,
  b ← wr_n (w_buf w) (w_pos w) l; Ok (W b (w_pos w + zlen l)).

Definition emits (f : writer) (l : list Z) : Prop := ∀ p r,
  f (W (p ++ r) (zlen p)) =
    if decide (length l ≤ length r)%nat
    then Ok (W (p ++ l ++ drop (length l) r) (zlen p + zlen l)) else Ub.

Create HintDb emits.

Lemma emits_put l : emits (put l) l.
Proof.
  intros p r. unfold put; cbn [w_buf w_pos]. case_decide.
  - by rewrite wr_n_app.
  - by rewrite wr_n_oob by lens.
Qed.

Lemma emits_ok : emits Ok [].
Proof.
  intros p r. rewrite decide_True by (cbn; lia). cbn. by rewrite drop_0, Z.add_0_r.
Qed.

Lemma emits_seq (f g : writer) l1 l2 :
  emits f l1 → emits g l2 → emits (λ w, f w ≫= g) (l1 ++ l2).
Proof.
  intros Hf Hg p r. rewrite Hf. destruct (decide (length l1 ≤ length r)%nat) as [H1|H1].
  - rewrite bind_ok.
    replace (zlen p + zlen l1) with (zlen (p ++ l1)) by lens.
    rewrite app_assoc, Hg.
    destruct (decide (length l2 ≤ _)%nat) as [H2|H2].
    + rewrite decide_True by lens. rewrite drop_drop, length_app, <- !app_assoc. leq.
    + rewrite decide_False by lens. done.
  - rewrite decide_False by lens. done.
Qed.

Lemma emits_eq f l l' : emits f l → l = l' → emits f l'.
Proof. by intros ? <-. Qed.

Lemma emits_ext (f g : writer) l : (∀ w, f w = g w) → emits f l → emits g l.
Proof. intros E H p r. by rewrite <- E. Qed.

Lemma emits_if (b : bool) (f g : writer) l1 l2 :
  (b = true → emits f l1) → (b = false → emits g l2) →
  emits (λ w, if b then f w else g w) (if b then l1 else l2).
Proof. destruct b; intros Hf Hg p r; [by apply Hf|by apply Hg]. Qed.

#[export] Hint Resolve emits_put emits_ok : emits.

(** A writer run from the start of a buffer. *)
Lemma emits_start f l b : emits f l →
  f (W b 0) = if decide (zlen l <= zlen b) then Ok (W (l ++ drop (length l) b) (zlen l)) else Ub.
Proof.
  intros H. pose proof (H [] b) as E. cbn [app length] in E. change (Z.of_nat 0) with 0 in E.
  rewrite E. repeat case_decide; done || lia.
Qed.

Lemma emits_fits f l b : emits f l → zlen l <= zlen b →
  f (W b 0) = Ok (W (l ++ drop (length l) b) (zlen l)).
Proof. intros H ?. by rewrite (emits_start f l b H), decide_True. Qed.

Lemma emits_overflow f l b : emits f l → zlen b < zlen l → f (W b 0) = Ub.
Proof. intros H ?. rewrite (emits_start f l b H), decide_False by lia. done. Qed.

(** ** Readers *)

(** [reads f l a]: wherever the bytes [l] stand in a buffer, [f] at their first byte gives [a] and
    advances the cursor past them. *)
Definition reads {A} (f : list Z → Z → outcome (A * Z)) (l : list Z) (a : A) : Prop := ∀ p r,
  f (p ++ l ++ r) (zlen p) = Ok (a, zlen p + zlen l).

Lemma reads_bind {A B} (f : list Z → Z → outcome (A * Z)) (g : A → list Z → Z → outcome (B * Z))
    l1 l2 a b :
  reads f l1 a → reads (g a) l2 b →
  reads (λ buf cur, '(a, cur) ← f buf cur; g a buf cur) (l1 ++ l2) b.
Proof.
  intros Hf Hg p r. rewrite <- app_assoc, Hf, bind_ok. cbn.
  specialize (Hg (p ++ l1) r). rewrite <- app_assoc in Hg. rewrite length_app, Nat2Z.inj_add in Hg.
  rewrite Hg. leq.
Qed.
