(* ===== verification/CString.v ===== *)
(** The C string functions the code uses, on regions: a string is what stands before the first NUL,
    and running past the end of a region without finding one is [Ub]. *)
From S2P Require Import Prelude.

(** Does [l] begin with [needle]? *)
Fixpoint is_prefix (needle l : list Z) : bool :=
  match needle, l with
  | [], _ => true
  | x :: n, y :: l => (x =? y) && is_prefix n l
  | _ :: _, [] => false
  end.

(** [strstr]: the offset of the first occurrence at or after offset [i], where [l] starts. *)
Fixpoint strstr_from (needle l : list Z) (i : Z) : outcome (option Z) :=
  if is_prefix needle l then Ok (Some i)
  else
    match l with
    | [] => Ub
    | c :: l => if c =? 0 then Ok None else strstr_from needle l (i + 1)
    end.

Definition strstr (b : list Z) (off : Z) (needle : list Z) : outcome (option Z) :=
  strstr_from needle (drop (Z.to_nat off) b) off.

Fixpoint strchr_from (c : Z) (l : list Z) (i : Z) : outcome (option Z) :=
  match l with
  | [] => Ub
  | x :: l => if x =? c then Ok (Some i) else if x =? 0 then Ok None else strchr_from c l (i + 1)
  end.

Definition strchr (b : list Z) (off c : Z) : outcome (option Z) :=
  strchr_from c (drop (Z.to_nat off) b) off.

(** [strncmp(a, b, n) == 0] *)
Fixpoint strncmp_eq (n : nat) (a b : list Z) : outcome bool :=
  match n with
  | O => Ok true
  | S n =>
      match a, b with
      | x :: a, y :: b =>
          if negb (x =? y) then Ok false else if x =? 0 then Ok true else strncmp_eq n a b
      | _, _ => Ub
      end
  end.

(** The characters of a string literal in memory. *)
Definition literal (s : list Z) : list Z := s ++ [0].

(** The characters of the string a region starts with. *)
Fixpoint c_str (l : list Z) : outcome (list Z) :=
  match l with
  | [] => Ub
  | c :: l => if c =? 0 then Ok [] else s ← c_str l; Ok (c :: s)
  end.

(** [snprintf] of the characters [s] into [b]: the region and the result. *)
Definition snprintf (b : list Z) (size : Z) (s : list Z) : outcome (list Z * Z) :=
  if size <=? 0 then Ok (b, zlen s)
  else b ← wr_n b 0 (take (Z.to_nat (size - 1)) s ++ [0]); Ok (b, zlen s).

(** ** Lemmas *)

(** [atoi] of the characters of a string; a number that is no [int] gives no defined result. *)
Definition is_space (c : Z) : bool := (c =? 32) || ((9 <=? c) && (c <=? 13)).
Definition is_digit (c : Z) : bool := (48 <=? c) && (c <=? 57).

Fixpoint skip_spaces (s : list Z) : list Z :=
  match s with c :: r => if is_space c then skip_spaces r else s | [] => [] end.

Fixpoint digits_value (s : list Z) (acc : Z) : Z :=
  match s with c :: s => if is_digit c then digits_value s (acc * 10 + (c - 48)) else acc | [] => acc end.

Definition atoi (s : list Z) : outcome Z :=
  let s := skip_spaces s in
  let v := match s with
           | c :: r => if c =? 45 then - digits_value r 0 else if c =? 43 then digits_value r 0 else digits_value s 0
           | [] => 0
           end in
  if (-2147483648 <=? v) && (v <=? 2147483647) then Ok v else Ub.

(** Characters without their case, in the C locale. *)
Definition tolower (c : Z) : Z := if (65 <=? c) && (c <=? 90) then c + 32 else c.

(** [strncasecmp(a, b, n) == 0], [strcasecmp(a, b) == 0] *)
Fixpoint strncasecmp_eq (n : nat) (a b : list Z) : outcome bool :=
  match n with
  | O => Ok true
  | S n =>
      match a, b with
      | x :: a, y :: b =>
          if negb (tolower x =? tolower y) then Ok false else if x =? 0 then Ok true else strncasecmp_eq n a b
      | _, _ => Ub
      end
  end.

Definition strcasecmp_eq (a b : list Z) : outcome bool :=
  x ← c_str a; y ← c_str b; Ok (bool_decide (map tolower x = map tolower y)).

(** [strncpy] of the characters [s]: the [size] bytes it writes. *)
Definition strncpy (s : list Z) (size : Z) : list Z :=
  take (Z.to_nat size) s ++ replicate (Z.to_nat size - length s) 0.

Definition no_nul (s : list Z) : Prop := Forall (λ c, c ≠ 0) s.

Lemma is_prefix_app n r : is_prefix n (n ++ r) = true.
Proof. induction n as [|x n IH]; [done|]. cbn. by rewrite Z.eqb_refl. Qed.

Lemma is_prefix_spec n l : is_prefix n l = true ↔ ∃ r, l = n ++ r.
Proof.
  split.
  - revert l. induction n as [|x n IH]; intros l H; [by exists l|]. destruct l as [|y l]; [done|].
    cbn in H. apply andb_prop in H as [H1 H2]. apply Z.eqb_eq in H1 as ->.
    destruct (IH l H2) as [r ->]. by exists r.
  - intros [r ->]. apply is_prefix_app.
Qed.

Lemma c_str_app s r : no_nul s → c_str (s ++ 0 :: r) = Ok s.
Proof.
  induction 1 as [|c s Hc H IH]; [done|]. cbn. rewrite (proj2 (Z.eqb_neq c 0) Hc), IH. done.
Qed.

(** The first occurrence of the needle: it is there and nowhere before. *)
Lemma strstr_from_found needle pre r i :
  no_nul pre → (∀ k, (k < length pre)%nat → is_prefix needle (drop k (pre ++ needle ++ r)) = false) →
  strstr_from needle (pre ++ needle ++ r) i = Ok (Some (i + zlen pre)).
Proof.
  intros H. revert i. induction H as [|c pre Hc H IH]; intros i Hn.
  - cbn [app length]. rewrite Z.add_0_r. destruct needle, r; cbn;
      rewrite ?Z.eqb_refl, ?is_prefix_app; done.
  - pose proof (Hn 0%nat ltac:(cbn; lia)) as H0. rewrite drop_0 in H0.
    cbn [app strstr_from] in *. rewrite H0, (proj2 (Z.eqb_neq c 0) Hc), IH.
    + do 2 f_equal. cbn [length]. lia.
    + intros k Hk. apply (Hn (S k)). cbn. lia.
Qed.

(** No occurrence before the NUL. *)
Lemma strstr_from_absent needle s r i :
  no_nul s → (∀ k, (k ≤ length s)%nat → is_prefix needle (drop k (s ++ 0 :: r)) = false) →
  strstr_from needle (s ++ 0 :: r) i = Ok None.
Proof.
  intros H. revert i. induction H as [|c s Hc H IH]; intros i Hn;
    pose proof (Hn 0%nat ltac:(cbn; lia)) as H0; rewrite drop_0 in H0; cbn [app strstr_from] in *;
    rewrite H0; [done|].
  rewrite (proj2 (Z.eqb_neq c 0) Hc). apply IH. intros k Hk. apply (Hn (S k)). cbn. lia.
Qed.

Lemma strchr_from_found c s r i :
  no_nul s → c ∉ s → strchr_from c (s ++ c :: r) i = Ok (Some (i + zlen s)).
Proof.
  intros H. revert i. induction H as [|x s Hx H IH]; intros i Hc.
  - cbn. by rewrite Z.eqb_refl, Z.add_0_r.
  - apply not_elem_of_cons in Hc as [Hxc Hc]. cbn [app strchr_from].
    rewrite (proj2 (Z.eqb_neq x c)), (proj2 (Z.eqb_neq x 0) Hx), IH by congruence.
    do 2 f_equal. cbn [length]. lia.
Qed.

Lemma strchr_from_absent c s r i : no_nul s → c ∉ s → c ≠ 0 → strchr_from c (s ++ 0 :: r) i = Ok None.
Proof.
  intros H. revert i. induction H as [|x s Hx H IH]; intros i Hc H0.
  - cbn [app strchr_from]. by rewrite (proj2 (Z.eqb_neq 0 c)), Z.eqb_refl by lia.
  - apply not_elem_of_cons in Hc as [Hxc Hc]. cbn [app strchr_from].
    rewrite (proj2 (Z.eqb_neq x c)), (proj2 (Z.eqb_neq x 0) Hx) by congruence. by apply IH.
Qed.

Lemma strncmp_eq_app s r rest : no_nul s → strncmp_eq (length s) (s ++ r) (s ++ rest) = Ok true.
Proof.
  induction 1 as [|x s Hx H IH]; [done|]. cbn. by rewrite Z.eqb_refl, (proj2 (Z.eqb_neq x 0) Hx).
Qed.

Lemma snprintf_fits b size s : zlen s < size → size <= zlen b →
  snprintf b size s = Ok (s ++ [0] ++ drop (length s + 1) b, zlen s).
Proof.
  intros H1 H2. unfold snprintf. destruct (Z.leb_spec size 0); [lia|].
  rewrite take_ge by lia. pose proof (wr_n_app [] b (s ++ [0])) as E. cbn [app length] in E.
  change (Z.of_nat 0) with 0 in E. rewrite E by lens. rewrite bind_ok, length_app, <- app_assoc. done.
Qed.

(** Searching a region that has a NUL. *)
Lemma strstr_from_safe needle l i : no_nul needle → 0 ∈ l →
  strstr_from needle l i = Ok None ∨
  ∃ p r, l = p ++ needle ++ r ∧ 0 ∈ r ∧ strstr_from needle l i = Ok (Some (i + zlen p)).
Proof.
  intros Hn. revert i. induction l as [|c l IH]; intros i H0; [by apply elem_of_nil in H0|].
  cbn [strstr_from]. destruct (is_prefix needle (c :: l)) eqn:E.
  - right. apply is_prefix_spec in E as [r Er]. exists [], r. rewrite Er in *. split; [done|].
    split; [|do 2 f_equal; cbn; lia]. apply elem_of_app in H0 as [H0|]; [|done].
    unfold no_nul in Hn. rewrite Forall_forall in Hn. by destruct (Hn 0 H0).
  - destruct (Z.eqb_spec c 0); [by left|]. apply elem_of_cons in H0 as [H0|H0]; [congruence|].
    destruct (IH (i + 1) H0) as [E'|(p & r & -> & Hr & E')]; [by left|].
    right. exists (c :: p), r. split_and!; [done..|]. rewrite E'. do 2 f_equal. cbn [length]. lia.
Qed.

Lemma strchr_from_safe c l i : 0 ∈ l →
  strchr_from c l i = Ok None ∨ ∃ j, strchr_from c l i = Ok (Some j) ∧ i <= j < i + zlen l.
Proof.
  revert i. induction l as [|x l IH]; intros i H0; [by apply elem_of_nil in H0|].
  cbn [strchr_from length]. destruct (Z.eqb_spec x c).
  - right. eexists. split; [done|]. lia.
  - destruct (Z.eqb_spec x 0); [by left|]. apply elem_of_cons in H0 as [H0|H0]; [congruence|].
    destruct (IH (i + 1) H0) as [E|(j & E & Hj)]; [by left|]. right. exists j. split; [done|]. lia.
Qed.

Lemma strncmp_eq_safe n a b : (n ≤ length a)%nat → (n ≤ length b)%nat → ∃ r, strncmp_eq n a b = Ok r.
Proof.
  revert a b. induction n as [|n IH]; intros a b Ha Hb; [by eexists|].
  destruct a as [|x a]; [cbn in Ha; lia|]. destruct b as [|y b]; [cbn in Hb; lia|].
  cbn. destruct (negb _); [by eexists|]. destruct (x =? 0); [by eexists|]. apply IH; cbn in *; lia.
Qed.

(** [snprintf] cuts a string that is too long, and ends what it writes. *)
Lemma snprintf_truncates b size s : 0 < size → size <= zlen b → no_nul s →
  ∃ b', snprintf b size s = Ok (b', zlen s) ∧ c_str b' = Ok (take (Z.to_nat (size - 1)) s) ∧ length b' = length b.
Proof.
  intros H0 Hb Hs. unfold snprintf. destruct (Z.leb_spec size 0); [lia|].
  set (t := take (Z.to_nat (size - 1)) s).
  assert (zlen t <= size - 1) by (unfold t; lens).
  pose proof (wr_n_app [] b (t ++ [0])) as E. cbn [app length] in E. change (Z.of_nat 0) with 0 in E.
  rewrite E by lens. rewrite bind_ok. eexists. split; [done|]. split; [|lens].
  rewrite <- app_assoc. cbn [app]. apply c_str_app. by apply Forall_take.
Qed.

Lemma snprintf_total b size s : size <= zlen b → 0 < size →
  ∃ b', snprintf b size s = Ok (b', zlen s) ∧ length b' = length b ∧ 0 ∈ b'.
Proof.
  intros Hb H0. unfold snprintf. destruct (Z.leb_spec size 0); [lia|].
  set (t := take (Z.to_nat (size - 1)) s). assert (zlen t <= size - 1) by (unfold t; lens).
  pose proof (wr_n_app [] b (t ++ [0])) as E. cbn [app length] in E. change (Z.of_nat 0) with 0 in E.
  rewrite E by lens. rewrite bind_ok. eexists. split; [done|]. split; [lens|].
  rewrite <- app_assoc. apply elem_of_app. right. left.
Qed.

Lemma c_str_total l : 0 ∈ l → ∃ s, c_str l = Ok s.
Proof.
  induction l as [|c l IH]; intros H; [by apply elem_of_nil in H|]. cbn.
  destruct (Z.eqb_spec c 0); [eauto|]. apply elem_of_cons in H as [H|H]; [congruence|].
  destruct (IH H) as [s ->]. eauto.
Qed.

(** A string that ends at a NUL of its region, whatever follows. *)
Lemma c_str_take n s r : no_nul s → c_str (take n (s ++ [0]) ++ 0 :: r) = Ok (take n s).
Proof.
  intros Hs. destruct (decide (n ≤ length s)%nat).
  - rewrite take_app_le by lia. apply c_str_app. by apply Forall_take.
  - rewrite !take_ge by lens. rewrite <- app_assoc. by apply c_str_app.
Qed.

(** What a C string is read from. *)
Lemma c_str_inv l s : c_str l = Ok s → ∃ r, l = s ++ 0 :: r.
Proof.
  revert s. induction l as [|c l IH]; intros s; cbn [c_str]; [done|].
  destruct (Z.eqb_spec c 0) as [->|]; [intros [= <-]; by exists l|].
  destruct (c_str l) as [s'| |]; cbn; try done. intros [= <-]. destruct (IH s' eq_refl) as [r ->]. by exists r.
Qed.

(** The characters of a string up to a NUL. *)
Fixpoint upto_nul (s : list Z) : list Z :=
  match s with c :: s => if c =? 0 then [] else c :: upto_nul s | [] => [] end.

Lemma upto_nul_id s : no_nul s → upto_nul s = s.
Proof. induction 1 as [|c s Hc _ IH]; [done|]. cbn [upto_nul]. rewrite (proj2 (Z.eqb_neq _ _) Hc). by rewrite IH. Qed.

Lemma upto_nul_no_nul s : no_nul (upto_nul s).
Proof. induction s as [|c s IH]; cbn [upto_nul]; [constructor|]. destruct (Z.eqb_spec c 0); [apply Forall_nil_2|by constructor]. Qed.

Lemma c_str_upto l : 0 ∈ l → c_str l = Ok (upto_nul l).
Proof.
  induction l as [|c l IH]; intros H; [by apply elem_of_nil in H|]. cbn [c_str upto_nul]. destruct (Z.eqb_spec c 0); [done|].
  apply elem_of_cons in H as [H|H]; [congruence|]. by rewrite (IH H).
Qed.
