(* ===== verification/RingBuffer.v ===== *)
(** The receive ring buffer of the serial ports (inc/ringbuffer.h): its state, one definition per
    method, and the proof that it implements a bounded FIFO queue of characters.  The contract a
    client may rely on is the type class [CharQueue]; [ring_queue] is its implementation. *)
From S2P Require Import Prelude.

(** ** The contract *)

(** A bounded queue of characters: [q_model] is its content, oldest first, and [q_cap] the number
    of characters it can hold. *)
Class CharQueue (Q : Type) := {
  q_push : Q → Z → outcome (bool * Q);
  q_pop : Q → outcome (option Z * Q);
  q_space_left : Q → Z;
  q_reset : Q → Q;
  q_ok : Q → Prop;
  q_cap : Q → Z;
  q_model : Q → list Z;
  q_bound : ∀ q, q_ok q → zlen (q_model q) <= q_cap q;
  q_push_spec : ∀ q x, q_ok q →
    ∃ q', q_push q x = Ok (bool_decide (zlen (q_model q) < q_cap q), q') ∧ q_ok q' ∧
      q_cap q' = q_cap q ∧
      q_model q' = (if decide (zlen (q_model q) < q_cap q) then q_model q ++ [x] else q_model q);
  q_pop_spec : ∀ q, q_ok q →
    ∃ q', q_pop q = Ok (head (q_model q), q') ∧ q_ok q' ∧ q_cap q' = q_cap q ∧
      q_model q' = tail (q_model q);
  q_space_spec : ∀ q, q_ok q → q_space_left q = q_cap q - zlen (q_model q);
  q_reset_spec : ∀ q, q_ok q →
    q_ok (q_reset q) ∧ q_cap (q_reset q) = q_cap q ∧ q_model (q_reset q) = [];
}.

(** ** The class [RingBuffer] *)

Record RingBuffer := mkRing {
  buffer : list Z;
  capacity : Z;
  read_ptr : Z;
  write_ptr : Z;
  current_size : Z;
}.

(** The constructor: [mem] is the array that [new char[capacity]] returns, uninitialised. *)
Definition RingBuffer_new (mem : list Z) : RingBuffer := mkRing mem (zlen mem) 0 0 0.

Definition is_empty (r : RingBuffer) : bool := current_size r =? 0.
Definition is_full (r : RingBuffer) : bool := current_size r =? capacity r.

Definition push (r : RingBuffer) (item : Z) : outcome (bool * RingBuffer) :=
  if is_full r then Ok (false, r)
  else
    b ← wr (buffer r) (write_ptr r) item;
    Ok (true, mkRing b (capacity r) (read_ptr r) (u32 (write_ptr r + 1) mod capacity r)
                     (u32 (current_size r + 1))).

Definition pop (r : RingBuffer) : outcome (option Z * RingBuffer) :=
  if is_empty r then Ok (None, r)
  else
    item ← rd (buffer r) (read_ptr r);
    Ok (Some item, mkRing (buffer r) (capacity r) (u32 (read_ptr r + 1) mod capacity r)
                          (write_ptr r) (u32 (current_size r - 1))).

Definition space_left (r : RingBuffer) : Z := s32 (capacity r - current_size r).
Definition size (r : RingBuffer) : Z := current_size r.
Definition reset (r : RingBuffer) : RingBuffer := mkRing (buffer r) (capacity r) 0 0 0.

(** ** Invariant and content *)

Record ring_ok (r : RingBuffer) : Prop := {
  ok_len : zlen (buffer r) = capacity r;
  ok_cap : 0 < capacity r < 2147483648;
  ok_rp : 0 <= read_ptr r < capacity r;
  ok_size : 0 <= current_size r <= capacity r;
  ok_wp : write_ptr r = (read_ptr r + current_size r) mod capacity r;
}.

(** The position of the [k]-th oldest character. *)
Definition slot (r : RingBuffer) (k : nat) : nat :=
  Z.to_nat ((read_ptr r + Z.of_nat k) mod capacity r).

Definition ring_model (r : RingBuffer) : list Z :=
  map (λ k, buffer r !!! slot r k) (seq 0 (Z.to_nat (current_size r))).

Lemma ring_model_len r : ring_ok r → zlen (ring_model r) = current_size r.
Proof. intros []. unfold ring_model. lens. Qed.

Lemma mod_wrap_eq a b c : 0 < c → 0 <= a < c → 0 <= b < c → 
  (a + b) mod c = if decide (a + b < c) then a + b else a + b - c.
Proof.
  intros. case_decide; [apply Z.mod_small; lia|].
  symmetry. apply Z.mod_unique with 1; lia.
Qed.

Lemma mod_succ_wrap a c : 0 < c < 2147483648 → 0 <= a < c →
  u32 (a + 1) mod c = (a + 1) mod c.
Proof. intros. rewrite u32_id; [done|]. unfold is_u32. lia. Qed.

Lemma slot_lt r k : ring_ok r → (slot r k < length (buffer r))%nat.
Proof. intros []. unfold slot. zdiv. Qed.

(** Two different stored characters are in different slots. *)
Lemma slot_inj r j k :
  ring_ok r → Z.of_nat j < capacity r → Z.of_nat k < capacity r → slot r j = slot r k → j = k.
Proof.
  intros [] ?? H. unfold slot in H. apply Z2Nat.inj in H; [|apply Z.mod_pos_bound; lia..].
  rewrite !mod_wrap_eq in H by lia. repeat case_decide; lia.
Qed.

Lemma write_slot r : ring_ok r → current_size r < capacity r →
  Z.to_nat (write_ptr r) = slot r (Z.to_nat (current_size r)).
Proof. intros [] ?. unfold slot. rewrite ok_wp0. f_equal. f_equal. lia. Qed.

Lemma push_model r x : ring_ok r → current_size r < capacity r →
  ∃ r', push r x = Ok (true, r') ∧ ring_ok r' ∧ capacity r' = capacity r ∧
    ring_model r' = ring_model r ++ [x].
Proof.
  intros Hok Hlt. pose proof (write_slot r Hok Hlt) as Hws. pose proof Hok as [].
  assert (0 <= write_ptr r < capacity r) by (rewrite ok_wp0; apply Z.mod_pos_bound; lia).
  unfold push, is_full. destruct (Z.eqb_spec (current_size r) (capacity r)); [lia|].
  rewrite wr_lookup by lia. cbn.
  eexists. split; [done|]. rewrite mod_succ_wrap, u32_id by (unfold is_u32; lia).
  split; [|split; [done|]].
  - constructor; cbn; try lens.
    rewrite ok_wp0, Zplus_mod_idemp_l. f_equal. lia.
  - unfold ring_model; cbn [current_size buffer].
    replace (Z.to_nat (current_size r + 1)) with (Z.to_nat (current_size r) + 1)%nat by lia.
    rewrite seq_app, map_app. f_equal.
    + apply map_ext_in. intros k Hk%in_seq. unfold slot at 1; cbn [read_ptr capacity].
      fold (slot r k). rewrite list_lookup_total_insert_ne; [done|].
      rewrite Hws. intros Hs. assert (Z.to_nat (current_size r) = k) by (apply (slot_inj r); [done|lia..]). lia.
    + cbn. f_equal. unfold slot at 1; cbn [read_ptr capacity].
      fold (slot r (Z.to_nat (current_size r))). rewrite Hws.
      apply list_lookup_total_insert_eq. by apply slot_lt.
Qed.

Lemma pop_model r : ring_ok r →
  ∃ r', pop r = Ok (head (ring_model r), r') ∧ ring_ok r' ∧ capacity r' = capacity r ∧
    ring_model r' = tail (ring_model r).
Proof.
  intros Hok. pose proof Hok as []. unfold pop, is_empty.
  destruct (Z.eqb_spec (current_size r) 0) as [E|E].
  { exists r. unfold ring_model. by rewrite E. }
  assert (Hs : slot r 0 = Z.to_nat (read_ptr r)).
  { unfold slot. f_equal. rewrite Z.mod_small; lia. }
  destruct (rd_in_bounds (buffer r) (read_ptr r)) as (v & Hrd & Hv); [lia|].
  assert (Hm : ring_model r = v :: map (λ k, buffer r !!! slot r (S k))
                                     (seq 0 (Z.to_nat (current_size r - 1)))).
  { unfold ring_model.
    replace (Z.to_nat (current_size r)) with (S (Z.to_nat (current_size r - 1))) by lia.
    cbn [seq map]. rewrite Hs, (list_lookup_total_correct _ _ _ Hv), <- seq_shift, map_map. done. }
  rewrite Hm, Hrd. cbn.
  rewrite mod_succ_wrap, u32_id by (unfold is_u32; lia).
  eexists. split; [done|split; [|split; [done|]]].
  - constructor; cbn; try lia; [by apply Z.mod_pos_bound; lia..|].
    rewrite ok_wp0, Zplus_mod_idemp_l. f_equal. lia.
  - unfold ring_model; cbn [current_size buffer]. apply map_ext. intros k.
    f_equal. unfold slot; cbn [read_ptr capacity]. f_equal.
    rewrite Zplus_mod_idemp_l. f_equal. lia.
Qed.

Lemma push_spec r x : ring_ok r →
  ∃ r', push r x = Ok (bool_decide (zlen (ring_model r) < capacity r), r') ∧ ring_ok r' ∧
    capacity r' = capacity r ∧
    ring_model r' =
      (if decide (zlen (ring_model r) < capacity r) then ring_model r ++ [x] else ring_model r).
Proof.
  intros Hok. rewrite ring_model_len by done. destruct (decide (current_size r < capacity r)).
  - rewrite bool_decide_true by done. by apply push_model.
  - exists r. rewrite bool_decide_false by done. split; [|done].
    destruct Hok. unfold push, is_full. by destruct (Z.eqb_spec (current_size r) (capacity r)); [|lia].
Qed.

Lemma space_left_spec r : ring_ok r → space_left r = capacity r - zlen (ring_model r).
Proof.
  intros Hok. rewrite ring_model_len by done. destruct Hok.
  unfold space_left, s32. rewrite u32_id by (unfold is_u32; lia).
  by destruct (Z.ltb_spec (capacity r - current_size r) 2147483648); [|lia].
Qed.

Lemma reset_spec r : ring_ok r →
  ring_ok (reset r) ∧ capacity (reset r) = capacity r ∧ ring_model (reset r) = [].
Proof.
  intros []. split; [|done]. constructor; cbn; try lia. rewrite Z.mod_0_l; lia.
Qed.

Lemma new_ok mem : 0 < zlen mem < 2147483648 → ring_ok (RingBuffer_new mem).
Proof. intros. constructor; cbn; try lia. rewrite Z.mod_0_l; lia. Qed.

#[export, refine] Instance ring_queue : CharQueue RingBuffer := {|
  q_push := push; q_pop := pop; q_space_left := space_left; q_reset := reset;
  q_ok := ring_ok; q_cap := capacity; q_model := ring_model;
  q_push_spec := push_spec; q_pop_spec := pop_model; q_space_spec := space_left_spec;
  q_reset_spec := reset_spec |}.
Proof. intros r Hok. rewrite ring_model_len by done. apply (ok_size r Hok). Defined.

(** ** Refinement: any sequence of operations *)

Inductive ring_op := OpPush (c : Z) | OpPop | OpReset.

(** What an operation returns: the result of [push], the character popped, or nothing. *)
Inductive ring_res := RPush (b : bool) | RPop (c : option Z) | RReset.

Definition ring_step (r : RingBuffer) (o : ring_op) : outcome (ring_res * RingBuffer) :=
  match o with
  | OpPush c => '(b, r') ← push r c; Ok (RPush b, r')
  | OpPop => '(c, r') ← pop r; Ok (RPop c, r')
  | OpReset => Ok (RReset, reset r)
  end.

Fixpoint ring_run (r : RingBuffer) (os : list ring_op) : outcome (list ring_res * RingBuffer) :=
  match os with
  | [] => Ok ([], r)
  | o :: os => '(x, r') ← ring_step r o; '(xs, r'') ← ring_run r' os; Ok (x :: xs, r'')
  end.

(** The specification: a list that accepts a character only below its capacity. *)
Definition fifo_step (cap : Z) (l : list Z) (o : ring_op) : ring_res * list Z :=
  match o with
  | OpPush c => if decide (zlen l < cap) then (RPush true, l ++ [c]) else (RPush false, l)
  | OpPop => (RPop (head l), tail l)
  | OpReset => (RReset, [])
  end.

Fixpoint fifo_run (cap : Z) (l : list Z) (os : list ring_op) : list ring_res * list Z :=
  match os with
  | [] => ([], l)
  | o :: os => let '(x, l') := fifo_step cap l o in
               let '(xs, l'') := fifo_run cap l' os in (x :: xs, l'')
  end.

Lemma ring_step_refines r o : ring_ok r →
  ∃ r', ring_step r o = Ok ((fifo_step (capacity r) (ring_model r) o).1, r') ∧ ring_ok r' ∧
    capacity r' = capacity r ∧ ring_model r' = (fifo_step (capacity r) (ring_model r) o).2.
Proof.
  intros Hok. destruct o as [c| |]; cbn.
  - destruct (push_spec r c Hok) as (r' & -> & Hok' & Hc & Hm). exists r'. cbn.
    case_decide; rewrite ?bool_decide_true, ?bool_decide_false by done; auto.
  - destruct (pop_model r Hok) as (r' & -> & ?). exists r'. auto.
  - destruct (reset_spec r Hok) as (?&?&?). eauto.
Qed.

Lemma ring_run_refines r os : ring_ok r →
  ∃ r', ring_run r os = Ok ((fifo_run (capacity r) (ring_model r) os).1, r') ∧ ring_ok r' ∧
    ring_model r' = (fifo_run (capacity r) (ring_model r) os).2.
Proof.
  revert r. induction os as [|o os IH]; intros r Hok; cbn; [eauto|].
  destruct (ring_step_refines r o Hok) as (r1 & -> & Hok1 & Hc1 & Hm1). cbn.
  destruct (IH r1 Hok1) as (r2 & -> & Hok2 & Hm2). rewrite Hc1, Hm1 in *.
  destruct (fifo_step _ _ _) as [x l']; cbn in *.
  destruct (fifo_run _ _ _) as [xs l'']; cbn in *. eauto.
Qed.

(** C1: a freshly constructed ring buffer behaves, for every sequence of push, pop and reset, as
    a FIFO queue bounded by its capacity: it returns the same results, never touches memory
    outside its array, and ends with the queue's content. *)
Theorem ring_buffer_is_bounded_fifo mem os :
  0 < zlen mem < 2147483648 →
  ∃ r', ring_run (RingBuffer_new mem) os = Ok ((fifo_run (zlen mem) [] os).1, r') ∧ ring_ok r' ∧
    ring_model r' = (fifo_run (zlen mem) [] os).2.
Proof. intros H. apply (ring_run_refines (RingBuffer_new mem) os (new_ok mem H)). Qed.

Lemma ring_buffer_is_bounded_fifo_witness :
  0 < zlen [0; 0] < 2147483648 ∧
  ∃ r', ring_run (RingBuffer_new [0; 0]) [OpPush 65; OpPush 66; OpPush 67; OpPop; OpPush 68; OpPop; OpPop; OpPop]
    = Ok ((fifo_run 2 [] [OpPush 65; OpPush 66; OpPush 67; OpPop; OpPush 68; OpPop; OpPop; OpPop]).1, r')
    ∧ ring_ok r' ∧
    ring_model r' = (fifo_run 2 [] [OpPush 65; OpPush 66; OpPush 67; OpPop; OpPush 68; OpPop; OpPop; OpPop]).2.
Proof.
  split; [cbn; lia|].
  apply (ring_buffer_is_bounded_fifo [0; 0]
           [OpPush 65; OpPush 66; OpPush 67; OpPop; OpPush 68; OpPop; OpPop; OpPop]). cbn; lia.
Defined.
