(* ===== verification/Serial.v ===== *)
(** The serial port driver (hal/src/serial.cpp, hal/inc/serial.h): the UART interrupt handler that
    assembles lines, and the task-side readers.  The driver is a client of the receive queue
    through the contract [CharQueue] of RingBuffer.v. *)
From S2P Require Import Prelude RingBuffer.

Section Serial.
Context {Q : Type} `{!CharQueue Q}.

(** The fields of the class [Serial] the receive path uses.  [task_notify] is the FreeRTOS
    notification value of the receiving task, which [vTaskNotifyGiveFromISR] increments and
    [ulTaskNotifyTake(pdTRUE, _)] clears. *)
Record Serial := mkSerial {
  uart_num : Z;
  receiving_task_handle : bool;
  uart_buffer : Q;
  string_finished_ : bool;
  received_chars : Z;
  timeout_detected : bool;
  task_notify : Z;
}.

Definition Serial_new (num : Z) (q : Q) : Serial := mkSerial num false q false 0 false 0.

Definition set_receiving_task_handle (s : Serial) (handle : bool) : Serial :=
  mkSerial (uart_num s) handle (uart_buffer s) (string_finished_ s) (received_chars s)
           (timeout_detected s) (task_notify s).

(** [handle_received_char], the three branches of its [else] in the order of the code. *)
Definition handle_received_char (s : Serial) (c : Z) : outcome Serial :=
  let notify := task_notify s + 1 in
  if timeout_detected s then
    Ok (mkSerial (uart_num s) (receiving_task_handle s) (q_reset (uart_buffer s)) false 0 false
                 (task_notify s))
  else if (c =? 13) || (c =? 10) then
    if 0 <? received_chars s then
      '(_, q) ← q_push (uart_buffer s) 0;
      Ok (mkSerial (uart_num s) (receiving_task_handle s) q true 0 (timeout_detected s) notify)
    else Ok s
  else if q_space_left (uart_buffer s) =? 2 then
    '(_, q) ← q_push (uart_buffer s) c;
    '(_, q) ← q_push q 0;
    Ok (mkSerial (uart_num s) (receiving_task_handle s) q true 0 (timeout_detected s) notify)
  else
    '(_, q) ← q_push (uart_buffer s) c;
    let n := received_chars s + 1 in
    Ok (mkSerial (uart_num s) (receiving_task_handle s) q (string_finished_ s) n
                 (timeout_detected s) (if n =? 1 then notify else task_notify s)).

(** The characters of a FIFO handed to [handle_received_char] one after the other. *)
Fixpoint handle_chars (s : Serial) (cs : list Z) : outcome Serial :=
  match cs with
  | [] => Ok s
  | c :: cs => s' ← handle_received_char s c; handle_chars s' cs
  end.

(** [on_uart_rx]: [hw] and [pio] are what the hardware UART and the PIO state machine hold when
    the interrupt is served. *)
Definition on_uart_rx (s : Serial) (hw pio : list Z) : outcome Serial :=
  if negb (receiving_task_handle s) then Ok s
  else if uart_num s <? 2 then handle_chars s hw else handle_chars s pio.

(** The loop of [read_from_receive_buffer]: [buf] is the caller's buffer, [pos] how far the
    pointer [buffer] was advanced, [bytes] the count. *)
Fixpoint read_loop (fuel : nat) (q : Q) (buf : list Z) (pos buffer_size bytes : Z)
  : outcome (Q * list Z * Z) :=
  match fuel with
  | O => OutOfFuel
  | S fuel =>
      '(r, q) ← q_pop q;
      match r with
      | None => Ok (q, buf, bytes)
      | Some c =>
          let more := 1 <? buffer_size in
          let buffer_size := u32 (buffer_size - 1) in
          if more then
            buf ← wr buf pos c;
            if c =? 0 then Ok (q, buf, u32 (bytes + 1))
            else read_loop fuel q buf (pos + 1) buffer_size (u32 (bytes + 1))
          else Ok (q, buf, bytes)
      end
  end.

Definition read_from_receive_buffer (s : Serial) (buf : list Z) (buffer_size : Z)
  : outcome (Serial * list Z * Z) :=
  '(q, buf, bytes) ← read_loop (S (Z.to_nat (q_cap (uart_buffer s)))) (uart_buffer s) buf 0
                               buffer_size 0;
  Ok (mkSerial (uart_num s) (receiving_task_handle s) q false (received_chars s)
               (timeout_detected s) (task_notify s), buf, bytes).

(** What happens while [read_string] waits: at each turn of its loop the result of
    [xTaskCheckForTimeOut] and, if the time is not over, what the interrupt handler receives
    while the task is blocked in [ulTaskNotifyTake]. *)
Record turn := mkTurn { timed_out : bool; arrived : list Z }.

Definition set_timeout_detected (s : Serial) : Serial :=
  mkSerial (uart_num s) (receiving_task_handle s) (uart_buffer s) (string_finished_ s)
           (received_chars s) true (task_notify s).

Definition notify_take (s : Serial) : Serial :=
  mkSerial (uart_num s) (receiving_task_handle s) (uart_buffer s) (string_finished_ s)
           (received_chars s) (timeout_detected s) 0.

Fixpoint read_string (turns : list turn) (s : Serial) (buf : list Z) (buffer_size : Z)
  : outcome (Serial * list Z * Z) :=
  if string_finished_ s then read_from_receive_buffer s buf buffer_size
  else
    match turns with
    | [] => OutOfFuel
    | t :: turns =>
        if timed_out t then
          '(s, buf, _) ← read_from_receive_buffer (set_timeout_detected s) buf buffer_size;
          Ok (s, buf, 0)
        else
          s ← on_uart_rx s (arrived t) (arrived t);
          read_string turns (notify_take s) buf buffer_size
    end.
End Serial.
Arguments Serial Q : clear implicits.
Arguments mkSerial {Q}.

(** ** Correctness of the receive path *)

(** A character that belongs to a line: not a terminator, and not the NUL that ends a string. *)
Definition plain (c : Z) : Prop := c ≠ 13 ∧ c ≠ 10 ∧ c ≠ 0.

#[export] Instance plain_dec c : Decision (plain c).
Proof. unfold plain. apply _. Defined.

Section Correctness.
Context {Q : Type} `{!CharQueue Q}.
Implicit Types s : Serial Q.

Record serial_ok s : Prop := {
  sok_queue : q_ok (uart_buffer s);
  sok_cap : 2 < q_cap (uart_buffer s) < 4294967295;
  sok_count : 0 <= received_chars s;
}.

(** Between two lines: nothing buffered and no flag pending. *)
Record serial_idle s : Prop := {
  idle_ok : serial_ok s;
  idle_handle : receiving_task_handle s = true;
  idle_queue : q_model (uart_buffer s) = [];
  idle_finished : string_finished_ s = false;
  idle_count : received_chars s = 0;
  idle_timeout : timeout_detected s = false;
}.

(** While a line is being assembled: [l] was received so far. *)
Record serial_line s (l : list Z) : Prop := {
  line_ok : serial_ok s;
  line_handle : receiving_task_handle s = true;
  line_queue : q_model (uart_buffer s) = l;
  line_finished : string_finished_ s = false;
  line_count : received_chars s = zlen l;
  line_timeout : timeout_detected s = false;
}.

(** A complete line [l] waits to be read. *)
Record serial_done s (l : list Z) : Prop := {
  done_ok : serial_ok s;
  done_handle : receiving_task_handle s = true;
  done_queue : q_model (uart_buffer s) = l ++ [0];
  done_finished : string_finished_ s = true;
  done_count : received_chars s = 0;
  done_timeout : timeout_detected s = false;
}.

Lemma idle_line s : serial_idle s ↔ serial_line s [].
Proof. split; intros []; by constructor. Qed.

Lemma handle_chars_app s l1 l2 :
  handle_chars s (l1 ++ l2) = (handle_chars s l1 ≫= λ s', handle_chars s' l2).
Proof.
  revert s. induction l1 as [|c l1 IH]; intros s; cbn; [done|].
  destruct (handle_received_char s c); cbn; auto.
Qed.

Lemma push_room q x : q_ok q → zlen (q_model q) < q_cap q →
  ∃ q', q_push q x = Ok (true, q') ∧ q_ok q' ∧ q_cap q' = q_cap q ∧
    q_model q' = q_model q ++ [x].
Proof.
  intros Hq H. destruct (q_push_spec q x Hq) as (q' & E & ? & ? & Hm).
  rewrite bool_decide_true in E by done. rewrite decide_True in Hm by done. eauto.
Qed.

Lemma push_any q x : q_ok q →
  ∃ b q', q_push q x = Ok (b, q') ∧ q_ok q' ∧ q_cap q' = q_cap q.
Proof. intros Hq. destruct (q_push_spec q x Hq) as (q' & ? & ? & ? & _). eauto. Qed.

(** No character received, in whatever state, touches memory outside the queue. *)
Lemma handle_char_ok s c : serial_ok s →
  ∃ s', handle_received_char s c = Ok s' ∧ serial_ok s' ∧
    q_cap (uart_buffer s') = q_cap (uart_buffer s) ∧
    receiving_task_handle s' = receiving_task_handle s ∧ uart_num s' = uart_num s.
Proof.
  intros []. unfold handle_received_char.
  destruct (timeout_detected s).
  { destruct (q_reset_spec (uart_buffer s)) as (?&?&?); [done|].
    eexists; split; [done|]. cbn. repeat split; cbn; congruence || lia. }
  destruct ((c =? 13) || (c =? 10)).
  { destruct (0 <? received_chars s); [|by eauto 10 using serial_ok].
    destruct (push_any (uart_buffer s) 0) as (b&q&->&?&?); [done|]. cbn.
    eexists; split; [done|]. cbn. repeat split; cbn; congruence || lia. }
  destruct (q_space_left (uart_buffer s) =? 2).
  - destruct (push_any (uart_buffer s) c) as (b&q&->&?&?); [done|]. cbn.
    destruct (push_any q 0) as (b'&q'&->&?&?); [done|]. cbn.
    eexists; split; [done|]. cbn. repeat split; cbn; congruence || lia.
  - destruct (push_any (uart_buffer s) c) as (b&q&->&?&?); [done|]. cbn.
    eexists; split; [done|]. cbn. repeat split; cbn; congruence || lia.
Qed.

Lemma handle_chars_ok s cs : serial_ok s →
  ∃ s', handle_chars s cs = Ok s' ∧ serial_ok s' ∧
    q_cap (uart_buffer s') = q_cap (uart_buffer s) ∧
    receiving_task_handle s' = receiving_task_handle s ∧ uart_num s' = uart_num s.
Proof.
  revert s. induction cs as [|c cs IH]; intros s Hs; cbn; [eauto 10|].
  destruct (handle_char_ok s c Hs) as (s1 & -> & Hs1 & ? & ? & ?). cbn.
  destruct (IH s1 Hs1) as (s2 & -> & ? & ? & ? & ?). eexists; split; [done|].
  split_and!; congruence || done.
Qed.

(** One more character of a line that still fits. *)
Lemma handle_plain s l c : serial_line s l → plain c → zlen l < q_cap (uart_buffer s) - 2 →
  ∃ s', handle_received_char s c = Ok s' ∧ serial_line s' (l ++ [c]) ∧
    q_cap (uart_buffer s') = q_cap (uart_buffer s) ∧ uart_num s' = uart_num s.
Proof.
  intros [[] ?????] (?&?&?) ?. unfold handle_received_char. rewrite line_timeout0.
  destruct (Z.eqb_spec c 13), (Z.eqb_spec c 10); [done..|]. cbn [orb].
  rewrite q_space_spec by done. rewrite line_queue0.
  destruct (Z.eqb_spec (q_cap (uart_buffer s) - zlen l) 2); [lia|].
  destruct (push_room (uart_buffer s) c) as (q'&->&?&?&Hm); [done|rewrite line_queue0; lia|].
  cbn. eexists; split; [done|]. cbn.
  repeat split; cbn; try congruence || lia.
  rewrite line_count0. lens.
Qed.

Lemma handle_line s l0 l : serial_line s l0 → Forall plain l →
  zlen l0 + zlen l <= q_cap (uart_buffer s) - 2 →
  ∃ s', handle_chars s l = Ok s' ∧ serial_line s' (l0 ++ l) ∧
    q_cap (uart_buffer s') = q_cap (uart_buffer s) ∧ uart_num s' = uart_num s.
Proof.
  revert s l0. induction l as [|c l IH]; intros s l0 Hs Hl Hb.
  { cbn. rewrite app_nil_r. eauto. }
  apply Forall_cons in Hl as [Hc Hl]. cbn [handle_chars].
  destruct (handle_plain s l0 c Hs Hc) as (s1 & -> & Hs1 & E1 & E2); [lens|]. cbn.
  destruct (IH s1 (l0 ++ [c]) Hs1 Hl) as (s2 & -> & Hs2 & E3 & E4); [lens|].
  rewrite <- app_assoc in Hs2. eexists; split; [done|]. split_and!; done || congruence.
Qed.

(** A terminator completes a non-empty line. *)
Lemma handle_term s l t : serial_line s l → t = 13 ∨ t = 10 → l ≠ [] →
  zlen l < q_cap (uart_buffer s) →
  ∃ s', handle_received_char s t = Ok s' ∧ serial_done s' l ∧
    q_cap (uart_buffer s') = q_cap (uart_buffer s) ∧ uart_num s' = uart_num s.
Proof.
  intros [[] ?????] Ht Hl ?. unfold handle_received_char. rewrite line_timeout0.
  replace ((t =? 13) || (t =? 10)) with true by (destruct Ht; by subst).
  rewrite line_count0. destruct l as [|x l]; [done|].
  destruct (Z.ltb_spec 0 (zlen (x :: l))); [|cbn in *; lia].
  destruct (push_room (uart_buffer s) 0) as (q'&->&?&?&Hm); [done|rewrite line_queue0; lia|].
  cbn. eexists; split; [done|]. repeat split; cbn; try congruence || lia.
  by rewrite Hm, line_queue0.
Qed.

(** The first character that leaves no room for two more completes the line by itself. *)
Lemma handle_full s l c : serial_line s l → plain c → zlen l = q_cap (uart_buffer s) - 2 →
  ∃ s', handle_received_char s c = Ok s' ∧ serial_done s' (l ++ [c]) ∧
    q_cap (uart_buffer s') = q_cap (uart_buffer s).
Proof.
  intros [[] ?????] (?&?&?) ?. unfold handle_received_char. rewrite line_timeout0.
  destruct (Z.eqb_spec c 13), (Z.eqb_spec c 10); [done..|]. cbn [orb].
  rewrite q_space_spec by done. rewrite line_queue0.
  destruct (Z.eqb_spec (q_cap (uart_buffer s) - zlen l) 2); [|lia].
  destruct (push_room (uart_buffer s) c) as (q1&->&?&?&Hm1); [done|rewrite line_queue0; lia|].
  cbn. destruct (push_room q1 0) as (q2&->&?&?&Hm2); [done|rewrite Hm1, line_queue0; lens|].
  cbn. eexists; split; [done|]. repeat split; cbn; try congruence || lia.
Qed.

(** Popping a stored string into a buffer with room for it, its NUL included. *)
Lemma read_loop_string fuel q l p r n bytes :
  q_ok q → q_model q = l ++ [0] → Forall plain l → (length l < fuel)%nat →
  zlen l + 1 < n < 4294967296 → (length l < length r)%nat →
  0 <= bytes → bytes + zlen l + 1 < 4294967296 →
  ∃ q', read_loop fuel q (p ++ r) (zlen p) n bytes
          = Ok (q', p ++ (l ++ [0]) ++ drop (S (length l)) r, bytes + zlen l + 1) ∧
    q_ok q' ∧ q_cap q' = q_cap q ∧ q_model q' = [].
Proof.
  revert fuel q p r n bytes.
  induction l as [|c l IH]; intros [|fuel] q p r n bytes Hq Hm Hl Hf Hn Hr Hb0 Hb; try lens;
    cbn [read_loop]; destruct (q_pop_spec q Hq) as (q1 & -> & Hq1 & Hc1 & Hm1);
    rewrite Hm in *; cbn [head tail app hd_error] in *; rewrite bind_ok;
    destruct (Z.ltb_spec 1 n); try lens;
    unfold wr; rewrite wr_n_app by (cbn in *; lia); rewrite bind_ok.
  - cbn. rewrite u32_id by (unfold is_u32; lia). eexists; split; [|done]. oks; lia || done.
  - apply Forall_cons in Hl as [(?&?&Hc) Hl]. destruct (Z.eqb_spec c 0); [done|].
    rewrite !u32_id by (unfold is_u32; lens).
    destruct (IH fuel q1 (p ++ [c]) (drop 1 r) (n - 1) (bytes + 1)) as (q2 & E & ? & ? & ?);
      [done|done|done|lens..|].
    replace (zlen p + 1) with (zlen (p ++ [c])) by lens.
    rewrite app_assoc. cbn [length]. rewrite E. eexists; split; [|split_and!; done || congruence].
    rewrite <- !app_assoc, drop_drop. cbn [length app plus]. oks; lens || done.
Qed.

(** The same, when the buffer size is that of the string and its NUL: the loop pops the NUL and
    drops it. *)
Lemma read_loop_exact fuel q l p r n bytes :
  q_ok q → q_model q = l ++ [0] → Forall plain l → (length l < fuel)%nat →
  n = zlen l + 1 → n < 4294967296 → (length l ≤ length r)%nat →
  0 <= bytes → bytes + zlen l + 1 < 4294967296 →
  ∃ q', read_loop fuel q (p ++ r) (zlen p) n bytes
          = Ok (q', p ++ l ++ drop (length l) r, bytes + zlen l) ∧
    q_ok q' ∧ q_cap q' = q_cap q ∧ q_model q' = [].
Proof.
  revert fuel q p r n bytes.
  induction l as [|c l IH]; intros [|fuel] q p r n bytes Hq Hm Hl Hf Hn Hn' Hr Hb0 Hb; try lens;
    cbn [read_loop]; destruct (q_pop_spec q Hq) as (q1 & -> & Hq1 & Hc1 & Hm1);
    rewrite Hm in *; cbn [head tail app hd_error] in *; rewrite bind_ok;
    destruct (Z.ltb_spec 1 n); try lens.
  - eexists; split; [|done]. cbn. oks; lia || done.
  - unfold wr; rewrite wr_n_app by (cbn in *; lia); rewrite bind_ok.
    apply Forall_cons in Hl as [(?&?&Hc) Hl]. destruct (Z.eqb_spec c 0); [done|].
    rewrite !u32_id by (unfold is_u32; lens).
    destruct (IH fuel q1 (p ++ [c]) (drop 1 r) (n - 1) (bytes + 1)) as (q2 & E & ? & ? & ?);
      [done|done|done|lens..|].
    replace (zlen p + 1) with (zlen (p ++ [c])) by lens.
    rewrite app_assoc. cbn [length]. rewrite E. eexists; split; [|split_and!; done || congruence].
    rewrite <- !app_assoc, drop_drop. cbn [length app plus]. oks; lens || done.
Qed.

(** Reading a complete line leaves the port idle. *)
Lemma read_done s l buf n : serial_done s l → Forall plain l →
  zlen l + 1 < n < 4294967296 → n <= zlen buf →
  ∃ s', read_from_receive_buffer s buf n
          = Ok (s', (l ++ [0]) ++ drop (S (length l)) buf, zlen l + 1) ∧ serial_idle s' ∧
    q_cap (uart_buffer s') = q_cap (uart_buffer s).
Proof.
  intros [[] ?????] Hl Hn Hb. unfold read_from_receive_buffer.
  pose proof (q_bound (uart_buffer s) sok_queue0) as Hbd. rewrite done_queue0 in Hbd.
  destruct (read_loop_string (S (Z.to_nat (q_cap (uart_buffer s)))) (uart_buffer s) l [] buf n 0)
    as (q'&E&?&?&?); [done|done|done|lens..|].
  cbn [app length] in E. change (Z.of_nat 0) with 0 in E. rewrite E, bind_ok. eexists; split.
  { oks; lia || done. }
  repeat split; cbn; congruence || lia.
Qed.

(** [read_from_receive_buffer] stays inside a buffer of the size it is told, and returns. *)
Lemma read_loop_safe fuel q buf pos n bytes :
  q_ok q → zlen (q_model q) < Z.of_nat fuel → 0 <= pos → 0 <= n < 4294967296 →
  pos + n <= zlen buf ∨ n = 0 → 0 <= bytes → bytes + n < 4294967296 →
  ∃ q' buf' k, read_loop fuel q buf pos n bytes = Ok (q', buf', k) ∧ q_ok q' ∧
    q_cap q' = q_cap q ∧ length buf' = length buf ∧ bytes <= k <= bytes + n.
Proof.
  revert q buf pos n bytes.
  induction fuel as [|fuel IH]; intros q buf pos n bytes Hq Hf Hp Hn Hr Hb0 Hb; [lia|].
  cbn [read_loop]. destruct (q_pop_spec q Hq) as (q1 & -> & Hq1 & Hc1 & Hm1).
  rewrite bind_ok. destruct (q_model q) as [|c l] eqn:Hm; cbn [head].
  { eexists _, _, _. split; [done|]. split_and!; done || lia. }
  destruct (Z.ltb_spec 1 n).
  - rewrite wr_lookup, bind_ok by lia. destruct (Z.eqb_spec c 0).
    + rewrite u32_id by (unfold is_u32; lia). eexists _, _, _. split; [done|].
      split_and!; done || lens.
    + rewrite !u32_id by (unfold is_u32; lia). cbn [tail] in Hm1.
      destruct (IH q1 (<[Z.to_nat pos:=c]> buf) (pos + 1) (n - 1) (bytes + 1))
        as (q2&b&k&->&?&?&?&?); rewrite ?Hm1; try lens; [done|].
      eexists _, _, _. split; [done|]. split_and!; done || lens || congruence.
  - eexists _, _, _. split; [done|]. split_and!; done || lia.
Qed.

Lemma read_safe s buf n : serial_ok s → 0 <= n < 4294967296 → n <= zlen buf →
  ∃ s' buf' k, read_from_receive_buffer s buf n = Ok (s', buf', k) ∧ serial_ok s' ∧
    length buf' = length buf ∧ 0 <= k <= n.
Proof.
  intros [] ??. unfold read_from_receive_buffer. pose proof (q_bound _ sok_queue0).
  destruct (read_loop_safe (S (Z.to_nat (q_cap (uart_buffer s)))) (uart_buffer s) buf 0 n 0)
    as (q&b&k&->&?&?&?&?); try done || lia.
  rewrite bind_ok. eexists _, _, _. split; [done|]. repeat split; cbn; congruence || lia || done.
Qed.

Lemma on_uart_rx_ok s cs : serial_ok s → ∃ s', on_uart_rx s cs cs = Ok s' ∧ serial_ok s'.
Proof.
  intros Hs. unfold on_uart_rx. destruct (receiving_task_handle s); cbn [negb]; [|eauto].
  destruct (handle_chars_ok s cs Hs) as (s'&->&?&_). destruct (uart_num s <? 2); eauto.
Qed.

Lemma on_uart_rx_handle s cs : receiving_task_handle s = true →
  on_uart_rx s cs cs = handle_chars s cs.
Proof. intros H. unfold on_uart_rx. rewrite H. cbn. by destruct (uart_num s <? 2). Qed.

(** Waiting for the rest of a line, however the interrupts split it. *)
Lemma read_string_line turns s l0 l t buf n :
  serial_line s l0 → Forall plain l0 → Forall plain l → l0 ++ l ≠ [] →
  zlen l0 + zlen l <= q_cap (uart_buffer s) - 2 → t = 13 ∨ t = 10 →
  Forall (λ x, timed_out x = false) turns → concat (map arrived turns) = l ++ [t] →
  zlen (l0 ++ l) + 1 < n < 4294967296 → n <= zlen buf →
  ∃ s', read_string turns s buf n
          = Ok (s', ((l0 ++ l) ++ [0]) ++ drop (S (length (l0 ++ l))) buf, zlen (l0 ++ l) + 1) ∧
    serial_idle s'.
Proof.
  revert s l0 l. induction turns as [|[to a] turns IH];
    intros s l0 l Hs H0 Hl Hne Hc Ht Hto He Hn Hb; cbn in He; [by destruct l|].
  apply Forall_cons in Hto as [Hto0 Hto]. cbn in Hto0. subst to.
  cbn [read_string]. rewrite (line_finished _ _ Hs). cbn [timed_out arrived].
  rewrite on_uart_rx_handle by apply Hs.
  destruct (decide (length a ≤ length l)%nat) as [Hle|Hgt].
  - assert (l = a ++ drop (length a) l) as El.
    { rewrite <- (take_drop (length a) l) at 1. f_equal.
      apply (f_equal (take (length a))) in He.
      rewrite take_app_length, take_app_le in He by done. done. }
    set (l' := drop (length a) l) in *. clearbody l'. subst l.
    apply Forall_app in Hl as [Ha Hl']. rewrite <- app_assoc in He.
    apply app_inv_head in He.
    destruct (handle_line s l0 a Hs Ha) as (s1&->&Hs1&E1&_); [lens|]. rewrite bind_ok.
    rewrite !app_assoc. apply IH; try done.
    + by destruct Hs1; repeat split; try apply line_ok0.
    + by apply Forall_app.
    + by rewrite <- app_assoc.
    + cbn. rewrite E1. lens.
    + lens.
  - assert (a = l ++ [t] ∧ concat (map arrived turns) = []) as [-> _].
    { pose proof (f_equal length He) as HL. rewrite !length_app in HL. cbn in HL.
      destruct (concat (map arrived turns)); [rewrite app_nil_r in He; done|cbn in HL; lia]. }
    destruct (handle_line s l0 l Hs Hl) as (s1&E1&Hs1&Hc1&_); [lens|].
    destruct (handle_term s1 (l0 ++ l) t Hs1 Ht) as (s2&E2&Hs2&_&_); [done|lens|].
    rewrite handle_chars_app, E1, bind_ok. cbn [handle_chars]. rewrite E2, !bind_ok.
    destruct (read_done (notify_take s2) (l0 ++ l) buf n) as (s3&E3&?&_);
      [by destruct Hs2; repeat split; try apply done_ok0|by apply Forall_app|lia|done|].
    exists s3. split; [|done]. rewrite <- E3.
    destruct turns; cbn [read_string]; by rewrite (done_finished _ _ Hs2 : string_finished_ (notify_take s2) = true).
Qed.
End Correctness.

(** ** Theorems *)

Section Theorems.
Context {Q : Type} `{!CharQueue Q}.
Implicit Types s : Serial Q.

(** A line that fits the receive queue is delivered unchanged to the reading task, NUL
    terminated and with its length, however the interrupts split it while [read_string] waits;
    the port is then ready for the next line. *)
Theorem read_string_delivers_line s l t turns buf n :
  serial_idle s → Forall plain l → l ≠ [] → zlen l <= q_cap (uart_buffer s) - 2 →
  t = 13 ∨ t = 10 → Forall (λ x, timed_out x = false) turns →
  concat (map arrived turns) = l ++ [t] → zlen l + 1 < n < 4294967296 → n <= zlen buf →
  ∃ s', read_string turns s buf n
          = Ok (s', (l ++ [0]) ++ drop (S (length l)) buf, zlen l + 1) ∧ serial_idle s'.
Proof.
  intros Hs%idle_line **. apply (read_string_line turns s [] l t buf n); auto.
Qed.

(** With a time limit that runs out eventually, [read_string] returns: it writes nothing
    outside the caller's buffer, reports at most the buffer's size, and keeps the port's
    invariant, whatever characters arrive meanwhile. *)
Theorem read_string_terminates_safely s turns buf n :
  serial_ok s → 0 <= n < 4294967296 → n <= zlen buf → Exists (λ x, timed_out x = true) turns →
  ∃ s' buf' k, read_string turns s buf n = Ok (s', buf', k) ∧ serial_ok s' ∧
    length buf' = length buf ∧ 0 <= k <= n.
Proof.
  intros Hs Hn Hb He. revert s Hs.
  induction turns as [|[to a] turns IH]; intros s Hs; [by apply Exists_nil in He|].
  cbn [read_string]. destruct (string_finished_ s); [by apply read_safe|].
  cbn [timed_out arrived]. destruct to.
  - destruct (read_safe (set_timeout_detected s) buf n) as (s'&b&k&->&?&?&?); [|done..|].
    { destruct Hs; by constructor. }
    rewrite bind_ok. eexists _, _, _. split; [done|]. split_and!; done || lia.
  - destruct (on_uart_rx_ok s a Hs) as (s1&->&Hs1). rewrite bind_ok.
    apply IH; [by apply Exists_cons in He as [|]|]. destruct Hs1; by constructor.
Qed.

(** A line as long as the queue allows (its capacity less one) completes without a
    terminator, and a reader whose buffer has the queue's capacity, as [Sensor::read_task] has,
    gets all its characters but not the NUL, which is popped and dropped. *)
Theorem overlong_line_loses_terminator s l c buf :
  serial_idle s → Forall plain (l ++ [c]) → zlen l = q_cap (uart_buffer s) - 2 →
  q_cap (uart_buffer s) <= zlen buf →
  ∃ s1 s2, handle_chars s (l ++ [c]) = Ok s1 ∧ string_finished_ s1 = true ∧
    read_from_receive_buffer s1 buf (q_cap (uart_buffer s))
      = Ok (s2, (l ++ [c]) ++ drop (length (l ++ [c])) buf, zlen (l ++ [c])) ∧
    q_model (uart_buffer s2) = [].
Proof.
  intros Hs%idle_line Hl Hc Hb. pose proof Hl as [Hl0 Hc0]%Forall_app.
  apply Forall_cons in Hc0 as [Hc0 _].
  destruct (handle_line s [] l Hs Hl0) as (s0&E0&Hs0&Hq0&_); [lens|].
  destruct (handle_full s0 l c Hs0 Hc0) as (s1&E1&[[] ?????]&Hq1); [lia|].
  exists s1. rewrite handle_chars_app, E0, bind_ok. cbn [handle_chars]. rewrite E1, bind_ok.
  destruct Hs as [[] _ _ _ _ _].
  destruct (read_loop_exact (S (Z.to_nat (q_cap (uart_buffer s1)))) (uart_buffer s1) (l ++ [c])
              [] buf (q_cap (uart_buffer s)) 0) as (q&E&?&?&?); [done|done|done|lens..|].
  cbn [app length] in E. change (Z.of_nat 0) with 0 in E.
  unfold read_from_receive_buffer. rewrite E, bind_ok.
  eexists. split; [done|]. split; [done|]. split; [by oks|done].
Qed.

(** After a reception timeout the next character only resets the queue: it is dropped, and a
    line sent then is delivered without its first character. *)
Theorem first_char_after_timeout_is_lost s c l t :
  serial_ok s → receiving_task_handle s = true → timeout_detected s = true →
  Forall plain l → l ≠ [] → zlen l <= q_cap (uart_buffer s) - 2 → t = 13 ∨ t = 10 →
  ∃ s', handle_chars s ((c :: l) ++ [t]) = Ok s' ∧ string_finished_ s' = true ∧
    q_model (uart_buffer s') = l ++ [0].
Proof.
  intros Hs Hh Hto Hl Hne Hc Ht. cbn [app handle_chars].
  assert (∃ s1, handle_received_char s c = Ok s1 ∧ serial_line s1 [] ∧
            q_cap (uart_buffer s1) = q_cap (uart_buffer s)) as (s1&->&Hs1&Hq1).
  { unfold handle_received_char. rewrite Hto. destruct Hs.
    destruct (q_reset_spec (uart_buffer s)) as (?&?&?); [done|].
    eexists; split; [done|]. repeat split; cbn; congruence || lia. }
  rewrite bind_ok, handle_chars_app.
  destruct (handle_line s1 [] l Hs1 Hl) as (s2&->&Hs2&Hq2&_); [lens|]. rewrite bind_ok.
  cbn [handle_chars app] in *.
  destruct (handle_term s2 l t Hs2 Ht Hne) as (s3&->&[]&_); [lia|]. eauto.
Qed.
End Theorems.

(** A port over a ring buffer of eight characters, waiting for input. *)
Definition demo_port : Serial RingBuffer :=
  set_receiving_task_handle (Serial_new 0 (RingBuffer_new (replicate 8 0))) true.

Lemma demo_port_idle : serial_idle demo_port.
Proof.
  assert (ring_ok (RingBuffer_new (replicate 8 0))) by (apply new_ok; cbn; lia).
  repeat split; cbn; done || lia.
Qed.

Lemma read_string_delivers_line_witness :
  serial_idle demo_port ∧
  ∃ s', read_string [mkTurn false [65]; mkTurn false [66; 67; 13]] demo_port (replicate 8 9) 8
          = Ok (s', [65; 66; 67; 0; 9; 9; 9; 9], 4) ∧ serial_idle s'.
Proof.
  split; [apply demo_port_idle|].
  apply (read_string_delivers_line demo_port [65; 66; 67] 13
           [mkTurn false [65]; mkTurn false [66; 67; 13]] (replicate 8 9) 8);
    [apply demo_port_idle|by repeat constructor|done|cbn; lia|by left|by repeat constructor
    |done|cbn; lia|cbn; lia].
Defined.

Lemma read_string_terminates_safely_witness :
  serial_ok demo_port ∧
  ∃ s' buf' k, read_string [mkTurn false [65]; mkTurn true []] demo_port (replicate 8 9) 8
    = Ok (s', buf', k) ∧ serial_ok s' ∧ length buf' = length (replicate 8 9) ∧ 0 <= k <= 8.
Proof.
  split; [apply demo_port_idle|].
  apply (read_string_terminates_safely demo_port [mkTurn false [65]; mkTurn true []]
           (replicate 8 9) 8); [apply demo_port_idle|lia|cbn; lia|].
  apply Exists_cons_tl, Exists_cons_hd. done.
Defined.

Lemma overlong_line_loses_terminator_witness :
  serial_idle demo_port ∧
  ∃ s1 s2, handle_chars demo_port ([65; 66; 67; 68; 69; 70] ++ [71]) = Ok s1 ∧
    string_finished_ s1 = true ∧
    read_from_receive_buffer s1 (replicate 8 9) (q_cap (uart_buffer demo_port))
      = Ok (s2, [65; 66; 67; 68; 69; 70; 71; 9], 7) ∧ q_model (uart_buffer s2) = [].
Proof.
  split; [apply demo_port_idle|].
  apply (overlong_line_loses_terminator demo_port [65; 66; 67; 68; 69; 70] 71 (replicate 8 9));
    [apply demo_port_idle|by repeat constructor|cbn; lia|cbn; lia].
Defined.

Lemma first_char_after_timeout_is_lost_witness :
  timeout_detected (set_timeout_detected demo_port) = true ∧
  ∃ s', handle_chars (set_timeout_detected demo_port) ((65 :: [66; 67]) ++ [13]) = Ok s' ∧
    string_finished_ s' = true ∧ q_model (uart_buffer s') = [66; 67] ++ [0].
Proof.
  split; [done|].
  apply (first_char_after_timeout_is_lost (set_timeout_detected demo_port) 65 [66; 67] 13);
    [destruct demo_port_idle as [[]]; by constructor|done|done|by repeat constructor|done|cbn; lia
    |by left].
Defined.
