(* ===== verification/MqttPacket.v ===== *)
(** The primitives of the MQTT wire format (paho.mqtt.embedded-c/MQTTPacket/src/MQTTPacket.cpp and
    MQTTPacket.h): the header byte, the variable length field, integers and strings.

    [char] is unsigned, as on the ARM target.  A C string is the list of its characters without
    the NUL; [int] values are unbounded, every one of them stays far below 2^31 because buffers
    and strings are in a 264 kB memory. *)
From S2P Require Import Prelude Cursor.

(** ** Constants *)

Definition MQTTPACKET_BUFFER_TOO_SHORT : Z := -2.
Definition MQTTPACKET_READ_ERROR : Z := -1.

Definition CONNECT : Z := 1.
Definition CONNACK : Z := 2.
Definition PUBLISH : Z := 3.
Definition PUBACK : Z := 4.
Definition PUBREC : Z := 5.
Definition PUBREL : Z := 6.
Definition PUBCOMP : Z := 7.
Definition SUBSCRIBE : Z := 8.
Definition SUBACK : Z := 9.
Definition UNSUBSCRIBE : Z := 10.
Definition UNSUBACK : Z := 11.
Definition PINGREQ : Z := 12.
Definition PINGRESP : Z := 13.
Definition DISCONNECT : Z := 14.

(** ** The header byte *)

(** The bit-fields of [MQTTHeader]; assigning to a field keeps the low bits of the value. *)
Record MQTTHeader := mkHeader { h_type : Z; h_dup : Z; h_qos : Z; h_retain : Z }.

Definition header_byte (h : MQTTHeader) : Z :=
  (h_type h mod 16) * 16 + (h_dup h mod 2) * 8 + (h_qos h mod 4) * 2 + h_retain h mod 2.

Definition byte_header (b : Z) : MQTTHeader :=
  mkHeader (b / 16 mod 16) (b / 8 mod 2) (b / 2 mod 4) (b mod 2).

(** ** Strings *)

Record MQTTLenString := mkLenString { ls_len : Z; ls_data : option (list Z) }.
Record MQTTString := mkMQTTString { cstring : option (list Z); lenstring : MQTTLenString }.

Definition MQTTString_initializer : MQTTString := mkMQTTString None (mkLenString 0 None).

(** A string given by its characters, as callers of the library build it. *)
Definition c_string (s : list Z) : MQTTString := mkMQTTString (Some s) (mkLenString 0 None).
Definition len_string (s : list Z) : MQTTString := mkMQTTString None (mkLenString (zlen s) (Some s)).

Definition MQTTstrlen (s : MQTTString) : Z :=
  match cstring s with Some c => zlen c | None => ls_len (lenstring s) end.

(** [options->username.cstring || options->username.lenstring.data] *)
Definition string_present (s : MQTTString) : bool :=
  match cstring s, ls_data (lenstring s) with None, None => false | _, _ => true end.

(** ** Length field *)

(** The loop of [MQTTPacket_encode], which stores its bytes at [buf + rc]. *)
Fixpoint encode_loop (fuel : nat) (w : wptr) (length rc : Z) : outcome (wptr * Z) :=
  match fuel with
  | O => OutOfFuel
  | S fuel =>
      let d := u8 (Z.rem length 128) in
      let length := Z.quot length 128 in
      let d := if 0 <? length then Z.lor d 128 else d in
      w ← put [d] w;
      if 0 <? length then encode_loop fuel w length (rc + 1) else Ok (w, rc + 1)
  end.

(** Enough turns for any [int]: each divides the length by 128. *)
Definition encode_fuel : nat := 5.

Definition MQTTPacket_encode (w : wptr) (length : Z) : outcome (wptr * Z) :=
  encode_loop encode_fuel w length 0.

(** [ptr += MQTTPacket_encode(ptr, length)] *)
Definition write_length (length : Z) : writer := λ w,
  '(w', _) ← MQTTPacket_encode w length; Ok w'.

(** [MQTTPacket_decode]: [getcharfn] gives the number of characters read and the character. *)
Section Decode.
Context {T : Type} (getcharfn : T → outcome (Z * Z * T)).

Definition MAX_NO_OF_REMAINING_LENGTH_BYTES : Z := 4.

Fixpoint decode_loop (fuel : nat) (s : T) (multiplier len value : Z) : outcome (Z * Z * T) :=
  match fuel with
  | O => OutOfFuel
  | S fuel =>
      let len := len + 1 in
      if MAX_NO_OF_REMAINING_LENGTH_BYTES <? len then Ok (len, value, s)
      else
        '(rc, c, s) ← getcharfn s;
        if negb (rc =? 1) then Ok (len, value, s)
        else
          let value := value + Z.land c 127 * multiplier in
          let multiplier := multiplier * 128 in
          if negb (Z.land c 128 =? 0) then decode_loop fuel s multiplier len value
          else Ok (len, value, s)
  end.

(** The result is [len], the decoded [value] and the state of the source. *)
Definition MQTTPacket_decode (s : T) : outcome (Z * Z * T) := decode_loop 5 s 1 0 0.
End Decode.

(** [bufchar]: the next character of the buffer [bufptr] points into. *)
Definition bufchar (buf : list Z) (bufptr : Z) : outcome (Z * Z * Z) :=
  c ← rd buf bufptr; Ok (1, c, bufptr + 1).

(** [MQTTPacket_decodeBuf]: the number of bytes used and the value. *)
Definition MQTTPacket_decodeBuf (buf : list Z) (cur : Z) : outcome (Z * Z) :=
  '(len, value, _) ← MQTTPacket_decode (bufchar buf) cur; Ok (len, value).

Definition MQTTPacket_len (rem_len : Z) : Z :=
  let rem_len := rem_len + 1 in
  if rem_len <? 128 then rem_len + 1
  else if rem_len <? 16384 then rem_len + 2
  else if rem_len <? 2097151 then rem_len + 3
  else rem_len + 4.

(** ** Readers and writers *)

Definition readInt (buf : list Z) (cur : Z) : outcome (Z * Z) :=
  a ← rd buf cur; b ← rd buf (cur + 1); Ok (256 * a + b, cur + 2).

Definition readChar (buf : list Z) (cur : Z) : outcome (Z * Z) :=
  c ← rd buf cur; Ok (c, cur + 1).

Definition writeChar (c : Z) : writer := put [u8 c].

Definition writeInt (anInt : Z) : writer := λ w,
  w ← put [u8 (Z.quot anInt 256)] w; put [u8 (Z.rem anInt 256)] w.

Definition writeCString (s : list Z) : writer := λ w,
  w ← writeInt (zlen s) w; put s w.

Definition writeMQTTString (s : MQTTString) : writer := λ w,
  if 0 <? ls_len (lenstring s) then
    w ← writeInt (ls_len (lenstring s)) w;
    d ← match ls_data (lenstring s) with
        | Some d => rd_n d 0 (ls_len (lenstring s))
        | None => Ub
        end;
    put d w
  else
    match cstring s with
    | Some c => writeCString c w
    | None => writeInt 0 w
    end.

(** A pointer into a buffer is represented by the bytes from there to the buffer's end, so that an
    access beyond the buffer through it is visible. *)
Definition ptr_into (buf : list Z) (cur : Z) : list Z := drop (Z.to_nat cur) buf.

(** [readMQTTLenString]: the result code, the string after the call ([ms] before it) and the
    cursor. *)
Definition readMQTTLenString (ms : MQTTString) (buf : list Z) (cur enddata : Z)
  : outcome (bool * MQTTString * Z) :=
  if 1 <? enddata - cur then
    '(len, cur) ← readInt buf cur;
    if cur + len <=? enddata then
      Ok (true, mkMQTTString None (mkLenString len (Some (ptr_into buf cur))), cur + len)
    else Ok (false, mkMQTTString None (mkLenString len (ls_data (lenstring ms))), cur)
  else Ok (false, mkMQTTString None (lenstring ms), cur).

(** [getLenStringLen]: the two length bytes in front of a string. *)
Definition getLenStringLen (p : list Z) : outcome Z :=
  '(n, _) ← readInt p 0; Ok n.

(** [MQTTPacket_equals]: comparison of an [MQTTString] with the C string [bptr]. *)
Definition MQTTPacket_equals (a : MQTTString) (bptr : list Z) : outcome bool :=
  let '(aptr, alen) :=
    match cstring a with
    | Some c => (Some c, zlen c)
    | None => (ls_data (lenstring a), ls_len (lenstring a))
    end in
  if alen =? zlen bptr then
    match aptr with
    | Some d => d' ← rd_n d 0 alen; Ok (bool_decide (d' = bptr))
    | None => if alen =? 0 then Ok true else Ub
    end
  else Ok false.

(** ** Well-formed strings *)

(** A string the library serializes as it was meant: either a C string or a length-delimited one
    whose length is that of its data, of at most 65535 characters. *)
Inductive mqtt_str : MQTTString → list Z → Prop :=
| mqtt_cstr s : zlen s < 65536 → mqtt_str (c_string s) s
| mqtt_lstr s : zlen s < 65536 → mqtt_str (len_string s) s
| mqtt_null : mqtt_str MQTTString_initializer [].

(** The two bytes of an integer. *)
Definition int_bytes (n : Z) : list Z := [n / 256; n mod 256].

(** The bytes of a string on the wire. *)
Definition str_bytes (s : list Z) : list Z := int_bytes (zlen s) ++ s.

(** The bytes of the length field: base 128, least significant digit first. *)
Fixpoint length_bytes_fuel (fuel : nat) (n : Z) : list Z :=
  match fuel with
  | O => []
  | S fuel => if n <? 128 then [n] else (128 + n mod 128) :: length_bytes_fuel fuel (n / 128)
  end.
Definition length_bytes (n : Z) : list Z := length_bytes_fuel 5 n.

(** ** Lemmas: length field *)

Lemma length_bytes_u8 fuel n : 0 <= n → Forall is_u8 (length_bytes_fuel fuel n).
Proof.
  revert n. induction fuel as [|fuel IH]; intros n Hn; cbn; [constructor|].
  destruct (Z.ltb_spec n 128); constructor; try apply IH; try constructor; unfold is_u8; zdiv.
Qed.

Lemma encode_loop_emits fuel n rc : 0 <= n < 128 ^ Z.of_nat fuel →
  (0 < fuel)%nat → ∀ p r,
  encode_loop fuel (W (p ++ r) (zlen p)) n rc =
    let l := length_bytes_fuel fuel n in
    if decide (length l ≤ length r)%nat
    then Ok (W (p ++ l ++ drop (length l) r) (zlen p + zlen l), rc + zlen l) else Ub.
Proof.
  revert n rc. induction fuel as [|fuel IH]; intros n rc Hn Hf p r; [lia|].
  cbn [encode_loop length_bytes_fuel].
  assert ((0 <? Z.quot n 128) = negb (n <? 128)) as ->.
  { destruct (Z.ltb_spec 0 (Z.quot n 128)), (Z.ltb_spec n 128); try done; zdiv. }
  replace (u8 (Z.rem n 128)) with (n mod 128) by (unfold u8; zdiv).
  destruct (Z.ltb_spec n 128) as [Hlt|Hge]; cbn [negb].
  - rewrite emits_put, Z.mod_small by lia. case_decide; [|done]. rewrite bind_ok. oks; cbn; done || lia.
  - rewrite lor_128 by zdiv. rewrite emits_put.
    destruct (decide (length [(n mod 128 + 128)%Z] ≤ length r)%nat) as [H1|H1].
    + rewrite bind_ok. destruct fuel as [|fuel]; [cbn in Hn; lia|].
      replace (zlen p + zlen [n mod 128 + 128]) with (zlen (p ++ [n mod 128 + 128])) by lens.
      rewrite app_assoc, (Z.quot_div_nonneg n 128), IH by
        (try rewrite Nat2Z.inj_succ, Z.pow_succ_r in Hn by lia; zdiv).
      cbn zeta. rewrite (Z.add_comm (n mod 128)).
      set (l := length_bytes_fuel (S fuel) (n / 128)). cbn [length] in *.
      rewrite length_drop. destruct (decide (length l ≤ length r - 1)%nat).
      * rewrite decide_True by lia. rewrite drop_drop, <- app_assoc. cbn [length app]. leq.
      * rewrite decide_False by lia. done.
    + rewrite decide_False; [done|]. cbn [length] in *. lia.
Qed.

Lemma write_length_emits n : 0 <= n < 34359738368 → emits (write_length n) (length_bytes n).
Proof.
  intros Hn p r. unfold write_length, MQTTPacket_encode, encode_fuel.
  rewrite encode_loop_emits by (cbn; lia). cbn zeta. fold (length_bytes n).
  case_decide; done.
Qed.

(** The number of length bytes. *)
Lemma length_bytes_size n : 0 <= n < 268435456 →
  zlen (length_bytes n) =
    if n <? 128 then 1 else if n <? 16384 then 2 else if n <? 2097152 then 3 else 4.
Proof.
  intros Hn. unfold length_bytes. do 4 (cbn [length_bytes_fuel];
    match goal with |- context [?a <? 128] => destruct (Z.ltb_spec a 128) end;
    [repeat match goal with |- context [n <? ?k] => destruct (Z.ltb_spec n k) end; cbn; zdiv|]).
  exfalso. zdiv.
Qed.

Lemma length_bytes_S fuel n :
  length_bytes_fuel (S fuel) n =
    if n <? 128 then [n] else (128 + n mod 128) :: length_bytes_fuel fuel (n / 128).
Proof. reflexivity. Qed.

Lemma decode_loop_S {T} (g : T → outcome (Z * Z * T)) fuel s mult len value :
  decode_loop g (S fuel) s mult len value =
    (if MAX_NO_OF_REMAINING_LENGTH_BYTES <? len + 1 then Ok (len + 1, value, s)
     else '(rc, c, s) ← g s;
          if negb (rc =? 1) then Ok (len + 1, value, s)
          else if negb (Z.land c 128 =? 0)
               then decode_loop g fuel s (mult * 128) (len + 1) (value + Z.land c 127 * mult)
               else Ok (len + 1, value + Z.land c 127 * mult, s)).
Proof. reflexivity. Qed.

Lemma bufchar_at p c r : bufchar (p ++ c :: r) (zlen p) = Ok (1, c, zlen p + 1).
Proof. unfold bufchar. by rewrite rd_app. Qed.

Lemma decode_loop_reads fuel n mult len value p r :
  0 <= n < 128 ^ Z.of_nat fuel → len + Z.of_nat fuel = 4 → (0 < fuel)%nat →
  decode_loop (bufchar (p ++ length_bytes_fuel (S fuel) n ++ r)) (S fuel) (zlen p) mult len value
    = Ok (len + zlen (length_bytes_fuel (S fuel) n), value + n * mult,
          zlen p + zlen (length_bytes_fuel (S fuel) n)).
Proof.
  revert n mult len value p. induction fuel as [|fuel IH]; intros n mult len value p Hn Hl Hf; [lia|].
  rewrite decode_loop_S, length_bytes_S. unfold MAX_NO_OF_REMAINING_LENGTH_BYTES.
  destruct (Z.ltb_spec 4 (len + 1)); [lia|]. rewrite Nat2Z.inj_succ, Z.pow_succ_r in Hn by lia.
  destruct (Z.ltb_spec n 128) as [Hlt|Hge]; cbn [app]; rewrite bufchar_at, bind_ok;
    cbn [Z.eqb Pos.eqb negb].
  - rewrite land_127, land_128 by (unfold is_u8; lia). rewrite Z.mod_small by lia.
    destruct (Z.ltb_spec n 128); [|lia]. cbn. oks; lia.
  - assert (is_u8 (128 + n mod 128)) by (unfold is_u8; zdiv).
    rewrite land_127, land_128 by done. destruct (Z.ltb_spec (128 + n mod 128) 128); [zdiv|].
    cbn [Z.eqb negb]. replace ((128 + n mod 128) mod 128) with (n mod 128) by zdiv.
    destruct fuel as [|fuel]; [cbn in Hn; lia|].
    assert (0 <= n / 128 < 128 ^ Z.of_nat (S fuel)).
    { split; [zdiv|]. apply Z.div_lt_upper_bound; lia. }
    pose proof (IH (n / 128) (mult * 128) (len + 1) (value + n mod 128 * mult)
      (p ++ [128 + n mod 128])) as E. rewrite <- app_assoc in E. cbn [app] in E.
    replace (zlen (p ++ [128 + n mod 128])) with (zlen p + 1) in E by lens.
    rewrite E by lia. cbn [length]. pose proof (Z.div_mod n 128). oks; lia || nia.
Qed.

Lemma decodeBuf_reads n p r : 0 <= n < 268435456 →
  MQTTPacket_decodeBuf (p ++ length_bytes n ++ r) (zlen p) = Ok (zlen (length_bytes n), n).
Proof.
  intros Hn. unfold MQTTPacket_decodeBuf, MQTTPacket_decode, length_bytes.
  rewrite (decode_loop_reads 4) by (cbn; lia). rewrite bind_ok. oks; lia.
Qed.

(** ** Lemmas: integers and strings *)

Lemma int_bytes_u8 n : is_u16 n → Forall is_u8 (int_bytes n).
Proof. unfold is_u16, is_u8. intros. repeat constructor; zdiv. Qed.

Lemma writeChar_emits c : emits (writeChar c) [u8 c].
Proof. apply emits_put. Qed.

Lemma writeInt_emits n : 0 <= n < 65536 → emits (writeInt n) (int_bytes n).
Proof.
  intros Hn. apply (emits_seq (put _) (put _) [n / 256] [n mod 256]);
    (eapply emits_eq; [apply emits_put|]); f_equal; unfold u8; zdiv.
Qed.

Lemma writeCString_emits s : zlen s < 65536 → emits (writeCString s) (str_bytes s).
Proof. intros. apply (emits_seq (writeInt _) (put s)); [apply writeInt_emits; lia|apply emits_put]. Qed.

Lemma writeMQTTString_emits m s : mqtt_str m s → emits (writeMQTTString m) (str_bytes s).
Proof.
  destruct 1 as [s Hs|s Hs|]; unfold writeMQTTString; cbn [lenstring ls_len ls_data cstring
    c_string len_string MQTTString_initializer].
  - by apply writeCString_emits.
  - destruct (Z.ltb_spec 0 (zlen s)).
    + apply (emits_seq (writeInt _) _ (int_bytes (zlen s)) s); [apply writeInt_emits; lia|].
      apply (emits_ext (put s)); [|apply emits_put]. intros w. by rewrite rd_n_0.
    + destruct s; [|cbn in *; lia]. apply (emits_eq _ (int_bytes 0)); [by apply writeInt_emits|done].
  - apply (emits_eq _ (int_bytes 0)); [by apply writeInt_emits|done].
Qed.

Lemma MQTTstrlen_str m s : mqtt_str m s → MQTTstrlen m = zlen s.
Proof. by destruct 1. Qed.

Lemma str_bytes_len s : zlen (str_bytes s) = zlen s + 2.
Proof. unfold str_bytes. rewrite length_app. cbn. lia. Qed.

Lemma readChar_reads c : reads readChar [c] c.
Proof. intros p r. unfold readChar. cbn [app]. rewrite rd_app. done. Qed.

Lemma readInt_reads n : 0 <= n < 65536 → reads readInt (int_bytes n) n.
Proof.
  intros Hn p r. unfold readInt, int_bytes. cbn [app]. rewrite rd_app, bind_ok.
  pose proof (rd_app (p ++ [n / 256]) (n mod 256) r) as E.
  rewrite <- app_assoc in E. cbn [app] in E.
  replace (zlen (p ++ [n / 256])) with (zlen p + 1) in E by lens. rewrite E.
  cbn. oks; zdiv.
Qed.

(** A string of characters [s] that was read out of a buffer which continues with [r]. *)
Definition view_string (s r : list Z) : MQTTString :=
  mkMQTTString None (mkLenString (zlen s) (Some (s ++ r))).

Lemma ptr_into_app p r : ptr_into (p ++ r) (zlen p) = r.
Proof. unfold ptr_into. by rewrite Nat2Z.id, drop_app_length. Qed.

Lemma readMQTTLenString_reads ms s p r enddata :
  zlen s < 65536 → zlen p + zlen (str_bytes s) <= enddata →
  readMQTTLenString ms (p ++ str_bytes s ++ r) (zlen p) enddata
    = Ok (true, view_string s r, zlen p + zlen (str_bytes s)).
Proof.
  intros Hs He. rewrite str_bytes_len in *. unfold readMQTTLenString, str_bytes.
  destruct (Z.ltb_spec 1 (enddata - zlen p)); [|lia].
  rewrite <- app_assoc, readInt_reads, bind_ok by lia.
  change (zlen (int_bytes (zlen s))) with 2.
  destruct (Z.leb_spec (zlen p + 2 + zlen s) enddata); [|lia].
  replace (zlen p + 2) with (zlen (p ++ int_bytes (zlen s))) by (unfold int_bytes; lens).
  rewrite app_assoc, ptr_into_app. oks. unfold int_bytes; lens.
Qed.

Lemma header_roundtrip t d q r :
  0 <= t < 16 → 0 <= d < 2 → 0 <= q < 4 → 0 <= r < 2 →
  byte_header (header_byte (mkHeader t d q r)) = mkHeader t d q r.
Proof. intros. unfold byte_header, header_byte. cbn. f_equal; zdiv. Qed.

Lemma header_byte_u8 h : is_u8 (header_byte h).
Proof. unfold is_u8, header_byte. zdiv. Qed.

(** ** Theorems *)

(** The length field written by [MQTTPacket_encode] at any place of a buffer is decoded by
    [MQTTPacket_decodeBuf] to the same length, with the same number of bytes, for every length the
    protocol allows. *)
Theorem length_field_roundtrip n p r :
  0 <= n < 268435456 → zlen (length_bytes n) <= zlen r →
  ∃ buf k, MQTTPacket_encode (W (p ++ r) (zlen p)) n = Ok (W buf (zlen p + k), k) ∧
    MQTTPacket_decodeBuf buf (zlen p) = Ok (k, n) ∧ 1 <= k <= 4.
Proof.
  intros Hn Hr. exists (p ++ length_bytes n ++ drop (length (length_bytes n)) r),
    (zlen (length_bytes n)). split_and!.
  - unfold MQTTPacket_encode, encode_fuel. rewrite encode_loop_emits by (cbn; lia). cbn zeta.
    fold (length_bytes n). by rewrite decide_True by lia.
  - by apply decodeBuf_reads.
  - rewrite length_bytes_size by lia. repeat case_match; lia.
  - rewrite length_bytes_size by lia. repeat case_match; lia.
Qed.

Lemma length_field_roundtrip_witness :
  zlen (length_bytes 300) <= zlen [0; 0; 0] ∧
  ∃ buf k, MQTTPacket_encode (W ([48] ++ [0; 0; 0]) (zlen [48])) 300 = Ok (W buf (zlen [48] + k), k) ∧
    MQTTPacket_decodeBuf buf (zlen [48]) = Ok (k, 300) ∧ 1 <= k <= 4.
Proof.
  split; [vm_compute; discriminate|].
  apply (length_field_roundtrip 300 [48] [0; 0; 0]); [lia|vm_compute; discriminate].
Defined.

(** [MQTTPacket_len] is the size of the packet (header byte, length field and [n] bytes) except
    for four lengths next to the limits of the length field, for which it is one more: it never
    under-estimates the room a packet needs. *)
Theorem MQTTPacket_len_exact n :
  0 <= n < 268435456 →
  MQTTPacket_len n = 1 + zlen (length_bytes n) + n +
    b2z (bool_decide (n ∈ [127; 16383; 2097150; 2097151])).
Proof.
  intros Hn. rewrite length_bytes_size by done. unfold MQTTPacket_len, b2z.
  repeat match goal with |- context [?a <? ?k] => destruct (Z.ltb_spec a k) end;
    case_bool_decide as Hin; rewrite !elem_of_cons, elem_of_nil in Hin; lia.
Qed.

Lemma MQTTPacket_len_exact_witness :
  0 <= 127 < 268435456 ∧
  MQTTPacket_len 127 = 1 + zlen (length_bytes 127) + 127 +
    b2z (bool_decide (127 ∈ [127; 16383; 2097150; 2097151])).
Proof. split; [lia|]. apply (MQTTPacket_len_exact 127). lia. Defined.

Lemma MQTTPacket_len_bound n : 0 <= n < 268435456 →
  1 + zlen (length_bytes n) + n <= MQTTPacket_len n.
Proof.
  intros Hn. rewrite length_bytes_size by done. unfold MQTTPacket_len.
  repeat match goal with |- context [?a <? ?k] => destruct (Z.ltb_spec a k) end; lia.
Qed.
