(* ===== verification/MqttSerialize.v ===== *)
(** The MQTT packet writers (paho.mqtt.embedded-c/MQTTPacket/src: MQTTSerializePublish.cpp,
    MQTTConnectClient.cpp, MQTTConnectServer.cpp, MQTTSubscribeClient.cpp, MQTTSubscribeServer.cpp,
    MQTTUnsubscribeClient.cpp, MQTTUnsubscribeServer.cpp).  Every writer takes the buffer and the
    length [buflen] its caller states, and gives the buffer after the call and the C result. *)
From S2P Require Import Prelude Cursor MqttPacket.

(** Run a writer from the start of [buf]; the result is [ptr - buf]. *)
Definition serialize (buf : list Z) (f : writer) : outcome (list Z * Z) :=
  w ← f (W buf 0); Ok (w_buf w, w_pos w).

(** ** PUBLISH and its acknowledgements (MQTTSerializePublish.cpp) *)

Definition MQTTSerialize_publishLength (qos : Z) (topicName : MQTTString) (payloadlen : Z) : Z :=
  let len := 2 + MQTTstrlen topicName + payloadlen in
  if 0 <? qos then len + 2 else len.

Definition MQTTSerialize_publish (buf : list Z) (buflen dup qos retained packetid : Z)
    (topicName : MQTTString) (payload : list Z) (payloadlen : Z) : outcome (list Z * Z) :=
  let rem_len := MQTTSerialize_publishLength qos topicName payloadlen in
  if buflen <? MQTTPacket_len rem_len then Ok (buf, MQTTPACKET_BUFFER_TOO_SHORT)
  else serialize buf (λ w,
    w ← writeChar (header_byte (mkHeader PUBLISH dup qos retained)) w;
    w ← write_length rem_len w;
    w ← writeMQTTString topicName w;
    w ← (if 0 <? qos then writeInt packetid w else Ok w);
    d ← rd_n payload 0 payloadlen;
    put d w).

Definition MQTTSerialize_ack (buf : list Z) (buflen packettype dup packetid : Z)
  : outcome (list Z * Z) :=
  if buflen <? 4 then Ok (buf, MQTTPACKET_BUFFER_TOO_SHORT)
  else serialize buf (λ w,
    w ← writeChar (header_byte (mkHeader packettype dup (if packettype =? PUBREL then 1 else 0) 0)) w;
    w ← write_length 2 w;
    writeInt packetid w).

Definition MQTTSerialize_puback buf buflen packetid := MQTTSerialize_ack buf buflen PUBACK 0 packetid.
Definition MQTTSerialize_pubrel buf buflen dup packetid :=
  MQTTSerialize_ack buf buflen PUBREL dup packetid.
Definition MQTTSerialize_pubcomp buf buflen packetid :=
  MQTTSerialize_ack buf buflen PUBCOMP 0 packetid.

(** ** CONNECT, DISCONNECT and PINGREQ (MQTTConnect.h, MQTTConnectClient.cpp) *)

Record MQTTPacket_willOptions := mkWill {
  topicName : MQTTString; message : MQTTString; retained : Z; will_qos : Z }.

Definition MQTTPacket_willOptions_initializer : MQTTPacket_willOptions :=
  mkWill MQTTString_initializer MQTTString_initializer 0 0.

(** The eyecatcher [struct_id] and [struct_version], which no function reads, are left out. *)
Record MQTTPacket_connectData := mkConnect {
  MQTTVersion : Z;
  clientID : MQTTString;
  keepAliveInterval : Z;
  cleansession : Z;
  willFlag : Z;
  will : MQTTPacket_willOptions;
  username : MQTTString;
  password : MQTTString;
}.

Definition MQTTPacket_connectData_initializer : MQTTPacket_connectData :=
  mkConnect 4 MQTTString_initializer 60 1 0 MQTTPacket_willOptions_initializer
    MQTTString_initializer MQTTString_initializer.

(** The bit-fields of [MQTTConnectFlags], least significant first after the unused bit. *)
Record MQTTConnectFlags := mkFlags {
  f_cleansession : Z; f_will : Z; f_willQoS : Z; f_willRetain : Z; f_password : Z; f_username : Z }.

Definition flags_byte (f : MQTTConnectFlags) : Z :=
  (f_cleansession f mod 2) * 2 + (f_will f mod 2) * 4 + (f_willQoS f mod 4) * 8 +
  (f_willRetain f mod 2) * 32 + (f_password f mod 2) * 64 + (f_username f mod 2) * 128.

Definition byte_flags (b : Z) : MQTTConnectFlags :=
  mkFlags (b / 2 mod 2) (b / 4 mod 2) (b / 8 mod 4) (b / 32 mod 2) (b / 64 mod 2) (b / 128 mod 2).

Definition MQTTSerialize_connectLength (o : MQTTPacket_connectData) : Z :=
  let len := if MQTTVersion o =? 3 then 12 else if MQTTVersion o =? 4 then 10 else 0 in
  let len := len + (MQTTstrlen (clientID o) + 2) in
  let len := if negb (willFlag o =? 0)
             then len + (MQTTstrlen (topicName (will o)) + 2 + MQTTstrlen (message (will o)) + 2)
             else len in
  let len := if string_present (username o) then len + (MQTTstrlen (username o) + 2) else len in
  if string_present (password o) then len + (MQTTstrlen (password o) + 2) else len.

Definition connect_flags (o : MQTTPacket_connectData) : MQTTConnectFlags :=
  let w := negb (willFlag o =? 0) in
  mkFlags (cleansession o) (b2z w) (if w then will_qos (will o) else 0)
    (if w then retained (will o) else 0) (b2z (string_present (password o)))
    (b2z (string_present (username o))).

Definition MQTTSerialize_connect (buf : list Z) (buflen : Z) (o : MQTTPacket_connectData)
  : outcome (list Z * Z) :=
  let len := MQTTSerialize_connectLength o in
  if buflen <? MQTTPacket_len len then Ok (buf, MQTTPACKET_BUFFER_TOO_SHORT)
  else serialize buf (λ w,
    w ← writeChar (header_byte (mkHeader CONNECT 0 0 0)) w;
    w ← write_length len w;
    w ← (if MQTTVersion o =? 4
         then (w ← writeCString (chars "MQTT") w; writeChar 4 w)
         else (w ← writeCString (chars "MQIsdp") w; writeChar 3 w));
    w ← writeChar (flags_byte (connect_flags o)) w;
    w ← writeInt (keepAliveInterval o) w;
    w ← writeMQTTString (clientID o) w;
    w ← (if negb (willFlag o =? 0)
         then (w ← writeMQTTString (topicName (will o)) w; writeMQTTString (message (will o)) w)
         else Ok w);
    w ← (if string_present (username o) then writeMQTTString (username o) w else Ok w);
    if string_present (password o) then writeMQTTString (password o) w else Ok w).

Definition MQTTSerialize_zero (buf : list Z) (buflen packettype : Z) : outcome (list Z * Z) :=
  if buflen <? 2 then Ok (buf, MQTTPACKET_BUFFER_TOO_SHORT)
  else serialize buf (λ w,
    w ← writeChar (header_byte (mkHeader packettype 0 0 0)) w;
    write_length 0 w).

Definition MQTTSerialize_disconnect buf buflen := MQTTSerialize_zero buf buflen DISCONNECT.
Definition MQTTSerialize_pingreq buf buflen := MQTTSerialize_zero buf buflen PINGREQ.

(** ** CONNACK (MQTTConnectServer.cpp) *)

Definition MQTTSerialize_connack (buf : list Z) (buflen connack_rc sessionPresent : Z)
  : outcome (list Z * Z) :=
  if buflen <? 2 then Ok (buf, MQTTPACKET_BUFFER_TOO_SHORT)
  else serialize buf (λ w,
    w ← writeChar (header_byte (mkHeader CONNACK 0 0 0)) w;
    w ← write_length 2 w;
    w ← writeChar (sessionPresent mod 2) w;
    writeChar connack_rc w).

(** ** SUBSCRIBE, SUBACK, UNSUBSCRIBE, UNSUBACK *)

(** The arrays of topic filters and requested QoS, walked from their first element; an index past
    the end is undefined behaviour. *)
Fixpoint subscribe_length_loop (count : nat) (topicFilters : list MQTTString) (len : Z)
  : outcome Z :=
  match count, topicFilters with
  | O, _ => Ok len
  | S n, t :: ts => subscribe_length_loop n ts (len + (2 + MQTTstrlen t + 1))
  | S _, [] => Ub
  end.

Definition MQTTSerialize_subscribeLength (count : nat) (topicFilters : list MQTTString)
  : outcome Z := subscribe_length_loop count topicFilters 2.

Fixpoint write_subscriptions (count : nat) (topicFilters : list MQTTString) (qoss : list Z)
  : writer :=
  match count, topicFilters, qoss with
  | O, _, _ => Ok
  | S n, t :: ts, q :: qs => λ w,
      w ← writeMQTTString t w; w ← writeChar q w; write_subscriptions n ts qs w
  | S _, _, _ => λ _, Ub
  end.

Definition MQTTSerialize_subscribe (buf : list Z) (buflen dup packetid : Z) (count : nat)
    (topicFilters : list MQTTString) (requestedQoSs : list Z) : outcome (list Z * Z) :=
  rem_len ← MQTTSerialize_subscribeLength count topicFilters;
  if buflen <? MQTTPacket_len rem_len then Ok (buf, MQTTPACKET_BUFFER_TOO_SHORT)
  else serialize buf (λ w,
    w ← writeChar (header_byte (mkHeader SUBSCRIBE dup 1 0)) w;
    w ← write_length rem_len w;
    w ← writeInt packetid w;
    write_subscriptions count topicFilters requestedQoSs w).

Fixpoint write_chars (count : nat) (cs : list Z) : writer :=
  match count, cs with
  | O, _ => Ok
  | S n, c :: cs => λ w, w ← writeChar c w; write_chars n cs w
  | S _, [] => λ _, Ub
  end.

Definition MQTTSerialize_suback (buf : list Z) (buflen packetid : Z) (count : nat)
    (grantedQoSs : list Z) : outcome (list Z * Z) :=
  if buflen <? 2 + Z.of_nat count then Ok (buf, MQTTPACKET_BUFFER_TOO_SHORT)
  else serialize buf (λ w,
    w ← writeChar (header_byte (mkHeader SUBACK 0 0 0)) w;
    w ← write_length (2 + Z.of_nat count) w;
    w ← writeInt packetid w;
    write_chars count grantedQoSs w).

Fixpoint unsubscribe_length_loop (count : nat) (topicFilters : list MQTTString) (len : Z)
  : outcome Z :=
  match count, topicFilters with
  | O, _ => Ok len
  | S n, t :: ts => unsubscribe_length_loop n ts (len + (2 + MQTTstrlen t))
  | S _, [] => Ub
  end.

Definition MQTTSerialize_unsubscribeLength (count : nat) (topicFilters : list MQTTString)
  : outcome Z := unsubscribe_length_loop count topicFilters 2.

Fixpoint write_topics (count : nat) (topicFilters : list MQTTString) : writer :=
  match count, topicFilters with
  | O, _ => Ok
  | S n, t :: ts => λ w, w ← writeMQTTString t w; write_topics n ts w
  | S _, [] => λ _, Ub
  end.

Definition MQTTSerialize_unsubscribe (buf : list Z) (buflen dup packetid : Z) (count : nat)
    (topicFilters : list MQTTString) : outcome (list Z * Z) :=
  rem_len ← MQTTSerialize_unsubscribeLength count topicFilters;
  if buflen <? MQTTPacket_len rem_len then Ok (buf, MQTTPACKET_BUFFER_TOO_SHORT)
  else serialize buf (λ w,
    w ← writeChar (header_byte (mkHeader UNSUBSCRIBE dup 1 0)) w;
    w ← write_length rem_len w;
    w ← writeInt packetid w;
    write_topics count topicFilters w).

Definition MQTTSerialize_unsuback (buf : list Z) (buflen packetid : Z) : outcome (list Z * Z) :=
  if buflen <? 2 then Ok (buf, MQTTPACKET_BUFFER_TOO_SHORT)
  else serialize buf (λ w,
    w ← writeChar (header_byte (mkHeader UNSUBACK 0 0 0)) w;
    w ← write_length 2 w;
    writeInt packetid w).

(** ** What is on the wire *)

Definition header_bytes (t dup qos retain : Z) : list Z := [header_byte (mkHeader t dup qos retain)].

(** A packet: header byte, length field, body. *)
Definition packet (h : list Z) (body : list Z) : list Z := h ++ length_bytes (zlen body) ++ body.

Definition publish_body (qos packetid : Z) (topic payload : list Z) : list Z :=
  str_bytes topic ++ (if 0 <? qos then int_bytes packetid else []) ++ payload.

Definition publish_packet (dup qos retained packetid : Z) (topic payload : list Z) : list Z :=
  packet (header_bytes PUBLISH dup qos retained) (publish_body qos packetid topic payload).

Definition ack_packet (t dup packetid : Z) : list Z :=
  packet (header_bytes t dup (if t =? PUBREL then 1 else 0) 0) (int_bytes packetid).

Definition subscribe_body (packetid : Z) (subs : list (list Z * Z)) : list Z :=
  int_bytes packetid ++ concat (map (λ '(t, q), str_bytes t ++ [q]) subs).

Definition unsubscribe_body (packetid : Z) (topics : list (list Z)) : list Z :=
  int_bytes packetid ++ concat (map str_bytes topics).

(** The content of connect options all of whose strings are well formed. *)
Record connect_spec := mkConnectSpec {
  sp_version : Z; sp_client : list Z; sp_keepalive : Z; sp_clean : Z;
  sp_will : option (list Z * list Z * Z * Z);  (* topic, message, qos, retained *)
  sp_user : option (list Z); sp_pass : option (list Z) }.

Definition opt_str (m : MQTTString) (o : option (list Z)) : Prop :=
  match o with Some s => mqtt_str m s ∧ string_present m = true | None => m = MQTTString_initializer end.

Record connect_ok (o : MQTTPacket_connectData) (sp : connect_spec) : Prop := {
  co_version : MQTTVersion o = sp_version sp;
  co_client : mqtt_str (clientID o) (sp_client sp);
  co_keepalive : keepAliveInterval o = sp_keepalive sp;
  co_keepalive_u16 : is_u16 (sp_keepalive sp);
  co_clean : cleansession o = sp_clean sp;
  co_will : match sp_will sp with
            | Some (t, m, q, r) => willFlag o ≠ 0 ∧ mqtt_str (topicName (will o)) t ∧
                mqtt_str (message (will o)) m ∧ will_qos (will o) = q ∧ retained (will o) = r
            | None => willFlag o = 0
            end;
  co_user : opt_str (username o) (sp_user sp);
  co_pass : opt_str (password o) (sp_pass sp);
}.

Definition spec_flags (sp : connect_spec) : MQTTConnectFlags :=
  mkFlags (sp_clean sp) (b2z (bool_decide (is_Some (sp_will sp))))
    (match sp_will sp with Some (_, _, q, _) => q | None => 0 end)
    (match sp_will sp with Some (_, _, _, r) => r | None => 0 end)
    (b2z (bool_decide (is_Some (sp_pass sp)))) (b2z (bool_decide (is_Some (sp_user sp)))).

Definition from_opt (o : option (list Z)) : list Z :=
  match o with Some s => str_bytes s | None => [] end.

Definition protocol_bytes (version : Z) : list Z :=
  if version =? 4 then str_bytes (chars "MQTT") ++ [4] else str_bytes (chars "MQIsdp") ++ [3].

Definition connect_body (sp : connect_spec) : list Z :=
  protocol_bytes (sp_version sp) ++ [flags_byte (spec_flags sp)] ++ int_bytes (sp_keepalive sp) ++
  str_bytes (sp_client sp) ++
  (match sp_will sp with Some (t, m, _, _) => str_bytes t ++ str_bytes m | None => [] end) ++
  from_opt (sp_user sp) ++ from_opt (sp_pass sp).

Definition connect_packet (sp : connect_spec) : list Z :=
  packet (header_bytes CONNECT 0 0 0) (connect_body sp).

(** ** Every writer emits its packet *)

Lemma emits_cond (b : bool) (f : writer) l :
  (b = true → emits f l) → emits (λ w, if b then f w else Ok w) (if b then l else []).
Proof. intros H. apply emits_if; auto using emits_ok. Qed.

Lemma emits_header t d q r : emits (writeChar (header_byte (mkHeader t d q r))) (header_bytes t d q r).
Proof.
  eapply emits_eq; [apply writeChar_emits|]. by rewrite u8_id by apply header_byte_u8.
Qed.

#[export] Hint Resolve emits_header writeInt_emits writeMQTTString_emits writeCString_emits
  write_length_emits writeChar_emits : emits.

(** Split a writer into its steps. *)
Ltac emit := repeat (eapply emits_seq; [by eauto with emits|]).

Lemma serialize_packet buf buflen f h body :
  emits f (packet h body) → length h = 1%nat → zlen body < 268435456 →
  MQTTPacket_len (zlen body) <= buflen → buflen <= zlen buf →
  serialize buf f
    = Ok (packet h body ++ drop (length (packet h body)) buf, zlen (packet h body)) ∧
  zlen (packet h body) <= MQTTPacket_len (zlen body).
Proof.
  intros Hf Hh Hb Hl Hbuf.
  assert (zlen (packet h body) <= MQTTPacket_len (zlen body)).
  { pose proof (MQTTPacket_len_bound (zlen body)). unfold packet. rewrite !length_app. lia. }
  unfold serialize. rewrite (emits_fits f (packet h body) buf Hf) by lia. done.
Qed.

Lemma publish_length m topic payload qos id : mqtt_str m topic →
  MQTTSerialize_publishLength qos m (zlen payload) = zlen (publish_body qos id topic payload).
Proof.
  intros Hm. unfold MQTTSerialize_publishLength, publish_body.
  rewrite (MQTTstrlen_str _ _ Hm). rewrite !length_app, !Nat2Z.inj_add, str_bytes_len.
  destruct (0 <? qos); unfold int_bytes; cbn [length]; lia.
Qed.

(** With a buffer at least as long as it is told, [MQTTSerialize_publish] either finds the
    packet too long and leaves the buffer alone, or writes exactly the PUBLISH packet of its
    arguments at the start of the buffer, within [buflen]. *)
Theorem MQTTSerialize_publish_spec buf buflen dup qos retain id m topic payload :
  mqtt_str m topic → is_u16 id → zlen (publish_body qos id topic payload) < 268435456 →
  buflen <= zlen buf →
  let pkt := publish_packet dup qos retain id topic payload in
  let need := MQTTPacket_len (zlen (publish_body qos id topic payload)) in
  MQTTSerialize_publish buf buflen dup qos retain id m payload (zlen payload) =
    (if buflen <? need then Ok (buf, MQTTPACKET_BUFFER_TOO_SHORT)
     else Ok (pkt ++ drop (length pkt) buf, zlen pkt)) ∧ zlen pkt <= need.
Proof.
  intros Hm Hid Hb Hbuf. cbn zeta. unfold MQTTSerialize_publish.
  rewrite (publish_length m topic payload qos id Hm). unfold is_u16 in *.
  assert (zlen (publish_packet dup qos retain id topic payload)
            <= MQTTPacket_len (zlen (publish_body qos id topic payload))).
  { pose proof (MQTTPacket_len_bound (zlen (publish_body qos id topic payload))).
    unfold publish_packet, packet, header_bytes. rewrite !length_app. cbn [length]. lia. }
  split; [|done]. destruct (Z.ltb_spec buflen (MQTTPacket_len (zlen (publish_body qos id topic payload))));
    [done|].
  eapply serialize_packet; [|done|done..].
  eapply emits_seq; [apply emits_header|]. eapply emits_seq; [apply write_length_emits; lia|].
  unfold publish_body. eapply emits_seq; [by apply writeMQTTString_emits|].
  eapply emits_seq; [apply emits_cond; intros; by apply writeInt_emits|].
  apply (emits_ext (put payload)); [|apply emits_put]. intros w. by rewrite rd_n_0.
Qed.

Lemma MQTTSerialize_publish_spec_witness :
  mqtt_str (c_string (chars "r/123")) (chars "r/123") ∧
  MQTTSerialize_publish (replicate 80 0) 80 0 1 0 7 (c_string (chars "r/123")) (chars "8.25") 4 =
    Ok (publish_packet 0 1 0 7 (chars "r/123") (chars "8.25") ++ replicate 65 0, 15) ∧
  zlen (publish_packet 0 1 0 7 (chars "r/123") (chars "8.25")) <= 15.
Proof.
  split; [constructor; vm_compute; reflexivity|].
  apply (MQTTSerialize_publish_spec (replicate 80 0) 80 0 1 0 7 (c_string (chars "r/123"))
           (chars "r/123") (chars "8.25")); [constructor|unfold is_u16| |]; vm_compute; done.
Defined.

Lemma ack_packet_len t dup id : zlen (ack_packet t dup id) = 4.
Proof. done. Qed.

Lemma ack_emits t dup id : is_u16 id →
  emits (λ w, w ← writeChar (header_byte (mkHeader t dup (if t =? PUBREL then 1 else 0) 0)) w;
              w ← write_length 2 w; writeInt id w) (ack_packet t dup id).
Proof.
  intros Hid. eapply emits_seq; [apply emits_header|].
  eapply emits_seq; [by apply write_length_emits|]. by apply writeInt_emits.
Qed.

Lemma MQTTSerialize_ack_spec buf buflen t dup id : is_u16 id → buflen <= zlen buf →
  MQTTSerialize_ack buf buflen t dup id =
    if buflen <? 4 then Ok (buf, MQTTPACKET_BUFFER_TOO_SHORT)
    else Ok (ack_packet t dup id ++ drop 4 buf, 4).
Proof.
  intros Hid Hb. unfold MQTTSerialize_ack. destruct (Z.ltb_spec buflen 4); [done|].
  unfold serialize. rewrite (emits_fits _ _ buf (ack_emits t dup id Hid)); [done|].
  rewrite ack_packet_len. lia.
Qed.

Lemma zero_emits t :
  emits (λ w, w ← writeChar (header_byte (mkHeader t 0 0 0)) w; write_length 0 w)
    (packet (header_bytes t 0 0 0) []).
Proof. eapply emits_seq; [apply emits_header|]. by apply write_length_emits. Qed.

Lemma MQTTSerialize_zero_spec buf buflen t : buflen <= zlen buf →
  MQTTSerialize_zero buf buflen t =
    if buflen <? 2 then Ok (buf, MQTTPACKET_BUFFER_TOO_SHORT)
    else Ok ([header_byte (mkHeader t 0 0 0); 0] ++ drop 2 buf, 2).
Proof.
  intros Hb. unfold MQTTSerialize_zero. destruct (Z.ltb_spec buflen 2); [done|].
  unfold serialize. rewrite (emits_fits _ _ buf (zero_emits t)); [done|].
  change (zlen (packet _ [])) with 2. lia.
Qed.

(** ** CONNECT *)

Lemma opt_str_present m o : opt_str m o → string_present m = bool_decide (is_Some o).
Proof. destruct o; cbn; [intros [_ ->]; done|by intros ->]. Qed.

Lemma opt_str_emits m o : opt_str m o →
  emits (λ w, if string_present m then writeMQTTString m w else Ok w) (from_opt o).
Proof.
  intros H. destruct o as [s|]; cbn in H.
  - destruct H as [H E]. rewrite E. by apply writeMQTTString_emits.
  - subst. apply emits_ok.
Qed.

Lemma opt_str_len m o : opt_str m o →
  (if string_present m then MQTTstrlen m + 2 else 0) = zlen (from_opt o).
Proof.
  intros H. destruct o as [s|]; cbn [opt_str from_opt] in *; [|by subst].
  destruct H as [H ->]. by rewrite (MQTTstrlen_str _ _ H), str_bytes_len.
Qed.

Lemma connect_length o sp : connect_ok o sp → sp_version sp = 3 ∨ sp_version sp = 4 →
  MQTTSerialize_connectLength o = zlen (connect_body sp).
Proof.
  intros [] Hv. unfold MQTTSerialize_connectLength, connect_body.
  rewrite !length_app, !Nat2Z.inj_add, str_bytes_len, co_version0, (MQTTstrlen_str _ _ co_client0).
  rewrite <- (opt_str_len _ _ co_user0), <- (opt_str_len _ _ co_pass0).
  assert ((if negb (willFlag o =? 0)
           then MQTTstrlen (topicName (will o)) + 2 + MQTTstrlen (message (will o)) + 2 else 0)
          = zlen (match sp_will sp with Some (t, m, _, _) => str_bytes t ++ str_bytes m | None => [] end)) as <-.
  { destruct (sp_will sp) as [[[[t m] q] r]|].
    - destruct co_will0 as (Hw & Ht & Hm & _). apply Z.eqb_neq in Hw. rewrite Hw. cbn [negb].
      rewrite (MQTTstrlen_str _ _ Ht), (MQTTstrlen_str _ _ Hm). rewrite length_app, Nat2Z.inj_add, !str_bytes_len. lia.
    - rewrite co_will0. done. }
  change (zlen [_]) with 1. change (zlen (int_bytes _)) with 2.
  destruct Hv as [Hv|Hv]; rewrite Hv; cbn [Z.eqb Pos.eqb]; unfold protocol_bytes; rewrite ?Hv;
    cbn [Z.eqb Pos.eqb];
    [change (zlen (str_bytes (chars "MQIsdp") ++ [3])) with 9
    |change (zlen (str_bytes (chars "MQTT") ++ [4])) with 7];
    destruct (negb _), (string_present _), (string_present _); lia.
Qed.

Lemma connect_flags_spec o sp : connect_ok o sp → connect_flags o = spec_flags sp.
Proof.
  intros []. unfold connect_flags, spec_flags.
  rewrite (opt_str_present _ _ co_user0), (opt_str_present _ _ co_pass0), co_clean0.
  destruct (sp_will sp) as [[[[t m] q] r]|].
  - destruct co_will0 as (Hw & _ & _ & -> & ->). apply Z.eqb_neq in Hw. by rewrite Hw.
  - by rewrite co_will0.
Qed.

Lemma flags_byte_u8 f : is_u8 (flags_byte f).
Proof. unfold is_u8, flags_byte. zdiv. Qed.

(** The writer of [MQTTSerialize_connect] after the length test. *)
Lemma connect_emits o sp len : connect_ok o sp → len = zlen (connect_body sp) →
  0 <= len < 268435456 →
  emits (λ w,
    w ← writeChar (header_byte (mkHeader CONNECT 0 0 0)) w;
    w ← write_length len w;
    w ← (if MQTTVersion o =? 4
         then (w ← writeCString (chars "MQTT") w; writeChar 4 w)
         else (w ← writeCString (chars "MQIsdp") w; writeChar 3 w));
    w ← writeChar (flags_byte (connect_flags o)) w;
    w ← writeInt (keepAliveInterval o) w;
    w ← writeMQTTString (clientID o) w;
    w ← (if negb (willFlag o =? 0)
         then (w ← writeMQTTString (topicName (will o)) w; writeMQTTString (message (will o)) w)
         else Ok w);
    w ← (if string_present (username o) then writeMQTTString (username o) w else Ok w);
    if string_present (password o) then writeMQTTString (password o) w else Ok w)
  (connect_packet sp).
Proof.
  intros Hok -> Hl. pose proof (connect_flags_spec o sp Hok) as Hfl. destruct Hok.
  eapply emits_seq; [apply emits_header|]. eapply emits_seq; [apply write_length_emits; lia|].
  unfold connect_body. eapply emits_seq.
  { rewrite co_version0. unfold protocol_bytes. apply emits_if; intros _;
      (eapply emits_seq; [by apply writeCString_emits|]);
      (eapply emits_eq; [apply writeChar_emits|done]). }
  eapply emits_seq.
  { rewrite Hfl. eapply emits_eq; [apply writeChar_emits|].
    by rewrite u8_id by apply flags_byte_u8. }
  eapply emits_seq; [rewrite co_keepalive0; by apply writeInt_emits|].
  eapply emits_seq; [by apply writeMQTTString_emits|].
  eapply emits_seq.
  { destruct (sp_will sp) as [[[[t m] q] r]|].
    - destruct co_will0 as (Hw & Ht & Hm & _). apply Z.eqb_neq in Hw. rewrite Hw. cbn [negb].
      eapply emits_seq; by apply writeMQTTString_emits.
    - rewrite co_will0. apply emits_ok. }
  eapply emits_seq; by apply opt_str_emits.
Qed.

(** For the two protocol versions the library knows, [MQTTSerialize_connect] either reports the
    buffer too short and leaves it alone or writes exactly the CONNECT packet of its options,
    within [buflen]. *)
Theorem MQTTSerialize_connect_spec buf buflen o sp :
  connect_ok o sp → sp_version sp = 3 ∨ sp_version sp = 4 →
  zlen (connect_body sp) < 268435456 → buflen <= zlen buf →
  let pkt := connect_packet sp in
  let need := MQTTPacket_len (zlen (connect_body sp)) in
  MQTTSerialize_connect buf buflen o =
    (if buflen <? need then Ok (buf, MQTTPACKET_BUFFER_TOO_SHORT)
     else Ok (pkt ++ drop (length pkt) buf, zlen pkt)) ∧ zlen pkt <= need.
Proof.
  intros Hok Hv Hb Hbuf. cbn zeta. unfold MQTTSerialize_connect.
  rewrite (connect_length o sp Hok Hv).
  assert (zlen (connect_packet sp) <= MQTTPacket_len (zlen (connect_body sp))).
  { pose proof (MQTTPacket_len_bound (zlen (connect_body sp))).
    unfold connect_packet, packet, header_bytes. rewrite !length_app. cbn [length]. lia. }
  split; [|done]. destruct (Z.ltb_spec buflen (MQTTPacket_len (zlen (connect_body sp)))); [done|].
  unfold serialize.
  rewrite (emits_fits _ _ buf (connect_emits o sp _ Hok eq_refl ltac:(lia))); [done|lia].
Qed.

(** The options the application connects with (src/MQTT.cpp). *)
Definition demo_options : MQTTPacket_connectData :=
  mkConnect 3 (c_string (chars "RadProt_IoT")) 60 1 0 MQTTPacket_willOptions_initializer
    (c_string (chars "user")) (c_string (chars "pw")).

Definition demo_spec : connect_spec :=
  mkConnectSpec 3 (chars "RadProt_IoT") 60 1 None (Some (chars "user")) (Some (chars "pw")).

Lemma demo_options_ok : connect_ok demo_options demo_spec.
Proof.
  constructor; try done; [apply mqtt_cstr; vm_compute; done| |];
    (split; [apply mqtt_cstr; vm_compute; done|done]).
Qed.

Lemma MQTTSerialize_connect_spec_witness :
  connect_ok demo_options demo_spec ∧
  MQTTSerialize_connect (replicate 80 0) 80 demo_options =
    Ok (connect_packet demo_spec ++ drop (length (connect_packet demo_spec)) (replicate 80 0),
        zlen (connect_packet demo_spec)) ∧
  zlen (connect_packet demo_spec) <= MQTTPacket_len (zlen (connect_body demo_spec)).
Proof.
  split; [exact demo_options_ok|].
  apply (MQTTSerialize_connect_spec (replicate 80 0) 80 demo_options demo_spec);
    [exact demo_options_ok|by left|vm_compute; done|vm_compute; done].
Defined.

(** ** SUBSCRIBE and UNSUBSCRIBE *)

Lemma subscribe_length ms subs len :
  Forall2 (λ m s, mqtt_str m s.1) ms subs →
  subscribe_length_loop (length subs) ms len
    = Ok (len + zlen (concat (map (λ '(t, q), str_bytes t ++ [q]) subs))).
Proof.
  intros H. revert len. induction H as [|m [t q] ms subs Hm H IH]; intros len; [cbn; f_equal; lia|].
  cbn [length subscribe_length_loop map concat]. rewrite IH, (MQTTstrlen_str _ _ Hm). cbn [fst].
  rewrite !length_app, !Nat2Z.inj_add, str_bytes_len. cbn [length]. f_equal. lia.
Qed.

Lemma write_subscriptions_emits ms subs :
  Forall2 (λ m s, mqtt_str m s.1) ms subs → Forall (λ s, is_u8 s.2) subs →
  emits (write_subscriptions (length subs) ms (map snd subs))
    (concat (map (λ '(t, q), str_bytes t ++ [q]) subs)).
Proof.
  intros H. induction H as [|m [t q] ms subs Hm H IH]; intros Hq; [apply emits_ok|].
  apply Forall_cons in Hq as [Hq Hqs]. cbn [length write_subscriptions map concat snd].
  rewrite <- app_assoc. eapply emits_seq; [by apply writeMQTTString_emits|].
  eapply emits_seq; [|by apply IH].
  eapply emits_eq; [apply writeChar_emits|]. by rewrite u8_id.
Qed.

Lemma packet_need h body : length h = 1%nat → zlen body < 268435456 →
  zlen (packet h body) <= MQTTPacket_len (zlen body).
Proof.
  intros Hh Hb. pose proof (MQTTPacket_len_bound (zlen body)). unfold packet.
  rewrite !length_app. lia.
Qed.

Definition subscribe_packet (dup packetid : Z) (subs : list (list Z * Z)) : list Z :=
  packet (header_bytes SUBSCRIBE dup 1 0) (subscribe_body packetid subs).

(** [MQTTSerialize_subscribe] reports a short buffer and leaves it alone or writes exactly the
    SUBSCRIBE packet of its filters and requested QoS, within [buflen]. *)
Theorem MQTTSerialize_subscribe_spec buf buflen dup id ms subs :
  Forall2 (λ m s, mqtt_str m s.1) ms subs → Forall (λ s, is_u8 s.2) subs → is_u16 id →
  zlen (subscribe_body id subs) < 268435456 → buflen <= zlen buf →
  let pkt := subscribe_packet dup id subs in
  let need := MQTTPacket_len (zlen (subscribe_body id subs)) in
  MQTTSerialize_subscribe buf buflen dup id (length subs) ms (map snd subs) =
    (if buflen <? need then Ok (buf, MQTTPACKET_BUFFER_TOO_SHORT)
     else Ok (pkt ++ drop (length pkt) buf, zlen pkt)) ∧ zlen pkt <= need.
Proof.
  intros Hm Hq Hid Hb Hbuf. cbn zeta. split; [|by apply packet_need].
  unfold MQTTSerialize_subscribe, MQTTSerialize_subscribeLength.
  rewrite (subscribe_length ms subs 2 Hm), bind_ok.
  replace (2 + _) with (zlen (subscribe_body id subs)) by (unfold subscribe_body, int_bytes; lens).
  destruct (Z.ltb_spec buflen (MQTTPacket_len (zlen (subscribe_body id subs)))); [done|].
  eapply serialize_packet; [|done|done..].
  eapply emits_seq; [apply emits_header|]. eapply emits_seq; [apply write_length_emits; lia|].
  eapply emits_seq; [by apply writeInt_emits|]. by apply write_subscriptions_emits.
Qed.

Lemma MQTTSerialize_subscribe_spec_witness :
  Forall2 (λ m s, mqtt_str m s.1) [c_string (chars "a/#")] [(chars "a/#", 1)] ∧
  MQTTSerialize_subscribe (replicate 20 0) 20 0 9 1 [c_string (chars "a/#")] [1] =
    Ok (subscribe_packet 0 9 [(chars "a/#", 1)] ++ replicate 10 0, 10) ∧
  zlen (subscribe_packet 0 9 [(chars "a/#", 1)]) <= 10.
Proof.
  assert (Forall2 (λ m s, mqtt_str m s.1) [c_string (chars "a/#")] [(chars "a/#", 1)]) as H.
  { repeat constructor. }
  split; [exact H|].
  apply (MQTTSerialize_subscribe_spec (replicate 20 0) 20 0 9 [c_string (chars "a/#")]
           [(chars "a/#", 1)]); [exact H|repeat constructor; cbn; lia|unfold is_u16; lia
    |vm_compute; done|vm_compute; discriminate].
Defined.

Lemma unsubscribe_length ms topics len : Forall2 mqtt_str ms topics →
  unsubscribe_length_loop (length topics) ms len = Ok (len + zlen (concat (map str_bytes topics))).
Proof.
  intros H. revert len. induction H as [|m t ms topics Hm H IH]; intros len; [cbn; f_equal; lia|].
  cbn [length unsubscribe_length_loop map concat]. rewrite IH, (MQTTstrlen_str _ _ Hm).
  rewrite !length_app, !Nat2Z.inj_add, str_bytes_len. f_equal. lia.
Qed.

Lemma write_topics_emits ms topics : Forall2 mqtt_str ms topics →
  emits (write_topics (length topics) ms) (concat (map str_bytes topics)).
Proof.
  induction 1 as [|m t ms topics Hm H IH]; [apply emits_ok|].
  cbn [length write_topics map concat]. eapply emits_seq; [by apply writeMQTTString_emits|done].
Qed.

Definition unsubscribe_packet (dup packetid : Z) (topics : list (list Z)) : list Z :=
  packet (header_bytes UNSUBSCRIBE dup 1 0) (unsubscribe_body packetid topics).

Lemma MQTTSerialize_unsubscribe_spec buf buflen dup id ms topics :
  Forall2 mqtt_str ms topics → is_u16 id →
  zlen (unsubscribe_body id topics) < 268435456 → buflen <= zlen buf →
  let pkt := unsubscribe_packet dup id topics in
  let need := MQTTPacket_len (zlen (unsubscribe_body id topics)) in
  MQTTSerialize_unsubscribe buf buflen dup id (length topics) ms =
    (if buflen <? need then Ok (buf, MQTTPACKET_BUFFER_TOO_SHORT)
     else Ok (pkt ++ drop (length pkt) buf, zlen pkt)) ∧ zlen pkt <= need.
Proof.
  intros Hm Hid Hb Hbuf. cbn zeta. split; [|by apply packet_need].
  unfold MQTTSerialize_unsubscribe, MQTTSerialize_unsubscribeLength.
  rewrite (unsubscribe_length ms topics 2 Hm), bind_ok.
  replace (2 + _) with (zlen (unsubscribe_body id topics)) by (unfold unsubscribe_body, int_bytes; lens).
  destruct (Z.ltb_spec buflen (MQTTPacket_len (zlen (unsubscribe_body id topics)))); [done|].
  eapply serialize_packet; [|done|done..].
  eapply emits_seq; [apply emits_header|]. eapply emits_seq; [apply write_length_emits; lia|].
  eapply emits_seq; [by apply writeInt_emits|]. by apply write_topics_emits.
Qed.

(** ** Writers with too small a length test *)

Lemma connack_emits rc sp :
  emits (λ w,
    w ← writeChar (header_byte (mkHeader CONNACK 0 0 0)) w;
    w ← write_length 2 w;
    w ← writeChar (sp mod 2) w;
    writeChar rc w) ([header_byte (mkHeader CONNACK 0 0 0); 2; sp mod 2; u8 rc]).
Proof.
  eapply emits_eq.
  - eapply emits_seq; [apply emits_header|].
    eapply emits_seq; [apply write_length_emits; lia|].
    eapply emits_seq; apply writeChar_emits.
  - cbn. rewrite u8_id; [done|]. unfold is_u8. zdiv.
Qed.

Lemma unsuback_emits id : is_u16 id →
  emits (λ w,
    w ← writeChar (header_byte (mkHeader UNSUBACK 0 0 0)) w;
    w ← write_length 2 w;
    writeInt id w) (packet (header_bytes UNSUBACK 0 0 0) (int_bytes id)).
Proof.
  intros. eapply emits_seq; [apply emits_header|].
  eapply emits_seq; [by apply write_length_emits|]. by apply writeInt_emits.
Qed.

Lemma write_chars_emits cs : Forall is_u8 cs → emits (write_chars (length cs) cs) cs.
Proof.
  induction 1 as [|c cs Hc H IH]; [apply emits_ok|]. cbn [length write_chars].
  apply (emits_seq _ _ [c] cs); [|done].
  eapply emits_eq; [apply writeChar_emits|]. by rewrite u8_id.
Qed.

Lemma suback_emits id qs : is_u16 id → Forall is_u8 qs → zlen qs < 100000 →
  emits (λ w,
    w ← writeChar (header_byte (mkHeader SUBACK 0 0 0)) w;
    w ← write_length (2 + zlen qs) w;
    w ← writeInt id w;
    write_chars (length qs) qs w) (packet (header_bytes SUBACK 0 0 0) (int_bytes id ++ qs)).
Proof.
  intros. eapply emits_seq; [apply emits_header|].
  eapply emits_seq.
  { eapply emits_eq; [apply write_length_emits; lia|]. f_equal. unfold int_bytes. lens. }
  eapply emits_seq; [by apply writeInt_emits|]. by apply write_chars_emits.
Qed.

(** The server-side acknowledgement writers test for less room than they use: with a buffer of
    exactly [buflen] bytes, [MQTTSerialize_connack] and [MQTTSerialize_unsuback] write past its end
    when [buflen] is 2 or 3, and [MQTTSerialize_suback] when [buflen] is two or three more than the
    number of granted QoS. *)
Theorem ack_writers_overflow buf rc sp id qs :
  is_u16 id → Forall is_u8 qs → zlen qs < 100 →
  (2 <= zlen buf < 4 → MQTTSerialize_connack buf (zlen buf) rc sp = Ub) ∧
  (2 <= zlen buf < 4 → MQTTSerialize_unsuback buf (zlen buf) id = Ub) ∧
  (2 + zlen qs <= zlen buf < 4 + zlen qs →
     MQTTSerialize_suback buf (zlen buf) id (length qs) qs = Ub).
Proof.
  intros Hid Hqs Hq. split_and!; intros Hb.
  - unfold MQTTSerialize_connack. destruct (Z.ltb_spec (zlen buf) 2); [lia|].
    unfold serialize. rewrite (emits_overflow _ _ buf (connack_emits rc sp)); [done|cbn; lia].
  - unfold MQTTSerialize_unsuback. destruct (Z.ltb_spec (zlen buf) 2); [lia|].
    unfold serialize. rewrite (emits_overflow _ _ buf (unsuback_emits id Hid)); [done|].
    change (zlen (packet _ _)) with 4. lia.
  - unfold MQTTSerialize_suback. destruct (Z.ltb_spec (zlen buf) (2 + zlen qs)); [lia|].
    unfold serialize. rewrite (emits_overflow _ _ buf (suback_emits id qs Hid Hqs ltac:(lia))); [done|].
    assert (zlen (int_bytes id ++ qs) = 2 + zlen qs) as El by (unfold int_bytes; lens).
    unfold packet, header_bytes. set (body := int_bytes id ++ qs) in *. clearbody body.
    rewrite !length_app, !Nat2Z.inj_add, length_bytes_size by lia.
    cbn [length]. repeat case_match; lia.
Qed.

Lemma ack_writers_overflow_witness :
  is_u16 7 ∧
  (2 <= zlen [0; 0] < 4 → MQTTSerialize_connack [0; 0] (zlen [0; 0]) 0 0 = Ub) ∧
  (2 <= zlen [0; 0] < 4 → MQTTSerialize_unsuback [0; 0] (zlen [0; 0]) 7 = Ub) ∧
  (2 + zlen (@nil Z) <= zlen [0; 0] < 4 + zlen (@nil Z) →
     MQTTSerialize_suback [0; 0] (zlen [0; 0]) 7 (length (@nil Z)) [] = Ub).
Proof.
  split; [unfold is_u16; lia|].
  apply (ack_writers_overflow [0; 0] 0 0 7 []); [unfold is_u16; lia|constructor|cbn; lia].
Defined.

(** With a protocol version other than 3 and 4 the length of the CONNECT packet is counted
    without its protocol name, level, flags and keep-alive, which are written all the same: in a
    buffer of the size that was asked for, [MQTTSerialize_connect] writes past the end. *)
Theorem connect_unknown_version_overflows o s buf :
  MQTTVersion o ≠ 3 → MQTTVersion o ≠ 4 → mqtt_str (clientID o) s → is_u16 (keepAliveInterval o) →
  willFlag o = 0 → username o = MQTTString_initializer → password o = MQTTString_initializer →
  zlen buf = MQTTPacket_len (MQTTSerialize_connectLength o) →
  MQTTSerialize_connect buf (zlen buf) o = Ub.
Proof.
  intros H3 H4 Hs Hk Hw Hu Hp Hb. apply Z.eqb_neq in H3, H4.
  assert (zlen s < 65536) by (by destruct Hs; cbn).
  assert (MQTTSerialize_connectLength o = zlen s + 2) as Hl.
  { unfold MQTTSerialize_connectLength. rewrite H3, H4, Hw, Hu, Hp, (MQTTstrlen_str _ _ Hs). done. }
  unfold MQTTSerialize_connect. rewrite H4, Hw, Hu, Hp, Hl in *. cbn [negb Z.eqb string_present
    cstring ls_data lenstring MQTTString_initializer].
  rewrite Hb, Z.ltb_irrefl.
  match goal with |- serialize _ ?f = _ => assert (emits f (header_bytes CONNECT 0 0 0 ++
    length_bytes (zlen s + 2) ++ (str_bytes (chars "MQIsdp") ++ [u8 3]) ++
    [u8 (flags_byte (connect_flags o))] ++ int_bytes (keepAliveInterval o) ++ str_bytes s)) as He end.
  { eapply emits_seq; [apply emits_header|]. eapply emits_seq; [apply write_length_emits; lia|].
    eapply emits_seq; [eapply emits_seq; [by apply writeCString_emits|apply writeChar_emits]|].
    eapply emits_seq; [apply writeChar_emits|].
    eapply emits_seq; [by apply writeInt_emits|].
    eapply emits_eq; [eapply emits_seq; [by apply writeMQTTString_emits|]|apply app_nil_r].
    eapply emits_ext; [|apply emits_ok]. done. }
  unfold serialize. rewrite (emits_overflow _ _ buf He); [done|].
  rewrite Hb. unfold header_bytes. rewrite !length_app, !Nat2Z.inj_add, !str_bytes_len.
  rewrite length_bytes_size by lia. change (zlen (chars "MQIsdp")) with 6. unfold int_bytes.
  cbn [length]. unfold MQTTPacket_len. repeat case_match; lia.
Qed.

Lemma connect_unknown_version_overflows_witness :
  MQTTSerialize_connect (replicate 5 0) (zlen (replicate 5 0))
    (mkConnect 5 (c_string [65]) 60 1 0 MQTTPacket_willOptions_initializer
       MQTTString_initializer MQTTString_initializer) = Ub.
Proof.
  apply (connect_unknown_version_overflows
    (mkConnect 5 (c_string [65]) 60 1 0 MQTTPacket_willOptions_initializer
       MQTTString_initializer MQTTString_initializer) [65] (replicate 5 0));
    try done; [constructor; vm_compute; done].
Defined.
