(* ===== verification/MqttDeserialize.v ===== *)
(** The MQTT packet readers (paho.mqtt.embedded-c/MQTTPacket/src: MQTTDeserializePublish.cpp and
    the reading halves of the Connect, Subscribe and Unsubscribe files).  A reader takes the
    caller's output variables as they were and gives the C result and the variables after the call,
    so that what an early exit leaves unassigned is visible. *)
From S2P Require Import Prelude Cursor MqttPacket MqttSerialize.

(** ** PUBLISH and the acknowledgements *)

Record publish_out := mkPub {
  po_dup : Z; po_qos : Z; po_retained : Z; po_packetid : Z;
  po_topic : MQTTString; po_payload : option (list Z); po_payloadlen : Z }.

Definition MQTTDeserialize_publish (o : publish_out) (buf : list Z) (buflen : Z)
  : outcome (Z * publish_out) :=
  '(b, cur) ← readChar buf 0;
  let h := byte_header b in
  if negb (h_type h =? PUBLISH) then Ok (0, o)
  else
    '(rc, mylen) ← MQTTPacket_decodeBuf buf cur;
    let cur := cur + rc in
    let enddata := cur + mylen in
    '(ok, t, cur) ← readMQTTLenString (po_topic o) buf cur enddata;
    if negb ok || (enddata - cur <? 0) then
      Ok (rc, mkPub (h_dup h) (h_qos h) (h_retain h) (po_packetid o) t (po_payload o) (po_payloadlen o))
    else
      '(id, cur) ← (if 0 <? h_qos h
                    then ('(n, cur) ← readInt buf cur; Ok (u16 n, cur)) else Ok (po_packetid o, cur));
      Ok (1, mkPub (h_dup h) (h_qos h) (h_retain h) id t (Some (ptr_into buf cur)) (enddata - cur)).

Record ack_out := mkAck { ao_packettype : Z; ao_dup : Z; ao_packetid : Z }.

Definition MQTTDeserialize_ack (o : ack_out) (buf : list Z) (buflen : Z) : outcome (Z * ack_out) :=
  '(b, cur) ← readChar buf 0;
  let h := byte_header b in
  '(rc, mylen) ← MQTTPacket_decodeBuf buf cur;
  let cur := cur + rc in
  let enddata := cur + mylen in
  if enddata - cur <? 2 then Ok (rc, mkAck (h_type h) (h_dup h) (ao_packetid o))
  else
    '(id, _) ← readInt buf cur;
    Ok (1, mkAck (h_type h) (h_dup h) (u16 id)).

(** [MQTTDeserialize_unsuback]: the packet identifier is that of [packetid] before the call when it
    is not read. *)
Definition MQTTDeserialize_unsuback (packetid : Z) (buf : list Z) (buflen : Z) : outcome (Z * Z) :=
  '(rc, o) ← MQTTDeserialize_ack (mkAck 0 0 packetid) buf buflen;
  Ok (if ao_packettype o =? UNSUBACK then 1 else rc, ao_packetid o).

(** ** CONNACK *)

Record connack_out := mkConnack { sessionPresent : Z; connack_rc : Z }.

Definition MQTTDeserialize_connack (o : connack_out) (buf : list Z) (buflen : Z)
  : outcome (Z * connack_out) :=
  '(b, cur) ← readChar buf 0;
  if negb (h_type (byte_header b) =? CONNACK) then Ok (0, o)
  else
    '(rc, mylen) ← MQTTPacket_decodeBuf buf cur;
    let cur := cur + rc in
    let enddata := cur + mylen in
    if enddata - cur <? 2 then Ok (rc, o)
    else
      '(flags, cur) ← readChar buf cur;
      '(crc, _) ← readChar buf cur;
      Ok (1, mkConnack (flags mod 2) crc).

(** ** CONNECT *)

(** [min(6, len)] bytes of the protocol name are compared. *)
Definition name_matches (protocol : MQTTString) (name : list Z) : outcome bool :=
  let n := Z.min (zlen name) (ls_len (lenstring protocol)) in
  match ls_data (lenstring protocol) with
  | Some d => a ← rd_n d 0 n; b ← rd_n name 0 n; Ok (bool_decide (a = b))
  | None => if n =? 0 then Ok true else Ub
  end.

Definition MQTTPacket_checkVersion (protocol : MQTTString) (version : Z) : outcome bool :=
  if version =? 3 then name_matches protocol (chars "MQIsdp")
  else if version =? 4 then name_matches protocol (chars "MQTT")
  else Ok false.

Definition set_user (d : MQTTPacket_connectData) (u : MQTTString) : MQTTPacket_connectData :=
  mkConnect (MQTTVersion d) (clientID d) (keepAliveInterval d) (cleansession d) (willFlag d) (will d)
    u (password d).
Definition set_pass (d : MQTTPacket_connectData) (p : MQTTString) : MQTTPacket_connectData :=
  mkConnect (MQTTVersion d) (clientID d) (keepAliveInterval d) (cleansession d) (willFlag d) (will d)
    (username d) p.

(** The user name and password at the end of the packet. *)
Definition read_credentials (f : MQTTConnectFlags) (d : MQTTPacket_connectData) (buf : list Z)
    (cur enddata : Z) : outcome (Z * MQTTPacket_connectData) :=
  if negb (f_username f =? 0) then
    if enddata - cur <? 3 then Ok (0, d)
    else
      '(ok, u, cur) ← readMQTTLenString (username d) buf cur enddata;
      let d := set_user d u in
      if negb ok then Ok (0, d)
      else if negb (f_password f =? 0) then
        if enddata - cur <? 3 then Ok (0, d)
        else
          '(ok, p, cur) ← readMQTTLenString (password d) buf cur enddata;
          Ok (b2z ok, set_pass d p)
      else Ok (1, d)
  else if negb (f_password f =? 0) then Ok (0, d)
  else Ok (1, d).

Definition MQTTDeserialize_connect (d : MQTTPacket_connectData) (buf : list Z) (len : Z)
  : outcome (Z * MQTTPacket_connectData) :=
  let enddata := len in
  '(b, cur) ← readChar buf 0;
  if negb (h_type (byte_header b) =? CONNECT) then Ok (0, d)
  else
    '(k, mylen) ← MQTTPacket_decodeBuf buf cur;
    '(ok, proto, cur) ← readMQTTLenString MQTTString_initializer buf (cur + k) enddata;
    if negb ok || (enddata - cur <? 0) then Ok (0, d)
    else
      '(version, cur) ← readChar buf cur;
      known ← MQTTPacket_checkVersion proto version;
      if negb known then Ok (0, d)
      else
        '(fb, cur) ← readChar buf cur;
        let f := byte_flags fb in
        '(ka, cur) ← readInt buf cur;
        '(ok, cid, cur) ← readMQTTLenString (clientID d) buf cur enddata;
        let d := mkConnect (MQTTVersion d) cid (u16 ka) (f_cleansession f) (willFlag d) (will d)
                   (username d) (password d) in
        if negb ok then Ok (0, d)
        else
          let set_will w := mkConnect (MQTTVersion d) (clientID d) (keepAliveInterval d)
            (cleansession d) (f_will f) w (username d) (password d) in
          if negb (f_will f =? 0) then
            '(ok, t, cur) ← readMQTTLenString (topicName (will d)) buf cur enddata;
            if negb ok then
              Ok (0, set_will (mkWill t (message (will d)) (f_willRetain f) (f_willQoS f)))
            else
              '(ok, m, cur) ← readMQTTLenString (message (will d)) buf cur enddata;
              let d := set_will (mkWill t m (f_willRetain f) (f_willQoS f)) in
              if negb ok then Ok (0, d) else read_credentials f d buf cur enddata
          else read_credentials f (set_will (will d)) buf cur enddata.

(** ** SUBACK, SUBSCRIBE, UNSUBSCRIBE *)

Fixpoint suback_loop (fuel : nat) (maxcount count : Z) (qoss buf : list Z) (cur enddata : Z)
  : outcome (Z * Z * list Z) :=
  if negb (cur <? enddata) then Ok (1, count, qoss)
  else
    match fuel with
    | O => OutOfFuel
    | S fuel =>
        if maxcount <? count then Ok (-1, count, qoss)
        else
          '(c, cur) ← readChar buf cur;
          qoss ← wr qoss count c;
          suback_loop fuel maxcount (count + 1) qoss buf cur enddata
    end.

Record suback_out := mkSuback { so_packetid : Z; so_count : Z; so_grantedQoSs : list Z }.

Definition MQTTDeserialize_suback (o : suback_out) (maxcount : Z) (buf : list Z) (buflen : Z)
  : outcome (Z * suback_out) :=
  '(b, cur) ← readChar buf 0;
  if negb (h_type (byte_header b) =? SUBACK) then Ok (0, o)
  else
    '(rc, mylen) ← MQTTPacket_decodeBuf buf cur;
    let cur := cur + rc in
    let enddata := cur + mylen in
    if enddata - cur <? 2 then Ok (rc, o)
    else
      '(id, cur) ← readInt buf cur;
      '(rc, count, qoss) ← suback_loop (Z.to_nat (enddata - cur)) maxcount 0 (so_grantedQoSs o)
                                         buf cur enddata;
      Ok (rc, mkSuback (u16 id) count qoss).

(** Arrays of strings: assignment out of range is undefined behaviour. *)
Definition set_topic (ts : list MQTTString) (i : Z) (t : MQTTString) : outcome (list MQTTString) :=
  if decide (0 <= i < zlen ts) then Ok (<[Z.to_nat i := t]> ts) else Ub.
Definition get_topic (ts : list MQTTString) (i : Z) : outcome MQTTString :=
  match ts !! Z.to_nat i with
  | Some t => if decide (0 <= i) then Ok t else Ub
  | None => Ub
  end.

Record subscribe_out := mkSub {
  su_dup : Z; su_packetid : Z; su_count : Z; su_topics : list MQTTString; su_qoss : list Z }.

Fixpoint subscribe_loop (fuel : nat) (maxcount count : Z) (ts : list MQTTString) (qoss buf : list Z)
    (cur enddata : Z) : outcome (Z * Z * list MQTTString * list Z) :=
  if negb (cur <? enddata) then Ok (1, count, ts, qoss)
  else
    match fuel with
    | O => OutOfFuel
    | S fuel =>
        if count =? maxcount then Ok (MQTTPACKET_READ_ERROR, count, ts, qoss)
        else
          t0 ← get_topic ts count;
          '(ok, t, cur) ← readMQTTLenString t0 buf cur enddata;
          ts ← set_topic ts count t;
          if negb ok then Ok (MQTTPACKET_READ_ERROR, count, ts, qoss)
          else if enddata <=? cur then Ok (MQTTPACKET_READ_ERROR, count, ts, qoss)
          else
            '(q, cur) ← readChar buf cur;
            qoss ← wr qoss count q;
            subscribe_loop fuel maxcount (count + 1) ts qoss buf cur enddata
    end.

Definition MQTTDeserialize_subscribe (o : subscribe_out) (maxcount : Z) (buf : list Z) (buflen : Z)
  : outcome (Z * subscribe_out) :=
  '(b, cur) ← readChar buf 0;
  let h := byte_header b in
  if negb (h_type h =? SUBSCRIBE) then Ok (MQTTPACKET_READ_ERROR, o)
  else
    '(rc, mylen) ← MQTTPacket_decodeBuf buf cur;
    if rc <=? 0 then Ok (rc, mkSub (h_dup h) (su_packetid o) (su_count o) (su_topics o) (su_qoss o))
    else
      let cur := cur + rc in
      let enddata := cur + mylen in
      '(id, cur) ← readInt buf cur;
      '(rc, count, ts, qoss) ← subscribe_loop (Z.to_nat (enddata - cur)) maxcount 0 (su_topics o)
                                 (su_qoss o) buf cur enddata;
      Ok (rc, mkSub (h_dup h) (u16 id) count ts qoss).

Fixpoint unsubscribe_loop (fuel : nat) (rc count : Z) (ts : list MQTTString) (buf : list Z)
    (cur enddata : Z) : outcome (Z * Z * list MQTTString) :=
  if negb (cur <? enddata) then Ok (1, count, ts)
  else
    match fuel with
    | O => OutOfFuel
    | S fuel =>
        t0 ← get_topic ts count;
        '(ok, t, cur) ← readMQTTLenString t0 buf cur enddata;
        ts ← set_topic ts count t;
        if negb ok then Ok (rc, count, ts)
        else unsubscribe_loop fuel rc (count + 1) ts buf cur enddata
    end.

Record unsubscribe_out := mkUnsub { us_dup : Z; us_packetid : Z; us_count : Z; us_topics : list MQTTString }.

Definition MQTTDeserialize_unsubscribe (o : unsubscribe_out) (maxcount : Z) (buf : list Z) (len : Z)
  : outcome (Z * unsubscribe_out) :=
  '(b, cur) ← readChar buf 0;
  let h := byte_header b in
  if negb (h_type h =? UNSUBSCRIBE) then Ok (0, o)
  else
    '(rc, mylen) ← MQTTPacket_decodeBuf buf cur;
    let cur := cur + rc in
    let enddata := cur + mylen in
    '(id, cur) ← readInt buf cur;
    '(rc, count, ts) ← unsubscribe_loop (Z.to_nat (enddata - cur)) rc 0 (us_topics o) buf cur enddata;
    Ok (rc, mkUnsub (h_dup h) (u16 id) count ts).

(** ** Reading a packet that was written *)

(** The bytes in front of the body. *)
Definition prefix (b : Z) (body : list Z) : list Z := b :: length_bytes (zlen body).

Lemma packet_prefix b body r : packet [b] body ++ r = prefix b body ++ body ++ r.
Proof. unfold packet, prefix. cbn [app]. by rewrite <- app_assoc. Qed.

Lemma readChar_packet b body r : readChar (prefix b body ++ body ++ r) 0 = Ok (b, 1).
Proof. apply (readChar_reads b []). Qed.

Lemma decodeBuf_packet b body r : zlen body < 268435456 →
  MQTTPacket_decodeBuf (prefix b body ++ body ++ r) 1
    = Ok (zlen (length_bytes (zlen body)), zlen body).
Proof. intros H. apply (decodeBuf_reads (zlen body) [b]). lia. Qed.

Lemma prefix_len b body : 1 + zlen (length_bytes (zlen body)) = zlen (prefix b body).
Proof. unfold prefix. cbn [length]. lia. Qed.

(** Read the first two fields of a packet; the cursor is then at the end of [prefix]. *)
Ltac read_prefix :=
  rewrite packet_prefix, readChar_packet, bind_ok;
  try rewrite header_roundtrip by done;
  cbn [h_type h_dup h_qos h_retain]; cbn [Z.eqb Pos.eqb negb];
  rewrite decodeBuf_packet by (done || lia); rewrite bind_ok; cbn beta iota zeta;
  match goal with |- context [prefix ?b ?body] => rewrite ?(prefix_len b body) end.

(** Move the cursor over a field that was read. *)
Ltac advance :=
  rewrite ?bind_ok; cbn beta iota zeta;
  match goal with |- context [zlen ?p + zlen ?l] =>
    match goal with |- context [p ++ l ++ ?r] =>
      replace (zlen p + zlen l) with (zlen (p ++ l)) by lens; rewrite !(app_assoc p l r)
    end
  end.

Lemma publish_roundtrip_aux o dup qos retain id topic payload r buflen :
  0 <= dup < 2 → 0 <= qos < 4 → 0 <= retain < 2 → is_u16 id → zlen topic < 65536 →
  zlen (publish_body qos id topic payload) < 268435456 →
  MQTTDeserialize_publish o (publish_packet dup qos retain id topic payload ++ r) buflen =
    Ok (1, mkPub dup qos retain (if 0 <? qos then id else po_packetid o)
             (view_string topic ((if 0 <? qos then int_bytes id else []) ++ payload ++ r))
             (Some (payload ++ r)) (zlen payload)).
Proof.
  intros Hd Hq Hr Hid Ht Hb. unfold MQTTDeserialize_publish, publish_packet, header_bytes.
  read_prefix. set (b := header_byte _). set (body := publish_body qos id topic payload) in *.
  assert (zlen body = zlen (str_bytes topic) + zlen (if 0 <? qos then int_bytes id else []) + zlen payload) as El.
  { unfold body, publish_body. lens. }
  set (p := prefix b body). set (e := zlen p + zlen body).
  assert (body ++ r = str_bytes topic ++ (if 0 <? qos then int_bytes id else []) ++ payload ++ r) as ->.
  { unfold body, publish_body. by rewrite <- !app_assoc. }
  rewrite readMQTTLenString_reads by (unfold e; lia). advance.
  destruct (Z.ltb_spec (e - zlen (p ++ str_bytes topic)) 0); [unfold e in *; lens|].
  cbn [negb orb]. destruct (0 <? qos) eqn:E0.
  - unfold is_u16 in Hid. rewrite readInt_reads by done. advance.
    rewrite u16_id, ptr_into_app by done. do 3 f_equal. unfold e. lens.
  - rewrite bind_ok. cbn beta iota zeta. rewrite ptr_into_app. do 3 f_equal. unfold e. lens.
Qed.

(** C27: every PUBLISH packet [MQTTSerialize_publish] writes is read back by
    [MQTTDeserialize_publish] with the same flags, identifier, topic and payload, whatever follows
    it in the buffer. *)
Theorem publish_roundtrip buf buflen m dup qos retain id topic payload o blen :
  mqtt_str m topic → 0 <= dup < 2 → 0 <= qos < 4 → 0 <= retain < 2 → is_u16 id →
  zlen (publish_body qos id topic payload) < 268435456 →
  MQTTPacket_len (zlen (publish_body qos id topic payload)) <= buflen → buflen <= zlen buf →
  ∃ buf' rc out rest,
    MQTTSerialize_publish buf buflen dup qos retain id m payload (zlen payload) = Ok (buf', rc) ∧
    MQTTDeserialize_publish o buf' blen = Ok (1, out) ∧
    po_dup out = dup ∧ po_qos out = qos ∧ po_retained out = retain ∧
    (0 < qos → po_packetid out = id) ∧ (∃ tail, po_topic out = view_string topic tail) ∧
    po_payload out = Some (payload ++ rest) ∧ po_payloadlen out = zlen payload.
Proof.
  intros Hm Hd Hq Hr Hid Hb Hl Hbuf.
  destruct (MQTTSerialize_publish_spec buf buflen dup qos retain id m topic payload) as [E _];
    try done. rewrite E. destruct (Z.ltb_spec buflen
    (MQTTPacket_len (zlen (publish_body qos id topic payload)))); [lia|].
  eexists _, _, _, _. split; [done|]. split.
  - apply publish_roundtrip_aux; try done. by destruct Hm.
  - cbn. split_and!; eauto. intros Hq0. by destruct (Z.ltb_spec 0 qos); [|lia].
Qed.

Lemma publish_roundtrip_witness :
  mqtt_str (c_string (chars "r/123")) (chars "r/123") ∧
  ∃ buf' rc out rest,
    MQTTSerialize_publish (replicate 80 0) 80 0 1 0 7 (c_string (chars "r/123")) (chars "8.25") 4
      = Ok (buf', rc) ∧
    MQTTDeserialize_publish (mkPub 0 0 0 0 MQTTString_initializer None 0) buf' 80 = Ok (1, out) ∧
    po_dup out = 0 ∧ po_qos out = 1 ∧ po_retained out = 0 ∧
    (0 < 1 → po_packetid out = 7) ∧ (∃ tail, po_topic out = view_string (chars "r/123") tail) ∧
    po_payload out = Some (chars "8.25" ++ rest) ∧ po_payloadlen out = 4.
Proof.
  split; [constructor; vm_compute; reflexivity|].
  apply (publish_roundtrip (replicate 80 0) 80 (c_string (chars "r/123")) 0 1 0 7 (chars "r/123")
    (chars "8.25") _ 80); [constructor|..]; unfold is_u16; vm_compute; done.
Defined.

(** *** Acknowledgements *)

Lemma ack_roundtrip_aux o t dup id r buflen :
  0 <= t < 16 → 0 <= dup < 2 → is_u16 id →
  MQTTDeserialize_ack o (ack_packet t dup id ++ r) buflen = Ok (1, mkAck t dup id).
Proof.
  intros Ht Hd Hid. unfold MQTTDeserialize_ack, ack_packet, header_bytes.
  assert (0 <= (if t =? PUBREL then 1 else 0) < 4) by (case_match; lia).
  read_prefix. destruct (Z.ltb_spec (zlen (prefix (header_byte (mkHeader t dup
    (if t =? PUBREL then 1 else 0) 0)) (int_bytes id)) + zlen (int_bytes id) -
    zlen (prefix (header_byte (mkHeader t dup (if t =? PUBREL then 1 else 0) 0)) (int_bytes id))) 2);
    [cbn [length int_bytes] in *; lia|].
  rewrite readInt_reads by done. rewrite bind_ok. by rewrite u16_id.
Qed.

Lemma unsuback_read o id r buflen : is_u16 id → MQTTDeserialize_unsuback o (ack_packet UNSUBACK 0 id ++ r) buflen = Ok (1, id).
Proof. intros Hid. unfold MQTTDeserialize_unsuback. by rewrite ack_roundtrip_aux. Qed.

Definition connack_packet (flags rc : Z) : list Z := packet (header_bytes CONNACK 0 0 0) [flags; rc].

Lemma connack_read o flags rc r n :
  MQTTDeserialize_connack o (connack_packet flags rc ++ r) n = Ok (1, mkConnack (flags mod 2) rc).
Proof. done. Qed.

(** The loop fills the array from [count] on; when the array is full and a byte is left it writes
    one element past the end, because the test admits [count = maxcount]. *)
Lemma suback_loop_reads fuel full room qs p r :
  (length qs ≤ fuel)%nat → Forall is_u8 qs →
  suback_loop fuel (zlen full + zlen room) (zlen full) (full ++ room) (p ++ qs ++ r) (zlen p)
      (zlen p + zlen qs) =
    if decide (length qs ≤ length room)%nat
    then Ok (1, zlen full + zlen qs, full ++ qs ++ drop (length qs) room) else Ub.
Proof.
  revert full room p qs. induction fuel as [|fuel IH]; intros full room p qs Hf Hq;
    (destruct qs as [|q qs];
      [cbn [suback_loop]; rewrite (proj2 (Z.ltb_ge _ _)) by (cbn; lia); cbn [negb length app];
       rewrite decide_True by lia; rewrite drop_0; oks; cbn; lia|]); [cbn in Hf; lia|].
  cbn [suback_loop length] in *. apply Forall_cons in Hq as [Hq0 Hq].
  rewrite (proj2 (Z.ltb_lt _ _)) by lia. cbn [negb].
  rewrite (proj2 (Z.ltb_ge _ _)) by lia.
  change (p ++ (q :: qs) ++ r) with (p ++ [q] ++ (qs ++ r)).
  rewrite readChar_reads, bind_ok. cbn beta iota zeta. unfold wr.
  destruct room as [|x room].
  - rewrite wr_n_oob by (cbn [length]; lens). by rewrite decide_False by (cbn; lia).
  - rewrite wr_n_app by (cbn; lia). rewrite bind_ok. cbn [length drop]. rewrite drop_0.
    specialize (IH (full ++ [q]) room (p ++ [q]) qs).
    rewrite <- !app_assoc in IH. cbn [app] in *.
    replace (zlen (p ++ [q])) with (zlen p + 1) in IH by lens.
    replace (zlen (full ++ [q])) with (zlen full + 1) in IH by lens.
    replace (zlen full + Z.of_nat (S (length room))) with (zlen full + 1 + zlen room) by lia.
    replace (zlen p + Z.of_nat (S (length qs))) with (zlen p + 1 + zlen qs) by lia.
    change (Z.of_nat 1) with 1. rewrite IH by (done || lia).
    repeat case_decide; try (exfalso; lia); try done. oks. lia.
Qed.

Definition suback_packet (id : Z) (qs : list Z) : list Z :=
  packet (header_bytes SUBACK 0 0 0) (int_bytes id ++ qs).

(** Given an array of [maxcount] elements, [MQTTDeserialize_suback] reads every SUBACK packet
    with at most that many granted QoS exactly, and writes outside the array for every longer one:
    its test [*count > maxcount] lets one element too many through. *)
Theorem suback_reads_or_overflows o id qs r buflen :
  is_u16 id → Forall is_u8 qs → zlen qs < 100000 →
  MQTTDeserialize_suback o (zlen (so_grantedQoSs o)) (suback_packet id qs ++ r) buflen =
    if decide (length qs ≤ length (so_grantedQoSs o))%nat
    then Ok (1, mkSuback id (zlen qs) (qs ++ drop (length qs) (so_grantedQoSs o))) else Ub.
Proof.
  intros Hid Hq Hl. unfold MQTTDeserialize_suback, suback_packet, header_bytes.
  assert (zlen (int_bytes id ++ qs) = 2 + zlen qs) as El by (unfold int_bytes; lens).
  set (body := int_bytes id ++ qs) in *.
  read_prefix. set (p := prefix _ body).
  destruct (Z.ltb_spec (zlen p + zlen body - zlen p) 2); [lia|].
  assert (body ++ r = int_bytes id ++ qs ++ r) as -> by (unfold body; by rewrite <- app_assoc).
  rewrite readInt_reads by done. advance.
  replace (zlen p + zlen body) with (zlen (p ++ int_bytes id) + zlen qs) by (unfold int_bytes; lens).
  pose proof (suback_loop_reads (Z.to_nat (zlen (p ++ int_bytes id) + zlen qs - zlen (p ++ int_bytes id)))
    [] (so_grantedQoSs o) qs (p ++ int_bytes id) r ltac:(lia) Hq) as E.
  change (zlen []) with 0 in E. rewrite Z.add_0_l in E. cbn [app] in E. rewrite E.
  case_decide; [|done]. rewrite bind_ok. cbn beta iota zeta. rewrite u16_id by done. done.
Qed.

Lemma suback_reads_or_overflows_witness :
  is_u16 5 ∧
  MQTTDeserialize_suback (mkSuback 0 0 [9]) 1 (suback_packet 5 [1] ++ [0]) 80
    = Ok (1, mkSuback 5 1 [1]) ∧
  MQTTDeserialize_suback (mkSuback 0 0 [9]) 1 (suback_packet 5 [1; 0] ++ [0]) 80 = Ub.
Proof.
  split; [unfold is_u16; lia|]. split.
  - apply (suback_reads_or_overflows (mkSuback 0 0 [9]) 5 [1] [0] 80);
      [unfold is_u16; lia|repeat constructor; cbn; lia|cbn; lia].
  - apply (suback_reads_or_overflows (mkSuback 0 0 [9]) 5 [1; 0] [0] 80);
      [unfold is_u16; lia|repeat constructor; cbn; lia|cbn; lia].
Defined.

(** ** Malformed packets *)

Lemma readChar_0 b r : readChar (b :: r) 0 = Ok (b, 1).
Proof. done. Qed.

(** A packet whose type is right and whose body is too short is reported as read
    successfully: PUBLISH, the acknowledgements, CONNACK and SUBACK return the number of length
    bytes, 1, and leave identifier, payload and return code as the caller had them. *)
Theorem short_packet_reported_as_success dup qos retain x r :
  0 <= dup < 2 → 0 <= qos < 4 → 0 <= retain < 2 →
  (∀ o n, MQTTDeserialize_publish o (header_bytes PUBLISH dup qos retain ++ 1 :: x :: r) n =
     Ok (1, mkPub dup qos retain (po_packetid o)
              (mkMQTTString None (lenstring (po_topic o))) (po_payload o) (po_payloadlen o))) ∧
  (∀ o t n, 0 <= t < 16 → MQTTDeserialize_ack o (header_bytes t dup qos retain ++ 1 :: x :: r) n =
     Ok (1, mkAck t dup (ao_packetid o))) ∧
  (∀ o n, MQTTDeserialize_connack o (header_bytes CONNACK dup qos retain ++ 1 :: x :: r) n = Ok (1, o)) ∧
  (∀ o m n, MQTTDeserialize_suback o m (header_bytes SUBACK dup qos retain ++ 1 :: x :: r) n = Ok (1, o)).
Proof.
  intros Hd Hq Hr. unfold header_bytes. cbn [app].
  assert (∀ b, MQTTPacket_decodeBuf (b :: 1 :: x :: r) 1 = Ok (1, 1)) as E by done.
  split_and!; intros;
    unfold MQTTDeserialize_publish, MQTTDeserialize_ack, MQTTDeserialize_connack, MQTTDeserialize_suback;
    rewrite readChar_0, bind_ok; cbn beta iota zeta;
    rewrite header_roundtrip by done; cbn [h_type Z.eqb Pos.eqb negb];
    rewrite E; done.
Qed.

Lemma short_packet_reported_as_success_witness :
  0 <= 0 < 2 ∧
  (∀ o n, MQTTDeserialize_publish o (header_bytes PUBLISH 0 1 0 ++ 1 :: 7 :: [9]) n =
     Ok (1, mkPub 0 1 0 (po_packetid o)
              (mkMQTTString None (lenstring (po_topic o))) (po_payload o) (po_payloadlen o))) ∧
  (∀ o t n, 0 <= t < 16 → MQTTDeserialize_ack o (header_bytes t 0 1 0 ++ 1 :: 7 :: [9]) n =
     Ok (1, mkAck t 0 (ao_packetid o))) ∧
  (∀ o n, MQTTDeserialize_connack o (header_bytes CONNACK 0 1 0 ++ 1 :: 7 :: [9]) n = Ok (1, o)) ∧
  (∀ o m n, MQTTDeserialize_suback o m (header_bytes SUBACK 0 1 0 ++ 1 :: 7 :: [9]) n = Ok (1, o)).
Proof. split; [lia|]. apply (short_packet_reported_as_success 0 1 0 7 [9]); lia. Defined.
