(* ===== verification/MqttPacketRead.v ===== *)
(** Reading a packet from a source of bytes (paho.mqtt.embedded-c/MQTTPacket/src/MQTTPacket.cpp): [MQTTPacket_read],
    which waits, and [MQTTPacket_readnb], which is called again and again and keeps its place in a [MQTTTransport].

    [getfn s n] asks the source for [n] bytes: the result of the C function, the bytes it stored, the source after it. *)
From S2P Require Import Prelude Cursor MqttPacket.

Section Read.
Context {T : Type} (getfn : T → Z → outcome (Z * list Z * T)).

(** One character; what [c] holds when none was stored does not matter. *)
Definition getchar (s : T) : outcome (Z * Z * T) := '(rc, l, s) ← getfn s 1; Ok (rc, nth 0 l 0, s).

(** ** Waiting *)

(** The result, the buffer and the source after the call. *)
Definition MQTTPacket_read (buf : list Z) (buflen : Z) (s : T) : outcome (Z * list Z * T) :=
  '(rc, l, s) ← getfn s 1;
  buf ← wr_n buf 0 l;
  if negb (rc =? 1) then Ok (-1, buf, s)
  else
    '(_, rem_len, s) ← MQTTPacket_decode getchar s;
    '(w, k) ← MQTTPacket_encode (W buf 1) rem_len;
    let buf := w_buf w in
    let len := 1 + k in
    if buflen <? rem_len + len then Ok (-1, buf, s)
    else
      '(whole, buf, s) ← (if rem_len =? 0 then Ok (true, buf, s)
                          else '(rc, l, s) ← getfn s rem_len; buf ← wr_n buf len l; Ok (rc =? rem_len, buf, s));
      if whole : bool then c ← rd buf 0; Ok (h_type (byte_header c), buf, s) else Ok (-1, buf, s).

(** ** Without waiting *)

Record MQTTTransport := mkTransport { sck : T; multiplier : Z; rem_len : Z; t_len : Z; state : Z }.

(** The loop of [MQTTPacket_decodenb]. *)
Fixpoint decodenb_loop (fuel : nat) (trp : MQTTTransport) : outcome (Z * MQTTTransport) :=
  match fuel with
  | O => OutOfFuel
  | S fuel =>
      if MAX_NO_OF_REMAINING_LENGTH_BYTES <=? t_len trp then Ok (MQTTPACKET_READ_ERROR, trp)
      else
        '(frc, c, s) ← getchar (sck trp);
        let trp := mkTransport s (multiplier trp) (rem_len trp) (t_len trp) (state trp) in
        if frc =? -1 then Ok (MQTTPACKET_READ_ERROR, trp)
        else if frc =? 0 then Ok (0, trp)
        else
          let trp := mkTransport s (multiplier trp * 128) (rem_len trp + Z.land c 127 * multiplier trp) (t_len trp + 1)
                       (state trp) in
          if negb (Z.land c 128 =? 0) then decodenb_loop fuel trp else Ok (t_len trp, trp)
  end.

Definition MQTTPacket_decodenb (trp : MQTTTransport) : outcome (Z * MQTTTransport) :=
  decodenb_loop 5 (if t_len trp =? 0 then mkTransport (sck trp) 1 0 (t_len trp) (state trp) else trp).

(** The end of a call that starts over. *)
Definition restart (rc : Z) (buf : list Z) (trp : MQTTTransport) : outcome (Z * list Z * MQTTTransport) :=
  Ok (rc, buf, mkTransport (sck trp) (multiplier trp) (rem_len trp) (t_len trp) 0).

Definition packet_type (buf : list Z) (trp : MQTTTransport) : outcome (Z * list Z * MQTTTransport) :=
  c ← rd buf 0; restart (h_type (byte_header c)) buf trp.

(** State 2: the rest of the packet. *)
Definition read_rest (buf : list Z) (trp : MQTTTransport) : outcome (Z * list Z * MQTTTransport) :=
  if rem_len trp =? 0 then packet_type buf trp
  else
    '(frc, l, s) ← getfn (sck trp) (rem_len trp);
    buf ← wr_n buf (t_len trp) l;
    let trp := mkTransport s (multiplier trp) (rem_len trp) (t_len trp) (state trp) in
    if frc =? -1 then restart (-1) buf trp
    else if frc =? 0 then Ok (0, buf, trp)
    else
      let trp := mkTransport s (multiplier trp) (rem_len trp - frc) (t_len trp + frc) (state trp) in
      if negb (rem_len trp =? 0) then Ok (0, buf, trp) else packet_type buf trp.

(** State 1: the length field, then the rest. *)
Definition read_length (buf : list Z) (buflen : Z) (trp : MQTTTransport) : outcome (Z * list Z * MQTTTransport) :=
  '(frc, trp) ← MQTTPacket_decodenb trp;
  if frc =? MQTTPACKET_READ_ERROR then restart (-1) buf trp
  else if frc =? 0 then Ok (0, buf, trp)
  else
    '(w, k) ← MQTTPacket_encode (W buf 1) (rem_len trp);
    let buf := w_buf w in
    let trp := mkTransport (sck trp) (multiplier trp) (rem_len trp) (1 + k) (state trp) in
    if buflen <? rem_len trp + t_len trp then restart (-1) buf trp
    else read_rest buf (mkTransport (sck trp) (multiplier trp) (rem_len trp) (t_len trp) (state trp + 1)).

Definition MQTTPacket_readnb (buf : list Z) (buflen : Z) (trp : MQTTTransport) : outcome (Z * list Z * MQTTTransport) :=
  if state trp =? 1 then read_length buf buflen trp
  else if state trp =? 2 then read_rest buf trp
  else
    '(frc, l, s) ← getfn (sck trp) 1;
    buf ← wr_n buf 0 l;
    let trp := mkTransport s (multiplier trp) (rem_len trp) (t_len trp) 0 in
    if frc =? -1 then restart (-1) buf trp
    else if frc =? 0 then Ok (0, buf, trp)
    else read_length buf buflen (mkTransport s (multiplier trp) (rem_len trp) 0 (state trp + 1)).

(** ** A caller *)

(** Calls until there is a packet or an error. *)
Fixpoint poll (fuel : nat) (buf : list Z) (buflen : Z) (trp : MQTTTransport) : outcome (Z * list Z * MQTTTransport) :=
  match fuel with
  | O => OutOfFuel
  | S fuel =>
      '(rc, buf, trp) ← MQTTPacket_readnb buf buflen trp;
      if rc =? 0 then poll fuel buf buflen trp else Ok (rc, buf, trp)
  end.

(** The next [k] packets, each with its type, and the transport after them. *)
Fixpoint poll_packets (fuel k : nat) (buf : list Z) (buflen : Z) (trp : MQTTTransport) : outcome (list (Z * list Z) * MQTTTransport) :=
  match k with
  | O => Ok ([], trp)
  | S k =>
      '(rc, buf, trp) ← poll fuel buf buflen trp;
      p ← rd_n buf 0 (t_len trp);
      '(l, trp) ← poll_packets fuel k buf buflen trp;
      Ok ((rc, p) :: l, trp)
  end.

(** The same with the reader that waits. *)
Fixpoint read_packets (k : nat) (buf : list Z) (buflen : Z) (s : T) : outcome (list (Z * list Z) * T) :=
  match k with
  | O => Ok ([], s)
  | S k =>
      '(rc, buf, s) ← MQTTPacket_read buf buflen s;
      '(n, len) ← MQTTPacket_decodeBuf buf 1;
      p ← rd_n buf 0 (1 + n + len);
      '(l, s) ← read_packets k buf buflen s;
      Ok ((rc, p) :: l, s)
  end.
End Read.

(** ** Sources *)

(** A connection that does not break: it gives the bytes that are [pending] in their order, at most as many as are asked
    for, and answers with nothing only [stalls] times. *)
Class Source {T : Type} (getfn : T → Z → outcome (Z * list Z * T)) := {
  pending : T → list Z;
  stalls : T → nat;
  getfn_gives s n : pending s ≠ [] → 0 < n → ∃ l s', getfn s n = Ok (zlen l, l, s') ∧ zlen l <= n ∧
    pending s = l ++ pending s' ∧ (stalls s' + (if decide (l = []) then 1 else 0) ≤ stalls s)%nat;
}.

(** The same for a source that waits until all bytes are there. *)
Class WaitingSource {T : Type} (getfn : T → Z → outcome (Z * list Z * T)) := {
  to_come : T → list Z;
  getfn_waits s l r : to_come s = l ++ r → l ≠ [] → ∃ s', getfn s (zlen l) = Ok (zlen l, l, s') ∧ to_come s' = r;
}.

(** A packet: the header byte, the length, what it counts. *)
Definition packet (b : Z) (body : list Z) : list Z := b :: length_bytes (zlen body) ++ body.

(** The packet and the buffer are sound; a type of 0 would be taken for "call again". *)
Record fits (b : Z) (body buf : list Z) (buflen : Z) : Prop := {
  fits_type : 16 <= b < 256;
  fits_size : zlen body < 268435456;
  fits_buf : zlen (packet b body) <= buflen <= zlen buf;
}.

Lemma length_bytes_pos n : 0 < zlen (length_bytes n).
Proof. unfold length_bytes. cbn [length_bytes_fuel]. case_match; cbn [length]; lia. Qed.

Lemma length_bytes_nonnil f n : length_bytes_fuel (S f) n ≠ [].
Proof. rewrite length_bytes_S. by case_match. Qed.

(** Putting the length back behind the header byte. *)
Lemma encode_back b x n : 0 <= n < 268435456 → (length (length_bytes n) ≤ length x)%nat →
  MQTTPacket_encode (W (b :: x) 1) n =
    Ok (W (b :: length_bytes n ++ drop (length (length_bytes n)) x) (1 + zlen (length_bytes n)), zlen (length_bytes n)).
Proof.
  intros Hn Hl. unfold MQTTPacket_encode, encode_fuel. change (b :: x) with ([b] ++ x). change 1 with (zlen [b]).
  rewrite encode_loop_emits by (cbn; lia). cbn zeta. fold (length_bytes n). by rewrite decide_True by lia.
Qed.

Lemma length_bytes_fuel_5 n : 0 <= n < 268435456 → length_bytes n = length_bytes_fuel 5 n.
Proof. done. Qed.

Lemma cut_prefix (l p left rest : list Z) : left ++ rest = l ++ p → zlen l <= zlen left →
  ∃ left', left = l ++ left' ∧ p = left' ++ rest.
Proof.
  intros E Hl. exists (drop (length l) left). pose proof (f_equal (take (length l)) E) as Et. pose proof (f_equal (drop (length l)) E) as Ed.
  rewrite take_app_length, take_app_le in Et by lia. rewrite drop_app_length, drop_app_le in Ed by lia.
  split; [|done]. rewrite <- Et at 1. by rewrite take_drop.
Qed.

Section Framing.
Context {T : Type} (getfn : T → Z → outcome (Z * list Z * T)) {src : Source getfn}.
Implicit Types (trp : MQTTTransport (T := T)).

(** What is left to happen: bytes to come, and answers with nothing. *)
Definition measure trp : nat := stalls (sck trp) + length (pending (sck trp)).

Lemma getchar_gives s c r : pending s = c :: r →
  (∃ c' s', getchar getfn s = Ok (0, c', s') ∧ pending s' = c :: r ∧ (stalls s' < stalls s)%nat) ∨
  (∃ s', getchar getfn s = Ok (1, c, s') ∧ pending s' = r ∧ (stalls s' ≤ stalls s)%nat).
Proof.
  intros Hp. destruct (getfn_gives s 1) as (l & s' & E & Hl & Ep & Hs); [congruence|lia|].
  unfold getchar. rewrite E, bind_ok. destruct l as [|c' [|c'' l]]; [left|right|cbn in Hl; lia].
  - rewrite decide_True in Hs by done. exists 0, s'. split_and!; [done|cbn in *; congruence|lia].
  - rewrite Hp in Ep. injection Ep as -> Er. exists s'. split_and!; [done|done|lia].
Qed.

(** Some bytes of the length field are still to come: they stand for [m]. *)
Definition length_left (n : Z) (after : list Z) trp : Prop := ∃ m f,
  pending (sck trp) = length_bytes_fuel (S f) m ++ after ∧ 0 <= t_len trp ∧ t_len trp + Z.of_nat f = 4 ∧ (0 < f)%nat ∧
  0 <= m < 128 ^ Z.of_nat f ∧ (t_len trp = 0 → m = n) ∧ (0 < t_len trp → rem_len trp + m * multiplier trp = n).

Lemma decodenb_loop_spec g f trp m n after : (f < g)%nat →
  pending (sck trp) = length_bytes_fuel (S f) m ++ after → 0 <= t_len trp → t_len trp + Z.of_nat f = 4 → (0 < f)%nat →
  0 <= m < 128 ^ Z.of_nat f → (t_len trp = 0 → m = n) → rem_len trp + m * multiplier trp = n →
  ∃ frc trp', decodenb_loop getfn g trp = Ok (frc, trp') ∧ state trp' = state trp ∧
    ((frc = 0 ∧ length_left n after trp' ∧ (measure trp' < measure trp)%nat) ∨
     (0 < frc ∧ rem_len trp' = n ∧ pending (sck trp') = after ∧ (measure trp' ≤ measure trp)%nat)).
Proof.
  revert g trp m. induction f as [|f IH]; intros g trp m Hg Hp Ht Hf Hf0 Hm H0 He; [lia|]. destruct g as [|g]; [lia|].
  cbn [decodenb_loop]. unfold MAX_NO_OF_REMAINING_LENGTH_BYTES. destruct (Z.leb_spec 4 (t_len trp)); [lia|].
  rewrite length_bytes_S in Hp. rewrite Nat2Z.inj_succ, Z.pow_succ_r in Hm by lia.
  set (c := if m <? 128 then m else 128 + m mod 128).
  set (more := if m <? 128 then after else length_bytes_fuel (S f) (m / 128) ++ after).
  assert (Hp' : pending (sck trp) = c :: more) by (unfold c, more; rewrite Hp; by case_match).
  destruct (getchar_gives _ _ _ Hp') as [(c' & s' & E & Ep & Hs)|(s' & E & Ep & Hs)]; rewrite E, bind_ok; cbn [Z.eqb Pos.eqb].
  { eexists 0, _. split; [done|]. split; [done|]. left. split; [done|].
    split; [|unfold measure; cbn [sck]; rewrite Ep, Hp'; lia]. exists m, (S f). cbn [sck t_len rem_len multiplier]. rewrite Ep, <- Hp', Hp, length_bytes_S. rewrite Nat2Z.inj_succ, Z.pow_succ_r by lia.
    split_and!; auto; lia. }
  assert (Hc : is_u8 c) by (unfold c, is_u8; case_match; zdiv). rewrite land_127, land_128 by done.
  unfold c, more in *. destruct (Z.ltb_spec m 128) as [Hlt|Hge]; cbn [t_len multiplier rem_len] in *.
  - rewrite Z.mod_small by lia. destruct (Z.ltb_spec m 128); [|lia]. cbn [Z.eqb negb]. eexists _, _. split; [done|]. split; [done|]. right.
    cbn [rem_len sck t_len multiplier]. split_and!; [lia|lia|done|]. unfold measure. cbn [sck]. rewrite Ep, Hp'. cbn [length]. lia.
  - replace ((128 + m mod 128) mod 128) with (m mod 128) by zdiv. destruct (Z.ltb_spec (128 + m mod 128) 128); [zdiv|]. cbn [Z.eqb negb].
    destruct f as [|f]; [cbn in Hm; lia|]. pose proof (Z.div_mod m 128 ltac:(lia)) as Hd.
    destruct (IH g (mkTransport s' (multiplier trp * 128) (rem_len trp + m mod 128 * multiplier trp) (t_len trp + 1) (state trp)) (m / 128))
      as (frc & trp' & E' & Hst & Hr); cbn [sck t_len rem_len multiplier state]; [lia|done|lia|lia|lia| |lia|nia|].
    { split; [zdiv|]. apply Z.div_lt_upper_bound; lia. }
    exists frc, trp'. split; [exact E'|]. split; [done|]. unfold measure in *. cbn [sck] in Hr. rewrite Hp', Ep in *. cbn [length] in *. destruct Hr as [(? & ? & ?)|(? & ? & ? & ?)]; [left|right]; split_and!; auto; lia.
Qed.

Lemma decodenb_spec n after trp : length_left n after trp → 0 <= n →
  ∃ frc trp', MQTTPacket_decodenb getfn trp = Ok (frc, trp') ∧ state trp' = state trp ∧
    ((frc = 0 ∧ length_left n after trp' ∧ (measure trp' < measure trp)%nat) ∨
     (0 < frc ∧ rem_len trp' = n ∧ pending (sck trp') = after ∧ (measure trp' ≤ measure trp)%nat)).
Proof.
  intros (m & f & Hp & Ht & Hf & Hf0 & Hm & H0 & He) Hn. unfold MQTTPacket_decodenb.
  destruct (Z.eqb_spec (t_len trp) 0) as [E|E].
  - assert (f = 4%nat) as -> by lia. specialize (H0 E). destruct (decodenb_loop_spec 5 4 (mkTransport (sck trp) 1 0 (t_len trp) (state trp)) m n after)
      as (frc & trp' & E' & Hst & Hr); cbn [sck t_len rem_len multiplier]; auto; try lia.
    by exists frc, trp'.
  - apply (decodenb_loop_spec 5 f trp m n after); auto; lia.
Qed.

(** ** One call *)

(** The body has come in up to [left]. *)
Definition body_left (b : Z) (body rest buf : list Z) trp (left : list Z) : Prop := ∃ got x,
  body = got ++ left ∧ buf = b :: length_bytes (zlen body) ++ got ++ x ∧ zlen left <= zlen x ∧
  t_len trp = zlen (b :: length_bytes (zlen body) ++ got) ∧ rem_len trp = zlen left ∧ pending (sck trp) = left ++ rest.

(** A call gave 0: the place in the packet is kept. *)
Definition waiting (b : Z) (body rest buf : list Z) trp : Prop :=
  (state trp = 0 ∧ pending (sck trp) = packet b body ++ rest) ∨
  (state trp = 1 ∧ (∃ x, buf = b :: x) ∧ length_left (zlen body) (body ++ rest) trp) ∨
  (state trp = 2 ∧ ∃ left, left ≠ [] ∧ body_left b body rest buf trp left).

(** A call gave the type: the packet is in the buffer, what follows it still in the source. *)
Definition complete (b : Z) (body rest buf : list Z) trp : Prop :=
  state trp = 0 ∧ pending (sck trp) = rest ∧ t_len trp = zlen (packet b body) ∧ ∃ x, buf = packet b body ++ x.

Definition called (b : Z) (body rest buf : list Z) trp (rc : Z) (buf' : list Z) trp' : Prop :=
  zlen buf' = zlen buf ∧ (measure trp' ≤ measure trp)%nat ∧
  ((rc = 0 ∧ waiting b body rest buf' trp' ∧ (measure trp' < measure trp)%nat) ∨ (rc = b / 16 ∧ complete b body rest buf' trp')).

Lemma called_waiting b body rest buf trp buf' trp' : zlen buf' = zlen buf → (measure trp' < measure trp)%nat →
  waiting b body rest buf' trp' → called b body rest buf trp 0 buf' trp'.
Proof. intros Hl Hm Hw. split; [done|]. split; [lia|]. by left. Qed.

Lemma packet_type_spec b body rest x trp : is_u8 b → t_len trp = zlen (packet b body) → pending (sck trp) = rest →
  ∃ trp', packet_type (packet b body ++ x) trp = Ok (b / 16, packet b body ++ x, trp') ∧ measure trp' = measure trp ∧
    complete b body rest (packet b body ++ x) trp'.
Proof.
  intros Hb Ht Hp. unfold packet_type. change (rd (packet b body ++ x) 0) with (Ok b : outcome Z). rewrite bind_ok. unfold restart.
  cbn [h_type byte_header]. unfold is_u8 in Hb. rewrite (Z.mod_small (b / 16)) by zdiv.
  eexists. split; [done|]. split; [done|]. unfold complete. cbn [state sck t_len]. by eauto.
Qed.

Lemma read_rest_spec b body rest buf trp left : is_u8 b → body_left b body rest buf trp left → state trp = 2 →
  ∃ rc buf' trp', read_rest getfn buf trp = Ok (rc, buf', trp') ∧ called b body rest buf trp rc buf' trp'.
Proof.
  intros Hb (got & x & Eb & Ebuf & Hx & Ht & Hr & Hp) Hs. unfold read_rest. rewrite Hr.
  destruct (Z.eqb_spec (zlen left) 0) as [H0|H0].
  { destruct left; [|cbn in H0; lia]. rewrite app_nil_r in Eb. subst got.
    destruct (packet_type_spec b body rest x trp) as (trp' & E & Hm & Hc); [done|exact Ht|done|].
    exists (b / 16), buf, trp'. assert (Eb : buf = packet b body ++ x) by (unfold packet; cbn; by rewrite <- app_assoc).
    rewrite Eb. split; [exact E|]. split; [done|]. split; [lia|]. by right. }
  assert (Hne : left ≠ []) by (intros ->; done).
  destruct (getfn_gives (sck trp) (zlen left)) as (l & s' & E & Hl & Ep & Hst); [rewrite Hp; by destruct left|lia|].
  rewrite E, bind_ok. rewrite Hp in Ep. destruct (cut_prefix l (pending s') left rest Ep Hl) as (left' & -> & Ep').
  assert (Ebuf' : wr_n buf (t_len trp) l = Ok (b :: length_bytes (zlen body) ++ (got ++ l) ++ drop (length l) x)).
  { subst buf. rewrite Ht. replace (b :: length_bytes (zlen body) ++ got ++ x) with ((b :: length_bytes (zlen body) ++ got) ++ x) by (cbn; by rewrite <- app_assoc).
    rewrite wr_n_app by lens. cbn. by rewrite <- !app_assoc. }
  rewrite Ebuf', bind_ok. set (buf' := b :: _ ++ _ ++ _).
  assert (Hlen : zlen buf' = zlen buf) by (unfold buf'; rewrite Ebuf; lens).
  destruct (Z.eqb_spec (zlen l) (-1)); [lia|]. destruct (Z.eqb_spec (zlen l) 0) as [Hl0|Hl0].
  { destruct l; [|cbn in Hl0; lia]. rewrite decide_True in Hst by done. cbn [app] in *. eexists 0, buf', _. split; [done|]. apply called_waiting; [done|unfold measure; cbn [sck]; rewrite Ep', Hp; lia|].
    right. right. split; [done|]. exists left'. split; [done|]. exists got, x. cbn [t_len rem_len sck]. split_and!; try done.
    unfold buf'. by rewrite app_nil_r. }
  rewrite decide_False in Hst by (intros ->; done). cbn [rem_len].
  assert (Ht' : t_len trp + zlen l = zlen (b :: length_bytes (zlen body) ++ got ++ l)) by (rewrite Ht; lens).
  destruct (Z.eqb_spec (zlen (l ++ left') - zlen l) 0) as [H1|H1]; cbn [negb].
  - assert (left' = []) as -> by (destruct left'; [done|lens]). rewrite app_nil_r in *.
    assert (Eb' : buf' = packet b body ++ drop (length l) x) by (unfold buf', packet; rewrite Eb at 3; cbn; by rewrite <- !app_assoc).
    rewrite Eb'. edestruct (packet_type_spec b body rest (drop (length l) x)) as (trp' & E1 & Hm & Hc); [done| | |].
    3: { eexists _, _, trp'. split; [exact E1|]. split; [by rewrite <- Eb'|]. split; [|by right]. rewrite Hm. unfold measure. cbn [sck].
         rewrite Hp, Ep', !length_app. cbn [length]. lia. }
    + cbn [t_len]. rewrite Ht'. unfold packet. by rewrite <- Eb.
    + done.
  - eexists 0, buf', _. split; [done|]. apply called_waiting; [done| |].
    2: { right. right. split; [done|]. exists left'. split; [intros ->; lens|]. exists (got ++ l), (drop (length l) x). cbn [t_len rem_len sck].
      split_and!; [by rewrite <- app_assoc|done|lens|done|lens|done]. }
    unfold measure. cbn [sck]. rewrite Hp, Ep', !length_app in *. assert (l ≠ []) by (intros ->; done). destruct l; [done|]. cbn in *. lia.
Qed.

Lemma called_mono b body rest buf buf0 trp trp0 rc buf' trp' : zlen buf = zlen buf0 → (measure trp ≤ measure trp0)%nat →
  called b body rest buf trp rc buf' trp' → called b body rest buf0 trp0 rc buf' trp'.
Proof. intros Hl Hm (H0 & Hm0 & [(? & ? & ?)|?]); (split; [congruence|]); (split; [lia|]); [left|by right]. split_and!; [done|done|lia]. Qed.

Lemma read_length_spec b body rest x buflen trp : fits b body (b :: x) buflen → state trp = 1 →
  length_left (zlen body) (body ++ rest) trp →
  ∃ rc buf' trp', read_length getfn (b :: x) buflen trp = Ok (rc, buf', trp') ∧ called b body rest (b :: x) trp rc buf' trp'.
Proof.
  intros [Hb Hn Hfit] Hs Hleft. destruct (decodenb_spec _ _ _ Hleft) as (frc & trp1 & E & Hs1 & [(-> & Hl & Hst)|(Hf & Hr & Hp & Hst)]); [lia|..].
  all: destruct Hleft as (m & f & Hp0 & _); unfold read_length; rewrite E, bind_ok; unfold MQTTPACKET_READ_ERROR.
  - cbn [Z.eqb]. eexists 0, _, trp1. split; [done|]. apply called_waiting; [done|done|]. right. left. rewrite Hs1. eauto.
  - destruct (Z.eqb_spec frc (-1)); [lia|]. destruct (Z.eqb_spec frc 0); [lia|]. rewrite Hr.
    assert (Hx : 1 + zlen (length_bytes (zlen body)) + zlen body <= buflen ∧ buflen <= 1 + zlen x) by (unfold packet in Hfit; lens).
    rewrite encode_back by lia. rewrite bind_ok. cbn [w_buf rem_len t_len sck multiplier state].
    destruct (Z.ltb_spec buflen (zlen body + (1 + zlen (length_bytes (zlen body))))); [lia|]. rewrite Hs1, Hs.
    match goal with |- context [read_rest getfn ?b' ?t] =>
      destruct (read_rest_spec b body rest b' t body) as (rc & buf' & trp' & E' & Hc); [unfold is_u8; lia| |done|] end.
    + exists [], (drop (length (length_bytes (zlen body))) x). split; [done|]. split; [done|]. split; [lens|].
      cbn [t_len rem_len sck]. split_and!; [rewrite app_nil_r; lens|done|done].
    + exists rc, buf', trp'. split; [exact E'|]. eapply called_mono; [| |exact Hc]; [lens|done].
Qed.

Lemma readnb_spec b body rest buf buflen trp : fits b body buf buflen → waiting b body rest buf trp →
  ∃ rc buf' trp', MQTTPacket_readnb getfn buf buflen trp = Ok (rc, buf', trp') ∧ called b body rest buf trp rc buf' trp'.
Proof.
  intros Hfits [[Hs Hp]|[(Hs & [x ->] & Hl)|(Hs & left & _ & Hl)]]; unfold MQTTPacket_readnb; rewrite Hs; cbn [Z.eqb Pos.eqb].
  - destruct Hfits as [Hb Hn Hfit] eqn:Ef. unfold packet in Hp. cbn in Hp.
    destruct (getfn_gives (sck trp) 1) as (l & s' & E & Hl & Ep & Hst); [by rewrite Hp|lia|]. rewrite E, bind_ok.
    destruct l as [|c [|c' l]]; [| |cbn in Hl; lia].
    + rewrite decide_True in Hst by done. cbn [app] in Ep. unfold wr_n. rewrite decide_True by lens. rewrite bind_ok. cbn [length Z.of_nat Z.eqb].
      cbn [Z.to_nat take drop app Nat.add]. eexists 0, buf, _. split; [done|]. apply called_waiting; [done| |].
      2: { left. split; [done|]. cbn [sck]. by rewrite <- Ep, Hp. } unfold measure. cbn [sck]. rewrite Ep. cbn. lia.
    + rewrite Hp in Ep. injection Ep as <- Ep. destruct buf as [|b0 x]; [unfold packet in Hfit; lens|].
      assert (Ew : wr_n (b0 :: x) 0 [b] = Ok (b :: x)) by (apply (wr_n_app [] (b0 :: x) [b]); cbn; lia). rewrite Ew, bind_ok. cbn [length Z.of_nat Z.eqb Pos.eqb].
      match goal with |- context [read_length getfn _ _ ?t] =>
        destruct (read_length_spec b body rest x buflen t) as (rc & buf' & trp' & E' & Hc); [by split|done| |] end.
      2: { exists rc, buf', trp'. split; [exact E'|]. eapply called_mono; [done| |exact Hc]. unfold measure. cbn [sck]. rewrite Hp, <- Ep. cbn. lia. }
      exists (zlen body), 4%nat. cbn [sck t_len]. rewrite <- Ep, <- app_assoc. split_and!; try done; lia.
  - by apply read_length_spec.
  - apply read_rest_spec with left; [|done|done]. destruct Hfits as [Hb _ _]. unfold is_u8. lia.
Qed.

(** ** Calls until the packet is there *)

Lemma fits_same b body buf buf' buflen : zlen buf' = zlen buf → fits b body buf buflen → fits b body buf' buflen.
Proof. intros E []. split; [done|done|lia]. Qed.

Lemma poll_spec fuel b body rest buf buflen trp : fits b body buf buflen → waiting b body rest buf trp → (measure trp < fuel)%nat →
  ∃ buf' trp', poll getfn fuel buf buflen trp = Ok (b / 16, buf', trp') ∧ zlen buf' = zlen buf ∧ (measure trp' ≤ measure trp)%nat ∧
    complete b body rest buf' trp'.
Proof.
  revert buf trp. induction fuel as [|fuel IH]; intros buf trp Hfit Hw Hm; [lia|]. cbn [poll].
  destruct (readnb_spec _ _ rest _ _ _ Hfit Hw) as (rc & buf1 & trp1 & E & Hl & Hm0 & [(-> & Hw1 & Hm1)|[-> Hc]]); rewrite E, bind_ok.
  - cbn [Z.eqb]. destruct (IH buf1 trp1) as (buf' & trp' & E' & Hl' & Hm' & Hc); [by eapply fits_same|done|lia|].
    exists buf', trp'. split_and!; [done|congruence|lia|done].
  - destruct (Z.eqb_spec (b / 16) 0); [destruct Hfit; zdiv|]. exists buf1, trp1. by split_and!.
Qed.

Lemma poll_packets_spec fuel l rest buf buflen trp : Forall (λ p, fits p.1 p.2 buf buflen) l → state trp = 0 →
  pending (sck trp) = concat (map (λ p, packet p.1 p.2) l) ++ rest → (measure trp < fuel)%nat →
  ∃ trp', poll_packets getfn fuel (length l) buf buflen trp = Ok (map (λ p, (p.1 / 16, packet p.1 p.2)) l, trp') ∧
    state trp' = 0 ∧ pending (sck trp') = rest.
Proof.
  revert buf trp. induction l as [|[b body] l IH]; intros buf trp Hl Hs Hp Hm; [by exists trp|]. inversion Hl as [|? ? Hfit Hl']; subst.
  cbn [length poll_packets map concat fst snd] in *. rewrite <- app_assoc in Hp.
  destruct (poll_spec fuel b body (concat (map (λ p, packet p.1 p.2) l) ++ rest) buf buflen trp) as (buf' & trp1 & E & Hlen & Hm1 & Hs1 & Hp1 & Ht & x & Ex);
    [done|by left|done|]. rewrite E, bind_ok.
  assert (Er : rd_n buf' 0 (t_len trp1) = Ok (packet b body)) by (rewrite Ex, Ht; apply (rd_n_app [] (packet b body) x)).
  rewrite Er, bind_ok. destruct (IH buf' trp1) as (trp' & E' & Hs' & Hp'); [|done|done|lia|].
  - eapply Forall_impl; [exact Hl'|]. intros p. by apply fits_same.
  - rewrite E', bind_ok. by exists trp'.
Qed.
End Framing.

Section Waiting.
Context {T : Type} (getfn : T → Z → outcome (Z * list Z * T)) {src : WaitingSource getfn}.

Lemma getchar_waits s c r : to_come s = c :: r → ∃ s', getchar getfn s = Ok (1, c, s') ∧ to_come s' = r.
Proof.
  intros Hp. destruct (getfn_waits s [c] r) as (s' & E & Hr); [done|done|]. cbn in E. exists s'. split; [|done].
  unfold getchar. change (Z.of_nat 1) with 1 in E. by rewrite E.
Qed.

Lemma decode_waits f n mult len value s r : to_come s = length_bytes_fuel (S f) n ++ r → 0 <= n < 128 ^ Z.of_nat f →
  len + Z.of_nat f = 4 → (0 < f)%nat →
  ∃ len' s', decode_loop (getchar getfn) (S f) s mult len value = Ok (len', value + n * mult, s') ∧ to_come s' = r.
Proof.
  revert n mult len value s. induction f as [|f IH]; intros n mult len value s Hp Hn Hl Hf; [lia|].
  rewrite decode_loop_S. rewrite length_bytes_S in Hp. unfold MAX_NO_OF_REMAINING_LENGTH_BYTES.
  destruct (Z.ltb_spec 4 (len + 1)); [lia|]. rewrite Nat2Z.inj_succ, Z.pow_succ_r in Hn by lia.
  destruct (Z.ltb_spec n 128) as [Hlt|Hge]; destruct (getchar_waits _ _ _ Hp) as (s' & E & Hr); rewrite E, bind_ok; cbn [Z.eqb Pos.eqb negb].
  - rewrite land_127, land_128 by (unfold is_u8; lia). rewrite Z.mod_small by lia. destruct (Z.ltb_spec n 128); [|lia]. cbn. eauto.
  - rewrite land_127, land_128 by (unfold is_u8; zdiv). destruct (Z.ltb_spec (128 + n mod 128) 128); [zdiv|]. cbn [Z.eqb negb].
    replace ((128 + n mod 128) mod 128) with (n mod 128) by zdiv. destruct f as [|f]; [cbn in Hn; lia|].
    destruct (IH (n / 128) (mult * 128) (len + 1) (value + n mod 128 * mult) s') as (len' & s2 & E2 & Hr2); [done| |lia|lia|].
    { split; [zdiv|]. apply Z.div_lt_upper_bound; lia. }
    exists len', s2. rewrite E2. split; [|done]. pose proof (Z.div_mod n 128). oks. nia.
Qed.

Lemma read_waits b body rest buf buflen s : fits b body buf buflen → to_come s = packet b body ++ rest →
  ∃ x s', MQTTPacket_read getfn buf buflen s = Ok (b / 16, packet b body ++ x, s') ∧ zlen (packet b body ++ x) = zlen buf ∧ to_come s' = rest.
Proof.
  intros [Hb Hn Hfit] Hp. unfold MQTTPacket_read. destruct buf as [|b0 x]; [unfold packet in Hfit; lens|].
  destruct (getfn_waits s [b] (length_bytes (zlen body) ++ body ++ rest)) as (s1 & E1 & Hp1); [by rewrite Hp; cbn; rewrite <- app_assoc|done|].
  change (zlen [b]) with 1 in E1. rewrite E1, bind_ok. assert (Ew : wr_n (b0 :: x) 0 [b] = Ok (b :: x)) by (apply (wr_n_app [] (b0 :: x) [b]); cbn; lia).
  rewrite Ew, bind_ok. cbn [Z.eqb Pos.eqb negb]. unfold MQTTPacket_decode.
  destruct (decode_waits 4 (zlen body) 1 0 0 s1 (body ++ rest)) as (len' & s2 & E2 & Hp2); [done|lia|lia|lia|].
  rewrite E2, bind_ok, Z.mul_1_r, Z.add_0_l.
  assert (Hx : 1 + zlen (length_bytes (zlen body)) + zlen body <= buflen ∧ buflen <= 1 + zlen x) by (unfold packet in Hfit; lens).
  rewrite encode_back, bind_ok by lia. cbn [w_buf].
  destruct (Z.ltb_spec buflen (zlen body + (1 + zlen (length_bytes (zlen body))))); [lia|].
  set (x1 := drop _ x). assert (Hx1 : zlen body <= zlen x1 ∧ zlen x1 = zlen x - zlen (length_bytes (zlen body))) by (unfold x1; lens).
  assert (Hread : ∃ s', (if zlen body =? 0 then Ok (true, b :: length_bytes (zlen body) ++ x1, s2)
    else '(rc, l, s) ← getfn s2 (zlen body); buf ← wr_n (b :: length_bytes (zlen body) ++ x1) (1 + zlen (length_bytes (zlen body))) l;
         Ok (rc =? zlen body, buf, s)) = Ok (true, packet b body ++ drop (length body) x1, s') ∧ to_come s' = rest).
  { destruct (Z.eqb_spec (zlen body) 0) as [H0|H0].
    - destruct body; [|cbn in H0; lia]. exists s2. unfold packet. rewrite app_nil_r. by split.
    - destruct (getfn_waits s2 body rest) as (s3 & E3 & Hp3); [done|by intros ->|]. exists s3. rewrite E3, bind_ok. split; [|done].
      replace (1 + zlen (length_bytes (zlen body))) with (zlen (b :: length_bytes (zlen body))) by lens. rewrite app_comm_cons, wr_n_app by lia.
      rewrite bind_ok, Z.eqb_refl. unfold packet. cbn. by rewrite <- app_assoc. }
  destruct Hread as (s' & E' & Hr). rewrite E', bind_ok.
  change (rd (packet b body ++ drop (length body) x1) 0) with (Ok b : outcome Z). rewrite bind_ok. cbn [h_type byte_header].
  rewrite (Z.mod_small (b / 16)) by zdiv. exists (drop (length body) x1), s'. split_and!; [done|unfold packet; lens|done].
Qed.

Lemma read_packets_spec l rest buf buflen s : Forall (λ p, fits p.1 p.2 buf buflen) l →
  to_come s = concat (map (λ p, packet p.1 p.2) l) ++ rest →
  ∃ s', read_packets getfn (length l) buf buflen s = Ok (map (λ p, (p.1 / 16, packet p.1 p.2)) l, s') ∧ to_come s' = rest.
Proof.
  revert buf s. induction l as [|[b body] l IH]; intros buf s Hl Hp; [by exists s|]. inversion Hl as [|? ? Hfit Hl']; subst.
  cbn [length read_packets map concat fst snd] in *. rewrite <- app_assoc in Hp.
  destruct (read_waits b body _ buf buflen s Hfit Hp) as (x & s1 & E & Hlen & Hp1). rewrite E, bind_ok.
  assert (Ed : MQTTPacket_decodeBuf (packet b body ++ x) 1 = Ok (zlen (length_bytes (zlen body)), zlen body)).
  { unfold packet. cbn. rewrite <- app_assoc. apply (decodeBuf_reads (zlen body) [b] (body ++ x)). destruct Hfit. cbn in *. lia. }
  rewrite Ed, bind_ok. replace (1 + zlen (length_bytes (zlen body)) + zlen body) with (zlen (packet b body)) by (unfold packet; lens).
  assert (Er : rd_n (packet b body ++ x) 0 (zlen (packet b body)) = Ok (packet b body)) by apply (rd_n_app [] (packet b body) x).
  rewrite Er, bind_ok.
  destruct (IH (packet b body ++ x) s1) as (s' & E' & Hr); [|done|].
  - eapply Forall_impl; [exact Hl'|]. intros p. by apply fits_same.
  - rewrite E', bind_ok. by exists s'.
Qed.
End Waiting.

(** C28: Packets are framed the same whether the reader waits or not.  A stream of packets, each of which fits the buffer,
    is cut into these packets by [MQTTPacket_readnb] - in however many pieces it arrives, and however often a call finds
    nothing - within a number of calls that the pieces bound; and by [MQTTPacket_read] on a source that waits.  What
    follows the packets stays in the source. *)
Theorem readers_frame_alike {T T'} (getfn : T → Z → outcome (Z * list Z * T)) (getfn' : T' → Z → outcome (Z * list Z * T'))
    {src : Source getfn} {src' : WaitingSource getfn'} fuel l rest buf buflen trp s :
  let stream := concat (map (λ p, packet p.1 p.2) l) ++ rest in
  let packets := map (λ p, (p.1 / 16, packet p.1 p.2)) l in
  Forall (λ p, fits p.1 p.2 buf buflen) l → state trp = 0 → pending (sck trp) = stream → to_come s = stream →
  (stalls (sck trp) + length stream < fuel)%nat →
  (∃ trp', poll_packets getfn fuel (length l) buf buflen trp = Ok (packets, trp') ∧ state trp' = 0 ∧ pending (sck trp') = rest) ∧
  (∃ s', read_packets getfn' (length l) buf buflen s = Ok (packets, s') ∧ to_come s' = rest).
Proof.
  intros stream packets Hl Hs Hp Hp' Hf. split; [|by apply read_packets_spec].
  apply poll_packets_spec; [done|done|done|]. unfold measure. by rewrite Hp.
Qed.

(** ** What goes wrong *)

(** [MQTTPacket_encode] writes the length before it is compared with the size of the buffer: in a buffer of one byte the
    reader that waits writes behind it, whatever the packet. *)
Lemma length_written_before_check {T} (getfn : T → Z → outcome (Z * list Z * T)) {src : WaitingSource getfn} b0 b n r s :
  to_come s = b :: length_bytes n ++ r → 0 <= n < 268435456 → MQTTPacket_read getfn [b0] 1 s = Ub.
Proof.
  intros Hp Hn. unfold MQTTPacket_read. destruct (getfn_waits s [b] (length_bytes n ++ r)) as (s1 & E1 & Hp1); [done|done|].
  change (zlen [b]) with 1 in E1. rewrite E1, bind_ok. change (wr_n [b0] 0 [b]) with (Ok [b] : outcome (list Z)). rewrite bind_ok.
  cbn [Z.eqb Pos.eqb negb]. unfold MQTTPacket_decode. destruct (decode_waits getfn 4 n 1 0 0 s1 r) as (len' & s2 & E2 & _); [done|cbn; lia|lia|lia|].
  rewrite E2, bind_ok, Z.mul_1_r, Z.add_0_l. unfold MQTTPacket_encode, encode_fuel.
  pose proof (encode_loop_emits 5 n 0 ltac:(cbn; lia) ltac:(lia) [b] []) as Ee. change ([b] ++ []) with [b] in Ee. change (zlen [b]) with 1 in Ee.
  rewrite Ee. cbn zeta. rewrite decide_False; [done|]. pose proof (length_bytes_pos n). unfold length_bytes in *. cbn [length]. lia.
Qed.

(** A connection that gives at most [k] bytes at a time, and nothing every other time: the bytes to come, whether the next
    answer is nothing. *)
Definition drip (k : nat) (s : list Z * bool) (n : Z) : outcome (Z * list Z * (list Z * bool)) :=
  let '(l, wait) := s in
  let m := if wait then O else (k `min` Z.to_nat n)%nat in
  Ok (zlen (take m l), take m l, (drop m l, negb wait)).

#[export] Instance drip_source k : Source (drip (S k)).
Proof.
  refine {| pending (s : list Z * bool) := s.1; stalls s := (length s.1 + if s.2 then 1 else 0)%nat |}.
  intros [l wait] n Hl Hn. cbn [fst snd] in *. unfold drip. eexists _, _. split; [done|]. destruct wait; cbn [negb fst snd].
  - rewrite take_0, drop_0. split; [cbn; lia|]. split; [done|]. rewrite decide_True by done. lia.
  - set (m := (S k `min` Z.to_nat n)%nat). assert (0 < m)%nat by lia. destruct l as [|c l]; [done|]. destruct m as [|m'] eqn:Em; [lia|].
    cbn [take drop length app]. rewrite decide_False by done. split; [lens|]. rewrite take_drop. split; [done|]. lens.
Defined.

(** A file, say. *)
Definition at_once (s : list Z) (n : Z) : outcome (Z * list Z * list Z) :=
  Ok (zlen (take (Z.to_nat n) s), take (Z.to_nat n) s, drop (Z.to_nat n) s).

#[export] Instance at_once_source : WaitingSource at_once.
Proof.
  refine {| to_come := id |}. intros s l r Hs Hl. unfold id in *. subst s. exists r. unfold at_once.
  by rewrite Nat2Z.id, take_app_length, drop_app_length.
Defined.

(** A length field of more than four bytes: [MQTTPacket_readnb] refuses it, [MQTTPacket_read] does not look at the result of
    [MQTTPacket_decode] and takes what it has for the length. *)
Lemma bad_length_is_read : let stream := [208; 128; 128; 128; 128; 1] in let buf := replicate 10 0 in
  MQTTPacket_read at_once buf 10 stream = Ok (13, 208 :: 0 :: replicate 8 0, [1]) ∧
  ∃ buf' trp, MQTTPacket_readnb (drip 9) buf 10 (mkTransport (stream, false) 0 0 0 0) = Ok (0, buf', trp) ∧
    ∃ buf'' trp', poll (drip 9) 20 buf' 10 trp = Ok (-1, buf'', trp').
Proof. intros stream buf. split; [by vm_compute|]. eexists _, _. split; [by vm_compute|]. eexists _, _. by vm_compute. Qed.

(** A PINGRESP and a PUBLISH of 130 bytes, three bytes at a time. *)
Lemma readers_frame_alike_witness : ∃ trp' s',
  let l := [(208, []); (48, replicate 130 7)] in let stream := concat (map (λ p, packet p.1 p.2) l) ++ [9] in
  let packets := map (λ p, (p.1 / 16, packet p.1 p.2)) l in
  poll_packets (drip 3) 400 2 (replicate 200 0) 200 (mkTransport (stream, true) 0 0 0 0) = Ok (packets, trp') ∧
  (sck trp').1 = [9] ∧ read_packets at_once 2 (replicate 200 0) 200 stream = Ok (packets, s') ∧ s' = [9].
Proof.
  destruct (readers_frame_alike (drip 3) at_once 400 [(208, []); (48, replicate 130 7)] [9] (replicate 200 0) 200
    (mkTransport (concat (map (λ p, packet p.1 p.2) [(208, []); (48, replicate 130 7)]) ++ [9], true) 0 0 0 0)
    (concat (map (λ p, packet p.1 p.2) [(208, []); (48, replicate 130 7)]) ++ [9])) as [(trp' & E & _ & Hp) (s' & E' & Hs)].
  - repeat constructor; decided.
  - done.
  - done.
  - done.
  - decided.
  - exists trp', s'. split; [exact E|]. split; [exact Hp|]. split; [exact E'|exact Hs].
Defined.
