(* ===== verification/MqttFormat.v ===== *)
(** Text forms of packets (paho.mqtt.embedded-c/MQTTPacket/src/MQTTFormat.cpp): what the tracing of the library prints of
    the fields of a packet, into a buffer of [strbuflen] characters, and of whole packets as a client or a server sees
    them.

    The formatters are C's [snprintf] with the conversions d, s and a string with a precision.  An offset into the
    buffer and the room left are computed by the code; a room that has become negative is a huge [size_t]. *)
From Stdlib Require Import DecimalString.
From S2P Require Import Prelude Cursor CString MqttPacket MqttSerialize MqttDeserialize.

(** ** printf *)

(** The conversion d of an [int]. *)
Definition dec (n : Z) : list Z := chars (NilEmpty.string_of_int (Z.to_int n)).

(** Up to [n] characters of a string that may lack a NUL. *)
Fixpoint c_str_n (n : nat) (l : list Z) : outcome (list Z) :=
  match n, l with
  | O, _ => Ok []
  | S _, [] => Ub
  | S n, c :: l => if c =? 0 then Ok [] else s ← c_str_n n l; Ok (c :: s)
  end.

(** The conversion s with a precision; a negative one is no precision. *)
Definition fmt_str (precision : Z) (data : option (list Z)) : outcome (list Z) :=
  match data with
  | Some d => if precision <? 0 then c_str d else c_str_n (Z.to_nat precision) d
  | None => Ub
  end.

Definition lenstr (m : MQTTString) : outcome (list Z) := fmt_str (ls_len (lenstring m)) (ls_data (lenstring m)).

(** [snprintf(strbuf + off, size, ...)] of the text [s]; [size] becomes a [size_t]. *)
Definition snprintf_at (strbuf : list Z) (off size : Z) (s : list Z) : outcome (list Z * Z) :=
  let size := u32 size in
  if size =? 0 then Ok (strbuf, zlen s)
  else strbuf ← wr_n strbuf off (take (Z.to_nat (size - 1)) s ++ [0]); Ok (strbuf, zlen s).

(** [strindex += snprintf(&strbuf[strindex], strbuflen - strindex, ...)] *)
Definition append (strbuf : list Z) (strbuflen strindex : Z) (s : list Z) : outcome (list Z * Z) :=
  '(strbuf, n) ← snprintf_at strbuf strindex (strbuflen - strindex) s; Ok (strbuf, strindex + n).

(** ** The fields of a packet *)

Definition MQTTPacket_names : list (list Z) := map chars
  ["RESERVED"; "CONNECT"; "CONNACK"; "PUBLISH"; "PUBACK"; "PUBREC"; "PUBREL"; "PUBCOMP"; "SUBSCRIBE"; "SUBACK";
   "UNSUBSCRIBE"; "UNSUBACK"; "PINGREQ"; "PINGRESP"; "DISCONNECT"]%string.

Definition MQTTPacket_getName (packetid : Z) : outcome (list Z) :=
  match MQTTPacket_names !! Z.to_nat packetid with Some s => if packetid <? 0 then Ub else Ok s | None => Ub end.

Definition connect_text (d : MQTTPacket_connectData) (id : list Z) : list Z :=
  chars "CONNECT MQTT version " ++ dec (MQTTVersion d) ++ chars ", client id " ++ id ++
  chars ", clean session " ++ dec (cleansession d) ++ chars ", keep alive " ++ dec (keepAliveInterval d).

Definition will_text (w : MQTTPacket_willOptions) (topic msg : list Z) : list Z :=
  chars ", will QoS " ++ dec (will_qos w) ++ chars ", will retain " ++ dec (retained w) ++
  chars ", will topic " ++ topic ++ chars ", will message " ++ msg.

(** [s.lenstring.data && s.lenstring.len > 0] *)
Definition has_data (s : MQTTString) : bool :=
  match ls_data (lenstring s) with Some _ => 0 <? ls_len (lenstring s) | None => false end.

Definition MQTTStringFormat_connect (strbuf : list Z) (strbuflen : Z) (d : MQTTPacket_connectData) : outcome (list Z * Z) :=
  id ← lenstr (clientID d);
  '(strbuf, strindex) ← snprintf_at strbuf 0 strbuflen (connect_text d id);
  '(strbuf, strindex) ← (if negb (willFlag d =? 0) then
      topic ← lenstr (topicName (will d));
      msg ← lenstr (message (will d));
      append strbuf strbuflen strindex (will_text (will d) topic msg)
    else Ok (strbuf, strindex));
  '(strbuf, strindex) ← (if has_data (username d) then
      user ← lenstr (username d); append strbuf strbuflen strindex (chars ", user name " ++ user)
    else Ok (strbuf, strindex));
  if has_data (password d) then
    pass ← lenstr (password d); append strbuf strbuflen strindex (chars ", password " ++ pass)
  else Ok (strbuf, strindex).

Definition connack_text (connack_rc sessionPresent : Z) : list Z :=
  chars "CONNACK session present " ++ dec sessionPresent ++ chars ", rc " ++ dec connack_rc.

Definition MQTTStringFormat_connack (strbuf : list Z) (strbuflen connack_rc sessionPresent : Z) : outcome (list Z * Z) :=
  snprintf_at strbuf 0 strbuflen (connack_text connack_rc sessionPresent).

Definition publish_text (dup qos retained packetid : Z) (topic : list Z) (payloadlen : Z) (payload : list Z) : list Z :=
  chars "PUBLISH dup " ++ dec dup ++ chars ", QoS " ++ dec qos ++ chars ", retained " ++ dec retained ++
  chars ", packet id " ++ dec packetid ++ chars ", topic " ++ topic ++ chars ", payload length " ++ dec payloadlen ++
  chars ", payload " ++ payload.

Definition MQTTStringFormat_publish (strbuf : list Z) (strbuflen dup qos retained packetid : Z) (topicName : MQTTString)
    (payload : option (list Z)) (payloadlen : Z) : outcome (list Z * Z) :=
  topic ← fmt_str (Z.min (ls_len (lenstring topicName)) 20) (ls_data (lenstring topicName));
  text ← fmt_str (Z.min payloadlen 20) payload;
  snprintf_at strbuf 0 strbuflen (publish_text dup qos retained packetid topic payloadlen text).

Definition MQTTStringFormat_ack (strbuf : list Z) (strbuflen packettype dup packetid : Z) : outcome (list Z * Z) :=
  name ← MQTTPacket_getName packettype;
  '(strbuf, strindex) ← snprintf_at strbuf 0 strbuflen (name ++ chars ", packet id " ++ dec packetid);
  if negb (dup =? 0) then append strbuf strbuflen strindex (chars ", dup " ++ dec dup) else Ok (strbuf, strindex).

Definition MQTTStringFormat_subscribe (strbuf : list Z) (strbuflen dup packetid count : Z) (topicFilters : list MQTTString)
    (requestedQoSs : list Z) : outcome (list Z * Z) :=
  filter ← get_topic topicFilters 0;
  topic ← lenstr filter;
  qos ← rd requestedQoSs 0;
  snprintf_at strbuf 0 strbuflen
    (chars "SUBSCRIBE dup " ++ dec dup ++ chars ", packet id " ++ dec packetid ++ chars " count " ++ dec count ++
     chars " topic " ++ topic ++ chars " qos " ++ dec qos).

Definition suback_text (packetid count qos : Z) : list Z :=
  chars "SUBACK packet id " ++ dec packetid ++ chars " count " ++ dec count ++ chars " granted qos " ++ dec qos.

Definition MQTTStringFormat_suback (strbuf : list Z) (strbuflen packetid count : Z) (grantedQoSs : list Z)
    : outcome (list Z * Z) :=
  qos ← rd grantedQoSs 0;
  snprintf_at strbuf 0 strbuflen (suback_text packetid count qos).

Definition MQTTStringFormat_unsubscribe (strbuf : list Z) (strbuflen dup packetid count : Z) (topicFilters : list MQTTString)
    : outcome (list Z * Z) :=
  filter ← get_topic topicFilters 0;
  topic ← lenstr filter;
  snprintf_at strbuf 0 strbuflen
    (chars "UNSUBSCRIBE dup " ++ dec dup ++ chars ", packet id " ++ dec packetid ++ chars " count " ++ dec count ++
     chars " topic " ++ topic).

(** ** Packets *)

(** The local variables, which nothing initialises: what the readers do not assign is printed as it is. *)
Record locals := mkLocals {
  l_connack : connack_out; l_publish : publish_out; l_ack : ack_out; l_suback : suback_out; l_unsuback : Z;
  l_connect : MQTTPacket_connectData; l_subscribe : subscribe_out; l_unsubscribe : unsubscribe_out }.

Section Packets.
Context (x : locals).

Definition format_publish (strbuf : list Z) (strbuflen : Z) (buf : list Z) (buflen : Z) : outcome (list Z) :=
  let o := l_publish x in
  '(rc, o) ← MQTTDeserialize_publish (mkPub (po_dup o) (po_qos o) (po_retained o) (po_packetid o) MQTTString_initializer
                                        (po_payload o) (po_payloadlen o)) buf buflen;
  if rc =? 1 then
    '(strbuf, _) ← MQTTStringFormat_publish strbuf strbuflen (po_dup o) (po_qos o) (po_retained o) (po_packetid o)
                     (po_topic o) (po_payload o) (po_payloadlen o);
    Ok strbuf
  else Ok strbuf.

Definition format_ack (strbuf : list Z) (strbuflen : Z) (buf : list Z) (buflen : Z) : outcome (list Z) :=
  '(rc, o) ← MQTTDeserialize_ack (l_ack x) buf buflen;
  if rc =? 1 then
    '(strbuf, _) ← MQTTStringFormat_ack strbuf strbuflen (ao_packettype o) (ao_dup o) (ao_packetid o); Ok strbuf
  else Ok strbuf.

Definition format_name (strbuf : list Z) (strbuflen packettype : Z) : outcome (list Z) :=
  name ← MQTTPacket_getName packettype;
  '(strbuf, _) ← snprintf_at strbuf 0 strbuflen name;
  Ok strbuf.

Definition is_ack (t : Z) : bool := (t =? PUBACK) || (t =? PUBREC) || (t =? PUBREL) || (t =? PUBCOMP).
Definition is_bare (t : Z) : bool := (t =? PINGREQ) || (t =? PINGRESP) || (t =? DISCONNECT).

(** The switch on the type, for a client and for a server. *)
Definition client_case (t : Z) (strbuf : list Z) (strbuflen : Z) (buf : list Z) (buflen : Z) : outcome (list Z) :=
  if t =? CONNACK then
    '(rc, o) ← MQTTDeserialize_connack (l_connack x) buf buflen;
    if rc =? 1 then
      '(strbuf, _) ← MQTTStringFormat_connack strbuf strbuflen (connack_rc o) (sessionPresent o); Ok strbuf
    else Ok strbuf
  else if t =? PUBLISH then format_publish strbuf strbuflen buf buflen
  else if is_ack t then format_ack strbuf strbuflen buf buflen
  else if t =? SUBACK then
    let o := l_suback x in
    '(rc, o) ← MQTTDeserialize_suback (mkSuback (so_packetid o) 0 (so_grantedQoSs o)) 1 buf buflen;
    if rc =? 1 then
      '(strbuf, _) ← MQTTStringFormat_suback strbuf strbuflen (so_packetid o) (so_count o) (so_grantedQoSs o); Ok strbuf
    else Ok strbuf
  else if t =? UNSUBACK then
    '(rc, packetid) ← MQTTDeserialize_unsuback (l_unsuback x) buf buflen;
    if rc =? 1 then '(strbuf, _) ← MQTTStringFormat_ack strbuf strbuflen UNSUBACK 0 packetid; Ok strbuf else Ok strbuf
  else if is_bare t then format_name strbuf strbuflen t
  else Ok strbuf.

Definition MQTTFormat_toClientString (strbuf : list Z) (strbuflen : Z) (buf : list Z) (buflen : Z) : outcome (list Z) :=
  '(b, index) ← readChar buf 0;
  _ ← MQTTPacket_decodeBuf buf index;
  client_case (h_type (byte_header b)) strbuf strbuflen buf buflen.

Definition server_case (t : Z) (strbuf : list Z) (strbuflen : Z) (buf : list Z) (buflen : Z) : outcome (list Z) :=
  if t =? CONNECT then
    '(rc, d) ← MQTTDeserialize_connect (l_connect x) buf buflen;
    if rc =? 1 then '(strbuf, _) ← MQTTStringFormat_connect strbuf strbuflen d; Ok strbuf else Ok strbuf
  else if t =? PUBLISH then format_publish strbuf strbuflen buf buflen
  else if is_ack t then format_ack strbuf strbuflen buf buflen
  else if t =? SUBSCRIBE then
    let o := l_subscribe x in
    '(rc, o) ← MQTTDeserialize_subscribe (mkSub (su_dup o) (su_packetid o) 0 (su_topics o) (su_qoss o)) 1 buf buflen;
    if rc =? 1 then
      '(strbuf, _) ← MQTTStringFormat_subscribe strbuf strbuflen (su_dup o) (su_packetid o) (su_count o) (su_topics o)
                       (su_qoss o);
      Ok strbuf
    else Ok strbuf
  else if t =? UNSUBSCRIBE then
    let o := l_unsubscribe x in
    '(rc, o) ← MQTTDeserialize_unsubscribe (mkUnsub (us_dup o) (us_packetid o) 0 (us_topics o)) 1 buf buflen;
    if rc =? 1 then
      '(strbuf, _) ← MQTTStringFormat_unsubscribe strbuf strbuflen (us_dup o) (us_packetid o) (us_count o) (us_topics o);
      Ok strbuf
    else Ok strbuf
  else if is_bare t then format_name strbuf strbuflen t
  else Ok strbuf.

Definition MQTTFormat_toServerString (strbuf : list Z) (strbuflen : Z) (buf : list Z) (buflen : Z) : outcome (list Z) :=
  '(b, index) ← readChar buf 0;
  _ ← MQTTPacket_decodeBuf buf index;
  strbuf ← server_case (h_type (byte_header b)) strbuf strbuflen buf buflen;
  wr strbuf strbuflen 0.
End Packets.

(** ** What is printed has no NUL *)

Lemma dec_no_nul n : no_nul (dec n).
Proof.
  unfold dec, no_nul, chars.
  assert (H : ∀ u, Forall (λ c, c ≠ 0) (map (λ a, Z.of_N (Ascii.N_of_ascii a)) (String.list_ascii_of_string (NilEmpty.string_of_uint u))))
    by (induction u; cbn; [done|by constructor..]).
  destruct (Z.to_int n); cbn; [apply H|]. constructor; [done|apply H].
Qed.

Lemma c_str_n_no_nul n l s : c_str_n n l = Ok s → no_nul s.
Proof.
  revert l s. induction n as [|n IH]; intros [|c l] s; cbn [c_str_n]; try done; try (intros [= <-]; apply Forall_nil_2).
  destruct (Z.eqb_spec c 0); [intros [= <-]; apply Forall_nil_2|]. destruct (c_str_n n l) as [s'| |] eqn:E; cbn; try done.
  intros [= <-]. constructor; [done|by apply (IH l)].
Qed.

Lemma c_str_chars l s : c_str l = Ok s → no_nul s.
Proof.
  revert s. induction l as [|c l IH]; intros s; cbn [c_str]; [done|]. destruct (Z.eqb_spec c 0); [intros [= <-]; apply Forall_nil_2|].
  destruct (c_str l) as [s'| |]; cbn; try done. intros [= <-]. constructor; [done|by apply IH].
Qed.

Lemma fmt_str_no_nul p d s : fmt_str p d = Ok s → no_nul s.
Proof. unfold fmt_str. destruct d; [|done]. case_match; [apply c_str_chars|apply c_str_n_no_nul]. Qed.

Lemma getName_no_nul t s : MQTTPacket_getName t = Ok s → no_nul s.
Proof.
  unfold MQTTPacket_getName. destruct (MQTTPacket_names !! Z.to_nat t) as [s'|] eqn:E; [|done]. case_match; [done|]. intros [= <-].
  assert (Hall : Forall no_nul MQTTPacket_names) by decided. rewrite Forall_forall in Hall. apply Hall. by eapply list_elem_of_lookup_2.
Qed.

(** A text put together of literals, numbers and strings. *)
Ltac no_nuls :=
  repeat first [ apply Forall_app_2 | apply dec_no_nul | apply Forall_nil_2
               | by eapply fmt_str_no_nul | by eapply getName_no_nul | assumption | solve [decided] ].

Lemma c_str_n_app n s r : (n ≤ length s)%nat → c_str_n n (s ++ r) = Ok (upto_nul (take n s)).
Proof.
  revert n. induction s as [|c s IH]; intros [|n] Hn; cbn [length] in Hn; [done|lia|done|]. cbn [app c_str_n take upto_nul].
  destruct (c =? 0); [done|]. by rewrite IH by lia.
Qed.

(** The conversion with the precision [min(len, k)] of a string of [len] characters. *)
Lemma fmt_str_min s r k : 0 <= k → fmt_str (Z.min (zlen s) k) (Some (s ++ r)) = Ok (upto_nul (take (Z.to_nat k) s)).
Proof.
  intros Hk. unfold fmt_str. destruct (Z.ltb_spec (Z.min (zlen s) k) 0); [lia|]. rewrite c_str_n_app by lia. do 2 f_equal.
  destruct (Z.le_ge_cases (zlen s) k); [|f_equal; lia]. rewrite !take_ge by lia. done.
Qed.

(** ** A text in the buffer *)

(** The buffer of [n] characters holds as much of [t] as there is room for. *)
Definition prints (b : list Z) (n : Z) (t : list Z) : Prop := ∃ r, b = take (Z.to_nat (n - 1)) t ++ 0 :: r.

Lemma prints_c_str b n t : no_nul t → prints b n t → c_str b = Ok (take (Z.to_nat (n - 1)) t).
Proof. intros Ht [r ->]. apply c_str_app. by apply Forall_take. Qed.

Lemma snprintf_start b n s : 0 < n < 4294967296 → n <= zlen b →
  ∃ b', snprintf_at b 0 n s = Ok (b', zlen s) ∧ prints b' n s ∧ length b' = length b.
Proof.
  intros Hn Hb. unfold snprintf_at. rewrite u32_id by (unfold is_u32; lia). destruct (Z.eqb_spec n 0); [lia|].
  set (t := take (Z.to_nat (n - 1)) s). assert (zlen t <= n - 1) by (unfold t; lens).
  pose proof (wr_n_app [] b (t ++ [0])) as E. cbn [app length] in E. change (Z.of_nat 0) with 0 in E. rewrite E by lens. rewrite bind_ok.
  eexists. split; [done|]. split; [|lens]. eexists. rewrite <- app_assoc. done.
Qed.

Lemma append_prints b n t s : 0 < n < 4294967296 → zlen b = n → zlen t <= n → prints b n t →
  ∃ b', append b n (zlen t) s = Ok (b', zlen (t ++ s)) ∧ prints b' n (t ++ s) ∧ zlen b' = n.
Proof.
  intros Hn Hb Ht [r Er]. unfold append, snprintf_at. rewrite u32_id by (unfold is_u32; lia).
  destruct (Z.eqb_spec (n - zlen t) 0).
  - exists b. rewrite bind_ok. split; [do 2 f_equal; lens|]. split; [|done]. exists r. rewrite take_app_le by lia. done.
  - rewrite take_ge in Er by lia. set (u := take (Z.to_nat (n - zlen t - 1)) s). assert (zlen u <= n - zlen t - 1) by (unfold u; lens).
    assert (zlen b = zlen t + 1 + zlen r) by (rewrite Er; lens).
    rewrite Er, wr_n_app by lens. rewrite !bind_ok. eexists. split; [do 2 f_equal; lens|]. split; [|lens].
    eexists. rewrite take_app. rewrite (take_ge t) by lia. rewrite <- !app_assoc. do 2 f_equal. unfold u. f_equal. lia.
Qed.

Lemma append_overruns b n (t : list Z) s : 0 < n → zlen b = n → n < zlen t < 4294967296 → append b n (zlen t) s = Ub.
Proof.
  intros Hn Hb Ht. unfold append, snprintf_at. assert (E : u32 (n - zlen t) = n - zlen t + 4294967296) by (unfold u32; zdiv).
  rewrite E. destruct (Z.eqb_spec (n - zlen t + 4294967296) 0); [lia|]. by rewrite wr_n_oob by lens.
Qed.

(** ** Texts in several pieces *)

(** The pieces of the text of a CONNECT: of the will, the user name and the password only if they are there. *)
Definition connect_pieces (d : MQTTPacket_connectData) (topic msg user pass : list Z) : list (list Z) :=
  (if negb (willFlag d =? 0) then [will_text (will d) topic msg] else []) ++
  (if has_data (username d) then [chars ", user name " ++ user] else []) ++
  (if has_data (password d) then [chars ", password " ++ pass] else []).

(** The pieces after [t]: each of them may only begin within the buffer. *)
Fixpoint starts_within (n : Z) (t : list Z) (pieces : list (list Z)) : bool :=
  match pieces with [] => true | p :: ps => (zlen t <=? n) && starts_within n (t ++ p) ps end.

Fixpoint append_all (b : list Z) (n i : Z) (pieces : list (list Z)) : outcome (list Z * Z) :=
  match pieces with [] => Ok (b, i) | p :: ps => '(b, i) ← append b n i p; append_all b n i ps end.

Lemma append_all_spec b n t pieces : 0 < n < 4294967296 → zlen b = n → prints b n t → zlen (t ++ concat pieces) < 4294967296 →
  if starts_within n t pieces
  then ∃ b', append_all b n (zlen t) pieces = Ok (b', zlen (t ++ concat pieces)) ∧ prints b' n (t ++ concat pieces) ∧ zlen b' = n
  else append_all b n (zlen t) pieces = Ub.
Proof.
  intros Hn. revert b t. induction pieces as [|p ps IH]; intros b t Hb Hp Hl; cbn [starts_within append_all concat].
  - rewrite app_nil_r. by exists b.
  - cbn [concat] in Hl. destruct (Z.leb_spec (zlen t) n); cbn [andb].
    + destruct (append_prints b n t p) as (b' & E & Hp' & Hb'); try done. rewrite E, bind_ok.
      specialize (IH b' (t ++ p)). rewrite <- app_assoc in IH. by apply IH.
    + rewrite append_overruns; [done|lia|done|]. rewrite !length_app in Hl. lia.
Qed.

(** What the strings of the options show as. *)
Record shows (d : MQTTPacket_connectData) (id topic msg user pass : list Z) : Prop := {
  sh_id : lenstr (clientID d) = Ok id;
  sh_will : willFlag d ≠ 0 → lenstr (topicName (will d)) = Ok topic ∧ lenstr (message (will d)) = Ok msg;
  sh_user : has_data (username d) = true → lenstr (username d) = Ok user;
  sh_pass : has_data (password d) = true → lenstr (password d) = Ok pass;
}.

Lemma append_all_app b n i ps qs : append_all b n i (ps ++ qs) = ('(b, i) ← append_all b n i ps; append_all b n i qs).
Proof.
  revert b i. induction ps as [|p ps IH]; intros b i; [done|]. cbn [app append_all].
  destruct (append b n i p) as [[b' i']| |]; [|done..]. rewrite !bind_ok. apply IH.
Qed.

Lemma append_all_one b n i p : append_all b n i [p] = append b n i p.
Proof. cbn [append_all]. by destruct (append b n i p) as [[]| |]. Qed.

(** A piece that is only there when [c] holds. *)
Lemma append_if (c : bool) (m : outcome (list Z)) s text b n i : (c = true → m = Ok s) →
  (if c then x ← m; append b n i (text x) else Ok (b, i)) = append_all b n i (if c then [text s] else []).
Proof. intros H. destruct c; [|done]. by rewrite H, bind_ok, append_all_one. Qed.

(** [MQTTStringFormat_connect] prints its pieces one after the other. *)
Lemma format_connect_pieces b n d id topic msg user pass : shows d id topic msg user pass →
  MQTTStringFormat_connect b n d =
    ('(b, i) ← snprintf_at b 0 n (connect_text d id); append_all b n i (connect_pieces d topic msg user pass)).
Proof.
  intros [Hid Hw Hu Hp]. unfold MQTTStringFormat_connect, connect_pieces. rewrite Hid, bind_ok.
  destruct (snprintf_at b 0 n _) as [[b1 i1]| |]; [rewrite !bind_ok|done..].
  assert (Ew : (if negb (willFlag d =? 0) then
                  t ← lenstr (topicName (will d)); m ← lenstr (message (will d)); append b1 n i1 (will_text (will d) t m)
                else Ok (b1, i1)) = append_all b1 n i1 (if negb (willFlag d =? 0) then [will_text (will d) topic msg] else [])).
  { destruct (Z.eqb_spec (willFlag d) 0); cbn [negb]; [done|]. destruct Hw as [-> ->]; [done|]. by rewrite !bind_ok, <- append_all_one. }
  rewrite Ew, append_all_app. destruct (append_all b1 n i1 _) as [[b2 i2]| |]; [rewrite !bind_ok|done..].
  rewrite (append_if _ _ _ (λ user, chars ", user name " ++ user) _ _ _ Hu), append_all_app.
  destruct (append_all b2 n i2 _) as [[b3 i3]| |]; [rewrite !bind_ok|done..].
  apply (append_if _ _ _ (λ pass, chars ", password " ++ pass) _ _ _ Hp).
Qed.

Lemma connect_text_no_nul d id : no_nul id → no_nul (connect_text d id).
Proof. intros. unfold connect_text, no_nul. no_nuls. Qed.

Lemma pieces_no_nul d id topic msg user pass : shows d id topic msg user pass → no_nul (concat (connect_pieces d topic msg user pass)).
Proof.
  intros [_ Hw Hu Hp]. unfold connect_pieces, no_nul. rewrite !concat_app. apply Forall_app_2; [|apply Forall_app_2].
  - destruct (Z.eqb_spec (willFlag d) 0); cbn [negb concat]; [done|]. destruct Hw as [Ht Hm]; [done|]. unfold will_text. no_nuls.
  - case_match; cbn [concat]; [|done]. specialize (Hu eq_refl). no_nuls.
  - case_match; cbn [concat]; [|done]. specialize (Hp eq_refl). no_nuls.
Qed.

(** C39: The text of a CONNECT stays in its buffer exactly when each of its pieces begins there.  [MQTTStringFormat_connect]
    prints the identifier and the options, the will, the user name and the password one after the other; as long as no
    piece begins behind the end, the buffer then holds the whole text or as much as there is room for, closed with a NUL,
    and the result is the length of the whole text.  When a piece would begin behind the end, the room left that the code
    computes is negative, [snprintf] takes it for a huge one and writes behind the buffer. *)
Theorem connect_text_fits_iff b n d id topic msg user pass :
  0 < n → zlen b = n → shows d id topic msg user pass →
  let text := connect_text d id ++ concat (connect_pieces d topic msg user pass) in
  zlen text < 2147483648 → n < 2147483648 →
  if starts_within n (connect_text d id) (connect_pieces d topic msg user pass)
  then ∃ b', MQTTStringFormat_connect b n d = Ok (b', zlen text) ∧ c_str b' = Ok (take (Z.to_nat (n - 1)) text) ∧ zlen b' = n
  else MQTTStringFormat_connect b n d = Ub.
Proof.
  intros Hn Hb Hs text Ht Hn'. rewrite (format_connect_pieces b n d id topic msg user pass Hs).
  destruct (snprintf_start b n (connect_text d id)) as (b1 & E & Hp & Hl); [lia|lia|]. rewrite E, bind_ok.
  pose proof (append_all_spec b1 n (connect_text d id) (connect_pieces d topic msg user pass)) as H.
  fold text in H. case_match; [|apply H; [lia|lia|done|lia]]. destruct H as (b' & E' & Hp' & Hb'); [lia|lia|done|lia|].
  exists b'. split; [done|]. split; [|done]. apply prints_c_str; [|done].
  apply Forall_app_2; [|by eapply pieces_no_nul]. apply connect_text_no_nul. eapply fmt_str_no_nul. apply Hs.
Qed.

(** ** Packets as a client sees them *)

(** A packet a server sends, and its text.  Of topic and payload 20 characters are shown, up to a NUL. *)
Inductive client_packet : list Z → list Z → Prop :=
| cp_connack rc present : is_u8 rc → 0 <= present < 2 →
    client_packet (connack_packet present rc) (connack_text rc present)
| cp_publish dup qos retain id topic payload :
    0 <= dup < 2 → 0 < qos < 4 → 0 <= retain < 2 → is_u16 id → zlen topic < 65536 →
    zlen (publish_body qos id topic payload) < 268435456 →
    client_packet (publish_packet dup qos retain id topic payload)
      (publish_text dup qos retain id (upto_nul (take 20 topic)) (zlen payload) (upto_nul (take 20 payload)))
| cp_ack t name id : t ∈ [PUBACK; PUBREC; PUBREL; PUBCOMP; UNSUBACK] → MQTTPacket_getName t = Ok name → is_u16 id →
    client_packet (ack_packet t 0 id) (name ++ chars ", packet id " ++ dec id)
| cp_suback id qos : is_u16 id → is_u8 qos → client_packet (suback_packet id [qos]) (suback_text id 1 qos)
| cp_bare t name : t ∈ [PINGREQ; PINGRESP; DISCONNECT] → MQTTPacket_getName t = Ok name → client_packet (packet (header_bytes t 0 0 0) []) name.

(** [b] is the buffer [strbuf] with the first characters of [text], as [snprintf] leaves it. *)
Definition printed (strbuf b : list Z) (n : Z) (text : list Z) : Prop :=
  c_str b = Ok (take (Z.to_nat (n - 1)) text) ∧ length b = length strbuf.

Lemma snprintf_printed strbuf n s : no_nul s → 0 < n < 4294967296 → n <= zlen strbuf →
  ∃ b, snprintf_at strbuf 0 n s = Ok (b, zlen s) ∧ printed strbuf b n s.
Proof.
  intros Hs Hn Hb. destruct (snprintf_start strbuf n s Hn Hb) as (b & E & Hp & Hl). exists b. split; [done|].
  split; [by apply prints_c_str|done].
Qed.

Lemma format_publish_prints x strbuf n dup qos retain id topic payload r buflen :
  0 <= dup < 2 → 0 < qos < 4 → 0 <= retain < 2 → is_u16 id → zlen topic < 65536 →
  zlen (publish_body qos id topic payload) < 268435456 → 0 < n < 4294967296 → n <= zlen strbuf →
  ∃ b, format_publish x strbuf n (publish_packet dup qos retain id topic payload ++ r) buflen = Ok b ∧
    printed strbuf b n (publish_text dup qos retain id (upto_nul (take 20 topic)) (zlen payload) (upto_nul (take 20 payload))).
Proof.
  intros Hd Hq Hr Hid Ht Hb Hn Hs. unfold format_publish. rewrite publish_roundtrip_aux by (done || lia). rewrite bind_ok.
  destruct (Z.ltb_spec 0 qos); [|lia]. cbn [Z.eqb Pos.eqb po_dup po_qos po_retained po_packetid po_topic po_payload po_payloadlen].
  unfold MQTTStringFormat_publish, view_string. cbn [lenstring ls_len ls_data]. rewrite !fmt_str_min by lia. rewrite !bind_ok. change (Z.to_nat 20) with 20%nat.
  destruct (snprintf_printed strbuf n (publish_text dup qos retain id (upto_nul (take 20 topic)) (zlen payload) (upto_nul (take 20 payload))))
    as (b & E & Hp); [|done|done|]; [|by exists b; rewrite E].
  unfold publish_text, no_nul. pose proof (upto_nul_no_nul (take 20 topic)). pose proof (upto_nul_no_nul (take 20 payload)). no_nuls.
Qed.

Lemma format_ack_prints strbuf n t name id : MQTTPacket_getName t = Ok name → 0 < n < 4294967296 → n <= zlen strbuf →
  ∃ b k, MQTTStringFormat_ack strbuf n t 0 id = Ok (b, k) ∧ printed strbuf b n (name ++ chars ", packet id " ++ dec id).
Proof.
  intros Hname Hn Hs. unfold MQTTStringFormat_ack. rewrite Hname, bind_ok.
  destruct (snprintf_printed strbuf n (name ++ chars ", packet id " ++ dec id)) as (b & E & Hp); [|done|done|].
  - unfold no_nul. no_nuls.
  - rewrite E, bind_ok. by eexists _, _.
Qed.

(** One case for each element of a list. *)
Ltac in_cases H := repeat (apply elem_of_cons in H as [->|H]); [..|by apply elem_of_nil in H].

(** The type of a packet is found, its length read and forgotten. *)
Lemma client_dispatch x strbuf n t d q rt body r buflen :
  0 <= t < 16 → 0 <= d < 2 → 0 <= q < 4 → 0 <= rt < 2 → zlen body < 268435456 →
  let buf := packet (header_bytes t d q rt) body ++ r in
  MQTTFormat_toClientString x strbuf n buf buflen = client_case x t strbuf n buf buflen.
Proof.
  intros Ht Hd Hq Hr Hb buf. unfold MQTTFormat_toClientString. unfold buf, header_bytes.
  by rewrite packet_prefix, readChar_packet, bind_ok, decodeBuf_packet, bind_ok, header_roundtrip by done.
Qed.

Lemma client_sees_ack x strbuf n t id r buflen b k : t ∈ [PUBACK; PUBREC; PUBREL; PUBCOMP; UNSUBACK] → is_u16 id →
  MQTTStringFormat_ack strbuf n t 0 id = Ok (b, k) →
  MQTTFormat_toClientString x strbuf n (ack_packet t 0 id ++ r) buflen = Ok b.
Proof.
  intros Ht Hid E. unfold ack_packet at 1.
  rewrite client_dispatch by (first [done | in_cases Ht; done]). fold (ack_packet t 0 id).
  assert (Hr : ∀ o, 0 <= t < 16 → MQTTDeserialize_ack o (ack_packet t 0 id ++ r) buflen = Ok (1, mkAck t 0 id))
    by (intros o Ht'; by apply ack_roundtrip_aux).
  in_cases Ht; cbn [client_case is_ack CONNACK PUBLISH PUBACK PUBREC PUBREL PUBCOMP SUBACK UNSUBACK Z.eqb Pos.eqb orb].
  1-4: unfold format_ack; rewrite Hr by done; rewrite bind_ok; cbn [Z.eqb Pos.eqb ao_packettype ao_dup ao_packetid]; by rewrite E.
  rewrite unsuback_read by done. rewrite bind_ok. cbn [Z.eqb Pos.eqb]. by rewrite E.
Qed.

(** The packets a server may send are shown by [MQTTFormat_toClientString]: in the buffer is then the text of the
    packet, or as much of it as there is room for. *)
Theorem client_sees_packets x p text r strbuf n buflen :
  client_packet p text → length (so_grantedQoSs (l_suback x)) = 1%nat → 0 < n < 4294967296 → n <= zlen strbuf →
  ∃ b, MQTTFormat_toClientString x strbuf n (p ++ r) buflen = Ok b ∧ printed strbuf b n text.
Proof.
  intros Hp Hg Hn Hs. destruct Hp as [rc present Hrc Hpr|dup qos retain id topic payload|t name id Ht Hname Hid|id qos Hid Hq|t name Ht Hname].
  - unfold connack_packet at 1. rewrite client_dispatch by done. cbn [client_case CONNACK Z.eqb Pos.eqb].
    change (packet _ _) with (connack_packet present rc). rewrite connack_read, bind_ok, Z.mod_small by done.
    destruct (snprintf_printed strbuf n (connack_text rc present)) as (b & E & Hp); [|done|done|].
    + unfold connack_text, no_nul. no_nuls.
    + exists b. cbn [connack_rc sessionPresent Z.eqb Pos.eqb]. unfold MQTTStringFormat_connack. by rewrite E.
  - unfold publish_packet at 1. rewrite client_dispatch by (done || lia). by apply format_publish_prints.
  - destruct (format_ack_prints strbuf n t name id Hname Hn Hs) as (b & k & E & Hp). exists b. split; [|done].
    by eapply client_sees_ack.
  - unfold suback_packet at 1. rewrite client_dispatch by done. cbn [client_case CONNACK PUBLISH SUBACK is_ack PUBACK PUBREC PUBREL PUBCOMP Z.eqb Pos.eqb orb].
    change (packet _ _) with (suback_packet id [qos]).
    pose proof (suback_reads_or_overflows (mkSuback (so_packetid (l_suback x)) 0 (so_grantedQoSs (l_suback x))) id [qos] r buflen Hid) as E.
    cbn [so_grantedQoSs] in E. rewrite Hg in E. change (Z.of_nat 1) with 1 in E. rewrite E by (done || by constructor). rewrite decide_True by done. rewrite bind_ok.
    destruct (snprintf_printed strbuf n (suback_text id 1 qos)) as (b & E' & Hp); [|done|done|].
    + unfold suback_text, no_nul. no_nuls.
    + exists b. cbn [so_packetid so_count so_grantedQoSs Z.eqb Pos.eqb].
      change (MQTTStringFormat_suback _ _ _ _ _) with (snprintf_at strbuf 0 n (suback_text id 1 qos)). by rewrite E'.
  - destruct (snprintf_printed strbuf n name) as (b & E & Hp); [by eapply getName_no_nul|done|done|]. exists b. split; [|done].
    rewrite client_dispatch by (first [done | in_cases Ht; done]). in_cases Ht; unfold client_case; cbn; unfold format_name; rewrite Hname, bind_ok, E; done.
Qed.

(** ** What goes wrong *)

Lemma snprintf_at_length b off size s b' k : snprintf_at b off size s = Ok (b', k) → length b' = length b.
Proof.
  unfold snprintf_at. cbn zeta. case_match; [by intros [= <- _]|]. destruct (wr_n b off _) as [b1| |] eqn:E; cbn; try done.
  intros [= <- _]. by eapply wr_n_length.
Qed.

(** What holds of every regular result. *)
Definition ensures {A} (m : outcome A) (P : A → Prop) : Prop := ∀ a, m = Ok a → P a.

Lemma ensures_ok {A} (a : A) P : P a → ensures (Ok a) P.
Proof. by intros H ? [= <-]. Qed.

Lemma ensures_bind {A B} (m : outcome A) (f : A → outcome B) Q P :
  ensures m Q → (∀ a, Q a → ensures (f a) P) → ensures (m ≫= f) P.
Proof. intros Hm Hf b. destruct m as [a| |]; cbn; try done. apply Hf. by apply Hm. Qed.

Lemma ensures_skip {A B} (m : outcome A) (f : A → outcome B) P : (∀ a, ensures (f a) P) → ensures (m ≫= f) P.
Proof. intros Hf. by apply (ensures_bind m f (λ _, True)). Qed.

(** All that is written goes into the buffer, whose length stays. *)
Abbreviation keeps n m := (ensures m (λ a, length a.1 = n)).

Lemma snprintf_keeps b n off size s : length b = n → keeps n (snprintf_at b off size s).
Proof. intros <- [b' k]. apply snprintf_at_length. Qed.

Lemma append_keeps b n strbuflen strindex s : length b = n → keeps n (append b strbuflen strindex s).
Proof. intros Hb. eapply ensures_bind; [by apply snprintf_keeps|]. intros [b' k] H. by apply ensures_ok. Qed.

Ltac kept := repeat match goal with
  | |- ensures (snprintf_at _ _ _ _) _ => apply snprintf_keeps; congruence
  | |- ensures (append _ _ _ _) _ => apply append_keeps; congruence
  | |- ensures (Ok _) _ => apply ensures_ok; cbn [fst] in *; congruence
  | |- ensures (if ?c then _ else _) _ => destruct c
  | |- ensures ((snprintf_at ?b _ _ _) ≫= _) _ => apply (ensures_bind _ _ (λ a, length a.1 = length b)); [|intros [? ?] ?; cbn [fst] in *]
  | |- ensures ((if _ then _ ≫= _ else Ok (?b, _)) ≫= _) _ =>
      apply (ensures_bind _ _ (λ a, length a.1 = length b)); [|intros [? ?] ?; cbn [fst] in *]
  | |- ensures (_ ≫= _) _ => apply ensures_skip; intros ?
  end.

Create HintDb keeps.

Lemma format_connect_keeps b n d : keeps (length b) (MQTTStringFormat_connect b n d).
Proof. unfold MQTTStringFormat_connect. kept. Qed.

Lemma format_publish_keeps b n dup qos retained id topic payload len :
  keeps (length b) (MQTTStringFormat_publish b n dup qos retained id topic payload len).
Proof. unfold MQTTStringFormat_publish. kept. Qed.

Lemma format_ack_keeps b n t dup id : keeps (length b) (MQTTStringFormat_ack b n t dup id).
Proof. unfold MQTTStringFormat_ack. kept. Qed.

Lemma format_subscribe_keeps b n dup id count topics qoss :
  keeps (length b) (MQTTStringFormat_subscribe b n dup id count topics qoss).
Proof. unfold MQTTStringFormat_subscribe. kept. Qed.

Lemma format_unsubscribe_keeps b n dup id count topics : keeps (length b) (MQTTStringFormat_unsubscribe b n dup id count topics).
Proof. unfold MQTTStringFormat_unsubscribe. kept. Qed.

#[export] Hint Resolve format_connect_keeps format_publish_keeps format_ack_keeps format_subscribe_keeps
  format_unsubscribe_keeps : keeps.

(** A case of the switch: a reader, then a formatter when it was successful. *)
Lemma case_keeps {A} (b : list Z) (reader : outcome (Z * A)) (format : A → outcome (list Z * Z)) :
  (∀ o, keeps (length b) (format o)) →
  ensures ('(rc, o) ← reader; if rc =? 1 then '(b', _) ← format o; Ok b' else Ok b) (λ b', length b' = length b).
Proof.
  intros Hf. apply ensures_skip. intros [rc o]. case_match; [|by apply ensures_ok].
  eapply ensures_bind; [apply Hf|]. intros [b' k] Hk. by apply ensures_ok.
Qed.

(** The switch of a server leaves the length of the buffer. *)
Lemma server_case_keeps x t b n buf buflen : ensures (server_case x t b n buf buflen) (λ b', length b' = length b).
Proof.
  unfold server_case, format_publish, format_ack, format_name. cbn zeta.
  repeat match goal with |- ensures (if ?c then _ else _) _ => destruct c end;
    try (apply (case_keeps b); intros o; auto with keeps); kept.
Qed.

(** [MQTTFormat_toServerString] closes the text one character behind the buffer it is told: with the size of the whole
    buffer, as [snprintf] takes it, every packet makes it write outside. *)
Theorem server_string_overruns x strbuf buf buflen b : MQTTFormat_toServerString x strbuf (zlen strbuf) buf buflen ≠ Ok b.
Proof.
  unfold MQTTFormat_toServerString. destruct (readChar buf 0) as [[c index]| |]; [rewrite bind_ok|done..].
  destruct (MQTTPacket_decodeBuf buf index) as [v| |]; [rewrite bind_ok|done..].
  destruct (server_case _ _ _ _ _ _) as [b'| |] eqn:E; [rewrite bind_ok|done..]. apply server_case_keeps in E.
  by rewrite <- E, wr_oob by lia.
Qed.

(** ** Examples *)

Definition demo_login : MQTTPacket_connectData :=
  mkConnect 4 (len_string (chars "me")) 60 1 0 MQTTPacket_willOptions_initializer (len_string (chars "user")) (len_string (chars "secret")).

Lemma demo_login_shows : shows demo_login (chars "me") [] [] (chars "user") (chars "secret").
Proof. by split. Qed.

(** Room for everything; and a buffer that ends in the user name, so that the password would begin behind it. *)
Lemma connect_text_fits_iff_witness :
  (∃ b', MQTTStringFormat_connect (replicate 120 1) 120 demo_login = Ok (b', 101) ∧
     c_str b' = Ok (chars "CONNECT MQTT version 4, client id me, clean session 1, keep alive 60, user name user, password secret") ∧ zlen b' = 120) ∧
  MQTTStringFormat_connect (replicate 70 1) 70 demo_login = Ub.
Proof.
  split.
  - pose proof (connect_text_fits_iff (replicate 120 1) 120 demo_login (chars "me") [] [] (chars "user") (chars "secret")
      ltac:(done) ltac:(done) demo_login_shows) as H.
    apply H; done.
  - pose proof (connect_text_fits_iff (replicate 70 1) 70 demo_login (chars "me") [] [] (chars "user") (chars "secret")
      ltac:(done) ltac:(done) demo_login_shows) as H.
    apply H; done.
Defined.

Definition demo_locals (user : MQTTString) : locals :=
  mkLocals (mkConnack 0 0) (mkPub 0 0 0 0 MQTTString_initializer None 0) (mkAck 0 0 0) (mkSuback 0 0 [0]) 0
    (mkConnect 0 MQTTString_initializer 0 0 0 MQTTPacket_willOptions_initializer user MQTTString_initializer)
    (mkSub 0 0 0 [MQTTString_initializer] [0]) (mkUnsub 0 0 0 [MQTTString_initializer]).

(** A PUBLISH at QoS 1. *)
Lemma client_sees_packets_witness : ∃ b,
  MQTTFormat_toClientString (demo_locals MQTTString_initializer) (replicate 100 1) 100 (publish_packet 0 1 0 7 (chars "r/1") (chars "8.25") ++ []) 80 = Ok b ∧
  printed (replicate 100 1) b 100 (chars "PUBLISH dup 0, QoS 1, retained 0, packet id 7, topic r/1, payload length 4, payload 8.25").
Proof.
  apply (client_sees_packets (demo_locals MQTTString_initializer) _ (publish_text 0 1 0 7 (upto_nul (take 20 (chars "r/1"))) 4 (upto_nul (take 20 (chars "8.25"))))
    [] (replicate 100 1) 100 80); [|done|done|done].
  apply (cp_publish 0 1 0 7 (chars "r/1") (chars "8.25")); unfold is_u16; vm_compute; done.
Defined.

(** A CONNECT without a user name is shown with the user name that happens to be on the stack: the options are not
    initialised, and [MQTTDeserialize_connect] does not assign what the packet lacks. *)
Lemma stack_is_printed : let connect := connect_packet (mkConnectSpec 4 (chars "me") 60 1 None None None) in
  ∃ b, MQTTFormat_toServerString (demo_locals (len_string (chars "junk"))) (replicate 121 1) 120 connect (zlen connect) = Ok b ∧
    c_str b = Ok (chars "CONNECT MQTT version 0, client id me, clean session 1, keep alive 60, user name junk").
Proof. eexists. split; by vm_compute. Qed.
