(* ===== verification/Sha1.v ===== *)
(** SHA-1 (src/crypto.cpp: sha1_transform, sha1_init, sha1_update, sha1_final), against the
    definition of FIPS 180-4.  [unsigned int] and [size_t] have 32 bits on the target.  A word array
    that is filled from index 0 on is the list of the words stored so far, so that reading a word
    before it is stored would be [Ub]. *)
From S2P Require Import Prelude.

(** ** The code *)

Record sha1_ctx_t := mkSha1 { h : list Z; len : Z; buf : list Z; buf_len : Z }.

(** [(x << n) | (x >> (32 - n))] on [uint32_t]. *)
Definition rol (n x : Z) : Z := Z.lor (u32 (Z.shiftl x n)) (Z.shiftr x (32 - n)).

Definition load_word (block : list Z) (i : Z) (w : list Z) : outcome (list Z) :=
  b0 ← rd block (i * 4); b1 ← rd block (i * 4 + 1);
  b2 ← rd block (i * 4 + 2); b3 ← rd block (i * 4 + 3);
  Ok (w ++ [u32 (Z.lor (Z.lor (Z.lor (Z.shiftl b0 24) (Z.shiftl b1 16)) (Z.shiftl b2 8)) b3)]).

Definition extend_word (i : Z) (w : list Z) : outcome (list Z) :=
  w3 ← rd w (i - 3); w8 ← rd w (i - 8); w14 ← rd w (i - 14); w16 ← rd w (i - 16);
  Ok (w ++ [rol 1 (Z.lxor (Z.lxor (Z.lxor w3 w8) w14) w16)]).

(** The working variables [a] to [e]. *)
Record vars := mkVars { va : Z; vb : Z; vc : Z; vd : Z; ve : Z }.

(** [f] and [k] of turn [i]. *)
Definition round_f (i b c d : Z) : Z :=
  if i <? 20 then Z.lor (Z.land b c) (Z.land (u32 (Z.lnot b)) d)
  else if i <? 40 then Z.lxor (Z.lxor b c) d
  else if i <? 60 then Z.lor (Z.lor (Z.land b c) (Z.land b d)) (Z.land c d)
  else Z.lxor (Z.lxor b c) d.

Definition round_k (i : Z) : Z :=
  if i <? 20 then 0x5A827999 else if i <? 40 then 0x6ED9EBA1
  else if i <? 60 then 0x8F1BBCDC else 0xCA62C1D6.

Definition sha1_round (w : list Z) (i : Z) (v : vars) : outcome vars :=
  wi ← rd w i;
  let temp := u32 (rol 5 (va v) + round_f i (vb v) (vc v) (vd v) + ve v + round_k i + wi) in
  Ok (mkVars temp (va v) (rol 30 (vb v)) (vc v) (vd v)).

Definition sha1_transform (state block : list Z) : outcome (list Z) :=
  w ← for_ 16 0 (load_word block) [];
  w ← for_ 64 16 extend_word w;
  a ← rd state 0; b ← rd state 1; c ← rd state 2; d ← rd state 3; e ← rd state 4;
  v ← for_ 80 0 (sha1_round w) (mkVars a b c d e);
  Ok [u32 (a + va v); u32 (b + vb v); u32 (c + vc v); u32 (d + vd v); u32 (e + ve v)].

Definition sha1_init (ctx : sha1_ctx_t) : sha1_ctx_t :=
  mkSha1 [0x67452301; 0xEFCDAB89; 0x98BADCFE; 0x10325476; 0xC3D2E1F0] 0 (buf ctx) 0.

(** The loop of [sha1_update]; [data] is what is left of the input. *)
Fixpoint update_loop (fuel : nat) (ctx : sha1_ctx_t) (data : list Z) : outcome sha1_ctx_t :=
  if negb (0 <? zlen data) then Ok ctx
  else
    match fuel with
    | O => OutOfFuel
    | S fuel =>
        let to_copy := 64 - buf_len ctx in
        let to_copy := if zlen data <? to_copy then zlen data else to_copy in
        bytes ← rd_n data 0 to_copy;
        b ← wr_n (buf ctx) (buf_len ctx) bytes;
        let ctx := mkSha1 (h ctx) (len ctx) b (buf_len ctx + to_copy) in
        let data := drop (Z.to_nat to_copy) data in
        if buf_len ctx =? 64 then
          s ← sha1_transform (h ctx) (buf ctx);
          update_loop fuel (mkSha1 s (len ctx) (buf ctx) 0) data
        else update_loop fuel ctx data
    end.

Definition sha1_update (ctx : sha1_ctx_t) (data : list Z) : outcome sha1_ctx_t :=
  let ctx := mkSha1 (h ctx) (u64 (len ctx + u32 (zlen data * 8))) (buf ctx) (buf_len ctx) in
  update_loop (length data) ctx data.

(** [while (ctx->buf_len < limit) ctx->buf[ctx->buf_len++] = 0;] *)
Fixpoint zero_fill (fuel : nat) (limit : Z) (b : list Z) (n : Z) : outcome (list Z * Z) :=
  if negb (n <? limit) then Ok (b, n)
  else
    match fuel with
    | O => OutOfFuel
    | S fuel => b ← wr b n 0; zero_fill fuel limit b (n + 1)
    end.

(** The loop that appends the length, [i] from 7 down to 0; the counter of [for_] is [7 - i]. *)
Definition store_length (total : Z) (k : Z) (bn : list Z * Z) : outcome (list Z * Z) :=
  b ← wr bn.1 bn.2 (Z.land (Z.shiftr total ((7 - k) * 8)) 255); Ok (b, bn.2 + 1).

Definition store_hash (s : list Z) (i : Z) (hash : list Z) : outcome (list Z) :=
  x ← rd s i;
  hash ← wr hash (i * 4 + 0) (Z.land (Z.shiftr x 24) 255);
  hash ← wr hash (i * 4 + 1) (Z.land (Z.shiftr x 16) 255);
  hash ← wr hash (i * 4 + 2) (Z.land (Z.shiftr x 8) 255);
  wr hash (i * 4 + 3) (Z.land x 255).

(** [hash] is the caller's array; the result is its content and the context after the call. *)
Definition sha1_final (ctx : sha1_ctx_t) (hash : list Z) : outcome (list Z * sha1_ctx_t) :=
  b ← wr (buf ctx) (buf_len ctx) 0x80;
  let n := buf_len ctx + 1 in
  '(s, b, n) ← (if 56 <? n then
                  '(b, n) ← zero_fill 64 64 b n;
                  s ← sha1_transform (h ctx) b; Ok (s, b, 0)
                else Ok (h ctx, b, n));
  '(b, n) ← zero_fill 64 56 b n;
  '(b, n) ← for_ 8 0 (store_length (len ctx)) (b, n);
  s ← sha1_transform s b;
  hash ← for_ 5 0 (store_hash s) hash;
  Ok (hash, mkSha1 s (len ctx) b n).

(** ** FIPS 180-4 *)

Module FIPS.

Definition ROTL (n x : Z) : Z := (x * 2 ^ n) mod 2 ^ 32 + x / 2 ^ (32 - n).
Definition Ch (x y z : Z) : Z := Z.lxor (Z.land x y) (Z.land (2 ^ 32 - 1 - x) z).
Definition Parity (x y z : Z) : Z := Z.lxor x (Z.lxor y z).
Definition Maj (x y z : Z) : Z := Z.lxor (Z.land x y) (Z.lxor (Z.land x z) (Z.land y z)).

Definition f (t x y z : Z) : Z :=
  if t <? 20 then Ch x y z else if t <? 40 then Parity x y z
  else if t <? 60 then Maj x y z else Parity x y z.

Definition K (t : Z) : Z :=
  if t <? 20 then 0x5A827999 else if t <? 40 then 0x6ED9EBA1
  else if t <? 60 then 0x8F1BBCDC else 0xCA62C1D6.

(** The message schedule by a sliding window of sixteen words (section 6.1.3). *)
Definition next_word (win : list Z) : Z :=
  ROTL 1 (Z.lxor (nth 13 win 0) (Z.lxor (nth 8 win 0) (Z.lxor (nth 2 win 0) (nth 0 win 0)))).

Fixpoint schedule (n : nat) (win : list Z) : list Z :=
  match n with
  | O => []
  | S n => nth 0 win 0 :: schedule n (tail win ++ [next_word win])
  end.

Definition round (t w : Z) (v : vars) : vars :=
  mkVars ((ROTL 5 (va v) + f t (vb v) (vc v) (vd v) + ve v + K t + w) mod 2 ^ 32)
         (va v) (ROTL 30 (vb v)) (vc v) (vd v).

Fixpoint rounds (t : Z) (ws : list Z) (v : vars) : vars :=
  match ws with [] => v | w :: ws => rounds (t + 1) ws (round t w v) end.

Definition words (block : list Z) : list Z :=
  map (λ i, be32 (nth (4 * i) block 0) (nth (4 * i + 1) block 0) (nth (4 * i + 2) block 0)
                 (nth (4 * i + 3) block 0)) (seq 0 16).

Definition compress (s block : list Z) : list Z :=
  match s with
  | [a; b; c; d; e] =>
      let v := rounds 0 (schedule 80 (words block)) (mkVars a b c d e) in
      [(a + va v) mod 2 ^ 32; (b + vb v) mod 2 ^ 32; (c + vc v) mod 2 ^ 32;
       (d + vd v) mod 2 ^ 32; (e + ve v) mod 2 ^ 32]
  | _ => s
  end.

(** The first [n] blocks of [m]. *)
Fixpoint absorb (n : nat) (s m : list Z) : list Z :=
  match n with O => s | S n => absorb n (compress s (take 64 m)) (drop 64 m) end.

Definition H0 : list Z := [0x67452301; 0xEFCDAB89; 0x98BADCFE; 0x10325476; 0xC3D2E1F0].

Definition be_bytes (k : nat) (x : Z) : list Z :=
  map (λ i, x / 256 ^ (Z.of_nat (k - 1 - i)) mod 256) (seq 0 k).

(** Section 5.1.1, for messages of whole bytes. *)
Definition pad (m : list Z) : list Z :=
  m ++ [0x80] ++ replicate (Z.to_nat ((55 - zlen m) mod 64)) 0 ++ be_bytes 8 (8 * zlen m).

Definition SHA1 (m : list Z) : list Z :=
  let p := pad m in concat (map (be_bytes 4) (absorb (length p / 64) H0 p)).

End FIPS.

(** ** Words *)

Lemma rol_ROTL n x : 0 <= n <= 32 → is_u32 x → rol n x = FIPS.ROTL n x.
Proof.
  unfold is_u32, rol, FIPS.ROTL. intros Hn Hx. rewrite Z.shiftl_mul_pow2, Z.shiftr_div_pow2 by lia.
  change (u32 (x * 2 ^ n)) with ((x * 2 ^ n) mod 2 ^ 32).
  replace (2 ^ 32) with (2 ^ (32 - n) * 2 ^ n) by (rewrite <- Z.pow_add_r by lia; f_equal; lia).
  assert (0 < 2 ^ n) by lia. assert (0 < 2 ^ (32 - n)) by lia.
  rewrite Z.mul_mod_distr_r by lia. rewrite <- Z.shiftl_mul_pow2 at 1 by lia.
  rewrite lor_shift; [done|lia|]. split; [apply Z.div_pos; lia|].
  apply Z.div_lt_upper_bound; [lia|]. rewrite <- Z.pow_add_r by lia.
  replace (32 - n + n) with 32 by lia. lia.
Qed.

Lemma ROTL_u32 n x : n = 1 ∨ n = 5 ∨ n = 30 → is_u32 x → is_u32 (FIPS.ROTL n x).
Proof. unfold is_u32, FIPS.ROTL. intros [->|[->| ->]] Hx; cbn; zdiv. Qed.

Lemma round_f_fips i b c d : is_u32 b → is_u32 c → is_u32 d → round_f i b c d = FIPS.f i b c d.
Proof.
  intros Hb Hc Hd. unfold round_f, FIPS.f.
  assert (2 ^ 32 - 1 - b = u32 (Z.lnot b)) as Eb by (unfold is_u32, u32, Z.lnot in *; zdiv).
  assert (Z.lor (Z.land b c) (Z.land (u32 (Z.lnot b)) d) = FIPS.Ch b c d) as Ech.
  { unfold FIPS.Ch. rewrite Eb. apply Z.bits_inj'. intros n Hn.
    rewrite Z.lor_spec, Z.lxor_spec, !Z.land_spec, u32_bits, Z.lnot_spec by done.
    by destruct (n <? 32), (Z.testbit b n), (Z.testbit c n), (Z.testbit d n). }
  assert (Z.lor (Z.lor (Z.land b c) (Z.land b d)) (Z.land c d) = FIPS.Maj b c d) as Emaj.
  { unfold FIPS.Maj. apply Z.bits_inj'. intros n Hn.
    rewrite !Z.lor_spec, !Z.lxor_spec, !Z.land_spec.
    by destruct (Z.testbit b n), (Z.testbit c n), (Z.testbit d n). }
  rewrite Ech, Emaj. unfold FIPS.Parity. by rewrite !Z.lxor_assoc.
Qed.

(** ** The message schedule *)

Section Schedule.
Import FIPS.

Definition step (win : list Z) : list Z := tail win ++ [next_word win].

Lemma schedule_S n win : schedule (S n) win = nth 0 win 0 :: schedule n (step win).
Proof. reflexivity. Qed.

Lemma step_length win : length win = 16%nat → length (step win) = 16%nat.
Proof. intros H. unfold step. destruct win; [done|]. cbn [tail] in *. lens. Qed.

Lemma steps_length n win : length win = 16%nat → length (Nat.iter n step win) = 16%nat.
Proof. intros H. induction n as [|n IH]; [done|]. by apply step_length. Qed.

Lemma schedule_app m n win :
  schedule (m + n) win = schedule m win ++ schedule n (Nat.iter m step win).
Proof.
  revert win. induction m as [|m IH]; intros win; [done|].
  cbn [Nat.add]. rewrite !schedule_S, IH, <- Nat.iter_succ_r. done.
Qed.

Lemma schedule_take n win : (n ≤ length win)%nat → schedule n win = take n win.
Proof.
  revert win. induction n as [|n IH]; intros win H; [done|].
  destruct win as [|x t]; [cbn in H; lia|]. cbn [length] in H.
  rewrite schedule_S, IH by (unfold step; cbn [tail]; lens).
  unfold step. cbn [tail nth take]. by rewrite take_app_le by lia.
Qed.

Lemma nth_u32 l k : Forall is_u32 l → is_u32 (nth k l 0).
Proof.
  intros H. destruct (nth_in_or_default k l 0) as [Hi| ->]; [|unfold is_u32; lia].
  rewrite Forall_forall in H. by apply H, list_elem_of_In.
Qed.

Lemma next_word_u32 win : Forall is_u32 win → is_u32 (next_word win).
Proof. intros H. apply ROTL_u32; [auto|]. repeat apply u32_lxor; by apply nth_u32. Qed.

Lemma step_u32 win : Forall is_u32 win → Forall is_u32 (step win).
Proof.
  intros H. unfold step. apply Forall_app. split; [destruct H; [constructor|done]|].
  constructor; [by apply next_word_u32|constructor].
Qed.

Lemma schedule_u32 n win : Forall is_u32 win → Forall is_u32 (schedule n win).
Proof.
  revert win. induction n as [|n IH]; intros win H; [constructor|].
  rewrite schedule_S. constructor; [by apply nth_u32|by apply IH, step_u32].
Qed.

Lemma schedule_length n win : length (schedule n win) = n.
Proof. revert win. induction n; intros; cbn; auto. Qed.

(** One turn of the second loop moves the window by one word. *)
Lemma extend_word_step p win :
  length win = 16%nat → Forall is_u32 win →
  extend_word (zlen p + 16) (p ++ win) = Ok ((p ++ [nth 0 win 0]) ++ step win).
Proof.
  intros Hl Hu. unfold extend_word.
  replace (zlen p + 16 - 3) with (zlen p + 13) by lia.
  replace (zlen p + 16 - 8) with (zlen p + 8) by lia.
  replace (zlen p + 16 - 14) with (zlen p + 2) by lia.
  replace (zlen p + 16 - 16) with (zlen p + 0) by lia.
  rewrite !rd_suffix, !bind_ok by lia.
  rewrite rol_ROTL, !Z.lxor_assoc by (try lia; repeat apply u32_lxor; by apply nth_u32).
  destruct win as [|x t]; [done|]. unfold step. cbn [tail nth Z.to_nat].
  rewrite <- !app_assoc. done.
Qed.

Lemma extend_loop n p win :
  length win = 16%nat → Forall is_u32 win →
  for_ n (zlen p + 16) extend_word (p ++ win) = Ok (p ++ schedule n win ++ Nat.iter n step win).
Proof.
  revert p win. induction n as [|n IH]; intros p win Hl Hu; [done|].
  rewrite for_S, extend_word_step, bind_ok by done.
  replace (zlen p + 16 + 1) with (zlen (p ++ [nth 0 win 0]) + 16) by lens.
  rewrite IH by (done || by apply step_length || by apply step_u32).
  rewrite <- app_assoc, <- Nat.iter_succ_r. done.
Qed.

Lemma words_length block : length (words block) = 16%nat.
Proof. done. Qed.

Lemma nth_u8 l k : Forall is_u8 l → is_u8 (nth k l 0).
Proof.
  intros H. destruct (nth_in_or_default k l 0) as [Hi| ->]; [|unfold is_u8; lia].
  rewrite Forall_forall in H. by apply H, list_elem_of_In.
Qed.

Lemma be32_u32 a b c d : is_u8 a → is_u8 b → is_u8 c → is_u8 d → is_u32 (be32 a b c d).
Proof. unfold is_u8, is_u32, be32. lia. Qed.

Lemma words_u32 block : Forall is_u8 block → Forall is_u32 (words block).
Proof.
  intros H. apply Forall_map, Forall_true. intros i. apply be32_u32; by apply nth_u8.
Qed.

Lemma load_loop block :
  length block = 64%nat → Forall is_u8 block → for_ 16 0 (load_word block) [] = Ok (words block).
Proof.
  intros Hl Hu.
  destruct (for_ind (λ i w, 0 <= i ∧ w = take (Z.to_nat i) (words block)) 16 0 (load_word block) [])
    as (w & E & _ & ->); [done| |rewrite E; done].
  intros j w Hj [_ ->]. exists (take (Z.to_nat (j + 1)) (words block)). split; [|split; [lia|done]].
  unfold load_word. rewrite !rd_nth, !bind_ok by lia.
  rewrite lor_be32, u32_id by (try apply be32_u32; by apply nth_u8).
  replace (Z.to_nat (j + 1)) with (S (Z.to_nat j)) by lia.
  f_equal. symmetry. apply take_S_r. unfold words.
  rewrite list_lookup_fmap, lookup_seq_lt by lia. cbn [fmap option_fmap option_map].
  do 2 f_equal; f_equal; lia.
Qed.

Lemma extend_words n block :
  Forall is_u8 block → for_ n 16 extend_word (words block) = Ok (schedule (n + 16) (words block)).
Proof.
  intros Hu. pose proof (words_length block) as Hl. pose proof (words_u32 _ Hu) as Hw.
  set (win := words block) in *. clearbody win.
  pose proof (extend_loop n [] win Hl Hw) as E. cbn [app length] in E. rewrite Z.add_0_l in E.
  rewrite E, schedule_app, (schedule_take 16) by (by rewrite steps_length).
  rewrite take_ge by (by rewrite steps_length). done.
Qed.

Lemma schedule_spec block :
  length block = 64%nat → Forall is_u8 block →
  (w ← for_ 16 0 (load_word block) []; for_ 64 16 extend_word w) = Ok (schedule 80 (words block)).
Proof. intros Hl Hu. rewrite load_loop, bind_ok by done. by apply (extend_words 64). Qed.
End Schedule.

(** ** The block function *)

Definition vars_u32 (v : vars) : Prop :=
  is_u32 (va v) ∧ is_u32 (vb v) ∧ is_u32 (vc v) ∧ is_u32 (vd v) ∧ is_u32 (ve v).

Lemma sha1_round_fips w i x v : vars_u32 v → rd w i = Ok x →
  sha1_round w i v = Ok (FIPS.round i x v) ∧ vars_u32 (FIPS.round i x v).
Proof.
  intros (Ha & Hb & Hc & Hd & He) Hx. unfold sha1_round, FIPS.round. rewrite Hx, bind_ok.
  rewrite !rol_ROTL, round_f_fips by (done || lia). split; [done|].
  split_and!; cbn; try done; [apply u32_range|]. by apply ROTL_u32; [auto|].
Qed.

Lemma rounds_loop ws p v : vars_u32 v →
  for_ (length ws) (zlen p) (sha1_round (p ++ ws)) v = Ok (FIPS.rounds (zlen p) ws v).
Proof.
  revert p v. induction ws as [|x ws IH]; intros p v Hv; [done|].
  cbn [length FIPS.rounds]. rewrite for_S.
  destruct (sha1_round_fips (p ++ x :: ws) (zlen p) x v Hv (rd_app p x ws)) as [E Hv'].
  rewrite E, bind_ok. specialize (IH (p ++ [x]) _ Hv'). rewrite <- app_assoc in IH. cbn [app] in IH.
  replace (zlen (p ++ [x])) with (zlen p + 1) in IH by lens. done.
Qed.

(** A chaining value: five words. *)
Definition state_ok (s : list Z) : Prop := length s = 5%nat ∧ Forall is_u32 s.

Lemma transform_rounds ws a b c d e block :
  (w ← for_ 16 0 (load_word block) []; for_ 64 16 extend_word w) = Ok ws → length ws = 80%nat →
  vars_u32 (mkVars a b c d e) →
  sha1_transform [a; b; c; d; e] block =
    let v := FIPS.rounds 0 ws (mkVars a b c d e) in
    Ok [u32 (a + va v); u32 (b + vb v); u32 (c + vc v); u32 (d + vd v); u32 (e + ve v)].
Proof.
  intros E Hl Hv. unfold sha1_transform. destruct (for_ 16 0 _ _) as [w0| |]; try done.
  rewrite bind_ok in *. rewrite E, bind_ok.
  change (rd [a; b; c; d; e] 0) with (Ok a). change (rd [a; b; c; d; e] 1) with (Ok b).
  change (rd [a; b; c; d; e] 2) with (Ok c). change (rd [a; b; c; d; e] 3) with (Ok d).
  change (rd [a; b; c; d; e] 4) with (Ok e). rewrite !bind_ok.
  pose proof (rounds_loop ws [] _ Hv) as Er. rewrite Hl in Er. cbn [app length] in Er.
  change (Z.of_nat 0) with 0 in Er. by rewrite Er.
Qed.

Lemma transform_compress s block :
  state_ok s → length block = 64%nat → Forall is_u8 block →
  sha1_transform s block = Ok (FIPS.compress s block).
Proof.
  intros [Hl Hs] Hb Hu. destruct s as [|a [|b [|c [|d [|e [|]]]]]]; try done.
  repeat match goal with H : Forall _ (_ :: _) |- _ => apply Forall_cons in H as [? H] end.
  rewrite (transform_rounds _ a b c d e block (schedule_spec block Hb Hu)); [done| |by split_and!].
  apply schedule_length.
Qed.

Lemma compress_ok s block : state_ok s → state_ok (FIPS.compress s block).
Proof.
  intros [Hl Hs]. destruct s as [|a [|b [|c [|d [|e [|]]]]]]; try done.
  split; [done|]. unfold FIPS.compress. repeat constructor; apply u32_range.
Qed.

Lemma absorb_ok n s m : state_ok s → state_ok (FIPS.absorb n s m).
Proof. revert s m. induction n as [|n IH]; intros s m H; [done|]. by apply IH, compress_ok. Qed.

Lemma H0_ok : state_ok FIPS.H0.
Proof. split; [done|]. repeat (apply Forall_cons; split; [unfold is_u32; lia|]). apply Forall_nil_2. Qed.

Lemma absorb_S n s m :
  FIPS.absorb (S n) s m = FIPS.compress (FIPS.absorb n s m) (take 64 (drop (64 * n) m)).
Proof.
  revert s m. induction n as [|n IH]; intros s m; [done|].
  change (FIPS.absorb (S (S n)) s m) with (FIPS.absorb (S n) (FIPS.compress s (take 64 m)) (drop 64 m)).
  rewrite IH, drop_drop. replace (64 * S n)%nat with (64 + 64 * n)%nat by lia. reflexivity.
Qed.

(** Only the first [64 * n] bytes matter. *)
Lemma absorb_app n s m r : (64 * n ≤ length m)%nat → FIPS.absorb n s (m ++ r) = FIPS.absorb n s m.
Proof.
  revert s m. induction n as [|n IH]; intros s m H; [done|]. cbn [FIPS.absorb].
  rewrite take_app_le, drop_app_le, IH by (rewrite ?length_drop; lia). done.
Qed.

(** ** Streaming *)

(** The context after the bytes [m] but for the length counter: the full blocks are hashed and the
    rest is in the buffer. *)
Record absorbed (ctx : sha1_ctx_t) (m : list Z) : Prop := {
  ab_len : length (buf ctx) = 64%nat;
  ab_u8 : Forall is_u8 m;
  ab_buf_len : buf_len ctx = zlen m mod 64;
  ab_h : h ctx = FIPS.absorb (length m / 64) FIPS.H0 m;
  ab_rest : take (length m mod 64) (buf ctx) = drop (64 * (length m / 64)) m;
}.

Lemma absorbed_init ctx : length (buf ctx) = 64%nat → absorbed (sha1_init ctx) [].
Proof. intros H. by constructor. Qed.

Lemma divmod_nat (n : nat) : (n = 64 * (n / 64) + n mod 64)%nat ∧ (n mod 64 < 64)%nat.
Proof. split; [apply Nat.div_mod_eq|by apply Nat.mod_upper_bound]. Qed.

Lemma absorbed_buf_len ctx m : absorbed ctx m →
  buf_len ctx = Z.of_nat (length m mod 64) ∧ (length m mod 64 < 64)%nat.
Proof.
  intros H. rewrite (ab_buf_len _ _ H). rewrite Nat2Z.inj_mod. split; [done|].
  by apply Nat.mod_upper_bound.
Qed.

(** Bytes that do not fill the buffer. *)
Lemma absorbed_fill s l b n m d :
  absorbed (mkSha1 s l b n) m → Forall is_u8 d → n + zlen d < 64 →
  ∃ b', wr_n b n d = Ok b' ∧ absorbed (mkSha1 s l b' (n + zlen d)) (m ++ d).
Proof.
  intros H Hd Hn. destruct (absorbed_buf_len _ _ H) as [En Hr]. destruct H as [Hb Hm _ Hs Hrest].
  cbn [buf buf_len h] in *. subst n. set (r := (length m mod 64)%nat) in *.
  destruct (divmod_nat (length m)) as [Edm _]. fold r in Edm. set (q := (length m / 64)%nat) in *.
  assert (length (m ++ d) / 64 = q ∧ length (m ++ d) mod 64 = r + length d)%nat as [Eq Er].
  { rewrite length_app, Edm. split; symmetry; [apply (Nat.div_unique _ 64 _ (r + length d))|
      apply (Nat.mod_unique _ 64 q)]; lia. }
  pose proof (wr_n_app (take r b) (drop r b) d) as E. rewrite take_drop in E.
  replace (zlen (take r b)) with (Z.of_nat r) in E by lens.
  rewrite E by lens. eexists. split; [done|]. constructor; cbn [buf buf_len h].
  - lens.
  - by apply Forall_app.
  - transitivity (Z.of_nat (length (m ++ d) mod 64)); [lia|by rewrite Nat2Z.inj_mod].
  - rewrite Eq, absorb_app by lia. done.
  - rewrite Eq, Er, drop_app_le, <- Hrest by lia. rewrite take_app_ge by lens.
    replace (r + length d - length (take r b))%nat with (length d) by lens.
    by rewrite take_app_length.
Qed.

(** Bytes that fill the buffer complete a block. *)
Lemma absorbed_block s l b n m d :
  absorbed (mkSha1 s l b n) m → Forall is_u8 d → n + zlen d = 64 →
  ∃ b' s', wr_n b n d = Ok b' ∧ sha1_transform s b' = Ok s' ∧ length b' = 64%nat ∧
    absorbed (mkSha1 s' l b' 0) (m ++ d).
Proof.
  intros H Hd Hn. destruct (absorbed_buf_len _ _ H) as [En Hr]. destruct H as [Hb Hm _ Hs Hrest].
  cbn [buf buf_len h] in *. subst n. set (r := (length m mod 64)%nat) in *.
  destruct (divmod_nat (length m)) as [Edm _]. fold r in Edm. set (q := (length m / 64)%nat) in *.
  assert (length (m ++ d) = 64 * S q)%nat as El by (rewrite length_app; lia).
  assert (length (m ++ d) / 64 = S q ∧ length (m ++ d) mod 64 = 0)%nat as [Eq Er].
  { rewrite El. split; symmetry; [apply (Nat.div_unique _ 64 _ 0)|apply (Nat.mod_unique _ 64 (S q))]; lia. }
  pose proof (wr_n_app (take r b) (drop r b) d) as E. rewrite take_drop in E.
  replace (zlen (take r b)) with (Z.of_nat r) in E by lens.
  rewrite E by lens. rewrite (drop_ge (drop r b)), app_nil_r, Hrest by lens.
  assert (drop (64 * q) m ++ d = take 64 (drop (64 * q) (m ++ d))) as Eb.
  { rewrite drop_app_le by lia. rewrite take_ge; [done|lens]. }
  assert (Forall is_u8 (m ++ d)) as Hmd by by apply Forall_app.
  eexists _, _. split; [done|]. split; [|split].
  - apply transform_compress; [rewrite Hs; apply absorb_ok, H0_ok|lens|].
    apply Forall_app. split; [by apply Forall_drop|done].
  - lens.
  - constructor; cbn [buf buf_len h].
    + lens.
    + done.
    + rewrite El. rewrite Nat2Z.inj_mul, Z.mul_comm, Z.mod_mul; done.
    + rewrite Eq, absorb_S, Hs, <- Eb, absorb_app by lia. done.
    + rewrite Er, Eq, <- El, drop_all. done.
Qed.

Lemma update_loop_absorbed fuel ctx m data :
  absorbed ctx m → Forall is_u8 data → (length data ≤ fuel)%nat →
  ∃ ctx', update_loop fuel ctx data = Ok ctx' ∧ absorbed ctx' (m ++ data) ∧ len ctx' = len ctx.
Proof.
  revert ctx m data. induction fuel as [|fuel IH]; intros ctx m data H Hd Hf;
    (destruct data as [|x data'];
      [exists ctx; rewrite app_nil_r; done|]); [cbn in Hf; lia|].
  cbn [update_loop]. cbn zeta. remember (x :: data') as data eqn:Edata.
  assert (0 < zlen data) as Hpos by (subst; cbn; lia).
  rewrite (proj2 (Z.ltb_lt 0 (zlen data)) Hpos). cbn [negb].
  destruct (absorbed_buf_len _ _ H) as [En Hr].
  set (k := if zlen data <? 64 - buf_len ctx then zlen data else 64 - buf_len ctx).
  assert (0 < k <= zlen data ∧ k <= 64 - buf_len ctx) as [Hk Hk2].
  { unfold k. destruct (Z.ltb_spec (zlen data) (64 - buf_len ctx)); lia. }
  set (d := take (Z.to_nat k) data).
  assert (rd_n data 0 k = Ok d) as ->.
  { unfold rd_n. rewrite decide_True by lia. by rewrite drop_0. }
  assert (zlen d = k) as Ed by (unfold d; lens).
  assert (Forall is_u8 d) as Hd' by by apply Forall_take.
  assert (Forall is_u8 (drop (Z.to_nat k) data)) as Hd2 by by apply Forall_drop.
  assert (m ++ data = (m ++ d) ++ drop (Z.to_nat k) data) as ->.
  { unfold d. by rewrite <- app_assoc, take_drop. }
  destruct ctx as [s l b n]. cbn [h len buf buf_len] in *. rewrite bind_ok.
  destruct (Z.eqb_spec (n + k) 64) as [E64|N64].
  - destruct (absorbed_block _ _ _ _ _ d H Hd') as (b' & s' & Ew & Et & _ & H'); [lia|].
    rewrite Ew, bind_ok. cbn [h len buf buf_len].
    rewrite Et, bind_ok. apply (IH _ _ _ H' Hd2). lens.
  - destruct (absorbed_fill _ _ _ _ _ d H Hd') as (b' & Ew & H'); [lia|].
    rewrite Ew, bind_ok. cbn [h len buf buf_len].
    rewrite Ed in H'. apply (IH _ _ _ H' Hd2). lens.
Qed.

Lemma sha1_update_absorbed ctx m data :
  absorbed ctx m → Forall is_u8 data → zlen data < 536870912 →
  ∃ ctx', sha1_update ctx data = Ok ctx' ∧ absorbed ctx' (m ++ data) ∧
    len ctx' = u64 (len ctx + 8 * zlen data).
Proof.
  intros H Hd Hl. unfold sha1_update. rewrite u32_id by (unfold is_u32; lia).
  destruct (update_loop_absorbed (length data)
    (mkSha1 (h ctx) (u64 (len ctx + zlen data * 8)) (buf ctx) (buf_len ctx)) m data)
    as (ctx' & E & H' & El); [|done..|].
  - destruct H. by constructor.
  - exists ctx'. split_and!; [done..|]. rewrite El. cbn [len]. f_equal. lia.
Qed.

(** ** The end of the message *)

Lemma zero_fill_spec fuel limit b n : 0 <= n <= zlen b → n <= limit <= n + Z.of_nat fuel →
  zero_fill fuel limit b n
    = b ← wr_n b n (replicate (Z.to_nat (limit - n)) 0); Ok (b, limit).
Proof.
  revert b n. induction fuel as [|fuel IH]; intros b n Hn Hf; cbn [zero_fill];
    (destruct (Z.ltb_spec n limit);
      [|replace limit with n by lia; rewrite Z.sub_diag; cbn [Z.to_nat replicate];
        by rewrite wr_n_nil]); [lia|].
  cbn [negb]. replace (Z.to_nat (limit - n)) with (S (Z.to_nat (limit - (n + 1)))) by lia.
  cbn [replicate]. change (0 :: ?l) with ([0] ++ l). rewrite wr_n_app_l. unfold wr.
  destruct (wr_n b n [0]) as [b1| |] eqn:E; [|done..]. rewrite !bind_ok.
  assert (n < zlen b) by (unfold wr_n in E; case_decide; [cbn in *; lia|done]).
  apply wr_n_length in E. by rewrite IH by lia.
Qed.

Lemma be_bytes_length k x : length (FIPS.be_bytes k x) = k.
Proof. unfold FIPS.be_bytes. lens. Qed.

Lemma be_bytes_u8 k x : Forall is_u8 (FIPS.be_bytes k x).
Proof.
  unfold FIPS.be_bytes. apply Forall_map, Forall_true. intros i. apply u8_range.
Qed.

(** A byte of a number. *)
Lemma byte_of x k : 0 <= k → Z.land (Z.shiftr x (k * 8)) 255 = x / 256 ^ k mod 256.
Proof.
  intros Hk. rewrite Z.shiftr_div_pow2 by lia. change 255 with (Z.ones 8).
  rewrite Z.land_ones by lia. rewrite Z.mul_comm, Z.pow_mul_r by lia. done.
Qed.

Lemma store_length_loop total b n : 0 <= n <= zlen b →
  for_ 8 0 (store_length total) (b, n) = b ← wr_n b n (FIPS.be_bytes 8 total); Ok (b, n + 8).
Proof.
  intros Hn. unfold store_length. rewrite (for_store 8 0) by done.
  replace (map _ (seqZ 0 (Z.of_nat 8))) with (FIPS.be_bytes 8 total); [done|].
  unfold FIPS.be_bytes. change (seqZ 0 (Z.of_nat 8)) with [0; 1; 2; 3; 4; 5; 6; 7].
  cbn [map seq]. by rewrite !byte_of by lia.
Qed.

Lemma store_hash_word s i x hash : s !! Z.to_nat i = Some x → 0 <= i → 
  store_hash s i hash = wr_n hash (i * 4) (FIPS.be_bytes 4 x).
Proof.
  intros E Hi. unfold store_hash. unfold rd. rewrite decide_True, E, bind_ok by done.
  change (FIPS.be_bytes 4 x)
    with ([x / 256 ^ 3 mod 256] ++ [x / 256 ^ 2 mod 256] ++ [x / 256 ^ 1 mod 256] ++ [x / 256 ^ 0 mod 256]).
  rewrite <- !byte_of by lia. rewrite wr_n_app_l. cbn [length].
  change (3 * 8) with 24. change (2 * 8) with 16. change (1 * 8) with 8. change (0 * 8) with 0.
  change (Z.of_nat 1) with 1. rewrite Z.shiftr_0_r, Z.add_0_r. unfold wr.
  destruct (wr_n hash _ _) as [h1| |]; [|done..]. rewrite !bind_ok, wr_n_app_l.
  destruct (wr_n h1 _ _) as [h2| |]; [|done..]. rewrite !bind_ok, wr_n_app_l, <- !Z.add_assoc.
  change (1 + Z.of_nat (length [_])) with 2. destruct (wr_n h2 _ _) as [h3| |]; done.
Qed.

Lemma concat_be_length s : length (concat (map (FIPS.be_bytes 4) s)) = (4 * length s)%nat.
Proof. induction s as [|x s IH]; [done|]. cbn [map concat length]. rewrite length_app, IH, be_bytes_length. lia. Qed.

Lemma store_hash_loop s hash : length s = 5%nat → length hash = 20%nat →
  for_ 5 0 (store_hash s) hash = Ok (concat (map (FIPS.be_bytes 4) s)).
Proof.
  intros Hs Hh.
  destruct (for_ind (λ i b, 0 <= i ∧ b = concat (map (FIPS.be_bytes 4) (take (Z.to_nat i) s)) ++
    drop (4 * Z.to_nat i) hash) 5 0 (store_hash s) hash) as (b & E & _ & ->).
  - done.
  - intros j b Hj [_ ->]. destruct (lookup_lt_is_Some_2 s (Z.to_nat j)) as [x Ex]; [lia|].
    rewrite (store_hash_word s j x) by (done || lia).
    set (p := concat _). assert (zlen p = j * 4) as Ep by (unfold p; rewrite concat_be_length; lens).
    rewrite <- Ep, wr_n_app by (rewrite be_bytes_length; lens).
    eexists. split; [done|]. split; [lia|].
    replace (Z.to_nat (j + 1)) with (S (Z.to_nat j)) by lia.
    rewrite (take_S_r _ _ x Ex), map_app, concat_app. cbn [map concat]. rewrite app_nil_r, <- app_assoc.
    fold p. rewrite be_bytes_length, drop_drop. do 3 f_equal. lia.
  - rewrite E. f_equal. rewrite take_ge, drop_ge, app_nil_r by lia. done.
Qed.

(** The end of [sha1_final]: after the bytes [d], zeros and the length complete the last block. *)
Definition finish (total : Z) (s b : list Z) (n : Z) (hash : list Z) : outcome (list Z * sha1_ctx_t) :=
  '(b, n) ← zero_fill 64 56 b n;
  '(b, n) ← for_ 8 0 (store_length total) (b, n);
  s ← sha1_transform s b;
  hash ← for_ 5 0 (store_hash s) hash;
  Ok (hash, mkSha1 s total b n).

Lemma finish_spec s l b n m d b1 hash total p :
  absorbed (mkSha1 s l b n) m → Forall is_u8 d → n + zlen d <= 56 → length hash = 20%nat →
  wr_n b n d = Ok b1 →
  p = m ++ d ++ replicate (Z.to_nat (56 - (n + zlen d))) 0 ++ FIPS.be_bytes 8 total →
  ∃ ctx', finish total s b1 (n + zlen d) hash =
    Ok (concat (map (FIPS.be_bytes 4) (FIPS.absorb (length p / 64) FIPS.H0 p)), ctx').
Proof.
  intros H Hd Hn Hh E1 ->. set (z := replicate _ 0).
  assert (Forall is_u8 (d ++ z ++ FIPS.be_bytes 8 total)) as Hu.
  { repeat apply Forall_app_2; [done| |apply be_bytes_u8]. apply Forall_replicate. unfold is_u8. lia. }
  pose proof (absorbed_buf_len _ _ H) as [En Hr]. cbn [buf_len] in En.
  pose proof (ab_len _ _ H) as Hb. cbn [buf] in Hb.
  destruct (absorbed_block _ _ _ _ _ _ H Hu) as (b' & s' & Ew & Et & Hb' & H').
  { rewrite !length_app, be_bytes_length. unfold z. lens. }
  rewrite wr_n_app_l, E1, bind_ok, wr_n_app_l in Ew. apply wr_n_length in E1.
  unfold finish. rewrite zero_fill_spec by lia. fold z.
  destruct (wr_n b1 _ z) as [b2| |] eqn:E2; [|done..]. apply wr_n_length in E2.
  rewrite !bind_ok in *. cbn beta iota. rewrite store_length_loop by lia.
  replace (n + zlen d + zlen z) with 56 in Ew by (unfold z; lens).
  rewrite Ew, !bind_ok. cbn beta iota. rewrite Et, bind_ok.
  pose proof (ab_h _ _ H') as Eh. cbn [h] in Eh. rewrite <- Eh.
  rewrite store_hash_loop; [by eexists| |done].
  rewrite Eh. apply absorb_ok, H0_ok.
Qed.

Lemma replicate_join k1 k2 (x : Z) l : replicate k1 x ++ replicate k2 x ++ l = replicate (k1 + k2) x ++ l.
Proof. by rewrite replicate_add, <- app_assoc. Qed.

Lemma sha1_final_spec ctx m hash :
  absorbed ctx m → length hash = 20%nat → len ctx = 8 * zlen m →
  ∃ ctx', sha1_final ctx hash = Ok (FIPS.SHA1 m, ctx').
Proof.
  intros H Hh Hlen. pose proof (absorbed_buf_len _ _ H) as [En Hr].
  pose proof (ab_len _ _ H) as Hb. destruct ctx as [s l b n].
  unfold sha1_final. cbn [h len buf buf_len] in *. subst l. unfold wr.
  assert (Forall is_u8 [128]) as H80 by (apply Forall_singleton; unfold is_u8; lia).
  assert (n mod 64 = zlen m mod 64) as Enm by (rewrite En, Nat2Z.inj_mod; zdiv).
  destruct (Z.ltb_spec 56 (n + 1)).
  - destruct (absorbed_block _ _ _ _ _ ([128] ++ replicate (Z.to_nat (64 - (n + 1))) 0) H)
      as (b' & s' & Ew & Et & Hb' & H'); [|lens|].
    { apply Forall_app_2; [done|]. apply Forall_replicate. unfold is_u8. lia. }
    rewrite wr_n_app_l in Ew. destruct (wr_n b n [128]) as [b1| |] eqn:E1; [|done..].
    apply wr_n_length in E1. rewrite !bind_ok in *. rewrite zero_fill_spec by lia.
    change (zlen [128]) with 1 in Ew. rewrite Ew, !bind_ok. cbn beta iota. rewrite Et, !bind_ok.
    apply (finish_spec s' (8 * zlen m) b' 0 _ [] b' hash (8 * zlen m) (FIPS.pad m) H');
      [constructor|done|done|by apply wr_n_nil; lia|].
    unfold FIPS.pad. rewrite app_nil_l, <- !app_assoc, replicate_join. do 4 f_equal. cbn [length]. zdiv.
  - destruct (absorbed_fill _ _ _ _ _ [128] H H80) as (b' & Ew & H'); [cbn; lia|].
    rewrite Ew, !bind_ok. cbn beta iota.
    apply (finish_spec s (8 * zlen m) b n m [128] b' hash (8 * zlen m) (FIPS.pad m) H);
      [done|cbn; lia|done|done|].
    unfold FIPS.pad. change (zlen [128]) with 1.
    by replace (56 - (n + 1)) with ((55 - zlen m) mod 64) by zdiv.
Qed.

(** A message given at once. *)
Lemma sha1_oneshot ctx hash m :
  length (buf ctx) = 64%nat → length hash = 20%nat → Forall is_u8 m → zlen m < 536870912 →
  ∃ ctx1 ctx2, sha1_update (sha1_init ctx) m = Ok ctx1 ∧ sha1_final ctx1 hash = Ok (FIPS.SHA1 m, ctx2).
Proof.
  intros Hb Hh Hm Hl.
  destruct (sha1_update_absorbed (sha1_init ctx) [] m (absorbed_init ctx Hb) Hm Hl) as (c & E & H & Hlen).
  destruct (sha1_final_spec c m hash H Hh) as [c2 E2]; [|eauto].
  rewrite Hlen. unfold u64. cbn [len sha1_init]. rewrite Z.mod_small; lia.
Qed.

Lemma SHA1_length m : length (FIPS.SHA1 m) = 20%nat.
Proof.
  unfold FIPS.SHA1. rewrite concat_be_length. destruct (absorb_ok (length (FIPS.pad m) / 64) FIPS.H0
    (FIPS.pad m) H0_ok) as [-> _]. done.
Qed.

Lemma SHA1_u8 m : Forall is_u8 (FIPS.SHA1 m).
Proof.
  unfold FIPS.SHA1. generalize (FIPS.absorb (length (FIPS.pad m) / 64) FIPS.H0 (FIPS.pad m)).
  intros l. induction l as [|x l IH]; [constructor|]. cbn [map concat].
  apply Forall_app_2; [apply be_bytes_u8|done].
Qed.

(** ** Theorem *)

(** A message given in pieces. *)
Fixpoint sha1_updates (ctx : sha1_ctx_t) (pieces : list (list Z)) : outcome sha1_ctx_t :=
  match pieces with
  | [] => Ok ctx
  | d :: ps => ctx ← sha1_update ctx d; sha1_updates ctx ps
  end.

Lemma sha1_updates_absorbed pieces ctx m :
  absorbed ctx m → Forall (Forall is_u8) pieces → Forall (λ d, zlen d < 536870912) pieces →
  len ctx = u64 (8 * zlen m) →
  ∃ ctx', sha1_updates ctx pieces = Ok ctx' ∧ absorbed ctx' (m ++ concat pieces) ∧
    len ctx' = u64 (8 * zlen (m ++ concat pieces)).
Proof.
  revert ctx m. induction pieces as [|d ps IH]; intros ctx m H Hu Hl Hlen.
  - exists ctx. by rewrite app_nil_r.
  - apply Forall_cons in Hu as [Hd Hu], Hl as [Hld Hl]. cbn [sha1_updates concat].
    destruct (sha1_update_absorbed ctx m d H Hd Hld) as (c1 & E1 & H1 & L1).
    rewrite E1, bind_ok, app_assoc. apply IH; try done.
    rewrite L1, Hlen, length_app. unfold u64. zdiv.
Qed.

(** C14: a message hashed in any number of pieces of any sizes gives the SHA-1 digest of FIPS 180-4
    of the whole message, whatever the context and the result array held before; no access leaves
    the 64-byte block buffer or the 20-byte result. *)
Theorem sha1_is_fips_180_4 ctx hash pieces :
  length (buf ctx) = 64%nat → length hash = 20%nat →
  Forall (Forall is_u8) pieces → Forall (λ d, zlen d < 536870912) pieces →
  zlen (concat pieces) < 2305843009213693952 →
  ∃ ctx', (ctx ← sha1_updates (sha1_init ctx) pieces; sha1_final ctx hash)
    = Ok (FIPS.SHA1 (concat pieces), ctx').
Proof.
  intros Hb Hh Hu Hl Ht.
  destruct (sha1_updates_absorbed pieces (sha1_init ctx) []) as (c & E & H & Hlen);
    [by apply absorbed_init|done..|].
  rewrite E, bind_ok. cbn [app] in *. apply sha1_final_spec; [done..|].
  rewrite Hlen. unfold u64. rewrite Z.mod_small; lia.
Qed.

(** The digest of "abc" (FIPS 180-4, appendix A.1), given as "ab" and "c". *)
Lemma sha1_is_fips_180_4_witness :
  (∃ ctx', (ctx ← sha1_updates (sha1_init (mkSha1 [] 0 (replicate 64 255) 9)) [chars "ab"; chars "c"];
            sha1_final ctx (replicate 20 7)) = Ok (FIPS.SHA1 (chars "abc"), ctx')) ∧
  FIPS.SHA1 (chars "abc") =
    [0xA9; 0x99; 0x3E; 0x36; 0x47; 0x06; 0x81; 0x6A; 0xBA; 0x3E;
     0x25; 0x71; 0x78; 0x50; 0xC2; 0x6C; 0x9C; 0xD0; 0xD8; 0x9D].
Proof.
  split; [|vm_compute; reflexivity].
  apply (sha1_is_fips_180_4 (mkSha1 [] 0 (replicate 64 255) 9) (replicate 20 7)
    [chars "ab"; chars "c"]); [done|done| | |cbn; lia]; cbn; repeat constructor; lia.
Defined.
