(* ===== verification/Base64.v ===== *)
(** Base 64 (src/crypto.cpp: base64_encode) against RFC 4648, with a decoder. *)
From S2P Require Import Prelude Cursor.

(** ** The code *)

Definition b64_table : list Z :=
  chars "ABCDEFGHIJKLMNOPQRSTUVWXYZabcdefghijklmnopqrstuvwxyz0123456789+/".

(** [out[o++] = b64_table[k]] *)
Definition put_digit (k : Z) : writer := λ w, c ← rd b64_table k; put [c] w.

(** The loop over whole groups of three bytes; the result includes the index it stopped at. *)
Fixpoint encode_groups (fuel : nat) (inp : list Z) (in_len i : Z) (w : wptr) : outcome (Z * wptr) :=
  if negb (i + 2 <? in_len) then Ok (i, w)
  else
    match fuel with
    | O => OutOfFuel
    | S fuel =>
        a ← rd inp i; b ← rd inp (i + 1); c ← rd inp (i + 2);
        w ← put_digit (Z.shiftr a 2) w;
        w ← put_digit (Z.lor (Z.shiftl (Z.land a 3) 4) (Z.shiftr b 4)) w;
        w ← put_digit (Z.lor (Z.shiftl (Z.land b 15) 2) (Z.shiftr c 6)) w;
        w ← put_digit (Z.land c 63) w;
        encode_groups fuel inp in_len (i + 3) w
    end.

Definition base64_encode (inp : list Z) (in_len : Z) : writer := λ w,
  '(i, w) ← encode_groups (length inp) inp in_len 0 w;
  w ← (if i <? in_len then
         a ← rd inp i;
         w ← put_digit (Z.shiftr a 2) w;
         w ← (if i + 1 <? in_len then
                b ← rd inp (i + 1);
                w ← put_digit (Z.lor (Z.shiftl (Z.land a 3) 4) (Z.shiftr b 4)) w;
                put_digit (Z.shiftl (Z.land b 15) 2) w
              else
                w ← put_digit (Z.shiftl (Z.land a 3) 4) w; put [61] w);
         put [61] w
       else Ok w);
  put [0] w.

(** ** RFC 4648 *)

(** Sixteen or twenty-four bits are cut into groups of six. *)
Definition digit (k : Z) : Z := nth (Z.to_nat k) b64_table 0.

Fixpoint b64 (l : list Z) : list Z :=
  match l with
  | [] => []
  | [a] => let n := a * 16 in [digit (n / 64); digit (n mod 64); 61; 61]
  | [a; b] => let n := (a * 256 + b) * 4 in
      [digit (n / 4096); digit (n / 64 mod 64); digit (n mod 64); 61]
  | a :: b :: c :: l =>
      let n := (a * 256 + b) * 256 + c in
      [digit (n / 262144); digit (n / 4096 mod 64); digit (n / 64 mod 64); digit (n mod 64)] ++ b64 l
  end.

Definition undigit (c : Z) : option Z :=
  if decide (65 <= c <= 90) then Some (c - 65)
  else if decide (97 <= c <= 122) then Some (c - 71)
  else if decide (48 <= c <= 57) then Some (c + 4)
  else if c =? 43 then Some 62 else if c =? 47 then Some 63 else None.

Fixpoint unb64 (l : list Z) : option (list Z) :=
  match l with
  | [] => Some []
  | x :: y :: z :: t :: l =>
      p ← undigit x; q ← undigit y;
      if (z =? 61) && (t =? 61) then
        match l with [] => Some [(p * 64 + q) / 16] | _ => None end
      else
        r ← undigit z;
        if t =? 61 then
          let n := ((p * 64 + q) * 64 + r) / 4 in
          match l with [] => Some [n / 256; n mod 256] | _ => None end
        else
          s ← undigit t;
          let n := ((p * 64 + q) * 64 + r) * 64 + s in
          l ← unb64 l; Some (n / 65536 :: n / 256 mod 256 :: n mod 256 :: l)
  | _ => None
  end.

(** ** Lemmas *)

Lemma put_digit_emits k : 0 <= k < 64 → emits (put_digit k) [digit k].
Proof.
  intros Hk. apply (emits_ext (put [digit k])); [|apply emits_put].
  intros w. unfold put_digit. by rewrite rd_nth.
Qed.

Lemma land_low x k m : m = Z.ones k → 0 <= k → Z.land x m = x mod 2 ^ k.
Proof. intros -> H. by apply Z.land_ones. Qed.

(** The six-bit groups the code computes. *)
Lemma group1 a : Z.shiftr a 2 = a / 4.
Proof. by rewrite Z.shiftr_div_pow2. Qed.
Lemma group2 a b : is_u8 a → is_u8 b →
  Z.lor (Z.shiftl (Z.land a 3) 4) (Z.shiftr b 4) = a mod 4 * 16 + b / 16.
Proof.
  unfold is_u8. intros. rewrite (land_low a 2 3 eq_refl), (Z.shiftr_div_pow2 b 4) by lia.
  rewrite lor_shift by zdiv. done.
Qed.
Lemma group3 b c : is_u8 b → is_u8 c →
  Z.lor (Z.shiftl (Z.land b 15) 2) (Z.shiftr c 6) = b mod 16 * 4 + c / 64.
Proof.
  unfold is_u8. intros. rewrite (land_low b 4 15 eq_refl), (Z.shiftr_div_pow2 c 6) by lia.
  rewrite lor_shift by zdiv. done.
Qed.
Lemma group4 c : Z.land c 63 = c mod 64.
Proof. by rewrite (land_low c 6 63 eq_refl). Qed.
Lemma group2_tail a : Z.shiftl (Z.land a 3) 4 = a mod 4 * 16.
Proof. by rewrite (land_low a 2 3 eq_refl), Z.shiftl_mul_pow2. Qed.
Lemma group3_tail b : Z.shiftl (Z.land b 15) 2 = b mod 16 * 4.
Proof. by rewrite (land_low b 4 15 eq_refl), Z.shiftl_mul_pow2. Qed.

(** Induction three bytes at a time. *)
Lemma groups_ind (P : list Z → Prop) :
  P [] → (∀ a, P [a]) → (∀ a b, P [a; b]) → (∀ a b c l, P l → P (a :: b :: c :: l)) → ∀ l, P l.
Proof.
  intros H0 H1 H2 H3. assert (∀ n l, (length l ≤ n)%nat → P l) as H; [|eauto].
  intros n. induction n as [|n IH]; intros l Hl; [by destruct l; [|cbn in Hl; lia]|].
  destruct l as [|a [|b [|c l]]]; auto. apply H3, IH. cbn in Hl. lia.
Qed.

Lemma b64_length l : zlen (b64 l) = 4 * ((zlen l + 2) / 3).
Proof.
  induction l as [|a|a b|a b c l IH] using groups_ind; [done..|].
  cbn [b64]. rewrite length_app, Nat2Z.inj_add, IH. cbn [length]. zdiv.
Qed.

(** What [base64_encode] does from index [i] on. *)
Definition encode_from (fuel : nat) (inp : list Z) (in_len i : Z) : writer := λ w,
  '(i, w) ← encode_groups fuel inp in_len i w;
  w ← (if i <? in_len then
         a ← rd inp i;
         w ← put_digit (Z.shiftr a 2) w;
         w ← (if i + 1 <? in_len then
                b ← rd inp (i + 1);
                w ← put_digit (Z.lor (Z.shiftl (Z.land a 3) 4) (Z.shiftr b 4)) w;
                put_digit (Z.shiftl (Z.land b 15) 2) w
              else
                w ← put_digit (Z.shiftl (Z.land a 3) 4) w; put [61] w);
         put [61] w
       else Ok w);
  put [0] w.

Lemma put_digit_eq k n : n = k → 0 <= k < 64 → emits (put_digit n) [digit k].
Proof. intros ->. apply put_digit_emits. Qed.

(** The loop is over when less than three bytes are left. *)
Lemma encode_groups_over fuel inp in_len i w : in_len < i + 3 → encode_groups fuel inp in_len i w = Ok (i, w).
Proof. intros H. destruct fuel; cbn [encode_groups]; by rewrite (proj2 (Z.ltb_ge _ _)) by lia. Qed.

Lemma encode_one fuel pre a rest : is_u8 a →
  emits (encode_from fuel (pre ++ [a] ++ rest) (zlen (pre ++ [a])) (zlen pre)) (b64 [a] ++ [0]).
Proof.
  intros Ha. unfold is_u8 in Ha. apply (emits_ext (λ w, w ← (w ← put_digit (Z.shiftr a 2) w;
    w ← (w ← put_digit (Z.shiftl (Z.land a 3) 4) w; put [61] w); put [61] w); put [0] w)).
  { intros w. unfold encode_from. rewrite encode_groups_over, bind_ok by lens. cbn beta iota.
    cbn [app]. rewrite (proj2 (Z.ltb_lt _ _)), rd_app, bind_ok, (proj2 (Z.ltb_ge _ _)) by lens. done. }
  cbn [b64]. apply (emits_seq _ _ [_; _; _; _] [0]); [|apply emits_put].
  apply (emits_seq _ _ [_] [_; _; _]).
  { apply put_digit_eq; [rewrite group1|]; zdiv. }
  apply (emits_seq _ _ [_; _] [_]); [|apply emits_put].
  apply (emits_seq _ _ [_] [_]); [|apply emits_put].
  apply put_digit_eq; [rewrite group2_tail|]; zdiv.
Qed.

Lemma encode_two fuel pre a b rest : is_u8 a → is_u8 b →
  emits (encode_from fuel (pre ++ [a; b] ++ rest) (zlen (pre ++ [a; b])) (zlen pre)) (b64 [a; b] ++ [0]).
Proof.
  intros Ha Hb. unfold is_u8 in Ha, Hb. apply (emits_ext (λ w, w ← (w ← put_digit (Z.shiftr a 2) w;
    w ← (w ← put_digit (Z.lor (Z.shiftl (Z.land a 3) 4) (Z.shiftr b 4)) w;
         put_digit (Z.shiftl (Z.land b 15) 2) w); put [61] w); put [0] w)).
  { intros w. unfold encode_from. rewrite encode_groups_over, bind_ok by lens. cbn beta iota.
    cbn [app]. rewrite (proj2 (Z.ltb_lt _ _)), rd_app, bind_ok, (proj2 (Z.ltb_lt _ _)) by lens.
    pose proof (rd_suffix pre ([a; b] ++ rest) 1) as E. cbn [app] in *. rewrite E by (cbn; lia). done. }
  cbn [b64]. apply (emits_seq _ _ [_; _; _; _] [0]); [|apply emits_put].
  apply (emits_seq _ _ [_] [_; _; _]).
  { apply put_digit_eq; [rewrite group1|]; zdiv. }
  apply (emits_seq _ _ [_; _] [_]); [|apply emits_put].
  apply (emits_seq _ _ [_] [_]);
    apply put_digit_eq; rewrite ?group2, ?group3_tail by (unfold is_u8; lia); zdiv.
Qed.

(** A whole group, and what is made of the rest. *)
Lemma encode_three fuel pre a b c l rest out : is_u8 a → is_u8 b → is_u8 c →
  emits (encode_from fuel (pre ++ a :: b :: c :: l ++ rest) (zlen (pre ++ a :: b :: c :: l)) (zlen pre + 3)) out →
  emits (encode_from (S fuel) (pre ++ a :: b :: c :: l ++ rest) (zlen (pre ++ a :: b :: c :: l)) (zlen pre)) (b64 [a; b; c] ++ out).
Proof.
  intros Ha Hb Hc IH. unfold is_u8 in Ha, Hb, Hc.
  apply (emits_ext (λ w, w ← put_digit (Z.shiftr a 2) w;
      w ← put_digit (Z.lor (Z.shiftl (Z.land a 3) 4) (Z.shiftr b 4)) w;
      w ← put_digit (Z.lor (Z.shiftl (Z.land b 15) 2) (Z.shiftr c 6)) w;
      w ← put_digit (Z.land c 63) w;
      encode_from fuel (pre ++ a :: b :: c :: l ++ rest) (zlen (pre ++ a :: b :: c :: l)) (zlen pre + 3) w)).
  { intros w. unfold encode_from. cbn [encode_groups].
    rewrite (proj2 (Z.ltb_lt _ _)), rd_app by lens. cbn [negb].
    rewrite (rd_suffix pre _ 1), (rd_suffix pre _ 2), !bind_ok by (cbn; lia).
    cbn [nth Z.to_nat Pos.to_nat Pos.iter_op Nat.add].
    do 4 (destruct (put_digit _ _) as [?w| |]; [|done..]; rewrite !bind_ok). done. }
  cbn [b64 app]. apply (emits_seq _ _ [_] ([_; _; _] ++ _)).
  { apply put_digit_eq; [rewrite group1|]; zdiv. }
  apply (emits_seq _ _ [_] ([_; _] ++ _)).
  { apply put_digit_eq; rewrite ?group2 by (unfold is_u8; lia); zdiv. }
  apply (emits_seq _ _ [_] ([_] ++ _)).
  { apply put_digit_eq; rewrite ?group3 by (unfold is_u8; lia); zdiv. }
  apply (emits_seq _ _ [_] _); [|done].
  apply put_digit_eq; [rewrite group4|]; zdiv.
Qed.

Lemma encode_from_emits rest l : Forall is_u8 l → ∀ fuel pre, (length l ≤ fuel)%nat →
  emits (encode_from fuel (pre ++ l ++ rest) (zlen (pre ++ l)) (zlen pre)) (b64 l ++ [0]).
Proof.
  induction l as [|a|a b|a b c l IH] using groups_ind; intros Hu fuel pre Hf;
    repeat match goal with H : Forall _ (_ :: _) |- _ => apply Forall_cons in H as [? H] end.
  - apply (emits_ext (put [0])); [|apply emits_put]. intros w. unfold encode_from.
    rewrite encode_groups_over, bind_ok by lens. cbn beta iota. rewrite app_nil_r. by rewrite (proj2 (Z.ltb_ge _ _)), bind_ok by lia.
  - by apply encode_one.
  - by apply encode_two.
  - destruct fuel as [|fuel]; [cbn in Hf; lia|].
    specialize (IH Hu fuel (pre ++ [a; b; c]) ltac:(cbn in Hf; lia)).
    rewrite <- !app_assoc in IH. cbn [app] in IH.
    replace (zlen (pre ++ [a; b; c])) with (zlen pre + 3) in IH by lens.
    change (b64 (a :: b :: c :: l)) with (b64 [a; b; c] ++ b64 l). rewrite <- app_assoc. by apply encode_three.
Qed.

Lemma base64_encode_emits l rest : Forall is_u8 l →
  emits (base64_encode (l ++ rest) (zlen l)) (b64 l ++ [0]).
Proof.
  intros Hu. apply (encode_from_emits rest l Hu (length (l ++ rest)) []). lens.
Qed.

Lemma undigit_digit k : 0 <= k < 64 → undigit (digit k) = Some k ∧ digit k ≠ 61.
Proof.
  intros Hk. assert (is_u8 k) as Hu by (unfold is_u8; lia).
  pose proof (byte_check (λ k, (64 <=? k) ||
    (bool_decide (undigit (digit k) = Some k) && negb (digit k =? 61))) ltac:(vm_compute; done) k Hu) as H.
  cbn beta in H. destruct (Z.leb_spec 64 k); [lia|]. cbn [orb] in H.
  apply andb_prop in H as [H1 H2]. apply bool_decide_eq_true in H1.
  apply negb_true_iff, Z.eqb_neq in H2. done.
Qed.

Lemma undigit_ok k : 0 <= k < 64 → undigit (digit k) = Some k.
Proof. apply undigit_digit. Qed.

Lemma digit_nonzero k : 0 <= k < 64 → digit k ≠ 0.
Proof.
  intros Hk. assert (is_u8 k) as Hu by (unfold is_u8; lia).
  pose proof (byte_check (λ k, (64 <=? k) || negb (digit k =? 0)) ltac:(vm_compute; done) k Hu) as H.
  cbn beta in H. destruct (Z.leb_spec 64 k); [lia|]. by apply negb_true_iff, Z.eqb_neq in H.
Qed.

Lemma b64_no_nul l : Forall is_u8 l → Forall (λ c, c ≠ 0) (b64 l).
Proof.
  induction l as [|a|a b|a b c l IH] using groups_ind; intros Hu;
    repeat match goal with H : Forall _ (_ :: _) |- _ => apply Forall_cons in H as [? H] end;
    unfold is_u8 in *; cbn [b64 app];
    repeat (apply Forall_cons; split; [first [apply digit_nonzero; zdiv|lia]|]); auto.
Qed.

(** C34: [base64_encode] writes the RFC 4648 encoding of its input and a NUL, needs exactly
    [4 * ((n + 2) / 3) + 1] bytes of room, is undefined behaviour with less, and the encoding
    decodes to the input. *)
Theorem base64_encode_is_rfc4648 l rest out :
  Forall is_u8 l →
  base64_encode (l ++ rest) (zlen l) (W out 0) =
    (if decide (4 * ((zlen l + 2) / 3) + 1 <= zlen out)
     then Ok (W (b64 l ++ [0] ++ drop (length (b64 l ++ [0])) out) (4 * ((zlen l + 2) / 3) + 1))
     else Ub) ∧ unb64 (b64 l) = Some l.
Proof.
  intros Hu. split.
  - rewrite (emits_start _ _ _ (base64_encode_emits l rest Hu)).
    rewrite length_app, Nat2Z.inj_add, b64_length. cbn [length].
    change (Z.of_nat 1) with 1. rewrite <- app_assoc. done.
  - induction l as [|a|a b|a b c l IH] using groups_ind;
      repeat match goal with H : Forall _ (_ :: _) |- _ => apply Forall_cons in H as [? H] end;
      unfold is_u8 in *.
    + done.
    + cbn [b64 unb64]. rewrite !undigit_ok by zdiv. cbn. do 2 f_equal. zdiv.
    + cbn [b64 unb64]. rewrite !undigit_ok by zdiv. cbn [mbind option_bind].
      destruct (undigit_digit ((a * 256 + b) * 4 mod 64)) as [_ Hn]; [zdiv|].
      rewrite (proj2 (Z.eqb_neq _ _) Hn). cbn [andb Z.eqb Pos.eqb]. do 2 f_equal; [zdiv|f_equal; zdiv].
    + cbn [b64 unb64 app]. rewrite !undigit_ok by zdiv. cbn [mbind option_bind].
      set (n := (a * 256 + b) * 256 + c).
      destruct (undigit_digit (n mod 64)) as [_ H4]; [unfold n; zdiv|].
      rewrite (proj2 (Z.eqb_neq _ _) H4), andb_false_r, IH by done. cbn [mbind option_bind].
      unfold n. do 2 f_equal; [|f_equal; [|f_equal]]; zdiv.
Qed.

(** RFC 4648, section 10, and the array sizes of [create_key_accept]. *)
Lemma base64_encode_is_rfc4648_witness :
  b64 (chars "fooba") = chars "Zm9vYmE=" ∧
  (base64_encode (chars "fooba" ++ [9; 9]) 5 (W (replicate 12 7) 0) =
    Ok (W (chars "Zm9vYmE=" ++ [0] ++ [7; 7; 7]) 9) ∧ unb64 (chars "Zm9vYmE=") = Some (chars "fooba")).
Proof.
  split; [vm_compute; reflexivity|].
  apply (base64_encode_is_rfc4648 (chars "fooba") [9; 9] (replicate 12 7)).
  cbn. repeat constructor; lia.
Defined.
