(* ===== verification/WebSocket.v ===== *)
(** The WebSocket server (src/websocket.cpp, inc/websocket.h): the opening handshake, frames in both
    directions and the server loop.  lwip sockets, the FreeRTOS queue service and ArduinoJson are
    outside src/: what they return is an argument of the definitions, what is asked of them is the
    list of [event]s.  A pointer into the receive buffer is the offset it points to. *)
From S2P Require Import Prelude Cursor CString Sha1 Base64.

(** ** Constants *)

Definition WS_GUID : list Z := chars "258EAFA5-E914-47DA-95CA-C5AB0DC85B11".
Definition WS_FIN_FLAG : Z := Z.shiftl 1 7.
Definition WS_MASKED_FLAG : Z := Z.shiftl 1 7.
Definition WS_TYPE_MASK : Z := 0xF.
Definition WS_TYPE_TEXT : Z := 1.
Definition WS_TYPE_BINARY : Z := 2.
Definition WS_TYPE_CLOSE : Z := 8.
Definition WS_TYPE_PING : Z := 9.
Definition WS_TYPE_PONG : Z := 10.
Definition WS_SEND_BUFFER_SIZE : Z := 512.
Definition WS_RECV_BUFFER_SIZE : Z := 512.

Definition CRLF : list Z := [13; 10].
Definition header : list Z :=
  chars "HTTP/1.1 101 Switching Protocols" ++ CRLF ++ chars "Upgrade: websocket" ++ CRLF ++
  chars "Connection: Upgrade" ++ CRLF ++ chars "Sec-WebSocket-Accept: ".
Definition key_field : list Z := chars "Sec-WebSocket-Key: ".

(** ** State *)

Inductive event :=
| Send (socket : Z) (bytes : list Z)
| Close (socket : Z)
| SetTimeout (socket : Z)
| Message (payload : list Z) (length type : Z).

(** The members of [websocket_server] and [websocket_client], the static arrays of
    [create_key_accept] and the queue of messages to send.  [msg_handler] tells whether a handler
    is set; a call of it is the event [Message]. *)
Record server := mkServer {
  send_buf : list Z; socket : Z; established : bool; recv_buf : list Z; msg_handler : bool;
  last_status_sent : Z; concat_key : list Z; hash : list Z; hash_base64 : list Z;
  websocketQueue : list (list Z * Z); events : list event }.

Definition set_client (s : server) (sock : Z) (est : bool) : server :=
  mkServer (send_buf s) sock est (recv_buf s) (msg_handler s) (last_status_sent s) (concat_key s)
    (hash s) (hash_base64 s) (websocketQueue s) (events s).
Definition set_send_buf (s : server) (b : list Z) : server :=
  mkServer b (socket s) (established s) (recv_buf s) (msg_handler s) (last_status_sent s)
    (concat_key s) (hash s) (hash_base64 s) (websocketQueue s) (events s).
Definition set_recv_buf (s : server) (b : list Z) : server :=
  mkServer (send_buf s) (socket s) (established s) b (msg_handler s) (last_status_sent s)
    (concat_key s) (hash s) (hash_base64 s) (websocketQueue s) (events s).
Definition set_key (s : server) (k h b : list Z) : server :=
  mkServer (send_buf s) (socket s) (established s) (recv_buf s) (msg_handler s) (last_status_sent s)
    k h b (websocketQueue s) (events s).
Definition set_queue (s : server) (now : Z) (q : list (list Z * Z)) : server :=
  mkServer (send_buf s) (socket s) (established s) (recv_buf s) (msg_handler s) now
    (concat_key s) (hash s) (hash_base64 s) q (events s).
Definition emit (e : event) (s : server) : server :=
  mkServer (send_buf s) (socket s) (established s) (recv_buf s) (msg_handler s) (last_status_sent s)
    (concat_key s) (hash s) (hash_base64 s) (websocketQueue s) (events s ++ [e]).

(** ** Handshake *)

(** [get_key]: where the key starts and how long it is, if there is one. *)
Definition get_key (b : list Z) : outcome (option (Z * Z)) :=
  p ← strstr b 0 key_field;
  match p with
  | None => Ok None
  | Some p =>
      let p := p + zlen key_field in
      e ← strchr b p 13;
      match e with None => Ok None | Some e => Ok (Some (p, e - p)) end
  end.

(** [create_key_accept] on the request [inbuf]: the characters of the result, if any. *)
Definition create_key_accept (inbuf : list Z) (s : server) : outcome (option (list Z) * server) :=
  key ← get_key inbuf;
  match key with
  | None => Ok (None, s)
  | Some (p, len) =>
      let ck := replicate 128 0 in
      let room := 128 - zlen WS_GUID - 1 in
      let copy_len := if len <? room then len else room in
      k ← rd_n inbuf p copy_len;
      ck ← wr_n ck 0 k;
      ck ← wr ck copy_len 0;
      ck ← wr_n ck copy_len WS_GUID;
      data ← rd_n ck 0 (copy_len + zlen WS_GUID);
      ctx ← sha1_update (sha1_init (mkSha1 [] 0 (replicate 64 0) 0)) data;
      digest ← rd_n (hash s) 0 20;
      '(digest, _) ← sha1_final ctx digest;
      hash ← wr_n (hash s) 0 digest;
      w ← base64_encode hash 20 (W (hash_base64 s) 0);
      accept ← c_str (w_buf w);
      Ok (Some accept, set_key s ck hash (w_buf w))
  end.

(** [process_handshake] on the receive buffer; [send_result] is what [lwip_send] returns. *)
Definition process_handshake (send_result : Z) (s : server) : outcome (bool * server) :=
  get ← strncmp_eq 5 (recv_buf s) (literal (chars "GET /"));
  if negb get then Ok (false, s)
  else
    '(key, s) ← create_key_accept (recv_buf s) s;
    match key with
    | None => Ok (false, s)
    | Some accept =>
        '(b, written) ← snprintf (send_buf s) WS_SEND_BUFFER_SIZE
                          (header ++ accept ++ CRLF ++ CRLF);
        let response_len := if written <? WS_SEND_BUFFER_SIZE then written else WS_SEND_BUFFER_SIZE - 1 in
        out ← rd_n b 0 response_len;
        let s := emit (Send (socket s) out) (set_send_buf s b) in
        if send_result <? 0 then Ok (false, s) else Ok (true, s)
    end.

(** ** Frames *)

Definition get_message_len (msg : list Z) : outcome Z :=
  b1 ← rd msg 1;
  if Z.land b1 0x7F =? 126 then
    b2 ← rd msg 2; b3 ← rd msg 3; Ok (Z.lor (Z.shiftl b2 8) b3)
  else if Z.land b1 0x7F =? 127 then Ok 0
  else Ok (Z.land b1 0x7F).

Definition is_masked_msg (msg : list Z) : outcome bool :=
  b1 ← rd msg 1; Ok (negb (Z.land b1 WS_MASKED_FLAG =? 0)).

Definition is_fin_msg (msg : list Z) : outcome bool :=
  b0 ← rd msg 0; Ok (negb (Z.land b0 WS_FIN_FLAG =? 0)).

Definition get_mask (msg : list Z) : outcome Z :=
  b1 ← rd msg 1;
  Ok (if Z.land b1 0x7F =? 126 then 4 else if Z.land b1 0x7F =? 127 then 10 else 2).

Definition get_payload_ptr (msg : list Z) : outcome Z :=
  b1 ← rd msg 1;
  let p := if Z.land b1 0x7F =? 126 then 4 else if Z.land b1 0x7F =? 127 then 10 else 2 in
  masked ← is_masked_msg msg;
  Ok (if (masked : bool) then p + 4 else p).

(** [pld] and [mask] are offsets into the same buffer. *)
Definition unmask_message_payload (pld len mask : Z) (b : list Z) : outcome (list Z) :=
  for_ (Z.to_nat len) 0 (λ i b,
    m ← rd b (mask + i mod 4); p ← rd b (pld + i); wr b (pld + i) (Z.lxor m p)) b.

Definition set_size_to_frame (size : Z) : writer := λ w,
  if size <? 126 then put [u8 size] w
  else if size <? 65536 then put [126; Z.land (Z.shiftr size 8) 255; Z.land size 255] w
  else put ([127] ++ replicate 6 0 ++ [Z.land (Z.shiftr size 8) 255; Z.land size 255]) w.

Definition set_data_to_frame (data : list Z) (size : Z) : writer := λ w,
  d ← rd_n data 0 size; put d w.

Record websocket_message := mkMessage { message : list Z; msg_size : Z; msg_type : Z }.

Definition send_message (m : websocket_message) (s : server) : outcome server :=
  if WS_SEND_BUFFER_SIZE <? u32 (msg_size m + 10) then Ok s
  else if negb (established s) then Ok s
  else
    b ← wr_n (send_buf s) 0 (replicate (Z.to_nat WS_SEND_BUFFER_SIZE) 0);
    b ← wr b 0 (Z.lor (u8 (msg_type m)) WS_FIN_FLAG);
    w ← set_size_to_frame (msg_size m) (W b 1);
    w ← set_data_to_frame (message m) (msg_size m) w;
    let packet_size := w_pos w in
    out ← rd_n (w_buf w) 0 packet_size;
    Ok (emit (Send (socket s) out) (emit (SetTimeout (socket s)) (set_send_buf s (w_buf w)))).

(** [handle_frame] on the receive buffer, of which [length] bytes were received. *)
Definition handle_frame (length : Z) (s : server) : outcome server :=
  if length <? 2 then Ok s
  else
    b1 ← rd (recv_buf s) 1;
    let len_byte := Z.land b1 0x7F in
    let required := if len_byte =? 126 then 4 else if len_byte =? 127 then 10 else 2 in
    masked ← is_masked_msg (recv_buf s);
    let required := if (masked : bool) then required + 4 else required in
    if length <? required then Ok s
    else
      b0 ← rd (recv_buf s) 0;
      if Z.land b0 WS_TYPE_MASK =? WS_TYPE_PING then
        Ok (emit (Send (socket s) [Z.lor WS_FIN_FLAG WS_TYPE_PONG; 0]) s)
      else if Z.land b0 WS_TYPE_MASK =? WS_TYPE_PONG then Ok s
      else if Z.land b0 WS_TYPE_MASK =? WS_TYPE_CLOSE then
        let s := emit (Send (socket s) [Z.lor WS_FIN_FLAG WS_TYPE_CLOSE; 0]) s in
        let s := emit (Close (socket s)) s in
        Ok (set_client s (-1) false)
      else
        fin ← is_fin_msg (recv_buf s);
        if (fin : bool) then
          len ← get_message_len (recv_buf s);
          payload ← get_payload_ptr (recv_buf s);
          s ← (if (masked : bool) then
                 mask ← get_mask (recv_buf s);
                 b ← unmask_message_payload payload len mask (recv_buf s);
                 Ok (set_recv_buf s b)
               else Ok s);
          if msg_handler s then
            Ok (emit (Message (drop (Z.to_nat payload) (recv_buf s)) len (Z.land b0 WS_TYPE_MASK)) s)
          else Ok s
        else Ok s.

(** ** The server loop *)

(** What the services return in one turn of the loop: [select], [accept], [recv] with the bytes it
    stores, [send] of the handshake, the tick count, the status document ([serializeJson] into the
    512-byte payload), and the messages other tasks queue meanwhile. *)
Record turn := mkTurn {
  select_result : Z; is_set : bool; accept_result : Z; recv_bytes : Z; recv_data : list Z;
  hs_send_result : Z; now : Z; status_payload : list Z * Z; queued_by_others : list (list Z * Z) }.

Definition queue_size : Z := 10.

(** [xQueueSend] with no waiting: a full queue drops the message. *)
Definition xQueueSend (q : list (list Z * Z)) (m : list Z * Z) : list (list Z * Z) :=
  if zlen q <? queue_size then q ++ [m] else q.

(** Accept a client, or receive from the one there is. *)
Definition serve_socket (t : turn) (s : server) : outcome server :=
  if socket s <? 0 then
    if 0 <? select_result t then
      if 0 <=? accept_result t then Ok (set_client s (accept_result t) (established s)) else Ok s
    else Ok s
  else if (0 <? select_result t) && is_set t then
    b ← wr_n (replicate (Z.to_nat WS_RECV_BUFFER_SIZE) 0) 0 (recv_data t);
    let s := set_recv_buf s b in
    let s := if recv_bytes t <=? 0 then set_client (emit (Close (socket s)) s) (-1) false else s in
    if negb (established s) then
      '(ok, s) ← process_handshake (hs_send_result t) s;
      if (ok : bool) then Ok (set_client s (socket s) true)
      else Ok (set_client (emit (Close (socket s)) s) (-1) (established s))
    else handle_frame (recv_bytes t) s
  else if select_result t <? 0 then Ok (set_client (emit (Close (socket s)) s) (-1) false)
  else Ok s.

(** Every half second the status document is queued. *)
Definition queue_status (t : turn) (s : server) : server :=
  if established s && (500 <=? u32 (now t - last_status_sent s)) then
    set_queue s (now t) (xQueueSend (websocketQueue s) (status_payload t))
  else s.

(** [while (xQueueReceive(...))]: the messages are sent, or dropped when no client is there. *)
Fixpoint send_queued (q : list (list Z * Z)) (s : server) : outcome server :=
  match q with
  | [] => Ok (set_queue s (last_status_sent s) [])
  | (p, n) :: q =>
      s ← (if established s then send_message (mkMessage p n WS_TYPE_TEXT) s else Ok s);
      send_queued q s
  end.

Definition task_turn (t : turn) (s : server) : outcome server :=
  s ← serve_socket t s;
  let s := queue_status t s in
  let q := fold_left xQueueSend (queued_by_others t) (websocketQueue s) in
  send_queued q s.

(** ** RFC 6455 *)

(** The value of the Sec-WebSocket-Accept field (section 4.2.2) for the key [k]. *)
Definition accept_of (k : list Z) : list Z := b64 (FIPS.SHA1 (k ++ WS_GUID)).

(** The bytes in front of the payload: opcode with FIN, length with the mask bit (section 5.2). *)
Definition frame_head (opcode mask_bit n : Z) : list Z :=
  (128 + opcode) :: (if n <? 126 then [mask_bit * 128 + n] else [mask_bit * 128 + 126; n / 256; n mod 256]).

Definition xor_mask (mask payload : list Z) : list Z :=
  imap (λ i c, Z.lxor (nth (i mod 4) mask 0) c) payload.

(** A frame of a client, and of a server. *)
Definition client_frame (opcode : Z) (mask payload : list Z) : list Z :=
  frame_head opcode 1 (zlen payload) ++ mask ++ xor_mask mask payload.
Definition server_frame (opcode : Z) (payload : list Z) : list Z :=
  frame_head opcode 0 (zlen payload) ++ payload.

(** ** The handshake *)

(** A request in the receive buffer: the first key field is followed by the key [k] and a CR. *)
Definition request (pre k rest : list Z) : list Z := pre ++ key_field ++ k ++ 13 :: rest.

Record request_ok (pre k rest : list Z) : Prop := {
  rq_u8 : Forall is_u8 (request pre k rest);
  rq_no_nul : no_nul pre;
  rq_first : ∀ i, (i < length pre)%nat → is_prefix key_field (drop i (request pre k rest)) = false;
  rq_key : no_nul k ∧ 13 ∉ k;
}.

Lemma get_key_request pre k rest : request_ok pre k rest →
  get_key (request pre k rest) = Ok (Some (zlen pre + zlen key_field, zlen k)).
Proof.
  intros [_ Hp Hf (Hk & Hcr)]. unfold get_key, strstr, request in *. cbn [Z.to_nat].
  rewrite drop_0, strstr_from_found, bind_ok by done. cbn beta iota zeta.
  unfold strchr. replace (Z.to_nat (0 + zlen pre + zlen key_field)) with (length (pre ++ key_field)) by lens.
  rewrite app_assoc, drop_app_length, strchr_from_found, bind_ok by done.
  do 3 f_equal; lia.
Qed.

Lemma chars_u8 s : Forall is_u8 (chars s).
Proof.
  unfold chars. apply Forall_map, Forall_true. intros a. unfold is_u8.
  pose proof (Ascii.N_ascii_bounded a). lia.
Qed.

Lemma no_nul_list l : Forall (λ c, c ≠ 0) l → no_nul l.
Proof. done. Qed.

(** The parts of the state the handshake relies on. *)
Record arrays_ok (s : server) : Prop := {
  ok_send : length (send_buf s) = 512%nat;
  ok_recv : length (recv_buf s) = 512%nat;
  ok_hash : length (hash s) = 22%nat;
  ok_base64 : length (hash_base64 s) = 64%nat;
}.

(** The concatenation of key and GUID in [concat_key]. *)
Lemma concat_key_data k : zlen k <= 91 → Forall is_u8 k →
  ∃ ck, (ck ← wr_n (replicate 128 0) 0 k; ck ← wr ck (zlen k) 0; wr_n ck (zlen k) WS_GUID) = Ok ck ∧
    length ck = 128%nat ∧ rd_n ck 0 (zlen k + zlen WS_GUID) = Ok (k ++ WS_GUID).
Proof.
  intros Hk Hu. pose proof (wr_n_app [] (replicate 128 0) k) as E. cbn [app] in E.
  change (zlen []) with 0 in E. rewrite E, bind_ok by lens.
  set (r := drop (length k) (replicate 128 0)). assert (zlen r = 128 - zlen k) as Hr by (unfold r; lens).
  unfold wr. rewrite wr_n_app, bind_ok by (cbn [length]; lia).
  assert (length WS_GUID = 36%nat) as HG by done. clearbody r.
  rewrite wr_n_app by (rewrite length_app, length_drop; cbn [length]; lia).
  eexists. split; [done|]. split.
  - rewrite !length_app, length_drop, length_app, length_drop. cbn [length]. lia.
  - rewrite app_assoc. pose proof (rd_n_app [] (k ++ WS_GUID) (drop (length WS_GUID) ([0] ++ drop (length [0]) r))) as F.
    cbn [app] in F. change (zlen []) with 0 in F.
    replace (zlen k + zlen WS_GUID) with (zlen (k ++ WS_GUID)) by lens. exact F.
Qed.

Lemma create_key_accept_found inbuf p len s :
  get_key inbuf = Ok (Some (p, len)) → 0 <= p → 0 <= len → p + len <= zlen inbuf →
  Forall is_u8 inbuf → arrays_ok s →
  ∃ ck h b, create_key_accept inbuf s =
      Ok (Some (accept_of (take (Z.to_nat (Z.min len 91)) (drop (Z.to_nat p) inbuf))), set_key s ck h b) ∧
    length h = 22%nat ∧ length b = 64%nat.
Proof.
  intros Eg Hp Hlen Hin Hu Hs. unfold create_key_accept. rewrite Eg, bind_ok. cbn beta iota zeta.
  set (k := take (Z.to_nat (Z.min len 91)) (drop (Z.to_nat p) inbuf)).
  assert ((if len <? 128 - zlen WS_GUID - 1 then len else 128 - zlen WS_GUID - 1) = zlen k) as ->.
  { change (128 - zlen WS_GUID - 1) with 91. unfold k. destruct (Z.ltb_spec len 91); lens. }
  assert (rd_n inbuf p (zlen k) = Ok k) as ->.
  { assert (zlen k = Z.min len 91) as El by (unfold k; lens).
    rewrite El. unfold rd_n. rewrite decide_True by lia. done. }
  assert (zlen k <= 91) by (unfold k; lens).
  assert (Forall is_u8 k) as Hk by by apply Forall_take, Forall_drop.
  clearbody k. rewrite bind_ok.
  destruct (concat_key_data k ltac:(done) Hk) as (ck & Eck & Hck & Erd). revert Eck.
  destruct (wr_n (replicate 128 0) 0 k) as [c1| |]; [|done..]. rewrite !bind_ok.
  destruct (wr c1 (zlen k) 0) as [c2| |]; [|done..]. rewrite !bind_ok. intros Eck.
  rewrite Eck, bind_ok, Erd, bind_ok.
  destruct (sha1_oneshot (mkSha1 [] 0 (replicate 64 0) 0) (take 20 (hash s)) (k ++ WS_GUID))
    as (c3 & c4 & E3 & E4); [done|destruct Hs; lens| | |].
  { apply Forall_app_2; [done|apply chars_u8]. }
  { rewrite length_app. change (length WS_GUID) with 36%nat. lia. }
  rewrite E3, bind_ok.
  assert (rd_n (hash s) 0 20 = Ok (take 20 (hash s))) as ->.
  { unfold rd_n. rewrite decide_True by (destruct Hs; lia). done. }
  rewrite bind_ok, E4, bind_ok. cbn beta iota. set (d := FIPS.SHA1 (k ++ WS_GUID)).
  pose proof (SHA1_length (k ++ WS_GUID)) as Hd. fold d in Hd.
  pose proof (wr_n_app [] (hash s) d) as E. cbn [app] in E. change (zlen []) with 0 in E.
  rewrite E, bind_ok by (destruct Hs; lia).
  replace 20 with (zlen d) by lia.
  rewrite (emits_fits _ _ (hash_base64 s) (base64_encode_emits d (drop (length d) (hash s)) (SHA1_u8 _))).
  2:{ rewrite length_app, Nat2Z.inj_add, b64_length, Hd.
      change (4 * ((Z.of_nat 20 + 2) / 3)) with 28. cbn [length]. destruct Hs. lia. }
  rewrite bind_ok. cbn [w_buf]. rewrite <- app_assoc. cbn [app].
  rewrite c_str_app, bind_ok by apply b64_no_nul, SHA1_u8.
  eexists _, _, _. split; [reflexivity|]. split.
  - destruct Hs; lens.
  - change (0 :: ?l) with ([0] ++ l). rewrite app_assoc, length_app, length_drop.
    pose proof (b64_length d) as Hb. rewrite Hd in Hb. change (4 * ((Z.of_nat 20 + 2) / 3)) with 28 in Hb.
    rewrite length_app. cbn [length]. destruct Hs. lia.
Qed.

Lemma create_key_accept_ok pre k rest s :
  request_ok pre k rest → Forall is_u8 (request pre k rest) → arrays_ok s →
  ∃ ck h b, create_key_accept (request pre k rest) s =
      Ok (Some (accept_of (take 91 k)), set_key s ck h b) ∧ length h = 22%nat ∧ length b = 64%nat.
Proof.
  intros Hr Hu Hs.
  destruct (create_key_accept_found _ _ _ s (get_key_request _ _ _ Hr)) as (ck & h & b & E & H);
    try done; try lia; [unfold request; lens|].
  exists ck, h, b. rewrite E. split; [|done]. do 4 f_equal.
  replace (Z.to_nat (zlen pre + zlen key_field)) with (length (pre ++ key_field)) by lens.
  unfold request. rewrite (app_assoc pre), drop_app_length.
  replace (Z.to_nat (Z.min (zlen k) 91)) with (length (take 91 k)) by lens.
  rewrite <- (take_drop 91 k) at 2. rewrite <- app_assoc. apply take_app_length.
Qed.

(** The bytes of the response. *)
Definition response (k : list Z) : list Z := header ++ accept_of k ++ CRLF ++ CRLF.

Lemma accept_length k : zlen (accept_of k) = 28.
Proof. unfold accept_of. by rewrite b64_length, SHA1_length. Qed.

Lemma response_length k : zlen (response k) = 129.
Proof. unfold response. rewrite !length_app, !Nat2Z.inj_add, accept_length. done. Qed.

Lemma arrays_ok_set_key s ck h b : arrays_ok s → length h = 22%nat → length b = 64%nat →
  arrays_ok (set_key s ck h b).
Proof. intros []. by constructor. Qed.

(** C35: an opening handshake whose request begins with "GET /" and has a key field is answered
    with the 101 response whose Sec-WebSocket-Accept is the base 64 SHA-1 of the key (of its first
    91 characters) followed by the protocol's GUID, and succeeds unless the send fails. *)
Theorem handshake_answers_key send_result s path pre k rest :
  arrays_ok s → pre = chars "GET /" ++ path → recv_buf s = request pre k rest →
  request_ok pre k rest →
  ∃ s', process_handshake send_result s = Ok (negb (send_result <? 0), s') ∧ arrays_ok s' ∧
    events s' = events s ++ [Send (socket s) (response (take 91 k))] ∧
    socket s' = socket s ∧ established s' = established s.
Proof.
  intros Hs Hpre Hrecv Hr. unfold process_handshake. rewrite Hrecv.
  assert (strncmp_eq 5 (request pre k rest) (literal (chars "GET /")) = Ok true) as ->.
  { rewrite Hpre. unfold request. rewrite <- app_assoc.
    apply (strncmp_eq_app (chars "GET /") _ [0]). repeat constructor; done. }
  rewrite bind_ok. cbn [negb].
  destruct (create_key_accept_ok pre k rest s Hr (rq_u8 _ _ _ Hr) Hs) as (ck & h & b & E & Hh & Hb).
  rewrite E, bind_ok. cbn beta iota. fold (response (take 91 k)).
  set (out := response (take 91 k)). pose proof (response_length (take 91 k)) as Hl. fold out in Hl.
  destruct Hs as [Hsend Hrecv2 Hhash Hb64].
  change (send_buf (set_key s ck h b)) with (send_buf s).
  rewrite snprintf_fits by (unfold WS_SEND_BUFFER_SIZE; lia).
  rewrite bind_ok. cbn beta iota zeta. rewrite Hl. unfold WS_SEND_BUFFER_SIZE.
  change (129 <? 512) with true. cbn iota. replace 129 with (zlen out) by lia.
  pose proof (rd_n_app [] out ([0] ++ drop (length out + 1) (send_buf s))) as Er.
  change (zlen []) with 0 in Er. cbn [app] in *. rewrite Er, bind_ok.
  eexists. split; [by destruct (send_result <? 0)|]. split; [|done].
  constructor; try done. change (length (out ++ 0 :: drop (length out + 1) (send_buf s)) = 512%nat).
  clearbody out. lens.
Qed.

(** The example of RFC 6455, section 1.3. *)
Definition demo_server (recv : list Z) : server :=
  mkServer (replicate 512 0) 3 false recv true 0 (replicate 128 0) (replicate 22 0) (replicate 64 0) [] [].
Definition demo_pre : list Z := chars "GET /" ++ chars "chat HTTP/1.1" ++ CRLF.
Definition demo_key : list Z := chars "dGhlIHNhbXBsZSBub25jZQ==".
Definition demo_rest : list Z := replicate 448 0.

Lemma demo_request_ok : request_ok demo_pre demo_key demo_rest.
Proof.
  constructor.
  - apply (bool_decide_unpack _). vm_compute. exact I.
  - apply (bool_decide_unpack _). vm_compute. exact I.
  - assert (∀ i, i ∈ seq 0 (length demo_pre) →
      is_prefix key_field (drop i (request demo_pre demo_key demo_rest)) = false) as H.
    { apply Forall_forall. apply (bool_decide_unpack _). vm_compute. exact I. }
    intros i Hi. apply H, elem_of_seq. lia.
  - split; apply (bool_decide_unpack _); vm_compute; exact I.
Qed.

Lemma handshake_answers_key_witness :
  accept_of demo_key = chars "s3pPLMBiTxaQ9kYGzzhZRbK+xOo=" ∧
  ∃ s', process_handshake 129 (demo_server (request demo_pre demo_key demo_rest)) = Ok (true, s') ∧
    arrays_ok s' ∧
    events s' = [] ++ [Send 3 (response demo_key)] ∧ socket s' = 3 ∧ established s' = false.
Proof.
  split; [vm_compute; reflexivity|].
  apply (handshake_answers_key 129 (demo_server (request demo_pre demo_key demo_rest))
    (chars "chat HTTP/1.1" ++ CRLF) demo_pre demo_key demo_rest);
    [constructor; vm_compute; reflexivity|reflexivity|reflexivity|exact demo_request_ok].
Defined.

(** ** Sending *)

Lemma lor_fin t : 0 <= t < 16 → Z.lor (u8 t) WS_FIN_FLAG = 128 + t.
Proof.
  intros H. rewrite u8_id by (unfold is_u8; lia). unfold WS_FIN_FLAG.
  rewrite Z.lor_comm, (lor_shift 1 t 7) by lia. lia.
Qed.

Lemma low_byte n : Z.land n 255 = n mod 256.
Proof. apply (Z.land_ones n 8). lia. Qed.

Lemma size_emits n : 0 <= n < 65536 →
  emits (set_size_to_frame n) (if n <? 126 then [0 * 128 + n] else [0 * 128 + 126; n / 256; n mod 256]).
Proof.
  intros Hn. apply (emits_ext (λ w, if n <? 126 then put [u8 n] w
    else put [126; Z.land (Z.shiftr n 8) 255; Z.land n 255] w)).
  { intros w. unfold set_size_to_frame. destruct (n <? 126); [done|].
    by rewrite (proj2 (Z.ltb_lt n 65536)) by lia. }
  apply emits_if; intros E.
  - eapply emits_eq; [apply emits_put|]. apply Z.ltb_lt in E. rewrite u8_id; [f_equal; lia|].
    unfold is_u8. lia.
  - eapply emits_eq; [apply emits_put|]. rewrite !low_byte, Z.shiftr_div_pow2 by lia.
    change (2 ^ 8) with 256. rewrite (Z.mod_small (n / 256)) by zdiv. done.
Qed.

Lemma frame_emits n d : 0 <= n < 65536 → n = zlen d → ∀ rest,
  emits (λ w, w ← set_size_to_frame n w; set_data_to_frame (d ++ rest) n w) (tail (server_frame 0 d)).
Proof.
  intros Hn Hd rest. unfold server_frame, frame_head. rewrite <- Hd. cbn [app tail].
  apply emits_seq; [by apply size_emits|].
  apply (emits_ext (put d)); [|apply emits_put]. intros w. unfold set_data_to_frame.
  pose proof (rd_n_app [] d rest) as E. change (zlen []) with 0 in E. cbn [app] in E.
  by rewrite Hd, E.
Qed.

Lemma frame_length op d : zlen d <= 502 →
  zlen (server_frame op d) = zlen d + (if zlen d <? 126 then 2 else 4).
Proof.
  intros H. unfold server_frame, frame_head. rewrite length_app.
  destruct (zlen d <? 126); cbn [length]; lia.
Qed.

(** What a call of [send_message] leaves behind. *)
Lemma send_message_frame s d rest t :
  arrays_ok s → 0 <= t < 16 → zlen d < 4294967286 →
  ∃ s', send_message (mkMessage (d ++ rest) (zlen d) t) s = Ok s' ∧ arrays_ok s' ∧
    s' = if (zlen d <=? 502) && established s
         then emit (Send (socket s) (server_frame t d)) (emit (SetTimeout (socket s))
                (set_send_buf s (send_buf s')))
         else s.
Proof.
  intros Hs Ht Hd. unfold send_message. cbn [msg_size msg_type message]. unfold WS_SEND_BUFFER_SIZE.
  rewrite u32_id by (unfold is_u32; lia).
  destruct (Z.ltb_spec 512 (zlen d + 10)); [|destruct (established s) eqn:Eest].
  - rewrite (proj2 (Z.leb_gt (zlen d) 502)) by lia. eauto.
  - rewrite (proj2 (Z.leb_le (zlen d) 502)) by lia. cbn [negb andb]. destruct Hs as [H1 H2 H3 H4].
    change (Z.to_nat 512) with 512%nat.
    pose proof (wr_n_app [] (send_buf s) (replicate 512 0)) as E. cbn [app] in E.
    change (zlen []) with 0 in E. rewrite E, drop_ge, app_nil_r, bind_ok by lens.
    rewrite lor_fin by done. unfold wr.
    pose proof (wr_n_app [] (replicate 512 0) [128 + t]) as E2. cbn [app] in E2.
    change (zlen []) with 0 in E2. rewrite E2, bind_ok by lens.
    set (r := drop (length [128 + t]) (replicate 512 0)). assert (length r = 511%nat) as Hr by done.
    clearbody r.
    pose proof (frame_emits (zlen d) d ltac:(lia) eq_refl rest [128 + t] r) as Ef.
    assert (server_frame t d = [128 + t] ++ tail (server_frame 0 d)) as Es by done.
    pose proof (frame_length t d ltac:(lia)) as Hl. rewrite Es in Hl.
    set (l := tail (server_frame 0 d)) in *. clearbody l.
    rewrite length_app in Hl. cbn [length] in Hl.
    rewrite decide_True in Ef by (destruct (zlen d <? 126); lia). cbn [app] in Ef.
    change (zlen [128 + t]) with 1 in Ef. cbn beta in Ef.
    destruct (set_size_to_frame (zlen d) (W (128 + t :: r) 1)) as [w1| |]; [|done..].
    rewrite bind_ok in Ef. rewrite bind_ok, Ef, bind_ok. cbn [w_pos w_buf].
    pose proof (rd_n_app [] ([128 + t] ++ l) (drop (length l) r)) as Er. cbn [app] in Er.
    change (zlen []) with 0 in Er. replace (zlen (128 + t :: l)) with (1 + zlen l) in Er by (cbn; lia).
    rewrite Er, bind_ok. eexists. split; [done|]. rewrite Es. split; [|done].
    constructor; cbn [emit set_send_buf send_buf recv_buf hash hash_base64]; try done.
    rewrite length_cons, length_app, length_drop. destruct (zlen d <? 126); lia.
  - rewrite andb_false_r. eauto.
Qed.

(** [send_message] sends exactly the RFC 6455 frame of the message, in one piece and inside the
    send buffer, when a client is established and the message has at most 502 bytes; otherwise it
    sends nothing and changes nothing. *)
Theorem send_message_sends_frame s d rest t :
  arrays_ok s → 0 <= t < 16 → zlen d < 4294967286 →
  ∃ s', send_message (mkMessage (d ++ rest) (zlen d) t) s = Ok s' ∧ arrays_ok s' ∧
    s' = if (zlen d <=? 502) && established s
         then emit (Send (socket s) (server_frame t d)) (emit (SetTimeout (socket s))
                (set_send_buf s (send_buf s')))
         else s.
Proof. apply send_message_frame. Qed.

Lemma send_message_sends_frame_witness :
  arrays_ok (set_client (demo_server (replicate 512 0)) 3 true) ∧
  ∃ s', send_message (mkMessage (chars "ok" ++ [0; 0]) 2 WS_TYPE_TEXT)
          (set_client (demo_server (replicate 512 0)) 3 true) = Ok s' ∧ arrays_ok s' ∧
    s' = emit (Send 3 [129; 2; 111; 107]) (emit (SetTimeout 3)
           (set_send_buf (set_client (demo_server (replicate 512 0)) 3 true) (send_buf s'))).
Proof.
  split; [constructor; vm_compute; reflexivity|].
  apply (send_message_sends_frame (set_client (demo_server (replicate 512 0)) 3 true)
           (chars "ok") [0; 0] WS_TYPE_TEXT);
    [constructor; vm_compute; reflexivity|unfold WS_TYPE_TEXT; lia|vm_compute; done].
Defined.

(** ** Receiving *)

Lemma land_15 c : is_u8 c → Z.land c WS_TYPE_MASK = c mod 16.
Proof. intros _. by apply (Z.land_ones c 4). Qed.

Lemma flag_128 c : is_u8 c → negb (Z.land c (Z.shiftl 1 7) =? 0) = (128 <=? c).
Proof.
  intros H. change (Z.shiftl 1 7) with 128. rewrite land_128 by done.
  by destruct (Z.ltb_spec c 128), (Z.leb_spec 128 c); try lia.
Qed.

(** The length and the offsets a buffer announces, by its first four bytes. *)
Definition head_len (b1 : Z) : Z :=
  if b1 mod 128 =? 126 then 4 else if b1 mod 128 =? 127 then 10 else 2.
Definition announced_len (b1 b2 b3 : Z) : Z :=
  if b1 mod 128 =? 126 then be16 b2 b3 else if b1 mod 128 =? 127 then 0 else b1 mod 128.

(** [handle_frame] on a buffer given by its bytes. *)
Lemma handle_frame_unfold length s b0 b1 b2 b3 r :
  recv_buf s = b0 :: b1 :: b2 :: b3 :: r → is_u8 b0 → is_u8 b1 → is_u8 b2 → is_u8 b3 →
  let masked := 128 <=? b1 in
  let off := head_len b1 + (if masked then 4 else 0) in
  let n := announced_len b1 b2 b3 in
  handle_frame length s =
    if (length <? 2) || (length <? off) then Ok s
    else if b0 mod 16 =? WS_TYPE_PING then Ok (emit (Send (socket s) [138; 0]) s)
    else if b0 mod 16 =? WS_TYPE_PONG then Ok s
    else if b0 mod 16 =? WS_TYPE_CLOSE then
      Ok (set_client (emit (Close (socket s)) (emit (Send (socket s) [136; 0]) s)) (-1) false)
    else if negb (128 <=? b0) then Ok s
    else
      b ← (if masked then unmask_message_payload off n (head_len b1) (recv_buf s) else Ok (recv_buf s));
      let s := set_recv_buf s b in
      if msg_handler s then Ok (emit (Message (drop (Z.to_nat off) b) n (b0 mod 16)) s) else Ok s.
Proof.
  intros Hb H0 H1 H2 H3. cbn zeta. unfold handle_frame, get_message_len, get_payload_ptr, get_mask,
    is_masked_msg, is_fin_msg. rewrite Hb.
  change (rd (b0 :: b1 :: b2 :: b3 :: r) 0) with (Ok b0). change (rd (b0 :: b1 :: b2 :: b3 :: r) 1) with (Ok b1).
  change (rd (b0 :: b1 :: b2 :: b3 :: r) 2) with (Ok b2). change (rd (b0 :: b1 :: b2 :: b3 :: r) 3) with (Ok b3).
  rewrite !bind_ok. unfold WS_MASKED_FLAG, WS_FIN_FLAG. rewrite !flag_128, land_15, land_127, lor_be16 by done.
  assert ((if b1 mod 128 =? 126 then 4 else if b1 mod 128 =? 127 then 10 else 2) = head_len b1) as -> by done.
  destruct (length <? 2); [done|]. cbn [orb].
  replace (if 128 <=? b1 then head_len b1 + 4 else head_len b1)
    with (head_len b1 + (if 128 <=? b1 then 4 else 0)) by (destruct (128 <=? b1); lia).
  destruct (length <? _); [done|].
  destruct (b0 mod 16 =? WS_TYPE_PING); [done|]. destruct (b0 mod 16 =? WS_TYPE_PONG); [done|].
  destruct (b0 mod 16 =? WS_TYPE_CLOSE); [done|]. destruct (128 <=? b0); [|done]. cbn [negb].
  assert ((if b1 mod 128 =? 126 then Ok (be16 b2 b3) else if b1 mod 128 =? 127 then Ok 0 else Ok (b1 mod 128))
    = Ok (announced_len b1 b2 b3)) as ->.
  { unfold announced_len. by repeat case_match. }
  rewrite bind_ok. destruct (128 <=? b1).
  - rewrite !bind_ok. destruct (unmask_message_payload _ _ _ _); done.
  - rewrite Z.add_0_r, !bind_ok. cbn zeta. unfold set_recv_buf. cbn [recv_buf msg_handler]. destruct s; cbn in *; by subst.
Qed.

Lemma xor_mask_lookup mask p i m c : mask !! (i mod 4)%nat = Some m → p !! i = Some c →
  xor_mask mask p !! i = Some (Z.lxor m c).
Proof.
  intros Hm Hc. unfold xor_mask. rewrite list_lookup_imap, Hc.
  cbn [fmap option_fmap option_map]. by rewrite (nth_lookup_Some mask _ 0 m Hm).
Qed.

(** The loop restores a payload masked by a client. *)
Lemma unmask_restores pre mask p r : length mask = 4%nat →
  unmask_message_payload (zlen pre + 4) (zlen p) (zlen pre) (pre ++ mask ++ xor_mask mask p ++ r)
    = Ok (pre ++ mask ++ p ++ r).
Proof.
  intros Hm. unfold unmask_message_payload. rewrite Nat2Z.id.
  assert (length (xor_mask mask p) = length p) as Hx by apply length_imap.
  destruct (for_ind (λ i b, 0 <= i ∧ b = pre ++ mask ++ (take (Z.to_nat i) p ++
      drop (Z.to_nat i) (xor_mask mask p)) ++ r) (length p) 0
    (λ i b, m ← rd b (zlen pre + i mod 4); c ← rd b (zlen pre + 4 + i); wr b (zlen pre + 4 + i) (Z.lxor m c))
    (pre ++ mask ++ xor_mask mask p ++ r)) as (b & E & _ & Hb).
  - done.
  - intros j b Hj [_ ->]. set (k := Z.to_nat j).
    destruct (lookup_lt_is_Some_2 mask (k mod 4)) as [m Em].
    { rewrite Hm. by apply Nat.mod_upper_bound. }
    destruct (lookup_lt_is_Some_2 p k) as [c Ec]; [lia|].
    pose proof (xor_mask_lookup mask p k m c Em Ec) as Ex.
    replace (j mod 4) with (Z.of_nat (k mod 4)) by (rewrite Nat2Z.inj_mod; unfold k; rewrite Z2Nat.id by lia; done).
    rewrite (rd_mid pre mask _ _ m Em), bind_ok.
    set (q := take k p ++ drop k (xor_mask mask p)).
    replace (zlen pre + 4 + j) with (zlen (pre ++ mask) + Z.of_nat k) by lens.
    rewrite app_assoc, (rd_mid (pre ++ mask) q r k (Z.lxor m c)), bind_ok.
    2:{ unfold q. rewrite lookup_app_r by lens. rewrite lookup_drop. rewrite <- Ex. f_equal. lens. }
    replace (Z.lxor m (Z.lxor m c)) with c by (by rewrite <- Z.lxor_assoc, Z.lxor_nilpotent, Z.lxor_0_l).
    unfold q. rewrite (drop_S _ _ _ Ex), <- (app_assoc (take k p)), (app_assoc (pre ++ mask)).
    replace (zlen (pre ++ mask) + Z.of_nat k) with (zlen ((pre ++ mask) ++ take k p)) by lens.
    unfold wr. rewrite wr_n_app by (cbn; lia). eexists. split; [done|]. split; [lia|].
    replace (Z.to_nat (j + 1)) with (S k) by lia.
    rewrite (take_S_r _ _ c Ec), <- !app_assoc. cbn [length app drop]. rewrite drop_0. done.
  - rewrite E, Hb. rewrite take_ge, drop_ge, app_nil_r by lia. done.
Qed.

Lemma frame_head_length op m n : zlen (frame_head op m n) = if n <? 126 then 2 else 4.
Proof. unfold frame_head. by destruct (n <? 126). Qed.

(** C36: a FIN data frame of a client that stands in the receive buffer reaches the message handler
    with its payload unmasked, its length and its type; the rest of the buffer is untouched. *)
Theorem client_frame_delivered s op mask payload rest length :
  recv_buf s = client_frame op mask payload ++ rest → List.length mask = 4%nat →
  Forall is_u8 (recv_buf s) → 0 <= op < 16 → op ≠ WS_TYPE_CLOSE → op ≠ WS_TYPE_PING → op ≠ WS_TYPE_PONG →
  zlen payload < 65536 → (if zlen payload <? 126 then 6 else 8) <= length →
  let b := frame_head op 1 (zlen payload) ++ mask ++ payload ++ rest in
  handle_frame length s =
    Ok (let s := set_recv_buf s b in
        if msg_handler s then emit (Message (payload ++ rest) (zlen payload) op) s else s).
Proof.
  intros Hb Hm Hu Hop Hc Hpi Hpo Hn Hl. cbn zeta. unfold client_frame in Hb.
  set (n := zlen payload) in *. set (h := frame_head op 1 n) in *.
  rewrite <- !app_assoc in Hb.
  pose proof (unmask_restores h mask payload rest Hm) as Eu. fold n in Eu.
  pose proof (frame_head_length op 1 n) as Eh. fold h in Eh.
  assert (∃ b2 b3 r, recv_buf s = (128 + op) :: (128 + (if n <? 126 then n else 126)) :: b2 :: b3 :: r ∧
    announced_len (128 + (if n <? 126 then n else 126)) b2 b3 = n ∧
    head_len (128 + (if n <? 126 then n else 126)) = zlen h) as (b2 & b3 & r & Er & Ea & Ehl).
  { destruct mask as [|m0 [|m1 [|m2 [|m3 [|]]]]]; try done.
    unfold announced_len, head_len. rewrite Hb, Eh. unfold h, frame_head.
    destruct (Z.ltb_spec n 126); cbn [app].
    - eexists _, _, _. split; [repeat f_equal; lia|].
      replace ((128 + n) mod 128) with n by zdiv.
      by rewrite (proj2 (Z.eqb_neq n 126)), (proj2 (Z.eqb_neq n 127)) by lia.
    - eexists _, _, _. split; [repeat f_equal; lia|]. split; [|done].
      change ((128 + 126) mod 128 =? 126) with true. cbn iota. unfold be16. zdiv. }
  assert (is_u8 (128 + (if n <? 126 then n else 126))).
  { unfold is_u8. destruct (Z.ltb_spec n 126); lia. }
  pose proof Hu as Hu'. rewrite Er in Hu'.
  repeat match goal with H : Forall is_u8 (_ :: _) |- _ => apply Forall_cons in H as [? H] end.
  pose proof (handle_frame_unfold length s _ _ _ _ _ Er) as E. cbn zeta in E.
  rewrite E by done. clear E. rewrite Ea, Ehl.
  assert ((128 <=? 128 + (if n <? 126 then n else 126)) = true) as ->.
  { apply Z.leb_le. destruct (Z.ltb_spec n 126); lia. }
  replace ((128 + op) mod 16) with op by zdiv.
  rewrite (proj2 (Z.ltb_ge length 2)), (proj2 (Z.ltb_ge length (zlen h + 4)))
    by (rewrite ?Eh; destruct (n <? 126); lia).
  rewrite (proj2 (Z.eqb_neq _ _) Hc), (proj2 (Z.eqb_neq _ _) Hpi), (proj2 (Z.eqb_neq _ _) Hpo).
  rewrite (proj2 (Z.leb_le 128 (128 + op))) by lia. cbn [orb negb].
  rewrite Hb, Eu, bind_ok. cbn zeta.
  change (msg_handler (set_recv_buf s (h ++ mask ++ payload ++ rest))) with (msg_handler s).
  destruct (msg_handler s); [|done]. do 3 f_equal.
  replace (Z.to_nat (zlen h + 4)) with (List.length (h ++ mask)) by lens.
  by rewrite app_assoc, drop_app_length.
Qed.

(** The masked "Hello" of RFC 6455, section 5.7. *)
Lemma client_frame_delivered_witness :
  recv_buf (demo_server ([0x81; 0x85; 0x37; 0xfa; 0x21; 0x3d; 0x7f; 0x9f; 0x4d; 0x51; 0x58] ++ [0]))
    = client_frame 1 [0x37; 0xfa; 0x21; 0x3d] (chars "Hello") ++ [0] ∧
  handle_frame 11 (demo_server ([0x81; 0x85; 0x37; 0xfa; 0x21; 0x3d; 0x7f; 0x9f; 0x4d; 0x51; 0x58] ++ [0]))
    = Ok (emit (Message (chars "Hello" ++ [0]) 5 1)
        (demo_server ([0x81; 0x85; 0x37; 0xfa; 0x21; 0x3d] ++ chars "Hello" ++ [0]))).
Proof.
  split; [reflexivity|].
  apply (client_frame_delivered (demo_server ([0x81; 0x85; 0x37; 0xfa; 0x21; 0x3d; 0x7f; 0x9f; 0x4d; 0x51; 0x58] ++ [0]))
    1 [0x37; 0xfa; 0x21; 0x3d] (chars "Hello") [0] 11);
    [reflexivity|done| |lia|discriminate|discriminate|discriminate|done|discriminate].
  cbn. repeat (apply Forall_cons; split; [unfold is_u8; lia|]). apply Forall_nil_2.
Defined.

(** *** Frames that announce more than the buffer holds *)

Lemma unmask_in_bounds off n mk b : 0 <= mk → mk + 4 <= off → 0 <= n → off + n <= zlen b → Forall is_u8 b →
  ∃ b', unmask_message_payload off n mk b = Ok b' ∧ length b' = length b ∧ Forall is_u8 b'.
Proof.
  intros Hmk Hoff Hn Hb Hu. unfold unmask_message_payload.
  destruct (for_ind (λ _ b', length b' = length b ∧ Forall is_u8 b') (Z.to_nat n) 0
    (λ i b, m ← rd b (mk + i mod 4); c ← rd b (off + i); wr b (off + i) (Z.lxor m c)) b)
    as (b' & E & H); [done| |exists b'; rewrite E; done].
  intros j b1 Hj [Hl Hu1].
  destruct (rd_in_bounds b1 (mk + j mod 4)) as (m & -> & Em); [zdiv|].
  destruct (rd_in_bounds b1 (off + j)) as (c & -> & Ec); [lia|].
  rewrite !bind_ok, wr_lookup by lia. eexists. split; [done|]. split; [by rewrite length_insert|].
  apply Forall_insert; [done|].
  rewrite Forall_lookup in Hu1. pose proof (Hu1 _ _ Em). pose proof (Hu1 _ _ Ec).
  replace (Z.lxor m c) with (u8 (Z.lxor m c)); [apply u8_range|].
  apply Z.bits_inj'. intros k Hk. change (u8 ?x) with (x mod 2 ^ 8). destruct (Z.ltb_spec k 8).
  - by rewrite Z.mod_pow2_bits_low.
  - rewrite Z.mod_pow2_bits_high, Z.lxor_spec by lia.
    rewrite <- (u8_id m), <- (u8_id c) by done. change (u8 ?x) with (x mod 2 ^ 8).
    by rewrite !Z.mod_pow2_bits_high by lia.
Qed.

Lemma unmask_out_of_bounds off n mk b : 0 <= mk → mk + 4 <= off <= zlen b → zlen b < off + n →
  unmask_message_payload off n mk b = Ub.
Proof.
  intros Hmk Hoff Hn. unfold unmask_message_payload.
  apply (for_hits_ub (λ b', length b' = length b) _ _ _ _ (zlen b - off)); [done|lia| |].
  - intros k b1 Hk Hl. destruct (rd_in_bounds b1 (mk + k mod 4)) as (m & -> & _); [zdiv|].
    destruct (rd_in_bounds b1 (off + k)) as (c & -> & _); [lia|].
    rewrite !bind_ok, wr_lookup by lia. right. eexists. split; [done|]. by rewrite length_insert.
  - intros b1 Hl. destruct (rd_in_bounds b1 (mk + (zlen b - off) mod 4)) as (m & -> & _); [zdiv|].
    rewrite bind_ok, rd_oob by lia. done.
Qed.

(** A FIN data frame that is masked and whose header was received. *)
Definition masked_data_frame (length : Z) (b : list Z) : bool :=
  let b0 := nth 0 b 0 in
  let b1 := nth 1 b 0 in
  (head_len b1 + 4 <=? length) && (128 <=? b1) && (128 <=? b0) &&
  negb (b0 mod 16 =? WS_TYPE_PING) && negb (b0 mod 16 =? WS_TYPE_PONG) && negb (b0 mod 16 =? WS_TYPE_CLOSE).

(** The end of the payload a buffer announces. *)
Definition announced_end (b : list Z) : Z :=
  head_len (nth 1 b 0) + 4 + announced_len (nth 1 b 0) (nth 2 b 0) (nth 3 b 0).

Lemma recv_head s : arrays_ok s → Forall is_u8 (recv_buf s) →
  ∃ b0 b1 b2 b3 r, recv_buf s = b0 :: b1 :: b2 :: b3 :: r ∧ is_u8 b0 ∧ is_u8 b1 ∧ is_u8 b2 ∧ is_u8 b3.
Proof.
  intros [_ Hl _ _] Hu. destruct (recv_buf s) as [|b0 [|b1 [|b2 [|b3 r]]]]; try done.
  repeat match goal with H : Forall is_u8 (_ :: _) |- _ => apply Forall_cons in H as [? H] end.
  by exists b0, b1, b2, b3, r.
Qed.

Lemma announced_len_range b1 b2 b3 : is_u8 b2 → is_u8 b3 →
  0 <= announced_len b1 b2 b3 ∧ 2 <= head_len b1 <= 10.
Proof. unfold is_u8, announced_len, head_len, be16. repeat case_match; zdiv. Qed.

(** C38: whatever bytes are received, handling a frame is undefined behaviour exactly when it is a
    masked FIN data frame whose announced payload ends beyond the 512-byte receive buffer:
    unmasking then writes past the buffer.  Neither the number of bytes received nor the size of
    the buffer is compared with the announced length. *)
Theorem handle_frame_overflow_iff length s :
  arrays_ok s → Forall is_u8 (recv_buf s) →
  handle_frame length s = Ub ↔
    masked_data_frame length (recv_buf s) = true ∧ 512 < announced_end (recv_buf s).
Proof.
  intros Hs Hu. destruct (recv_head s Hs Hu) as (b0 & b1 & b2 & b3 & r & Er & H0 & H1 & H2 & H3).
  pose proof (handle_frame_unfold length s _ _ _ _ _ Er H0 H1 H2 H3) as E. cbn zeta in E. rewrite E.
  destruct (announced_len_range b1 b2 b3 H2 H3) as [Hn Hh].
  unfold masked_data_frame, announced_end. rewrite Er. cbn [nth]. rewrite <- Er.
  destruct (Z.leb_spec 128 b1).
  2:{ rewrite andb_false_r. cbn [andb]. rewrite bind_ok. cbn zeta. split; [|by intros []].
      repeat (case_match; try done). }
  destruct (Z.ltb_spec length 2); [|destruct (Z.ltb_spec length (head_len b1 + 4))]; cbn [orb].
  { rewrite (proj2 (Z.leb_gt (head_len b1 + 4) length)) by lia. cbn [andb]. split; [done|by intros []]. }
  { rewrite (proj2 (Z.leb_gt (head_len b1 + 4) length)) by lia. cbn [andb]. split; [done|by intros []]. }
  rewrite (proj2 (Z.leb_le (head_len b1 + 4) length)) by lia. cbn [andb].
  destruct (b0 mod 16 =? WS_TYPE_PING); [cbn [negb]; rewrite !andb_false_r; split; [done|by intros []]|].
  destruct (b0 mod 16 =? WS_TYPE_PONG); [cbn [negb]; rewrite !andb_false_r; split; [done|by intros []]|].
  destruct (b0 mod 16 =? WS_TYPE_CLOSE); [cbn [negb]; rewrite !andb_false_r; split; [done|by intros []]|].
  destruct (128 <=? b0); cbn [negb andb]; [|split; [done|by intros []]].
  destruct Hs as [_ Hl _ _]. destruct (Z.le_gt_cases (head_len b1 + 4 + announced_len b1 b2 b3) 512).
  - destruct (unmask_in_bounds (head_len b1 + 4) (announced_len b1 b2 b3) (head_len b1) (recv_buf s))
      as (b' & -> & _); try done; try lia.
    rewrite bind_ok. cbn zeta. split; [by destruct (msg_handler _)|intros [_ ?]; lia].
  - rewrite unmask_out_of_bounds by lia. done.
Qed.

(** Eight bytes are enough: FIN text frame, masked, 65535 bytes announced. *)
Definition hostile_frame : list Z := [0x81; 0xFE; 0xFF; 0xFF; 1; 2; 3; 4] ++ replicate 504 0.

Lemma handle_frame_overflow_iff_witness :
  Forall is_u8 (recv_buf (demo_server hostile_frame)) ∧
  (handle_frame 8 (demo_server hostile_frame) = Ub ↔
    masked_data_frame 8 hostile_frame = true ∧ 512 < announced_end hostile_frame) ∧
  masked_data_frame 8 hostile_frame = true ∧ announced_end hostile_frame = 65543.
Proof.
  assert (Forall is_u8 hostile_frame) as Hu by (apply (bool_decide_unpack _); vm_compute; exact I).
  split; [exact Hu|]. split; [|split; vm_compute; reflexivity].
  apply (handle_frame_overflow_iff 8 (demo_server hostile_frame));
    [constructor; vm_compute; reflexivity|exact Hu].
Defined.

(** ** The server loop *)

Definition event_ok (e : event) : Prop :=
  match e with Send sk _ => 0 <= sk | SetTimeout sk => 0 <= sk | _ => True end.

Definition msg_ok (m : list Z * Z) : Prop := 0 <= m.2 <= 512 ∧ m.2 <= zlen m.1.

(** What every turn of the loop preserves: arrays keep their sizes, an established client has a
    socket, nothing was ever sent to a negative socket, the queue holds at most ten messages. *)
Record ws_inv (s : server) : Prop := {
  inv_arrays : arrays_ok s;
  inv_u8 : Forall is_u8 (recv_buf s);
  inv_socket : established s = true → 0 <= socket s;
  inv_events : Forall event_ok (events s);
  inv_queue : Forall msg_ok (websocketQueue s) ∧ zlen (websocketQueue s) <= queue_size;
}.

(** What the services guarantee, and the two conditions on the received data the code does not
    check: a request shorter than the buffer, a frame that fits it. *)
Record turn_ok (t : turn) (s : server) : Prop := {
  t_recv_len : zlen (recv_data t) <= 512;
  t_recv_u8 : Forall is_u8 (recv_data t);
  t_recv_bytes : recv_bytes t <= 0 ∧ recv_data t = [] ∨ recv_bytes t = zlen (recv_data t);
  t_request : established s = false → zlen (recv_data t) < 512;
  t_frame : established s = true →
    let b := recv_data t ++ replicate (512 - length (recv_data t)) 0 in
    masked_data_frame (recv_bytes t) b = true → announced_end b <= 512;
  t_status : msg_ok (status_payload t);
  t_queued : Forall msg_ok (queued_by_others t);
}.

Lemma emit_inv e s : ws_inv s → event_ok e → ws_inv (emit e s).
Proof. intros [[] ? ? ? ?] He. constructor; [by constructor|done..| |done]. by apply Forall_app_2; [|constructor]. Qed.

Lemma set_client_inv sk est s : ws_inv s → (est = true → 0 <= sk) → ws_inv (set_client s sk est).
Proof. intros [[] ? ? ? ?] He. by constructor. Qed.

Lemma close_inv s : ws_inv s → ws_inv (set_client (emit (Close (socket s)) s) (-1) false).
Proof. intros H. apply set_client_inv; [by apply emit_inv|done]. Qed.

Lemma set_send_inv s b : ws_inv s → length b = 512%nat → ws_inv (set_send_buf s b).
Proof. intros [[] ? ? ? ?] He. constructor; [by constructor|done..]. Qed.

Lemma set_recv_inv s b : ws_inv s → length b = 512%nat → Forall is_u8 b → ws_inv (set_recv_buf s b).
Proof. intros [[] ? ? ? ?] He Hu. constructor; [by constructor|done..]. Qed.

Lemma set_key_inv s k h b : ws_inv s → length h = 22%nat → length b = 64%nat → ws_inv (set_key s k h b).
Proof. intros [[] ? ? ? ?] Hh Hb. constructor; [by constructor|done..]. Qed.

Lemma get_key_safe b : 0 ∈ b → get_key b = Ok None ∨
  ∃ p len, get_key b = Ok (Some (p, len)) ∧ 0 <= p ∧ 0 <= len ∧ p + len <= zlen b.
Proof.
  intros H0. unfold get_key, strstr. cbn [Z.to_nat]. rewrite drop_0.
  destruct (strstr_from_safe key_field b 0) as [->|(p & r & -> & Hr & ->)];
    [apply (bool_decide_unpack _); vm_compute; exact I|done|by left|].
  rewrite bind_ok. cbn beta iota zeta. unfold strchr.
  replace (Z.to_nat (0 + zlen p + zlen key_field)) with (length (p ++ key_field)) by lens.
  rewrite app_assoc, drop_app_length.
  destruct (strchr_from_safe 13 r (0 + zlen p + zlen key_field) Hr) as [->|(j & -> & Hj)]; [by left|].
  right. eexists _, _. split; [done|]. rewrite !length_app. lia.
Qed.

Lemma process_handshake_safe r s : ws_inv s → 0 ∈ recv_buf s →
  0 <= socket s ∨ recv_buf s = replicate 512 0 →
  ∃ ok s', process_handshake r s = Ok (ok, s') ∧ ws_inv s' ∧ socket s' = socket s ∧
    established s' = established s ∧ (ok = true → 0 <= socket s).
Proof.
  intros H H0 Hs. pose proof (inv_arrays _ H) as Ha. unfold process_handshake.
  destruct (strncmp_eq_safe 5 (recv_buf s) (literal (chars "GET /"))) as [g Eg];
    [destruct Ha; lia|cbn; lia|]. rewrite Eg, bind_ok.
  destruct g; cbn [negb]; [|by exists false, s].
  assert (0 <= socket s) as Hsk.
  { destruct Hs as [|Hz]; [done|]. rewrite Hz in Eg. by vm_compute in Eg. }
  destruct (get_key_safe (recv_buf s) H0) as [Ek|(p & len & Ek & Hp & Hl & Hpl)].
  { unfold create_key_accept. rewrite Ek, !bind_ok. by exists false, s. }
  destruct (create_key_accept_found _ p len s Ek Hp Hl Hpl (inv_u8 _ H) Ha) as (ck & h & b & E & Hh & Hb).
  rewrite E, bind_ok. cbn beta iota. set (k := take _ _).
  fold (response k). pose proof (response_length k) as El. set (out := response k) in *. clearbody out.
  change (send_buf (set_key s ck h b)) with (send_buf s). destruct Ha as [Hsend _ _ _].
  rewrite snprintf_fits, bind_ok by (unfold WS_SEND_BUFFER_SIZE; lia). cbn beta iota zeta.
  rewrite El. unfold WS_SEND_BUFFER_SIZE. change (129 <? 512) with true. cbn iota.
  pose proof (rd_n_app [] out ([0] ++ drop (length out + 1) (send_buf s))) as Er.
  change (zlen []) with 0 in Er. cbn [app] in *. rewrite El in Er. rewrite Er, bind_ok.
  eexists (negb (r <? 0)), _. split; [by destruct (r <? 0)|].
  split; [|done]. apply emit_inv; [|done].
  apply set_send_inv; [by apply set_key_inv|lens].
Qed.

Lemma handle_frame_safe n s : ws_inv s → 0 <= socket s →
  (masked_data_frame n (recv_buf s) = true → announced_end (recv_buf s) <= 512) →
  ∃ s', handle_frame n s = Ok s' ∧ ws_inv s'.
Proof.
  intros H Hsk Hfit. pose proof (inv_arrays _ H) as Ha. pose proof (inv_u8 _ H) as Hu.
  destruct (recv_head s Ha Hu) as (b0 & b1 & b2 & b3 & r & Er & H0 & H1 & H2 & H3).
  pose proof (handle_frame_unfold n s _ _ _ _ _ Er H0 H1 H2 H3) as E. cbn zeta in E. rewrite E.
  destruct (announced_len_range b1 b2 b3 H2 H3) as [Hn Hh].
  unfold masked_data_frame, announced_end in Hfit. rewrite Er in Hfit. cbn [nth] in Hfit.
  destruct (Z.ltb_spec n 2); [eauto|].
  destruct (Z.ltb_spec n (head_len b1 + (if 128 <=? b1 then 4 else 0))); cbn [orb]; [eauto|].
  destruct (b0 mod 16 =? WS_TYPE_PING) eqn:E1; [eexists; split; [done|]; by apply emit_inv|].
  destruct (b0 mod 16 =? WS_TYPE_PONG) eqn:E2; [eauto|].
  destruct (b0 mod 16 =? WS_TYPE_CLOSE) eqn:E3.
  { eexists. split; [done|]. apply (close_inv (emit (Send (socket s) [136; 0]) s)). by apply emit_inv. }
  destruct (128 <=? b0) eqn:E4; cbn [negb]; [|eauto]. destruct Ha as [_ Hl _ _].
  assert (∃ b', (if 128 <=? b1 then unmask_message_payload (head_len b1 + 4) (announced_len b1 b2 b3)
      (head_len b1) (recv_buf s) else Ok (recv_buf s)) = Ok b' ∧ length b' = 512%nat ∧ Forall is_u8 b')
    as (b' & Eb & Hl' & Hu').
  { destruct (128 <=? b1) eqn:E5; [|eauto].
    rewrite (proj2 (Z.leb_le (head_len b1 + 4) n)) in Hfit by lia. pose proof (Hfit eq_refl).
    destruct (unmask_in_bounds (head_len b1 + 4) (announced_len b1 b2 b3) (head_len b1) (recv_buf s))
      as (b' & -> & Hb & Hbu); [lia..|done|]. exists b'. by rewrite Hb. }
  assert ((if 128 <=? b1 then unmask_message_payload (head_len b1 + (if 128 <=? b1 then 4 else 0))
    (announced_len b1 b2 b3) (head_len b1) (recv_buf s) else Ok (recv_buf s)) = Ok b') as ->.
  { by destruct (128 <=? b1). }
  rewrite bind_ok. cbn zeta. pose proof (set_recv_inv s b' H Hl' Hu') as H'.
  destruct (msg_handler _); eexists; (split; [done|]); [by apply emit_inv|done].
Qed.

Lemma send_message_safe s m : ws_inv s → msg_ok m →
  ∃ s', send_message (mkMessage m.1 m.2 WS_TYPE_TEXT) s = Ok s' ∧ ws_inv s'.
Proof.
  intros H [Hn Hl]. destruct m as [p n]. cbn [fst snd] in *.
  assert (∃ d rest, p = d ++ rest ∧ n = zlen d) as (d & rest & -> & ->).
  { exists (take (Z.to_nat n) p), (drop (Z.to_nat n) p). split; [by rewrite take_drop|lens]. }
  destruct (send_message_frame s d rest WS_TYPE_TEXT)
    as (s' & -> & Ha & Es); [apply H|unfold WS_TYPE_TEXT; lia|lia|].
  exists s'. split; [done|]. rewrite Es. destruct (_ && _) eqn:E; [|done].
  apply andb_prop in E as [_ Eest]. pose proof (inv_socket _ H Eest) as Hsk.
  apply emit_inv; [|done]. apply emit_inv; [|done]. apply set_send_inv; [done|]. apply Ha.
Qed.

Lemma send_queued_safe q s : ws_inv s → Forall msg_ok q →
  ∃ s', send_queued q s = Ok s' ∧ ws_inv s' ∧ websocketQueue s' = [].
Proof.
  intros H Hq. revert s H. induction Hq as [|m q Hm Hq IH]; intros s H.
  - eexists. split; [done|]. split; [|done]. destruct H as [[] ? ? ? ?]. constructor; done.
  - destruct m as [p n]. cbn [send_queued]. destruct (established s).
    + destruct (send_message_safe s (p, n) H Hm) as (s1 & E & H1). cbn [fst snd] in E.
      rewrite E, bind_ok. by apply IH.
    + rewrite bind_ok. by apply IH.
Qed.

Lemma xQueueSend_ok q m : Forall msg_ok q ∧ zlen q <= queue_size → msg_ok m →
  Forall msg_ok (xQueueSend q m) ∧ zlen (xQueueSend q m) <= queue_size.
Proof.
  intros [Hq Hl] Hm. unfold xQueueSend. destruct (Z.ltb_spec (zlen q) queue_size); [|done].
  split; [by apply Forall_app_2; [|constructor]|lens].
Qed.

Lemma fold_queue_ok ms q : Forall msg_ok q ∧ zlen q <= queue_size → Forall msg_ok ms →
  Forall msg_ok (fold_left xQueueSend ms q) ∧ zlen (fold_left xQueueSend ms q) <= queue_size.
Proof.
  intros Hq Hms. revert q Hq. induction Hms as [|m ms Hm Hms IH]; intros q Hq; [done|].
  cbn [fold_left]. by apply IH, xQueueSend_ok.
Qed.

Lemma serve_socket_safe t s : ws_inv s → turn_ok t s → ∃ s', serve_socket t s = Ok s' ∧ ws_inv s'.
Proof.
  intros H [Hlen Hu Hrb Hreq Hfr _ _]. unfold serve_socket.
  destruct (Z.ltb_spec (socket s) 0) as [Hsk|Hsk].
  { destruct (0 <? select_result t); [|eauto]. destruct (Z.leb_spec 0 (accept_result t)); [|eauto].
    eexists. split; [done|]. by apply set_client_inv. }
  destruct ((0 <? select_result t) && is_set t).
  2:{ destruct (select_result t <? 0); [|eauto]. eexists. split; [done|]. by apply close_inv. }
  set (b := recv_data t ++ replicate (512 - length (recv_data t)) 0).
  assert (wr_n (replicate (Z.to_nat WS_RECV_BUFFER_SIZE) 0) 0 (recv_data t) = Ok b) as ->.
  { pose proof (wr_n_app [] (replicate 512 0) (recv_data t)) as E. change (zlen []) with 0 in E.
    cbn [app] in E. change (Z.to_nat WS_RECV_BUFFER_SIZE) with 512%nat. rewrite E by lens.
    by rewrite drop_replicate. }
  assert (length b = 512%nat) as Hb by (unfold b; lens).
  assert (Forall is_u8 b) as Hbu.
  { apply Forall_app_2; [done|]. apply Forall_replicate. unfold is_u8. lia. }
  rewrite bind_ok. cbn zeta. pose proof (set_recv_inv s b H Hb Hbu) as H1.
  change (established (set_recv_buf s b)) with (established s).
  destruct (Z.leb_spec (recv_bytes t) 0) as [Hz|Hz].
  - assert (recv_data t = []) as Ed by (destruct Hrb as [[_ ?]|Hr]; [done|destruct (recv_data t); cbn in *; [done|lia]]).
    cbn [set_client established negb]. pose proof (close_inv _ H1) as H2.
    destruct (process_handshake_safe (hs_send_result t) _ H2) as (ok & s' & E & H' & E1 & E2 & E3).
    { cbn. unfold b. rewrite Ed. apply elem_of_replicate. done. }
    { right. cbn. unfold b. by rewrite Ed. }
    rewrite E, bind_ok. cbn beta iota. destruct ok; [by pose proof (E3 eq_refl)|].
    eexists. split; [done|]. apply set_client_inv; [by apply emit_inv|]. cbn. by rewrite E2.
  - destruct (established s) eqn:Eest; cbn [set_recv_buf established negb]; rewrite ?Eest; cbn [negb].
    + apply handle_frame_safe; [done..|]. destruct Hrb as [[? _]|Hrb]; [lia|]. by apply Hfr.
    + destruct (process_handshake_safe (hs_send_result t) _ H1) as (ok & s' & E & H' & E1 & E2 & E3).
      { cbn. unfold b. apply elem_of_app. right. apply elem_of_replicate. specialize (Hreq eq_refl). lia. }
      { by left. }
      rewrite E, bind_ok. cbn beta iota. destruct ok; (eexists; split; [done|]); apply set_client_inv.
      * done.
      * intros _. rewrite E1. done.
      * by apply emit_inv.
      * rewrite E2. cbn. by rewrite Eest.
Qed.

(** The states of the loop. *)
Inductive reachable : server → Prop :=
| reach_init s : arrays_ok s → Forall is_u8 (recv_buf s) → socket s = -1 → established s = false →
    websocketQueue s = [] → events s = [] → reachable s
| reach_turn t s s' : reachable s → turn_ok t s → task_turn t s = Ok s' → reachable s'.

Lemma task_turn_safe t s : ws_inv s → turn_ok t s → ∃ s', task_turn t s = Ok s' ∧ ws_inv s' ∧ websocketQueue s' = [].
Proof.
  intros H Ht. unfold task_turn. destruct (serve_socket_safe t s H Ht) as (s1 & -> & H1).
  rewrite bind_ok. cbn zeta. apply send_queued_safe.
  - unfold queue_status. destruct (established s1 && _); [|done].
    destruct H1 as [[] ? ? ? Hq]. constructor; [by constructor|done..|].
    cbn. apply xQueueSend_ok; [done|]. apply Ht.
  - apply fold_queue_ok; [|apply Ht]. unfold queue_status.
    destruct (established s1 && _); [|apply H1]. cbn. apply xQueueSend_ok; [apply H1|apply Ht].
Qed.

(** C17: in every state the server loop reaches its arrays are intact, an established client has a
    socket, nothing was sent to a negative socket and the queue is within its bound; and a turn
    whose received data has the two properties the code does not check completes without leaving
    an array and with an empty queue. *)
Theorem server_loop_invariant s : reachable s →
  ws_inv s ∧ ∀ t, turn_ok t s → ∃ s', task_turn t s = Ok s' ∧ ws_inv s' ∧ websocketQueue s' = [].
Proof.
  intros Hr. assert (ws_inv s) as H; [|split; [done|]; intros t; by apply task_turn_safe].
  induction Hr as [s Ha Hu Hsk Hest Hq He|t s s' Hr IH Ht E].
  - constructor; [done|done|by rewrite Hest|by rewrite He; constructor|].
    rewrite Hq. split; [constructor|done].
  - destruct (task_turn_safe t s IH Ht) as (s1 & E1 & H1 & _). rewrite E in E1. by injection E1 as ->.
Qed.

(** A client connects and sends the handshake of RFC 6455. *)
Definition idle_server : server :=
  mkServer (replicate 512 0) (-1) false (replicate 512 0) true 0 (replicate 128 0) (replicate 22 0)
    (replicate 64 0) [] [].
Definition accept_turn : turn := mkTurn 1 true 3 0 [] 0 0 ([], 0) [].

Lemma server_loop_invariant_witness :
  reachable (set_client idle_server 3 false) ∧
  ws_inv (set_client idle_server 3 false) ∧
  ∀ t, turn_ok t (set_client idle_server 3 false) →
    ∃ s', task_turn t (set_client idle_server 3 false) = Ok s' ∧ ws_inv s' ∧ websocketQueue s' = [].
Proof.
  assert (reachable (set_client idle_server 3 false)) as H.
  { apply (reach_turn accept_turn idle_server).
    - apply reach_init; try reflexivity; [constructor; reflexivity|].
      apply (bool_decide_unpack _); vm_compute; exact I.
    - constructor; cbn; [lia|constructor|by left|lia|done|unfold msg_ok; cbn; lia|constructor].
    - vm_compute. reflexivity. }
  split; [exact H|]. apply (server_loop_invariant _ H).
Defined.
