(* ===== verification/Dhcp.v ===== *)
(** The DHCP server of the configuration access point (src/dhcpserver/dhcpserver.cpp and .h).
    A [dhcp_msg_t] is the region of its 548 bytes; an IPv4 address is its four bytes in memory
    (network order).  What lies on the stack before a packet is copied there, the tick counter and
    whether [pbuf_alloc] succeeds are arguments. *)
From S2P Require Import Prelude Cursor.

(** ** Constants *)

Definition DHCPDISCOVER : Z := 1.
Definition DHCPOFFER : Z := 2.
Definition DHCPREQUEST : Z := 3.
Definition DHCPACK : Z := 5.
Definition DHCP_OPT_SUBNET_MASK : Z := 1.
Definition DHCP_OPT_ROUTER : Z := 3.
Definition DHCP_OPT_DNS : Z := 6.
Definition DHCP_OPT_DOMAIN_NAME : Z := 15.
Definition DHCP_OPT_REQUESTED_IP : Z := 50.
Definition DHCP_OPT_IP_LEASE_TIME : Z := 51.
Definition DHCP_OPT_MSG_TYPE : Z := 53.
Definition DHCP_OPT_SERVER_ID : Z := 54.
Definition DHCP_OPT_END : Z := 255.
Definition DEFAULT_LEASE_TIME_S : Z := 24 * 60 * 60.
Definition DHCPS_BASE_IP : Z := 16.
Definition DHCPS_MAX_IP : Z := 8.
Definition DHCP_MIN_SIZE : Z := 240 + 3.
Definition MAC_LEN : Z := 6.

(** [dhcp_msg_t]: offsets of the fields the code uses, and the size. *)
Definition off_yiaddr : Z := 16.
Definition off_chaddr : Z := 28.
Definition off_options : Z := 236.
Definition sizeof_dhcp_msg : Z := 548.

(** ** State *)

Record dhcp_server_lease_t := mkLease { mac : list Z; expiry : Z }.
Record dhcp_server_t := mkDhcp {
  ip : list Z; nm : list Z; lease : list dhcp_server_lease_t; domain_name : option (list Z) }.

Definition zero_mac : list Z := replicate 6 0.
Definition set_leases (d : dhcp_server_t) (ls : list dhcp_server_lease_t) : dhcp_server_t :=
  mkDhcp (ip d) (nm d) ls (domain_name d).

Definition dhcp_server_init (ip nm : list Z) (domain_name : option (list Z)) : dhcp_server_t :=
  mkDhcp ip nm (replicate (Z.to_nat DHCPS_MAX_IP) (mkLease zero_mac 0)) domain_name.

(** ** Options *)

(** [opt_find]: [opt] is an offset into [msg]; the result is an offset, if the option is found. *)
Fixpoint opt_find_loop (fuel : nat) (msg : list Z) (opt cmd i : Z) : outcome (option Z) :=
  if negb (i <? 308) then Ok None
  else
    match fuel with
    | O => OutOfFuel
    | S fuel =>
        c ← rd msg (opt + i);
        if c =? DHCP_OPT_END then Ok None
        else if c =? cmd then Ok (Some (opt + i))
        else
          n ← rd msg (opt + i + 1);
          opt_find_loop fuel msg opt cmd (i + (2 + n))
    end.

Definition opt_find (msg : list Z) (opt cmd : Z) : outcome (option Z) :=
  opt_find_loop 154 msg opt cmd 0.

Definition opt_write_n (cmd n : Z) (data : list Z) : writer := λ w,
  w ← put [u8 cmd] w; w ← put [u8 n] w; d ← rd_n data 0 n; put d w.

Definition opt_write_u8 (cmd val : Z) : writer := λ w,
  w ← put [u8 cmd] w; w ← put [1] w; put [u8 val] w.

Definition opt_write_u32 (cmd val : Z) : writer := λ w,
  w ← put [u8 cmd] w; w ← put [4] w;
  w ← put [u8 (Z.shiftr val 24)] w; w ← put [u8 (Z.shiftr val 16)] w;
  w ← put [u8 (Z.shiftr val 8)] w; put [u8 val] w.

(** ** Leases *)

Definition get_lease (ls : list dhcp_server_lease_t) (i : Z) : outcome dhcp_server_lease_t :=
  if decide (0 <= i) then match ls !! Z.to_nat i with Some l => Ok l | None => Ub end else Ub.

(** [(int32_t)((lease.expiry << 16 | 0xffff) - ticks) < 0] *)
Definition expired (l : dhcp_server_lease_t) (ticks : Z) : bool :=
  s32 (u32 (Z.lor (Z.shiftl (expiry l) 16) 0xffff) - ticks) <? 0.

(** The search of DHCPDISCOVER from lease [i] on; [ticks i] is the clock in turn [i].  The result is
    the index found ([DHCPS_MAX_IP] if none) and the leases. *)
Fixpoint discover_loop (n : nat) (i yi : Z) (chaddr : list Z) (ticks : Z → Z)
    (ls : list dhcp_server_lease_t) : outcome (Z * list dhcp_server_lease_t) :=
  match n with
  | O => Ok (yi, ls)
  | S n =>
      l ← get_lease ls i;
      if bool_decide (mac l = chaddr) then Ok (i, ls)
      else if yi =? DHCPS_MAX_IP then
        let yi := if bool_decide (mac l = zero_mac) then i else yi in
        if expired l (ticks i) then
          discover_loop n (i + 1) i chaddr ticks (<[Z.to_nat i := mkLease zero_mac (expiry l)]> ls)
        else discover_loop n (i + 1) yi chaddr ticks ls
      else discover_loop n (i + 1) yi chaddr ticks ls
  end.

(** ** The handler *)

Definition dhcp_socket_sendto (alloc_ok : bool) (buf : list Z) (len : Z) : outcome (option (list Z)) :=
  let len := if 0xffff <? len then 0xffff else len in
  if alloc_ok then out ← rd_n buf 0 len; Ok (Some out) else Ok None.

(** The options of a reply after the message type, and sending it. *)
Definition write_options (d : dhcp_server_t) : writer := λ w,
  w ← opt_write_n DHCP_OPT_SERVER_ID 4 (ip d) w;
  w ← opt_write_n DHCP_OPT_SUBNET_MASK 4 (nm d) w;
  w ← opt_write_n DHCP_OPT_ROUTER 4 (ip d) w;
  w ← opt_write_n DHCP_OPT_DNS 4 (ip d) w;
  w ← match domain_name d with
      | Some s => opt_write_n DHCP_OPT_DOMAIN_NAME (zlen s) s w
      | None => Ok w
      end;
  w ← opt_write_u32 DHCP_OPT_IP_LEASE_TIME DEFAULT_LEASE_TIME_S w;
  put [DHCP_OPT_END] w.

(** From the [break] of the [switch] on: the message type, the other options, the packet. *)
Definition reply (alloc_ok : bool) (d : dhcp_server_t) (msg : list Z) (opt yi type : Z)
  : outcome (dhcp_server_t * option (list Z)) :=
  msg ← wr msg (off_yiaddr + 3) (u8 (DHCPS_BASE_IP + yi));
  w ← opt_write_u8 DHCP_OPT_MSG_TYPE type (W msg opt);
  w ← write_options d w;
  out ← dhcp_socket_sendto alloc_ok (w_buf w) (w_pos w);
  Ok (d, out).

(** [dhcp_server_process] on the packet [p]: the server and what is broadcast to port 68. *)
Definition dhcp_server_process (stack : list Z) (ticks : Z → Z) (alloc_ok : bool) (p : list Z)
    (d : dhcp_server_t) : outcome (dhcp_server_t * option (list Z)) :=
  if zlen p <? DHCP_MIN_SIZE then Ok (d, None)
  else
    let data := take (Z.to_nat sizeof_dhcp_msg) p in
    msg ← wr_n stack 0 data;
    if zlen data <? DHCP_MIN_SIZE then Ok (d, None)
    else
      msg ← wr msg 0 DHCPOFFER;
      msg ← wr_n msg off_yiaddr (ip d);
      let opt := off_options + 4 in
      type ← rd msg (opt + 2);
      chaddr ← rd_n msg off_chaddr MAC_LEN;
      if type =? DHCPDISCOVER then
        '(yi, ls) ← discover_loop (Z.to_nat DHCPS_MAX_IP) 0 DHCPS_MAX_IP chaddr ticks (lease d);
        let d := set_leases d ls in
        if yi =? DHCPS_MAX_IP then Ok (d, None)
        else reply alloc_ok d msg opt yi DHCPOFFER
      else if type =? DHCPREQUEST then
        o ← opt_find msg opt DHCP_OPT_REQUESTED_IP;
        match o with
        | None => Ok (d, None)
        | Some o =>
            net ← rd_n msg (o + 2) 3;
            if negb (bool_decide (net = take 3 (ip d))) then Ok (d, None)
            else
              o5 ← rd msg (o + 5);
              let yi := u8 (o5 - DHCPS_BASE_IP) in
              if DHCPS_MAX_IP <=? yi then Ok (d, None)
              else
                l ← get_lease (lease d) yi;
                if bool_decide (mac l = chaddr) || bool_decide (mac l = zero_mac) then
                  let l := mkLease chaddr (u16 (Z.shiftr (u32 (ticks 0 + DEFAULT_LEASE_TIME_S * 1000)) 16)) in
                  let d := set_leases d (<[Z.to_nat yi := l]> (lease d)) in
                  reply alloc_ok d msg opt yi DHCPACK
                else Ok (d, None)
        end
      else Ok (d, None).

(** ** Packets by their fields *)

(** The parts of a packet the server distinguishes: [op], the fields up to [ciaddr], [yiaddr], the
    other two addresses, the client's MAC, the rest up to the magic cookie, the options. *)
Record request := mkRequest {
  rq_op : Z; rq_head : list Z; rq_yiaddr : list Z; rq_addrs : list Z; rq_mac : list Z;
  rq_rest : list Z; rq_options : list Z }.

Definition request_bytes (r : request) : list Z :=
  [rq_op r] ++ rq_head r ++ rq_yiaddr r ++ rq_addrs r ++ rq_mac r ++ rq_rest r ++ rq_options r.

Record request_wf (r : request) : Prop := {
  wf_head : length (rq_head r) = 15%nat;
  wf_yiaddr : length (rq_yiaddr r) = 4%nat;
  wf_addrs : length (rq_addrs r) = 8%nat;
  wf_mac : length (rq_mac r) = 6%nat;
  wf_rest : length (rq_rest r) = 206%nat;
  wf_options : (3 ≤ length (rq_options r))%nat;
}.

Lemma request_of_bytes p : DHCP_MIN_SIZE <= zlen p → ∃ r, p = request_bytes r ∧ request_wf r.
Proof.
  unfold DHCP_MIN_SIZE. intros H. destruct p as [|x p]; [cbn in H; lia|].
  exists (mkRequest x (take 15 p) (take 4 (drop 15 p)) (take 8 (drop 19 p)) (take 6 (drop 27 p))
            (take 206 (drop 33 p)) (drop 239 p)). cbn [length] in H.
  split; [|constructor; cbn [rq_head rq_yiaddr rq_addrs rq_mac rq_rest rq_options]; lens].
  unfold request_bytes. cbn [rq_op rq_head rq_yiaddr rq_addrs rq_mac rq_rest rq_options app]. f_equal.
  rewrite <- (take_drop 15 p) at 1. f_equal. rewrite <- (take_drop 4 (drop 15 p)) at 1. f_equal.
  rewrite drop_drop. rewrite <- (take_drop 8 (drop (15 + 4) p)) at 1. f_equal.
  rewrite drop_drop. rewrite <- (take_drop 6 (drop (15 + 4 + 8) p)) at 1. f_equal.
  rewrite drop_drop. rewrite <- (take_drop 206 (drop (15 + 4 + 8 + 6) p)) at 1. f_equal.
  by rewrite drop_drop.
Qed.

(** The server's well-formedness. *)
Definition lease_ok (l : dhcp_server_lease_t) : Prop := length (mac l) = 6%nat ∧ is_u16 (expiry l).

Record dhcp_inv (d : dhcp_server_t) : Prop := {
  di_ip : length (ip d) = 4%nat;
  di_nm : length (nm d) = 4%nat;
  di_lease : length (lease d) = 8%nat ∧ Forall lease_ok (lease d);
  di_domain : match domain_name d with Some s => zlen s < 256 | None => True end;
}.

(** ** What is sent *)

Definition option_bytes (code : Z) (data : list Z) : list Z := [code; zlen data] ++ data.

Definition reply_options (d : dhcp_server_t) (type : Z) : list Z :=
  option_bytes DHCP_OPT_MSG_TYPE [type] ++ option_bytes DHCP_OPT_SERVER_ID (ip d) ++
  option_bytes DHCP_OPT_SUBNET_MASK (nm d) ++ option_bytes DHCP_OPT_ROUTER (ip d) ++
  option_bytes DHCP_OPT_DNS (ip d) ++
  (match domain_name d with Some s => option_bytes DHCP_OPT_DOMAIN_NAME s | None => [] end) ++
  option_bytes DHCP_OPT_IP_LEASE_TIME [0; 1; 81; 128] ++ [DHCP_OPT_END].

(** The reply for lease [yi]: BOOTREPLY, the client's own header, [yiaddr], the options. *)
Definition reply_bytes (d : dhcp_server_t) (r : request) (yi type : Z) : list Z :=
  [2] ++ rq_head r ++ (take 3 (ip d) ++ [DHCPS_BASE_IP + yi]) ++ rq_addrs r ++ rq_mac r ++ rq_rest r ++
  reply_options d type.

Lemma opt_write_n_emits cmd n data : is_u8 cmd → n = zlen data → n < 256 →
  emits (opt_write_n cmd n data) (option_bytes cmd data).
Proof.
  intros Hc -> Hd. unfold option_bytes. apply (emits_seq _ _ [cmd] (zlen data :: data)).
  { eapply emits_eq; [apply emits_put|]. by rewrite u8_id. }
  apply (emits_seq _ _ [zlen data] data).
  { eapply emits_eq; [apply emits_put|]. rewrite u8_id; [done|unfold is_u8; lia]. }
  apply (emits_ext (put data)); [|apply emits_put]. intros w. by rewrite rd_n_0.
Qed.

Lemma reply_options_emits d type : dhcp_inv d → is_u8 type →
  emits (λ w, w ← opt_write_u8 DHCP_OPT_MSG_TYPE type w; write_options d w) (reply_options d type).
Proof.
  intros [Hip Hnm _ Hdn] Ht. unfold reply_options, write_options. apply emits_seq.
  { apply (emits_seq _ _ [53] [1; type]); [apply emits_put|].
    apply (emits_seq _ _ [1] [type]); [apply emits_put|].
    eapply emits_eq; [apply emits_put|]. by rewrite u8_id. }
  do 4 (apply emits_seq; [apply opt_write_n_emits; (lia || (split; cbv; congruence))|]).
  apply emits_seq.
  { destruct (domain_name d) as [s|]; [|apply emits_ok].
    apply opt_write_n_emits; [split; cbv; congruence|done..]. }
  apply emits_seq; [|apply emits_put]. unfold opt_write_u32.
  repeat (apply (emits_seq _ _ [_] (_ :: _)); [apply emits_put|]). apply emits_put.
Qed.

Lemma reply_options_length d type : dhcp_inv d → 34 <= zlen (reply_options d type) <= 291.
Proof.
  intros [Hip Hnm _ Hdn]. unfold reply_options, option_bytes.
  destruct (domain_name d); rewrite !length_app; cbn [length]; lia.
Qed.

(** ** The handler on a packet *)

(** The message after the packet was copied and the first two assignments. *)
Definition message (stack : list Z) (r : request) (d : dhcp_server_t) : list Z :=
  [2] ++ rq_head r ++ ip d ++ rq_addrs r ++ rq_mac r ++ rq_rest r ++
  (take 308 (rq_options r) ++ drop (length (take 548 (request_bytes r))) stack).

Lemma message_ok stack r d : length stack = 548%nat → request_wf r → dhcp_inv d →
  (msg ← wr_n stack 0 (take 548 (request_bytes r)); msg ← wr msg 0 DHCPOFFER; wr_n msg off_yiaddr (ip d))
    = Ok (message stack r d) ∧ length (message stack r d) = 548%nat.
Proof.
  intros Hs [H1 H2 H3 H4 H5 H6] [Hip _ _ _]. unfold message.
  set (t := drop (length (take 548 (request_bytes r))) stack).
  assert (length (take 548 (request_bytes r)) = 240 + length (take 308 (rq_options r)))%nat as El.
  { unfold request_bytes. lens. }
  assert (length t = 308 - length (take 308 (rq_options r)))%nat as Ht by (unfold t; lens).
  pose proof (wr_n_app [] stack (take 548 (request_bytes r)) ltac:(lens)) as E.
  cbn [app] in E. change (zlen []) with 0 in E. rewrite E, bind_ok. fold t. clear E.
  assert (take 548 (request_bytes r) = [rq_op r] ++ (rq_head r ++ rq_yiaddr r ++ rq_addrs r ++ rq_mac r ++
    rq_rest r ++ take 308 (rq_options r))) as ->.
  { unfold request_bytes. do 6 (rewrite take_app_ge by (cbn [length]; lia); f_equal).
    cbn [length]. by rewrite H1, H2, H3, H4, H5. }
  clearbody t. unfold wr, off_yiaddr.
  rewrite <- (app_assoc [_]). set (q := (_ ++ _) ++ t).
  pose proof (wr_n_app [] ([rq_op r] ++ q) [DHCPOFFER] ltac:(cbn; lia)) as E.
  cbn [app] in E |- *. change (zlen []) with 0 in E. rewrite E, bind_ok. clear E.
  cbn [length drop app]. rewrite drop_0. unfold q. rewrite <- !app_assoc.
  pose proof (wr_n_app (DHCPOFFER :: rq_head r) (rq_yiaddr r ++ rq_addrs r ++ rq_mac r ++ rq_rest r ++
    take 308 (rq_options r) ++ t) (ip d) ltac:(lens)) as E.
  replace (zlen (DHCPOFFER :: rq_head r)) with 16 in E by (cbn [length]; lia).
  cbn [app] in E. rewrite E. split.
  - rewrite Hip, <- H2, drop_app_length. done.
  - cbn [app length]. lens.
Qed.

Lemma message_fields stack r d : length stack = 548%nat → request_wf r → dhcp_inv d →
  rd (message stack r d) (off_options + 4 + 2) = Ok (nth 2 (rq_options r) 0) ∧
  rd_n (message stack r d) off_chaddr MAC_LEN = Ok (rq_mac r).
Proof.
  intros Hs Hr Hd. pose proof Hr as [H1 H2 H3 H4 H5 H6]. pose proof Hd as [Hip _ _ _]. split.
  - unfold message. set (p := [2] ++ rq_head r ++ ip d ++ rq_addrs r ++ rq_mac r ++ rq_rest r).
    set (o := take 308 (rq_options r) ++ _).
    assert ([2] ++ rq_head r ++ ip d ++ rq_addrs r ++ rq_mac r ++ rq_rest r ++ o = p ++ o) as ->.
    { unfold p. by rewrite <- !app_assoc. }
    assert (zlen p = 240) as Hp by (unfold p; lens).
    replace (off_options + 4 + 2) with (zlen p + 2) by (unfold off_options; lia).
    rewrite rd_suffix by (unfold o; lens). f_equal. unfold o.
    destruct (rq_options r) as [|? [|? [|? ?]]]; cbn in H6; try lia. done.
  - unfold message. set (p := [2] ++ rq_head r ++ ip d ++ rq_addrs r).
    set (o := rq_rest r ++ _).
    assert ([2] ++ rq_head r ++ ip d ++ rq_addrs r ++ rq_mac r ++ o = p ++ rq_mac r ++ o) as ->.
    { unfold p. by rewrite <- !app_assoc. }
    replace off_chaddr with (zlen p) by (unfold p, off_chaddr; lens).
    replace MAC_LEN with (zlen (rq_mac r)) by (unfold MAC_LEN; lia). apply rd_n_app.
Qed.

Lemma reply_ok alloc_ok stack r d yi type : length stack = 548%nat → request_wf r → dhcp_inv d →
  0 <= yi < 8 → is_u8 type → ∀ ls,
  reply alloc_ok (set_leases d ls) (message stack r d) (off_options + 4) yi type
    = Ok (set_leases d ls, if alloc_ok then Some (reply_bytes d r yi type) else None).
Proof.
  intros Hs Hr Hd Hyi Hty ls. pose proof Hr as [H1 H2 H3 H4 H5 H6]. pose proof Hd as [Hip _ _ _].
  destruct (message_ok stack r d Hs Hr Hd) as [_ Hlen].
  unfold reply. unfold message in *. set (o := take 308 (rq_options r) ++ _) in *.
  assert (length o = 308)%nat as Ho by (rewrite !length_app in Hlen; cbn [length] in Hlen; lia).
  clearbody o. unfold off_yiaddr, off_options, DHCPS_BASE_IP. rewrite u8_id by (unfold is_u8; lia).
  destruct (ip d) as [|i0 [|i1 [|i2 [|i3 [|]]]]] eqn:Eip; try done.
  set (a := [2] ++ rq_head r ++ [i0; i1; i2]). set (c := rq_addrs r ++ rq_mac r ++ rq_rest r).
  assert ([2] ++ rq_head r ++ [i0; i1; i2; i3] ++ rq_addrs r ++ rq_mac r ++ rq_rest r ++ o
    = a ++ i3 :: c ++ o) as ->.
  { unfold a, c. change [i0; i1; i2; i3] with ([i0; i1; i2] ++ [i3]). by rewrite <- !app_assoc. }
  assert (zlen a = 19) as Ha by (unfold a; lens).
  assert (zlen c = 220) as Hc by (unfold c; lens).
  unfold wr. replace (16 + 3) with (zlen a) by lia. rewrite wr_n_app, bind_ok by (cbn; lia).
  cbn [length drop]. rewrite drop_0.
  set (q := a ++ [16 + yi] ++ c). assert (zlen q = 240) as Hq by (unfold q; lens).
  assert (a ++ [16 + yi] ++ c ++ o = q ++ o) as -> by (unfold q; by rewrite <- !app_assoc).
  replace (236 + 4) with (zlen q) by lia.
  assert (dhcp_inv (mkDhcp (ip d) (nm d) (lease d) (domain_name d))) as Hd' by (destruct Hd; by constructor).
  pose proof (reply_options_emits d type Hd Hty q o) as E.
  pose proof (reply_options_length d type Hd) as Hl.
  rewrite decide_True in E by lia. cbn beta in E.
  destruct (opt_write_u8 DHCP_OPT_MSG_TYPE type (W (q ++ o) (zlen q))) as [w1| |]; [|done..].
  rewrite bind_ok in E. rewrite bind_ok.
  change (write_options (set_leases d ls) w1) with (write_options d w1). rewrite E, bind_ok.
  cbn [w_buf w_pos]. unfold dhcp_socket_sendto.
  destruct (Z.ltb_spec 65535 (zlen q + zlen (reply_options d type))); [lia|].
  destruct alloc_ok; [|done].
  pose proof (rd_n_app [] (q ++ reply_options d type) (drop (length (reply_options d type)) o)) as Er.
  change (zlen []) with 0 in Er. rewrite length_app, Nat2Z.inj_add in Er. cbn [app] in Er.
  rewrite <- app_assoc in Er. rewrite Er, !bind_ok. do 3 f_equal.
  unfold reply_bytes, q, a, c, DHCPS_BASE_IP. rewrite Eip. by rewrite <- !app_assoc.
Qed.

(** ** The search of DHCPDISCOVER *)

Definition cleared (l : dhcp_server_lease_t) : dhcp_server_lease_t := mkLease zero_mac (expiry l).

(** A lease is untouched, or was expired, not the client's, and lost its owner. *)
Definition lease_kept (ch : list Z) (tick : Z) (l l' : dhcp_server_lease_t) : Prop :=
  l' = l ∨ expired l tick = true ∧ mac l ≠ ch ∧ l' = cleared l.

Definition leases_kept (ch : list Z) (ticks : Z → Z) (ls ls' : list dhcp_server_lease_t) : Prop :=
  length ls' = length ls ∧
  ∀ j l, ls !! j = Some l → ∃ l', ls' !! j = Some l' ∧ lease_kept ch (ticks (Z.of_nat j)) l l'.

(** The lease at [yi] can be offered to [ch]. *)
Definition offerable (ch : list Z) (ls : list dhcp_server_lease_t) (yi : Z) : Prop :=
  0 <= yi < 8 ∧ ∃ l, ls !! Z.to_nat yi = Some l ∧ (mac l = ch ∨ mac l = zero_mac).

Lemma get_lease_at ls j l : ls !! j = Some l → get_lease ls (Z.of_nat j) = Ok l.
Proof. intros H. unfold get_lease. rewrite decide_True by lia. by rewrite Nat2Z.id, H. Qed.

Lemma leases_kept_refl ch ticks ls : leases_kept ch ticks ls ls.
Proof. split; [done|]. intros j l H. exists l. split; [done|by left]. Qed.

Lemma offerable_kept ch ticks ls ls' yi : leases_kept ch ticks ls ls' → offerable ch ls yi → offerable ch ls' yi.
Proof.
  intros [_ H] (Hyi & l & Hl & Hm). split; [done|].
  destruct (H _ _ Hl) as (l' & Hl' & [->|(_ & _ & ->)]); eexists; (split; [done|auto]).
Qed.

(** What the search from lease [i] on, with [yi] found so far, gives. *)
Definition searched (i : nat) (yi : Z) (ch : list Z) (ticks : Z → Z) (ls : list dhcp_server_lease_t) (yi' : Z) (ls' : list dhcp_server_lease_t) : Prop :=
  leases_kept ch ticks ls ls' ∧
  (∀ j, (j < i)%nat → ls' !! j = ls !! j) ∧
  (yi' = 8 ∧ yi = 8 ∧ ls' = ls ∧ (∀ j l, (i ≤ j)%nat → ls !! j = Some l →
      mac l ≠ ch ∧ mac l ≠ zero_mac ∧ expired l (ticks (Z.of_nat j)) = false)
   ∨ offerable ch ls' yi') ∧
  ((∃ j l, (i ≤ j)%nat ∧ ls !! j = Some l ∧ mac l = ch) →
     ∃ l, ls' !! Z.to_nat yi' = Some l ∧ mac l = ch).

(** Lease [i], which is not the client's, is passed over, perhaps changed, and the search goes on. *)
Lemma searched_step i l yi yi0 ch ticks ls ls0 yi' ls' : ls !! i = Some l → mac l ≠ ch →
  leases_kept ch ticks ls ls0 → (∀ j, j ≠ i → ls0 !! j = ls !! j) →
  (yi0 = 8 → yi = 8 ∧ ls0 = ls ∧ mac l ≠ zero_mac ∧ expired l (ticks (Z.of_nat i)) = false) →
  searched (S i) yi0 ch ticks ls0 yi' ls' → searched i yi ch ticks ls yi' ls'.
Proof.
  intros Hl Hm Hk0 Hsame Hnone (Hk & Hb & Hr & Hc). split_and!.
  - destruct Hk as [Hlen Hk]. split; [by destruct Hk0 as [<- _]|]. intros j l0 Hj.
    destruct (decide (j = i)) as [->|Hji].
    + rewrite Hb by lia. destruct Hk0 as [_ Hk0]. by apply Hk0.
    + rewrite <- Hsame in Hj by done. by apply Hk.
  - intros j Hj. rewrite Hb by lia. apply Hsame. lia.
  - destruct Hr as [(-> & H8 & -> & Hall)|]; [left|by right].
    destruct (Hnone H8) as (-> & -> & Hz & He). split_and!; [done..|].
    intros j l0 Hj Hl0. destruct (decide (j = i)) as [->|]; [by simplify_eq|]. apply Hall; [lia|done].
  - intros (j & l0 & Hj & Hl0 & Hm0). apply Hc. exists j, l0. split; [|split; [|done]].
    + destruct (decide (j = i)) as [->|]; [by simplify_eq|lia].
    + rewrite Hsame; [done|]. intros ->. by simplify_eq.
Qed.

Lemma discover_loop_spec n i yi ch ticks ls :
  (i + n)%nat = 8%nat → length ls = 8%nat → yi = 8 ∨ offerable ch ls yi →
  ∃ yi' ls', discover_loop n (Z.of_nat i) yi ch ticks ls = Ok (yi', ls') ∧ searched i yi ch ticks ls yi' ls'.
Proof.
  revert i yi ls. induction n as [|n IH]; intros i yi ls Hi Hls Hyi.
  - exists yi, ls. split; [done|]. split_and!; [apply leases_kept_refl|done| |].
    + destruct Hyi as [->|]; [left|by right]. split_and!; [done..|].
      intros j l Hj Hl. apply lookup_lt_Some in Hl. lia.
    + intros (j & l & Hj & Hl & _). apply lookup_lt_Some in Hl. lia.
  - destruct (lookup_lt_is_Some_2 ls i) as [l Hl]; [lia|].
    cbn [discover_loop]. rewrite (get_lease_at ls i l Hl), bind_ok.
    case_bool_decide as Hm.
    { exists (Z.of_nat i), ls. split; [done|]. split_and!; [apply leases_kept_refl|done| |].
      - right. split; [lia|]. exists l. rewrite Nat2Z.id. auto.
      - intros _. exists l. by rewrite Nat2Z.id. }
    replace (Z.of_nat i + 1) with (Z.of_nat (S i)) by lia. rewrite Nat2Z.id.
    assert (Hstep : ∀ yi0 ls0, (yi0 = 8 ∨ offerable ch ls0 yi0) → leases_kept ch ticks ls ls0 →
      (∀ j, j ≠ i → ls0 !! j = ls !! j) →
      (yi0 = 8 → yi = 8 ∧ ls0 = ls ∧ mac l ≠ zero_mac ∧ expired l (ticks (Z.of_nat i)) = false) →
      ∃ yi' ls', discover_loop n (Z.of_nat (S i)) yi0 ch ticks ls0 = Ok (yi', ls') ∧ searched i yi ch ticks ls yi' ls').
    { intros yi0 ls0 Hy0 Hk0 Hsame Hnone. destruct (IH (S i) yi0 ls0) as (yi' & ls' & E & Hs);
        [lia|by destruct Hk0 as [-> _]|done|]. exists yi', ls'. split; [done|]. by eapply searched_step. }
    destruct (Z.eqb_spec yi DHCPS_MAX_IP) as [->|Hne].
    + destruct (expired l (ticks (Z.of_nat i))) eqn:He.
      * apply Hstep.
        -- right. split; [lia|]. exists (cleared l). rewrite Nat2Z.id. split; [by apply list_lookup_insert_eq; lia|by right].
        -- split; [by rewrite length_insert|]. intros j l0 Hj. destruct (decide (j = i)) as [->|].
           ++ simplify_eq. rewrite list_lookup_insert_eq by lia. eexists. split; [done|]. right. auto.
           ++ rewrite list_lookup_insert_ne by done. exists l0. split; [done|by left].
        -- intros j Hj. by rewrite list_lookup_insert_ne.
        -- intros H8. unfold DHCPS_MAX_IP in *. lia.
      * apply Hstep; [|apply leases_kept_refl|done|].
        -- case_bool_decide as Hz; [|by left]. right. split; [lia|]. exists l. rewrite Nat2Z.id. auto.
        -- case_bool_decide as Hz; [lia|done].
    + destruct Hyi as [->|Hyi]; [done|].
      apply Hstep; [by right|apply leases_kept_refl|done|].
      intros ->. destruct Hyi as [? _]. lia.
Qed.

(** ** The handler *)

(** The handler on a packet long enough: the [switch] on the message type. *)
Lemma process_unfold stack ticks alloc_ok r d :
  length stack = 548%nat → request_wf r → dhcp_inv d →
  dhcp_server_process stack ticks alloc_ok (request_bytes r) d =
    let type := nth 2 (rq_options r) 0 in
    let msg := message stack r d in
    if type =? DHCPDISCOVER then
      '(yi, ls) ← discover_loop 8 0 DHCPS_MAX_IP (rq_mac r) ticks (lease d);
      if yi =? DHCPS_MAX_IP then Ok (set_leases d ls, None)
      else reply alloc_ok (set_leases d ls) msg (off_options + 4) yi DHCPOFFER
    else if type =? DHCPREQUEST then
      o ← opt_find msg (off_options + 4) DHCP_OPT_REQUESTED_IP;
      match o with
      | None => Ok (d, None)
      | Some o =>
          net ← rd_n msg (o + 2) 3;
          if negb (bool_decide (net = take 3 (ip d))) then Ok (d, None)
          else
            o5 ← rd msg (o + 5);
            let yi := u8 (o5 - DHCPS_BASE_IP) in
            if DHCPS_MAX_IP <=? yi then Ok (d, None)
            else
              l ← get_lease (lease d) yi;
              if bool_decide (mac l = rq_mac r) || bool_decide (mac l = zero_mac) then
                let l := mkLease (rq_mac r) (u16 (Z.shiftr (u32 (ticks 0 + DEFAULT_LEASE_TIME_S * 1000)) 16)) in
                reply alloc_ok (set_leases d (<[Z.to_nat yi := l]> (lease d))) msg (off_options + 4) yi DHCPACK
              else Ok (d, None)
      end
    else Ok (d, None).
Proof.
  intros Hs Hr Hd. cbn zeta. unfold dhcp_server_process.
  assert (243 <= zlen (request_bytes r)) as Hl by (destruct Hr; unfold request_bytes; lens).
  unfold DHCP_MIN_SIZE. rewrite (proj2 (Z.ltb_ge _ _)) by lia.
  change (Z.to_nat sizeof_dhcp_msg) with 548%nat.
  destruct (message_ok stack r d Hs Hr Hd) as [E _]. revert E.
  destruct (wr_n stack 0 _) as [m1| |]; [|done..]. rewrite !bind_ok.
  rewrite (proj2 (Z.ltb_ge (zlen (take 548 (request_bytes r))) _)) by lens.
  destruct (wr m1 0 DHCPOFFER) as [m2| |]; [|done..]. rewrite !bind_ok. intros E.
  rewrite E, bind_ok. destruct (message_fields stack r d Hs Hr Hd) as [-> ->]. rewrite !bind_ok. done.
Qed.

Lemma set_leases_inv d ls : dhcp_inv d → length ls = 8%nat → Forall lease_ok ls → dhcp_inv (set_leases d ls).
Proof. intros [] ? ?. by constructor. Qed.

Lemma leases_kept_ok ch ticks ls ls' : leases_kept ch ticks ls ls' → Forall lease_ok ls → Forall lease_ok ls'.
Proof.
  intros [Hlen H] Hf. rewrite Forall_lookup in *. intros j l' Hl'.
  destruct (lookup_lt_is_Some_2 ls j) as [l Hl]; [rewrite <- Hlen; by eapply lookup_lt_Some|].
  destruct (H _ _ Hl) as (l0 & Hl0 & Hk). simplify_eq. pose proof (Hf _ _ Hl) as [Hm He].
  destruct Hk as [->|(_ & _ & ->)]; [by split|]. by split.
Qed.

(** A DHCPDISCOVER is answered with an offer broadcast with the client's header and the server's
    options, of the client's own address when it has a lease and else of an address that was free
    or whose lease has expired; it is ignored only if all eight leases are in force and other
    clients' own them, and only expired leases of other clients lose their owner. *)
Theorem discover_offers stack ticks alloc_ok r d :
  length stack = 548%nat → request_wf r → dhcp_inv d → nth 2 (rq_options r) 0 = DHCPDISCOVER →
  ∃ ls out, dhcp_server_process stack ticks alloc_ok (request_bytes r) d = Ok (set_leases d ls, out) ∧
    dhcp_inv (set_leases d ls) ∧ leases_kept (rq_mac r) ticks (lease d) ls ∧
    ((out = None ∧ ls = lease d ∧ ∀ j l, lease d !! j = Some l →
        mac l ≠ rq_mac r ∧ mac l ≠ zero_mac ∧ expired l (ticks (Z.of_nat j)) = false)
     ∨ ∃ yi, offerable (rq_mac r) ls yi ∧
        ((∃ l, l ∈ lease d ∧ mac l = rq_mac r) → ∃ l, ls !! Z.to_nat yi = Some l ∧ mac l = rq_mac r) ∧
        out = if alloc_ok then Some (reply_bytes d r yi DHCPOFFER) else None).
Proof.
  intros Hs Hr Hd Ht. rewrite process_unfold by done. cbn zeta. rewrite Ht. cbn [DHCPDISCOVER Z.eqb Pos.eqb].
  destruct (di_lease _ Hd) as [Hlen Hok].
  destruct (discover_loop_spec 8 0 8 (rq_mac r) ticks (lease d)) as (yi & ls & E & Hk & _ & Hres & Hown);
    [done|done|by left|].
  change (Z.of_nat 0) with 0 in E. unfold DHCPS_MAX_IP. rewrite E, bind_ok.
  assert (dhcp_inv (set_leases d ls)) as Hd'.
  { apply set_leases_inv; [done| |by eapply leases_kept_ok]. by destruct Hk as [-> _]. }
  destruct Hres as [(-> & _ & -> & Hall)|Hoff].
  - exists (lease d), None. split_and!; [done..|]. left. split_and!; [done..|].
    intros j l Hl. apply Hall; [lia|done].
  - pose proof Hoff as [Hyi _]. rewrite (proj2 (Z.eqb_neq yi 8)) by lia.
    rewrite (reply_ok alloc_ok stack r d yi DHCPOFFER Hs Hr Hd Hyi) by (unfold DHCPOFFER, is_u8; lia).
    exists ls, (if alloc_ok then Some (reply_bytes d r yi DHCPOFFER) else None).
    split_and!; [done..|]. right. exists yi. split_and!; [done| |done].
    intros (l & Hl & Hm). apply Hown. apply list_elem_of_lookup in Hl as [j Hj]. exists j, l.
    split; [lia|done].
Qed.

Definition demo_dhcp : dhcp_server_t :=
  dhcp_server_init [192; 168; 7; 1] [255; 255; 255; 0] (Some (chars "piconet.local")).
Definition demo_request (options : list Z) : request :=
  mkRequest 1 (replicate 15 0) (replicate 4 0) (replicate 8 0) [2; 0; 0; 0; 0; 9] (replicate 206 0) options.

Lemma demo_request_wf options : (3 ≤ length options)%nat → request_wf (demo_request options).
Proof. by constructor. Qed.

Lemma demo_dhcp_inv : dhcp_inv demo_dhcp.
Proof. constructor; try done. split; [done|]. apply Forall_replicate. done. Qed.

Lemma discover_offers_witness :
  (∃ ls out, dhcp_server_process (replicate 548 170) (λ _, 5000) true
      (request_bytes (demo_request [53; 1; 1; 255])) demo_dhcp = Ok (set_leases demo_dhcp ls, out) ∧
    dhcp_inv (set_leases demo_dhcp ls) ∧
    leases_kept [2; 0; 0; 0; 0; 9] (λ _, 5000) (lease demo_dhcp) ls ∧
    ((out = None ∧ ls = lease demo_dhcp ∧ ∀ j l, lease demo_dhcp !! j = Some l →
        mac l ≠ [2; 0; 0; 0; 0; 9] ∧ mac l ≠ zero_mac ∧ expired l 5000 = false)
     ∨ ∃ yi, offerable [2; 0; 0; 0; 0; 9] ls yi ∧
        ((∃ l, l ∈ lease demo_dhcp ∧ mac l = [2; 0; 0; 0; 0; 9]) →
           ∃ l, ls !! Z.to_nat yi = Some l ∧ mac l = [2; 0; 0; 0; 0; 9]) ∧
        out = Some (reply_bytes demo_dhcp (demo_request [53; 1; 1; 255]) yi DHCPOFFER))) ∧
  dhcp_server_process (replicate 548 170) (λ _, 5000) true
      (request_bytes (demo_request [53; 1; 1; 255])) demo_dhcp
    = Ok (demo_dhcp, Some (reply_bytes demo_dhcp (demo_request [53; 1; 1; 255]) 0 DHCPOFFER)).
Proof.
  split; [|vm_compute; reflexivity].
  apply (discover_offers (replicate 548 170) (λ _, 5000) true (demo_request [53; 1; 1; 255]) demo_dhcp);
    [done|apply demo_request_wf; cbn; lia|exact demo_dhcp_inv|done].
Defined.

(** ** Searching the options *)

(** Options as a list of codes and data; none is the end mark. *)
Definition options := list (Z * list Z).
Definition option_list_bytes (os : options) : list Z := concat (map (λ '(c, v), option_bytes c v) os).
Definition options_wf (os : options) : Prop :=
  Forall (λ '(c, v), is_u8 c ∧ c ≠ DHCP_OPT_END ∧ zlen v < 256) os.

(** Where the first option with code [cmd] starts. *)
Fixpoint find_option (os : options) (cmd i : Z) : option (Z * list Z) :=
  match os with
  | [] => None
  | (c, v) :: os => if c =? cmd then Some (i, v) else find_option os cmd (i + 2 + zlen v)
  end.

Lemma option_list_cons c v os : option_list_bytes ((c, v) :: os) = c :: zlen v :: v ++ option_list_bytes os.
Proof. reflexivity. Qed.

Lemma opt_find_loop_list fuel p q os rest cmd :
  options_wf os → cmd ≠ DHCP_OPT_END →
  zlen q + zlen (option_list_bytes os) < 308 → (length (option_list_bytes os) < 2 * fuel)%nat →
  opt_find_loop fuel (p ++ q ++ option_list_bytes os ++ DHCP_OPT_END :: rest) (zlen p) cmd (zlen q)
    = Ok (fst <$> find_option os cmd (zlen p + zlen q)).
Proof.
  intros Hos Hcmd. revert fuel q. induction Hos as [|[c v] os (Hc & Hce & Hv) Hos IH]; intros fuel q Hl Hf.
  - destruct fuel as [|fuel]; [lia|]. cbn [opt_find_loop option_list_bytes map concat app].
    cbn in Hl. rewrite (proj2 (Z.ltb_lt (zlen q) 308)) by lia. cbn [negb].
    replace (zlen p + zlen q) with (zlen (p ++ q)) by lens.
    rewrite app_assoc, rd_app, bind_ok. by rewrite Z.eqb_refl.
  - destruct fuel as [|fuel]; [lia|]. rewrite option_list_cons in *. cbn [opt_find_loop].
    cbn [length] in Hl, Hf. rewrite length_app in Hl, Hf.
    rewrite (proj2 (Z.ltb_lt (zlen q) 308)) by lia. cbn [negb app].
    replace (zlen p + zlen q) with (zlen (p ++ q)) by lens.
    rewrite app_assoc, rd_app, bind_ok, (proj2 (Z.eqb_neq c _) Hce). cbn [find_option].
    destruct (Z.eqb_spec c cmd); [done|].
    rewrite (rd_suffix (p ++ q) _ 1), bind_ok by (cbn; lia). change (Z.to_nat 1) with 1%nat. cbn [nth].
    specialize (IH fuel (q ++ c :: zlen v :: v)). rewrite <- !app_assoc in IH. cbn [app] in IH.
    rewrite <- !app_assoc.
    replace (zlen (q ++ c :: zlen v :: v)) with (zlen q + (2 + zlen v)) in IH by lens.
    rewrite IH by lia.
    by replace (zlen (p ++ q) + 2 + zlen v) with (zlen p + (zlen q + (2 + zlen v))) by lens.
Qed.

(** No search runs forever: every turn moves on by at least two bytes. *)
Lemma opt_find_total msg opt cmd : Forall is_u8 msg → opt_find msg opt cmd ≠ OutOfFuel.
Proof.
  intros Hu. unfold opt_find. assert (∀ fuel i, 308 <= i + 2 * Z.of_nat fuel →
    opt_find_loop fuel msg opt cmd i ≠ OutOfFuel) as H; [|by apply H].
  intros fuel. induction fuel as [|fuel IH]; intros i Hi; cbn [opt_find_loop].
  - destruct (Z.ltb_spec i 308); [lia|done].
  - destruct (negb (i <? 308)); [done|].
    assert (∀ k, rd msg k = Ub ∨ ∃ x, rd msg k = Ok x ∧ is_u8 x) as Hrd.
    { intros k. unfold rd. destruct (decide (0 <= k)); [|by left]. destruct (msg !! _) eqn:E; [|by left].
      right. eexists. split; [done|]. rewrite Forall_lookup in Hu. by eapply Hu. }
    destruct (Hrd (opt + i)) as [->|(x & -> & _)]; [discriminate|]. rewrite bind_ok.
    destruct (x =? DHCP_OPT_END); [done|]. destruct (x =? cmd); [done|].
    destruct (Hrd (opt + i + 1)) as [->|(y & -> & Hy)]; [discriminate|]. rewrite bind_ok.
    apply IH. unfold is_u8 in Hy. lia.
Qed.

(** *** DHCPREQUEST *)

(** What the handler does with a request for the address [addr]. *)
Definition request_result (alloc_ok : bool) (now : Z) (r : request) (d : dhcp_server_t)
    (addr : option (list Z)) : dhcp_server_t * option (list Z) :=
  match addr with
  | Some [a; b; c; e] =>
      match lease d !! Z.to_nat (e - DHCPS_BASE_IP) with
      | Some l =>
          if bool_decide ([a; b; c] = take 3 (ip d)) && (16 <=? e) && (e <? 24) &&
             (bool_decide (mac l = rq_mac r) || bool_decide (mac l = zero_mac))
          then (set_leases d (<[Z.to_nat (e - 16) := mkLease (rq_mac r)
                  (u32 (now + 86400000) / 65536)]> (lease d)),
                if alloc_ok then Some (reply_bytes d r (e - 16) DHCPACK) else None)
          else (d, None)
      | None => (d, None)
      end
  | _ => (d, None)
  end.

Lemma find_option_offset os cmd i j v : find_option os cmd i = Some (j, v) →
  ∃ os1 os2, os = os1 ++ (cmd, v) :: os2 ∧ j = i + zlen (option_list_bytes os1).
Proof.
  revert i. induction os as [|[c w] os IH]; intros i; [done|]. cbn [find_option].
  destruct (Z.eqb_spec c cmd) as [->|].
  - intros [= <- <-]. exists [], os. split; [done|]. cbn. lia.
  - intros H. destruct (IH _ H) as (os1 & os2 & -> & ->). exists ((c, w) :: os1), os2.
    split; [done|]. rewrite option_list_cons. cbn [length]. rewrite length_app. lia.
Qed.

Lemma option_list_app os1 os2 : option_list_bytes (os1 ++ os2) = option_list_bytes os1 ++ option_list_bytes os2.
Proof. unfold option_list_bytes. by rewrite map_app, concat_app. Qed.

(** The message as the 240 bytes before the options and the options area. *)
Lemma message_options stack r d : length stack = 548%nat → request_wf r → dhcp_inv d →
  ∃ p t, message stack r d = p ++ take 308 (rq_options r) ++ t ∧ zlen p = 240.
Proof.
  intros Hs Hr Hd. exists ([2] ++ rq_head r ++ ip d ++ rq_addrs r ++ rq_mac r ++ rq_rest r),
    (drop (length (take 548 (request_bytes r))) stack).
  split; [unfold message; rewrite <- !app_assoc; done|]. destruct Hr, Hd. lens.
Qed.

Lemma find_option_shift os cmd i k : find_option os cmd (i + k) =
  (λ '(j, v), (j + k, v)) <$> find_option os cmd i.
Proof.
  revert i. induction os as [|[c v] os IH]; intros i; [done|]. cbn [find_option].
  destruct (c =? cmd); [done|]. replace (i + k + 2 + zlen v) with (i + 2 + zlen v + k) by lia. apply IH.
Qed.

(** A request as clients send it: the message type first, then other options. *)
Definition request_options (os : options) (rest : list Z) : list Z :=
  option_list_bytes ((DHCP_OPT_MSG_TYPE, [DHCPREQUEST]) :: os) ++ DHCP_OPT_END :: rest.

Lemma find_requested stack r d os rest :
  length stack = 548%nat → request_wf r → dhcp_inv d → rq_options r = request_options os rest →
  options_wf os → zlen (option_list_bytes os) < 305 →
  opt_find (message stack r d) 240 DHCP_OPT_REQUESTED_IP
    = Ok (fst <$> find_option os DHCP_OPT_REQUESTED_IP 243) ∧
  ∀ o a b c e, find_option os DHCP_OPT_REQUESTED_IP 243 = Some (o, [a; b; c; e]) →
    rd_n (message stack r d) (o + 2) 3 = Ok [a; b; c] ∧ rd (message stack r d) (o + 5) = Ok e.
Proof.
  intros Hs Hr Hd Ho Hos Hl. destruct (message_options stack r d Hs Hr Hd) as (p & t & Em & Hp).
  unfold request_options in Ho. set (os' := (DHCP_OPT_MSG_TYPE, [DHCPREQUEST]) :: os) in *.
  assert (zlen (option_list_bytes os') = 3 + zlen (option_list_bytes os)) as Hl'.
  { unfold os'. rewrite option_list_cons. cbn [length app]. lia. }
  assert (options_wf os') as Hos'.
  { constructor; [|done]. unfold is_u8, DHCP_OPT_MSG_TYPE, DHCP_OPT_END. cbn. lia. }
  set (t' := take (308 - S (length (option_list_bytes os'))) rest ++ t).
  assert (take 308 (rq_options r) ++ t = option_list_bytes os' ++ DHCP_OPT_END :: t') as Eo.
  { rewrite Ho. rewrite (take_app_ge (option_list_bytes os')) by lia.
    replace (308 - length (option_list_bytes os'))%nat with (S (308 - S (length (option_list_bytes os')))) by lia.
    rewrite <- app_assoc. done. }
  rewrite Em, Eo. clearbody t'. split.
  - pose proof (opt_find_loop_list 154 p [] os' t' DHCP_OPT_REQUESTED_IP Hos' ltac:(done)) as E.
    cbn [app] in E. change (zlen []) with 0 in E. unfold opt_find. rewrite <- Hp, E, Hp by lia.
    reflexivity.
  - intros o a b c e Hf. destruct (find_option_offset _ _ _ _ _ Hf) as (os1 & os2 & Eos & ->).
    set (q := p ++ [DHCP_OPT_MSG_TYPE; 1; DHCPREQUEST] ++ option_list_bytes os1 ++ [DHCP_OPT_REQUESTED_IP; 4]).
    assert (p ++ option_list_bytes os' ++ DHCP_OPT_END :: t' =
      q ++ [a; b; c] ++ e :: option_list_bytes os2 ++ DHCP_OPT_END :: t') as ->.
    { unfold q, os'. rewrite Eos, option_list_cons, option_list_app, option_list_cons.
      rewrite <- !app_assoc. cbn [app length]. rewrite <- !app_assoc. done. }
    assert (zlen q = 243 + zlen (option_list_bytes os1) + 2) as Hq by (unfold q; lens).
    rewrite <- Hq. split; [apply (rd_n_app q [a; b; c])|].
    replace (243 + zlen (option_list_bytes os1) + 5) with (zlen (q ++ [a; b; c])) by lens.
    rewrite app_assoc. apply rd_app.
Qed.

(** A DHCPREQUEST whose options are well formed, message type first, is answered exactly when
    its requested address is one of the server's eight and that lease is the client's own or free:
    then the lease becomes the client's, only that lease changes, and the acknowledgement of that
    address is broadcast; every other request is ignored and changes nothing. *)
Theorem request_answered stack ticks alloc_ok r d os rest :
  length stack = 548%nat → request_wf r → dhcp_inv d → rq_options r = request_options os rest →
  options_wf os → zlen (option_list_bytes os) < 305 →
  (∀ j v, find_option os DHCP_OPT_REQUESTED_IP 243 = Some (j, v) → length v = 4%nat ∧ Forall is_u8 v) →
  dhcp_server_process stack ticks alloc_ok (request_bytes r) d =
    Ok (request_result alloc_ok (ticks 0) r d (snd <$> find_option os DHCP_OPT_REQUESTED_IP 243)).
Proof.
  intros Hs Hr Hd Ho Hos Hl Hv. rewrite process_unfold by done. cbn zeta.
  assert (nth 2 (rq_options r) 0 = DHCPREQUEST) as -> by (rewrite Ho; done).
  cbn [DHCPREQUEST DHCPDISCOVER Z.eqb Pos.eqb]. unfold off_options. change (236 + 4) with 240.
  destruct (find_requested stack r d os rest Hs Hr Hd Ho Hos Hl) as [-> Hrd]. rewrite bind_ok.
  destruct (find_option os DHCP_OPT_REQUESTED_IP 243) as [[o v]|] eqn:Ef; [|done].
  cbn [fmap option_fmap option_map fst snd].
  destruct (Hv _ _ eq_refl) as [Hv4 Hu]. destruct v as [|a [|b [|c [|e [|]]]]]; try done.
  destruct (Hrd o a b c e eq_refl) as [-> ->]. rewrite !bind_ok.
  repeat match goal with H : Forall is_u8 (_ :: _) |- _ => apply Forall_cons in H as [? H] end.
  destruct (di_lease _ Hd) as [Hlen Hok]. unfold request_result, DHCPS_BASE_IP, DHCPS_MAX_IP.
  case_bool_decide as Hnet; cbn [negb andb]; [|by destruct (lease d !! _)].
  unfold is_u8 in *. destruct (Z.leb_spec 16 e), (Z.ltb_spec e 24); cbn [andb].
  2-4: destruct (Z.leb_spec 8 (u8 (e - 16))); [by destruct (lease d !! _)|unfold u8 in *; zdiv].
  rewrite u8_id by (unfold is_u8; lia). destruct (Z.leb_spec 8 (e - 16)); [lia|].
  destruct (lookup_lt_is_Some_2 (lease d) (Z.to_nat (e - 16))) as [l El]; [lia|].
  unfold get_lease. rewrite decide_True, El, bind_ok by lia.
  destruct (bool_decide (mac l = rq_mac r) || bool_decide (mac l = zero_mac)); [|done].
  rewrite (reply_ok alloc_ok stack r d (e - 16) DHCPACK Hs Hr Hd) by (unfold is_u8, DHCPACK; lia).
  do 5 f_equal. unfold DEFAULT_LEASE_TIME_S. change (24 * 60 * 60 * 1000) with 86400000.
  rewrite Z.shiftr_div_pow2 by lia. change (2 ^ 16) with 65536. unfold u16, u32. zdiv.
Qed.

Lemma request_answered_witness :
  rq_options (demo_request (request_options [(50, [192; 168; 7; 18])] [])) =
    request_options [(50, [192; 168; 7; 18])] [] ∧
  dhcp_server_process (replicate 548 0) (λ _, 5000) true
      (request_bytes (demo_request (request_options [(50, [192; 168; 7; 18])] []))) demo_dhcp =
    Ok (set_leases demo_dhcp (<[2%nat := mkLease [2; 0; 0; 0; 0; 9] 1318]> (lease demo_dhcp)),
        Some (reply_bytes demo_dhcp (demo_request (request_options [(50, [192; 168; 7; 18])] [])) 2 DHCPACK)).
Proof.
  split; [reflexivity|].
  apply (request_answered (replicate 548 0) (λ _, 5000) true
    (demo_request (request_options [(50, [192; 168; 7; 18])] [])) demo_dhcp [(50, [192; 168; 7; 18])] []);
    [done|apply demo_request_wf; cbn; lia|exact demo_dhcp_inv|done| |cbn; lia|].
  - constructor; [|constructor]. unfold is_u8, DHCP_OPT_END. cbn. lia.
  - intros j v [= <- <-]. split; [done|]. repeat constructor; lia.
Defined.

(** ** Safety of leases *)

(** What [lease_protected] says of a request [r]. *)
Definition protects (ticks : Z → Z) (r : request) (d d' : dhcp_server_t) (out : option (list Z)) : Prop :=
  dhcp_inv d' ∧
  (∀ i l, lease d !! i = Some l → mac l ≠ zero_mac → mac l ≠ rq_mac r →
     expired l (ticks (Z.of_nat i)) = false → lease d' !! i = Some l) ∧
  (∀ b, out = Some b → ∃ r0 yi type, request_bytes r = request_bytes r0 ∧ b = reply_bytes d r0 yi type ∧
     (type = DHCPOFFER ∨ type = DHCPACK ∧ ∃ l, lease d' !! Z.to_nat yi = Some l ∧ mac l = rq_mac r0)).

Lemma protects_unchanged ticks r d : dhcp_inv d → protects ticks r d d None.
Proof. intros Hd. by split_and!. Qed.

Lemma discover_protects stack ticks alloc_ok r d d' out :
  length stack = 548%nat → request_wf r → dhcp_inv d → nth 2 (rq_options r) 0 = DHCPDISCOVER →
  dhcp_server_process stack ticks alloc_ok (request_bytes r) d = Ok (d', out) → protects ticks r d d' out.
Proof.
  intros Hs Hr Hd Ht. rewrite process_unfold by done. cbn zeta. rewrite Ht. destruct (di_lease _ Hd) as [Hlen Hok].
  destruct (discover_loop_spec 8 0 8 (rq_mac r) ticks (lease d)) as (yi & ls & E & Hk & _ & Hres & Hown);
    [done|done|by left|].
  change (Z.of_nat 0) with 0 in E. unfold DHCPS_MAX_IP. rewrite Z.eqb_refl, E, bind_ok.
  assert (dhcp_inv (set_leases d ls)) as Hd'.
  { apply set_leases_inv; [done| |by eapply leases_kept_ok]. by destruct Hk as [-> _]. }
  assert (∀ i l, lease d !! i = Some l → mac l ≠ zero_mac → mac l ≠ rq_mac r →
    expired l (ticks (Z.of_nat i)) = false → ls !! i = Some l) as Hprot.
  { intros i l Hi Hz Hm He. destruct Hk as [_ Hk]. destruct (Hk _ _ Hi) as (l' & Hi' & [->|(Hx & _)]);
      [done|congruence]. }
  destruct Hres as [(-> & _ & -> & _)|Hoff]; [intros [= <- <-]; done|].
  pose proof Hoff as [Hyi _]. rewrite (proj2 (Z.eqb_neq yi 8)) by lia.
  rewrite (reply_ok alloc_ok stack r d yi DHCPOFFER Hs Hr Hd Hyi) by (unfold DHCPOFFER, is_u8; lia).
  intros [= <- <-]. split_and!; [done..|]. destruct alloc_ok; [|done]. intros b [= <-].
  exists r, yi, DHCPOFFER. auto.
Qed.

Lemma request_protects stack ticks alloc_ok r d d' out :
  length stack = 548%nat → request_wf r → dhcp_inv d → nth 2 (rq_options r) 0 ≠ DHCPDISCOVER →
  dhcp_server_process stack ticks alloc_ok (request_bytes r) d = Ok (d', out) → protects ticks r d d' out.
Proof.
  intros Hs Hr Hd Ht. rewrite process_unfold by done. cbn zeta. rewrite (proj2 (Z.eqb_neq _ _) Ht).
  destruct (di_lease _ Hd) as [Hlen Hok]. pose proof (protects_unchanged ticks r d Hd) as Hnone.
  destruct (_ =? DHCPREQUEST); [|by intros [= <- <-]].
  destruct (opt_find _ _ _) as [[o|]| |]; [|by intros [= <- <-]|done..]. rewrite bind_ok.
  destruct (rd_n _ _ _) as [net| |]; [|done..]. rewrite bind_ok.
  destruct (negb _); [by intros [= <- <-]|].
  destruct (rd _ _) as [o5| |]; [|done..]. rewrite bind_ok. unfold DHCPS_MAX_IP, DHCPS_BASE_IP.
  pose proof (u8_range (o5 - 16)) as Hyi. unfold is_u8 in Hyi. set (yi := u8 (o5 - 16)) in *.
  destruct (Z.leb_spec 8 yi); [by intros [= <- <-]|].
  destruct (lookup_lt_is_Some_2 (lease d) (Z.to_nat yi)) as [l El]; [lia|].
  unfold get_lease. rewrite decide_True, El, bind_ok by lia.
  destruct (bool_decide (mac l = rq_mac r) || bool_decide (mac l = zero_mac)) eqn:Eb; [|by intros [= <- <-]].
  set (l' := mkLease _ _). set (ls := <[Z.to_nat yi := l']> (lease d)).
  assert (ls !! Z.to_nat yi = Some l') as Els by (apply list_lookup_insert_eq; lia).
  rewrite (reply_ok alloc_ok stack r d yi DHCPACK Hs Hr Hd) by (unfold is_u8, DHCPACK; lia).
  intros [= <- <-]. split_and!.
  - apply set_leases_inv; [done|unfold ls; by rewrite length_insert|]. apply Forall_insert; [done|].
    split; [by destruct Hr|apply u16_range].
  - intros i l0 Hi Hz Hm _. cbn [lease set_leases]. unfold ls.
    destruct (decide (Z.to_nat yi = i)) as [<-|]; [|by rewrite list_lookup_insert_ne].
    assert (l = l0) as <- by congruence. apply orb_prop in Eb as [Eb|Eb];
      apply bool_decide_eq_true in Eb; done.
  - destruct alloc_ok; [|done]. intros b [= <-]. exists r, yi, DHCPACK. split_and!; [done..|].
    right. split; [done|]. by exists l'.
Qed.

(** C26: no packet whatsoever takes a lease in force away from the client that owns it: a lease
    that has an owner, is not expired and belongs to another client is the same afterwards; the
    state stays well formed; and an address is acknowledged only to the client that then owns its
    lease. *)
Theorem lease_protected stack ticks alloc_ok p d d' out :
  length stack = 548%nat → dhcp_inv d →
  dhcp_server_process stack ticks alloc_ok p d = Ok (d', out) →
  dhcp_inv d' ∧
  (∀ i l, lease d !! i = Some l → mac l ≠ zero_mac → mac l ≠ take 6 (drop 28 p) →
     expired l (ticks (Z.of_nat i)) = false → lease d' !! i = Some l) ∧
  (∀ b, out = Some b → ∃ r yi type, p = request_bytes r ∧ b = reply_bytes d r yi type ∧
     (type = DHCPOFFER ∨ type = DHCPACK ∧ ∃ l, lease d' !! Z.to_nat yi = Some l ∧ mac l = rq_mac r)).
Proof.
  intros Hs Hd. destruct (Z.lt_ge_cases (zlen p) DHCP_MIN_SIZE) as [Hl|Hl].
  { unfold dhcp_server_process. rewrite (proj2 (Z.ltb_lt _ _)) by done. intros [= <- <-].
    split_and!; [done|auto|done]. }
  destruct (request_of_bytes p Hl) as (r & -> & Hr).
  assert (take 6 (drop 28 (request_bytes r)) = rq_mac r) as ->.
  { destruct Hr. unfold request_bytes. rewrite !(app_assoc _ _ (rq_mac r ++ _)).
    rewrite drop_app_length' by lens. by rewrite take_app_length' by lens. }
  destruct (decide (nth 2 (rq_options r) 0 = DHCPDISCOVER)); [by apply discover_protects|by apply request_protects].
Qed.

(** A second client asks for the address of the first. *)
Lemma lease_protected_witness :
  let d := set_leases demo_dhcp (<[2%nat := mkLease [2; 0; 0; 0; 0; 1] 1318]> (lease demo_dhcp)) in
  let p := request_bytes (demo_request (request_options [(50, [192; 168; 7; 18])] [])) in
  dhcp_server_process (replicate 548 0) (λ _, 5000) true p d = Ok (d, None) ∧
  dhcp_inv d ∧
  (∀ i l, lease d !! i = Some l → mac l ≠ zero_mac → mac l ≠ take 6 (drop 28 p) →
     expired l 5000 = false → lease d !! i = Some l) ∧
  (∀ b, None = Some b → ∃ r yi type, p = request_bytes r ∧ b = reply_bytes d r yi type ∧
     (type = DHCPOFFER ∨ type = DHCPACK ∧ ∃ l, lease d !! Z.to_nat yi = Some l ∧ mac l = rq_mac r)).
Proof.
  cbn zeta. split; [vm_compute; reflexivity|].
  apply (lease_protected (replicate 548 0) (λ _, 5000) true
    (request_bytes (demo_request (request_options [(50, [192; 168; 7; 18])] [])))).
  - reflexivity.
  - apply set_leases_inv; [exact demo_dhcp_inv|reflexivity|]. apply Forall_insert; [apply demo_dhcp_inv|].
    split; [reflexivity|unfold is_u16; cbn; lia].
  - vm_compute. reflexivity.
Defined.

(** A lease granted at any time of the wrapping millisecond counter is in force for the next
    24 hours and is expired from 65.536 seconds after them on, for as long as the counter's
    difference keeps its sign. *)
Theorem lease_lasts_a_day l now dt :
  is_u32 now → 0 <= dt < 2147483648 →
  expiry l = u16 (Z.shiftr (u32 (now + DEFAULT_LEASE_TIME_S * 1000)) 16) →
  (dt <= 86400000 → expired l (u32 (now + dt)) = false) ∧
  (86400000 + 65536 <= dt → expired l (u32 (now + dt)) = true).
Proof.
  unfold is_u32. intros Hn Hdt El. unfold DEFAULT_LEASE_TIME_S in El.
  change (24 * 60 * 60 * 1000) with 86400000 in El.
  rewrite Z.shiftr_div_pow2 in El by lia. change (2 ^ 16) with 65536 in El.
  unfold expired. rewrite El, lor_shift by lia. change (2 ^ 16) with 65536.
  set (T := u32 (now + 86400000)). assert (0 <= T < 4294967296) as HT by (apply u32_range).
  assert (∃ k, T = now + 86400000 - 4294967296 * k) as [k Hk].
  { unfold T, u32. exists ((now + 86400000) / 4294967296). zdiv. }
  assert (∃ k', u32 (now + dt) = now + dt - 4294967296 * k') as [k' Hk'].
  { unfold u32. exists ((now + dt) / 4294967296). zdiv. }
  rewrite (u16_id (T / 65536)) by (unfold is_u16; zdiv). rewrite Hk'. clearbody T.
  set (x := u32 (T / 65536 * 65536 + 65535) - (now + dt - 4294967296 * k')).
  assert (∃ m e, x = 86400000 - dt + e + 4294967296 * m ∧ 0 <= e <= 65535) as (m & e & Ex & He).
  { unfold x, u32. exists (k' - k), (T / 65536 * 65536 + 65535 - T). zdiv. }
  unfold s32, u32. rewrite Ex. split; intros H.
  - replace ((86400000 - dt + e + 4294967296 * m) mod 4294967296) with (86400000 - dt + e) by zdiv.
    rewrite (proj2 (Z.ltb_lt _ 2147483648)) by lia. apply Z.ltb_ge. lia.
  - replace ((86400000 - dt + e + 4294967296 * m) mod 4294967296)
      with (86400000 - dt + e + 4294967296) by zdiv.
    rewrite (proj2 (Z.ltb_ge _ 2147483648)) by lia. apply Z.ltb_lt. lia.
Qed.

Lemma lease_lasts_a_day_witness :
  expiry (mkLease zero_mac 1318) = u16 (Z.shiftr (u32 (5000 + DEFAULT_LEASE_TIME_S * 1000)) 16) ∧
  (86400000 <= 86400000 → expired (mkLease zero_mac 1318) (u32 (5000 + 86400000)) = false) ∧
  (86400000 + 65536 <= 86400000 → expired (mkLease zero_mac 1318) (u32 (5000 + 86400000)) = true).
Proof.
  split; [reflexivity|].
  apply (lease_lasts_a_day (mkLease zero_mac 1318) 5000 86400000); [unfold is_u32; lia|lia|reflexivity].
Defined.

(** ** The end of the options *)

Lemma opt_find_zeros k fuel p q cmd : cmd ≠ 0 → zlen q + Z.of_nat (2 * k + 1) = 308 → (k < fuel)%nat →
  opt_find_loop fuel (p ++ q ++ replicate (2 * k + 1) 0) (zlen p) cmd (zlen q) = Ub.
Proof.
  intros Hc. revert fuel q. induction k as [|k IH]; intros fuel q Hl Hf;
    (destruct fuel as [|fuel]; [lia|]); cbn [opt_find_loop];
    rewrite (proj2 (Z.ltb_lt _ _)) by lia; cbn [negb];
    replace (zlen p + zlen q) with (zlen (p ++ q)) by lens; rewrite app_assoc.
  - change (replicate (2 * 0 + 1) 0) with [0]. rewrite rd_app, bind_ok. change (0 =? DHCP_OPT_END) with false.
    rewrite (proj2 (Z.eqb_neq 0 cmd)), rd_oob by (lia || lens). done.
  - replace (2 * S k + 1)%nat with (S (S (2 * k + 1))) by lia. cbn [replicate].
    rewrite rd_app, bind_ok. change (0 =? DHCP_OPT_END) with false. rewrite (proj2 (Z.eqb_neq 0 cmd)) by lia.
    rewrite (rd_suffix (p ++ q) _ 1), bind_ok by (cbn; lia). change (Z.to_nat 1) with 1%nat. cbn [nth].
    specialize (IH fuel (q ++ [0; 0])). rewrite <- !app_assoc in *. cbn [app] in *.
    replace (zlen q + (2 + 0)) with (zlen (q ++ [0; 0])) by lens. apply IH; [lens|lia].
Qed.

(** A DHCPREQUEST that fills the message, whose options after the message type are pads without
    an end mark, makes [opt_find] read one byte past the 312-byte options array: the loop tests
    the index of an option's code but then reads its length byte as well. *)
Theorem opt_find_reads_past_options stack ticks alloc_ok r d :
  length stack = 548%nat → request_wf r → dhcp_inv d →
  rq_options r = [DHCP_OPT_MSG_TYPE; 1; DHCPREQUEST] ++ replicate 305 0 →
  dhcp_server_process stack ticks alloc_ok (request_bytes r) d = Ub.
Proof.
  intros Hs Hr Hd Ho. rewrite process_unfold by done. cbn zeta.
  assert (nth 2 (rq_options r) 0 = DHCPREQUEST) as -> by (rewrite Ho; done).
  cbn [DHCPREQUEST DHCPDISCOVER Z.eqb Pos.eqb]. unfold off_options. change (236 + 4) with 240.
  destruct (message_options stack r d Hs Hr Hd) as (p & t & Em & Hp).
  destruct (message_ok stack r d Hs Hr Hd) as [_ Hlen]. rewrite Em, Ho in Hlen |- *.
  rewrite (take_ge (_ ++ replicate 305 0)) in Hlen |- * by done. destruct t; [|rewrite !length_app, length_replicate in Hlen; cbn in Hlen; lia].
  rewrite app_nil_r, <- Hp. unfold opt_find.
  assert (opt_find_loop 154 (p ++ [DHCP_OPT_MSG_TYPE; 1; DHCPREQUEST] ++ replicate 305 0) (zlen p)
    DHCP_OPT_REQUESTED_IP 0 = opt_find_loop 153 (p ++ [DHCP_OPT_MSG_TYPE; 1; DHCPREQUEST] ++ replicate 305 0)
      (zlen p) DHCP_OPT_REQUESTED_IP 3) as ->.
  { set (z := replicate 305 0). clearbody z. cbn [opt_find_loop app].
    change (0 <? 308) with true. cbn [negb]. rewrite Z.add_0_r, rd_app, bind_ok.
    rewrite (rd_suffix p _ 1) by (cbn; lia). done. }
  rewrite (opt_find_zeros 152 153 p [DHCP_OPT_MSG_TYPE; 1; DHCPREQUEST]); [done|done|cbn; lia|lia].
Qed.

Lemma opt_find_reads_past_options_witness :
  rq_options (demo_request ([53; 1; 3] ++ replicate 305 0)) = [53; 1; 3] ++ replicate 305 0 ∧
  dhcp_server_process (replicate 548 0) (λ _, 5000) true
    (request_bytes (demo_request ([53; 1; 3] ++ replicate 305 0))) demo_dhcp = Ub.
Proof.
  split; [reflexivity|].
  apply (opt_find_reads_past_options (replicate 548 0) (λ _, 5000) true
    (demo_request ([53; 1; 3] ++ replicate 305 0)) demo_dhcp);
    [reflexivity|apply demo_request_wf; cbn; lia|exact demo_dhcp_inv|reflexivity].
Defined.
