(* ===== verification/Dns.v ===== *)
(** The DNS server of the configuration access point (src/dns/dnsserver.cpp) and
    [get_next_domain_name_component] (src/src/settings.cpp).  The received packet is the region of
    the 1536 bytes of the static [packet]; addresses are their four bytes in memory; a C string is
    the region of its characters and the NUL. *)
From S2P Require Import Prelude CString.

(** ** Settings and components of the domain name *)

Record dns_settings := mkDns {
  primary_ip : list Z; secondary_ip : list Z; host_name : list Z; domain_name : list Z;
  ignore_network_suffix : bool }.

(** [get_next_domain_name_component]: the component's offset if there is one, and [*position] and
    [*length] after the call. *)
Definition get_next_domain_name_component (s : list Z) (position length : Z)
  : outcome (option Z * Z * Z) :=
  p ← strchr s position 46;
  match p with
  | Some p => Ok (Some position, p + 1, p - position)
  | None =>
      c ← rd s position;
      if negb (c =? 0) then
        r ← c_str (drop (Z.to_nat position) s);
        Ok (Some position, position + zlen r, zlen r)
      else Ok (None, position, length)
  end.

(** ** Reading a name *)

(** [get_encoded_domain_name_component]: the offset of the component's first character if there is
    one, [*offset] and [*component_len].  [fuel] bounds the turns of the loop. *)
Fixpoint get_encoded_domain_name_component (fuel : nat) (buffer : list Z) (i offset max_input_size clen : Z)
  : outcome (option Z * Z * Z) :=
  match fuel with
  | O => OutOfFuel
  | S fuel =>
      if negb (i <? max_input_size) then Ok (None, offset, clen)
      else
        b ← rd buffer i;
        if negb (Z.land b 0xC0 =? 0) then
          b1 ← rd buffer (i + 1);
          get_encoded_domain_name_component fuel buffer (Z.lor (Z.shiftl (Z.land b 0x3F) 8) b1)
            offset max_input_size clen
        else
          let len := Z.land b 0x3F in
          if max_input_size <=? i + len then Ok (None, offset, clen)
          else if len =? 0 then Ok (None, offset, clen)
          else Ok (Some (i + 1), i + 1 + len, len)
  end.

(** [strncasecmp(a, b, n) == 0] *)
Definition tolower (c : Z) : Z := if (65 <=? c) && (c <=? 90) then c + 32 else c.

Fixpoint strncasecmp_eq (n : nat) (a b : list Z) : outcome bool :=
  match n with
  | O => Ok true
  | S n =>
      match a, b with
      | x :: a, y :: b =>
          if negb (tolower x =? tolower y) then Ok false
          else if x =? 0 then Ok true else strncasecmp_eq n a b
      | _, _ => Ub
      end
  end.

(** The state of the loop of [get_address_for_encoded_domain]; [domain_comp] is an offset into the
    domain name. *)
Record lookup_state := mkLookup {
  offset : Z; is_match : bool; loose_match : bool; domain_comp : option Z; domain_off : Z; domain_len : Z }.

(** One component at [p] of [len] characters; [first] is [i == 0]. *)
Definition match_component (st : dns_settings) (buffer : list Z) (first : bool) (p len : Z)
    (s : lookup_state) : outcome lookup_state :=
  let component := drop (Z.to_nat p) buffer in
  eq0 ← (if first then strncasecmp_eq (Z.to_nat len) component (host_name st) else Ok false);
  if (eq0 : bool) then
    Ok (mkLookup (offset s) true (if ignore_network_suffix st then true else loose_match s)
          (domain_comp s) (domain_off s) (domain_len s))
  else
    eq1 ← (if negb first && is_match s then
             match domain_comp s with
             | Some dc => if len =? domain_len s
                          then strncasecmp_eq (Z.to_nat len) component (drop (Z.to_nat dc) (domain_name st))
                          else Ok false
             | None => Ok false
             end
           else Ok false);
    if (eq1 : bool) then
      '(dc, off, dl) ← get_next_domain_name_component (domain_name st) (domain_off s) (domain_len s);
      Ok (mkLookup (offset s) true (loose_match s) dc off dl)
    else Ok (mkLookup (offset s) false (loose_match s) (domain_comp s) (domain_off s) (domain_len s)).

(** The loop; [jumps] bounds the turns of the component reader. *)
Fixpoint lookup_loop (fuel jumps : nat) (st : dns_settings) (buffer : list Z) (buffer_size : Z)
    (first : bool) (clen : Z) (s : lookup_state) : outcome (list Z) :=
  match fuel with
  | O => OutOfFuel
  | S fuel =>
      '(c, off, clen) ← get_encoded_domain_name_component jumps buffer (offset s) (offset s) buffer_size clen;
      match c with
      | Some p =>
          s ← match_component st buffer first p clen
                (mkLookup off (is_match s) (loose_match s) (domain_comp s) (domain_off s) (domain_len s));
          lookup_loop fuel jumps st buffer buffer_size false clen s
      | None => Ok (if is_match s || loose_match s then primary_ip st else secondary_ip st)
      end
  end.

Definition get_address_for_encoded_domain (fuel jumps : nat) (st : dns_settings) (buffer : list Z)
    (off buffer_size : Z) : outcome (list Z) :=
  '(dc, doff, dlen) ← get_next_domain_name_component (domain_name st) 0 0;
  lookup_loop fuel jumps st buffer buffer_size true 0 (mkLookup off false false dc doff dlen).

(** ** The server *)

Definition sizeof_DNSHeader : Z := 12.
Definition sizeof_IPResourceRecord : Z := 14.
Definition sizeof_packet : Z := 1536.

(** The fields of [DNSHeader] the code tests: [QR] and [OPCode] are bits of the third byte. *)
Definition header_QR (b2 : Z) : Z := b2 / 128.
Definition header_OPCode (b2 : Z) : Z := b2 / 8 mod 16.

(** The guards on a received packet of [done] bytes. *)
Definition is_query (packet : list Z) (received : Z) : outcome bool :=
  if (sizeof_DNSHeader <=? u32 received) && (u32 received <? sizeof_packet - sizeof_IPResourceRecord - 2) then
    b2 ← rd packet 2;
    counts ← rd_n packet 4 8;
    Ok ((header_QR b2 =? 0) && (header_OPCode b2 =? 0) && bool_decide (counts = [0; 1; 0; 0; 0; 0; 0; 0]))
  else Ok false.

(** The resource record in memory: type A, class IN, one second, the address. *)
Definition resource_record (addr : list Z) : list Z := [0; 1; 0; 1; 0; 0; 0; 1; 0; 4] ++ addr.

(** One turn of [dns_server_thread]: the packet afterwards and what is sent back. *)
Definition dns_turn (fuel jumps : nat) (st : dns_settings) (packet : list Z) (received : Z)
  : outcome (list Z * option (list Z)) :=
  ok ← is_query packet received;
  if negb ok then Ok (packet, None)
  else
    b2 ← rd packet 2;
    packet ← wr packet 2 (Z.lor b2 128);
    packet ← wr_n packet 6 [0; 1];
    let ptr := received - sizeof_DNSHeader in
    packet ← wr packet (sizeof_DNSHeader + ptr) 0xC0;
    packet ← wr packet (sizeof_DNSHeader + ptr + 1) sizeof_DNSHeader;
    addr ← get_address_for_encoded_domain fuel jumps st packet sizeof_DNSHeader received;
    packet ← wr_n packet (sizeof_DNSHeader + ptr + 2) (resource_record addr);
    out ← rd_n packet 0 (ptr + 2 + sizeof_IPResourceRecord + sizeof_DNSHeader);
    Ok (packet, Some out).

(** ** What a name means *)

(** The components of a domain name between its dots. *)
Fixpoint components_from (acc s : list Z) : list (list Z) :=
  match s with
  | [] => match acc with [] => [] | _ => [acc] end
  | c :: s => if c =? 46 then acc :: components_from [] s else components_from (acc ++ [c]) s
  end.
Definition components (s : list Z) : list (list Z) := components_from [] s.

(** A name on the wire: each label behind its length, then a zero. *)
Definition label_bytes (l : list Z) : list Z := zlen l :: l.
Definition name_bytes (labels : list (list Z)) : list Z := concat (map label_bytes labels) ++ [0].
Definition label_ok (l : list Z) : Prop := 0 < zlen l < 64 ∧ no_nul l.

Definition same_name (a b : list Z) : bool := bool_decide (map tolower a = map tolower b).

(** The labels after the host name, against the domain's components: as far as both go. *)
Fixpoint suffix_matches (labels comps : list (list Z)) : bool :=
  match labels, comps with
  | [], _ => true
  | l :: ls, c :: cs => same_name l c && suffix_matches ls cs
  | _ :: _, [] => false
  end.

(** Is the name taken for the server's own?  Its first label need only be a prefix of the host
    name. *)
Definition is_own_name (st_host st_domain : list Z) (ignore : bool) (labels : list (list Z)) : bool :=
  match labels with
  | [] => false
  | l :: ls => same_name l (take (length l) st_host) && (ignore || suffix_matches ls (components st_domain))
  end.

(** ** Components of the domain name *)

Lemma components_from_dot acc c r : 46 ∉ c → components_from acc (c ++ 46 :: r) = (acc ++ c) :: components r.
Proof.
  revert acc. induction c as [|x c IH]; intros acc H; [by rewrite app_nil_r|].
  apply not_elem_of_cons in H as [Hx H]. cbn [app components_from].
  rewrite (proj2 (Z.eqb_neq x 46)), IH by congruence. by rewrite <- app_assoc.
Qed.

Lemma components_from_last acc c : 46 ∉ c → acc ++ c ≠ [] → components_from acc c = [acc ++ c].
Proof.
  revert acc. induction c as [|x c IH]; intros acc H Hne.
  - rewrite app_nil_r in *. by destruct acc.
  - apply not_elem_of_cons in H as [Hx H]. cbn [components_from].
    rewrite (proj2 (Z.eqb_neq x 46)), IH by (congruence || by destruct acc). by rewrite <- app_assoc.
Qed.

(** A string is empty, one component, or a component, a dot and the rest. *)
Lemma component_cases s :
  s = [] ∨ (s ≠ [] ∧ (46 ∉ s) ∧ components s = [s]) ∨
  ∃ c r, s = c ++ 46 :: r ∧ (46 ∉ c) ∧ components s = c :: components r.
Proof.
  destruct (decide (46 ∈ s)) as [H|H].
  - right. right. apply list_elem_of_split_l in H as (c & r & -> & Hc). exists c, r.
    split_and!; [done..|]. by apply (components_from_dot []).
  - destruct s as [|x s]; [by left|]. right. left. split_and!; [done..|]. by apply (components_from_last []).
Qed.

(** The reader of the domain name stands before the components [comps]: it has given the first one
    and will give the others. *)
Definition at_component (dom : list Z) (comps : list (list Z)) (dc : option Z) (off len : Z) : Prop :=
  match comps with
  | [] => dc = None
  | c :: cs => ∃ p x pre rest, dc = Some p ∧ len = zlen c ∧ no_nul c ∧ drop (Z.to_nat p) dom = c ++ x ∧
      dom = pre ++ rest ++ [0] ∧ off = zlen pre ∧ no_nul rest ∧ components rest = cs
  end.

Lemma get_next_component pre rest len : no_nul rest →
  ∃ dc off len', get_next_domain_name_component (pre ++ rest ++ [0]) (zlen pre) len = Ok (dc, off, len') ∧
    at_component (pre ++ rest ++ [0]) (components rest) dc off len'.
Proof.
  intros Hn. unfold get_next_domain_name_component, strchr. rewrite Nat2Z.id, drop_app_length.
  destruct (component_cases rest) as [->|[(Hne & Hd & ->)|(c & r & -> & Hd & ->)]].
  - exists None, (zlen pre), len. split; [|done]. cbn. by rewrite rd_app.
  - rewrite (strchr_from_absent 46 rest [] _ Hn Hd), bind_ok by done. cbn beta iota zeta.
    destruct rest as [|x rest]; [done|]. pose proof (Forall_inv Hn) as Hx. cbn [app].
    rewrite rd_app, bind_ok, (proj2 (Z.eqb_neq x 0)) by done. cbn [negb].
    pose proof (c_str_app (x :: rest) [] Hn) as E. cbn [app] in E. rewrite E, bind_ok.
    eexists _, _, _. split; [done|]. exists (zlen pre), [0], (pre ++ x :: rest), [].
    split_and!; [done|done|done|by rewrite Nat2Z.id, drop_app_length|by rewrite <- app_assoc|lens|constructor|done].
  - apply Forall_app in Hn as [Hc Hr]. apply Forall_cons in Hr as [_ Hr]. rewrite <- app_assoc. cbn [app].
    rewrite (strchr_from_found 46 c (r ++ [0]) _ Hc Hd), bind_ok. cbn beta iota zeta.
    eexists _, _, _. split; [done|].
    exists (zlen pre), (46 :: r ++ [0]), (pre ++ c ++ [46]), r.
    split_and!; [done|lia|done|by rewrite Nat2Z.id, drop_app_length|by rewrite <- !app_assoc|lens|done|done].
Qed.

(** ** Comparing names *)

Lemma tolower_0 c : tolower c = 0 ↔ c = 0.
Proof.
  unfold tolower. destruct (Z.leb_spec 65 c), (Z.leb_spec c 90); cbn [andb]; lia.
Qed.

Lemma same_name_cons x l y h : same_name (x :: l) (y :: h) = (tolower x =? tolower y) && same_name l h.
Proof.
  unfold same_name. cbn [map]. destruct (Z.eqb_spec (tolower x) (tolower y)) as [E|E]; cbn [andb].
  - apply bool_decide_ext. rewrite E. split; [by intros [=]|by intros ->].
  - apply bool_decide_eq_false. congruence.
Qed.

(** Against a string at least as long. *)
Lemma strncasecmp_long l r c x : no_nul l → length l = length c →
  strncasecmp_eq (length l) (l ++ r) (c ++ x) = Ok (same_name l c).
Proof.
  intros Hl. revert c. induction Hl as [|a l Ha Hl IH]; intros c E; (destruct c as [|b c]; [|]); try done.
  cbn [length strncasecmp_eq app] in *. rewrite same_name_cons.
  destruct (tolower a =? tolower b); cbn [negb andb]; [|done].
  rewrite (proj2 (Z.eqb_neq a 0) Ha). apply IH. lia.
Qed.

(** Against a C string: a prefix test. *)
Lemma strncasecmp_cstr l r h x : no_nul l → no_nul h →
  strncasecmp_eq (length l) (l ++ r) (h ++ 0 :: x) = Ok (same_name l (take (length l) h)).
Proof.
  intros Hl. revert h. induction Hl as [|a l Ha Hl IH]; intros h Hh; [done|].
  cbn [length strncasecmp_eq app]. destruct h as [|b h]; cbn [app take].
  - assert (tolower a ≠ 0) by (by rewrite tolower_0).
    change (tolower 0) with 0. by rewrite (proj2 (Z.eqb_neq _ 0)).
  - apply Forall_cons in Hh as [Hb Hh]. rewrite same_name_cons.
    destruct (tolower a =? tolower b); cbn [negb andb]; [|done].
    rewrite (proj2 (Z.eqb_neq a 0) Ha). by apply IH.
Qed.

(** ** Reading a name *)

Lemma label_length_byte n : 0 <= n < 64 → Z.land n 0xC0 = 0 ∧ Z.land n 0x3F = n.
Proof.
  intros Hn. assert (is_u8 n) as Hu by (unfold is_u8; lia).
  pose proof (byte_check (λ n, (64 <=? n) || ((Z.land n 0xC0 =? 0) && (Z.land n 0x3F =? n)))
    ltac:(vm_compute; done) n Hu) as H. cbn beta in H.
  destruct (Z.leb_spec 64 n); [lia|]. cbn [orb] in H. apply andb_prop in H as [H1 H2].
  by apply Z.eqb_eq in H1, H2.
Qed.

Lemma read_label jumps q l r max clen : label_ok l → zlen q + zlen l < max →
  get_encoded_domain_name_component (S jumps) (q ++ label_bytes l ++ r) (zlen q) (zlen q) max clen
    = Ok (Some (zlen q + 1), zlen q + 1 + zlen l, zlen l).
Proof.
  intros [Hl _] Hm. cbn [get_encoded_domain_name_component label_bytes app].
  rewrite (proj2 (Z.ltb_lt _ _)) by lia. cbn [negb]. rewrite rd_app, bind_ok.
  destruct (label_length_byte (zlen l)) as [-> ->]; [lia|]. cbn [Z.eqb negb].
  rewrite (proj2 (Z.leb_gt _ _)), (proj2 (Z.eqb_neq (zlen l) 0)) by lia. done.
Qed.

Lemma read_end jumps q r max clen : zlen q < max →
  get_encoded_domain_name_component (S jumps) (q ++ 0 :: r) (zlen q) (zlen q) max clen
    = Ok (None, zlen q, clen).
Proof.
  intros Hm. cbn [get_encoded_domain_name_component].
  rewrite (proj2 (Z.ltb_lt _ _)) by lia. cbn [negb]. rewrite rd_app, bind_ok.
  change (Z.land 0 192 =? 0) with true. change (Z.land 0 63) with 0. cbn [negb].
  by rewrite (proj2 (Z.leb_gt max (zlen q + 0))) by lia.
Qed.

Section Names.
Context (st : dns_settings) (host domain : list Z).
Context (Hhost : host_name st = host ++ [0]) (Hdomain : domain_name st = domain ++ [0]).
Context (Hh : no_nul host) (Hd : no_nul domain).

(** The branch [match = false]. *)
Ltac no_match := eexists; split; [reflexivity|split_and!; done].

(** One label after the first. *)
Lemma match_rest buffer p l r s comps : label_ok l → drop (Z.to_nat p) buffer = l ++ r →
  (is_match s = true → at_component (domain_name st) comps (domain_comp s) (domain_off s) (domain_len s)) →
  ∃ s', match_component st buffer false p (zlen l) s = Ok s' ∧ offset s' = offset s ∧
    loose_match s' = loose_match s ∧
    is_match s' = is_match s && suffix_matches [l] comps ∧
    (is_match s' = true → at_component (domain_name st) (tail comps) (domain_comp s') (domain_off s') (domain_len s')).
Proof.
  intros [_ Hl] Hp Hc. unfold match_component. rewrite bind_ok. cbn [negb andb]. rewrite Nat2Z.id, Hp.
  destruct (is_match s); [|no_match].
  specialize (Hc eq_refl). destruct comps as [|c cs]; cbn [at_component suffix_matches andb] in *.
  - rewrite Hc. no_match.
  - destruct Hc as (pc & x & pre & rest & -> & Hlen & Hcn & Hdrop & Hdom & Hoff & Hrest & Hcs).
    rewrite Hlen, Hdrop, andb_true_r. destruct (Z.eqb_spec (zlen l) (zlen c)) as [El|El].
    + rewrite (strncasecmp_long l r c x Hl), bind_ok by lia.
      destruct (same_name l c); [|no_match].
      destruct (get_next_component pre rest (zlen c) Hrest) as (dc & off & len' & E & Hat).
      rewrite Hdom, Hoff, E, bind_ok. eexists. split; [done|]. split_and!; try done.
      cbn [tail domain_comp domain_off domain_len]. intros _. by rewrite <- Hcs.
    + assert (same_name l c = false) as ->.
      { apply bool_decide_eq_false. intros E. apply (f_equal length) in E. rewrite !length_map in E. lia. }
      rewrite bind_ok. no_match.
Qed.

Lemma suffix_matches_cons l ls comps : suffix_matches (l :: ls) comps = suffix_matches [l] comps && suffix_matches ls (tail comps).
Proof. destruct comps; [done|]. cbn. by rewrite andb_true_r. Qed.

(** The labels after the first. *)
Lemma lookup_rest labels fuel jumps q r max clen s comps :
  Forall label_ok labels → (length labels < fuel)%nat → offset s = zlen q →
  zlen q + zlen (name_bytes labels) <= max →
  (is_match s = true → at_component (domain_name st) comps (domain_comp s) (domain_off s) (domain_len s)) →
  lookup_loop fuel (S jumps) st (q ++ name_bytes labels ++ r) max false clen s =
    Ok (if (is_match s && suffix_matches labels comps) || loose_match s then primary_ip st else secondary_ip st).
Proof.
  intros Hl. revert fuel q clen s comps. induction Hl as [|l labels Hl Hls IH]; intros fuel q clen s comps Hf Ho Hm Hc;
    (destruct fuel as [|fuel]; [cbn in Hf; lia|]); cbn [lookup_loop]; rewrite Ho.
  - change (name_bytes [] ++ r) with (0 :: r). rewrite read_end, bind_ok by (cbn in Hm; lia).
    cbn [suffix_matches]. by rewrite andb_true_r.
  - change (name_bytes (l :: labels)) with ((label_bytes l ++ concat (map label_bytes labels)) ++ [0]) in *.
    rewrite <- !app_assoc in *. change (concat (map label_bytes labels) ++ [0] ++ r)
      with (concat (map label_bytes labels) ++ ([0] ++ r)).
    rewrite (app_assoc _ [0]). change (concat (map label_bytes labels) ++ [0]) with (name_bytes labels) in *.
    assert (zlen (label_bytes l) = 1 + zlen l) as Ell by (cbn; lia).
    rewrite (read_label jumps q l _ max clen Hl), bind_ok by lens. cbn beta iota.
    destruct (match_rest (q ++ label_bytes l ++ name_bytes labels ++ r) (zlen q + 1) l (name_bytes labels ++ r)
      (mkLookup (zlen q + 1 + zlen l) (is_match s) (loose_match s) (domain_comp s) (domain_off s) (domain_len s))
      comps Hl) as (s' & E & Eo & Elo & Em & Hat); [|done|].
    { replace (Z.to_nat (zlen q + 1)) with (length (q ++ [zlen l])) by lens.
      change (label_bytes l) with ([zlen l] ++ l). rewrite <- app_assoc, (app_assoc q), drop_app_length. done. }
    rewrite E, bind_ok. cbn [offset loose_match is_match] in *.
    rewrite (app_assoc q).
    rewrite (IH fuel (q ++ label_bytes l) (zlen l) s' (tail comps)); [|cbn in Hf; lia|lens|lens|done].
    rewrite Em, Elo, (suffix_matches_cons l labels comps). by rewrite andb_assoc.
Qed.

(** The first label against the host name. *)
Lemma match_first buffer p l r s : label_ok l → drop (Z.to_nat p) buffer = l ++ r →
  match_component st buffer true p (zlen l) s =
    Ok (if same_name l (take (length l) host)
        then mkLookup (offset s) true (if ignore_network_suffix st then true else loose_match s)
               (domain_comp s) (domain_off s) (domain_len s)
        else mkLookup (offset s) false (loose_match s) (domain_comp s) (domain_off s) (domain_len s)).
Proof.
  intros [_ Hl] Hp. unfold match_component. rewrite Nat2Z.id, Hp, Hhost.
  pose proof (strncasecmp_cstr l r host [] Hl Hh) as E. cbn [app] in E. rewrite E, bind_ok.
  by destruct (same_name _ _).
Qed.

Lemma address_of_name labels fuel jumps q r max :
  Forall label_ok labels → (length labels < fuel)%nat → zlen q + zlen (name_bytes labels) <= max →
  get_address_for_encoded_domain fuel (S jumps) st (q ++ name_bytes labels ++ r) (zlen q) max =
    Ok (if is_own_name host domain (ignore_network_suffix st) labels then primary_ip st else secondary_ip st).
Proof.
  intros Hl Hf Hm. unfold get_address_for_encoded_domain. rewrite Hdomain.
  destruct (get_next_component [] domain 0 Hd) as (dc & off & len & E & Hat). cbn [app] in E, Hat.
  change (zlen []) with 0 in E. rewrite E, bind_ok. cbn beta iota.
  destruct fuel as [|fuel]; [lia|]. cbn [lookup_loop offset].
  destruct Hl as [|l labels Hl Hls].
  - change (name_bytes [] ++ r) with (0 :: r). rewrite read_end, bind_ok by (cbn in Hm; lia). done.
  - change (name_bytes (l :: labels)) with ((label_bytes l ++ concat (map label_bytes labels)) ++ [0]) in *.
    rewrite <- !app_assoc in *. change (concat (map label_bytes labels) ++ [0] ++ r)
      with (concat (map label_bytes labels) ++ ([0] ++ r)).
    rewrite (app_assoc _ [0]). change (concat (map label_bytes labels) ++ [0]) with (name_bytes labels) in *.
    assert (zlen (label_bytes l) = 1 + zlen l) as Ell by (cbn; lia).
    rewrite (read_label jumps q l _ max 0 Hl), bind_ok by lens. cbn beta iota.
    cbn [offset is_match loose_match domain_comp domain_off domain_len].
    rewrite (match_first _ _ l (name_bytes labels ++ r) _ Hl), bind_ok.
    2:{ replace (Z.to_nat (zlen q + 1)) with (length (q ++ [zlen l])) by lens.
        change (label_bytes l) with ([zlen l] ++ l). rewrite <- app_assoc, (app_assoc q), drop_app_length. done. }
    cbn [is_own_name offset is_match loose_match domain_comp domain_off domain_len].
    rewrite (app_assoc q).
    rewrite (lookup_rest labels fuel jumps (q ++ label_bytes l) r max (zlen l) _ (components domain));
      [|done|cbn in Hf; lia|destruct (same_name _ _); cbn [offset]; lens|lens|].
    + destruct (same_name _ _); cbn [is_match loose_match andb orb]; [|done].
      destruct (ignore_network_suffix st), (suffix_matches _ _); done.
    + rewrite Hdomain. by destruct (same_name _ _).
Qed.
End Names.

(** ** Queries *)

Record dns_ok (st : dns_settings) (host domain : list Z) : Prop := {
  ok_host : host_name st = host ++ [0] ∧ no_nul host;
  ok_domain : domain_name st = domain ++ [0] ∧ no_nul domain;
  ok_ips : length (primary_ip st) = 4%nat ∧ length (secondary_ip st) = 4%nat;
}.

(** A query with one question: identifier, flags, counts, then the name and the rest of the
    question. *)
Definition query_head (id : list Z) (b2 b3 : Z) : list Z := id ++ [b2; b3] ++ [0; 1; 0; 0; 0; 0; 0; 0].

(** The answer: response flag set, one answer counted, the question as it was, the record with a
    pointer to the name. *)
Definition answer (id : list Z) (b2 b3 : Z) (question addr : list Z) : list Z :=
  id ++ [b2 + 128; b3] ++ [0; 1; 0; 1; 0; 0; 0; 0] ++ question ++ [0xC0; 12] ++ resource_record addr.

Lemma wr_mid p x l r i : i = zlen p → wr_n (p ++ x ++ r) i l = if decide (length l = length x)
  then Ok (p ++ l ++ r) else wr_n (p ++ x ++ r) i l.
Proof.
  intros ->. case_decide as E; [|done]. rewrite wr_n_app by (rewrite length_app; lia).
  by rewrite E, drop_app_length.
Qed.

Lemma set_response b2 : 0 <= b2 < 128 → Z.lor b2 128 = b2 + 128.
Proof. apply lor_128. Qed.

(** The packet when the name is looked up. *)
Definition answered_head (id : list Z) (b2 b3 : Z) : list Z := id ++ [b2 + 128; b3] ++ [0; 1; 0; 1; 0; 0; 0; 0].

(** The steps of a turn up to the lookup, and after it. *)
Lemma dns_turn_unfold fuel jumps st id b2 b3 body junk :
  length id = 2%nat → 0 <= b2 < 128 → b2 / 8 mod 16 = 0 →
  zlen (query_head id b2 b3 ++ body ++ junk) = 1536 → 12 + zlen body < 1520 →
  dns_turn fuel jumps st (query_head id b2 b3 ++ body ++ junk) (12 + zlen body) =
    addr ← get_address_for_encoded_domain fuel jumps st
             (answered_head id b2 b3 ++ body ++ [0xC0; 12] ++ drop 2 junk) 12 (12 + zlen body);
    packet ← wr_n (answered_head id b2 b3 ++ body ++ [0xC0; 12] ++ drop 2 junk) (12 + zlen body + 2)
               (resource_record addr);
    out ← rd_n packet 0 (12 + zlen body + 16); Ok (packet, Some out).
Proof.
  intros Hid Hb2 Hop Hlen Hl. destruct id as [|i0 [|i1 [|]]]; try done.
  destruct junk as [|j0 [|j1 junk]]; [unfold query_head in Hlen; rewrite !length_app in Hlen; cbn [length] in Hlen; lia..|].
  cbn [drop]. rewrite drop_0. unfold dns_turn, is_query, sizeof_packet, sizeof_IPResourceRecord, sizeof_DNSHeader.
  rewrite u32_id by (unfold is_u32; lia).
  rewrite (proj2 (Z.leb_le _ _)), (proj2 (Z.ltb_lt _ _)) by lia. cbn [andb].
  unfold query_head. cbn [app].
  change (rd (i0 :: i1 :: b2 :: ?r) 2) with (Ok b2). rewrite !bind_ok.
  pose proof (rd_n_app [i0; i1; b2; b3] [0; 1; 0; 0; 0; 0; 0; 0] (body ++ j0 :: j1 :: junk)) as E.
  cbn [app length] in E. change (Z.of_nat 4) with 4 in E. change (Z.of_nat 8) with 8 in E.
  rewrite E, bind_ok. clear E. unfold header_QR, header_OPCode. rewrite Hop.
  replace (b2 / 128) with 0 by zdiv. cbn [Z.eqb andb]. rewrite bool_decide_true, !bind_ok by done. cbn [negb].
  rewrite set_response by done. unfold wr.
  pose proof (wr_n_app [i0; i1] (b2 :: b3 :: 0 :: 1 :: 0 :: 0 :: 0 :: 0 :: 0 :: 0 :: body ++ j0 :: j1 :: junk)
    [b2 + 128] ltac:(cbn; lia)) as E.
  cbn [app length drop] in E. change (Z.of_nat 2) with 2 in E. rewrite E, bind_ok. clear E.
  pose proof (wr_n_app [i0; i1; b2 + 128; b3; 0; 1] (0 :: 0 :: 0 :: 0 :: 0 :: 0 :: body ++ j0 :: j1 :: junk)
    [0; 1] ltac:(cbn; lia)) as E.
  cbn [app length drop] in E. change (Z.of_nat 6) with 6 in E. rewrite E, bind_ok. clear E.
  set (hd := answered_head [i0; i1] b2 b3). assert (zlen hd = 12) as Hhd by done.
  change (i0 :: i1 :: b2 + 128 :: b3 :: 0 :: 1 :: 0 :: 1 :: 0 :: 0 :: 0 :: 0 :: body ++ j0 :: j1 :: junk)
    with (hd ++ body ++ j0 :: j1 :: junk).
  clearbody hd. replace (12 + (12 + zlen body - 12)) with (zlen (hd ++ body)) by lens.
  rewrite app_assoc, wr_n_app, bind_ok by (cbn; lia). cbn [length drop].
  replace (zlen (hd ++ body) + 1) with (zlen ((hd ++ body) ++ [192])) by lens.
  rewrite (app_assoc (hd ++ body)), wr_n_app, bind_ok by (cbn; lia). cbn [length drop]. rewrite drop_0.
  rewrite <- !app_assoc. cbn [app].
  destruct (get_address_for_encoded_domain _ _ _ _ _ _); [|done..]. rewrite !bind_ok.
  replace (zlen (hd ++ body) + 2) with (12 + zlen body + 2) by lens.
  destruct (wr_n _ _ _); [|done..]. rewrite !bind_ok.
  replace (12 + zlen body - 12 + 2 + 14 + 12) with (12 + zlen body + 16) by lia. done.
Qed.

Lemma query_answered fuel jumps st host domain id b2 b3 labels rest junk :
  dns_ok st host domain → length id = 2%nat → 0 <= b2 < 128 → b2 / 8 mod 16 = 0 →
  Forall label_ok labels → (length labels < fuel)%nat →
  let question := name_bytes labels ++ rest in
  zlen (query_head id b2 b3 ++ question ++ junk) = 1536 → 12 + zlen question < 1520 →
  ∃ packet, dns_turn fuel (S jumps) st (query_head id b2 b3 ++ question ++ junk) (12 + zlen question) =
    Ok (packet, Some (answer id b2 b3 question
          (if is_own_name host domain (ignore_network_suffix st) labels
           then primary_ip st else secondary_ip st))) ∧ zlen packet = 1536.
Proof.
  intros [[Hh Hhn] [Hd Hdn] [Hp Hs]] Hid Hb2 Hop Hl Hf question Hlen Hq.
  rewrite dns_turn_unfold by done. set (hd := answered_head id b2 b3).
  assert (zlen hd = 12) as Hhd by (unfold hd, answered_head; lens).
  assert (zlen (query_head id b2 b3) = 12) as Hqd by (unfold query_head; lens).
  rewrite !length_app in Hlen. assert (zlen junk = 1524 - zlen question) as Hj by lia.
  pose proof (address_of_name st host domain Hh Hd Hhn Hdn labels fuel jumps hd
    (rest ++ [192; 12] ++ drop 2 junk) (12 + zlen question) Hl Hf ltac:(unfold question; lens)) as E.
  rewrite (app_assoc (name_bytes labels)) in E. fold question in E. rewrite Hhd in E.
  rewrite E, bind_ok. clear E.
  set (addr := if is_own_name _ _ _ _ then _ else _).
  assert (length addr = 4%nat) as Ha by (unfold addr; by destruct (is_own_name _ _ _ _)).
  assert (hd ++ question ++ [192; 12] ++ drop 2 junk = (hd ++ question ++ [192; 12]) ++ drop 2 junk) as ->
    by (by rewrite <- !app_assoc).
  replace (12 + zlen question + 2) with (zlen (hd ++ question ++ [192; 12])) by lens.
  rewrite wr_n_app, bind_ok by (unfold resource_record; lens).
  set (q := (hd ++ question ++ [192; 12]) ++ resource_record addr).
  pose proof (rd_n_app [] q (drop (length (resource_record addr)) (drop 2 junk))) as Er.
  unfold q in Er. rewrite <- !app_assoc in Er. rewrite <- !app_assoc. change (zlen []) with 0 in Er.
  rewrite app_nil_l in Er. replace (12 + zlen question + 16) with (zlen (hd ++ question ++ [192; 12] ++ resource_record addr))
    by (unfold resource_record; lens).
  rewrite Er, bind_ok. eexists. split.
  - do 3 f_equal. unfold answer, hd, answered_head. by rewrite <- !app_assoc.
  - unfold resource_record. lens.
Qed.

(** C29: a query with one question is answered with the question itself and one address record: the
    server's own address exactly when the first label is a prefix of the host name and, unless the
    suffix is ignored, the other labels are the first components of the domain, all without regard
    to case; otherwise the secondary address.  The answer stays inside the packet buffer. *)
Theorem dns_answers_query fuel jumps st host domain id b2 b3 labels rest junk :
  dns_ok st host domain → length id = 2%nat → 0 <= b2 < 128 → b2 / 8 mod 16 = 0 →
  Forall label_ok labels → (length labels < fuel)%nat →
  let question := name_bytes labels ++ rest in
  zlen (query_head id b2 b3 ++ question ++ junk) = 1536 → 12 + zlen question < 1520 →
  ∃ packet, dns_turn fuel (S jumps) st (query_head id b2 b3 ++ question ++ junk) (12 + zlen question) =
    Ok (packet, Some (answer id b2 b3 question
          (if is_own_name host domain (ignore_network_suffix st) labels
           then primary_ip st else secondary_ip st))) ∧ zlen packet = 1536.
Proof. apply query_answered. Qed.

Definition demo_dns : dns_settings :=
  mkDns [192; 168; 7; 1] [10; 0; 0; 1] (chars "picow" ++ [0]) (chars "home.lan" ++ [0]) false.

Lemma demo_dns_ok : dns_ok demo_dns (chars "picow") (chars "home.lan").
Proof.
  constructor; [split; [done|]|split; [done|]|done]; apply (bool_decide_unpack _); vm_compute; exact I.
Qed.

(** "PICOW.home.lan" is the server, "example.com" is not, and neither is anything else but, by the
    prefix test, "p". *)
Lemma dns_answers_query_witness :
  is_own_name (chars "picow") (chars "home.lan") false [chars "PICOW"; chars "home"; chars "lan"] = true ∧
  is_own_name (chars "picow") (chars "home.lan") false [chars "example"; chars "com"] = false ∧
  is_own_name (chars "picow") (chars "home.lan") false [chars "p"] = true ∧
  ∃ packet, dns_turn 4 1 demo_dns (query_head [7; 7] 1 0 ++ (name_bytes [chars "p"] ++ [0; 1; 0; 1]) ++ replicate 1517 0) 19 =
    Ok (packet, Some (answer [7; 7] 1 0 (name_bytes [chars "p"] ++ [0; 1; 0; 1]) [192; 168; 7; 1])) ∧
    zlen packet = 1536.
Proof.
  do 3 (split; [vm_compute; reflexivity|]).
  apply (dns_answers_query 4 0 demo_dns (chars "picow") (chars "home.lan") [7; 7] 1 0 [chars "p"]
    [0; 1; 0; 1] (replicate 1517 0));
    [exact demo_dns_ok|reflexivity|lia|reflexivity| |cbn; lia|vm_compute; reflexivity|vm_compute; reflexivity].
  constructor; [|constructor]. split; [vm_compute; done|]. apply (bool_decide_unpack _). vm_compute. exact I.
Defined.

(** ** Compression pointers *)

Lemma pointer_loops fuel buffer o off max clen hi lo :
  rd buffer o = Ok hi → rd buffer (o + 1) = Ok lo → is_u8 hi → is_u8 lo → 64 <= hi →
  Z.lor (Z.shiftl (Z.land hi 0x3F) 8) lo = o → o < max →
  get_encoded_domain_name_component fuel buffer o off max clen = OutOfFuel.
Proof.
  intros Hh Hl Hhi Hlo H64 Ho Hm. induction fuel as [|fuel IH]; [done|].
  cbn [get_encoded_domain_name_component]. rewrite (proj2 (Z.ltb_lt _ _)) by done. cbn [negb].
  rewrite Hh, bind_ok.
  assert (negb (Z.land hi 192 =? 0) = true) as ->.
  { pose proof (byte_check (λ n, (n <? 64) || negb (Z.land n 192 =? 0)) ltac:(vm_compute; done) hi Hhi) as H.
    cbn beta in H. by rewrite (proj2 (Z.ltb_ge _ _)) in H by done. }
  by rewrite Hl, bind_ok, Ho.
Qed.

(** One query is enough to stop the server: when the name is a compression pointer to itself
    (the two bytes C0 0C), the search for the first component never ends, however long it runs. *)
Theorem dns_pointer_never_returns fuel jumps st host domain id b2 b3 rest junk :
  dns_ok st host domain → length id = 2%nat → 0 <= b2 < 128 → b2 / 8 mod 16 = 0 →
  zlen (query_head id b2 b3 ++ ([0xC0; 12] ++ rest) ++ junk) = 1536 → 12 + zlen ([0xC0; 12] ++ rest) < 1520 →
  dns_turn fuel jumps st (query_head id b2 b3 ++ ([0xC0; 12] ++ rest) ++ junk) (12 + zlen ([0xC0; 12] ++ rest))
    = OutOfFuel.
Proof.
  intros [_ [Hd Hdn] _] Hid Hb2 Hop Hlen Hl. rewrite dns_turn_unfold by done.
  unfold get_address_for_encoded_domain. rewrite Hd.
  destruct (get_next_component [] domain 0 Hdn) as (dc & off & len & E & _). cbn [app] in E.
  change (zlen []) with 0 in E. rewrite E, bind_ok. cbn beta iota.
  destruct fuel as [|fuel]; [done|]. cbn [lookup_loop offset].
  set (hd := answered_head id b2 b3). assert (zlen hd = 12) as Hhd by (unfold hd, answered_head; lens).
  rewrite (pointer_loops jumps _ 12 12 _ 0 192 12); [done| | |unfold is_u8; lia..|done|lens].
  - rewrite <- Hhd. apply rd_app.
  - replace (12 + 1) with (zlen (hd ++ [192])) by lens.
    change (hd ++ ([192; 12] ++ rest) ++ [192; 12] ++ drop 2 junk)
      with (hd ++ [192] ++ (12 :: rest ++ [192; 12] ++ drop 2 junk)).
    rewrite app_assoc. apply rd_app.
Qed.

Lemma dns_pointer_never_returns_witness :
  dns_ok demo_dns (chars "picow") (chars "home.lan") ∧
  dns_turn 1000 1000 demo_dns (query_head [7; 7] 1 0 ++ ([0xC0; 12] ++ [0; 1; 0; 1]) ++ replicate 1518 0) 18
    = OutOfFuel.
Proof.
  split; [exact demo_dns_ok|].
  apply (dns_pointer_never_returns 1000 1000 demo_dns (chars "picow") (chars "home.lan") [7; 7] 1 0
    [0; 1; 0; 1] (replicate 1518 0));
    [exact demo_dns_ok|reflexivity|lia|reflexivity|vm_compute; reflexivity|vm_compute; reflexivity].
Defined.
