(* ===== verification/StateMonad.v ===== *)
(** State-passing C functions: a computation of type [ST S A] takes the state and gives a result
    and the state after it, or [Ub], or [OutOfFuel].  Hoare triples over them are partial in the
    fuel (a loop that was not given enough turns promises nothing) and total in the absence of
    undefined behaviour. *)
From S2P Require Import Prelude.

Definition ST (S A : Type) : Type := S → outcome (A * S).

#[export] Instance st_ret {S} : MRet (ST S) := λ A a s, Ok (a, s).
#[export] Instance st_bind {S} : MBind (ST S) := λ A B f m s,
  match m s with Ok (a, s) => f a s | Ub => Ub | OutOfFuel => OutOfFuel end.

(** A piece [f] of the state, a change of the state, a computation that leaves the state alone. *)
Definition gets {S A} (f : S → A) : ST S A := λ s, Ok (f s, s).
Definition modify {S} (f : S → S) : ST S unit := λ s, Ok (tt, f s).
Definition lift {S A} (m : outcome A) : ST S A := λ s, a ← m; Ok (a, s).
Definition out_of_fuel {S A} : ST S A := λ s, OutOfFuel.

Lemma st_bind_Ok {S A B} (m : ST S A) (f : A → ST S B) s a s' :
  m s = Ok (a, s') → (m ≫= f) s = f a s'.
Proof. intros E. unfold mbind, st_bind. by rewrite E. Qed.

Lemma st_bind_inv {S A B} (m : ST S A) (f : A → ST S B) s x :
  (m ≫= f) s = Ok x → ∃ a s1, m s = Ok (a, s1) ∧ f a s1 = Ok x.
Proof. unfold mbind, st_bind. destruct (m s) as [[a s1]| |]; [by eauto|done|done]. Qed.

Lemma lift_inv {S A} (m : outcome A) (s : S) a s' : lift m s = Ok (a, s') → m = Ok a ∧ s' = s.
Proof. unfold lift. destruct m; cbn; [by intros [= -> ->]|done|done]. Qed.

Lemma st_bind_Ub {S A B} (m : ST S A) (f : A → ST S B) s : m s = Ub → (m ≫= f) s = Ub.
Proof. intros E. unfold mbind, st_bind. by rewrite E. Qed.

(** ** Triples *)

Definition post_holds {S A} (Q : A → S → Prop) (r : outcome (A * S)) : Prop :=
  match r with Ok (a, s) => Q a s | Ub => False | OutOfFuel => True end.

Definition triple {S A} (P : S → Prop) (m : ST S A) (Q : A → S → Prop) : Prop :=
  ∀ s, P s → post_holds Q (m s).

Create HintDb triples.

Section Rules.
Context {S : Type}.
Implicit Types P : S → Prop.

Lemma triple_ret {A} P (a : A) (Q : A → S → Prop) : (∀ s, P s → Q a s) → triple P (mret a) Q.
Proof. intros H s Hs. by apply H. Qed.

Lemma triple_bind {A B} P (m : ST S A) R (f : A → ST S B) Q :
  triple P m R → (∀ a, triple (R a) (f a) Q) → triple P (m ≫= f) Q.
Proof.
  intros Hm Hf s Hs. specialize (Hm s Hs). unfold mbind, st_bind.
  destruct (m s) as [[a s']| |]; [|done..]. by apply Hf.
Qed.

Lemma triple_conseq {A} P P' (m : ST S A) Q Q' :
  triple P' m Q' → (∀ s, P s → P' s) → (∀ a s, Q' a s → Q a s) → triple P m Q.
Proof.
  intros H HP HQ s Hs. specialize (H s (HP s Hs)). destruct (m s) as [[a s']| |]; [|done..].
  by apply HQ.
Qed.

Lemma triple_if {A} P (b : bool) (m1 m2 : ST S A) Q :
  (b = true → triple P m1 Q) → (b = false → triple P m2 Q) → triple P (if b then m1 else m2) Q.
Proof. destruct b; auto. Qed.

Lemma triple_gets {A} P (f : S → A) (Q : A → S → Prop) : (∀ s, P s → Q (f s) s) → triple P (gets f) Q.
Proof. intros H s Hs. by apply H. Qed.

Lemma triple_modify P f (Q : unit → S → Prop) : (∀ s, P s → Q tt (f s)) → triple P (modify f) Q.
Proof. intros H s Hs. by apply H. Qed.

Lemma triple_fuel {A} P (Q : A → S → Prop) : triple P out_of_fuel Q.
Proof. by intros s Hs. Qed.

Lemma triple_lift {A} P (m : outcome A) (Q : A → S → Prop) :
  (∀ s, P s → post_holds (λ a _, Q a s) (a ← m; Ok (a, s))) → triple P (lift m) Q.
Proof. intros H s Hs. specialize (H s Hs). unfold lift. by destruct m. Qed.

(** Facts about the state before that do not depend on it. *)
Lemma triple_pure {A} (φ : Prop) P (m : ST S A) Q :
  (φ → triple P m Q) → triple (λ s, φ ∧ P s) m Q.
Proof. intros H s [Hφ Hs]. by apply H. Qed.

Lemma triple_Ok {A} P (m : ST S A) Q s a s' : triple P m Q → P s → m s = Ok (a, s') → Q a s'.
Proof. intros H Hs E. specialize (H s Hs). by rewrite E in H. Qed.

Lemma triple_not_Ub {A} P (m : ST S A) Q s : triple P m Q → P s → m s ≠ Ub.
Proof. intros H Hs E. specialize (H s Hs). by rewrite E in H. Qed.
End Rules.

#[export] Hint Resolve triple_fuel : triples.

(** Results of a computation, when there is one. *)
Definition results {S A} (m : ST S A) (R : A → Prop) : Prop := ∀ s a s', m s = Ok (a, s') → R a.

Lemma results_ret {S A} (a : A) (R : A → Prop) : R a → results (S := S) (mret a) R.
Proof. intros H s b s' [= <- _]. done. Qed.

Lemma results_any {S A} (m : ST S A) : results m (λ _, True).
Proof. done. Qed.

Lemma results_bind {S A B} (m : ST S A) (f : A → ST S B) (R : A → Prop) (Q : B → Prop) :
  results m R → (∀ a, R a → results (f a) Q) → results (m ≫= f) Q.
Proof.
  intros Hm Hf s b s'. unfold mbind, st_bind. destruct (m s) as [[a s1]| |] eqn:E; [|done..].
  apply Hf. by eapply Hm.
Qed.

(** ** Total correctness *)

(** The computation ends, without undefined behaviour and within its fuel, and [Q] holds. *)
Definition wp {S A} (m : ST S A) (Q : A → S → Prop) (s : S) : Prop :=
  match m s with Ok (a, s) => Q a s | _ => False end.

Lemma wp_Ok {S A} (m : ST S A) Q s a s' : m s = Ok (a, s') → Q a s' → wp m Q s.
Proof. unfold wp. by intros ->. Qed.

Lemma wp_inv {S A} (m : ST S A) Q s : wp m Q s → ∃ a s', m s = Ok (a, s') ∧ Q a s'.
Proof. unfold wp. destruct (m s) as [[a s']| |]; [eauto|done|done]. Qed.

Lemma wp_bind {S A B} (m : ST S A) (f : A → ST S B) Q s : wp m (λ a s, wp (f a) Q s) s → wp (m ≫= f) Q s.
Proof. unfold wp at 1 3, mbind, st_bind. by destruct (m s) as [[a s']| |]. Qed.

Lemma wp_mono {S A} (m : ST S A) Q Q' s : wp m Q' s → (∀ a s', Q' a s' → Q a s') → wp m Q s.
Proof. unfold wp. destruct (m s) as [[a s']| |]; auto. Qed.

Lemma wp_ret {S A} (a : A) Q (s : S) : Q a s → wp (mret a) Q s.
Proof. done. Qed.

Lemma wp_gets {S A} (f : S → A) Q s : Q (f s) s → wp (gets f) Q s.
Proof. done. Qed.

Lemma wp_lift {S A} (m : outcome A) a Q (s : S) : m = Ok a → Q a s → wp (lift m) Q s.
Proof. by intros ->. Qed.
