(* ===== verification/Network.v ===== *)
(** What the MQTT client needs from its platform, as interfaces, and the platform layer of this
    firmware: the timers of src/FreeRTOSTimers.cpp on FreeRTOS time-outs, and [FreeRTOS_read] and
    [FreeRTOS_write] of MQTTFreeRTOS.cpp on lwIP sockets.  FreeRTOS and lwIP are not part of the
    repository; [W] is the type of their state. *)
From S2P Require Import Prelude StateMonad.

(** ** FreeRTOS time-outs and the timers *)

(** [xTaskCheckForTimeOut] gives whether the time is over, and updates both of its arguments. *)
Class Clock (W : Type) := {
  TimeOut_t : Type;
  vTaskSetTimeOutState : W → TimeOut_t * W;
  xTaskCheckForTimeOut : TimeOut_t → Z → W → bool * TimeOut_t * Z * W;
}.

Section Timers.
Context {W : Type} {clock : Clock W}.

Record Timer := mkTimer { xTicksToWait : Z; xTimeOut : TimeOut_t }.

(** One tick per millisecond (FreeRTOSConfig.h: configTICK_RATE_HZ = 1000). *)
Definition portTICK_PERIOD_MS : Z := 1.

Definition TimerCountdownMS (timeout_ms : Z) (w : W) : Timer * W :=
  let '(xTimeOut, w) := vTaskSetTimeOutState w in
  (mkTimer (u32 timeout_ms / portTICK_PERIOD_MS) xTimeOut, w).

Definition TimerCountdown (timeout : Z) (w : W) : Timer * W := TimerCountdownMS (u32 (timeout * 1000)) w.

(** The test [xTicksToWait < 0] of an unsigned value is never true. *)
Definition TimerLeftMS (timer : Timer) (w : W) : Z * Timer * W :=
  let '(_, xTimeOut, xTicksToWait, w) := xTaskCheckForTimeOut (xTimeOut timer) (xTicksToWait timer) w in
  let timer := mkTimer xTicksToWait xTimeOut in
  (s32 (xTicksToWait * portTICK_PERIOD_MS), timer, w).

Definition TimerIsExpired (timer : Timer) (w : W) : bool * Timer * W :=
  let '(expired, xTimeOut, xTicksToWait, w) :=
    xTaskCheckForTimeOut (xTimeOut timer) (xTicksToWait timer) w in
  (expired, mkTimer xTicksToWait xTimeOut, w).
End Timers.

(** ** The network interface of the client *)

(** [mqttread b off len timeout]: read [len] bytes to offset [off] of the object [b];
    [mqttwrite b off len timeout]: write [len] bytes from there. *)
Class Network (W : Type) := {
  mqttread : list Z → Z → Z → Z → W → outcome (Z * list Z * W);
  mqttwrite : list Z → Z → Z → Z → W → outcome (Z * W);
}.

(** Only the bytes from [off] on, [len] of them, may differ. *)
Definition same_outside (b b' : list Z) (off len : Z) : Prop :=
  length b' = length b ∧ take (Z.to_nat off) b' = take (Z.to_nat off) b ∧
  drop (Z.to_nat (off + len)) b' = drop (Z.to_nat (off + len)) b.

(** Given room, a network does not touch anything else and never gives more than it was asked. *)
Class NetworkSafe (W : Type) `{Network W} : Prop := {
  mqttread_safe b off len t w :
    0 <= off → 0 < len → off + len <= zlen b → Forall is_u8 b →
    match mqttread b off len t w with
    | Ok (rc, b', _) => rc <= len ∧ same_outside b b' off len ∧ Forall is_u8 b'
    | Ub => False
    | OutOfFuel => True
    end;
  mqttwrite_safe b off len t w :
    0 <= off → 0 < len → off + len <= zlen b →
    match mqttwrite b off len t w with
    | Ok (rc, _) => rc <= len
    | Ub => False
    | OutOfFuel => True
    end;
}.

(** ** The network of this firmware *)

(** The lwIP calls: [lwip_recv] gives the result and the bytes it stored, [lwip_send] is given the
    bytes to send. *)
Class Sockets (W : Type) := {
  lwip_setsockopt_timeout : Z → Z → W → Z * W;
  lwip_recv : Z → Z → W → Z * list Z * W;
  lwip_send : Z → list Z → W → Z * W;
}.

Class SocketsOk (W : Type) `{Sockets W} : Prop := {
  lwip_recv_ok sock len w : 0 <= len →
    let '(rc, bytes, _) := lwip_recv sock len w in
    rc <= len ∧ zlen bytes = rc `max` 0 ∧ Forall is_u8 bytes;
  lwip_send_ok sock bytes w : (lwip_send sock bytes w).1 <= zlen bytes;
}.

Section FreeRTOS.
Context {W : Type} {clock : Clock W} {sockets : Sockets W}.
Context (my_socket : Z).

(** The do-loop of [FreeRTOS_read]: [recvLen], or [None] for its [return -1]. *)
Fixpoint read_loop (fuel : nat) (b : list Z) (off len timeout_ms recvLen : Z) (timer : Timer) (w : W)
  : outcome (option Z * list Z * Timer * W) :=
  match fuel with
  | O => OutOfFuel
  | S fuel =>
      if my_socket <? 0 then Ok (None, b, timer, w)
      else
        let '(r, w) := lwip_setsockopt_timeout my_socket (timeout_ms * 1000) w in
        if r <? 0 then Ok (None, b, timer, w)
        else
          let '(rc, bytes, w) := lwip_recv my_socket (len - recvLen) w in
          b ← wr_n b (off + recvLen) bytes;
          if rc <? 0 then Ok (Some rc, b, timer, w)
          else
            let recvLen := if 0 <? rc then recvLen + rc else recvLen in
            if recvLen <? len then
              let '(expired, timer, w) := TimerIsExpired timer w in
              if expired then Ok (Some recvLen, b, timer, w)
              else read_loop fuel b off len timeout_ms recvLen timer w
            else Ok (Some recvLen, b, timer, w)
  end.

Definition FreeRTOS_read (fuel : nat) (b : list Z) (off len timeout_ms : Z) (w : W)
  : outcome (Z * list Z * W) :=
  let '(timer, w) := TimerCountdownMS timeout_ms w in
  '(r, b, timer, w) ← read_loop fuel b off len timeout_ms 0 timer w;
  match r with
  | None => Ok (-1, b, w)
  | Some recvLen =>
      let '(expired, timer, w) := TimerIsExpired timer w in
      Ok (if expired then 0 else recvLen, b, w)
  end.

(** [FreeRTOS_write]; its loop ends with the result. *)
Fixpoint write_loop (fuel : nat) (b : list Z) (off len timeout_ms sentLen : Z) (timer : Timer) (w : W)
  : outcome (Z * W) :=
  match fuel with
  | O => OutOfFuel
  | S fuel =>
      if my_socket <? 0 then Ok (-1, w)
      else
        let '(r, w) := lwip_setsockopt_timeout my_socket (timeout_ms * 1000) w in
        if r <? 0 then Ok (-1, w)
        else
          bytes ← rd_n b (off + sentLen) (len - sentLen);
          let '(rc, w) := lwip_send my_socket bytes w in
          if rc <? 0 then Ok (rc, w)
          else
            let sentLen := if 0 <? rc then sentLen + rc else sentLen in
            if sentLen <? len then
              let '(expired, timer, w) := TimerIsExpired timer w in
              if expired then Ok (sentLen, w)
              else write_loop fuel b off len timeout_ms sentLen timer w
            else Ok (sentLen, w)
  end.

Definition FreeRTOS_write (fuel : nat) (b : list Z) (off len timeout_ms : Z) (w : W) : outcome (Z * W) :=
  let '(timer, w) := TimerCountdownMS timeout_ms w in
  write_loop fuel b off len timeout_ms 0 timer w.

(** [NetworkInit] and [NetworkConnectWithTimeout] leave these two functions and the socket. *)
Definition FreeRTOS_Network (fuel : nat) : Network W :=
  {| mqttread := FreeRTOS_read fuel; mqttwrite := FreeRTOS_write fuel |}.
End FreeRTOS.

(** A time-out that is over stays over. *)
Class ClockOk (W : Type) `{Clock W} : Prop := {
  timeout_sticky o n w o' n' w1 w2 :
    xTaskCheckForTimeOut o n w = (true, o', n', w1) → (xTaskCheckForTimeOut o' n' w2).1.1.1 = true;
}.

(** ** A connection in time

    [Prompt]: no time passes that would matter, so that a running timer does not expire, and there
    are bytes that have come in and bytes that were sent. *)
Class Prompt (W : Type) `{Clock W} := {
  incoming : W → list Z;
  outgoing : W → list Z;
  prompt_set w : let w' := (vTaskSetTimeOutState w).2 in
    incoming w' = incoming w ∧ outgoing w' = outgoing w;
  prompt_check o n w : 0 < n →
    let '(expired, _, n', w') := xTaskCheckForTimeOut o n w in
    expired = false ∧ 0 < n' <= n ∧ incoming w' = incoming w ∧ outgoing w' = outgoing w;
}.

(** A network that delivers what has come in and sends what it is given. *)
Class PromptNetwork (W : Type) `{Prompt W} `{Network W} : Prop := {
  prompt_read b off n t w :
    0 <= off → 0 < n → off + n <= zlen b → n <= zlen (incoming w) → 0 < t < 2147483648 →
    ∃ b' w', mqttread b off n t w = Ok (n, b', w') ∧
      wr_n b off (take (Z.to_nat n) (incoming w)) = Ok b' ∧
      incoming w' = drop (Z.to_nat n) (incoming w) ∧ outgoing w' = outgoing w;
  prompt_write b off n t w :
    0 <= off → 0 < n → off + n <= zlen b → 0 < t < 2147483648 →
    ∃ w', mqttwrite b off n t w = Ok (n, w') ∧ incoming w' = incoming w ∧
      outgoing w' = outgoing w ++ take (Z.to_nat n) (drop (Z.to_nat off) b);
}.

(** Sockets with the same property. *)
Class PromptSockets (W : Type) `{Prompt W} `{Sockets W} : Prop := {
  prompt_sockopt sock t w : ∃ w', lwip_setsockopt_timeout sock t w = (0, w') ∧
    incoming w' = incoming w ∧ outgoing w' = outgoing w;
  prompt_recv sock n w : 0 < n <= zlen (incoming w) →
    ∃ w', lwip_recv sock n w = (n, take (Z.to_nat n) (incoming w), w') ∧
      incoming w' = drop (Z.to_nat n) (incoming w) ∧ outgoing w' = outgoing w;
  prompt_send sock l w : ∃ w', lwip_send sock l w = (zlen l, w') ∧ incoming w' = incoming w ∧
      outgoing w' = outgoing w ++ l;
}.

(** ** An example platform

    A clock that advances by one tick at every look at it and a socket with the bytes that are still
    to come and those that were sent; when nothing is left the peer has closed the connection. *)
Record wire := mkWire { now : Z; rx : list Z; tx : list Z }.

#[export] Instance wire_clock : Clock wire := {|
  TimeOut_t := Z;
  vTaskSetTimeOutState w := (now w, w);
  xTaskCheckForTimeOut start ticks w :=
    let w' := mkWire (now w + 1) (rx w) (tx w) in
    if 0 `max` (now w - start) <? ticks then (false, now w, ticks - 0 `max` (now w - start), w')
    else (true, start, 0, w');
|}.

#[export] Instance wire_sockets : Sockets wire := {|
  lwip_setsockopt_timeout _ _ w := (0, w);
  lwip_recv _ len w :=
    let l := take (Z.to_nat len) (map u8 (rx w)) in
    (zlen l, l, mkWire (now w) (drop (Z.to_nat len) (rx w)) (tx w));
  lwip_send _ l w := (zlen l, mkWire (now w) (rx w) (tx w ++ l));
|}.

(** ** Lemmas *)

Lemma same_outside_refl b off len : same_outside b b off len.
Proof. done. Qed.

Lemma same_outside_trans b b1 b2 off len :
  same_outside b b1 off len → same_outside b1 b2 off len → same_outside b b2 off len.
Proof. intros (? & ? & ?) (? & ? & ?). split_and!; congruence. Qed.

(** A store inside the window. *)
Lemma wr_n_same_outside b i l off len :
  0 <= off → off <= i → i + zlen l <= off + len → off + len <= zlen b →
  ∃ b', wr_n b i l = Ok b' ∧ same_outside b b' off len ∧
    (Forall is_u8 b → Forall is_u8 l → Forall is_u8 b').
Proof.
  intros. unfold wr_n. rewrite decide_True by lia. eexists. split; [done|]. split.
  - split_and!.
    + lens.
    + rewrite take_app_le by lens. rewrite take_take. f_equal. lia.
    + rewrite app_assoc, drop_app_ge by lens. rewrite drop_drop. f_equal. lens.
  - intros Hb Hl. apply Forall_app. split; [by apply Forall_take|].
    apply Forall_app. split; [done|by apply Forall_drop].
Qed.

Section FreeRTOSProofs.
Context {W : Type} {clock : Clock W} {sockets : Sockets W}.
Context (my_socket : Z).

Lemma socket_read_loop_safe `{!SocketsOk W} fuel b off len t recvLen timer w :
  0 <= off → 0 <= recvLen < len → off + len <= zlen b → Forall is_u8 b →
  match read_loop my_socket fuel b off len t recvLen timer w with
  | Ok (r, b', _, _) => (∀ n, r = Some n → n <= len) ∧ same_outside b b' off len ∧ Forall is_u8 b'
  | Ub => False
  | OutOfFuel => True
  end.
Proof.
  intros Ho. revert b recvLen timer w. induction fuel as [|fuel IH]; intros b recvLen timer w Hr Hb Hu;
    [done|]. cbn [read_loop].
  destruct (my_socket <? 0); [done|].
  destruct (lwip_setsockopt_timeout my_socket _ w) as [r w1]. destruct (r <? 0); [done|].
  pose proof (lwip_recv_ok my_socket (len - recvLen) w1 ltac:(lia)) as Hrecv.
  destruct (lwip_recv my_socket (len - recvLen) w1) as [[rc bytes] w2]. destruct Hrecv as (H1 & H2 & H3).
  destruct (wr_n_same_outside b (off + recvLen) bytes off len) as (b' & E & Hs & Hu'); [lia..|].
  rewrite E, bind_ok. specialize (Hu' Hu H3). pose proof Hs as (Hlen & _ & _).
  destruct (Z.ltb_spec rc 0); [split; [intros n [= <-]; lia|done]|].
  set (recvLen' := if 0 <? rc then recvLen + rc else recvLen).
  assert (0 <= recvLen' <= len) by (unfold recvLen'; destruct (Z.ltb_spec 0 rc); lia).
  destruct (Z.ltb_spec recvLen' len); [|split; [intros n [= <-]; lia|done]].
  destruct (TimerIsExpired timer w2) as [[expired timer'] w3].
  destruct expired; [split; [intros n [= <-]; lia|done]|].
  specialize (IH b' recvLen' timer' w3 ltac:(lia) ltac:(lia) Hu').
  destruct (read_loop _ _ _ _ _ _ _ _ _) as [[[[r' b''] tm] w4]| |]; [|done..].
  destruct IH as (? & ? & ?). split_and!; [done| |done]. by eapply same_outside_trans.
Qed.

Lemma socket_write_loop_safe `{!SocketsOk W} fuel b off len t sentLen timer w :
  0 <= off → 0 <= sentLen < len → off + len <= zlen b →
  match write_loop my_socket fuel b off len t sentLen timer w with
  | Ok (r, _) => r <= len
  | Ub => False
  | OutOfFuel => True
  end.
Proof.
  intros Ho. revert sentLen timer w. induction fuel as [|fuel IH]; intros sentLen timer w Hr Hb; [done|].
  cbn [write_loop]. destruct (my_socket <? 0); [lia|].
  destruct (lwip_setsockopt_timeout my_socket _ w) as [r w1]. destruct (r <? 0); [lia|].
  unfold rd_n. rewrite decide_True by lia. rewrite bind_ok.
  set (bytes := take _ _). assert (zlen bytes = len - sentLen) as Hl by (unfold bytes; lens).
  pose proof (lwip_send_ok my_socket bytes w1) as Hs.
  destruct (lwip_send my_socket bytes w1) as [rc w2]. cbn [fst] in Hs.
  destruct (Z.ltb_spec rc 0); [lia|].
  set (sentLen' := if 0 <? rc then sentLen + rc else sentLen).
  assert (0 <= sentLen' <= len) by (unfold sentLen'; destruct (Z.ltb_spec 0 rc); lia).
  destruct (Z.ltb_spec sentLen' len); [|lia].
  destruct (TimerIsExpired timer w2) as [[expired timer'] w3]. destruct expired; [lia|].
  apply IH; lia.
Qed.

(** The socket layer keeps the promise the client relies on. *)
#[export] Instance FreeRTOS_NetworkSafe `{!SocketsOk W} fuel :
  @NetworkSafe W (FreeRTOS_Network my_socket fuel).
Proof.
  split; intros b off len t w Ho Hl Hb.
  - intros Hu. cbn. unfold FreeRTOS_read.
    destruct (TimerCountdownMS t w) as [timer w1].
    pose proof (socket_read_loop_safe fuel b off len t 0 timer w1 Ho ltac:(lia) Hb Hu) as H.
    destruct (read_loop _ _ _ _ _ _ _ _ _) as [[[[r b'] tm] w2]| |]; [|done..].
    rewrite bind_ok. destruct H as (Hr & H). destruct r as [n|]; [|split; [lia|done]].
    specialize (Hr n eq_refl). destruct (TimerIsExpired tm w2) as [[expired tm'] w3].
    split; [destruct expired; lia|done].
  - cbn. unfold FreeRTOS_write. destruct (TimerCountdownMS t w) as [timer w1].
    apply socket_write_loop_safe; lia.
Qed.

Lemma read_loop_closed fuel b off len t recvLen timer w :
  (∀ n w, ∃ w', lwip_recv my_socket n w = (0, [], w')) → 0 <= my_socket → recvLen < len →
  (∀ w, ∃ w', lwip_setsockopt_timeout my_socket (t * 1000) w = (0, w')) →
  0 <= off + recvLen <= zlen b →
  match read_loop my_socket fuel b off len t recvLen timer w with
  | Ok (r, b', timer', _) => r = Some recvLen ∧ b' = b ∧
      ∃ tm wx w', TimerIsExpired tm wx = (true, timer', w')
  | Ub => False
  | OutOfFuel => True
  end.
Proof.
  intros Hrecv Hs Hl Hopt Hb. revert timer w. induction fuel as [|fuel IH]; intros timer w; [done|].
  cbn [read_loop]. destruct (Z.ltb_spec my_socket 0); [lia|].
  destruct (Hopt w) as [w1 ->]. destruct (Hrecv (len - recvLen) w1) as [w2 ->].
  rewrite wr_n_nil, bind_ok by done. cbn [Z.ltb Z.compare].
  destruct (Z.ltb_spec recvLen len); [|lia].
  destruct (TimerIsExpired timer w2) as [[expired timer'] w3] eqn:E. destruct expired; [eauto 8|].
  apply IH.
Qed.

(** When the peer has closed the connection ([lwip_recv] gives 0), [FreeRTOS_read] never
    reports an error: it polls the socket until its time is over and answers 0, which its callers
    take for "no data yet". *)
Theorem closed_connection_reads_as_timeout fuel b off len t w r b' w' :
  (∀ n w, ∃ w', lwip_recv my_socket n w = (0, [], w')) → 0 <= my_socket → 0 < len →
  (∀ w, ∃ w', lwip_setsockopt_timeout my_socket (t * 1000) w = (0, w')) →
  0 <= off <= zlen b →
  FreeRTOS_read my_socket fuel b off len t w = Ok (r, b', w') → r = 0 ∧ b' = b.
Proof.
  intros Hrecv Hs Hl Hopt Hb. unfold FreeRTOS_read. destruct (TimerCountdownMS t w) as [timer w1].
  pose proof (read_loop_closed fuel b off len t 0 timer w1 Hrecv Hs Hl Hopt ltac:(lia)) as H.
  destruct (read_loop _ _ _ _ _ _ _ _ _) as [[[[r1 b1] tm] w2]| |]; [|done..].
  destruct H as (-> & -> & _). rewrite bind_ok.
  destruct (TimerIsExpired tm w2) as [[expired tm'] w3]. intros [= <- <- _]. by destruct expired.
Qed.
End FreeRTOSProofs.

Lemma closed_connection_reads_as_timeout_witness :
  let closed := {| lwip_setsockopt_timeout _ _ w := (0, w); lwip_recv _ _ w := (0, [], w);
                   lwip_send _ _ w := (0, w) |} in
  FreeRTOS_read (sockets := closed) 3 10 [7; 7] 0 1 5 (mkWire 0 [1] []) = Ok (0, [7; 7], mkWire 7 [1] [])
  ∧ 0 = 0 ∧ [7; 7] = [7; 7].
Proof.
  intros closed. split; [vm_compute; reflexivity|].
  apply (closed_connection_reads_as_timeout (sockets := closed) 3 10 [7; 7] 0 1 5 (mkWire 0 [1] []) 0
    [7; 7] (mkWire 7 [1] [])); [by eexists|lia|lia|by eexists|cbn; lia|vm_compute; reflexivity].
Defined.

#[export] Instance wire_sockets_ok : SocketsOk wire.
Proof.
  split.
  - intros sock len w Hl. cbn. split_and!; [lens|lia|].
    apply Forall_take, Forall_map. apply Forall_forall. intros x _. apply u8_range.
  - intros sock bytes w. cbn. lia.
Qed.

Section AllOrNothing.
Context {W : Type} {clock : Clock W} {sockets : Sockets W} {clock_ok : ClockOk W} {sockets_ok : SocketsOk W}.
Context (my_socket : Z).

Lemma TimerIsExpired_sticky t w t' w1 w2 : TimerIsExpired t w = (true, t', w1) →
  ∃ t2 w3, TimerIsExpired t' w2 = (true, t2, w3).
Proof.
  unfold TimerIsExpired. destruct (xTaskCheckForTimeOut _ _ w) as [[[e o] n] w'] eqn:E.
  intros [= -> <- <-]. cbn [xTimeOut xTicksToWait].
  pose proof (timeout_sticky _ _ _ _ _ _ w2 E) as H.
  destruct (xTaskCheckForTimeOut o n w2) as [[[e2 o2] n2] w4]. cbn in H. subst. eauto.
Qed.

Lemma read_loop_result fuel b off len t recvLen timer w n b' timer' w' :
  0 <= recvLen < len →
  read_loop my_socket fuel b off len t recvLen timer w = Ok (Some n, b', timer', w') →
  n < 0 ∨ n = len ∨ ∃ tm wx, TimerIsExpired tm wx = (true, timer', w').
Proof.
  revert b recvLen timer w. induction fuel as [|fuel IH]; intros b recvLen timer w Hr; [done|].
  cbn [read_loop]. destruct (my_socket <? 0); [done|].
  destruct (lwip_setsockopt_timeout my_socket _ w) as [r w1]. destruct (r <? 0); [done|].
  pose proof (lwip_recv_ok my_socket (len - recvLen) w1 ltac:(lia)) as Hrecv.
  destruct (lwip_recv my_socket (len - recvLen) w1) as [[rc bytes] w2]. destruct Hrecv as (H1 & _).
  destruct (wr_n b (off + recvLen) bytes) as [b1| |]; [|done..]. rewrite bind_ok.
  destruct (Z.ltb_spec rc 0); [intros [= <- _ _ _]; by left|].
  set (recvLen' := if 0 <? rc then recvLen + rc else recvLen).
  assert (0 <= recvLen' <= len) by (unfold recvLen'; destruct (Z.ltb_spec 0 rc); lia).
  destruct (Z.ltb_spec recvLen' len); [|intros [= <- _ _ _]; right; left; lia].
  destruct (TimerIsExpired timer w2) as [[expired tm] w3] eqn:Et. destruct expired; [|apply IH; lia].
  intros [= <- _ <- <-]. eauto.
Qed.

(** [FreeRTOS_read] gives everything that was asked for, or 0, or a negative error: a client
    never sees a part of it. *)
Theorem FreeRTOS_read_all_or_nothing fuel b off len t w r b' w' :
  0 < len → FreeRTOS_read my_socket fuel b off len t w = Ok (r, b', w') → r = len ∨ r <= 0.
Proof.
  intros Hl. unfold FreeRTOS_read. destruct (TimerCountdownMS t w) as [timer w1].
  destruct (read_loop _ _ _ _ _ _ _ _ _) as [[[[r1 b1] tm] w2]| |] eqn:E; [|done..]. rewrite bind_ok.
  destruct r1 as [n|]; [|intros [= <- _ _]; lia].
  apply read_loop_result in E; [|lia].
  destruct E as [Hn|[->|(tm1 & wx & Et)]].
  - destruct (TimerIsExpired tm w2) as [[[] tm'] w3]; intros [= <- _ _]; lia.
  - destruct (TimerIsExpired tm w2) as [[[] tm'] w3]; intros [= <- _ _]; lia.
  - destruct (TimerIsExpired_sticky _ _ _ _ w2 Et) as (t2 & w3 & ->). intros [= <- _ _]. lia.
Qed.
End AllOrNothing.

#[export] Instance wire_clock_ok : ClockOk wire.
Proof.
  split. intros o n w o' n' w1 w2. cbn. destruct (_ <? n); [done|]. intros [= <- <- _].
  by destruct (Z.ltb_spec (0 `max` (now w2 - o)) 0); [lia|].
Qed.

Lemma FreeRTOS_read_all_or_nothing_witness :
  FreeRTOS_read 3 10 [7; 7; 7] 1 2 50 (mkWire 0 [4; 5; 6] []) = Ok (2, [7; 4; 5], mkWire 1 [6] [])
  ∧ (2 = 2 ∨ 2 <= 0).
Proof.
  split; [vm_compute; reflexivity|].
  apply (FreeRTOS_read_all_or_nothing 3 10 [7; 7; 7] 1 2 50 (mkWire 0 [4; 5; 6] []) 2 [7; 4; 5]
    (mkWire 1 [6] [])); [lia|vm_compute; reflexivity].
Defined.

(** ** The connection of this firmware *)

Section PromptFreeRTOS.
Context {W : Type} {clock : Clock W} {prompt : Prompt W}.

(** A timer that is running, with less than 25 days to go. *)
Definition fresh (t : Timer) : Prop := 0 < xTicksToWait t < 2147483648.

Lemma countdown_prompt ms w : 0 < ms < 2147483648 →
  ∃ t w', TimerCountdownMS ms w = (t, w') ∧ fresh t ∧ incoming w' = incoming w ∧ outgoing w' = outgoing w.
Proof.
  intros Hms. unfold TimerCountdownMS. pose proof (prompt_set w) as Hw.
  destruct (vTaskSetTimeOutState w) as [o w']. eexists _, _. split; [done|]. split; [|done].
  unfold fresh, portTICK_PERIOD_MS. cbn [xTicksToWait]. rewrite u32_id by (unfold is_u32; lia).
  by rewrite Z.div_1_r.
Qed.

Lemma expired_prompt t w : fresh t →
  ∃ t' w', TimerIsExpired t w = (false, t', w') ∧ fresh t' ∧ incoming w' = incoming w ∧ outgoing w' = outgoing w.
Proof.
  intros Ht. unfold TimerIsExpired. pose proof (prompt_check (xTimeOut t) (xTicksToWait t) w) as Hw.
  destruct (xTaskCheckForTimeOut _ _ w) as [[[e o] n] w']. unfold fresh in *.
  destruct Hw as (-> & Hn & Hi & Ho); [lia|]. eexists _, _. split; [done|]. split; [cbn; lia|done].
Qed.

Lemma left_prompt t w : fresh t →
  ∃ ms t' w', TimerLeftMS t w = (ms, t', w') ∧ 0 < ms < 2147483648 ∧ fresh t' ∧
    incoming w' = incoming w ∧ outgoing w' = outgoing w.
Proof.
  intros Ht. unfold TimerLeftMS. pose proof (prompt_check (xTimeOut t) (xTicksToWait t) w) as Hw.
  destruct (xTaskCheckForTimeOut _ _ w) as [[[e o] n] w']. unfold fresh in *.
  destruct Hw as (_ & Hn & Hi & Ho); [lia|]. eexists _, _, _. split; [done|].
  unfold s32, portTICK_PERIOD_MS. rewrite Z.mul_1_r, u32_id by (unfold is_u32; lia).
  destruct (Z.ltb_spec n 2147483648); [|lia]. split; [lia|]. split; [cbn; lia|done].
Qed.

(** [FreeRTOS_read] and [FreeRTOS_write] over such sockets. *)
#[export] Instance FreeRTOS_PromptNetwork {sockets : Sockets W} {prompt_sockets : PromptSockets W} (sock : Z) (fuel : nat) :
  TCEq (0 <=? sock) true → PromptNetwork W (H1 := FreeRTOS_Network sock (S fuel)).
Proof.
  intros Hsock%TCEq_eq%Z.leb_le. split.
  - intros b off n t w Ho Hn Hb Hi Ht. cbn. unfold FreeRTOS_read.
    destruct (countdown_prompt t w Ht) as (tm & w1 & -> & Htm & I1 & O1). cbn [read_loop].
    destruct (Z.ltb_spec sock 0); [lia|].
    destruct (prompt_sockopt sock (t * 1000) w1) as (w2 & -> & I2 & O2). cbn [Z.ltb Z.compare].
    rewrite Z.sub_0_r, Z.add_0_r.
    destruct (prompt_recv sock n w2) as (w3 & -> & I3 & O3); [rewrite I2, I1; lia|].
    rewrite I2, I1. destruct (wr_n b off (take (Z.to_nat n) (incoming w))) as [b'| |] eqn:Eb.
    2, 3: unfold wr_n in Eb; rewrite decide_True in Eb by lens; done.
    rewrite bind_ok. destruct (Z.ltb_spec n 0); [lia|]. destruct (Z.ltb_spec 0 n); [|lia].
    rewrite Z.add_0_l, Z.ltb_irrefl, bind_ok.
    destruct (expired_prompt tm w3 Htm) as (tm' & w4 & -> & _ & I4 & O4).
    eexists _, _. split; [done|]. split; [done|]. split; congruence.
  - intros b off n t w Ho Hn Hb Ht. cbn. unfold FreeRTOS_write.
    destruct (countdown_prompt t w Ht) as (tm & w1 & -> & Htm & I1 & O1). cbn [write_loop].
    destruct (Z.ltb_spec sock 0); [lia|].
    destruct (prompt_sockopt sock (t * 1000) w1) as (w2 & -> & I2 & O2). cbn [Z.ltb Z.compare].
    rewrite Z.sub_0_r, Z.add_0_r. unfold rd_n. rewrite decide_True by lia. rewrite bind_ok.
    set (l := take _ _). assert (zlen l = n) as El by (unfold l; lens).
    destruct (prompt_send sock l w2) as (w3 & -> & I3 & O3). rewrite El.
    destruct (Z.ltb_spec n 0); [lia|]. destruct (Z.ltb_spec 0 n); [|lia].
    rewrite Z.add_0_l, Z.ltb_irrefl. eexists. split; [done|]. split; congruence.
Qed.
End PromptFreeRTOS.

(** The example platform with a clock that stands still. *)
Definition still_clock : Clock wire := {|
  TimeOut_t := Z;
  vTaskSetTimeOutState w := (now w, w);
  xTaskCheckForTimeOut start ticks w := (negb (0 <? ticks), start, ticks, w);
|}.

#[export] Program Instance still_prompt : Prompt wire (H := still_clock) :=
  {| incoming w := map u8 (rx w); outgoing := tx |}.
Next Obligation. done. Qed.
Next Obligation. intros o n w Hn. cbn. by destruct (Z.ltb_spec 0 n); [|lia]. Qed.

#[export] Instance still_sockets : PromptSockets wire (H := still_clock).
Proof.
  split.
  - intros. eexists. done.
  - intros sock n w Hn. cbn in *. eexists. split.
    + f_equal. f_equal. rewrite length_take. lens.
    + split; [|done]. cbn. by rewrite <- (fmap_drop u8).
  - intros. eexists. done.
Qed.
