(* ===== verification/MqttTopic.v ===== *)
(** Matching of topics against the filters of subscriptions: [isTopicMatched] of MQTTClient.cpp, and
    the rules of section 4.7 of the MQTT specification it is compared with. *)
From S2P Require Import Prelude MqttPacket.

(** The inner loop of [isTopicMatched]: skip to the last character of a level. *)
Fixpoint skip_level (fuel : nat) (data : list Z) (curn curn_end : Z) : outcome Z :=
  match fuel with
  | O => OutOfFuel
  | S fuel =>
      let nextpos := curn + 1 in
      if nextpos <? curn_end then
        c ← rd data nextpos;
        if negb (c =? 47) then skip_level fuel data (curn + 1) curn_end else Ok curn
      else Ok curn
  end.

(** The outer loop, with the rest of the filter and the position in the topic when it ends;
    47, 43 and 35 are '/', '+' and '#'. *)
Fixpoint match_loop (curf : list Z) (data : list Z) (curn curn_end : Z) : outcome (list Z * Z) :=
  match curf with
  | [] => Ok (curf, curn)
  | f :: rest =>
      if curn <? curn_end then
        n ← rd data curn;
        if (n =? 47) && negb (f =? 47) then Ok (curf, curn)
        else if negb (f =? 43) && negb (f =? 35) && negb (f =? n) then Ok (curf, curn)
        else
          curn ← (if f =? 43 then skip_level (Z.to_nat (curn_end - curn)) data curn curn_end
                  else if f =? 35 then Ok (curn_end - 1)
                  else Ok curn);
          match_loop rest data (curn + 1) curn_end
      else Ok (curf, curn)
  end.

(** A null pointer has no characters. *)
Definition isTopicMatched (topicFilter : list Z) (topicName : MQTTString) : outcome bool :=
  let data := default [] (ls_data (lenstring topicName)) in
  let curn_end := ls_len (lenstring topicName) in
  '(curf, curn) ← match_loop topicFilter data 0 curn_end;
  Ok ((curn =? curn_end) && bool_decide (curf = [])).


(** ** Levels *)

(** The levels of a filter or a topic: what stands between the '/'. *)
Fixpoint levels (s : list Z) : list (list Z) :=
  match s with
  | [] => [[]]
  | c :: s =>
      if c =? 47 then [] :: levels s
      else match levels s with [] => [[c]] | l :: ls => (c :: l) :: ls end
  end.

(** The rules of the specification: '+' stands for one level and '#', at the end, for any number of
    them, none included. *)
Fixpoint mqtt_match (f n : list (list Z)) : bool :=
  match f with
  | [] => bool_decide (n = [])
  | l :: f =>
      if bool_decide (l = [35]) then true
      else match n with
           | [] => false
           | m :: n => (bool_decide (l = [43]) || bool_decide (l = m)) && mqtt_match f n
           end
  end.

(** What the code does: a wildcard wants a level that is not empty. *)
Fixpoint code_match (f n : list (list Z)) : bool :=
  match f, n with
  | [], [] => true
  | l :: f, m :: n =>
      if bool_decide (l = [35]) then negb (bool_decide (m = []))
      else (if bool_decide (l = [43]) then negb (bool_decide (m = [])) else bool_decide (l = m))
           && code_match f n
  | _, _ => false
  end.

(** "assume topic filter and name is in correct format: # can only be at end, + and # can only be
    next to separator" *)
Definition literal_level (l : list Z) : Prop := Forall (λ c, c ≠ 43 ∧ c ≠ 35) l.

Fixpoint wf_filter (f : list (list Z)) : Prop :=
  match f with
  | [] => True
  | l :: f => (l = [35] ∧ f = []) ∨ ((l = [43] ∨ literal_level l) ∧ wf_filter f)
  end.

#[export] Instance literal_level_dec l : Decision (literal_level l).
Proof. unfold literal_level. apply _. Defined.

#[export] Instance wf_filter_dec f : Decision (wf_filter f).
Proof. induction f as [|l f IH]; cbn [wf_filter]; apply _. Defined.

(** ** The loop on lists *)

Definition no_slash (l : list Z) : Prop := Forall (λ c, c ≠ 47) l.

(** What follows a level: nothing or a '/'. *)
Definition level_end (t : list Z) : Prop := t = [] ∨ ∃ t', t = 47 :: t'.

Fixpoint drop_level (t : list Z) : list Z :=
  match t with [] => [] | c :: t' => if c =? 47 then t else drop_level t' end.

Fixpoint list_match (f t : list Z) : bool :=
  match f, t with
  | [], _ => bool_decide (t = [])
  | _, [] => false
  | c :: f, n :: t =>
      if (n =? 47) && negb (c =? 47) then false
      else if negb (c =? 43) && negb (c =? 35) && negb (c =? n) then false
      else list_match f (if c =? 43 then drop_level t else if c =? 35 then [] else t)
  end.

Lemma drop_level_end l t : no_slash l → level_end t → drop_level (l ++ t) = t.
Proof.
  intros Hl Ht. induction Hl as [|c l Hc Hl IH]; cbn [app drop_level].
  - destruct Ht as [->|[t' ->]]; done.
  - by rewrite (proj2 (Z.eqb_neq c 47) Hc).
Qed.

Lemma split_level t : ∃ l t', t = l ++ t' ∧ no_slash l ∧ level_end t'.
Proof.
  induction t as [|c t (l & t' & -> & Hl & Ht)]; [exists [], []; repeat constructor|].
  destruct (Z.eq_dec c 47) as [->|Hc].
  - exists [], (47 :: l ++ t'). split_and!; [done|constructor|right; eauto].
  - exists (c :: l), t'. split_and!; [done|by constructor|done].
Qed.

Lemma rd_second p c d l : rd (p ++ c :: d :: l) (zlen p + 1) = Ok d.
Proof. pose proof (rd_mid p (c :: d :: l) [] 1 d eq_refl) as E. by rewrite app_nil_r in E. Qed.

Lemma skip_level_spec k p c l t r : no_slash l → level_end t → (length l < k)%nat →
  skip_level k (p ++ (c :: l ++ t) ++ r) (zlen p) (zlen p + zlen (c :: l ++ t))
    = Ok (zlen p + zlen l).
Proof.
  intros Hl Ht. revert k p c. induction Hl as [|d l Hd Hl IH]; intros k p c Hk;
    (destruct k as [|k]; [lia|]); cbn [skip_level].
  - cbn [app]. destruct Ht as [->|[t' ->]].
    + destruct (Z.ltb_spec (zlen p + 1) (zlen p + zlen [c])); [cbn in *; lia|]. cbn. f_equal. lia.
    + destruct (Z.ltb_spec (zlen p + 1) (zlen p + zlen (c :: 47 :: t'))); [|cbn in *; lia].
      cbn [app]. rewrite rd_second. cbn. f_equal. lia.
  - destruct (Z.ltb_spec (zlen p + 1) (zlen p + zlen (c :: (d :: l) ++ t))); [|lens].
    cbn [app]. rewrite rd_second, bind_ok.
    rewrite (proj2 (Z.eqb_neq d 47) Hd). cbn [negb].
    pose proof (IH k (p ++ [c]) d ltac:(cbn in *; lia)) as E.
    replace (zlen (p ++ [c])) with (zlen p + 1) in E by lens.
    rewrite <- app_assoc in E. cbn [app] in *.
    replace (zlen p + zlen (c :: d :: l ++ t)) with (zlen p + 1 + zlen (d :: l ++ t)) by lens.
    rewrite E. f_equal. lens.
Qed.

(** The two pointers at the end of the loop. *)
Lemma match_loop_spec f t p r :
  ∃ curf curn, match_loop f (p ++ t ++ r) (zlen p) (zlen p + zlen t) = Ok (curf, curn) ∧
    (curn =? zlen p + zlen t) && bool_decide (curf = []) = list_match f t.
Proof.
  revert t p. induction f as [|c f IH]; intros t p; cbn [match_loop].
  - eexists _, _. split; [done|]. cbn [list_match]. rewrite (bool_decide_eq_true_2 ([] = [])) by done.
    rewrite andb_true_r. destruct t as [|n t]; cbn [length].
    + by rewrite Z.add_0_r, Z.eqb_refl.
    + rewrite bool_decide_eq_false_2 by done. apply Z.eqb_neq. lia.
  - destruct t as [|n t].
    { cbn [length]. rewrite Z.add_0_r, Z.ltb_irrefl. eexists _, _. split; [done|].
      by rewrite (bool_decide_eq_false_2 (_ :: _ = [])), andb_false_r by done. }
    destruct (Z.ltb_spec (zlen p) (zlen p + zlen (n :: t))); [|cbn in *; lia].
    pose proof (rd_app p n (t ++ r)) as E. change (n :: t ++ r) with ((n :: t) ++ r) in E.
    rewrite E, bind_ok. clear E. cbn [list_match].
    assert (∃ curf curn, Ok (c :: f, zlen p) = Ok (curf, curn) ∧
      (curn =? zlen p + zlen (n :: t)) && bool_decide (curf = []) = false) as Hstop.
    { eexists _, _. split; [done|]. by rewrite (bool_decide_eq_false_2 (_ :: _ = [])), andb_false_r by done. }
    destruct ((n =? 47) && negb (c =? 47)); [exact Hstop|].
    destruct (negb (c =? 43) && negb (c =? 35) && negb (c =? n)); [exact Hstop|]. clear Hstop.
    destruct (c =? 43); [|destruct (c =? 35)]; rewrite ?bind_ok.
    + destruct (split_level t) as (l & t' & -> & Hl & Ht).
      rewrite drop_level_end by done.
      rewrite skip_level_spec, bind_ok by (done || lens).
      pose proof (IH t' (p ++ n :: l)) as E. rewrite <- !app_assoc in E. cbn [app] in *.
      rewrite <- app_assoc.
      replace (zlen p + zlen l + 1) with (zlen (p ++ n :: l)) by lens.
      replace (zlen p + zlen (n :: l ++ t')) with (zlen (p ++ n :: l) + zlen t') by lens. exact E.
    + pose proof (IH [] (p ++ n :: t)) as E. rewrite <- !app_assoc in E. cbn [app length] in *.
      replace (zlen p + Z.of_nat (S (length t)) - 1 + 1) with (zlen (p ++ n :: t)) by lens.
      replace (zlen p + Z.of_nat (S (length t))) with (zlen (p ++ n :: t) + Z.of_nat 0) by lens. exact E.
    + pose proof (IH t (p ++ [n])) as E. rewrite <- !app_assoc in E. cbn [app] in *.
      replace (zlen p + 1) with (zlen (p ++ [n])) by lens.
      replace (zlen p + zlen (n :: t)) with (zlen (p ++ [n]) + zlen t) by lens. exact E.
Qed.

(** ** Lists of levels *)

Definition rest_levels (t : list Z) : list (list Z) :=
  match t with [] => [] | _ :: t => levels t end.

Lemma levels_cons s : ∃ l ls, levels s = l :: ls.
Proof.
  destruct s as [|c s]; cbn; [eauto|]. destruct (c =? 47); [eauto|]. destruct (levels s); eauto.
Qed.

Lemma levels_split l t : no_slash l → level_end t → levels (l ++ t) = l :: rest_levels t.
Proof.
  intros Hl Ht. induction Hl as [|c l Hc Hl IH]; cbn [app levels].
  - destruct Ht as [->|[t' ->]]; done.
  - by rewrite (proj2 (Z.eqb_neq c 47) Hc), IH.
Qed.

(** A level without wildcards is compared character by character. *)
Lemma list_match_literal l m f t :
  literal_level l → no_slash l → no_slash m → level_end f → level_end t →
  list_match (l ++ f) (m ++ t) = bool_decide (l = m) && list_match f t.
Proof.
  intros Hw Hl. revert m. induction Hl as [|c l Hc Hl IH]; intros m Hm Hf Ht.
  - destruct Hm as [|d m Hd Hm]; [by rewrite bool_decide_eq_true_2|].
    rewrite bool_decide_eq_false_2 by done. cbn [app andb].
    destruct Hf as [->|[f' ->]]; cbn [list_match]; [by rewrite bool_decide_eq_false_2|].
    rewrite (proj2 (Z.eqb_neq d 47) Hd), (Z.eqb_sym 47 d), (proj2 (Z.eqb_neq d 47) Hd). done.
  - apply Forall_cons in Hw as [[Hc1 Hc2] Hw].
    destruct Hm as [|d m Hd Hm].
    + rewrite bool_decide_eq_false_2 by done. cbn [app].
      destruct Ht as [->|[t' ->]]; [done|]. cbn [list_match].
      by rewrite (proj2 (Z.eqb_neq c 47) Hc).
    + cbn [app list_match]. rewrite (proj2 (Z.eqb_neq d 47) Hd), (proj2 (Z.eqb_neq c 43) Hc1),
        (proj2 (Z.eqb_neq c 35) Hc2). cbn [negb andb].
      destruct (Z.eqb_spec c d) as [->|Hcd]; cbn [negb].
      * rewrite IH by done. f_equal. apply bool_decide_ext. split; congruence.
      * rewrite bool_decide_eq_false_2 by congruence. done.
Qed.

Lemma list_match_levels f t : wf_filter (levels f) → list_match f t = code_match (levels f) (levels t).
Proof.
  remember (length f) as k eqn:Hk. assert (length f ≤ k)%nat as Hk' by lia. clear Hk.
  revert f t Hk'. induction k as [k IH] using lt_wf_ind. intros f t Hk' Hwf.
  destruct (split_level f) as (l & f' & -> & Hl & Hf), (split_level t) as (m & t' & -> & Hm & Ht).
  rewrite !levels_split by done. rewrite levels_split in Hwf by done. cbn [wf_filter code_match] in *.
  assert (wf_filter (rest_levels f') → list_match f' t' = code_match (rest_levels f') (rest_levels t'))
    as Hrest.
  { intros Hw. destruct Hf as [->|[f'' ->]], Ht as [->|[t'' ->]]; cbn [rest_levels list_match] in *.
    - done.
    - destruct (levels_cons t'') as (? & ? & ->). done.
    - destruct (levels_cons f'') as (? & ? & ->). done.
    - cbn. apply (IH (length f'')); [|done|done]. rewrite length_app in Hk'. cbn in Hk'. lia. }
  destruct Hwf as [[-> Hr]|[[->|Hlit] Hw]].
  - rewrite bool_decide_eq_true_2 by done.
    assert (f' = []) as ->.
    { destruct Hf as [->|[f'' ->]]; [done|]. cbn in Hr. destruct (levels_cons f'') as (? & ? & E). congruence. }
    destruct Hm as [|d m Hd Hm].
    + destruct Ht as [->|[t'' ->]]; done.
    + cbn. by rewrite (proj2 (Z.eqb_neq d 47) Hd).
  - rewrite (bool_decide_eq_false_2 ([43] = [35])), (bool_decide_eq_true_2 ([43] = [43])) by done.
    destruct Hm as [|d m Hd Hm].
    + destruct Ht as [->|[t'' ->]]; done.
    + rewrite (bool_decide_eq_false_2 (_ :: _ = [])) by done. cbn [app list_match].
      rewrite (proj2 (Z.eqb_neq d 47) Hd). cbn [andb Z.eqb Pos.eqb negb].
      rewrite drop_level_end by done. by apply Hrest.
  - rewrite (bool_decide_eq_false_2 (l = [35])), (bool_decide_eq_false_2 (l = [43])).
    + rewrite list_match_literal, Hrest by done. done.
    + intros ->. apply Forall_cons in Hlit as [[? _] _]. done.
    + intros ->. apply Forall_cons in Hlit as [[_ ?] _]. done.
Qed.

Lemma code_match_sound f n : code_match f n = true → mqtt_match f n = true.
Proof.
  revert n. induction f as [|l f IH]; intros [|m n]; cbn; try done.
  case_bool_decide; [done|]. intros [H1 H2]%andb_prop. rewrite IH by done.
  case_bool_decide; [done|]. by rewrite H1.
Qed.

Lemma code_match_complete f n : wf_filter f → [] ∉ n → mqtt_match f n = true →
  code_match f n = true ∨ ∃ f', f = f' ++ [[35]] ∧ code_match f' n = true.
Proof.
  revert n. induction f as [|l f IH]; intros n Hw Hn; cbn.
  - case_bool_decide; [|done]. subst. by left.
  - case_bool_decide as Hl.
    + subst l. destruct Hw as [[_ ->]|[[[=]|Hlit] _]].
      2: { apply Forall_cons in Hlit as [[_ ?] _]. done. }
      intros _. destruct n as [|m n]; [right; by exists []|]. left.
      rewrite bool_decide_eq_false_2; [done|]. intros ->. apply Hn. left.
    + destruct n as [|m n]; [done|]. intros [H1 H2]%andb_prop.
      destruct Hw as [[? _]|[_ Hw]]; [done|]. apply not_elem_of_cons in Hn as [Hm Hn].
      assert ((if bool_decide (l = [43]) then negb (bool_decide (m = [])) else bool_decide (l = m)) = true) as E.
      { case_bool_decide; [|done]. rewrite bool_decide_eq_false_2; [done|congruence]. }
      destruct (IH n Hw Hn H2) as [H|(f' & -> & H)].
      * left. by rewrite E, H.
      * right. exists (l :: f'). split; [done|]. cbn. rewrite bool_decide_eq_false_2 by done. by rewrite E, H.
Qed.

Lemma isTopicMatched_eq f t r : wf_filter (levels f) →
  isTopicMatched f (view_string t r) = Ok (code_match (levels f) (levels t)).
Proof.
  intros Hw. unfold isTopicMatched. cbn [view_string lenstring ls_data ls_len default].
  destruct (match_loop_spec f t [] r) as (curf & curn & E & Hm). cbn [app length] in *.
  change (Z.of_nat 0) with 0 in *. rewrite Z.add_0_l in *. cbn. rewrite E. cbn. rewrite Hm.
  by rewrite list_match_levels.
Qed.

(** ** Theorem *)

(** C33: [isTopicMatched] stays inside the topic and compares it with a filter in correct format
    level by level.  It accepts only topics the rules of MQTT accept.  It misses those where a
    wildcard meets an empty level and, for a filter that ends with '#', the topic of the parent
    level; it accepts all the others. *)
Theorem isTopicMatched_spec f t r :
  wf_filter (levels f) →
  isTopicMatched f (view_string t r) = Ok (code_match (levels f) (levels t)) ∧
  (code_match (levels f) (levels t) = true → mqtt_match (levels f) (levels t) = true) ∧
  ([] ∉ levels t → mqtt_match (levels f) (levels t) = true →
     code_match (levels f) (levels t) = true ∨
     ∃ f', levels f = f' ++ [[35]] ∧ code_match f' (levels t) = true).
Proof.
  intros Hw. split_and!.
  - by apply isTopicMatched_eq.
  - apply code_match_sound.
  - by apply code_match_complete.
Qed.

Lemma isTopicMatched_spec_witness :
  wf_filter (levels (chars "FreeRTOS/+/#")) ∧
  isTopicMatched (chars "FreeRTOS/+/#") (view_string (chars "FreeRTOS/sample/7/x") [0; 0]) = Ok true ∧
  isTopicMatched (chars "FreeRTOS/+/#") (view_string (chars "FreeRTOS/sample") []) = Ok false.
Proof.
  assert (wf_filter (levels (chars "FreeRTOS/+/#"))) as H.
  { apply (bool_decide_unpack _). vm_compute. exact I. }
  split; [exact H|]. split.
  - exact (proj1 (isTopicMatched_spec (chars "FreeRTOS/+/#") (chars "FreeRTOS/sample/7/x") [0; 0] H)).
  - exact (proj1 (isTopicMatched_spec (chars "FreeRTOS/+/#") (chars "FreeRTOS/sample") [] H)).
Defined.
