(* ===== verification/MqttClient.v ===== *)
(** The MQTT client (paho.mqtt.embedded-c/MQTTClient-C/src/MQTTClient.cpp and MQTTClient.h): packet
    exchange with the broker, the table of message handlers, keep-alive and the API functions.

    The client is a state-passing computation over [st]: its structure and the state [W] of the
    platform, which it reaches through the interfaces of Network.v.  The API functions take the
    client's mutex for their whole body, so each of them, and each turn of [MQTTRun], is one
    indivisible step.  Every loop has the fuel [fuel].  Automatic variables that are not
    initialised have the values [junk], [junk_ack] and [junk_id], which are arbitrary.  Message
    handlers are functions of the application that act on [W].  An [enum] is as wide as an
    [int], as the casts of the code assume. *)
From S2P Require Import Prelude CString MqttPacket MqttSerialize MqttDeserialize MqttTopic StateMonad Network.

(** ** Constants and data (MQTTClient.h) *)

Definition MAX_PACKET_ID : Z := 65535.
Definition MAX_MESSAGE_HANDLERS : nat := 5.

Definition QOS0 : Z := 0.
Definition QOS1 : Z := 1.
Definition QOS2 : Z := 2.

Definition BUFFER_OVERFLOW : Z := -2.
Definition FAILURE : Z := -1.
Definition SUCCESS : Z := 0.

Record MQTTMessage := mkMessage {
  m_qos : Z; m_retained : Z; m_dup : Z; m_id : Z; m_payload : option (list Z); m_payloadlen : Z }.

Record MessageData := mkMessageData { md_message : MQTTMessage; md_topicName : MQTTString }.

(** ** The client *)

Section Client.
Context {W : Type} {clock : Clock W} {network : Network W}.
Context (fuel : nat) (junk : publish_out) (junk_ack : ack_out) (junk_id : Z).

Definition messageHandler : Type := MessageData → W → W.

(** An element of [messageHandlers]: [topicFilter] and [fp], null or not. *)
Record MessageHandler := mkHandler { topicFilter : option (list Z); fp : option messageHandler }.

Record MQTTClient := mkClient {
  next_packetid : Z; command_timeout_ms : Z; buf_size : Z; readbuf_size : Z; buf : list Z;
  readbuf : list Z; c_keepAliveInterval : Z; ping_outstanding : Z; isconnected : Z; c_cleansession : Z;
  messageHandlers : list MessageHandler; defaultMessageHandler : option messageHandler; last_sent : Timer; last_received : Timer }.

(** Assignments to single members. *)
Definition set_next_packetid (x : Z) (c : MQTTClient) : MQTTClient :=
    mkClient x (command_timeout_ms c) (buf_size c) (readbuf_size c) (buf c) (readbuf c)
    (c_keepAliveInterval c) (ping_outstanding c) (isconnected c) (c_cleansession c)
    (messageHandlers c) (defaultMessageHandler c) (last_sent c) (last_received c).
Definition set_buf (x : list Z) (c : MQTTClient) : MQTTClient :=
    mkClient (next_packetid c) (command_timeout_ms c) (buf_size c) (readbuf_size c) x (readbuf
    c) (c_keepAliveInterval c) (ping_outstanding c) (isconnected c) (c_cleansession c)
    (messageHandlers c) (defaultMessageHandler c) (last_sent c) (last_received c).
Definition set_readbuf (x : list Z) (c : MQTTClient) : MQTTClient :=
    mkClient (next_packetid c) (command_timeout_ms c) (buf_size c) (readbuf_size c) (buf c) x
    (c_keepAliveInterval c) (ping_outstanding c) (isconnected c) (c_cleansession c)
    (messageHandlers c) (defaultMessageHandler c) (last_sent c) (last_received c).
Definition set_c_keepAliveInterval (x : Z) (c : MQTTClient) : MQTTClient :=
    mkClient (next_packetid c) (command_timeout_ms c) (buf_size c) (readbuf_size c) (buf c)
    (readbuf c) x (ping_outstanding c) (isconnected c) (c_cleansession c) (messageHandlers c)
    (defaultMessageHandler c) (last_sent c) (last_received c).
Definition set_ping_outstanding (x : Z) (c : MQTTClient) : MQTTClient :=
    mkClient (next_packetid c) (command_timeout_ms c) (buf_size c) (readbuf_size c) (buf c)
    (readbuf c) (c_keepAliveInterval c) x (isconnected c) (c_cleansession c) (messageHandlers c)
    (defaultMessageHandler c) (last_sent c) (last_received c).
Definition set_isconnected (x : Z) (c : MQTTClient) : MQTTClient :=
    mkClient (next_packetid c) (command_timeout_ms c) (buf_size c) (readbuf_size c) (buf c)
    (readbuf c) (c_keepAliveInterval c) (ping_outstanding c) x (c_cleansession c)
    (messageHandlers c) (defaultMessageHandler c) (last_sent c) (last_received c).
Definition set_c_cleansession (x : Z) (c : MQTTClient) : MQTTClient :=
    mkClient (next_packetid c) (command_timeout_ms c) (buf_size c) (readbuf_size c) (buf c)
    (readbuf c) (c_keepAliveInterval c) (ping_outstanding c) (isconnected c) x (messageHandlers
    c) (defaultMessageHandler c) (last_sent c) (last_received c).
Definition set_messageHandlers (x : list MessageHandler) (c : MQTTClient) : MQTTClient :=
    mkClient (next_packetid c) (command_timeout_ms c) (buf_size c) (readbuf_size c) (buf c)
    (readbuf c) (c_keepAliveInterval c) (ping_outstanding c) (isconnected c) (c_cleansession c)
    x (defaultMessageHandler c) (last_sent c) (last_received c).
Definition set_last_sent (x : Timer) (c : MQTTClient) : MQTTClient :=
    mkClient (next_packetid c) (command_timeout_ms c) (buf_size c) (readbuf_size c) (buf c)
    (readbuf c) (c_keepAliveInterval c) (ping_outstanding c) (isconnected c) (c_cleansession c)
    (messageHandlers c) (defaultMessageHandler c) x (last_received c).
Definition set_last_received (x : Timer) (c : MQTTClient) : MQTTClient :=
    mkClient (next_packetid c) (command_timeout_ms c) (buf_size c) (readbuf_size c) (buf c)
    (readbuf c) (c_keepAliveInterval c) (ping_outstanding c) (isconnected c) (c_cleansession c)
    (messageHandlers c) (defaultMessageHandler c) (last_sent c) x.

Record st := mkSt { client : MQTTClient; world : W }.

Definition upd (f : MQTTClient → MQTTClient) : ST st unit := modify (λ s, mkSt (f (client s)) (world s)).
Definition field {A} (f : MQTTClient → A) : ST st A := gets (λ s, f (client s)).

(** A call of the platform. *)
Definition platform {A} (f : W → A * W) : ST st A :=
  λ s, let '(a, w) := f (world s) in Ok (a, mkSt (client s) w).

(** The timers, which are local variables of the callers: the timer after the call is returned. *)
Definition timer_left (timer : Timer) : ST st (Z * Timer) := platform (TimerLeftMS timer).
Definition timer_expired (timer : Timer) : ST st (bool * Timer) := platform (TimerIsExpired timer).
Definition countdown_ms (ms : Z) : ST st Timer := platform (TimerCountdownMS ms).
Definition countdown (secs : Z) : ST st Timer := platform (TimerCountdown secs).

(** The calls through [c->ipstack]. *)
Definition net_write (off len timeout : Z) : ST st Z := λ s,
  '(rc, w) ← mqttwrite (buf (client s)) off len timeout (world s);
  Ok (rc, mkSt (client s) w).

Definition net_read (off len timeout : Z) : ST st Z := λ s,
  '(rc, b, w) ← mqttread (readbuf (client s)) off len timeout (world s);
  Ok (rc, mkSt (set_readbuf b (client s)) w).

(** [mqttread] of one byte into the variable [i]. *)
Definition net_read_byte (i timeout : Z) : ST st (Z * Z) := λ s,
  '(rc, b, w) ← mqttread [i] 0 1 timeout (world s);
  i ← rd b 0;
  Ok ((rc, i), mkSt (client s) w).

(** A packet writer, called with [c->buf] and [c->buf_size]. *)
Definition serialize_to_buf (f : list Z → Z → outcome (list Z * Z)) : ST st Z := λ s,
  '(b, len) ← f (buf (client s)) (buf_size (client s));
  Ok (len, mkSt (set_buf b (client s)) (world s)).

(** A packet reader, called with [c->readbuf] and [c->readbuf_size]. *)
Definition deserialize {A} (f : list Z → Z → outcome A) : ST st A := λ s,
  a ← f (readbuf (client s)) (readbuf_size (client s)); Ok (a, s).

(** *** Initialisation and identifiers *)

(** The other members keep what they had: [keepAliveInterval] is not initialised. *)
Definition MQTTClientInit (c : MQTTClient) (command_timeout_ms : Z) (sendbuf : list Z) (sendbuf_size : Z)
    (readbuf : list Z) (readbuf_size : Z) : MQTTClient :=
  mkClient 1 command_timeout_ms sendbuf_size readbuf_size sendbuf readbuf
    (c_keepAliveInterval c) 0 0 0
    (map (λ h, mkHandler None (fp h)) (messageHandlers c)) None (last_sent c) (last_received c).

Definition getNextPacketId : ST st Z :=
  id ← field next_packetid;
  let id := if id =? MAX_PACKET_ID then 1 else id + 1 in
  upd (set_next_packetid id);; mret id.

(** *** Sending *)

Fixpoint send_loop (fuel : nat) (length sent : Z) (timer : Timer) : ST st (Z * Timer) :=
  match fuel with
  | O => out_of_fuel
  | S fuel =>
      if sent <? length then
        '(expired, timer) ← timer_expired timer;
        if expired : bool then mret (sent, timer)
        else
          '(ms_left, timer) ← timer_left timer;
          rc ← net_write sent length ms_left;
          if rc <? 0 then mret (sent, timer) else send_loop fuel length (sent + rc) timer
      else mret (sent, timer)
  end.

Definition sendPacket (length : Z) (timer : Timer) : ST st (Z * Timer) :=
  '(sent, timer) ← send_loop fuel length 0 timer;
  if sent =? length then
    k ← field c_keepAliveInterval;
    t ← countdown k;
    upd (set_last_sent t);; mret (SUCCESS, timer)
  else mret (FAILURE, timer).

(** *** Receiving *)

(** The loop of [decodePacket], which gives [*value]; its result [len] is not used. *)
Fixpoint decodePacket_loop (fuel : nat) (i multiplier len value timeout : Z) : ST st Z :=
  match fuel with
  | O => out_of_fuel
  | S fuel =>
      let len := len + 1 in
      if MAX_NO_OF_REMAINING_LENGTH_BYTES <? len then mret value
      else
        '(rc, i) ← net_read_byte i timeout;
        if negb (rc =? 1) then mret value
        else
          let value := value + Z.land i 127 * multiplier in
          let multiplier := multiplier * 128 in
          if negb (Z.land i 128 =? 0) then decodePacket_loop fuel i multiplier len value timeout
          else mret value
  end.

Definition decodePacket (timeout : Z) : ST st Z := decodePacket_loop 5 0 1 0 0 timeout.

(** [len += MQTTPacket_encode(c->readbuf + 1, rem_len)] *)
Definition put_length (rem_len : Z) : ST st Z := λ s,
  '(w, n) ← MQTTPacket_encode (Cursor.W (readbuf (client s)) 1) rem_len;
  Ok (n, mkSt (set_readbuf (Cursor.w_buf w) (client s)) (world s)).

Definition readPacket (timer : Timer) : ST st (Z * Timer) :=
  '(ms_left, timer) ← timer_left timer;
  rc ← net_read 0 1 ms_left;
  if negb (rc =? 1) then mret (rc, timer)
  else
    '(ms_left, timer) ← timer_left timer;
    rem_len ← decodePacket ms_left;
    n ← put_length rem_len;
    let len := 1 + n in
    readbuf_size ← field readbuf_size;
    if u32 (readbuf_size - len) <? rem_len then mret (BUFFER_OVERFLOW, timer)
    else
      '(short, timer) ←
        (if 0 <? rem_len then
           '(ms_left, timer) ← timer_left timer;
           rc ← net_read len rem_len ms_left;
           mret (negb (rc =? rem_len), timer)
         else mret (false, timer));
      if short : bool then mret (0, timer)
      else
        b ← deserialize (λ buf _, rd buf 0);
        k ← field c_keepAliveInterval;
        (if 0 <? k then t ← countdown k; upd (set_last_received t) else mret tt);;
        mret (h_type (byte_header b), timer).

(** *** Delivery *)

Fixpoint deliver_loop (hs : list MessageHandler) (md : MessageData) (rc : Z) : ST st Z :=
  match hs with
  | [] => mret rc
  | h :: hs =>
      match topicFilter h with
      | None => deliver_loop hs md rc
      | Some f =>
          hit ← lift (eq ← MQTTPacket_equals (md_topicName md) f;
                      if eq : bool then Ok true else isTopicMatched f (md_topicName md));
          match hit : bool, fp h with
          | true, Some g => platform (λ w, (tt, g md w));; deliver_loop hs md SUCCESS
          | _, _ => deliver_loop hs md rc
          end
      end
  end.

Definition deliverMessage (topicName : MQTTString) (message : MQTTMessage) : ST st Z :=
  let md := mkMessageData message topicName in
  hs ← field messageHandlers;
  rc ← deliver_loop hs md FAILURE;
  dh ← field defaultMessageHandler;
  match dh with
  | Some g => if rc =? FAILURE then platform (λ w, (tt, g md w));; mret SUCCESS else mret rc
  | None => mret rc
  end.

(** *** Sessions *)

Definition keepalive : ST st Z :=
  k ← field c_keepAliveInterval;
  if k =? 0 then mret SUCCESS
  else
    t ← field last_sent;
    '(e1, t) ← timer_expired t;
    upd (set_last_sent t);;
    e ← (if e1 : bool then mret true
         else
           t ← field last_received;
           '(e2, t) ← timer_expired t;
           upd (set_last_received t);; mret e2);
    if e : bool then
      ping ← field ping_outstanding;
      if negb (ping =? 0) then mret FAILURE
      else
        timer ← countdown_ms 1000;
        len ← serialize_to_buf MQTTSerialize_pingreq;
        if 0 <? len then
          '(rc, _) ← sendPacket len timer;
          (if rc =? SUCCESS then upd (set_ping_outstanding 1) else mret tt);; mret rc
        else mret SUCCESS
    else mret SUCCESS.

Definition MQTTCleanSession (c : MQTTClient) : MQTTClient :=
  set_messageHandlers (map (λ h, mkHandler None (fp h)) (messageHandlers c)) c.

Definition MQTTCloseSession (c : MQTTClient) : MQTTClient :=
  let c := set_isconnected 0 (set_ping_outstanding 0 c) in
  if negb (c_cleansession c =? 0) then MQTTCleanSession c else c.

(** *** One packet *)

(** The answer to a PUBLISH or a PUBREC/PUBREL: write it and send it. *)
Definition answer (packettype id : Z) (timer : Timer) : ST st (Z * Timer) :=
  len ← serialize_to_buf (λ buf n, MQTTSerialize_ack buf n packettype 0 id);
  if len <=? 0 then mret (FAILURE, timer) else sendPacket len timer.

(** The [switch] of [cycle]: the return code and whether the code goes to [exit] directly. *)
Definition handle_packet (packet_type : Z) (timer : Timer) : ST st (Z * bool * Timer) :=
  if (packet_type =? 0) || (packet_type =? CONNACK) || (packet_type =? PUBACK) ||
     (packet_type =? SUBACK) || (packet_type =? UNSUBACK) || (packet_type =? PUBCOMP) then
    mret (SUCCESS, false, timer)
  else if packet_type =? PUBLISH then
    '(ok, o) ← deserialize (MQTTDeserialize_publish
      (mkPub (po_dup junk) (po_qos junk) (po_retained junk) (po_packetid junk) (po_topic junk)
             (po_payload junk) 0));
    if negb (ok =? 1) then mret (SUCCESS, true, timer)
    else
      let msg := mkMessage (po_qos o) (po_retained o) (po_dup o) (po_packetid o) (po_payload o)
                           (u32 (po_payloadlen o)) in
      deliverMessage (po_topic o) msg;;
      if negb (m_qos msg =? QOS0) then
        '(rc, timer) ←
          (if m_qos msg =? QOS1 then answer PUBACK (m_id msg) timer
           else if m_qos msg =? QOS2 then answer PUBREC (m_id msg) timer
           else mret (FAILURE, timer));
        mret (rc, rc =? FAILURE, timer)
      else mret (SUCCESS, false, timer)
  else if (packet_type =? PUBREC) || (packet_type =? PUBREL) then
    '(ok, o) ← deserialize (MQTTDeserialize_ack junk_ack);
    '(rc, timer) ←
      (if negb (ok =? 1) then mret (FAILURE, timer)
       else
         '(rc, timer) ← answer (if packet_type =? PUBREC then PUBREL else PUBCOMP) (ao_packetid o) timer;
         mret (if negb (rc =? SUCCESS) then FAILURE else rc, timer));
    mret (rc, rc =? FAILURE, timer)
  else if packet_type =? PINGRESP then upd (set_ping_outstanding 0);; mret (SUCCESS, false, timer)
  else mret (packet_type, true, timer).

Definition cycle (timer : Timer) : ST st (Z * Timer) :=
  '(packet_type, timer) ← readPacket timer;
  '(rc, exit, timer) ← handle_packet packet_type timer;
  rc ← (if exit : bool then mret rc
        else ka ← keepalive; mret (if negb (ka =? SUCCESS) then FAILURE else rc));
  if rc =? SUCCESS then mret (packet_type, timer)
  else
    conn ← field isconnected;
    (if negb (conn =? 0) then upd MQTTCloseSession else mret tt);; mret (rc, timer).

Fixpoint yield_loop (fuel : nat) (timer : Timer) : ST st Z :=
  match fuel with
  | O => out_of_fuel
  | S fuel =>
      '(rc, timer) ← cycle timer;
      if rc <? 0 then mret FAILURE
      else
        '(expired, timer) ← timer_expired timer;
        if expired : bool then mret SUCCESS else yield_loop fuel timer
  end.

Definition MQTTYield (timeout_ms : Z) : ST st Z :=
  timer ← countdown_ms timeout_ms; yield_loop fuel timer.

Definition MQTTIsConnected (c : MQTTClient) : Z := isconnected c.

(** One turn of the endless loop of [MQTTRun], between two delays. *)
Definition MQTTRun_turn : ST st unit :=
  conn ← field isconnected;
  if negb (conn =? 0) then timer ← countdown_ms 50; cycle timer;; mret tt else mret tt.

Fixpoint waitfor_loop (fuel : nat) (packet_type rc : Z) (timer : Timer) : ST st (Z * Timer) :=
  match fuel with
  | O => out_of_fuel
  | S fuel =>
      '(expired, timer) ← timer_expired timer;
      if expired : bool then mret (rc, timer)
      else
        '(rc, timer) ← cycle timer;
        if negb (rc =? packet_type) && (0 <=? rc) then waitfor_loop fuel packet_type rc timer
        else mret (rc, timer)
  end.

Definition waitfor (packet_type : Z) (timer : Timer) : ST st (Z * Timer) :=
  waitfor_loop fuel packet_type FAILURE timer.

(** *** The API *)

(** The results are the C result and the CONNACK data. *)
Definition MQTTConnectWithResults (options : option MQTTPacket_connectData) (data : connack_out)
  : ST st (Z * connack_out) :=
  conn ← field isconnected;
  if negb (conn =? 0) then mret (FAILURE, data)
  else
    timeout ← field command_timeout_ms;
    connect_timer ← countdown_ms timeout;
    let options := default MQTTPacket_connectData_initializer options in
    upd (set_c_keepAliveInterval (keepAliveInterval options));;
    upd (set_c_cleansession (cleansession options));;
    t ← countdown (keepAliveInterval options);
    upd (set_last_received t);;
    len ← serialize_to_buf (λ b n, MQTTSerialize_connect b n options);
    '(rc, data) ←
      (if len <=? 0 then mret (FAILURE, data)
       else
         '(rc, connect_timer) ← sendPacket len connect_timer;
         if negb (rc =? SUCCESS) then mret (rc, data)
         else
           '(r, _) ← waitfor CONNACK connect_timer;
           if r =? CONNACK then
             '(ok, data) ← deserialize (MQTTDeserialize_connack (mkConnack 0 0));
             mret (if ok =? 1 then connack_rc data else FAILURE, data)
           else mret (FAILURE, data));
    (if rc =? SUCCESS then upd (set_isconnected 1);; upd (set_ping_outstanding 0) else mret tt);;
    mret (rc, data).

Definition MQTTConnect (options : option MQTTPacket_connectData) (data : connack_out) : ST st Z :=
  '(rc, _) ← MQTTConnectWithResults options data; mret rc.

(** The index of the first element that satisfies [p], as the [for] loops with [break] find it. *)
Fixpoint find_slot (p : MessageHandler → bool) (hs : list MessageHandler) : option nat :=
  match hs with
  | [] => None
  | h :: hs => if p h then Some O else S <$> find_slot p hs
  end.

Definition has_filter (f : list Z) (h : MessageHandler) : bool := bool_decide (topicFilter h = Some f).
Definition is_free (h : MessageHandler) : bool := bool_decide (topicFilter h = None).

(** On the table of handlers: the result and the table after the call. *)
Definition set_handler (f : list Z) (g : option messageHandler) (hs : list MessageHandler)
  : Z * list MessageHandler :=
  match find_slot (has_filter f) hs, g with
  | Some i, None => (SUCCESS, <[i := mkHandler None None]> hs)
  | Some i, Some _ => (SUCCESS, <[i := mkHandler (Some f) g]> hs)
  | None, None => (FAILURE, hs)
  | None, Some _ =>
      match find_slot is_free hs with
      | Some i => (SUCCESS, <[i := mkHandler (Some f) g]> hs)
      | None => (FAILURE, hs)
      end
  end.

Definition MQTTSetMessageHandler (f : list Z) (g : option messageHandler) : ST st Z :=
  hs ← field messageHandlers;
  let '(rc, hs) := set_handler f g hs in
  upd (set_messageHandlers hs);; mret rc.

(** The common end of the API functions: close the session when the result is [FAILURE]. *)
Definition close_on_failure (rc : Z) : ST st unit :=
  if rc =? FAILURE then upd MQTTCloseSession else mret tt.

(** The results are the C result and [data->grantedQoS]. *)
Definition MQTTSubscribeWithResults (f : list Z) (qos : Z) (g : option messageHandler) (data : Z)
  : ST st (Z * Z) :=
  conn ← field isconnected;
  '(rc, granted) ←
    (if conn =? 0 then mret (FAILURE, data)
     else
       timeout ← field command_timeout_ms;
       timer ← countdown_ms timeout;
       id ← getNextPacketId;
       len ← serialize_to_buf (λ b n, MQTTSerialize_subscribe b n 0 id 1 [c_string f] [qos]);
       if len <=? 0 then mret (FAILURE, data)
       else
         '(rc, timer) ← sendPacket len timer;
         if negb (rc =? SUCCESS) then mret (rc, data)
         else
           '(r, _) ← waitfor SUBACK timer;
           if r =? SUBACK then
             '(ok, o) ← deserialize (λ b n, MQTTDeserialize_suback (mkSuback junk_id 0 [QOS0]) 1 b n);
             let granted := default QOS0 (so_grantedQoSs o !! 0%nat) in
             if (ok =? 1) && negb (granted =? 128) then
               rc ← MQTTSetMessageHandler f g; mret (rc, granted)
             else mret (rc, granted)
           else mret (FAILURE, data));
  close_on_failure rc;; mret (rc, granted).

Definition MQTTSubscribe (f : list Z) (qos : Z) (g : option messageHandler) (data : Z) : ST st Z :=
  '(rc, _) ← MQTTSubscribeWithResults f qos g data; mret rc.

Definition MQTTUnsubscribe (f : list Z) : ST st Z :=
  conn ← field isconnected;
  rc ←
    (if conn =? 0 then mret FAILURE
     else
       timeout ← field command_timeout_ms;
       timer ← countdown_ms timeout;
       id ← getNextPacketId;
       len ← serialize_to_buf (λ b n, MQTTSerialize_unsubscribe b n 0 id 1 [c_string f]);
       if len <=? 0 then mret FAILURE
       else
         '(rc, timer) ← sendPacket len timer;
         if negb (rc =? SUCCESS) then mret rc
         else
           '(r, _) ← waitfor UNSUBACK timer;
           if r =? UNSUBACK then
             '(ok, _) ← deserialize (MQTTDeserialize_unsuback junk_id);
             (if ok =? 1 then MQTTSetMessageHandler f None;; mret tt else mret tt);; mret rc
           else mret FAILURE);
  close_on_failure rc;; mret rc.

(** After the PUBLISH is sent: wait for the acknowledgement [ack]. *)
Definition await_ack (ack : Z) (rc : Z) (timer : Timer) : ST st Z :=
  '(r, _) ← waitfor ack timer;
  if r =? ack then
    '(ok, _) ← deserialize (MQTTDeserialize_ack junk_ack);
    mret (if negb (ok =? 1) then FAILURE else rc)
  else mret FAILURE.

(** The result and [*message] after the call, whose [id] the function may assign. *)
Definition MQTTPublish (topicName : list Z) (message : MQTTMessage) : ST st (Z * MQTTMessage) :=
  conn ← field isconnected;
  '(rc, message) ←
    (if conn =? 0 then mret (FAILURE, message)
     else
       timeout ← field command_timeout_ms;
       timer ← countdown_ms timeout;
       message ←
         (if (m_qos message =? QOS1) || (m_qos message =? QOS2) then
            id ← getNextPacketId;
            mret (mkMessage (m_qos message) (m_retained message) (m_dup message) (u16 id)
                            (m_payload message) (m_payloadlen message))
          else mret message);
       len ← serialize_to_buf (λ b n,
         MQTTSerialize_publish b n 0 (m_qos message) (m_retained message) (m_id message)
           (c_string topicName) (default [] (m_payload message)) (m_payloadlen message));
       if len <=? 0 then mret (FAILURE, message)
       else
         '(rc, timer) ← sendPacket len timer;
         if negb (rc =? SUCCESS) then mret (rc, message)
         else
           rc ← (if m_qos message =? QOS1 then await_ack PUBACK rc timer
                 else if m_qos message =? QOS2 then await_ack PUBCOMP rc timer
                 else mret rc);
           mret (rc, message));
  close_on_failure rc;; mret (rc, message).

Definition MQTTDisconnect : ST st Z :=
  timeout ← field command_timeout_ms;
  timer ← countdown_ms timeout;
  len ← serialize_to_buf MQTTSerialize_disconnect;
  rc ← (if 0 <? len then '(rc, _) ← sendPacket len timer; mret rc else mret FAILURE);
  upd MQTTCloseSession;; mret rc.
End Client.
