(* ===== verification/MqttHandlers.v ===== *)
(** The table of message handlers of the MQTT client: [MQTTSetMessageHandler] as a finite map of at
    most five topic filters, and [deliverMessage]. *)
From S2P Require Import Prelude CString MqttPacket MqttSerialize MqttDeserialize MqttTopic.
From S2P Require Import StateMonad Network MqttClient.

Section Handlers.
Context {W : Type} {clock : Clock W} {network : Network W}.
Implicit Types hs : list (MessageHandler (W := W)).

(** ** The table *)

(** The filters in use, and the function registered for one. *)
Definition filters hs : list (list Z) := omap topicFilter hs.

Definition handler_of (f : list Z) hs : option (option (messageHandler (W := W))) :=
  fp <$> find (has_filter f) hs.

Lemma has_filter_spec f (h : MessageHandler (W := W)) : has_filter f h = true ↔ topicFilter h = Some f.
Proof. apply bool_decide_eq_true. Qed.

Lemma find_slot_Some p hs i : find_slot p hs = Some i → ∃ h, hs !! i = Some h ∧ p h = true ∧
  ∀ j h', (j < i)%nat → hs !! j = Some h' → p h' = false.
Proof.
  revert i. induction hs as [|h hs IH]; intros i; cbn; [done|]. destruct (p h) eqn:E.
  - intros [= <-]. exists h. split_and!; [done..|lia].
  - destruct (find_slot p hs) as [k|]; [|done]. intros [= <-].
    destruct (IH k eq_refl) as (h' & E1 & E2 & E3). exists h'. split_and!; [done..|].
    intros [|j] h2 Hj; cbn; [by intros [= <-]|]. apply E3. lia.
Qed.

Lemma find_slot_None p hs : find_slot p hs = None ↔ Forall (λ h, p h = false) hs.
Proof.
  induction hs as [|h hs IH]; cbn [find_slot]; [done|]. rewrite Forall_cons. destruct (p h).
  - split; [done|]. by intros [? _].
  - rewrite <- IH. destruct (find_slot p hs); cbn; split; try done. by intros [_ ?].
Qed.

Lemma elem_of_filters f hs : f ∈ filters hs ↔ ∃ i h, hs !! i = Some h ∧ topicFilter h = Some f.
Proof.
  unfold filters. rewrite list_elem_of_omap. split.
  - intros (h & [i Hi]%list_elem_of_lookup & E). eauto.
  - intros (i & h & Hi & E). exists h. split; [|done]. by eapply list_elem_of_lookup_2.
Qed.

Lemma filters_split hs i h : hs !! i = Some h →
  filters hs = filters (take i hs) ++ from_option (λ f, [f]) [] (topicFilter h) ++ filters (drop (S i) hs).
Proof.
  intros Hi. rewrite <- (take_drop_middle hs i h Hi) at 1. unfold filters. rewrite omap_app. f_equal.
  cbn. by destruct (topicFilter h).
Qed.

Lemma filters_insert hs i h : (i < length hs)%nat →
  filters (<[i := h]> hs)
    = filters (take i hs) ++ from_option (λ f, [f]) [] (topicFilter h) ++ filters (drop (S i) hs).
Proof.
  intros Hi. rewrite insert_take_drop by done. unfold filters. rewrite omap_app. f_equal.
  cbn. by destruct (topicFilter h).
Qed.

Lemma filters_full hs : length (filters hs) = length hs ↔ Forall (λ h, is_free h = false) hs.
Proof.
  assert (∀ l : list (MessageHandler (W := W)), (length (filters l) ≤ length l)%nat) as Hle.
  { induction l as [|h l IH]; [done|]. unfold filters in *. cbn. destruct (topicFilter h); cbn; lia. }
  induction hs as [|h hs IH]; [done|]. rewrite Forall_cons, <- IH. specialize (Hle hs).
  unfold filters, is_free in *. cbn. destruct (topicFilter h); cbn.
  - split; [intros E; split; [done|lia]|intros [_ E]; lia].
  - split; [lia|]. by intros [? _].
Qed.

Lemma find_app {A} (p : A → bool) l1 l2 : find p (l1 ++ l2) = match find p l1 with Some x => Some x | None => find p l2 end.
Proof. induction l1 as [|x l1 IH]; cbn; [done|]. by destruct (p x). Qed.

Lemma find_insert (p : MessageHandler → bool) hs i h : (i < length hs)%nat →
  find p (<[i := h]> hs) = match find p (take i hs) with
                           | Some x => Some x
                           | None => if p h then Some h else find p (drop (S i) hs)
                           end.
Proof. intros Hi. rewrite insert_take_drop, find_app by done. done. Qed.

Lemma find_split (p : MessageHandler → bool) hs i h : hs !! i = Some h →
  find p hs = match find p (take i hs) with
              | Some x => Some x
              | None => if p h then Some h else find p (drop (S i) hs)
              end.
Proof. intros Hi. rewrite <- (take_drop_middle hs i h Hi) at 1. by rewrite find_app. Qed.

Lemma find_not_in f hs : f ∉ filters hs → find (has_filter f) hs = None.
Proof.
  induction hs as [|h hs IH]; [done|]. unfold filters. cbn. intros Hf.
  destruct (has_filter f h) eqn:E.
  - apply has_filter_spec in E. rewrite E in Hf. apply not_elem_of_cons in Hf as [? _]. done.
  - apply IH. destruct (topicFilter h); [by apply not_elem_of_cons in Hf as [_ ?]|done].
Qed.

(** A place that is free, or has the filter [f], gets another element for [f] or becomes free. *)
Lemma replace_slot f hs i h h' :
  NoDup (filters hs) → hs !! i = Some h →
  topicFilter h = Some f ∨ topicFilter h = None ∧ (f ∉ filters hs) →
  topicFilter h' = Some f ∨ topicFilter h' = None →
  length (<[i := h']> hs) = length hs ∧ NoDup (filters (<[i := h']> hs)) ∧
  (∀ f', f' ≠ f → handler_of f' (<[i := h']> hs) = handler_of f' hs) ∧
  handler_of f (<[i := h']> hs) = if has_filter f h' then Some (fp h') else None.
Proof.
  intros Hnd Hi Hh Hh'. pose proof (lookup_lt_Some _ _ _ Hi) as Hlt.
  set (A := filters (take i hs)) in *. set (B := filters (drop (S i) hs)) in *.
  assert (NoDup (A ++ B) ∧ (f ∉ A) ∧ (f ∉ B)) as (HAB & HA & HB).
  { rewrite (filters_split _ _ _ Hi) in Hnd, Hh. fold A B in Hnd, Hh.
    destruct Hh as [E|[E Hf]]; rewrite E in *; cbn in *.
    - apply NoDup_app in Hnd as (H1 & H2 & H3). apply NoDup_cons in H3 as [H3 H4]. split_and!.
      + apply NoDup_app. split_and!; [done| |done]. intros x Hx Hx'. apply (H2 x Hx). by right.
      + intros Hf. apply (H2 f Hf). left.
      + done.
    - split; [done|]. apply not_elem_of_app in Hf. done. }
  split_and!.
  - apply length_insert.
  - rewrite filters_insert by done. fold A B.
    destruct Hh' as [E|E]; rewrite E; cbn; [|done].
    apply NoDup_app in HAB as (H1 & H2 & H3). apply NoDup_app. split_and!; [done| |by constructor].
    intros x Hx. apply not_elem_of_cons. split; [by intros ->|by apply H2].
  - intros f' Hf'. unfold handler_of. rewrite find_insert, (find_split _ _ _ _ Hi) by done.
    assert (∀ k : MessageHandler (W := W), topicFilter k = Some f ∨ topicFilter k = None → has_filter f' k = false) as Hk.
    { intros k Hk. apply bool_decide_eq_false_2. destruct Hk as [->| ->]; congruence. }
    by rewrite (Hk h), (Hk h') by (tauto || done).
  - unfold handler_of. rewrite find_insert by done. rewrite (find_not_in f (take i hs)) by done.
    destruct (has_filter f h'); [done|]. by rewrite find_not_in.
Qed.

(** The table is a finite map with five places.  A successful call stores the function for its
    filter (or removes the filter when the function is null) and changes nothing else; a call fails,
    and changes nothing, exactly when the filter is not in the table and either is to be removed or
    there is no free place.  No filter is ever stored twice. *)
Theorem set_handler_spec f g hs rc hs' :
  NoDup (filters hs) → set_handler f g hs = (rc, hs') →
  length hs' = length hs ∧ NoDup (filters hs') ∧
  (∀ f', f' ≠ f → handler_of f' hs' = handler_of f' hs) ∧
  (rc = SUCCESS → handler_of f hs' = match g with Some _ => Some g | None => None end) ∧
  (rc ≠ SUCCESS → rc = FAILURE ∧ hs' = hs) ∧
  (rc = FAILURE ↔ (f ∉ filters hs) ∧ (g = None ∨ length (filters hs) = length hs)).
Proof.
  intros Hnd. unfold set_handler.
  destruct (find_slot (has_filter f) hs) as [i|] eqn:Ef.
  - apply find_slot_Some in Ef as (h & Hi & Hh & _). apply has_filter_spec in Hh.
    assert (f ∈ filters hs) as Hin by (apply elem_of_filters; eauto).
    intros E. assert (∃ h', hs' = <[i := h']> hs ∧ rc = SUCCESS ∧ fp h' = g ∧
      topicFilter h' = match g with Some _ => Some f | None => None end) as (h' & -> & -> & Hg & Ht).
    { destruct g; injection E as <- <-; eexists; split_and!; cbn; done. }
    destruct (replace_slot f hs i h h') as (H1 & H2 & H3 & H4); [done|done|by left|by destruct g; auto|].
    split_and!; try done.
    + intros _. rewrite H4. unfold has_filter. rewrite Ht, Hg. destruct g; [|done].
      by rewrite bool_decide_eq_true_2.
    + split; [done|]. tauto.
  - apply find_slot_None in Ef.
    assert (f ∉ filters hs) as Hout.
    { intros (i & h & Hi & Hh)%elem_of_filters. rewrite Forall_lookup in Ef.
      specialize (Ef i h Hi). apply has_filter_spec in Hh. congruence. }
    destruct g as [g|]; [|intros [= <- <-]; split_and!; naive_solver].
    destruct (find_slot is_free hs) as [i|] eqn:Ei.
    + apply find_slot_Some in Ei as (h & Hi & Hh & _). apply bool_decide_eq_true in Hh.
      intros [= <- <-].
      destruct (replace_slot f hs i h (mkHandler (Some f) (Some g))) as (H1 & H2 & H3 & H4); [done|done|by right|by left|].
      split_and!; try done.
      * intros _. rewrite H4. unfold has_filter. by rewrite bool_decide_eq_true_2.
      * split; [done|]. intros [_ [|Hfull]]; [done|]. apply filters_full in Hfull.
        rewrite Forall_lookup in Hfull. specialize (Hfull i h Hi). unfold is_free in Hfull.
        by rewrite bool_decide_eq_true_2 in Hfull.
    + apply find_slot_None, filters_full in Ei. intros [= <- <-]. split_and!; try done.
      split; [|done]. intros _. split; [done|]. by right.
Qed.

(** ** Delivery *)

(** The function called for a message on topic [t], if the element of the table is for it. *)
Definition hit (t : list Z) (h : MessageHandler (W := W)) : option (messageHandler (W := W)) :=
  match topicFilter h with
  | Some f => if bool_decide (f = t) || code_match (levels f) (levels t) then fp h else None
  | None => None
  end.

Definition call_all (md : MessageData) (gs : list (messageHandler (W := W))) (w : W) : W :=
  foldl (λ w g, g md w) w gs.

Definition wf_filters hs : Prop := Forall (λ f, wf_filter (levels f)) (filters hs).

Lemma equals_view t r f : MQTTPacket_equals (view_string t r) f = Ok (bool_decide (f = t)).
Proof.
  unfold MQTTPacket_equals. cbn [cstring view_string lenstring ls_data ls_len].
  destruct (Z.eqb_spec (zlen t) (zlen f)) as [E|E].
  - pose proof (rd_n_app [] t r) as Hr. cbn [app length] in Hr. change (Z.of_nat 0) with 0 in Hr.
    rewrite Hr, bind_ok. f_equal. apply bool_decide_ext. split; congruence.
  - rewrite bool_decide_eq_false_2; [done|]. intros ->. lia.
Qed.

Lemma filter_hit f t r : wf_filter (levels f) →
  (eq ← MQTTPacket_equals (view_string t r) f;
   if eq : bool then Ok true else isTopicMatched f (view_string t r))
  = Ok (bool_decide (f = t) || code_match (levels f) (levels t)).
Proof.
  intros Hw. rewrite equals_view, bind_ok. case_bool_decide; [done|]. by apply isTopicMatched_eq.
Qed.

Lemma deliver_loop_spec hs t r msg rc s : wf_filters hs →
  let md := mkMessageData msg (view_string t r) in
  deliver_loop hs md rc s =
    Ok (match omap (hit t) hs with [] => rc | _ => SUCCESS end,
        mkSt (client s) (call_all md (omap (hit t) hs) (world s))).
Proof.
  cbn zeta. revert rc s. induction hs as [|h hs IH]; intros rc s Hw; [by destruct s|].
  cbn [deliver_loop]. unfold wf_filters, filters in *. cbn [omap list_omap] in *.
  assert (hit t h = match topicFilter h with
    | Some f => if bool_decide (f = t) || code_match (levels f) (levels t) then fp h else None
    | None => None end) as -> by done.
  destruct (topicFilter h) as [f|]; [|by apply IH].
  apply Forall_cons in Hw as [Hf Hw]. cbn [md_topicName].
  erewrite st_bind_Ok by (unfold lift; rewrite filter_hit by done; reflexivity).
  destruct (_ || _); [|by apply IH]. destruct (fp h) as [g|]; [|by apply IH].
  erewrite st_bind_Ok by reflexivity. rewrite IH by done. cbn [client world call_all foldl].
  by destruct (omap (hit t) hs).
Qed.

(** Without handlers a message goes nowhere. *)
Lemma deliverMessage_none topic msg s :
  Forall (λ h, topicFilter h = None) (messageHandlers (client s)) →
  defaultMessageHandler (client s) = None → deliverMessage topic msg s = Ok (FAILURE, s).
Proof.
  intros Hf Hd. unfold deliverMessage. erewrite st_bind_Ok by reflexivity.
  assert (∀ hs md rc, Forall (λ h, topicFilter h = None) hs → deliver_loop hs md rc s = Ok (rc, s)) as E.
  { intros hs md rc. induction 1 as [|h hs Hh Hhs IH]; [done|]. cbn [deliver_loop]. by rewrite Hh. }
  erewrite st_bind_Ok by by apply E. erewrite st_bind_Ok by reflexivity. by rewrite Hd.
Qed.

(** A message is given to the functions of all matching filters, in the order of the table and
    once each, or to the default function when there is none; nothing else happens, and the result
    tells whether anybody received it. *)
Theorem deliverMessage_spec t r msg s :
  wf_filters (messageHandlers (client s)) →
  let gs := match omap (hit t) (messageHandlers (client s)) with
            | [] => option_list (defaultMessageHandler (client s))
            | gs => gs
            end in
  deliverMessage (view_string t r) msg s =
    Ok (if bool_decide (gs = []) then FAILURE else SUCCESS,
        mkSt (client s) (call_all (mkMessageData msg (view_string t r)) gs (world s))).
Proof.
  intros Hw. cbn zeta. unfold deliverMessage. erewrite st_bind_Ok by reflexivity.
  erewrite st_bind_Ok by by apply deliver_loop_spec.
  erewrite st_bind_Ok by reflexivity. cbn [client].
  destruct (omap (hit t) (messageHandlers (client s))) as [|g gs]; [|by destruct (defaultMessageHandler _)].
  by destruct (defaultMessageHandler (client s)).
Qed.
End Handlers.

(** ** The theorems at work *)

Definition count_bytes : messageHandler (W := wire) := λ md w,
  mkWire (now w) (rx w) (tx w ++ [m_payloadlen (md_message md)]).

Definition demo_table : list (MessageHandler (W := wire)) :=
  [mkHandler (Some (chars "r/+")) (Some count_bytes); mkHandler None None; mkHandler (Some (chars "s")) None;
   mkHandler (Some (chars "r/1")) (Some count_bytes); mkHandler None None].

Lemma set_handler_spec_witness :
  NoDup (filters demo_table) ∧
  handler_of (chars "t") (set_handler (chars "t") (Some count_bytes) demo_table).2 = Some (Some count_bytes).
Proof.
  assert (NoDup (filters demo_table)) as H by (apply (bool_decide_unpack _); vm_compute; exact I).
  split; [exact H|].
  exact (proj1 (proj2 (proj2 (proj2 (set_handler_spec (chars "t") (Some count_bytes) demo_table _ _ H
    (surjective_pairing _))))) eq_refl).
Defined.

Definition demo_handlers_client : MQTTClient (W := wire) :=
  mkClient 1 3000 80 80 (replicate 80 0) (replicate 80 0) 60 0 1 1 demo_table None
    (mkTimer (clock := wire_clock) 60000 0) (mkTimer (clock := wire_clock) 60000 0).

Lemma deliverMessage_spec_witness :
  wf_filters demo_table ∧
  deliverMessage (view_string (chars "r/1") []) (mkMessage 0 0 0 0 (Some [56; 46]) 2)
      (mkSt demo_handlers_client (mkWire 0 [] []))
    = Ok (SUCCESS, mkSt demo_handlers_client (mkWire 0 [] [2; 2])).
Proof.
  assert (wf_filters demo_table) as H.
  { unfold wf_filters. apply (bool_decide_unpack _). vm_compute. exact I. }
  split; [exact H|].
  exact (deliverMessage_spec (chars "r/1") [] (mkMessage 0 0 0 0 (Some [56; 46]) 2)
    (mkSt demo_handlers_client (mkWire 0 [] [])) H).
Defined.
