(* ===== verification/MqttClientSafe.v ===== *)
(** Memory safety and invariants of the MQTT client, over any platform that keeps the promise of
    [NetworkSafe] and whatever the broker sends. *)
From S2P Require Import Prelude Cursor CString MqttPacket MqttSerialize MqttDeserialize MqttTopic.
From S2P Require Import StateMonad Network MqttClient MqttHandlers.

(** ** Packets in the receive buffer *)

(** The buffer starts with a whole packet: type byte, length field and at least [n] bytes. *)
Definition received (b : list Z) : Prop :=
  ∃ x n r, b = x :: length_bytes n ++ r ∧ 0 <= n < 268435456 ∧ n <= zlen r.

(** A PUBLISH whose QoS bits are not 0 - QoS 1 or 2, or the reserved 3, which the code does not refuse - and whose
    topic ends less than two bytes before the end of the buffer: there is no room for the packet identifier. *)
Definition publish_overrun (b : list Z) : Prop :=
  ∃ x k n tl cur, rd b 0 = Ok x ∧ h_type (byte_header x) = PUBLISH ∧ 0 < h_qos (byte_header x) ∧
    MQTTPacket_decodeBuf b 1 = Ok (k, n) ∧ readInt b (1 + k) = Ok (tl, cur) ∧
    2 + tl <= n ∧ zlen b < 1 + k + 2 + tl + 2.

Lemma rd_0 x r : rd (x :: r) 0 = Ok x.
Proof. done. Qed.

Lemma decodeBuf_received x n r : 0 <= n < 268435456 →
  MQTTPacket_decodeBuf (x :: length_bytes n ++ r) 1 = Ok (zlen (length_bytes n), n).
Proof. apply (decodeBuf_reads n [x]). Qed.

Lemma readInt_bounds b cur : 0 <= cur → cur + 2 <= zlen b → Forall is_u8 b →
  ∃ n, readInt b cur = Ok (n, cur + 2) ∧ 0 <= n < 65536.
Proof.
  intros H0 H1 Hb. unfold readInt.
  destruct (rd_in_bounds b cur) as (v1 & -> & E1); [lia|].
  destruct (rd_in_bounds b (cur + 1)) as (v2 & -> & E2); [lia|].
  rewrite Forall_forall in Hb.
  assert (is_u8 v1) by eauto using list_elem_of_lookup_2.
  assert (is_u8 v2) by eauto using list_elem_of_lookup_2. unfold is_u8 in *.
  eexists. split; [done|]. lia.
Qed.

Lemma rd_u8 b i v : Forall is_u8 b → rd b i = Ok v → is_u8 v.
Proof.
  intros Hb. unfold rd. case_decide; [|done]. destruct (b !! _) eqn:E; [|done]. intros [= <-].
  rewrite Forall_forall in Hb. eauto using list_elem_of_lookup_2.
Qed.

Lemma readInt_range b cur n c : Forall is_u8 b → readInt b cur = Ok (n, c) → 0 <= n < 65536 ∧ c = cur + 2.
Proof.
  intros Hb. unfold readInt.
  destruct (rd b cur) as [v1| |] eqn:E1; [|done..]. rewrite bind_ok.
  destruct (rd b (cur + 1)) as [v2| |] eqn:E2; [|done..]. rewrite bind_ok. intros [= <- <-].
  apply rd_u8 in E1, E2; [|done..]. unfold is_u8 in *. lia.
Qed.

(** *** The readers the client uses on a received packet *)

Lemma ack_reads_received o b n : received b → Forall is_u8 b → ∃ rc o', MQTTDeserialize_ack o b n = Ok (rc, o') ∧
  (rc = 1 → True) ∧ (is_u16 (ao_packetid o) → is_u16 (ao_packetid o')).
Proof.
  intros (x & k & r & -> & Hk & Hr) Hb. unfold MQTTDeserialize_ack, readChar.
  rewrite rd_0, !bind_ok. cbn beta iota zeta. change (0 + 1) with 1.
  rewrite decodeBuf_received, bind_ok by done. cbn beta iota zeta.
  destruct (Z.ltb_spec (1 + zlen (length_bytes k) + k - (1 + zlen (length_bytes k))) 2).
  { eexists _, _. split; [done|]. cbn. auto. }
  destruct (readInt_bounds (x :: length_bytes k ++ r) (1 + zlen (length_bytes k))) as (id & -> & Hid);
    [lia|lens|done|].
  rewrite bind_ok. eexists _, _. split; [done|]. split; [done|]. intros _. apply u16_range.
Qed.

Lemma zero_reads_received o b n : received b → ∃ rc o', MQTTDeserialize_connack o b n = Ok (rc, o').
Proof.
  intros (x & k & r & -> & Hk & Hr). unfold MQTTDeserialize_connack, readChar.
  rewrite rd_0, !bind_ok. cbn beta iota zeta. destruct (negb _); [eauto|]. change (0 + 1) with 1.
  rewrite decodeBuf_received, bind_ok by done. cbn beta iota zeta.
  destruct (Z.ltb_spec (1 + zlen (length_bytes k) + k - (1 + zlen (length_bytes k))) 2); [eauto|].
  destruct (rd_in_bounds (x :: length_bytes k ++ r) (1 + zlen (length_bytes k))) as (v1 & -> & _); [lens|].
  rewrite !bind_ok. cbn beta iota zeta.
  destruct (rd_in_bounds (x :: length_bytes k ++ r) (1 + zlen (length_bytes k) + 1)) as (v2 & -> & _); [lens|].
  rewrite !bind_ok. eauto.
Qed.

(** [MQTTDeserialize_publish] leaves a received packet only in the one case. *)
Lemma publish_reads_received o b n : received b → Forall is_u8 b →
  h_type (byte_header (nth 0 b 0)) = PUBLISH →
  (MQTTDeserialize_publish o b n = Ub ∧ publish_overrun b) ∨
  (¬ publish_overrun b ∧ ∃ rc o', MQTTDeserialize_publish o b n = Ok (rc, o')).
Proof.
  intros (x & k & r & -> & Hk & Hr) Hb Ht. cbn [nth] in Ht.
  set (b := x :: length_bytes k ++ r) in *.
  assert (rd b 0 = Ok x) as E0 by done.
  assert (MQTTPacket_decodeBuf b 1 = Ok (zlen (length_bytes k), k)) as E1 by by apply decodeBuf_received.
  assert (zlen b = 1 + zlen (length_bytes k) + zlen r) as Eb by (unfold b; lens).
  set (lb := zlen (length_bytes k)) in *.
  assert (0 <= lb) by (unfold lb; lia).
  unfold MQTTDeserialize_publish, readChar, readMQTTLenString.
  rewrite E0, !bind_ok. cbn beta iota zeta. rewrite Ht. cbn [Z.eqb Pos.eqb negb]. change (0 + 1) with 1.
  rewrite E1, bind_ok. cbn beta iota zeta.
  destruct (Z.ltb_spec 1 (1 + lb + k - (1 + lb))) as [Hk2|Hk2].
  2: { right. cbn. split; [|eauto]. intros (x' & k' & n' & tl & cur & _ & _ & _ & D & I & H1 & H2).
       rewrite E1 in D. injection D as <- <-. apply readInt_range in I as [? _]; [lia|done]. }
  destruct (readInt_bounds b (1 + lb)) as (tl & EI & Htl); [lia|lia|done|]. rewrite EI, bind_ok.
  cbn beta iota zeta.
  destruct (Z.leb_spec (1 + lb + 2 + tl) (1 + lb + k)) as [Hle|Hgt]; rewrite bind_ok; cbn beta iota zeta.
  2: { right. cbn. split; [|eauto]. intros (x' & k' & n' & tl' & cur & _ & _ & _ & D & I & H1 & H2).
       rewrite E1 in D. injection D as <- <-. rewrite EI in I. injection I as <- <-. lia. }
  destruct (Z.ltb_spec (1 + lb + k - (1 + lb + 2 + tl)) 0); [lia|]. cbn [negb orb].
  destruct (Z.ltb_spec 0 (h_qos (byte_header x))) as [Hq|Hq].
  - destruct (Z.lt_ge_cases (zlen b) (1 + lb + 2 + tl + 2)) as [Hlt|Hge].
    + left. split.
      * unfold readInt. destruct (Z.lt_ge_cases (1 + lb + 2 + tl) (zlen b)).
        -- destruct (rd_in_bounds b (1 + lb + 2 + tl)) as (v & -> & _); [lia|].
           rewrite bind_ok, rd_oob by lia. done.
        -- by rewrite (rd_oob b (1 + lb + 2 + tl)) by lia.
      * exists x, lb, k, tl, (1 + lb + 2). split_and!; try done; lia.
    + right. destruct (readInt_bounds b (1 + lb + 2 + tl)) as (id & -> & Hid); [lia|lia|done|].
      rewrite !bind_ok. split; [|eauto].
      intros (x' & k' & n' & tl' & cur & _ & _ & _ & D & I & H1 & H2).
      rewrite E1 in D. injection D as <- <-. rewrite EI in I. injection I as <- <-. lia.
  - right. rewrite bind_ok. split; [|eauto].
    intros (x' & k' & n' & tl' & cur & E0' & _ & Hq' & _). rewrite E0 in E0'. injection E0' as <-. lia.
Qed.

(** ** The invariant *)

Section Safety.
Context {W : Type} {clock : Clock W} {network : Network W} {network_safe : NetworkSafe W}.
Context (fuel : nat) (junk : publish_out) (junk_ack : ack_out).
Context (junk_u16 : is_u16 (po_packetid junk)) (junk_ack_u16 : is_u16 (ao_packetid junk_ack)).

(** The sizes are those of the buffers, which have room for the packets the client answers with;
    packet identifiers are never 0. *)
Record wf (c : MQTTClient (W := W)) : Prop := {
  wf_id : 1 <= next_packetid c <= MAX_PACKET_ID;
  wf_buf_size : buf_size c = zlen (buf c);
  wf_buf_min : 8 <= buf_size c;
  wf_readbuf_size : readbuf_size c = zlen (readbuf c);
  wf_readbuf_min : 5 <= readbuf_size c < 4294967296;
  wf_readbuf_u8 : Forall is_u8 (readbuf c);
  wf_handlers : length (messageHandlers c) = MAX_MESSAGE_HANDLERS;
}.

(** A property of the handlers that comes along. *)
Context (H : list (MessageHandler (W := W)) → option (messageHandler (W := W)) → Prop).

Definition inv (s : st (W := W)) : Prop :=
  wf (client s) ∧ H (messageHandlers (client s)) (defaultMessageHandler (client s)).

(** A change of the client that the invariant does not see. *)
Definition neutral (f : MQTTClient → MQTTClient) : Prop := ∀ c, wf c → wf (f c) ∧
  messageHandlers (f c) = messageHandlers c ∧ defaultMessageHandler (f c) = defaultMessageHandler c.

Lemma triple_field {A} P (f : MQTTClient → A) (Q : A → st → Prop) :
  (∀ s, P s → Q (f (client s)) s) → triple P (field f) Q.
Proof. apply triple_gets. Qed.

Lemma triple_upd (f : MQTTClient → MQTTClient) :
  neutral f → triple inv (upd f) (λ _, inv).
Proof.
  intros Hf. apply triple_modify. intros s [Hw Hh]. destruct (Hf _ Hw) as (? & E1 & E2).
  split; cbn; [done|]. by rewrite E1, E2.
Qed.

Lemma triple_platform {A} P (f : W → A * W) :
  (∀ c w w', P (mkSt c w) → P (mkSt c w')) → triple P (platform f) (λ _, P).
Proof.
  intros HP s Hs. unfold platform. destruct (f (world s)) as [a w]. cbn.
  destruct s as [c w0]. eauto.
Qed.

Lemma inv_world c w w' : inv (mkSt c w) → inv (mkSt c w').
Proof. done. Qed.

Lemma triple_call {A} (f : W → A * W) : triple inv (platform f) (λ _, inv).
Proof. apply triple_platform, inv_world. Qed.

Lemma neutral_timers t : neutral (set_last_sent t) ∧ neutral (set_last_received t).
Proof. split; intros c [? ? ? ? ? ? ?]; (split; [by constructor|done]). Qed.

Lemma neutral_flags x : neutral (set_ping_outstanding x) ∧ neutral (set_isconnected x) ∧
  neutral (set_c_keepAliveInterval x) ∧ neutral (set_c_cleansession x).
Proof. split_and!; intros c [? ? ? ? ? ? ?]; (split; [by constructor|done]). Qed.

Lemma neutral_buf b c : wf c → length b = length (buf c) → wf (set_buf b c).
Proof. intros [? ? ? ? ? ? ?] E. constructor; cbn; try done. by rewrite E. Qed.

Lemma neutral_readbuf b c : wf c → length b = length (readbuf c) → Forall is_u8 b → wf (set_readbuf b c).
Proof. intros [? ? ? ? ? ? ?] E Hb. constructor; cbn; try done. by rewrite E. Qed.

(** *** Sending *)

Lemma net_write_safe off len t : 0 <= off → 0 < len → off + len <= 8 →
  triple inv (net_write off len t) (λ rc s, rc <= len ∧ inv s).
Proof.
  intros Ho Hl Hb s [Hw Hh]. unfold net_write.
  pose proof (mqttwrite_safe (buf (client s)) off len t (world s) Ho Hl) as Hs.
  pose proof (wf_buf_size _ Hw). pose proof (wf_buf_min _ Hw). specialize (Hs ltac:(lia)).
  by destruct (mqttwrite _ _ _ _ _) as [[rc w]| |].
Qed.

Lemma send_loop_safe k length sent timer : 0 < length <= 4 → 0 <= sent →
  triple inv (send_loop k length sent timer) (λ _, inv).
Proof.
  intros Hl. revert sent timer. induction k as [|k IH]; intros sent timer Hs; cbn [send_loop];
    [apply triple_fuel|].
  destruct (Z.ltb_spec sent length); [|by apply triple_ret].
  eapply triple_bind; [apply triple_call|]. intros [expired t]. destruct expired; [by apply triple_ret|].
  eapply triple_bind; [apply triple_call|]. intros [ms t2].
  eapply triple_bind; [apply net_write_safe; lia|]. intros rc. apply triple_pure. intros Hrc.
  destruct (Z.ltb_spec rc 0); [by apply triple_ret|]. apply IH. lia.
Qed.

Lemma sendPacket_safe length timer : 0 < length <= 4 →
  triple inv (sendPacket fuel length timer) (λ _, inv).
Proof.
  intros Hl. eapply triple_bind; [by apply send_loop_safe|]. intros [sent t].
  destruct (_ =? _); [|by apply triple_ret].
  eapply triple_bind; [apply (triple_field _ _ (λ _, inv)); done|]. intros k.
  eapply triple_bind; [apply triple_call|]. intros t2.
  eapply triple_bind; [apply triple_upd, neutral_timers|]. intros ?. by apply triple_ret.
Qed.

(** A writer of short packets. *)
Lemma serialize_safe f : (∀ b n, n = zlen b → 8 <= n →
    ∃ b' len, f b n = Ok (b', len) ∧ length b' = length b ∧ len <= 4) →
  triple inv (serialize_to_buf f) (λ len s, len <= 4 ∧ inv s).
Proof.
  intros Hf s [Hw Hh]. unfold serialize_to_buf.
  destruct (Hf (buf (client s)) (buf_size (client s))) as (b' & len & E & El & Hlen);
    [by apply wf_buf_size|by apply wf_buf_min|].
  rewrite E. cbn. split; [done|]. split; [by apply neutral_buf|done].
Qed.

Lemma ack_writer t id : is_u16 id → triple inv (serialize_to_buf (λ b n, MQTTSerialize_ack b n t 0 id))
  (λ len s, len <= 4 ∧ inv s).
Proof.
  intros Hid. apply serialize_safe. intros b n -> Hn. rewrite MQTTSerialize_ack_spec by lia || done.
  destruct (Z.ltb_spec (zlen b) 4); [lia|]. eexists _, _. split; [done|]. split; [|lia].
  pose proof (ack_packet_len t 0 id). lens.
Qed.

Lemma pingreq_writer : triple inv (serialize_to_buf MQTTSerialize_pingreq) (λ len s, len <= 4 ∧ inv s).
Proof.
  apply serialize_safe. intros b n -> Hn. unfold MQTTSerialize_pingreq.
  rewrite MQTTSerialize_zero_spec by lia. destruct (Z.ltb_spec (zlen b) 2); [lia|].
  eexists _, _. split; [done|]. split; [lens|lia].
Qed.

Lemma answer_safe t id timer : is_u16 id → triple inv (answer fuel t id timer) (λ _, inv).
Proof.
  intros Hid. eapply triple_bind; [by apply ack_writer|]. intros len. apply triple_pure. intros Hl.
  destruct (Z.leb_spec len 0); [by apply triple_ret|]. apply sendPacket_safe. lia.
Qed.

Lemma keepalive_safe : triple inv (keepalive fuel) (λ _, inv).
Proof.
  eapply triple_bind; [apply (triple_field _ _ (λ _, inv)); done|]. intros k.
  destruct (k =? 0); [by apply triple_ret|].
  eapply triple_bind; [apply (triple_field _ _ (λ _, inv)); done|]. intros t.
  eapply triple_bind; [apply triple_call|]. intros [e1 t1].
  eapply triple_bind; [apply triple_upd, neutral_timers|]. intros ?.
  eapply (triple_bind _ _ (λ _, inv)).
  { destruct e1; [by apply triple_ret|].
    eapply triple_bind; [apply (triple_field _ _ (λ _, inv)); done|]. intros t2.
    eapply triple_bind; [apply triple_call|]. intros [e2 t3].
    eapply triple_bind; [apply triple_upd, neutral_timers|]. intros ?. by apply triple_ret. }
  intros e. destruct e; [|by apply triple_ret].
  eapply triple_bind; [apply (triple_field _ _ (λ _, inv)); done|]. intros ping.
  destruct (negb _); [by apply triple_ret|].
  eapply triple_bind; [apply triple_call|]. intros t4.
  eapply triple_bind; [apply pingreq_writer|]. intros len. apply triple_pure. intros Hl.
  destruct (Z.ltb_spec 0 len); [|by apply triple_ret].
  eapply triple_bind; [apply sendPacket_safe; lia|]. intros [rc t5].
  eapply (triple_bind _ _ (λ _, inv)).
  { destruct (_ =? _); [apply triple_upd, neutral_flags|by apply triple_ret]. }
  intros ?. by apply triple_ret.
Qed.

(** *** Receiving *)

Lemma net_read_byte_safe i t : is_u8 i →
  triple inv (net_read_byte i t) (λ r s, (r.1 <= 1 ∧ is_u8 r.2) ∧ inv s).
Proof.
  intros Hi s Hs. unfold net_read_byte.
  pose proof (mqttread_safe [i] 0 1 t (world s)) as Hr.
  specialize (Hr ltac:(lia) ltac:(lia) ltac:(cbn; lia) ltac:(apply Forall_cons; split; [done|apply Forall_nil_2])).
  destruct (mqttread [i] 0 1 t (world s)) as [[[rc b] w]| |]; [|done..].
  destruct Hr as (Hrc & (Hlen & _) & Hb). rewrite bind_ok.
  destruct b as [|j [|? ?]]; [done| |done]. cbn. apply Forall_cons in Hb as [Hj _]. done.
Qed.

Lemma decodePacket_loop_safe k i mult len value t :
  is_u8 i → 0 <= len <= 4 → mult = 128 ^ len → 0 <= value < mult →
  triple inv (decodePacket_loop k i mult len value t) (λ v s, 0 <= v < 268435456 ∧ inv s).
Proof.
  revert i mult len value. induction k as [|k IH]; intros i mult len value Hi Hl Hm Hv;
    cbn [decodePacket_loop]; [apply triple_fuel|].
  assert (mult <= 268435456).
  { subst mult. change 268435456 with (128 ^ 4). apply Z.pow_le_mono_r; lia. }
  unfold MAX_NO_OF_REMAINING_LENGTH_BYTES.
  destruct (Z.ltb_spec 4 (len + 1)); [apply triple_ret; intros; split; [lia|done]|].
  eapply triple_bind; [by apply net_read_byte_safe|]. intros [rc j]. apply triple_pure. cbn.
  intros [Hrc Hj]. destruct (negb (rc =? 1)); [apply triple_ret; intros; split; [lia|done]|].
  assert (mult * 128 = 128 ^ (len + 1)) as Hm' by (subst mult; rewrite Z.pow_add_r by lia; lia).
  rewrite land_127 by done. assert (0 <= j mod 128 < 128) by zdiv.
  destruct (negb _).
  - apply IH; [done|lia|done|]. nia.
  - apply triple_ret. intros s' Hs'. split; [|done].
    assert (128 ^ (len + 1) <= 268435456).
    { change 268435456 with (128 ^ 4). apply Z.pow_le_mono_r; lia. }
    nia.
Qed.

Lemma decodePacket_safe t : triple inv (decodePacket t) (λ v s, 0 <= v < 268435456 ∧ inv s).
Proof. apply decodePacket_loop_safe; [unfold is_u8; lia|lia|done|lia]. Qed.

(** The type byte and the length field are in the buffer. *)
Definition header_read (n : Z) (s : st (W := W)) : Prop :=
  inv s ∧ ∃ x r, readbuf (client s) = x :: length_bytes n ++ r.

Lemma put_length_safe n : 0 <= n < 268435456 →
  triple inv (put_length n) (λ k s, k = zlen (length_bytes n) ∧ header_read n s).
Proof.
  intros Hn s [Hw Hh]. unfold put_length.
  pose proof (wf_readbuf_size _ Hw) as E. pose proof (wf_readbuf_min _ Hw).
  pose proof (wf_readbuf_u8 _ Hw) as Hu.
  destruct (readbuf (client s)) as [|x r] eqn:Er; [cbn in *; lia|].
  assert (zlen (length_bytes n) <= 4) by (rewrite length_bytes_size by lia; repeat case_match; lia).
  unfold MQTTPacket_encode, encode_fuel.
  pose proof (encode_loop_emits 5 n 0 ltac:(cbn; lia) ltac:(lia) [x] r) as Ee. cbn [app length] in Ee.
  change (Z.of_nat 1) with 1 in Ee. cbn zeta in Ee. fold (length_bytes n) in Ee.
  rewrite decide_True in Ee by (cbn in *; lia). rewrite Ee, bind_ok. cbn beta iota zeta.
  cbn [Cursor.w_buf post_holds].
  split; [lia|]. split.
  - split; [|done]. apply neutral_readbuf; [done| |].
    + rewrite Er. cbn in *. lens.
    + apply Forall_cons in Hu as [Hx Hu]. apply Forall_cons. split; [done|].
      apply Forall_app. split; [apply length_bytes_u8; lia|by apply Forall_drop].
  - eexists _, _. reflexivity.
Qed.

Lemma net_read_safe off len t : 0 <= off → 0 < len →
  triple (λ s, inv s ∧ off + len <= zlen (readbuf (client s))) (net_read off len t)
    (λ rc s, rc <= len ∧ inv s).
Proof.
  intros Ho Hl s [[Hw Hh] Hb]. unfold net_read.
  pose proof (mqttread_safe (readbuf (client s)) off len t (world s) Ho Hl Hb (wf_readbuf_u8 _ Hw)) as Hr.
  destruct (mqttread _ _ _ _ _) as [[[rc b] w]| |]; [|done..]. destruct Hr as (Hrc & (Hlen & _) & Hu).
  split; [done|]. split; [by apply neutral_readbuf|done].
Qed.

(** Reading the body leaves the header. *)
Definition body_fits (n : Z) (s : st (W := W)) : Prop :=
  header_read n s ∧ 1 + zlen (length_bytes n) + n <= readbuf_size (client s).

Lemma read_body_safe n t : 0 < n →
  triple (body_fits n) (net_read (1 + zlen (length_bytes n)) n t) (λ _, body_fits n).
Proof.
  intros Hn s [[[Hw Hh] (x & r & E)] Hb0]. unfold net_read. pose proof Hb0 as Hb.
  rewrite (wf_readbuf_size _ Hw) in Hb.
  pose proof (mqttread_safe (readbuf (client s)) (1 + zlen (length_bytes n)) n t (world s) ltac:(lia) Hn Hb (wf_readbuf_u8 _ Hw)) as Hr.
  destruct (mqttread _ _ _ _ _) as [[[rc b] w]| |]; [|done..]. destruct Hr as (Hrc & Hout & Hu).
  pose proof Hout as (Hlen & Htake & _).
  split; [|done]. split; [split; [by apply neutral_readbuf|done]|]. cbn.
  rewrite E in Htake, Hlen. change (x :: length_bytes n ++ r) with ((x :: length_bytes n) ++ r) in Htake.
  replace (Z.to_nat (1 + zlen (length_bytes n))) with (length (x :: length_bytes n)) in Htake by (cbn [length]; lia).
  rewrite take_app_length in Htake. exists x, (drop (length (x :: length_bytes n)) b).
  transitivity (take (length (x :: length_bytes n)) b ++ drop (length (x :: length_bytes n)) b);
    [symmetry; apply take_drop|]. by rewrite Htake.
Qed.

Lemma triple_timer {A} P (f : W → A * W) (Q : A → st → Prop) :
  (∀ c w w', P (mkSt c w) → P (mkSt c w')) → (∀ a s, P s → Q a s) → triple P (platform f) Q.
Proof.
  intros HP HQ. eapply triple_conseq; [by apply triple_platform|done|]. cbn. intros. by apply HQ.
Qed.

Definition packet_read (rc : Z) (s : st (W := W)) : Prop :=
  inv s ∧ (0 < rc → received (readbuf (client s)) ∧ rc = h_type (byte_header (nth 0 (readbuf (client s)) 0))).

Lemma not_packet rc s : rc <= 0 → inv s → packet_read rc s.
Proof. intros ? ?. split; [done|lia]. Qed.

Lemma readPacket_safe timer : triple inv (readPacket timer) (λ r s, packet_read r.1 s).
Proof.
  eapply triple_bind; [apply triple_call|]. intros [ms t1].
  eapply triple_bind.
  { eapply triple_conseq; [apply (net_read_safe 0 1 ms); lia| |intros a s Hp; exact Hp].
    intros s Hs. split; [done|]. destruct Hs as [Hw _].
    rewrite <- (wf_readbuf_size _ Hw). pose proof (wf_readbuf_min _ Hw). lia. }
  intros rc. apply triple_pure. intros Hrc.
  destruct (Z.eqb_spec rc 1) as [->|Hne]; cbn [negb].
  2: { apply triple_ret. intros s Hs. apply not_packet; [cbn; lia|done]. }
  eapply triple_bind; [apply triple_call|]. intros [ms2 t2].
  eapply triple_bind; [apply decodePacket_safe|]. intros n. apply triple_pure. intros Hn.
  eapply triple_bind; [by apply put_length_safe|]. intros k. apply triple_pure. intros ->.
  eapply triple_bind.
  { apply (triple_field _ _ (λ z s, z = readbuf_size (client s) ∧ header_read n s)). auto. }
  intros z.
  assert (zlen (length_bytes n) <= 4) as Hlb.
  { rewrite length_bytes_size by lia. repeat case_match; lia. }
  destruct (Z.ltb_spec (u32 (z - (1 + zlen (length_bytes n)))) n) as [Hlt|Hge].
  { apply triple_ret. intros s [_ [Hs _]]. by apply not_packet. }
  eapply (triple_bind _ _ (λ _, body_fits n)).
  { eapply (triple_conseq _ (body_fits n) _ _ (λ _, body_fits n)); [|intros s [-> Hs]|done].
    2: { split; [done|]. destruct Hs as [[Hw _] _]. pose proof (wf_readbuf_min _ Hw).
         rewrite u32_id in Hge by (unfold is_u32; lia). lia. }
    destruct (Z.ltb_spec 0 n); [|by apply triple_ret].
    eapply triple_bind; [apply triple_timer with (Q := λ _, body_fits n); done|]. intros [ms3 t3].
    eapply triple_bind; [by apply read_body_safe|]. intros rc. by apply triple_ret. }
  intros [short t3]. destruct short.
  { apply triple_ret. intros s [[Hs _] _]. by apply not_packet. }
  eapply (triple_bind _ _ (λ b s, b = nth 0 (readbuf (client s)) 0 ∧ body_fits n s)).
  { intros s Hs. unfold deserialize. destruct Hs as [[Hi (x & r & E)] Hb] eqn:EE. rewrite E. cbn.
    split; [by rewrite E|done]. }
  intros b.
  eapply triple_bind.
  { apply (triple_field _ _ (λ _ s, b = nth 0 (readbuf (client s)) 0 ∧ body_fits n s)). auto. }
  intros k.
  eapply (triple_bind _ _ (λ _ s, b = nth 0 (readbuf (client s)) 0 ∧ body_fits n s)).
  { destruct (0 <? k); [|by apply triple_ret].
    eapply triple_bind; [apply triple_timer with (Q := λ _ s, b = nth 0 (readbuf (client s)) 0 ∧ body_fits n s); done|].
    intros t4. apply triple_modify. intros s (Hb & [[Hw Hh] He] & Hf). split; [done|].
    split; [|done]. split; [|done]. split; [|done]. by apply neutral_timers. }
  intros ?. apply triple_ret. intros s (-> & [Hi (x & r & E)] & Hf). split; [done|]. intros _.
  split; [|done]. exists x, n, r. split_and!; [done|lia|lia|]. destruct Hi as [Hw _].
  rewrite (wf_readbuf_size _ Hw), E in Hf. lens.
Qed.

(** *** One packet, for a client without message handlers

    The application installs none: its only call of [MQTTSubscribe] is commented out. *)
Context (H_quiet : ∀ hs d, H hs d → Forall (λ h, topicFilter h = None) hs ∧ d = None).
Context (H_clean : ∀ hs d, H hs d → H (map (λ h, mkHandler None (fp h)) hs) d).

Lemma deliverMessage_quiet topic msg s : inv s → deliverMessage topic msg s = Ok (FAILURE, s).
Proof.
  intros [Hw Hh]. apply H_quiet in Hh as [Hf Hd]. by apply deliverMessage_none.
Qed.

Lemma neutral_close c : wf c → wf (MQTTCloseSession c).
Proof.
  intros [? ? ? ? ? ? ?]. unfold MQTTCloseSession, MQTTCleanSession. destruct (negb _); constructor; cbn; try done.
  by rewrite length_map.
Qed.

Lemma close_safe : triple inv (upd MQTTCloseSession) (λ _, inv).
Proof.
  apply triple_modify. intros s [Hw Hh]. split; cbn; [by apply neutral_close|].
  unfold MQTTCloseSession, MQTTCleanSession. destruct (negb _); cbn; auto.
Qed.

(** What [cycle] needs to know of the packet it has read. *)
Definition packet_ok (pt : Z) (s : st (W := W)) : Prop :=
  packet_read pt s ∧ (pt = PUBLISH → ¬ publish_overrun (readbuf (client s))).

Lemma publish_id_u16 o b n rc o' : MQTTDeserialize_publish o b n = Ok (rc, o') →
  is_u16 (po_packetid o) → is_u16 (po_packetid o').
Proof.
  intros E Ho. revert E. unfold MQTTDeserialize_publish.
  destruct (readChar b 0) as [[x cur]| |]; [|done..]. rewrite bind_ok.
  destruct (negb _); [by intros [= _ <-]|].
  destruct (MQTTPacket_decodeBuf b cur) as [[r len]| |]; [|done..]. rewrite bind_ok.
  destruct (readMQTTLenString _ _ _ _) as [[[ok t] cur2]| |]; [|done..]. rewrite bind_ok.
  destruct (_ || _); [by intros [= _ <-]|].
  destruct (0 <? _); [|by rewrite bind_ok; intros [= _ <-]].
  destruct (readInt b cur2) as [[id cur3]| |]; [|done..]. rewrite !bind_ok.
  intros [= _ <-]. apply u16_range.
Qed.

Lemma triple_state {A} P (m : ST (st (W := W)) A) Q : (∀ s, P s → triple (λ s', s' = s) m Q) → triple P m Q.
Proof. intros Hm s Hs. by apply (Hm s). Qed.

Lemma publish_safe t :
  triple (λ s, packet_ok PUBLISH s) (handle_packet fuel junk junk_ack PUBLISH t) (λ _, inv).
Proof.
  intros s [[Hs Hp] Hno]. destruct (Hp ltac:(done)) as [Hrec Ht]. specialize (Hno eq_refl).
  pose proof Hs as [Hw _].
  unfold handle_packet. cbn [Z.eqb Pos.eqb orb PUBLISH CONNACK PUBACK SUBACK UNSUBACK PUBCOMP].
  set (o0 := mkPub _ _ _ _ _ _ 0).
  destruct (publish_reads_received o0 (readbuf (client s)) (readbuf_size (client s)) Hrec
    (wf_readbuf_u8 _ Hw) (eq_sym Ht)) as [[_ Hov]|[_ (rc & o & E)]]; [done|].
  erewrite st_bind_Ok by (unfold deserialize; by rewrite E).
  apply publish_id_u16 in E as Hid; [|done].
  cbn beta iota zeta. destruct (rc =? 1); cbn [negb]; [|exact Hs].
  cbn zeta. erewrite st_bind_Ok by by apply deliverMessage_quiet.
  cbn [m_qos m_id].
  assert (∀ m, triple inv m (λ _ : Z * Timer, inv) → triple inv
    ('(rc, timer) ← m; mret (rc, rc =? FAILURE, timer)) (λ _ : Z * bool * Timer, inv)) as Hm.
  { intros m Hm. eapply triple_bind; [exact Hm|]. intros [? ?]. by apply triple_ret. }
  destruct (po_qos o =? QOS0); cbn [negb]; [exact Hs|].
  destruct (po_qos o =? QOS1); [|destruct (po_qos o =? QOS2)].
  - by apply (Hm (answer fuel PUBACK (po_packetid o) t)), Hs; apply answer_safe.
  - by apply (Hm (answer fuel PUBREC (po_packetid o) t)), Hs; apply answer_safe.
  - by apply (Hm (mret (FAILURE, t))), Hs; apply triple_ret.
Qed.

Lemma release_safe pt t : pt = PUBREC ∨ pt = PUBREL →
  triple (packet_read pt) (handle_packet fuel junk junk_ack pt t) (λ _, inv).
Proof.
  intros Hpt s [Hs Hp]. destruct Hp as [Hrec _]; [by destruct Hpt; subst|].
  pose proof Hs as [Hw _].
  destruct (ack_reads_received junk_ack (readbuf (client s)) (readbuf_size (client s)) Hrec
    (wf_readbuf_u8 _ Hw)) as (rc & o & E & _ & Hid). specialize (Hid junk_ack_u16).
  assert (handle_packet fuel junk junk_ack pt t = (
    '(ok, o) ← deserialize (MQTTDeserialize_ack junk_ack);
    '(rc, timer) ←
      (if negb (ok =? 1) then mret (FAILURE, t)
       else
         '(rc, timer) ← answer fuel (if pt =? PUBREC then PUBREL else PUBCOMP) (ao_packetid o) t;
         mret (if negb (rc =? SUCCESS) then FAILURE else rc, timer));
    mret (rc, rc =? FAILURE, timer))) as -> by (destruct Hpt; by subst).
  erewrite st_bind_Ok by (unfold deserialize; by rewrite E). cbn beta iota zeta.
  eapply (triple_bind inv _ (λ _, inv)); [| |exact Hs].
  - destruct (rc =? 1); [|by apply triple_ret]. cbn [negb].
    eapply triple_bind; [by apply answer_safe|]. intros [r' t']. by apply triple_ret.
  - intros [r' t']. by apply triple_ret.
Qed.

Lemma handle_packet_safe pt t :
  triple (packet_ok pt) (handle_packet fuel junk junk_ack pt t) (λ _, inv).
Proof.
  destruct (Z.eq_dec pt PUBLISH) as [->|Hpub]; [apply publish_safe|].
  destruct (decide (pt = PUBREC ∨ pt = PUBREL)) as [Hrel|Hrel].
  { eapply triple_conseq; [by apply release_safe| |done]. intros s [Hs _]. exact Hs. }
  apply Decidable.not_or in Hrel as [Hr1 Hr2].
  assert (∀ s, packet_ok pt s → inv s) as Hinv by (intros s [[Hs _] _]; exact Hs).
  unfold handle_packet. destruct ((pt =? 0) || _ || _ || _ || _ || _); [by apply triple_ret|].
  rewrite (proj2 (Z.eqb_neq pt PUBLISH)), (proj2 (Z.eqb_neq pt PUBREC)), (proj2 (Z.eqb_neq pt PUBREL)) by done.
  cbn [orb]. destruct (pt =? PINGRESP); [|by apply triple_ret].
  eapply triple_bind.
  - eapply triple_conseq; [apply triple_upd, neutral_flags|exact Hinv|intros a s Hs; exact Hs].
  - intros ?. by apply triple_ret.
Qed.

(** After the packet: keep-alive and the end of the session. *)
Definition finish (packet_type : Z) (r : Z * bool * Timer) : ST (st (W := W)) (Z * Timer) :=
  let '(rc, exit, timer) := r in
  rc ← (if exit : bool then mret rc
        else ka ← keepalive fuel; mret (if negb (ka =? SUCCESS) then FAILURE else rc));
  if rc =? SUCCESS then mret (packet_type, timer)
  else
    conn ← field isconnected;
    (if negb (conn =? 0) then upd MQTTCloseSession else mret tt);; mret (rc, timer).

Lemma finish_safe pt r : triple inv (finish pt r) (λ _, inv).
Proof.
  destruct r as [[rc ex] timer]. eapply (triple_bind _ _ (λ _, inv)).
  { destruct ex; [by apply triple_ret|].
    eapply triple_bind; [apply keepalive_safe|]. intros ka. by apply triple_ret. }
  intros rc'. destruct (rc' =? SUCCESS); [by apply triple_ret|].
  eapply triple_bind; [apply (triple_field _ _ (λ _, inv)); done|]. intros conn.
  eapply (triple_bind _ _ (λ _, inv)); [destruct (negb _); [apply close_safe|by apply triple_ret]|].
  intros ?. by apply triple_ret.
Qed.

Lemma cycle_finish t s pt t1 s1 : readPacket t s = Ok ((pt, t1), s1) →
  cycle fuel junk junk_ack t s = (handle_packet fuel junk junk_ack pt t1 ≫= finish pt) s1.
Proof. intros E. unfold cycle. by erewrite st_bind_Ok by exact E. Qed.

Lemma handle_overrun t s : packet_read PUBLISH s → publish_overrun (readbuf (client s)) →
  handle_packet fuel junk junk_ack PUBLISH t s = Ub.
Proof.
  intros [Hi Hp] Hov. destruct (Hp ltac:(done)) as [Hrec Ht].
  unfold handle_packet. cbn [Z.eqb Pos.eqb orb PUBLISH CONNACK PUBACK SUBACK UNSUBACK PUBCOMP].
  apply st_bind_Ub. unfold deserialize. set (o0 := mkPub _ _ _ _ _ _ 0).
  destruct (publish_reads_received o0 _ (readbuf_size (client s)) Hrec
    (wf_readbuf_u8 _ (proj1 Hi)) (eq_sym Ht)) as [[-> _]|[? _]]; done.
Qed.

Lemma overrun_or_ok pt s : packet_read pt s →
  pt = PUBLISH ∧ publish_overrun (readbuf (client s)) ∨ packet_ok pt s.
Proof.
  intros Hr. destruct (Z.eq_dec pt PUBLISH) as [->|]; [|right; by split].
  pose proof Hr as [Hi Hp]. destruct (Hp ltac:(done)) as [Hrec Ht].
  destruct (publish_reads_received junk _ (readbuf_size (client s)) Hrec
    (wf_readbuf_u8 _ (proj1 Hi)) (eq_sym Ht)) as [[_ ?]|[? _]]; [by left|]. right. by split.
Qed.

Lemma cycle_result t s : inv s →
  match cycle fuel junk junk_ack t s with
  | Ok (_, s') => inv s'
  | Ub => ∃ t1 s1, readPacket t s = Ok ((PUBLISH, t1), s1) ∧ publish_overrun (readbuf (client s1))
  | OutOfFuel => True
  end.
Proof.
  intros Hs. pose proof (readPacket_safe t s Hs) as Hr.
  destruct (readPacket t s) as [[[pt t1] s1]| |] eqn:E; [|done|by unfold cycle, mbind, st_bind; rewrite E].
  cbn [post_holds fst] in Hr. rewrite (cycle_finish _ _ _ _ _ E).
  destruct (overrun_or_ok pt s1 Hr) as [[-> Hov]|Hok].
  - rewrite (st_bind_Ub _ _ _ (handle_overrun t1 s1 Hr Hov)). eauto.
  - pose proof (triple_bind _ _ _ _ _ (handle_packet_safe pt t1) (finish_safe pt) s1 Hok) as Hf.
    destruct ((handle_packet fuel junk junk_ack pt t1 ≫= finish pt) s1) as [[a s']| |]; done.
Qed.

Lemma cycle_overrun t s t1 s1 : inv s → readPacket t s = Ok ((PUBLISH, t1), s1) →
  publish_overrun (readbuf (client s1)) → cycle fuel junk junk_ack t s = Ub.
Proof.
  intros Hs E Hov. rewrite (cycle_finish _ _ _ _ _ E). apply st_bind_Ub, handle_overrun; [|done].
  pose proof (readPacket_safe t s Hs) as Hr. by rewrite E in Hr.
Qed.
End Safety.

(** ** Theorems *)

Section Theorems.
Context {W : Type} {clock : Clock W} {network : Network W} {network_safe : NetworkSafe W}.
Context (fuel : nat) (junk : publish_out) (junk_ack : ack_out).

(** No message handler is installed. *)
Definition quiet (hs : list (MessageHandler (W := W))) (d : option (messageHandler (W := W))) : Prop :=
  Forall (λ h, topicFilter h = None) hs ∧ d = None.

Lemma quiet_clean hs d : quiet hs d → quiet (map (λ h, mkHandler None (fp h)) hs) d.
Proof. intros [_ ->]. split; [|done]. apply Forall_map, Forall_forall. done. Qed.

(** C16: whatever the broker sends, one turn ([cycle]: read a packet, answer it, keep the connection
    alive) of a client that has no message handlers installed, as the program's has none ([inv quiet]),
    stays inside its buffers and keeps the invariant of the client, with one exception: it reads past the
    receive buffer exactly when a PUBLISH arrives whose QoS bits are not 0 (1, 2 or the reserved 3) and
    whose topic ends less than two bytes before the end of that buffer. *)
Theorem cycle_memory_safety t s :
  is_u16 (po_packetid junk) → is_u16 (ao_packetid junk_ack) → inv quiet s →
  (cycle fuel junk junk_ack t s = Ub ↔
     ∃ t1 s1, readPacket t s = Ok ((PUBLISH, t1), s1) ∧ publish_overrun (readbuf (client s1))) ∧
  (∀ r s', cycle fuel junk junk_ack t s = Ok (r, s') → inv quiet s').
Proof.
  intros Hj Ha Hs.
  pose proof (cycle_result fuel junk junk_ack Hj Ha quiet (λ hs d H, H) quiet_clean t s Hs) as Hc.
  split; [split|].
  - intros E. by rewrite E in Hc.
  - intros (t1 & s1 & E & Hov). by eapply cycle_overrun.
  - intros r s' E. by rewrite E in Hc.
Qed.

(** *** Packet identifiers *)

Fixpoint take_ids (n : nat) : ST (st (W := W)) (list Z) :=
  match n with
  | O => mret []
  | S n => id ← getNextPacketId; ids ← take_ids n; mret (id :: ids)
  end.

Lemma getNextPacketId_spec s : 1 <= next_packetid (client s) <= MAX_PACKET_ID →
  getNextPacketId s = Ok (next_packetid (client s) mod 65535 + 1,
    mkSt (set_next_packetid (next_packetid (client s) mod 65535 + 1) (client s)) (world s)).
Proof.
  intros Hp. unfold getNextPacketId, MAX_PACKET_ID in *.
  assert ((if next_packetid (client s) =? 65535 then 1 else next_packetid (client s) + 1)
    = next_packetid (client s) mod 65535 + 1) as E.
  { destruct (Z.eqb_spec (next_packetid (client s)) 65535) as [->|]; [done|]. zdiv. }
  rewrite <- E. reflexivity.
Qed.

Lemma take_ids_spec n p i s :
  1 <= next_packetid (client s) <= MAX_PACKET_ID → next_packetid (client s) mod 65535 = (p + i) mod 65535 →
  ∃ s', take_ids n s = Ok (map (λ k, (p + k) mod 65535 + 1) (seqZ i (Z.of_nat n)), s').
Proof.
  revert i s. induction n as [|n IH]; intros i s Hs Hi; [by eexists|].
  cbn [take_ids]. erewrite st_bind_Ok by by apply getNextPacketId_spec.
  rewrite seqZ_cons by lia. replace (Z.pred _) with (Z.of_nat n) by lia. cbn [map].
  edestruct (IH (Z.succ i)) as (s' & E); cycle 2.
  - erewrite st_bind_Ok by exact E. eexists. unfold mret, st_ret. by rewrite Hi.
  - cbn. unfold MAX_PACKET_ID. zdiv.
  - cbn. rewrite Hi. zdiv.
Qed.

(** From any packet identifier [p] on, [getNextPacketId] gives the identifiers in turn, from
    1 to 65535 and round again: never 0, and among 65535 successive ones no two are the same. *)
Theorem packet_ids_cycle n s :
  1 <= next_packetid (client s) <= MAX_PACKET_ID →
  let p := next_packetid (client s) in
  let ids := map (λ k, (p + k) mod 65535 + 1) (seqZ 0 (Z.of_nat n)) in
  (∃ s', take_ids n s = Ok (ids, s')) ∧
  Forall (λ id, 1 <= id <= MAX_PACKET_ID) ids ∧ (Z.of_nat n <= 65535 → NoDup ids).
Proof.
  intros Hp. cbn zeta. set (p := next_packetid (client s)) in *. split_and!.
  - apply take_ids_spec; [done|]. by rewrite Z.add_0_r.
  - apply Forall_map, Forall_forall. intros k _. cbn. unfold MAX_PACKET_ID. zdiv.
  - intros Hn. apply (NoDup_fmap_2_strong (λ k, (p + k) mod 65535 + 1)); [|apply NoDup_seqZ].
    intros x y Hx%elem_of_seqZ Hy%elem_of_seqZ E. zdiv.
Qed.
End Theorems.

(** ** The theorems at work, on the example platform *)

(** The client of src/MQTT.cpp after [MQTTConnect], with its buffers of 80 bytes. *)
Definition demo_client : MQTTClient (W := wire) :=
  mkClient 1 3000 80 80 (replicate 80 0) (replicate 80 0) 60 0 1 1
    (replicate 5 (mkHandler None None)) None (mkTimer (clock := wire_clock) 60000 0) (mkTimer (clock := wire_clock) 60000 0).

Definition demo_junk : publish_out := mkPub 0 0 0 0 MQTTString_initializer None 0.
Definition demo_junk_ack : ack_out := mkAck 0 0 0.
Definition demo_network : Network wire := FreeRTOS_Network 3 10.

Lemma demo_inv w : inv quiet (mkSt demo_client w).
Proof.
  split.
  - constructor; cbn; try done. apply (bool_decide_unpack _). vm_compute. exact I.
  - split; [|done]. cbn. repeat (apply Forall_cons; split; [done|]). apply Forall_nil_2.
Qed.

(** A PUBLISH of QoS 1 that fills the buffer with its topic. *)
Definition overrun_packet : list Z := 50 :: 78 :: 0 :: 76 :: replicate 76 97.

Lemma cycle_memory_safety_witness :
  inv quiet (mkSt demo_client (mkWire 0 overrun_packet [])) ∧
  cycle (network := demo_network) 10 demo_junk demo_junk_ack (mkTimer (clock := wire_clock) 3000 0)
    (mkSt demo_client (mkWire 0 overrun_packet [])) = Ub.
Proof.
  split; [apply demo_inv|].
  apply (cycle_memory_safety (network := demo_network) 10 demo_junk demo_junk_ack (mkTimer (clock := wire_clock) 3000 0)
    (mkSt demo_client (mkWire 0 overrun_packet []))); [done|done|apply demo_inv|].
  eexists _, _. split; [vm_compute; reflexivity|].
  exists 50, 1, 78, 76, 4. repeat split; vm_compute; done.
Defined.

Lemma packet_ids_cycle_witness :
  1 <= next_packetid demo_client <= MAX_PACKET_ID ∧
  ∃ s', take_ids 3 (mkSt demo_client (mkWire 0 [] [])) = Ok ([2; 3; 4], s').
Proof.
  split; [done|].
  exact (proj1 (packet_ids_cycle 3 (mkSt demo_client (mkWire 0 [] [])) ltac:(done))).
Defined.
