(* ===== verification/MqttClientSession.v ===== *)
(** What the MQTT client exchanges with its broker, over a connection that delivers ([PromptNetwork]):
    the packets it reads, the answers of [cycle], and the API functions. *)
From S2P Require Import Prelude Cursor CString MqttPacket MqttSerialize MqttDeserialize MqttTopic.
From S2P Require Import StateMonad Network MqttClient MqttHandlers MqttClientSafe.

Section Session.
Context {W : Type} {clock : Clock W} {network : Network W}.
Context {prompt : Prompt W} {prompt_network : PromptNetwork W}.
Context (fuel : nat) (junk : publish_out) (junk_ack : ack_out).

(** ** States *)

(** The part of the client that reading and answering packets leaves alone. *)
Definition session (c : MQTTClient (W := W)) :=
  (next_packetid c, command_timeout_ms c, buf_size c, readbuf_size c, c_keepAliveInterval c,
   ping_outstanding c, isconnected c, c_cleansession c, messageHandlers c, defaultMessageHandler c).

(** The client between two packets, with a keep-alive interval. *)
Record ready (c : MQTTClient (W := W)) : Prop := {
  r_buf : buf_size c = zlen (buf c);
  r_buf_min : 4 <= buf_size c;
  r_readbuf : readbuf_size c = zlen (readbuf c);
  r_readbuf_min : 5 <= readbuf_size c < 4294967296;
  r_keepalive : 0 < c_keepAliveInterval c < 65536;
  r_sent : fresh (last_sent c);
  r_received : fresh (last_received c);
}.

(** The state after a step of the connection: the client, what is still to come in and what was
    sent. *)
Definition leads {A} (m : ST (st (W := W)) A) (s : st (W := W))
    (Q : A → MQTTClient (W := W) → list Z → list Z → Prop) : Prop :=
  ∃ a s', m s = Ok (a, s') ∧ Q a (client s') (incoming (world s')) (outgoing (world s')).

Lemma leads_ret {A} (a : A) s (Q : A → _) : Q a (client s) (incoming (world s)) (outgoing (world s)) → leads (mret a) s Q.
Proof. intros H. by exists a, s. Qed.

Lemma leads_bind {A B} (m : ST st A) (f : A → ST st B) s Q R :
  leads m s R → (∀ a s', R a (client s') (incoming (world s')) (outgoing (world s')) → leads (f a) s' Q) →
  leads (m ≫= f) s Q.
Proof.
  intros (a & s1 & E & HR) Hf. destruct (Hf a s1 HR) as (b & s2 & E2 & HQ).
  exists b, s2. split; [|done]. by erewrite st_bind_Ok.
Qed.

Lemma leads_field {A B} (f : MQTTClient → A) (k : A → ST st B) s Q :
  leads (k (f (client s))) s Q → leads (field f ≫= k) s Q.
Proof. done. Qed.

Lemma leads_upd {B} f (k : unit → ST st B) s Q :
  leads (k tt) (mkSt (f (client s)) (world s)) Q → leads (upd f ≫= k) s Q.
Proof. done. Qed.

Lemma leads_conseq {A} (m : ST st A) s Q R :
  leads m s R → (∀ a c i o, R a c i o → Q a c i o) → leads m s Q.
Proof. intros (a & s1 & E & HR) HQ. exists a, s1. auto. Qed.

Lemma leads_expired t s : fresh t →
  leads (timer_expired t) s (λ r c i o, r.1 = false ∧ fresh r.2 ∧
    c = client s ∧ i = incoming (world s) ∧ o = outgoing (world s)).
Proof.
  intros Ht. destruct (expired_prompt t (world s) Ht) as (t' & w' & E & Hf & Hi & Ho).
  eexists _, _. unfold timer_expired, platform. rewrite E. split; [done|]. by cbn.
Qed.

Lemma leads_left t s : fresh t →
  leads (timer_left t) s (λ r c i o, 0 < r.1 < 2147483648 ∧ fresh r.2 ∧
    c = client s ∧ i = incoming (world s) ∧ o = outgoing (world s)).
Proof.
  intros Ht. destruct (left_prompt t (world s) Ht) as (ms & t' & w' & E & Hms & Hf & Hi & Ho).
  eexists _, _. unfold timer_left, platform. rewrite E. split; [done|]. by cbn.
Qed.

Lemma leads_countdown_ms ms s : 0 < ms < 2147483648 →
  leads (countdown_ms ms) s (λ t c i o, fresh t ∧ c = client s ∧ i = incoming (world s) ∧ o = outgoing (world s)).
Proof.
  intros Hms. destruct (countdown_prompt ms (world s) Hms) as (t & w' & E & Hf & Hi & Ho).
  eexists _, _. unfold countdown_ms, platform. rewrite E. split; [done|]. by cbn.
Qed.

Lemma leads_countdown_any ms s :
  leads (countdown_ms ms) s (λ t c i o, c = client s ∧ i = incoming (world s) ∧ o = outgoing (world s)).
Proof.
  pose proof (prompt_set (world s)) as Hw. unfold leads, countdown_ms, platform, TimerCountdownMS.
  destruct (vTaskSetTimeOutState (world s)) as [o w']. eexists _, _. split; [done|]. by cbn.
Qed.

Lemma leads_countdown k s : 0 < k < 65536 →
  leads (countdown k) s (λ t c i o, fresh t ∧ c = client s ∧ i = incoming (world s) ∧ o = outgoing (world s)).
Proof.
  intros Hk. unfold countdown, TimerCountdown. rewrite (u32_id (k * 1000)) by (unfold is_u32; lia).
  apply (leads_countdown_ms (k * 1000)). lia.
Qed.

(** ** Sending *)

(** A loop that sends makes one turn and looks once more. *)
Context (enough_fuel : (2 ≤ fuel)%nat).

Lemma sendPacket_leads len t s : 0 < c_keepAliveInterval (client s) < 65536 → fresh t → 0 < len <= zlen (buf (client s)) →
  leads (sendPacket fuel len t) s (λ r c i o, r.1 = SUCCESS ∧ fresh r.2 ∧
    (∃ tm, c = set_last_sent tm (client s) ∧ fresh tm) ∧ i = incoming (world s) ∧
    o = outgoing (world s) ++ take (Z.to_nat len) (buf (client s))).
Proof.
  intros Hc Ht Hl. unfold sendPacket. destruct fuel as [|[|f]]; [lia|lia|]. cbn [send_loop].
  eapply (leads_bind _ _ _ _ (λ r c i o, r.1 = len ∧ fresh r.2 ∧ c = client s ∧ i = incoming (world s) ∧
    o = outgoing (world s) ++ take (Z.to_nat len) (buf (client s)))).
  - destruct (Z.ltb_spec 0 len); [|lia].
    eapply leads_bind; [by apply leads_expired|]. intros [e t1] s1 (He & Ht1 & Hc1 & Hi1 & Ho1).
    cbn in He, Ht1. subst e.
    eapply leads_bind; [by apply leads_left|]. intros [ms t2] s2 (Hms & Ht2 & Hc2 & Hi2 & Ho2).
    cbn in Hms, Ht2.
    destruct (prompt_write (buf (client s)) 0 len ms (world s2)) as (w' & E & Hi & Ho); [lia..|].
    eapply (leads_bind _ _ _ _ (λ rc c i o, rc = len ∧ c = client s ∧ i = incoming (world s) ∧
      o = outgoing (world s) ++ take (Z.to_nat len) (buf (client s)))).
    { eexists _, _. unfold net_write. rewrite Hc2, Hc1, E. split; [done|]. cbn.
      rewrite Hi, Ho, Hi2, Hi1, Ho2, Ho1, drop_0. done. }
    intros rc s3 (-> & ?). destruct (Z.ltb_spec len 0); [lia|]. rewrite Z.add_0_l, Z.ltb_irrefl.
    by apply leads_ret.
  - intros [sent t1] s1 (Hsent & Ht1 & Hc1 & Hi1 & Ho1). cbn in Hsent, Ht1. subst sent. rewrite Z.eqb_refl.
    apply leads_field. eapply leads_bind; [apply leads_countdown; by rewrite Hc1|].
    intros tm s3 (Htm & Hc3 & Hi3 & Ho3). apply leads_upd, leads_ret. cbn [client world].
    rewrite Hc3, Hc1, Hi3, Hi1, Ho3, Ho1. split_and!; eauto.
Qed.

(** ** Receiving *)

Lemma net_read_byte_leads c rest i ms s : incoming (world s) = c :: rest → 0 < ms < 2147483648 →
  leads (net_read_byte i ms) s (λ r cl i o, r = (1, c) ∧ cl = client s ∧ i = rest ∧ o = outgoing (world s)).
Proof.
  intros Hin Hms.
  destruct (prompt_read [i] 0 1 ms (world s)) as (b & w' & E & Hb & Hi & Ho);
    [lia|lia|cbn; lia|rewrite Hin; cbn; lia|done|].
  rewrite Hin in Hb, Hi. cbn in Hb, Hi. injection Hb as <-.
  eexists _, _. unfold net_read_byte. rewrite E, bind_ok. cbn. split; [done|]. cbn.
  by rewrite Hi, Ho.
Qed.

Lemma decodePacket_loop_leads k n mult len value ms rest i s :
  0 <= n < 128 ^ Z.of_nat k → len + Z.of_nat k = 4 → (0 < k)%nat → 0 < ms < 2147483648 →
  incoming (world s) = length_bytes_fuel (S k) n ++ rest →
  leads (decodePacket_loop (S k) i mult len value ms) s
    (λ v c i o, v = value + n * mult ∧ c = client s ∧ i = rest ∧ o = outgoing (world s)).
Proof.
  intros Hn Hl Hk Hms. revert n mult len value i s Hn Hl. induction k as [|k IH];
    intros n mult len value i s Hn Hl Hin; [lia|].
  rewrite length_bytes_S in Hin. cbn [decodePacket_loop]. unfold MAX_NO_OF_REMAINING_LENGTH_BYTES.
  destruct (Z.ltb_spec 4 (len + 1)); [lia|]. rewrite Nat2Z.inj_succ, Z.pow_succ_r in Hn by lia.
  destruct (Z.ltb_spec n 128) as [Hlt|Hge]; cbn [app] in Hin;
    (eapply leads_bind; [by eapply net_read_byte_leads|]); intros [rc c] s1 ([= -> ->] & Hc & Hi & Ho);
    cbn [Z.eqb Pos.eqb negb].
  - rewrite land_127, land_128 by (unfold is_u8; lia). rewrite Z.mod_small by lia.
    destruct (Z.ltb_spec n 128); [|lia]. cbn [Z.eqb negb]. apply leads_ret. split_and!; [lia|done..].
  - assert (is_u8 (128 + n mod 128)) by (unfold is_u8; zdiv).
    rewrite land_127, land_128 by done. destruct (Z.ltb_spec (128 + n mod 128) 128); [zdiv|].
    cbn [Z.eqb negb]. replace ((128 + n mod 128) mod 128) with (n mod 128) by zdiv.
    destruct k as [|k]; [cbn in Hn; lia|].
    assert (0 <= n / 128 < 128 ^ Z.of_nat (S k)) by (split; [zdiv|]; apply Z.div_lt_upper_bound; lia).
    eapply leads_conseq; [apply (IH ltac:(lia) (n / 128)); [done|lia|exact Hi]|].
    cbn. intros v c' i' o (-> & -> & -> & ->). pose proof (Z.div_mod n 128 ltac:(lia)).
    split_and!; [nia|congruence..].
Qed.

Lemma decodePacket_leads n ms rest s : 0 <= n < 268435456 → 0 < ms < 2147483648 →
  incoming (world s) = length_bytes n ++ rest →
  leads (decodePacket ms) s (λ v c i o, v = n ∧ c = client s ∧ i = rest ∧ o = outgoing (world s)).
Proof.
  intros Hn Hms Hin. eapply leads_conseq; [apply (decodePacket_loop_leads 4 n 1 0 0 ms rest); [cbn; lia|lia|lia|lia|exact Hin]|].
  cbn. intros v c i o (-> & ?). split; [lia|done].
Qed.

(** [net_read] of bytes that are there. *)
Lemma net_read_leads off n ms l rest s : ready (client s) →
  0 <= off → zlen l = n → 0 < n → off + n <= readbuf_size (client s) → 0 < ms < 2147483648 →
  incoming (world s) = l ++ rest →
  leads (net_read off n ms) s (λ rc c i o, rc = n ∧ i = rest ∧ o = outgoing (world s) ∧
    ∃ b, c = set_readbuf b (client s) ∧ wr_n (readbuf (client s)) off l = Ok b).
Proof.
  intros Hc Ho Hl Hn Hb Hms Hin. rewrite (r_readbuf _ Hc) in Hb.
  destruct (prompt_read (readbuf (client s)) off n ms (world s)) as (b & w' & E & Hw & Hi & Hout);
    [done|done|done|rewrite Hin; lens|done|].
  rewrite Hin in Hw, Hi. rewrite take_app_length' in Hw by lia. rewrite drop_app_length' in Hi by lia.
  eexists _, _. unfold net_read. rewrite E, bind_ok. split; [done|]. cbn. split_and!; eauto.
Qed.

Lemma ready_readbuf b c : ready c → length b = length (readbuf c) → ready (set_readbuf b c).
Proof. intros [? ? ? ? ? ? ?] E. constructor; cbn; try done. by rewrite E. Qed.

Lemma ready_sent t c : ready c → fresh t → ready (set_last_sent t c).
Proof. intros [? ? ? ? ? ? ?] ?. by constructor. Qed.

Lemma ready_received t c : ready c → fresh t → ready (set_last_received t c).
Proof. intros [? ? ? ? ? ? ?] ?. by constructor. Qed.

(** What reading a packet leaves: the packet at the start of the receive buffer. *)
Definition has_packet (pkt : list Z) (s : st (W := W)) (c : MQTTClient (W := W)) : Prop :=
  ready c ∧ session c = session (client s) ∧ ∃ r, readbuf c = pkt ++ r.

(** [put_length] behind a first byte. *)
Lemma put_length_leads n x r s : 0 <= n < 268435456 → readbuf (client s) = x :: r → (4 ≤ length r)%nat →
  leads (put_length n) s (λ k c i o, k = zlen (length_bytes n) ∧
    c = set_readbuf (x :: length_bytes n ++ drop (length (length_bytes n)) r) (client s) ∧
    i = incoming (world s) ∧ o = outgoing (world s)).
Proof.
  intros Hn Er Hr. eexists _, _. unfold put_length, MQTTPacket_encode, encode_fuel. rewrite Er.
  assert (zlen (length_bytes n) <= 4) by (rewrite length_bytes_size by lia; repeat case_match; lia).
  pose proof (encode_loop_emits 5 n 0 ltac:(cbn; lia) ltac:(lia) [x] r) as Ee. cbn [app length] in Ee.
  change (Z.of_nat 1) with 1 in Ee. cbn zeta in Ee. fold (length_bytes n) in Ee.
  rewrite decide_True in Ee by lia. rewrite Ee, bind_ok. split; [reflexivity|]. cbn. split_and!; done || lia.
Qed.

(** The type byte at the start of the buffer. *)
Lemma first_byte_written x b s : ready (client s) → wr_n (readbuf (client s)) 0 [x] = Ok b →
  ∃ r0, b = x :: r0 ∧ zlen r0 + 1 = readbuf_size (client s).
Proof.
  intros Hc Hw. pose proof (r_readbuf _ Hc) as Hsz. pose proof (r_readbuf_min _ Hc).
  destruct (readbuf (client s)) as [|y r0]; [cbn [length] in *; lia|]. exists r0.
  unfold wr_n in Hw. rewrite decide_True in Hw by (cbn [length]; lia). injection Hw as <-.
  split; [done|]. cbn [length] in Hsz. lia.
Qed.

(** The end of [readPacket]: the type, and the time of arrival. *)
Lemma record_packet_leads x body s t s6 : has_packet (packet [x] body) s (client s6) →
  leads (b ← deserialize (λ buf _, rd buf 0);
         k ← field c_keepAliveInterval;
         (if 0 <? k then t ← countdown k; upd (set_last_received t) else mret tt);;
         mret (h_type (byte_header b), t)) s6
    (λ (r : Z * Timer) c i o, r.1 = h_type (byte_header x) ∧ r.2 = t ∧ has_packet (packet [x] body) s c ∧
       i = incoming (world s6) ∧ o = outgoing (world s6)).
Proof.
  intros (Hr6 & Hs6 & r6 & Er6).
  eapply (leads_bind _ _ _ _ (λ b c i o, b = x ∧ c = client s6 ∧ i = incoming (world s6) ∧ o = outgoing (world s6))).
  { eexists _, _. unfold deserialize. rewrite Er6. split; [reflexivity|]. done. }
  intros b s7 (-> & Hc7 & Hi7 & Ho7). apply leads_field. rewrite Hc7.
  destruct (Z.ltb_spec 0 (c_keepAliveInterval (client s6))); [|pose proof (r_keepalive _ Hr6); lia].
  eapply (leads_bind _ _ _ _ (λ _ c i o, has_packet (packet [x] body) s c ∧ i = incoming (world s6) ∧
    o = outgoing (world s6))).
  { eapply leads_bind; [by apply leads_countdown, r_keepalive|]. intros tm s8 (Htm & Hc8 & Hi8 & Ho8).
    eexists _, _. split; [reflexivity|]. cbn [client world]. rewrite Hc8, Hc7. split; [|split; congruence].
    split; [by apply ready_received|]. eauto. }
  intros ? s8 (Hp8 & Hi8 & Ho8). by apply leads_ret.
Qed.

(** The first two steps of [readPacket] leave the type byte and the length field. *)
Lemma header_in_buffer x r0 n s s4 k :
  ready (client s) → readbuf (client s4) = x :: r0 → zlen r0 + 1 = readbuf_size (client s) →
  session (client s4) = session (client s) → ready (client s4) →
  k = set_readbuf (x :: length_bytes n ++ drop (length (length_bytes n)) r0) (client s4) →
  zlen (length_bytes n) <= 4 → ready k ∧ session k = session (client s).
Proof.
  intros Hc Er Hr Hs H4 -> Hl. split; [|done]. pose proof (r_readbuf_min _ Hc).
  apply ready_readbuf; [done|]. rewrite Er. lens.
Qed.

(** The body, read behind the header. *)
Lemma read_body_leads x body rest r1 t s5 s : ready (client s5) → fresh t →
  session (client s5) = session (client s) →
  readbuf (client s5) = x :: length_bytes (zlen body) ++ r1 → zlen body <= zlen r1 →
  incoming (world s5) = body ++ rest →
  leads (if 0 <? zlen body then
           '(ms_left, timer) ← timer_left t;
           rc ← net_read (1 + zlen (length_bytes (zlen body))) (zlen body) ms_left;
           mret (negb (rc =? zlen body), timer)
         else mret (false, t)) s5
    (λ (r : bool * Timer) c i o, r.1 = false ∧ fresh r.2 ∧ has_packet (packet [x] body) s c ∧ i = rest ∧
       o = outgoing (world s5)).
Proof.
  intros Hr5 Ht Hs5 Eb Hl Hin. set (lb := length_bytes (zlen body)) in *.
  destruct (Z.ltb_spec 0 (zlen body)) as [Hpos|Hzero].
  - eapply leads_bind; [by apply leads_left|]. intros [ms3 t3] s6 (Hms3 & Ht3 & Hc6 & Hi6 & Ho6).
    cbn in Hms3, Ht3. pose proof (r_readbuf _ Hr5) as Hz. rewrite Eb in Hz.
    eapply leads_bind.
    { apply (net_read_leads (1 + zlen lb) (zlen body) ms3 body rest);
        rewrite ?Hc6; [done|lia|done|done|lens|done|congruence]. }
    intros rc s7 (-> & Hi7 & Ho7 & b & Hc7 & Hw7). rewrite Z.eqb_refl. apply leads_ret.
    split; [done|]. split; [done|]. split; [|split; congruence].
    rewrite Hc7, Hc6. split; [|split; [exact Hs5|]].
    + apply ready_readbuf; [done|]. apply wr_n_length in Hw7. by rewrite Hw7, Hc6.
    + cbn [readbuf set_readbuf]. rewrite Hc6, Eb in Hw7.
      pose proof (wr_n_app (x :: lb) r1 body) as Ew. cbn [app] in Ew.
      replace (zlen (x :: lb)) with (1 + zlen lb) in Ew by lens.
      rewrite Ew in Hw7 by lia. injection Hw7 as <-.
      eexists. unfold packet. fold lb. cbn [app]. by rewrite <- app_assoc.
  - apply leads_ret. split; [done|]. split; [done|]. destruct body as [|? ?]; [|cbn [length] in *; lia].
    split; [|done]. split; [done|]. split; [done|]. rewrite Eb. exists r1. reflexivity.
Qed.

Lemma readPacket_leads x body rest t s :
  ready (client s) → fresh t → zlen body < 268435456 →
  zlen (packet [x] body) <= readbuf_size (client s) →
  incoming (world s) = packet [x] body ++ rest →
  leads (readPacket t) s (λ r c i o, r.1 = h_type (byte_header x) ∧ fresh r.2 ∧
    has_packet (packet [x] body) s c ∧ i = rest ∧ o = outgoing (world s)).
Proof.
  intros Hc Ht Hb Hfit Hin. unfold packet in Hin, Hfit. cbn [app] in Hin. rewrite <- app_assoc in Hin.
  assert (1 <= zlen (length_bytes (zlen body)) <= 4) as Hlb.
  { rewrite length_bytes_size by lia. repeat case_match; lia. }
  set (lb := length_bytes (zlen body)) in *.
  assert (1 + zlen lb + zlen body <= readbuf_size (client s)) as Hfit' by lens.
  pose proof (r_readbuf_min _ Hc) as Hmin. unfold readPacket.
  eapply leads_bind; [by apply leads_left|]. intros [ms t1] s1 (Hms & Ht1 & Hc1 & Hi1 & Ho1).
  cbn in Hms, Ht1.
  eapply leads_bind; [apply (net_read_leads 0 1 ms [x] (lb ++ body ++ rest)); rewrite ?Hc1; [done|lia|done|lia|lia|done|by rewrite Hi1]|].
  intros rc s2 (-> & Hi2 & Ho2 & b2 & Hc2 & Hw2). cbn [Z.eqb Pos.eqb negb]. rewrite Hc1 in *.
  eapply leads_bind; [by apply leads_left|]. intros [ms2 t2] s3 (Hms2 & Ht2 & Hc3 & Hi3 & Ho3).
  cbn in Hms2, Ht2.
  eapply leads_bind; [apply (decodePacket_leads (zlen body) ms2 (body ++ rest)); [lia|done|by rewrite Hi3]|].
  intros n s4 (-> & Hc4 & Hi4 & Ho4).
  destruct (first_byte_written x b2 s Hc Hw2) as (r0 & -> & Hr0).
  assert (client s4 = set_readbuf (x :: r0) (client s)) as Hc4' by congruence.
  eapply leads_bind; [apply (put_length_leads (zlen body) x r0); [lia|by rewrite Hc4'|lia]|].
  fold lb. intros k s5 (-> & Hc5 & Hi5 & Ho5).
  destruct (header_in_buffer x r0 (zlen body) s s4 (client s5) Hc) as [Hr5 Hs5];
    [by rewrite Hc4'|done|by rewrite Hc4'|rewrite Hc4'; apply ready_readbuf; [done|]|done|exact (proj2 Hlb)|].
  { pose proof (r_readbuf _ Hc). lens. }
  assert (readbuf_size (client s5) = readbuf_size (client s)) as Ez by by injection Hs5.
  apply leads_field. rewrite Ez, u32_id by (unfold is_u32; lia).
  destruct (Z.ltb_spec (readbuf_size (client s) - (1 + zlen lb)) (zlen body)); [lia|].
  eapply leads_bind; [apply (read_body_leads x body rest (drop (length lb) r0) t2 s5 s);
    [done|done|done|by rewrite Hc5|lens|congruence]|].
  intros [short t3] s6 (Hsh & Ht3 & Hp6 & Hi6 & Ho6). cbn in Hsh, Ht3. subst short.
  assert (outgoing (world s6) = outgoing (world s)) as Hout by congruence.
  eapply leads_conseq; [by apply (record_packet_leads x body s t3 s6)|].
  intros [rc tt] c i o (-> & -> & Hp & -> & ->). done.
Qed.

(** ** Answers and keep-alive *)

(** What a step leaves that sends the bytes [l] and reads nothing. *)
Definition sends {A} (l : list Z) (s : st (W := W)) (R : A → Prop) (a : A) (c : MQTTClient (W := W))
    (i o : list Z) : Prop :=
  R a ∧ ready c ∧ session c = session (client s) ∧ readbuf c = readbuf (client s) ∧
  i = incoming (world s) ∧ o = outgoing (world s) ++ l.

Lemma ready_buf b c : ready c → length b = length (buf c) → ready (set_buf b c).
Proof. intros [? ? ? ? ? ? ?] E. constructor; cbn; try done. by rewrite E. Qed.

(** A packet that is written, and one that is sent. *)
Lemma write_leads f pkt s : ready (client s) →
  f (buf (client s)) (buf_size (client s)) = Ok (pkt ++ drop (length pkt) (buf (client s)), zlen pkt) →
  zlen pkt <= buf_size (client s) →
  leads (serialize_to_buf f) s (λ n c i o, sends [] s (λ n, n = zlen pkt) n c i o ∧ ∃ r, buf c = pkt ++ r).
Proof.
  intros Hc Ef Hl. rewrite (r_buf _ Hc) in Hl. eexists _, _. unfold serialize_to_buf. rewrite Ef, bind_ok.
  split; [reflexivity|]. split; [|by eexists]. split; [done|].
  split; [apply ready_buf; [done|lens]|]. rewrite app_nil_r. done.
Qed.

Lemma send_leads pkt t s : ready (client s) → fresh t → 0 < zlen pkt → (∃ r, buf (client s) = pkt ++ r) →
  leads (sendPacket fuel (zlen pkt) t) s (sends pkt s (λ r, r.1 = SUCCESS ∧ fresh r.2)).
Proof.
  intros Hc Ht Hl [r Er]. eapply leads_conseq; [apply sendPacket_leads; [by apply r_keepalive|done|rewrite Er; lens]|].
  cbn. intros [rc t'] c i o (Hrc & Ht' & (tm & -> & Htm) & -> & ->). split; [done|].
  split; [by apply ready_sent|]. rewrite Er, take_app_length' by lia. done.
Qed.

Lemma write_send_leads f pkt t s : ready (client s) → fresh t →
  f (buf (client s)) (buf_size (client s)) = Ok (pkt ++ drop (length pkt) (buf (client s)), zlen pkt) →
  0 < zlen pkt <= buf_size (client s) →
  leads (n ← serialize_to_buf f; if n <=? 0 then mret (FAILURE, t) else sendPacket fuel n t) s
    (sends pkt s (λ r, r.1 = SUCCESS ∧ fresh r.2)).
Proof.
  intros Hc Ht Ef Hl. eapply leads_bind; [apply (write_leads _ pkt); [done|done|lia]|].
  intros n s1 ((-> & Hr1 & Hs1 & Eb1 & Hi1 & Ho1) & Hb1). rewrite app_nil_r in Ho1.
  destruct (Z.leb_spec (zlen pkt) 0); [lia|].
  eapply leads_conseq; [by apply send_leads|]. intros r c i o (Hr & Hrc & Hs & Eb & Hi & Ho).
  split; [done|]. split; [done|]. split_and!; congruence.
Qed.

Lemma answer_leads pt id t s : ready (client s) → fresh t → is_u16 id →
  leads (answer fuel pt id t) s (sends (ack_packet pt 0 id) s (λ r, r.1 = SUCCESS ∧ fresh r.2)).
Proof.
  intros Hc Ht Hid. pose proof (r_buf _ Hc). pose proof (r_buf_min _ Hc).
  apply write_send_leads; [done|done| |rewrite ack_packet_len; lia].
  rewrite MQTTSerialize_ack_spec by (done || lia). by destruct (Z.ltb_spec (buf_size (client s)) 4); [lia|].
Qed.

Lemma keepalive_leads s : ready (client s) →
  leads (keepalive fuel) s (sends [] s (λ r, r = SUCCESS)).
Proof.
  intros Hc. unfold keepalive. apply leads_field.
  destruct (Z.eqb_spec (c_keepAliveInterval (client s)) 0) as [E|_]; [pose proof (r_keepalive _ Hc); lia|].
  apply leads_field. eapply leads_bind; [by apply leads_expired, r_sent|].
  intros [e1 t1] s1 (He1 & Ht1 & Hc1 & Hi1 & Ho1). cbn in He1, Ht1. subst e1.
  apply leads_upd. rewrite Hc1.
  eapply (leads_bind _ _ _ _ (λ e c i o, e = false ∧ sends [] s (λ _ : bool, True) e c i o)).
  - apply leads_field. cbn [client last_received set_last_sent].
    eapply leads_bind; [by apply leads_expired, r_received|].
    intros [e2 t2] s2 (He2 & Ht2 & Hc2 & Hi2 & Ho2). cbn in He2, Ht2. subst e2.
    apply leads_upd, leads_ret. split; [done|]. split; [done|]. cbn [client world] in *.
    rewrite Hc2, app_nil_r. split; [by apply ready_received, Ht2; apply ready_sent|]. split_and!; try done; congruence.
  - intros e s2 (-> & _ & H). by apply leads_ret.
Qed.

(** ** [cycle] *)

Definition quiet_client (c : MQTTClient (W := W)) : Prop :=
  quiet (messageHandlers c) (defaultMessageHandler c).

Lemma cycle_leads x body rest l t s :
  ready (client s) → fresh t → zlen body < 268435456 →
  zlen (packet [x] body) <= readbuf_size (client s) →
  incoming (world s) = packet [x] body ++ rest →
  (∀ t1 s1, fresh t1 → has_packet (packet [x] body) s (client s1) →
     leads (handle_packet fuel junk junk_ack (h_type (byte_header x)) t1) s1
       (sends l s1 (λ r, r.1 = (SUCCESS, false) ∧ fresh r.2))) →
  leads (cycle fuel junk junk_ack t) s (λ r c i o, r.1 = h_type (byte_header x) ∧ fresh r.2 ∧
    has_packet (packet [x] body) s c ∧ i = rest ∧ o = outgoing (world s) ++ l).
Proof.
  intros Hc Ht Hb Hfit Hin Hh. unfold cycle.
  eapply leads_bind; [by eapply readPacket_leads|]. intros [pt t1] s1 (Hpt & Ht1 & Hp1 & Hi1 & Ho1).
  cbn in Hpt, Ht1. subst pt. eapply leads_bind; [by apply Hh|].
  intros [[rc ex] t2] s2 (([= -> ->] & Ht2) & Hr2 & Hs2 & Eb2 & Hi2 & Ho2). cbn in Ht2.
  eapply (leads_bind _ _ _ _ (sends [] s2 (λ r, r = SUCCESS))).
  - eapply leads_bind; [by apply keepalive_leads|]. intros ka s3 (-> & Hk). by apply leads_ret.
  - intros rc s3 (-> & Hr3 & Hs3 & Eb3 & Hi3 & Ho3). apply leads_ret.
    destruct Hp1 as (_ & Hs1 & r & Er). split; [done|]. split; [done|]. split.
    + split; [done|]. split; [congruence|]. exists r. congruence.
    + rewrite Hi3, Hi2, Hi1, Ho3, Ho2, Ho1, app_nil_r. done.
Qed.

Lemma leads_Ok {A} (m : ST (st (W := W)) A) s a (Q : A → _) : m s = Ok (a, s) →
  Q a (client s) (incoming (world s)) (outgoing (world s)) → leads m s Q.
Proof. intros E H. by exists a, s. Qed.

(** The acknowledgement of a PUBLISH. *)
Definition publish_answer (qos id : Z) : list Z :=
  if qos =? QOS1 then ack_packet PUBACK 0 id else if qos =? QOS2 then ack_packet PUBREC 0 id else [].

(** The client with the session closed after a failure. *)
Definition closed_by_failure (c : MQTTClient (W := W)) : Prop := isconnected c = 0 ∧ ping_outstanding c = 0.

Lemma quiet_session c c' : session c' = session c → quiet_client c → quiet_client c'.
Proof. intros [= ? ? ? ? ? ? ? ? E1 E2]. unfold quiet_client. by rewrite E1, E2. Qed.

Lemma publish_out_leads dup qos retain id topic payload s s1 t1 :
  0 <= dup < 2 → 0 <= qos < 3 → 0 <= retain < 2 → is_u16 id → zlen topic < 65536 →
  zlen (publish_body qos id topic payload) < 268435456 → quiet_client (client s) → fresh t1 →
  has_packet (publish_packet dup qos retain id topic payload) s (client s1) →
  leads (handle_packet fuel junk junk_ack PUBLISH t1) s1
    (sends (publish_answer qos id) s1 (λ r, r.1 = (SUCCESS, false) ∧ fresh r.2)).
Proof.
  intros Hd Hq Hre Hid Ht Hb Hquiet Ht1 (Hr1 & Hs1 & r & Er).
  unfold handle_packet. cbn [Z.eqb Pos.eqb orb PUBLISH CONNACK PUBACK SUBACK UNSUBACK PUBCOMP].
  pose proof (publish_roundtrip_aux (mkPub (po_dup junk) (po_qos junk) (po_retained junk) (po_packetid junk)
    (po_topic junk) (po_payload junk) 0) dup qos retain id topic payload r (readbuf_size (client s1))
    Hd ltac:(lia) Hre Hid Ht Hb) as E.
  set (out := mkPub dup qos retain _ _ _ _) in E.
  eapply (leads_bind _ _ _ _ (λ p c i o, p = (1, out) ∧ c = client s1 ∧ i = incoming (world s1) ∧ o = outgoing (world s1))).
  { eapply leads_Ok; [|done]. unfold deserialize. rewrite Er, E. done. }
  intros [ok o] s2 ([= -> ->] & Hc2 & Hi2 & Ho2). cbn [Z.eqb Pos.eqb negb].
  eapply (leads_bind _ _ _ _ (λ _ c i o, c = client s1 ∧ i = incoming (world s1) ∧ o = outgoing (world s1))).
  { eapply leads_Ok; [apply deliverMessage_none|by rewrite Hc2];
      rewrite Hc2; apply (quiet_session _ _ Hs1 Hquiet). }
  intros rc s3 (Hc3 & Hi3 & Ho3). unfold out. cbn [po_qos po_packetid m_qos m_id].
  assert (ready (client s3)) as Hr3 by by rewrite Hc3.
  assert (∀ p, leads (answer fuel p id t1) s3 (sends (ack_packet p 0 id) s3 (λ r, r.1 = SUCCESS ∧ fresh r.2)) →
    leads ('(rc, timer) ← answer fuel p id t1; mret (rc, rc =? FAILURE, timer)) s3
      (sends (ack_packet p 0 id) s1 (λ r, r.1 = (SUCCESS, false) ∧ fresh r.2))) as Hans.
  { intros p Hl. eapply leads_bind; [exact Hl|]. intros [rc' t'] s4 ((Hrc & Ht') & Hr4 & Hs4 & Eb4 & Hi4 & Ho4).
    cbn in Hrc, Ht'. subst rc'. apply leads_ret. split; [done|]. split; [done|]. split_and!; congruence. }
  assert (qos = 0 ∨ qos = 1 ∨ qos = 2) as [->|[->| ->]] by lia; cbn [Z.eqb Pos.eqb negb QOS0 QOS1 QOS2 Z.ltb Z.compare publish_answer].
  - apply leads_ret. split; [done|]. split; [done|]. rewrite app_nil_r. split_and!; congruence.
  - apply (Hans PUBACK). by apply answer_leads.
  - apply (Hans PUBREC). by apply answer_leads.
Qed.

(** When a PUBLISH arrives, [cycle] takes exactly that packet from the connection and answers
    it as its QoS demands: nothing for 0, a PUBACK with the identifier for 1, a PUBREC for 2; it
    reports the packet and keeps the session. *)
Theorem cycle_answers_publish dup qos retain id topic payload rest t s :
  0 <= dup < 2 → 0 <= qos < 3 → 0 <= retain < 2 → is_u16 id → zlen topic < 65536 →
  zlen (publish_body qos id topic payload) < 268435456 → quiet_client (client s) →
  ready (client s) → fresh t →
  zlen (publish_packet dup qos retain id topic payload) <= readbuf_size (client s) →
  incoming (world s) = publish_packet dup qos retain id topic payload ++ rest →
  ∃ t' s', cycle fuel junk junk_ack t s = Ok ((PUBLISH, t'), s') ∧ incoming (world s') = rest ∧
    outgoing (world s') = outgoing (world s) ++ publish_answer qos id ∧
    session (client s') = session (client s) ∧ ready (client s').
Proof.
  intros Hd Hq Hre Hid Ht Hb Hquiet Hc Hf Hfit Hin. unfold publish_packet, header_bytes in Hin, Hfit.
  destruct (cycle_leads _ _ rest (publish_answer qos id) t s Hc Hf Hb Hfit Hin) as ([pt t'] & s' & E & H).
  - intros t1 s1 Ht1 Hp1. rewrite header_roundtrip by (done || lia). by apply (publish_out_leads dup qos retain id topic payload s).
  - rewrite header_roundtrip in H by (done || lia). destruct H as (Hpt & _ & (Hr & Hs & _) & Hi & Ho).
    cbn in Hpt. subst pt. eauto 10.
Qed.

(** The answer to a PUBREC or a PUBREL. *)
Definition release_answer (pt id : Z) : list Z :=
  ack_packet (if pt =? PUBREC then PUBREL else PUBCOMP) 0 id.

Lemma release_out_leads pt dup id s s1 t1 : pt = PUBREC ∨ pt = PUBREL → 0 <= dup < 2 → is_u16 id →
  fresh t1 → has_packet (ack_packet pt dup id) s (client s1) →
  leads (handle_packet fuel junk junk_ack pt t1) s1
    (sends (release_answer pt id) s1 (λ r, r.1 = (SUCCESS, false) ∧ fresh r.2)).
Proof.
  intros Hpt Hd Hid Ht1 (Hr1 & Hs1 & r & Er).
  pose proof (ack_roundtrip_aux junk_ack pt dup id r (readbuf_size (client s1))
    ltac:(destruct Hpt; subst; done) Hd Hid) as E. rewrite <- Er in E.
  set (pt' := if pt =? PUBREC then PUBREL else PUBCOMP).
  assert (handle_packet fuel junk junk_ack pt t1 = (
    '(ok, o) ← deserialize (MQTTDeserialize_ack junk_ack);
    '(rc, timer) ←
      (if negb (ok =? 1) then mret (FAILURE, t1)
       else
         '(rc, timer) ← answer fuel pt' (ao_packetid o) t1;
         mret (if negb (rc =? SUCCESS) then FAILURE else rc, timer));
    mret (rc, rc =? FAILURE, timer))) as -> by (destruct Hpt; by subst).
  eapply (leads_bind _ _ _ _ (λ p c i o, p = (1, mkAck pt dup id) ∧ c = client s1 ∧
    i = incoming (world s1) ∧ o = outgoing (world s1))).
  { eapply leads_Ok; [|done]. unfold deserialize. by rewrite E. }
  intros [ok o] s2 ([= -> ->] & Hc2 & Hi2 & Ho2). cbn [Z.eqb Pos.eqb negb ao_packetid].
  eapply (leads_bind _ _ _ _ (sends (release_answer pt id) s2 (λ r, r.1 = SUCCESS ∧ fresh r.2))).
  { eapply leads_bind; [apply answer_leads; [by rewrite Hc2|done|done]|].
    intros [rc t2] s3 ((Hrc & Ht2) & Hk). cbn in Hrc, Ht2. subst rc. by apply leads_ret. }
  intros [rc t2] s3 ((Hrc & Ht2) & Hr3 & Hs3 & Eb3 & Hi3 & Ho3). cbn in Hrc, Ht2. subst rc.
  apply leads_ret. split; [done|]. split; [done|]. split_and!; congruence.
Qed.

(** The packets with an identifier only. *)
Lemma cycle_id_leads pt dup id rest l t s :
  0 <= pt < 16 → 0 <= dup < 2 → ready (client s) → fresh t →
  incoming (world s) = ack_packet pt dup id ++ rest →
  (∀ t1 s1, fresh t1 → has_packet (ack_packet pt dup id) s (client s1) →
    leads (handle_packet fuel junk junk_ack pt t1) s1 (sends l s1 (λ r, r.1 = (SUCCESS, false) ∧ fresh r.2))) →
  leads (cycle fuel junk junk_ack t) s (λ r c i o, r.1 = pt ∧ fresh r.2 ∧
    has_packet (ack_packet pt dup id) s c ∧ i = rest ∧ o = outgoing (world s) ++ l).
Proof.
  intros Hpt Hd Hc Hf Hin Hh. set (x := header_byte (mkHeader pt dup (if pt =? PUBREL then 1 else 0) 0)).
  assert (h_type (byte_header x) = pt) as E.
  { unfold x. rewrite header_roundtrip; [done|done|done|case_match; lia|lia]. }
  pose proof (cycle_leads x (int_bytes id) rest l t s Hc Hf ltac:(cbn; lia)
    ltac:(pose proof (r_readbuf_min _ Hc); change (4 <= readbuf_size (client s)); lia) Hin) as H.
  rewrite E in H. exact (H Hh).
Qed.

(** When a PUBREC or a PUBREL arrives, [cycle] answers with the PUBREL or the PUBCOMP of the same
    identifier, so that a QoS 2 delivery goes on in either direction. *)
Theorem cycle_answers_release pt dup id rest t s :
  pt = PUBREC ∨ pt = PUBREL → 0 <= dup < 2 → is_u16 id → ready (client s) → fresh t →
  incoming (world s) = ack_packet pt dup id ++ rest →
  ∃ t' s', cycle fuel junk junk_ack t s = Ok ((pt, t'), s') ∧ incoming (world s') = rest ∧
    outgoing (world s') = outgoing (world s) ++ ack_packet (if pt =? PUBREC then PUBREL else PUBCOMP) 0 id ∧
    session (client s') = session (client s) ∧ ready (client s').
Proof.
  intros Hpt Hd Hid Hc Hf Hin.
  destruct (cycle_id_leads pt dup id rest (release_answer pt id) t s) as ([r t'] & s' & E & H);
    [destruct Hpt; subst; done|done..| |].
  - intros t1 s1 Ht1 Hp1. by apply (release_out_leads pt dup id s).
  - destruct H as (Hpt' & _ & (Hr & Hs & _) & Hi & Ho). cbn in Hpt'. subst r. eauto 10.
Qed.

(** ** Publishing *)

Lemma cycle_ack pt dup id rest t s :
  pt = PUBACK ∨ pt = PUBCOMP → 0 <= dup < 2 → ready (client s) → fresh t →
  incoming (world s) = ack_packet pt dup id ++ rest →
  leads (cycle fuel junk junk_ack t) s (λ r c i o, r.1 = pt ∧ fresh r.2 ∧
    has_packet (ack_packet pt dup id) s c ∧ i = rest ∧ o = outgoing (world s) ++ []).
Proof.
  intros Hpt Hd Hc Hf Hin. apply cycle_id_leads; [destruct Hpt; subst; done|done..|].
  intros t1 s1 Ht1 (Hr1 & _ & _).
  assert (handle_packet fuel junk junk_ack pt t1 = mret (SUCCESS, false, t1)) as ->.
  { destruct Hpt; by subst. }
  apply leads_ret. split; [done|]. rewrite app_nil_r. done.
Qed.

(** A turn of [waitfor]: the packet waited for, or another one. *)
Lemma waitfor_turn k pt pt' rc0 t s Q :
  fresh t → 0 <= pt' →
  (∀ t1 s1, fresh t1 → client s1 = client s → incoming (world s1) = incoming (world s) →
     outgoing (world s1) = outgoing (world s) →
     leads (cycle fuel junk junk_ack t1) s1 (λ r c i o, r.1 = pt' ∧
       (∀ s2, client s2 = c → incoming (world s2) = i → outgoing (world s2) = o →
          if pt' =? pt then Q r c i o else leads (waitfor_loop fuel junk junk_ack k pt pt' r.2) s2 Q))) →
  leads (waitfor_loop fuel junk junk_ack (S k) pt rc0 t) s Q.
Proof.
  intros Ht Hpt' Hc. cbn [waitfor_loop].
  eapply leads_bind; [by apply leads_expired|]. intros [e t1] s1 (He & Ht1 & Hc1 & Hi1 & Ho1).
  cbn in He, Ht1. subst e. eapply leads_bind; [by apply Hc|].
  intros [rc t2] s2 (Hrc & Hk). cbn in Hrc. subst rc. specialize (Hk s2 eq_refl eq_refl eq_refl).
  destruct (Z.eqb_spec pt' pt) as [->|Hne]; cbn [negb andb].
  - by apply leads_ret.
  - destruct (Z.leb_spec 0 pt'); [done|lia].
Qed.

(** What the broker answers to a PUBLISH, and what the client says in return. *)
Definition broker_answer (qos id : Z) : list Z :=
  if qos =? QOS1 then ack_packet PUBACK 0 id
  else if qos =? QOS2 then ack_packet PUBREC 0 id ++ ack_packet PUBCOMP 0 id else [].

Definition client_release (qos id : Z) : list Z :=
  if qos =? QOS2 then ack_packet PUBREL 0 id else [].

(** The wait for the end of an exchange. *)
Lemma waitfor_leads qos id rest t s :
  qos = QOS1 ∨ qos = QOS2 → is_u16 id → ready (client s) → fresh t →
  incoming (world s) = broker_answer qos id ++ rest →
  leads (waitfor fuel junk junk_ack (if qos =? QOS1 then PUBACK else PUBCOMP) t) s (λ r c i o,
    r.1 = (if qos =? QOS1 then PUBACK else PUBCOMP) ∧
    has_packet (ack_packet (if qos =? QOS1 then PUBACK else PUBCOMP) 0 id) s c ∧ i = rest ∧
    o = outgoing (world s) ++ client_release qos id).
Proof.
  intros Hq Hid Hc Hf Hin. unfold waitfor.
  assert (∃ k, fuel = S (S k)) as [k Ek] by (exists (fuel - 2)%nat; lia). rewrite Ek at 2.
  destruct Hq; subst qos; cbn [Z.eqb Pos.eqb QOS1 QOS2 broker_answer client_release] in *.
  - apply (waitfor_turn _ _ PUBACK); [done|done|]. intros t1 s1 Ht1 Hc1 Hi1 Ho1.
    eapply leads_conseq; [eapply cycle_ack; [by left|done|by rewrite Hc1|done|by rewrite Hi1]|].
    intros [rc t2] c i o (Hrc & Ht2 & (Hr & Hs & Hb) & Hi & Ho). split; [done|].
    intros s2 _ _ _. cbn. split; [done|]. split; [split; [done|]; split; [congruence|done]|].
    split; [done|]. by rewrite Ho, Ho1.
  - rewrite <- app_assoc in Hin.
    apply (waitfor_turn _ _ PUBREC); [done|done|]. intros t1 s1 Ht1 Hc1 Hi1 Ho1.
    eapply leads_conseq.
    { eapply (cycle_id_leads PUBREC 0 id _ (release_answer PUBREC id));
        [done|done|by rewrite Hc1|done|by rewrite Hi1|].
      intros t2 s2 Ht2 Hp2. by apply (release_out_leads PUBREC 0 id s1); [left|..]. }
    intros [rc t2] c i o (Hrc & Ht2 & (Hr & Hs & Hb) & Hi & Ho). split; [done|].
    intros s2 Hc2 Hi2 Ho2. cbn in Ht2 |- *.
    apply (waitfor_turn _ _ PUBCOMP); [done|done|]. intros t3 s3 Ht3 Hc3 Hi3 Ho3.
    eapply leads_conseq; [eapply cycle_ack; [by right|done|by rewrite Hc3, Hc2|done|by rewrite Hi3, Hi2, Hi]|].
    intros [rc' t4] c' i' o' (Hrc' & Ht4 & (Hr' & Hs' & Hb') & Hi' & Ho'). split; [done|].
    intros s4 _ _ _. cbn. split; [done|]. split; [split; [done|]; split; [congruence|done]|].
    split; [done|]. rewrite Ho', Ho3, Ho2, Ho, Ho1, app_nil_r. done.
Qed.

Lemma MQTTSerialize_publish_region buf buflen qos retain id m topic payload r :
  mqtt_str m topic → is_u16 id → zlen (publish_body qos id topic payload) < 268435456 →
  MQTTPacket_len (zlen (publish_body qos id topic payload)) <= buflen → buflen <= zlen buf →
  let pkt := publish_packet 0 qos retain id topic payload in
  MQTTSerialize_publish buf buflen 0 qos retain id m (payload ++ r) (zlen payload)
    = Ok (pkt ++ drop (length pkt) buf, zlen pkt) ∧ 0 < zlen pkt <= buflen.
Proof.
  intros Hm Hid Hb Hl Hbuf pkt.
  destruct (MQTTSerialize_publish_spec buf buflen 0 qos retain id m topic payload Hm Hid Hb Hbuf) as [E Hp].
  destruct (Z.ltb_spec buflen (MQTTPacket_len (zlen (publish_body qos id topic payload)))) as [|_]; [lia|].
  split.
  - unfold pkt. rewrite <- E. unfold MQTTSerialize_publish. pose proof (rd_n_app [] payload r) as Er. cbn [app length] in Er.
    change (Z.of_nat 0) with 0 in Er. rewrite Er, (rd_n_0 payload) by done. done.
  - fold pkt in Hp. split; [|lia]. unfold pkt, publish_packet, packet, header_bytes. lens.
Qed.

(** The message with its identifier, and the client that has used it up. *)
Definition numbered (msg : MQTTMessage) (c : MQTTClient (W := W)) : MQTTMessage :=
  if 0 <? m_qos msg
  then mkMessage (m_qos msg) (m_retained msg) (m_dup msg) (next_packetid c mod 65535 + 1)
                 (m_payload msg) (m_payloadlen msg)
  else msg.

Definition used_id (msg : MQTTMessage) (c : MQTTClient (W := W)) : MQTTClient :=
  if 0 <? m_qos msg then set_next_packetid (next_packetid c mod 65535 + 1) c else c.

Lemma number_leads msg s : 0 <= m_qos msg < 3 → 1 <= next_packetid (client s) <= MAX_PACKET_ID →
  leads (if (m_qos msg =? QOS1) || (m_qos msg =? QOS2) then
           id ← getNextPacketId;
           mret (mkMessage (m_qos msg) (m_retained msg) (m_dup msg) (u16 id) (m_payload msg) (m_payloadlen msg))
         else mret msg) s
    (λ m c i o, m = numbered msg (client s) ∧ c = used_id msg (client s) ∧
      i = incoming (world s) ∧ o = outgoing (world s)).
Proof.
  intros Hq Hid. unfold numbered, used_id.
  assert ((m_qos msg =? QOS1) || (m_qos msg =? QOS2) = (0 <? m_qos msg)) as ->.
  { unfold QOS1, QOS2. destruct (Z.eqb_spec (m_qos msg) 1), (Z.eqb_spec (m_qos msg) 2), (Z.ltb_spec 0 (m_qos msg));
      done || lia. }
  destruct (0 <? m_qos msg); [|by apply leads_ret].
  eexists _, _. erewrite st_bind_Ok by by apply getNextPacketId_spec. split; [reflexivity|].
  rewrite u16_id by (unfold is_u16; zdiv). done.
Qed.

(** The wait of [MQTTPublish] for the end of the exchange. *)
Lemma exchange_leads qos id rest t s : 0 <= qos < 3 → is_u16 id → ready (client s) → fresh t →
  incoming (world s) = broker_answer qos id ++ rest →
  leads (if qos =? QOS1 then await_ack fuel junk junk_ack PUBACK SUCCESS t
         else if qos =? QOS2 then await_ack fuel junk junk_ack PUBCOMP SUCCESS t else mret SUCCESS) s
    (λ r c i o, r = SUCCESS ∧ ready c ∧ session c = session (client s) ∧ i = rest ∧
       o = outgoing (world s) ++ client_release qos id).
Proof.
  intros Hq Hid Hc Ht Hin.
  assert (∀ pt, (qos = QOS1 ∨ qos = QOS2) → pt = (if qos =? QOS1 then PUBACK else PUBCOMP) →
    leads (await_ack fuel junk junk_ack pt SUCCESS t) s (λ r c i o, r = SUCCESS ∧ ready c ∧
      session c = session (client s) ∧ i = rest ∧ o = outgoing (world s) ++ client_release qos id)) as Ha.
  { intros pt Hqq ->. unfold await_ack. eapply leads_bind; [by apply (waitfor_leads qos id rest)|].
    intros [rc t1] s1 (Hrc & (Hr1 & Hs1 & r & Er) & Hi1 & Ho1). cbn in Hrc. subst rc. rewrite Z.eqb_refl.
    eapply (leads_bind _ _ _ _ (λ p c i o, p.1 = 1 ∧ c = client s1 ∧ i = rest ∧ o = outgoing (world s1))).
    { eapply leads_Ok.
      - unfold deserialize. rewrite Er. rewrite ack_roundtrip_aux by (done || by destruct Hqq; subst). done.
      - done. }
    intros [ok o] s2 (Hok & Hc2 & Hi2 & Ho2). cbn in Hok. subst ok. apply leads_ret.
    split_and!; [done|by rewrite Hc2|congruence|congruence|congruence]. }
  assert (qos = 0 ∨ qos = 1 ∨ qos = 2) as [->|[->| ->]] by lia.
  - apply leads_ret. cbn. rewrite app_nil_r. done.
  - by apply (Ha PUBACK); [left|].
  - by apply (Ha PUBCOMP); [right|].
Qed.

(** The exchange of a PUBLISH. *)
Lemma publish_exchange topic msg payload r id' rest s :
  ready (client s) → isconnected (client s) ≠ 0 → 0 < command_timeout_ms (client s) < 2147483648 →
  1 <= next_packetid (client s) <= MAX_PACKET_ID → 0 <= m_qos msg < 3 → is_u16 (m_id msg) → is_u16 id' →
  m_payload msg = Some (payload ++ r) → m_payloadlen msg = zlen payload → zlen topic < 65536 →
  let msg' := numbered msg (client s) in
  let body := publish_body (m_qos msg) (m_id msg') topic payload in
  zlen body < 268435456 → MQTTPacket_len (zlen body) <= buf_size (client s) →
  incoming (world s) = broker_answer (m_qos msg) id' ++ rest →
  ∃ s', MQTTPublish fuel junk junk_ack topic msg s = Ok ((SUCCESS, msg'), s') ∧ incoming (world s') = rest ∧
    outgoing (world s') = outgoing (world s) ++
      publish_packet 0 (m_qos msg) (m_retained msg) (m_id msg') topic payload ++ client_release (m_qos msg) id' ∧
    session (client s') = session (used_id msg (client s)) ∧ ready (client s').
Proof.
  intros Hc Hconn Hto Hnext Hq Hmid Hid' Hpay Hlen Htopic msg' body Hb Hfit Hin.
  assert (leads (MQTTPublish fuel junk junk_ack topic msg) s (λ r c i o, r = (SUCCESS, msg') ∧
    ready c ∧ session c = session (used_id msg (client s)) ∧ i = rest ∧
    o = outgoing (world s) ++ publish_packet 0 (m_qos msg) (m_retained msg) (m_id msg') topic payload ++
        client_release (m_qos msg) id')) as (a & s' & E & -> & H & ?); [|exists s'; tauto].
  unfold MQTTPublish. apply leads_field. rewrite (proj2 (Z.eqb_neq _ _) Hconn).
  eapply (leads_bind _ _ _ _ (λ r c i o, r = (SUCCESS, msg') ∧
    ready c ∧ session c = session (used_id msg (client s)) ∧ i = rest ∧
    o = outgoing (world s) ++ publish_packet 0 (m_qos msg) (m_retained msg) (m_id msg') topic payload ++
        client_release (m_qos msg) id')); [|intros [rc m] s1 ([= -> ->] & H1); by apply leads_ret].
  apply leads_field. eapply leads_bind; [by apply leads_countdown_ms|].
  intros t s1 (Ht & Hc1 & Hi1 & Ho1).
  eapply leads_bind; [apply number_leads; [done|by rewrite Hc1]|].
  intros m s2 (-> & Hc2 & Hi2 & Ho2). rewrite Hc1. fold msg'. rewrite Hc1 in Hc2.
  assert (m_qos msg' = m_qos msg ∧ m_retained msg' = m_retained msg ∧ m_payload msg' = m_payload msg ∧
    m_payloadlen msg' = m_payloadlen msg ∧ is_u16 (m_id msg')) as (Eq & Er & Ep & El & Eid).
  { unfold msg', numbered. destruct (0 <? m_qos msg); [|done]. split_and!; try done. cbn. unfold is_u16. zdiv. }
  assert (ready (client s2) ∧ buf (client s2) = buf (client s) ∧ buf_size (client s2) = buf_size (client s))
    as (Hr2 & Hb2 & Hz2).
  { rewrite Hc2. unfold used_id. destruct (0 <? _); [|done]. split; [|done]. destruct Hc. by constructor. }
  rewrite Eq, Er, Ep, El, Hpay, Hlen. cbn [default].
  assert (zlen body = zlen (publish_body (m_qos msg) (m_id msg') topic payload)) as Ebody by done.
  destruct (MQTTSerialize_publish_region (buf (client s2)) (buf_size (client s2)) (m_qos msg) (m_retained msg)
    (m_id msg') (c_string topic) topic payload r) as [E Hpkt];
    [by constructor|done|done|by rewrite Hz2|by rewrite (r_buf _ Hr2)|].
  set (pkt := publish_packet 0 _ _ _ _ _) in *.
  eapply leads_bind; [apply (write_leads _ pkt); [done|done|lia]|].
  intros n s3 ((-> & Hr3 & Hs3 & Eb3 & Hi3 & Ho3) & Hb3). rewrite app_nil_r in Ho3.
  destruct (Z.leb_spec (zlen pkt) 0); [lia|].
  eapply leads_bind; [apply send_leads; [done|done|lia|done]|].
  intros [rc t4] s4 ((Hrc & Ht4) & Hr4 & Hs4 & Eb4 & Hi4 & Ho4). cbn in Hrc, Ht4. subst rc.
  cbn [Z.eqb SUCCESS negb].
  assert (session (client s4) = session (used_id msg (client s))) as Hsess by congruence.
  assert (incoming (world s4) = broker_answer (m_qos msg) id' ++ rest) as Hin4 by congruence.
  assert (outgoing (world s4) = outgoing (world s) ++ pkt) as Hout4 by congruence.
  eapply (leads_bind _ _ _ _ (λ r c i o, r = SUCCESS ∧ ready c ∧ session c = session (client s4) ∧ i = rest ∧
    o = outgoing (world s4) ++ client_release (m_qos msg) id')).
  - by apply exchange_leads.
  - intros rc s5 (-> & Hr5 & Hs5 & Hi5 & Ho5). apply leads_ret. split; [done|]. split; [done|].
    split; [congruence|]. split; [done|]. rewrite Ho5, Hout4. by rewrite app_assoc.
Qed.

(** C8: on a connection in order, [MQTTPublish] sends exactly the PUBLISH packet of the topic and the
    payload, with a fresh identifier when its QoS is 1 or 2; it takes the broker's answers from the
    connection (a PUBACK, or a PUBREC which it answers with a PUBREL and then a PUBCOMP) and succeeds.
    The identifier [id'] of the answers may be another one: the client does not compare it. *)
Theorem MQTTPublish_delivers topic msg payload r id' rest s :
  ready (client s) → isconnected (client s) ≠ 0 → 0 < command_timeout_ms (client s) < 2147483648 →
  1 <= next_packetid (client s) <= MAX_PACKET_ID → 0 <= m_qos msg < 3 → is_u16 (m_id msg) → is_u16 id' →
  m_payload msg = Some (payload ++ r) → m_payloadlen msg = zlen payload → zlen topic < 65536 →
  let msg' := numbered msg (client s) in
  let body := publish_body (m_qos msg) (m_id msg') topic payload in
  zlen body < 268435456 → MQTTPacket_len (zlen body) <= buf_size (client s) →
  incoming (world s) = broker_answer (m_qos msg) id' ++ rest →
  ∃ s', MQTTPublish fuel junk junk_ack topic msg s = Ok ((SUCCESS, msg'), s') ∧ incoming (world s') = rest ∧
    outgoing (world s') = outgoing (world s) ++
      publish_packet 0 (m_qos msg) (m_retained msg) (m_id msg') topic payload ++ client_release (m_qos msg) id' ∧
    session (client s') = session (used_id msg (client s)) ∧ ready (client s').
Proof. apply publish_exchange. Qed.

(** [MQTTPublish] of a message that does not fit the send buffer sends nothing and fails, and the
    client gives up the session with the broker: the connection has to be made again. *)
Theorem publish_too_long topic msg payload r s :
  isconnected (client s) ≠ 0 → 1 <= next_packetid (client s) <= MAX_PACKET_ID → 0 <= m_qos msg < 3 →
  m_payload msg = Some (payload ++ r) → m_payloadlen msg = zlen payload →
  zlen topic < 65536 →
  buf_size (client s) < MQTTPacket_len (zlen (publish_body (m_qos msg) (m_id msg) topic payload)) →
  ∃ s', MQTTPublish fuel junk junk_ack topic msg s = Ok ((FAILURE, numbered msg (client s)), s') ∧
    isconnected (client s') = 0 ∧ buf (client s') = buf (client s) ∧
    incoming (world s') = incoming (world s) ∧ outgoing (world s') = outgoing (world s).
Proof.
  intros Hconn Hnext Hq Hpay Hlen Htopic Hlong.
  assert (leads (MQTTPublish fuel junk junk_ack topic msg) s (λ r c i o,
    r = (FAILURE, numbered msg (client s)) ∧ isconnected c = 0 ∧ buf c = buf (client s) ∧
    i = incoming (world s) ∧ o = outgoing (world s))) as (a & s' & E & -> & H); [|by exists s'].
  unfold MQTTPublish. apply leads_field. rewrite (proj2 (Z.eqb_neq _ _) Hconn).
  eapply (leads_bind _ _ _ _ (λ r c i o, r = (FAILURE, numbered msg (client s)) ∧
    c = used_id msg (client s) ∧ i = incoming (world s) ∧ o = outgoing (world s))).
  - apply leads_field. eapply leads_bind; [apply leads_countdown_any|]. intros t s1 (Hc1 & Hi1 & Ho1).
    eapply leads_bind; [apply number_leads; [done|by rewrite Hc1]|].
    intros m s2 (-> & Hc2 & Hi2 & Ho2). rewrite Hc1 in *.
    eapply (leads_bind _ _ _ _ (λ n c i o, n = MQTTPACKET_BUFFER_TOO_SHORT ∧ c = client s2 ∧
      i = incoming (world s2) ∧ o = outgoing (world s2))).
    { eexists _, _. unfold serialize_to_buf, MQTTSerialize_publish. split.
      - replace (buf_size (client s2)) with (buf_size (client s)) by (rewrite Hc2; unfold used_id; by case_match).
        replace (m_qos (numbered msg (client s))) with (m_qos msg) by (unfold numbered; by case_match).
        replace (m_payloadlen (numbered msg (client s))) with (zlen payload)
          by (unfold numbered; by case_match).
        rewrite (publish_length _ topic payload _ (m_id msg)) by by constructor.
        destruct (Z.ltb_spec (buf_size (client s))
          (MQTTPacket_len (zlen (publish_body (m_qos msg) (m_id msg) topic payload)))); [|lia].
        reflexivity.
      - cbn [client world]. split; [done|]. split; [by destruct (client s2)|done]. }
    intros n s3 (-> & Hc3 & Hi3 & Ho3). cbn [Z.leb Z.compare MQTTPACKET_BUFFER_TOO_SHORT].
    apply leads_ret. split_and!; congruence.
  - intros [rc m] s1 ([= -> ->] & Hc1 & Hi1 & Ho1). unfold close_on_failure. cbn [Z.eqb FAILURE Pos.eqb].
    apply leads_upd, leads_ret. cbn [client world]. split; [done|]. rewrite Hc1.
    assert (isconnected (MQTTCloseSession (used_id msg (client s))) = 0 ∧
      buf (MQTTCloseSession (used_id msg (client s))) = buf (client s)) as [-> ->].
    { unfold MQTTCloseSession, used_id. by repeat case_match. }
    done.
Qed.

(** ** Connecting *)

Lemma cycle_connack flags rc rest t s : ready (client s) → fresh t →
  incoming (world s) = connack_packet flags rc ++ rest →
  leads (cycle fuel junk junk_ack t) s (λ r c i o, r.1 = CONNACK ∧ fresh r.2 ∧
    has_packet (connack_packet flags rc) s c ∧ i = rest ∧ o = outgoing (world s) ++ []).
Proof.
  intros Hc Ht Hin.
  apply (cycle_leads (header_byte (mkHeader CONNACK 0 0 0)) [flags; rc] rest [] t s Hc Ht ltac:(cbn; lia));
    [pose proof (r_readbuf_min _ Hc); change (4 <= readbuf_size (client s)); lia|exact Hin|].
  intros t1 s1 Ht1 (Hr1 & _ & _). apply leads_ret. split; [done|]. rewrite app_nil_r. done.
Qed.

(** A client that can connect: its buffers are as it says, and it is not connected yet. *)
Record connectable (c : MQTTClient (W := W)) : Prop := {
  cc_buf : buf_size c = zlen (buf c);
  cc_buf_min : 4 <= buf_size c;
  cc_readbuf : readbuf_size c = zlen (readbuf c);
  cc_readbuf_min : 5 <= readbuf_size c < 4294967296;
  cc_timeout : 0 < command_timeout_ms c < 2147483648;
  cc_idle : isconnected c = 0;
}.

(** The client between its CONNECT and the CONNACK, and after it. *)
Definition connecting (o : MQTTPacket_connectData) (c : MQTTClient (W := W)) : MQTTClient (W := W) :=
  set_c_cleansession (cleansession o) (set_c_keepAliveInterval (keepAliveInterval o) c).

Definition connected (rc : Z) (c : MQTTClient (W := W)) : MQTTClient (W := W) :=
  if rc =? SUCCESS then set_ping_outstanding 0 (set_isconnected 1 c) else c.

Lemma connect_write_leads o sp s :
  connect_ok o sp → sp_version sp = 3 ∨ sp_version sp = 4 → connectable (client s) →
  zlen (connect_body sp) < 268435456 → MQTTPacket_len (zlen (connect_body sp)) <= buf_size (client s) →
  let pkt := connect_packet sp in
  0 < zlen pkt <= buf_size (client s) ∧
  leads (serialize_to_buf (λ b n, MQTTSerialize_connect b n o)) s (λ n c i out, n = zlen pkt ∧
    c = set_buf (pkt ++ drop (length pkt) (buf (client s))) (client s) ∧
    i = incoming (world s) ∧ out = outgoing (world s)).
Proof.
  intros Hok Hv Hc Hb Hfit pkt. pose proof (cc_buf _ Hc) as Hz.
  destruct (MQTTSerialize_connect_spec (buf (client s)) (buf_size (client s)) o sp Hok Hv Hb
    ltac:(by rewrite Hz)) as [E Hp].
  destruct (Z.ltb_spec (buf_size (client s)) (MQTTPacket_len (zlen (connect_body sp)))) as [|_]; [lia|].
  fold pkt in E, Hp. split; [split; [unfold pkt, connect_packet, packet, header_bytes; lens|lia]|].
  eexists _, _. unfold serialize_to_buf. rewrite E, bind_ok. done.
Qed.

Lemma connect_send_leads o pkt t s s1 :
  is_u16 (keepAliveInterval o) → 0 < keepAliveInterval o → connectable (client s) →
  c_keepAliveInterval (client s) = keepAliveInterval o → fresh (last_received (client s)) → fresh t →
  0 < zlen pkt <= buf_size (client s) →
  client s1 = set_buf (pkt ++ drop (length pkt) (buf (client s))) (client s) →
  leads (sendPacket fuel (zlen pkt) t) s1 (λ r c i out, r.1 = SUCCESS ∧ fresh r.2 ∧ ready c ∧
    session c = session (client s) ∧ i = incoming (world s1) ∧ out = outgoing (world s1) ++ pkt).
Proof.
  intros Hu Hk Hc Hka Hrec Ht Hpkt Hc1. unfold is_u16 in Hu. rewrite (cc_buf _ Hc) in Hpkt.
  eapply leads_conseq; [apply (sendPacket_leads (zlen pkt) t s1)|].
  - rewrite Hc1. cbn. lia.
  - done.
  - rewrite Hc1. cbn [buf set_buf]. lens.
  - intros [rc t'] c i out (Hrc & Ht' & (tm & -> & Htm) & -> & ->). split; [done|]. split; [done|].
    rewrite Hc1. split; [|split; [done|split; [done|]]].
    + pose proof (cc_buf _ Hc). constructor; cbn [set_last_sent set_buf buf_size buf readbuf_size readbuf
        c_keepAliveInterval last_sent last_received]; try apply Hc; try done; [lens|lia].
    + cbn [buf set_buf]. by rewrite take_app_length' by lia.
Qed.

Lemma waitfor_connack flags rc rest t s : ready (client s) → fresh t →
  incoming (world s) = connack_packet flags rc ++ rest →
  leads (waitfor fuel junk junk_ack CONNACK t) s (λ r c i o, r.1 = CONNACK ∧
    has_packet (connack_packet flags rc) s c ∧ i = rest ∧ o = outgoing (world s)).
Proof.
  intros Hc Ht Hin. unfold waitfor.
  assert (∃ k, fuel = S k) as [k Ek] by (exists (fuel - 1)%nat; lia). rewrite Ek at 2.
  apply (waitfor_turn _ _ CONNACK); [done|done|]. intros t1 s1 Ht1 Hc1 Hi1 Ho1.
  eapply leads_conseq; [eapply cycle_connack; [by rewrite Hc1|done|by rewrite Hi1]|].
  intros [r t2] c i o (Hrc & Ht2 & (Hr & Hs & Hb) & Hi & Ho). split; [done|].
  intros s2 _ _ _. cbn. split; [done|]. split; [split; [done|]; split; [congruence|done]|].
  split; [done|]. by rewrite Ho, Ho1, app_nil_r.
Qed.

(** Sending the CONNECT and reading the CONNACK. *)
Lemma exchange_connect o pkt flags rc rest data t s s1 :
  is_u16 (keepAliveInterval o) → 0 < keepAliveInterval o → connectable (client s) →
  c_keepAliveInterval (client s) = keepAliveInterval o → fresh (last_received (client s)) → fresh t →
  0 < zlen pkt <= buf_size (client s) →
  client s1 = set_buf (pkt ++ drop (length pkt) (buf (client s))) (client s) →
  incoming (world s1) = connack_packet flags rc ++ rest →
  leads ('(rc, connect_timer) ← sendPacket fuel (zlen pkt) t;
         if negb (rc =? SUCCESS) then mret (rc, data)
         else
           '(r, _) ← waitfor fuel junk junk_ack CONNACK connect_timer;
           if r =? CONNACK then
             '(ok, data) ← deserialize (MQTTDeserialize_connack (mkConnack 0 0));
             mret (if ok =? 1 then connack_rc data else FAILURE, data)
           else mret (FAILURE, data)) s1
    (λ r c i out, r.1 = rc ∧ ready c ∧ session c = session (client s) ∧ i = rest ∧
       out = outgoing (world s1) ++ pkt).
Proof.
  intros Hu Hk Hc Hka Hrec Ht Hpkt Hc1 Hin.
  eapply leads_bind; [by apply (connect_send_leads o pkt t s s1)|].
  intros [r t2] s2 (Hr & Ht2 & Hr2 & Hs2 & Hi2 & Ho2). cbn in Hr, Ht2. subst r. cbn [Z.eqb SUCCESS negb].
  eapply leads_bind; [apply (waitfor_connack flags rc rest); [done|done|by rewrite Hi2]|].
  intros [r t3] s3 (Hr & (Hr3 & Hs3 & r3 & Er3) & Hi3 & Ho3). cbn in Hr. subst r. cbn [Z.eqb CONNACK Pos.eqb].
  eapply (leads_bind _ _ _ _ (λ p c i o, p = (1, mkConnack (flags mod 2) rc) ∧ c = client s3 ∧ i = rest ∧
    o = outgoing (world s3))).
  { eapply leads_Ok; [unfold deserialize; rewrite Er3, connack_read; reflexivity|done]. }
  intros [ok d] s4 ([= -> ->] & Hc4 & Hi4 & Ho4). apply leads_ret. cbn [fst connack_rc Z.eqb Pos.eqb].
  split_and!; [done|by rewrite Hc4|congruence|done|congruence].
Qed.

Lemma session_connected rc c c' : session c = session c' →
  session (connected rc c) = session (connected rc c').
Proof. intros [= ? ? ? ? ? ? ? ? ? ?]. unfold connected, session. case_match; cbn; congruence. Qed.

(** C32: [MQTTConnect] of a client that is not connected sends exactly the CONNECT packet of its
    options, waits for the broker's CONNACK and gives the return code in it; the client is connected
    afterwards exactly when that code is 0. *)
Theorem MQTTConnect_handshake o sp data flags rc rest s :
  connect_ok o sp → sp_version sp = 3 ∨ sp_version sp = 4 → 0 < keepAliveInterval o → connectable (client s) →
  zlen (connect_body sp) < 268435456 → MQTTPacket_len (zlen (connect_body sp)) <= buf_size (client s) →
  incoming (world s) = connack_packet flags rc ++ rest →
  ∃ s', MQTTConnect fuel junk junk_ack (Some o) data s = Ok (rc, s') ∧ incoming (world s') = rest ∧
    outgoing (world s') = outgoing (world s) ++ connect_packet sp ∧ ready (client s') ∧
    session (client s') = session (connected rc (connecting o (client s))) ∧
    (isconnected (client s') ≠ 0 ↔ rc = 0).
Proof.
  intros Hok Hv Hk Hc Hb Hfit Hin.
  assert (leads (MQTTConnect fuel junk junk_ack (Some o) data) s (λ r c i out, r = rc ∧ i = rest ∧
    out = outgoing (world s) ++ connect_packet sp ∧ ready c ∧
    session c = session (connected rc (connecting o (client s))))) as (a & s' & E & -> & Hi & Ho & Hr & Hs).
  2: { exists s'. split_and!; try done. pose proof (f_equal (λ x, x.1.1.1.2) Hs) as Hconn. cbn in Hconn.
       rewrite Hconn. unfold connected, SUCCESS. destruct (Z.eqb_spec rc 0); cbn; [done|].
       rewrite (cc_idle _ Hc). done. }
  unfold MQTTConnect.
  eapply (leads_bind _ _ _ _ (λ r c i out, r.1 = rc ∧ i = rest ∧ out = outgoing (world s) ++ connect_packet sp ∧
    ready c ∧ session c = session (connected rc (connecting o (client s)))));
    [|intros [r d] s1 (Hr & H); cbn in Hr; subst r; by apply leads_ret].
  unfold MQTTConnectWithResults. apply leads_field. rewrite (cc_idle _ Hc). cbn [Z.eqb negb].
  apply leads_field. eapply leads_bind; [by apply leads_countdown_ms, cc_timeout|].
  intros t s1 (Ht & Hc1 & Hi1 & Ho1). cbn zeta. cbn [default from_option id]. apply leads_upd, leads_upd.
  pose proof (co_keepalive_u16 _ _ Hok) as Hu. rewrite <- (co_keepalive _ _ Hok) in Hu.
  eapply leads_bind; [apply leads_countdown; unfold is_u16 in Hu; lia|].
  intros tm s2 (Htm & Hc2 & Hi2 & Ho2). apply leads_upd. cbn [client world] in *.
  set (s3 := mkSt (set_last_received tm (client s2)) (world s2)).
  assert (client s3 = set_last_received tm (connecting o (client s))) as Hc3 by (cbn; by rewrite Hc2, Hc1).
  assert (connectable (client s3)) as Hcc by (rewrite Hc3; destruct Hc; by constructor).
  assert (buf_size (client s3) = buf_size (client s)) as Hz by by rewrite Hc3.
  assert (session (client s3) = session (connecting o (client s))) as Hs3 by by rewrite Hc3.
  destruct (connect_write_leads o sp s3 Hok Hv Hcc Hb ltac:(by rewrite Hz)) as [Hpkt Hw].
  eapply leads_bind; [exact Hw|]. intros n s4 (-> & Hc4 & Hi4 & Ho4).
  destruct (Z.leb_spec (zlen (connect_packet sp)) 0); [lia|].
  assert (incoming (world s3) = incoming (world s) ∧ outgoing (world s3) = outgoing (world s)) as [Hi3 Ho3].
  { cbn. split; congruence. }
  eapply leads_bind.
  { apply (exchange_connect o (connect_packet sp) flags rc rest data t s3 s4); try done;
      [by rewrite Hc3|by rewrite Hi4, Hi3]. }
  intros [r d] s5 (Hr & Hr5 & Hs5 & Hi5 & Ho5). cbn in Hr. subst r.
  assert (outgoing (world s5) = outgoing (world s) ++ connect_packet sp) as Hout by congruence.
  assert (session (client s5) = session (connecting o (client s))) as Hsess by congruence.
  eapply (leads_bind _ _ _ _ (λ _ c i out, i = rest ∧ out = outgoing (world s5) ∧ ready c ∧
    session c = session (connected rc (client s5)))).
  - unfold connected. destruct (rc =? SUCCESS); [|by apply leads_ret].
    apply leads_upd. eexists _, _. split; [reflexivity|]. cbn [client world]. split_and!; [done|done| |done].
    destruct Hr5. by constructor.
  - intros ? s6 (Hi6 & Ho6 & Hr6 & Hs6). apply leads_ret. split_and!; [done|done|congruence|done|].
    rewrite Hs6. by apply session_connected.
Qed.
End Session.

(** ** The theorems at work, on the example platform *)

#[export] Existing Instance still_clock | 0.

Definition still_network : Network wire := FreeRTOS_Network 3 1.
#[export] Existing Instance still_network.

#[export] Instance still_prompt_network : PromptNetwork wire.
Proof. apply (FreeRTOS_PromptNetwork 3 0). constructor. Qed.

(** The client of src/MQTT.cpp before [MQTTConnect], and connected. *)
Definition still_timer (ms : Z) : Timer (clock := still_clock) := mkTimer (clock := still_clock) ms 0.

Definition fresh_client : MQTTClient (W := wire) (clock := still_clock) :=
  mkClient 1 3000 80 80 (replicate 80 0) (replicate 80 0) 0 0 0 0 (replicate 5 (mkHandler None None)) None
    (still_timer 0) (still_timer 0).

Definition live_client : MQTTClient (W := wire) (clock := still_clock) :=
  mkClient 1 3000 80 80 (replicate 80 0) (replicate 80 0) 60 0 1 1 (replicate 5 (mkHandler None None)) None
    (still_timer 60000) (still_timer 60000).

Lemma live_ready : ready live_client.
Proof. by constructor. Qed.

Lemma live_quiet : quiet_client live_client.
Proof. split; [|done]. cbn. repeat (apply Forall_cons; split; [done|]). apply Forall_nil_2. Qed.

Lemma cycle_answers_publish_witness :
  ready live_client ∧
  ∃ t' s', cycle 2 demo_junk demo_junk_ack (still_timer 3000)
      (mkSt live_client (mkWire 0 (publish_packet 0 1 0 77 (chars "a/b") (chars "on") ++ [1; 2]) [])) =
      Ok ((PUBLISH, t'), s') ∧ incoming (world s') = [1; 2] ∧
    outgoing (world s') = [] ++ publish_answer 1 77 ∧ session (client s') = session live_client ∧
    ready (client s').
Proof.
  split; [exact live_ready|].
  apply (cycle_answers_publish 2 demo_junk demo_junk_ack ltac:(lia) 0 1 0 77 (chars "a/b") (chars "on") [1; 2]
    (still_timer 3000) (mkSt live_client (mkWire 0 (publish_packet 0 1 0 77 (chars "a/b") (chars "on") ++ [1; 2]) [])));
    [lia|lia|lia|unfold is_u16; lia|done|done|exact live_quiet|exact live_ready|done|done|done].
Defined.

Lemma cycle_answers_release_witness :
  is_u16 77 ∧
  ∃ t' s', cycle 2 demo_junk demo_junk_ack (still_timer 3000)
      (mkSt live_client (mkWire 0 (ack_packet PUBREL 0 77 ++ []) [])) =
      Ok ((PUBREL, t'), s') ∧ incoming (world s') = [] ∧
    outgoing (world s') = [] ++ ack_packet (if PUBREL =? PUBREC then PUBREL else PUBCOMP) 0 77 ∧
    session (client s') = session live_client ∧ ready (client s').
Proof.
  split; [unfold is_u16; lia|].
  apply (cycle_answers_release 2 demo_junk demo_junk_ack ltac:(lia) PUBREL 0 77 [] (still_timer 3000)
    (mkSt live_client (mkWire 0 (ack_packet PUBREL 0 77 ++ []) [])));
    [by right|lia|unfold is_u16; lia|exact live_ready|done|done].
Defined.

(** A reading of a sensor, as [mqtt_task] publishes it; the broker acknowledges it with a wrong
    identifier. *)
Definition demo_message (qos : Z) (payload : list Z) : MQTTMessage :=
  mkMessage qos 0 0 0 (Some (payload ++ [0])) (zlen payload).

Lemma MQTTPublish_delivers_witness :
  ready live_client ∧
  ∃ s', MQTTPublish 2 demo_junk demo_junk_ack (chars "radprot/1") (demo_message 2 (chars "8.25"))
      (mkSt live_client (mkWire 0 (broker_answer 2 999 ++ []) []))
      = Ok ((SUCCESS, numbered (demo_message 2 (chars "8.25")) live_client), s') ∧ incoming (world s') = [] ∧
    outgoing (world s') = [] ++ publish_packet 0 2 0 2 (chars "radprot/1") (chars "8.25") ++ ack_packet PUBREL 0 999 ∧
    session (client s') = session (used_id (demo_message 2 (chars "8.25")) live_client) ∧ ready (client s').
Proof.
  split; [exact live_ready|].
  apply (MQTTPublish_delivers 2 demo_junk demo_junk_ack ltac:(lia) (chars "radprot/1")
    (demo_message 2 (chars "8.25")) (chars "8.25") [0] 999 []
    (mkSt live_client (mkWire 0 (broker_answer 2 999 ++ []) [])));
    [exact live_ready|done|done|done|done|unfold is_u16; cbn; lia|unfold is_u16; lia|done..].
Defined.

(** A text field of 70 characters on a topic of 9: longer than the 80 bytes of the send buffer. *)
Lemma publish_too_long_witness :
  zlen (chars "radprot/1") < 65536 ∧
  ∃ s', MQTTPublish 2 demo_junk demo_junk_ack (chars "radprot/1") (demo_message 1 (replicate 70 48))
      (mkSt live_client (mkWire 0 [] [])) =
      Ok ((FAILURE, numbered (demo_message 1 (replicate 70 48)) live_client), s') ∧
    isconnected (client s') = 0 ∧ buf (client s') = buf live_client ∧
    incoming (world s') = [] ∧ outgoing (world s') = [].
Proof.
  split; [done|].
  apply (publish_too_long 2 demo_junk demo_junk_ack ltac:(lia) (chars "radprot/1") (demo_message 1 (replicate 70 48))
    (replicate 70 48) [0] (mkSt live_client (mkWire 0 [] []))); done.
Defined.

Lemma MQTTConnect_handshake_witness :
  connect_ok demo_options demo_spec ∧
  ∃ s', MQTTConnect 2 demo_junk demo_junk_ack (Some demo_options) (mkConnack 0 0)
      (mkSt fresh_client (mkWire 0 (connack_packet 0 5 ++ []) [])) = Ok (5, s') ∧ incoming (world s') = [] ∧
    outgoing (world s') = [] ++ connect_packet demo_spec ∧ ready (client s') ∧
    session (client s') = session (connected 5 (connecting demo_options fresh_client)) ∧
    (isconnected (client s') ≠ 0 ↔ 5 = 0).
Proof.
  split; [exact demo_options_ok|].
  apply (MQTTConnect_handshake 2 demo_junk demo_junk_ack ltac:(lia) demo_options demo_spec (mkConnack 0 0) 0 5 []
    (mkSt fresh_client (mkWire 0 (connack_packet 0 5 ++ []) [])));
    [exact demo_options_ok|by left|done|by constructor|done|done|done].
Defined.
