(* ===== verification/MqttTask.v ===== *)
(** The MQTT task of the application (src/MQTT.cpp): the queue of messages to publish
    ([sendToMqttQueue]), the connection to the broker ([NetworkConnectWithTimeout] of
    MQTTFreeRTOS.cpp) and the loop of [mqtt_task], a state machine of three steps that runs
    interleaved with the turns of [MQTTRun].  The FreeRTOS queue, the resolver and the lwIP calls are
    not part of the repository. *)
From S2P Require Import Prelude CString MqttPacket MqttSerialize MqttDeserialize StateMonad Network.
From S2P Require Import MqttClient.

(** ** The queue *)

Definition MQTT_MAX_TOPIC_LENGTH : Z := 128.
Definition MQTT_MAX_PAYLOAD_LENGTH : Z := 256.
Definition pdPASS : Z := 1.

Record MqttPublishMessage := mkPublish {
  topic : list Z; payload : list Z; payload_length : Z; qos : Z; retain : bool }.

(** [sendToMqttQueue]: [mqttQueue] is whether the queue exists, [xQueueSend] the FreeRTOS call and
    [msg] the uninitialised local variable. *)
Definition sendToMqttQueue {Q : Type} (mqttQueue : bool) (xQueueSend : MqttPublishMessage → Q → Z * Q)
    (msg : MqttPublishMessage) (topic_arg payload_arg : list Z) (payload_length qos : Z) (retain : bool) (q : Q)
  : outcome (Z * Q) :=
  if mqttQueue then
    '(t, _) ← snprintf (topic msg) MQTT_MAX_TOPIC_LENGTH topic_arg;
    '(p, _) ← snprintf (payload msg) MQTT_MAX_PAYLOAD_LENGTH payload_arg;
    Ok (xQueueSend (mkPublish t p payload_length qos retain) q)
  else Ok (pdPASS, q).

(** Whatever C strings it is given, [sendToMqttQueue] stays inside its message and queues strings
    that the publishing task reads back: the first 127 characters of the topic and the first 255 of the
    payload. *)
Theorem queue_carries_strings {Q : Type} (send : MqttPublishMessage → Q → Z * Q) msg t p n qs r q :
  no_nul t → no_nul p → zlen (topic msg) = MQTT_MAX_TOPIC_LENGTH →
  zlen (payload msg) = MQTT_MAX_PAYLOAD_LENGTH →
  ∃ m, sendToMqttQueue true send msg t p n qs r q = Ok (send m q) ∧
    c_str (topic m) = Ok (take 127 t) ∧ c_str (payload m) = Ok (take 255 p) ∧
    zlen (topic m) = 128 ∧ zlen (payload m) = 256 ∧ qos m = qs ∧ retain m = r.
Proof.
  unfold MQTT_MAX_TOPIC_LENGTH, MQTT_MAX_PAYLOAD_LENGTH. intros Ht Hp Hlt Hlp.
  unfold sendToMqttQueue, MQTT_MAX_TOPIC_LENGTH, MQTT_MAX_PAYLOAD_LENGTH.
  destruct (snprintf_truncates (topic msg) 128 t) as (bt & -> & Et & Elt); [lia|lia|done|].
  rewrite bind_ok. destruct (snprintf_truncates (payload msg) 256 p) as (bp & -> & Ep & Elp); [lia|lia|done|].
  rewrite bind_ok. eexists. split; [reflexivity|]. cbn. split_and!; try done; congruence.
Qed.

Lemma queue_carries_strings_witness :
  no_nul (chars "radprot/1") ∧
  ∃ m, sendToMqttQueue true (λ m q, (1, q ++ [m])) (mkPublish (replicate 128 7) (replicate 256 7) 0 0 false)
      (chars "radprot/1") (replicate 300 48) 300 1 false [] = Ok (1, [] ++ [m]) ∧
    c_str (topic m) = Ok (chars "radprot/1") ∧ c_str (payload m) = Ok (take 255 (replicate 300 48)) ∧
    zlen (topic m) = 128 ∧ zlen (payload m) = 256 ∧ qos m = 1 ∧ retain m = false.
Proof.
  assert (no_nul (chars "radprot/1")) as H by (unfold no_nul; apply (bool_decide_unpack _); vm_compute; exact I).
  split; [exact H|].
  apply (queue_carries_strings (λ m q, (1, q ++ [m])) (mkPublish (replicate 128 7) (replicate 256 7) 0 0 false)
    (chars "radprot/1") (replicate 300 48) 300 1 false []);
    [exact H|unfold no_nul; apply (bool_decide_unpack _); vm_compute; exact I|done|done].
Defined.

(** ** Connecting *)

(** What [NetworkConnectWithTimeout] calls: [dns_gethostbyname] may put the address into [server] at
    once, and while [vTaskDelay] waits lwIP may call [dns_found_cb], with the address or, when the name
    cannot be resolved, with a null pointer. *)
Class Dialer (W : Type) := {
  socket : W → Z * W;
  ipaddr_aton : list Z → option Z;
  dns_gethostbyname : list Z → W → option Z * W;
  vTaskDelay : Z → W → option (option Z) * W;
  lwip_fcntl_getfl : Z → W → Z * W;
  lwip_fcntl_setfl : Z → Z → W → W;
  lwip_connect : Z → Z → Z → W → Z * Z * W;  (* result and errno *)
  select : Z → Z → W → Z * W;
  getsockopt_error : Z → W → Z * W;
  lwip_close : Z → W → W;
  EINPROGRESS : Z;
  O_NONBLOCK : Z;
}.

(** The globals [dnsFound] and [server], and [n->my_socket]. *)
Record dial := mkDial { dnsFound : bool; server : Z; my_socket : Z }.

Section Dial.
Context {W : Type} {dialer : Dialer W}.

(** [server = *ipaddr] is done whether [ipaddr] is null or not. *)
Definition dns_found_cb (ipaddr : option Z) (d : dial) : outcome dial :=
  match ipaddr with
  | Some ip => Ok (mkDial true ip (my_socket d))
  | None => Ub
  end.

Fixpoint wait_dns (fuel : nat) (d : dial) (w : W) : outcome (dial * W) :=
  if dnsFound d then Ok (d, w)
  else
    match fuel with
    | O => OutOfFuel
    | S fuel =>
        let '(call, w) := vTaskDelay 1000 w in
        d ← match call with Some ipaddr => dns_found_cb ipaddr d | None => Ok d end;
        wait_dns fuel d w
    end.

Definition resolve (fuel : nat) (addr : list Z) (d : dial) (w : W) : outcome (dial * W) :=
  match ipaddr_aton addr with
  | Some ip => Ok (mkDial (dnsFound d) ip (my_socket d), w)
  | None =>
      let '(ip, w) := dns_gethostbyname addr w in
      wait_dns fuel (mkDial (dnsFound d) (default (server d) ip) (my_socket d)) w
  end.

(** [NetworkInit]; the globals start as zero. *)
Definition NetworkInit : dial := mkDial false 0 0.

(** [FreeRTOS_disconnect] *)
Definition FreeRTOS_disconnect (d : dial) (w : W) : W := lwip_close (my_socket d) w.

(** The result, the globals and the state. *)
Definition NetworkConnect (fuel : nat) (addr : list Z) (port : Z) (d : dial) (w : W) : outcome (Z * dial * W) :=
  let '(s, w) := socket w in
  let d := mkDial (dnsFound d) (server d) s in
  if s <? 0 then Ok (-1, d, w)
  else
    '(d, w) ← resolve fuel addr d w;
    let '(rc, _, w) := lwip_connect s (server d) port w in
    if rc <? 0 then Ok (-1, d, lwip_close s w) else Ok (0, d, w).

Definition NetworkConnectWithTimeout (fuel : nat) (addr : list Z) (port timeout_ms : Z) (d : dial) (w : W)
  : outcome (Z * dial * W) :=
  let '(s, w) := socket w in
  let d := mkDial (dnsFound d) (server d) s in
  if s <? 0 then Ok (-1, d, w)
  else
    '(d, w) ← resolve fuel addr d w;
    let '(flags, w) := lwip_fcntl_getfl s w in
    let w := lwip_fcntl_setfl s (Z.lor flags O_NONBLOCK) w in
    let '(rc, errno, w) := lwip_connect s (server d) port w in
    if (rc <? 0) && (errno =? EINPROGRESS) then
      let '(rc, w) := select s timeout_ms w in
      if rc =? 0 then Ok (-1, d, lwip_close s w)
      else if 0 <? rc then
        let '(error, w) := getsockopt_error s w in
        if negb (error =? 0) then Ok (-1, d, lwip_close s w)
        else Ok (0, d, lwip_fcntl_setfl s flags w)
      else Ok (-1, d, lwip_close s w)
    else Ok (0, d, lwip_fcntl_setfl s flags w).

(** [dnsFound] is never cleared.  Once a name has been resolved, the next connection to a broker
    given by a name does not wait for the resolver: unless the answer is there at once, it goes where a
    connection to the numeric address of the broker before would go, whatever the new name stands
    for. *)
Theorem connects_to_stale_address fuel fuel' name old port timeout_ms d w :
  dnsFound d = true → ipaddr_aton name = None → ipaddr_aton old = Some (server d) →
  (∀ w, dns_gethostbyname name w = (None, w)) →
  NetworkConnectWithTimeout fuel name port timeout_ms d w =
    NetworkConnectWithTimeout fuel' old port timeout_ms d w.
Proof.
  intros Hd Hn Ho Hr. unfold NetworkConnectWithTimeout. destruct (socket w) as [s w1].
  destruct (s <? 0); [done|]. unfold resolve. cbn [dnsFound server my_socket]. rewrite Hn, Ho, Hr, Hd.
  cbn [default]. by destruct fuel.
Qed.

(** A connection that [lwip_connect] refuses for any other reason than being still in progress is
    reported as made, and its socket is not closed. *)
Theorem connect_failure_reported_as_success fuel addr port timeout_ms d w s w1 ip fl w2 rc errno w3 :
  socket w = (s, w1) → 0 <= s → ipaddr_aton addr = Some ip → lwip_fcntl_getfl s w1 = (fl, w2) →
  lwip_connect s ip port (lwip_fcntl_setfl s (Z.lor fl O_NONBLOCK) w2) = (rc, errno, w3) →
  rc < 0 → errno ≠ EINPROGRESS →
  NetworkConnectWithTimeout fuel addr port timeout_ms d w =
    Ok (0, mkDial (dnsFound d) ip s, lwip_fcntl_setfl s fl w3).
Proof.
  intros Hs H0 Ha Hf Hc Hrc He. unfold NetworkConnectWithTimeout, resolve. rewrite Hs.
  destruct (Z.ltb_spec s 0); [lia|]. cbn [dnsFound server my_socket]. rewrite Ha, bind_ok, Hf.
  cbn [server]. rewrite Hc, (proj2 (Z.eqb_neq _ _) He), andb_false_r. done.
Qed.

(** When the resolver reports that there is no such name, [dns_found_cb] reads through a null pointer. *)
Lemma unresolved_name_reads_null fuel name port timeout_ms d w s w1 ip w2 w3 :
  dnsFound d = false → socket w = (s, w1) → 0 <= s → ipaddr_aton name = None →
  dns_gethostbyname name w1 = (ip, w2) → vTaskDelay 1000 w2 = (Some None, w3) →
  NetworkConnectWithTimeout (S fuel) name port timeout_ms d w = Ub.
Proof.
  intros Hd Hs H0 Ha Hg Hv. unfold NetworkConnectWithTimeout, resolve. rewrite Hs.
  destruct (Z.ltb_spec s 0); [lia|]. cbn [dnsFound server my_socket]. rewrite Ha, Hg.
  cbn [wait_dns dnsFound]. by rewrite Hd, Hv.
Qed.

(** A connection that is not made in time: the result and the socket that was closed. *)
Lemma connect_timeout fuel addr port timeout_ms d w s w1 ip fl w2 rc w3 w4 :
  socket w = (s, w1) → 0 <= s → ipaddr_aton addr = Some ip → lwip_fcntl_getfl s w1 = (fl, w2) →
  lwip_connect s ip port (lwip_fcntl_setfl s (Z.lor fl O_NONBLOCK) w2) = (rc, EINPROGRESS, w3) →
  rc < 0 → select s timeout_ms w3 = (0, w4) →
  NetworkConnectWithTimeout fuel addr port timeout_ms d w = Ok (-1, mkDial (dnsFound d) ip s, lwip_close s w4).
Proof.
  intros Hs H0 Ha Hf Hc Hrc Hsel. unfold NetworkConnectWithTimeout, resolve. rewrite Hs.
  destruct (Z.ltb_spec s 0); [lia|]. cbn [dnsFound server my_socket]. rewrite Ha, bind_ok, Hf.
  cbn [server]. rewrite Hc, (proj2 (Z.ltb_lt _ _) Hrc), Z.eqb_refl. cbn [andb]. by rewrite Hsel.
Qed.
End Dial.

(** ** The task *)

(** The part of the settings the task reads. *)
Record mqtt_settings := mkSettings { broker : list Z; port : Z; cfg_username : list Z; cfg_password : list Z }.

(** Where the loop of [mqtt_task] is: before a connection, or in the inner loop. *)
Inductive phase := Dialing | Publishing.

Section Task.
Context {W : Type} {clock : Clock W} {dialer : Dialer W}.
Context (network : Z → Network W).
Context (fuel : nat) (junk : publish_out) (junk_ack : ack_out) (junk_msg : MQTTMessage).

(** The client, the connection, and the globals shared with the web interface. *)
Record task := mkTask {
  t_st : st (W := W); t_dial : dial; mqtt_connection_status : bool; mqtt_reconnect : bool }.

Definition set_status (b : bool) (x : task) : task := mkTask (t_st x) (t_dial x) b (mqtt_reconnect x).

(** [network.disconnect(&network)] *)
Definition close_socket (x : task) : task :=
  mkTask (mkSt (client (t_st x)) (FreeRTOS_disconnect (t_dial x) (world (t_st x)))) (t_dial x)
    (mqtt_connection_status x) (mqtt_reconnect x).

Definition connect_options (cfg : mqtt_settings) : MQTTPacket_connectData :=
  mkConnect 3 (c_string (chars "RadProt_IoT")) 60 1 0 MQTTPacket_willOptions_initializer
    (c_string (cfg_username cfg)) (c_string (cfg_password cfg)).

(** The outer loop up to the inner one, or round. *)
Definition dial_turn (cfg : mqtt_settings) (x : task) : outcome (phase * task) :=
  if bool_decide (broker cfg = []) then Ok (Dialing, close_socket x)
  else
    '(rc, d, w) ← NetworkConnectWithTimeout fuel (broker cfg) (port cfg) 1000 (t_dial x) (world (t_st x));
    let x := mkTask (mkSt (client (t_st x)) w) d (mqtt_connection_status x) (mqtt_reconnect x) in
    if rc =? 0 then
      '(rc, s) ← MQTTConnect (network := network (my_socket d)) fuel junk junk_ack
        (Some (connect_options cfg)) (mkConnack 0 0) (t_st x);
      let x := mkTask s d (mqtt_connection_status x) (mqtt_reconnect x) in
      if rc =? 0 then Ok (Publishing, set_status true x)
      else Ok (Dialing, close_socket (set_status false x))
    else Ok (Dialing, close_socket (set_status false x)).

(** What is set up before the loop: [c] is the uninitialised client, the buffers are local arrays. *)
Definition mqtt_task_init (c : MQTTClient (W := W)) (sendbuf readbuf : list Z) (w : W) : task :=
  mkTask (mkSt (MQTTClientInit c 3000 sendbuf 80 readbuf 80) w) NetworkInit false false.

(** A turn of the inner loop; [received] is the message [xQueueReceive] gave, if any. *)
Definition publish_turn (received : option MqttPublishMessage) (x : task) : outcome (phase * task) :=
  match received with
  | Some msg =>
      len ← c_str (payload msg);
      name ← c_str (topic msg);
      let message := mkMessage (qos msg) 0 (m_dup junk_msg) (m_id junk_msg) (Some (payload msg)) (zlen len) in
      '((rc, _), s) ← MQTTPublish (network := network (my_socket (t_dial x))) fuel junk junk_ack name message (t_st x);
      let x := mkTask s (t_dial x) (mqtt_connection_status x) (mqtt_reconnect x) in
      if rc =? 0 then Ok (Publishing, x) else Ok (Dialing, close_socket x)
  | None =>
      if mqtt_reconnect x
      then Ok (Dialing, close_socket (mkTask (t_st x) (t_dial x) (mqtt_connection_status x) false))
      else Ok (Publishing, x)
  end.

(** A turn of the other task on the same client. *)
Definition run_turn (x : task) : outcome task :=
  '(_, s) ← MQTTRun_turn (network := network (my_socket (t_dial x))) fuel junk junk_ack (t_st x);
  Ok (mkTask s (t_dial x) (mqtt_connection_status x) (mqtt_reconnect x)).

(** The tasks and the web interface, which asks for a new connection, one step at a time. *)
Inductive step : phase * task → phase * task → Prop :=
| step_dial cfg x r : dial_turn cfg x = Ok r → step (Dialing, x) r
| step_publish m x r : publish_turn m x = Ok r → step (Publishing, x) r
| step_run p x x' : run_turn x = Ok x' → step (p, x) (p, x')
| step_reconnect p x : step (p, x) (p, mkTask (t_st x) (t_dial x) (mqtt_connection_status x) true).

(** *** What a publish returns *)

Definition two_results (rc : Z) : Prop := rc = SUCCESS ∨ rc = FAILURE.

Section Results.
Context {net : Network W}.

Lemma sendPacket_results len t : results (sendPacket (network := net) fuel len t) (λ r, two_results r.1).
Proof.
  eapply results_bind; [apply results_any|]. intros [sent t1] _. unfold two_results.
  destruct (sent =? len); [|apply results_ret; by right].
  eapply results_bind; [apply results_any|]. intros k _.
  eapply results_bind; [apply results_any|]. intros t2 _.
  eapply results_bind; [apply results_any|]. intros ? _. apply results_ret. by left.
Qed.

Lemma await_ack_results ack rc t : two_results rc →
  results (await_ack (network := net) fuel junk junk_ack ack rc t) two_results.
Proof.
  intros Hrc. eapply results_bind; [apply results_any|]. intros [r t1] _.
  destruct (r =? ack); [|apply results_ret; by right].
  eapply results_bind; [apply results_any|]. intros [ok o] _. apply results_ret.
  destruct (ok =? 1); [done|by right].
Qed.

(** The session is closed by every failure of [MQTTPublish]. *)
Lemma MQTTPublish_result name msg s rc m s' :
  MQTTPublish (network := net) fuel junk junk_ack name msg s = Ok ((rc, m), s') →
  rc = SUCCESS ∨ rc = FAILURE ∧ isconnected (client s') = 0.
Proof.
  intros E. unfold MQTTPublish in E.
  destruct (field isconnected s) as [[conn s0]| |] eqn:E0; [|done..].
  rewrite (st_bind_Ok _ _ _ _ _ E0) in E.
  match type of E with (?m ≫= ?k) _ = _ => set (body := m) in E; set (rest := k) in E end.
  assert (results body (λ r, two_results r.1)) as Hbody.
  { unfold body. destruct (conn =? 0); [apply results_ret; by right|].
    do 4 (eapply results_bind; [apply results_any|]; intros ? _).
    destruct (_ <=? 0); [apply results_ret; by right|].
    eapply results_bind; [apply sendPacket_results|]. intros [rc1 t1] Hrc1.
    destruct (negb _); [by apply results_ret|].
    eapply (results_bind _ _ two_results).
    - repeat case_match; first [by apply await_ack_results|by apply results_ret].
    - intros rc2 Hrc2. by apply results_ret. }
  destruct (body s0) as [[[rc0 m0] s1]| |] eqn:Eb; [|by unfold mbind, st_bind in E; rewrite Eb in E..].
  pose proof (Hbody _ _ _ Eb) as Hrc. rewrite (st_bind_Ok _ _ _ _ _ Eb) in E. unfold rest in E.
  destruct Hrc as [Hrc|Hrc]; cbn in Hrc; subst rc0; unfold close_on_failure in E;
    cbn [Z.eqb SUCCESS FAILURE Pos.eqb] in E.
  - injection E as <- _ _. by left.
  - injection E as <- _ <-. right. split; [done|]. cbn. unfold MQTTCloseSession. by case_match.
Qed.
End Results.

(** [n] turns of the outer loop. *)
Fixpoint idle_turns (cfg : mqtt_settings) (n : nat) (x : task) : outcome (phase * task) :=
  match n with
  | O => Ok (Dialing, x)
  | S n => '(_, x) ← idle_turns cfg n x; dial_turn cfg x
  end.

(** *** Theorems *)

(** A message that is published leaves the task where it is; one that is not (for whatever reason
    the client has) is dropped and brings the task back to making the connection, with the socket closed
    and the session ended, so that the next [MQTTConnect] is not refused. *)
Theorem publish_turn_outcome m x p x' :
  publish_turn (Some m) x = Ok (p, x') →
  (p = Publishing ∧ mqtt_reconnect x' = mqtt_reconnect x ∧ t_dial x' = t_dial x) ∨
  (p = Dialing ∧ isconnected (client (t_st x')) = 0 ∧
     ∃ w, world (t_st x') = lwip_close (my_socket (t_dial x)) w).
Proof.
  unfold publish_turn. destruct (c_str (payload m)) as [len| |]; [|done..]. rewrite bind_ok.
  destruct (c_str (topic m)) as [name| |]; [|done..]. rewrite bind_ok. cbn zeta.
  match goal with |- context [MQTTPublish ?a ?b ?c ?d ?e ?f] =>
    destruct (MQTTPublish a b c d e f) as [[[rc m'] s']| |] eqn:E end; [|done..].
  apply MQTTPublish_result in E. rewrite bind_ok. cbn beta iota zeta.
  destruct E as [->|[-> Hc]]; cbn [Z.eqb SUCCESS FAILURE]; intros [= <- <-].
  - by left.
  - right. split; [done|]. split; [done|]. cbn. eauto.
Qed.

(** A change of the broker's settings does not lead to a new session at once.  The task leaves the
    inner loop and closes the socket but does not disconnect the client, so that the next
    [MQTTConnect], over a new connection, is refused without sending anything; this goes on until
    [MQTTRun] has found out that the old session is dead. *)
Theorem reconnect_request_is_refused cfg x d w :
  mqtt_reconnect x = true → isconnected (client (t_st x)) ≠ 0 → broker cfg ≠ [] →
  let x1 := close_socket (mkTask (t_st x) (t_dial x) (mqtt_connection_status x) false) in
  NetworkConnectWithTimeout fuel (broker cfg) (port cfg) 1000 (t_dial x) (world (t_st x1)) = Ok (0, d, w) →
  publish_turn None x = Ok (Dialing, x1) ∧
  dial_turn cfg x1 = Ok (Dialing, close_socket (mkTask (mkSt (client (t_st x)) w) d false false)).
Proof.
  intros Hr Hc Hb x1 Hn. split; [unfold publish_turn; by rewrite Hr|].
  unfold dial_turn. rewrite bool_decide_eq_false_2 by done. cbn [t_dial x1 close_socket].
  rewrite Hn, bind_ok. cbn beta iota zeta. cbn [Z.eqb].
  assert (∀ s, isconnected (client s) ≠ 0 →
    MQTTConnect (network := network (my_socket d)) fuel junk junk_ack (Some (connect_options cfg)) (mkConnack 0 0) s
      = Ok (FAILURE, s)) as E.
  { intros s Hs. unfold MQTTConnect, MQTTConnectWithResults.
    erewrite (st_bind_Ok _ _ _ (FAILURE, mkConnack 0 0) s); [reflexivity|].
    erewrite st_bind_Ok by reflexivity. by rewrite (proj2 (Z.eqb_neq _ _) Hs). }
  rewrite E by done. done.
Qed.

(** The task closes sockets that are not its own.  Without a broker in the settings it closes
    descriptor 0, which it never opened, at every turn from its start on; and a connection that is not
    made in time has its descriptor closed twice, by [NetworkConnectWithTimeout] and by the task. *)
Theorem closes_sockets_it_does_not_own cfg0 cfg c sb rb w0 n x s w1 ip fl w2 rc w3 w4 :
  broker cfg0 = [] → broker cfg ≠ [] →
  socket (world (t_st x)) = (s, w1) → 0 <= s → ipaddr_aton (broker cfg) = Some ip →
  lwip_fcntl_getfl s w1 = (fl, w2) →
  lwip_connect s ip (port cfg) (lwip_fcntl_setfl s (Z.lor fl O_NONBLOCK) w2) = (rc, EINPROGRESS, w3) →
  rc < 0 → select s 1000 w3 = (0, w4) →
  idle_turns cfg0 n (mqtt_task_init c sb rb w0) =
    Ok (Dialing, mkTask (mkSt (MQTTClientInit c 3000 sb 80 rb 80) (Nat.iter n (lwip_close 0) w0)) NetworkInit false false) ∧
  ∃ x', dial_turn cfg x = Ok (Dialing, x') ∧ world (t_st x') = lwip_close s (lwip_close s w4).
Proof.
  intros Hb0 Hb Hs H0 Ha Hf Hc Hrc Hsel. split.
  - unfold mqtt_task_init. induction n as [|n IH]; [done|].
    cbn [idle_turns]. rewrite IH, bind_ok. unfold dial_turn. by rewrite bool_decide_eq_true_2.
  - unfold dial_turn. rewrite bool_decide_eq_false_2 by done.
    erewrite connect_timeout by done. rewrite bind_ok. cbn beta iota zeta. eexists. split; [reflexivity|done].
Qed.
End Task.

(** ** The theorems at work *)

(** A resolver that never answers at once, and a connection that is made. *)
#[export] Instance demo_dialer : Dialer wire := {|
  socket w := (3, w);
  ipaddr_aton name := if bool_decide (name = chars "10.0.0.7") then Some 117440522 else None;
  dns_gethostbyname _ w := (None, w);
  vTaskDelay _ w := (Some (Some 134217738), w);
  lwip_fcntl_getfl _ w := (0, w);
  lwip_fcntl_setfl _ _ w := w;
  lwip_connect _ ip _ w := (0, 0, mkWire (now w) (rx w) (tx w ++ [ip]));
  select _ _ w := (1, w);
  getsockopt_error _ w := (0, w);
  lwip_close _ w := w;
  EINPROGRESS := 115;
  O_NONBLOCK := 1;
|}.

Lemma connects_to_stale_address_witness :
  dnsFound (mkDial true 117440522 3) = true ∧
  NetworkConnectWithTimeout 0 (chars "broker.local") 1883 1000 (mkDial true 117440522 3) (mkWire 0 [] []) =
  NetworkConnectWithTimeout 0 (chars "10.0.0.7") 1883 1000 (mkDial true 117440522 3) (mkWire 0 [] []).
Proof.
  split; [done|].
  apply (connects_to_stale_address 0 0 (chars "broker.local") (chars "10.0.0.7") 1883 1000
    (mkDial true 117440522 3) (mkWire 0 [] [])); [done|vm_compute; reflexivity|vm_compute; reflexivity|done].
Defined.

Definition refusing_dialer : Dialer wire :=
  {| socket w := (3, w); ipaddr_aton _ := Some 7; dns_gethostbyname _ w := (None, w);
     vTaskDelay _ w := (None, w); lwip_fcntl_getfl _ w := (0, w); lwip_fcntl_setfl _ _ w := w;
     lwip_connect _ _ _ w := (-1, 118, w); select _ _ w := (0, w); getsockopt_error _ w := (0, w);
     lwip_close _ w := w; EINPROGRESS := 115; O_NONBLOCK := 1 |}.

Lemma connect_failure_reported_as_success_witness :
  -1 < 0 ∧ NetworkConnectWithTimeout (dialer := refusing_dialer) 0 (chars "10.0.0.7") 1883 1000 (mkDial false 0 0)
    (mkWire 0 [] []) = Ok (0, mkDial false 7 3, mkWire 0 [] []).
Proof.
  split; [lia|].
  apply (connect_failure_reported_as_success (dialer := refusing_dialer) 0 (chars "10.0.0.7") 1883 1000 (mkDial false 0 0)
    (mkWire 0 [] []) 3 (mkWire 0 [] []) 7 0 (mkWire 0 [] []) (-1) 118 (mkWire 0 [] [])); done.
Defined.

Definition demo_task (connected reconnect : bool) : task :=
  mkTask (mkSt (mkClient (W := wire) (clock := wire_clock) 1 3000 80 80 (replicate 80 0) (replicate 80 0) 60 0
    (b2z connected) 1 (replicate 5 (mkHandler None None)) None
    (mkTimer (clock := wire_clock) 60000 0) (mkTimer (clock := wire_clock) 60000 0)) (mkWire 0 [] []))
    (mkDial true 117440522 3) true reconnect.

Definition demo_publish : MqttPublishMessage :=
  mkPublish (chars "radprot/1" ++ [0]) (replicate 70 48 ++ [0]) 70 1 false.

Definition demo_junk_pub : publish_out := mkPub 0 0 0 0 MQTTString_initializer None 0.
Definition demo_net (sock : Z) : Network wire := FreeRTOS_Network sock 10.

Lemma publish_turn_outcome_witness :
  ∃ p x', publish_turn demo_net 10 demo_junk_pub (mkAck 0 0 0) (mkMessage 0 0 0 0 None 0) (Some demo_publish)
      (demo_task true false) = Ok (p, x') ∧
    ((p = Publishing ∧ mqtt_reconnect x' = false ∧ t_dial x' = mkDial true 117440522 3) ∨
     (p = Dialing ∧ isconnected (client (t_st x')) = 0 ∧
        ∃ w, world (t_st x') = lwip_close 3 w)).
Proof.
  eexists _, _. split; [vm_compute; reflexivity|].
  apply (publish_turn_outcome demo_net 10 demo_junk_pub (mkAck 0 0 0) (mkMessage 0 0 0 0 None 0) demo_publish
    (demo_task true false)). vm_compute. reflexivity.
Defined.

Lemma reconnect_request_is_refused_witness :
  isconnected (client (t_st (demo_task true true))) ≠ 0 ∧
  publish_turn demo_net 10 demo_junk_pub (mkAck 0 0 0) (mkMessage 0 0 0 0 None 0) None (demo_task true true)
    = Ok (Dialing, close_socket (mkTask (t_st (demo_task true true)) (mkDial true 117440522 3) true false)).
Proof.
  split; [done|].
  apply (reconnect_request_is_refused demo_net 10 demo_junk_pub (mkAck 0 0 0) (mkMessage 0 0 0 0 None 0)
    (mkSettings (chars "10.0.0.7") 1883 [] []) (demo_task true true) (mkDial true 117440522 3)
    (mkWire 0 [] [117440522])); [done|done|done|vm_compute; reflexivity].
Defined.

(** A connection that stays in progress; the descriptors that are closed are recorded. *)
Definition slow_dialer : Dialer wire :=
  {| socket w := (3, w); ipaddr_aton _ := Some 7; dns_gethostbyname _ w := (None, w);
     vTaskDelay _ w := (None, w); lwip_fcntl_getfl _ w := (0, w); lwip_fcntl_setfl _ _ w := w;
     lwip_connect _ _ _ w := (-1, 115, w); select _ _ w := (0, w); getsockopt_error _ w := (0, w);
     lwip_close s w := mkWire (now w) (rx w) (tx w ++ [s]); EINPROGRESS := 115; O_NONBLOCK := 1 |}.

Lemma closes_sockets_it_does_not_own_witness :
  broker (mkSettings [] 1883 [] []) = [] ∧
  ∃ x', dial_turn (dialer := slow_dialer) demo_net 10 demo_junk_pub (mkAck 0 0 0)
      (mkSettings (chars "10.0.0.7") 1883 [] []) (demo_task false false) = Ok (Dialing, x') ∧
    tx (world (t_st x')) = [3; 3].
Proof.
  split; [done|].
  destruct (closes_sockets_it_does_not_own (dialer := slow_dialer) demo_net 10 demo_junk_pub (mkAck 0 0 0)
    (mkSettings [] 1883 [] []) (mkSettings (chars "10.0.0.7") 1883 [] []) (client (t_st (demo_task false false)))
    [] [] (mkWire 0 [] []) 2 (demo_task false false) 3 (mkWire 0 [] []) 7 0 (mkWire 0 [] []) (-1) (mkWire 0 [] [])
    (mkWire 0 [] [])) as [_ (x' & E & Ew)];
    [done|done|done|done|done|done|done|done|done|].
  exists x'. split; [exact E|]. by rewrite Ew.
Defined.
