(* ===== verification/Sensor.v ===== *)
(** The sensors (src/sensor.cpp, inc/sensor.h, the sensor part of inc/settings.h): every line a serial
    port receives is cut into the fields of the settings; each field is published as it is or as a
    number, scaled and averaged, to the MQTT queue and to the WebSocket queue.

    [float] is binary32, computed by Rocq's [SpecFloat]; [strtof], the conversion [%f] and ArduinoJson's
    [serializeJson] are functions that the theorems hold for whatever they are.  [Q] is the state of
    the two FreeRTOS queues. *)
From Stdlib Require Import Floats.SpecFloat.
From S2P Require Import Prelude CString MqttTask.

(** ** Settings and state *)

Definition MAX_PUBLISH_SETTINGS : nat := 10.
Definition SERIAL_BUFFERS_SIZE : Z := 256.
Definition WS_MAX_PAYLOAD_LENGTH : Z := 512.

Record publish_settings_entry := mkEntry {
  enabled : bool; name : list Z; ps_start : Z; ps_end : Z; is_num : bool; scale : spec_float; avg_cnt : Z;
  ps_topic : list Z }.

Record avg_fields_t := mkAvg { avg_cnt_current : Z; accum : spec_float }.

(** ** binary32 *)

Definition f32_add : spec_float → spec_float → spec_float := SFadd 24 128.
Definition f32_mul : spec_float → spec_float → spec_float := SFmul 24 128.
Definition f32_div : spec_float → spec_float → spec_float := SFdiv 24 128.
Definition f32_of_int (n : Z) : spec_float := binary_normalize 24 128 n 0 false.
Definition f32_zero : spec_float := S754_zero false.

(** The members of [json["reading"]]. *)
Record reading := mkReading { s_s : Z; p_s : Z; p_s_name : list Z; value : list Z; r_topic : list Z }.

Section Sensor.
Context {Q : Type} (strtof : list Z → spec_float) (fmt_f : spec_float → list Z).
Context (serializeJson : reading → Z → list Z).
Context (mqttQueue websocketQueue : bool) (mqttSend : MqttPublishMessage → Q → Z * Q).
Context (wsSend : list Z * Z → Q → Z * Q).
(** The uninitialised messages of [sendToMqttQueue] and [sendToEndpoints]. *)
Context (junk_msg : MqttPublishMessage) (junk_ws : list Z).

(** [avg_fields] and [sensor_num] of a [Sensor], and its part of the settings. *)
Context (sensor_num : Z) (publish_settings : list publish_settings_entry).

Definition state : Type := list avg_fields_t * Q.

Definition get {A} (l : list A) (i : Z) : outcome A :=
  if decide (0 <= i) then match l !! Z.to_nat i with Some x => Ok x | None => Ub end else Ub.

Definition set {A} (l : list A) (i : Z) (x : A) : outcome (list A) :=
  if decide (0 <= i < zlen l) then Ok (<[Z.to_nat i := x]> l) else Ub.

(** ** Publishing *)

(** [name] and [topic] are the arrays of the settings, which have to hold C strings; [value]: a C string. *)
Definition sendToEndpoints (pub_setting_num : Z) (name topic value : list Z) (value_length qos : Z) (retain : bool)
    (q : Q) : outcome Q :=
  topic ← c_str topic;
  '(_, q) ← sendToMqttQueue mqttQueue mqttSend junk_msg topic value value_length qos retain q;
  name ← c_str name;
  let doc := mkReading sensor_num pub_setting_num name value topic in
  let text := serializeJson doc WS_MAX_PAYLOAD_LENGTH in
  payload ← wr_n junk_ws 0 text;
  if websocketQueue then Ok (wsSend (payload, zlen text) q).2 else Ok q.

(** [snprintf(payload_buffer, sizeof payload_buffer, "%f", v)] and the publication of the buffer. *)
Definition publish_number (index : Z) (ps : publish_settings_entry) (v : spec_float) (q : Q) : outcome Q :=
  '(payload_buffer, len) ← snprintf (replicate 256 0) SERIAL_BUFFERS_SIZE (fmt_f v);
  value ← c_str payload_buffer;
  sendToEndpoints index (name ps) (ps_topic ps) value len 1 false q.

Definition process_and_publish (data : list Z) (index : Z) (s : state) : outcome state :=
  let '(avg_fields, q) := s in
  ps ← get publish_settings index;
  text ← c_str data;
  if is_num ps then
    let val := f32_mul (strtof text) (scale ps) in
    if 0 <? avg_cnt ps then
      f ← get avg_fields index;
      let f := if avg_cnt ps <? avg_cnt_current f then mkAvg 0 f32_zero else f in
      let f := mkAvg (avg_cnt_current f + 1) (f32_add (accum f) val) in
      if avg_cnt_current f =? avg_cnt ps then
        let average := f32_div (accum f) (f32_of_int (avg_cnt ps)) in
        q ← publish_number index ps average q;
        avg_fields ← set avg_fields index (mkAvg 0 f32_zero);
        Ok (avg_fields, q)
      else
        avg_fields ← set avg_fields index f;
        Ok (avg_fields, q)
    else
      q ← publish_number index ps val q;
      Ok (avg_fields, q)
  else
    q ← sendToEndpoints index (name ps) (ps_topic ps) text (zlen text) 1 false q;
    Ok (avg_fields, q).

(** ** The fields of a line *)

(** The part of the line an entry selects: where it starts and its length. *)
Definition field_of (ps : publish_settings_entry) (bytes_received : Z) : option (Z * Z) :=
  if negb (enabled ps) || (ps_end ps <=? ps_start ps) || (bytes_received <=? ps_start ps) then None
  else
    let len := if bytes_received <? ps_end ps then bytes_received - ps_start ps else ps_end ps - ps_start ps in
    if len =? 0 then None
    else Some (ps_start ps, if SERIAL_BUFFERS_SIZE - 1 <? len then SERIAL_BUFFERS_SIZE - 1 else len).

(** [char data[SERIAL_BUFFERS_SIZE]{}], the [memcpy] and the NUL. *)
Definition copy_field (serial_buffer : list Z) (start len : Z) : outcome (list Z) :=
  d ← rd_n serial_buffer start len;
  data ← wr_n (replicate 256 0) 0 d;
  wr data len 0.

(** One turn of [read_task] with a line: the loop over the settings. *)
Definition line_turn (serial_buffer : list Z) (bytes_received : Z) (s : state) : outcome state :=
  if bytes_received =? 0 then Ok s
  else for_ MAX_PUBLISH_SETTINGS 0 (λ i s,
    ps ← get publish_settings i;
    match field_of ps bytes_received with
    | None => Ok s
    | Some (start, len) =>
        data ← copy_field serial_buffer start len;
        process_and_publish data i s
    end) s.

(** One turn with simulated values; [rand i] is what [rand()] gives for entry [i]. *)
Definition simulated_field (ps : publish_settings_entry) : option Z :=
  if negb (enabled ps) || (ps_end ps <=? ps_start ps) || (SERIAL_BUFFERS_SIZE <=? ps_start ps) ||
     (SERIAL_BUFFERS_SIZE <? ps_end ps) then None
  else
    let len := ps_end ps - ps_start ps in
    Some (if SERIAL_BUFFERS_SIZE <=? len then SERIAL_BUFFERS_SIZE - 1 else len).

Definition simulated_turn (rand : Z → Z) (s : state) : outcome state :=
  for_ MAX_PUBLISH_SETTINGS 0 (λ i s,
    ps ← get publish_settings i;
    match simulated_field ps with
    | None => Ok s
    | Some len =>
        let random_num := Z.rem (rand i) 10 in
        data ← wr_n (replicate 256 0) 0 (replicate (Z.to_nat len) (u8 (48 + random_num)));
        data ← wr data len 0;
        process_and_publish data i s
    end) s.

(** ** Lemmas *)

Lemma get_Ok {A} (l : list A) i : 0 <= i < zlen l → ∃ x, get l i = Ok x ∧ l !! Z.to_nat i = Some x.
Proof.
  intros H. unfold get. rewrite decide_True by lia.
  destruct (lookup_lt_is_Some_2 l (Z.to_nat i)) as [x E]; [lia|]. rewrite E. eauto.
Qed.

Lemma get_lookup {A} (l : list A) i x : 0 <= i → l !! Z.to_nat i = Some x → get l i = Ok x.
Proof. intros Hi E. unfold get. by rewrite decide_True, E. Qed.

Lemma set_Ok {A} (l : list A) i x : 0 <= i < zlen l → set l i x = Ok (<[Z.to_nat i := x]> l).
Proof. intros H. unfold set. by rewrite decide_True. Qed.

(** *** The parts of a line *)

Lemma field_of_bounds ps n start len : 0 <= ps_start ps → field_of ps n = Some (start, len) →
  start = ps_start ps ∧ 0 < len <= 255 ∧ start + len <= n.
Proof.
  unfold field_of, SERIAL_BUFFERS_SIZE. intros H0.
  destruct (enabled ps); cbn [negb orb]; [|done].
  destruct (Z.leb_spec (ps_end ps) (ps_start ps)); [done|]. destruct (Z.leb_spec n (ps_start ps)); [done|].
  cbn [orb]. set (l := if n <? ps_end ps then _ else _).
  assert (0 < l ∧ ps_start ps + l <= n) by (unfold l; destruct (Z.ltb_spec n (ps_end ps)); lia).
  destruct (Z.eqb_spec l 0); [done|]. intros [= <- <-].
  destruct (Z.ltb_spec (256 - 1) l); lia.
Qed.

Lemma copy_field_spec buf start len : 0 <= start → 0 <= len <= 255 → start + len <= zlen buf →
  copy_field buf start len =
    Ok (take (Z.to_nat len) (drop (Z.to_nat start) buf) ++ 0 :: drop (S (Z.to_nat len)) (replicate 256 0)).
Proof.
  intros Hs Hl Hb. unfold copy_field, rd_n. rewrite decide_True by lia. rewrite bind_ok.
  set (d := take _ _). assert (zlen d = len) as Ed by (unfold d; lens).
  pose proof (wr_n_app [] (replicate 256 0) d) as E. cbn [app length] in E. change (Z.of_nat 0) with 0 in E.
  rewrite E by lens. rewrite bind_ok. unfold wr. clear E.
  pose proof (wr_n_app d (drop (length d) (replicate 256 0)) [0]) as E. rewrite Ed in E.
  rewrite E by lens. cbn [app length]. rewrite drop_drop. do 4 f_equal. lia.
Qed.

(** Of a line as [read_string] delivers it (its characters and the NUL, which is counted), an
    enabled entry selects exactly the characters from its start up to its end, or up to the end of the
    line when that comes first; nothing outside the buffer is touched.  A field that starts right behind
    the line is selected too, as an empty text. *)
Theorem field_text ps line r :
  no_nul line → zlen (line ++ 0 :: r) = SERIAL_BUFFERS_SIZE → 0 <= ps_start ps →
  match field_of ps (zlen line + 1) with
  | Some (start, len) =>
      ∃ data, copy_field (line ++ 0 :: r) start len = Ok data ∧ zlen data = SERIAL_BUFFERS_SIZE ∧
        c_str data = Ok (take (Z.to_nat (ps_end ps - ps_start ps)) (drop (Z.to_nat (ps_start ps)) line))
  | None => enabled ps = false ∨ ps_end ps <= ps_start ps ∨ zlen line < ps_start ps
  end.
Proof.
  intros Hline Hbuf H0. unfold SERIAL_BUFFERS_SIZE in *.
  assert (zlen line <= 255) by lens.
  destruct (field_of ps (zlen line + 1)) as [[start len]|] eqn:E.
  - pose proof E as E'. apply field_of_bounds in E' as (-> & Hlen & Hend); [|done].
    assert (Hl : len = Z.min (ps_end ps - ps_start ps) (zlen line + 1 - ps_start ps) ∨
      len = 255 ∧ 255 <= ps_end ps - ps_start ps ∧ 255 <= zlen line + 1 - ps_start ps).
    { revert E. unfold field_of, SERIAL_BUFFERS_SIZE. repeat case_match; intros [= ?]; lia. }
    rewrite copy_field_spec by lens. eexists. split; [done|]. split; [lens|].
    replace (drop (Z.to_nat (ps_start ps)) (line ++ 0 :: r))
      with ((drop (Z.to_nat (ps_start ps)) line ++ [0]) ++ r).
    2: { rewrite drop_app_le by lia. by rewrite <- app_assoc. }
    set (t := drop (Z.to_nat (ps_start ps)) line).
    assert (zlen t = zlen line - ps_start ps) by (unfold t; lens).
    rewrite take_app_le by lens. rewrite c_str_take by by apply Forall_drop.
    f_equal. destruct Hl as [->|(-> & ? & ?)].
    + destruct (Z.le_gt_cases (ps_end ps - ps_start ps) (zlen t)).
      * f_equal. lia.
      * rewrite !take_ge by lia. done.
    + destruct (Z.eq_dec (ps_end ps - ps_start ps) 255) as [->|]; [done|]. rewrite !take_ge by lia. done.
  - revert E. unfold field_of, SERIAL_BUFFERS_SIZE.
    destruct (enabled ps); cbn [negb orb]; [|by left].
    destruct (Z.leb_spec (ps_end ps) (ps_start ps)); [by right; left|].
    destruct (Z.leb_spec (zlen line + 1) (ps_start ps)); [intros _; right; right; lia|]. cbn [orb].
    match goal with |- context [?l =? 0] => destruct (Z.eqb_spec l 0) as [E|]; [|done] end.
    destruct (Z.ltb_spec (zlen line + 1) (ps_end ps)); lia.
Qed.

(** *** Averaging *)

(** Readings of one field, one after the other. *)
Fixpoint process_all (datas : list (list Z)) (index : Z) (s : state) : outcome state :=
  match datas with
  | [] => Ok s
  | d :: datas => s ← process_and_publish d index s; process_all datas index s
  end.

(** The sum of readings and the mean that is published, in the arithmetic of [float]. *)
Definition sum_from (a : spec_float) (ps : publish_settings_entry) (texts : list (list Z)) : spec_float :=
  foldl (λ a t, f32_add a (f32_mul (strtof t) (scale ps))) a texts.

Definition mean (ps : publish_settings_entry) (texts : list (list Z)) : spec_float :=
  f32_div (sum_from f32_zero ps texts) (f32_of_int (avg_cnt ps)).

(** A field that is averaged. *)
Record averaged (index : Z) (ps : publish_settings_entry) (fs : list avg_fields_t) (f : avg_fields_t) : Prop := {
  a_settings : get publish_settings index = Ok ps;
  a_num : is_num ps = true;
  a_cnt : 0 < avg_cnt ps;
  a_index : 0 <= index;
  a_field : fs !! Z.to_nat index = Some f;
}.

Definition texts_of (datas texts : list (list Z)) : Prop := Forall2 (λ d t, c_str d = Ok t) datas texts.

(** One reading, from a count that is not above the limit. *)
Lemma process_step index ps fs f d t q : averaged index ps fs f → c_str d = Ok t →
  avg_cnt_current f <= avg_cnt ps →
  process_and_publish d index (fs, q) =
    let f' := mkAvg (avg_cnt_current f + 1) (f32_add (accum f) (f32_mul (strtof t) (scale ps))) in
    if avg_cnt_current f + 1 =? avg_cnt ps then
      q ← publish_number index ps (f32_div (accum f') (f32_of_int (avg_cnt ps))) q;
      Ok (<[Z.to_nat index := mkAvg 0 f32_zero]> fs, q)
    else Ok (<[Z.to_nat index := f']> fs, q).
Proof.
  intros [Hs Hn Hc Hi Hf] Ht Hle. unfold process_and_publish. rewrite Hs, bind_ok, Ht, bind_ok, Hn.
  destruct (Z.ltb_spec 0 (avg_cnt ps)); [|lia]. rewrite (get_lookup fs index f Hi Hf), bind_ok.
  destruct (Z.ltb_spec (avg_cnt ps) (avg_cnt_current f)); [lia|]. cbn [avg_cnt_current accum].
  pose proof (lookup_lt_Some _ _ _ Hf).
  destruct (_ =? avg_cnt ps); [|by rewrite set_Ok by lia].
  destruct (publish_number _ _ _ _); [|done..]. rewrite !bind_ok. by rewrite set_Ok by lia.
Qed.

Lemma averaged_insert index ps fs f f' : averaged index ps fs f →
  averaged index ps (<[Z.to_nat index := f']> fs) f'.
Proof.
  intros [? ? ? ? Hf]. constructor; try done. apply list_lookup_insert_eq. by eapply lookup_lt_Some.
Qed.

(** A count above the limit starts anew. *)
Lemma restart index ps fs f d t q : averaged index ps fs f → c_str d = Ok t →
  avg_cnt ps < avg_cnt_current f →
  process_and_publish d index (fs, q) =
    process_and_publish d index (<[Z.to_nat index := mkAvg 0 f32_zero]> fs, q).
Proof.
  intros Ha Ht Hlt. rewrite (process_step index ps _ _ d t q (averaged_insert _ _ _ _ (mkAvg 0 f32_zero) Ha) Ht)
    by (cbn; pose proof (a_cnt _ _ _ _ Ha); lia).
  destruct Ha as [Hs Hn Hc Hi Hf]. unfold process_and_publish. rewrite Hs, bind_ok, Ht, bind_ok, Hn.
  destruct (Z.ltb_spec 0 (avg_cnt ps)); [|lia]. rewrite (get_lookup fs index f Hi Hf), bind_ok.
  destruct (Z.ltb_spec (avg_cnt ps) (avg_cnt_current f)); [|lia]. cbn [avg_cnt_current accum].
  pose proof (lookup_lt_Some _ _ _ Hf). rewrite !list_insert_insert_eq.
  destruct (_ =? avg_cnt ps); [|by rewrite set_Ok by lia].
  destruct (publish_number _ _ _ _); [|done..]. rewrite !bind_ok. by rewrite set_Ok by lia.
Qed.

(** The readings up to the one that completes the average. *)
Lemma process_to_average index ps fs f datas texts q :
  averaged index ps fs f → texts_of datas texts → 0 <= avg_cnt_current f →
  avg_cnt_current f + zlen datas = avg_cnt ps → datas ≠ [] →
  process_all datas index (fs, q) =
    (q ← publish_number index ps (f32_div (sum_from (accum f) ps texts) (f32_of_int (avg_cnt ps))) q;
     Ok (<[Z.to_nat index := mkAvg 0 f32_zero]> fs, q)).
Proof.
  intros Ha Hts. revert fs f Ha. induction Hts as [|d t datas texts Hd Hts IH]; [done|].
  intros fs f Ha H0 Hn _. cbn [process_all]. rewrite (process_step index ps fs f d t q Ha Hd) by lens. cbn zeta.
  destruct (decide (datas = [])) as [->|Hne].
  - inversion Hts; subst. rewrite (proj2 (Z.eqb_eq _ _)) by (cbn in Hn; lia). cbn [sum_from foldl accum].
    destruct (publish_number _ _ _ _); done.
  - assert (0 < zlen datas) by (destruct datas; [done|cbn; lia]). cbn [length] in Hn.
    rewrite (proj2 (Z.eqb_neq (avg_cnt_current f + 1) (avg_cnt ps))) by lia. rewrite bind_ok.
    rewrite (IH _ _ (averaged_insert _ _ _ _ _ Ha)) by (done || cbn [avg_cnt_current]; lia).
    cbn [accum]. rewrite list_insert_insert_eq. done.
Qed.

(** C31: starting a new average (a count of 0), [avg_cnt] readings publish exactly one number: the
    binary32 mean of the scaled readings, in their order; the field starts anew. *)
Theorem average_published index ps fs datas texts q :
  averaged index ps fs (mkAvg 0 f32_zero) → texts_of datas texts → zlen datas = avg_cnt ps →
  process_all datas index (fs, q) =
    (q ← publish_number index ps (mean ps texts) q; Ok (fs, q)).
Proof.
  intros Ha Hts Hn. pose proof (a_cnt _ _ _ _ Ha).
  rewrite (process_to_average index ps fs (mkAvg 0 f32_zero) datas texts q Ha Hts);
    [|cbn; lia|cbn; lia|destruct datas; [cbn in *; lia|done]].
  rewrite list_insert_id by (by destruct Ha). done.
Qed.

(** When the number of readings to average is lowered to the number already taken, the restart
    that the code means to make does not happen: one more reading is only added, and it and all the
    readings before are dropped by the next one.  The average of the [avg_cnt] readings after it is
    published, one reading late. *)
Theorem lowered_average_restarts_late index ps fs a d t datas texts q :
  averaged index ps fs (mkAvg (avg_cnt ps) a) → c_str d = Ok t → texts_of datas texts →
  zlen datas = avg_cnt ps →
  process_all (d :: datas) index (fs, q) =
    (q ← publish_number index ps (mean ps texts) q; Ok (<[Z.to_nat index := mkAvg 0 f32_zero]> fs, q)).
Proof.
  intros Ha Hd Hts Hn. pose proof (a_cnt _ _ _ _ Ha) as Hc. cbn [process_all].
  rewrite (process_step index ps fs _ d t q Ha Hd) by (cbn; lia). cbn [avg_cnt_current accum]. cbn zeta.
  rewrite (proj2 (Z.eqb_neq _ _)), bind_ok by lia.
  set (fs1 := <[Z.to_nat index := _]> fs).
  pose proof (averaged_insert _ _ _ _ (mkAvg (avg_cnt ps + 1) (f32_add a (f32_mul (strtof t) (scale ps)))) Ha) as H1.
  fold fs1 in H1.
  assert (process_all datas index (fs1, q) =
    process_all datas index (<[Z.to_nat index := mkAvg 0 f32_zero]> fs1, q)) as ->.
  { destruct Hts as [|d1 t1 datas texts Hd1 Hts]; [cbn in Hn; lia|]. cbn [process_all].
    f_equal. eapply restart; [exact H1|exact Hd1|cbn; lia]. }
  rewrite (process_to_average index ps _ (mkAvg 0 f32_zero) datas texts q
    (averaged_insert _ _ _ _ _ H1) Hts); [|cbn; lia|cbn; lia|destruct datas; [cbn in *; lia|done]].
  unfold fs1. by rewrite !list_insert_insert_eq.
Qed.

(** *** Safety *)

(** The arrays have their sizes, the texts of the settings end, and [serializeJson] keeps to the size it is given. *)
Record sizes_ok : Prop := {
  z_settings : length publish_settings = MAX_PUBLISH_SETTINGS;
  z_start : Forall (λ ps, 0 <= ps_start ps) publish_settings;
  z_texts : Forall (λ ps, 0 ∈ name ps ∧ 0 ∈ ps_topic ps) publish_settings;
  z_topic : zlen (topic junk_msg) = MQTT_MAX_TOPIC_LENGTH;
  z_payload : zlen (payload junk_msg) = MQTT_MAX_PAYLOAD_LENGTH;
  z_ws : zlen junk_ws = WS_MAX_PAYLOAD_LENGTH;
  z_json doc : zlen (serializeJson doc WS_MAX_PAYLOAD_LENGTH) <= WS_MAX_PAYLOAD_LENGTH;
}.

Context (Hz : sizes_ok).

Lemma sendToEndpoints_total i ps v len qs r q : 0 ∈ name ps → 0 ∈ ps_topic ps →
  ∃ q', sendToEndpoints i (name ps) (ps_topic ps) v len qs r q = Ok q'.
Proof.
  intros Hn0 Ht0. destruct Hz as [_ _ _ Ht Hp Hw Hj]. unfold sendToEndpoints.
  destruct (c_str_total _ Ht0) as [t ->]. destruct (c_str_total _ Hn0) as [n ->]. rewrite bind_ok.
  assert (∃ z q1, sendToMqttQueue mqttQueue mqttSend junk_msg t v len qs r q = Ok (z, q1)) as (z & q1 & ->).
  { unfold sendToMqttQueue. destruct mqttQueue; [|eauto].
    destruct (snprintf_total (topic junk_msg) MQTT_MAX_TOPIC_LENGTH t) as (? & -> & _); [lia|done|].
    rewrite bind_ok.
    destruct (snprintf_total (payload junk_msg) MQTT_MAX_PAYLOAD_LENGTH v) as (? & -> & _); [lia|done|].
    rewrite bind_ok. match goal with |- context [mqttSend ?m q] => destruct (mqttSend m q) end. eauto. }
  rewrite !bind_ok. cbn zeta. specialize (Hj (mkReading sensor_num i n v t)).
  pose proof (wr_n_app [] junk_ws (serializeJson (mkReading sensor_num i n v t) WS_MAX_PAYLOAD_LENGTH)) as E.
  cbn [app length] in E. change (Z.of_nat 0) with 0 in E. rewrite E by lia. rewrite bind_ok.
  destruct websocketQueue; eauto.
Qed.

Lemma publish_number_total i ps v q : 0 ∈ name ps ∧ 0 ∈ ps_topic ps → ∃ q', publish_number i ps v q = Ok q'.
Proof.
  intros [Hn Ht]. unfold publish_number.
  destruct (snprintf_total (replicate 256 0) SERIAL_BUFFERS_SIZE (fmt_f v)) as (b & -> & _ & H0); [done|done|].
  rewrite bind_ok. destruct (c_str_total b H0) as [t ->]. rewrite bind_ok. by apply sendToEndpoints_total.
Qed.

Definition fields_ok (s : state) : Prop := length s.1 = MAX_PUBLISH_SETTINGS.

Lemma process_total data i s : 0 ∈ data → 0 <= i < Z.of_nat MAX_PUBLISH_SETTINGS → fields_ok s →
  ∃ s', process_and_publish data i s = Ok s' ∧ fields_ok s'.
Proof.
  unfold fields_ok. destruct s as [fs q]. cbn [fst]. intros H0 Hi Hfs. unfold process_and_publish.
  destruct (get_Ok publish_settings i) as (ps & -> & Hps); [rewrite (z_settings Hz); lia|]. rewrite bind_ok.
  pose proof (z_texts Hz) as Htx. rewrite Forall_lookup in Htx. specialize (Htx _ _ Hps). cbn beta in Htx.
  destruct (c_str_total data H0) as [t ->]. rewrite bind_ok.
  destruct (is_num ps).
  - destruct (0 <? avg_cnt ps).
    + destruct (get_Ok fs i) as (f & -> & _); [rewrite Hfs; lia|]. rewrite bind_ok. cbn zeta.
      set (f1 := if avg_cnt ps <? avg_cnt_current f then _ else f).
      destruct (avg_cnt_current _ =? avg_cnt ps).
      * match goal with |- context [publish_number ?a ?b ?c ?d] =>
          destruct (publish_number_total a b c d Htx) as [q' ->] end.
        rewrite bind_ok, set_Ok, bind_ok by (rewrite Hfs; lia). eexists. split; [reflexivity|]. cbn [fst]. by rewrite length_insert.
      * rewrite set_Ok, bind_ok by (rewrite Hfs; lia). eexists. split; [reflexivity|]. cbn [fst]. by rewrite length_insert.
    + match goal with |- context [publish_number ?a ?b ?c ?d] =>
        destruct (publish_number_total a b c d Htx) as [q' ->] end.
      rewrite bind_ok. eauto.
  - destruct (sendToEndpoints_total i ps t (zlen t) 1 false q) as [q' ->]; [apply Htx|apply Htx|].
    rewrite bind_ok. eauto.
Qed.

Lemma line_turn_total buf n s : zlen buf = SERIAL_BUFFERS_SIZE → 0 <= n <= SERIAL_BUFFERS_SIZE → fields_ok s →
  ∃ s', line_turn buf n s = Ok s' ∧ fields_ok s'.
Proof.
  intros Hb Hn Hs. unfold line_turn. destruct (n =? 0); [eauto|].
  apply (for_ind (λ _ s, fields_ok s)); [done|]. intros i s1 Hi Hs1.
  destruct (get_Ok publish_settings i) as (ps & -> & Hps); [rewrite (z_settings Hz); lia|]. rewrite bind_ok.
  destruct (field_of ps n) as [[start len]|] eqn:E; [|eauto].
  pose proof (z_start Hz) as H0. rewrite Forall_lookup in H0. specialize (H0 _ _ Hps).
  apply field_of_bounds in E as (-> & Hl & He); [|done]. unfold SERIAL_BUFFERS_SIZE in *.
  rewrite copy_field_spec, bind_ok by lia. apply process_total; [|lia|done].
  apply elem_of_app. right. left.
Qed.

Lemma simulated_turn_total rand s : fields_ok s → ∃ s', simulated_turn rand s = Ok s' ∧ fields_ok s'.
Proof.
  intros Hs. unfold simulated_turn. apply (for_ind (λ _ s, fields_ok s)); [done|]. intros i s1 Hi Hs1.
  destruct (get_Ok publish_settings i) as (ps & -> & Hps); [rewrite (z_settings Hz); lia|]. rewrite bind_ok.
  pose proof (z_start Hz) as H0. rewrite Forall_lookup in H0. specialize (H0 _ _ Hps). cbn in H0.
  destruct (simulated_field ps) as [len|] eqn:E; [|eauto].
  assert (0 <= len <= 255) as Hl.
  { revert E. unfold simulated_field, SERIAL_BUFFERS_SIZE. repeat case_match; intros [= <-]; lia. }
  set (d := replicate (Z.to_nat len) _). assert (zlen d = len) as Ed by (unfold d; lens).
  pose proof (wr_n_app [] (replicate 256 0) d) as E1. cbn [app length] in E1. change (Z.of_nat 0) with 0 in E1.
  rewrite E1 by lens. rewrite bind_ok. unfold wr.
  pose proof (wr_n_app d (drop (length d) (replicate 256 0)) [0]) as E2. rewrite Ed in E2.
  rewrite E2 by lens. rewrite bind_ok. apply process_total; [|lia|done].
  apply elem_of_app. right. left.
Qed.

(** Whatever a line contains and whatever the settings are, as long as their texts end in their arrays, one turn of the
    task, with a line or with simulated values, comes to its end without leaving any of its arrays. *)
Theorem sensor_turn_safe buf n rand s :
  zlen buf = SERIAL_BUFFERS_SIZE → 0 <= n <= SERIAL_BUFFERS_SIZE → fields_ok s →
  (∃ s', line_turn buf n s = Ok s' ∧ fields_ok s') ∧ (∃ s', simulated_turn rand s = Ok s' ∧ fields_ok s').
Proof. intros Hb Hn Hs. split; [by apply line_turn_total|by apply simulated_turn_total]. Qed.
End Sensor.

(** ** The theorems at work *)

Definition demo_entry (num : bool) (cnt : Z) : publish_settings_entry :=
  mkEntry true (strncpy (chars "dose") 10) 2 5 num (f32_of_int 2) cnt (strncpy (chars "radprot/1") 30).

Definition demo_settings : list publish_settings_entry :=
  demo_entry false 0 :: demo_entry true 2 :: replicate 8 (mkEntry false (strncpy [] 10) 0 0 false f32_zero 0 (strncpy [] 30)).

(** Numbers of one digit; a float is shown as its mantissa. *)
Definition demo_strtof (t : list Z) : spec_float := f32_of_int (match t with c :: _ => c - 48 | [] => 0 end).
Definition demo_fmt (v : spec_float) : list Z :=
  match v with S754_finite _ m e => [48 + Z.shiftl (Zpos m) e] | _ => [48] end.
Definition demo_json (r : reading) (size : Z) : list Z := take (Z.to_nat size) (value r).
Definition demo_queue : Type := list (list Z).
Definition demo_send (m : MqttPublishMessage) (q : demo_queue) : Z * demo_queue := (1, q ++ [payload m]).
Definition demo_junk : MqttPublishMessage := mkPublish (replicate 128 1) (replicate 256 1) 0 0 false.

Lemma field_text_witness :
  no_nul (chars "AB123") ∧
  ∃ data, copy_field (chars "AB123" ++ 0 :: replicate 250 9) 2 3 = Ok data ∧ zlen data = 256 ∧
    c_str data = Ok (chars "123").
Proof.
  assert (no_nul (chars "AB123")) as H by (unfold no_nul; apply (bool_decide_unpack _); vm_compute; exact I).
  split; [exact H|].
  exact (field_text (demo_entry false 0) (chars "AB123") (replicate 250 9) H eq_refl ltac:(cbn; lia)).
Defined.

Abbreviation demo_run :=
  (process_all demo_strtof demo_fmt demo_json true false demo_send (λ m q, (1, q)) demo_junk (replicate 512 0) 0 demo_settings).

Definition demo_fields : list avg_fields_t := replicate 10 (mkAvg 0 f32_zero).

Lemma demo_averaged fs f : fs !! 1%nat = Some f → averaged demo_settings 1 (demo_entry true 2) fs f.
Proof. intros Hf. by constructor. Qed.

Lemma average_published_witness :
  zlen [[53; 0]; [55; 0]] = avg_cnt (demo_entry true 2) ∧
  ∃ q, demo_run [[53; 0]; [55; 0]] 1 (demo_fields, []) = Ok (demo_fields, q) ∧ length q = 1%nat.
Proof.
  split; [done|]. eexists. split.
  - etransitivity; [apply (average_published demo_strtof demo_fmt demo_json true false demo_send (λ m q, (1, q)) demo_junk
      (replicate 512 0) 0 demo_settings 1 (demo_entry true 2) demo_fields [[53; 0]; [55; 0]] [[53]; [55]] []);
      [by apply demo_averaged|by repeat constructor|done]|vm_compute; reflexivity].
  - vm_compute; reflexivity.
Defined.

Lemma lowered_average_restarts_late_witness :
  c_str [57; 0] = Ok [57] ∧
  ∃ fs q, demo_run [[57; 0]; [53; 0]; [55; 0]] 1 (<[1%nat := mkAvg 2 (f32_of_int 30)]> demo_fields, []) = Ok (fs, q) ∧
    length q = 1%nat.
Proof.
  split; [done|]. eexists _, _. split.
  - etransitivity; [apply (lowered_average_restarts_late demo_strtof demo_fmt demo_json true false demo_send (λ m q, (1, q)) demo_junk
      (replicate 512 0) 0 demo_settings 1 (demo_entry true 2) (<[1%nat := mkAvg 2 (f32_of_int 30)]> demo_fields)
      (f32_of_int 30) [57; 0] [57] [[53; 0]; [55; 0]] [[53]; [55]] []);
      [by apply demo_averaged|done|by repeat constructor|done]|vm_compute; reflexivity].
  - vm_compute; reflexivity.
Defined.

Lemma demo_sizes : sizes_ok demo_json demo_junk (replicate 512 0) demo_settings.
Proof.
  constructor; try done.
  - repeat (apply Forall_cons; split; [cbn; lia|]). apply Forall_nil_2.
  - decided.
  - intros doc. unfold demo_json, WS_MAX_PAYLOAD_LENGTH. rewrite length_take. lia.
Qed.

Lemma sensor_turn_safe_witness :
  fields_ok (demo_fields, [] : demo_queue) ∧
  ∃ s', line_turn demo_strtof demo_fmt demo_json true false demo_send (λ m q, (1, q)) demo_junk (replicate 512 0) 0
    demo_settings (replicate 256 65) 256 (demo_fields, []) = Ok s' ∧ fields_ok s'.
Proof.
  split; [done|].
  exact (proj1 (sensor_turn_safe demo_strtof demo_fmt demo_json true false demo_send (λ m q, (1, q)) demo_junk
    (replicate 512 0) 0 demo_settings demo_sizes (replicate 256 65) 256 (λ _, 7) (demo_fields, [])
    eq_refl ltac:(unfold SERIAL_BUFFERS_SIZE; lia) eq_refl)).
Defined.
