(* ===== verification/Telemetry.v ===== *)
(** From a line of a sensor to the broker and to the page: the serial port (Serial), the sensor's task (Sensor), the MQTT
    task (MqttTask, MqttClient) and the WebSocket server (WebSocket) together.

    [readings] says what a line means: the fields of the settings, cut out, scaled and averaged.  The queues between the
    tasks are FreeRTOS queues of ten messages, filled without waiting. *)
From Stdlib Require Import Floats.SpecFloat.
From S2P Require Import Prelude CString MqttPacket MqttSerialize MqttDeserialize StateMonad Network MqttClient MqttClientSafe MqttClientSession MqttTask Sensor.
From S2P Require Serial WebSocket.

(** ** Queues *)

(** [xQueueSend] that does not wait, on a queue of [n] places. *)
Definition fifo_send {A} (n : Z) (m : A) (q : list A) : Z * list A := if zlen q <? n then (pdPASS, q ++ [m]) else (0, q).

(** The queues of the MQTT task and of the WebSocket server. *)
Definition queues : Type := list MqttPublishMessage * list (list Z * Z).
Definition mqtt_send (m : MqttPublishMessage) (q : queues) : Z * queues := let '(r, l) := fifo_send 10 m q.1 in (r, (l, q.2)).
Definition ws_send (m : list Z * Z) (q : queues) : Z * queues := let '(r, l) := fifo_send 10 m q.2 in (r, (q.1, l)).

Lemma fifo_send_room {A} n (m : A) q : zlen q < n → fifo_send n m q = (pdPASS, q ++ [m]).
Proof. intros H. unfold fifo_send. by rewrite (proj2 (Z.ltb_lt _ _) H). Qed.

(** The text in the array of the topic. *)
Abbreviation topic_text ps := (upto_nul (ps_topic ps)).

(** A queued message carries a topic and a value; it is for one-time publication with an acknowledgement. *)
Definition carries (m : MqttPublishMessage) (text value : list Z) : Prop :=
  c_str (topic m) = Ok (take 127 text) ∧ c_str (payload m) = Ok (take 255 value) ∧ qos m = 1.

Section Readings.
Context (strtof : list Z → spec_float) (fmt_f : spec_float → list Z) (serializeJson : reading → Z → list Z).
Context (junk_msg : MqttPublishMessage) (junk_ws : list Z) (sensor_num : Z) (publish_settings : list publish_settings_entry).

(** ** What a line means *)

(** The characters of a field. *)
Definition field_chars (ps : publish_settings_entry) (line : list Z) : option (list Z) :=
  if negb (enabled ps) || (ps_end ps <=? ps_start ps) || (zlen line <? ps_start ps) then None
  else Some (take (Z.to_nat (ps_end ps - ps_start ps)) (drop (Z.to_nat (ps_start ps)) line)).

(** The value that is published for it, if any, and the average afterwards. *)
Definition read_field (ps : publish_settings_entry) (f : avg_fields_t) (text : list Z) : option (list Z) * avg_fields_t :=
  if is_num ps then
    let val := f32_mul (strtof text) (scale ps) in
    if 0 <? avg_cnt ps then
      let f := if avg_cnt ps <? avg_cnt_current f then mkAvg 0 f32_zero else f in
      let n := avg_cnt_current f + 1 in
      let sum := f32_add (accum f) val in
      if n =? avg_cnt ps then (Some (take 255 (fmt_f (f32_div sum (f32_of_int (avg_cnt ps))))), mkAvg 0 f32_zero)
      else (None, mkAvg n sum)
    else (Some (take 255 (fmt_f val)), f)
  else (Some text, f).

(** The readings of a line, each with its place in the settings and its entry, and all averages afterwards. *)
Fixpoint readings (i : Z) (settings : list publish_settings_entry) (fs : list avg_fields_t) (line : list Z)
  : list (Z * publish_settings_entry * list Z) * list avg_fields_t :=
  match settings, fs with
  | ps :: settings, f :: fs =>
      let '(v, f') := match field_chars ps line with Some text => read_field ps f text | None => (None, f) end in
      let '(l, fs') := readings (i + 1) settings fs line in
      (match v with Some v => (i, ps, v) :: l | None => l end, f' :: fs')
  | _, _ => ([], fs)
  end.

(** ** What the task queues *)

(** The message for the broker and the document for the page stand for a reading. *)
Definition queued (r : Z * publish_settings_entry * list Z) (m : MqttPublishMessage) (w : list Z * Z) : Prop :=
  let '(i, ps, v) := r in
  carries m (topic_text ps) v ∧
  ∃ rest, w = (serializeJson (mkReading sensor_num i (upto_nul (name ps)) v (topic_text ps)) WS_MAX_PAYLOAD_LENGTH ++ rest,
               zlen (serializeJson (mkReading sensor_num i (upto_nul (name ps)) v (topic_text ps)) WS_MAX_PAYLOAD_LENGTH)).

Context (Hz : sizes_ok serializeJson junk_msg junk_ws publish_settings).
Context (Hfmt : ∀ v, no_nul (fmt_f v)).

Abbreviation process := (process_and_publish strtof fmt_f serializeJson true true mqtt_send ws_send junk_msg junk_ws sensor_num publish_settings).
Abbreviation send := (sendToEndpoints serializeJson true true mqtt_send ws_send junk_msg junk_ws sensor_num).

Lemma send_queues i ps v n (q : queues) : 0 ∈ name ps ∧ 0 ∈ ps_topic ps → no_nul v → zlen q.1 < 10 → zlen q.2 < 10 →
  ∃ m w, send i (name ps) (ps_topic ps) v n 1 false q = Ok (q.1 ++ [m], q.2 ++ [w]) ∧ queued (i, ps, v) m w.
Proof.
  intros [Hn Ht] Hv H1 H2. destruct Hz as [_ _ _ Hlt Hlp Hw Hj]. destruct q as [q1 q2]. cbn [fst snd] in *. unfold sendToEndpoints.
  rewrite (c_str_upto _ Hn), (c_str_upto _ Ht), bind_ok.
  destruct (queue_carries_strings mqtt_send junk_msg (topic_text ps) v n 1 false (q1, q2) (upto_nul_no_nul _) Hv Hlt Hlp)
    as (m & -> & Em & Ep & _ & _ & Eq & _).
  unfold mqtt_send. cbn [fst snd]. rewrite fifo_send_room by done. rewrite !bind_ok. cbn zeta.
  specialize (Hj (mkReading sensor_num i (upto_nul (name ps)) v (topic_text ps))). set (text := serializeJson _ _) in *.
  pose proof (wr_n_app [] junk_ws text) as E. cbn [app] in E. change (zlen []) with 0 in E. rewrite E by lia. rewrite bind_ok.
  unfold ws_send. cbn [fst snd]. rewrite fifo_send_room by done. eexists m, _. split; [done|]. split; [done|]. by eexists.
Qed.

Lemma number_queues i ps v (q : queues) : 0 ∈ name ps ∧ 0 ∈ ps_topic ps → zlen q.1 < 10 → zlen q.2 < 10 →
  ∃ m w, publish_number fmt_f serializeJson true true mqtt_send ws_send junk_msg junk_ws sensor_num i ps v q = Ok (q.1 ++ [m], q.2 ++ [w]) ∧
    queued (i, ps, take 255 (fmt_f v)) m w.
Proof.
  intros Ht H1 H2. unfold publish_number, Sensor.SERIAL_BUFFERS_SIZE.
  destruct (snprintf_truncates (replicate 256 0) 256 (fmt_f v)) as (b & E & Ec & _); [lia|done|done|]. rewrite E, bind_ok, Ec, bind_ok.
  change (Z.to_nat (256 - 1)) with 255%nat. apply send_queues; [done|by apply Forall_take, Hfmt|done|done].
Qed.

(** A field: at most one message, and the average as [read_field] says. *)
Lemma process_reads i ps f text data fs (q : queues) :
  0 <= i → publish_settings !! Z.to_nat i = Some ps → fs !! Z.to_nat i = Some f → c_str data = Ok text → no_nul text →
  zlen q.1 < 10 → zlen q.2 < 10 →
  match read_field ps f text with
  | (Some v, f') => ∃ m w, process data i (fs, q) = Ok (<[Z.to_nat i := f']> fs, (q.1 ++ [m], q.2 ++ [w])) ∧ queued (i, ps, v) m w
  | (None, f') => process data i (fs, q) = Ok (<[Z.to_nat i := f']> fs, q)
  end.
Proof.
  intros Hi Hps Hf Hd Htext H1 H2. unfold process_and_publish. rewrite (get_lookup _ _ _ Hi Hps), bind_ok, Hd, bind_ok.
  assert (Ht : 0 ∈ name ps ∧ 0 ∈ ps_topic ps) by (pose proof (z_texts _ _ _ _ Hz) as Htx; rewrite Forall_lookup in Htx; by eapply Htx).
  pose proof (lookup_lt_Some _ _ _ Hf) as Hlt. unfold read_field. destruct (is_num ps).
  - destruct (0 <? avg_cnt ps).
    + rewrite (get_lookup _ _ _ Hi Hf), bind_ok. cbn zeta. set (f1 := if avg_cnt ps <? avg_cnt_current f then _ else f).
      cbn [avg_cnt_current accum]. destruct (_ =? avg_cnt ps).
      * match goal with |- context [publish_number _ _ _ _ _ _ _ _ _ _ _ ?v _] =>
          destruct (number_queues i ps v q Ht H1 H2) as (m & w & E & Hq) end.
        exists m, w. rewrite E, bind_ok, set_Ok, bind_ok by lia. done.
      * by rewrite set_Ok, bind_ok by lia.
    + match goal with |- context [publish_number _ _ _ _ _ _ _ _ _ _ _ ?v _] =>
        destruct (number_queues i ps v q Ht H1 H2) as (m & w & E & Hq) end.
      exists m, w. rewrite E, bind_ok. by rewrite list_insert_id.
  - destruct (send_queues i ps text (zlen text) q Ht Htext H1 H2) as (m & w & E & Hq).
    exists m, w. rewrite E, bind_ok. by rewrite list_insert_id.
Qed.

Lemma field_of_chars ps line r : no_nul line → zlen (line ++ 0 :: r) = Sensor.SERIAL_BUFFERS_SIZE → 0 <= ps_start ps →
  match field_chars ps line with
  | Some text => no_nul text ∧ ∃ start len data, field_of ps (zlen line + 1) = Some (start, len) ∧
      copy_field (line ++ 0 :: r) start len = Ok data ∧ c_str data = Ok text
  | None => field_of ps (zlen line + 1) = None
  end.
Proof.
  intros Hl Hb H0. pose proof (field_text ps line r Hl Hb H0) as Hf. unfold field_chars.
  destruct (enabled ps) eqn:Een; cbn [negb orb]; [|unfold field_of; by rewrite Een].
  destruct (Z.leb_spec (ps_end ps) (ps_start ps)) as [Hse|Hse]; cbn [orb].
  { unfold field_of. rewrite Een, (proj2 (Z.leb_le _ _) Hse). done. }
  destruct (Z.ltb_spec (zlen line) (ps_start ps)) as [Hs|Hs].
  { unfold field_of. rewrite (proj2 (Z.leb_le (zlen line + 1) (ps_start ps))) by lia. by rewrite orb_true_r. }
  split; [by apply Forall_take, Forall_drop|]. destruct (field_of ps (zlen line + 1)) as [[start len]|].
  - destruct Hf as (data & E & _ & Ec). by exists start, len, data.
  - destruct Hf as [?|[?|?]]; [congruence|lia|lia].
Qed.

(** The loop over the entries. *)
Lemma loop_reads line r suf pre fpre fsuf (q : queues) :
  no_nul line → zlen (line ++ 0 :: r) = Sensor.SERIAL_BUFFERS_SIZE → publish_settings = pre ++ suf → length fpre = length pre →
  length fsuf = length suf → zlen q.1 + zlen suf <= 10 → zlen q.2 + zlen suf <= 10 →
  let '(l, fs') := readings (zlen pre) suf fsuf line in
  ∃ ms ws, for_ (length suf) (zlen pre) (λ i s,
      ps ← get publish_settings i;
      match field_of ps (zlen line + 1) with
      | None => Ok s
      | Some (start, len) => data ← copy_field (line ++ 0 :: r) start len; process data i s
      end) (fpre ++ fsuf, q) = Ok (fpre ++ fs', (q.1 ++ ms, q.2 ++ ws)) ∧ Forall3 queued l ms ws.
Proof.
  intros Hl Hb. revert pre fpre fsuf q. induction suf as [|ps suf IH]; intros pre fpre fsuf q Hps Hpre Hfs H1 H2.
  { destruct fsuf; [|done]. exists [], []. cbn [for_ length]. rewrite !app_nil_r. destruct q. split; [done|constructor]. }
  destruct fsuf as [|f fsuf]; [done|]. cbn [readings length] in *.
  assert (Hi : publish_settings !! length pre = Some ps) by (rewrite Hps; by apply list_lookup_middle).
  assert (H0 : 0 <= ps_start ps) by (pose proof (z_start _ _ _ _ Hz) as Hst; rewrite Forall_lookup in Hst; by eapply Hst).
  assert (Hf : (fpre ++ f :: fsuf) !! length pre = Some f) by (rewrite <- Hpre; by apply list_lookup_middle).
  rewrite for_S, (get_lookup _ (zlen pre) ps) by (lia || by rewrite Nat2Z.id). rewrite bind_ok.
  assert (Hnext : ∀ f' (q' : queues), zlen q'.1 + zlen suf <= 10 → zlen q'.2 + zlen suf <= 10 →
    let '(l, fs') := readings (zlen pre + 1) suf fsuf line in ∃ ms ws, for_ (length suf) (zlen pre + 1) (λ i s,
      ps ← get publish_settings i;
      match field_of ps (zlen line + 1) with
      | None => Ok s
      | Some (start, len) => data ← copy_field (line ++ 0 :: r) start len; process data i s
      end) (<[length pre := f']> (fpre ++ f :: fsuf), q') = Ok (fpre ++ f' :: fs', (q'.1 ++ ms, q'.2 ++ ws)) ∧ Forall3 queued l ms ws).
  { intros f' q' H1' H2'. specialize (IH (pre ++ [ps]) (fpre ++ [f']) fsuf q'). replace (zlen (pre ++ [ps])) with (zlen pre + 1) in IH by lens.
    replace (<[length pre := f']> (fpre ++ f :: fsuf)) with ((fpre ++ [f']) ++ fsuf) by (rewrite <- Hpre, insert_app_r_alt, Nat.sub_diag by lia; cbn; by rewrite <- app_assoc).
    destruct (readings (zlen pre + 1) suf fsuf line) as [l fs'].
    destruct IH as (ms & ws & E & HF); [by rewrite <- app_assoc|lens|lia|done|done|]. exists ms, ws. split; [|done]. etransitivity; [exact E|]. by rewrite <- app_assoc. }
  pose proof (field_of_chars ps line r Hl Hb H0) as Hc. destruct (field_chars ps line) as [text|].
  - destruct Hc as (Htext & start & len & data & -> & Ecopy & Ec). rewrite Ecopy, bind_ok.
    pose proof (process_reads (zlen pre) ps f text data (fpre ++ f :: fsuf) q ltac:(lia)) as Hp. rewrite !Nat2Z.id in Hp.
    specialize (Hp Hi Hf Ec Htext ltac:(lia) ltac:(lia)). destruct (read_field ps f text) as [[v|] f'].
    + destruct Hp as (m & w & -> & Hq). rewrite bind_ok. specialize (Hnext f' (q.1 ++ [m], q.2 ++ [w])).
      destruct (readings (zlen pre + 1) suf fsuf line) as [l fs']. destruct Hnext as (ms & ws & E & HF); [cbn; lens|cbn; lens|].
      exists (m :: ms), (w :: ws). split; [|by constructor]. etransitivity; [exact E|]. cbn [fst snd]. by rewrite <- !app_assoc.
    + rewrite Hp, bind_ok. specialize (Hnext f' q). destruct (readings (zlen pre + 1) suf fsuf line) as [l fs']. apply Hnext; lia.
  - rewrite Hc, bind_ok. specialize (Hnext f q). rewrite list_insert_id in Hnext by done.
    destruct (readings (zlen pre + 1) suf fsuf line) as [l fs']. apply Hnext; lia.
Qed.

(** A turn of the sensor's task implements [readings]: what is queued are the readings of the line, in their order. *)
Lemma line_turn_reads line r fs (q : queues) : no_nul line → zlen (line ++ 0 :: r) = Sensor.SERIAL_BUFFERS_SIZE →
  length fs = MAX_PUBLISH_SETTINGS → q = ([], []) →
  let '(l, fs') := readings 0 publish_settings fs line in
  ∃ ms ws, line_turn strtof fmt_f serializeJson true true mqtt_send ws_send junk_msg junk_ws sensor_num publish_settings
      (line ++ 0 :: r) (zlen line + 1) (fs, q) = Ok (fs', (ms, ws)) ∧ Forall3 queued l ms ws.
Proof.
  intros Hl Hb Hfs ->. unfold line_turn. destruct (Z.eqb_spec (zlen line + 1) 0); [lia|].
  pose proof (z_settings _ _ _ _ Hz) as Hn.
  pose proof (loop_reads line r publish_settings [] [] fs ([], []) Hl Hb eq_refl eq_refl) as H. rewrite Hn in H.
  specialize (H Hfs ltac:(done) ltac:(done)). change (zlen (@nil publish_settings_entry)) with 0 in H.
  destruct (readings 0 publish_settings fs line) as [l fs']. exact H.
Qed.
End Readings.

(** ** The broker *)

Section Broker.
Context {W : Type} {clock : Clock W} {dialer : Dialer W} {prompt : Prompt W}.
Context (network : Z → Network W) {prompt_network : ∀ socket, 0 <= socket → PromptNetwork W (H1 := network socket)}.
Context (fuel : nat) (junk : publish_out) (junk_ack : ack_out) (junk_message : MQTTMessage).
Context (enough_fuel : (2 ≤ fuel)%nat) (junk_id : is_u16 (m_id junk_message)).
Implicit Types (x : task (W := W)).

(** The inner loop of [mqtt_task], as long as there are messages and the session lasts. *)
Fixpoint publish_all (ms : list MqttPublishMessage) (x : task (W := W)) : outcome (phase * task) :=
  match ms with
  | [] => Ok (Publishing, x)
  | m :: ms =>
      '(p, x) ← publish_turn network fuel junk junk_ack junk_message (Some m) x;
      match p with Publishing => publish_all ms x | Dialing => Ok (Dialing, x) end
  end.

Definition next_id (id : Z) : Z := id mod 65535 + 1.

(** The packets that publish some topics and values after the identifier [id]. *)
Fixpoint published (id : Z) (l : list (list Z * list Z)) : list Z :=
  match l with
  | [] => []
  | (t, v) :: l => publish_packet 0 1 0 (next_id id) t v ++ published (next_id id) l
  end.

(** The session is up; [id] is the identifier used last. *)
Record online (x : task (W := W)) (id : Z) : Prop := {
  on_ready : ready (client (t_st x));
  on_connected : isconnected (client (t_st x)) ≠ 0;
  on_timeout : 0 < command_timeout_ms (client (t_st x)) < 2147483648;
  on_id : next_packetid (client (t_st x)) = id ∧ 1 <= id <= MAX_PACKET_ID;
  on_buf : buf_size (client (t_st x)) = 80;
  on_socket : 0 <= my_socket (t_dial x);
}.

(** The packet of a topic and a value fits the buffer of [mqtt_task]. *)
Definition fits_packet (t v : list Z) : Prop := MQTTPacket_len (zlen (publish_body 1 0 t v)) <= 80.

#[export] Instance fits_packet_dec t v : Decision (fits_packet t v).
Proof. unfold fits_packet. apply _. Defined.

Lemma body_length id t v : zlen (publish_body 1 id t v) = zlen t + zlen v + 4.
Proof. unfold publish_body, str_bytes, int_bytes. cbn [Z.ltb Z.compare]. lens. Qed.

Lemma fits_short t v : fits_packet t v → zlen t + zlen v <= 74.
Proof. unfold fits_packet, MQTTPacket_len. rewrite body_length. repeat case_match; lia. Qed.

Lemma publish_turn_delivers m t v ack rest x id :
  carries m t v → fits_packet t v → is_u16 ack → online x id → incoming (world (t_st x)) = ack_packet PUBACK 0 ack ++ rest →
  ∃ x', publish_turn network fuel junk junk_ack junk_message (Some m) x = Ok (Publishing, x') ∧ online x' (next_id id) ∧
    incoming (world (t_st x')) = rest ∧ outgoing (world (t_st x')) = outgoing (world (t_st x)) ++ publish_packet 0 1 0 (next_id id) t v.
Proof.
  intros (Et & Ev & Eq) Hfit Hack [Hr Hc Hto [Hid Hid'] Hb Hsock] Hin. pose proof (fits_short _ _ Hfit) as Hs. unfold publish_turn.
  rewrite take_ge in Et by lia. rewrite take_ge in Ev by lia. rewrite Ev, bind_ok, Et, bind_ok, Eq. cbn zeta.
  destruct (c_str_inv _ _ Ev) as [r Er]. set (msg := mkMessage 1 0 _ _ _ _).
  destruct (publish_exchange (network := network (my_socket (t_dial x))) (prompt_network := prompt_network _ Hsock) fuel junk junk_ack enough_fuel t msg v (0 :: r) ack rest (t_st x))
    as (s' & E & Hi & Ho & Hsess & Hr'); try done; [by rewrite Hid|by cbn; rewrite Er|cbn; lia|rewrite body_length; lia| |].
  { rewrite Hb, body_length. unfold fits_packet in Hfit. by rewrite body_length in Hfit. }
  unfold numbered, used_id in *. cbn [m_qos msg Z.ltb Z.compare m_retained m_id] in *. rewrite Hid in *. fold (next_id id) in *.
  exists (mkTask s' (t_dial x) (mqtt_connection_status x) (mqtt_reconnect x)). rewrite E, bind_ok. cbn [SUCCESS Z.eqb].
  split; [done|]. rewrite app_nil_r in Ho. cbn [t_st t_dial]. split_and!; [|done|done].
  unfold session in Hsess. injection Hsess as Hn Hto' Hb' _ _ _ Hc' _ _ _. cbn in Hn, Hto', Hb', Hc'.
  constructor; cbn [t_st t_dial]; [done|congruence|congruence|split; [done|]|congruence|done].
  unfold next_id, MAX_PACKET_ID in *. zdiv.
Qed.

Lemma publish_all_delivers ms l acks rest x id : Forall2 (λ m r, carries m r.1 r.2) ms l → Forall (λ r, fits_packet r.1 r.2) l →
  length acks = length ms → Forall is_u16 acks → online x id →
  incoming (world (t_st x)) = concat (map (ack_packet PUBACK 0) acks) ++ rest →
  ∃ x' id', publish_all ms x = Ok (Publishing, x') ∧ online x' id' ∧ incoming (world (t_st x')) = rest ∧
    outgoing (world (t_st x')) = outgoing (world (t_st x)) ++ published id l.
Proof.
  intros Hms. revert acks x id. induction Hms as [|m [t v] ms l Hm Hms IH]; intros acks x id Hl Ha Hacks Hon Hin.
  { destruct acks; [|done]. exists x, id. cbn [publish_all published]. rewrite app_nil_r. done. }
  destruct acks as [|ack acks]; [done|]. inversion Hl as [|? ? Hfit Hl']. inversion Hacks as [|? ? Hack Hacks']. subst.
  cbn [map concat publish_all published fst snd length] in *. rewrite <- app_assoc in Hin.
  destruct (publish_turn_delivers m t v ack _ x id Hm Hfit Hack Hon Hin) as (x1 & E & Hon1 & Hi1 & Ho1). rewrite E, bind_ok.
  destruct (IH acks x1 (next_id id)) as (x' & id' & E' & Hon' & Hi' & Ho'); [done|lia|done|done|done|].
  exists x', id'. rewrite E'. split_and!; [done|done|done|]. by rewrite Ho', Ho1, <- app_assoc.
Qed.
End Broker.

(** ** The page *)

(** What a server has sent. *)
Definition frames (evs : list WebSocket.event) : list (list Z) :=
  omap (λ e, match e with WebSocket.Send _ l => Some l | _ => None end) evs.

Lemma frames_app a b : frames (a ++ b) = frames a ++ frames b.
Proof. apply omap_app. Qed.

Lemma send_queued_frames ws docs s : Forall2 (λ w d, ∃ rest, w = (d ++ rest, zlen d)) ws docs → Forall (λ d, zlen d <= 502) docs →
  WebSocket.arrays_ok s → WebSocket.established s = true →
  ∃ s', WebSocket.send_queued ws s = Ok s' ∧ WebSocket.websocketQueue s' = [] ∧
    frames (WebSocket.events s') = frames (WebSocket.events s) ++ map (WebSocket.server_frame WebSocket.WS_TYPE_TEXT) docs.
Proof.
  intros Hws. revert s. induction Hws as [|w d ws docs [rest ->] _ IH]; intros s Hd Ha He.
  { eexists. split; [done|]. cbn. by rewrite app_nil_r. }
  inversion Hd; subst. cbn [WebSocket.send_queued]. rewrite He.
  destruct (WebSocket.send_message_frame s d rest WebSocket.WS_TYPE_TEXT Ha) as (s1 & E & Ha1 & Es); [done|lia|].
  rewrite E, bind_ok. rewrite He, (proj2 (Z.leb_le _ _)) in Es by done. cbn [andb] in Es.
  destruct (IH s1) as (s' & E' & Hq & Hf); [done|done|by rewrite Es|]. exists s'. split; [done|]. split; [done|].
  rewrite Hf, Es. cbn [WebSocket.events WebSocket.emit]. rewrite !frames_app, <- app_assoc. f_equal. cbn. by rewrite app_nil_r.
Qed.

(** ** The whole way *)

Section Whole.
Context (strtof : list Z → spec_float) (fmt_f : spec_float → list Z) (serializeJson : reading → Z → list Z).
Context (junk_msg : MqttPublishMessage) (junk_ws : list Z) (sensor_num : Z) (publish_settings : list publish_settings_entry).
Context (Hz : sizes_ok serializeJson junk_msg junk_ws publish_settings).
Context (Hfmt : ∀ v, no_nul (fmt_f v)).
Context {Q : Type} {queue : RingBuffer.CharQueue Q}.
Context {W : Type} {clock : Clock W} {dialer : Dialer W} {prompt : Prompt W}.
Context (network : Z → Network W) {prompt_network : ∀ socket, 0 <= socket → PromptNetwork W (H1 := network socket)}.
Context (fuel : nat) (junk : publish_out) (junk_ack : ack_out) (junk_message : MQTTMessage).
Context (enough_fuel : (2 ≤ fuel)%nat) (junk_id : is_u16 (m_id junk_message)).

Definition topic_value (r : Z * publish_settings_entry * list Z) : list Z * list Z := (topic_text r.1.2, r.2).
Definition document (r : Z * publish_settings_entry * list Z) : list Z :=
  serializeJson (mkReading sensor_num r.1.1 (upto_nul (name r.1.2)) r.2 (topic_text r.1.2)) WS_MAX_PAYLOAD_LENGTH.

Lemma queued_all rs ms ws : Forall3 (queued serializeJson sensor_num) rs ms ws →
  Forall2 (λ m r, carries m r.1 r.2) ms (map topic_value rs) ∧
  Forall2 (λ w d, ∃ rest, w = (d ++ rest, zlen d)) ws (map document rs).
Proof. induction 1 as [|[[i ps] v] m w rs ms ws [Hm Hw] _ [IH1 IH2]]; cbn [map]; [done|]. split; by constructor. Qed.

(** C2: A line of a sensor reaches the broker and the page.  The characters of a line that come in at the UART, however the
    interrupts split them, become - by way of the receive queue, the sensor's task, the two queues of messages, the MQTT
    task and its client, and the WebSocket server - exactly the PUBLISH packets of the readings of the line, on the
    topics of the settings, with successive identifiers, and the text frames of their documents; the averages are those
    of the line; port, session and queues are ready for the next one.  Supposed: the line fits the queue, every packet
    the 80 bytes of [mqtt_task] and every document a frame; the broker acknowledges each packet, with whatever
    identifier; the client of the page is connected. *)
Theorem line_reaches_broker_and_page s l t turns fs x id acks rest ws :
  Serial.serial_idle s → Forall Serial.plain l → l ≠ [] → zlen l <= RingBuffer.q_cap (Serial.uart_buffer s) - 2 → zlen l < 255 →
  t = 13 ∨ t = 10 → Forall (λ y, Serial.timed_out y = false) turns → concat (map Serial.arrived turns) = l ++ [t] →
  length fs = MAX_PUBLISH_SETTINGS →
  let '(rs, fs') := readings strtof fmt_f 0 publish_settings fs l in
  Forall (λ r, fits_packet r.1 r.2) (map topic_value rs) → Forall (λ d, zlen d <= 502) (map document rs) →
  online x id → length acks = length rs → Forall is_u16 acks →
  incoming (world (t_st x)) = concat (map (ack_packet PUBACK 0) acks) ++ rest →
  WebSocket.arrays_ok ws → WebSocket.established ws = true →
  ∃ s' buf n ms docs x' id' ws',
    Serial.read_string turns s (replicate 256 0) 256 = Ok (s', buf, n) ∧ Serial.serial_idle s' ∧
    line_turn strtof fmt_f serializeJson true true mqtt_send ws_send junk_msg junk_ws sensor_num publish_settings buf n (fs, ([], []))
      = Ok (fs', (ms, docs)) ∧
    publish_all network fuel junk junk_ack junk_message ms x = Ok (Publishing, x') ∧ online x' id' ∧ incoming (world (t_st x')) = rest ∧
    outgoing (world (t_st x')) = outgoing (world (t_st x)) ++ published id (map topic_value rs) ∧
    WebSocket.send_queued docs ws = Ok ws' ∧ WebSocket.websocketQueue ws' = [] ∧
    frames (WebSocket.events ws') = frames (WebSocket.events ws) ++ map (WebSocket.server_frame WebSocket.WS_TYPE_TEXT) (map document rs).
Proof.
  intros Hs Hl Hne Hcap Hlen Ht Hto Harr Hfs.
  destruct (Serial.read_string_line turns s [] l t (replicate 256 0) 256) as (s' & Er & Hs');
    [by apply Serial.idle_line|done|done|done|cbn; lia|done|done|done|cbn; lia|done|].
  cbn [app] in Er. set (r := drop (S (length l)) (replicate 256 0)) in Er.
  assert (Hnul : no_nul l) by (eapply Forall_impl; [exact Hl|]; by intros c (?&?&?)).
  assert (Hbuf : zlen (l ++ 0 :: r) = Sensor.SERIAL_BUFFERS_SIZE) by (unfold r, Sensor.SERIAL_BUFFERS_SIZE; lens).
  pose proof (line_turn_reads strtof fmt_f serializeJson junk_msg junk_ws sensor_num publish_settings Hz Hfmt
    l r fs ([], []) Hnul Hbuf Hfs eq_refl) as Hturn.
  destruct (readings strtof fmt_f 0 publish_settings fs l) as [rs fs'].
  intros Hfit Hdoc Hon Hacks Hu16 Hin Hws Hest. destruct Hturn as (ms & docs & Eturn & Hq). destruct (queued_all _ _ _ Hq) as [Hms Hdocs].
  destruct (publish_all_delivers network fuel junk junk_ack junk_message enough_fuel junk_id ms (map topic_value rs) acks rest x id)
    as (x' & id' & Ep & Hon' & Hi & Ho); [done|done|by rewrite (Forall2_length _ _ _ Hms), length_map|done|done|done|].
  destruct (send_queued_frames docs (map document rs) ws Hdocs Hdoc Hws Hest) as (ws' & Ew & Hwq & Hf).
  exists s', (l ++ 0 :: r), (zlen l + 1), ms, docs, x', id', ws'. split_and!; try done. rewrite Er. by rewrite <- app_assoc.
Qed.
End Whole.

(** ** An example

    The line AB123: a text field of the characters 2 to 4, and the second reading of a field that is averaged over two. *)

#[local] Existing Instance RingBuffer.ring_queue.

Definition demo_averages : list avg_fields_t := <[1%nat := mkAvg 1 (f32_of_int 4)]> demo_fields.

Definition demo_online : task (W := wire) :=
  mkTask (mkSt live_client (mkWire 0 (concat (map (ack_packet PUBACK 0) [2; 7]) ++ [208; 0]) [])) (mkDial true 7 3) true false.

Definition demo_page : WebSocket.server := WebSocket.set_client (WebSocket.demo_server (replicate 512 0)) 3 true.

Lemma demo_prompt socket : 0 <= socket → PromptNetwork wire (H1 := FreeRTOS_Network socket 1).
Proof. intros Hs. apply (FreeRTOS_PromptNetwork socket 0). apply Z.leb_le in Hs. rewrite Hs. constructor. Qed.

Definition demo_readings : list (Z * publish_settings_entry * list Z) :=
  [(0, demo_entry false 0, chars "123"); (1, demo_entry true 2, chars "3")].

Lemma demo_reads : readings demo_strtof demo_fmt 0 demo_settings demo_averages (chars "AB123") = (demo_readings, demo_fields).
Proof. by vm_compute. Qed.

Lemma demo_published : published 1 (map topic_value demo_readings) =
  publish_packet 0 1 0 2 (chars "radprot/1") (chars "123") ++ publish_packet 0 1 0 3 (chars "radprot/1") (chars "3").
Proof. by vm_compute. Qed.

Lemma demo_frames : map (WebSocket.server_frame WebSocket.WS_TYPE_TEXT) (map (document demo_json 0) demo_readings) = [[129; 3; 49; 50; 51]; [129; 1; 51]].
Proof. by vm_compute. Qed.

Lemma line_reaches_broker_and_page_witness : ∃ s' buf n ms docs x' ws',
  Serial.read_string [Serial.mkTurn false [65; 66]; Serial.mkTurn false [49; 50; 51; 13]] Serial.demo_port (replicate 256 0) 256 = Ok (s', buf, n) ∧
  line_turn demo_strtof demo_fmt demo_json true true mqtt_send ws_send demo_junk (replicate 512 0) 0 demo_settings buf n (demo_averages, ([], []))
    = Ok (demo_fields, (ms, docs)) ∧
  publish_all (λ socket, FreeRTOS_Network socket 1) 2 demo_junk_pub (mkAck 0 0 0) (MqttClient.mkMessage 0 0 0 0 None 0) ms demo_online = Ok (Publishing, x') ∧
  outgoing (world (t_st x')) =
    publish_packet 0 1 0 2 (chars "radprot/1") (chars "123") ++ publish_packet 0 1 0 3 (chars "radprot/1") (chars "3") ∧
  WebSocket.send_queued docs demo_page = Ok ws' ∧ frames (WebSocket.events ws') = [[129; 3; 49; 50; 51]; [129; 1; 51]].
Proof.
  assert (Hn : ∀ v, no_nul (demo_fmt v)).
  { intros []; try (by repeat constructor). unfold demo_fmt. repeat constructor. assert (0 <= Z.shiftl (Z.pos m) e) by (apply Z.shiftl_nonneg; lia). lia. }
  pose proof (line_reaches_broker_and_page demo_strtof demo_fmt demo_json demo_junk (replicate 512 0) 0 demo_settings demo_sizes Hn
    (λ socket, FreeRTOS_Network socket 1) (prompt_network := demo_prompt) 2 demo_junk_pub (mkAck 0 0 0) (MqttClient.mkMessage 0 0 0 0 None 0)
    ltac:(lia) ltac:(decided) Serial.demo_port (chars "AB123") 13 [Serial.mkTurn false [65; 66]; Serial.mkTurn false [49; 50; 51; 13]]
    demo_averages demo_online 1 [2; 7] [208; 0] demo_page) as H.
  rewrite demo_reads in H. rewrite demo_published, demo_frames in H.
  destruct H as (s' & buf & n & ms & docs & x' & id' & ws' & Er & _ & El & Ep & _ & _ & Eo & Ew & _ & Ef).
  - apply Serial.demo_port_idle.
  - decided.
  - done.
  - decided.
  - decided.
  - by left.
  - by repeat constructor.
  - done.
  - done.
  - decided.
  - decided.
  - split; [exact live_ready|done|done|done|done|done].
  - done.
  - repeat constructor; done.
  - done.
  - constructor; done.
  - done.
  - exists s', buf, n, ms, docs, x', ws'. split; [exact Er|]. split; [exact El|]. split; [exact Ep|]. split; [exact Eo|]. split; [exact Ew|exact Ef].
Defined.
