(* ===== verification/EncRegisters.v ===== *)
(** The registers of the ENC28J60 Ethernet controller (enc28j60/inc/enc28j60_registers.h): a register
    constant holds the address in bits 0-4, the bank in bits 5-6 and the MAC/MII flag in bit 7. *)
From S2P Require Import Prelude.

Definition BANK_MASK : Z := 0x60.
Definition ENC_ADDR_MASK : Z := 0x1f.

Definition EIE : Z := 0x1B.
Definition EIR : Z := 0x1C.
Definition ESTAT : Z := 0x1D.
Definition ECON2 : Z := 0x1E.
Definition ECON1 : Z := 0x1F.
Definition ERDPT : Z := 0x00.
Definition EWRPT : Z := 0x02.
Definition ETXST : Z := 0x04.
Definition ETXND : Z := 0x06.
Definition ERXST : Z := 0x08.
Definition ERXND : Z := 0x0A.
Definition ERXRDPT : Z := 0x0C.
Definition ERXWRPT : Z := 0x0E.
Definition ERXFCON : Z := Z.lor 0x18 0x20.
Definition EPKTCNT : Z := Z.lor 0x19 0x20.
Definition MACON1 : Z := Z.lor (Z.lor 0x00 0x40) 0x80.
Definition MACON3 : Z := Z.lor (Z.lor 0x02 0x40) 0x80.
Definition MACON4 : Z := Z.lor (Z.lor 0x03 0x40) 0x80.
Definition MABBIPG : Z := Z.lor (Z.lor 0x04 0x40) 0x80.
Definition MAIPG : Z := Z.lor (Z.lor 0x06 0x40) 0x80.
Definition MAMXFL : Z := Z.lor (Z.lor 0x0A 0x40) 0x80.
Definition MICMD : Z := Z.lor (Z.lor 0x12 0x40) 0x80.
Definition MIREGADR : Z := Z.lor (Z.lor 0x14 0x40) 0x80.
Definition MIWR : Z := Z.lor (Z.lor 0x16 0x40) 0x80.
Definition MIRDL : Z := Z.lor (Z.lor 0x18 0x40) 0x80.
Definition MIRDH : Z := Z.lor (Z.lor 0x19 0x40) 0x80.
Definition MAADR1 : Z := Z.lor (Z.lor 0x00 0x60) 0x80.
Definition MAADR0 : Z := Z.lor (Z.lor 0x01 0x60) 0x80.
Definition MAADR3 : Z := Z.lor (Z.lor 0x02 0x60) 0x80.
Definition MAADR2 : Z := Z.lor (Z.lor 0x03 0x60) 0x80.
Definition MAADR5 : Z := Z.lor (Z.lor 0x04 0x60) 0x80.
Definition MAADR4 : Z := Z.lor (Z.lor 0x05 0x60) 0x80.
Definition MISTAT : Z := Z.lor (Z.lor 0x0A 0x60) 0x80.
Definition EREVID : Z := Z.lor 0x12 0x60.

Definition ERXFCON_UCEN : Z := 0x80.
Definition ERXFCON_CRCEN : Z := 0x20.
Definition ERXFCON_BCEN : Z := 0x01.
Definition EIE_INTIE : Z := 0x80.
Definition EIE_PKTIE : Z := 0x40.
Definition EIE_LINKIE : Z := 0x10.
Definition EIE_TXIE : Z := 0x08.
Definition EIE_TXERIE : Z := 0x02.
Definition EIE_RXERIE : Z := 0x01.
Definition EIR_PKTIF : Z := 0x40.
Definition EIR_DMAIF : Z := 0x20.
Definition EIR_LINKIF : Z := 0x10.
Definition EIR_TXIF : Z := 0x08.
Definition EIR_TXERIF : Z := 0x02.
Definition EIR_RXERIF : Z := 0x01.
Definition ESTAT_TXABRT : Z := 0x02.
Definition ESTAT_CLKRDY : Z := 0x01.
Definition ECON2_PKTDEC : Z := 0x40.
Definition ECON1_TXRST : Z := 0x80.
Definition ECON1_RXRST : Z := 0x40.
Definition ECON1_TXRTS : Z := 0x08.
Definition ECON1_RXEN : Z := 0x04.
Definition ECON1_BSEL1 : Z := 0x02.
Definition ECON1_BSEL0 : Z := 0x01.
Definition MACON1_TXPAUS : Z := 0x08.
Definition MACON1_RXPAUS : Z := 0x04.
Definition MACON1_MARXEN : Z := 0x01.
Definition MACON3_PADCFG0 : Z := 0x20.
Definition MACON3_TXCRCEN : Z := 0x10.
Definition MACON3_FRMLNEN : Z := 0x02.
Definition MACON3_FULDPX : Z := 0x01.
Definition MICMD_MIIRD : Z := 0x01.
Definition MISTAT_BUSY : Z := 0x01.
Definition PHCON1 : Z := 0x00.
Definition PHCON2 : Z := 0x10.
Definition PHSTAT2 : Z := 0x11.
Definition PHIE : Z := 0x12.
Definition PHIR : Z := 0x13.
Definition PHLCON : Z := 0x14.
Definition PHCON1_PDPXMD : Z := 0x0100.
Definition PHSTAT2_LSTAT : Z := 0x0400.
Definition PHCON2_HDLDIS : Z := 0x0100.
Definition PHIE_PLNKIE : Z := 0x10.
Definition PHIE_PGEIE : Z := 0x02.

Definition ENC28J60_READ_CTRL_REG : Z := 0x00.
Definition ENC28J60_READ_BUF_MEM : Z := 0x3A.
Definition ENC28J60_WRITE_CTRL_REG : Z := 0x40.
Definition ENC28J60_WRITE_BUF_MEM : Z := 0x7A.
Definition ENC28J60_BIT_FIELD_SET : Z := 0x80.
Definition ENC28J60_BIT_FIELD_CLR : Z := 0xA0.
Definition ENC28J60_SOFT_RESET : Z := 0xFF.

Definition TSV_SIZE : Z := 7.
Definition TSV_TXLATECOLLISION : Z := 29.
Definition ENC28J60_LAMPS_MODE : Z := 0x3476.
