(* ===== verification/Enc28j60.v ===== *)
(** The Ethernet controller driver (enc28j60/src/enc28j60.cpp, enc28j60/inc/enc28j60.h and
    hal/src/spi.cpp): definitions.

    The driver is a state-passing computation over [st]: the members of class [enc28j60] and the
    state [W] of the board, which it reaches through the class [Board].  A chip-select frame (the
    pin down, the bytes written, the bytes read, the pin up) is one call [spi_frame]: every frame is
    taken under the recursive mutex.  Statistics and the debug output are left out. *)
From S2P Require Import Prelude StateMonad EncRegisters.

(** ** The board *)

Inductive pin := CS_gpio | RST_gpio | IRQ_gpio.
Inductive pin_op := pin_output | pin_input | pin_pull_up | pin_set | pin_reset.

(** [spi_frame tx n]: the bytes [tx] are written, then [n] bytes are read.  [pbuf_alloc] gives the
    payload of a new buffer with whatever it holds. *)
Class Board (W : Type) := {
  spi_frame : list Z → Z → W → list Z * W;
  spi_init : W → W;
  gpio : pin → pin_op → W → W;
  vTaskDelay : Z → W → W;
  xTaskGetTickCount : W → Z * W;
  pbuf_alloc : Z → W → option (list Z) * W;
  netif_input : list Z → W → Z * W;
  pbuf_free : list Z → W → W;
  netif_set_link : bool → W → W;
  flash_get_unique_id : W → option (list Z) * W;  (* nothing: [flash_safe_execute] failed *)
  gpio_irq_enable : W → W;
}.

(** ** The driver's state and constants *)

Definition TXSTART_INIT : Z := 0x1A00.
Definition TXEND_INIT : Z := 0x1FFF.
Definition RXSTART_INIT : Z := 0x0.
Definition RXEND_INIT : Z := 0x19FF.
Definition AFTER_RESET_DELAY_MS : Z := 100.
Definition MAX_TX_RETRYCOUNT : Z := 16.
Definition MAX_FRAMELEN : Z := 1518.
Definition MAX_RETRIES : nat := 1000.
Definition ETIMEDOUT : Z := 116.
Definition ERR_OK : Z := 0.
Definition ERR_ABRT : Z := -13.

Record enc28j60 := mkEnc {
  current_register_bank : Z; next_packet_pointer : Z; current_link_state : bool; tx_retry_count : Z;
  full_duplex : bool; is_available : bool; mac_ : list Z }.

Definition set_current_bank (b : Z) (e : enc28j60) : enc28j60 :=
  mkEnc b (next_packet_pointer e) (current_link_state e) (tx_retry_count e) (full_duplex e) (is_available e) (mac_ e).
Definition set_next_packet (p : Z) (e : enc28j60) : enc28j60 :=
  mkEnc (current_register_bank e) p (current_link_state e) (tx_retry_count e) (full_duplex e) (is_available e) (mac_ e).
Definition set_link_state (b : bool) (e : enc28j60) : enc28j60 :=
  mkEnc (current_register_bank e) (next_packet_pointer e) b (tx_retry_count e) (full_duplex e) (is_available e) (mac_ e).
Definition set_tx_retry (n : Z) (e : enc28j60) : enc28j60 :=
  mkEnc (current_register_bank e) (next_packet_pointer e) (current_link_state e) n (full_duplex e) (is_available e) (mac_ e).
Definition set_available (b : bool) (e : enc28j60) : enc28j60 :=
  mkEnc (current_register_bank e) (next_packet_pointer e) (current_link_state e) (tx_retry_count e) (full_duplex e) b (mac_ e).
Definition set_mac (m : list Z) (e : enc28j60) : enc28j60 :=
  mkEnc (current_register_bank e) (next_packet_pointer e) (current_link_state e) (tx_retry_count e) (full_duplex e)
    (is_available e) m.

(** The header the controller puts before a frame; of the flags the driver uses one. *)
Record PacketMetaInfo := mkInfo { info_next : Z; byte_count : Z; received_ok : bool }.

Definition parse_info (b : list Z) : PacketMetaInfo :=
  let byte i := nth i b 0 in
  mkInfo (byte 0%nat + 256 * byte 1%nat) (byte 2%nat + 256 * byte 3%nat)
    (Z.testbit (byte 4%nat + 256 * byte 5%nat) 7).

(** Errata: [ERXRDPT] has to be odd. *)
Definition erxrdpt_workaround (next_packet_ptr start end_ : Z) : Z :=
  if (next_packet_ptr - 1 <? start) || (end_ <? next_packet_ptr - 1) then end_ else u16 (next_packet_ptr - 1).

Section Driver.
Context {W : Type} {board : Board W}.

Record st := mkSt { enc : enc28j60; world : W }.

Definition upd (f : enc28j60 → enc28j60) : ST st unit := modify (λ s, mkSt (f (enc s)) (world s)).
Definition member {A} (f : enc28j60 → A) : ST st A := gets (λ s, f (enc s)).
Definition call {A} (f : W → A * W) : ST st A := λ s, let '(a, w) := f (world s) in Ok (a, mkSt (enc s) w).
Definition run (f : W → W) : ST st unit := call (λ w, (tt, f w)).

(** ** Register access *)

Definition spi_write_op (op addr data : Z) : ST st unit :=
  call (spi_frame [Z.lor op (Z.land addr ENC_ADDR_MASK); data] 0);; mret tt.

(** The last byte read; a MAC or MII register is preceded by a dummy byte. *)
Definition spi_read_op (op reg : Z) : ST st Z :=
  rx ← call (spi_frame [Z.lor op (Z.land reg ENC_ADDR_MASK)] (if Z.land reg 0x80 =? 0 then 1 else 2));
  mret (List.last rx 0).

Definition set_bank (addr : Z) : ST st unit :=
  let b := Z.shiftr (Z.land addr BANK_MASK) 5 in
  if (EIE <=? addr) && (addr <=? ECON1) then mret tt
  else
    cur ← member current_register_bank;
    (if negb (Z.land b ECON1_BSEL0 =? Z.land cur ECON1_BSEL0) then
       if negb (Z.land b ECON1_BSEL0 =? 0) then spi_write_op ENC28J60_BIT_FIELD_SET ECON1 ECON1_BSEL0
       else spi_write_op ENC28J60_BIT_FIELD_CLR ECON1 ECON1_BSEL0
     else mret tt);;
    (if negb (Z.land b ECON1_BSEL1 =? Z.land cur ECON1_BSEL1) then
       if negb (Z.land b ECON1_BSEL1 =? 0) then spi_write_op ENC28J60_BIT_FIELD_SET ECON1 ECON1_BSEL1
       else spi_write_op ENC28J60_BIT_FIELD_CLR ECON1 ECON1_BSEL1
     else mret tt);;
    upd (set_current_bank b).

Definition reg_bfset (addr mask : Z) : ST st unit :=
  set_bank addr;; spi_write_op ENC28J60_BIT_FIELD_SET addr mask.
Definition reg_bfclr (addr mask : Z) : ST st unit :=
  set_bank addr;; spi_write_op ENC28J60_BIT_FIELD_CLR addr mask.
Definition regb_write (addr data : Z) : ST st unit :=
  set_bank addr;; spi_write_op ENC28J60_WRITE_CTRL_REG addr data.
Definition regw_write (addr data : Z) : ST st unit :=
  regb_write addr (Z.land data 0xff);; regb_write (u8 (addr + 1)) (Z.shiftr data 8).
Definition regb_read (reg : Z) : ST st Z :=
  set_bank reg;; spi_read_op ENC28J60_READ_CTRL_REG reg.

(** The sum is stored in a [uint8_t]. *)
Definition regw_read (reg : Z) : ST st Z :=
  lo ← regb_read reg; hi ← regb_read (u8 (reg + 1));
  mret (u8 (lo + Z.shiftl hi 8)).

(** ** PHY registers *)

(** [fuel] bounds the polls; the loop itself gives up after 20 ms. *)
Fixpoint poll_loop (fuel : nat) (start reg mask val : Z) : ST st Z :=
  match fuel with
  | O => out_of_fuel
  | S fuel =>
      v ← regb_read reg;
      if Z.land v mask =? val then mret 0
      else
        now ← call xTaskGetTickCount;
        if 20 <? u32 (now - start) then mret (- ETIMEDOUT) else poll_loop fuel start reg mask val
  end.

Definition poll_ready (fuel : nat) (reg mask val : Z) : ST st Z :=
  start ← call xTaskGetTickCount; poll_loop fuel start reg mask val.

Definition wait_phy_ready (fuel : nat) : ST st Z :=
  r ← poll_ready fuel MISTAT MISTAT_BUSY 0;
  mret (if r =? 0 then 1 else 0).

Definition write_phy (fuel : nat) (reg data : Z) : ST st Z :=
  regb_write MIREGADR reg;; regw_write MIWR data;; wait_phy_ready fuel.

(** A loop that reads [reg] until [stop] holds, [retry] times at most. *)
Fixpoint poll_some (retry : nat) (reg : Z) (stop : Z → bool) : ST st unit :=
  v ← regb_read reg;
  if stop v then mret tt
  else match retry with S (S _ as retry) => poll_some retry reg stop | _ => mret tt end.

Definition read_phy (reg : Z) : ST st Z :=
  regb_write MIREGADR reg;;
  regb_read MIREGADR;;
  regb_write MICMD MICMD_MIIRD;;
  poll_some 1000 MISTAT (λ v, Z.land v MISTAT_BUSY =? 0);;
  regb_write MICMD 0x00;;
  out_L ← regb_read MIRDL;
  out_H ← regb_read MIRDH;
  mret (Z.lor (Z.shiftl out_H 8) out_L).

Definition is_link_up : ST st bool :=
  v ← read_phy PHSTAT2; mret (negb (Z.land v PHSTAT2_LSTAT =? 0)).

Definition link_state_changed : ST st bool :=
  cur ← member current_link_state;
  up ← is_link_up;
  if negb (Bool.eqb cur up) then upd (set_link_state (negb cur));; mret true else mret false.

(** ** Buffer memory *)

(** [src] is the destination; the result is what it holds afterwards and the number of bytes. *)
Definition read_buff (src : list Z) (len : Z) : ST st (list Z * Z) :=
  rx ← call (spi_frame [ENC28J60_READ_BUF_MEM] len);
  b ← lift (wr_n src 0 rx);
  mret (b, zlen rx).

Definition write_buff (src : list Z) (len : Z) : ST st unit :=
  bytes ← lift (rd_n src 0 len);
  call (spi_frame (ENC28J60_WRITE_BUF_MEM :: bytes) 0);; mret tt.

Definition txfifo_init (start end_ : Z) : ST st unit :=
  if (0x1FFF <? start) || (0x1FFF <? end_) || (end_ <? start) then mret tt
  else regw_write ETXST start;; regw_write ETXND end_.

Definition reset_tx_logic : ST st unit :=
  reg_bfset ECON1 ECON1_TXRST;; reg_bfclr ECON1 ECON1_TXRST;; txfifo_init TXSTART_INIT TXEND_INIT.

Definition rxfifo_init (start end_ : Z) : ST st unit :=
  if (0x1FFF <? start) || (0x1FFF <? end_) || (end_ <? start) then mret tt
  else
    upd (set_next_packet start);;
    regw_write ERXST RXSTART_INIT;;
    p ← member next_packet_pointer;
    regw_write ERXRDPT (erxrdpt_workaround p start end_);;
    regw_write ERXND end_.

Definition reset_rx_logic : ST st unit :=
  reg_bfclr ECON1 ECON1_RXEN;;
  reg_bfset ECON1 ECON1_RXRST;;
  reg_bfclr ECON1 ECON1_RXRST;;
  rxfifo_init RXSTART_INIT RXEND_INIT;;
  reg_bfclr EIR EIR_RXERIF;;
  reg_bfset ECON1 ECON1_RXEN.

Definition get_free_rxfifo : ST st Z :=
  epkcnt ← regb_read EPKTCNT;
  if 255 <=? epkcnt then mret (-1)
  else
    erxst ← regw_read ERXST; erxnd ← regw_read ERXND;
    erxwr ← regw_read ERXWRPT; erxrd ← regw_read ERXRDPT;
    mret (if erxrd <? erxwr then (erxnd - erxst) - (erxwr - erxrd)
          else if erxwr =? erxrd then erxnd - erxst
          else erxrd - erxwr - 1).

(** ** Receiving *)

Definition get_incoming_packet_info : ST st PacketMetaInfo :=
  p ← member next_packet_pointer;
  regw_write ERDPT p;;
  '(b, _) ← read_buff (replicate 6 0) 6;
  mret (parse_info b).

(** [dst] is the destination or null; the result is what it holds afterwards and the bytes read. *)
Definition get_incoming_packet (info : PacketMetaInfo) (dst : option (list Z)) (length : Z)
  : ST st (option (list Z) * Z) :=
  if RXEND_INIT <? info_next info then reset_rx_logic;; mret (dst, 0)
  else
    upd (set_next_packet (info_next info));;
    regw_write ERXRDPT (info_next info);;
    r ← (match dst with
         | Some b => '(b, n) ← read_buff b length; mret (Some b, n)
         | None => mret (None, 0)
         end);
    reg_bfset ECON2 ECON2_PKTDEC;;
    mret r.

(** The body of the loop of [rx_interrupt]. *)
Definition rx_packet : ST st unit :=
  packet_info ← get_incoming_packet_info;
  if received_ok packet_info then
    ptr ← call (pbuf_alloc (byte_count packet_info));
    match ptr with
    | Some payload =>
        '(p, _) ← get_incoming_packet packet_info (Some payload) (byte_count packet_info);
        r ← call (netif_input (default payload p));
        if negb (r =? ERR_OK) then run (pbuf_free (default payload p)) else mret tt
    | None => mret tt
    end
  else get_incoming_packet packet_info None 0;; mret tt.

(** [pk_counter] turns; the result is the value of the counter in the last one. *)
Fixpoint rx_loop (pk_counter : nat) (ret : Z) : ST st Z :=
  match pk_counter with
  | O => mret ret
  | S n => rx_packet;; rx_loop n (Z.of_nat n)
  end.

Definition rx_interrupt : ST st Z :=
  pk_counter ← regb_read EPKTCNT; rx_loop (Z.to_nat pk_counter) 0.

(** ** Sending *)

(** A chain of buffers: [payload], null or not, and [len] of each; [tot_len] is that of the first. *)
Record pbuf := mkPbuf { payload : option (list Z); len : Z }.

Fixpoint write_chain (p : list pbuf) : ST st unit :=
  match p with
  | [] => mret tt
  | q :: p =>
      (match payload q with
       | Some b => if 0 <? len q then write_buff b (len q) else mret tt
       | None => mret tt
       end);;
      write_chain p
  end.

Definition send_pbuf (p : list pbuf) (tot_len : Z) : ST st bool :=
  if TXEND_INIT <? TXSTART_INIT + tot_len then mret false
  else
    poll_some MAX_RETRIES EIR (λ v, negb (Z.land v (Z.lor EIR_TXIF EIR_TXERIF) =? 0));;
    reg_bfset ECON1 ECON1_TXRST;;
    reg_bfclr ECON1 ECON1_TXRST;;
    reg_bfclr EIR (Z.lor EIR_TXERIF EIR_TXIF);;
    regw_write EWRPT TXSTART_INIT;;
    regw_write ETXND (u16 (TXSTART_INIT + tot_len));;
    spi_write_op ENC28J60_WRITE_BUF_MEM 0 0x00;;
    write_chain p;;
    reg_bfset ECON1 ECON1_TXRTS;;
    mret true.

Definition eth_packet_output (p : list pbuf) (tot_len : Z) : ST st Z :=
  ok ← send_pbuf p tot_len; mret (if ok : bool then ERR_OK else ERR_ABRT).

(** ** Interrupts *)

Definition read_tsv (tsv : list Z) : ST st (list Z) :=
  endptr ← regw_read ETXND;
  regw_write ERDPT (u16 (endptr + 1));;
  '(tsv, _) ← read_buff tsv TSV_SIZE;
  mret tsv.

Definition TSV_GETBIT (tsv : list Z) (y : Z) : outcome bool :=
  v ← rd tsv (y / 8); Ok (negb (Z.land v (Z.shiftl 1 (y mod 8)) =? 0)).

Definition link_handler : ST st unit :=
  up ← is_link_up;
  run (netif_set_link up);;
  read_phy PHIR;; mret tt.

Definition tx_complete_handler : ST st unit :=
  upd (set_tx_retry 0);;
  v ← regb_read ESTAT;
  (if negb (Z.land v ESTAT_TXABRT =? 0) then reset_tx_logic;; reg_bfclr ESTAT ESTAT_TXABRT else mret tt);;
  reg_bfclr ECON1 ECON1_TXRTS;;
  reg_bfclr EIR EIR_TXIF.

(** [tsv] is the uninitialised array. *)
Definition tx_error_handler (tsv : list Z) : ST st unit :=
  tsv ← read_tsv tsv;
  reset_tx_logic;;
  late ← lift (TSV_GETBIT tsv TSV_TXLATECOLLISION);
  (if late : bool then
     n ← member tx_retry_count;
     upd (set_tx_retry (u16 (n + 1)));;
     if n <? MAX_TX_RETRYCOUNT then reg_bfset ECON1 ECON1_TXRTS else reg_bfclr ECON1 ECON1_TXRTS
   else reg_bfclr ECON1 ECON1_TXRTS);;
  reg_bfclr EIR (Z.lor EIR_TXERIF EIR_TXIF).

Definition rx_error_handler : ST st unit :=
  get_free_rxfifo;; reset_rx_logic;; reg_bfclr EIR EIR_RXERIF.

(** The body of the do-loop of [irq_deferred_handler]: the value of [loop]. *)
Definition irq_turn (tsv : list Z) : ST st Z :=
  intflags ← regb_read EIR;
  let flag m := negb (Z.land intflags m =? 0) in
  (if flag EIR_DMAIF then reg_bfclr EIR EIR_DMAIF else mret tt);;
  (if flag EIR_LINKIF then link_handler else mret tt);;
  (if flag EIR_TXIF && negb (flag EIR_TXERIF) then tx_complete_handler else mret tt);;
  (if flag EIR_TXERIF then tx_error_handler tsv else mret tt);;
  (if flag EIR_RXERIF then rx_error_handler else mret tt);;
  more ← rx_interrupt;
  mret (b2z (flag EIR_DMAIF) + b2z (flag EIR_LINKIF) + b2z (flag EIR_TXIF && negb (flag EIR_TXERIF)) +
        b2z (flag EIR_TXERIF) + b2z (flag EIR_RXERIF) + b2z (negb (more =? 0))).

Fixpoint irq_loop (fuel : nat) (tsv : list Z) : ST st unit :=
  match fuel with
  | O => out_of_fuel
  | S fuel => loop ← irq_turn tsv; if loop =? 0 then mret tt else irq_loop fuel tsv
  end.

(** One turn of [irq_deferred_handler], from a semaphore to the next. *)
Definition irq_deferred_handler (fuel : nat) (tsv : list Z) : ST st unit :=
  reg_bfclr EIE EIE_INTIE;; irq_loop fuel tsv;; reg_bfset EIE EIE_INTIE.

(** ** Start-up *)

Definition generate_mac (id : list Z) : list Z :=
  [0x02; nth 0 id 0; nth 1 id 0; nth 2 id 0; nth 3 id 0; nth 4 id 0].

Fixpoint wait_clkrdy (retry : nat) : ST st bool :=
  v ← regb_read ESTAT;
  if negb (Z.land v ESTAT_CLKRDY =? 0) then mret true
  else match retry with O => mret false | S retry => wait_clkrdy retry end.

(** Writes to PHY registers, up to the first that times out. *)
Fixpoint write_phys (fuel : nat) (l : list (Z * Z)) : ST st bool :=
  match l with
  | [] => mret true
  | (reg, data) :: l => r ← write_phy fuel reg data; if r =? 0 then mret false else write_phys fuel l
  end.

Definition mac_setup (full : bool) : ST st unit :=
  if full then
    regb_write MACON3 (Z.lor (Z.lor (Z.lor MACON3_PADCFG0 MACON3_TXCRCEN) MACON3_FRMLNEN) MACON3_FULDPX);;
    regb_write MAIPG 0x12;; regb_write MABBIPG 0x15
  else
    regb_write MACON3 (Z.lor (Z.lor MACON3_PADCFG0 MACON3_TXCRCEN) MACON3_FRMLNEN);;
    regb_write MACON4 64;; regw_write MAIPG 0x0C12;; regb_write MABBIPG 0x12.

Definition phy_setup (fuel : nat) (full : bool) : ST st bool :=
  write_phys fuel
    (if full then [(PHCON1, PHCON1_PDPXMD); (PHCON2, 0x00); (PHLCON, 0x0480)]
     else [(PHCON1, 0x00); (PHCON2, PHCON2_HDLDIS); (PHLCON, ENC28J60_LAMPS_MODE)]).

Definition write_mac : ST st unit :=
  m ← member mac_;
  let mac i := nth i m 0 in
  regb_write MAADR5 (mac 0%nat);; regb_write MAADR4 (mac 1%nat);; regb_write MAADR3 (mac 2%nat);;
  regb_write MAADR2 (mac 3%nat);; regb_write MAADR1 (mac 4%nat);; regb_write MAADR0 (mac 5%nat).

Definition hard_reset : ST st unit :=
  run spi_init;; run (gpio RST_gpio pin_output);; run (gpio CS_gpio pin_output);;
  run (gpio CS_gpio pin_set);; run (gpio RST_gpio pin_reset);;
  run (vTaskDelay AFTER_RESET_DELAY_MS);; run (gpio RST_gpio pin_set);;
  spi_write_op ENC28J60_SOFT_RESET 0x00 ENC28J60_SOFT_RESET;;
  run (vTaskDelay 2).

(** The buffers, the filters and the MAC. *)
Definition configure : ST st bool :=
  rxfifo_init RXSTART_INIT RXEND_INIT;;
  txfifo_init TXSTART_INIT TXEND_INIT;;
  regb_write ERXFCON (Z.lor (Z.lor ERXFCON_UCEN ERXFCON_CRCEN) ERXFCON_BCEN);;
  reg_bfset MACON1 (Z.lor (Z.lor MACON1_MARXEN MACON1_TXPAUS) MACON1_RXPAUS);;
  full ← member full_duplex;
  mac_setup full;;
  regw_write MAMXFL MAX_FRAMELEN;;
  regw_write MAIPG 0x0C12;;
  mret full.

(** The address and the start of reception. *)
Definition start : ST st bool :=
  id ← call flash_get_unique_id;
  (match id with Some id => upd (set_mac (generate_mac id)) | None => mret tt end);;
  write_mac;;
  reg_bfset EIE (Z.lor (Z.lor EIE_INTIE EIE_PKTIE) EIR_LINKIF);;
  reg_bfset ECON1 ECON1_RXEN;;
  rev ← regb_read EREVID;
  upd (set_available (0 <? rev));;
  mret (0 <? rev).

Definition init (fuel : nat) : ST st bool :=
  hard_reset;;
  ready ← wait_clkrdy 10;
  if negb ready then upd (set_available false);; mret false
  else
    full ← configure;
    phy ← phy_setup fuel full;
    if negb phy then mret false else start.

Definition enable_interupts (fuel : nat) : ST st unit :=
  run (gpio IRQ_gpio pin_input);; run (gpio IRQ_gpio pin_pull_up);; run gpio_irq_enable;;
  write_phy fuel PHIE (Z.lor PHIE_PGEIE PHIE_PLNKIE);;
  reg_bfclr EIR (Z.lor (Z.lor (Z.lor (Z.lor (Z.lor EIR_DMAIF EIR_LINKIF) EIR_TXIF) EIR_TXERIF) EIR_RXERIF) EIR_PKTIF);;
  regb_write EIE (Z.lor (Z.lor (Z.lor (Z.lor (Z.lor EIE_INTIE EIE_PKTIE) EIE_LINKIE) EIE_TXIE) EIE_TXERIE) EIE_RXERIE);;
  reg_bfset ECON1 ECON1_RXEN.
End Driver.
