(* ===== verification/EncChip.v ===== *)
(** What the Ethernet driver relies on: the ENC28J60 as its data sheet describes it, seen through
    SPI frames, and the services of lwIP, FreeRTOS and the pico SDK.  The controller itself is not part of
    the repository; [chip_frame] is the documented effect of a frame while the network line is
    quiet, and the class [BoardOk] says that the board behaves so.  The lemmas of this file show that
    the driver's register access, which switches banks, works on a flat register file. *)
From S2P Require Import Prelude StateMonad EncRegisters Enc28j60.

(** ** The controller

    [regs]: four banks of 32 registers; those common to all banks stand in the first, [ECON1]
    without its two bank bits.  [sent]: the frames that were transmitted. *)
Record core := mkCore { regs : list Z; mem : list Z; phy : list Z; sent : list (list Z) }.

Definition reg (k : core) (i : Z) : Z := nth (Z.to_nat i) (regs k) 0.
Definition reg16 (k : core) (i : Z) : Z := reg k i + 256 * reg k (i + 1).
Definition store (i v : Z) (k : core) : core := mkCore (<[Z.to_nat i := v]> (regs k)) (mem k) (phy k) (sent k).
Definition store16 (i v : Z) (k : core) : core := store (i + 1) (v / 256) (store i (v mod 256) k).

(** Bank and address of a register as an index into [regs]. *)
Definition index (bank a : Z) : Z := if 27 <=? a then a else bank * 32 + a.

(** MAC and MII registers are read after a dummy byte. *)
Definition is_mac (i : Z) : bool := (64 <=? i) && (i <=? 90) || (96 <=? i) && (i <=? 101) || (i =? 106).

(** The frame the transmit pointers select, without its control byte. *)
Definition tx_frame (k : core) : list Z :=
  take (Z.to_nat (reg16 k ETXND - reg16 k ETXST)) (drop (Z.to_nat (reg16 k ETXST + 1)) (mem k)).

(** Register [i] gets the value [v] by writing the bits [d]: [PKTDEC] counts a packet off, [TXRTS]
    transmits, the high byte of [MIWR] writes a PHY register and [MIIRD] reads one. *)
Definition settle (i v d : Z) (k : core) : core :=
  if (i =? 30) && Z.testbit d 6 then store 57 (0 `max` (reg k 57 - 1)) (store 30 (Z.clearbit v 6) k)
  else if (i =? 31) && Z.testbit d 3 then
    let k1 := store 28 (Z.lor (reg k 28) 8) (store 31 (Z.clearbit v 3) k) in
    mkCore (regs k1) (mem k) (phy k) (sent k ++ [tx_frame k])
  else if i =? 87 then
    let k1 := store 87 v k in
    mkCore (regs k1) (mem k) (<[Z.to_nat (reg k 84) := v * 256 + reg k 86]> (phy k)) (sent k)
  else if (i =? 82) && Z.testbit d 0 then store16 88 (nth (Z.to_nat (reg k 84)) (phy k) 0) (store 82 v k)
  else store i v k.

(** The address behind [p] when reading: the receive buffer is a ring. *)
Definition next_addr (k : core) (p : Z) : Z :=
  if p =? reg16 k ERXND then reg16 k ERXST else if p =? 8191 then 0 else p + 1.

Fixpoint mem_read (n : nat) (p : Z) (k : core) : list Z * Z :=
  match n with
  | O => ([], p)
  | S n => let '(l, q) := mem_read n (next_addr k p) k in (nth (Z.to_nat p) (mem k) 0 :: l, q)
  end.

Fixpoint mem_write (l : list Z) (p : Z) (m : list Z) : list Z * Z :=
  match l with
  | [] => (m, p)
  | b :: l => mem_write l (if p =? 8191 then 0 else p + 1) (<[Z.to_nat p := b]> m)
  end.

Section Chip.
(** The registers after a reset, and what the bit-field commands do to a MAC or MII register, for
    which the data sheet does not define them. *)
Context (reset_regs : list Z) (mac_bits : Z → Z → Z → Z).

(** A frame on the controller with [bank] selected: the bytes read and what it is afterwards. *)
Definition chip_frame (tx : list Z) (n : Z) (c : Z * core) : list Z * (Z * core) :=
  let '(bank, k) := c in
  match tx with
  | [] => ([], c)
  | op :: data =>
      if op =? 0x3A then
        let '(l, p) := mem_read (Z.to_nat n) (reg16 k ERDPT) k in (l, (bank, store16 ERDPT p k))
      else if op =? 0x7A then
        let '(m, p) := mem_write data (reg16 k EWRPT) (mem k) in
        ([], (bank, store16 EWRPT p (mkCore (regs k) m (phy k) (sent k))))
      else if op =? 0xFF then ([], (0, mkCore reset_regs (mem k) (phy k) (sent k)))
      else
        let i := index bank (Z.land op 31) in
        let command := Z.shiftr op 5 in
        match data with
        | [] =>
            let v := if i =? 31 then Z.lor (reg k 31) bank else reg k i in
            (take (Z.to_nat n) (if is_mac i then [0; v] else [v]), c)
        | d :: _ =>
            let d' := if i =? 31 then Z.ldiff d 3 else d in
            if command =? 2 then ([], (if i =? 31 then Z.land d 3 else bank, settle i d' d' k))
            else if command =? 4 then
              ([], (if i =? 31 then Z.lor bank (Z.land d 3) else bank,
                    settle i (if is_mac i then mac_bits 4 (reg k i) d else Z.lor (reg k i) d') d' k))
            else
              ([], (if i =? 31 then Z.ldiff bank (Z.land d 3) else bank,
                    settle i (if is_mac i then mac_bits 5 (reg k i) d else Z.ldiff (reg k i) d') 0 k))
        end
  end.
End Chip.

(** ** The board *)

Class BoardOk (W : Type) `{Board W} := {
  reset_regs : list Z;
  mac_bits : Z → Z → Z → Z;
  chip_of : W → Z * core;
  inputs : W → list (list Z);   (* frames given to lwIP *)
  reset_length : length reset_regs = 128%nat;
  reset_ready : Z.land (nth 29 reset_regs 0) ESTAT_CLKRDY ≠ 0;
  reset_idle : Z.land (nth 106 reset_regs 0) MISTAT_BUSY = 0;
  reset_revision : 0 < nth 114 reset_regs 0;
  reset_count : nth 57 reset_regs 0 = 0;
  frame_ok tx n w : let '(rx, w') := spi_frame tx n w in
    chip_frame reset_regs mac_bits tx n (chip_of w) = (rx, chip_of w') ∧ inputs w' = inputs w;
  spi_init_ok w : chip_of (spi_init w) = chip_of w ∧ inputs (spi_init w) = inputs w;
  gpio_ok p o w : chip_of (gpio p o w) = chip_of w ∧ inputs (gpio p o w) = inputs w;
  delay_ok n w : chip_of (vTaskDelay n w) = chip_of w ∧ inputs (vTaskDelay n w) = inputs w;
  ticks_ok w : let '(_, w') := xTaskGetTickCount w in chip_of w' = chip_of w ∧ inputs w' = inputs w;
  alloc_ok n w : let '(p, w') := pbuf_alloc n w in
    chip_of w' = chip_of w ∧ inputs w' = inputs w ∧ (∀ l, 0 <= n → p = Some l → zlen l = n);
  input_ok l w : let '(_, w') := netif_input l w in chip_of w' = chip_of w ∧ inputs w' = inputs w ++ [l];
  free_ok l w : chip_of (pbuf_free l w) = chip_of w ∧ inputs (pbuf_free l w) = inputs w;
  link_ok b w : chip_of (netif_set_link b w) = chip_of w ∧ inputs (netif_set_link b w) = inputs w;
  unique_id_ok w : let '(_, w') := flash_get_unique_id w in chip_of w' = chip_of w ∧ inputs w' = inputs w;
  irq_ok w : chip_of (gpio_irq_enable w) = chip_of w ∧ inputs (gpio_irq_enable w) = inputs w;
}.

(** ** The flat machine *)

(** The driver without its bank variable, the controller without its bank. *)
Record flat := mkFlat { f_enc : enc28j60; f_core : core; f_inputs : list (list Z) }.

Definition on_core (f : core → core) (b : flat) : flat := mkFlat (f_enc b) (f (f_core b)) (f_inputs b).
Definition on_enc (f : enc28j60 → enc28j60) (b : flat) : flat := mkFlat (f (f_enc b)) (f_core b) (f_inputs b).

(** A register constant as an index. *)
Definition flat_index (addr : Z) : Z := index (Z.shiftr (Z.land addr BANK_MASK) 5) (Z.land addr ENC_ADDR_MASK).

(** The constants that name a register, with the MAC/MII flag where it belongs. *)
Definition valid_addr (addr : Z) : bool :=
  (0 <=? addr) && (addr <? 256) && Bool.eqb (negb (Z.land addr 0x80 =? 0)) (is_mac (flat_index addr)) &&
  negb ((EIE <=? Z.land addr ENC_ADDR_MASK) && negb ((EIE <=? addr) && (addr <=? ECON1))).

Section Flat.
Context {W : Type} {board : Board W} {board_ok : BoardOk W}.

(** The driver and the board are in state [b]; the bank variable is right. *)
Definition is_flat (s : st (W := W)) (b : flat) : Prop :=
  set_current_bank 0 (enc s) = f_enc b ∧ (chip_of (world s)).2 = f_core b ∧ inputs (world s) = f_inputs b ∧
  current_register_bank (enc s) = (chip_of (world s)).1 ∧ 0 <= (chip_of (world s)).1 < 4.

(** On the flat machine, [m] gives [a] and goes from [b] to [b']. *)
Definition does {A} (m : ST (st (W := W)) A) (b : flat) (a : A) (b' : flat) : Prop :=
  ∀ s, is_flat s b → ∃ s', m s = Ok (a, s') ∧ is_flat s' b'.

Lemma does_ret {A} (a : A) b : does (mret a) b a b.
Proof. intros s Hs. by exists s. Qed.

Lemma does_bind {A B} (m : ST st A) (f : A → ST st B) b a b1 c b2 :
  does m b a b1 → does (f a) b1 c b2 → does (m ≫= f) b c b2.
Proof.
  intros Hm Hf s Hs. destruct (Hm s Hs) as (s1 & E & H1). destruct (Hf s1 H1) as (s2 & E2 & H2).
  exists s2. by rewrite (st_bind_Ok _ _ _ _ _ E).
Qed.

Lemma does_eq {A} (m : ST st A) b a a' b1 b2 : does m b a b1 → a = a' → b1 = b2 → does m b a' b2.
Proof. by intros ? -> ->. Qed.

Lemma does_upd (f : enc28j60 → enc28j60) b :
  (∀ e, current_register_bank (f e) = current_register_bank e) →
  (∀ e, set_current_bank 0 (f e) = f (set_current_bank 0 e)) → does (upd f) b tt (on_enc f b).
Proof.
  intros Hf Hc s (H1 & H2 & H3 & H4 & H5). eexists. split; [reflexivity|].
  unfold is_flat. cbn. rewrite Hc, Hf, H1. done.
Qed.

Lemma does_member {A} (f : enc28j60 → A) b :
  (∀ e, f (set_current_bank 0 e) = f e) → does (member f) b (f (f_enc b)) b.
Proof. intros Hf s Hs. exists s. split; [|done]. unfold member, gets. by rewrite <- (proj1 Hs), Hf. Qed.

(** A service that leaves the controller alone. *)
Lemma does_run (f : W → W) b :
  (∀ w, chip_of (f w) = chip_of w ∧ inputs (f w) = inputs w) → does (run f) b tt b.
Proof.
  intros Hf s (H1 & H2 & H3 & H4 & H5). eexists. split; [reflexivity|].
  destruct (Hf (world s)) as [E1 E2]. unfold is_flat. cbn. by rewrite E1, E2.
Qed.

(** *** Bank switching *)

Lemma spi_frame_step tx n s :
  ∃ rx w', call (spi_frame tx n) s = Ok (rx, mkSt (enc s) w') ∧
    chip_frame reset_regs mac_bits tx n (chip_of (world s)) = (rx, chip_of w') ∧ inputs w' = inputs (world s).
Proof.
  unfold call. pose proof (frame_ok tx n (world s)) as Hf.
  destruct (spi_frame tx n (world s)) as [rx w']. exists rx, w'. by destruct Hf as [-> ->].
Qed.

(** As [is_flat], with bank [k] selected and whatever the bank variable says. *)
Definition is_raw (s : st (W := W)) (b : flat) (k : Z) : Prop :=
  set_current_bank 0 (enc s) = f_enc b ∧ chip_of (world s) = (k, f_core b) ∧ inputs (world s) = f_inputs b.

Lemma store_same i k : store i (reg k i) k = k.
Proof.
  unfold store, reg. destruct k as [r m p t]. cbn. f_equal.
  destruct (decide (Z.to_nat i < length r)%nat).
  - apply list_insert_id. destruct (lookup_lt_is_Some_2 r (Z.to_nat i)) as [v Hv]; [done|].
    by rewrite Hv, (nth_lookup_Some _ _ _ _ Hv).
  - by apply list_insert_ge; lia.
Qed.

(** One of the two bank bits, set or cleared. *)
Lemma bank_bit (on : bool) d s b k : (d = 1 ∨ d = 2) → is_raw s b k →
  ∃ s', spi_write_op (if on then ENC28J60_BIT_FIELD_SET else ENC28J60_BIT_FIELD_CLR) ECON1 d s = Ok (tt, s') ∧
    is_raw s' b (if on then Z.lor k d else Z.ldiff k d) ∧ current_register_bank (enc s') = current_register_bank (enc s).
Proof.
  intros Hd (H1 & H2 & H3). unfold spi_write_op.
  destruct (spi_frame_step [Z.lor (if on then ENC28J60_BIT_FIELD_SET else ENC28J60_BIT_FIELD_CLR)
    (Z.land ECON1 ENC_ADDR_MASK); d] 0 s) as (rx & w' & E & Ef & Ei).
  rewrite (st_bind_Ok _ _ _ _ _ E). eexists. split; [reflexivity|]. split; [|done].
  split; [done|]. split; [|by etransitivity]. cbn [world]. rewrite H2 in Ef. unfold chip_frame in Ef.
  destruct on; cbn in Ef; destruct Hd as [-> | ->]; cbn in Ef; injection Ef as _ <-;
    rewrite ?Z.lor_0_r, ?Z.ldiff_0_r; unfold settle; cbn [Z.eqb Z.testbit andb Pos.eqb];
    by rewrite store_same.
Qed.

Lemma bank_cases k : 0 <= k < 4 → k = 0 ∨ k = 1 ∨ k = 2 ∨ k = 3.
Proof. lia. Qed.

(** Afterwards the controller takes the address for the register that the constant names. *)
Lemma set_bank_ok addr s b : valid_addr addr = true → is_flat s b →
  ∃ s', set_bank addr s = Ok (tt, s') ∧ is_flat s' b ∧
    index (chip_of (world s')).1 (Z.land addr ENC_ADDR_MASK) = flat_index addr.
Proof.
  intros Hv Hs. pose proof Hs as (H1 & H2 & H3 & H4 & H5). unfold set_bank.
  destruct ((EIE <=? addr) && (addr <=? ECON1)) eqn:Ec.
  - exists s. split; [done|]. split; [done|].
    apply andb_true_iff in Ec as [E1%Z.leb_le E2%Z.leb_le]. unfold EIE, ECON1 in *.
    assert (addr = 27 ∨ addr = 28 ∨ addr = 29 ∨ addr = 30 ∨ addr = 31) as Ha by lia.
    repeat (destruct Ha as [->|Ha]; [done|]). by rewrite Ha.
  - assert (Z.land addr ENC_ADDR_MASK < 27) as Hlow.
    { revert Hv. unfold valid_addr. rewrite Ec. rewrite !andb_true_iff. intros [_ Hc].
      destruct (Z.leb_spec EIE (Z.land addr ENC_ADDR_MASK)); [done|done]. }
    set (t := Z.shiftr (Z.land addr BANK_MASK) 5).
    assert (0 <= t < 4) as Ht.
    { unfold t, BANK_MASK. assert (is_u8 addr) as Hu.
      { revert Hv. unfold valid_addr, is_u8. rewrite !andb_true_iff, Z.leb_le, Z.ltb_lt. lia. }
      enough ((λ a, (0 <=? Z.shiftr (Z.land a 0x60) 5) && (Z.shiftr (Z.land a 0x60) 5 <? 4)) addr = true) as E.
      { cbn beta in E. apply andb_true_iff in E as [?%Z.leb_le ?%Z.ltb_lt]. done. }
      apply (byte_check (λ a, (0 <=? Z.shiftr (Z.land a 0x60) 5) && (Z.shiftr (Z.land a 0x60) 5 <? 4)));
        [vm_compute; reflexivity|done]. }
    assert (is_raw s b (chip_of (world s)).1) as Hr.
    { split; [done|]. split; [|done]. rewrite <- H2. by destruct (chip_of (world s)). }
    erewrite st_bind_Ok by reflexivity. rewrite H4. set (k := (chip_of (world s)).1) in *.
    assert (∀ (on : bool) d s0 k0 (c : bool), (d = 1 ∨ d = 2) → is_raw s0 b k0 →
      ∃ s', (if c then spi_write_op (if on then ENC28J60_BIT_FIELD_SET else ENC28J60_BIT_FIELD_CLR) ECON1 d
             else mret tt) s0 = Ok (tt, s') ∧
        is_raw s' b (if c then if on then Z.lor k0 d else Z.ldiff k0 d else k0)) as Hbit.
    { intros on d s0 k0 [] Hd H0; [|by exists s0].
      destruct (bank_bit on d s0 b k0 Hd H0) as (s' & E & Hr' & _). eauto. }
    destruct (Hbit (negb (Z.land t ECON1_BSEL0 =? 0)) 1 s k
      (negb (Z.land t ECON1_BSEL0 =? Z.land k ECON1_BSEL0)) ltac:(by left) Hr) as (s1 & E1 & Hr1).
    destruct (Hbit (negb (Z.land t ECON1_BSEL1 =? 0)) 2 s1 _
      (negb (Z.land t ECON1_BSEL1 =? Z.land k ECON1_BSEL1)) ltac:(by right) Hr1) as (s2 & E2 & Hr2).
    erewrite st_bind_Ok by (rewrite <- E1; by destruct (negb (Z.land t ECON1_BSEL0 =? 0))).
    erewrite st_bind_Ok by (rewrite <- E2; by destruct (negb (Z.land t ECON1_BSEL1 =? 0))).
    eexists. split; [reflexivity|]. destruct Hr2 as (R1 & R2 & R3).
    assert ((chip_of (world s2)).1 = t) as Et.
    { rewrite R2. cbn [fst]. apply bank_cases in Ht, H5.
      destruct Ht as [->|[->|[->| ->]]], H5 as [->|[->|[->| ->]]]; reflexivity. }
    split.
    + unfold is_flat. cbn [enc world current_register_bank set_current_bank]. rewrite Et, R2. by rewrite <- R1.
    + cbn [world]. rewrite Et. unfold flat_index. by fold t.
Qed.

(** *** Register access *)

Definition bit_set (i m : Z) (k : core) : core :=
  settle i (if is_mac i then mac_bits 4 (reg k i) m else Z.lor (reg k i) m) m k.
Definition bit_clr (i m : Z) (k : core) : core :=
  settle i (if is_mac i then mac_bits 5 (reg k i) m else Z.ldiff (reg k i) m) 0 k.

(** The first byte of a frame that is not about the buffer memory. *)
Definition op_ok (op command a : Z) : bool :=
  let c := Z.lor op a in
  negb (c =? 0x3A) && negb (c =? 0x7A) && negb (c =? 0xFF) && (Z.land c 31 =? a) && (Z.shiftr c 5 =? command).

Lemma op_bytes a : is_u8 a →
  let a := Z.land a ENC_ADDR_MASK in
  op_ok ENC28J60_READ_CTRL_REG 0 a = true ∧ op_ok ENC28J60_WRITE_CTRL_REG 2 a = true ∧
  op_ok ENC28J60_BIT_FIELD_SET 4 a = true ∧ op_ok ENC28J60_BIT_FIELD_CLR 5 a = true.
Proof.
  intros Ha. cbn zeta.
  enough ((λ a, let a := Z.land a ENC_ADDR_MASK in
    op_ok ENC28J60_READ_CTRL_REG 0 a && op_ok ENC28J60_WRITE_CTRL_REG 2 a &&
    op_ok ENC28J60_BIT_FIELD_SET 4 a && op_ok ENC28J60_BIT_FIELD_CLR 5 a) a = true) as E.
  { cbn beta zeta in E. rewrite !andb_true_iff in E. tauto. }
  revert a Ha. apply byte_check. vm_compute. reflexivity.
Qed.

Lemma valid_u8 addr : valid_addr addr = true → is_u8 addr.
Proof. unfold valid_addr, is_u8. rewrite !andb_true_iff, Z.leb_le, Z.ltb_lt. lia. Qed.

(** A register frame with the right bank selected. *)
Lemma reg_frame op command addr data n s rx w' :
  op_ok op command (Z.land addr ENC_ADDR_MASK) = true →
  index (chip_of (world s)).1 (Z.land addr ENC_ADDR_MASK) = flat_index addr →
  chip_frame reset_regs mac_bits (Z.lor op (Z.land addr ENC_ADDR_MASK) :: data) n (chip_of (world s)) = (rx, chip_of w') →
  let bank := (chip_of (world s)).1 in
  let k := (chip_of (world s)).2 in
  let i := flat_index addr in
  match data with
  | [] => (rx, chip_of w') = (take (Z.to_nat n) (if is_mac i then [0; if i =? 31 then Z.lor (reg k 31) bank else reg k i]
            else [if i =? 31 then Z.lor (reg k 31) bank else reg k i]), (bank, k))
  | d :: _ =>
      let d' := if i =? 31 then Z.ldiff d 3 else d in
      (rx, chip_of w') =
        if command =? 2 then ([], (if i =? 31 then Z.land d 3 else bank, settle i d' d' k))
        else if command =? 4 then
          ([], (if i =? 31 then Z.lor bank (Z.land d 3) else bank,
            settle i (if is_mac i then mac_bits 4 (reg k i) d else Z.lor (reg k i) d') d' k))
        else ([], (if i =? 31 then Z.ldiff bank (Z.land d 3) else bank,
            settle i (if is_mac i then mac_bits 5 (reg k i) d else Z.ldiff (reg k i) d') 0 k))
  end.
Proof.
  intros Hop Hi Hf. cbn zeta. unfold op_ok in Hop. rewrite !andb_true_iff, !negb_true_iff, !Z.eqb_eq in Hop.
  destruct Hop as [[[[N1 N2] N3] Ea] Ec]. destruct (chip_of (world s)) as [bank k]. cbn [fst snd] in *.
  unfold chip_frame in Hf. cbv zeta in Hf. rewrite N1, N2, N3, Ea, Ec, Hi in Hf. by destruct data.
Qed.

(** The three commands that write: a frame, and what it does to the flat machine. *)
Lemma write_op_does op command addr d f b :
  valid_addr addr = true → op_ok op command (Z.land addr ENC_ADDR_MASK) = true →
  command = 2 ∧ flat_index addr ≠ 31 ∧ f = settle (flat_index addr) d d ∨
  command = 4 ∧ (flat_index addr = 31 → Z.land d 3 = 0) ∧ f = bit_set (flat_index addr) d ∨
  command = 5 ∧ (flat_index addr = 31 → Z.land d 3 = 0) ∧ f = bit_clr (flat_index addr) d →
  does (set_bank addr;; spi_write_op op addr d) b tt (on_core f b).
Proof.
  intros Hv Hop Hf s Hs. destruct (set_bank_ok addr s b Hv Hs) as (s1 & E1 & Hs1 & Hi).
  rewrite (st_bind_Ok _ _ _ _ _ E1). unfold spi_write_op.
  destruct (spi_frame_step [Z.lor op (Z.land addr ENC_ADDR_MASK); d] 0 s1) as (rx & w' & E & Ec & Ein).
  rewrite (st_bind_Ok _ _ _ _ _ E). eexists. split; [reflexivity|].
  pose proof (reg_frame op command addr [d] 0 s1 rx w' Hop Hi Ec) as Hr. cbv zeta in Hr. clear E Ec.
  destruct Hs1 as (H1 & H2 & H3 & H4 & H5). rewrite H2 in Hr.
  assert (∀ bank, (chip_of w' = (bank, f (f_core b)) ∧ bank = (chip_of (world s1)).1) →
    is_flat (mkSt (enc s1) w') (on_core f b)) as Hdone.
  { intros bank [Hc Hb]. unfold is_flat. cbn [enc world]. rewrite Hc. cbn [fst snd on_core f_enc f_core f_inputs].
    subst bank. rewrite Ein. done. }
  assert (flat_index addr = 31 → Z.land d 3 = 0 → Z.ldiff d 3 = d) as Hd.
  { intros _ H0. apply Z.bits_inj'. intros j Hj. rewrite Z.ldiff_spec.
    pose proof (f_equal (λ z, Z.testbit z j) H0) as Hb. cbn beta in Hb. rewrite Z.land_spec, Z.bits_0 in Hb.
    by destruct (Z.testbit d j), (Z.testbit 3 j). }
  assert (flat_index addr = 31 → command = 2 ∨ Z.land d 3 = 0) as H31 by (intros; destruct Hf as [?|[?|?]]; tauto).
  assert (command ≠ 2 → (if flat_index addr =? 31 then Z.ldiff d 3 else d) = d) as Ed.
  { intros Hc. destruct (Z.eqb_spec (flat_index addr) 31) as [Ei|]; [|done]. apply Hd; [done|]. destruct (H31 Ei); done. }
  destruct Hf as [(-> & Hn & ->)|[(-> & Hn & ->)|(-> & Hn & ->)]]; cbn [Z.eqb Pos.eqb] in Hr; injection Hr as _ Hr;
    (eapply Hdone; split; [|reflexivity]); rewrite Hr.
  - by rewrite (proj2 (Z.eqb_neq _ _) Hn).
  - rewrite Ed by done. destruct (Z.eqb_spec (flat_index addr) 31) as [Ei|]; [|done]. by rewrite (Hn Ei), Z.lor_0_r.
  - rewrite Ed by done. destruct (Z.eqb_spec (flat_index addr) 31) as [Ei|]; [|done]. by rewrite (Hn Ei), Z.ldiff_0_r.
Qed.

Lemma regb_write_does addr d b : valid_addr addr = true → flat_index addr ≠ 31 →
  does (regb_write addr d) b tt (on_core (settle (flat_index addr) d d) b).
Proof.
  intros Hv Hn. eapply write_op_does; [done| |by left].
  by apply (op_bytes addr), valid_u8.
Qed.

Lemma reg_bfset_does addr m b : valid_addr addr = true → (flat_index addr = 31 → Z.land m 3 = 0) →
  does (reg_bfset addr m) b tt (on_core (bit_set (flat_index addr) m) b).
Proof.
  intros Hv Hn. eapply write_op_does; [done| |by right; left].
  by apply (op_bytes addr), valid_u8.
Qed.

Lemma reg_bfclr_does addr m b : valid_addr addr = true → (flat_index addr = 31 → Z.land m 3 = 0) →
  does (reg_bfclr addr m) b tt (on_core (bit_clr (flat_index addr) m) b).
Proof.
  intros Hv Hn. eapply write_op_does; [done| |by right; right].
  by apply (op_bytes addr), valid_u8.
Qed.

Lemma regb_read_does addr b : valid_addr addr = true → flat_index addr ≠ 31 →
  does (regb_read addr) b (reg (f_core b) (flat_index addr)) b.
Proof.
  intros Hv Hn s Hs. destruct (set_bank_ok addr s b Hv Hs) as (s1 & E1 & Hs1 & Hi).
  unfold regb_read. rewrite (st_bind_Ok _ _ _ _ _ E1). unfold spi_read_op.
  set (n := if Z.land addr 0x80 =? 0 then 1 else 2).
  destruct (spi_frame_step [Z.lor ENC28J60_READ_CTRL_REG (Z.land addr ENC_ADDR_MASK)] n s1) as (rx & w' & E & Ec & Ein).
  rewrite (st_bind_Ok _ _ _ _ _ E).
  pose proof (reg_frame _ 0 addr [] n s1 rx w' (proj1 (op_bytes addr (valid_u8 _ Hv))) Hi Ec) as Hr.
  cbv zeta in Hr. destruct Hs1 as (H1 & H2 & H3 & H4 & H5).
  rewrite (proj2 (Z.eqb_neq _ _) Hn), H2 in Hr. injection Hr as Hrx Hw.
  exists (mkSt (enc s1) w'). split; [|unfold is_flat; cbn [enc world]; rewrite Hw, Ein; done].
  unfold mret, st_ret. repeat f_equal. rewrite Hrx. unfold n.
  revert Hv. unfold valid_addr. rewrite !andb_true_iff, Bool.eqb_true_iff. intros [[_ Hm] _].
  rewrite <- Hm. by destruct (Z.land addr 0x80 =? 0).
Qed.

(** Registers without side effects. *)
Definition plain (i : Z) : bool := negb (i =? 30) && negb (i =? 31) && negb (i =? 82) && negb (i =? 87).

Lemma settle_plain i v d k : plain i = true → settle i v d k = store i v k.
Proof.
  unfold plain, settle. rewrite !andb_true_iff, !negb_true_iff. intros [[[-> ->] ->] ->]. done.
Qed.

Lemma plain_31 i : plain i = true → i ≠ 31.
Proof. intros H ->. done. Qed.

Lemma regb_plain_does addr d b : valid_addr addr = true → plain (flat_index addr) = true →
  does (regb_write addr d) b tt (on_core (store (flat_index addr) d) b).
Proof.
  intros Hv Hp. eapply does_eq; [apply regb_write_does; [done|by apply plain_31]|done|].
  unfold on_core. by rewrite settle_plain.
Qed.

(** A pair of registers, low byte first. *)
Definition valid_pair (addr : Z) : bool :=
  valid_addr addr && valid_addr (u8 (addr + 1)) && (flat_index (u8 (addr + 1)) =? flat_index addr + 1) &&
  plain (flat_index addr) && plain (flat_index addr + 1).

Lemma valid_pair_spec addr : valid_pair addr = true →
  valid_addr addr = true ∧ valid_addr (u8 (addr + 1)) = true ∧ flat_index (u8 (addr + 1)) = flat_index addr + 1 ∧
  plain (flat_index addr) = true ∧ plain (flat_index addr + 1) = true.
Proof. unfold valid_pair. rewrite !andb_true_iff, Z.eqb_eq. tauto. Qed.

Lemma regw_write_does addr d b : valid_pair addr = true →
  does (regw_write addr d) b tt (on_core (store16 (flat_index addr) d) b).
Proof.
  intros (H1 & H2 & E & H3 & H4)%valid_pair_spec.
  eapply does_eq; [eapply does_bind; [by apply regb_plain_does|apply regb_plain_does; [done|by rewrite E]]|done|].
  unfold on_core, store16. cbn [f_enc f_core f_inputs]. rewrite E. do 2 f_equal.
  - by rewrite Z.shiftr_div_pow2.
  - change 0xff with (Z.ones 8). by rewrite (Z.land_ones d 8).
Qed.

(** Only the low byte of a pair is read: the sum is cut to eight bits. *)
Lemma regw_read_does addr b : valid_pair addr = true →
  does (regw_read addr) b (u8 (reg (f_core b) (flat_index addr))) b.
Proof.
  intros (H1 & H2 & E & H3 & H4)%valid_pair_spec.
  eapply does_bind; [apply regb_read_does; [done|by apply plain_31]|].
  eapply does_bind; [apply regb_read_does; [done|rewrite E; by apply plain_31]|].
  eapply does_eq; [apply does_ret| |done]. unfold u8. rewrite Z.shiftl_mul_pow2 by done.
  change (2 ^ 8) with 256. by rewrite Z.mod_add.
Qed.

(** *** Buffer memory *)

Lemma mem_read_length n p k : length (mem_read n p k).1 = n.
Proof.
  revert p. induction n as [|n IH]; intros p; [done|]. cbn [mem_read]. specialize (IH (next_addr k p)).
  destruct (mem_read n (next_addr k p) k). cbn in *. by rewrite IH.
Qed.

Lemma read_buff_does dst n b : 0 <= n → zlen dst = n →
  let '(l, p) := mem_read (Z.to_nat n) (reg16 (f_core b) ERDPT) (f_core b) in
  does (read_buff dst n) b (l, n) (on_core (store16 ERDPT p) b).
Proof.
  intros Hn Hd. destruct (mem_read _ _ _) as [l p] eqn:El. intros s (H1 & H2 & H3 & H4 & H5). unfold read_buff.
  destruct (spi_frame_step [ENC28J60_READ_BUF_MEM] n s) as (rx & w' & E & Ec & Ein).
  rewrite (st_bind_Ok _ _ _ _ _ E). destruct (chip_of (world s)) as [bank k]. cbn [fst snd] in *. subst k.
  unfold chip_frame in Ec. cbn [Z.eqb ENC28J60_READ_BUF_MEM Pos.eqb] in Ec. rewrite El in Ec. injection Ec as <- Hw.
  pose proof (mem_read_length (Z.to_nat n) (reg16 (f_core b) ERDPT) (f_core b)) as Hl. rewrite El in Hl. cbn in Hl.
  unfold lift. assert (wr_n dst 0 l = Ok l) as Ewr.
  { pose proof (wr_n_app [] dst l ltac:(lia)) as Hw'. cbn [app length] in Hw'. change (Z.of_nat 0) with 0 in Hw'.
    rewrite Hw', drop_ge, app_nil_r by lia. done. }
  erewrite st_bind_Ok by (rewrite Ewr; reflexivity). eexists. split.
  - unfold mret, st_ret. repeat f_equal. lia.
  - unfold is_flat. cbn [enc world on_core f_enc f_core f_inputs]. rewrite <- Hw, Ein. done.
Qed.

(** The bytes [l] go to the memory at the write pointer. *)
Definition buf_write (l : list Z) (k : core) : core :=
  let '(m, p) := mem_write l (reg16 k EWRPT) (mem k) in store16 EWRPT p (mkCore (regs k) m (phy k) (sent k)).

Lemma wbm_does op l b : op = 0x7A →
  does (call (spi_frame (op :: l) 0);; mret tt) b tt (on_core (buf_write l) b).
Proof.
  intros -> s (H1 & H2 & H3 & H4 & H5). destruct (spi_frame_step (0x7A :: l) 0 s) as (rx & w' & E & Ec & Ein).
  rewrite (st_bind_Ok _ _ _ _ _ E). eexists. split; [reflexivity|].
  destruct (chip_of (world s)) as [bank k]. cbn [fst snd] in *. subst k.
  unfold chip_frame in Ec. cbn [Z.eqb Pos.eqb] in Ec. unfold is_flat, buf_write. cbn [enc world on_core f_enc f_core f_inputs].
  destruct (mem_write _ _ _) as [m p]. injection Ec as _ Hw. rewrite <- Hw, Ein. done.
Qed.

Lemma write_buff_does src n b l : rd_n src 0 n = Ok l →
  does (write_buff src n) b tt (on_core (buf_write l) b).
Proof.
  intros E s Hs. unfold write_buff, lift. erewrite st_bind_Ok by (rewrite E; reflexivity).
  by apply (wbm_does _ l b).
Qed.

(** *** Services *)

Lemma ticks_does b s : is_flat s b → ∃ t s', call xTaskGetTickCount s = Ok (t, s') ∧ is_flat s' b.
Proof.
  intros (H1 & H2 & H3 & H4 & H5). unfold call. pose proof (ticks_ok (world s)) as Ht.
  destruct (xTaskGetTickCount (world s)) as [t w']. destruct Ht as [E1 E2].
  eexists _, _. split; [reflexivity|]. unfold is_flat. cbn [enc world]. by rewrite E1, E2.
Qed.

Lemma input_does l b s : is_flat s b → ∃ r s', call (netif_input l) s = Ok (r, s') ∧
  is_flat s' (mkFlat (f_enc b) (f_core b) (f_inputs b ++ [l])).
Proof.
  intros (H1 & H2 & H3 & H4 & H5). unfold call. pose proof (input_ok l (world s)) as Ht.
  destruct (netif_input l (world s)) as [t w']. destruct Ht as [E1 E2].
  eexists _, _. split; [reflexivity|]. unfold is_flat. cbn [enc world f_enc f_core f_inputs]. by rewrite E1, E2, H3.
Qed.

Lemma alloc_does n b s : is_flat s b → ∃ p s', call (pbuf_alloc n) s = Ok (p, s') ∧ is_flat s' b ∧
  pbuf_alloc n (world s) = (p, world s') ∧ (∀ l, 0 <= n → p = Some l → zlen l = n).
Proof.
  intros (H1 & H2 & H3 & H4 & H5). unfold call. pose proof (alloc_ok n (world s)) as Ht.
  destruct (pbuf_alloc n (world s)) as [t w']. destruct Ht as (E1 & E2 & E3).
  eexists _, _. split; [reflexivity|]. unfold is_flat. cbn [enc world]. by rewrite E1, E2.
Qed.
End Flat.

(** ** An example board

    A controller, and lwIP that always has buffers and accepts every frame. *)
Record bench := mkBench { b_chip : Z * core; b_inputs : list (list Z) }.

(** After a reset: [ESTAT.CLKRDY], [ECON2.AUTOINC], the revision; nothing else. *)
Definition bench_regs : list Z :=
  replicate 29 0 ++ [1; 128] ++ replicate 83 0 ++ [6] ++ replicate 13 0.

Definition bench_bits (op old mask : Z) : Z := old.

#[export] Instance bench_board : Board bench := {|
  spi_frame tx n w :=
    let '(rx, c) := chip_frame bench_regs bench_bits tx n (b_chip w) in (rx, mkBench c (b_inputs w));
  spi_init w := w;
  gpio _ _ w := w;
  vTaskDelay _ w := w;
  xTaskGetTickCount w := (0, w);
  pbuf_alloc n w := (Some (replicate (Z.to_nat n) 0xA5), w);
  netif_input l w := (0, mkBench (b_chip w) (b_inputs w ++ [l]));
  pbuf_free _ w := w;
  netif_set_link _ w := w;
  flash_get_unique_id w := (Some [1; 2; 3; 4; 5; 6; 7; 8], w);
  gpio_irq_enable w := w;
|}.

#[export, refine] Instance bench_ok : BoardOk bench := {|
  reset_regs := bench_regs;
  mac_bits := bench_bits;
  chip_of := b_chip;
  inputs := b_inputs;
|}.
Proof.
  all: try done.
  - intros tx n w. cbn. by destruct (chip_frame _ _ _ _ _).
  - intros n w. cbn. split; [done|]. split; [done|]. intros l Hn [= <-]. rewrite length_replicate, Z2Nat.id by done. done.
Defined.

Definition bench_enc (next : Z) : enc28j60 := mkEnc 0 next false 0 false true [2; 0; 0; 0; 0; 1].

(** The driver and the controller with the registers at their places and the memory [m]. *)
Definition bench_core (m : list Z) (count : Z) : core :=
  store 57 count (store16 ETXST 0x1A00 (store16 ERXND 0x19FF (mkCore bench_regs m (replicate 32 0) []))).

Definition bench_flat (m : list Z) (count next : Z) : flat := mkFlat (bench_enc next) (bench_core m count) [].
Definition bench_state (m : list Z) (count next : Z) : st := mkSt (bench_enc next) (mkBench (0, bench_core m count) []).

Lemma bench_is_flat m count next : is_flat (bench_state m count next) (bench_flat m count next).
Proof. by repeat split. Qed.
