(* ===== verification/EncDriver.v ===== *)
(** The Ethernet driver on the controller: register access through the banks, start-up, sending and
    receiving. *)
From S2P Require Import Prelude StateMonad EncRegisters Enc28j60 EncChip.

(** ** Registers of the flat machine *)

Record wf_core (k : core) : Prop := { wf_regs : length (regs k) = 128%nat; wf_mem : zlen (mem k) = 8192 }.

Create HintDb enc.

Lemma wf_store i v k : wf_core k → wf_core (store i v k).
Proof. intros [H1 H2]. split; [|done]. cbn. by rewrite length_insert. Qed.

Lemma wf_store16 i v k : wf_core k → wf_core (store16 i v k).
Proof. intros H. by apply wf_store, wf_store. Qed.
#[export] Hint Resolve wf_store wf_store16 : enc.

Lemma wf_settle i v d k : wf_core k → wf_core (settle i v d k).
Proof.
  intros H. unfold settle. repeat case_match; auto with enc.
  - destruct (wf_store 28 (Z.lor (reg k 28) 8) _ (wf_store 31 (Z.clearbit v 3) _ H)). by destruct H.
  - destruct (wf_store 87 v _ H). by destruct H.
Qed.
#[export] Hint Resolve wf_settle : enc.

Lemma wf_set i m k `{BoardOk W} : wf_core k → wf_core (bit_set i m k).
Proof. apply wf_settle. Qed.
Lemma wf_clr i m k `{BoardOk W} : wf_core k → wf_core (bit_clr i m k).
Proof. apply wf_settle. Qed.
#[export] Hint Resolve wf_set wf_clr : enc.

Lemma reg_store_eq i v k : wf_core k → 0 <= i < 128 → reg (store i v k) i = v.
Proof.
  intros Hk Hi. unfold reg, store. cbn. apply nth_lookup_Some, list_lookup_insert_eq.
  rewrite (wf_regs _ Hk). lia.
Qed.

Lemma reg_store_ne i j v k : 0 <= i → 0 <= j → i ≠ j → reg (store i v k) j = reg k j.
Proof. intros Hi Hj Hn. unfold reg, store. cbn. by rewrite !nth_lookup, list_lookup_insert_ne by lia. Qed.

Lemma reg16_store16_eq i v k : wf_core k → 0 <= i < 127 → reg16 (store16 i v k) i = v.
Proof.
  intros Hk Hi. unfold reg16, store16. rewrite reg_store_ne, !reg_store_eq by (auto with enc; lia).
  pose proof (Z.div_mod v 256). lia.
Qed.

Lemma reg_store16_ne i j v k : 0 <= i → 0 <= j → i ≠ j → i + 1 ≠ j → reg (store16 i v k) j = reg k j.
Proof. intros. unfold store16. by rewrite !reg_store_ne by lia. Qed.

(** [i ∉ l] for numbers. *)
Ltac outside := first [by vm_compute | apply (bool_decide_unpack _); vm_compute; exact I].

(** Look registers up in a state given by stores: all indices are numbers. *)
Ltac num := first [assumption | by auto with enc | by vm_compute | split; by vm_compute].
Ltac look :=
  repeat first
    [ rewrite reg16_store16_eq by num | rewrite reg_store_eq by num
    | rewrite reg_store_ne by num | rewrite reg_store16_ne by num | progress unfold reg16 ].

(** [settle] away from its special cases. *)
Lemma settle_set i v d k : i ≠ 82 → i ≠ 87 → Z.testbit d 6 = false ∨ i ≠ 30 → Z.testbit d 3 = false ∨ i ≠ 31 →
  settle i v d k = store i v k.
Proof.
  intros H1 H2 H3 H4. unfold settle.
  rewrite (proj2 (Z.eqb_neq _ _) H1), (proj2 (Z.eqb_neq _ _) H2). cbn [andb].
  destruct H3 as [->|H3], H4 as [->|H4]; rewrite ?(proj2 (Z.eqb_neq _ _) H3), ?(proj2 (Z.eqb_neq _ _) H4), ?andb_false_r; done.
Qed.

Lemma bit_clr_store i m k `{BoardOk W} : i ≠ 82 → i ≠ 87 → is_mac i = false →
  bit_clr i m k = store i (Z.ldiff (reg k i) m) k.
Proof. intros H1 H2 H3. unfold bit_clr. rewrite H3. apply settle_set; [done|done|by left|by left]. Qed.

Lemma bit_set_store i m k `{BoardOk W} : i ≠ 82 → i ≠ 87 → is_mac i = false →
  Z.testbit m 6 = false ∨ i ≠ 30 → Z.testbit m 3 = false ∨ i ≠ 31 →
  bit_set i m k = store i (Z.lor (reg k i) m) k.
Proof. intros H1 H2 H3 H4 H5. unfold bit_set. rewrite H3. by apply settle_set. Qed.

(** ** Register access *)

(** What a piece of the driver may do to the registers. *)
Inductive reg_op :=
| op_read (addr : Z)
| op_write (addr d : Z)
| op_set (addr mask : Z)
| op_clear (addr mask : Z).

(** The register exists, and the bank bits of [ECON1] are not touched. *)
Definition op_allowed (o : reg_op) : bool :=
  match o with
  | op_read addr | op_write addr _ => valid_addr addr && negb (flat_index addr =? 31)
  | op_set addr m | op_clear addr m => valid_addr addr && (negb (flat_index addr =? 31) || (Z.land m 3 =? 0))
  end.

Section Access.
Context {W : Type} {board : Board W} {board_ok : BoardOk W}.

Definition do_op (o : reg_op) : ST (st (W := W)) (list Z) :=
  match o with
  | op_read addr => v ← regb_read addr; mret [v]
  | op_write addr d => regb_write addr d;; mret []
  | op_set addr m => reg_bfset addr m;; mret []
  | op_clear addr m => reg_bfclr addr m;; mret []
  end.

Fixpoint do_ops (l : list reg_op) : ST (st (W := W)) (list Z) :=
  match l with
  | [] => mret []
  | o :: l => v ← do_op o; r ← do_ops l; mret (v ++ r)
  end.

(** The same on a controller without banks. *)
Definition flat_op (o : reg_op) (k : core) : list Z * core :=
  match o with
  | op_read addr => ([reg k (flat_index addr)], k)
  | op_write addr d => ([], settle (flat_index addr) d d k)
  | op_set addr m => ([], bit_set (flat_index addr) m k)
  | op_clear addr m => ([], bit_clr (flat_index addr) m k)
  end.

Fixpoint flat_ops (l : list reg_op) (k : core) : list Z * core :=
  match l with
  | [] => ([], k)
  | o :: l => let '(v, k) := flat_op o k in let '(r, k) := flat_ops l k in (v ++ r, k)
  end.

Lemma do_op_does o b : op_allowed o = true →
  does (do_op o) b (flat_op o (f_core b)).1 (on_core (λ k, (flat_op o k).2) b).
Proof.
  unfold op_allowed. destruct o; intros [Hv Hn]%andb_true_iff;
    rewrite ?negb_true_iff, ?Z.eqb_neq in Hn; (eapply does_bind; [|by eapply does_eq; [apply does_ret|..]]).
  - eapply does_eq; [by apply regb_read_does|done|by destruct b].
  - by apply regb_write_does.
  - apply reg_bfset_does; [done|]. intros E. rewrite E in Hn. cbn in Hn. by apply Z.eqb_eq.
  - apply reg_bfclr_does; [done|]. intros E. rewrite E in Hn. cbn in Hn. by apply Z.eqb_eq.
Qed.

(** C18: the driver keeps its copy of the bank number in step with the controller.  Whatever registers
    are read, written, and have bits set or cleared, in whatever order and banks, through
    [regb_read], [regb_write], [reg_bfset] and [reg_bfclr], each access reaches exactly the register
    its constant names (in every bank, MAC and MII registers included), as on a controller whose
    registers are one flat array. *)
Theorem banked_access_is_flat l b s :
  forallb op_allowed l = true → is_flat s b →
  ∃ s', do_ops l s = Ok ((flat_ops l (f_core b)).1, s') ∧ is_flat s' (on_core (λ k, (flat_ops l k).2) b).
Proof.
  revert b s. induction l as [|o l IH]; intros b s Hl Hs.
  - exists s. split; [done|]. by destruct b.
  - apply andb_true_iff in Hl as [Ho Hl]. cbn [do_ops flat_ops].
    destruct (do_op_does o b Ho s Hs) as (s1 & E1 & Hs1). rewrite (st_bind_Ok _ _ _ _ _ E1).
    destruct (IH _ s1 Hl Hs1) as (s2 & E2 & Hs2). rewrite (st_bind_Ok _ _ _ _ _ E2).
    unfold on_core in *. cbn [f_core f_enc f_inputs] in *. exists s2. unfold mret, st_ret.
    destruct (flat_op o (f_core b)) as [v k1]. cbn [fst snd] in *. by destruct (flat_ops l k1) as [r1 k2].
Qed.
End Access.

(** ** Buffer memory *)

Lemma mem_write_app l1 l2 p m :
  mem_write (l1 ++ l2) p m = let '(m1, p1) := mem_write l1 p m in mem_write l2 p1 m1.
Proof. revert p m. induction l1 as [|x l1 IH]; intros p m; [done|]. apply IH. Qed.

Lemma mem_write_spec l p m : 0 <= p → p + zlen l <= zlen m → zlen m = 8192 →
  (mem_write l p m).1 = take (Z.to_nat p) m ++ l ++ drop (Z.to_nat p + length l) m.
Proof.
  revert p m. induction l as [|x l IH]; intros p m Hp Hl Hm.
  { cbn [mem_write fst app length]. by rewrite Nat.add_0_r, take_drop. }
  cbn [mem_write length] in *. destruct (Z.eqb_spec p 8191) as [->|].
  - assert (l = []) as -> by (destruct l; [done|cbn in *; lia]). cbn [mem_write fst app length].
    rewrite insert_take_drop by lia. leq.
  - rewrite IH by (rewrite ?length_insert; lia).
    rewrite (insert_take_drop m) by lia.
    rewrite take_app_ge, drop_app_ge by lens. rewrite !length_take.
    replace (Z.to_nat (p + 1) - Z.to_nat p `min` length m)%nat with 1%nat by lia.
    replace (Z.to_nat (p + 1) + length l - Z.to_nat p `min` length m)%nat with (S (length l)) by lia.
    cbn [take drop]. rewrite take_0, drop_drop, <- app_assoc. cbn [app]. leq.
Qed.

Lemma store16_store16 i v w k : 0 <= i → store16 i v (store16 i w k) = store16 i v k.
Proof.
  intros Hi. unfold store16, store. cbn [regs mem phy sent]. f_equal.
  rewrite (list_insert_insert_ne _ (Z.to_nat i) (Z.to_nat (i + 1))) by lia.
  by rewrite !list_insert_insert_eq.
Qed.

Lemma mem_write_length l p m : length (mem_write l p m).1 = length m.
Proof. revert p m. induction l as [|x l IH]; intros p m; [done|]. cbn [mem_write]. by rewrite IH, length_insert. Qed.

Lemma wf_mem_write l p k : wf_core k → wf_core (mkCore (regs k) (mem_write l p (mem k)).1 (phy k) (sent k)).
Proof. intros [H1 H2]. split; [done|]. cbn [mem]. by rewrite mem_write_length. Qed.

Lemma wf_buf_write l k : wf_core k → wf_core (buf_write l k).
Proof.
  intros H. unfold buf_write. pose proof (wf_mem_write l (reg16 k EWRPT) k H) as Hw.
  destruct (mem_write _ _ _) as [m p]. by apply wf_store16.
Qed.
#[export] Hint Resolve wf_buf_write : enc.

Lemma buf_write_app l1 l2 k : wf_core k → buf_write (l1 ++ l2) k = buf_write l2 (buf_write l1 k).
Proof.
  intros H. unfold buf_write. rewrite mem_write_app.
  pose proof (wf_mem_write l1 (reg16 k EWRPT) k H) as Hw.
  destruct (mem_write l1 (reg16 k EWRPT) (mem k)) as [m1 p1].
  rewrite reg16_store16_eq by num. cbn [mem store16 store].
  destruct (mem_write l2 p1 m1) as [m2 p2].
  transitivity (store16 EWRPT p2 (store16 EWRPT p1 (mkCore (regs k) m2 (phy k) (sent k)))); [|done].
  by rewrite store16_store16.
Qed.

(** What writing to the buffer leaves alone. *)
Lemma buf_write_reg l k i : 0 <= i → i ≠ 2 → i ≠ 3 → reg (buf_write l k) i = reg k i.
Proof.
  intros H H2 H3. unfold buf_write. destruct (mem_write _ _ _). rewrite reg_store16_ne; [done|by vm_compute|done|done|].
  unfold EWRPT. lia.
Qed.

Lemma buf_write_sent l k : sent (buf_write l k) = sent k.
Proof. unfold buf_write. by destruct (mem_write _ _ _). Qed.

Lemma buf_write_mem l k : wf_core k → 0 <= reg16 k EWRPT → reg16 k EWRPT + zlen l <= 8192 →
  mem (buf_write l k) = take (Z.to_nat (reg16 k EWRPT)) (mem k) ++ l ++ drop (Z.to_nat (reg16 k EWRPT) + length l) (mem k).
Proof.
  intros [_ Hm] Hp Hl. unfold buf_write. rewrite <- (mem_write_spec l) by lia.
  by destruct (mem_write l (reg16 k EWRPT) (mem k)).
Qed.

(** ** Sending *)

Section Sending.
Context {W : Type} {board : Board W} {board_ok : BoardOk W}.

(** Polling changes nothing. *)
Lemma poll_some_does retry addr stop b : valid_addr addr = true → flat_index addr ≠ 31 →
  does (poll_some (W := W) retry addr stop) b tt b.
Proof.
  intros Hv Hn. induction retry as [|retry IH]; (eapply does_bind; [by apply regb_read_does|]);
    destruct (stop _); try apply does_ret. destruct retry; [apply does_ret|done].
Qed.

(** The pieces of a chain that are written. *)
Fixpoint chain_pieces (p : list pbuf) : outcome (list (list Z)) :=
  match p with
  | [] => Ok []
  | q :: p =>
      l ← match payload q with
          | Some b => if 0 <? len q then l ← rd_n b 0 (len q); Ok [l] else Ok []
          | None => Ok []
          end;
      r ← chain_pieces p; Ok (l ++ r)
  end.

Lemma write_chain_does p ls b : chain_pieces p = Ok ls →
  does (write_chain (W := W) p) b tt (on_core (λ k, foldl (λ k l, buf_write l k) k ls) b).
Proof.
  revert ls b. induction p as [|q p IH]; intros ls b E.
  - injection E as <-. eapply does_eq; [apply does_ret|done|by destruct b].
  - cbn [chain_pieces write_chain] in *.
    destruct (payload q) as [d|]; [destruct (0 <? len q); [destruct (rd_n d 0 (len q)) as [l| |] eqn:El; [|done..]|]|];
      rewrite ?bind_ok in E; (destruct (chain_pieces p) as [r| |]; [|done..]); injection E as <-;
      (eapply does_bind; [first [by eapply write_buff_does|apply does_ret]|by apply (IH r)]).
Qed.

Lemma buf_write_pieces l ls k : wf_core k → foldl (λ k l, buf_write l k) (buf_write l k) ls = buf_write (l ++ concat ls) k.
Proof.
  intros Hk. revert l. induction ls as [|x ls IH]; intros l; cbn [foldl concat]; [by rewrite app_nil_r|].
  rewrite <- buf_write_app, IH by done. by rewrite app_assoc.
Qed.

(** The transmit buffer is where the driver puts it. *)
Definition tx_ready (k : core) : Prop := wf_core k ∧ reg16 k ETXST = TXSTART_INIT.

(** [send_pbuf] up to the transmission, and the transmission. *)
Definition tx_core (tot : Z) (bytes : list Z) (k : core) : core :=
  let k := store 31 (Z.lor (reg k 31) 128) k in
  let k := store 31 (Z.ldiff (reg k 31) 128) k in
  let k := store 28 (Z.ldiff (reg k 28) 10) k in
  let k := store16 ETXND (TXSTART_INIT + tot) (store16 EWRPT TXSTART_INIT k) in
  settle 31 (Z.lor (reg (buf_write (0 :: bytes) k) 31) 8) 8 (buf_write (0 :: bytes) k).

Lemma send_pbuf_does p tot ls b : chain_pieces p = Ok ls → wf_core (f_core b) → 0 <= tot → TXSTART_INIT + tot <= TXEND_INIT →
  does (send_pbuf (W := W) p tot) b true (on_core (tx_core tot (concat ls)) b).
Proof.
  intros Hp Hk Ht Hmax. unfold send_pbuf. rewrite (proj2 (Z.ltb_ge _ _) Hmax).
  eapply does_bind; [by apply poll_some_does|].
  eapply does_bind; [by apply reg_bfset_does|].
  eapply does_bind; [by apply reg_bfclr_does|].
  eapply does_bind; [by apply reg_bfclr_does|].
  eapply does_bind; [by apply regw_write_does|].
  eapply does_bind; [by apply regw_write_does|].
  eapply does_bind; [by apply wbm_does|].
  eapply does_bind; [by apply write_chain_does|].
  eapply does_bind; [by apply reg_bfset_does|].
  eapply does_eq; [apply does_ret|done|]. unfold on_core. cbn [f_enc f_core f_inputs]. f_equal.
  rewrite u16_id by (unfold is_u16, TXSTART_INIT, TXEND_INIT in *; lia).
  change (flat_index ECON1) with 31. change (flat_index EIR) with 28.
  change (flat_index EWRPT) with EWRPT. change (flat_index ETXND) with ETXND.
  rewrite (buf_write_pieces [0]) by (rewrite !bit_clr_store by done; auto 10 with enc).
  rewrite !bit_clr_store by done. rewrite (bit_set_store 31 ECON1_TXRST) by (done || by left). reflexivity.
Qed.

Lemma reg16_ne k k' i : reg k i = reg k' i → reg k (i + 1) = reg k' (i + 1) → reg16 k i = reg16 k' i.
Proof. unfold reg16. congruence. Qed.

Lemma tx_core_ready tot bytes k : wf_core k → wf_core (tx_core tot bytes k).
Proof. intros H. unfold tx_core. auto 10 with enc. Qed.

Lemma settle_transmit v k :
  settle 31 v 8 k = mkCore (regs (store 28 (Z.lor (reg k 28) 8) (store 31 (Z.clearbit v 3) k))) (mem k) (phy k)
    (sent k ++ [tx_frame k]).
Proof. reflexivity. Qed.

Lemma tx_core_spec tot bytes k : tx_ready k → tot = zlen bytes → TXSTART_INIT + tot <= TXEND_INIT →
  let k' := tx_core tot bytes k in
  sent k' = sent k ++ [bytes] ∧
  (∀ i, 0 <= i → i ∉ [2; 3; 6; 7; 28; 31] → reg k' i = reg k i) ∧
  take (Z.to_nat TXSTART_INIT) (mem k') = take (Z.to_nat TXSTART_INIT) (mem k).
Proof.
  intros [Hk Hst] Ht Hmax. cbn zeta. unfold tx_core.
  set (k1 := store16 ETXND (TXSTART_INIT + tot) _).
  assert (wf_core k1) as Hk1 by (unfold k1; auto 10 with enc).
  assert (reg16 k1 EWRPT = TXSTART_INIT) as Hw.
  { unfold k1. transitivity (reg16 (store16 EWRPT TXSTART_INIT (store 28 (Z.ldiff (reg (store 31 (Z.ldiff (reg (store 31
      (Z.lor (reg k 31) 128) k) 31) 128) (store 31 (Z.lor (reg k 31) 128) k)) 28) 10) (store 31 (Z.ldiff (reg (store 31
      (Z.lor (reg k 31) 128) k) 31) 128) (store 31 (Z.lor (reg k 31) 128) k)))) EWRPT).
    - apply reg16_ne; by rewrite reg_store16_ne by num.
    - apply reg16_store16_eq; num. }
  assert (reg16 k1 ETXND = TXSTART_INIT + tot) as Hnd by (apply reg16_store16_eq; num).
  assert (∀ i, 0 <= i → i ∉ [2; 3; 6; 7; 28; 31] → reg k1 i = reg k i) as Hreg.
  { intros i Hi Hn. rewrite !not_elem_of_cons in Hn. unfold k1, ETXND, EWRPT.
    by rewrite !reg_store16_ne, !reg_store_ne by lia. }
  assert (mem k1 = mem k) as Hmem by done. assert (sent k1 = sent k) as Hsent by done. clearbody k1.
  set (k2 := buf_write (0 :: bytes) k1). unfold TXSTART_INIT, TXEND_INIT in *.
  assert (mem k2 = take (Z.to_nat 0x1A00) (mem k1) ++ (0 :: bytes) ++ drop (Z.to_nat 0x1A00 + length (0 :: bytes)) (mem k1)) as Em.
  { unfold k2. rewrite buf_write_mem; [by rewrite Hw|done|lia|rewrite Hw; cbn [length]; lia]. }
  assert (length (take (Z.to_nat 0x1A00) (mem k1)) = Z.to_nat 0x1A00) as El.
  { rewrite length_take. pose proof (wf_mem _ Hk1). lia. }
  assert (tx_frame k2 = bytes) as Ef.
  { unfold tx_frame. rewrite (reg16_ne k2 k1 ETXND), (reg16_ne k2 k1 ETXST), Hnd by (apply buf_write_reg; by vm_compute).
    assert (reg16 k1 ETXST = 0x1A00) as ->.
    { rewrite <- Hst. apply reg16_ne; apply Hreg; outside. }
    rewrite Em, drop_app_ge by lia. rewrite El.
    replace (Z.to_nat (0x1A00 + 1) - Z.to_nat 0x1A00)%nat with 1%nat by lia. cbn [app drop].
    rewrite drop_0, take_app_le by lia. apply take_ge. lia. }
  rewrite settle_transmit. cbn [sent mem]. split; [|split].
  - rewrite Ef. unfold k2. by rewrite buf_write_sent, Hsent.
  - intros i Hi Hn. pose proof (Hreg i Hi Hn). rewrite !not_elem_of_cons in Hn.
    transitivity (reg k2 i); [|by unfold k2; rewrite buf_write_reg by tauto].
    transitivity (reg (store 28 (Z.lor (reg k2 28) 8) (store 31 (Z.clearbit (Z.lor (reg k2 31) 8) 3) k2)) i); [done|].
    by rewrite !reg_store_ne by lia.
  - rewrite Em, take_app_le, take_ge by lia. by rewrite Hmem.
Qed.

(** C19: a frame (a chain of buffers whose lengths add up to [tot_len]) that fits the transmit buffer is
    written there behind its control byte and transmitted, the bytes of all buffers in order and nothing
    else; one that does not fit is refused with the controller untouched.  The receive buffer, its
    pointers and the packet counter stay as they are. *)
Theorem send_pbuf_transmits p ls tot b :
  chain_pieces p = Ok ls → tot = zlen (concat ls) → tx_ready (f_core b) →
  (TXEND_INIT < TXSTART_INIT + tot → does (send_pbuf (W := W) p tot) b false b) ∧
  (TXSTART_INIT + tot <= TXEND_INIT → ∃ k',
     does (send_pbuf (W := W) p tot) b true (on_core (λ _, k') b) ∧
     sent k' = sent (f_core b) ++ [concat ls] ∧ tx_ready k' ∧
     (∀ i, 0 <= i → i ∉ [2; 3; 6; 7; 28; 31] → reg k' i = reg (f_core b) i) ∧
     take (Z.to_nat TXSTART_INIT) (mem k') = take (Z.to_nat TXSTART_INIT) (mem (f_core b))).
Proof.
  intros Hp Ht Hr. split; intros Hm.
  - unfold send_pbuf. rewrite (proj2 (Z.ltb_lt _ _) Hm). apply does_ret.
  - exists (tx_core tot (concat ls) (f_core b)).
    destruct (tx_core_spec tot (concat ls) (f_core b) Hr Ht Hm) as (H1 & H2 & H3).
    split; [apply send_pbuf_does; [done|apply Hr|lia|done]|]. split; [done|]. split; [|done].
    split; [apply tx_core_ready, Hr|]. rewrite <- (proj2 Hr). apply reg16_ne; apply H2;
      outside.
Qed.
End Sending.

(** ** Receiving *)

(** The frames that wait in the receive buffer from address [p] on, each behind its header, up to [q]:
    whether the controller found them in order, and their bytes. *)
Inductive queue (k : core) : Z → list (bool * list Z) → Z → Prop :=
| queue_nil p : queue k p [] p
| queue_cons p hdr p1 next ok payload p2 rest q :
    mem_read 6 p k = (hdr, p1) → parse_info hdr = mkInfo next (zlen payload) ok → next <= RXEND_INIT →
    mem_read (length payload) p1 k = (payload, p2) → queue k next rest q →
    queue k p ((ok, payload) :: rest) q.

(** Only the memory and the bounds of the ring matter. *)
Definition same_ring (k k' : core) : Prop :=
  mem k' = mem k ∧ reg16 k' ERXST = reg16 k ERXST ∧ reg16 k' ERXND = reg16 k ERXND.

Lemma mem_read_same n p k k' : same_ring k k' → mem_read n p k' = mem_read n p k.
Proof.
  intros (Hm & Hs & Hn). revert p. induction n as [|n IH]; intros p; [done|].
  cbn [mem_read]. unfold next_addr. rewrite Hs, Hn, Hm, IH. done.
Qed.

Lemma queue_same k k' p l q : same_ring k k' → queue k p l q → queue k' p l q.
Proof.
  intros Hr. induction 1 as [|p hdr p1 next ok payload p2 rest q H1 H2 H3 H4 H5 IH]; [constructor|].
  econstructor; [by rewrite (mem_read_same _ _ _ _ Hr)|done|done|by rewrite (mem_read_same _ _ _ _ Hr)|done].
Qed.

Lemma same_ring_trans k1 k2 k3 : same_ring k1 k2 → same_ring k2 k3 → same_ring k1 k3.
Proof. intros (? & ? & ?) (? & ? & ?). split_and!; congruence. Qed.

Lemma same_ring_store16 i v k : i = ERDPT ∨ i = ERXRDPT → same_ring k (store16 i v k).
Proof.
  intros Hi. split; [done|]. destruct Hi as [->| ->]; split; apply reg16_ne; rewrite reg_store16_ne by num; done.
Qed.

Lemma reg16_same k k' i : reg k' i = reg k i → reg k' (i + 1) = reg k (i + 1) → reg16 k' i = reg16 k i.
Proof. apply reg16_ne. Qed.

(** Counting a packet off. *)
Definition pktdec (k : core) : core :=
  store 57 (0 `max` (reg (store 30 (Z.clearbit (Z.lor (reg k 30) 64) 6) k) 57 - 1)) (store 30 (Z.clearbit (Z.lor (reg k 30) 64) 6) k).

Section Receiving.
Context {W : Type} {board : Board W} {board_ok : BoardOk W}.

Lemma pktdec_does b : does (W := W) (reg_bfset ECON2 ECON2_PKTDEC) b tt (on_core pktdec b).
Proof.
  eapply does_eq; [by apply reg_bfset_does|done|]. unfold on_core. f_equal.
  change (flat_index ECON2) with 30. unfold bit_set. change (is_mac 30) with false. unfold settle, pktdec.
  cbn [Z.eqb Z.testbit andb Pos.eqb ECON2_PKTDEC]. rewrite reg_store_ne by done. reflexivity.
Qed.

(** Reading the header of the packet the driver is at. *)
Lemma packet_info_does b hdr p1 : wf_core (f_core b) →
  mem_read 6 (next_packet_pointer (f_enc b)) (f_core b) = (hdr, p1) →
  does (W := W) get_incoming_packet_info b (parse_info hdr)
    (on_core (λ k, store16 ERDPT p1 (store16 ERDPT (next_packet_pointer (f_enc b)) k)) b).
Proof.
  intros Hk E. unfold get_incoming_packet_info. eapply does_bind; [by apply does_member|].
  eapply does_bind; [by apply regw_write_does|]. change (flat_index ERDPT) with ERDPT.
  set (b1 := on_core _ b).
  assert (reg16 (f_core b1) ERDPT = next_packet_pointer (f_enc b)) as Hp by (apply reg16_store16_eq; num).
  pose proof (read_buff_does (W := W) (replicate 6 0) 6 b1 ltac:(lia) ltac:(done)) as Hr.
  rewrite Hp in Hr. assert (mem_read (Z.to_nat 6) (next_packet_pointer (f_enc b)) (f_core b1) = (hdr, p1)) as E1.
  { rewrite <- E. apply mem_read_same. apply same_ring_store16. by left. }
  rewrite E1 in Hr. eapply does_bind; [exact Hr|]. apply does_ret.
Qed.

(** The state after a packet was taken: [l] was given to lwIP. *)
Record taken (b b' : flat) (next : Z) (l : list (list Z)) : Prop := {
  tk_enc : f_enc b' = set_next_packet next (f_enc b);
  tk_wf : wf_core (f_core b');
  tk_ring : same_ring (f_core b) (f_core b');
  tk_count : reg (f_core b') 57 = 0 `max` (reg (f_core b) 57 - 1);
  tk_read : reg16 (f_core b') ERXRDPT = next;
  tk_sent : sent (f_core b') = sent (f_core b);
  tk_inputs : f_inputs b' = f_inputs b ++ l;
}.

Lemma taken_core b next v1 v2 v3 l : wf_core (f_core b) →
  (∀ k', k' = pktdec (v3 (store16 ERXRDPT next (store16 ERDPT v1 (store16 ERDPT v2 (f_core b))))) →
    (v3 = id ∨ ∃ p, v3 = store16 ERDPT p) →
    taken b (mkFlat (set_next_packet next (f_enc b)) k' (f_inputs b ++ l)) next l).
Proof.
  intros Hk k' -> Hv.
  assert (∀ k, wf_core k → wf_core (v3 k)) as Hv1 by (destruct Hv as [->|[p ->]]; auto with enc).
  assert (∀ k i, 0 <= i → i ≠ 0 → i ≠ 1 → reg (v3 k) i = reg k i) as Hv2.
  { destruct Hv as [->|[p ->]]; [done|]. intros k i ? ? ?. unfold ERDPT. by rewrite reg_store16_ne by lia. }
  assert (∀ k, same_ring k (v3 k)) as Hv3.
  { destruct Hv as [->|[p ->]]; [by repeat split|]. intros k. apply same_ring_store16. by left. }
  assert (∀ k, sent (v3 k) = sent k) as Hv4 by (destruct Hv as [->|[p ->]]; done).
  set (k2 := store16 ERXRDPT next _). assert (wf_core k2) as Hk2 by (unfold k2; auto with enc).
  assert (∀ k i, wf_core k → 0 <= i → i ≠ 30 → i ≠ 57 → reg (pktdec k) i = reg k i) as Hpk.
  { intros k i Hw ? ? ?. unfold pktdec. by rewrite !reg_store_ne by lia. }
  constructor; cbn [f_enc f_core f_inputs]; [done|unfold pktdec; auto with enc| | | | |done].
  - assert (same_ring (f_core b) k2) as H1.
    { unfold k2. do 3 (eapply same_ring_trans; [|apply same_ring_store16; tauto]). by repeat split. }
    eapply same_ring_trans; [exact H1|]. eapply same_ring_trans; [apply Hv3|].
    split; [done|]. split; apply reg16_same; apply Hpk; num.
  - unfold pktdec. rewrite reg_store_eq by num. rewrite reg_store_ne, Hv2 by done. unfold k2, ERXRDPT, ERDPT.
    by rewrite !reg_store16_ne by done.
  - transitivity (reg16 k2 ERXRDPT); [|unfold k2; apply reg16_store16_eq; num].
    apply reg16_same; (rewrite Hpk by num); by rewrite Hv2 by num.
  - transitivity (sent (v3 k2)); [done|]. by rewrite Hv4.
Qed.

(** lwIP has buffers. *)
Definition buffers_free : Prop := ∀ n w, is_Some (pbuf_alloc (W := W) n w).1.

Lemma does_alloc {A} n (f : option (list Z) → ST (st (W := W)) A) b a b' : buffers_free →
  0 <= n → (∀ payload, zlen payload = n → does (f (Some payload)) b a b') → does (call (pbuf_alloc n) ≫= f) b a b'.
Proof.
  intros Hfree Hn Hf s Hs. destruct (alloc_does n b s Hs) as (p & s1 & E & Hs1 & Ep & Hl).
  rewrite (st_bind_Ok _ _ _ _ _ E). destruct (Hfree n (world s)) as [l El]. rewrite Ep in El. cbn in El. subst p.
  apply Hf; [by apply Hl|done].
Qed.

Lemma does_input {A} l (f : Z → ST (st (W := W)) A) b a b' :
  (∀ r, does (f r) (mkFlat (f_enc b) (f_core b) (f_inputs b ++ [l])) a b') →
  does (call (netif_input l) ≫= f) b a b'.
Proof.
  intros Hf s Hs. destruct (input_does l b s Hs) as (r & s1 & E & Hs1).
  rewrite (st_bind_Ok _ _ _ _ _ E). by apply Hf.
Qed.

Lemma rx_packet_does b hdr p1 next ok payload p2 :
  buffers_free → wf_core (f_core b) →
  mem_read 6 (next_packet_pointer (f_enc b)) (f_core b) = (hdr, p1) →
  parse_info hdr = mkInfo next (zlen payload) ok → next <= RXEND_INIT →
  mem_read (length payload) p1 (f_core b) = (payload, p2) →
  ∃ b', does rx_packet b tt b' ∧ taken b b' next (if ok then [payload] else []).
Proof.
  intros Hfree Hk E1 Ei Hn E2. set (p := next_packet_pointer (f_enc b)) in *.
  set (v3 := if ok then store16 ERDPT p2 else id).
  set (k' := pktdec (v3 (store16 ERXRDPT next (store16 ERDPT p1 (store16 ERDPT p (f_core b)))))).
  exists (mkFlat (set_next_packet next (f_enc b)) k' (f_inputs b ++ if ok then [payload] else [])). split.
  2: { eapply (taken_core b next p1 p v3); [done|reflexivity|]. unfold v3. destruct ok; eauto. }
  unfold rx_packet. eapply does_bind; [by apply (packet_info_does b hdr p1)|]. fold p. rewrite Ei.
  cbn [received_ok byte_count info_next]. unfold get_incoming_packet. cbn [info_next].
  rewrite (proj2 (Z.ltb_ge _ _) Hn). set (b1 := on_core _ b).
  assert (wf_core (f_core b1)) as Hk1 by (unfold b1; cbn; auto with enc).
  assert (same_ring (f_core b) (f_core b1)) as Hr1.
  { unfold b1. cbn [f_core on_core]. do 2 (eapply same_ring_trans; [|apply same_ring_store16; tauto]). by repeat split. }
  destruct ok.
  - apply does_alloc; [done|lia|]. intros buf Hbuf.
    eapply does_bind.
    { eapply does_bind; [by apply does_upd|].
      eapply does_bind; [by apply regw_write_does|]. change (flat_index ERXRDPT) with ERXRDPT.
      set (b2 := on_core _ (on_enc _ b1)).
      assert (reg16 (f_core b2) ERDPT = p1) as Hp1.
      { transitivity (reg16 (f_core b1) ERDPT).
        - apply reg16_same; unfold b2; cbn [on_core on_enc f_core]; by rewrite reg_store16_ne by num.
        - apply reg16_store16_eq; num. }
      pose proof (read_buff_does (W := W) buf (zlen payload) b2 ltac:(lia) Hbuf) as Hr.
      rewrite Hp1, Nat2Z.id in Hr. assert (mem_read (length payload) p1 (f_core b2) = (payload, p2)) as E3.
      { rewrite <- E2. apply mem_read_same. eapply same_ring_trans; [exact Hr1|]. apply same_ring_store16. by right. }
      rewrite E3 in Hr. eapply does_bind; [eapply does_bind; [exact Hr|apply does_ret]|].
      eapply does_bind; [apply pktdec_does|apply does_ret]. }
    cbn [default]. apply does_input. intros r.
    destruct (negb _); [|eapply does_eq; [apply does_ret|done|reflexivity]].
    eapply does_eq; [apply does_run; intros w; apply free_ok|done|reflexivity].
  - eapply does_bind; [|apply does_ret].
    eapply does_bind; [by apply does_upd|].
    eapply does_bind; [by apply regw_write_does|].
    eapply does_bind; [apply does_ret|].
    eapply does_bind; [apply pktdec_does|].
    eapply does_eq; [apply does_ret|done|]. unfold on_core, on_enc. cbn [f_enc f_core f_inputs]. by rewrite app_nil_r.
Qed.

Lemma rx_loop_does l b q r :
  buffers_free → wf_core (f_core b) → queue (f_core b) (next_packet_pointer (f_enc b)) l q →
  ∃ b', does (rx_loop (length l) r) b (if decide (l = []) then r else 0) b' ∧
    f_enc b' = set_next_packet q (f_enc b) ∧ wf_core (f_core b') ∧ same_ring (f_core b) (f_core b') ∧
    reg (f_core b') 57 = Nat.iter (length l) (λ c, 0 `max` (c - 1)) (reg (f_core b) 57) ∧
    reg16 (f_core b') ERXRDPT = (if decide (l = []) then reg16 (f_core b) ERXRDPT else q) ∧ sent (f_core b') = sent (f_core b) ∧
    f_inputs b' = f_inputs b ++ map snd (filter (λ x, x.1 = true) l).
Proof.
  intros Hfree. revert b r. induction l as [|[ok payload] l IH]; intros b r Hk Hq.
  - exists b. inversion Hq; subst. split; [apply does_ret|]. 
    split; [by destruct (f_enc b)|]. split; [done|]. split; [by repeat split|]. split_and!; try done. by rewrite app_nil_r.
  - inversion Hq as [|? hdr p1 next ? ? p2 ? ? E1 Ei Hn E2 Hrest]; subst.
    destruct (rx_packet_does b hdr p1 next ok payload p2 Hfree Hk E1 Ei Hn E2) as (b1 & Hd & Ht).
    destruct Ht as [T1 T2 T3 T4 T5 T6 T7].
    assert (next_packet_pointer (f_enc b1) = next) as Ep by by rewrite T1.
    destruct (IH b1 (Z.of_nat (length l)) T2) as (b2 & Hd2 & H1 & H2 & H3 & H4 & H5 & H6 & H7).
    { rewrite Ep. by eapply queue_same. }
    exists b2. split.
    { cbn [rx_loop length]. eapply does_bind; [exact Hd|]. eapply does_eq; [exact Hd2| |done].
      rewrite (decide_False (P := _ :: _ = [])) by done. by destruct l. }
    split; [by rewrite H1, T1|]. split; [done|]. split; [by eapply same_ring_trans|]. split_and!.
    + rewrite H4, T4. cbn [length]. by rewrite Nat.iter_succ_r.
    + rewrite H5, T5. rewrite (decide_False (P := _ :: _ = [])) by done. inversion Hrest; subst; by case_decide.
    + congruence.
    + rewrite H7, T7, <- app_assoc. f_equal. destruct ok.
      * by rewrite filter_cons_True.
      * by rewrite filter_cons_False.
Qed.

(** C20: when [n] frames wait in the ring, one behind the other in any way the ring wraps, and lwIP has
    buffers, [rx_interrupt] gives lwIP exactly those the controller found in order, byte for byte and
    in their order, and counts all of them off; driver and controller agree afterwards on where the next
    frame will be.  It always returns 0: the caller's test of its result never makes a turn. *)
Theorem rx_interrupt_delivers l q b :
  buffers_free → wf_core (f_core b) → queue (f_core b) (next_packet_pointer (f_enc b)) l q →
  reg (f_core b) 57 = zlen l →
  ∃ b', does rx_interrupt b 0 b' ∧
    f_inputs b' = f_inputs b ++ map snd (filter (λ x, x.1 = true) l) ∧
    next_packet_pointer (f_enc b') = q ∧ (l ≠ [] → reg16 (f_core b') ERXRDPT = q) ∧ reg (f_core b') 57 = 0 ∧
    wf_core (f_core b') ∧ same_ring (f_core b) (f_core b') ∧ sent (f_core b') = sent (f_core b).
Proof.
  intros Hfree Hk Hq Hc. destruct (rx_loop_does l b q 0 Hfree Hk Hq) as (b' & Hd & H1 & H2 & H3 & H4 & H5 & H6 & H7).
  exists b'. split.
  - eapply does_bind; [by apply regb_read_does|]. change (flat_index EPKTCNT) with 57. rewrite Hc, Nat2Z.id.
    eapply does_eq; [exact Hd| |done]. by case_decide.
  - split; [done|]. split; [by rewrite H1|]. split; [intros Hl; by rewrite H5, decide_False|]. split; [|done].
    rewrite H4, Hc. clear. induction (length l) as [|n IH]; [done|]. rewrite Nat.iter_succ_r.
    rewrite <- IH at 2. f_equal. lia.
Qed.

(** A frame lwIP has no buffer for stays where it is: pointers, counter and driver do not move. *)
Lemma no_buffer_keeps_packet b s hdr p1 next n :
  (∀ n w, (pbuf_alloc (W := W) n w).1 = None) → wf_core (f_core b) → is_flat s b →
  mem_read 6 (next_packet_pointer (f_enc b)) (f_core b) = (hdr, p1) → parse_info hdr = mkInfo next n true →
  ∃ s' b', rx_packet s = Ok (tt, s') ∧ is_flat s' b' ∧ f_enc b' = f_enc b ∧ f_inputs b' = f_inputs b ∧
    reg (f_core b') 57 = reg (f_core b) 57 ∧ reg16 (f_core b') ERXRDPT = reg16 (f_core b) ERXRDPT.
Proof.
  intros Hno Hk Hs E1 Ei.
  destruct (packet_info_does b hdr p1 Hk E1 s Hs) as (s1 & Es1 & Hs1).
  unfold rx_packet. rewrite (st_bind_Ok _ _ _ _ _ Es1), Ei. cbn [received_ok byte_count].
  destruct (alloc_does n _ s1 Hs1) as (p & s2 & E & Hs2 & Ep & _). rewrite (st_bind_Ok _ _ _ _ _ E).
  pose proof (Hno n (world s1)) as Hn. rewrite Ep in Hn. cbn in Hn. subst p.
  eexists _, _. split; [reflexivity|]. split; [exact Hs2|]. cbn [on_core f_enc f_core f_inputs].
  split; [done|]. split; [done|]. split; [by rewrite !reg_store16_ne by num|].
  apply reg16_same; by rewrite !reg_store16_ne by num.
Qed.
End Receiving.

(** ** The theorems at work *)

Definition zeros8k : list Z := replicate (Z.to_nat 8192) 0.

Lemma bench_wf m count : zlen m = 8192 → wf_core (bench_core m count).
Proof. intros Hm. unfold bench_core. do 3 (apply wf_store || apply wf_store16). by split. Qed.

Lemma banked_access_is_flat_witness :
  forallb op_allowed [op_write ETXST 7; op_set ECON1 4; op_write MAADR5 2; op_read MAADR5; op_read ETXST] = true ∧
  ∃ s', do_ops [op_write ETXST 7; op_set ECON1 4; op_write MAADR5 2; op_read MAADR5; op_read ETXST]
    (bench_state [] 0 0) = Ok ([2; 7], s').
Proof.
  split; [vm_compute; reflexivity|].
  destruct (banked_access_is_flat [op_write ETXST 7; op_set ECON1 4; op_write MAADR5 2; op_read MAADR5; op_read ETXST]
    (bench_flat [] 0 0) (bench_state [] 0 0) ltac:(vm_compute; reflexivity) (bench_is_flat [] 0 0)) as (s' & E & _).
  exists s'. rewrite E. vm_compute. reflexivity.
Defined.

Lemma send_pbuf_transmits_witness :
  chain_pieces [mkPbuf (Some [1; 2; 3]) 3; mkPbuf None 0; mkPbuf (Some [4; 5]) 2] = Ok [[1; 2; 3]; [4; 5]] ∧
  ∃ k', does (W := bench) (send_pbuf [mkPbuf (Some [1; 2; 3]) 3; mkPbuf None 0; mkPbuf (Some [4; 5]) 2] 5)
      (bench_flat zeros8k 0 0) true (on_core (λ _, k') (bench_flat zeros8k 0 0)) ∧
    sent k' = [[1; 2; 3; 4; 5]].
Proof.
  assert (chain_pieces [mkPbuf (Some [1; 2; 3]) 3; mkPbuf None 0; mkPbuf (Some [4; 5]) 2] = Ok [[1; 2; 3]; [4; 5]]) as Hp
    by (vm_compute; reflexivity).
  assert (tx_ready (bench_core zeros8k 0)) as Hr
    by (split; [apply bench_wf; vm_compute; reflexivity|vm_compute; reflexivity]).
  split; [exact Hp|].
  destruct (send_pbuf_transmits (W := bench) _ _ 5 (bench_flat zeros8k 0 0) Hp eq_refl Hr) as [_ H].
  destruct H as (k' & Hd & Hs & _); [vm_compute; discriminate|].
  exists k'. split; [exact Hd|exact Hs].
Defined.

(** Two frames, the header of the first across the end of the ring; the second has an error. *)
Definition demo_ring : list Z :=
  [3; 0; 0x80; 0; 7; 8; 9; 99;  0; 1; 1; 0; 0; 0; 55] ++ replicate (Z.to_nat 6639) 0 ++ [8; 0] ++ replicate (Z.to_nat 1536) 0.

Lemma rx_interrupt_delivers_witness :
  queue (bench_core demo_ring 2) 6654 [(true, [7; 8; 9]); (false, [55])] 256 ∧
  ∃ b', does (W := bench) rx_interrupt (bench_flat demo_ring 2 6654) 0 b' ∧ f_inputs b' = [[7; 8; 9]].
Proof.
  assert (queue (bench_core demo_ring 2) 6654 [(true, [7; 8; 9]); (false, [55])] 256) as Hq.
  { eapply queue_cons; [vm_compute; reflexivity..|vm_compute; discriminate|vm_compute; reflexivity|].
    eapply queue_cons; [vm_compute; reflexivity..|vm_compute; discriminate|vm_compute; reflexivity|]. apply queue_nil. }
  split; [exact Hq|].
  destruct (rx_interrupt_delivers (W := bench) [(true, [7; 8; 9]); (false, [55])] 256 (bench_flat demo_ring 2 6654)
    ltac:(by eexists) (bench_wf demo_ring 2 ltac:(vm_compute; reflexivity)) Hq ltac:(vm_compute; reflexivity))
    as (b' & Hd & Hi & _).
  exists b'. split; [exact Hd|]. rewrite Hi. reflexivity.
Defined.
