(* ===== verification/EncInit.v ===== *)
(** Start-up of the Ethernet driver ([init]) and what its 16-bit register reads give. *)
From S2P Require Import Prelude StateMonad EncRegisters Enc28j60 EncChip EncDriver.

Lemma reg_settle_ne i j v d k : 0 <= i → 0 <= j → j ∉ [i; 28; 30; 31; 57; 88; 89] →
  reg (settle i v d k) j = reg k j.
Proof.
  intros Hi Hj. rewrite !not_elem_of_cons. intros Hn. unfold settle. repeat case_match.
  - by rewrite !reg_store_ne by lia.
  - transitivity (reg (store 28 (Z.lor (reg k 28) 8) (store 31 (Z.clearbit v 3) k)) j); [done|].
    by rewrite !reg_store_ne by lia.
  - transitivity (reg (store 87 v k) j); [done|].
    assert (i = 87) by (by apply Z.eqb_eq). by rewrite reg_store_ne by lia.
  - rewrite reg_store16_ne by lia. assert (i = 82) by lia. by rewrite reg_store_ne by lia.
  - by rewrite reg_store_ne by lia.
Qed.

Lemma reg_settle_ne' i j v d k : 0 <= i → 0 <= j → i ∉ [30; 31] → j ∉ [i; 88; 89] → reg (settle i v d k) j = reg k j.
Proof.
  intros Hi Hj. rewrite !not_elem_of_cons. intros Hn1 Hn2. unfold settle.
  rewrite !(proj2 (Z.eqb_neq _ _)) by tauto. cbn [andb]. repeat case_match.
  - transitivity (reg (store 87 v k) j); [done|].
    assert (i = 87) by (by apply Z.eqb_eq). by rewrite reg_store_ne by lia.
  - rewrite reg_store16_ne by lia. assert (i = 82) by lia. by rewrite reg_store_ne by lia.
  - by rewrite reg_store_ne by lia.
Qed.

Lemma reg_settle_eq i v d k : wf_core k → 0 <= i < 128 → plain i = true → reg (settle i v d k) i = v.
Proof. intros Hk Hi Hp. rewrite settle_plain by done. by apply reg_store_eq. Qed.

Lemma reg_store16_lo i v k j : j = i → wf_core k → 0 <= i < 127 → reg (store16 i v k) j = v mod 256.
Proof. intros -> Hk Hi. unfold store16. rewrite reg_store_ne, reg_store_eq; [done|done|lia..]. Qed.

Lemma reg_store16_hi i v k j : j = i + 1 → wf_core k → 0 <= i < 127 → reg (store16 i v k) j = v / 256.
Proof. intros -> Hk Hi. unfold store16. rewrite reg_store_eq; [done|auto with enc|lia]. Qed.

Section Init.
Context {W : Type} {board : Board W} {board_ok : BoardOk W}.

Lemma reg_set_ne i j m k : 0 <= i → 0 <= j → j ∉ [i; 28; 30; 31; 57; 88; 89] → reg (bit_set (W := W) i m k) j = reg k j.
Proof. apply reg_settle_ne. Qed.
Lemma reg_clr_ne i j m k : 0 <= i → 0 <= j → j ∉ [i; 28; 30; 31; 57; 88; 89] → reg (bit_clr (W := W) i m k) j = reg k j.
Proof. apply reg_settle_ne. Qed.

(** A PHY register is written through [MIREGADR] and [MIWR]. *)
Definition phy_core (r d : Z) (k : core) : core :=
  let k := settle 84 r r k in
  let k := settle 86 (Z.land d 0xff) (Z.land d 0xff) k in
  settle 87 (Z.shiftr d 8) (Z.shiftr d 8) k.

Lemma wf_phy_core r d k : wf_core k → wf_core (phy_core r d k).
Proof. intros H. unfold phy_core. auto with enc. Qed.

Lemma reg_phy_ne r d k j : 0 <= j → j ∉ [84; 86; 87; 28; 30; 31; 57; 88; 89] → reg (phy_core r d k) j = reg k j.
Proof.
  intros Hj. rewrite !not_elem_of_cons. intros Hn. unfold phy_core.
  rewrite !reg_settle_ne; try done; rewrite !not_elem_of_cons; split_and!; try tauto; apply not_elem_of_nil.
Qed.

Lemma write_phy_does fuel r d b : Z.land (reg (f_core b) 106) 1 = 0 →
  does (write_phy (W := W) (S fuel) r d) b 1 (on_core (phy_core r d) b).
Proof.
  intros Hidle. unfold write_phy. eapply does_bind; [by apply regb_write_does|].
  eapply does_bind.
  { unfold regw_write. eapply does_bind; [by apply regb_write_does|by apply regb_write_does]. }
  set (b1 := on_core _ (on_core _ (on_core _ b))).
  assert (b1 = on_core (phy_core r d) b) as Eb by done. rewrite Eb. clear b1 Eb. set (b1 := on_core _ b).
  assert (Z.land (reg (f_core b1) 106) 1 = 0) as H1.
  { unfold b1. cbn [f_core on_core]. rewrite reg_phy_ne; [done|done|outside]. }
  clearbody b1. unfold wait_phy_ready, poll_ready. apply (does_bind _ _ _ 0 b1); [|apply does_ret].
  intros s Hs. destruct (ticks_does b1 s Hs) as (t & s1 & E & Hs1). rewrite (st_bind_Ok _ _ _ _ _ E).
  cbn [poll_loop]. destruct (regb_read_does (W := W) MISTAT b1 eq_refl ltac:(done) s1 Hs1) as (s2 & E2 & Hs2).
  rewrite (st_bind_Ok _ _ _ _ _ E2). change (flat_index MISTAT) with 106.
  unfold MISTAT_BUSY. rewrite H1. by exists s2.
Qed.

Lemma write_phys_does fuel l b : Z.land (reg (f_core b) 106) 1 = 0 →
  does (write_phys (W := W) (S fuel) l) b true (on_core (λ k, foldl (λ k x, phy_core x.1 x.2 k) k l) b).
Proof.
  revert b. induction l as [|[r d] l IH]; intros b Hb; [eapply does_eq; [apply does_ret|done|by destruct b]|].
  cbn [write_phys]. eapply does_bind; [by apply write_phy_does|]. cbn [Z.eqb].
  apply IH. cbn [f_core on_core]. rewrite reg_phy_ne; [done|done|outside].
Qed.

(** *** The parts of [init] *)

Lemma rxfifo_init_does b :
  does (W := W) (rxfifo_init RXSTART_INIT RXEND_INIT) b tt
    (mkFlat (set_next_packet 0 (f_enc b))
      (store16 ERXND 0x19FF (store16 ERXRDPT 0x19FF (store16 ERXST 0 (f_core b)))) (f_inputs b)).
Proof.
  unfold rxfifo_init. cbn [Z.ltb Z.compare orb RXSTART_INIT RXEND_INIT Pos.compare Pos.compare_cont].
  eapply does_bind; [by apply does_upd|].
  eapply does_bind; [by apply regw_write_does|].
  eapply does_bind; [by apply does_member|]. cbn [f_enc on_core on_enc set_next_packet next_packet_pointer].
  eapply does_bind; [by apply regw_write_does|].
  eapply does_eq; [by apply regw_write_does|done|]. done.
Qed.

Lemma txfifo_init_does b :
  does (W := W) (txfifo_init TXSTART_INIT TXEND_INIT) b tt (on_core (λ k, store16 ETXND 0x1FFF (store16 ETXST 0x1A00 k)) b).
Proof.
  unfold txfifo_init. cbn [Z.ltb Z.compare orb TXSTART_INIT TXEND_INIT Pos.compare Pos.compare_cont].
  eapply does_bind; [by apply regw_write_does|]. eapply does_eq; [by apply regw_write_does|done|done].
Qed.

Definition mac_setup_core (full : bool) (k : core) : core :=
  if full then settle 68 0x15 0x15 (settle 70 0x12 0x12 (settle 66 0x33 0x33 k))
  else settle 68 0x12 0x12 (store16 70 0x0C12 (settle 67 64 64 (settle 66 0x32 0x32 k))).

Lemma mac_setup_does full b : does (W := W) (mac_setup full) b tt (on_core (mac_setup_core full) b).
Proof.
  destruct full; unfold mac_setup.
  - do 2 (eapply does_bind; [by apply regb_write_does|]). eapply does_eq; [by apply regb_write_does|done|done].
  - do 2 (eapply does_bind; [by apply regb_write_does|]). eapply does_bind; [by apply regw_write_does|].
    eapply does_eq; [by apply regb_write_does|done|done].
Qed.

(** The address registers, from the first byte of the address on. *)
Definition maadr : list Z := [100; 101; 98; 99; 96; 97].

Definition write_mac_core (m : list Z) (k : core) : core :=
  let mac i := nth i m 0 in
  settle 97 (mac 5%nat) (mac 5%nat) (settle 96 (mac 4%nat) (mac 4%nat) (settle 99 (mac 3%nat) (mac 3%nat)
    (settle 98 (mac 2%nat) (mac 2%nat) (settle 101 (mac 1%nat) (mac 1%nat) (settle 100 (mac 0%nat) (mac 0%nat) k))))).

Lemma write_mac_does b : does (W := W) write_mac b tt (on_core (write_mac_core (mac_ (f_enc b))) b).
Proof.
  unfold write_mac. eapply does_bind; [by apply does_member|].
  do 5 (eapply does_bind; [by apply regb_write_does|]). eapply does_eq; [by apply regb_write_does|done|done].
Qed.

(** *** The whole of it *)

(** As far as the controller goes, nothing happened. *)
Definition untouched (s s' : st (W := W)) : Prop :=
  enc s' = enc s ∧ chip_of (world s') = chip_of (world s) ∧ inputs (world s') = inputs (world s).

Lemma run_untouched (f : W → W) s :
  (∀ w, chip_of (f w) = chip_of w ∧ inputs (f w) = inputs w) →
  ∃ s', run f s = Ok (tt, s') ∧ untouched s s'.
Proof. intros Hf. eexists. split; [reflexivity|]. by destruct (Hf (world s)). Qed.

Lemma untouched_trans s1 s2 s3 : untouched s1 s2 → untouched s2 s3 → untouched s1 s3.
Proof. intros (? & ? & ?) (? & ? & ?). split_and!; congruence. Qed.

Lemma hard_reset_ok s : current_register_bank (enc s) = 0 →
  let k := (chip_of (world s)).2 in
  ∃ s', hard_reset s = Ok (tt, s') ∧
    is_flat s' (mkFlat (enc s) (mkCore reset_regs (mem k) (phy k) (sent k)) (inputs (world s))).
Proof.
  intros Hb k. unfold hard_reset.
  destruct (run_untouched spi_init s spi_init_ok) as (s1 & E1 & U1). rewrite (st_bind_Ok _ _ _ _ _ E1).
  destruct (run_untouched (gpio RST_gpio pin_output) s1 (gpio_ok _ _)) as (s2 & E2 & U2). rewrite (st_bind_Ok _ _ _ _ _ E2).
  destruct (run_untouched (gpio CS_gpio pin_output) s2 (gpio_ok _ _)) as (s3 & E3 & U3). rewrite (st_bind_Ok _ _ _ _ _ E3).
  destruct (run_untouched (gpio CS_gpio pin_set) s3 (gpio_ok _ _)) as (s4 & E4 & U4). rewrite (st_bind_Ok _ _ _ _ _ E4).
  destruct (run_untouched (gpio RST_gpio pin_reset) s4 (gpio_ok _ _)) as (s5 & E5 & U5). rewrite (st_bind_Ok _ _ _ _ _ E5).
  destruct (run_untouched (vTaskDelay AFTER_RESET_DELAY_MS) s5 (delay_ok _)) as (s6 & E6 & U6). rewrite (st_bind_Ok _ _ _ _ _ E6).
  destruct (run_untouched (gpio RST_gpio pin_set) s6 (gpio_ok _ _)) as (s7 & E7 & U7). rewrite (st_bind_Ok _ _ _ _ _ E7).
  assert (untouched s s7) as (Ue & Uc & Ui) by eauto 10 using untouched_trans. clear - Hb Ue Uc Ui.
  unfold spi_write_op. destruct (spi_frame_step [Z.lor ENC28J60_SOFT_RESET (Z.land 0 ENC_ADDR_MASK); ENC28J60_SOFT_RESET] 0 s7)
    as (rx & w' & E & Ec & Ein).
  erewrite st_bind_Ok; [|erewrite st_bind_Ok by exact E; reflexivity].
  destruct (run_untouched (vTaskDelay 2) (mkSt (enc s7) w') (delay_ok _)) as (s9 & E9 & (V1 & V2 & V3)).
  exists s9. split; [exact E9|]. rewrite Uc in Ec. unfold k. destruct (chip_of (world s)) as [bank k0] eqn:Ek. cbn [snd].
  cbn in Ec. injection Ec as _ Hw. unfold is_flat. cbn [f_enc f_core f_inputs]. rewrite V1, V2, V3. cbn [enc world].
  rewrite Ue, Ein, Ui, <- Hw. cbn [fst snd]. rewrite Hb. split; [by destruct (enc s); cbn in *; subst|done].
Qed.

(** The controller when [configure] and [init] are done. *)
Definition configure_core (full : bool) (k : core) : core :=
  let k := store16 ERXND 0x19FF (store16 ERXRDPT 0x19FF (store16 ERXST 0 k)) in
  let k := store16 ETXND 0x1FFF (store16 ETXST 0x1A00 k) in
  let k := bit_set (W := W) 64 13 (settle 56 161 161 k) in
  store16 70 0x0C12 (store16 74 MAX_FRAMELEN (mac_setup_core full k)).

Definition phy_list (full : bool) : list (Z * Z) :=
  if full then [(PHCON1, PHCON1_PDPXMD); (PHCON2, 0x00); (PHLCON, 0x0480)]
  else [(PHCON1, 0x00); (PHCON2, PHCON2_HDLDIS); (PHLCON, ENC28J60_LAMPS_MODE)].

Definition phys_core (full : bool) (k : core) : core := foldl (λ k x, phy_core x.1 x.2 k) k (phy_list full).

Definition init_core (full : bool) (m : list Z) (k : core) : core :=
  bit_set (W := W) 31 4 (bit_set (W := W) 27 0xD0 (write_mac_core m (phys_core full (configure_core full k)))).

Ltac wf := repeat first
  [ assumption | apply wf_store16 | apply wf_store | apply wf_settle | apply wf_phy_core | apply wf_set | apply wf_clr ].

(** Registers of such a state. *)
Ltac outs := first [by vm_compute | outside].
Ltac init_look := repeat match goal with
  | |- context [reg (store16 ?i ?v ?k) ?j] =>
      first [ rewrite (reg_store16_ne i j v k) by num
            | rewrite (reg_store16_lo i v k j) by first [done|by wf|num]
            | rewrite (reg_store16_hi i v k j) by first [done|by wf|num] ]
  | |- context [reg (settle ?i ?v ?d ?k) ?j] =>
      first [ rewrite (reg_settle_ne i j v d k) by outs | rewrite (reg_settle_eq i v d k) by first [by wf|num] ]
  | |- context [reg (bit_set ?i ?m ?k) ?j] => rewrite (reg_set_ne i j m k) by outs
  | |- context [reg (phy_core ?r ?d ?k) ?j] => rewrite (reg_phy_ne r d k j) by outs
  end.

Lemma init_core_wf full m k : wf_core k → wf_core (init_core full m k).
Proof. intros H. unfold init_core, phys_core, phy_list, configure_core, mac_setup_core, write_mac_core. destruct full; cbn [foldl]; wf. Qed.

Lemma init_core_regs full m k : wf_core k →
  let k' := init_core full m k in
  reg16 k' ERXST = 0 ∧ reg16 k' ERXND = 0x19FF ∧ reg16 k' ERXRDPT = 0x19FF ∧
  reg16 k' ETXST = 0x1A00 ∧ reg16 k' 74 = MAX_FRAMELEN ∧ reg k' 56 = 161 ∧ reg k' 114 = reg k 114 ∧
  map (reg k') maadr = map (λ i, nth i m 0) (seq 0 6).
Proof.
  intros Hk. cbn zeta. unfold reg16, ERXST, ERXND, ERXRDPT, ETXST, maadr, init_core, phys_core, phy_list, configure_core, mac_setup_core, write_mac_core.
  cbn [Z.add Pos.add Pos.succ map seq].
  destruct full; cbn [foldl]; (split_and!; [..|repeat f_equal]); init_look; done.
Qed.

Lemma configure_core_facts full k : wf_core k →
  wf_core (configure_core full k) ∧ reg (configure_core full k) 106 = reg k 106 ∧ reg (configure_core full k) 114 = reg k 114.
Proof.
  intros Hk. unfold configure_core, mac_setup_core. split; [destruct full; wf|].
  destruct full; split; init_look; done.
Qed.

Lemma phy_list_facts full k : wf_core k → wf_core (phys_core full k) ∧ reg (phys_core full k) 114 = reg k 114.
Proof.
  intros Hk. unfold phys_core, phy_list. split; [destruct full; cbn [foldl]; wf|].
  destruct full; cbn [foldl]; init_look; done.
Qed.

Lemma init_core_idle full m k : wf_core k → reg (init_core full m k) 106 = reg k 106.
Proof.
  intros Hk. unfold init_core, phys_core, phy_list, configure_core, mac_setup_core, write_mac_core.
  destruct full; cbn [foldl]; init_look; done.
Qed.

Lemma init_core_count full m k : wf_core k → reg (init_core full m k) 57 = reg k 57.
Proof.
  intros Hk. unfold init_core. rewrite !bit_set_store by first [done|by left|by right].
  rewrite !reg_store_ne by done.
  unfold phys_core, phy_list, configure_core, mac_setup_core, write_mac_core, phy_core, bit_set.
  destruct full; cbn [foldl]; repeat match goal with
  | |- context [reg (settle ?i ?v ?d ?k) 57] => rewrite (reg_settle_ne' i 57 v d k) by outs
  | |- context [reg (store16 ?i ?v ?k) 57] => rewrite (reg_store16_ne i 57 v k) by num
  end; done.
Qed.

Lemma wait_clkrdy_does b n : Z.land (reg (f_core b) 29) ESTAT_CLKRDY ≠ 0 → does (W := W) (wait_clkrdy n) b true b.
Proof.
  intros H. destruct n; (eapply does_bind; [by apply regb_read_does|]);
    change (flat_index ESTAT) with 29; rewrite (proj2 (Z.eqb_neq _ _) H); apply does_ret.
Qed.

Lemma configure_does b :
  does (W := W) configure b (full_duplex (f_enc b))
    (mkFlat (set_next_packet 0 (f_enc b)) (configure_core (full_duplex (f_enc b)) (f_core b)) (f_inputs b)).
Proof.
  unfold configure. eapply does_bind; [apply rxfifo_init_does|].
  eapply does_bind; [apply txfifo_init_does|].
  eapply does_bind; [by apply regb_write_does|].
  eapply does_bind; [by apply reg_bfset_does|].
  eapply does_bind; [by apply does_member|].
  eapply does_bind; [apply mac_setup_does|].
  eapply does_bind; [by apply regw_write_does|].
  eapply does_bind; [by apply regw_write_does|].
  eapply does_eq; [apply does_ret|done|done].
Qed.

(** [m] is what the unique identifier makes of the address. *)
Lemma start_does b s : is_flat s b → wf_core (f_core b) → 0 < reg (f_core b) 114 →
  ∃ s' m, start s = Ok (true, s') ∧
    is_flat s' (mkFlat (set_available true (set_mac m (f_enc b)))
      (bit_set (W := W) 31 4 (bit_set (W := W) 27 0xD0 (write_mac_core m (f_core b)))) (f_inputs b)) ∧
    (m = mac_ (f_enc b) ∨ ∃ id, m = generate_mac id).
Proof.
  intros Hs Hk Hrev. destruct Hs as (H1 & H2 & H3 & H4 & H5). unfold start.
  pose proof (unique_id_ok (world s)) as Hu. destruct (flash_get_unique_id (world s)) as [id w'] eqn:Eu.
  destruct Hu as [U1 U2].
  assert (call flash_get_unique_id s = Ok (id, mkSt (enc s) w')) as E by (unfold call; by rewrite Eu).
  rewrite (st_bind_Ok _ _ _ _ _ E). set (m := match id with Some id => generate_mac id | None => mac_ (f_enc b) end).
  set (b1 := mkFlat (set_mac m (f_enc b)) (f_core b) (f_inputs b)).
  assert (∃ s1, match id with Some id => upd (set_mac (generate_mac id)) | None => mret tt end (mkSt (enc s) w') = Ok (tt, s1) ∧
    is_flat s1 b1) as (s1 & E1 & Hs1).
  { unfold is_flat, b1, m. destruct id as [id|]; eexists; (split; [reflexivity|]); cbn [enc world f_enc f_core f_inputs];
      rewrite U1, U2; (split; [|done]); rewrite <- H1; by destruct (enc s). }
  rewrite (st_bind_Ok _ _ _ _ _ E1).
  assert (does (W := W) (write_mac;; reg_bfset EIE (Z.lor (Z.lor EIE_INTIE EIE_PKTIE) EIR_LINKIF);; reg_bfset ECON1 ECON1_RXEN;;
      rev ← regb_read EREVID; upd (set_available (0 <? rev));; mret (0 <? rev)) b1 true
    (mkFlat (set_available true (f_enc b1)) (bit_set (W := W) 31 4 (bit_set (W := W) 27 0xD0 (write_mac_core m (f_core b)))) (f_inputs b)))
    as Hd.
  { eapply does_bind; [apply write_mac_does|]. change (mac_ (f_enc b1)) with m.
    eapply does_bind; [by apply reg_bfset_does|]. eapply does_bind; [by apply reg_bfset_does|].
    set (b2 := on_core _ (on_core _ (on_core _ b1))).
    assert (reg (f_core b2) 114 = reg (f_core b) 114) as Er.
    { unfold b2. cbn [f_core on_core b1]. unfold write_mac_core. init_look. done. }
    eapply does_bind; [by apply regb_read_does|]. change (flat_index EREVID) with 114. rewrite Er.
    rewrite (proj2 (Z.ltb_lt _ _) Hrev). eapply does_bind; [by apply does_upd|].
    eapply does_eq; [apply does_ret|done|done]. }
  destruct (Hd s1 Hs1) as (s2 & E2 & Hs2). exists s2, m. split; [exact E2|]. split; [exact Hs2|].
  unfold m. destruct id; eauto.
Qed.

(** The state after [init], from power-on. *)
Definition init_flat (full : bool) (m : list Z) (s : st (W := W)) : flat :=
  let k := mkCore reset_regs (mem (chip_of (world s)).2) (phy (chip_of (world s)).2) (sent (chip_of (world s)).2) in
  mkFlat (set_available true (set_mac m (set_next_packet 0 (enc s)))) (init_core full m k) (inputs (world s)).

Lemma init_ok fuel s : current_register_bank (enc s) = 0 → zlen (mem (chip_of (world s)).2) = 8192 →
  ∃ s' full m, init (S fuel) s = Ok (true, s') ∧ is_flat s' (init_flat full m s) ∧
    (m = mac_ (enc s) ∨ ∃ id, m = generate_mac id).
Proof.
  intros Hb Hm. destruct (hard_reset_ok s Hb) as (s1 & E1 & Hs1). cbv zeta in Hs1.
  set (b1 := mkFlat _ _ _) in Hs1. unfold init. rewrite (st_bind_Ok _ _ _ _ _ E1).
  assert (wf_core (f_core b1)) as Hk1 by (split; [apply reset_length|done]).
  destruct (wait_clkrdy_does b1 10 reset_ready s1 Hs1) as (s2 & E2 & Hs2). rewrite (st_bind_Ok _ _ _ _ _ E2). cbn [negb].
  destruct (configure_does b1 s2 Hs2) as (s3 & E3 & Hs3). rewrite (st_bind_Ok _ _ _ _ _ E3).
  set (full := full_duplex (f_enc b1)) in *. set (b3 := mkFlat _ _ _) in Hs3.
  destruct (configure_core_facts full (f_core b1) Hk1) as (Hk3 & F1 & F2).
  destruct (write_phys_does fuel (phy_list full) b3) with (s := s3) as (s4 & E4 & Hs4); [|done|].
  { unfold b3. cbn [f_core]. rewrite F1. apply reset_idle. }
  assert (phy_setup (S fuel) full s3 = Ok (true, s4)) as E4' by (rewrite <- E4; by destruct full).
  rewrite (st_bind_Ok _ _ _ _ _ E4'). cbn [negb].
  destruct (phy_list_facts full (f_core b3) Hk3) as (Hk4 & F3).
  destruct (start_does _ s4 Hs4) as (s5 & m & E5 & Hs5 & Hmac); [exact Hk4| |].
  { eapply Z.lt_le_trans; [apply reset_revision|]. apply Z.eq_le_incl. symmetry. etransitivity; [exact F3|exact F2]. }
  exists s5, full, m. split; [exact E5|]. split; [exact Hs5|exact Hmac].
Qed.

Lemma reset_wf s : zlen (mem (chip_of (world s)).2) = 8192 →
  wf_core (mkCore reset_regs (mem (chip_of (world s)).2) (phy (chip_of (world s)).2) (sent (chip_of (world s)).2)).
Proof. intros Hm. split; [apply reset_length|done]. Qed.

(** From power-on (or any state with the bank variable at 0), [init] brings the controller into the
    state the rest of the driver counts on: the receive ring and the transmit buffer are where the driver
    has them and do not overlap, the driver is at the start of the ring, no frame is counted, the address
    registers hold the driver's address, frames are limited to 1518 bytes; and it reports the controller
    as available. *)
Theorem init_configures fuel s :
  current_register_bank (enc s) = 0 → zlen (mem (chip_of (world s)).2) = 8192 →
  ∃ s' b, init (S fuel) s = Ok (true, s') ∧ is_flat s' b ∧
    tx_ready (f_core b) ∧ reg16 (f_core b) ERXST = RXSTART_INIT ∧ reg16 (f_core b) ERXND = RXEND_INIT ∧
    next_packet_pointer (f_enc b) = RXSTART_INIT ∧ reg (f_core b) 57 = 0 ∧
    reg16 (f_core b) (flat_index MAMXFL) = MAX_FRAMELEN ∧
    map (λ a, reg (f_core b) (flat_index a)) [MAADR5; MAADR4; MAADR3; MAADR2; MAADR1; MAADR0] =
      map (λ i, nth i (mac_ (f_enc b)) 0) (seq 0 6) ∧
    (mac_ (f_enc b) = mac_ (enc s) ∨ ∃ id, mac_ (f_enc b) = generate_mac id) ∧
    is_available (f_enc b) = true ∧ f_inputs b = inputs (world s).
Proof.
  intros Hb Hm. destruct (init_ok fuel s Hb Hm) as (s' & full & m & E & Hs & Hmac). exists s', (init_flat full m s).
  split; [exact E|]. split; [exact Hs|]. pose proof (reset_wf s Hm) as Hk. cbn [f_enc f_core f_inputs init_flat].
  destruct (init_core_regs full m _ Hk) as (R1 & R2 & R3 & R4 & R5 & R6 & R7 & R8).
  split; [split; [by apply init_core_wf|done]|]. split; [done|]. split; [done|]. split; [done|].
  split; [rewrite init_core_count by done; apply reset_count|]. split; [done|]. split; [done|].
  split; [destruct Hmac as [->|[id ->]]; eauto|]. done.
Qed.

(** ** Where the driver reads the wrong thing *)

(** The transmit status vector stands behind the frame in the transmit buffer, but [regw_read] keeps
    only the low byte of [ETXND]: [read_tsv] reads seven bytes at an address of at most 256, inside the
    receive ring.  Whether a transmission that failed is repeated depends on received data. *)
Theorem tsv_read_from_receive_ring tsv b : wf_core (f_core b) → is_u8 (reg (f_core b) ETXND) → zlen tsv = TSV_SIZE →
  let addr := reg (f_core b) ETXND + 1 in
  let '(l, p) := mem_read 7 addr (f_core b) in
  does (W := W) (read_tsv tsv) b l (on_core (λ k, store16 ERDPT p (store16 ERDPT addr k)) b) ∧
  RXSTART_INIT <= addr <= 256 ∧ addr + TSV_SIZE <= RXEND_INIT.
Proof.
  intros Hk Hu Ht. cbv zeta. destruct (mem_read _ _ _) as [l p] eqn:E. split.
  - unfold read_tsv. eapply does_bind; [by apply regw_read_does|]. change (flat_index ETXND) with ETXND.
    rewrite u8_id by done. rewrite u16_id by (unfold is_u8, is_u16 in *; lia).
    eapply does_bind; [by apply regw_write_does|]. change (flat_index ERDPT) with ERDPT. set (b1 := on_core _ b).
    pose proof (read_buff_does (W := W) tsv TSV_SIZE b1 ltac:(done) Ht) as Hr.
    assert (reg16 (f_core b1) ERDPT = reg (f_core b) ETXND + 1) as Ea by (apply reg16_store16_eq; num).
    rewrite Ea in Hr.
    assert (mem_read (Z.to_nat TSV_SIZE) (reg (f_core b) ETXND + 1) (f_core b1) = (l, p)) as E1.
    { rewrite <- E. apply mem_read_same, same_ring_store16. by left. }
    rewrite E1 in Hr. eapply does_bind; [exact Hr|]. eapply does_eq; [apply does_ret|done|done].
  - unfold is_u8, RXSTART_INIT, TSV_SIZE, RXEND_INIT in *. lia.
Qed.

(** The free space of the ring is computed from low bytes too. *)
Lemma get_free_rxfifo_low_bytes b : reg (f_core b) 57 < 255 →
  let lo i := u8 (reg (f_core b) i) in
  does (W := W) get_free_rxfifo b
    (if lo ERXRDPT <? lo ERXWRPT then (lo ERXND - lo ERXST) - (lo ERXWRPT - lo ERXRDPT)
     else if lo ERXWRPT =? lo ERXRDPT then lo ERXND - lo ERXST else lo ERXRDPT - lo ERXWRPT - 1) b.
Proof.
  intros Hc. cbv zeta. unfold get_free_rxfifo. eapply does_bind; [by apply regb_read_does|].
  change (flat_index EPKTCNT) with 57. rewrite (proj2 (Z.leb_gt _ _) Hc).
  do 4 (eapply does_bind; [by apply regw_read_does|]). apply does_ret.
Qed.

Lemma reset_rx_logic_does b : ∃ k',
  does (W := W) reset_rx_logic b tt (mkFlat (set_next_packet 0 (f_enc b)) k' (f_inputs b)).
Proof.
  eexists. unfold reset_rx_logic. do 3 (eapply does_bind; [first [by apply reg_bfclr_does|by apply reg_bfset_does]|]).
  eapply does_bind; [apply rxfifo_init_does|]. eapply does_bind; [by apply reg_bfclr_does|].
  eapply does_eq; [by apply reg_bfset_does|done|reflexivity].
Qed.

(** A frame whose header points outside the ring is given to lwIP as the buffer came from [pbuf_alloc]:
    nothing was read into it. *)
Lemma corrupt_pointer_delivers_junk b s hdr p1 next n :
  wf_core (f_core b) → is_flat s b → buffers_free (W := W) →
  mem_read 6 (next_packet_pointer (f_enc b)) (f_core b) = (hdr, p1) → parse_info hdr = mkInfo next n true →
  RXEND_INIT < next →
  ∃ w junk s' b', (pbuf_alloc n w).1 = Some junk ∧ rx_packet s = Ok (tt, s') ∧ is_flat s' b' ∧
    f_inputs b' = f_inputs b ++ [junk] ∧ next_packet_pointer (f_enc b') = RXSTART_INIT.
Proof.
  intros Hk Hs Hfree E1 Ei Hn. destruct (packet_info_does b hdr p1 Hk E1 s Hs) as (s1 & Es1 & Hs1).
  unfold rx_packet. rewrite (st_bind_Ok _ _ _ _ _ Es1), Ei. cbn [received_ok byte_count].
  destruct (alloc_does n _ s1 Hs1) as (p & s2 & E & Hs2 & Ep & Hl). rewrite (st_bind_Ok _ _ _ _ _ E).
  pose proof (Hfree n (world s1)) as [junk Hj]. rewrite Ep in Hj. cbn in Hj. subst p. set (b2 := on_core _ b) in Hs2.
  destruct (reset_rx_logic_does b2) as (k' & Hd).
  assert (does (W := W) (get_incoming_packet (mkInfo next n true) (Some junk) n) b2 (Some junk, 0)
    (mkFlat (set_next_packet 0 (f_enc b2)) k' (f_inputs b2))) as Hg.
  { unfold get_incoming_packet. cbn [info_next]. rewrite (proj2 (Z.ltb_lt _ _) Hn).
    eapply does_bind; [exact Hd|apply does_ret]. }
  assert (does (W := W) ('(p, _) ← get_incoming_packet (mkInfo next n true) (Some junk) n;
    r ← call (netif_input (default junk p));
    if negb (r =? ERR_OK) then run (pbuf_free (default junk p)) else mret tt) b2 tt
    (mkFlat (set_next_packet 0 (f_enc b2)) k' (f_inputs b2 ++ [junk]))) as Hr.
  { eapply does_bind; [exact Hg|]. cbn [default]. apply does_input. intros r.
    destruct (negb _); [apply does_run; intros w; apply free_ok|apply does_ret]. }
  destruct (Hr s2 Hs2) as (s3 & E3 & Hs3). exists (world s1), junk, s3. eexists. split; [by rewrite Ep|].
  split; [exact E3|]. split; [exact Hs3|done].
Qed.
End Init.

(** ** The theorems at work *)

Lemma init_configures_witness :
  current_register_bank (bench_enc 0) = 0 ∧
  ∃ s' b, init 1 (bench_state zeros8k 0 0) = Ok (true, s') ∧ is_flat s' b ∧ is_available (f_enc b) = true.
Proof.
  assert (zlen (mem (chip_of (world (bench_state zeros8k 0 0))).2) = 8192) as Hm by (vm_compute; reflexivity).
  split; [done|].
  destruct (init_configures (W := bench) 0 (bench_state zeros8k 0 0) eq_refl Hm)
    as (s' & b & E & Hs & _ & _ & _ & _ & _ & _ & _ & _ & Ha & _).
  exists s', b. split; [exact E|]. split; [exact Hs|exact Ha].
Defined.

Lemma tsv_read_from_receive_ring_witness :
  is_u8 (reg (bench_core demo_ring 0) ETXND) ∧
  ∃ b', does (W := bench) (read_tsv (replicate 7 0)) (bench_flat demo_ring 0 0) [0; 128; 0; 7; 8; 9; 99] b'.
Proof.
  assert (is_u8 (reg (bench_core demo_ring 0) ETXND)) as Hu by (vm_compute; split; done).
  split; [exact Hu|].
  assert (wf_core (bench_core demo_ring 0)) as Hk by (apply bench_wf; vm_compute; reflexivity).
  pose proof (tsv_read_from_receive_ring (W := bench) (replicate 7 0) (bench_flat demo_ring 0 0) Hk Hu eq_refl) as H.
  cbv zeta in H. destruct (mem_read 7 (reg (f_core (bench_flat demo_ring 0 0)) ETXND + 1) (f_core (bench_flat demo_ring 0 0)))
    as [l p] eqn:E.
  assert (l = [0; 128; 0; 7; 8; 9; 99]) as -> by (vm_compute in E; by injection E).
  destruct H as [H _]. eexists. exact H.
Defined.
