(* ===== verification/EncStartup.v ===== *)
(** The Ethernet interface from power-on (enc28j60/src/enc28j60_LWIP_FreeRTOS.cpp and [eth_netif_init] of
    enc28j60/src/enc28j60.cpp): the controller is initialised, lwIP gets an interface, the task that serves the interrupts is
    created, and the interrupts and the receiver are enabled. *)
From S2P Require Import Prelude CString StateMonad EncRegisters Enc28j60 EncChip EncDriver EncInit.

Inductive netif_flag := NETIF_FLAG_BROADCAST | NETIF_FLAG_ETHARP | NETIF_FLAG_ETHERNET | NETIF_FLAG_IGMP | NETIF_FLAG_MLD6.
Inductive output_function := eth_packet_output | etharp_output.

(** The members of lwIP's [netif] that are set. *)
Record netif := mkNetif {
  ip_addr : Z; netmask : Z; gw : Z; linkoutput : option output_function; output : option output_function; mtu : Z;
  flags : list netif_flag; hwaddr : list Z; name : list Z; hostname : list Z; callbacks : bool }.

(** [netif_add] calls [init] on an interface with the addresses; it fails when [init] does, or for reasons of its own.
    Whether there is memory for a semaphore and a task. *)
Class Services := {
  netif_add : Z → Z → Z → (netif → netif * Z) → option netif;
  xSemaphoreCreateBinary : bool;
  xTaskCreate : bool;
}.

Class ServicesOk `{Services} :=
  netif_add_ok ip nm gateway init n : netif_add ip nm gateway init = Some n →
    ∃ n0, (ip_addr n0, netmask n0, gw n0) = (ip, nm, gateway) ∧ init n0 = (n, ERR_OK).

Definition ETHERNET_MTU : Z := 1500.

Definition eth_netif_init (me : enc28j60) (n : netif) : netif * Z :=
  (mkNetif (ip_addr n) (netmask n) (gw n) (Some eth_packet_output) (Some etharp_output) ETHERNET_MTU
     [NETIF_FLAG_BROADCAST; NETIF_FLAG_ETHARP; NETIF_FLAG_ETHERNET; NETIF_FLAG_IGMP; NETIF_FLAG_MLD6] (mac_ me)
     (name n) (hostname n) (callbacks n), ERR_OK).

Definition with_name (n : netif) : netif :=
  mkNetif (ip_addr n) (netmask n) (gw n) (linkoutput n) (output n) (mtu n) (flags n) (hwaddr n) (chars "e0") (chars "PICO") true.

Section Startup.
Context {W : Type} {board : Board W} {services : Services}.

(** The driver, and what it made in lwIP and FreeRTOS: the interface in the list, whether it is the default one and up, the
    semaphore of the interrupt handler, and the task that waits for it. *)
Record host := mkHost {
  device : st (W := W); interface : option netif; is_default : bool; is_up : bool; irq_loop_sem : bool; irq_loop_task : bool }.

Definition on_device {A} (m : ST (st (W := W)) A) : ST host A := λ h,
  '(a, s) ← m (device h); Ok (a, mkHost s (interface h) (is_default h) (is_up h) (irq_loop_sem h) (irq_loop_task h)).

Definition set_interface (n : netif) : ST host unit :=
  modify (λ h, mkHost (device h) (Some n) (is_default h) (is_up h) (irq_loop_sem h) (irq_loop_task h)).
Definition netif_set_default : ST host unit :=
  modify (λ h, mkHost (device h) (interface h) true (is_up h) (irq_loop_sem h) (irq_loop_task h)).
Definition netif_set_up : ST host unit :=
  modify (λ h, mkHost (device h) (interface h) (is_default h) true (irq_loop_sem h) (irq_loop_task h)).
Definition set_sem : ST host unit :=
  modify (λ h, mkHost (device h) (interface h) (is_default h) (is_up h) xSemaphoreCreateBinary (irq_loop_task h)).
Definition set_task : ST host unit :=
  modify (λ h, mkHost (device h) (interface h) (is_default h) (is_up h) (irq_loop_sem h) xTaskCreate).

Definition enc28j60_driver_os_init (fuel : nat) (ipaddr mask gateway : Z) : ST host Z :=
  me ← on_device (gets enc);
  if negb (is_available me) then mret ERR_ABRT
  else
    match netif_add ipaddr mask gateway (eth_netif_init me) with
    | None => mret ERR_ABRT
    | Some n =>
        set_interface (with_name n);;
        netif_set_default;;
        netif_set_up;;
        set_sem;;
        if negb xSemaphoreCreateBinary then mret ERR_ABRT
        else
          set_task;;
          if negb xTaskCreate then mret ERR_ABRT
          else on_device (enable_interupts fuel);; mret ERR_OK
    end.

(** [ethernet_connect] after the start of [main_task]. *)
Definition power_on_to_network (fuel : nat) (ipaddr mask gateway : Z) : ST host Z :=
  on_device (init fuel);; enc28j60_driver_os_init fuel ipaddr mask gateway.

Lemma on_device_run {A B} (m : ST st A) (f : A → ST host B) a s s' i d u b t : m s = Ok (a, s') →
  (on_device m ≫= f) (mkHost s i d u b t) = f a (mkHost s' i d u b t).
Proof. intros E. unfold on_device, mbind, st_bind. cbn [device interface is_default is_up irq_loop_sem irq_loop_task]. by rewrite E. Qed.
End Startup.

Section Proofs.
Context {W : Type} {board : Board W} {board_ok : BoardOk W} {services : Services} {services_ok : ServicesOk}.

(** *** The interrupts *)

Definition PHIE_ON : Z := Z.lor PHIE_PGEIE PHIE_PLNKIE.
Definition EIE_ON : Z := Z.lor (Z.lor (Z.lor (Z.lor (Z.lor EIE_INTIE EIE_PKTIE) EIE_LINKIE) EIE_TXIE) EIE_TXERIE) EIE_RXERIE.
Definition EIR_ALL : Z := Z.lor (Z.lor (Z.lor (Z.lor (Z.lor EIR_DMAIF EIR_LINKIF) EIR_TXIF) EIR_TXERIF) EIR_RXERIF) EIR_PKTIF.

Definition enabled_core (k : core) : core :=
  bit_set (W := W) 31 ECON1_RXEN (settle 27 EIE_ON EIE_ON (bit_clr (W := W) 28 EIR_ALL (phy_core PHIE PHIE_ON k))).

Lemma enable_interupts_does fuel b : Z.land (reg (f_core b) 106) 1 = 0 →
  does (W := W) (enable_interupts (S fuel)) b tt (on_core enabled_core b).
Proof.
  intros Hidle. unfold enable_interupts. do 2 (eapply does_bind; [apply does_run, gpio_ok|]).
  eapply does_bind; [apply does_run, irq_ok|]. eapply does_bind; [by apply write_phy_does|].
  eapply does_bind; [by apply reg_bfclr_does|]. eapply does_bind; [by apply regb_write_does|].
  eapply does_eq; [by apply reg_bfset_does|done|done].
Qed.

Lemma enabled_core_reg k j : 0 <= j → j ∉ [27; 28; 30; 31; 57; 84; 86; 87; 88; 89] → reg (enabled_core k) j = reg k j.
Proof.
  intros Hj Hn. rewrite !not_elem_of_cons in Hn. unfold enabled_core.
  rewrite reg_set_ne, reg_settle_ne, reg_clr_ne, reg_phy_ne; try done;
    rewrite !not_elem_of_cons; split_and!; try tauto; apply not_elem_of_nil.
Qed.

Lemma wf_enabled k : wf_core k → wf_core (enabled_core k).
Proof. intros H. unfold enabled_core. auto using wf_phy_core with enc. Qed.

Lemma enabled_core_stores k : enabled_core k =
  let k2 := store 27 EIE_ON (store 28 (Z.ldiff (reg (phy_core PHIE PHIE_ON k) 28) EIR_ALL) (phy_core PHIE PHIE_ON k)) in
  store 31 (Z.lor (reg k2 31) ECON1_RXEN) k2.
Proof.
  unfold enabled_core. rewrite bit_clr_store, (settle_set 27), bit_set_store by (done || (by left) || by right). done.
Qed.

Lemma enabled_core_facts k : wf_core k →
  reg (enabled_core k) 27 = EIE_ON ∧ Z.testbit (reg (enabled_core k) 31) 2 = true ∧ reg (enabled_core k) 57 = reg k 57 ∧
  phy (enabled_core k) = <[Z.to_nat PHIE := PHIE_ON]> (phy k) ∧ mem (enabled_core k) = mem k.
Proof.
  intros Hk. assert (Hp : wf_core (phy_core PHIE PHIE_ON k)) by auto using wf_phy_core.
  assert (H57 : reg (phy_core PHIE PHIE_ON k) 57 = reg k 57).
  { unfold phy_core. repeat match goal with
      | |- context [reg (settle ?i ?v ?d ?k) 57] => rewrite (reg_settle_ne' i 57 v d k) by first [by vm_compute | outside] end. done. }
  rewrite enabled_core_stores. cbn zeta. set (k2 := store 27 _ _). assert (Hk2 : wf_core k2) by (unfold k2; auto with enc).
  split; [rewrite reg_store_ne by done; unfold k2; by rewrite reg_store_eq by (lia || auto with enc)|].
  split; [rewrite reg_store_eq by (lia || done); rewrite Z.lor_spec; by rewrite orb_true_r|].
  split; [unfold k2; by rewrite !reg_store_ne by done|]. split; [|done].
  change (phy (store 31 (Z.lor (reg k2 31) ECON1_RXEN) k2)) with (phy (phy_core PHIE PHIE_ON k)).
  unfold phy_core. rewrite !(settle_set 84), !(settle_set 86) by (done || (by left) || by right).
  unfold settle at 1. cbn [Z.eqb Pos.eqb andb phy]. 
  rewrite (reg_store_ne 86 84) by done. rewrite (reg_store_eq 84), (reg_store_eq 86) by (lia || auto with enc). reflexivity.
Qed.

(** *** Bring-up *)

Lemma os_init_runs fuel ip nm gateway n (s : st (W := W)) b : is_flat s b → is_available (f_enc b) = true →
  Z.land (reg (f_core b) 106) 1 = 0 → netif_add ip nm gateway (eth_netif_init (enc s)) = Some n →
  xSemaphoreCreateBinary = true → xTaskCreate = true →
  ∃ s', enc28j60_driver_os_init (S fuel) ip nm gateway (mkHost s None false false false false) =
      Ok (ERR_OK, mkHost s' (Some (with_name n)) true true true true) ∧ is_flat s' (on_core enabled_core b).
Proof.
  intros Hs Ha Hidle En Es Et. destruct (enable_interupts_does fuel b Hidle s Hs) as (s' & E & Hs').
  exists s'. split; [|exact Hs']. unfold enc28j60_driver_os_init. rewrite (on_device_run _ _ (enc s) s s) by done.
  assert (is_available (enc s) = true) as -> by (rewrite <- Ha, <- (proj1 Hs); done). cbn [negb]. rewrite En.
  unfold set_interface, netif_set_default, netif_set_up, set_sem, set_task. rewrite Es, Et. cbn [negb].
  do 5 (erewrite st_bind_Ok by reflexivity). cbn [device interface is_default is_up irq_loop_sem irq_loop_task].
  by rewrite (on_device_run _ _ tt s s').
Qed.

(** The interface as lwIP has it: with its addresses, and that of the controller. *)
Definition configured (n : netif) (ip nm gateway : Z) (m : list Z) : Prop :=
  (ip_addr n, netmask n, gw n) = (ip, nm, gateway) ∧ (linkoutput n, output n) = (Some eth_packet_output, Some etharp_output) ∧
  mtu n = ETHERNET_MTU ∧ hwaddr n = m ∧ name n = chars "e0" ∧ callbacks n = true ∧
  flags n = [NETIF_FLAG_BROADCAST; NETIF_FLAG_ETHARP; NETIF_FLAG_ETHERNET; NETIF_FLAG_IGMP; NETIF_FLAG_MLD6].

Lemma added_configured ip nm gateway me n : netif_add ip nm gateway (eth_netif_init me) = Some n →
  configured (with_name n) ip nm gateway (mac_ me).
Proof.
  intros En. destruct (netif_add_ok ip nm gateway _ n En) as (n0 & E0 & Ei). unfold eth_netif_init in Ei. injection Ei as <-.
  split; [exact E0|]. repeat split.
Qed.

(** C21: From power-on the Ethernet interface comes up.  The controller is initialised and given the address that lwIP gets
    for the interface; the receive ring and the transmit buffer are where the driver has them; the interface, with its
    addresses, is the default one and up; and when the interrupts and the receiver are enabled, the semaphore and the
    task that wait for them are there. *)
Theorem ethernet_comes_up fuel ip nm gateway (s : st (W := W)) : current_register_bank (enc s) = 0 →
  zlen (mem (chip_of (world s)).2) = 8192 →
  (∀ me, netif_add ip nm gateway (eth_netif_init me) ≠ None) → xSemaphoreCreateBinary = true → xTaskCreate = true →
  ∃ s' b n, power_on_to_network (S fuel) ip nm gateway (mkHost s None false false false false) =
      Ok (ERR_OK, mkHost s' (Some n) true true true true) ∧ is_flat s' b ∧
    configured n ip nm gateway (mac_ (f_enc b)) ∧
    map (reg (f_core b)) maadr = map (λ i, nth i (hwaddr n) 0) (seq 0 6) ∧
    tx_ready (f_core b) ∧ reg16 (f_core b) ERXST = RXSTART_INIT ∧ reg16 (f_core b) ERXND = RXEND_INIT ∧
    next_packet_pointer (f_enc b) = RXSTART_INIT ∧ reg (f_core b) 57 = 0 ∧
    reg (f_core b) EIE = EIE_ON ∧ Z.testbit (reg (f_core b) ECON1) 2 = true ∧ f_inputs b = inputs (world s).
Proof.
  intros Hb Hm Hadd Hsem Htask. destruct (init_ok fuel s Hb Hm) as (s1 & full & m & E1 & Hs1 & _).
  pose proof (reset_wf s Hm) as Hk. set (b1 := init_flat full m s) in *.
  destruct (netif_add ip nm gateway (eth_netif_init (enc s1))) as [n|] eqn:En; [|by destruct (Hadd (enc s1))].
  assert (Hidle : Z.land (reg (f_core b1) 106) 1 = 0) by (unfold b1; cbn [f_core init_flat]; rewrite init_core_idle by done; apply reset_idle).
  destruct (os_init_runs fuel ip nm gateway n s1 b1 Hs1 eq_refl Hidle En Hsem Htask) as (s2 & E2 & Hs2).
  exists s2, (on_core enabled_core b1), (with_name n). unfold power_on_to_network.
  split; [by rewrite (on_device_run _ _ _ _ _ _ _ _ _ _ E1)|]. split; [exact Hs2|].
  assert (Hmac : mac_ (enc s1) = m) by (change m with (mac_ (f_enc b1)); by rewrite <- (proj1 Hs1)).
  pose proof (added_configured ip nm gateway _ n En) as Hc. rewrite Hmac in Hc. split; [exact Hc|].
  destruct Hc as (_ & _ & _ & -> & _). cbn [f_core f_enc f_inputs on_core].
  destruct (init_core_regs full m _ Hk) as (R1 & R2 & R3 & R4 & R5 & R6 & R7 & R8).
  assert (Hk1 : wf_core (f_core b1)) by by apply init_core_wf. destruct (enabled_core_facts (f_core b1) Hk1) as (F1 & F2 & F3 & _).
  assert (H16 : ∀ i, i ∈ [ERXST; ERXND; ETXST] → reg16 (enabled_core (f_core b1)) i = reg16 (f_core b1) i).
  { intros i Hi. apply list_elem_of_In in Hi as [<-|[<-|[<-|[]]]]; unfold reg16; rewrite !enabled_core_reg by first [by vm_compute|outside]; done. }
  split; [rewrite <- R8; unfold maadr; cbn [map]; rewrite !enabled_core_reg by first [by vm_compute|outside]; done|].
  split; [split; [by apply wf_enabled|rewrite H16 by outside; exact R4]|].
  split; [rewrite H16 by outside; exact R1|]. split; [rewrite H16 by outside; exact R2|]. split; [done|].
  split; [rewrite F3; unfold b1; cbn [f_core init_flat]; rewrite init_core_count by done; apply reset_count|]. done.
Qed.

(** *** What goes wrong *)

(** Without memory for the semaphore or the task, the result is an error, but the interface stays in lwIP's list, is the
    default one and up. *)
Theorem failed_init_leaves_interface fuel ip nm gateway n (s : st (W := W)) : is_available (enc s) = true →
  netif_add ip nm gateway (eth_netif_init (enc s)) = Some n → xSemaphoreCreateBinary = false ∨ xTaskCreate = false →
  ∃ h, enc28j60_driver_os_init fuel ip nm gateway (mkHost s None false false false false) = Ok (ERR_ABRT, h) ∧
    device h = s ∧ interface h = Some (with_name n) ∧ is_default h = true ∧ is_up h = true ∧ irq_loop_task h = false.
Proof.
  intros Ha En Hf. unfold enc28j60_driver_os_init. rewrite (on_device_run _ _ (enc s) s s) by done. rewrite Ha. cbn [negb].
  rewrite En. unfold set_interface, netif_set_default, netif_set_up, set_sem, set_task.
  destruct xSemaphoreCreateBinary; cbn [negb].
  - destruct Hf as [|Hf]; [done|]. rewrite Hf. cbn [negb]. eexists. split; [reflexivity|]. done.
  - eexists. split; [reflexivity|]. done.
Qed.

(** The controller's INT line is held down, as the data sheet has it, at least while a frame is waiting and its interrupt is
    enabled. *)
Definition int_held (k : core) : bool := Z.testbit (reg k EIE) 7 && Z.testbit (reg k EIE) 6 && (0 <? reg k 57).

(** The controller after each access of [enable_interupts]. *)
Definition enable_steps (k : core) : list core :=
  let k1 := settle 84 PHIE PHIE k in
  let k2 := settle 86 (Z.land PHIE_ON 0xff) (Z.land PHIE_ON 0xff) k1 in
  let k3 := settle 87 (Z.shiftr PHIE_ON 8) (Z.shiftr PHIE_ON 8) k2 in
  let k4 := bit_clr (W := W) 28 EIR_ALL k3 in
  let k5 := settle 27 EIE_ON EIE_ON k4 in
  [k; k1; k2; k3; k4; k5; bit_set (W := W) 31 ECON1_RXEN k5].

(** A frame that arrives between [init], which enables reception and its interrupt, and [enable_interupts], which makes the
    handler react to falling edges of the line, is not heard: the line is down already, and stays down. *)
Theorem early_frame_makes_deaf k : wf_core k → int_held k = true →
  last (enable_steps k) = Some (enabled_core k) ∧ Forall (λ k, int_held k = true) (enable_steps k).
Proof.
  intros Hk Hh. split; [done|]. unfold int_held in *.
  assert (Hstep : ∀ k1 i v d, wf_core k1 → 0 <= i → i ∉ [27; 30; 31; 57; 88; 89] → 
    wf_core (settle i v d k1) ∧ reg (settle i v d k1) EIE = reg k1 EIE ∧ reg (settle i v d k1) 57 = reg k1 57).
  { intros k1 i v d Hk1 Hi Hn. rewrite !not_elem_of_cons in Hn. split; [auto with enc|].
    split; apply reg_settle_ne'; try done; rewrite !not_elem_of_cons; split_and!; unfold EIE; try lia; apply not_elem_of_nil. }
  unfold enable_steps. cbn zeta.
  destruct (Hstep k 84 PHIE PHIE Hk ltac:(done) ltac:(outside)) as (W1 & A1 & B1). set (k1 := settle 84 _ _ _) in *.
  destruct (Hstep k1 86 (Z.land PHIE_ON 0xff) (Z.land PHIE_ON 0xff) W1 ltac:(done) ltac:(outside)) as (W2 & A2 & B2). set (k2 := settle 86 _ _ _) in *.
  destruct (Hstep k2 87 (Z.shiftr PHIE_ON 8) (Z.shiftr PHIE_ON 8) W2 ltac:(done) ltac:(outside)) as (W3 & A3 & B3). set (k3 := settle 87 _ _ _) in *.
  destruct (Hstep k3 28 (Z.ldiff (reg k3 28) EIR_ALL) 0 W3 ltac:(done) ltac:(outside)) as (W4 & A4 & B4).
  change (settle 28 (Z.ldiff (reg k3 28) EIR_ALL) 0 k3) with (bit_clr (W := W) 28 EIR_ALL k3) in *. set (k4 := bit_clr _ _ _) in *.
  rewrite (settle_set 27) by (done || (by left) || by right). rewrite bit_set_store by (done || (by left) || by right).
  set (k5 := store 27 _ _). assert (A5 : reg k5 EIE = EIE_ON) by (apply reg_store_eq; [done|unfold EIE; lia]).
  assert (B5 : reg k5 57 = reg k4 57) by (by apply reg_store_ne).
  apply andb_true_iff in Hh as [Hh Hc].
  repeat (apply List.Forall_cons; [try (rewrite ?(reg_store_ne 31 EIE), ?(reg_store_ne 31 57) by done);
    rewrite ?A5, ?B5, ?A4, ?B4, ?A3, ?B3, ?A2, ?B2, ?A1, ?B1, ?Hc, ?Hh; done|]). constructor.
Qed.

(** What [init] enables. *)
Lemma init_enables_reception full m k : wf_core k →
  Z.testbit (reg (init_core (W := W) full m k) EIE) 7 = true ∧ Z.testbit (reg (init_core (W := W) full m k) EIE) 6 = true ∧
  Z.testbit (reg (init_core (W := W) full m k) ECON1) 2 = true.
Proof.
  intros Hk. pose proof (init_core_wf (W := W) full m k Hk) as Hw. unfold init_core in *. set (k0 := write_mac_core _ _) in *.
  rewrite !bit_set_store in * by (done || (by left) || by right).
  assert (Hl : length (regs k0) = 128%nat) by (destruct Hw as [Hl _]; cbn [regs store] in Hl; by rewrite !length_insert in Hl).
  assert (Hr : ∀ i v k, length (regs k) = 128%nat → 0 <= i < 128 → reg (store i v k) i = v).
  { intros i v k' Hl' Hi. unfold reg, store. cbn [regs]. apply nth_lookup_Some, list_lookup_insert_eq. lia. }
  rewrite (reg_store_ne 31 EIE), (Hr 31), (Hr 27) by (done || (unfold EIE; lia) || (cbn [regs store]; by rewrite length_insert)).
  rewrite !Z.lor_spec. by rewrite !orb_true_r.
Qed.
End Proofs.

(** ** An example *)

(** lwIP with room for an interface, FreeRTOS with memory. *)
#[export] Instance roomy : Services := {|
  netif_add ip nm gateway init :=
    let '(n, r) := init (mkNetif ip nm gateway None None 0 [] [] [] [] false) in if r =? ERR_OK then Some n else None;
  xSemaphoreCreateBinary := true;
  xTaskCreate := true;
|}.

#[export] Instance roomy_ok : ServicesOk.
Proof.
  intros ip nm gateway init n E. unfold netif_add, roomy in E. destruct (init _) as [n' r] eqn:Ei.
  destruct (Z.eqb_spec r ERR_OK) as [->|]; [|done]. injection E as <-. eexists. split; [|exact Ei]. done.
Qed.

Lemma ethernet_comes_up_witness :
  zlen (mem (chip_of (world (bench_state zeros8k 0 0))).2) = 8192 ∧
  ∃ s' n, power_on_to_network (W := bench) 1 3232235777 4294967040 3232236031 (mkHost (bench_state zeros8k 0 0) None false false false false) =
      Ok (ERR_OK, mkHost s' (Some n) true true true true) ∧ ip_addr n = 3232235777.
Proof.
  assert (zlen (mem (chip_of (world (bench_state zeros8k 0 0))).2) = 8192) as Hm by (vm_compute; reflexivity).
  split; [exact Hm|].
  destruct (ethernet_comes_up (W := bench) (services := roomy) 0 3232235777 4294967040 3232236031 (bench_state zeros8k 0 0) eq_refl Hm ltac:(intros me H; vm_compute in H; discriminate) eq_refl eq_refl)
    as (s' & b & n & E & _ & Hc & _).
  exists s', n. split; [exact E|]. destruct Hc as [Hc _]. by injection Hc.
Defined.
