(* ===== verification/Settings.v ===== *)
(** The settings (inc/settings.h, src/settings.cpp): the records, their image in a flash sector, writing
    and reading the sector, and the JSON document the web page gets.

    The flash of the SDK is the class [Flash] with its documented laws [FlashOk]; the representation of
    [client_mode_settings] in memory, which the compiler fixes, is the class [Layout].  A JSON document
    that the program builds is a value of [json]; text is made from it by ArduinoJson. *)
From Stdlib Require Import Floats.SpecFloat.
From S2P Require Import Prelude CString Sensor.
Set Warnings "-register-all".

(** ** Data *)

Definition MAX_SERIAL_SENSORS : nat := 3.
Definition FLASH_SECTOR_SIZE : Z := 4096.

(** The sizes of the character arrays. *)
Definition SSID_SIZE : Z := 32.
Definition PASSWORD_SIZE : Z := 32.
Definition BROKER_SIZE : Z := 32.
Definition USERNAME_SIZE : Z := 32.
Definition NAME_SIZE : Z := 10.
Definition TOPIC_SIZE : Z := 30.
Definition SETTINGS_PASSWORD_SIZE : Z := 8.

Record ipv4_settings := mkIpv4 { dhcp : bool; ip : Z; nm : Z; gw : Z; dns : Z }.
Record wifi_settings := mkWifi { ssid : list Z; wifi_password : list Z; auth_mode : Z; wifi_ipv4 : ipv4_settings }.
Record mqtt_settings := mkMqtt { broker : list Z; port : Z; username : list Z; mqtt_password : list Z }.
Inductive conn_type_t := WIFI | ETHERNET.
Record sensor_settings_entry := mkSensor {
  baudrate : Z; s_enabled : bool; simulate_values : bool; publish_settings : list publish_settings_entry }.
Record client_mode_settings := mkClient {
  conn_type : conn_type_t; wifi : wifi_settings; eth : ipv4_settings; mqtt : mqtt_settings; password : list Z;
  sensor_settings : list sensor_settings_entry }.

#[export] Instance ipv4_eq_dec : EqDecision ipv4_settings.
Proof. solve_decision. Defined.
#[export] Instance wifi_eq_dec : EqDecision wifi_settings.
Proof. solve_decision. Defined.
#[export] Instance mqtt_eq_dec : EqDecision mqtt_settings.
Proof. solve_decision. Defined.
#[export] Instance conn_type_eq_dec : EqDecision conn_type_t.
Proof. solve_decision. Defined.

Definition communication_settings_changed (s other : sensor_settings_entry) : bool :=
  negb (baudrate s =? baudrate other) || negb (Bool.eqb (s_enabled s) (s_enabled other)) ||
  negb (Bool.eqb (simulate_values s) (simulate_values other)).

(** ** Authentication modes: the values of the SDK *)

Class AuthModes := {
  CYW43_AUTH_OPEN : Z; CYW43_AUTH_WPA_TKIP_PSK : Z; CYW43_AUTH_WPA3_WPA2_AES_PSK : Z;
  CYW43_AUTH_WPA2_MIXED_PSK : Z;
  auth_modes_differ : NoDup [CYW43_AUTH_OPEN; CYW43_AUTH_WPA_TKIP_PSK; CYW43_AUTH_WPA3_WPA2_AES_PSK;
                             CYW43_AUTH_WPA2_MIXED_PSK; -1];
  auth_modes_int : Forall (λ m, -2147483648 <= m <= 2147483647)
    [CYW43_AUTH_OPEN; CYW43_AUTH_WPA_TKIP_PSK; CYW43_AUTH_WPA3_WPA2_AES_PSK; CYW43_AUTH_WPA2_MIXED_PSK];
}.

Section Auth.
Context {modes : AuthModes}.

Definition scan_auth_mode_to_connect_auth_mode (scan_auth_mode : Z) : Z :=
  if scan_auth_mode =? 0 then CYW43_AUTH_OPEN
  else if scan_auth_mode =? 3 then CYW43_AUTH_WPA_TKIP_PSK
  else if scan_auth_mode =? 5 then CYW43_AUTH_WPA3_WPA2_AES_PSK
  else if scan_auth_mode =? 7 then CYW43_AUTH_WPA2_MIXED_PSK
  else -1.

Definition connect_auth_mode_to_scan_auth_mode (connect_auth_mode : Z) : Z :=
  if connect_auth_mode =? CYW43_AUTH_OPEN then 0
  else if connect_auth_mode =? CYW43_AUTH_WPA_TKIP_PSK then 3
  else if connect_auth_mode =? CYW43_AUTH_WPA3_WPA2_AES_PSK then 5
  else if connect_auth_mode =? CYW43_AUTH_WPA2_MIXED_PSK then 7
  else -1.
End Auth.

(** ** Flash *)

(** Erasing and programming are over a byte range; a sector is erased to ones, and programming can only
    clear bits. *)
Class Flash (F : Type) := {
  flash_byte : F → Z → Z;
  flash_range_erase : Z → Z → F → F;
  flash_range_program : Z → list Z → F → F;
  flash_safe : F → bool;  (* whether [flash_safe_execute] runs the function it is given *)
}.

Class FlashOk (F : Type) `{Flash F} := {
  erase_ok (off n : Z) (f : F) a : off mod 4096 = 0 → n mod 4096 = 0 →
    flash_byte (flash_range_erase off n f) a = if decide (off <= a < off + n) then 255 else flash_byte f a;
  program_ok (off : Z) (l : list Z) (f : F) a : off mod 256 = 0 → zlen l mod 256 = 0 →
    flash_byte (flash_range_program off l f) a =
      if decide (off <= a < off + zlen l) then Z.land (flash_byte f a) (nth (Z.to_nat (a - off)) l 0) else flash_byte f a;
}.

Class Layout := {
  client_offset : Z;
  sizeof_settings : Z;
  image : client_mode_settings → list Z;
  settings_at : list Z → client_mode_settings;
}.

Section Store.
Context {F : Type} {flash : Flash F} {layout : Layout}.

Definition flash_read (off n : Z) (f : F) : list Z := map (flash_byte f) (seqZ off n).

(** [junk]: the rest of the union [client_mode_settings_union]. *)
Definition write_client_mode_settings (new_settings : client_mode_settings) (junk : list Z) (f : F) : F :=
  flash_range_program client_offset (image new_settings ++ junk)
    (flash_range_erase client_offset FLASH_SECTOR_SIZE f).

Definition get_client_mode_settings (f : F) : client_mode_settings :=
  settings_at (flash_read client_offset FLASH_SECTOR_SIZE f).
End Store.

(** ** JSON *)

Inductive json :=
| JNull | JBool (b : bool) | JNum (n : Z) | JFloat (f : spec_float) | JStr (s : list Z)
| JArr (l : list json) | JObj (l : list (string * json)).

Definition publish_to_json (e : publish_settings_entry) : outcome json :=
  nm ← c_str (name e); tp ← c_str (ps_topic e);
  Ok (JObj [("enabled", JBool (enabled e)); ("name", JStr nm); ("start", JNum (ps_start e)); ("end", JNum (ps_end e));
            ("is_num", JBool (is_num e)); ("scale", JFloat (scale e)); ("avg_cnt", JNum (avg_cnt e)); ("topic", JStr tp)])%string.

Fixpoint map_json {A} (f : A → outcome json) (l : list A) : outcome (list json) :=
  match l with [] => Ok [] | x :: l => j ← f x; js ← map_json f l; Ok (j :: js) end.

Definition sensor_to_json (s : sensor_settings_entry) : outcome json :=
  ps ← map_json publish_to_json (publish_settings s);
  Ok (JObj [("baudrate", JNum (baudrate s)); ("enabled", JBool (s_enabled s));
            ("simulate_values", JBool (simulate_values s)); ("publish_settings", JArr ps)])%string.

Definition hex_digit (d : Z) : Z := if d <? 10 then 48 + d else 55 + d.
Definition hex_byte (b : Z) : list Z := [hex_digit (b / 16); hex_digit (b mod 16)].

(** The characters of ["%02X:%02X:%02X:%02X:%02X:%02X\n"]. *)
Definition mac_chars (mac : list Z) : list Z :=
  match map hex_byte mac with [] => [] | h :: t => h ++ concat (map (cons 58) t) end ++ [10].

(** [snprintf] into [mac_addr_str], an uninitialised array, and its string. *)
Definition mac_string (junk mac : list Z) : outcome (list Z) :=
  '(b, _) ← snprintf junk (zlen junk) (mac_chars mac); c_str b.

Definition ipv4_json (i : ipv4_settings) : list (string * json) :=
  [("dhcp", JBool (dhcp i)); ("ip", JNum (ip i)); ("nm", JNum (nm i)); ("gw", JNum (gw i)); ("dns", JNum (dns i))]%string.

(** [available] and [mac] are those of [enc28j60_state]. *)
Definition eth_to_json (available : bool) (junk mac : list Z) (e : ipv4_settings) : outcome json :=
  if available then
    m ← mac_string junk mac;
    Ok (JObj (("is_available", JBool true) :: ipv4_json e ++ [("mac_address", JStr m)])%string)
  else Ok (JObj [("is_available", JBool false)])%string.

Definition wifi_to_json (junk mac : list Z) (w : wifi_settings) : outcome json :=
  s ← c_str (ssid w); p ← c_str (wifi_password w); m ← mac_string junk mac;
  Ok (JObj (("ssid", JStr s) :: ("password", JStr p) :: ("auth_mode", JNum (auth_mode w)) ::
            ipv4_json (wifi_ipv4 w) ++ [("mac_address", JStr m)])%string).

Definition mqtt_to_json (m : mqtt_settings) : outcome json :=
  b ← c_str (broker m); u ← c_str (username m); p ← c_str (mqtt_password m);
  Ok (JObj [("broker", JStr b); ("port", JNum (port m)); ("username", JStr u); ("password", JStr p)])%string.

(** What the documents need beside the settings: [enc28j60_state] and [cyw43_wifi_get_mac]. *)
Record hardware := mkHardware { enc_available : bool; enc_mac : list Z; sta_mac : list Z; mac_junk : list Z }.

Definition client_to_json (hw : hardware) (c : client_mode_settings) : outcome json :=
  w ← wifi_to_json (mac_junk hw) (sta_mac hw) (wifi c);
  e ← eth_to_json (enc_available hw) (mac_junk hw) (enc_mac hw) (eth c);
  m ← mqtt_to_json (mqtt c);
  ss ← map_json sensor_to_json (sensor_settings c);
  Ok (JObj [("conn_type", JStr (chars (match conn_type c with WIFI => "WIFI" | ETHERNET => "ETHERNET" end)));
            ("wifi", w); ("eth", e); ("mqtt", m); ("sensor_settings", JArr ss)])%string.

(** ** Members of a document *)

Fixpoint assoc {A} (k : string) (l : list (string * A)) : option A :=
  match l with [] => None | (k', v) :: l => if String.eqb k k' then Some v else assoc k l end.
Definition jmember (k : string) (j : json) : json :=
  match j with JObj l => default JNull (assoc k l) | _ => JNull end.
Definition jelement (i : nat) (j : json) : json := match j with JArr l => nth i l JNull | _ => JNull end.
