(* ===== verification/SettingsStore.v ===== *)
(** The settings in flash: the type of well-formed settings, the laws of their representation, what a
    sector reads back after it was written, and a concrete representation that has the laws. *)
From Stdlib Require Import Floats.SpecFloat.
From S2P Require Import Prelude CString Sensor Settings.

(** ** Well-formed settings *)

Definition is_int (n : Z) : Prop := -2147483648 <= n <= 2147483647.
Definition is_float (f : spec_float) : Prop := valid_binary 24 128 f = true.
Definition text_field (size : Z) (l : list Z) : Prop := zlen l = size ∧ Forall is_u8 l.

Record ipv4_typed (i : ipv4_settings) : Prop := {
  ty_ip : is_u32 (ip i); ty_nm : is_u32 (nm i); ty_gw : is_u32 (gw i); ty_dns : is_u32 (dns i) }.

Record wifi_typed (w : wifi_settings) : Prop := {
  ty_ssid : text_field SSID_SIZE (ssid w); ty_wifi_password : text_field PASSWORD_SIZE (wifi_password w);
  ty_auth : is_int (auth_mode w); ty_wifi_ipv4 : ipv4_typed (wifi_ipv4 w) }.

Record mqtt_typed (m : mqtt_settings) : Prop := {
  ty_broker : text_field BROKER_SIZE (broker m); ty_port : is_u16 (port m);
  ty_username : text_field USERNAME_SIZE (username m); ty_mqtt_password : text_field PASSWORD_SIZE (mqtt_password m) }.

Record entry_typed (e : publish_settings_entry) : Prop := {
  ty_name : text_field NAME_SIZE (name e); ty_start : is_u16 (ps_start e); ty_end : is_u16 (ps_end e);
  ty_scale : is_float (scale e); ty_avg : is_int (avg_cnt e); ty_topic : text_field TOPIC_SIZE (ps_topic e) }.

Record sensor_typed (s : sensor_settings_entry) : Prop := {
  ty_baud : is_u32 (baudrate s); ty_count : length (publish_settings s) = MAX_PUBLISH_SETTINGS;
  ty_entries : Forall entry_typed (publish_settings s) }.

Record typed (c : client_mode_settings) : Prop := {
  ty_wifi : wifi_typed (wifi c); ty_eth : ipv4_typed (eth c); ty_mqtt : mqtt_typed (mqtt c);
  ty_password : text_field SETTINGS_PASSWORD_SIZE (password c);
  ty_sensors : length (sensor_settings c) = MAX_SERIAL_SENSORS;
  ty_sensor : Forall sensor_typed (sensor_settings c) }.

(** ** The representation in memory *)

(** [client_offset] is where the linker puts the sector; the padding behind the settings does not
    matter for what is read. *)
Class LayoutOk {layout : Layout} := {
  offset_ok : 0 <= client_offset ∧ client_offset mod 4096 = 0;
  image_size c : typed c → zlen (image c) = sizeof_settings;
  image_bytes c : typed c → Forall is_u8 (image c);
  settings_image c junk : typed c → settings_at (image c ++ junk) = c;
}.

Section Store.
Context {F : Type} {flash : Flash F} {flash_ok : FlashOk F} {layout : Layout} {layout_ok : LayoutOk}.

Lemma flash_read_length off n f : zlen (flash_read off n f) = Z.max 0 n.
Proof. unfold flash_read. rewrite length_map, length_seqZ. lia. Qed.

Lemma land_255 b : is_u8 b → Z.land 255 b = b.
Proof. intros H. rewrite Z.land_comm. change 255 with (Z.ones 8). rewrite Z.land_ones by done. by apply Z.mod_small. Qed.

(** A sector holds what was written to it, and nothing else in the flash changes. *)
(** The uninitialised rest of the union. *)
Definition padding (junk : list Z) : Prop := Forall is_u8 junk ∧ sizeof_settings + zlen junk = FLASH_SECTOR_SIZE.

Lemma image_padded c junk : typed c → padding junk → zlen (image c ++ junk) = FLASH_SECTOR_SIZE.
Proof. intros Hc [_ <-]. rewrite length_app, Nat2Z.inj_add. by rewrite image_size. Qed.

Lemma write_client_byte c junk f a : typed c → padding junk →
  flash_byte (write_client_mode_settings c junk f) a =
    if decide (client_offset <= a < client_offset + FLASH_SECTOR_SIZE)
    then nth (Z.to_nat (a - client_offset)) (image c ++ junk) 0 else flash_byte f a.
Proof.
  intros Hc Hp. pose proof (image_padded c junk Hc Hp) as Hl. destruct Hp as [Hj _]. destruct offset_ok as [Ho Hm]. unfold write_client_mode_settings.
  rewrite program_ok; [|rewrite <- (Z.mod_mod_divide client_offset 4096 256), Hm by (by exists 16); done|by rewrite Hl].
  rewrite Hl, erase_ok by done. case_decide as H; [|done].
  assert (Forall is_u8 (image c ++ junk)) as Hb by (apply Forall_app; eauto using image_bytes).
  rewrite land_255; [done|]. eapply Forall_forall; [exact Hb|].
  apply list_elem_of_lookup_2 with (i := Z.to_nat (a - client_offset)).
  destruct (lookup_lt_is_Some_2 (image c ++ junk) (Z.to_nat (a - client_offset))) as [x Hx]; [lia|].
  by rewrite Hx, (nth_lookup_Some _ _ _ _ Hx).
Qed.

Lemma flash_read_write c junk f : typed c → padding junk →
  flash_read client_offset FLASH_SECTOR_SIZE (write_client_mode_settings c junk f) = image c ++ junk.
Proof.
  intros Hc Hp. pose proof (image_padded c junk Hc Hp) as Hl. apply list_eq. intros i. unfold flash_read.
  destruct (decide (Z.of_nat i < FLASH_SECTOR_SIZE)) as [Hi|Hi].
  - rewrite list_lookup_fmap, (lookup_seqZ_lt client_offset) by done. cbn [fmap option_fmap option_map].
    rewrite write_client_byte, decide_True by (done || lia).
    destruct (lookup_lt_is_Some_2 (image c ++ junk) i) as [x Hx]; [lia|].
    replace (Z.to_nat (client_offset + Z.of_nat i - client_offset)) with i by lia.
    by rewrite Hx, (nth_lookup_Some _ _ _ _ Hx).
  - rewrite !lookup_ge_None_2; [done|lia|]. rewrite length_map, length_seqZ. lia.
Qed.

Lemma get_write c junk f : typed c → padding junk →
  get_client_mode_settings (write_client_mode_settings c junk f) = c.
Proof.
  intros Hc Hp. unfold get_client_mode_settings. rewrite flash_read_write by done. by apply settings_image.
Qed.
End Store.

(** ** Texts in fields *)

Lemma strncpy_length s size : 0 <= size → zlen (strncpy s size) = size.
Proof. intros H. unfold strncpy. lens. Qed.

Lemma strncpy_fits s size : no_nul s → zlen s < size → c_str (strncpy s size) = Ok s.
Proof.
  intros Hs Hl. unfold strncpy. rewrite take_ge by lia.
  destruct (Z.to_nat size - length s)%nat as [|n] eqn:E; [lia|]. cbn [replicate]. by apply c_str_app.
Qed.

Lemma c_str_no_nul s : no_nul s → c_str s = Ub.
Proof. induction 1 as [|c s Hc _ IH]; [done|]. cbn. apply Z.eqb_neq in Hc. by rewrite Hc, IH. Qed.

Lemma strncpy_cut s size : 0 <= size <= zlen s → strncpy s size = take (Z.to_nat size) s.
Proof.
  intros H. unfold strncpy. replace (Z.to_nat size - length s)%nat with 0%nat by lia. apply app_nil_r.
Qed.

Lemma strncpy_unterminated s size : no_nul s → 0 <= size <= zlen s → c_str (strncpy s size) = Ub.
Proof. intros Hs Hl. rewrite strncpy_cut by done. apply c_str_no_nul. by apply Forall_take. Qed.

Lemma strncpy_field s size : 0 <= size → Forall is_u8 s → text_field size (strncpy s size).
Proof.
  intros H Hs. split; [by apply strncpy_length|]. unfold strncpy. apply Forall_app. split; [by apply Forall_take|].
  by apply Forall_replicate.
Qed.

(** ** A representation: the fields one after the other *)

Record codec (A : Type) := mkCodec {
  enc : A → list Z; dec : list Z → A * list Z; ok : A → Prop; size : Z;
  dec_enc a r : ok a → dec (enc a ++ r) = (a, r);
  enc_bytes a : ok a → Forall is_u8 (enc a);
  enc_size a : ok a → zlen (enc a) = size }.
Arguments enc {A}. Arguments dec {A}. Arguments ok {A}. Arguments size {A}.
Arguments dec_enc {A}. Arguments enc_bytes {A}. Arguments enc_size {A}.

#[refine] Definition c_bytes (n : Z) : codec (list Z) := {|
  enc l := l; dec r := (take (Z.to_nat n) r, drop (Z.to_nat n) r); ok := text_field n; size := n |}.
Proof.
  - intros a r [Hl _]. rewrite take_app_length', drop_app_length' by lia. done.
  - by intros a [_ H].
  - by intros a [H _].
Defined.

Fixpoint le_bytes (n : nat) (z : Z) : list Z := match n with O => [] | S n => z mod 256 :: le_bytes n (z / 256) end.
Fixpoint of_le (l : list Z) : Z := match l with [] => 0 | b :: l => b + 256 * of_le l end.

Lemma le_bytes_length n z : length (le_bytes n z) = n.
Proof. revert z. induction n as [|n IH]; intros z; cbn; [done|]. by rewrite IH. Qed.

Lemma of_le_bytes n z : 0 <= z < 256 ^ Z.of_nat n → of_le (le_bytes n z) = z.
Proof.
  revert z. induction n as [|n IH]; intros z Hz; cbn [le_bytes of_le]; [change (256 ^ Z.of_nat 0) with 1 in Hz; lia|].
  rewrite Nat2Z.inj_succ, Z.pow_succ_r in Hz by lia. rewrite IH; [pose proof (Z.div_mod z 256); lia|].
  split; [apply Z.div_pos; lia|apply Z.div_lt_upper_bound; lia].
Qed.

#[refine] Definition c_word (n : nat) : codec Z := {|
  enc := le_bytes n; dec r := (of_le (take n r), drop n r); ok z := 0 <= z < 256 ^ Z.of_nat n; size := Z.of_nat n |}.
Proof.
  - intros z r Hz. rewrite take_app_length', drop_app_length' by (by rewrite le_bytes_length). by rewrite of_le_bytes.
  - intros z _. revert z. induction n as [|n IH]; intros z; constructor; [apply Z.mod_pos_bound; lia|apply IH].
  - intros z _. by rewrite le_bytes_length.
Defined.

#[refine] Definition c_pair {A B} (c : codec A) (d : codec B) : codec (A * B) := {|
  enc p := enc c p.1 ++ enc d p.2; dec r := let '(a, r) := dec c r in let '(b, r) := dec d r in ((a, b), r);
  ok p := ok c p.1 ∧ ok d p.2; size := size c + size d |}.
Proof.
  - intros [a b] r [Ha Hb]. cbn [fst snd] in *. rewrite <- app_assoc, (dec_enc c) by done. by rewrite (dec_enc d).
  - intros [a b] [Ha Hb]. apply Forall_app. split; by apply enc_bytes.
  - intros [a b] [Ha Hb]. rewrite length_app, Nat2Z.inj_add, (enc_size c), (enc_size d) by done. done.
Defined.

(** The same bytes for another type. *)
#[refine] Definition c_iso {A B} (c : codec A) (f : B → A) (g : A → B) (P : B → Prop)
    (H : ∀ b, P b → ok c (f b) ∧ g (f b) = b) : codec B := {|
  enc b := enc c (f b); dec r := let '(a, r) := dec c r in (g a, r); ok := P; size := size c |}.
Proof.
  - intros b r Hb. destruct (H b Hb) as [H1 H2]. by rewrite (dec_enc c), H2.
  - intros b Hb. apply enc_bytes, H, Hb.
  - intros b Hb. apply enc_size, H, Hb.
Defined.

Fixpoint dec_n {A} (c : codec A) (n : nat) (r : list Z) : list A * list Z :=
  match n with O => ([], r) | S n => let '(a, r) := dec c r in let '(l, r) := dec_n c n r in (a :: l, r) end.

#[refine] Definition c_vec {A} (n : nat) (c : codec A) : codec (list A) := {|
  enc l := concat (map (enc c) l); dec := dec_n c n; ok l := length l = n ∧ Forall (ok c) l; size := Z.of_nat n * size c |}.
Proof.
  - intros l r [<- Hl]. revert r. induction Hl as [|a l Ha Hl IH]; intros r; cbn; [done|].
    by rewrite <- app_assoc, (dec_enc c), IH by done.
  - intros l [_ Hl]. induction Hl as [|a l Ha Hl IH]; cbn; [constructor|]. apply Forall_app. by split; [apply enc_bytes|].
  - intros l [<- Hl]. induction Hl as [|a l Ha Hl IH]; cbn [map concat length]; [done|].
    rewrite length_app, Nat2Z.inj_add, (enc_size c), IH by done. lia.
Defined.

Definition c_bool : codec bool.
Proof. refine (c_iso (c_word 1) b2z (λ z, negb (z =? 0)) (λ _, True) _). by intros [] _. Defined.

Definition c_int : codec Z.
Proof.
  refine (c_iso (c_word 4) (λ z, z + 2147483648) (λ z, z - 2147483648) is_int _).
  intros z Hz. unfold is_int in Hz. cbn [ok c_word]. change (256 ^ Z.of_nat 4) with 4294967296. lia.
Defined.

Lemma digits2_pos_bound m : Z.pos m < 2 ^ Z.pos (digits2_pos m).
Proof.
  induction m as [m IH|m IH|]; cbn [digits2_pos]; [| |done]; rewrite Pos2Z.inj_succ, Z.pow_succ_r by done; lia.
Qed.

Lemma float_range s m e : is_float (S754_finite s m e) → Z.pos m < 2 ^ 24 ∧ -149 <= e <= 104.
Proof.
  unfold is_float. cbn. unfold bounded, canonical_mantissa, fexp, SpecFloat.emin.
  intros [H1 H2]%andb_prop. apply Z.leb_le in H2. apply Z.eqb_eq in H1.
  pose proof (digits2_pos_bound m) as H3.
  split; [|lia]. eapply Z.lt_le_trans; [exact H3|]. apply Z.pow_le_mono_r; lia.
Qed.

Definition float_code (f : spec_float) : Z * (Z * Z) :=
  match f with
  | S754_zero s => (b2z s, (0, 0)) | S754_infinity s => (2 + b2z s, (0, 0)) | S754_nan => (4, (0, 0))
  | S754_finite s m e => (5 + b2z s, (Z.pos m, e + 149))
  end.
Definition code_float (c : Z * (Z * Z)) : spec_float :=
  let '(t, (m, e)) := c in
  if t <? 2 then S754_zero (t =? 1) else if t <? 4 then S754_infinity (t =? 3) else if t =? 4 then S754_nan
  else S754_finite (t =? 6) (Z.to_pos m) (e - 149).

Definition c_float : codec spec_float.
Proof.
  refine (c_iso (c_pair (c_word 1) (c_pair (c_word 3) (c_word 1))) float_code code_float is_float _).
  intros [[]|[]| |s m e] H; [by vm_compute..|]. apply float_range in H.
  cbn [ok c_pair c_word float_code fst snd]. change (256 ^ Z.of_nat 1) with 256. change (256 ^ Z.of_nat 3) with (2 ^ 24).
  split; [destruct s; cbn [b2z]; lia|]. destruct s; cbn; do 2 f_equal; lia.
Defined.

Definition c_ipv4 : codec ipv4_settings.
Proof.
  refine (c_iso (c_pair c_bool (c_pair (c_pair (c_word 4) (c_word 4)) (c_pair (c_word 4) (c_word 4))))
    (λ i, (dhcp i, ((ip i, nm i), (gw i, dns i))))
    (λ '(d, ((a, b), (c, e))), mkIpv4 d a b c e) ipv4_typed _).
  intros [] [H1 H2 H3 H4]. exact (conj (conj I (conj (conj H1 H2) (conj H3 H4))) eq_refl).
Defined.

Definition c_wifi : codec wifi_settings.
Proof.
  refine (c_iso (c_pair (c_pair (c_bytes SSID_SIZE) (c_bytes PASSWORD_SIZE)) (c_pair c_int c_ipv4))
    (λ w, ((ssid w, wifi_password w), (auth_mode w, wifi_ipv4 w)))
    (λ '((s, p), (a, i)), mkWifi s p a i) wifi_typed _).
  intros [] [H1 H2 H3 H4]. exact (conj (conj (conj H1 H2) (conj H3 H4)) eq_refl).
Defined.

Definition c_mqtt : codec mqtt_settings.
Proof.
  refine (c_iso (c_pair (c_pair (c_bytes BROKER_SIZE) (c_word 2)) (c_pair (c_bytes USERNAME_SIZE) (c_bytes PASSWORD_SIZE)))
    (λ m, ((broker m, port m), (username m, mqtt_password m)))
    (λ '((b, n), (u, p)), mkMqtt b n u p) mqtt_typed _).
  intros [] [H1 H2 H3 H4]. exact (conj (conj (conj H1 H2) (conj H3 H4)) eq_refl).
Defined.

Definition c_entry : codec publish_settings_entry.
Proof.
  refine (c_iso (c_pair (c_pair (c_pair c_bool (c_bytes NAME_SIZE)) (c_pair (c_word 2) (c_word 2)))
                        (c_pair (c_pair c_bool c_float) (c_pair c_int (c_bytes TOPIC_SIZE))))
    (λ e, (((enabled e, name e), (ps_start e, ps_end e)), ((is_num e, scale e), (avg_cnt e, ps_topic e))))
    (λ '(((a, b), (c, d)), ((e, f), (g, h))), mkEntry a b c d e f g h) entry_typed _).
  intros [] [H1 H2 H3 H4 H5 H6].
  exact (conj (conj (conj (conj I H1) (conj H2 H3)) (conj (conj I H4) (conj H5 H6))) eq_refl).
Defined.

Definition c_sensor : codec sensor_settings_entry.
Proof.
  refine (c_iso (c_pair (c_pair (c_word 4) c_bool) (c_pair c_bool (c_vec MAX_PUBLISH_SETTINGS c_entry)))
    (λ s, ((baudrate s, s_enabled s), (simulate_values s, publish_settings s)))
    (λ '((a, b), (c, d)), mkSensor a b c d) sensor_typed _).
  intros [] [H1 H2 H3]. exact (conj (conj (conj H1 I) (conj I (conj H2 H3))) eq_refl).
Defined.

Definition c_client : codec client_mode_settings.
Proof.
  refine (c_iso (c_pair (c_pair c_bool (c_pair c_wifi c_ipv4)) (c_pair (c_pair c_mqtt (c_bytes SETTINGS_PASSWORD_SIZE))
                        (c_vec MAX_SERIAL_SENSORS c_sensor)))
    (λ c, ((bool_decide (conn_type c = WIFI), (wifi c, eth c)), ((mqtt c, password c), sensor_settings c)))
    (λ '((t, (w, e)), ((m, p), s)), mkClient (if t then WIFI else ETHERNET) w e m p s) typed _).
  intros [t] [H1 H2 H3 H4 H5 H6].
  by destruct t; refine (conj (conj (conj I (conj H1 H2)) (conj (conj H3 H4) (conj H5 H6))) eq_refl).
Defined.

#[export] Instance packed_layout : Layout := {|
  client_offset := 0x1F0000;
  sizeof_settings := size c_client;
  image := enc c_client;
  settings_at r := (dec c_client r).1;
|}.

#[export] Instance packed_layout_ok : LayoutOk.
Proof.
  split; [done| | |].
  - intros c Hc. by apply (enc_size c_client).
  - intros c Hc. by apply (enc_bytes c_client).
  - intros c junk Hc. cbn [image settings_at packed_layout]. by rewrite (dec_enc c_client).
Qed.

(** A flash as the function from addresses to bytes. *)
#[export] Instance cells : Flash (Z → Z) := {|
  flash_byte f a := f a;
  flash_range_erase off n f a := if decide (off <= a < off + n) then 255 else f a;
  flash_range_program off l f a :=
    if decide (off <= a < off + zlen l) then Z.land (f a) (nth (Z.to_nat (a - off)) l 0) else f a;
  flash_safe f := true;
|}.

#[export] Instance cells_ok : FlashOk (Z → Z).
Proof. by split. Qed.
