(* ===== verification/Allocator.v ===== *)
(** The heap behind the JSON documents (inc/arduinojson_cust_alloc.h), and behind [malloc] and [new] (src/c_cpp_config.cpp):
    the allocator of FreeRTOS. *)
From stdpp Require Import gmap.
From S2P Require Import Prelude StateMonad.

(** The blocks by their addresses; no block is at the null pointer. *)
Abbreviation heap := (gmap Z (list Z)).

(** [pvPortMalloc]: the address and the contents of a new block, if there is memory. *)
Class Malloc := { new_block : Z → heap → option (Z * list Z) }.

Class MallocOk `{Malloc} :=
  new_block_ok n h p l : new_block n h = Some (p, l) → h !! p = None ∧ p ≠ 0 ∧ zlen l = n.

Definition NULL : Z := 0.

Section Allocator.
Context {malloc : Malloc}.

Definition pvPortMalloc (size : Z) : ST heap Z := λ h,
  match new_block size h with Some (p, l) => Ok (p, <[p := l]> h) | None => Ok (NULL, h) end.

Definition vPortFree (p : Z) : ST heap unit := λ h,
  if p =? NULL then Ok (tt, h) else match h !! p with Some _ => Ok (tt, delete p h) | None => Ub end.

Definition memcpy (dst src n : Z) : ST heap unit := λ h,
  match h !! dst, h !! src with
  | Some d, Some s => l ← rd_n s 0 n; d ← wr_n d 0 l; Ok (tt, <[dst := d]> h)
  | _, _ => Ub
  end.

Definition allocate (size : Z) : ST heap Z := pvPortMalloc size.
Definition deallocate (pointer : Z) : ST heap unit := vPortFree pointer.

Definition reallocate (ptr new_size : Z) : ST heap Z :=
  if new_size =? 0 then vPortFree ptr;; mret NULL
  else
    new_ptr ← pvPortMalloc new_size;
    (if negb (new_ptr =? NULL) then
       if negb (ptr =? NULL) then memcpy new_ptr ptr new_size;; vPortFree ptr else mret tt
     else mret tt);;
    mret new_ptr.

(** ** What it does *)

Context {malloc_ok : MallocOk}.

Lemma allocated_is_new size h : ∃ p h', allocate size h = Ok (p, h') ∧
  ((p = NULL ∧ h' = h) ∨ (p ≠ NULL ∧ h !! p = None ∧ ∃ l, zlen l = size ∧ h' = <[p := l]> h)).
Proof.
  unfold allocate, pvPortMalloc. destruct (new_block size h) as [[p l]|] eqn:E; [|eauto 10].
  apply new_block_ok in E as (H1&H2&H3). eexists _, _. split; [done|]. right. eauto 10.
Qed.

Lemma allocate_then_deallocate size h p h' : allocate size h = Ok (p, h') → deallocate p h' = Ok (tt, h).
Proof.
  unfold allocate, pvPortMalloc, deallocate, vPortFree. destruct (new_block size h) as [[q l]|] eqn:E; intros [= <- <-]; [|done].
  apply new_block_ok in E as (H1&H2&H3). rewrite (proj2 (Z.eqb_neq q NULL) H2), lookup_insert_eq. by rewrite delete_insert_id.
Qed.

(** A block that shrinks, or keeps its size, keeps the beginning of its contents; nothing else changes. *)
Theorem reallocate_shrinks p l n q junk h : h !! p = Some l → 0 < n <= zlen l → p ≠ NULL → new_block n h = Some (q, junk) →
  reallocate p n h = Ok (q, <[q := take (Z.to_nat n) l]> (delete p h)).
Proof.
  intros Hp Hn Hp0 E. pose proof (new_block_ok _ _ _ _ E) as (Hq&Hq0&Hj). unfold reallocate. rewrite (proj2 (Z.eqb_neq n 0)) by lia.
  unfold pvPortMalloc. erewrite st_bind_Ok by (rewrite E; reflexivity). rewrite (proj2 (Z.eqb_neq q NULL) Hq0), (proj2 (Z.eqb_neq _ _) Hp0). cbn [negb].
  assert (Hqp : q ≠ p) by congruence.
  assert (Em : memcpy q p n (<[q := junk]> h) = Ok (tt, <[q := take (Z.to_nat n) l]> (<[q := junk]> h))).
  { unfold memcpy. rewrite lookup_insert_eq, lookup_insert_ne by done. rewrite Hp. unfold rd_n. rewrite decide_True by lia.
    change (Z.to_nat 0) with 0%nat. rewrite drop_0. cbn [mbind outcome_bind].
    pose proof (wr_n_app [] junk (take (Z.to_nat n) l)) as Hw. cbn [app length] in Hw. change (Z.of_nat 0) with 0 in Hw.
    rewrite Hw by (rewrite length_take; lia). cbn [mbind outcome_bind]. rewrite drop_ge by (rewrite length_take; lia). by rewrite app_nil_r. }
  erewrite st_bind_Ok; [reflexivity|]. rewrite (st_bind_Ok _ _ _ _ _ Em). unfold vPortFree. rewrite (proj2 (Z.eqb_neq _ _) Hp0).
  rewrite !lookup_insert_ne, Hp by done. by rewrite insert_insert_eq, delete_insert_ne.
Qed.

(** A block that grows is copied with its new size, from beyond the end of the old block. *)
Theorem reallocate_grows_overreads p l n q junk h : h !! p = Some l → zlen l < n → p ≠ NULL → new_block n h = Some (q, junk) →
  reallocate p n h = Ub.
Proof.
  intros Hp Hn Hp0 E. pose proof (new_block_ok _ _ _ _ E) as (Hq&Hq0&Hj). unfold reallocate. rewrite (proj2 (Z.eqb_neq n 0)) by lia.
  unfold pvPortMalloc. erewrite st_bind_Ok by (rewrite E; reflexivity). rewrite (proj2 (Z.eqb_neq q NULL) Hq0), (proj2 (Z.eqb_neq _ _) Hp0). cbn [negb].
  unfold mbind at 1 2, st_bind, memcpy. rewrite lookup_insert_eq, lookup_insert_ne by congruence. rewrite Hp. unfold rd_n.
  by rewrite decide_False by lia.
Qed.

Lemma reallocate_without_memory p n h : n ≠ 0 → new_block n h = None → reallocate p n h = Ok (NULL, h).
Proof.
  intros Hn E. unfold reallocate. rewrite (proj2 (Z.eqb_neq n 0)) by done. unfold pvPortMalloc.
  by erewrite st_bind_Ok by (rewrite E; reflexivity).
Qed.

Lemma reallocate_nothing p l h : h !! p = Some l → p ≠ NULL → reallocate p 0 h = Ok (NULL, delete p h).
Proof.
  intros Hp Hp0. unfold reallocate. cbn [Z.eqb]. erewrite st_bind_Ok; [reflexivity|]. unfold vPortFree.
  by rewrite (proj2 (Z.eqb_neq _ _) Hp0), Hp.
Qed.
End Allocator.

(** ** An example *)

(** A heap that never gives an address twice. *)
#[export] Instance bump : Malloc := {|
  new_block n h :=
    if 0 <=? n then Some (fresh (dom h ∪ {[NULL]}), replicate (Z.to_nat n) 0xA5) else None |}.

#[export] Instance bump_ok : MallocOk.
Proof.
  intros n h p l. cbn [new_block bump]. destruct (Z.leb_spec 0 n); [|done]. intros [= <- <-].
  pose proof (is_fresh (dom h ∪ {[NULL]} : gset Z)) as Hf. rewrite elem_of_union, elem_of_singleton, elem_of_dom in Hf.
  split; [by apply eq_None_not_Some; tauto|]. split; [tauto|]. rewrite length_replicate. lia.
Qed.

(** A string of JSON that grows from two bytes to three. *)
Lemma reallocate_grows_overreads_witness : reallocate 8 3 {[ 8 := [104; 105] ]} = Ub.
Proof. eapply reallocate_grows_overreads; [reflexivity|reflexivity|discriminate|reflexivity]. Defined.
