(* ===== verification/Post.v ===== *)
(** The POST handlers (src/post.cpp): the settings form, the document with the settings, the table of
    networks, and the dispatch on the address.

    ArduinoJson's documents that come in are the class [JsonDoc]: what the program gets from a variant by
    a conversion, and the comparison with characters in memory.  A null pointer where C reads a string is
    [Ub]. *)
From Stdlib Require Import Floats.SpecFloat.
From S2P Require Import Prelude CString StateMonad Sensor Settings.

(** ** Documents of ArduinoJson *)

Class JsonDoc (J : Type) := {
  deserializeJson : list Z → option J;  (* nothing: an error *)
  member : J → string → J;
  element : J → Z → J;
  as_cstr : J → option (list Z);  (* nothing: a null pointer *)
  as_bool : J → bool;
  as_u16 : J → Z;
  eq_cstr : J → list Z → bool;  (* with the string at the start of an array *)
}.

Class JsonDocOk (J : Type) `{JsonDoc J} := {
  as_cstr_ok j s : as_cstr j = Some s → Forall (λ c, 0 < c < 256) s;
  as_u16_ok j : is_u16 (as_u16 j);
  eq_cstr_ok j a s : c_str a = Ok s → eq_cstr j a = true → as_cstr j = Some s;
}.

(** ** State *)

Inductive event := WatchdogReboot (delay_ms : Z) | SuspendFeedWdTask | ScanNetworks (active : bool).

(** The members that [settings_save_fn] gives its answer, in order. *)
Abbreviation response := (list (string * json)).
Definition msg (k text : string) : string * json := (k, JStr (chars text)).

Section Post.
Context {J F : Type} {doc : JsonDoc J} {flash : Flash F} {layout : Layout} {modes : AuthModes}.
Context (atof : list Z → spec_float) (ip4addr_aton : list Z → option Z) (initial_config : bool).

Record env := mkEnv { fl : F; mqtt_reconnect : bool; events : list event }.

Definition emit (e : event) : ST env unit := modify (λ s, mkEnv (fl s) (mqtt_reconnect s) (events s ++ [e])).

(** ** The form *)

Definition str (j : J) : outcome (list Z) := match as_cstr j with Some s => Ok s | None => Ub end.
Definition int_of (j : J) : outcome Z := s ← str j; atoi s.
Definition copy_str (j : J) (size : Z) : outcome (list Z) := s ← str j; Ok (strncpy s size).

(** [ipaddr_aton] leaves the address alone when the text is none. *)
Definition ipaddr_aton (j : J) (old : Z) : outcome Z := s ← str j; Ok (default old (ip4addr_aton s)).

Definition ipv4_of_form (j : J) (old : ipv4_settings) : outcome ipv4_settings :=
  ip' ← ipaddr_aton (member j "ip") (ip old);
  nm' ← ipaddr_aton (member j "nm") (nm old);
  gw' ← ipaddr_aton (member j "gw") (gw old);
  Ok (mkIpv4 (as_bool (member j "dhcp")) ip' nm' gw' (dns old)).

Definition wifi_of_form (j : J) (old : wifi_settings) : outcome wifi_settings :=
  s ← copy_str (member j "ssid") SSID_SIZE;
  p ← copy_str (member j "password") PASSWORD_SIZE;
  m ← int_of (member j "auth_mode");
  i ← ipv4_of_form j (wifi_ipv4 old);
  Ok (mkWifi s p (scan_auth_mode_to_connect_auth_mode m) i).

Definition mqtt_of_form (j : J) : outcome mqtt_settings :=
  b ← copy_str (member j "broker") BROKER_SIZE;
  n ← int_of (member j "port");
  u ← copy_str (member j "username") USERNAME_SIZE;
  p ← copy_str (member j "password") PASSWORD_SIZE;
  Ok (mkMqtt b (u16 n) u p).

Definition publish_of_form (p_s : J) : outcome publish_settings_entry :=
  n ← copy_str (member p_s "name") NAME_SIZE;
  a ← int_of (member p_s "avg_cnt");
  x ← str (member p_s "scale");
  t ← copy_str (member p_s "topic") TOPIC_SIZE;
  Ok (mkEntry (as_bool (member p_s "enabled")) n (as_u16 (member p_s "start")) (as_u16 (member p_s "end"))
              (as_bool (member p_s "is_num")) (atof x) a t).

Definition sensor_of_form (s_s : J) (old : sensor_settings_entry) : outcome sensor_settings_entry :=
  b ← int_of (member s_s "baud");
  ps ← for_ MAX_PUBLISH_SETTINGS 0 (λ j ps,
         e ← publish_of_form (element (member s_s "p_s") j); set ps j e) (publish_settings old);
  Ok (mkSensor (u32 b) (as_bool (member s_s "enabled")) (as_bool (member s_s "simulate_values")) ps).

Definition settings_of_form (post_data : J) (old : client_mode_settings) : outcome client_mode_settings :=
  w ← wifi_of_form (member post_data "wifi") (wifi old);
  e ← ipv4_of_form (member post_data "eth") (eth old);
  m ← mqtt_of_form (member post_data "mqtt");
  ss ← for_ MAX_SERIAL_SENSORS 0 (λ i ss,
         s ← (s ← get ss i; sensor_of_form (element (member post_data "s_s") i) s); set ss i s) (sensor_settings old);
  Ok (mkClient (if eq_cstr (member post_data "conn_type") (literal (chars "WIFI")) then WIFI else ETHERNET)
               w e m (password old) ss).

(** Whether the settings may be saved, the password they get, and the message. *)
Definition check_password (post_data : J) (old : list Z) : outcome (bool * list Z * response) :=
  let pw := member (member post_data "settings") "password" in
  if initial_config then
    s ← str pw;
    no_password ← (if bool_decide (s = []) then c ← rd old 0; Ok (c =? 0) else Ok false);
    new ← (if as_bool pw then copy_str pw SETTINGS_PASSWORD_SIZE else Ok old);
    Ok (negb no_password, new,
        if no_password : bool then [msg "message" "Define a Password to Protect Settings"] else [])
  else if eq_cstr pw old then Ok (true, old, [])
  else Ok (false, old, [msg "message" "Wrong Password"]).

Definition with_password (p : list Z) (c : client_mode_settings) : client_mode_settings :=
  mkClient (conn_type c) (wifi c) (eth c) (mqtt c) p (sensor_settings c).

(** The code compares the bytes of the structs.  Their padding, which is copied along with the struct from
    the old settings to the new ones and never written alone, is equal, so the fields decide. *)
Definition network_settings_changed (old new : client_mode_settings) : bool :=
  negb (bool_decide (conn_type old = conn_type new)) || negb (bool_decide (wifi old = wifi new)) ||
  negb (bool_decide (eth old = eth new)).

Definition mqtt_settings_changed (old new : client_mode_settings) : bool := negb (bool_decide (mqtt old = mqtt new)).

Fixpoint any_changed (old new : list sensor_settings_entry) : bool :=
  match old, new with
  | o :: old, n :: new => communication_settings_changed o n || any_changed old new
  | _, _ => false
  end.

(** What follows the writing of the settings. *)
Definition apply_settings (old new : client_mode_settings) (r : response) : ST env response :=
  if network_settings_changed old new || any_changed (sensor_settings old) (sensor_settings new) ||
     mqtt_settings_changed old new then
    emit (WatchdogReboot 1000);; emit SuspendFeedWdTask;;
    mret (r ++ [msg "OK" "Rebooting"])
  else
    (if mqtt_settings_changed old new then modify (λ s, mkEnv (fl s) true (events s)) else mret tt);;
    mret (r ++ [("populate_readings"%string, JBool true); msg "message" "Settings saved"]).

(** [junk]: the uninitialised rest of the union. *)
Definition settings_save_fn (junk post_content : list Z) : ST env response :=
  match deserializeJson post_content with
  | None => mret []
  | Some post_data =>
      old ← gets (λ s, get_client_mode_settings (fl s));
      new ← lift (settings_of_form post_data old);
      '(save_settings, pw, r) ← lift (check_password post_data (password old));
      if save_settings : bool then
        let new := with_password pw new in
        modify (λ s, mkEnv (if flash_safe (fl s) then write_client_mode_settings new junk (fl s) else fl s)
                           (mqtt_reconnect s) (events s));;
        apply_settings old new r
      else mret r
  end.

(** ** The other handlers *)

Definition with_auth_mode (m : Z) (w : json) : json :=
  match w with
  | JObj l => JObj (map (λ '(k, v), (k, if String.eqb k "auth_mode" then JNum m else v)) l)
  | _ => w
  end.

Definition settings_get_fn (hw : hardware) : ST env json :=
  c ← gets (λ s, get_client_mode_settings (fl s));
  j ← lift (client_to_json hw c);
  mret match j with
       | JObj l => JObj (map (λ '(k, v), (k, if String.eqb k "wifi"
                     then with_auth_mode (connect_auth_mode_to_scan_auth_mode (auth_mode (wifi c))) v else v)) l ++
                   [("initial_config"%string, JBool initial_config)])
       | _ => j
       end.

Definition restart_fn : ST env json :=
  emit (WatchdogReboot 1000);; emit SuspendFeedWdTask;; mret (JObj []).
End Post.
