(* ===== verification/SettingsForm.v ===== *)
(** The settings form: what a saved form leaves in flash, who may save, and what the page shows then. *)
From Stdlib Require Import Floats.SpecFloat.
From stdpp Require Import relations.
From S2P Require Import Prelude CString StateMonad Sensor Settings SettingsStore Post.

(** ** Computations that either give a result or read a null pointer *)

(** [m] gives a result with [Q] when [c] holds and reads outside an object when it does not. *)
Definition decides {A} (m : outcome A) (c : bool) (Q : A → Prop) : Prop :=
  match m with Ok a => c = true ∧ Q a | Ub => c = false | OutOfFuel => False end.

Create HintDb decides.

Lemma decides_ret {A} (a : A) (Q : A → Prop) : Q a → decides (Ok a) true Q.
Proof. done. Qed.

Lemma decides_bind {A B} (m : outcome A) (f : A → outcome B) c1 c2 (P : A → Prop) (Q : B → Prop) :
  decides m c1 P → (∀ a, P a → decides (f a) c2 Q) → decides (m ≫= f) (c1 && c2) Q.
Proof.
  intros H Hf. destruct m as [a| |]; cbn in *; [|by rewrite H|done]. destruct H as [-> Ha]. by apply Hf.
Qed.

(** The last step computes without reading. *)
Lemma decides_last {A B} (m : outcome A) (f : A → B) c (P : A → Prop) (Q : B → Prop) :
  decides m c P → (∀ a, P a → Q (f a)) → decides (a ← m; Ok (f a)) c Q.
Proof. intros H Hf. destruct m as [a| |]; cbn in *; [|done|done]. destruct H as [-> Ha]. eauto. Qed.

Lemma decides_Ok {A} (m : outcome A) c (Q : A → Prop) a : decides m c Q → m = Ok a → c = true ∧ Q a.
Proof. by intros H ->. Qed.
Lemma decides_true {A} (m : outcome A) (Q : A → Prop) : decides m true Q → ∃ a, m = Ok a ∧ Q a.
Proof. destruct m as [a| |]; cbn; [intros [_ H]; eauto|done|done]. Qed.
Lemma decides_false {A} (m : outcome A) (Q : A → Prop) : decides m false Q → m = Ub.
Proof. by destruct m; cbn; [intros []| |]. Qed.
Lemma decides_impl {A} (m : outcome A) c (P Q : A → Prop) : decides m c P → (∀ a, P a → Q a) → decides m c Q.
Proof. destruct m as [a| |]; cbn; [intros [-> Ha] H; eauto|done|done]. Qed.

(** A loop that sets the elements of an array one after the other. *)
Lemma decides_fill {A} (step : Z → list A → outcome A) (c : Z → bool) (Q : Z → A → Prop) (l0 : list A) n i l :
  0 <= i → i + Z.of_nat n = zlen l → length l = length l0 → (∀ k, Z.to_nat i ≤ k → l !! k = l0 !! k)%nat →
  (∀ j l', i <= j < zlen l0 → length l' = length l0 → l' !! Z.to_nat j = l0 !! Z.to_nat j → decides (step j l') (c j) (Q j)) →
  decides (for_ n i (λ j l, y ← step j l; set l j y) l) (forallb c (seqZ i (Z.of_nat n)))
    (λ l', length l' = length l ∧ (∀ k, (k < Z.to_nat i)%nat → l' !! k = l !! k) ∧
           ∀ j y, i <= j → l' !! Z.to_nat j = Some y → Q j y).
Proof.
  revert i l. induction n as [|n IH]; intros i l Hi Hn Hl Hk Hstep.
  - cbn. split; [done|]. split; [done|]. split; [done|]. intros j y Hj Hy.
    apply lookup_lt_Some in Hy. lia.
  - rewrite for_S. rewrite Nat2Z.inj_succ, seqZ_cons by lia. cbn [forallb].
    replace (Z.pred (Z.succ (Z.of_nat n))) with (Z.of_nat n) by lia.
    rewrite bind_assoc. eapply decides_bind; [apply Hstep; [lia|done|by apply Hk]|].
    intros y Hy. unfold set. rewrite decide_True by lia. rewrite bind_ok.
    replace (Z.succ i) with (i + 1) by lia.
    eapply decides_impl; [apply IH; rewrite ?length_insert; try lia|].
    + intros k Hk'. rewrite list_lookup_insert_ne by lia. apply Hk. lia.
    + intros j l' Hj. apply Hstep. lia.
    + rewrite length_insert. intros l' (H1 & H2 & H3). split; [done|]. split.
      * intros k Hk'. rewrite H2 by lia. apply list_lookup_insert_ne. lia.
      * intros j z Hj Hz. destruct (decide (j = i)) as [->|]; [|apply H3; [lia|done]].
        rewrite H2, list_lookup_insert_eq in Hz by lia. by injection Hz as <-.
Qed.

(** ** What a form says *)

Section Form.
Context {J F : Type} {doc : JsonDoc J} {doc_ok : JsonDocOk J} {flash : Flash F} {flash_ok : FlashOk F}.
Context {layout : Layout} {layout_ok : LayoutOk} {modes : AuthModes}.
Context (atof : list Z → spec_float) (ip4addr_aton : list Z → option Z) (initial_config : bool).
Context (atof_float : ∀ s, is_float (atof s)) (aton_u32 : ∀ s a, ip4addr_aton s = Some a → is_u32 a).

Local Abbreviation settings_of_form := (settings_of_form atof ip4addr_aton).
Local Abbreviation check_password := (check_password initial_config).
Local Abbreviation settings_save_fn := (settings_save_fn atof ip4addr_aton initial_config).

(** *** Which forms the handler can read *)

Definition has_text (j : J) : bool := match as_cstr j with Some _ => true | None => false end.
Definition has_int (j : J) : bool :=
  match as_cstr j with Some s => match atoi s with Ok _ => true | _ => false end | None => false end.

Definition complete_ipv4 (j : J) : bool :=
  has_text (member j "ip") && (has_text (member j "nm") && has_text (member j "gw")).
Definition complete_wifi (j : J) : bool :=
  has_text (member j "ssid") && (has_text (member j "password") && (has_int (member j "auth_mode") && complete_ipv4 j)).
Definition complete_mqtt (j : J) : bool :=
  has_text (member j "broker") && (has_int (member j "port") && (has_text (member j "username") && has_text (member j "password"))).
Definition complete_entry (j : J) : bool :=
  has_text (member j "name") && (has_int (member j "avg_cnt") && (has_text (member j "scale") && has_text (member j "topic"))).
Definition complete_sensor (j : J) : bool :=
  has_int (member j "baud") && forallb (λ k, complete_entry (element (member j "p_s") k)) (seqZ 0 (Z.of_nat MAX_PUBLISH_SETTINGS)).
Definition complete_settings (d : J) : bool :=
  complete_wifi (member d "wifi") && (complete_ipv4 (member d "eth") && (complete_mqtt (member d "mqtt") &&
  forallb (λ i, complete_sensor (element (member d "s_s") i)) (seqZ 0 (Z.of_nat MAX_SERIAL_SENSORS)))).
Definition form_password (d : J) : J := member (member d "settings") "password".
Definition complete_form (d : J) : bool :=
  complete_settings d && (negb initial_config || has_text (form_password d)).

(** *** The settings a form describes *)

(** The field of [size] bytes holds the text: the whole of it when it is shorter, else its first bytes
    without an end. *)
Definition holds_text (j : J) (size : Z) (field : list Z) : Prop :=
  ∃ s, as_cstr j = Some s ∧ zlen field = size ∧
    if decide (zlen s < size) then c_str field = Ok s else field = take (Z.to_nat size) s ∧ c_str field = Ub.

Definition holds_int (j : J) (n : Z) : Prop := ∃ s, as_cstr j = Some s ∧ atoi s = Ok n.

Definition holds_address (j : J) (old new : Z) : Prop :=
  ∃ s, as_cstr j = Some s ∧ new = default old (ip4addr_aton s).

Record form_ipv4 (j : J) (old new : ipv4_settings) : Prop := {
  fi_dhcp : dhcp new = as_bool (member j "dhcp"); fi_ip : holds_address (member j "ip") (ip old) (ip new);
  fi_nm : holds_address (member j "nm") (nm old) (nm new); fi_gw : holds_address (member j "gw") (gw old) (gw new);
  fi_dns : dns new = dns old }.

Record form_wifi (j : J) (old new : wifi_settings) : Prop := {
  fw_ssid : holds_text (member j "ssid") SSID_SIZE (ssid new);
  fw_password : holds_text (member j "password") PASSWORD_SIZE (wifi_password new);
  fw_auth : ∃ n, holds_int (member j "auth_mode") n ∧ auth_mode new = scan_auth_mode_to_connect_auth_mode n;
  fw_ipv4 : form_ipv4 j (wifi_ipv4 old) (wifi_ipv4 new) }.

Record form_mqtt (j : J) (new : mqtt_settings) : Prop := {
  fm_broker : holds_text (member j "broker") BROKER_SIZE (broker new);
  fm_port : ∃ n, holds_int (member j "port") n ∧ port new = u16 n;
  fm_username : holds_text (member j "username") USERNAME_SIZE (username new);
  fm_password : holds_text (member j "password") PASSWORD_SIZE (mqtt_password new) }.

Record form_entry (j : J) (new : publish_settings_entry) : Prop := {
  fe_enabled : enabled new = as_bool (member j "enabled"); fe_name : holds_text (member j "name") NAME_SIZE (name new);
  fe_start : ps_start new = as_u16 (member j "start"); fe_end : ps_end new = as_u16 (member j "end");
  fe_num : is_num new = as_bool (member j "is_num");
  fe_scale : ∃ s, as_cstr (member j "scale") = Some s ∧ scale new = atof s;
  fe_avg : holds_int (member j "avg_cnt") (avg_cnt new); fe_topic : holds_text (member j "topic") TOPIC_SIZE (ps_topic new) }.

Record form_sensor (j : J) (new : sensor_settings_entry) : Prop := {
  fs_baud : ∃ n, holds_int (member j "baud") n ∧ baudrate new = u32 n;
  fs_enabled : s_enabled new = as_bool (member j "enabled");
  fs_simulate : simulate_values new = as_bool (member j "simulate_values");
  fs_entries k e : 0 <= k → publish_settings new !! Z.to_nat k = Some e → form_entry (element (member j "p_s") k) e }.

Record form_settings (d : J) (old new : client_mode_settings) : Prop := {
  fo_conn : conn_type new = if eq_cstr (member d "conn_type") (literal (chars "WIFI")) then WIFI else ETHERNET;
  fo_wifi : form_wifi (member d "wifi") (wifi old) (wifi new);
  fo_eth : form_ipv4 (member d "eth") (eth old) (eth new);
  fo_mqtt : form_mqtt (member d "mqtt") (mqtt new);
  fo_sensors i s : 0 <= i → sensor_settings new !! Z.to_nat i = Some s → form_sensor (element (member d "s_s") i) s }.

(** *** The handler reads them *)

Lemma text_bytes j s : as_cstr j = Some s → no_nul s ∧ Forall is_u8 s.
Proof.
  intros H%as_cstr_ok. split; (eapply Forall_impl; [exact H|]); unfold is_u8; cbn; intros; lia.
Qed.

Lemma copy_str_decides j size : 0 <= size →
  decides (copy_str j size) (has_text j) (λ l, holds_text j size l ∧ text_field size l).
Proof.
  intros Hz. unfold copy_str, str, has_text. destruct (as_cstr j) as [s|] eqn:E; [|done].
  destruct (text_bytes _ _ E) as [Hn Hb]. cbn. split; [done|]. split; [|by apply strncpy_field].
  exists s. split; [done|]. split; [by apply strncpy_length|]. case_decide; [by apply strncpy_fits|].
  split; [apply strncpy_cut; lia|apply strncpy_unterminated; [done|lia]].
Qed.

Lemma atoi_int s n : atoi s = Ok n → is_int n.
Proof. unfold atoi. set (v := match skip_spaces s with [] => 0 | _ => _ end). case_match eqn:E; [|done]. intros [= <-].
  apply andb_prop in E as [E1%Z.leb_le E2%Z.leb_le]. done. Qed.

Lemma int_of_decides j : decides (int_of j) (has_int j) (λ n, holds_int j n ∧ is_int n).
Proof.
  unfold int_of, str, has_int. destruct (as_cstr j) as [s|] eqn:E; [|done]. cbn.
  destruct (atoi s) as [n| |] eqn:En; cbn; [|done|].
  - split; [done|]. split; [by exists s|by eapply atoi_int].
  - revert En. unfold atoi. by case_match.
Qed.

Lemma str_decides j : decides (str j) (has_text j) (λ s, as_cstr j = Some s).
Proof. unfold str, has_text. by destruct (as_cstr j). Qed.

Lemma aton_decides j old : is_u32 old →
  decides (ipaddr_aton ip4addr_aton j old) (has_text j) (λ n, holds_address j old n ∧ is_u32 n).
Proof.
  intros Ho. unfold ipaddr_aton. eapply decides_last; [apply str_decides|]. intros s Hs. cbn.
  split; [by exists s|]. destruct (ip4addr_aton s) eqn:E; cbn; [by eapply aton_u32|done].
Qed.

Lemma ipv4_decides j old : ipv4_typed old →
  decides (ipv4_of_form ip4addr_aton j old) (complete_ipv4 j) (λ new, form_ipv4 j old new ∧ ipv4_typed new).
Proof.
  intros [H1 H2 H3 H4]. unfold ipv4_of_form, complete_ipv4.
  eapply decides_bind; [by apply aton_decides|]. intros a [A1 A2].
  eapply decides_bind; [by apply aton_decides|]. intros b [B1 B2].
  eapply decides_last; [by apply aton_decides|]. by intros c [C1 C2].
Qed.

Lemma auth_mode_int n : is_int (scan_auth_mode_to_connect_auth_mode n).
Proof.
  pose proof auth_modes_int as H. rewrite !Forall_cons in H. destruct H as (H1 & H2 & H3 & H4 & _).
  unfold scan_auth_mode_to_connect_auth_mode. by repeat case_match.
Qed.

Lemma wifi_decides j old : wifi_typed old →
  decides (wifi_of_form ip4addr_aton j old) (complete_wifi j) (λ new, form_wifi j old new ∧ wifi_typed new).
Proof.
  intros [H1 H2 H3 H4]. unfold wifi_of_form, complete_wifi.
  eapply decides_bind; [by apply copy_str_decides|]. intros s [S1 S2].
  eapply decides_bind; [by apply copy_str_decides|]. intros p [P1 P2].
  eapply decides_bind; [by apply int_of_decides|]. intros m [M1 M2].
  eapply decides_last; [by apply ipv4_decides|]. intros i [I1 I2].
  split; [split; eauto|]. split; try done. apply auth_mode_int.
Qed.

Lemma mqtt_decides j : decides (mqtt_of_form j) (complete_mqtt j) (λ new, form_mqtt j new ∧ mqtt_typed new).
Proof.
  unfold mqtt_of_form, complete_mqtt.
  eapply decides_bind; [by apply copy_str_decides|]. intros b [B1 B2].
  eapply decides_bind; [by apply int_of_decides|]. intros n [N1 N2].
  eapply decides_bind; [by apply copy_str_decides|]. intros u [U1 U2].
  eapply decides_last; [by apply copy_str_decides|]. intros p [P1 P2].
  split; [split; eauto|]. split; try done. apply u16_range.
Qed.

Lemma entry_decides j :
  decides (publish_of_form atof j) (complete_entry j) (λ new, form_entry j new ∧ entry_typed new).
Proof.
  unfold publish_of_form, complete_entry.
  eapply decides_bind; [by apply copy_str_decides|]. intros b [B1 B2].
  eapply decides_bind; [by apply int_of_decides|]. intros n [N1 N2].
  eapply decides_bind; [by apply str_decides|]. intros x Hx.
  eapply decides_last; [by apply copy_str_decides|]. intros t [T1 T2].
  split; [split; eauto; by exists x|]. split; cbn [name ps_start ps_end scale avg_cnt ps_topic]; done || eauto using as_u16_ok.
Qed.

Lemma sensor_decides j old : sensor_typed old →
  decides (sensor_of_form atof j old) (complete_sensor j) (λ new, form_sensor j new ∧ sensor_typed new).
Proof.
  intros [H1 H2 H3]. unfold sensor_of_form, complete_sensor.
  eapply decides_bind; [by apply int_of_decides|]. intros n [N1 N2].
  eapply decides_last.
  - apply (decides_fill (λ k _, publish_of_form atof (element (member j "p_s") k))
      (λ k, complete_entry (element (member j "p_s") k))
      (λ k e, form_entry (element (member j "p_s") k) e ∧ entry_typed e) (publish_settings old)); [done| |done|done|].
    + by rewrite H2.
    + intros k l _ _ _. apply entry_decides.
  - intros ps (L & _ & Hps). split.
    + split; cbn [baudrate s_enabled simulate_values publish_settings]; eauto. intros k e Hk He. by apply (Hps k e).
    + split; cbn [baudrate publish_settings]; [apply u32_range|by rewrite L|].
      apply Forall_lookup. intros k e He. apply (Hps (Z.of_nat k) e); [lia|by rewrite Nat2Z.id].
Qed.

(** Every form either describes settings, which are well formed, or lacks something the handler reads. *)
Lemma settings_decides d old : typed old →
  decides (settings_of_form d old) (complete_settings d)
    (λ new, form_settings d old new ∧ typed new ∧ password new = password old).
Proof.
  intros [H1 H2 H3 H4 H5 H6]. unfold Post.settings_of_form, complete_settings.
  eapply decides_bind; [by apply wifi_decides|]. intros w [W1 W2].
  eapply decides_bind; [by apply ipv4_decides|]. intros e [E1 E2].
  eapply decides_bind; [by apply mqtt_decides|]. intros m [M1 M2].
  eapply decides_last.
  - apply (decides_fill (λ i ss, s ← get ss i; sensor_of_form atof (element (member d "s_s") i) s)
      (λ i, complete_sensor (element (member d "s_s") i))
      (λ i s, form_sensor (element (member d "s_s") i) s ∧ sensor_typed s) (sensor_settings old)); [done| |done|done|].
    + by rewrite H5.
    + intros i l Hi Hl El. unfold get. rewrite decide_True by lia. rewrite El.
      destruct (lookup_lt_is_Some_2 (sensor_settings old) (Z.to_nat i)) as [s Hs]; [lia|]. rewrite Hs, bind_ok.
      apply sensor_decides. exact (Forall_lookup_1 _ _ _ _ H6 Hs).
  - intros ss (L & _ & Hss). split; [|split; [|done]].
    + split; cbn [conn_type wifi eth mqtt sensor_settings]; try done. intros i s Hi Hs. by apply (Hss i s).
    + split; cbn [wifi eth mqtt password sensor_settings]; try done; [by rewrite L|].
      apply Forall_lookup. intros i s Hs. apply (Hss (Z.of_nat i) s); [lia|by rewrite Nat2Z.id].
Qed.

(** *** Who may save *)

Definition authorised (d : J) (old : list Z) : bool :=
  if initial_config then negb (bool_decide (as_cstr (form_password d) = Some []) && (nth 0 old 0 =? 0))
  else eq_cstr (form_password d) old.

Definition form_new_password (d : J) (old new : list Z) : Prop :=
  if initial_config && as_bool (form_password d) then holds_text (form_password d) SETTINGS_PASSWORD_SIZE new
  else new = old.

(** What somebody who may not save is told. *)
Definition refusal : Post.response :=
  [msg "message" (if initial_config then "Define a Password to Protect Settings" else "Wrong Password")].

Lemma check_decides d old : text_field SETTINGS_PASSWORD_SIZE old →
  decides (check_password d old) (negb initial_config || has_text (form_password d))
    (λ x, x.1.1 = authorised d old ∧ form_new_password d old x.1.2 ∧ text_field SETTINGS_PASSWORD_SIZE x.1.2 ∧
          x.2 = if authorised d old then [] else refusal).
Proof.
  intros Ho. unfold Post.check_password, authorised, form_new_password, refusal. fold (form_password d).
  destruct initial_config; [|by destruct (eq_cstr _ _)]. cbn [negb orb andb].
  rewrite <- (andb_true_r (has_text _)). eapply decides_bind; [apply str_decides|]. intros s Hs.
  assert ((if bool_decide (s = []) then c ← rd old 0; Ok (c =? 0) else Ok false) =
    Ok (bool_decide (as_cstr (form_password d) = Some []) && (nth 0 old 0 =? 0))) as ->.
  { cbn in Hs. rewrite Hs. rewrite rd_nth by (destruct Ho as [-> _]; done). rewrite bind_ok.
    destruct (decide (s = [])) as [->|Hne]; [by rewrite !bool_decide_true by done|].
    rewrite !bool_decide_false by congruence. done. }
  rewrite bind_ok. set (none := bool_decide _ && _). destruct (as_bool (form_password d)); [|by destruct none].
  pose proof (copy_str_decides (form_password d) SETTINGS_PASSWORD_SIZE ltac:(done)) as H.
  unfold has_text in H. cbn in Hs. rewrite Hs in H. eapply decides_last; [exact H|]. intros p [P1 P2]. by destruct none.
Qed.

(** *** What changes besides the settings *)

(** How the device communicates - the kind of connection, the Wi-Fi, Ethernet and MQTT settings, and of each sensor the
    speed, whether it is used and whether it is simulated - is the same.  The readings to publish and the password of the
    settings may differ. *)
Definition same_communication (old new : client_mode_settings) : Prop :=
  conn_type old = conn_type new ∧ wifi old = wifi new ∧ eth old = eth new ∧ mqtt old = mqtt new ∧
  Forall2 (λ o n, baudrate o = baudrate n ∧ s_enabled o = s_enabled n ∧ simulate_values o = simulate_values n)
    (sensor_settings old) (sensor_settings new).

Lemma communication_same o n : communication_settings_changed o n = false ↔
  baudrate o = baudrate n ∧ s_enabled o = s_enabled n ∧ simulate_values o = simulate_values n.
Proof.
  unfold communication_settings_changed. rewrite !orb_false_iff, !negb_false_iff, Z.eqb_eq, !Bool.eqb_true_iff. tauto.
Qed.

Lemma any_changed_spec old new : length old = length new → any_changed old new = false ↔
  Forall2 (λ o n, baudrate o = baudrate n ∧ s_enabled o = s_enabled n ∧ simulate_values o = simulate_values n) old new.
Proof.
  revert new. induction old as [|o old IH]; intros [|n new] Hl; try done; cbn [any_changed].
  rewrite orb_false_iff, communication_same, IH by (injection Hl as Hl; done). by rewrite Forall2_cons.
Qed.

Lemma changes_spec old new : length (sensor_settings old) = length (sensor_settings new) →
  network_settings_changed old new || any_changed (sensor_settings old) (sensor_settings new) ||
    mqtt_settings_changed old new = false ↔ same_communication old new.
Proof.
  intros Hl. unfold network_settings_changed, mqtt_settings_changed, same_communication.
  rewrite !orb_false_iff, !negb_false_iff, !bool_decide_eq_true, any_changed_spec by done. tauto.
Qed.

#[export] Instance same_communication_dec old new : Decision (same_communication old new).
Proof. unfold same_communication. apply _. Defined.

(** The answer to a save, and the events that follow it. *)
Definition saved_response : Post.response := [("populate_readings"%string, JBool true); msg "message" "Settings saved"].
Definition reboot_response : Post.response := [msg "OK" "Rebooting"].
Definition save_answer (old new : client_mode_settings) : Post.response :=
  if decide (same_communication old new) then saved_response else reboot_response.
Definition save_events (old new : client_mode_settings) : list event :=
  if decide (same_communication old new) then [] else [WatchdogReboot 1000; SuspendFeedWdTask].

Lemma apply_settings_spec old new r (s : env (F := F)) : length (sensor_settings old) = length (sensor_settings new) →
  apply_settings old new r s =
    Ok (r ++ save_answer old new, mkEnv (fl s) (mqtt_reconnect s) (events s ++ save_events old new)).
Proof.
  intros Hl. unfold apply_settings, save_answer, save_events. pose proof (changes_spec old new Hl) as H.
  destruct (_ || mqtt_settings_changed old new) eqn:E.
  - rewrite !decide_False by (intros Hs; by apply H in Hs).
    change (events s ++ [WatchdogReboot 1000; SuspendFeedWdTask]) with (events s ++ [WatchdogReboot 1000] ++ [SuspendFeedWdTask]).
    by rewrite app_assoc.
  - rewrite !decide_True by (by apply H). apply orb_false_iff in E as [_ ->].
    rewrite app_nil_r. by destruct s.
Qed.

(** *** Saving *)

Lemma form_with_password d old new p : form_settings d old new → form_settings d old (with_password p new).
Proof. intros [H1 H2 H3 H4 H5]. by split. Qed.

Lemma typed_with_password new p : typed new → text_field SETTINGS_PASSWORD_SIZE p → typed (with_password p new).
Proof. intros [H1 H2 H3 H4 H5 H6] Hp. by split. Qed.

(** Everything a run of the handler on a readable document can do.  The result of writing the flash is not looked at. *)
Lemma save_runs junk content s d : let old := get_client_mode_settings (fl s) in
  typed old → deserializeJson content = Some d →
  if complete_form d then
    ∃ new, form_settings d old new ∧ typed new ∧ form_new_password d (password old) (password new) ∧
      settings_save_fn junk content s =
        if authorised d (password old) then
          Ok (save_answer old new, mkEnv (if flash_safe (fl s) then write_client_mode_settings new junk (fl s) else fl s)
                                         (mqtt_reconnect s) (events s ++ save_events old new))
        else Ok (refusal, s)
  else settings_save_fn junk content s = Ub.
Proof.
  intros old Ho Hd. unfold Post.settings_save_fn. rewrite Hd.
  rewrite (st_bind_Ok (gets (λ s, get_client_mode_settings (fl s))) _ s old s eq_refl).
  pose proof (settings_decides d old Ho) as H1. pose proof (check_decides d _ (ty_password _ Ho)) as H2.
  unfold complete_form. destruct (complete_settings d); cbn [andb].
  - destruct (decides_true _ _ H1) as (new & E1 & Hf & Ht & Hp).
    rewrite (st_bind_Ok (lift _) _ s new s) by (unfold lift; by rewrite E1).
    destruct (negb initial_config || has_text (form_password d)).
    + destruct (decides_true _ _ H2) as ([[save p] r] & E2 & H3 & Hw & Hq & Hr). cbn [fst snd] in *. subst save.
      assert (Ht' : typed (with_password p new)) by (by apply typed_with_password).
      exists (with_password p new). split; [by apply form_with_password|]. split; [done|]. split; [done|].
      rewrite (st_bind_Ok (lift _) _ s (authorised d (password old), p, r) s) by (unfold lift; by rewrite E2).
      destruct (authorised _ _); [|by rewrite Hr].
      rewrite (st_bind_Ok (modify _) _ s tt _ eq_refl). rewrite apply_settings_spec by (by rewrite (ty_sensors _ Ho), (ty_sensors _ Ht')).
      by rewrite Hr.
    + apply st_bind_Ub. unfold lift. by rewrite (decides_false _ _ H2).
  - apply st_bind_Ub. unfold lift. by rewrite (decides_false _ _ H1).
Qed.

(** What a complete form of somebody who may save brings about. *)
Definition stores_form (junk content : list Z) (s : env (F := F)) (d : J) : Prop :=
  let old := get_client_mode_settings (fl s) in
  ∃ new s', settings_save_fn junk content s = Ok (save_answer old new, s') ∧
    form_settings d old new ∧ form_new_password d (password old) (password new) ∧ typed new ∧
    get_client_mode_settings (fl s') = (if flash_safe (fl s) then new else old) ∧
    (∀ a, ¬ client_offset <= a < client_offset + FLASH_SECTOR_SIZE → flash_byte (fl s') a = flash_byte (fl s) a) ∧
    mqtt_reconnect s' = mqtt_reconnect s ∧ events s' = events s ++ save_events old new.

Lemma save_stores junk content s d : let old := get_client_mode_settings (fl s) in
  typed old → padding junk → deserializeJson content = Some d →
  if complete_form d then
    if authorised d (password old) then stores_form junk content s d
    else settings_save_fn junk content s = Ok (refusal, s)
  else settings_save_fn junk content s = Ub.
Proof.
  intros old Ho Hj Hd. pose proof (save_runs junk content s d Ho Hd) as H. cbv zeta in H. fold old in H.
  destruct (complete_form d); [|done]. destruct H as (new & Hf & Ht & Hp & E).
  destruct (authorised d (password old)); [|done].
  eexists new, _. split; [exact E|]. cbn [fl mqtt_reconnect events]. split; [done|]. split; [done|]. split; [done|].
  destruct (flash_safe (fl s)); [|done]. rewrite get_write by done. split; [done|]. split; [|done].
  intros a Ha. by rewrite write_client_byte, decide_False by done.
Qed.

(** C22: a settings form that lacks a text or a number the handler reads makes it read a null pointer.  A
    complete form of somebody who may save describes well-formed settings [new]: every text that is shorter
    than its field as it was sent, every number, switch and address.  They are in flash afterwards when
    [flash_safe_execute] could run - otherwise the old ones still are, and the answer does not tell - and
    the rest of the flash is untouched; the device reboots exactly when the kind of connection, the Wi-Fi,
    Ethernet or MQTT settings, or the speed, the use or the simulation of a sensor differ, and the answer
    says which ([save_answer], [save_events]).  Anybody else is told so ([refusal]), and nothing changes. *)
Theorem settings_save_stores_form junk content s d : let old := get_client_mode_settings (fl s) in
  typed old → padding junk → deserializeJson content = Some d →
  if complete_form d then
    if authorised d (password old) then
      ∃ new s', settings_save_fn junk content s = Ok (save_answer old new, s') ∧
        form_settings d old new ∧ form_new_password d (password old) (password new) ∧ typed new ∧
        get_client_mode_settings (fl s') = (if flash_safe (fl s) then new else old) ∧
        (∀ a, ¬ client_offset <= a < client_offset + FLASH_SECTOR_SIZE → flash_byte (fl s') a = flash_byte (fl s) a) ∧
        mqtt_reconnect s' = mqtt_reconnect s ∧ events s' = events s ++ save_events old new
    else settings_save_fn junk content s = Ok (refusal, s)
  else settings_save_fn junk content s = Ub.
Proof. apply save_stores. Qed.

(** In normal operation [settings_save_fn] changes nothing - no byte of the flash, no reboot - unless the
    request holds the password that protects the settings, provided the stored password has an end. *)
Lemma save_checks_password junk content s r s' p :
  initial_config = false → c_str (password (get_client_mode_settings (fl s))) = Ok p →
  settings_save_fn junk content s = Ok (r, s') →
  s' = s ∨ ∃ d, deserializeJson content = Some d ∧ as_cstr (form_password d) = Some p.
Proof.
  intros Hi Hp. unfold Post.settings_save_fn. destruct (deserializeJson content) as [d|]; [|intros [= _ <-]; by left].
  intros E.
  apply st_bind_inv in E as (old & s1 & [= <- <-] & E).
  apply st_bind_inv in E as (new & s1 & [_ ->]%lift_inv & E).
  apply st_bind_inv in E as ([[save q] r1] & s1 & [E1 ->]%lift_inv & E).
  unfold Post.check_password in E1. rewrite Hi in E1. fold (form_password d) in E1.
  destruct (eq_cstr _ _) eqn:Eq.
  - right. exists d. split; [done|]. eapply eq_cstr_ok; [exact Hp|exact Eq].
  - left. injection E1 as <- <- <-. by injection E as <- <-.
Qed.

(** *** Well-formedness as a type *)

(** A request that is handled without reading outside an object. *)
Inductive handled (s s' : env (F := F)) : Prop :=
| handled_save junk content r : padding junk → settings_save_fn junk content s = Ok (r, s') → handled s s'
| handled_get hw j : settings_get_fn initial_config hw s = Ok (j, s') → handled s s'
| handled_restart j : restart_fn s = Ok (j, s') → handled s s'.

Lemma handled_typed s s' : handled s s' → typed (get_client_mode_settings (fl s)) →
  typed (get_client_mode_settings (fl s')) ∧
  ∀ a, ¬ client_offset <= a < client_offset + FLASH_SECTOR_SIZE → flash_byte (fl s') a = flash_byte (fl s) a.
Proof.
  intros [junk content r Hj E|hw j E|j E] Ho.
  - destruct (deserializeJson content) as [d|] eqn:Hd.
    + pose proof (save_runs junk content s d Ho Hd) as H. cbv zeta in H. destruct (complete_form d); [|by rewrite H in E].
      destruct H as (new & _ & Ht & _ & E1). rewrite E1 in E. clear E1. destruct (authorised _ _); [|by injection E as <- <-].
      injection E as <- <-. cbn [fl].
      destruct (flash_safe (fl s)); [|done]. rewrite get_write by done. split; [done|].
      intros a Ha. by rewrite write_client_byte, decide_False by done.
    + unfold Post.settings_save_fn in E. rewrite Hd in E. by injection E as <- <-.
  - unfold settings_get_fn in E. apply st_bind_inv in E as (c & s1 & [= <- <-] & E).
    apply st_bind_inv in E as (x & s1 & [_ ->]%lift_inv & E). by injection E as <- <-.
  - by injection E as <- <-.
Qed.

(** C24: no sequence of requests to save, to show the settings or to restart - whatever their bodies, from whomever - turns well-formed settings into
    ill-formed ones: every text field keeps its size, every number its range, every list its length; and
    no byte of the flash outside the sector of the settings ever changes. *)
Theorem settings_stay_typed s s' : rtc handled s s' → typed (get_client_mode_settings (fl s)) →
  typed (get_client_mode_settings (fl s')) ∧
  ∀ a, ¬ client_offset <= a < client_offset + FLASH_SECTOR_SIZE → flash_byte (fl s') a = flash_byte (fl s) a.
Proof.
  induction 1 as [s|s s1 s' H1 _ IH]; intros Ho; [done|]. destruct (handled_typed _ _ H1 Ho) as [Ht Hb].
  destruct (IH Ht) as [Ht' Hb']. split; [done|]. intros a Ha. by rewrite Hb', Hb.
Qed.

(** ** What the page shows *)

Lemma map_json_spec {A} (f : A → outcome json) l (P : nat → json → Prop) :
  (∀ i x, l !! i = Some x → ∃ j, f x = Ok j ∧ P i j) →
  ∃ js, map_json f l = Ok js ∧ length js = length l ∧ ∀ i j, js !! i = Some j → P i j.
Proof.
  revert P. induction l as [|x l IH]; intros P H; [by exists []|]. cbn [map_json].
  destruct (H 0%nat x eq_refl) as (j & -> & Hj). rewrite bind_ok.
  destruct (IH (λ i, P (S i))) as (js & -> & Hl & Hjs); [intros i y; apply (H (S i))|]. rewrite bind_ok.
  exists (j :: js). split; [done|]. split; [cbn; by rewrite Hl|]. intros [|i] k; [by intros [= <-]|apply Hjs].
Qed.

Lemma mac_string_ok junk mac : 0 < zlen junk → ∃ t, mac_string junk mac = Ok t.
Proof.
  intros Hj. unfold mac_string. destruct (snprintf_total junk (zlen junk) (mac_chars mac)) as (b & -> & _ & Hb); [lia|done|].
  rewrite bind_ok. by apply c_str_total.
Qed.

Definition short (j : J) (size : Z) : bool := match as_cstr j with Some s => zlen s <? size | None => false end.

Definition short_entry (p : J) : bool := short (member p "name") NAME_SIZE && short (member p "topic") TOPIC_SIZE.
Definition short_sensor (s : J) : bool :=
  forallb (λ k, short_entry (element (member s "p_s") k)) (seqZ 0 (Z.of_nat MAX_PUBLISH_SETTINGS)).
Definition short_wifi (w : J) : bool := short (member w "ssid") SSID_SIZE && short (member w "password") PASSWORD_SIZE.
Definition short_mqtt (m : J) : bool :=
  short (member m "broker") BROKER_SIZE && (short (member m "username") USERNAME_SIZE && short (member m "password") PASSWORD_SIZE).
Definition short_form (d : J) : bool :=
  short_wifi (member d "wifi") && (short_mqtt (member d "mqtt") &&
  forallb (λ i, short_sensor (element (member d "s_s") i)) (seqZ 0 (Z.of_nat MAX_SERIAL_SENSORS))).

(** The value [v] of the document shows the text, the number or the address [j] of the form. *)
Definition shown_text (j : J) (v : json) : Prop := ∃ s, as_cstr j = Some s ∧ v = JStr s.
Definition shown_int (j : J) (f : Z → Z) (v : json) : Prop := ∃ n, holds_int j n ∧ v = JNum (f n).
Definition shown_address (j : J) (old : Z) (v : json) : Prop := ∃ n, holds_address j old n ∧ v = JNum n.

Lemma short_text j size field : short j size = true → holds_text j size field → ∃ s, c_str field = Ok s ∧ shown_text j (JStr s).
Proof.
  unfold short. intros Hs (s & E & _ & H). rewrite E in *. apply Z.ltb_lt in Hs.
  rewrite decide_True in H by done. exists s. split; [done|]. by exists s.
Qed.

Record shown_entry (p : J) (j : json) : Prop := {
  sn_enabled : jmember "enabled" j = JBool (as_bool (member p "enabled")); sn_name : shown_text (member p "name") (jmember "name" j);
  sn_start : jmember "start" j = JNum (as_u16 (member p "start")); sn_end : jmember "end" j = JNum (as_u16 (member p "end"));
  sn_num : jmember "is_num" j = JBool (as_bool (member p "is_num"));
  sn_scale : ∃ s, as_cstr (member p "scale") = Some s ∧ jmember "scale" j = JFloat (atof s);
  sn_avg : shown_int (member p "avg_cnt") (λ n, n) (jmember "avg_cnt" j); sn_topic : shown_text (member p "topic") (jmember "topic" j) }.

Record shown_sensor (s : J) (j : json) : Prop := {
  sn_baud : shown_int (member s "baud") u32 (jmember "baudrate" j);
  sn_senabled : jmember "enabled" j = JBool (as_bool (member s "enabled"));
  sn_simulate : jmember "simulate_values" j = JBool (as_bool (member s "simulate_values"));
  sn_entries k : (k < MAX_PUBLISH_SETTINGS)%nat →
    shown_entry (element (member s "p_s") (Z.of_nat k)) (jelement k (jmember "publish_settings" j)) }.

(** The address of the name server is not in the form: it stays. *)
Record shown_ipv4 (i : J) (old : ipv4_settings) (j : json) : Prop := {
  sn_dhcp : jmember "dhcp" j = JBool (as_bool (member i "dhcp")); sn_ip : shown_address (member i "ip") (ip old) (jmember "ip" j);
  sn_nm : shown_address (member i "nm") (nm old) (jmember "nm" j); sn_gw : shown_address (member i "gw") (gw old) (jmember "gw" j);
  sn_dns : jmember "dns" j = JNum (dns old) }.

Record shown_wifi (w : J) (old : ipv4_settings) (j : json) : Prop := {
  sn_ssid : shown_text (member w "ssid") (jmember "ssid" j); sn_wpassword : shown_text (member w "password") (jmember "password" j);
  sn_wifi_ipv4 : shown_ipv4 w old j }.

Record shown_mqtt (m : J) (j : json) : Prop := {
  sn_broker : shown_text (member m "broker") (jmember "broker" j); sn_port : shown_int (member m "port") u16 (jmember "port" j);
  sn_user : shown_text (member m "username") (jmember "username" j);
  sn_mpassword : shown_text (member m "password") (jmember "password" j) }.

(** A mode of authentication is shown by its number in a scan; what the form cannot name is -1. *)
Definition shown_auth (n : Z) : Z := if bool_decide (n ∈ [0; 3; 5; 7]) then n else -1.

(** The document shows the form [d], which was saved over the settings [old]: every member that it has of the settings. *)
Record shown (d : J) (old : client_mode_settings) (hw : hardware) (j : json) : Prop := {
  sn_conn : jmember "conn_type" j =
    JStr (chars (if eq_cstr (member d "conn_type") (literal (chars "WIFI")) then "WIFI" else "ETHERNET"));
  sn_wifi : shown_wifi (member d "wifi") (wifi_ipv4 (wifi old)) (jmember "wifi" j);
  sn_auth : shown_int (member (member d "wifi") "auth_mode") shown_auth (jmember "auth_mode" (jmember "wifi" j));
  sn_available : jmember "is_available" (jmember "eth" j) = JBool (enc_available hw);
  sn_eth : enc_available hw = true → shown_ipv4 (member d "eth") (eth old) (jmember "eth" j);
  sn_mqtt : shown_mqtt (member d "mqtt") (jmember "mqtt" j);
  sn_sensors i : (i < MAX_SERIAL_SENSORS)%nat →
    shown_sensor (element (member d "s_s") (Z.of_nat i)) (jelement i (jmember "sensor_settings" j));
  sn_initial : jmember "initial_config" j = JBool initial_config }.

Lemma entry_shown p e : form_entry p e → short_entry p = true → ∃ j, publish_to_json e = Ok j ∧ shown_entry p j.
Proof.
  intros [H1 H2 H3 H4 H5 H6 H7 H8] [S1 S2]%andb_prop.
  destruct (short_text _ _ _ S1 H2) as (n & En & Tn). destruct (short_text _ _ _ S2 H8) as (t & Et & Tt).
  unfold publish_to_json. rewrite En, bind_ok, Et, bind_ok. eexists. split; [done|].
  destruct H6 as (x & Ex & Hx). split; cbn; [by rewrite H1|done|by rewrite H3|by rewrite H4|by rewrite H5|exists x; by rewrite Hx|by exists (avg_cnt e)|done].
Qed.

Lemma forallb_seqZ (f : Z → bool) n k : forallb f (seqZ 0 (Z.of_nat n)) = true → (k < n)%nat → f (Z.of_nat k) = true.
Proof. rewrite forallb_forall. intros H Hk. apply H. apply list_elem_of_In, elem_of_seqZ. lia. Qed.

Lemma sensor_shown p s : form_sensor p s → sensor_typed s → short_sensor p = true →
  ∃ j, sensor_to_json s = Ok j ∧ shown_sensor p j.
Proof.
  intros [(n & N1 & N2) H2 H3 H4] [T1 T2 T3] S. unfold sensor_to_json.
  destruct (map_json_spec publish_to_json (publish_settings s) (λ k, shown_entry (element (member p "p_s") (Z.of_nat k))))
    as (js & -> & Hl & Hjs).
  { intros k e He. apply entry_shown; [apply H4; [lia|by rewrite Nat2Z.id]|].
    apply (forallb_seqZ _ _ _ S). rewrite <- T2. by eapply lookup_lt_Some. }
  rewrite bind_ok. eexists. split; [done|]. split; cbn; [exists n; by rewrite N2|by rewrite H2|by rewrite H3|].
  - intros k Hk. destruct (lookup_lt_is_Some_2 js k) as [j Hj]; [by rewrite Hl, T2|].
    rewrite (nth_lookup_Some _ _ _ _ Hj). by apply Hjs.
Qed.

(** The members of [ipv4_settings::to_json] show the addresses wherever they stand in a document. *)
Lemma ipv4_shown i old new j : form_ipv4 i old new →
  Forall (λ '(k, v), jmember k j = v) (ipv4_json new) → shown_ipv4 i old j.
Proof.
  intros [H1 H2 H3 H4 H5] Hj. unfold ipv4_json in Hj. rewrite !Forall_cons in Hj. destruct Hj as (J1 & J2 & J3 & J4 & J5 & _).
  split; [by rewrite J1, H1|by exists (ip new)|by exists (nm new)|by exists (gw new)|by rewrite J5, H5].
Qed.

Lemma wifi_shown junk mac d w old m : form_wifi d old w → short_wifi d = true → 0 < zlen junk →
  ∃ l, wifi_to_json junk mac w = Ok (JObj l) ∧ shown_wifi d (wifi_ipv4 old) (with_auth_mode m (JObj l)) ∧
    jmember "auth_mode" (with_auth_mode m (JObj l)) = JNum m.
Proof.
  intros [H1 H2 H3 H4] [S1 S2]%andb_prop Hj.
  destruct (short_text _ _ _ S1 H1) as (n & En & Tn). destruct (short_text _ _ _ S2 H2) as (t & Et & Tt).
  destruct (mac_string_ok junk mac Hj) as (x & Ex).
  unfold wifi_to_json. rewrite En, bind_ok, Et, bind_ok, Ex, bind_ok. eexists. split; [done|].
  split; [|done]. split; [done|done|]. eapply ipv4_shown; [exact H4|by repeat constructor].
Qed.

Lemma mqtt_shown d m : form_mqtt d m → short_mqtt d = true → ∃ j, mqtt_to_json m = Ok j ∧ shown_mqtt d j.
Proof.
  intros [H1 (n & N1 & N2) H3 H4] [S1 [S2 S3]%andb_prop]%andb_prop.
  destruct (short_text _ _ _ S1 H1) as (b & Eb & Tb). destruct (short_text _ _ _ S2 H3) as (u & Eu & Tu).
  destruct (short_text _ _ _ S3 H4) as (p & Ep & Tp).
  unfold mqtt_to_json. rewrite Eb, bind_ok, Eu, bind_ok, Ep, bind_ok. eexists. split; [done|].
  split; cbn; try done. exists n. by rewrite N2.
Qed.

Lemma eth_total avail junk mac e : 0 < zlen junk → ∃ j, eth_to_json avail junk mac e = Ok j.
Proof.
  intros Hj. unfold eth_to_json. destruct avail; [|by eexists]. destruct (mac_string_ok junk mac Hj) as (m & ->).
  rewrite bind_ok. by eexists.
Qed.

Lemma eth_shown avail junk mac e j : eth_to_json avail junk mac e = Ok j →
  jmember "is_available" j = JBool avail ∧ ∀ d old, form_ipv4 d old e → avail = true → shown_ipv4 d old j.
Proof.
  unfold eth_to_json. destruct avail; [|by intros [= <-]]. destruct (mac_string junk mac) as [m| |]; [|done|done].
  rewrite bind_ok. intros [= <-]. split; [done|]. intros d old H _. eapply ipv4_shown; [exact H|by repeat constructor].
Qed.

(** The authentication modes of a scan survive the way into the settings and back to the page; every
    other value ends as -1. *)
Theorem auth_mode_roundtrip m :
  connect_auth_mode_to_scan_auth_mode (scan_auth_mode_to_connect_auth_mode m) =
    if bool_decide (m ∈ [0; 3; 5; 7]) then m else -1.
Proof.
  pose proof auth_modes_differ as H. rewrite !NoDup_cons, !not_elem_of_cons in H.
  destruct H as ((?&?&?&?&_)&(?&?&?&_)&(?&?&_)&(?&_)&_).
  unfold scan_auth_mode_to_connect_auth_mode, connect_auth_mode_to_scan_auth_mode.
  destruct (Z.eqb_spec m 0) as [->|]; [by rewrite Z.eqb_refl|].
  destruct (Z.eqb_spec m 3) as [->|]; [by rewrite (proj2 (Z.eqb_neq _ _)), Z.eqb_refl by congruence|].
  destruct (Z.eqb_spec m 5) as [->|]; [by rewrite 2!(proj2 (Z.eqb_neq _ _)), Z.eqb_refl by congruence|].
  destruct (Z.eqb_spec m 7) as [->|]; [by rewrite 3!(proj2 (Z.eqb_neq _ _)), Z.eqb_refl by congruence|].
  rewrite 4!(proj2 (Z.eqb_neq _ _)) by congruence. rewrite bool_decide_false; [done|].
  rewrite !not_elem_of_cons. repeat split; done || apply not_elem_of_nil.
Qed.

(** The page shows the settings the form left in flash. *)
Lemma get_shows d old s hw : let c := get_client_mode_settings (fl s) in
  form_settings d old c → typed c → short_form d = true → 0 < zlen (mac_junk hw) →
  ∃ j, settings_get_fn initial_config hw s = Ok (j, s) ∧ shown d old hw j.
Proof.
  intros c [H1 H2 H3 H4 H5] Ht [S1 [S2 S3]%andb_prop]%andb_prop Hj.
  destruct (wifi_shown (mac_junk hw) (sta_mac hw) _ _ _ (connect_auth_mode_to_scan_auth_mode (auth_mode (wifi c))) H2 S1 Hj)
    as (w & Ew & Hw & Ha).
  destruct (eth_total (enc_available hw) (mac_junk hw) (enc_mac hw) (eth c) Hj) as (e & Ee).
  destruct (eth_shown _ _ _ _ _ Ee) as [Hav He].
  destruct (mqtt_shown _ _ H4 S2) as (m & Em & Hmq).
  destruct (map_json_spec sensor_to_json (sensor_settings c) (λ i, shown_sensor (element (member d "s_s") (Z.of_nat i))))
    as (js & Ej & Hl & Hjs).
  { intros i x Hx. apply sensor_shown; [apply H5; [lia|by rewrite Nat2Z.id]|exact (Forall_lookup_1 _ _ _ _ (ty_sensor _ Ht) Hx)|].
    apply (forallb_seqZ _ _ _ S3). rewrite <- (ty_sensors _ Ht). by eapply lookup_lt_Some. }
  unfold settings_get_fn. rewrite (st_bind_Ok (gets (λ s, get_client_mode_settings (fl s))) _ s c s eq_refl).
  unfold client_to_json. rewrite Ew, bind_ok, Ee, bind_ok, Em, bind_ok, Ej, bind_ok.
  eexists. split; [reflexivity|]. split; [|exact Hw| |exact Hav|exact (He _ _ H3)|exact Hmq| |done].
  - change (JStr (chars (match conn_type c with WIFI => "WIFI" | ETHERNET => "ETHERNET" end)) =
      JStr (chars (if eq_cstr (member d "conn_type") (literal (chars "WIFI")) then "WIFI" else "ETHERNET"))).
    rewrite H1. by destruct (eq_cstr _ _).
  - destruct (fw_auth _ _ _ H2) as (n & N1 & N2). exists n. split; [done|]. etransitivity; [exact Ha|]. rewrite N2.
    f_equal. apply auth_mode_roundtrip.
  - intros i Hi. destruct (lookup_lt_is_Some_2 js i) as [j Hj']; [by rewrite Hl, (ty_sensors _ Ht)|].
    change (shown_sensor (element (member d "s_s") (Z.of_nat i)) (nth i js JNull)).
    rewrite (nth_lookup_Some _ _ _ _ Hj'). by apply Hjs.
Qed.

(** C25: once a complete form of somebody who may save was saved, into a flash that could be written, over
    well-formed settings, the document the page asks for shows the form: the kind of connection, every
    text, number, scale, switch and address of the Wi-Fi, MQTT and sensor settings and of each reading to
    publish, the mode of authentication by its number in a scan, and the addresses of the Ethernet port
    where there is one - provided each text is shorter than its field.  An address whose text is none, and
    the name server, are as before. *)
Theorem saved_form_is_shown junk content s d hw : let old := get_client_mode_settings (fl s) in
  typed old → padding junk → flash_safe (fl s) = true → deserializeJson content = Some d →
  complete_form d = true → authorised d (password old) = true → short_form d = true → 0 < zlen (mac_junk hw) →
  ∃ r s' j, settings_save_fn junk content s = Ok (r, s') ∧ settings_get_fn initial_config hw s' = Ok (j, s') ∧ shown d old hw j.
Proof.
  intros old Ho Hj Hs Hd Hc Ha Hsh Hhw.
  pose proof (save_stores junk content s d Ho Hj Hd) as H. cbv zeta in H. fold old in H. rewrite Hc, Ha in H.
  destruct H as (new & s' & E & Hf & _ & Ht & En & _). fold old in E, Hf, En. rewrite Hs in En.
  destruct (get_shows d old s' hw) as (j & Ej & Hsj); [by rewrite En|by rewrite En|done|done|].
  exists (save_answer old new), s', j. done.
Qed.

Definition terminated (l : list Z) : bool := bool_decide (0 ∈ l).

Lemma c_str_decides l : decides (c_str l) (terminated l) (λ _, True).
Proof.
  unfold terminated. destruct (decide (0 ∈ l)) as [H|H].
  - rewrite bool_decide_true by done. by destruct (c_str_total l H) as [s ->].
  - rewrite bool_decide_false by done. rewrite c_str_no_nul; [done|]. apply Forall_forall. by intros c Hc ->.
Qed.

Lemma map_json_decides {A} (f : A → outcome json) (c : A → bool) l :
  (∀ x, decides (f x) (c x) (λ _, True)) → decides (map_json f l) (forallb c l) (λ _, True).
Proof.
  intros Hf. induction l as [|x l IH]; [done|]. cbn [map_json forallb].
  eapply decides_bind; [apply Hf|]. intros j _. eapply decides_last; [exact IH|done].
Qed.

Definition entry_terminated (e : publish_settings_entry) : bool := terminated (name e) && terminated (ps_topic e).
Definition sensor_terminated (x : sensor_settings_entry) : bool := forallb entry_terminated (publish_settings x).
Definition all_terminated (c : client_mode_settings) : bool :=
  (terminated (ssid (wifi c)) && terminated (wifi_password (wifi c))) &&
  ((terminated (broker (mqtt c)) && (terminated (username (mqtt c)) && terminated (mqtt_password (mqtt c)))) &&
   forallb sensor_terminated (sensor_settings c)).

Lemma entry_json_decides e : decides (publish_to_json e) (entry_terminated e) (λ _, True).
Proof.
  unfold publish_to_json, entry_terminated. eapply decides_bind; [apply c_str_decides|]. intros n _.
  by eapply decides_last; [apply c_str_decides|].
Qed.

Lemma client_json_decides hw c : 0 < zlen (mac_junk hw) →
  decides (client_to_json hw c) (all_terminated c) (λ j, ∃ l, j = JObj l).
Proof.
  intros Hj. unfold client_to_json, all_terminated.
  destruct (eth_total (enc_available hw) (mac_junk hw) (enc_mac hw) (eth c) Hj) as (e & Ee).
  destruct (mac_string_ok (mac_junk hw) (sta_mac hw) Hj) as (m & Em).
  eapply (decides_bind _ _ _ _ (λ _, True)).
  { unfold wifi_to_json. eapply decides_bind; [apply c_str_decides|]. intros a _.
    rewrite Em. by eapply decides_last; [apply c_str_decides|]. }
  intros w _. rewrite Ee, bind_ok. eapply (decides_bind _ _ _ _ (λ _, True)).
  { unfold mqtt_to_json. eapply decides_bind; [apply c_str_decides|]. intros b _.
    eapply decides_bind; [apply c_str_decides|]. intros u _. by eapply decides_last; [apply c_str_decides|]. }
  intros q _. eapply decides_last; [apply (map_json_decides _ sensor_terminated)|eauto].
  intros x. unfold sensor_to_json, sensor_terminated.
  by eapply decides_last; [apply (map_json_decides _ entry_terminated), entry_json_decides|].
Qed.

(** A text as long as its field is saved without an end; from then on the request for the settings
    reads behind the field.  The page gets its settings exactly when every text in flash has an end. *)
Theorem settings_shown_iff_terminated hw s : 0 < zlen (mac_junk hw) →
  if all_terminated (get_client_mode_settings (fl s)) then ∃ j, settings_get_fn initial_config hw s = Ok (j, s)
  else settings_get_fn initial_config hw s = Ub.
Proof.
  intros Hj. set (c := get_client_mode_settings (fl s)). unfold settings_get_fn.
  rewrite (st_bind_Ok (gets (λ s, get_client_mode_settings (fl s))) _ s c s eq_refl).
  pose proof (client_json_decides hw c Hj) as H. unfold lift. destruct (all_terminated c).
  - destruct (decides_true _ _ H) as (j & E & l & ->). unfold mbind, st_bind. rewrite E, bind_ok. eauto.
  - unfold mbind, st_bind. by rewrite (decides_false _ _ H).
Qed.
End Form.

(** ** The theorems at work *)

(** Documents as trees.  The one request that can be parsed is the form below. *)
Definition is_char (c : Z) : bool := (0 <? c) && (c <? 256).

Definition tree_cstr (j : json) : option (list Z) :=
  match j with JStr s => if forallb is_char s then Some s else None | _ => None end.

Definition demo_entry_form : json :=
  JObj [("enabled", JBool true); ("name", JStr (chars "H3")); ("start", JNum 2); ("end", JNum 8); ("is_num", JBool true);
        ("scale", JStr (chars "1")); ("avg_cnt", JStr (chars "180")); ("topic", JStr (chars "r/123"))]%string.
Definition demo_sensor_form : json :=
  JObj [("baud", JStr (chars "9600")); ("enabled", JBool true); ("simulate_values", JBool false);
        ("p_s", JArr (replicate 10 demo_entry_form))]%string.
Definition demo_addresses : list (string * json) :=
  [("dhcp", JBool true); ("ip", JStr (chars "x")); ("nm", JStr (chars "x")); ("gw", JStr (chars "x"))]%string.
Definition demo_form : json :=
  JObj [("wifi", JObj ([("ssid", JStr (chars "lab")); ("password", JStr (chars "secret")); ("auth_mode", JStr (chars "5"))] ++ demo_addresses));
        ("eth", JObj demo_addresses); ("conn_type", JStr (chars "WIFI"));
        ("mqtt", JObj [("broker", JStr (chars "10.0.0.1")); ("port", JStr (chars "1883")); ("username", JStr (chars "u"));
                       ("password", JStr (chars "p"))]);
        ("s_s", JArr (replicate 3 demo_sensor_form)); ("settings", JObj [("password", JStr (chars "1234"))])]%string.

#[export] Instance tree_doc : JsonDoc json := {|
  deserializeJson l := if bool_decide (l = []) then None else Some demo_form;
  member j k := jmember k j;
  element j i := jelement (Z.to_nat i) j;
  as_cstr := tree_cstr;
  as_bool j := match j with JNull => false | JBool b => b | JNum n => negb (n =? 0) | _ => true end;
  as_u16 j := match j with JNum n => if (0 <=? n) && (n <? 65536) then n else 0 | _ => 0 end;
  eq_cstr j a := match tree_cstr j, c_str a with Some s, Ok t => bool_decide (s = t) | _, _ => false end;
|}.

#[export] Instance tree_doc_ok : JsonDocOk json.
Proof.
  split; cbn.
  - intros j s. destruct j; cbn; try done. case_match eqn:E; [|done]. intros [= <-].
    apply Forall_forall. intros c Hc%list_elem_of_In. rewrite forallb_forall in E.
    specialize (E c Hc). unfold is_char in E. apply andb_prop in E as [E1%Z.ltb_lt E2%Z.ltb_lt]. done.
  - intros j. unfold is_u16. destruct j; try lia. case_match eqn:E; [|lia].
    apply andb_prop in E as [E1%Z.leb_le E2%Z.ltb_lt]. done.
  - intros j a s ->. destruct (tree_cstr j); [|done]. intros H%bool_decide_eq_true. by subst.
Qed.

#[export] Instance sdk_modes : AuthModes.
Proof.
  refine {| CYW43_AUTH_OPEN := 0; CYW43_AUTH_WPA_TKIP_PSK := 0x00200002; CYW43_AUTH_WPA3_WPA2_AES_PSK := 0x01400004;
            CYW43_AUTH_WPA2_MIXED_PSK := 0x00400006 |}; apply (bool_decide_unpack _); vm_compute; exact I.
Defined.

Definition demo_stored_entry : publish_settings_entry :=
  mkEntry true (strncpy (chars "H3") 10) 2 8 true (f32_of_int 1) 0 (strncpy (chars "123") 30).
Definition demo_stored_sensor : sensor_settings_entry := mkSensor 9600 true false (replicate 10 demo_stored_entry).
Definition demo_ipv4 : ipv4_settings := mkIpv4 true 0 0 0 0.
Definition demo_stored : client_mode_settings :=
  mkClient WIFI (mkWifi (strncpy (chars "home") 32) (strncpy [] 32) 0 demo_ipv4) demo_ipv4
    (mkMqtt (strncpy (chars "10.0.0.2") 32) 1883 (strncpy [] 32) (strncpy [] 32)) (strncpy (chars "1234") 8)
    (replicate 3 demo_stored_sensor).

Lemma demo_text size t : 0 <= size → Forall is_u8 t → text_field size (strncpy t size).
Proof. apply strncpy_field. Qed.

Ltac text := apply demo_text; [done|apply (bool_decide_unpack _); vm_compute; exact I].

Lemma demo_ipv4_typed : ipv4_typed demo_ipv4.
Proof. by split. Qed.

Lemma demo_stored_typed : typed demo_stored.
Proof.
  split; cbn [wifi eth mqtt password sensor_settings demo_stored]; [|apply demo_ipv4_typed| |text|done|].
  - split; cbn [ssid wifi_password auth_mode wifi_ipv4]; [text|text|done|apply demo_ipv4_typed].
  - split; cbn [broker port username mqtt_password]; [text|done|text|text].
  - apply Forall_replicate. split; [done|done|]. apply Forall_replicate.
    split; cbn [name ps_start ps_end scale avg_cnt ps_topic demo_stored_entry]; [text|done|done|by vm_compute|done|text].
Qed.

Definition demo_junk : list Z := replicate (Z.to_nat (FLASH_SECTOR_SIZE - sizeof_settings)) 0.
Definition demo_env : env (F := Z → Z) := mkEnv (write_client_mode_settings demo_stored demo_junk (λ _, 255)) false [].

Lemma demo_padding : padding demo_junk.
Proof. split; [by apply Forall_replicate|by vm_compute]. Qed.

Lemma demo_env_settings : get_client_mode_settings (fl demo_env) = demo_stored.
Proof. unfold demo_env. cbn [fl]. apply get_write; [exact demo_stored_typed|exact demo_padding]. Qed.

Lemma demo_env_typed : typed (get_client_mode_settings (fl demo_env)).
Proof. rewrite demo_env_settings. exact demo_stored_typed. Qed.

Definition demo_atof (s : list Z) : spec_float := f32_of_int 1.
Definition demo_aton (s : list Z) : option Z := None.
Definition demo_save := settings_save_fn (J := json) demo_atof demo_aton false demo_junk [123; 125] demo_env.
Definition demo_hw : hardware := mkHardware false [] [1; 2; 3; 4; 5; 171] (replicate 18 0).

Lemma demo_float s : is_float (demo_atof s).
Proof. by vm_compute. Qed.
Lemma demo_addr s a : demo_aton s = Some a → is_u32 a.
Proof. done. Qed.

(** The form names another network than the one in flash. *)
Lemma demo_new_network new : form_settings (J := json) demo_atof demo_aton demo_form demo_stored new → ¬ same_communication demo_stored new.
Proof.
  intros Hf (_ & Ew & _). destruct (fw_ssid _ _ _ _ (fo_wifi _ _ _ _ _ Hf)) as (t & Et & _ & Hx). rewrite <- Ew in Hx.
  vm_compute in Et. injection Et as <-. vm_compute in Hx. discriminate Hx.
Qed.
Lemma demo_new_answer new : form_settings (J := json) demo_atof demo_aton demo_form demo_stored new → save_answer demo_stored new = reboot_response.
Proof. intros Hf. unfold save_answer. by rewrite decide_False by (by apply demo_new_network). Qed.
Lemma demo_new_events new : form_settings (J := json) demo_atof demo_aton demo_form demo_stored new →
  save_events demo_stored new = [WatchdogReboot 1000; SuspendFeedWdTask].
Proof. intros Hf. unfold save_events. by rewrite decide_False by (by apply demo_new_network). Qed.

Lemma demo_authorised : authorised (J := json) false demo_form (password (get_client_mode_settings (fl demo_env))) = true.
Proof. rewrite demo_env_settings. vm_compute. reflexivity. Qed.

Lemma settings_save_stores_form_witness :
  typed (get_client_mode_settings (fl demo_env)) ∧
  ∃ new s', demo_save = Ok (reboot_response, s') ∧ get_client_mode_settings (fl s') = new ∧
    form_settings (J := json) demo_atof demo_aton demo_form demo_stored new.
Proof.
  split; [exact demo_env_typed|].
  pose proof (settings_save_stores_form (J := json) demo_atof demo_aton false demo_float demo_addr demo_junk [123; 125] demo_env
    demo_form demo_env_typed demo_padding eq_refl) as H. cbv zeta in H.
  assert (complete_form (J := json) false demo_form = true) as Hc by (vm_compute; reflexivity).
  rewrite Hc, demo_authorised, demo_env_settings in H.
  destruct H as (new & s' & E & Hf & _ & _ & En & _). exists new, s'. split; [|split; [exact En|exact Hf]].
  rewrite (demo_new_answer new Hf) in E. exact E.
Defined.

Lemma settings_stay_typed_witness :
  ∃ s', rtc (handled (J := json) demo_atof demo_aton false) demo_env s' ∧ typed (get_client_mode_settings (fl s')).
Proof.
  pose proof (handled_restart (J := json) demo_atof demo_aton false demo_env _ _ eq_refl) as H.
  eexists. split; [eapply rtc_l; [exact H|apply rtc_refl]|].
  apply (settings_stay_typed (J := json) demo_atof demo_aton false demo_float demo_addr demo_env);
    [eapply rtc_l; [exact H|apply rtc_refl]|exact demo_env_typed].
Defined.

Lemma saved_form_is_shown_witness :
  short_form (J := json) demo_form = true ∧
  ∃ r s' j, demo_save = Ok (r, s') ∧ settings_get_fn false demo_hw s' = Ok (j, s') ∧
    shown (J := json) demo_atof demo_aton false demo_form (get_client_mode_settings (fl demo_env)) demo_hw j.
Proof.
  assert (short_form (J := json) demo_form = true) as Hs by (vm_compute; reflexivity). split; [exact Hs|].
  assert (complete_form (J := json) false demo_form = true) as Hc by (vm_compute; reflexivity).
  exact (saved_form_is_shown (J := json) demo_atof demo_aton false demo_float demo_addr demo_junk [123; 125] demo_env
    demo_form demo_hw demo_env_typed demo_padding eq_refl eq_refl Hc demo_authorised Hs eq_refl).
Defined.

Lemma settings_shown_iff_terminated_witness :
  0 < zlen (mac_junk demo_hw) ∧ ∃ j, settings_get_fn false demo_hw demo_env = Ok (j, demo_env).
Proof.
  split; [reflexivity|].
  pose proof (settings_shown_iff_terminated false demo_hw demo_env eq_refl) as H. rewrite demo_env_settings in H.
  assert (all_terminated demo_stored = true) as Hc by (vm_compute; reflexivity). rewrite Hc in H. exact H.
Defined.
