(* ===== verification/Http.v ===== *)
(** The HTTP server (httpserver/httpd.cpp, httpd.h, httpd_structs.h, fs.cpp): state, files and sending.

    The server of the firmware is built with dynamic headers and POST, without SSI, CGI, keep-alive and
    dynamic reads (inc/lwipopts.h); code under other options is not part of it.  A connection is a
    [server]: its TCP control block, of lwIP, behind the class [Tcp], its [http_state] - nothing once it
    is freed, so that any later access to it is [Ub] - and the globals [G] of the POST handlers. *)
From S2P Require Import Prelude CString StateMonad.

(** ** The file system *)

Record fsdata_file := mkFsData { fd_name : list Z; fd_data : list Z; fd_len : Z; fd_flags : Z }.
Record fs_file := mkFile { f_data : list Z; f_len : Z; f_index : Z; f_flags : Z }.

Definition FS_FILE_FLAGS_HEADER_INCLUDED : Z := 0x01.
Definition FS_FILE_FLAGS_HEADER_PERSISTENT : Z := 0x02.

Definition ERR_OK : Z := 0.
Definition ERR_MEM : Z := -1.
Definition ERR_INPROGRESS : Z := -5.
Definition ERR_VAL : Z := -6.
Definition ERR_USE : Z := -8.
Definition ERR_ARG : Z := -16.

(** The list of files, from [FS_ROOT] on. *)
Fixpoint fs_open (root : list fsdata_file) (name : list Z) : option fs_file :=
  match root with
  | [] => None
  | f :: root =>
      if bool_decide (name = fd_name f) then Some (mkFile (fd_data f) (fd_len f) (fd_len f) (fd_flags f))
      else fs_open root name
  end.

Definition fs_bytes_left (file : fs_file) : Z := f_len file - f_index file.

(** ** State *)

(** What a pointer points into: constant data, the [http_state] itself, a block of the heap. *)
Inductive source := Rom | Member | Heap.

(** A pointer: the bytes from it to the end of its object. *)
Record ptr := mkPtr { p_src : source; p_rest : list Z }.

Inductive block := Null | Block (l : list Z) | Freed.

Record http_state := mkHs {
  handle : option fs_file; file : option ptr; left : Z; retries : Z;
  hdrs : list (option ptr); hdr_pos : Z; hdr_index : Z;
  req : list (list Z);  (* the payloads of the queued pbufs *)
  post_uri : list Z; post_content : block; post_content_len : Z; post_content_len_left : Z;
  post_response_buf : option (list Z) }.

Definition NUM_FILE_HDR_STRINGS : Z := 6.
Definition HDR_STRINGS_IDX_HTTP_STATUS : nat := 0.
Definition HDR_STRINGS_IDX_SERVER_NAME : nat := 1.
Definition HDR_STRINGS_IDX_CONTENT_LEN_KEEPALIVE : nat := 2.
Definition HDR_STRINGS_IDX_CONTENT_LEN_NR : nat := 3.
Definition HDR_STRINGS_IDX_CONTENT_TYPE : nat := 4.
Definition HDR_STRINGS_IDX_CUSTOM_CONTENT : nat := 5.
Definition LWIP_HTTPD_MAX_CONTENT_LEN_OFFSET : Z := 3.
Definition LWIP_HTTPD_MAX_CONTENT_LEN_SIZE : Z := 9 + LWIP_HTTPD_MAX_CONTENT_LEN_OFFSET.

Definition HTTP_DATA_TO_SEND_FREED : Z := 3.
Definition HTTP_DATA_TO_SEND_BREAK : Z := 2.
Definition HTTP_DATA_TO_SEND_CONTINUE : Z := 1.
Definition HTTP_NO_DATA_TO_SEND : Z := 0.

Definition HTTPD_MAX_RETRIES : Z := 4.
Definition POST_URI_SIZE : Z := 128.

Definition http_state_init : http_state :=
  mkHs None None 0 0 (replicate 6 None) 0 NUM_FILE_HDR_STRINGS [] (replicate 128 0) Null 0 0 None.

Definition set_handle (f : option fs_file) (h : http_state) : http_state :=
  mkHs f (file h) (left h) (retries h) (hdrs h) (hdr_pos h) (hdr_index h) (req h) (post_uri h) (post_content h)
    (post_content_len h) (post_content_len_left h) (post_response_buf h).
Definition set_file (p : option ptr) (n : Z) (h : http_state) : http_state :=
  mkHs (handle h) p n (retries h) (hdrs h) (hdr_pos h) (hdr_index h) (req h) (post_uri h) (post_content h)
    (post_content_len h) (post_content_len_left h) (post_response_buf h).
Definition set_retries (n : Z) (h : http_state) : http_state :=
  mkHs (handle h) (file h) (left h) n (hdrs h) (hdr_pos h) (hdr_index h) (req h) (post_uri h) (post_content h)
    (post_content_len h) (post_content_len_left h) (post_response_buf h).
Definition set_hdr (i : nat) (p : option ptr) (h : http_state) : http_state :=
  mkHs (handle h) (file h) (left h) (retries h) (<[i := p]> (hdrs h)) (hdr_pos h) (hdr_index h) (req h) (post_uri h)
    (post_content h) (post_content_len h) (post_content_len_left h) (post_response_buf h).
Definition set_hdr_at (i pos : Z) (h : http_state) : http_state :=
  mkHs (handle h) (file h) (left h) (retries h) (hdrs h) pos i (req h) (post_uri h) (post_content h)
    (post_content_len h) (post_content_len_left h) (post_response_buf h).
Definition set_req (r : list (list Z)) (h : http_state) : http_state :=
  mkHs (handle h) (file h) (left h) (retries h) (hdrs h) (hdr_pos h) (hdr_index h) r (post_uri h) (post_content h)
    (post_content_len h) (post_content_len_left h) (post_response_buf h).
Definition set_post (uri : list Z) (c : block) (n : Z) (h : http_state) : http_state :=
  mkHs (handle h) (file h) (left h) (retries h) (hdrs h) (hdr_pos h) (hdr_index h) (req h) uri c n
    (post_content_len_left h) (post_response_buf h).
Definition set_content (c : block) (h : http_state) : http_state :=
  mkHs (handle h) (file h) (left h) (retries h) (hdrs h) (hdr_pos h) (hdr_index h) (req h) (post_uri h) c
    (post_content_len h) (post_content_len_left h) (post_response_buf h).
Definition set_content_len (n m : Z) (h : http_state) : http_state :=
  mkHs (handle h) (file h) (left h) (retries h) (hdrs h) (hdr_pos h) (hdr_index h) (req h) (post_uri h) (post_content h)
    n m (post_response_buf h).
Definition set_response (b : option (list Z)) (h : http_state) : http_state :=
  mkHs (handle h) (file h) (left h) (retries h) (hdrs h) (hdr_pos h) (hdr_index h) (req h) (post_uri h) (post_content h)
    (post_content_len h) (post_content_len_left h) b.

(** ** Strings of the headers *)

Definition cr_lf : list Z := [13; 10].
Definition rom (s : list Z) : option ptr := Some (mkPtr Rom (literal s)).

Definition HTTP_HDR_OK : list Z := chars "HTTP/1.0 200 OK" ++ cr_lf.
Definition HTTP_HDR_NOT_FOUND : list Z := chars "HTTP/1.0 404 File not found" ++ cr_lf.
Definition HTTP_HDR_BAD_REQUEST : list Z := chars "HTTP/1.0 400 Bad Request" ++ cr_lf.
Definition HTTP_HDR_NOT_IMPL : list Z := chars "HTTP/1.0 501 Not Implemented" ++ cr_lf.
Definition HTTP_HDR_CONTENT_LENGTH : list Z := chars "Content-Length: ".
Definition HTTP_HDR_CONN_CLOSE : list Z := chars "Connection: Close" ++ cr_lf ++ cr_lf.
Definition DEFAULT_404_HTML : list Z :=
  cr_lf ++ chars "<html><body><h2>404: The requested file cannot be found.</h2></body></html>" ++ cr_lf.
Definition HTTP_CONTENT_TYPE (t : string) : list Z := chars "Content-Type: " ++ chars t ++ cr_lf ++ cr_lf.

(** ** TCP *)

(** [tcp_write src bytes copy]: [altcp_write] of bytes of [src], copied or by reference. *)
Class Tcp (T : Type) := {
  sndbuf : T → Z;
  mss : T → Z;
  sndqueuelen : T → Z;
  tcp_write : source → list Z → bool → T → Z * T;
  tcp_recved : Z → T → T;
  tcp_close : T → Z * T;
  TCP_SND_QUEUELEN : Z;
}.

(** ** Functions of lwIP on strings *)

(** [lwip_strnstr l token n]: the offset of [token] in the first [n] bytes of [l]; [ip4addr_aton]: nothing when the text
    is no address; [lwip_stricmp]: whether two strings are the same but for the case. *)
Class Lwip := {
  lwip_itoa : Z → Z → list Z;
  lwip_strnstr : list Z → list Z → Z → option Z;
  lwip_stricmp : list Z → list Z → bool;
  ip4addr_aton : list Z → option Z;
  HTTPD_SERVER_AGENT : list Z;
}.

(** ** Content types *)

Definition HTTP_HDR_APP : list Z := HTTP_CONTENT_TYPE "application/octet-stream".
Definition HTTP_HDR_DEFAULT_TYPE : list Z := HTTP_CONTENT_TYPE "text/plain".
Definition HTTP_HDR_SSI : list Z :=
  chars "Content-Type: text/html" ++ cr_lf ++ chars "Expires: Fri, 10 Apr 2008 14:00:00 GMT" ++ cr_lf ++
  chars "Pragma: no-cache" ++ cr_lf ++ cr_lf.
Definition HTTP_HDR_SVGZ : list Z :=
  chars "Content-Type: image/svg+xml" ++ cr_lf ++ chars "Content-Encoding: gzip" ++ cr_lf ++ cr_lf.

Definition g_psHTTPHeaders : list (list Z * list Z) :=
  map (λ '(e, t), (chars e, t))
    [("html"%string, HTTP_CONTENT_TYPE "text/html"); ("htm"%string, HTTP_CONTENT_TYPE "text/html");
     ("shtml"%string, HTTP_HDR_SSI); ("shtm"%string, HTTP_HDR_SSI); ("ssi"%string, HTTP_HDR_SSI);
     ("gif"%string, HTTP_CONTENT_TYPE "image/gif"); ("png"%string, HTTP_CONTENT_TYPE "image/png");
     ("jpg"%string, HTTP_CONTENT_TYPE "image/jpeg"); ("bmp"%string, HTTP_CONTENT_TYPE "image/bmp");
     ("ico"%string, HTTP_CONTENT_TYPE "image/x-icon"); ("class"%string, HTTP_HDR_APP); ("cls"%string, HTTP_HDR_APP);
     ("js"%string, HTTP_CONTENT_TYPE "application/javascript"); ("ram"%string, HTTP_CONTENT_TYPE "application/javascript");
     ("css"%string, HTTP_CONTENT_TYPE "text/css"); ("swf"%string, HTTP_CONTENT_TYPE "application/x-shockwave-flash");
     ("xml"%string, HTTP_CONTENT_TYPE "text/xml"); ("xsl"%string, HTTP_CONTENT_TYPE "text/xml");
     ("pdf"%string, HTTP_CONTENT_TYPE "application/pdf"); ("json"%string, HTTP_CONTENT_TYPE "application/json");
     ("csv"%string, HTTP_CONTENT_TYPE "text/csv"); ("tsv"%string, HTTP_CONTENT_TYPE "text/tsv");
     ("svg"%string, HTTP_CONTENT_TYPE "image/svg+xml"); ("svgz"%string, HTTP_HDR_SVGZ)].

(** The type of the first extension of the table that is the same, if there is one. *)
Fixpoint find_extension `{Lwip} (table : list (list Z * list Z)) (ext : list Z) : option (list Z) :=
  match table with
  | [] => None
  | (e, t) :: table => if lwip_stricmp e ext then Some t else find_extension table ext
  end.

Definition get_content_type_from_extension `{Lwip} (ext : option (list Z)) : option (list Z) :=
  match ext with Some e => find_extension g_psHTTPHeaders e | None => None end.

(** What [current_connection] points to, as a connection sees it: the others have numbers. *)
Inductive connection := Nobody | This | Another (number : nat).

Section Server.
Context {T G : Type} {tcp : Tcp T} {lwip : Lwip}.
(** [httpd_process_post_data]: the answer, if a handler has the address, of the address and the body. *)
Context (httpd_process_post_data : list Z → list Z → G → outcome (option (list Z) * G)).

Record server := mkServer { pcb : T; hs : option http_state; current_connection : connection; glob : G }.
Definition is_current (s : server) : bool := match current_connection s with This => true | _ => false end.

Definition this : ST server http_state := λ s, match hs s with Some h => Ok (h, s) | None => Ub end.
Definition upd (f : http_state → http_state) : ST server unit := λ s,
  match hs s with Some h => Ok (tt, mkServer (pcb s) (Some (f h)) (current_connection s) (glob s)) | None => Ub end.
Definition call {A} (f : T → A * T) : ST server A := λ s,
  let '(a, t) := f (pcb s) in Ok (a, mkServer t (hs s) (current_connection s) (glob s)).
Definition tcp_state : ST server T := gets pcb.
Definition set_current (c : connection) : ST server unit := modify (λ s, mkServer (pcb s) (hs s) c (glob s)).

(** ** Sending *)

Fixpoint write_loop (fuel : nat) (src : source) (l : list Z) (len : Z) (copy : bool) : ST server (Z * Z) :=
  match fuel with
  | O => out_of_fuel
  | S fuel =>
      b ← lift (rd_n l 0 len);
      err ← call (tcp_write src b copy);
      if err =? ERR_MEM then
        t ← tcp_state;
        let len := if (sndbuf t =? 0) || (TCP_SND_QUEUELEN <=? sndqueuelen t) then 1 else len / 2 in
        if 1 <? len then write_loop fuel src l len copy else mret (err, len)
      else mret (err, len)
  end.

(** The error and the length written. *)
Definition http_write (src : source) (l : list Z) (length : Z) (copy : bool) : ST server (Z * Z) :=
  if length =? 0 then mret (ERR_OK, 0)
  else
    t ← tcp_state;
    let len := Z.min (Z.min length (u16 (sndbuf t))) (u16 (2 * mss t)) in
    '(err, len) ← write_loop 17 src l len copy;
    mret (err, if err =? ERR_OK then len else 0).

(** *** Closing *)

Definition httpd_post_response (body extension : list Z) : ST server unit :=
  let type := get_content_type_from_extension (Some extension) in
  cur ← gets is_current;
  (if cur : bool then
     upd (set_hdr HDR_STRINGS_IDX_HTTP_STATUS (rom HTTP_HDR_OK));;
     upd (set_hdr HDR_STRINGS_IDX_CONTENT_LEN_KEEPALIVE (rom HTTP_HDR_CONTENT_LENGTH));;
     content_type ← lift (match type with Some t => Ok t | None => Ub end);
     upd (set_hdr HDR_STRINGS_IDX_CONTENT_TYPE (rom content_type));;
     let n := u16 (zlen body) in
     upd (set_file (Some (mkPtr Heap body)) n);;
     upd (set_response (Some body));;
     let digits := lwip_itoa LWIP_HTTPD_MAX_CONTENT_LEN_SIZE n in
     if zlen digits <=? LWIP_HTTPD_MAX_CONTENT_LEN_SIZE - LWIP_HTTPD_MAX_CONTENT_LEN_OFFSET then
       upd (set_hdr HDR_STRINGS_IDX_CONTENT_LEN_NR (Some (mkPtr Member (digits ++ cr_lf ++ [0]))))
     else mret tt
   else
     upd (set_hdr HDR_STRINGS_IDX_HTTP_STATUS (rom HTTP_HDR_BAD_REQUEST));;
     upd (set_hdr HDR_STRINGS_IDX_CONTENT_LEN_KEEPALIVE (rom HTTP_HDR_CONN_CLOSE)));;
  upd (set_hdr_at 0 0).

(** [delete[]] of a block, and the bytes a handler finds in it. *)
Definition delete (b : block) : outcome block := match b with Null => Ok Null | Block _ => Ok Freed | Freed => Ub end.
Definition content (b : block) (n : Z) : outcome (list Z) :=
  match b with Block l => rd_n l 0 n | Null => if n =? 0 then Ok [] else Ub | Freed => Ub end.

(** The handler of the address answers; an address without a handler changes nothing. *)
Definition process_post_data : ST server unit :=
  h ← this;
  body ← lift (content (post_content h) (post_content_len h));
  g ← gets glob;
  '(answer, g) ← lift (httpd_process_post_data (post_uri h) body g);
  modify (λ s, mkServer (pcb s) (hs s) (current_connection s) g);;
  match answer with
  | Some text => httpd_post_response text (chars "json")
  | None => mret tt
  end.

Definition httpd_post_finished : ST server unit :=
  process_post_data;;
  h ← this;
  b ← lift (delete (post_content h));
  upd (set_content b);;
  set_current Nobody.

(** [http_state_eof] and the end of the [http_state]. *)
Definition http_state_free : ST server unit :=
  this;; modify (λ s, mkServer (pcb s) None (current_connection s) (glob s)).

(** Afterwards the callbacks get no [http_state] any more. *)
Definition http_close_conn : ST server Z :=
  o ← gets hs;
  match o with
  | Some h => if negb (post_content_len_left h =? 0) then httpd_post_finished else mret tt
  | None => mret tt
  end;;
  match o with Some _ => http_state_free | None => mret tt end;;
  call tcp_close.

Definition http_eof : ST server unit := http_close_conn;; mret tt.

(** 0: the end was reached and the connection is closed; otherwise an assertion of lwIP fails. *)
Definition http_check_eof : ST server Z :=
  h ← this;
  match handle h with
  | None => http_eof;; mret 0
  | Some f => if fs_bytes_left f <=? 0 then http_eof;; mret 0 else lift Ub
  end.

(** *** Headers *)

Definition get_http_content_length : ST server unit :=
  h ← this;
  match handle h with
  | Some f =>
      if negb (Z.land (f_flags f) FS_FILE_FLAGS_HEADER_PERSISTENT =? 0) then
        let digits := lwip_itoa LWIP_HTTPD_MAX_CONTENT_LEN_SIZE (f_len f) in
        if zlen digits <=? LWIP_HTTPD_MAX_CONTENT_LEN_SIZE - LWIP_HTTPD_MAX_CONTENT_LEN_OFFSET then
          upd (set_hdr HDR_STRINGS_IDX_CONTENT_LEN_NR (Some (mkPtr Member (digits ++ cr_lf ++ [0]))));;
          upd (set_hdr HDR_STRINGS_IDX_CONTENT_LEN_KEEPALIVE (rom HTTP_HDR_CONTENT_LENGTH))
        else mret tt
      else mret tt
  | None => mret tt
  end.

(** The next header from [i] on that is not null. *)
Fixpoint skip_null (n : nat) (i : Z) (l : list (option ptr)) : Z :=
  match n with
  | O => i
  | S n => if i <? NUM_FILE_HDR_STRINGS then
             match nth (Z.to_nat i) l None with None => skip_null n (i + 1) l | Some _ => i end
           else i
  end.

Fixpoint hdr_loop (fuel : nat) (len sendlen data_to_send : Z) : ST server Z :=
  match fuel with
  | O => out_of_fuel
  | S fuel =>
      h ← this;
      if negb (len =? 0) && (hdr_index h <? NUM_FILE_HDR_STRINGS) && negb (sendlen =? 0) then
        p ← lift (match nth (Z.to_nat (hdr_index h)) (hdrs h) None with Some p => Ok p | None => Ub end);
        str ← lift (c_str (p_rest p));
        let hdrlen := u16 (zlen str) in
        let old_sendlen := if len <? hdrlen - hdr_pos h then len else u16 (hdrlen - hdr_pos h) in
        '(err, sendlen) ← http_write (p_src p) (drop (Z.to_nat (hdr_pos h)) (p_rest p)) old_sendlen
            (hdr_index h =? Z.of_nat HDR_STRINGS_IDX_CONTENT_LEN_NR);
        let data_to_send := if (err =? ERR_OK) && negb (old_sendlen =? sendlen) then HTTP_DATA_TO_SEND_CONTINUE else data_to_send in
        let sendlen := if err =? ERR_OK then sendlen else 0 in
        let pos := u16 (hdr_pos h + sendlen) in
        (if pos =? hdrlen then upd (set_hdr_at (skip_null 6 (hdr_index h + 1) (hdrs h)) 0)
         else upd (set_hdr_at (hdr_index h) pos));;
        hdr_loop fuel (u16 (len - sendlen)) sendlen data_to_send
      else mret data_to_send
  end.

(** Every turn of the loop but the last sends a byte. *)
Definition hdr_fuel (h : http_state) : nat :=
  S (S (sum_list (map (λ o, match o with Some p => length (p_rest p) | None => 0%nat end) (hdrs h)))).

Definition http_send_headers : ST server Z :=
  h ← this;
  (match nth HDR_STRINGS_IDX_CONTENT_LEN_KEEPALIVE (hdrs h) None with None => get_http_content_length | Some _ => mret tt end);;
  t ← tcp_state;
  let len := u16 (sndbuf t) in
  h ← this;
  data_to_send ← hdr_loop (hdr_fuel h) len len HTTP_NO_DATA_TO_SEND;
  h ← this;
  if (NUM_FILE_HDR_STRINGS <=? hdr_index h) && (match file h with None => true | Some _ => false end) then
    more ← http_check_eof;
    if more =? 0 then mret HTTP_DATA_TO_SEND_FREED else mret HTTP_DATA_TO_SEND_BREAK
  else if (hdr_index h <? NUM_FILE_HDR_STRINGS) || (match file h with None => true | Some _ => false end) then
    mret HTTP_DATA_TO_SEND_BREAK
  else mret data_to_send.

(** *** Data *)

Definition http_send_data_nonssi : ST server Z :=
  h ← this;
  p ← lift (match file h with Some p => Ok p | None => Ub end);
  '(err, len) ← http_write (p_src p) (p_rest p) (Z.min (left h) 0xffff) false;
  if err =? ERR_OK then
    upd (set_file (Some (mkPtr (p_src p) (drop (Z.to_nat len) (p_rest p)))) (left h - len));; mret 1
  else mret 0.

(** [http_send] once the headers are written, or none are left. *)
Definition http_send_body : ST server Z :=
  h ← this;
  more ← (if left h =? 0 then http_check_eof else mret 1);
  if more =? 0 then mret 0
  else
    data_to_send ← http_send_data_nonssi;
    h ← this;
    if left h =? 0 then
      f ← lift (match handle h with Some f => Ok f | None => Ub end);
      if fs_bytes_left f <=? 0 then http_eof;; mret 0 else mret data_to_send
    else mret data_to_send.

Definition http_send : ST server Z :=
  o ← gets hs;
  match o with
  | None => mret 0
  | Some h =>
      if hdr_index h <? NUM_FILE_HDR_STRINGS then
        data_to_send ← http_send_headers;
        if data_to_send =? HTTP_DATA_TO_SEND_FREED then mret data_to_send
        else
          h ← this;
          if negb (data_to_send =? HTTP_DATA_TO_SEND_CONTINUE) && (hdr_index h <? NUM_FILE_HDR_STRINGS)
          then mret data_to_send else http_send_body
      else http_send_body
  end.

(** ** Callbacks of TCP *)

Definition http_sent : ST server unit :=
  o ← gets hs;
  match o with
  | None => mret tt
  | Some _ => upd (set_retries 0);; http_send;; mret tt
  end.

Definition http_err : ST server unit :=
  o ← gets hs;
  match o with None => mret tt | Some _ => http_state_free end.

Definition http_poll : ST server unit :=
  o ← gets hs;
  match o with
  | None => http_close_conn;; mret tt
  | Some h =>
      upd (set_retries (u8 (retries h + 1)));;
      if u8 (retries h + 1) =? HTTPD_MAX_RETRIES then http_close_conn;; mret tt
      else match handle h with Some _ => http_send;; mret tt | None => mret tt end
  end.
End Server.
