(* ===== verification/HttpLwip.v ===== *)
(** What the HTTP server relies on of lwIP: laws of TCP's interface and of the functions on strings, with an
    instance of each that obeys them. *)
From S2P Require Import Prelude CString StateMonad Http.

(** ** The laws of TCP *)

(** [segments]: what TCP has taken so far: from where, copied or not, and the bytes. *)
Class TcpOk (T : Type) `{Tcp T} := {
  segments : T → list (source * bool * list Z);
  write_law src l copy t : let '(e, t') := tcp_write src l copy t in
    segments t' = segments t ++ (if e =? ERR_OK then [(src, copy, l)] else []);
  close_law t : let '(_, t') := tcp_close t in segments t' = segments t;
  recved_law n t : segments (tcp_recved n t) = segments t;
  sndbuf_law t : 0 <= sndbuf t < 65536;
  mss_law t : 0 < mss t < 32768;
}.

(** ** The laws of the functions on strings *)

Definition occurs (l token : list Z) (i : Z) : Prop :=
  0 <= i ∧ take (length token) (drop (Z.to_nat i) l) = token.

(** The first place of a token, in the first [n] bytes and before a NUL. *)
Definition first_at (l token : list Z) (n i : Z) : Prop :=
  occurs l token i ∧ i + zlen token <= n ∧ no_nul (take (Z.to_nat i) l) ∧ ∀ j, j < i → ¬ occurs l token j.

Class LwipOk `{Lwip} := {
  itoa_digits size n : LWIP_HTTPD_MAX_CONTENT_LEN_SIZE <= size → 0 <= n < 1000000000 →
    Forall (λ c, 48 <= c < 58) (lwip_itoa size n) ∧ digits_value (lwip_itoa size n) 0 = n ∧ 0 < zlen (lwip_itoa size n) <= 9;
  strnstr_ok l token n i : token ≠ [] → no_nul token → lwip_strnstr l token n = Some i ↔ first_at l token n i;
  stricmp_ok a b : lwip_stricmp a b = true ↔ map tolower a = map tolower b;
  agent_ok : no_nul HTTPD_SERVER_AGENT ∧ zlen HTTPD_SERVER_AGENT < 1000;
}.

Lemma itoa_ok `{LwipOk} n : 0 <= n < 1000000000 →
  digits_value (lwip_itoa LWIP_HTTPD_MAX_CONTENT_LEN_SIZE n) 0 = n ∧ no_nul (lwip_itoa LWIP_HTTPD_MAX_CONTENT_LEN_SIZE n) ∧
  0 < zlen (lwip_itoa LWIP_HTTPD_MAX_CONTENT_LEN_SIZE n) <= 9.
Proof.
  intros Hn. destruct (itoa_digits LWIP_HTTPD_MAX_CONTENT_LEN_SIZE n) as (Hd&Hv&Hl); [done|done|].
  split; [done|]. split; [|done]. eapply Forall_impl; [exact Hd|]. cbn. lia.
Qed.

(** ** A TCP *)

(** A send buffer of [room] bytes, and what was put in it. *)
Record wire := mkWire { room : Z; out : list (source * bool * list Z) }.

#[export] Instance wire_tcp : Tcp wire := {|
  sndbuf w := u16 (room w);
  mss w := 3;
  sndqueuelen w := 0;
  tcp_write src l copy w := if zlen l <=? u16 (room w) then (ERR_OK, mkWire (room w - zlen l) (out w ++ [(src, copy, l)])) else (ERR_MEM, w);
  tcp_recved _ w := w;
  tcp_close w := (ERR_OK, w);
  TCP_SND_QUEUELEN := 8 |}.

#[export] Instance wire_tcp_ok : TcpOk wire.
Proof.
  refine {| segments := out |}; intros.
  - cbn [tcp_write wire_tcp]. destruct (_ <=? _); [done|]. cbn. by rewrite app_nil_r.
  - done.
  - done.
  - apply u16_range.
  - cbn. lia.
Defined.

(** ** Functions on strings *)

Fixpoint digits (fuel : nat) (n : Z) (acc : list Z) : list Z :=
  match fuel with
  | O => acc
  | S fuel => let acc := 48 + n mod 10 :: acc in if n <? 10 then acc else digits fuel (n / 10) acc
  end.

Fixpoint find_token (l token : list Z) (n i : Z) : option Z :=
  if n <? i + zlen token then None
  else if is_prefix token l then Some i
  else match l with c :: l => if c =? 0 then None else find_token l token n (i + 1) | [] => None end.

#[export] Instance plain_lwip : Lwip := {|
  lwip_itoa _ n := digits 9 n [];
  lwip_strnstr l token n := find_token l token n 0;
  lwip_stricmp a b := bool_decide (map tolower a = map tolower b);
  ip4addr_aton _ := None;
  HTTPD_SERVER_AGENT := chars "lwIP";
|}.

Lemma digits_spec fuel n acc : 0 <= n < 10 ^ Z.of_nat fuel → (0 < fuel)%nat →
  ∃ ds, digits fuel n acc = ds ++ acc ∧ (∀ r a, digits_value (ds ++ r) a = digits_value r (a * 10 ^ zlen ds + n)) ∧
    Forall (λ c, 48 <= c < 58) ds ∧ 0 < zlen ds <= Z.of_nat fuel.
Proof.
  revert n acc. induction fuel as [|fuel IH]; intros n acc Hn Hf; [lia|]. cbn [digits].
  rewrite Nat2Z.inj_succ, Z.pow_succ_r in Hn by lia.
  assert (Hd : 48 <= 48 + n mod 10 < 58) by (pose proof (Z.mod_pos_bound n 10); lia).
  assert (Hv : ∀ r a, digits_value ((48 + n mod 10) :: r) a = digits_value r (a * 10 + n mod 10)).
  { intros r a. cbn [digits_value]. unfold is_digit. rewrite !(proj2 (Z.leb_le _ _)) by lia. cbn [andb]. f_equal. lia. }
  destruct (Z.ltb_spec n 10).
  - exists [48 + n mod 10]. split; [done|]. split; [|split; [by constructor|cbn; lia]].
    intros r a. cbn [app]. rewrite Hv. f_equal. rewrite Z.mod_small by lia. cbn. lia.
  - destruct fuel as [|fuel]; [cbn in Hn; lia|].
    destruct (IH (n / 10) (48 + n mod 10 :: acc)) as (ds&E&Hds&Hall&Hl); [zdiv|lia|].
    exists (ds ++ [48 + n mod 10]). rewrite E, <- app_assoc. split; [done|]. split; [|split; [by apply Forall_app; split; [|constructor]|lens]].
    intros r a. rewrite <- app_assoc. cbn [app]. rewrite Hds, Hv. f_equal.
    assert (E' : zlen (ds ++ [48 + n mod 10]) = Z.succ (zlen ds)) by lens. rewrite E', Z.pow_succ_r by lia.
    pose proof (Z.div_mod n 10). lia.
Qed.

Lemma occurs_prefix l token : occurs l token 0 ↔ is_prefix token l = true.
Proof.
  rewrite is_prefix_spec. unfold occurs. rewrite drop_0. split.
  - intros [_ E]. exists (drop (length token) l). by rewrite <- E at 1; rewrite take_drop.
  - intros [r ->]. split; [lia|]. by rewrite take_app_length.
Qed.

Lemma occurs_cons c l token i : 0 < i → occurs (c :: l) token i ↔ occurs l token (i - 1).
Proof.
  intros Hi. unfold occurs. replace (Z.to_nat i) with (S (Z.to_nat (i - 1))) by lia. cbn [drop]. split; intros [? ?]; split; auto; lia.
Qed.

Lemma occurs_nonneg l token i : i < 0 → ¬ occurs l token i.
Proof. intros ? [? _]. lia. Qed.

Lemma first_at_cons c l token n i : ¬ occurs (c :: l) token 0 → c ≠ 0 →
  first_at (c :: l) token n i ↔ first_at l token (n - 1) (i - 1).
Proof.
  intros H0 Hc. unfold first_at. split.
  - intros (Ho&Hn&Hz&Hf). assert (0 < i) by (destruct (Z.eq_dec i 0) as [->|]; [done|destruct Ho; lia]).
    rewrite occurs_cons in Ho by done. split; [done|]. split; [lia|]. split.
    + replace (Z.to_nat i) with (S (Z.to_nat (i - 1))) in Hz by lia. by inversion Hz.
    + intros j Hj Ho'. destruct (Z.ltb_spec j 0); [by eapply occurs_nonneg|].
      apply (Hf (j + 1)); [lia|]. rewrite occurs_cons by lia. by replace (j + 1 - 1) with j by lia.
  - intros (Ho&Hn&Hz&Hf). assert (0 < i) by (destruct Ho; lia). rewrite occurs_cons by done.
    split; [done|]. split; [lia|]. split.
    + replace (Z.to_nat i) with (S (Z.to_nat (i - 1))) by lia. by constructor.
    + intros j Hj Ho'. destruct (Z.eq_dec j 0) as [->|]; [done|]. destruct (Z.ltb_spec j 0); [by eapply occurs_nonneg|].
      rewrite occurs_cons in Ho' by lia. by apply (Hf (j - 1)); [lia|].
Qed.

Lemma find_token_spec l token n k i : token ≠ [] → find_token l token n k = Some i ↔ first_at l token (n - k) (i - k).
Proof.
  intros Ht. revert k i. induction l as [|c l IH]; intros k i; cbn [find_token].
  all: destruct (Z.ltb_spec n (k + zlen token)) as [Hn|Hn];
    [split; [done|intros ([? _]&?&_); lia]|].
  - destruct token as [|t token]; [done|]. cbn. split; [done|]. intros ([_ E]&_). by rewrite drop_nil in E.
  - destruct (is_prefix token (c :: l)) eqn:E; rewrite <- ?not_true_iff_false, <- occurs_prefix in E.
    + split.
      * intros [= <-]. replace (k - k) with 0 by lia. split; [done|]. split; [lia|]. split; [constructor|]. intros j Hj. by apply occurs_nonneg.
      * intros ([Hi _]&_&_&Hf). destruct (Z.eq_dec (i - k) 0); [f_equal; lia|]. exfalso. apply (Hf 0); [lia|done].
    + destruct (Z.eqb_spec c 0) as [->|Hc].
      * split; [done|]. intros ([Hi Ho]&_&Hz&_). destruct (Z.eq_dec (i - k) 0) as [E0|]; [rewrite E0 in Ho; by destruct E|].
        replace (Z.to_nat (i - k)) with (S (Z.to_nat (i - k - 1))) in Hz by lia. by inversion Hz.
      * rewrite first_at_cons by done. rewrite IH. by replace (n - (k + 1)) with (n - k - 1) by lia; replace (i - (k + 1)) with (i - k - 1) by lia.
Qed.

#[export] Instance plain_lwip_ok : LwipOk.
Proof.
  split.
  - intros size n _ Hn. cbn [lwip_itoa plain_lwip]. destruct (digits_spec 9 n []) as (ds&->&Hv&Hall&Hl); [done|lia|].
    rewrite app_nil_r. specialize (Hv [] 0). rewrite app_nil_r in Hv. rewrite Hv.
    split; [done|]. split; [cbn; lia|done].
  - intros l token n i Ht _. cbn [lwip_strnstr plain_lwip]. rewrite find_token_spec by done. by rewrite !Z.sub_0_r.
  - intros a b. cbn [lwip_stricmp plain_lwip]. apply bool_decide_eq_true.
  - cbn [HTTPD_SERVER_AGENT plain_lwip]. split; [|done]. apply (bool_decide_unpack _); vm_compute; exact I.
Qed.

(** ** First occurrences *)

(** A token is found where the text before it is known not to hold it. *)
Lemma first_at_app l token r n : no_nul l → (∀ j, j < zlen l → ¬ occurs (l ++ token ++ r) token j) → zlen l + zlen token <= n →
  first_at (l ++ token ++ r) token n (zlen l).
Proof.
  intros Hl Hj Hn. split; [split; [lia|]|split; [done|split; [|done]]].
  - rewrite drop_app_length' by lia. by rewrite take_app_length.
  - rewrite take_app_length' by lia. done.
Qed.

Lemma first_at_unique l token n i j : first_at l token n i → first_at l token n j → i = j.
Proof.
  intros (Hi&_&_&Hfi) (Hj&_&_&Hfj). destruct (Z.lt_trichotomy i j) as [?|[?|?]]; [|done|]; exfalso; [by apply (Hfj i)|by apply (Hfi j)].
Qed.
