(* ===== verification/HttpSend.v ===== *)
(** What the HTTP server sends: every response reaches TCP byte for byte and in order, however little of
    it TCP takes at a time, and then the connection is closed. *)
From S2P Require Import Prelude CString StateMonad Http HttpLwip.

Section Sending.
Context {T G : Type} {tcp : Tcp T} {tcp_ok : TcpOk T} {lwip : Lwip}.
Context (process : list Z → list Z → G → outcome (option (list Z) * G)).

Local Abbreviation server := (server (T := T) (G := G)).

Definition bytes (t : T) : list Z := concat (map snd (segments t)).

(** TCP takes what fits its send buffer, which has room. *)
Definition ready (t : T) : Prop :=
  0 < sndbuf t ∧ ∀ src l copy, 0 < zlen l <= sndbuf t → (tcp_write src l copy t).1 = ERR_OK.

(** Only the control block differs. *)
Definition same_hs (s s' : server) : Prop := hs s' = hs s ∧ current_connection s' = current_connection s ∧ glob s' = glob s.

Lemma same_hs_trans s1 s2 s3 : same_hs s1 s2 → same_hs s2 s3 → same_hs s1 s3.
Proof. intros (?&?&?) (?&?&?). unfold same_hs. by rewrite <- H, <- H0, <- H1. Qed.

(** ** [http_write] *)

Lemma wp_call_write src b copy (s : server) (Q : Z → server → Prop) :
  (∀ e s', same_hs s s' → bytes (pcb s') = bytes (pcb s) ++ (if e =? ERR_OK then b else []) →
     e = (tcp_write src b copy (pcb s)).1 → Q e s') → wp (call (tcp_write src b copy)) Q s.
Proof.
  intros HQ. unfold wp, call. pose proof (write_law src b copy (pcb s)) as H.
  destruct (tcp_write src b copy (pcb s)) as [e t]. apply HQ; [done| |done]. cbn [pcb].
  unfold bytes. rewrite H, map_app, concat_app. f_equal. destruct (e =? ERR_OK); cbn; [apply app_nil_r|done].
Qed.

Lemma rd_n_take l n : 0 <= n <= zlen l → rd_n l 0 n = Ok (take (Z.to_nat n) l).
Proof.
  intros H. unfold rd_n. dec. by rewrite drop_0.
Qed.

(** What a write promises of the error, the count and the state. *)
Definition written (s : server) (l : list Z) (len : Z) (r : Z * Z) (s' : server) : Prop :=
  same_hs s s' ∧ 0 <= r.2 ∧ (r.1 = ERR_OK → r.2 <= len) ∧
  bytes (pcb s') = bytes (pcb s) ++ (if r.1 =? ERR_OK then take (Z.to_nat r.2) l else []).

Lemma written_once s l len e s1 : same_hs s s1 → 0 <= len →
  bytes (pcb s1) = bytes (pcb s) ++ (if e =? ERR_OK then take (Z.to_nat len) l else []) → written s l len (e, len) s1.
Proof. intros Hs Hl Hb. repeat split; try apply Hs; cbn [fst snd]; try done; lia. Qed.

Lemma written_failed s l len n s1 : same_hs s s1 → 0 <= n → bytes (pcb s1) = bytes (pcb s) → written s l len (ERR_MEM, n) s1.
Proof. intros Hs Hl Hb. repeat split; try apply Hs; cbn [fst snd]; try done. by rewrite app_nil_r. Qed.

Lemma written_after s s1 l len len' r s' : same_hs s s1 → bytes (pcb s1) = bytes (pcb s) → len' <= len →
  written s1 l len' r s' → written s l len r s'.
Proof.
  intros Hs Hb Hl (Hs'&H0&H&Hb'). repeat split; try apply (same_hs_trans s s1 s' Hs Hs'); try done.
  - intros E. specialize (H E). lia.
  - by rewrite Hb', Hb.
Qed.

Lemma write_loop_S fuel src l len copy : write_loop (T := T) (G := G) (S fuel) src l len copy =
  (b ← lift (rd_n l 0 len);
   err ← call (tcp_write src b copy);
   if err =? ERR_MEM then
     t ← tcp_state;
     let len := if (sndbuf t =? 0) || (TCP_SND_QUEUELEN <=? sndqueuelen t) then 1 else len / 2 in
     if 1 <? len then write_loop fuel src l len copy else mret (err, len)
   else mret (err, len)).
Proof. done. Qed.

Lemma write_loop_wp fuel src l len copy (s : server) : 0 <= len <= zlen l → len < 2 ^ Z.of_nat (S fuel) →
  wp (write_loop (S fuel) src l len copy)
    (λ r s', written s l len r s' ∧ (ready (pcb s) → 0 < len <= sndbuf (pcb s) → r = (ERR_OK, len))) s.
Proof.
  revert len s. induction fuel as [|fuel IH]; intros len s Hl Hf.
  all: rewrite write_loop_S; apply wp_bind, wp_lift with (take (Z.to_nat len) l); [apply rd_n_take; lia|];
    apply wp_bind, wp_call_write; intros e s1 Hs He Ee;
    assert (Hr : ready (pcb s) → 0 < len <= sndbuf (pcb s) → e = ERR_OK)
      by (intros [_ Hr] Hn; rewrite Ee; apply Hr; lens);
    destruct (Z.eqb_spec e ERR_MEM) as [->|Hm];
    [|apply wp_ret; split; [apply written_once; [done|lia|done]|by intros Hy Hn; rewrite Hr]].
  all: apply wp_bind, wp_gets; cbv zeta; set (b := (_ || _)); change (ERR_MEM =? ERR_OK) with false in He;
    cbv iota in He; rewrite app_nil_r in He.
  all: destruct (1 <? (if b then 1 else len / 2)) eqn:Hlt;
    [|apply wp_ret; split; [apply written_failed; [done|destruct b; zdiv|done]|by intros Hy Hn; specialize (Hr Hy Hn)]].
  all: apply Z.ltb_lt in Hlt; destruct b; [lia|].
  - change (2 ^ Z.of_nat 1) with 2 in Hf. zdiv.
  - rewrite Nat2Z.inj_succ, Z.pow_succ_r in Hf by lia.
    eapply wp_mono; [apply IH; [zdiv|apply Z.div_lt_upper_bound; lia]|]. intros r s2 [Hw _].
    split; [apply (written_after s s1 l len (len / 2)); [done..|zdiv|done] | intros Hy Hn; by specialize (Hr Hy Hn)].
Qed.

Lemma http_write_wp src l len copy (s : server) : 0 <= len <= zlen l →
  wp (http_write src l len copy) (λ r s', written s l len r s' ∧ r.2 <= len ∧ (r.1 ≠ ERR_OK → r.2 = 0) ∧
    (ready (pcb s) → r.1 = ERR_OK ∧ (0 < len → 0 < r.2))) s.
Proof.
  intros Hl. unfold http_write. destruct (Z.eqb_spec len 0) as [->|Hn].
  { apply wp_ret. repeat split; cbn; try done; try lia. by rewrite app_nil_r. }
  apply wp_bind, wp_gets. pose proof (sndbuf_law (pcb s)). pose proof (mss_law (pcb s)).
  rewrite !u16_id by (red; lia). set (m := Z.min _ _).
  apply wp_bind. eapply wp_mono; [apply write_loop_wp; [lia|change (2 ^ Z.of_nat 17) with 131072; lia]|].
  intros [e n] s' [(Hs&Hn0&Hle&Hb) Hr]. apply wp_ret. cbn [fst snd] in *.
  assert (Hr' : ready (pcb s) → e = ERR_OK ∧ (0 < len → 0 < (if e =? ERR_OK then n else 0))).
  { intros Hy. assert (0 < sndbuf (pcb s)) by apply Hy. specialize (Hr Hy).
    assert (E : (e, n) = (ERR_OK, m)) by (apply Hr; lia). injection E as -> ->. split; [done|cbn; lia]. }
  destruct (Z.eqb_spec e ERR_OK) as [->|He].
  - repeat split; try apply Hs; cbn [fst snd]; try done; try lia; by apply Hr'.
  - repeat split; try apply Hs; cbn [fst snd]; rewrite ?(proj2 (Z.eqb_neq _ _) He); try done; try lia; by apply Hr'.
Qed.

(** ** What is left to send *)

Definition hstr (o : option ptr) : list Z :=
  match o with Some p => match c_str (p_rest p) with Ok s => s | _ => [] end | None => [] end.
Definition hstrs (l : list (option ptr)) : list Z := concat (map hstr l).

(** A header is a string that is not empty, and so that its length fits [hdrlen]. *)
Definition hdr_ok (o : option ptr) : Prop :=
  match o with Some p => ∃ s, c_str (p_rest p) = Ok s ∧ 0 < zlen s < 65536 | None => True end.

Definition headers_ok (h : http_state) : Prop :=
  length (hdrs h) = 6%nat ∧ Forall hdr_ok (hdrs h) ∧ 0 <= hdr_index h <= 6 ∧
  (hdr_index h < 6 → 0 <= hdr_pos h < zlen (hstr (nth (Z.to_nat (hdr_index h)) (hdrs h) None))).

Definition unsent_headers (h : http_state) : list Z :=
  if hdr_index h <? 6 then drop (Z.to_nat (hdr_pos h)) (hstrs (drop (Z.to_nat (hdr_index h)) (hdrs h))) else [].

Lemma skip_null_spec n i l : 0 <= i <= 6 → 6 - i <= Z.of_nat n →
  i <= skip_null n i l <= 6 ∧ hstrs (drop (Z.to_nat (skip_null n i l)) l) = hstrs (drop (Z.to_nat i) l) ∧
  (skip_null n i l < 6 → nth (Z.to_nat (skip_null n i l)) l None ≠ None).
Proof.
  revert i. induction n as [|n IH]; intros i Hi Hn; cbn [skip_null].
  { split; [lia|]. split; [done|]. lia. }
  unfold NUM_FILE_HDR_STRINGS. destruct (Z.ltb_spec i 6) as [Hlt|Hge]; [|split; [lia|]; split; [done|lia]].
  destruct (nth (Z.to_nat i) l None) as [p|] eqn:E.
  { split; [lia|]. split; [done|]. by rewrite E. }
  destruct (IH (i + 1)) as (Hb&He&Hp); [lia..|]. split; [lia|]. split; [|done]. rewrite He.
  replace (Z.to_nat (i + 1)) with (S (Z.to_nat i)) by lia. clear -E. revert l E.
  induction (Z.to_nat i) as [|k IHk]; intros [|o l] E; cbn in *; try done; [by rewrite E|by apply IHk].
Qed.

(** The header at an index, split off what is to be sent. *)
Lemma hstrs_drop l k p : nth k l None = Some p → hstrs (drop k l) = hstr (Some p) ++ hstrs (drop (S k) l).
Proof. revert l. induction k as [|k IH]; intros [|o l] E; cbn in *; try done; [by rewrite E|by apply IH]. Qed.

(** [n] bytes of the header at [hdr_index] have been written. *)
Definition sent_header (n : Z) (h : http_state) : http_state :=
  if hdr_pos h + n =? zlen (hstr (nth (Z.to_nat (hdr_index h)) (hdrs h) None))
  then set_hdr_at (skip_null 6 (hdr_index h + 1) (hdrs h)) 0 h else set_hdr_at (hdr_index h) (hdr_pos h + n) h.

Lemma sent_header_set n h : ∃ i q, sent_header n h = set_hdr_at i q h.
Proof. unfold sent_header. destruct (_ =? _); eexists _, _; reflexivity. Qed.

Lemma sent_header_spec n h p : headers_ok h → hdr_index h < 6 → nth (Z.to_nat (hdr_index h)) (hdrs h) None = Some p →
  0 <= n <= zlen (hstr (Some p)) - hdr_pos h →
  headers_ok (sent_header n h) ∧
  take (Z.to_nat n) (drop (Z.to_nat (hdr_pos h)) (p_rest p)) ++ unsent_headers (sent_header n h) = unsent_headers h.
Proof.
  intros (Hlen&Hok&Hi&Hpos) Hlt Hp Hn. specialize (Hpos Hlt). rewrite Hp in Hpos.
  assert (Hs : hdr_ok (Some p)).
  { eapply Forall_forall in Hok; [done|]. rewrite list_elem_of_In, <- Hp. apply nth_In. lia. }
  destruct Hs as (s&Hs&Hsl). assert (Es : hstr (Some p) = s) by (cbn; by rewrite Hs). rewrite Es in *.
  destruct (c_str_inv _ _ Hs) as [r Er]. rewrite Er.
  unfold unsent_headers at 2. rewrite (proj2 (Z.ltb_lt _ _)), (hstrs_drop _ _ p Hp), Es by done.
  unfold sent_header. rewrite Hp, Es. rewrite !drop_app_le, take_app_le by lens.
  destruct (Z.eqb_spec (hdr_pos h + n) (zlen s)) as [E|E].
  - destruct (skip_null_spec 6 (hdr_index h + 1) (hdrs h)) as (Hb&He&Hnn); [lia..|].
    split.
    + split; [done|]. split; [done|]. cbn [hdr_index hdr_pos hdrs set_hdr_at]. split; [lia|]. intros Hlt'.
      specialize (Hnn Hlt'). set (k := Z.to_nat (skip_null _ _ _)) in *.
      destruct (nth k (hdrs h) None) as [q|] eqn:Eq; [|done].
      assert (Hq : hdr_ok (Some q)).
      { eapply Forall_forall in Hok; [done|]. rewrite list_elem_of_In, <- Eq. apply nth_In. lia. }
      destruct Hq as (t&Ht&Htl). cbn [hstr]. rewrite Ht. lia.
    + rewrite take_ge by lens. f_equal. unfold unsent_headers. cbn [hdr_index hdr_pos hdrs set_hdr_at].
      rewrite drop_0, He. replace (Z.to_nat (hdr_index h + 1)) with (S (Z.to_nat (hdr_index h))) by lia.
      destruct (Z.ltb_spec (skip_null 6 (hdr_index h + 1) (hdrs h)) 6); [done|].
      replace (skip_null 6 (hdr_index h + 1) (hdrs h)) with 6 in He by lia.
      replace (S (Z.to_nat (hdr_index h))) with (Z.to_nat (hdr_index h + 1)) by lia. rewrite <- He.
      by rewrite drop_ge by (rewrite Hlen; lia).
  - split.
    + split; [done|]. split; [done|]. cbn [hdr_index hdr_pos hdrs set_hdr_at]. split; [lia|]. intros _.
      rewrite Hp, Es. lia.
    + unfold unsent_headers. cbn [hdr_index hdr_pos hdrs set_hdr_at]. rewrite (proj2 (Z.ltb_lt _ _)) by done.
      rewrite (hstrs_drop _ _ p Hp), Es, (drop_app_le s) by lens. rewrite app_assoc. f_equal.
      replace (Z.to_nat (hdr_pos h + n)) with (Z.to_nat (hdr_pos h) + Z.to_nat n)%nat by lia.
      rewrite <- drop_drop. apply take_drop.
Qed.

(** ** [http_send_headers] *)

Lemma wp_this (s : server) h (Q : http_state → server → Prop) : hs s = Some h → Q h s → wp this Q s.
Proof. intros E. unfold wp, this. by rewrite E. Qed.

Lemma wp_upd f (s : server) h (Q : unit → server → Prop) : hs s = Some h →
  Q tt (mkServer (pcb s) (Some (f h)) (current_connection s) (glob s)) → wp (upd f) Q s.
Proof. intros E. unfold wp, upd. by rewrite E. Qed.

Lemma upd_sent_header n h (s : server) (Q : unit → server → Prop) : headers_ok h → hdr_index h < 6 →
  0 <= n <= zlen (hstr (nth (Z.to_nat (hdr_index h)) (hdrs h) None)) - hdr_pos h → hs s = Some h →
  zlen (hstr (nth (Z.to_nat (hdr_index h)) (hdrs h) None)) < 65536 →
  Q tt (mkServer (pcb s) (Some (sent_header n h)) (current_connection s) (glob s)) →
  wp (if u16 (hdr_pos h + n) =? u16 (zlen (hstr (nth (Z.to_nat (hdr_index h)) (hdrs h) None)))
      then upd (set_hdr_at (skip_null 6 (hdr_index h + 1) (hdrs h)) 0)
      else upd (set_hdr_at (hdr_index h) (u16 (hdr_pos h + n)))) Q s.
Proof.
  intros (_&_&_&Hpos) Hlt Hn Hh Hz HQ. specialize (Hpos Hlt). unfold sent_header in HQ.
  rewrite !u16_id by (red; lens). destruct (_ =? _); by eapply wp_upd.
Qed.

(** The state between two turns of the loop of the headers, which began in [s] with [h]. *)
Definition sending_headers (s : server) (h : http_state) (s' : server) (h' : http_state) : Prop :=
  hs s' = Some h' ∧ (∃ i q, h' = set_hdr_at i q h) ∧ headers_ok h' ∧ current_connection s' = current_connection s ∧ glob s' = glob s ∧
  bytes (pcb s') ++ unsent_headers h' = bytes (pcb s) ++ unsent_headers h ∧
  (length (unsent_headers h') <= length (unsent_headers h))%nat.

Lemma sending_headers_trans s h s1 h1 s2 h2 :
  sending_headers s h s1 h1 → sending_headers s1 h1 s2 h2 → sending_headers s h s2 h2.
Proof.
  intros (_&(i&q&->)&_&Hc&Hg&Hb&Hl) (Hh&(j&r&->)&Hok&Hc'&Hg'&Hb'&Hl'). split; [done|]. split; [by exists j, r|].
  repeat split; try apply Hok; try congruence; lia.
Qed.

(** One header, or what TCP takes of it. *)
Lemma hdr_turn len s h p : hs s = Some h → headers_ok h → 0 <= len < 65536 → hdr_index h < 6 →
  nth (Z.to_nat (hdr_index h)) (hdrs h) None = Some p →
  let hdrlen := u16 (zlen (hstr (Some p))) in
  let old := if len <? hdrlen - hdr_pos h then len else u16 (hdrlen - hdr_pos h) in
  wp (http_write (p_src p) (drop (Z.to_nat (hdr_pos h)) (p_rest p)) old (hdr_index h =? 3))
    (λ r s1, ∀ n, n = (if r.1 =? ERR_OK then r.2 else 0) → 0 <= n <= len ∧
       n <= zlen (hstr (Some p)) - hdr_pos h ∧ hs s1 = Some h ∧
       sending_headers s h (mkServer (pcb s1) (Some (sent_header n h)) (current_connection s1) (glob s1)) (sent_header n h) ∧
       length (unsent_headers h) = (Z.to_nat n + length (unsent_headers (sent_header n h)))%nat ∧
       (ready (pcb s) → 0 < len → 0 < n)) s.
Proof.
  intros Hh Hok Hlen Hlt Hp hdrlen old. destruct (Hok) as (_&Hf&_&Hpos). specialize (Hpos Hlt). rewrite Hp in Hpos.
  assert (Hs : hdr_ok (Some p)).
  { eapply Forall_forall in Hf; [done|]. rewrite list_elem_of_In, <- Hp. apply nth_In. destruct Hok. lia. }
  destruct Hs as (str&Hs&Hsl). assert (Es : hstr (Some p) = str) by (cbn; by rewrite Hs).
  rewrite Es in *. assert (Hold : old = Z.min len (zlen str - hdr_pos h)).
  { unfold old, hdrlen. rewrite Es, !u16_id by (red; rewrite ?u16_id by (red; lia); lia).
    destruct (Z.ltb_spec len (zlen str - hdr_pos h)); lia. }
  destruct (c_str_inv _ _ Hs) as [rest Er].
  eapply wp_mono; [apply http_write_wp; rewrite Er; lens|].
  intros [e k] s1 [((Hh1&Hc1&Hg1)&Hk0&_&Hb1) (Hkle&Hkz&Hk)] n ->. cbn [fst snd] in *.
  set (n := if e =? ERR_OK then k else 0). assert (Hn : 0 <= n <= old /\ n = k) by
    (unfold n; destruct (Z.eqb_spec e ERR_OK) as [->|Hne]; [lia|specialize (Hkz Hne); lia]).
  destruct (sent_header_spec n h p) as [Hok' Hbytes]; [done..|rewrite Es; lia|].
  assert (Hlens : length (unsent_headers h) = (Z.to_nat n + length (unsent_headers (sent_header n h)))%nat)
    by (rewrite <- Hbytes, Er; lens).
  repeat split; try lia; try done; try apply Hok'; try congruence.
  - apply sent_header_set.
  - cbn [pcb]. rewrite Hb1, <- app_assoc, <- Hbytes. do 2 f_equal. unfold n. by destruct (e =? ERR_OK).
  - intros Hy Hl. destruct (Hk Hy) as [_ Hk']. lia.
Qed.

Lemma hdr_loop_wp fuel len sendlen d s h : hs s = Some h → headers_ok h → 0 <= len < 65536 →
  ((if decide (sendlen = 0)%Z then 1 else 2 + length (unsent_headers h)) <= fuel)%nat →
  wp (hdr_loop fuel len sendlen d) (λ r s', ∃ h', sending_headers s h s' h' ∧
    (r = d ∨ r = HTTP_DATA_TO_SEND_CONTINUE) ∧
    (ready (pcb s) → 0 < len → sendlen ≠ 0 → hdr_index h < 6 →
     (length (unsent_headers h') < length (unsent_headers h))%nat)) s.
Proof.
  revert len sendlen d s h. induction fuel as [|fuel IH]; intros len sendlen d s h Hh Hok Hlen Hfuel;
    [destruct (decide (sendlen = 0)%Z); lia|].
  cbn [hdr_loop]. apply wp_bind. eapply wp_this; [done|]. unfold NUM_FILE_HDR_STRINGS.
  assert (Hself : sending_headers s h s h).
  { split; [done|]. split; [exists (hdr_index h), (hdr_pos h); by destruct h|]. repeat split; try apply Hok; done. }
  destruct (_ && _) eqn:E.
  2: { apply wp_ret. exists h. split; [done|]. split; [by left|]. intros Hy Hl Hs Hi. exfalso.
       rewrite (proj2 (Z.eqb_neq _ _)), (proj2 (Z.ltb_lt _ _)), (proj2 (Z.eqb_neq _ _)) in E by lia. done. }
  rewrite !andb_true_iff, !negb_true_iff, !Z.eqb_neq, Z.ltb_lt in E. destruct E as [[El Ei] Es].
  destruct (nth (Z.to_nat (hdr_index h)) (hdrs h) None) as [p|] eqn:Ep.
  2: { destruct Hok as (_&_&_&Hpos). specialize (Hpos Ei). rewrite Ep in Hpos. change (zlen (hstr None)) with 0 in Hpos. lia. }
  apply wp_bind, wp_lift with p; [done|].
  pose proof (hdr_turn len s h p Hh Hok Hlen Ei Ep) as Ht. cbv zeta in Ht.
  assert (Hs : hdr_ok (Some p)).
  { destruct Hok as (?&Hf&_). eapply Forall_forall in Hf; [done|]. rewrite list_elem_of_In, <- Ep. apply nth_In. lia. }
  destruct Hs as (str&Hs&Hsl). assert (Estr : hstr (Some p) = str) by (cbn; by rewrite Hs). rewrite Estr in Ht.
  apply wp_bind, wp_lift with str; [done|]. cbv zeta. apply wp_bind. eapply wp_mono; [apply Ht|]. clear Ht.
  intros [e k] s1 H. cbn [fst snd] in H. specialize (H _ eq_refl). set (n := if e =? ERR_OK then k else 0) in *.
  destruct H as (Hn&Hn'&Hh1&Hsend&Hlens&Hprog).
  apply wp_bind. replace (u16 (zlen str)) with (u16 (zlen (hstr (nth (Z.to_nat (hdr_index h)) (hdrs h) None))))
    by (by rewrite Ep, Estr).
  apply upd_sent_header; [done|done|rewrite Ep, Estr; lia|done|rewrite Ep, Estr; lia|].
  rewrite u16_id by (red; lia). set (s2 := mkServer _ _ _ _) in *. set (h2 := sent_header n h) in *.
  eapply wp_mono; [apply (IH _ _ _ s2 h2); [done|apply Hsend|lia|]|].
  { destruct (decide (sendlen = 0)%Z); [done|]. destruct (decide (n = 0)); lia. }
  intros r s' (h'&Hsend'&Hr&_). exists h'. split; [by eapply sending_headers_trans|].
  split; [destruct Hr as [->| ->]; [destruct (_ && _); auto|by right]|].
  intros Hy Hl _ _. specialize (Hprog Hy Hl). destruct Hsend' as (_&_&_&_&_&_&?). lia.
Qed.

(** ** A response *)

Definition body (h : http_state) : list Z :=
  match file h with Some p => take (Z.to_nat (left h)) (p_rest p) | None => [] end.

(** What is still to be sent: the headers from the current position on, and then the data. *)
Definition unsent (h : http_state) : list Z := unsent_headers h ++ body h.

(** Data comes from an open file, which is in memory as a whole; a response without data has no file. *)
Definition source_ok (h : http_state) : Prop :=
  match handle h, file h with
  | Some f, Some p => fs_bytes_left f <= 0 ∧ 0 <= left h <= zlen (p_rest p)
  | None, None => left h = 0
  | _, _ => False
  end.

(** There is no length to be added to the headers. *)
Definition length_known (h : http_state) : Prop :=
  nth HDR_STRINGS_IDX_CONTENT_LEN_KEEPALIVE (hdrs h) None ≠ None ∨
  match handle h with Some f => Z.land (f_flags f) FS_FILE_FLAGS_HEADER_PERSISTENT = 0 | None => True end.

Definition response (h : http_state) : Prop :=
  headers_ok h ∧ (hdr_index h < 6 → length_known h) ∧ source_ok h ∧ post_content_len_left h = 0.

(** The connection is closed and its [http_state] freed. *)
Definition closed (s s' : server) : Prop :=
  hs s' = None ∧ current_connection s' = current_connection s ∧ glob s' = glob s ∧ bytes (pcb s') = bytes (pcb s).

Lemma http_eof_wp s h : hs s = Some h → post_content_len_left h = 0 → wp (http_eof process) (λ _ s', closed s s') s.
Proof.
  intros Hh Hp. unfold http_eof, http_close_conn. do 2 apply wp_bind. apply wp_gets. rewrite Hh, Hp. cbn [negb Z.eqb].
  apply wp_bind, wp_ret, wp_bind. unfold http_state_free. apply wp_bind. eapply wp_this; [done|].
  unfold modify, wp at 1. cbn [pcb current_connection glob]. unfold wp at 1, call. cbn [pcb current_connection glob].
  pose proof (close_law (pcb s)) as H. destruct (tcp_close (pcb s)) as [e t].
  apply wp_ret. repeat split; try done. cbn [pcb]. unfold bytes. by rewrite H.
Qed.

Lemma http_check_eof_wp s h : hs s = Some h → response h →
  wp (http_check_eof process) (λ r s', r = 0 ∧ closed s s') s.
Proof.
  intros Hh (_&_&Hsrc&Hp). unfold http_check_eof. apply wp_bind. eapply wp_this; [done|].
  assert (He : wp (http_eof process ;; mret 0) (λ r s', r = 0 ∧ closed s s') s)
    by (apply wp_bind; eapply wp_mono; [by eapply http_eof_wp|]; intros [] s1 H; by apply wp_ret).
  unfold source_ok in Hsrc. destruct (handle h) as [f|]; [|done]. destruct (file h) as [p|]; [|done].
  by rewrite (proj2 (Z.leb_le _ _)) by lia.
Qed.

Lemma c_str_length l s : c_str l = Ok s → (length s <= length l)%nat.
Proof. intros [r ->]%c_str_inv. lens. Qed.

Definition hlength (o : option ptr) : nat := match o with Some p => length (p_rest p) | None => 0%nat end.

Lemma hstr_length o : (length (hstr o) <= hlength o)%nat.
Proof. destruct o as [p|]; cbn; [|lia]. destruct (c_str (p_rest p)) eqn:E; cbn; [by apply c_str_length|lia..]. Qed.

Lemma hstrs_length k l : (length (hstrs (drop k l)) <= sum_list (map hlength l))%nat.
Proof.
  revert k. induction l as [|o l IH]; intros [|k]; cbn [drop map sum_list]; [cbn; lia..| |specialize (IH k); cbn; lia].
  specialize (IH 0%nat). rewrite drop_0 in IH. unfold hstrs in *. cbn [map concat]. rewrite length_app.
  pose proof (hstr_length o). cbn. lia.
Qed.

Lemma hdr_fuel_enough h : (2 + length (unsent_headers h) <= hdr_fuel h)%nat.
Proof.
  unfold unsent_headers. change (hdr_fuel h) with (2 + sum_list (map hlength (hdrs h)))%nat.
  destruct (_ <? 6); [|cbn; lia]. rewrite length_drop. pose proof (hstrs_length (Z.to_nat (hdr_index h)) (hdrs h)). lia.
Qed.

(** The headers are out, or a part of them, or all of a response without data. *)
Lemma http_send_headers_wp s h : hs s = Some h → headers_ok h → length_known h → (file h = None → response h) → hdr_index h < 6 →
  wp (http_send_headers process) (λ r s',
    (r = HTTP_DATA_TO_SEND_FREED ∧ file h = None ∧ hs s' = None ∧ current_connection s' = current_connection s ∧ glob s' = glob s ∧
     bytes (pcb s') = bytes (pcb s) ++ unsent h) ∨
    (∃ h', sending_headers s h s' h' ∧
       (ready (pcb s) → (length (unsent_headers h') < length (unsent_headers h))%nat) ∧
       (hdr_index h' < 6 ∧ r = HTTP_DATA_TO_SEND_BREAK ∨ hdr_index h' = 6 ∧ r ≠ HTTP_DATA_TO_SEND_FREED))) s.
Proof.
  intros Hh Hok Hlen Hr Hi. unfold http_send_headers. apply wp_bind. eapply wp_this; [done|].
  apply wp_bind. assert (Hget : wp (match nth HDR_STRINGS_IDX_CONTENT_LEN_KEEPALIVE (hdrs h) None with
      None => get_http_content_length | Some _ => mret tt end) (λ _ s', s' = s) s).
  { destruct Hlen as [Hk|Hf]; [by destruct (nth _ _ _)|]. destruct (nth _ _ _); [done|].
    unfold get_http_content_length. apply wp_bind. eapply wp_this; [done|]. destruct (handle h); [|done]. by rewrite Hf. }
  eapply wp_mono; [exact Hget|]. intros [] ? ->. apply wp_bind, wp_gets. cbv zeta. apply wp_bind. eapply wp_this; [done|].
  pose proof (sndbuf_law (pcb s)) as Hsnd. rewrite u16_id by (red; lia). apply wp_bind.
  eapply wp_mono; [apply (hdr_loop_wp _ _ _ _ s h); [done..|]|].
  { pose proof (hdr_fuel_enough h). destruct (decide _); lia. }
  intros r s1 (h1&Hsend&Hr1&Hprog). apply wp_bind. destruct (Hsend) as (Hh1&(i&q&E1)&Hok1&Hc1&Hg1&Hb1&_).
  eapply wp_this; [done|]. change NUM_FILE_HDR_STRINGS with 6. assert (Hi1 : 0 <= hdr_index h1 <= 6) by apply Hok1.
  assert (Hprog' : ready (pcb s) → (length (unsent_headers h1) < length (unsent_headers h))%nat).
  { intros Hy. destruct (Hy) as [? _]. apply Hprog; [done|lia..]. }
  destruct (Z.ltb_spec (hdr_index h1) 6) as [Hlt|Hge].
  - rewrite (proj2 (Z.leb_gt _ _)) by lia. cbn [andb orb]. apply wp_ret. right. exists h1. split; [done|]. split; [done|]. by left.
  - rewrite (proj2 (Z.leb_le _ _)) by lia. cbn [andb orb]. destruct (file h1) as [p|] eqn:Ef.
    { apply wp_ret. right. exists h1. split; [done|]. split; [done|]. right. split; [lia|]. by destruct Hr1 as [->| ->]. }
    assert (Hresp1 : response h1).
    { rewrite E1 in Ef. destruct (Hr Ef) as (_&_&Hsrc&Hp). split; [done|]. split; [lia|]. rewrite E1. by split. }
    apply wp_bind. eapply wp_mono; [by eapply http_check_eof_wp|]. intros r' s2 [-> (Hh2&Hc2&Hg2&Hb2)]. apply wp_ret. left.
    rewrite E1 in Ef. cbn in Ef. repeat split; try congruence. rewrite Hb2. unfold unsent.
    unfold body. rewrite Ef, app_nil_r, <- Hb1. unfold unsent_headers. rewrite (proj2 (Z.ltb_ge _ _)) by done. by rewrite app_nil_r.
Qed.

(** ** [http_send] *)

(** The data: what TCP takes of it, and the end of the response with its last byte. *)
Lemma http_send_body_wp s h : hs s = Some h → response h → hdr_index h = 6 →
  wp (http_send_body process) (λ _ s', current_connection s' = current_connection s ∧ glob s' = glob s ∧
    ((hs s' = None ∧ bytes (pcb s') = bytes (pcb s) ++ body h) ∨
     (∃ h', hs s' = Some h' ∧ response h' ∧ retries h' = retries h ∧ hdr_index h' = 6 ∧ bytes (pcb s') ++ body h' = bytes (pcb s) ++ body h ∧
        (length (body h') <= length (body h))%nat ∧
        (ready (pcb s) → (length (body h') < length (body h))%nat)))) s.
Proof.
  intros Hh Hr Hi. destruct (Hr) as (Hok&Hlen&Hsrc&Hp). unfold http_send_body. apply wp_bind. eapply wp_this; [done|].
  apply wp_bind. destruct (Z.eqb_spec (left h) 0) as [El|El].
  { eapply wp_mono; [by eapply http_check_eof_wp|]. intros r s1 [-> (Hh1&Hc1&Hg1&Hb1)]. apply wp_ret.
    split; [done|]. split; [done|]. left. split; [done|]. rewrite Hb1. unfold body. rewrite El.
    destruct (file h); by rewrite app_nil_r. }
  apply wp_ret. cbn [Z.eqb]. unfold source_ok in Hsrc.
  destruct (handle h) as [f|] eqn:Ehd; [|by destruct (file h)]. destruct (file h) as [p|] eqn:Ef; [|done].
  destruct Hsrc as [Hbl Hl]. apply wp_bind. unfold http_send_data_nonssi. apply wp_bind. eapply wp_this; [done|].
  apply wp_bind, wp_lift with p; [by rewrite Ef|]. apply wp_bind. eapply wp_mono; [apply http_write_wp; lia|].
  intros [e n] s1 (((Hh1&Hc1&Hg1)&Hn0&_&Hb1)&Hnl&Hn&Hy). cbn [fst snd] in *.
  set (h1 := set_file (Some (mkPtr (p_src p) (drop (Z.to_nat n) (p_rest p)))) (left h - n) h).
  assert (Hbody : body h = take (Z.to_nat n) (p_rest p) ++ body h1).
  { unfold body. rewrite Ef. cbn [h1 file set_file left p_rest].
    replace (Z.to_nat (left h)) with (Z.to_nat n + Z.to_nat (left h - n))%nat by lia. by rewrite take_take_drop. }
  assert (Hr1 : response h1).
  { split; [done|]. split; [done|]. split; [|done]. unfold source_ok. cbn [h1 handle file set_file left p_rest].
    rewrite Ehd. split; [done|]. lens. }
  assert (Hd : length (body h) = (Z.to_nat n + length (body h1))%nat) by (rewrite Hbody; lens).
  destruct (Z.eqb_spec e ERR_OK) as [->|He].
  - apply wp_bind. eapply wp_upd; [by rewrite Hh1|]. apply wp_ret, wp_bind. eapply wp_this; [done|]. fold h1.
    set (s2 := mkServer _ _ _ _). destruct (Z.eqb_spec (left h1) 0) as [El1|El1].
    + apply wp_bind, wp_lift with f; [by cbn; rewrite Ehd|]. rewrite (proj2 (Z.leb_le _ _)) by lia.
      apply wp_bind. eapply wp_mono; [by apply (http_eof_wp s2 h1)|]. intros [] s3 (Hh3&Hc3&Hg3&Hb3). apply wp_ret.
      split; [by rewrite Hc3|]. split; [by rewrite Hg3|]. left. split; [done|]. rewrite Hb3. cbn [s2 pcb]. rewrite Hb1, Hbody.
      assert (E0 : left h - n = 0) by exact El1. assert (Hb0 : body h1 = []) by (unfold body, h1; cbn [file set_file left]; by rewrite E0).
      by rewrite Hb0, app_nil_r.
    + apply wp_ret. split; [done|]. split; [done|]. right. exists h1. split; [done|]. split; [done|]. split; [done|]. split; [done|].
      cbn [s2 pcb]. rewrite Hb1, Hbody, <- app_assoc. split; [done|]. split; [lens|].
      intros Hrd. destruct (Hy Hrd) as [_ Hn1]. lens.
  - specialize (Hn He) as ->. apply wp_ret, wp_bind. eapply wp_this; [by rewrite Hh1|].
    rewrite (proj2 (Z.eqb_neq _ _)) by done. apply wp_ret. split; [done|]. split; [done|]. right. exists h.
    rewrite app_nil_r in Hb1. rewrite Hb1. split; [by rewrite Hh1|]. do 5 (split; [done|]).
    intros Hrd. by destruct (Hy Hrd).
Qed.

(** The effect of [http_send] on the response [h]: [u], a beginning of it, reaches TCP, or all of it and the end. *)
Definition sending (s : server) (h : http_state) (s' : server) : Prop :=
  current_connection s' = current_connection s ∧ glob s' = glob s ∧ ∃ u, bytes (pcb s') = bytes (pcb s) ++ u ∧
  ((hs s' = None ∧ u = unsent h) ∨
   (∃ h', hs s' = Some h' ∧ response h' ∧ retries h' = retries h ∧ unsent h = u ++ unsent h' ∧ (ready (pcb s) → u ≠ []))).

Lemma app_middle {A} (a b x y : list A) : a ++ x = b ++ y → (length x <= length y)%nat → ∃ u, a = b ++ u ∧ y = u ++ x.
Proof.
  intros E Hl. assert (length b <= length a)%nat by (apply (f_equal length) in E; lens).
  exists (drop (length b) a). assert (Ht : take (length b) a = b).
  { apply (f_equal (take (length b))) in E. rewrite take_app_le, take_app_length in E by done. done. }
  split; [by rewrite <- Ht at 1; rewrite take_drop|].
  apply (f_equal (drop (length b))) in E. by rewrite drop_app_le, drop_app_length in E.
Qed.

Lemma sending_intro s h s' h' : current_connection s' = current_connection s → glob s' = glob s → hs s' = Some h' → response h' →
  retries h' = retries h → bytes (pcb s') ++ unsent h' = bytes (pcb s) ++ unsent h →
  (length (unsent h') <= length (unsent h))%nat →
  (ready (pcb s) → (length (unsent h') < length (unsent h))%nat) → sending s h s'.
Proof.
  intros Hc Hg Hh Hr Hrt Hb Hl Hy. split; [done|]. split; [done|]. destruct (app_middle _ _ _ _ Hb Hl) as (u&Hu&Hsp).
  exists u. split; [done|]. right. exists h'. do 4 (split; [done|]). intros Hrd ->. specialize (Hy Hrd). rewrite Hsp in Hy. lens.
Qed.

Lemma http_send_wp s h : hs s = Some h → response h → wp (http_send process) (λ _ s', sending s h s') s.
Proof.
  intros Hh Hr. unfold http_send. apply wp_bind, wp_gets. rewrite Hh. change NUM_FILE_HDR_STRINGS with 6.
  destruct (Z.ltb_spec (hdr_index h) 6) as [Hi|Hi].
  2: { eapply wp_mono; [eapply http_send_body_wp; [done..|]; destruct Hr as ((_&_&?&_)&_); lia|].
       assert (Hu : unsent h = body h) by (unfold unsent, unsent_headers; by rewrite (proj2 (Z.ltb_ge _ _))).
       intros _ s' (Hc&Hg&[[Hn Hb]|(h'&Hh'&Hr'&Hrt&Hi'&Hb&Hl&Hy)]).
       - split; [done|]. split; [done|]. exists (unsent h). rewrite Hu. split; [done|]. by left.
       - assert (Hu' : unsent h' = body h') by (unfold unsent, unsent_headers; by rewrite Hi').
         apply sending_intro with h'; rewrite ?Hu, ?Hu'; done. }
  apply wp_bind. eapply wp_mono; [apply (http_send_headers_wp s h Hh); [apply Hr|by apply Hr|done|done]|].
  intros r s1 [(->&_&Hn&Hc&Hg&Hb)|(h1&Hsend&Hy&Hr1)].
  { apply wp_ret. split; [done|]. split; [done|]. exists (unsent h). split; [done|]. by left. }
  destruct Hsend as (Hh1&(i&q&E1)&Hok1&Hc1&Hg1&Hb1&Hl1). assert (Hresp1 : response h1).
  { split; [done|]. split; [|by rewrite E1; apply Hr]. destruct Hr as (_&Hlen&_). intros _. rewrite E1. by apply Hlen. }
  assert (Hbody1 : body h1 = body h) by (by rewrite E1). assert (Hrt1 : retries h1 = retries h) by (by rewrite E1).
  destruct Hr1 as [[Hi1 ->]|[Hi1 Hne]].
  - apply wp_bind. eapply wp_this; [done|]. rewrite (proj2 (Z.ltb_lt _ _) Hi1). apply wp_ret.
    apply sending_intro with h1; unfold unsent; rewrite ?Hbody1, ?app_assoc, ?Hb1; try done; [lens|].
    intros Hrd. specialize (Hy Hrd). lens.
  - rewrite (proj2 (Z.eqb_neq _ _) Hne). apply wp_bind. eapply wp_this; [done|]. rewrite Hi1, andb_false_r.
    assert (Hu1 : unsent_headers h1 = []) by (unfold unsent_headers; by rewrite Hi1). rewrite Hu1, app_nil_r in Hb1.
    eapply wp_mono; [by eapply http_send_body_wp|].
    intros _ s2 (Hc2&Hg2&[[Hn2 Hb2]|(h2&Hh2&Hr2&Hrt2&Hi2&Hb2&Hl2&_)]).
    + split; [congruence|]. split; [congruence|]. exists (unsent h). unfold unsent.
      split; [by rewrite Hb2, Hb1, Hbody1, <- app_assoc|]. by left.
    + assert (Hu2 : unsent h2 = body h2) by (unfold unsent, unsent_headers; by rewrite Hi2). rewrite Hbody1 in Hl2.
      apply sending_intro with h2; rewrite ?Hu2; unfold unsent; try congruence; try done; [|lens|].
      * by rewrite Hb2, Hb1, Hbody1, <- app_assoc.
      * intros Hrd. specialize (Hy Hrd). rewrite Hu1 in Hy. lens.
Qed.

(** ** Callbacks *)

Lemma set_retries_response n h : response h → response (set_retries n h) ∧ unsent (set_retries n h) = unsent h.
Proof. by intros. Qed.

Lemma http_sent_wp s h : hs s = Some h → response h →
  wp (http_sent process) (λ _ s', sending s (set_retries 0 h) s') s.
Proof.
  intros Hh Hr. unfold http_sent. apply wp_bind, wp_gets. rewrite Hh. apply wp_bind. eapply wp_upd; [done|].
  apply wp_bind. eapply wp_mono; [apply (http_send_wp _ (set_retries 0 h)); [done|by apply set_retries_response]|].
  intros a s' H. exact H.
Qed.

Context (ack : T → T).

(** The peer acknowledges, and TCP calls [http_sent], [n] times at most. *)
Fixpoint acknowledge (n : nat) : ST server unit :=
  match n with
  | O => mret tt
  | S n =>
      o ← gets hs;
      match o with
      | None => mret tt
      | Some _ =>
          modify (λ s, mkServer (ack (pcb s)) (hs s) (current_connection s) (glob s));;
          http_sent process;; acknowledge n
      end
  end.

Lemma acknowledge_wp n s h : (∀ t, ready (ack t)) → (∀ t, segments (ack t) = segments t) →
  hs s = Some h → response h → (length (unsent h) < n)%nat →
  wp (acknowledge n) (λ _ s', hs s' = None ∧ bytes (pcb s') = bytes (pcb s) ++ unsent h) s.
Proof.
  intros Hready Hseg. revert s h. induction n as [|n IH]; intros s h Hh Hr Hn; [lia|].
  cbn [acknowledge]. apply wp_bind, wp_gets. rewrite Hh. apply wp_bind. unfold modify at 1, wp at 1.
  rewrite Hh. set (s1 := mkServer _ _ _ _). apply wp_bind. eapply wp_mono; [by apply (http_sent_wp s1 h)|].
  assert (Hb1 : bytes (pcb s1) = bytes (pcb s)) by (unfold bytes; cbn [s1 pcb]; by rewrite Hseg).
  intros a s2 (_&_&u&Hu&[[Hn2 ->]|(h2&Hh2&Hr2&_&Hsp&Hy)]); rewrite Hb1 in Hu; change (unsent (set_retries 0 h)) with (unsent h) in *.
  - destruct n; cbn [acknowledge]; [by apply wp_ret|]. apply wp_bind, wp_gets. rewrite Hn2. by apply wp_ret.
  - assert (u ≠ []) by (apply Hy, Hready). eapply wp_mono; [apply (IH s2 h2); [done..|]|].
    + destruct u; [done|]. rewrite Hsp in Hn. cbn [length app] in Hn. rewrite length_app in Hn. lia.
    + intros a3 s3 [Hn3 Hb3]. split; [done|]. by rewrite Hb3, Hu, Hsp, <- app_assoc.
Qed.

(** C9: A response of the HTTP server whose data comes from a file of the file system, or that has no data - its headers
    from the current one on and the data - reaches TCP completely, in order and once, however little TCP takes at a time,
    and then the connection is closed and its state freed: there is never an access to it afterwards, and as many
    acknowledgements as bytes, and one, are enough.  The answer to a POST, which has data but no file, is not such a
    response: its end reads a null pointer ([HttpPost.answer_ends_in_a_null_pointer]). *)
Theorem response_is_delivered s h : (∀ t, ready (ack t)) → (∀ t, segments (ack t) = segments t) →
  hs s = Some h → response h → ∃ s', acknowledge (S (length (unsent h))) s = Ok (tt, s') ∧
    hs s' = None ∧ bytes (pcb s') = bytes (pcb s) ++ unsent h.
Proof.
  intros Hready Hseg Hh Hr. destruct (wp_inv _ _ _ (acknowledge_wp _ s h Hready Hseg Hh Hr (Nat.lt_succ_diag_r _)))
    as ([]&s'&E&H&Hb). by exists s'.
Qed.

(** One poll without an acknowledgement in between: some more may be sent; the fourth closes. *)
Lemma http_poll_wp s h : hs s = Some h → response h → 0 <= retries h < 4 →
  wp (http_poll process) (λ _ s', ∃ u, bytes (pcb s') = bytes (pcb s) ++ u ∧
      ((hs s' = None ∧ ∃ v, unsent h = u ++ v) ∨
       ∃ h', hs s' = Some h' ∧ response h' ∧ retries h' = retries h + 1 ∧ retries h' < 4 ∧ unsent h = u ++ unsent h')) s.
Proof.
  intros Hh Hr Hn. unfold http_poll. apply wp_bind, wp_gets. rewrite Hh. apply wp_bind. eapply wp_upd; [done|].
  rewrite u8_id by (red; lia). unfold HTTPD_MAX_RETRIES. set (h1 := set_retries _ h). set (s1 := mkServer _ _ _ _).
  destruct (Z.eqb_spec (retries h + 1) 4) as [E|E].
  - eapply wp_mono; [apply (http_eof_wp s1 h1); [done|apply Hr]|]. intros [] s2 (Hh2&_&_&Hb2).
    exists []. rewrite app_nil_r. split; [done|]. left. split; [done|]. by exists (unsent h).
  - destruct (handle h).
    + apply wp_bind. eapply wp_mono; [apply (http_send_wp s1 h1); [done|by apply set_retries_response]|].
      intros a s2 (_&_&u&Hu&H); apply wp_ret. exists u. split; [done|]. destruct H as [[Hn2 ->]|(h2&Hh2&Hr2&Hrt2&Hsp&_)].
      * left. split; [done|]. exists []. by rewrite app_nil_r.
      * right. exists h2. split; [done|]. split; [done|]. split; [done|]. cbn [h1 set_retries retries] in Hrt2. split; [lia|done].
    + apply wp_ret. exists []. rewrite app_nil_r. split; [done|]. right. exists h1. cbn [h1 set_retries retries].
      split; [done|]. split; [by apply set_retries_response|]. split; [done|]. split; [lia|done].
Qed.

Fixpoint polls (n : nat) : ST server unit :=
  match n with O => mret tt | S n => http_poll process;; polls n end.

Lemma polls_closed n s : hs s = None → wp (polls n) (λ _ s', hs s' = None ∧ bytes (pcb s') = bytes (pcb s)) s.
Proof.
  revert s. induction n as [|n IH]; intros s Hs; [by apply wp_ret|]. cbn [polls]. apply wp_bind.
  apply wp_mono with (λ _ s', hs s' = None ∧ bytes (pcb s') = bytes (pcb s)).
  - unfold http_poll. apply wp_bind, wp_gets. rewrite Hs. unfold http_close_conn. do 2 apply wp_bind. apply wp_gets. rewrite Hs.
    apply wp_bind, wp_ret, wp_bind, wp_ret. unfold wp, call. pose proof (close_law (pcb s)) as H.
    destruct (tcp_close (pcb s)) as [e t]. split; [done|]. cbn [pcb]. unfold bytes. by rewrite H.
  - intros a s1 [H1 Hb1]. eapply wp_mono; [by apply IH|]. intros a2 s2 [H2 Hb2]. split; [done|congruence].
Qed.

Lemma polls_wp n s h : hs s = Some h → response h → 0 <= retries h → 4 - retries h <= Z.of_nat n → retries h < 4 →
  wp (polls n) (λ _ s', ∃ u v, hs s' = None ∧ bytes (pcb s') = bytes (pcb s) ++ u ∧ unsent h = u ++ v) s.
Proof.
  revert s h. induction n as [|n IH]; intros s h Hh Hr H0 Hn Hlt; [lia|]. cbn [polls]. apply wp_bind.
  eapply wp_mono; [by apply (http_poll_wp s h)|]. intros a s1 (u&Hu&[[Hn1 [v Hv]]|(h1&Hh1&Hr1&Hrt&Hlt1&Hsp)]).
  - eapply wp_mono; [by apply polls_closed|]. intros a2 s2 [H2 Hb2]. exists u, v. by rewrite Hb2.
  - eapply wp_mono; [apply (IH s1 h1); [done|done|lia..]|]. intros a2 s2 (u2&v2&H2&Hb2&Hsp2).
    exists (u ++ u2), v2. split; [done|]. by rewrite Hb2, Hu, Hsp, Hsp2, <- !app_assoc.
Qed.

(** C40: A connection with a response whose data comes from a file, or that has no data, and whose peer stops
    acknowledging is closed by the fourth poll in a row, that is in 8 seconds; what it has sent until then is a beginning
    of its response. *)
Theorem stalled_connection_is_closed s h : hs s = Some h → response h → retries h = 0 →
  ∃ s' u v, polls (Z.to_nat HTTPD_MAX_RETRIES) s = Ok (tt, s') ∧ hs s' = None ∧
    bytes (pcb s') = bytes (pcb s) ++ u ∧ unsent h = u ++ v.
Proof.
  intros Hh Hr Hz. destruct (wp_inv _ _ _ (polls_wp 4 s h Hh Hr ltac:(lia) ltac:(lia) ltac:(lia)))
    as ([]&s'&E&u&v&H&Hb&Hv). by exists s', u, v.
Qed.
End Sending.

(** ** An example *)

Definition no_post (uri body : list Z) (g : unit) : outcome (option (list Z) * unit) := Ok (None, g).

(** A file of 12 bytes with two headers, through a send buffer of 5 bytes. *)
Definition small_response : http_state :=
  set_hdr_at 0 0 (set_hdr 4 (rom (chars "B: 2")) (set_hdr 0 (rom (chars "A: 1"))
    (set_file (Some (mkPtr Rom (chars "Hello, world"))) 12 (set_handle (Some (mkFile (chars "Hello, world") 12 12 0)) http_state_init)))).

Lemma small_response_ok : response small_response.
Proof.
  split; [|split; [by right|split; [by split|done]]].
  split; [done|]. split; [|by split; [|intros _]].
  repeat constructor; cbn -[zlen]; eexists; (split; [reflexivity|by vm_compute]).
Qed.

Lemma small_unsent : unsent small_response = chars "A: 1B: 2Hello, world".
Proof. reflexivity. Qed.

Lemma response_is_delivered_witness : let s := mkServer (G := unit) (mkWire 0 []) (Some small_response) Nobody tt in
  ∃ s', acknowledge no_post (λ w, mkWire 5 (out w)) (S (length (unsent small_response))) s = Ok (tt, s') ∧
    hs s' = None ∧ bytes (pcb s') = bytes (pcb s) ++ unsent small_response.
Proof.
  apply response_is_delivered; [|done|reflexivity|apply small_response_ok].
  intros t. split; [done|]. intros src l copy Hl. cbn [tcp_write wire_tcp]. by rewrite (proj2 (Z.leb_le _ _)) by apply Hl.
Defined.

Lemma stalled_connection_is_closed_witness : let s := mkServer (G := unit) (mkWire 5 []) (Some small_response) Nobody tt in
  ∃ s' u v, polls no_post (Z.to_nat HTTPD_MAX_RETRIES) s = Ok (tt, s') ∧ hs s' = None ∧
    bytes (pcb s') = bytes (pcb s) ++ u ∧ unsent small_response = u ++ v.
Proof. apply (stalled_connection_is_closed no_post _ small_response); [reflexivity|apply small_response_ok|reflexivity]. Defined.
