(* ===== verification/HttpRequest.v ===== *)
(** The HTTP server: requests (httpserver/httpd.cpp).  Parsing of a request, GET of a file of the file system,
    POST with its body, and the callback [http_recv].

    A chain of pbufs is the list of their payloads.  The options of httpserver/httpd_opts.h hold: requests are queued
    until they are complete, HTTP/0.9 is understood, there are no pages for errors. *)
From S2P Require Import Prelude CString StateMonad Http.

(** What the server finds around it: the files, the settings of [httpd_init], the configuration mode,
    the contents of a fresh block of the heap, of [httpd_req_buf] and of a word of the stack. *)
Class Site := {
  FS_ROOT : list fsdata_file;
  hostname : list Z;
  domain_name : list Z;
  ip_address : Z;
  initial_config : bool;
  fresh : Z → list Z;
  httpd_req_buf : list Z;
  stack_word : Z;
}.

Definition MIN_REQ_LEN : Z := 7.
Definition LWIP_HTTPD_MAX_REQ_LENGTH : Z := 1023.
Definition LWIP_HTTPD_REQ_BUFSIZE : Z := LWIP_HTTPD_MAX_REQ_LENGTH.
Definition LWIP_HTTPD_REQ_QUEUELEN : Z := 5.
Definition LWIP_HTTPD_URI_BUF_LEN : Z := 63.
Definition HTTP_HDR_CONTENT_LEN_DIGIT_MAX_LEN : Z := 10.
Definition HDR_CUSTOM_SIZE : Z := 128.
Definition HOST_SIZE : Z := 32.

Definition httpd_default_filenames : list (list Z) :=
  [chars "/index.shtml"; chars "/index.ssi"; chars "/index.shtm"; chars "/index.html"; chars "/index.htm"].

Definition tot_len (p : list (list Z)) : Z := u16 (zlen (concat p)).

Section Request.
Context {T G : Type} {tcp : Tcp T} {lwip : Lwip} {site : Site}.
Context (httpd_process_post_data : list Z → list Z → G → outcome (option (list Z) * G)).

Local Abbreviation server := (server (T := T) (G := G)).

(** The offset of a token in the [n] bytes from [off] on; they are all read when it is not found before a NUL. *)
Definition strnstr (data : list Z) (off : Z) (token : list Z) (n : Z) : outcome (option Z) :=
  let l := drop (Z.to_nat off) data in
  match lwip_strnstr l token n with
  | Some i => Ok (Some (off + i))
  | None => if (n <=? zlen l) || bool_decide (0 ∈ l) then Ok None else Ub
  end.

(** ** Files *)

(** What follows the last dot. *)
Fixpoint extension (s : list Z) (acc : option (list Z)) : option (list Z) :=
  match s with c :: s => extension s (if c =? 46 then Some s else acc) | [] => acc end.

(** The characters before the first [c]. *)
Fixpoint before (c : Z) (s : list Z) : list Z :=
  match s with x :: s => if x =? c then [] else x :: before c s | [] => [] end.

Definition has_prefix (uri : list Z) (p : list Z) : outcome bool :=
  b ← rd_n uri 0 (zlen p); Ok (bool_decide (b = p)).

(** [uri]: the memory from the name on, or a null pointer for the built-in page of error 404. *)
Definition get_http_headers (uri : option (list Z)) : ST server unit :=
  upd (set_hdr HDR_STRINGS_IDX_SERVER_NAME (rom (chars "Server: " ++ HTTPD_SERVER_AGENT ++ cr_lf)));;
  upd (set_hdr HDR_STRINGS_IDX_CONTENT_LEN_KEEPALIVE None);;
  upd (set_hdr HDR_STRINGS_IDX_CONTENT_LEN_NR None);;
  match uri with
  | None =>
      upd (set_hdr HDR_STRINGS_IDX_HTTP_STATUS (rom HTTP_HDR_NOT_FOUND));;
      upd (set_hdr HDR_STRINGS_IDX_CUSTOM_CONTENT (rom DEFAULT_404_HTML));;
      upd (set_hdr_at 0 0)
  | Some uri =>
      is_404 ← lift (has_prefix uri (chars "/404."));
      is_400 ← lift (has_prefix uri (chars "/400."));
      is_501 ← lift (has_prefix uri (chars "/501."));
      upd (set_hdr HDR_STRINGS_IDX_HTTP_STATUS
        (rom (if is_404 : bool then HTTP_HDR_NOT_FOUND else if is_400 : bool then HTTP_HDR_BAD_REQUEST
              else if is_501 : bool then HTTP_HDR_NOT_IMPL else HTTP_HDR_OK)));;
      s ← lift (c_str uri);
      let ext := extension (before 63 s) None in
      upd (set_hdr HDR_STRINGS_IDX_CONTENT_TYPE
        (rom match get_content_type_from_extension ext, ext with
             | Some t, _ => t
             | None, None => HTTP_HDR_APP
             | None, Some _ => HTTP_HDR_DEFAULT_TYPE
             end));;
      upd (set_hdr_at 0 0)
  end.

Definition http_init_file (f : option fs_file) (is_09 : bool) (uri : option (list Z)) : ST server Z :=
  match f with
  | Some f =>
      upd (set_handle (Some f));;
      upd (set_file (Some (mkPtr Rom (f_data f))) (u32 (f_len f)));;
      upd (set_retries 0);;
      if is_09 && negb (Z.land (f_flags f) FS_FILE_FLAGS_HEADER_INCLUDED =? 0) then
        file_start ← lift (strnstr (f_data f) 0 (cr_lf ++ cr_lf) (u32 (f_len f)));
        match file_start with
        | Some i => upd (set_file (Some (mkPtr Rom (drop (Z.to_nat (i + 4)) (f_data f)))) (u32 (f_len f) - (i + 4)))
        | None => mret tt
        end
      else mret tt
  | None =>
      upd (set_handle None);; upd (set_file None 0);; upd (set_retries 0)
  end;;
  (if match f with None => true | Some f => Z.land (f_flags f) FS_FILE_FLAGS_HEADER_INCLUDED =? 0 end
   then get_http_headers uri else mret tt);;
  mret ERR_OK.

(** The first of some names that is a file. *)
Fixpoint open_first (names : list (list Z)) : option (list Z * fs_file) :=
  match names with
  | [] => None
  | name :: names =>
      match fs_open FS_ROOT name with Some f => Some (name, f) | None => open_first names end
  end.

Definition http_get_404_file : option (list Z * fs_file) :=
  open_first [chars "/404.html"; chars "/404.htm"; chars "/404.shtml"].

(** The names tried for a directory: in it, through [http_uri_buf], or for the root as they are. *)
Definition default_names (uri : list Z) : list (list Z) :=
  let copy_len := Z.min LWIP_HTTPD_URI_BUF_LEN (zlen uri - 1) in
  if 0 <? copy_len then
    map (λ name, take (Z.to_nat copy_len) uri ++ take (Z.to_nat (LWIP_HTTPD_URI_BUF_LEN - copy_len)) name)
      httpd_default_filenames
  else httpd_default_filenames.

(** [mem]: the memory from the name on.  The name ends at its first question mark. *)
Definition http_find_file (mem : list Z) (is_09 : bool) : ST server Z :=
  uri ← lift (c_str mem);
  let default :=
    if (0 <? zlen uri) && (nth (length uri - 1) uri 0 =? 47) then open_first (default_names uri) else None in
  let base := before 63 uri in
  let found :=
    match default with
    | Some (name, f) => Some (literal name, f)
    | None =>
        match fs_open FS_ROOT base with
        | Some f => Some (literal base ++ drop (S (length base)) mem, f)
        | None => match http_get_404_file with Some (name, f) => Some (literal name, f) | None => None end
        end
    end in
  match found with
  | Some (name, f) => http_init_file (Some f) is_09 (Some name)
  | None => http_init_file None is_09 None
  end.

(** [http_find_error_file]: without pages for errors, the error itself. *)
Definition http_find_error_file (error_nr : Z) : ST server Z := mret ERR_ARG.

(** ** POST *)

Definition httpd_post_begin (mem : list Z) (content_len : Z) : ST server Z :=
  uri ← lift (c_str mem);
  set_current This;;
  upd (λ h, set_post (strncpy uri POST_URI_SIZE) (post_content h) (post_content_len h) h);;
  (if 0 <? content_len
   then upd (λ h, set_post (post_uri h) (Block (fresh content_len)) content_len h) else mret tt);;
  mret ERR_OK.

Definition httpd_post_receive_data (p : list (list Z)) : ST server Z :=
  h ← this;
  let offset := s32 (u32 (post_content_len h - post_content_len_left h - tot_len p)) in
  if (offset <? 0) || (post_content_len h <? u32 (offset + tot_len p)) then mret ERR_VAL
  else
    bytes ← lift (rd_n (match p with payload :: _ => payload | [] => [] end) 0 (tot_len p));
    b ← lift (match post_content h with
              | Block l => l ← wr_n l offset bytes; Ok (Block l)
              | b => if tot_len p =? 0 then Ok b else Ub
              end);
    upd (set_content b);;
    mret ERR_OK.

(** [hs->file] is null: a request is only taken then, and the body of a response comes with its end.  (Otherwise the
    block were deleted here and again with the [http_state].) *)
Definition http_handle_post_finished : ST server unit :=
  h ← this;
  match file h with
  | None => httpd_post_finished httpd_process_post_data
  | Some _ => lift Ub
  end.

Definition http_post_rxpbuf (p : list (list Z)) : ST server Z :=
  upd (λ h, set_content_len (post_content_len h)
              (if post_content_len_left h <? tot_len p then 0 else post_content_len_left h - tot_len p) h);;
  err ← httpd_post_receive_data p;
  (if err =? ERR_OK then mret tt else upd (λ h, set_content_len (post_content_len h) 0 h));;
  h ← this;
  (if post_content_len_left h =? 0 then http_handle_post_finished else mret tt);;
  mret ERR_OK.

(** The chain from the pbuf on in which the body starts. *)
Fixpoint skip_header (start_offset : Z) (q : list (list Z)) : list (list Z) :=
  match q with
  | [] => []
  | payload :: next =>
      if zlen payload <=? start_offset then skip_header (start_offset - zlen payload) next
      else drop (Z.to_nat start_offset) payload :: next
  end.

(** [-1] when there is no number. *)
Definition parse_content_len (num : list Z) : outcome Z :=
  content_len ← atoi num;
  if content_len =? 0 then
    c0 ← rd num 0;
    if negb (c0 =? 48) then Ok (-1) else c1 ← rd num 1; if negb (c1 =? 13) then Ok (-1) else Ok 0
  else Ok content_len.

Definition http_post_request (inp : list (list Z)) (data : list Z) (data_len : Z) (mem : list Z) (uri_end : Z) : ST server Z :=
  crlfcrlf ← lift (strnstr data (uri_end + 1) (cr_lf ++ cr_lf) (data_len - (uri_end + 1)));
  match crlfcrlf with
  | None => mret ERR_INPROGRESS
  | Some crlfcrlf =>
      scontent_len ← lift (strnstr data (uri_end + 1) HTTP_HDR_CONTENT_LENGTH (crlfcrlf - (uri_end + 1)));
      match scontent_len with
      | None => mret ERR_ARG
      | Some scontent_len =>
          let num := scontent_len + 16 in
          scontent_len_end ← lift (strnstr data num cr_lf HTTP_HDR_CONTENT_LEN_DIGIT_MAX_LEN);
          match scontent_len_end with
          | None => mret ERR_ARG
          | Some _ =>
              content_len ← lift (parse_content_len (drop (Z.to_nat num) data));
              if 0 <=? content_len then
                let hdr_len := u16 (Z.min data_len (crlfcrlf + 4)) in
                httpd_post_begin mem content_len;;
                upd (set_content_len content_len content_len);;
                let q := skip_header hdr_len inp in
                match q with
                | _ :: _ => http_post_rxpbuf q
                | [] => if content_len =? 0 then http_post_rxpbuf [[]] else mret ERR_OK
                end
              else mret ERR_ARG
          end
      end
  end.

(** ** Requests *)

(** [host]: the array of [HOST_SIZE] bytes.  An address that is none leaves what was on the stack. *)
Definition host_name_matches (host : list Z) : outcome bool :=
  if initial_config then
    s ← c_str host;
    if ip_address =? default stack_word (ip4addr_aton s) then Ok true
    else
      same ← strncasecmp_eq (length hostname) host (literal hostname);
      if negb same then Ok false
      else
        c ← rd host (zlen hostname);
        if c =? 0 then Ok true
        else if c =? 46 then strcasecmp_eq (drop (S (length hostname)) host) (literal domain_name)
        else Ok false
  else Ok true.

(** The answer to a request for another host, in the captive portal. *)
Definition redirect : ST server unit :=
  let text := chars "HTTP/1.0 302 Found" ++ cr_lf ++ chars "Location: http://" ++ hostname ++ chars "." ++ domain_name ++ cr_lf in
  '(hdr_custom, _) ← lift (snprintf (replicate (Z.to_nat HDR_CUSTOM_SIZE) 0) HDR_CUSTOM_SIZE text);
  upd (set_hdr HDR_STRINGS_IDX_HTTP_STATUS (Some (mkPtr Member hdr_custom)));;
  upd (set_hdr HDR_STRINGS_IDX_CONTENT_LEN_KEEPALIVE (rom HTTP_HDR_CONN_CLOSE));;
  upd (set_hdr_at 0 0).

Definition not_fully_received : ST server Z :=
  h ← this;
  if (tot_len (req h) <=? LWIP_HTTPD_REQ_BUFSIZE) && (zlen (req h) <=? LWIP_HTTPD_REQ_QUEUELEN)
  then mret ERR_INPROGRESS else http_find_error_file 400.

(** [host]: the characters copied to the array. *)
Definition host_of (data : list Z) (data_len : Z) : outcome (option (list Z)) :=
  host_start ← strnstr data 0 (chars "Host: ") data_len;
  match host_start with
  | None => Ok None
  | Some i =>
      let host_start := i + 6 in
      host_end ← strnstr data host_start cr_lf (data_len - host_start);
      match host_end with
      | None => Ok None
      | Some host_end =>
          let host_len := Z.min (host_end - host_start) (HOST_SIZE - 1) in
          l ← rd_n data host_start host_len;
          Ok (Some l)
      end
  end.

(** The data of a request, once its first line is there; [sp1]: the space after the method. *)
Definition parse_uri (data : list Z) (data_len : Z) (is_post : bool) (sp1 : Z) : ST server Z :=
  let left_len := u16 (data_len - (sp1 + 1)) in
  sp ← lift (strnstr data (sp1 + 1) (chars " ") left_len);
  let is_09 := match sp with None => true | Some _ => false end in
  sp2 ← (match sp with None => lift (strnstr data (sp1 + 1) cr_lf left_len) | Some _ => mret sp end);
  if is_09 && is_post then http_find_error_file 400
  else
    match sp2 with
    | None => not_fully_received
    | Some sp2 =>
        crlfcrlf ← lift (strnstr data 0 (cr_lf ++ cr_lf) data_len);
        match crlfcrlf with
        | None => not_fully_received
        | Some _ =>
            let uri_len := u16 (sp2 - (sp1 + 1)) in
            let uri := take (Z.to_nat uri_len) (drop (Z.to_nat (sp1 + 1)) data) in
            let mem := literal uri ++ drop (Z.to_nat (sp2 + 1)) data in
            if is_post then
              h ← this;
              err ← http_post_request (req h) data data_len mem sp2;
              if err =? ERR_ARG then http_find_error_file 400 else mret err
            else http_find_file mem is_09
        end
    end.

(** What [http_parse_request] does with the data it found in the queue. *)
Definition parse_data (data : list Z) (data_len : Z) : ST server Z :=
  if data_len <? MIN_REQ_LEN then not_fully_received
  else
    crlf ← lift (strnstr data 0 cr_lf data_len);
    match crlf with
    | None => not_fully_received
    | Some _ =>
        is_get ← lift (strncmp_eq 4 data (literal (chars "GET ")));
        is_post ← lift (strncmp_eq 5 data (literal (chars "POST ")));
        if negb is_get && negb is_post then http_find_error_file 501
        else
          host ← lift (host_of data data_len);
          match host with
          | None => http_find_error_file 400
          | Some host =>
              matches ← lift (host_name_matches (host ++ replicate (Z.to_nat HOST_SIZE - length host) 0));
              if negb matches then redirect;; mret ERR_OK
              else if is_get then parse_uri data data_len false 3 else parse_uri data data_len true 4
          end
    end.

Definition http_parse_request (p : list (list Z)) : ST server Z :=
  h ← this;
  if match handle h with Some _ => true | None => false end || match file h with Some _ => true | None => false end
  then mret ERR_USE
  else
    upd (λ h, set_req (req h ++ p) h);;
    h ← this;
    '(data, data_len) ← lift (match req h with
      | _ :: _ :: _ =>
          let n := Z.min (tot_len (req h)) LWIP_HTTPD_MAX_REQ_LENGTH in
          data ← wr_n httpd_req_buf 0 (take (Z.to_nat n) (concat (req h)));
          Ok (data, n)
      | [payload] => Ok (payload, zlen payload)
      | [] => Ub
      end);
    parse_data data data_len.

(** ** Callbacks *)

Definition http_recv (p : option (list (list Z))) (err : Z) : ST server unit :=
  o ← gets hs;
  match p, o with
  | Some p, Some h =>
      call (λ t, (tt, tcp_recved (tot_len p) t));;
      if negb (err =? ERR_OK) then http_close_conn httpd_process_post_data;; mret tt
      else if 0 <? post_content_len_left h then
        upd (set_retries 0);;
        http_post_rxpbuf p;;
        h ← this;
        if post_content_len_left h =? 0 then http_send httpd_process_post_data;; mret tt else mret tt
      else
        match handle h with
        | None =>
            parsed ← http_parse_request p;
            (if parsed =? ERR_INPROGRESS then mret tt else upd (set_req []));;
            if parsed =? ERR_OK then
              h ← this;
              if post_content_len_left h =? 0 then http_send httpd_process_post_data;; mret tt else mret tt
            else if parsed =? ERR_ARG then http_close_conn httpd_process_post_data;; mret tt
            else mret tt
        | Some _ => mret tt
        end
  | Some p, None =>
      call (λ t, (tt, tcp_recved (tot_len p) t));; http_close_conn httpd_process_post_data;; mret tt
  | None, _ => http_close_conn httpd_process_post_data;; mret tt
  end.

(** A connection, after [http_accept]: its [http_state] is new. *)
Definition http_accept (t : T) (g : G) : server := mkServer t (Some http_state_init) Nobody g.
End Request.
