(* ===== verification/HttpGet.v ===== *)
(** GET: a request that asks for a file of the file system, arriving in one piece or in several, is answered with this
    file; what the server makes of requests that are not complete. *)
From S2P Require Import Prelude CString StateMonad Http HttpLwip HttpRequest HttpSend.

(** ** Tokens in the data of a request *)

Lemma occurs_len d token i : occurs d token i → token ≠ [] → i + zlen token <= zlen d.
Proof.
  intros [Hi E] Hn. apply (f_equal length) in E. rewrite length_take, length_drop in E.
  destruct token; [done|]. cbn [length] in *. lia.
Qed.

Lemma occurs_app d junk token i : token ≠ [] → i + zlen token <= zlen d → occurs (d ++ junk) token i ↔ occurs d token i.
Proof.
  intros Hn Hl. unfold occurs. split; intros [Hi E]; (split; [done|]).
  - by rewrite drop_app_le, take_app_le in E by lens.
  - by rewrite drop_app_le, take_app_le by lens.
Qed.

Lemma occurs_app_l d junk token i : token ≠ [] → occurs d token i → occurs (d ++ junk) token i.
Proof. intros Hn H. apply occurs_app; [done| |done]. by eapply occurs_len. Qed.

Lemma occurs_drop d token off i : 0 <= off → 0 <= i → occurs (drop (Z.to_nat off) d) token i ↔ occurs d token (off + i).
Proof.
  intros Ho Hi. unfold occurs. rewrite drop_drop, Z2Nat.inj_add by done. split; intros [? E]; split; try done; lia.
Qed.

#[export] Instance occurs_dec l token i : Decision (occurs l token i).
Proof. unfold occurs. apply _. Defined.

Lemma least_below l token n : (∀ j, j < Z.of_nat n → ¬ occurs l token j) ∨
  ∃ k, k < Z.of_nat n ∧ occurs l token k ∧ ∀ j, j < k → ¬ occurs l token j.
Proof.
  induction n as [|n [IH|(k&Hk&Ho&Hf)]].
  - left. intros j Hj. apply occurs_nonneg. lia.
  - destruct (decide (occurs l token (Z.of_nat n))) as [Ho|Ho].
    + right. exists (Z.of_nat n). split; [lia|]. by split.
    + left. intros j Hj. destruct (Z.eq_dec j (Z.of_nat n)) as [->|]; [done|]. apply IH. lia.
  - right. exists k. split; [lia|]. by split.
Qed.

Lemma least_occurs l token i : occurs l token i → ∃ k, k <= i ∧ occurs l token k ∧ ∀ j, j < k → ¬ occurs l token j.
Proof.
  intros H. destruct (least_below l token (Z.to_nat (i + 1))) as [Hn|(k&Hk&Ho&Hf)].
  - exfalso. apply (Hn i); [destruct H; lia|done].
  - destruct H. exists k. split; [lia|]. by split.
Qed.

(** The first place of [token] in [d] from [off] on, if there is one. *)
Definition finds (d : list Z) (off : Z) (token : list Z) (r : option Z) : Prop :=
  match r with
  | Some i => off <= i ∧ occurs d token i ∧ ∀ j, off <= j < i → ¬ occurs d token j
  | None => ∀ j, off <= j → ¬ occurs d token j
  end.

Lemma no_nul_drop n d : no_nul d → no_nul (drop n d).
Proof. apply Forall_drop. Qed.

Section Tokens.
Context {lwip : Lwip} {lwip_ok : LwipOk}.

Lemma strnstr_finds d junk off token : token ≠ [] → no_nul token → no_nul d → 0 <= off <= zlen d →
  ∃ r, strnstr (d ++ junk) off token (zlen d - off) = Ok r ∧ finds d off token r.
Proof.
  intros Ht Htz Hd Hoff. unfold strnstr. rewrite drop_app_le by lia. set (l := drop (Z.to_nat off) d).
  assert (Hl : zlen l = zlen d - off) by (unfold l; lens).
  destruct (lwip_strnstr (l ++ junk) token (zlen d - off)) as [i|] eqn:E.
  - apply strnstr_ok in E; [|done..]. destruct E as (Ho&Hi&_&Hf). assert (0 <= i) by apply Ho.
    eexists. split; [done|]. split; [lia|]. split.
    + rewrite occurs_app in Ho by (done || lia). apply occurs_drop; [lia..|done].
    + intros j Hj Hoj. apply (Hf (j - off)); [lia|]. apply occurs_app_l; [done|]. apply occurs_drop; [lia| |].
      { lia. }
      by replace (off + (j - off)) with j by lia.
  - rewrite (proj2 (Z.leb_le _ _)) by lens. eexists. split; [done|]. intros j Hj Ho.
    assert (Ho' : occurs (l ++ junk) token (j - off)).
    { apply occurs_app_l; [done|]. apply occurs_drop; [lia..|]. by replace (off + (j - off)) with j by lia. }
    destruct (least_occurs _ _ _ Ho') as (k&Hk&Hok&Hf). assert (0 <= k) by apply Hok.
    assert (Hlen : j + zlen token <= zlen d) by by eapply occurs_len.
    enough (Hs : lwip_strnstr (l ++ junk) token (zlen d - off) = Some k) by congruence.
    apply strnstr_ok; [done..|]. split; [done|]. split; [lia|]. split; [|done].
    rewrite take_app_le by lens. apply Forall_take, Forall_drop, Hd.
Qed.

Lemma strnstr_present d junk off token i : token ≠ [] → no_nul token → no_nul d → 0 <= off <= i → occurs d token i →
  ∃ k, strnstr (d ++ junk) off token (zlen d - off) = Ok (Some k) ∧ off <= k <= i ∧ occurs d token k.
Proof.
  intros Ht Htz Hd Hoff Ho. pose proof (occurs_len _ _ _ Ho Ht). assert (0 <= zlen token) by lia.
  destruct (strnstr_finds d junk off token) as ([k|]&E&Hf); [done..|lia| |].
  - exists k. split; [done|]. destruct Hf as (?&?&Hf). split; [|done]. split; [done|].
    destruct (Z.le_gt_cases k i); [done|]. exfalso. apply (Hf i); [lia|done].
  - exfalso. apply (Hf i); [lia|done].
Qed.

(** Whatever follows the data, a token that is in them is found in them. *)
Lemma strnstr_first d junk off token n i : token ≠ [] → no_nul token → no_nul d → 0 <= off <= i → occurs d token i →
  i + zlen token <= off + n →
  ∃ k, strnstr (d ++ junk) off token n = Ok (Some k) ∧ off <= k <= i ∧ occurs d token k ∧ ∀ j, off <= j < k → ¬ occurs d token j.
Proof.
  intros Ht Htz Hd Hoff Ho Hn. pose proof (occurs_len _ _ _ Ho Ht) as Hlen. set (l := drop (Z.to_nat off) d).
  assert (Hl : zlen l = zlen d - off) by (unfold l; lens).
  assert (Hol : occurs l token (i - off)) by (apply occurs_drop; [lia..|]; by replace (off + (i - off)) with i by lia).
  destruct (least_occurs _ _ _ Hol) as (k&Hk&Hok&Hf). assert (0 <= k) by apply Hok.
  exists (off + k). split; [|split; [lia|split]].
  - unfold strnstr. rewrite drop_app_le by lia. fold l.
    replace (lwip_strnstr (l ++ junk) token n) with (Some k); [done|]. symmetry. apply strnstr_ok; [done..|].
    split; [by apply occurs_app_l|]. split; [lia|]. split; [rewrite take_app_le by lens; apply Forall_take, Forall_drop, Hd|].
    intros j Hj Ho'. apply (Hf j Hj). rewrite occurs_app in Ho' by (done || lia). exact Ho'.
  - unfold l in Hok. rewrite occurs_drop in Hok by lia. exact Hok.
  - intros j Hj Ho'. apply (Hf (j - off)); [lia|]. apply occurs_drop; [lia..|]. by replace (off + (j - off)) with j by lia.
Qed.

Lemma strnstr_absent d junk off token : token ≠ [] → no_nul token → no_nul d → 0 <= off <= zlen d →
  (∀ j, off <= j → ¬ occurs d token j) → strnstr (d ++ junk) off token (zlen d - off) = Ok None.
Proof.
  intros Ht Htz Hd Hoff Hno. destruct (strnstr_finds d junk off token) as ([k|]&E&Hf); [done..| |done].
  destruct Hf as (?&Ho&_). by destruct (Hno k).
Qed.
End Tokens.

(** ** Requests *)

Definition HOST : list Z := chars "Host: ".
Definition GET : list Z := chars "GET ".
Definition CRLFCRLF : list Z := cr_lf ++ cr_lf.

(** The line with the host is there. *)
Definition has_host (d : list Z) : Prop := ∃ i j, occurs d HOST i ∧ i + 6 <= j ∧ occurs d cr_lf j.

(** A beginning of a request for which the server waits: without the end of the first line, or with the line of the
    host, and without the end of the header. *)
Definition pending (d : list Z) : Prop :=
  (∀ i, ¬ occurs d cr_lf i) ∨ (has_host d ∧ ∀ i, ¬ occurs d CRLFCRLF i).

(** A complete request for [uri]. *)
Definition get_request (uri d : list Z) : Prop :=
  no_nul d ∧ (∃ tl, d = GET ++ uri ++ [32] ++ tl) ∧ ¬ (32 ∈ uri) ∧ has_host d ∧ ∃ i, occurs d CRLFCRLF i.

(** A literal without a NUL. *)
Ltac nn := apply (bool_decide_unpack _); vm_compute; exact I.

Lemma occurs_single d c i : occurs d [c] i ↔ 0 <= i ∧ d !! Z.to_nat i = Some c.
Proof.
  unfold occurs. rewrite <- (Nat.add_0_r (Z.to_nat i)) at 2. rewrite <- lookup_drop.
  split; intros [? E]; (split; [done|]); destruct (drop (Z.to_nat i) d) as [|x l]; simplify_eq/=; done.
Qed.

Section Get.
Context {T G : Type} {tcp : Tcp T} {tcp_ok : TcpOk T} {lwip : Lwip} {lwip_ok : LwipOk} {site : Site}.
Context (process : list Z → list Z → G → outcome (option (list Z) * G)).
Local Abbreviation server := (server (T := T) (G := G)).

Definition queue_fits (h : http_state) : Prop := zlen (concat (req h)) <= 1023 ∧ zlen (req h) <= 5.

Lemma not_fully_received_wp (s : server) h : hs s = Some h → queue_fits h →
  wp not_fully_received (λ r s', r = ERR_INPROGRESS ∧ s' = s) s.
Proof.
  intros Hh [Hl Hn]. unfold not_fully_received. apply wp_bind. eapply wp_this; [done|].
  unfold tot_len. rewrite u16_id by (red; lia).
  change LWIP_HTTPD_REQ_BUFSIZE with 1023. change LWIP_HTTPD_REQ_QUEUELEN with 5.
  rewrite !(proj2 (Z.leb_le _ _)) by done. by apply wp_ret.
Qed.

Lemma occurs_cr_lf d i : occurs d CRLFCRLF i → occurs d cr_lf i.
Proof.
  intros [Hi E]. split; [done|]. apply (f_equal (take 2)) in E. rewrite take_take in E. exact E.
Qed.

Lemma host_of_finds d junk : no_nul d → has_host d → ∃ host, host_of (d ++ junk) (zlen d) = Ok (Some host) ∧ zlen host <= 31.
Proof.
  intros Hd (i&j&Hi&Hij&Hj). unfold host_of. fold HOST.
  destruct (strnstr_present d junk 0 HOST i) as (k&E&Hk&Hok); [done|nn|done|destruct Hi; lia|done|].
  rewrite Z.sub_0_r in E. rewrite E.
  cbn [mbind outcome_bind]. pose proof (occurs_len _ _ _ Hok ltac:(done)) as Hlen. change (zlen HOST) with 6 in Hlen.
  destruct (strnstr_present d junk (k + 6) cr_lf j) as (e&->&He&Hoe); [done|nn|done|lia|done|].
  cbn [mbind outcome_bind]. pose proof (occurs_len _ _ _ Hoe ltac:(done)) as Hlen'. change (zlen cr_lf) with 2 in Hlen'.
  change (HOST_SIZE - 1) with 31. unfold rd_n. rewrite decide_True by lens. eexists. split; [done|]. lens.
Qed.

Lemma strncmp_get r : strncmp_eq 4 (GET ++ r) (literal (chars "GET ")) = Ok true.
Proof. reflexivity. Qed.
Lemma strncmp_get_post r : strncmp_eq 5 (GET ++ r) (literal (chars "POST ")) = Ok false.
Proof. reflexivity. Qed.

Lemma host_matches host : initial_config = false → host_name_matches host = Ok true.
Proof. intros E. unfold host_name_matches. by rewrite E. Qed.

(** A request that is for the device: in the captive portal its host has to be the device's. *)
Definition for_us (d : list Z) : Prop := ∀ b host, host_of (d ++ b) (zlen (d ++ b)) = Ok (Some host) →
  host_name_matches (host ++ replicate (Z.to_nat HOST_SIZE - length host) 0) = Ok true.

Lemma for_us_anyway d : initial_config = false → for_us d.
Proof. intros E b host _. by apply host_matches. Qed.

(** A request whose host is read from [i] to [j] is for the device when this host is the device's. *)
Lemma for_us_host d i j : no_nul d → occurs d HOST i → (∀ k, 0 <= k < i → ¬ occurs d HOST k) →
  i + 6 <= j → occurs d cr_lf j → (∀ k, i + 6 <= k < j → ¬ occurs d cr_lf k) →
  let host := take (Z.to_nat (Z.min (j - (i + 6)) 31)) (drop (Z.to_nat (i + 6)) d) in
  host_name_matches (host ++ replicate (Z.to_nat HOST_SIZE - length host) 0) = Ok true → for_us d.
Proof.
  intros Hd Hi Hi0 Hij Hj Hj0 host Hm b h. unfold host_of. fold HOST.
  pose proof (occurs_len _ _ _ Hi ltac:(done)) as Hli. pose proof (occurs_len _ _ _ Hj ltac:(done)) as Hlj.
  change (zlen HOST) with 6 in Hli. change (zlen cr_lf) with 2 in Hlj.
  destruct (strnstr_first d b 0 HOST (zlen (d ++ b)) i) as (k & E & Hk & Hok & _); [done|nn|done|destruct Hi; lia|done|change (zlen HOST) with 6; lens|].
  assert (k = i) as -> by (destruct (Z.lt_ge_cases k i); [exfalso; apply (Hi0 k); [lia|done]|lia]). rewrite E. cbn [mbind outcome_bind].
  destruct (strnstr_first d b (i + 6) cr_lf (zlen (d ++ b) - (i + 6)) j) as (l & E' & Hl & Hol & _); [done|nn|done|lia|done|change (zlen cr_lf) with 2; lens|].
  assert (l = j) as -> by (destruct (Z.lt_ge_cases l j); [exfalso; apply (Hj0 l); [lia|done]|lia]). rewrite E'. cbn [mbind outcome_bind].
  change (HOST_SIZE - 1) with 31. unfold rd_n. rewrite decide_True by lens. cbn [mbind outcome_bind]. intros [= <-].
  rewrite drop_app_le by lia. rewrite take_app_le by lens. exact Hm.
Qed.

Lemma strnstr_0 d junk token : token ≠ [] → no_nul token → no_nul d →
  ∃ r, strnstr (d ++ junk) 0 token (zlen d) = Ok r ∧ finds d 0 token r.
Proof.
  intros Ht Hz Hd. destruct (strnstr_finds d junk 0 token) as (r&E&Hf); [done..|lia|]. rewrite Z.sub_0_r in E. by exists r.
Qed.

Lemma cr_lf_ok : cr_lf ≠ [] ∧ no_nul cr_lf.
Proof. split; [done|nn]. Qed.

(** A request without the end of its header is waited for, unless it is not for long. *)
Lemma parse_uri_pending d junk (s : server) h : no_nul d → 4 <= zlen d < 65536 → (∀ i, ¬ occurs d CRLFCRLF i) → hs s = Some h → queue_fits h →
  wp (parse_uri process (d ++ junk) (zlen d) false 3) (λ r s', r = ERR_INPROGRESS ∧ s' = s) s.
Proof.
  intros Hd Hl Hno Hh Hq. unfold parse_uri. change (3 + 1) with 4. rewrite u16_id by (red; lia).
  assert (Hnf : wp not_fully_received (λ r s', r = ERR_INPROGRESS ∧ s' = s) s) by by eapply not_fully_received_wp.
  destruct (strnstr_finds d junk 4 (chars " ")) as (sp&->&_); [done|nn|done|lia|]. apply wp_bind, wp_ret, wp_bind.
  destruct (strnstr_finds d junk 4 cr_lf) as (sp2&Esp2&_); [done|nn|done|lia|].
  assert (Hc : strnstr (d ++ junk) 0 CRLFCRLF (zlen d) = Ok None).
  { replace (zlen d) with (zlen d - 0) by lia. apply strnstr_absent; [done|nn|done|lia|]. intros j _. apply Hno. }
  rewrite andb_false_r. fold CRLFCRLF.
  destruct sp as [sp|]; [apply wp_ret|rewrite Esp2; apply wp_ret; destruct sp2; [|done]];
    (apply wp_bind, wp_lift with None; [exact Hc|exact Hnf]).
Qed.

(** What comes of data that begin like a GET. *)
Lemma parse_data_pending d junk (s : server) h : initial_config = false → no_nul d → (4 <= zlen d → take 4 d = GET) → zlen d < 65536 →
  pending d → hs s = Some h → queue_fits h →
  wp (parse_data process (d ++ junk) (zlen d)) (λ r s', r = ERR_INPROGRESS ∧ s' = s) s.
Proof.
  intros Hic Hd Hg Hl Hp Hh Hq. assert (Hnf : wp not_fully_received (λ r s', r = ERR_INPROGRESS ∧ s' = s) s) by by eapply not_fully_received_wp.
  unfold parse_data. change MIN_REQ_LEN with 7. destruct (Z.ltb_spec (zlen d) 7) as [|Hlen]; [done|].
  destruct (strnstr_0 d junk cr_lf) as (crlf&->&Hcr); [apply cr_lf_ok..|done|]. apply wp_bind, wp_ret.
  destruct crlf as [i|]; [|done]. destruct Hcr as (_&Hcr&_). destruct Hp as [Hno|[Hhost Hno]]; [by apply Hno in Hcr|].
  specialize (Hg ltac:(lia)). assert (Ed : d ++ junk = GET ++ (drop 4 d ++ junk)) by (rewrite <- Hg, app_assoc; by rewrite take_drop).
  assert (E1 : strncmp_eq 4 (d ++ junk) (literal (chars "GET ")) = Ok true) by (rewrite Ed; apply strncmp_get).
  assert (E2 : strncmp_eq 5 (d ++ junk) (literal (chars "POST ")) = Ok false) by (rewrite Ed; apply strncmp_get_post).
  apply wp_bind, wp_lift with true; [done|]. apply wp_bind, wp_lift with false; [done|]. cbn [negb andb].
  destruct (host_of_finds d junk Hd Hhost) as (host&Ehost&_). apply wp_bind, wp_lift with (Some host); [done|].
  apply wp_bind, wp_lift with true; [by apply host_matches|]. cbn [negb]. eapply parse_uri_pending; [done|lia|done..].
Qed.

(** A complete request is taken for the file it names. *)
Lemma parse_data_get uri d junk (s : server) : initial_config = false → get_request uri d → zlen d < 65536 →
  ∃ rest, parse_data process (d ++ junk) (zlen d) s = http_find_file (literal uri ++ rest) false s.
Proof.
  intros Hic (Hd&(tl&Ed)&Hsp&Hhost&(c&Hc)) Hl. unfold parse_data. change MIN_REQ_LEN with 7.
  assert (Hlen : 7 <= zlen d).
  { destruct Hhost as (i&j&Hi&_). pose proof (occurs_len _ _ _ Hi ltac:(done)) as Hi'. change (zlen HOST) with 6 in Hi'.
    destruct (Z.eq_dec i 0) as [->|]; [|destruct Hi; lia]. destruct Hi as [_ Hi]. rewrite Ed in Hi. done. }
  rewrite (proj2 (Z.ltb_ge _ _)) by done.
  destruct (strnstr_0 d junk cr_lf) as (crlf&E&Hcr); [apply cr_lf_ok..|done|].
  rewrite (st_bind_Ok _ _ _ crlf s) by (unfold lift; by rewrite E).
  destruct crlf as [k|]; [|exfalso; apply (Hcr c); [apply Hc|by apply occurs_cr_lf]].
  assert (E1 : strncmp_eq 4 (d ++ junk) (literal (chars "GET ")) = Ok true) by (rewrite Ed, <- app_assoc; apply strncmp_get).
  assert (E2 : strncmp_eq 5 (d ++ junk) (literal (chars "POST ")) = Ok false) by (rewrite Ed, <- app_assoc; apply strncmp_get_post).
  rewrite (st_bind_Ok _ _ _ true s) by (unfold lift; by rewrite E1).
  rewrite (st_bind_Ok _ _ _ false s) by (unfold lift; by rewrite E2). cbn [negb andb].
  destruct (host_of_finds d junk Hd Hhost) as (host&Ehost&_).
  rewrite (st_bind_Ok _ _ _ (Some host) s) by (unfold lift; by rewrite Ehost).
  rewrite (st_bind_Ok _ _ _ true s) by (unfold lift; by rewrite host_matches). cbn [negb].
  unfold parse_uri. change (3 + 1) with 4. rewrite (u16_id (zlen d - 4)) by (red; lia).
  assert (Hspace : occurs d (chars " ") (4 + zlen uri)).
  { split; [lia|]. rewrite Ed. replace (Z.to_nat (4 + zlen uri)) with (length (GET ++ uri)) by (rewrite length_app; change (length GET) with 4%nat; lia).
    by rewrite app_assoc, drop_app_length. }
  destruct (strnstr_finds d junk 4 (chars " ")) as (sp&Esp&Hf); [done|nn|done|lia|].
  assert (sp = Some (4 + zlen uri)) as ->.
  { destruct sp as [i|]; [|exfalso; apply (Hf (4 + zlen uri)); [lia|done]]. f_equal. destruct Hf as (Hi4&Ho&Hmin).
    destruct (Z.lt_trichotomy i (4 + zlen uri)) as [Hlt|[?|Hgt]]; [|done|exfalso; apply (Hmin (4 + zlen uri)); [lia|done]].
    exfalso. apply Hsp. apply occurs_single in Ho as [_ Ho]. rewrite Ed, lookup_app_r in Ho by (change (length GET) with 4%nat; lia).
    rewrite lookup_app_l in Ho by (change (length GET) with 4%nat; lia). by eapply list_elem_of_lookup_2. }
  rewrite (st_bind_Ok _ _ _ (Some (4 + zlen uri)) s) by (unfold lift; by rewrite Esp).
  rewrite (st_bind_Ok _ _ _ (Some (4 + zlen uri)) s) by done. cbn [andb].
  destruct (strnstr_0 d junk CRLFCRLF) as (e&E'&He); [done|nn|done|]. fold CRLFCRLF.
  rewrite (st_bind_Ok _ _ _ e s) by (unfold lift; by rewrite E').
  destruct e as [e|]; [|exfalso; apply (He c); [apply Hc|done]].
  assert (Huri : take (Z.to_nat (u16 (4 + zlen uri - 4))) (drop (Z.to_nat 4) (d ++ junk)) = uri).
  { assert (zlen uri < zlen d) by (rewrite Ed; lens). rewrite u16_id by (red; lia). replace (4 + zlen uri - 4) with (zlen uri) by lia.
    rewrite Ed, <- !app_assoc. change (Z.to_nat 4) with (length GET). rewrite drop_app_length. apply take_app_length'. lia. }
  rewrite Huri. eexists. reflexivity.
Qed.

(** ** The file *)

(** The file that a request gets: the one it names, the page of the root, the page for what is not there. *)
Inductive resource (uri : list Z) (f : fs_file) : Prop :=
  | ResFile : nth (length uri - 1) uri 0 ≠ 47 → fs_open FS_ROOT (before 63 uri) = Some f → resource uri f
  | ResRoot name : uri = [47] → open_first httpd_default_filenames = Some (name, f) → resource uri f
  | Res404 name : nth (length uri - 1) uri 0 ≠ 47 → fs_open FS_ROOT (before 63 uri) = None →
      http_get_404_file = Some (name, f) → resource uri f.

(** The files of the file system bring their headers with them. *)
Definition file_ok (f : fsdata_file) : Prop :=
  0 <= fd_len f < 4294967296 ∧ fd_len f <= zlen (fd_data f) ∧ Z.land (fd_flags f) FS_FILE_FLAGS_HEADER_INCLUDED ≠ 0.

Lemma fs_open_ok root name f : Forall file_ok root → fs_open root name = Some f →
  0 <= f_len f < 4294967296 ∧ f_len f <= zlen (f_data f) ∧ fs_bytes_left f = 0 ∧
  Z.land (f_flags f) FS_FILE_FLAGS_HEADER_INCLUDED ≠ 0.
Proof.
  induction 1 as [|d root (Hl&Hd&Hf) _ IH]; cbn [fs_open]; [done|]. destruct (bool_decide _); [|done].
  intros [= <-]. split; [done|]. split; [done|]. split; [unfold fs_bytes_left; cbn; lia|done].
Qed.

Lemma open_first_ok names name f : open_first names = Some (name, f) → fs_open FS_ROOT name = Some f.
Proof.
  induction names as [|n names IH]; cbn [open_first]; [done|]. destruct (fs_open FS_ROOT n) eqn:E; [by intros [= <- <-]|done].
Qed.

Lemma resource_opened uri f : resource uri f → ∃ name, fs_open FS_ROOT name = Some f.
Proof. intros [? E|name ? E|name ? ? E]; [by eexists|exists name; by eapply open_first_ok..]. Qed.

(** The connection with a file to send. *)
Definition with_file (f : fs_file) (h : http_state) : http_state :=
  set_retries 0 (set_file (Some (mkPtr Rom (f_data f))) (f_len f) (set_handle (Some f) h)).

Definition put_hs (s : server) (h : http_state) : server := mkServer (pcb s) (Some h) (current_connection s) (glob s).

Lemma http_find_file_spec uri rest f (s : server) h : Forall file_ok FS_ROOT → no_nul uri → resource uri f → hs s = Some h →
  http_find_file (literal uri ++ rest) false s = Ok (ERR_OK, put_hs s (with_file f h)).
Proof.
  intros Hroot Hz Hres Hh. destruct (resource_opened _ _ Hres) as [name' Hopen].
  destruct (fs_open_ok _ _ _ Hroot Hopen) as (Hlen&_&_&Hfl).
  assert (Hinit : ∀ name, http_init_file (T := T) (G := G) (Some f) false (Some name) s = Ok (ERR_OK, put_hs s (with_file f h))).
  { intros name. unfold http_init_file, upd, mbind, st_bind. rewrite Hh. cbn [pcb hs current_connection glob andb mret st_ret].
    rewrite u32_id by done. by rewrite (proj2 (Z.eqb_neq _ _) Hfl). }
  unfold http_find_file. rewrite (st_bind_Ok _ _ _ uri s).
  2: { unfold lift, literal. rewrite <- app_assoc. cbn [app]. by rewrite c_str_app. }
  destruct Hres as [Hl E|name -> E|name Hl E E'].
  - rewrite (proj2 (Z.eqb_neq _ _) Hl), andb_false_r, E. apply Hinit.
  - change ((0 <? zlen [47]) && (nth (length [47] - 1) [47] 0 =? 47)) with true. cbv iota. change (default_names [47]) with httpd_default_filenames.
    rewrite E. apply Hinit.
  - rewrite (proj2 (Z.eqb_neq _ _) Hl), andb_false_r, E, E'. apply Hinit.
Qed.

(** ** [http_recv] *)

(** A connection that waits for its request, of which [done] has arrived. *)
Definition waiting (done : list (list Z)) : http_state := set_req done http_state_init.

Lemma response_with_file f done : Forall file_ok FS_ROOT → (∃ name, fs_open FS_ROOT name = Some f) →
  response (set_req [] (with_file f (waiting done))) ∧
  unsent (set_req [] (with_file f (waiting done))) = take (Z.to_nat (f_len f)) (f_data f).
Proof.
  intros Hroot [name E]. destruct (fs_open_ok _ _ _ Hroot E) as (Hlen&Hd&Hbl&_). split; [|done].
  split; [|split; [intros Hi; change (6 < 6) in Hi; lia|split; [|done]]].
  2: { split; [by rewrite Hbl|]. cbn. lia. }
  split; [done|]. split; [|done]. by repeat constructor.
Qed.

(** The data the parser sees of the queue. *)
Definition queue_data (q : list (list Z)) : outcome (list Z * Z) :=
  match q with
  | _ :: _ :: _ =>
      let n := Z.min (tot_len q) LWIP_HTTPD_MAX_REQ_LENGTH in
      data ← wr_n httpd_req_buf 0 (take (Z.to_nat n) (concat q)); Ok (data, n)
  | [payload] => Ok (payload, zlen payload)
  | [] => Ub
  end.

(** One pbuf of less than 64k, or several that [httpd_req_buf] holds. *)
Definition queue_parsed (q : list (list Z)) : Prop :=
  q ≠ [] ∧ zlen (concat q) < 65536 ∧ (length q = 1%nat ∨ zlen (concat q) <= 1023).

Lemma queue_data_spec q : zlen httpd_req_buf = 1024 → queue_parsed q →
  ∃ junk, queue_data q = Ok (concat q ++ junk, zlen (concat q)).
Proof.
  intros Hb (Hne&Hl&Hq). destruct q as [|p [|p2 q]]; [done| |].
  - exists []. cbn [queue_data concat]. by rewrite !app_nil_r.
  - destruct Hq as [?|Hq]; [done|]. unfold queue_data. set (l := p :: p2 :: q) in *.
    unfold tot_len. rewrite u16_id by (red; lia). change LWIP_HTTPD_MAX_REQ_LENGTH with 1023. rewrite Z.min_l by done.
    rewrite take_ge by lens. exists (drop (length (concat l)) httpd_req_buf). unfold wr_n. rewrite decide_True by lia. done.
Qed.

Lemma http_parse_request_eq (p : list (list Z)) (s : server) h : hs s = Some h → handle h = None → file h = None →
  http_parse_request process p s =
  (dl ← lift (queue_data (req h ++ p)); parse_data process dl.1 dl.2) (put_hs s (set_req (req h ++ p) h)).
Proof.
  intros Hh Hhd Hf. unfold http_parse_request. unfold mbind at 1, st_bind at 1, this at 1. rewrite Hh, Hhd, Hf. cbn [orb].
  unfold upd at 1. unfold mbind at 1, st_bind at 1. rewrite Hh.
  unfold mbind at 1, st_bind at 1, this at 1. cbn [hs set_req req]. unfold put_hs.
  fold (queue_data (req h ++ p)). unfold mbind, st_bind. unfold lift. destruct (queue_data (req h ++ p)) as [[d l]| |]; done.
Qed.

Lemma recved_bytes n (t : T) : bytes (tcp_recved n t) = bytes t.
Proof. unfold bytes. by rewrite recved_law. Qed.

(** What a connection that waits does with another pbuf. *)
Lemma http_recv_waiting done p (s : server) (Q : unit → server → Prop) : hs s = Some (waiting done) →
  wp (http_parse_request process [p]) (λ parsed, wp
        ((if parsed =? ERR_INPROGRESS then mret tt else upd (set_req []));;
         if parsed =? ERR_OK then
           h ← this; if post_content_len_left h =? 0 then http_send process;; mret tt else mret tt
         else if parsed =? ERR_ARG then http_close_conn process;; mret tt else mret tt) Q)
    (mkServer (tcp_recved (tot_len [p]) (pcb s)) (hs s) (current_connection s) (glob s)) →
  wp (http_recv process (Some [p]) ERR_OK) Q s.
Proof.
  intros Hh HQ. unfold http_recv. apply wp_bind, wp_gets. rewrite Hh. apply wp_bind. unfold call, wp at 1.
  cbn [negb Z.eqb ERR_OK]. change (0 <? post_content_len_left (waiting done)) with false.
  change (handle (waiting done)) with (@None fs_file). cbv iota. apply wp_bind. rewrite Hh in HQ. by rewrite Hh.
Qed.

Lemma wp_eq {A} (m1 m2 : ST server A) Q (s1 s2 : server) : m1 s1 = m2 s2 → wp m2 Q s2 → wp m1 Q s1.
Proof. intros E. unfold wp. by rewrite E. Qed.

Definition fits (q : list (list Z)) : Prop := zlen (concat q) <= 1023 ∧ zlen q <= 5.

(** A part of a request is queued. *)
Lemma http_recv_pending done p (s : server) : initial_config = false → zlen httpd_req_buf = 1024 → hs s = Some (waiting done) →
  no_nul (concat (done ++ [p])) → (4 <= zlen (concat (done ++ [p])) → take 4 (concat (done ++ [p])) = GET) →
  pending (concat (done ++ [p])) → fits (done ++ [p]) →
  wp (http_recv process (Some [p]) ERR_OK)
    (λ _ s', hs s' = Some (waiting (done ++ [p])) ∧ bytes (pcb s') = bytes (pcb s) ∧ current_connection s' = current_connection s ∧ glob s' = glob s) s.
Proof.
  intros Hic Hb Hh Hz Hg Hp Hf. eapply http_recv_waiting; [done|]. set (s1 := mkServer _ _ _ _).
  eapply wp_eq; [by apply (http_parse_request_eq [p] s1 (waiting done))|]. change (req (waiting done)) with done.
  change (set_req (done ++ [p]) (waiting done)) with (waiting (done ++ [p])). set (s2 := put_hs _ _).
  destruct (queue_data_spec (done ++ [p]) Hb) as [junk Ej]; [split; [by destruct done|]; split; [destruct Hf; lia|right; apply Hf]|].
  apply wp_bind, wp_lift with (concat (done ++ [p]) ++ junk, zlen (concat (done ++ [p]))); [done|]. cbn [fst snd].
  eapply wp_mono; [apply (parse_data_pending _ junk s2 (waiting (done ++ [p]))); [done..|destruct Hf; lia|done|done|exact Hf]|].
  intros r s' [-> ->]. cbn [Z.eqb ERR_INPROGRESS ERR_OK ERR_ARG]. apply wp_bind, wp_ret, wp_ret.
  split; [done|]. split; [apply recved_bytes|done].
Qed.

(** The rest of a request: the file is on its way. *)
Lemma http_recv_get uri f done p (s : server) : initial_config = false → zlen httpd_req_buf = 1024 → Forall file_ok FS_ROOT →
  resource uri f → hs s = Some (waiting done) → queue_parsed (done ++ [p]) → get_request uri (concat (done ++ [p])) →
  wp (http_recv process (Some [p]) ERR_OK)
    (λ _ s', sending (mkServer (tcp_recved (tot_len [p]) (pcb s)) (hs s) (current_connection s) (glob s))
               (set_req [] (with_file f (waiting (done ++ [p])))) s') s.
Proof.
  intros Hic Hb Hroot Hres Hh Hq Hget. eapply http_recv_waiting; [done|]. set (s1 := mkServer _ _ _ _).
  eapply wp_eq; [by apply (http_parse_request_eq [p] s1 (waiting done))|]. change (req (waiting done)) with done.
  change (set_req (done ++ [p]) (waiting done)) with (waiting (done ++ [p])). set (s2 := put_hs _ _).
  destruct (queue_data_spec (done ++ [p]) Hb Hq) as [junk Ej]. destruct Hq as (_&Hl&_).
  apply wp_bind, wp_lift with (concat (done ++ [p]) ++ junk, zlen (concat (done ++ [p]))); [done|]. cbn [fst snd].
  destruct (parse_data_get uri _ junk s2 Hic Hget Hl) as [rest E].
  assert (Hz : no_nul uri).
  { destruct Hget as (Hz&[tl Ed]&_). rewrite Ed in Hz. apply Forall_app in Hz as [_ Hz]. by apply Forall_app in Hz as [Hz _]. }
  rewrite (http_find_file_spec uri rest f s2 (waiting (done ++ [p])) Hroot Hz Hres eq_refl) in E.
  eapply wp_Ok; [exact E|]. cbn [Z.eqb ERR_INPROGRESS ERR_OK ERR_ARG]. apply wp_bind. eapply wp_upd; [done|].
  destruct (response_with_file f (done ++ [p]) Hroot (resource_opened _ _ Hres)) as [Hresp _].
  apply wp_bind. eapply wp_this; [done|]. cbn [post_content_len_left set_req with_file set_retries set_file set_handle waiting http_state_init Z.eqb].
  apply wp_bind. eapply wp_mono; [by eapply http_send_wp|]. intros a s' (Hc&Hg&u&Hu&H). apply wp_ret.
  split; [done|]. split; [done|]. exists u. split; [done|]. exact H.
Qed.

(** ** A request in pieces *)

Fixpoint recv_all (ps : list (list Z)) : ST server unit :=
  match ps with [] => mret tt | p :: ps => http_recv process (Some [p]) ERR_OK;; recv_all ps end.

Lemma prefix_of_get uri d n : get_request uri d → no_nul (take n d) ∧ (4 <= zlen (take n d) → take 4 (take n d) = GET).
Proof.
  intros (Hz&[tl ->]&_). split; [by apply Forall_take|]. intros Hl. rewrite take_take.
  rewrite length_take in Hl. rewrite Nat.min_l by lia. reflexivity.
Qed.

Lemma recv_all_pending uri d ps done (s : server) : initial_config = false → zlen httpd_req_buf = 1024 →
  get_request uri d → (∃ r, d = concat (done ++ ps) ++ r) → hs s = Some (waiting done) →
  (∀ k, (0 < k <= length ps)%nat → pending (concat (done ++ take k ps))) → fits (done ++ ps) →
  wp (recv_all ps) (λ _ s', hs s' = Some (waiting (done ++ ps)) ∧ bytes (pcb s') = bytes (pcb s)) s.
Proof.
  intros Hic Hb Hget. revert done s. induction ps as [|p ps IH]; intros done s [r Hd] Hh Hp Hf.
  { apply wp_ret. by rewrite app_nil_r. }
  cbn [recv_all]. apply wp_bind. assert (E : done ++ p :: ps = (done ++ [p]) ++ ps) by (by rewrite <- app_assoc).
  rewrite E in Hd, Hf. rewrite concat_app, <- app_assoc in Hd.
  assert (Ht : take (length (concat (done ++ [p]))) d = concat (done ++ [p])) by (rewrite Hd; apply take_app_length).
  pose proof (prefix_of_get uri d (length (concat (done ++ [p]))) Hget) as [Hz Hg]. rewrite Ht in Hz, Hg.
  eapply wp_mono; [apply (http_recv_pending done p s Hic Hb Hh Hz Hg)|].
  - specialize (Hp 1%nat). cbn [take] in Hp. rewrite take_0 in Hp. apply Hp. cbn. lia.
  - destruct Hf as [Hf1 Hf2]. rewrite concat_app in Hf1. split; lens.
  - intros a s1 (Hh1&Hb1&_&_). eapply wp_mono; [apply (IH (done ++ [p]) s1); [|exact Hh1| |exact Hf]|].
    + exists r. by rewrite Hd, (concat_app (done ++ [p])), <- app_assoc.
    + intros k Hk. specialize (Hp (S k)). cbn [take] in Hp. rewrite <- app_assoc. apply Hp. cbn. lia.
    + intros a2 s2 [Hh2 Hb2]. rewrite E. split; [done|congruence].
Qed.

Context (ack : T → T).

(** A browser that asks for a page gets it.  A GET request of HTTP/1, in any number of pbufs the server waits for, is
    answered with the file it names - or the page of the root, or the page for what is not there: exactly its bytes,
    headers included, whatever TCP takes at a time, and then the end of the connection. *)
Theorem get_serves_file uri f ps p t g : initial_config = false → zlen httpd_req_buf = 1024 → Forall file_ok FS_ROOT →
  (∀ t, ready (ack t)) → (∀ t, segments (ack t) = segments t) →
  resource uri f → get_request uri (concat (ps ++ [p])) → queue_parsed (ps ++ [p]) → fits ps →
  (∀ k, (0 < k <= length ps)%nat → pending (concat (take k ps))) →
  ∃ s', (recv_all (ps ++ [p]);; acknowledge process ack (S (Z.to_nat (f_len f)))) (http_accept t g) = Ok (tt, s') ∧
    hs s' = None ∧ bytes (pcb s') = bytes t ++ take (Z.to_nat (f_len f)) (f_data f).
Proof.
  intros Hic Hb Hroot Hready Hseg Hres Hget Hq Hf Hp.
  assert (Happ : ∀ l1 l2 s, recv_all (l1 ++ l2) s = (recv_all l1;; recv_all l2) s).
  { intros l1 l2. induction l1 as [|x l1 IH]; intros s; [done|]. cbn [app recv_all]. unfold mbind, st_bind.
    destruct (http_recv process (Some [x]) ERR_OK s) as [[a s1]| |]; [apply IH|done..]. }
  enough (Hwp : wp (recv_all (ps ++ [p]);; acknowledge process ack (S (Z.to_nat (f_len f))))
    (λ _ s', hs s' = None ∧ bytes (pcb s') = bytes t ++ take (Z.to_nat (f_len f)) (f_data f)) (http_accept t g)).
  { apply wp_inv in Hwp as ([]&s'&E&H). by exists s'. }
  apply wp_bind. eapply wp_eq; [apply Happ|]. apply wp_bind.
  eapply wp_mono; [apply (recv_all_pending uri (concat (ps ++ [p])) ps [] (http_accept t g)); [done..| |done|done|done]|].
  { exists p. rewrite concat_app. cbn. by rewrite app_nil_r. }
  intros a s1 [Hh1 Hb1]. cbn [recv_all]. apply wp_bind. eapply wp_mono; [by apply (http_recv_get uri f ps p s1)|].
  destruct (response_with_file f (ps ++ [p]) Hroot (resource_opened _ _ Hres)) as [_ Hun].
  intros a2 s2 (_&_&u&Hu&H). rewrite Hun in H. cbn [pcb] in Hu. rewrite recved_bytes, Hb1 in Hu. apply wp_ret.
  destruct H as [[Hn ->]|(h'&Hh'&Hr'&_&Hsp&_)].
  - cbn [acknowledge]. apply wp_bind, wp_gets. rewrite Hn. by apply wp_ret.
  - assert (Hlen : (length (unsent h') < S (Z.to_nat (f_len f)))%nat).
    { apply (f_equal length) in Hsp. rewrite length_app, length_take in Hsp. lia. }
    eapply wp_mono; [apply (acknowledge_wp process ack _ s2 h'); [done..|exact Hlen]|]. intros a3 s3 [Hn3 Hb3].
    split; [done|]. by rewrite Hb3, Hu, <- app_assoc, <- Hsp.
Qed.

(** ** Requests that are not served *)

(** One pbuf with the whole first line, by [http_parse_request]. *)
Lemma parse_one p (s : server) Q : hs s = Some (waiting []) →
  wp (parse_data process p (zlen p)) Q (put_hs s (waiting [p])) → wp (http_parse_request process [p]) Q s.
Proof.
  intros Hh HQ. eapply wp_eq; [by apply (http_parse_request_eq [p] s (waiting []))|]. apply wp_bind, wp_lift with (p, zlen p); [done|]. exact HQ.
Qed.

(** A request whose first segment ends anywhere between its first line and the line with the host is refused: the
    connection is closed without an answer, although the rest of the header is still to come.  (The server looks for
    the host before it looks for the end of the header.) *)
Theorem request_split_before_host_is_refused p t g : no_nul p → 7 <= zlen p < 65536 →
  (∃ i, occurs p cr_lf i) → (∀ i, ¬ occurs p HOST i) →
  ∃ s', http_recv process (Some [p]) ERR_OK (http_accept t g) = Ok (tt, s') ∧ hs s' = None ∧ bytes (pcb s') = bytes t.
Proof.
  intros Hz Hl [c Hc] Hno.
  enough (Hwp : wp (http_recv process (Some [p]) ERR_OK) (λ _ s', hs s' = None ∧ bytes (pcb s') = bytes t) (http_accept t g))
    by (apply wp_inv in Hwp as ([]&s'&E&H); by exists s').
  apply (http_recv_waiting []); [done|]. set (s1 := mkServer _ _ _ _).
  apply parse_one; [done|]. set (s2 := put_hs _ _). apply wp_mono with (λ r s', r = ERR_ARG ∧ s' = s2).
  - assert (Ej : p = p ++ []) by (by rewrite app_nil_r). rewrite Ej at 1. unfold parse_data. change MIN_REQ_LEN with 7.
    rewrite (proj2 (Z.ltb_ge _ _)) by lia. destruct (strnstr_0 p [] cr_lf) as (crlf&E&Hcr); [apply cr_lf_ok..|done|].
    apply wp_bind, wp_lift with crlf; [done|]. destruct crlf as [k|]; [|exfalso; apply (Hcr c); [apply Hc|done]].
    destruct (strncmp_eq_safe 4 (p ++ []) (literal (chars "GET "))) as [b1 E1]; [lens|cbn; lia|].
    destruct (strncmp_eq_safe 5 (p ++ []) (literal (chars "POST "))) as [b2 E2]; [lens|cbn; lia|].
    apply wp_bind, wp_lift with b1; [done|]. apply wp_bind, wp_lift with b2; [done|].
    destruct (negb b1 && negb b2); [by apply wp_ret|]. apply wp_bind, wp_lift with None; [|by apply wp_ret].
    unfold host_of. fold HOST. replace (zlen p) with (zlen p - 0) by lia.
    by rewrite (strnstr_absent p [] 0 HOST) by (done || nn || lia || auto).
  - intros r s' [-> ->]. cbn [Z.eqb ERR_INPROGRESS ERR_OK ERR_ARG]. apply wp_bind. eapply wp_upd; [done|]. apply wp_bind.
    set (s3 := mkServer _ _ _ _).
    assert (Heof : wp (http_eof process) (λ _ s', closed s3 s') s3) by by eapply (http_eof_wp process).
    unfold http_eof in Heof. unfold wp at 1 in Heof. unfold mbind, st_bind in Heof. unfold wp at 1.
    destruct (http_close_conn process s3) as [[e s4]| |]; [|done..]. destruct Heof as (Hn&_&_&Hb). split; [done|].
    rewrite Hb. cbn [s3 s2 put_hs pcb s1 http_accept]. apply recved_bytes.
Qed.

(** The text of the redirection: what fits [hdr_custom], and the end of the header. *)
Definition redirection : list Z :=
  take 127 (chars "HTTP/1.0 302 Found" ++ cr_lf ++ chars "Location: http://" ++ hostname ++ chars "." ++ domain_name ++ cr_lf) ++
  HTTP_HDR_CONN_CLOSE.

(** The captive portal.  A request for another host is answered with a redirection to the name of the device, of which
    at most 127 characters are kept, and the end of the connection. *)
Theorem captive_portal_redirects p host t g : no_nul p → 7 <= zlen p < 65536 → (∃ i, occurs p cr_lf i) →
  (take 4 p = GET ∨ take 5 p = chars "POST ") →
  host_of p (zlen p) = Ok (Some host) → host_name_matches (host ++ replicate (32 - length host) 0) = Ok false →
  no_nul hostname → no_nul domain_name → (∀ t, ready (ack t)) → (∀ t, segments (ack t) = segments t) →
  ∃ s', (http_recv process (Some [p]) ERR_OK;; acknowledge process ack (S (length redirection))) (http_accept t g) = Ok (tt, s') ∧
    hs s' = None ∧ bytes (pcb s') = bytes t ++ redirection.
Proof.
  intros Hz Hl [c Hc] Hm Ehost Hno Hh Hd Hready Hseg.
  enough (Hwp : wp (http_recv process (Some [p]) ERR_OK;; acknowledge process ack (S (length redirection)))
    (λ _ s', hs s' = None ∧ bytes (pcb s') = bytes t ++ redirection) (http_accept t g))
    by (apply wp_inv in Hwp as ([]&s'&E&H); by exists s').
  apply wp_bind, (http_recv_waiting []); [done|]. set (s1 := mkServer _ _ _ _).
  apply parse_one; [done|]. set (s2 := put_hs _ _).
  set (text := chars "HTTP/1.0 302 Found" ++ cr_lf ++ chars "Location: http://" ++ hostname ++ chars "." ++ domain_name ++ cr_lf).
  assert (Htext : no_nul text) by (unfold text, no_nul; rewrite !Forall_app; repeat split; try done; nn).
  destruct (snprintf_truncates (replicate 128 0) 128 text) as (b&Eb&Ec&_); [lia|done|done|].
  set (h3 := set_hdr_at 0 0 (set_hdr 2 (rom HTTP_HDR_CONN_CLOSE) (set_hdr 0 (Some (mkPtr Member b)) (waiting [p])))).
  assert (Hresp : response (set_req [] h3) ∧ unsent (set_req [] h3) = redirection).
  { assert (Hlen : 0 < zlen (take 127 text) < 65536) by
      (unfold text; rewrite length_take, length_app; change (length (chars "HTTP/1.0 302 Found")) with 18%nat; lia).
    assert (Eh : hstr (Some (mkPtr Member b)) = take 127 text) by (cbn; by rewrite Ec). split.
    - split; [|split; [by left|split; done]]. split; [done|]. split.
      + repeat constructor; cbn -[zlen]; [by exists (take 127 text)|].
        exists HTTP_HDR_CONN_CLOSE. split; [reflexivity|by vm_compute].
      + split; [done|]. intros _. change (0 <= 0 < zlen (hstr (Some (mkPtr Member b)))). rewrite Eh. lia.
    - unfold unsent. change (body (set_req [] h3)) with (@nil Z). rewrite app_nil_r. unfold redirection. fold text. rewrite <- Eh.
      change (hstr (Some (mkPtr Member b)) ++ HTTP_HDR_CONN_CLOSE = hstr (Some (mkPtr Member b)) ++ HTTP_HDR_CONN_CLOSE ++ []). by rewrite app_nil_r. }
  apply wp_mono with (λ r s', r = ERR_OK ∧ s' = put_hs s1 h3).
  - assert (Ej : p = p ++ []) by (by rewrite app_nil_r). unfold parse_data. change MIN_REQ_LEN with 7.
    rewrite (proj2 (Z.ltb_ge _ _)) by lia. destruct (strnstr_0 p [] cr_lf) as (crlf&E&Hcr); [apply cr_lf_ok..|done|]. rewrite <- Ej in E.
    apply wp_bind, wp_lift with crlf; [done|]. destruct crlf as [k|]; [|exfalso; apply (Hcr c); [apply Hc|done]].
    destruct (strncmp_eq_safe 4 p (literal (chars "GET "))) as [b1 E1]; [lia|cbn; lia|].
    destruct (strncmp_eq_safe 5 p (literal (chars "POST "))) as [b2 E2]; [lia|cbn; lia|].
    apply wp_bind, wp_lift with b1; [done|]. apply wp_bind, wp_lift with b2; [done|].
    assert (Hb : negb b1 && negb b2 = false).
    { destruct Hm as [Hm|Hm].
      - rewrite <- (take_drop 4 p), Hm, strncmp_get in E1. by injection E1 as <-.
      - rewrite <- (take_drop 5 p), Hm in E2. cbn in E2. injection E2 as <-. apply andb_false_r. }
    rewrite Hb. apply wp_bind, wp_lift with (Some host); [done|].
    change (Z.to_nat HOST_SIZE) with 32%nat. apply wp_bind, wp_lift with false; [done|]. cbn [negb].
    apply wp_bind. unfold redirect. fold text. change (Z.to_nat HDR_CUSTOM_SIZE) with 128%nat. change HDR_CUSTOM_SIZE with 128.
    apply wp_bind, wp_lift with (b, zlen text); [done|]. do 2 (apply wp_bind; eapply wp_upd; [done|]). eapply wp_upd; [done|]. by apply wp_ret.
  - intros r s' [-> ->]. cbn [Z.eqb ERR_INPROGRESS ERR_OK ERR_ARG]. apply wp_bind. eapply wp_upd; [done|].
    apply wp_bind. eapply wp_this; [done|]. change (post_content_len_left (set_req [] h3)) with 0. cbn [Z.eqb]. apply wp_bind.
    destruct Hresp as [Hresp Hun]. eapply wp_mono; [by eapply http_send_wp|]. intros a s4 (_&_&u&Hu&H). rewrite Hun in H.
    cbn [pcb put_hs s1 http_accept] in Hu. rewrite recved_bytes in Hu. apply wp_ret. destruct H as [[Hn ->]|(h'&Hh'&Hr'&_&Hsp&_)].
    + cbn [acknowledge]. apply wp_bind, wp_gets. rewrite Hn. by apply wp_ret.
    + assert (Hlen : (length (unsent h') < S (length redirection))%nat) by (rewrite Hsp; lens).
      eapply wp_mono; [apply (acknowledge_wp process ack _ s4 h'); [done..|exact Hlen]|]. intros a3 s5 [Hn3 Hb3].
      split; [done|]. by rewrite Hb3, Hu, <- app_assoc, <- Hsp.
Qed.
End Get.

(** ** Examples *)

Lemma absent_check d token : token ≠ [] →
  forallb (λ k, negb (bool_decide (occurs d token (Z.of_nat k)))) (seq 0 (length d)) = true → ∀ i, ¬ occurs d token i.
Proof.
  intros Ht H i Ho. pose proof (occurs_len _ _ _ Ho Ht). assert (0 <= i) by apply Ho.
  assert (0 < zlen token) by (destruct token; [done|cbn; lia]).
  rewrite forallb_forall in H. specialize (H (Z.to_nat i)). rewrite in_seq in H.
  rewrite negb_true_iff, bool_decide_eq_false, Z2Nat.id in H by done. apply H; [lia|done].
Qed.

(** A device with one page. *)
Definition demo_site (portal : bool) : Site := {|
  FS_ROOT := [mkFsData (chars "/index.html") (chars "HTTP/1.0 200 OK" ++ CRLFCRLF ++ chars "hi") 21 1];
  hostname := chars "device"; domain_name := chars "local"; ip_address := 0; initial_config := portal;
  fresh n := replicate (Z.to_nat n) 0; httpd_req_buf := replicate 1024 0; stack_word := 1 |}.

Definition refill (w : wire) : wire := mkWire 5 (out w).

Lemma refill_ready w : ready (refill w).
Proof. split; [done|]. intros src l copy Hl. cbn [tcp_write wire_tcp]. by rewrite (proj2 (Z.leb_le _ _)) by apply Hl. Qed.

Definition demo_file : fs_file := mkFile (chars "HTTP/1.0 200 OK" ++ CRLFCRLF ++ chars "hi") 21 21 1.
Definition demo_request : list (list Z) := [chars "GET / HTTP/1.0" ++ [13]; [10] ++ chars "Host: me" ++ CRLFCRLF].

Lemma demo_get_request : get_request [47] (concat demo_request).
Proof.
  split; [nn|]. split; [by eexists (chars "HTTP/1.0" ++ cr_lf ++ chars "Host: me" ++ CRLFCRLF)|].
  split; [apply (bool_decide_unpack _); vm_compute; exact I|].
  split; [exists 16, 24; split_and!|exists 24]; apply (bool_decide_unpack _); vm_compute; exact I.
Qed.

Lemma get_serves_file_witness :
  ∃ s', (recv_all (site := demo_site false) no_post ([chars "GET / HTTP/1.0" ++ [13]] ++ [[10] ++ chars "Host: me" ++ CRLFCRLF]);;
         acknowledge no_post refill (S (Z.to_nat (f_len demo_file)))) (http_accept (mkWire 0 []) tt) = Ok (tt, s') ∧
    hs s' = None ∧ bytes (pcb s') = bytes (mkWire 0 []) ++ take (Z.to_nat (f_len demo_file)) (f_data demo_file).
Proof.
  apply (get_serves_file (site := demo_site false) no_post refill [47] demo_file); try done.
  - repeat constructor; done.
  - apply refill_ready.
  - by eapply (ResRoot (site := demo_site false)).
  - exact demo_get_request.
  - split; [done|]. split; [done|]. by right.
  - intros k Hk. left. apply absent_check; [done|]. assert (k = 1%nat) as -> by (cbn in Hk; lia). reflexivity.
Defined.

Lemma request_split_before_host_is_refused_witness :
  ∃ s', http_recv (site := demo_site false) no_post (Some [chars "GET / HTTP/1.0" ++ cr_lf]) ERR_OK (http_accept (mkWire 5 []) tt) = Ok (tt, s') ∧
    hs s' = None ∧ bytes (pcb s') = bytes (mkWire 5 []).
Proof.
  apply request_split_before_host_is_refused; [nn|done| |].
  - exists 14. apply (bool_decide_unpack _); vm_compute; exact I.
  - apply absent_check; done.
Defined.

Lemma captive_portal_redirects_witness :
  ∃ s', (http_recv (site := demo_site true) no_post (Some [chars "GET / HTTP/1.0" ++ cr_lf ++ chars "Host: example.org" ++ CRLFCRLF]) ERR_OK;;
         acknowledge no_post refill (S (length (redirection (site := demo_site true))))) (http_accept (mkWire 5 []) tt) = Ok (tt, s') ∧
    hs s' = None ∧ bytes (pcb s') = bytes (mkWire 5 []) ++ redirection (site := demo_site true).
Proof.
  apply (captive_portal_redirects (site := demo_site true) no_post refill _ (chars "example.org")); try done.
  - nn.
  - exists 14. apply (bool_decide_unpack _); vm_compute; exact I.
  - by left.
  - nn.
  - nn.
  - apply refill_ready.
Defined.
