(* ===== verification/HttpPost.v ===== *)
(** POST: the body of a request is put together from the segments it comes in and handed to its handler, once and
    whole; the answer; what becomes of bodies that are too long, cut short or in chained pbufs. *)
From S2P Require Import Prelude CString StateMonad Http HttpLwip HttpRequest HttpSend HttpGet.

(** ** The header *)

Definition POST : list Z := chars "POST ".

(** The header of a POST of [n] bytes to [uri], with the number of its first line for the length. *)
Definition post_header (uri : list Z) (n : Z) (d : list Z) : Prop :=
  no_nul d ∧ (∃ tl, d = POST ++ uri ++ [32] ++ tl) ∧ ¬ (32 ∈ uri) ∧ has_host d ∧ zlen d < 65536 ∧
  occurs d CRLFCRLF (zlen d - 4) ∧ (∀ j, j < zlen d - 4 → ¬ occurs d CRLFCRLF j) ∧
  ∃ i ds, 6 + zlen uri <= i ∧ occurs d (HTTP_HDR_CONTENT_LENGTH ++ ds ++ cr_lf) i ∧ i + 16 + zlen ds + 4 <= zlen d ∧
    (∀ j, 6 + zlen uri <= j < i → ¬ occurs d HTTP_HDR_CONTENT_LENGTH j) ∧
    Forall (λ c, 48 <= c < 58) ds ∧ 0 < zlen ds <= 8 ∧ digits_value ds 0 = n ∧ 0 < n.

Lemma occurs_prefix_of d a b i : occurs d (a ++ b) i → occurs d a i.
Proof.
  intros [Hi E]. split; [done|]. apply (f_equal (take (length a))) in E. by rewrite take_take, take_app_length, length_app, Nat.min_l in E by lia.
Qed.

Lemma occurs_after d a b i : occurs d (a ++ b) i → drop (Z.to_nat (i + zlen a)) d = b ++ drop (Z.to_nat (i + zlen a) + length b) d.
Proof.
  intros [Hi E]. rewrite <- drop_drop. rewrite <- (take_drop (length b) (drop (Z.to_nat (i + zlen a)) d)) at 1. f_equal.
  apply (f_equal (drop (length a))) in E. rewrite drop_app_length, length_app, skipn_firstn_comm, drop_drop in E.
  replace (length a + length b - length a)%nat with (length b) in E by lia.
  by replace (Z.to_nat (i + zlen a)) with (Z.to_nat i + length a)%nat by lia.
Qed.

Lemma digits_value_stop ds c r a : Forall (λ c, 48 <= c < 58) ds → is_digit c = false → digits_value (ds ++ c :: r) a = digits_value ds a.
Proof.
  intros Hds Hc. revert a. induction Hds as [|x ds Hx _ IH]; intros a; cbn [app digits_value]; [by rewrite Hc|].
  destruct (is_digit x); [apply IH|done].
Qed.

Lemma digits_value_bound ds a : Forall (λ c, 48 <= c < 58) ds → 0 <= a → 0 <= digits_value ds a < (a + 1) * 10 ^ zlen ds.
Proof.
  intros Hds. revert a. induction Hds as [|x ds Hx _ IH]; intros a Ha; cbn [digits_value]; [cbn; lia|].
  unfold is_digit. rewrite !(proj2 (Z.leb_le _ _)) by lia. cbn [andb]. specialize (IH (a * 10 + (x - 48)) ltac:(lia)).
  cbn [length]. rewrite Nat2Z.inj_succ, Z.pow_succ_r by lia. assert (0 < 10 ^ zlen ds) by (apply Z.pow_pos_nonneg; lia). nia.
Qed.

Lemma parse_content_len_spec ds r : Forall (λ c, 48 <= c < 58) ds → 0 < zlen ds <= 8 → 0 < digits_value ds 0 →
  parse_content_len (ds ++ cr_lf ++ r) = Ok (digits_value ds 0).
Proof.
  intros Hds Hl Hn. unfold parse_content_len, atoi. cbn [app cr_lf].
  assert (Hb : digits_value ds 0 < 100000000).
  { pose proof (digits_value_bound ds 0 Hds ltac:(lia)) as [_ Hb]. assert (10 ^ zlen ds <= 10 ^ 8) by (apply Z.pow_le_mono_r; lia). lia. }
  destruct Hds as [|x ds Hx Hds]; [cbn in Hl; lia|].
  cbn [app skip_spaces]. assert (Hsp : is_space x = false).
  { unfold is_space. rewrite (proj2 (Z.eqb_neq _ _)) by lia. cbn [orb]. rewrite (proj2 (Z.leb_gt x 13)) by lia. apply andb_false_r. }
  rewrite Hsp, !(proj2 (Z.eqb_neq x _)) by lia.
  rewrite app_comm_cons, digits_value_stop by (done || by constructor).
  rewrite !(proj2 (Z.leb_le _ _)) by lia. cbn [andb mbind outcome_bind]. by rewrite (proj2 (Z.eqb_neq _ _)) by lia.
Qed.

Section Post.
Context {T G : Type} {tcp : Tcp T} {tcp_ok : TcpOk T} {lwip : Lwip} {lwip_ok : LwipOk} {site : Site}.
Context (process : list Z → list Z → G → outcome (option (list Z) * G)).
Local Abbreviation server := (server (T := T) (G := G)).

(** ** The answer *)

Lemma json_content_type : get_content_type_from_extension (Some (chars "json")) = Some (HTTP_CONTENT_TYPE "application/json").
Proof.
  assert (H : ∀ table e, find_extension table e =
    (fix go (l : list (list Z * list Z)) := match l with [] => None
       | (a, t) :: l => if bool_decide (map tolower a = map tolower e) then Some t else go l end) table).
  { intros table e. induction table as [|[a t] table IH]; cbn [find_extension]; [done|]. rewrite IH.
    destruct (lwip_stricmp a e) eqn:E; [by rewrite bool_decide_true by (by apply stricmp_ok)|].
    rewrite bool_decide_false; [done|]. intros Ha. apply stricmp_ok in Ha. congruence. }
  unfold get_content_type_from_extension. rewrite H. vm_compute. reflexivity.
Qed.

Definition itoa (n : Z) : list Z := lwip_itoa LWIP_HTTPD_MAX_CONTENT_LEN_SIZE n.

(** What [httpd_post_response] makes of the connection, the current one or another. *)
Definition answered (current : bool) (answer : option (list Z)) (h : http_state) : http_state :=
  match answer with
  | None => h
  | Some text =>
      set_hdr_at 0 0
        (if current then
           set_hdr 3 (Some (mkPtr Member (itoa (zlen text) ++ cr_lf ++ [0])))
             (set_response (Some text) (set_file (Some (mkPtr Heap text)) (zlen text)
               (set_hdr 4 (rom (HTTP_CONTENT_TYPE "application/json"))
                 (set_hdr 2 (rom HTTP_HDR_CONTENT_LENGTH) (set_hdr 0 (rom HTTP_HDR_OK) h)))))
         else set_hdr 2 (rom HTTP_HDR_CONN_CLOSE) (set_hdr 0 (rom HTTP_HDR_BAD_REQUEST) h))
  end.

Definition short (answer : option (list Z)) : Prop := match answer with Some text => zlen text < 65536 | None => True end.

Lemma httpd_post_response_spec text (s : server) h : hs s = Some h → zlen text < 65536 →
  httpd_post_response text (chars "json") s =
  Ok (tt, mkServer (pcb s) (Some (answered (is_current s) (Some text) h)) (current_connection s) (glob s)).
Proof.
  intros Hh Hl. destruct (itoa_ok (zlen text)) as (_&_&Hd); [lia|]. unfold httpd_post_response. rewrite json_content_type.
  rewrite u16_id by (red; lia). unfold itoa in *. unfold mbind, st_bind, gets, lift, upd. cbn [mbind outcome_bind].
  change (match current_connection s with This => true | _ => false end) with (is_current s).
  destruct (is_current s) eqn:Ec; rewrite Hh; cbn [hs pcb current_connection glob]; [|done].
  change (LWIP_HTTPD_MAX_CONTENT_LEN_SIZE - LWIP_HTTPD_MAX_CONTENT_LEN_OFFSET) with 9.
  rewrite (proj2 (Z.leb_le _ _)) by apply Hd. done.
Qed.

(** The end of a POST: the handler is called with the address and the bytes of the buffer, whatever they are. *)
Lemma http_handle_post_finished_spec (s : server) h l body answer g : hs s = Some h → file h = None →
  post_content h = Block l → rd_n l 0 (post_content_len h) = Ok body →
  process (post_uri h) body (glob s) = Ok (answer, g) → short answer →
  http_handle_post_finished process s =
  Ok (tt, mkServer (pcb s) (Some (set_content Freed (answered (is_current s) answer h))) Nobody g).
Proof.
  intros Hh Hf Hc Hb Hp Ha. unfold http_handle_post_finished, httpd_post_finished, process_post_data.
  rewrite (st_bind_Ok _ _ _ h s) by (unfold this; by rewrite Hh). rewrite Hf.
  assert (Hpp : (h ← this; body ← lift (content (post_content h) (post_content_len h)); g ← gets glob;
      '(answer, g) ← lift (process (post_uri h) body g); modify (λ s : server, mkServer (pcb s) (hs s) (current_connection s) g);;
      match answer with Some text => httpd_post_response text (chars "json") | None => mret tt end) s =
    Ok (tt, mkServer (pcb s) (Some (answered (is_current s) answer h)) (current_connection s) g)).
  { rewrite (st_bind_Ok _ _ _ h s) by (unfold this; by rewrite Hh).
    rewrite (st_bind_Ok _ _ _ body s) by (unfold lift, content; by rewrite Hc, Hb).
    rewrite (st_bind_Ok _ _ _ (glob s) s) by done.
    rewrite (st_bind_Ok _ _ _ (answer, g) s) by (unfold lift; by rewrite Hp).
    rewrite (st_bind_Ok _ _ _ tt (mkServer (pcb s) (hs s) (current_connection s) g)) by done.
    destruct answer as [text|]; [|by rewrite Hh]. by rewrite (httpd_post_response_spec text _ h) by done. }
  rewrite (st_bind_Ok _ _ _ _ _ Hpp). clear Hpp.
  assert (Hc' : post_content (answered (is_current s) answer h) = Block l).
  { destruct answer; [|done]. cbn. by destruct (is_current s). }
  unfold mbind, st_bind, this, lift. cbn [hs]. rewrite Hc'. done.
Qed.

(** ** Receiving *)

(** A POST of [n] bytes, of which [got] have come; [rest] is what the heap left in the buffer. *)
Definition receiving (uri : list Z) (n : Z) (got rest : list Z) (h : http_state) : Prop :=
  file h = None ∧ handle h = None ∧ post_uri h = uri ∧ post_content h = Block (got ++ rest) ∧ zlen (got ++ rest) = n ∧
  post_content_len h = n ∧ post_content_len_left h = zlen rest ∧ 0 < n < 1000000000 ∧
  hdrs h = replicate 6 None ∧ hdr_index h = 6 ∧ left h = 0.

Lemma s32_id z : 0 <= z < 2147483648 → s32 (u32 z) = z.
Proof. intros H. rewrite u32_id by (red; lia). unfold s32. rewrite u32_id by (red; lia). destruct (Z.ltb_spec z 2147483648); lia. Qed.

(** What a pbuf changes: the bytes still to come, and the buffer. *)
Definition received (left : Z) (l : list Z) (h : http_state) : http_state :=
  set_content (Block l) (set_content_len (post_content_len h) left h).

Definition finish_when (b : bool) : ST server Z :=
  (if b then http_handle_post_finished process else mret tt);; mret ERR_OK.

(** One pbuf of a body, by what [httpd_post_receive_data] makes of it. *)
Lemma rxpbuf_eq p (s : server) h l r : hs s = Some h → post_content h = Block l →
  0 <= post_content_len_left h → zlen p < 65536 → 0 <= post_content_len h < 1000000000 →
  r = Z.max 0 (post_content_len_left h - zlen p) → 0 <= post_content_len h - r →
  zlen l = post_content_len h →
  http_post_rxpbuf process [p] s =
  if zlen p <=? post_content_len h - r
  then finish_when (r =? 0) (put_hs s (received r (take (Z.to_nat (post_content_len h - r - zlen p)) l ++ p ++ drop (Z.to_nat (post_content_len h - r)) l) h))
  else finish_when true (put_hs s (received 0 l h)).
Proof.
  intros Hh Hc Hl Hp Hn Hr H0 Hll. unfold http_post_rxpbuf.
  assert (Et : tot_len [p] = zlen p) by (unfold tot_len; cbn [concat]; rewrite app_nil_r; by apply u16_id; red; lia).
  set (h1 := set_content_len (post_content_len h) r h).
  rewrite (st_bind_Ok _ _ _ tt (put_hs s h1)).
  2: { unfold upd. rewrite Hh, Et. unfold put_hs, h1. do 5 f_equal. destruct (Z.ltb_spec (post_content_len_left h) (zlen p)); lia. }
  assert (Hrecv : httpd_post_receive_data [p] (put_hs s h1) =
    if zlen p <=? post_content_len h - r
    then Ok (ERR_OK, put_hs s (received r (take (Z.to_nat (post_content_len h - r - zlen p)) l ++ p ++ drop (Z.to_nat (post_content_len h - r)) l) h))
    else Ok (ERR_VAL, put_hs s h1)).
  { unfold httpd_post_receive_data. rewrite (st_bind_Ok _ _ _ h1 (put_hs s h1)) by done.
    cbn [h1 post_content_len post_content_len_left set_content_len]. rewrite Et.
    destruct (Z.leb_spec (zlen p) (post_content_len h - r)) as [Hle|Hgt].
    - rewrite s32_id by lia. rewrite (proj2 (Z.ltb_ge _ _)) by lia. rewrite u32_id by (red; lia). rewrite (proj2 (Z.ltb_ge _ _)) by lia.
      cbn [orb]. change (post_content h1) with (post_content h). rewrite Hc.
      rewrite (st_bind_Ok _ _ _ p (put_hs s h1)) by (unfold lift; by rewrite rd_n_0).
      unfold wr_n. rewrite decide_True by lia.
      replace (Z.to_nat (post_content_len h - r - zlen p) + length p)%nat with (Z.to_nat (post_content_len h - r)) by lia. reflexivity.
    - assert (E : s32 (u32 (post_content_len h - r - zlen p)) < 0).
      { assert (Eu : u32 (post_content_len h - r - zlen p) = post_content_len h - r - zlen p + 4294967296) by (unfold u32; zdiv).
        rewrite Eu. unfold s32. rewrite u32_id by (red; lia). destruct (Z.ltb_spec (post_content_len h - r - zlen p + 4294967296) 2147483648); lia. }
      rewrite (proj2 (Z.ltb_lt _ _) E). done. }
  destruct (zlen p <=? post_content_len h - r).
  - rewrite (st_bind_Ok _ _ _ _ _ Hrecv). rewrite (st_bind_Ok _ _ _ tt _) by reflexivity.
    unfold finish_when. unfold mbind at 1, st_bind at 1, this at 1. cbn [hs put_hs]. cbn [post_content_len_left received set_content set_content_len].
    unfold mbind, st_bind. destruct (r =? 0); reflexivity.
  - rewrite (st_bind_Ok _ _ _ _ _ Hrecv). change (ERR_VAL =? ERR_OK) with false. cbv iota.
    rewrite (st_bind_Ok _ _ _ tt (put_hs s (received 0 l h))).
    2: { unfold upd. cbn [hs put_hs]. clear -Hc. unfold put_hs, received, h1, set_content, set_content_len. cbn. by rewrite Hc. }
    reflexivity.
Qed.

Lemma rxpbuf_fits uri n got rest h p (s : server) : hs s = Some h → receiving uri n got rest h → zlen p <= zlen rest → zlen p < 65536 →
  ∃ h', receiving uri n (got ++ p) (drop (length p) rest) h' ∧ req h' = req h ∧
    http_post_rxpbuf process [p] s = finish_when (zlen rest =? zlen p) (put_hs s h').
Proof.
  intros Hh (Hf&Hhd&Hu&Hc&Hl&Hn&Hleft&Hnn&Hhdr&Hi&H0) Hp Hp16.
  exists (received (zlen rest - zlen p) ((got ++ p) ++ drop (length p) rest) h). split; [|split; [done|]].
  - do 3 (split; [done|]). split; [done|]. split; [lens|]. split; [done|]. split; [cbn; lens|]. done.
  - rewrite (rxpbuf_eq p s h (got ++ rest) (zlen rest - zlen p)); [|done|done|lia|lia|lia|lia|rewrite Hn, <- Hl; lens|congruence].
    rewrite Hn, <- Hl, (proj2 (Z.leb_le _ _)) by lens.
    replace (zlen rest - zlen p =? 0) with (zlen rest =? zlen p) by (destruct (Z.eqb_spec (zlen rest) (zlen p)); symmetry; [apply Z.eqb_eq|apply Z.eqb_neq]; lia).
    do 3 f_equal. rewrite <- app_assoc. rewrite drop_app_ge by lens. f_equal; [apply take_app_length'; lens|]. do 2 f_equal. lens.
Qed.

Definition post_answer (text : list Z) : list Z :=
  HTTP_HDR_OK ++ HTTP_HDR_CONTENT_LENGTH ++ itoa (zlen text) ++ cr_lf ++ HTTP_CONTENT_TYPE "application/json" ++ text.

Definition answer_400 : list Z := HTTP_HDR_BAD_REQUEST ++ HTTP_HDR_CONN_CLOSE.

(** A connection that begins to send the answer of a handler. *)
Definition answers (current : bool) (answer : option (list Z)) (h : http_state) : Prop :=
  headers_ok h ∧ length_known h ∧ post_content_len_left h = 0 ∧ handle h = None ∧
  match answer with
  | Some text =>
      if current then file h = Some (mkPtr Heap text) ∧ left h = zlen text ∧ unsent h = post_answer text
      else file h = None ∧ left h = 0 ∧ unsent h = answer_400
  | None => file h = None ∧ left h = 0 ∧ unsent h = []
  end.

Lemma c_str_member ds : no_nul ds → c_str (ds ++ cr_lf ++ [0]) = Ok (ds ++ cr_lf).
Proof. intros Hd. rewrite app_assoc. apply c_str_app. apply Forall_app. split; [done|nn]. Qed.

Lemma rom_ok t : no_nul t → 0 < zlen t < 65536 → hdr_ok (rom t).
Proof. intros Ht Hl. exists t. split; [|done]. unfold rom, literal. cbn [p_rest]. by apply c_str_app. Qed.

Lemma answered_answers uri n b h current answer : receiving uri n b [] h → short answer →
  answers current answer (set_content Freed (answered current answer h)).
Proof.
  intros (Hf&Hhd&Hu&Hc&Hl&Hn&Hleft&Hnn&Hhdr&Hi&H0) Ha. assert (Hlen : length (hdrs h) = 6%nat) by (by rewrite Hhdr).
  destruct answer as [text|].
  2: { assert (headers_ok h) by (repeat split; try lia; rewrite Hhdr; by repeat constructor).
       split; [done|]. split; [by right; cbn; rewrite Hhd|]. split; [done|]. split; [done|]. split; [done|]. split; [done|].
       unfold unsent, body, unsent_headers. cbn [hdr_index file set_content answered]. by rewrite Hi, Hf. }
  cbn [short] in Ha. destruct (itoa_ok (zlen text)) as (_&Hdz&Hdl); [lia|]. fold (itoa (zlen text)) in *.
  assert (Hd : c_str (itoa (zlen text) ++ cr_lf ++ [0]) = Ok (itoa (zlen text) ++ cr_lf)) by by apply c_str_member.
  destruct current; cbn [answered].
  - set (h1 := set_hdr_at _ _ _).
    assert (Eh : hdrs h1 = [rom HTTP_HDR_OK; None; rom HTTP_HDR_CONTENT_LENGTH;
      Some (mkPtr Member (itoa (zlen text) ++ cr_lf ++ [0])); rom (HTTP_CONTENT_TYPE "application/json"); None]) by (cbn; by rewrite Hhdr).
    split; [|split; [by left; cbn; rewrite Hhdr|do 2 (split; [done|]); split; [done|split; [done|]]]].
    + split; [cbn [set_content hdrs]; by rewrite Eh|]. cbn [set_content hdrs hdr_index hdr_pos]. rewrite Eh. split; [|split; [done|]].
      * repeat (apply List.Forall_cons); try done; try (apply rom_ok; [nn|by vm_compute]).
        exists (itoa (zlen text) ++ cr_lf). split; [done|]. change (zlen cr_lf) with 2. rewrite length_app. change (length cr_lf) with 2%nat. lia.
      * intros _. by vm_compute.
    + unfold unsent, unsent_headers, hstrs. cbn [set_content hdrs hdr_index hdr_pos]. rewrite Eh.
      change (hdr_index h1) with 0. change (hdr_pos h1) with 0. change (0 <? 6) with true. cbv iota. change (Z.to_nat 0) with 0%nat. rewrite !drop_0. cbn [map concat].
      assert (E3 : hstr (Some (mkPtr Member (itoa (zlen text) ++ cr_lf ++ [0]))) = itoa (zlen text) ++ cr_lf) by (cbn [hstr p_rest]; by rewrite Hd).
      rewrite E3. unfold body. cbn [set_content file left h1 set_hdr_at set_hdr set_response set_file p_rest].
      rewrite take_ge by lia. unfold post_answer. rewrite !app_nil_r. 
      change (hstr (rom HTTP_HDR_OK)) with HTTP_HDR_OK. change (hstr (rom HTTP_HDR_CONTENT_LENGTH)) with HTTP_HDR_CONTENT_LENGTH.
      change (hstr (rom (HTTP_CONTENT_TYPE "application/json"))) with (HTTP_CONTENT_TYPE "application/json"). change (hstr None) with (@nil Z).
      cbn [app]. by rewrite <- !app_assoc.
  - set (h1 := set_hdr_at _ _ _).
    assert (Eh : hdrs h1 = [rom HTTP_HDR_BAD_REQUEST; None; rom HTTP_HDR_CONN_CLOSE; None; None; None]) by (cbn; by rewrite Hhdr).
    split; [|split; [by left; cbn; rewrite Hhdr|do 2 (split; [done|]); split; [done|split; [done|]]]].
    + split; [cbn [set_content hdrs]; by rewrite Eh|]. cbn [set_content hdrs hdr_index hdr_pos]. rewrite Eh. split; [|split; [done|]].
      * repeat (apply List.Forall_cons); try done; apply rom_ok; [nn|by vm_compute|nn|by vm_compute].
      * intros _. by vm_compute.
    + assert (Eb : body (set_content Freed h1) = []) by (unfold body; cbn [set_content file h1 set_hdr_at set_hdr]; by rewrite Hf).
      unfold unsent. rewrite Eb, app_nil_r. unfold unsent_headers, hstrs. cbn [set_content hdrs hdr_index hdr_pos]. rewrite Eh. reflexivity.
Qed.

(** The state of the server when the answer is about to be sent: the handler has been called and [g] is what it left. *)
Definition sends (current : bool) (answer : option (list Z)) (t : T) (g : G) (s : server) : Prop :=
  bytes (pcb s) = bytes t ∧ glob s = g ∧ current_connection s = Nobody ∧ ∃ h, hs s = Some h ∧ answers current answer h.

Definition sends_answer : option (list Z) → T → G → server → Prop := sends true.

Lemma finish_answers uri n b h answer g cur (s : server) : hs s = Some h → receiving uri n b [] h → is_current s = cur →
  process uri b (glob s) = Ok (answer, g) → short answer →
  ∃ s1, finish_when true s = Ok (ERR_OK, s1) ∧ pcb s1 = pcb s ∧ glob s1 = g ∧ current_connection s1 = Nobody ∧
    ∃ h1, hs s1 = Some h1 ∧ answers cur answer h1 ∧ (∀ r, answers cur answer (set_req r h1)).
Proof.
  intros Hh Hr Hcur Hp Ha. destruct (Hr) as (Hf&_&Hu&Hc&Hl&Hn&_&_). rewrite app_nil_r in *.
  unfold finish_when. rewrite (st_bind_Ok _ _ _ _ _ (http_handle_post_finished_spec s h b b answer g Hh Hf Hc
    ltac:(rewrite Hn, <- Hl; by apply rd_n_0) ltac:(by rewrite Hu) Ha)).
  rewrite Hcur in *. eexists. split; [done|]. do 3 (split; [done|]). eexists. split; [done|].
  pose proof (answered_answers uri n b h cur answer Hr Ha) as H. split; [exact H|]. intros r. exact H.
Qed.

(** A segment that is not the last. *)
Lemma http_recv_more uri n got rest h p (s : server) : hs s = Some h → receiving uri n got rest h →
  zlen p < zlen rest → zlen p < 65536 →
  ∃ h' s', http_recv process (Some [p]) ERR_OK s = Ok (tt, s') ∧ hs s' = Some h' ∧
    receiving uri n (got ++ p) (drop (length p) rest) h' ∧
    bytes (pcb s') = bytes (pcb s) ∧ glob s' = glob s ∧ current_connection s' = current_connection s.
Proof.
  intros Hh Hr Hp Hp16. destruct (Hr) as (_&_&_&_&_&_&Hleft&_). unfold http_recv.
  rewrite (st_bind_Ok _ _ _ _ _ (eq_refl : gets hs s = Ok (hs s, s))), Hh.
  set (s1 := mkServer (tcp_recved (tot_len [p]) (pcb s)) (hs s) (current_connection s) (glob s)).
  rewrite (st_bind_Ok _ _ _ tt s1) by done. cbn [negb ERR_OK Z.eqb]. rewrite (proj2 (Z.ltb_lt _ _)) by lia.
  rewrite (st_bind_Ok _ _ _ tt (put_hs s1 (set_retries 0 h))) by (unfold upd, s1; cbn [hs]; by rewrite Hh).
  destruct (rxpbuf_fits uri n got rest (set_retries 0 h) p (put_hs s1 (set_retries 0 h))) as (h'&Hr'&_&E); [done|exact Hr|lia|done|].
  rewrite (proj2 (Z.eqb_neq _ _)) in E by lia.
  rewrite (st_bind_Ok _ _ _ _ _ (E : _ = Ok (ERR_OK, put_hs (put_hs s1 (set_retries 0 h)) h'))).
  rewrite (st_bind_Ok _ _ _ h' _) by done. destruct (Hr') as (_&_&_&_&_&_&Hleft'&_).
  rewrite (proj2 (Z.eqb_neq _ _)) by (rewrite Hleft'; lens).
  exists h', (put_hs (put_hs s1 (set_retries 0 h)) h'). repeat split; try apply Hr'; try done. apply recved_bytes.
Qed.

(** The last segment. *)
Lemma http_recv_last uri n got rest h p answer g cur (s : server) : hs s = Some h → receiving uri n got rest h →
  zlen p = zlen rest → 0 < zlen p < 65536 → is_current s = cur → process uri (got ++ p) (glob s) = Ok (answer, g) → short answer →
  ∃ s1, http_recv process (Some [p]) ERR_OK s = (http_send process;; mret tt) s1 ∧ sends cur answer (pcb s) g s1.
Proof.
  intros Hh Hr Hp Hp16 Hcur Hproc Ha. destruct (Hr) as (_&_&_&_&_&_&Hleft&_). unfold http_recv.
  rewrite (st_bind_Ok _ _ _ _ _ (eq_refl : gets hs s = Ok (hs s, s))), Hh.
  set (s1 := mkServer (tcp_recved (tot_len [p]) (pcb s)) (hs s) (current_connection s) (glob s)).
  rewrite (st_bind_Ok _ _ _ tt s1) by done. cbn [negb ERR_OK Z.eqb]. rewrite (proj2 (Z.ltb_lt _ _)) by lia.
  rewrite (st_bind_Ok _ _ _ tt (put_hs s1 (set_retries 0 h))) by (unfold upd, s1; cbn [hs]; by rewrite Hh).
  destruct (rxpbuf_fits uri n got rest (set_retries 0 h) p (put_hs s1 (set_retries 0 h))) as (h'&Hr'&_&E); [done|exact Hr|lia|lia|].
  rewrite drop_ge in Hr' by lia. rewrite (proj2 (Z.eqb_eq _ _)) in E by lia.
  destruct (finish_answers uri n (got ++ p) h' answer g cur (put_hs (put_hs s1 (set_retries 0 h)) h')) as (s2&E2&Hpcb&Hg&Hc&h1&Hh1&Hans&_);
    [done..|]. rewrite E2 in E. rewrite (st_bind_Ok _ _ _ _ _ E).
  rewrite (st_bind_Ok _ _ _ h1 s2) by (unfold this; by rewrite Hh1).
  assert (Hz : post_content_len_left h1 = 0) by apply Hans. rewrite Hz. cbn [Z.eqb].
  exists s2. split; [done|]. split; [rewrite Hpcb; apply recved_bytes|]. split; [done|]. split; [done|]. by exists h1.
Qed.

Lemma recv_body uri n ps got rest h answer g cur (s : server) : hs s = Some h → receiving uri n got rest h → ps ≠ [] →
  Forall (λ p, 0 < zlen p < 65536) ps → zlen (concat ps) = zlen rest → is_current s = cur →
  process uri (got ++ concat ps) (glob s) = Ok (answer, g) → short answer →
  ∃ s1, recv_all process ps s = (http_send process;; mret tt) s1 ∧ sends cur answer (pcb s) g s1.
Proof.
  revert got rest h s. induction ps as [|p ps IH]; intros got rest h s Hh Hr Hne Hall Hl Hcur Hp Ha; [done|].
  apply Forall_cons in Hall as [Hp0 Hall']. cbn [concat] in *. rewrite length_app in Hl. destruct ps as [|p2 ps].
  - cbn [concat] in *. rewrite app_nil_r in Hp. destruct (http_recv_last uri n got rest h p answer g cur s) as (s1&E&Hs); [try done..|].
    { cbn in Hl. lia. }
    exists s1. split; [|done]. cbn [recv_all]. unfold mbind, st_bind in *. rewrite E. by destruct (http_send process s1) as [[? ?]| |].
  - assert (0 < length p2)%nat by (inversion Hall'; subst; lia).
    destruct (http_recv_more uri n got rest h p s) as (h'&s'&E&Hh'&Hr'&Hb'&Hg'&Hc'); [done|done| |lia|].
    { cbn [concat] in Hl. rewrite length_app in Hl. lia. }
    rewrite app_assoc in Hp. destruct (IH (got ++ p) (drop (length p) rest) h' s') as (s1&E1&Hb1&Hs1); [done|done|done|done| | |by rewrite Hg'|done|].
    { lens. }
    { unfold is_current. by rewrite Hc'. }
    exists s1. split; [|split; [congruence|done]]. cbn [recv_all]. unfold mbind at 1, st_bind at 1. by rewrite E.
Qed.

(** ** A request *)

Lemma host_of_first d junk len : no_nul d → has_host d → zlen d <= len → ∃ host, host_of (d ++ junk) len = Ok (Some host).
Proof.
  intros Hd (i&j&Hi&Hij&Hj) Hl. unfold host_of. fold HOST. assert (0 <= i) by apply Hi.
  pose proof (occurs_len _ _ _ Hi ltac:(done)) as Hli. pose proof (occurs_len _ _ _ Hj ltac:(done)) as Hlj.
  destruct (strnstr_first d junk 0 HOST len i) as (k&->&Hk&Hok&_); [done|nn|done|lia|done|lia|].
  cbn [mbind outcome_bind]. pose proof (occurs_len _ _ _ Hok ltac:(done)) as Hlen. change (zlen HOST) with 6 in *. change (zlen cr_lf) with 2 in *.
  destruct (strnstr_first d junk (k + 6) cr_lf (len - (k + 6)) j) as (e&->&He&Hoe&_); [done|nn|done|lia|done|change (zlen cr_lf) with 2; lia|].
  cbn [mbind outcome_bind]. change (HOST_SIZE - 1) with 31. unfold rd_n. rewrite decide_True by lens. by eexists.
Qed.

(** The state once the header is read: the body is to come. *)
Definition begun (uri : list Z) (n : Z) (h : http_state) : http_state :=
  set_content_len n n (set_post (strncpy uri POST_URI_SIZE) (Block (fresh n)) n h).

Lemma begun_receiving uri n q : zlen (fresh n) = n → 0 < n < 1000000000 →
  receiving (strncpy uri POST_URI_SIZE) n [] (fresh n) (begun uri n (waiting q)).
Proof. intros Hf Hn. repeat split; try done; try lia. Qed.

Lemma skip_header_one d b : zlen d < 65536 → 0 < zlen d → skip_header (zlen d) [d ++ b] = match b with [] => [] | _ => [b] end.
Proof.
  intros Hl H0. cbn [skip_header]. destruct b as [|x b].
  - rewrite app_nil_r, (proj2 (Z.leb_le _ _)) by lia. done.
  - rewrite (proj2 (Z.leb_gt _ _)) by lens. by rewrite drop_app_length' by lia.
Qed.

Lemma http_post_request_spec uri n d b rest q (s : server) h : post_header uri n d → no_nul uri → zlen (d ++ b) < 65536 → hs s = Some h →
  q = [d ++ b] →
  http_post_request process q (d ++ b) (zlen (d ++ b)) (literal uri ++ rest) (5 + zlen uri) s =
  (match b with [] => mret ERR_OK | _ => http_post_rxpbuf process [b] end) (mkServer (pcb s) (Some (begun uri n h)) This (glob s)).
Proof.
  intros (Hd&_&_&_&Hl&Hend&Hno&(i&ds&Hi&Hcl&Hil&Hcl1&Hds&Hdl&Hv&Hn)) Hz Hlen Hh ->. unfold http_post_request.
  change (cr_lf ++ cr_lf) with CRLFCRLF. replace (5 + zlen uri + 1) with (6 + zlen uri) by lia.
  assert (Hlb : zlen d <= zlen (d ++ b)) by lens.
  destruct (strnstr_first d b (6 + zlen uri) CRLFCRLF (zlen (d ++ b) - (6 + zlen uri)) (zlen d - 4)) as (k&E&Hk&Hok&_);
    [done|nn|done|lia|done|change (zlen CRLFCRLF) with 4; lia|].
  assert (k = zlen d - 4) as -> by (destruct (Z.lt_trichotomy k (zlen d - 4)) as [Hlt|[?|?]]; [by destruct (Hno k Hlt)|done|lia]).
  rewrite (st_bind_Ok _ _ _ (Some (zlen d - 4)) s) by (unfold lift; by rewrite E).
  pose proof (occurs_prefix_of _ _ _ _ Hcl) as Hcl0.
  destruct (strnstr_first d b (6 + zlen uri) HTTP_HDR_CONTENT_LENGTH (zlen d - 4 - (6 + zlen uri)) i) as (k&E2&Hk2&Hok2&_);
    [done|nn|done|lia|done|change (zlen HTTP_HDR_CONTENT_LENGTH) with 16; lia|].
  assert (k = i) as -> by (destruct (Z.lt_trichotomy k i) as [Hlt|[?|?]]; [by destruct (Hcl1 k ltac:(lia))|done|lia]).
  rewrite (st_bind_Ok _ _ _ (Some i) s) by (unfold lift; by rewrite E2).
  assert (Hi0 : 0 <= i) by lia.
  assert (Hdrop : drop (Z.to_nat (i + 16)) d = (ds ++ cr_lf) ++ drop (Z.to_nat (i + 16) + length (ds ++ cr_lf)) d)
    by (by apply (occurs_after d HTTP_HDR_CONTENT_LENGTH)).
  assert (Hcr : occurs d cr_lf (i + 16 + zlen ds)).
  { split; [lia|]. replace (Z.to_nat (i + 16 + zlen ds)) with (Z.to_nat (i + 16) + length ds)%nat by lia.
    by rewrite <- drop_drop, Hdrop, <- app_assoc, drop_app_length, take_app_length'. }
  destruct (strnstr_first d b (i + 16) cr_lf 10 (i + 16 + zlen ds)) as (e&E3&_); [done|nn|done|lia|done|change (zlen cr_lf) with 2; lia|].
  change HTTP_HDR_CONTENT_LEN_DIGIT_MAX_LEN with 10.
  rewrite (st_bind_Ok _ _ _ (Some e) s) by (unfold lift; by rewrite E3).
  rewrite drop_app_le by lia. rewrite Hdrop, <- !app_assoc.
  rewrite (st_bind_Ok _ _ _ n s) by (unfold lift; rewrite parse_content_len_spec by (done || lia); by rewrite Hv).
  rewrite (proj2 (Z.leb_le _ _)) by lia.
  replace (zlen d - 4 + 4) with (zlen d) by lia. rewrite Z.min_r by lia. rewrite (u16_id (zlen d)) by (red; lia).
  rewrite (st_bind_Ok _ _ _ ERR_OK (mkServer (pcb s) (Some (set_post (strncpy uri POST_URI_SIZE) (Block (fresh n)) n h)) This (glob s))).
  2: { unfold httpd_post_begin. rewrite (st_bind_Ok _ _ _ uri s).
       2: { unfold lift, literal. rewrite <- app_assoc. cbn [app]. by rewrite c_str_app. }
       unfold mbind, st_bind, set_current, modify, upd. rewrite Hh. cbn [hs pcb current_connection glob].
       by rewrite (proj2 (Z.ltb_lt _ _)) by done. }
  rewrite (st_bind_Ok _ _ _ tt (mkServer (pcb s) (Some (begun uri n h)) This (glob s))) by done.
  rewrite skip_header_one by lia. destruct b as [|x b]; [|done]. by rewrite (proj2 (Z.eqb_neq _ _)) by lia.
Qed.

Lemma post_uri_no_nul uri n d : post_header uri n d → no_nul uri ∧ 12 <= zlen d.
Proof.
  intros (Hd&[tl Ed]&_&_&_&_&_&(i&ds&Hi&_&Hil&_)). split; [|lia].
  rewrite Ed in Hd. apply Forall_app in Hd as [_ Hd]. by apply Forall_app in Hd as [Hd _].
Qed.

(** [http_parse_request] hands the POST on. *)
Lemma parse_data_post uri n d b (s : server) h : for_us d → post_header uri n d → zlen (d ++ b) < 65536 → hs s = Some h →
  ∃ rest, parse_data process (d ++ b) (zlen (d ++ b)) s =
    (err ← http_post_request process (req h) (d ++ b) (zlen (d ++ b)) (literal uri ++ rest) (5 + zlen uri);
     if err =? ERR_ARG then http_find_error_file 400 else mret err) s.
Proof.
  intros Hic Hph Hlen Hh. destruct (post_uri_no_nul _ _ _ Hph) as [Hz Hl12]. destruct Hph as (Hd&(tl&Ed)&Hsp&Hhost&Hl&Hend&_).
  assert (Hlb : zlen d <= zlen (d ++ b)) by lens.
  unfold parse_data. change MIN_REQ_LEN with 7. rewrite (proj2 (Z.ltb_ge _ _)) by lia.
  destruct (strnstr_first d b 0 cr_lf (zlen (d ++ b)) (zlen d - 4)) as (k&E&_);
    [done|nn|done|lia|by apply occurs_cr_lf|change (zlen cr_lf) with 2; lia|].
  rewrite (st_bind_Ok _ _ _ (Some k) s) by (unfold lift; by rewrite E).
  rewrite (st_bind_Ok _ _ _ false s) by (unfold lift; rewrite Ed, <- !app_assoc; reflexivity).
  rewrite (st_bind_Ok _ _ _ true s) by (unfold lift; rewrite Ed, <- !app_assoc; reflexivity). cbn [negb andb].
  destruct (host_of_first d b (zlen (d ++ b)) Hd Hhost Hlb) as (host&Ehost).
  rewrite (st_bind_Ok _ _ _ (Some host) s) by (unfold lift; by rewrite Ehost).
  rewrite (st_bind_Ok _ _ _ true s) by (unfold lift; by rewrite (Hic b host)). cbn [negb].
  unfold parse_uri. change (4 + 1) with 5. rewrite (u16_id (zlen (d ++ b) - 5)) by (red; lia).
  assert (Hspace : occurs d (chars " ") (5 + zlen uri)).
  { split; [lia|]. rewrite Ed. replace (Z.to_nat (5 + zlen uri)) with (length (POST ++ uri)) by (rewrite length_app; change (length POST) with 5%nat; lia).
    by rewrite app_assoc, drop_app_length. }
  pose proof (occurs_len _ _ _ Hspace ltac:(done)) as Hspl. change (zlen (chars " ")) with 1 in Hspl.
  destruct (strnstr_first d b 5 (chars " ") (zlen (d ++ b) - 5) (5 + zlen uri)) as (sp&Esp&Hs5&Hso&_);
    [done|nn|done|lia|done|change (zlen (chars " ")) with 1; lia|].
  assert (sp = 5 + zlen uri) as ->.
  { destruct (Z.eq_dec sp (5 + zlen uri)); [done|]. exfalso. apply Hsp. apply occurs_single in Hso as [_ Ho].
    rewrite Ed, lookup_app_r in Ho by (change (length POST) with 5%nat; lia).
    rewrite lookup_app_l in Ho by (change (length POST) with 5%nat; lia). by eapply list_elem_of_lookup_2. }
  rewrite (st_bind_Ok _ _ _ (Some (5 + zlen uri)) s) by (unfold lift; by rewrite Esp).
  rewrite (st_bind_Ok _ _ _ (Some (5 + zlen uri)) s) by done. cbn [andb].
  destruct (strnstr_first d b 0 CRLFCRLF (zlen (d ++ b)) (zlen d - 4)) as (e&E'&_);
    [done|nn|done|lia|done|change (zlen CRLFCRLF) with 4; lia|]. fold CRLFCRLF.
  rewrite (st_bind_Ok _ _ _ (Some e) s) by (unfold lift; by rewrite E').
  assert (Huri : take (Z.to_nat (u16 (5 + zlen uri - 5))) (drop (Z.to_nat 5) (d ++ b)) = uri).
  { rewrite u16_id by (red; lia). replace (5 + zlen uri - 5) with (zlen uri) by lia.
    rewrite Ed, <- !app_assoc. change (Z.to_nat 5) with (length POST). rewrite drop_app_length. apply take_app_length'. lia. }
  rewrite Huri. eexists. rewrite (st_bind_Ok _ _ _ h s) by (unfold this; by rewrite Hh). reflexivity.
Qed.

(** The first segment, with the header and perhaps a part of the body. *)
Lemma http_recv_header uri n d b (s : server) : for_us d → zlen (fresh n) = n → post_header uri n d →
  zlen (d ++ b) < 65536 → n < 1000000000 → hs s = Some (waiting []) →
  http_recv process (Some [d ++ b]) ERR_OK s =
  (match b with [] => mret ERR_OK | _ => http_post_rxpbuf process [b] end;;
   upd (set_req []);; h ← this; if post_content_len_left h =? 0 then http_send process;; mret tt else mret tt)
    (mkServer (tcp_recved (tot_len [d ++ b]) (pcb s)) (Some (begun uri n (waiting [d ++ b]))) This (glob s)).
Proof.
  intros Hic Hfresh Hph Hlen Hn Hh. destruct (post_uri_no_nul _ _ _ Hph) as [Hz _]. unfold http_recv.
  rewrite (st_bind_Ok _ _ _ _ _ (eq_refl : gets hs s = Ok (hs s, s))), Hh.
  set (s1 := mkServer (tcp_recved (tot_len [d ++ b]) (pcb s)) (hs s) (current_connection s) (glob s)).
  rewrite (st_bind_Ok _ _ _ tt s1) by done. cbn [negb ERR_OK Z.eqb].
  change (0 <? post_content_len_left (waiting [])) with false. change (handle (waiting [])) with (@None fs_file). cbv iota.
  unfold mbind at 1, st_bind at 1. rewrite (http_parse_request_eq process [d ++ b] s1 (waiting [])) by done.
  change (req (waiting []) ++ [d ++ b]) with [d ++ b]. change (set_req [d ++ b] (waiting [])) with (waiting [d ++ b]).
  rewrite (st_bind_Ok _ _ _ (d ++ b, zlen (d ++ b)) (put_hs s1 (waiting [d ++ b]))) by done. cbn [fst snd].
  destruct (parse_data_post uri n d b (put_hs s1 (waiting [d ++ b])) (waiting [d ++ b]) Hic Hph Hlen eq_refl) as [rest E].
  rewrite E. set (R := match b with [] => mret ERR_OK | _ => http_post_rxpbuf process [b] end). cbn [pcb glob s1]. set (s3 := mkServer _ _ This _).
  assert (Hok : ∀ err s4, R s3 = Ok (err, s4) → err = ERR_OK).
  { intros err s4. unfold R. destruct b; [by intros [= <-]|]. unfold http_post_rxpbuf. intros H.
    apply st_bind_inv in H as (?&?&_&H). apply st_bind_inv in H as (?&?&_&H). apply st_bind_inv in H as (?&?&_&H).
    apply st_bind_inv in H as (?&?&_&H). apply st_bind_inv in H as (?&?&_&H). by injection H as <-. }
  assert (E2 : (err ← http_post_request process (req (waiting [d ++ b])) (d ++ b) (zlen (d ++ b)) (literal uri ++ rest) (5 + zlen uri);
     if err =? ERR_ARG then http_find_error_file 400 else mret err) (put_hs s1 (waiting [d ++ b])) = R s3).
  { unfold mbind, st_bind.
    rewrite (http_post_request_spec uri n d b rest (req (waiting [d ++ b])) (put_hs s1 (waiting [d ++ b])) (waiting [d ++ b]) Hph Hz Hlen eq_refl eq_refl).
    change (mkServer _ _ This _) with s3. fold R. destruct (R s3) as [[err s4]| |] eqn:ER; [|done..]. by rewrite (Hok err s4). }
  rewrite E2. destruct (R s3) as [[err s4]| |] eqn:ER.
  - rewrite (Hok err s4 eq_refl) in *. by rewrite (st_bind_Ok _ _ _ _ _ ER).
  - by rewrite (st_bind_Ub _ _ _ ER).
  - unfold mbind, st_bind. by rewrite ER.
Qed.

Lemma recv_first uri n d b (s : server) : hs s = Some (waiting []) → for_us d → zlen (fresh n) = n → post_header uri n d →
  zlen (d ++ b) < 65536 → 0 < n < 1000000000 → zlen b < n →
  ∃ s' h' rest, http_recv process (Some [d ++ b]) ERR_OK s = Ok (tt, s') ∧ hs s' = Some h' ∧
    receiving (strncpy uri POST_URI_SIZE) n b rest h' ∧ bytes (pcb s') = bytes (pcb s) ∧ glob s' = glob s ∧ current_connection s' = This.
Proof.
  intros Hs Hic Hfresh Hph Hlen Hn Hb.
  rewrite (http_recv_header uri n d b s Hic Hfresh Hph Hlen (proj2 Hn) Hs). set (s3 := mkServer _ _ This _).
  pose proof (begun_receiving uri n [d ++ b] Hfresh Hn) as Hrec. set (h3 := begun uri n (waiting [d ++ b])) in *.
  assert (Hend : ∀ got rest h4 s4, hs s4 = Some h4 → receiving (strncpy uri POST_URI_SIZE) n got rest h4 → 0 < zlen rest →
     (upd (set_req []);; h ← this; if post_content_len_left h =? 0 then http_send process;; mret tt else mret tt) s4 =
     Ok (tt, put_hs s4 (set_req [] h4))).
  { intros got rest h4 s4 Hh4 Hr4 Hrest. rewrite (st_bind_Ok _ _ _ tt (put_hs s4 (set_req [] h4))) by (unfold upd; by rewrite Hh4).
    rewrite (st_bind_Ok _ _ _ (set_req [] h4) _) by done. destruct Hr4 as (_&_&_&_&_&_&Hleft&_).
    change (post_content_len_left (set_req [] h4)) with (post_content_len_left h4). by rewrite (proj2 (Z.eqb_neq _ _)) by lia. }
  destruct b as [|x b].
  - rewrite (st_bind_Ok _ _ _ ERR_OK s3) by done. rewrite (Hend [] (fresh n) h3 s3) by (done || lia).
    exists (put_hs s3 (set_req [] h3)), (set_req [] h3), (fresh n). split; [done|]. split; [done|]. split; [exact Hrec|].
    split; [apply recved_bytes|done].
  - set (b1 := x :: b) in *. assert (zlen b1 <= zlen (d ++ b1)) by lens.
    destruct (rxpbuf_fits _ n [] (fresh n) h3 b1 s3 eq_refl Hrec) as (h'&Hr'&_&E); [lia|lia|].
    rewrite (proj2 (Z.eqb_neq _ _)) in E by lia. rewrite (st_bind_Ok _ _ _ _ _ E).
    rewrite (Hend b1 (drop (length b1) (fresh n)) h' (put_hs s3 h')) by (done || lens).
    exists (put_hs (put_hs s3 h') (set_req [] h')), (set_req [] h'), (drop (length b1) (fresh n)).
    split; [done|]. split; [done|]. split; [exact Hr'|]. split; [apply recved_bytes|done].
Qed.

Lemma recv_whole uri n d b answer g g0 t : for_us d → zlen (fresh n) = n → post_header uri n d →
  zlen (d ++ b) < 65536 → 0 < n < 1000000000 → zlen b = n →
  process (strncpy uri POST_URI_SIZE) b g0 = Ok (answer, g) → short answer →
  ∃ s1, http_recv process (Some [d ++ b]) ERR_OK (http_accept t g0) = (http_send process;; mret tt) s1 ∧ sends_answer answer t g s1.
Proof.
  intros Hic Hfresh Hph Hlen Hn Hb Hproc Ha.
  rewrite (http_recv_header uri n d b (http_accept t g0) Hic Hfresh Hph Hlen (proj2 Hn) eq_refl). set (s3 := mkServer _ _ This _).
  pose proof (begun_receiving uri n [d ++ b] Hfresh Hn) as Hrec. set (h3 := begun uri n (waiting [d ++ b])) in *.
  destruct b as [|x b]; [cbn in Hb; lia|]. set (b1 := x :: b) in *. assert (zlen b1 <= zlen (d ++ b1)) by lens.
  destruct (rxpbuf_fits _ n [] (fresh n) h3 b1 s3 eq_refl Hrec) as (h'&Hr'&_&E); [lia|lia|].
  rewrite (proj2 (Z.eqb_eq _ _)) in E by lia. rewrite drop_ge in Hr' by lia. cbn [app] in Hr'.
  destruct (finish_answers _ n b1 h' answer g true (put_hs s3 h') eq_refl Hr' eq_refl Hproc Ha) as (s2&E2&Hpcb&Hg&Hc&h1&Hh1&_&Hans).
  rewrite E2 in E. rewrite (st_bind_Ok _ _ _ _ _ E).
  rewrite (st_bind_Ok _ _ _ tt (put_hs s2 (set_req [] h1))) by (unfold upd; by rewrite Hh1).
  rewrite (st_bind_Ok _ _ _ (set_req [] h1) _) by done.
  assert (Hz : post_content_len_left (set_req [] h1) = 0) by apply (Hans []). rewrite Hz. cbn [Z.eqb].
  exists (put_hs s2 (set_req [] h1)). split; [done|]. split; [cbn [put_hs pcb]; rewrite Hpcb; apply recved_bytes|].
  split; [done|]. split; [done|]. eexists. split; [done|apply Hans].
Qed.

Lemma post_handled uri n d b ps answer g0 g t : for_us d → zlen (fresh n) = n →
  post_header uri n d → n < 1000000000 → zlen (d ++ b) < 65536 → Forall (λ p, 0 < zlen p < 65536) ps →
  zlen (b ++ concat ps) = n → process (strncpy uri POST_URI_SIZE) (b ++ concat ps) g0 = Ok (answer, g) → short answer →
  ∃ s1, recv_all process ((d ++ b) :: ps) (http_accept t g0) = (http_send process;; mret tt) s1 ∧ sends_answer answer t g s1.
Proof.
  intros Hic Hfresh Hph Hn Hlen Hall Hbody Hproc Ha.
  assert (Hn0 : 0 < n < 1000000000) by (destruct Hph as (_&_&_&_&_&_&_&(?&?&_&_&_&_&_&_&_&?)); done).
  destruct ps as [|p ps].
  - cbn [concat] in *. rewrite app_nil_r in *.
    destruct (recv_whole uri n d b answer g g0 t) as (s1&E&Hs); [done..|]. exists s1. split; [|done].
    cbn [recv_all]. unfold mbind at 1, st_bind at 1. rewrite E. unfold mbind, st_bind. by destruct (http_send process s1) as [[? ?]| |].
  - assert (Hp : 0 < zlen p < 65536) by (by inversion Hall). cbn [concat] in Hbody.
    destruct (recv_first uri n d b (http_accept t g0)) as (s'&h'&rest&E&Hh'&Hr'&Hb'&Hg'&Hc'); [done..|lens|].
    cbn [recv_all]. rewrite (st_bind_Ok _ _ _ _ _ E). fold (recv_all process (p :: ps)).
    destruct (recv_body _ n (p :: ps) b rest h' answer g true s' Hh' Hr') as (s1&E1&Hb1&Hs1); [done|done| |unfold is_current; by rewrite Hc'|by rewrite Hg'|done|].
    { destruct Hr' as (_&_&_&_&Hl&_). rewrite length_app in Hl. cbn [concat]. rewrite length_app in Hbody. lia. }
    exists s1. split; [done|]. split; [by rewrite Hb1, Hb'|done].
Qed.

(** C15: What is posted reaches its handler.  The body of a POST is put together from the segments it comes in - the first
    with the header and any part of the body - and its handler is called once, with the address and exactly the body; then
    the server sends what the handler answers, with its length in the header, and nothing before. *)
Theorem post_reaches_its_handler uri n d b ps answer g0 g t : for_us d → zlen (fresh n) = n →
  post_header uri n d → n < 1000000000 → zlen (d ++ b) < 65536 → Forall (λ p, 0 < zlen p < 65536) ps →
  zlen (b ++ concat ps) = n → process (strncpy uri POST_URI_SIZE) (b ++ concat ps) g0 = Ok (answer, g) → short answer →
  ∃ s1, recv_all process ((d ++ b) :: ps) (http_accept t g0) = (http_send process;; mret tt) s1 ∧ sends_answer answer t g s1.
Proof. apply post_handled. Qed.

(** ** Bodies that do not fit *)

(** What the handler gets when a segment [p] is longer than what is left of a body: a segment that would have fitted the
    buffer ends with it, over what came before; any other is ignored. *)
Definition overrun (n : Z) (got rest p : list Z) : list Z :=
  if zlen p <=? n then take (Z.to_nat (n - zlen p)) got ++ p else got ++ rest.

Lemma finish_overrun uri n l h answer g (s : server) cur : hs s = Some h → file h = None → handle h = None → post_uri h = uri →
  post_content h = Block l → zlen l = n → post_content_len h = n → post_content_len_left h = 0 → 0 < n < 1000000000 →
  hdrs h = replicate 6 None → hdr_index h = 6 → left h = 0 → is_current s = cur →
  process uri l (glob s) = Ok (answer, g) → short answer →
  ∃ s1 h1, finish_when true s = Ok (ERR_OK, s1) ∧ pcb s1 = pcb s ∧ glob s1 = g ∧ current_connection s1 = Nobody ∧ hs s1 = Some h1 ∧ answers cur answer h1.
Proof.
  intros Hh Hf Hhd Hu Hc Hl Hn H0 Hnn Hhdr Hi Hlf <- Hp Ha. unfold finish_when.
  rewrite (st_bind_Ok _ _ _ _ _ (http_handle_post_finished_spec s h l l answer g Hh Hf Hc
    ltac:(rewrite Hn, <- Hl; by apply rd_n_0) ltac:(by rewrite Hu) Ha)).
  eexists _, _. split; [done|]. do 3 (split; [done|]). split; [done|]. apply (answered_answers uri n l); [|done].
  unfold receiving. rewrite app_nil_r. by repeat (split; [done|]).
Qed.

(** A body that is longer than its Content-Length is not cut off: the segment with the excess overwrites the end of what
    came before, or is dropped as a whole so that the rest of the buffer is what the heap left in it, and the handler is
    called with the result all the same. *)
Theorem excess_corrupts_the_body uri n got rest h p answer g (s : server) : hs s = Some h → receiving uri n got rest h →
  0 < zlen rest < zlen p → zlen p < 65536 → is_current s = true → process uri (overrun n got rest p) (glob s) = Ok (answer, g) → short answer →
  ∃ s1, http_recv process (Some [p]) ERR_OK s = (http_send process;; mret tt) s1 ∧ sends_answer answer (pcb s) g s1.
Proof.
  intros Hh Hr Hp Hp16 Hcur Hproc Ha. destruct (Hr) as (Hf&Hhd&Hu&Hc&Hl&Hn&Hleft&Hnn&Hhdr&Hi&H0). unfold http_recv.
  rewrite (st_bind_Ok _ _ _ _ _ (eq_refl : gets hs s = Ok (hs s, s))), Hh.
  set (s1 := mkServer (tcp_recved (tot_len [p]) (pcb s)) (hs s) (current_connection s) (glob s)).
  rewrite (st_bind_Ok _ _ _ tt s1) by done. cbn [negb ERR_OK Z.eqb]. rewrite (proj2 (Z.ltb_lt _ _)) by lia.
  set (h2 := set_retries 0 h). set (s2 := put_hs s1 h2).
  rewrite (st_bind_Ok _ _ _ tt s2) by (unfold upd, s1; cbn [hs]; by rewrite Hh).
  assert (E : ∃ s3 h3, http_post_rxpbuf process [p] s2 = Ok (ERR_OK, s3) ∧ pcb s3 = pcb s2 ∧ glob s3 = g ∧ current_connection s3 = Nobody ∧ hs s3 = Some h3 ∧ answers true answer h3).
  { rewrite (rxpbuf_eq p s2 h2 (got ++ rest) 0); [|done|done|cbn; lia|lia|cbn; lia|cbn; lia|cbn; lia|cbn; congruence].
    change (post_content_len h2) with (post_content_len h). rewrite Hn, Z.sub_0_r. unfold overrun in Hproc. rewrite length_app in Hl.
    destruct (Z.leb_spec (zlen p) n).
    - rewrite take_app_le by lia. rewrite (drop_ge (got ++ rest)), app_nil_r by lens. change (0 =? 0) with true.
      set (h3 := received _ _ _). destruct (finish_overrun uri n (take (Z.to_nat (n - zlen p)) got ++ p) h3 answer g (put_hs s2 h3) true)
        as (s3&h4&?&?&?&?&?&?); try done; [lens|]. by exists s3, h4.
    - set (h3 := received _ _ _). destruct (finish_overrun uri n (got ++ rest) h3 answer g (put_hs s2 h3) true)
        as (s3&h4&?&?&?&?&?&?); try done; [lens|]. by exists s3, h4. }
  destruct E as (s3&h3&E&Hpcb&Hg&Hc3&Hh3&Hans). rewrite (st_bind_Ok _ _ _ _ _ E).
  rewrite (st_bind_Ok _ _ _ h3 s3) by (unfold this; by rewrite Hh3).
  assert (Hz : post_content_len_left h3 = 0) by apply Hans. rewrite Hz. cbn [Z.eqb].
  exists s3. split; [done|]. split; [rewrite Hpcb; apply recved_bytes|]. split; [done|]. split; [done|]. by exists h3.
Qed.

(** A POST that is broken off is carried out: when the peer closes the connection before the body is complete, the
    handler is called with what has come and, for the rest, the bytes the heap left in the buffer. *)
Theorem broken_off_post_is_carried_out uri n got rest h answer g (s : server) : hs s = Some h → receiving uri n got rest h →
  0 < zlen rest → process uri (got ++ rest) (glob s) = Ok (answer, g) → short answer →
  ∃ s', http_recv process None ERR_OK s = Ok (tt, s') ∧ hs s' = None ∧ glob s' = g ∧ bytes (pcb s') = bytes (pcb s).
Proof.
  intros Hh (Hf&Hhd&Hu&Hc&Hl&Hn&Hleft&_) Hrest Hp Ha. unfold http_recv.
  rewrite (st_bind_Ok _ _ _ _ _ (eq_refl : gets hs s = Ok (hs s, s))). unfold http_close_conn.
  assert (E : httpd_post_finished process s =
    Ok (tt, mkServer (pcb s) (Some (set_content Freed (answered (is_current s) answer h))) Nobody g)).
  { pose proof (http_handle_post_finished_spec s h (got ++ rest) (got ++ rest) answer g Hh Hf Hc
      ltac:(rewrite Hn, <- Hl; by apply rd_n_0) ltac:(by rewrite Hu) Ha) as E.
    unfold http_handle_post_finished in E. rewrite (st_bind_Ok _ _ _ h s) in E by (unfold this; by rewrite Hh). by rewrite Hf in E. }
  unfold mbind at 1, st_bind at 1. rewrite (st_bind_Ok _ _ _ _ _ (eq_refl : gets hs s = Ok (hs s, s))), Hh.
  rewrite (proj2 (Z.eqb_neq _ _)) by lia. cbn [negb]. rewrite (st_bind_Ok _ _ _ _ _ E).
  set (s1 := mkServer _ _ _ _). rewrite (st_bind_Ok _ _ _ tt (mkServer (pcb s) None Nobody g)) by done.
  unfold call. cbn [pcb hs current_connection glob]. pose proof (close_law (pcb s)) as Hcl. destruct (tcp_close (pcb s)) as [e t].
  eexists. split; [done|]. split; [done|]. split; [done|]. cbn [pcb]. unfold bytes. by rewrite Hcl.
Qed.

(** A segment of a body in a chain of pbufs is read beyond the first of them: [httpd_post_receive_data] copies the
    length of the chain from the payload of its first pbuf. *)
Theorem chained_body_is_overread uri n got rest h p ps (s : server) : hs s = Some h → receiving uri n got rest h →
  zlen p < zlen (concat (p :: ps)) <= zlen rest → zlen (concat (p :: ps)) < 65536 →
  http_recv process (Some (p :: ps)) ERR_OK s = Ub.
Proof.
  intros Hh (Hf&Hhd&Hu&Hc&Hl&Hn&Hleft&Hnn&_) Hp Hp16. unfold http_recv.
  rewrite (st_bind_Ok _ _ _ _ _ (eq_refl : gets hs s = Ok (hs s, s))), Hh.
  set (q := p :: ps) in *. set (s1 := mkServer (tcp_recved (tot_len q) (pcb s)) (hs s) (current_connection s) (glob s)).
  rewrite (st_bind_Ok _ _ _ tt s1) by done. cbn [negb ERR_OK Z.eqb]. rewrite (proj2 (Z.ltb_lt _ _)) by lia.
  set (h2 := set_retries 0 h). rewrite (st_bind_Ok _ _ _ tt (put_hs s1 h2)) by (unfold upd, s1; cbn [hs]; by rewrite Hh).
  apply st_bind_Ub. unfold http_post_rxpbuf.
  assert (Et : tot_len q = zlen (concat q)) by (unfold tot_len; apply u16_id; red; lia).
  set (h3 := set_content_len n (zlen rest - zlen (concat q)) h2).
  rewrite (st_bind_Ok _ _ _ tt (put_hs s1 h3)).
  2: { unfold upd, put_hs. cbn [hs]. rewrite Et. change (post_content_len_left h2) with (post_content_len_left h). rewrite Hleft, (proj2 (Z.ltb_ge _ _)) by lia.
       change (post_content_len h2) with (post_content_len h). by rewrite Hn. }
  apply st_bind_Ub. unfold httpd_post_receive_data. rewrite (st_bind_Ok _ _ _ h3 (put_hs s1 h3)) by done.
  cbn [h3 post_content_len post_content_len_left set_content_len]. rewrite Et. rewrite length_app in Hl.
  rewrite s32_id by lia. rewrite (proj2 (Z.ltb_ge _ _)) by lia. rewrite u32_id by (red; lia). rewrite (proj2 (Z.ltb_ge _ _)) by lia. cbn [orb].
  apply st_bind_Ub. change (match q with [] => [] | payload :: _ => payload end) with p.
  unfold lift, rd_n. rewrite decide_False by lia. done.
Qed.

(** ** The end of an answer *)

(** A connection that sends the answer of a handler: its data belong to no file. *)
Definition posting (h : http_state) : Prop :=
  headers_ok h ∧ length_known h ∧ handle h = None ∧ ∃ p, file h = Some p ∧ 0 < left h <= zlen (p_rest p).

Lemma posting_body_step h (s : server) : hs s = Some h → posting h → hdr_index h = 6 →
  http_send_body process s = Ub ∨
  ∃ r s' h', http_send_body process s = Ok (r, s') ∧ hs s' = Some h' ∧ posting h' ∧ hdr_index h' = 6 ∧
    (length (body h') <= length (body h))%nat ∧ (ready (pcb s) → (length (body h') < length (body h))%nat).
Proof.
  intros Hh (Hok&Hlk&Hhd&p&Hf&Hl) Hi. unfold http_send_body. rewrite (st_bind_Ok _ _ _ h s) by (unfold this; by rewrite Hh).
  rewrite (proj2 (Z.eqb_neq _ _)) by lia. rewrite (st_bind_Ok _ _ _ 1 s) by done. cbn [Z.eqb].
  pose proof (http_write_wp process (p_src p) (p_rest p) (Z.min (left h) 65535) false s ltac:(lia)) as Hw.
  apply wp_inv in Hw as ([e n]&s1&Ew&((Hh1&_&_)&Hn0&_&_)&Hnl&Hn&Hy). cbn [fst snd] in *.
  set (h1 := set_file (Some (mkPtr (p_src p) (drop (Z.to_nat n) (p_rest p)))) (left h - n) h).
  assert (Hbody : length (body h) = (Z.to_nat n + length (body h1))%nat).
  { unfold body. rewrite Hf. cbn [h1 file set_file left p_rest]. rewrite !length_take, length_drop. lia. }
  assert (Ed : ∃ r, http_send_data_nonssi s = Ok (r, if e =? ERR_OK then put_hs s1 h1 else s1)).
  { unfold http_send_data_nonssi. rewrite (st_bind_Ok _ _ _ h s) by (unfold this; by rewrite Hh).
    rewrite (st_bind_Ok _ _ _ p s) by (unfold lift; by rewrite Hf). rewrite (st_bind_Ok _ _ _ _ _ Ew).
    destruct (e =? ERR_OK); [|by eexists]. eexists. unfold mbind, st_bind, upd. rewrite Hh1, Hh. done. }
  destruct Ed as [r Ed]. rewrite (st_bind_Ok _ _ _ _ _ Ed).
  destruct (Z.eqb_spec e ERR_OK) as [->|He].
  - rewrite (st_bind_Ok _ _ _ h1 _) by done. destruct (Z.eqb_spec (left h1) 0) as [El|El].
    + left. apply st_bind_Ub. unfold lift. cbn [h1 handle set_file]. by rewrite Hhd.
    + right. exists r, (put_hs s1 h1), h1. split; [done|]. split; [done|]. split.
      { split; [done|]. split; [done|]. split; [done|]. eexists. split; [done|]. cbn [h1 left set_file p_rest] in *. lens. }
      split; [done|]. split; [lia|]. intros Hrd. destruct (Hy Hrd). lia.
  - rewrite (st_bind_Ok _ _ _ h s1) by (unfold this; by rewrite Hh1, Hh). rewrite (proj2 (Z.eqb_neq _ _)) by lia.
    right. exists r, s1, h. split; [done|]. split; [by rewrite Hh1|]. split; [split; [done|]; split; [done|]; split; [done|]; by exists p|].
    split; [done|]. split; [done|]. intros Hrd. by destruct (Hy Hrd).
Qed.

Lemma posting_step h (s : server) : hs s = Some h → posting h →
  http_send process s = Ub ∨
  ∃ r s' h', http_send process s = Ok (r, s') ∧ hs s' = Some h' ∧ posting h' ∧
    (ready (pcb s) → (length (unsent h') < length (unsent h))%nat).
Proof.
  intros Hh Hp. destruct (Hp) as (Hok&Hlk&Hhd&p&Hf&Hl). unfold http_send.
  rewrite (st_bind_Ok _ _ _ _ _ (eq_refl : gets hs s = Ok (hs s, s))), Hh. change NUM_FILE_HDR_STRINGS with 6.
  assert (Hu6 : ∀ h', hdr_index h' = 6 → unsent h' = body h') by (intros h' E; unfold unsent, unsent_headers; by rewrite E).
  destruct (Z.ltb_spec (hdr_index h) 6) as [Hi|Hi].
  2: { assert (Hi6 : hdr_index h = 6) by (destruct Hok as (_&_&?&_); lia).
       destruct (posting_body_step h s Hh Hp Hi6) as [E|(r&s'&h'&E&Hh'&Hp'&Hi'&_&Hy)]; [by left|].
       right. exists r, s', h'. rewrite !Hu6 by done. done. }
  pose proof (http_send_headers_wp process s h Hh Hok Hlk ltac:(by rewrite Hf) Hi) as Hw.
  apply wp_inv in Hw as (r&s1&E&[(_&Hn&_)|(h1&(Hh1&(i&q&E1)&Hok1&_&_&_&Hle)&Hy&Hr)]); [congruence|].
  rewrite (st_bind_Ok _ _ _ _ _ E). assert (Hp1 : posting h1) by (split; [done|]; rewrite E1; split; [done|]; split; [done|]; by exists p).
  assert (Hb1 : body h1 = body h) by (by rewrite E1).
  destruct Hr as [[Hi1 ->]|[Hi1 Hne]].
  - change (HTTP_DATA_TO_SEND_BREAK =? HTTP_DATA_TO_SEND_FREED) with false. cbv iota.
    rewrite (st_bind_Ok _ _ _ h1 s1) by (unfold this; by rewrite Hh1). rewrite (proj2 (Z.ltb_lt _ _) Hi1).
    right. eexists _, s1, h1. split; [done|]. split; [done|]. split; [done|]. intros Hrd. specialize (Hy Hrd).
    unfold unsent. rewrite Hb1, !length_app. lia.
  - rewrite (proj2 (Z.eqb_neq _ _) Hne). rewrite (st_bind_Ok _ _ _ h1 s1) by (unfold this; by rewrite Hh1).
    rewrite Hi1, andb_false_r. destruct (posting_body_step h1 s1 Hh1 Hp1 Hi1) as [E2|(r2&s2&h2&E2&Hh2&Hp2&Hi2&Hl2&_)]; [by left|].
    right. exists r2, s2, h2. split; [done|]. split; [done|]. split; [done|]. intros Hrd. specialize (Hy Hrd).
    rewrite (Hu6 h2 Hi2). unfold unsent. rewrite length_app. rewrite Hb1 in Hl2. lia.
Qed.

Context (ack : T → T).

Lemma posting_ub n h (s : server) : (∀ t, ready (ack t)) → hs s = Some h → posting h → (length (unsent h) < n)%nat →
  acknowledge process ack n s = Ub.
Proof.
  intros Hready. revert h s. induction n as [|n IH]; intros h s Hh Hp Hn; [lia|]. cbn [acknowledge].
  rewrite (st_bind_Ok _ _ _ _ _ (eq_refl : gets hs s = Ok (hs s, s))), Hh.
  set (s1 := mkServer (ack (pcb s)) (hs s) (current_connection s) (glob s)). rewrite (st_bind_Ok _ _ _ tt s1) by done.
  destruct (posting_step (set_retries 0 h) (put_hs s1 (set_retries 0 h)) eq_refl Hp) as [E|(r&s2&h2&E&Hh2&Hp2&Hy)].
  - apply st_bind_Ub. unfold http_sent. rewrite (st_bind_Ok _ _ _ _ _ (eq_refl : gets hs s1 = Ok (hs s1, s1))).
    cbn [hs s1]. rewrite Hh. rewrite (st_bind_Ok _ _ _ tt (put_hs s1 (set_retries 0 h))) by (unfold upd, s1; cbn [hs]; by rewrite Hh).
    by apply st_bind_Ub.
  - rewrite (st_bind_Ok _ _ _ tt s2).
    2: { unfold http_sent. rewrite (st_bind_Ok _ _ _ _ _ (eq_refl : gets hs s1 = Ok (hs s1, s1))).
         cbn [hs s1]. rewrite Hh. rewrite (st_bind_Ok _ _ _ tt (put_hs s1 (set_retries 0 h))) by (unfold upd, s1; cbn [hs]; by rewrite Hh).
         by rewrite (st_bind_Ok _ _ _ _ _ E). }
    apply (IH h2); [done|done|]. specialize (Hy (Hready _)). change (unsent (set_retries 0 h)) with (unsent h) in Hy. lia.
Qed.

(** The answer of a handler does not end like a file: when its last byte has been handed to TCP, [http_send] asks
    [fs_bytes_left] for what is left of a file that there is not, through a null pointer. *)
Theorem answer_ends_in_a_null_pointer text h (s : server) : (∀ t, ready (ack t)) → hs s = Some h → answers true (Some text) h →
  text ≠ [] → acknowledge process ack (S (length (unsent h))) s = Ub.
Proof.
  intros Hready Hh (Hok&Hlk&_&Hhd&Hf&Hl&_) Hne. apply (posting_ub _ h); [done|done| |lia].
  split; [done|]. split; [done|]. split; [done|]. eexists. split; [done|]. rewrite Hl. cbn [p_rest]. destruct text; [done|cbn; lia].
Qed.
End Post.

(** ** Examples *)

Lemma absent_below d token n : forallb (λ k, negb (bool_decide (occurs d token (Z.of_nat k)))) (seq 0 (Z.to_nat n)) = true →
  ∀ i, i < n → ¬ occurs d token i.
Proof.
  intros H i Hi Ho. assert (0 <= i) by apply Ho. rewrite forallb_forall in H. specialize (H (Z.to_nat i)).
  rewrite in_seq, negb_true_iff, bool_decide_eq_false, Z2Nat.id in H by done. apply H; [lia|done].
Qed.

(** A handler that keeps the bodies it is called with. *)
Definition keep (uri body : list Z) (g : list (list Z)) : outcome (option (list Z) * list (list Z)) :=
  Ok (Some (chars "{}"), g ++ [body]).

Definition demo_header (uri : list Z) (n : string) : list Z :=
  POST ++ uri ++ chars " HTTP/1.0" ++ cr_lf ++ chars "Host: me" ++ cr_lf ++ HTTP_HDR_CONTENT_LENGTH ++ chars n ++ CRLFCRLF.


Lemma demo_post_header : post_header (chars "/x.cgi") 5 (demo_header (chars "/x.cgi") "5").
Proof.
  split; [decided|]. split; [by eexists (chars "HTTP/1.0" ++ cr_lf ++ chars "Host: me" ++ cr_lf ++ HTTP_HDR_CONTENT_LENGTH ++ chars "5" ++ CRLFCRLF)|].
  split; [decided|]. split; [exists 22, 30; split_and!; decided|]. split; [done|]. split; [decided|].
  split; [apply absent_below; vm_compute; reflexivity|].
  exists 32, (chars "5"). split; [done|]. split; [decided|]. split; [done|].
  split; [|split; [decided|done]]. intros j Hj. apply (absent_below _ _ 32); [vm_compute; reflexivity|apply Hj].
Qed.

Lemma post_reaches_its_handler_witness :
  ∃ s1, recv_all (site := demo_site false) keep ((demo_header (chars "/x.cgi") "5" ++ chars "he") :: [chars "l"; chars "lo"]) (http_accept (mkWire 5 []) [])
    = (http_send keep;; mret tt) s1 ∧ sends_answer (Some (chars "{}")) (mkWire 5 []) [chars "hello"] s1.
Proof.
  apply (post_reaches_its_handler (site := demo_site false) keep (chars "/x.cgi") 5); try done.
  - exact demo_post_header.
  - by repeat constructor.
Defined.

(** Two bytes of five have come. *)
Definition demo_receiving : http_state :=
  set_content_len 5 3 (set_post (strncpy (chars "/x.cgi") POST_URI_SIZE) (Block (chars "he" ++ [7; 7; 7])) 5 http_state_init).

Definition demo_server : server := mkServer (mkWire 5 []) (Some demo_receiving) This ([] : list (list Z)).

Lemma demo_receiving_ok : receiving (strncpy (chars "/x.cgi") POST_URI_SIZE) 5 (chars "he") [7; 7; 7] demo_receiving.
Proof. by repeat split. Qed.

Lemma excess_corrupts_the_body_witness : overrun 5 (chars "he") [7; 7; 7] (chars "llo!") = chars "hllo!" ∧
  ∃ s1, http_recv (site := demo_site false) keep (Some [chars "llo!"]) ERR_OK demo_server = (http_send keep;; mret tt) s1 ∧
    sends_answer (Some (chars "{}")) (mkWire 5 []) [chars "hllo!"] s1.
Proof.
  split; [reflexivity|]. apply (excess_corrupts_the_body (site := demo_site false) keep _ 5 (chars "he") [7; 7; 7] demo_receiving
    (chars "llo!") (Some (chars "{}")) [chars "hllo!"] demo_server eq_refl demo_receiving_ok); done.
Defined.

Lemma broken_off_post_is_carried_out_witness :
  ∃ s', http_recv (site := demo_site false) keep None ERR_OK demo_server = Ok (tt, s') ∧ hs s' = None ∧
    glob s' = [chars "he" ++ [7; 7; 7]] ∧ bytes (pcb s') = bytes (pcb demo_server).
Proof.
  apply (broken_off_post_is_carried_out (site := demo_site false) keep _ 5 (chars "he") [7; 7; 7] demo_receiving
    (Some (chars "{}")) _ demo_server eq_refl demo_receiving_ok); done.
Defined.

Lemma chained_body_is_overread_witness :
  http_recv (site := demo_site false) keep (Some [chars "l"; chars "lo"]) ERR_OK demo_server = Ub.
Proof.
  apply (chained_body_is_overread (site := demo_site false) keep _ 5 (chars "he") [7; 7; 7] demo_receiving _ _ demo_server eq_refl demo_receiving_ok); done.
Defined.

(** The answer to a POST, before its first byte is sent. *)
Definition demo_answer : http_state := set_content Freed (answered true (Some (chars "{}")) http_state_init).

Lemma demo_answer_ok : answers true (Some (chars "{}")) demo_answer.
Proof.
  split; [|split; [by left|by repeat split]]. split; [done|]. split; [|by split].
  repeat (apply List.Forall_cons); try done; (eexists; split; [vm_compute; reflexivity|by vm_compute]).
Qed.

Lemma answer_ends_in_a_null_pointer_witness :
  acknowledge keep refill (S (length (unsent demo_answer))) (mkServer (mkWire 0 []) (Some demo_answer) Nobody []) = Ub.
Proof. apply (answer_ends_in_a_null_pointer keep refill (chars "{}")); [apply refill_ready|done|exact demo_answer_ok|done]. Defined.
