(* ===== verification/HttpConnections.v ===== *)
(** The HTTP server with all its connections: the callbacks of one run between those of the others, on its own
    [http_state] but with one [current_connection] and one set of handlers for all.  What the interleaving changes, and
    what not: no body is mixed with another, and an answer is lost. *)
From S2P Require Import Prelude CString StateMonad Http HttpLwip HttpRequest HttpSend HttpGet HttpPost.

Section Connections.
Context {T G : Type} {tcp : Tcp T} {lwip : Lwip} {site : Site}.
Context (process : list Z → list Z → G → outcome (option (list Z) * G)).
Local Abbreviation server := (server (T := T) (G := G)).

(** Connections are told apart by their number, the order in which they were accepted.  ([current_connection] is the
    address of an [http_state], which may be given to another connection once it is freed; but a connection sets
    [current_connection] when its POST begins, and compares it only after that.) *)
Record connections := mkConnections { conns : list (T * option http_state); current : option nat; shared : G }.

(** [current_connection], as connection [i] sees it, and after connection [i] left it as [c]. *)
Definition seen (i : nat) (current : option nat) : connection :=
  match current with None => Nobody | Some j => if decide (j = i) then This else Another j end.
Definition pointed (i : nat) (c : connection) : option nat :=
  match c with Nobody => None | This => Some i | Another j => Some j end.

Definition view (i : nat) (c : T * option http_state) (w : connections) : server :=
  mkServer c.1 c.2 (seen i (current w)) (shared w).
Definition merge (i : nat) (s : server) (w : connections) : connections :=
  mkConnections (<[i := (pcb s, hs s)]> (conns w)) (pointed i (current_connection s)) (glob s).

(** A callback for connection [i]. *)
Definition on {A} (i : nat) (op : ST server A) : ST connections A := λ w,
  match conns w !! i with
  | Some c => '(a, s) ← op (view i c w); Ok (a, merge i s w)
  | None => Ub
  end.

(** What TCP calls the server for: a connection, data or the end of the peer, an acknowledgement, after which the
    connection is [ack] of what it was, the timer, an error. *)
Inductive event :=
  | accepted (t : T)
  | arrived (i : nat) (p : option (list (list Z)))
  | acked (i : nat) (ack : T → T)
  | polled (i : nat)
  | failed (i : nat).

Definition handle_event (e : event) : ST connections unit :=
  match e with
  | accepted t => modify (λ w, mkConnections (conns w ++ [(t, hs (http_accept t (shared w)))]) (current w) (shared w))
  | arrived i p => on i (http_recv process p ERR_OK)
  | acked i ack => on i (modify (λ s, mkServer (ack (pcb s)) (hs s) (current_connection s) (glob s));; http_sent process)
  | polled i => on i (http_poll process)
  | failed i => on i http_err
  end.

Fixpoint handle_events (es : list event) : ST connections unit :=
  match es with [] => mret tt | e :: es => handle_event e;; handle_events es end.

End Connections.
Arguments connections : clear implicits.
Arguments event : clear implicits.

(** ** What the connections do for their clients *)

(** A client has not asked yet; gets [page]; is posting to [uri] a body of [n] bytes, of which [got] have come; or does
    something else. *)
Inductive role := Waiting | Serving (page : list Z) | Posting (uri : list Z) (n : Z) (got : list Z) | Other.

(** [last_begun]: the connection whose POST began last, unless one has ended since. *)
Record clients := mkClients { roles : list role; last_begun : option nat }.

Section Clients.
Context {T G : Type} {tcp : Tcp T} {tcp_ok : TcpOk T} {lwip : Lwip} {lwip_ok : LwipOk} {site : Site}.
Context (process : list Z → list Z → G → outcome (option (list Z) * G)).
Local Abbreviation server := (server (T := T) (G := G)).
Local Abbreviation connections := (connections T G).
Local Abbreviation event := (event T).

Inductive client_step : event → clients → clients → Prop :=
  | client_connects t rs c : bytes t = [] →
      client_step (accepted t) (mkClients rs c) (mkClients (rs ++ [Waiting]) c)
  | client_gets i p uri f rs c : rs !! i = Some Waiting → initial_config = false → zlen httpd_req_buf = 1024 →
      resource uri f → zlen p < 65536 → get_request uri p →
      client_step (arrived i (Some [p])) (mkClients rs c) (mkClients (<[i := Serving (take (Z.to_nat (f_len f)) (f_data f))]> rs) c)
  | client_acknowledges i ack page rs c : rs !! i = Some (Serving page) → (∀ t, segments (ack t) = segments t) →
      client_step (acked i ack) (mkClients rs c) (mkClients rs c)
  | client_begins_post i uri n d b rs c : rs !! i = Some Waiting → for_us d → zlen (fresh n) = n → post_header uri n d →
      zlen (d ++ b) < 65536 → 0 < n < 1000000000 → zlen b < n →
      client_step (arrived i (Some [d ++ b])) (mkClients rs c)
        (mkClients (<[i := Posting (strncpy uri POST_URI_SIZE) n b]> rs) (Some i))
  | client_posts i p uri n got rs c : rs !! i = Some (Posting uri n got) → zlen got + zlen p < n → zlen p < 65536 →
      client_step (arrived i (Some [p])) (mkClients rs c) (mkClients (<[i := Posting uri n (got ++ p)]> rs) c).

Inductive client_steps : list event → clients → clients → Prop :=
  | no_steps a : client_steps [] a a
  | more_steps e es a b c : client_step e a b → client_steps es b c → client_steps (e :: es) a c.

(** What the server has of a client. *)
Definition plays (r : role) (c : T * option http_state) : Prop :=
  match r with
  | Waiting => c.2 = Some (waiting []) ∧ bytes c.1 = []
  | Serving page => (c.2 = None ∧ bytes c.1 = page) ∨ ∃ h, c.2 = Some h ∧ response h ∧ bytes c.1 ++ unsent h = page
  | Posting uri n got => bytes c.1 = [] ∧ ∃ h rest, c.2 = Some h ∧ receiving uri n got rest h
  | Other => True
  end.

Definition related (w : connections) (a : clients) : Prop :=
  Forall2 plays (roles a) (conns w) ∧ current w = last_begun a.

Lemma pointed_seen i c : pointed i (seen i c) = c.
Proof. unfold seen, pointed. destruct c as [j|]; [|done]. destruct (decide (j = i)); by subst. Qed.

Lemma seen_is_current i c (w : connections) : is_current (view i c w) = bool_decide (current w = Some i).
Proof.
  unfold is_current. cbn [view current_connection]. unfold seen. destruct (current w) as [j|]; [|by rewrite bool_decide_false].
  destruct (decide (j = i)) as [->|Hne]; [by rewrite bool_decide_true|]. rewrite bool_decide_false by congruence. done.
Qed.

Lemma on_Ok {A} i (op : ST server A) (w : connections) c a s : conns w !! i = Some c → op (view i c w) = Ok (a, s) → on i op w = Ok (a, merge i s w).
Proof. intros Hc E. unfold on. by rewrite Hc, E. Qed.

(** A callback that goes on as another from the state [s]. *)
Lemma on_eq {A} i (op op' : ST server A) (w : connections) c s : conns w !! i = Some c → op (view i c w) = op' s →
  current_connection s = seen i (pointed i (current_connection s)) → on i op w = on i op' (merge i s w).
Proof.
  intros Hc E Hs. assert (i < length (conns w))%nat by (by eapply lookup_lt_Some). unfold on. rewrite Hc, E. cbn [merge conns].
  rewrite list_lookup_insert_eq by done.
  assert (view i (pcb s, hs s) (merge i s w) = s) as -> by (unfold view; cbn; rewrite <- Hs; by destruct s).
  destruct (op' s) as [[a s2]| |]; [|done..]. unfold merge. cbn [mbind outcome_bind conns]. by rewrite list_insert_insert_eq.
Qed.

Lemma handle_events_app es es' (w : connections) :
  handle_events process (es ++ es') w = (handle_events process es;; handle_events process es') w.
Proof.
  revert w. induction es as [|e es IH]; intros w; [done|]. cbn [app handle_events]. unfold mbind, st_bind in *.
  destruct (handle_event process e w) as [[u w1]| |]; [apply IH|done..].
Qed.

Lemma st_bind_ret_tt {S} (m : ST S unit) s : (m;; mret tt) s = m s.
Proof. unfold mbind, st_bind. by destruct (m s) as [[[] s']| |]. Qed.

Lemma related_merge i (s : server) (w : connections) a r c : related w a → plays r (pcb s, hs s) → pointed i (current_connection s) = c →
  related (merge i s w) (mkClients (<[i := r]> (roles a)) c).
Proof. intros [HF _] Hr Hc. split; [by apply Forall2_insert|done]. Qed.

(** A callback that leaves the handlers alone, and what it makes of its client. *)
Lemma on_step i (op : ST server unit) (w : connections) a t o r c : related w a → conns w !! i = Some (t, o) →
  wp op (λ _ s, plays r (pcb s, hs s) ∧ glob s = shared w ∧ pointed i (current_connection s) = c) (view i (t, o) w) →
  ∃ w', on i op w = Ok (tt, w') ∧ related w' (mkClients (<[i := r]> (roles a)) c) ∧ shared w' = shared w.
Proof.
  intros Hrel Hc Hwp. apply wp_inv in Hwp as ([]&s&E&Hr&Hg&Hcur). eexists. split; [by eapply on_Ok|].
  split; [by apply related_merge|done].
Qed.

Lemma related_lookup w rs c i r : related w (mkClients rs c) → rs !! i = Some r → ∃ t o, conns w !! i = Some (t, o) ∧ plays r (t, o).
Proof. intros [HF _] Hi. eapply Forall2_lookup_l in HF as ([t o]&Ho&Hr); [|done]. by exists t, o. Qed.

Lemma sending_serves (s : server) h (s' : server) : response h → sending s h s' → plays (Serving (bytes (pcb s) ++ unsent h)) (pcb s', hs s').
Proof.
  intros Hr (_&_&u&Hu&[[Hn ->]|(h'&Hh'&Hr'&_&Hsp&_)]); cbn; [by left|]. right. exists h'. split; [done|]. split; [done|].
  by rewrite Hu, <- app_assoc, <- Hsp.
Qed.

(** What is left to do when a callback has neither called a handler nor begun or ended a POST. *)
Lemma undisturbed i c (w : connections) r (s : server) : current_connection s = current_connection (view i c w) → glob s = shared w →
  plays r (pcb s, hs s) → plays r (pcb s, hs s) ∧ glob s = shared w ∧ pointed i (current_connection s) = current w.
Proof. intros Hc Hg Hr. split; [done|]. split; [done|]. rewrite Hc. apply pointed_seen. Qed.

Lemma get_is_served i p uri f t o (w : connections) : Forall file_ok FS_ROOT → initial_config = false → zlen httpd_req_buf = 1024 →
  resource uri f → zlen p < 65536 → get_request uri p → plays Waiting (t, o) →
  wp (http_recv process (Some [p]) ERR_OK) (λ _ s, plays (Serving (take (Z.to_nat (f_len f)) (f_data f))) (pcb s, hs s) ∧
    glob s = shared w ∧ pointed i (current_connection s) = current w) (view i (t, o) w).
Proof.
  intros Hroot Hic Hbuf Hres Hp Hget [Eo Et]. cbn in Eo, Et. destruct (response_with_file f [p] Hroot (resource_opened _ _ Hres)) as [Hr Hun].
  eapply wp_mono; [apply (http_recv_get process uri f [] p); try done|].
  - split; [done|]. split; [cbn [app concat]; by rewrite app_nil_r|by left].
  - cbn [app concat]. by rewrite app_nil_r.
  - intros [] s Hsend. cbn [app] in Hsend. apply (undisturbed i (t, o) w); [apply Hsend..|].
    pose proof (sending_serves _ _ _ Hr Hsend) as Hpl. cbn [pcb view fst] in Hpl. by rewrite recved_bytes, Et, Hun in Hpl.
Qed.

Lemma ack_serves_on i ack page t o (w : connections) : (∀ t, segments (ack t) = segments t) → plays (Serving page) (t, o) →
  wp (modify (λ s, mkServer (ack (pcb s)) (hs s) (current_connection s) (glob s));; http_sent process) (λ _ s,
    plays (Serving page) (pcb s, hs s) ∧ glob s = shared w ∧ pointed i (current_connection s) = current w) (view i (t, o) w).
Proof.
  intros Hseg Hpl. apply wp_bind. unfold modify at 1, wp at 1. cbn [view pcb hs current_connection glob fst snd].
  assert (Hb : bytes (ack t) = bytes t) by (unfold bytes; by rewrite Hseg).
  destruct Hpl as [[Eo Et]|(h&Eo&Hr&Et)]; cbn [fst snd] in Eo, Et; subst o.
  - unfold http_sent. apply wp_bind, wp_gets. cbn [hs]. apply wp_ret. apply (undisturbed i (t, None) w); [done..|]. left. cbn. by rewrite Hb.
  - destruct (set_retries_response 0 h Hr) as [Hr0 Hu0]. eapply wp_mono; [by apply (http_sent_wp process _ h)|].
    intros [] s Hsend. apply (undisturbed i (t, Some h) w); [apply Hsend..|].
    pose proof (sending_serves _ _ _ Hr0 Hsend) as Hpl. cbn [pcb] in Hpl. by rewrite Hu0, Hb, Et in Hpl.
Qed.

Lemma post_begins i uri n d b t o (w : connections) : for_us d → zlen (fresh n) = n → post_header uri n d → zlen (d ++ b) < 65536 →
  0 < n < 1000000000 → zlen b < n → plays Waiting (t, o) →
  wp (http_recv process (Some [d ++ b]) ERR_OK) (λ _ s, plays (Posting (strncpy uri POST_URI_SIZE) n b) (pcb s, hs s) ∧
    glob s = shared w ∧ pointed i (current_connection s) = Some i) (view i (t, o) w).
Proof.
  intros Hus Hfresh Hph Hl Hn Hb [Eo Et]. cbn in Eo, Et.
  destruct (recv_first process uri n d b (view i (t, o) w)) as (s&h&rest&E&Hh&Hrec&Hby&Hg&Hc); [done..|].
  eapply wp_Ok; [exact E|]. split; [split; [change (bytes (pcb s) = []); by rewrite Hby|by exists h, rest]|]. split; [done|]. by rewrite Hc.
Qed.

Lemma receiving_rest uri n got rest h : receiving uri n got rest h → zlen got + zlen rest = n.
Proof. intros (_&_&_&_&Hl&_). rewrite length_app in Hl. lia. Qed.

Lemma post_goes_on i uri n got p t o (w : connections) : zlen got + zlen p < n → zlen p < 65536 → plays (Posting uri n got) (t, o) →
  wp (http_recv process (Some [p]) ERR_OK) (λ _ s, plays (Posting uri n (got ++ p)) (pcb s, hs s) ∧
    glob s = shared w ∧ pointed i (current_connection s) = current w) (view i (t, o) w).
Proof.
  intros Hgot Hp [Et (h&rest&Eo&Hrec)]. cbn in Eo, Et. subst o. pose proof (receiving_rest _ _ _ _ _ Hrec).
  destruct (http_recv_more process uri n got rest h p (view i (t, Some h) w)) as (h'&s&E&Hh&Hrec'&Hby&Hg&Hc); [done..|lia|done|].
  eapply wp_Ok; [exact E|]. apply (undisturbed i (t, Some h) w); [done..|]. split; [change (bytes (pcb s) = []); by rewrite Hby|by eexists _, _].
Qed.

Hypothesis root_ok : Forall file_ok FS_ROOT.

(** The server follows its clients. *)
Lemma step_simulated e a b (w : connections) : client_step e a b → related w a →
  ∃ w', handle_event process e w = Ok (tt, w') ∧ related w' b ∧ shared w' = shared w.
Proof.
  intros Hs Hrel. destruct Hs as [t rs c Ht|i p uri f rs c Hi|i ack page rs c Hi|i uri n d b rs c Hi|i p uri n got rs c Hi].
  1: { eexists. split; [done|]. split; [|done]. destruct Hrel as [HF Hc]. split; [|done].
       apply Forall2_app; [done|]. by repeat constructor. }
  all: destruct (related_lookup _ _ _ _ _ Hrel Hi) as (t&o&Ho&Hpl); pose proof (proj2 Hrel) as Hc; cbn [last_begun] in Hc.
  - apply (on_step i _ w _ t o _ _ Hrel Ho). rewrite <- Hc. by apply (get_is_served i p uri f).
  - rewrite <- (list_insert_id rs i (Serving page) Hi).
    apply (on_step i _ w _ t o _ _ Hrel Ho). rewrite <- Hc. by apply ack_serves_on.
  - apply (on_step i _ w _ t o _ _ Hrel Ho). by apply (post_begins i uri n d b).
  - apply (on_step i _ w _ t o _ _ Hrel Ho). rewrite <- Hc. by apply (post_goes_on i uri n got p).
Qed.

Lemma steps_simulated es a b (w : connections) : client_steps es a b → related w a →
  ∃ w', handle_events process es w = Ok (tt, w') ∧ related w' b ∧ shared w' = shared w.
Proof.
  intros Hs. revert w. induction Hs as [a|e es a b c Hs _ IH]; intros w Hrel; [by exists w|].
  destruct (step_simulated e a b w Hs Hrel) as (w1&E1&Hrel1&Hg1). destruct (IH w1 Hrel1) as (w2&E2&Hrel2&Hg2).
  exists w2. cbn [handle_events]. rewrite (st_bind_Ok _ _ _ _ _ E1). split; [done|]. split; [done|congruence].
Qed.

(** C7: Connections that are served at the same time.  Whatever the order in which clients connect, are served pages and
    post, each page (asked for in normal operation) is the file that was asked for and each body is put together from the segments of its own
    connection: the handler of the post that is completed gets that body, once.  But there is one [current_connection]:
    the client gets the handler's answer if its post was the last to begin, and 400 Bad Request otherwise, although the
    handler was called all the same. *)
Theorem connections_are_served es a b (w : connections) i uri n got p answer g : related w a → client_steps es a b →
  roles b !! i = Some (Posting uri n got) → zlen got + zlen p = n → 0 < zlen p < 65536 →
  process uri (got ++ p) (shared w) = Ok (answer, g) → short answer →
  ∃ w1, handle_events process (es ++ [arrived i (Some [p])]) w = on i (http_send process;; mret tt) w1 ∧
    related w1 (mkClients (<[i := Other]> (roles b)) None) ∧ shared w1 = g ∧
    ∃ t h, conns w1 !! i = Some (t, Some h) ∧ bytes t = [] ∧ answers (bool_decide (last_begun b = Some i)) answer h.
Proof.
  intros Hrel Hes Hi Hl Hp Hproc Ha. destruct (steps_simulated es a b w Hes Hrel) as (w'&E&Hrel'&Hg').
  destruct (related_lookup w' (roles b) (last_begun b) i _ ltac:(by destruct b) Hi) as (t&o&Ho&Et&h&rest&Eo&Hrec).
  cbn in Eo, Et. subst o. pose proof (receiving_rest _ _ _ _ _ Hrec).
  destruct (http_recv_last process uri n got rest h p answer g _ (view i (t, Some h) w') eq_refl Hrec ltac:(lia) Hp
    (seen_is_current i _ w') ltac:(cbn [view glob]; by rewrite Hg') Ha) as (s&Es&Hb&Hgs&Hcs&h1&Hh1&Hans).
  rewrite (proj2 Hrel') in Hans. cbn [view pcb fst] in Hb. exists (merge i s w').
  assert (Hlen : (i < length (conns w'))%nat) by (by eapply lookup_lt_Some).
  assert (Hin : conns (merge i s w') !! i = Some (pcb s, hs s)) by (by apply list_lookup_insert_eq).
  split; [|split; [apply related_merge; [done|done|by rewrite Hcs]|split; [done|exists (pcb s), h1; by rewrite Hin, Hh1, Hb]]].
  rewrite handle_events_app. rewrite (st_bind_Ok _ _ _ _ _ E). cbn [handle_events handle_event].
  rewrite st_bind_ret_tt. apply (on_eq i _ _ w' (t, Some h) s); [done|done|by rewrite Hcs].
Qed.
End Clients.

(** ** An example *)

(** Two clients post five bytes each; the first has sent two of them when the second begins, and a third reads the page. *)
Definition demo_page_request : list Z := chars "GET / HTTP/1.0" ++ cr_lf ++ chars "Host: me" ++ CRLFCRLF.
Definition demo_clients : list (event wire) :=
  [accepted (mkWire 5 []); accepted (mkWire 5 []); accepted (mkWire 5 []);
   arrived 0 (Some [demo_header (chars "/x.cgi") "5" ++ chars "he"]);
   arrived 1 (Some [demo_header (chars "/x.cgi") "5" ++ chars "wo"]);
   arrived 2 (Some [demo_page_request]); acked 2 refill;
   arrived 0 (Some [chars "l"])].

Definition demo_posting (got : string) : role := Posting (strncpy (chars "/x.cgi") POST_URI_SIZE) 5 (chars got).
Definition demo_roles : list role := [demo_posting "hel"; demo_posting "wo"; Serving (take 21 (f_data demo_file))].
Definition demo_start : connections wire (list (list Z)) := mkConnections [] None [].

Lemma demo_client_steps : client_steps (site := demo_site false) demo_clients (mkClients [] None) (mkClients demo_roles (Some 1%nat)).
Proof.
  eapply more_steps; [by apply client_connects|]. eapply more_steps; [by apply client_connects|].
  eapply more_steps; [by apply client_connects|].
  eapply more_steps; [by apply (client_begins_post (site := demo_site false) 0 (chars "/x.cgi") 5); try done; exact demo_post_header|].
  eapply more_steps; [by apply (client_begins_post (site := demo_site false) 1 (chars "/x.cgi") 5); try done; exact demo_post_header|].
  eapply more_steps; [apply (client_gets (site := demo_site false) 2 _ [47] demo_file); try done|].
  { by eapply (ResRoot (site := demo_site false)). }
  { exact demo_get_request. }
  eapply more_steps; [by eapply client_acknowledges|].
  eapply more_steps; [by eapply client_posts|]. apply no_steps.
Qed.

Lemma connections_are_served_witness :
  ∃ w1, handle_events (site := demo_site false) keep (demo_clients ++ [arrived 0 (Some [chars "lo"])]) demo_start
        = on 0 (http_send keep;; mret tt) w1 ∧
    related w1 (mkClients (<[0%nat := Other]> demo_roles) None) ∧ shared w1 = [chars "hello"] ∧
    ∃ t h, conns w1 !! 0%nat = Some (t, Some h) ∧ bytes t = [] ∧ answers false (Some (chars "{}")) h.
Proof.
  apply (connections_are_served (site := demo_site false) keep) with (n := 5) (uri := strncpy (chars "/x.cgi") POST_URI_SIZE)
    (got := chars "hel") (a := mkClients [] None) (b := mkClients demo_roles (Some 1%nat)); try done.
  - repeat constructor; done.
  - exact demo_client_steps.
Defined.
