(* ===== verification/MakeFsData.v ===== *)
(** The tool that puts the web pages into the firmware (httpserver/makefsdata/makefsdata.c).  The build runs it on the
    directory httpserver/fs, and it writes httpserver/fsdata.c: for every file an array with its name, the header of the
    response and the content, and a list of descriptors that [fs_open] searches.

    Compression and Windows are compiled out.  The directory is what [tinydir_open_sorted] lists, as a tree; a file that
    can not be opened is not in it.  The files the tool writes are the characters written to them. *)
From S2P Require Import Prelude CString Http HttpLwip.

(** ** The tool's state *)

Inductive entry :=
  | File (name : list Z) (contents : list Z) (mtime : list Z)
  | Dir (name : list Z) (entries : list entry).

(** What the command line sets; a string of it is the region from its first character on, with its NUL.
    [ssi_file_lines]: the regions from the beginning of each line of the list of SSI files on. *)
Record options := mkOptions {
  processSubs : bool; includeHttpHeader : bool; useHttp11 : bool; supportSsi : bool; precalcChksum : bool;
  includeLastModified : bool; exclude_list : option (list Z); ncompress_list : option (list Z); serverID : list Z;
  ssi_file_lines : option (list (list Z)) }.

(** [data_file], [struct_file]: what is written to the temporary files; [first_file]: the list of variable names. *)
Record tool_state := mkTool {
  data_file : list Z; struct_file : list Z; curSubdir : list Z; lastFileVar : list Z; first_file : list (list Z);
  payload_alingment_dummy_counter : Z }.

(** A step of the tool ends with a result, or it exits the tool ([exit(-1)], a failed assertion). *)
Definition tool (A : Type) : Type := tool_state → outcome (option (A * tool_state)).
#[export] Instance tool_ret : MRet tool := λ A a s, Ok (Some (a, s)).
#[export] Instance tool_bind : MBind tool := λ A B f m s,
  match m s with Ok (Some (a, s)) => f a s | Ok None => Ok None | Ub => Ub | OutOfFuel => OutOfFuel end.

Definition tool_exit {A} : tool A := λ s, Ok None.
Definition tool_lift {A} (m : outcome A) : tool A := λ s, a ← m; Ok (Some (a, s)).
Definition tool_get {A} (f : tool_state → A) : tool A := λ s, Ok (Some (f s, s)).
Definition tool_mod (f : tool_state → tool_state) : tool unit := λ s, Ok (Some (tt, f s)).
Definition tool_assert (b : bool) : tool unit := if b then mret tt else tool_exit.

Definition write_data (t : list Z) : tool unit := tool_mod (λ s,
  mkTool (data_file s ++ t) (struct_file s) (curSubdir s) (lastFileVar s) (first_file s) (payload_alingment_dummy_counter s)).
Definition write_struct (t : list Z) : tool unit := tool_mod (λ s,
  mkTool (data_file s) (struct_file s ++ t) (curSubdir s) (lastFileVar s) (first_file s) (payload_alingment_dummy_counter s)).
Definition set_curSubdir (d : list Z) : tool unit := tool_mod (λ s,
  mkTool (data_file s) (struct_file s) d (lastFileVar s) (first_file s) (payload_alingment_dummy_counter s)).
Definition set_lastFileVar (v : list Z) : tool unit := tool_mod (λ s,
  mkTool (data_file s) (struct_file s) (curSubdir s) v (first_file s) (payload_alingment_dummy_counter s)).
Definition set_first_file (l : list (list Z)) : tool unit := tool_mod (λ s,
  mkTool (data_file s) (struct_file s) (curSubdir s) (lastFileVar s) l (payload_alingment_dummy_counter s)).
Definition set_dummy_counter (n : Z) : tool unit := tool_mod (λ s,
  mkTool (data_file s) (struct_file s) (curSubdir s) (lastFileVar s) (first_file s) n).

Definition NEWLINE : list Z := [13; 10].
Definition NEWLINE_LEN : Z := 2.
Definition HEX_BYTES_PER_LINE : Z := 16.
Definition PAYLOAD_ALIGNMENT : Z := 4.
Definition MAX_PATH_LEN : Z := 256.
Definition CURSUBDIR_SIZE : Z := MAX_PATH_LEN - 3.
Definition COPY_BUFSIZE : Z := 1024 * 1024.
Definition FILE_BUFFER_C_SIZE : Z := COPY_BUFSIZE * 5 + (COPY_BUFSIZE / HEX_BYTES_PER_LINE) * 3.
Definition FS_FILE_FLAGS_HEADER_HTTPVER_1_1 : Z := 0x04.
Definition FS_FILE_FLAGS_SSI : Z := 0x08.
Definition TCP_MSS : Z := 1460.

(** ** Numbers and bytes as text *)

(** ["%d"] of a number that is not negative; ["0x%02x,"] of a byte. *)
Definition dec (n : Z) : list Z := digits 20 n [].
Definition hex_digit (d : Z) : Z := if d <? 10 then 48 + d else 87 + d.
Definition hex_byte (c : Z) : list Z := [48; 120; hex_digit (c / 16); hex_digit (c mod 16); 44].

(** The text, and the counter of the bytes of a line after it. *)
Fixpoint put_ascii (l : list Z) (i : Z) : list Z * Z :=
  match l with
  | [] => ([], i)
  | c :: l =>
      let i := i + 1 in
      let '(t, j) := put_ascii l i in
      (hex_byte c ++ (if i mod HEX_BYTES_PER_LINE =? 0 then NEWLINE else []) ++ t, j)
  end.

Definition file_put_ascii (l : list Z) (i : Z) : tool Z :=
  let '(t, j) := put_ascii l i in write_data t;; mret j.

(** [process_file_data]: through [file_buffer_c], of which [buf] are the [off] characters in use. *)
Fixpoint file_data_loop (l buf : list Z) (src_off : Z) : tool (list Z) :=
  match l with
  | [] => mret buf
  | c :: l =>
      tool_assert (zlen buf <? FILE_BUFFER_C_SIZE - 5);;
      let buf := buf ++ hex_byte c in
      let src_off := src_off + 1 in
      buf ← (if src_off mod HEX_BYTES_PER_LINE =? 0
             then tool_assert (zlen buf <? FILE_BUFFER_C_SIZE - NEWLINE_LEN);; mret (buf ++ NEWLINE) else mret buf);
      if FILE_BUFFER_C_SIZE <=? zlen buf + 20 then write_data buf;; file_data_loop l [] src_off
      else file_data_loop l buf src_off
  end.

Definition process_file_data (file_data : list Z) : tool unit :=
  buf ← file_data_loop file_data [] 0;
  write_data buf.

(** ** Names *)

Definition is_valid_char_for_c_var (x : Z) : bool :=
  ((65 <=? x) && (x <=? 90)) || ((97 <=? x) && (x <=? 122)) || ((48 <=? x) && (x <=? 57)) || (x =? 95).
Definition fix_char (c : Z) : Z := if is_valid_char_for_c_var c then c else 95.

(** The loop for a name that is not in use: [base] has [len] characters in a block of [len + 2]. *)
Fixpoint unique_name (fuel : nat) (used : list (list Z)) (base new_name : list Z) (cnt : Z) : outcome (option (list Z)) :=
  match fuel with
  | O => OutOfFuel
  | S fuel =>
      if bool_decide (new_name ∈ used) then
        let cnt := cnt + 1 in
        if zlen base + 2 <? zlen base + zlen (dec cnt) + 1 then Ub
        else
          let new_name := base ++ dec cnt in
          if cnt <? 999 then unique_name fuel used base new_name cnt else Ok None
      else Ok (Some new_name)
  end.

Definition fix_filename_for_c (qualifiedName : list Z) (max_len : Z) : tool (list Z) :=
  used ← tool_get first_file;
  if zlen qualifiedName + 3 =? max_len then tool_exit
  else
    let base := map fix_char qualifiedName in
    name ← tool_lift (unique_name 1000 used base base 0);
    match name with
    | None => tool_exit
    | Some name => if max_len <? zlen name + 1 then tool_lift Ub else mret name
    end.

Definition register_filename (name : list Z) : tool unit :=
  used ← tool_get first_file; set_first_file (used ++ [name]).

(** [strncat] of a string to [curSubdir]. *)
Definition strncat_subdir (cur s : list Z) (n : Z) : outcome (list Z) :=
  let r := cur ++ take (Z.to_nat n) s in
  if CURSUBDIR_SIZE <? zlen r + 1 then Ub else Ok r.

(** [curSubdir] with a name behind it: [freelen - 1] wraps when nothing is free. *)
Definition subdir_with (cur name : list Z) : outcome (list Z) :=
  let freelen := CURSUBDIR_SIZE - zlen cur - 1 in
  cur ← strncat_subdir cur [47] freelen;
  strncat_subdir cur name (u64 (freelen - 1)).

(** ** Kinds of files *)

(** One turn of the loop for each extension of the list, from [ext] on, where the list of extensions has a comma or its
    end at [comma]; the turn after the last one starts behind the end. *)
Fixpoint ext_in_list_from (fuel : nat) (filename : list Z) (ext : list Z) : outcome bool :=
  match fuel with
  | O => OutOfFuel
  | S fuel =>
      c ← rd ext 0;
      if c =? 0 then Ok false
      else
        comma ← strchr ext 0 44;
        comma ← (match comma with
                 | Some i => Ok i
                 | None => i ← strchr ext 0 0; match i with Some i => Ok i | None => Ub end
                 end);
        let ext_size := comma in
        dot ← rd (literal filename) (zlen filename - ext_size - 1);
        same ← (if dot =? 46
                then strncmp_eq (Z.to_nat ext_size) (drop (Z.to_nat (zlen filename - ext_size)) (literal filename)) ext
                else Ok false);
        if same : bool then Ok true else ext_in_list_from fuel filename (drop (Z.to_nat (comma + 1)) ext)
  end.

Definition ext_in_list (filename : list Z) (ext_list : option (list Z)) : outcome bool :=
  match ext_list with None => Ok false | Some l => ext_in_list_from (S (length l)) filename l end.

Definition file_to_exclude (o : options) (filename : list Z) : outcome bool :=
  match exclude_list o with None => Ok false | Some _ => ext_in_list filename (exclude_list o) end.

Definition file_can_be_compressed (o : options) (filename : list Z) : outcome bool :=
  match ncompress_list o with None => Ok true | Some _ => b ← ext_in_list filename (ncompress_list o); Ok (negb b) end.

Definition g_pcSSIExtensions : list (list Z) :=
  map chars [".shtml"%string; ".shtm"%string; ".ssi"%string; ".xml"%string; ".json"%string].

Fixpoint has_ssi_extension (exts : list (list Z)) (filename : list Z) : outcome bool :=
  match exts with
  | [] => Ok false
  | e :: exts =>
      at_ ← strstr (literal filename) 0 e;
      match at_ with Some _ => Ok true | None => has_ssi_extension exts filename end
  end.

Fixpoint is_listed (path : list Z) (lines : list (list Z)) (ret : bool) : outcome bool :=
  match lines with
  | [] => Ok ret
  | l :: lines => same ← strncmp_eq (S (length path)) (literal path) l; is_listed path lines (same || ret)
  end.

Definition is_ssi_file (o : options) (cur filename : list Z) : outcome bool :=
  if supportSsi o then
    match ssi_file_lines o with
    | Some lines => path ← subdir_with cur filename; is_listed (tail path) lines false
    | None => has_ssi_extension g_pcSSIExtensions filename
    end
  else Ok false.

Section Tool.
Context {lwip : Lwip}.
(** [inet_chksum] of lwIP. *)
Context (inet_chksum : list Z → Z).

(** ** The header of a response *)

(** A string of the header, with a comment that repeats it. *)
Definition put_string (comment_end : list Z) (cur_string : list Z) (i : Z) : tool Z :=
  write_data (NEWLINE ++ [47; 42; 32; 34] ++ cur_string ++ comment_end);;
  file_put_ascii cur_string i.

Definition bytes_comment (cur_len : Z) : list Z := [34] ++ chars " (" ++ dec cur_len ++ chars " bytes) */" ++ NEWLINE.

Definition response_type (o : options) (filename : list Z) : list Z :=
  let version := if useHttp11 o then chars "HTTP/1.1" else chars "HTTP/1.0" in
  let status :=
    if is_prefix (chars "404.") filename then chars " 404 File not found"
    else if is_prefix (chars "400.") filename then chars " 400 Bad Request"
    else if is_prefix (chars "501.") filename then chars " 501 Not Implemented"
    else chars " 200 OK" in
  version ++ status ++ NEWLINE.

(** What stands behind the last dot, or everything. *)
Fixpoint file_ext_from (s ext : list Z) : list Z :=
  match s with [] => ext | c :: s => if c =? 46 then file_ext_from s s else file_ext_from s ext end.

Definition HTTP_HDR_DEFAULT_TYPE : list Z := HTTP_CONTENT_TYPE "text/plain".

Definition file_type (filename : list Z) : list Z :=
  let ext := file_ext_from filename filename in
  if bool_decide (ext = []) then HTTP_HDR_DEFAULT_TYPE
  else match list_find (λ h, h.1 = ext) g_psHTTPHeaders with Some (_, (_, t)) => t | None => HTTP_HDR_DEFAULT_TYPE end.

(** The bytes of the header, which are summed up in [hdr_buf]. *)
Definition file_write_http_header (o : options) (filename : list Z) (mtime : list Z) (file_size : Z)
    (provide_content_len : bool) : tool (list Z) :=
  write_data (NEWLINE ++ chars "/* HTTP header */");;
  let status := response_type o filename in
  put_string (bytes_comment (zlen status)) status 0;;
  put_string (bytes_comment (zlen (serverID o))) (serverID o) 0;;
  length_lines ←
    (if provide_content_len then
       let digits := lwip_itoa MAX_PATH_LEN file_size in
       i ← put_string (dec file_size ++ NEWLINE ++ [34] ++ chars " (" ++ dec (zlen HTTP_HDR_CONTENT_LENGTH + 2) ++ chars "+ bytes) */" ++ NEWLINE)
             HTTP_HDR_CONTENT_LENGTH 0;
       file_put_ascii (digits ++ NEWLINE) i;;
       mret (HTTP_HDR_CONTENT_LENGTH ++ digits ++ NEWLINE)
     else mret []);
  modified ←
    (if includeLastModified o then
       let line := chars "Last-Modified: " ++ mtime in
       i ← put_string ([34] ++ NEWLINE ++ [34] ++ chars " (" ++ dec (zlen line + 2) ++ chars "+ bytes) */" ++ NEWLINE) line 0;
       file_put_ascii NEWLINE i;;
       mret (line ++ NEWLINE)
     else mret []);
  connection ←
    (if useHttp11 o then
       let line := if provide_content_len then chars "Connection: keep-alive" ++ NEWLINE else HTTP_HDR_CONN_CLOSE in
       put_string (bytes_comment (zlen line)) line 0;;
       mret line
     else mret []);
  let type := file_type filename in
  put_string (bytes_comment (zlen type)) type 0;;
  mret (status ++ serverID o ++ length_lines ++ modified ++ connection ++ type).

(** ** Checksums *)

Definition hex4 (n : Z) : list Z :=
  [hex_digit (n / 4096); hex_digit (n / 256 mod 16); hex_digit (n / 16 mod 16); hex_digit (n mod 16)].

Definition chksum_line (offset chksum len : Z) : list Z :=
  chars "{" ++ dec offset ++ chars ", 0x" ++ hex4 chksum ++ chars ", " ++ dec len ++ chars "}," ++ NEWLINE.

(** The loop over the data: [src_offset] stays what it is. *)
Fixpoint checksums_loop (fuel : nat) (file_data : list Z) (src_offset offset i : Z) : tool Z :=
  match fuel with
  | O => tool_lift OutOfFuel
  | S fuel =>
      let len := Z.min TCP_MSS (zlen file_data - src_offset) in
      if len =? 0 then mret i
      else
        data ← tool_lift (rd_n file_data src_offset len);
        write_struct (chksum_line offset (u16 (Z.lnot (inet_chksum data))) len);;
        checksums_loop fuel file_data src_offset (offset + len) (i + 1)
  end.

Definition write_checksums (fuel : nat) (varname : list Z) (hdr : list Z) (file_data : list Z) : tool Z :=
  write_struct (chars "#if HTTPD_PRECALCULATED_CHECKSUM" ++ NEWLINE);;
  write_struct (chars "const struct fsdata_chksum chksums_" ++ varname ++ chars "[] = {" ++ NEWLINE);;
  let hdr_len := u16 (zlen hdr) in
  i ← (if 0 <? hdr_len then
         write_struct (chksum_line 0 (u16 (Z.lnot (inet_chksum hdr))) hdr_len);; mret 1
       else mret 0);
  i ← checksums_loop fuel file_data 0 hdr_len i;
  write_struct (chars "};" ++ NEWLINE);;
  write_struct (chars "#endif /* HTTPD_PRECALCULATED_CHECKSUM */" ++ NEWLINE);;
  mret i.

(** ** Files *)

(** The names of the flags, with bars between them. *)
Definition flag_names (flags : Z) : list Z :=
  let name f s := if Z.land flags f =? 0 then [] else [chars s] in
  let names := name FS_FILE_FLAGS_HEADER_INCLUDED "FS_FILE_FLAGS_HEADER_INCLUDED"%string ++
    name FS_FILE_FLAGS_HEADER_PERSISTENT "FS_FILE_FLAGS_HEADER_PERSISTENT"%string ++
    name FS_FILE_FLAGS_HEADER_HTTPVER_1_1 "FS_FILE_FLAGS_HEADER_HTTPVER_1_1"%string ++
    name FS_FILE_FLAGS_SSI "FS_FILE_FLAGS_SSI"%string in
  match names with
  | [] => chars "0"
  | n :: names => n ++ concat (map (app (chars " | ")) names)
  end.

(** The zeroes up to the alignment of the payload, and the counter after them. *)
Definition pad_payload (i : Z) : tool Z :=
  let n := (- i) mod PAYLOAD_ALIGNMENT in
  write_data (concat (replicate (Z.to_nat n) (hex_byte 0)));; mret (i + n).

Definition process_file (fuel : nat) (o : options) (filename contents mtime : list Z) : tool unit :=
  cur ← tool_get curSubdir;
  let qualifiedName := take (Z.to_nat (MAX_PATH_LEN - 1)) (cur ++ [47] ++ filename) in
  varname ← fix_filename_for_c qualifiedName MAX_PATH_LEN;
  register_filename varname;;
  dummy ← tool_get payload_alingment_dummy_counter;
  write_data (chars "#if FSDATA_FILE_ALIGNMENT==1" ++ NEWLINE);;
  write_data (chars "static const unsigned int dummy_align_" ++ varname ++ chars " = " ++ dec dummy ++ chars ";" ++ NEWLINE);;
  set_dummy_counter (dummy + 1);;
  write_data (chars "#endif" ++ NEWLINE);;
  write_data (chars "static const unsigned char FSDATA_ALIGN_PRE data_" ++ varname ++ chars "[] FSDATA_ALIGN_POST = {" ++ NEWLINE);;
  write_data (chars "/* " ++ qualifiedName ++ chars " (" ++ dec (zlen qualifiedName + 1) ++ chars " chars) */" ++ NEWLINE);;
  i ← file_put_ascii (qualifiedName ++ [0]) 0;
  i ← pad_payload i;
  write_data NEWLINE;;
  ssi ← tool_lift (is_ssi_file o cur filename);
  (if includeHttpHeader o && negb ssi then _ ← tool_lift (file_can_be_compressed o filename); mret tt else mret tt);;
  hdr ← (if includeHttpHeader o then file_write_http_header o filename mtime (zlen contents) (negb ssi) else mret []);
  let flags := Z.lor (if ssi : bool then FS_FILE_FLAGS_SSI else 0)
    (if includeHttpHeader o then
       Z.lor FS_FILE_FLAGS_HEADER_INCLUDED
         (if negb ssi then
            Z.lor FS_FILE_FLAGS_HEADER_PERSISTENT (if useHttp11 o then FS_FILE_FLAGS_HEADER_HTTPVER_1_1 else 0)
          else 0)
     else 0) in
  chksum_count ← (if precalcChksum o then write_checksums fuel varname hdr contents else mret 0);
  last ← tool_get lastFileVar;
  write_struct (chars "const struct fsdata_file file_" ++ varname ++ chars "[] = { {" ++ NEWLINE);;
  write_struct (chars "file_" ++ last ++ chars "," ++ NEWLINE);;
  write_struct (chars "data_" ++ varname ++ chars "," ++ NEWLINE);;
  write_struct (chars "data_" ++ varname ++ chars " + " ++ dec i ++ chars "," ++ NEWLINE);;
  write_struct (chars "sizeof(data_" ++ varname ++ chars ") - " ++ dec i ++ chars "," ++ NEWLINE);;
  write_struct (flag_names flags);;
  write_struct (chars "," ++ NEWLINE);;
  (if precalcChksum o then
     write_struct (chars "#if HTTPD_PRECALCULATED_CHECKSUM" ++ NEWLINE);;
     write_struct (dec chksum_count ++ chars ", chksums_" ++ varname ++ chars "," ++ NEWLINE);;
     write_struct (chars "#endif /* HTTPD_PRECALCULATED_CHECKSUM */" ++ NEWLINE)
   else mret tt);;
  write_struct (chars "}};" ++ NEWLINE ++ NEWLINE);;
  set_lastFileVar varname;;
  write_data (NEWLINE ++ chars "/* raw file data (" ++ dec (zlen contents) ++ chars " bytes) */" ++ NEWLINE);;
  process_file_data contents;;
  write_data (chars "};" ++ NEWLINE ++ NEWLINE).

(** ** Directories *)

Definition process_own_file (fuel : nat) (o : options) (e : entry) : tool Z :=
  match e with
  | File name contents mtime =>
      if bool_decide (name = chars "fsdata.tmp") then mret 0
      else if bool_decide (name = chars "fshdr.tmp") then mret 0
      else
        excluded ← tool_lift (file_to_exclude o name);
        if excluded : bool then mret 0 else process_file fuel o name contents mtime;; mret 1
  | Dir _ _ => mret 0
  end.

Fixpoint process_own_files (fuel : nat) (o : options) (es : list entry) : tool Z :=
  match es with
  | [] => mret 0
  | e :: es => n ← process_own_file fuel o e; m ← process_own_files fuel o es; mret (n + m)
  end.

(** Another level of directories; the number of files that were processed. *)
Fixpoint process_sub (fuel : nat) (o : options) (d : entry) : tool Z :=
  match d with
  | File _ _ _ => mret 0
  | Dir _ entries =>
      if processSubs o then
        cur ← tool_get curSubdir;
        n ← (fix subs (es : list entry) : tool Z :=
               match es with
               | [] => mret 0
               | e :: es =>
                   n ← match e with
                       | Dir name _ =>
                           if bool_decide (head name = Some 46) then mret 0
                           else if 0 <? CURSUBDIR_SIZE - zlen cur - 1 then
                             path ← tool_lift (subdir_with cur name);
                             set_curSubdir path;;
                             n ← process_sub fuel o e;
                             set_curSubdir cur;;
                             mret n
                           else mret 0
                       | File _ _ _ => mret 0
                       end;
                   m ← subs es;
                   mret (n + m)
               end) entries;
        m ← process_own_files fuel o entries;
        mret (n + m)
      else mret 0
  end.

Definition preamble : list Z :=
  let quoted s := [34] ++ chars s ++ [34] in
  chars "#include " ++ quoted "fs.h"%string ++ NEWLINE ++
  chars "#include " ++ quoted "lwip/def.h"%string ++ NEWLINE ++ NEWLINE ++ NEWLINE ++
  chars "#define file_NULL (struct fsdata_file *) NULL" ++ NEWLINE ++ NEWLINE ++ NEWLINE ++
  chars "#ifndef FS_FILE_FLAGS_HEADER_INCLUDED" ++ NEWLINE ++ chars "#define FS_FILE_FLAGS_HEADER_INCLUDED 1" ++ NEWLINE ++ chars "#endif" ++ NEWLINE ++
  chars "#ifndef FS_FILE_FLAGS_HEADER_PERSISTENT" ++ NEWLINE ++ chars "#define FS_FILE_FLAGS_HEADER_PERSISTENT 0" ++ NEWLINE ++ chars "#endif" ++ NEWLINE ++
  chars "/* FSDATA_FILE_ALIGNMENT: 0=off, 1=by variable, 2=by include */" ++ NEWLINE ++
  chars "#ifndef FSDATA_FILE_ALIGNMENT" ++ NEWLINE ++ chars "#define FSDATA_FILE_ALIGNMENT 0" ++ NEWLINE ++ chars "#endif" ++ NEWLINE ++
  chars "#ifndef FSDATA_ALIGN_PRE" ++ NEWLINE ++ chars "#define FSDATA_ALIGN_PRE" ++ NEWLINE ++ chars "#endif" ++ NEWLINE ++
  chars "#ifndef FSDATA_ALIGN_POST" ++ NEWLINE ++ chars "#define FSDATA_ALIGN_POST" ++ NEWLINE ++ chars "#endif" ++ NEWLINE ++
  chars "#if FSDATA_FILE_ALIGNMENT==2" ++ NEWLINE ++ chars "#include " ++ quoted "fsdata_alignment.h"%string ++ NEWLINE ++ chars "#endif" ++ NEWLINE.

(** The file that [main] leaves, of the entries of the directory it is called for. *)
Definition main (fuel : nat) (o : options) (entries : list entry) : outcome (option (list Z)) :=
  let start := mkTool preamble [] [] (chars "NULL") [] 0 in
  r ← process_sub fuel o (Dir [] entries) start;
  match r with
  | None => Ok None
  | Some (filesProcessed, s) =>
      Ok (Some ((data_file s ++ NEWLINE ++ NEWLINE) ++
        struct_file s ++ chars "#define FS_ROOT file_" ++ lastFileVar s ++ NEWLINE ++
        chars "#define FS_NUMFILES " ++ dec filesProcessed ++ NEWLINE ++ NEWLINE))
  end.
End Tool.

(** ** The command line *)

Definition default_options (agent : list Z) : options :=
  mkOptions true true false true false false None None (chars "Server: " ++ agent ++ NEWLINE) None.

(** [checkSsiByFilelist]: the regions from the beginning of each line of the file on, and the result; nothing when the
    assertion that there are fewer lines than lines allocated fails. *)
Fixpoint ssi_lines (buf : list Z) (in_line : bool) : list (list Z) :=
  match buf with
  | [] => []
  | c :: r =>
      if c =? 0 then ssi_lines r false
      else if in_line then ssi_lines r true else buf :: ssi_lines r true
  end.

Definition checkSsiByFilelist (ssi_file_lines : option (list (list Z))) (content : option (list Z)) :
    option (option (list (list Z)) * bool) :=
  match content with
  | Some (c :: r) =>
      let num_lines := 1 + zlen (filter (λ c, c = 10) (c :: r)) in
      let lines := ssi_lines (map (λ c, if (c =? 10) || (c =? 13) then 0 else c) (c :: r)) false in
      if zlen lines <? num_lines then Some (Some lines, false) else None
  | _ => Some (ssi_file_lines, false)
  end.

Record command := mkCommand { c_options : options; c_path : list Z; c_targetfile : list Z }.

Definition c_set (f : options → options) (c : command) : command := mkCommand (f (c_options c)) (c_path c) (c_targetfile c).

(** An argument of the command line, and the files it may name; nothing when the tool ends, with its usage or with a
    failed assertion. *)
Definition parse_arg (read_file : list Z → option (list Z)) (argv : list Z) (c : command) : option command :=
  let equals s := bool_decide (argv = chars s) in
  let starts s := is_prefix (chars s) argv in
  let contains s := match strstr (literal argv) 0 (chars s) with Ok (Some _) => true | _ => false end in
  match head argv with
  | Some 45 =>
      if starts "-svr:"%string then
        let id := take 1023 (chars "Server: " ++ drop 5 argv ++ NEWLINE) in
        Some (c_set (λ o, mkOptions (processSubs o) (includeHttpHeader o) (useHttp11 o) (supportSsi o) (precalcChksum o)
          (includeLastModified o) (exclude_list o) (ncompress_list o) id (ssi_file_lines o)) c)
      else if equals "-s"%string then
        Some (c_set (λ o, mkOptions false (includeHttpHeader o) (useHttp11 o) (supportSsi o) (precalcChksum o)
          (includeLastModified o) (exclude_list o) (ncompress_list o) (serverID o) (ssi_file_lines o)) c)
      else if equals "-e"%string then
        Some (c_set (λ o, mkOptions (processSubs o) false (useHttp11 o) (supportSsi o) (precalcChksum o)
          (includeLastModified o) (exclude_list o) (ncompress_list o) (serverID o) (ssi_file_lines o)) c)
      else if equals "-11"%string then
        Some (c_set (λ o, mkOptions (processSubs o) (includeHttpHeader o) true (supportSsi o) (precalcChksum o)
          (includeLastModified o) (exclude_list o) (ncompress_list o) (serverID o) (ssi_file_lines o)) c)
      else if equals "-nossi"%string then
        Some (c_set (λ o, mkOptions (processSubs o) (includeHttpHeader o) (useHttp11 o) false (precalcChksum o)
          (includeLastModified o) (exclude_list o) (ncompress_list o) (serverID o) (ssi_file_lines o)) c)
      else if starts "-ssi:"%string then
        '(lines, _) ← checkSsiByFilelist (ssi_file_lines (c_options c)) (read_file (drop 5 argv));
        Some (c_set (λ o, mkOptions (processSubs o) (includeHttpHeader o) (useHttp11 o) (supportSsi o) (precalcChksum o)
          (includeLastModified o) (exclude_list o) (ncompress_list o) (serverID o) lines) c)
      else if equals "-c"%string then
        Some (c_set (λ o, mkOptions (processSubs o) (includeHttpHeader o) (useHttp11 o) (supportSsi o) true
          (includeLastModified o) (exclude_list o) (ncompress_list o) (serverID o) (ssi_file_lines o)) c)
      else if starts "-f:"%string then Some (mkCommand (c_options c) (c_path c) (take (Z.to_nat (MAX_PATH_LEN - 1)) (drop 3 argv)))
      else if equals "-m"%string then
        Some (c_set (λ o, mkOptions (processSubs o) (includeHttpHeader o) (useHttp11 o) (supportSsi o) (precalcChksum o)
          true (exclude_list o) (ncompress_list o) (serverID o) (ssi_file_lines o)) c)
      else if starts "-defl"%string then Some c
      else if starts "-x:"%string then
        Some (c_set (λ o, mkOptions (processSubs o) (includeHttpHeader o) (useHttp11 o) (supportSsi o) (precalcChksum o)
          (includeLastModified o) (Some (literal (drop 3 argv))) (ncompress_list o) (serverID o) (ssi_file_lines o)) c)
      else if starts "-xc:"%string then
        Some (c_set (λ o, mkOptions (processSubs o) (includeHttpHeader o) (useHttp11 o) (supportSsi o) (precalcChksum o)
          (includeLastModified o) (exclude_list o) (Some (literal (drop 4 argv))) (serverID o) (ssi_file_lines o)) c)
      else if contains "-?"%string || contains "-h"%string then None
      else Some c
  | _ =>
      if equals "/?"%string then None
      else Some (mkCommand (c_options c) (take (Z.to_nat (MAX_PATH_LEN - 1)) argv) (c_targetfile c))
  end.

Fixpoint parse_args (read_file : list Z → option (list Z)) (argv : list (list Z)) (c : command) : option command :=
  match argv with
  | [] => Some c
  | a :: argv => c ← parse_arg read_file a c; parse_args read_file argv c
  end.

Definition default_command (agent : list Z) : command := mkCommand (default_options agent) (chars "fs") (chars "fsdata.c").

(** The loop of [check_path] from the end of [path], a string of [slen] characters, on; the path after it. *)
Fixpoint strip_path (slen : nat) (path : list Z) : outcome (nat * list Z) :=
  match slen with
  | O => Ok (O, path)
  | S n =>
      c ← rd path (Z.of_nat slen);
      if (c =? 92) || (c =? 47) then path ← wr path (Z.of_nat slen) 0; strip_path n path else Ok (slen, path)
  end.

(** Whether the path is valid, and the buffer after the check. *)
Definition check_path (path : list Z) (size : Z) : outcome (bool * list Z) :=
  c ← rd path 0;
  if c =? 0 then Ok (false, path)
  else
    s ← c_str path;
    if size <=? zlen s then Ok (false, path)
    else '(slen, path) ← strip_path (length s) path; Ok (negb (Nat.eqb slen 0), path).
