(* ===== verification/FsDataReader.v ===== *)
(** What a C compiler makes of a file that makefsdata wrote: its arrays of bytes, its descriptors, and the list of files
    that starts at [FS_ROOT], as [fs_open] finds it in memory.  A specification of the part of C the tool uses, as a
    reader of the characters. *)
From S2P Require Import Prelude CString Http HttpRequest MakeFsData.

(** ** Characters *)

(** Inside the braces of an array: between bytes, in a comment, in a byte. *)
Inductive byte_state := Code | Slash | Comment | Star | Zero | Ex | Digit (d : Z) | Byte (b : Z).

Definition hex_value (c : Z) : option Z :=
  if (48 <=? c) && (c <=? 57) then Some (c - 48) else if (97 <=? c) && (c <=? 102) then Some (c - 87) else None.

(** The next character, and the byte it completes. *)
Definition in_array (st : byte_state) (c : Z) : option (byte_state * list Z) :=
  match st with
  | Code =>
      if (c =? 13) || (c =? 10) || (c =? 32) then Some (Code, [])
      else if c =? 47 then Some (Slash, []) else if c =? 48 then Some (Zero, []) else None
  | Slash => if c =? 42 then Some (Comment, []) else None
  | Comment => Some (if c =? 42 then Star else Comment, [])
  | Star => Some (if c =? 47 then Code else if c =? 42 then Star else Comment, [])
  | Zero => if c =? 120 then Some (Ex, []) else None
  | Ex => d ← hex_value c; Some (Digit d, [])
  | Digit d => e ← hex_value c; Some (Byte (16 * d + e), [])
  | Byte b => if c =? 44 then Some (Code, [b]) else None
  end.

(** ** Declarations *)

(** The arrays, the descriptors with the lines of their members, and the first descriptor. *)
Record declarations := mkDecls {
  arrays : list (list Z * list Z); structs : list (list Z * list (list Z)); fs_root : option (list Z) }.

Definition no_decls : declarations := mkDecls [] [] None.
Definition add_arrays (l : list (list Z * list Z)) (d : declarations) : declarations :=
  mkDecls (arrays d ++ l) (structs d) (fs_root d).
Definition add_structs (l : list (list Z * list (list Z))) (d : declarations) : declarations :=
  mkDecls (arrays d) (structs d ++ l) (fs_root d).

Inductive position :=
  | Line (line : list Z)
  | Bytes (var : list Z) (st : byte_state) (bytes : list Z)
  | Fields (var : list Z) (fields : list (list Z)) (line : list Z).

Definition strip_cr (l : list Z) : list Z := before 13 l.

Definition ARRAY : list Z := chars "static const unsigned char FSDATA_ALIGN_PRE data_".
Definition STRUCT : list Z := chars "const struct fsdata_file file_".
Definition ROOT : list Z := chars "#define FS_ROOT file_".

(** A line outside of declarations: the beginning of one, the root, or nothing of interest (alignment is off, and the
    macros it uses are empty). *)
Definition read_line (l : list Z) (d : declarations) : position * declarations :=
  if is_prefix ARRAY l then (Bytes (before 91 (drop (length ARRAY) l)) Code [], d)
  else if is_prefix STRUCT l then (Fields (before 91 (drop (length STRUCT) l)) [] [], d)
  else if is_prefix ROOT l then (Line [], mkDecls (arrays d) (structs d) (Some (drop (length ROOT) l)))
  else (Line [], d).

Fixpoint read (p : position) (t : list Z) (d : declarations) : option declarations :=
  match t with
  | [] => match p with Line _ => Some d | _ => None end
  | c :: t =>
      match p with
      | Line l => if c =? 10 then let '(p, d) := read_line (strip_cr l) d in read p t d else read (Line (l ++ [c])) t d
      | Bytes v Code bs =>
          if c =? 125 then read (Line []) t (add_arrays [(v, bs)] d)
          else match in_array Code c with Some (st, b) => read (Bytes v st (bs ++ b)) t d | None => None end
      | Bytes v st bs => match in_array st c with Some (st, b) => read (Bytes v st (bs ++ b)) t d | None => None end
      | Fields v fs l =>
          if c =? 10 then
            if bool_decide (strip_cr l = chars "}};") then read (Line []) t (add_structs [(v, fs)] d)
            else read (Fields v (fs ++ [strip_cr l]) []) t d
          else read (Fields v fs (l ++ [c])) t d
      end
  end.

(** ** The list of files *)

Fixpoint find_var {A} (v : list Z) (l : list (list Z * A)) : option A :=
  match l with [] => None | (w, a) :: l => if bool_decide (v = w) then Some a else find_var v l end.

Definition strip (pre l : list Z) : option (list Z) := if is_prefix pre l then Some (drop (length pre) l) else None.

(** A name and a number with [sep] between them, up to a comma. *)
Definition name_and_number (sep : list Z) (l : list Z) : option (list Z * Z) :=
  let name := before (hd 0 sep) l in
  r ← strip sep (drop (length name) l);
  Some (name, digits_value r 0).

(** A constant expression of flags. *)
Definition flag_values : list (list Z * Z) :=
  [(chars "FS_FILE_FLAGS_HEADER_INCLUDED", FS_FILE_FLAGS_HEADER_INCLUDED);
   (chars "FS_FILE_FLAGS_HEADER_PERSISTENT", FS_FILE_FLAGS_HEADER_PERSISTENT);
   (chars "FS_FILE_FLAGS_HEADER_HTTPVER_1_1", FS_FILE_FLAGS_HEADER_HTTPVER_1_1);
   (chars "FS_FILE_FLAGS_SSI", FS_FILE_FLAGS_SSI); (chars "0", 0)].

Fixpoint read_flags (fuel : nat) (l : list Z) : option Z :=
  match fuel with
  | O => None
  | S fuel =>
      let word := before 32 (before 44 l) in
      v ← find_var word flag_values;
      let r := drop (length word) l in
      if bool_decide (r = chars ",") then Some v
      else r ← strip (chars " | ") r; w ← read_flags fuel r; Some (Z.lor v w)
  end.

(** The descriptor a list of members describes, and the next one. *)
Definition read_struct (d : declarations) (fields : list (list Z)) : option (fsdata_file * list Z) :=
  match fields with
  | [next; name; data; len; flags] =>
      next ← strip (chars "file_") next;
      name ← strip (chars "data_") name;
      name_bytes ← find_var (before 44 name) (arrays d);
      name ← match c_str name_bytes with Ok s => Some s | _ => None end;
      data ← strip (chars "data_") data;
      '(data_var, offset) ← name_and_number (chars " + ") data;
      data_bytes ← find_var data_var (arrays d);
      len ← strip (chars "sizeof(data_") len;
      '(len_var, less) ← name_and_number (chars ") - ") len;
      len_bytes ← find_var len_var (arrays d);
      flags ← read_flags 5 flags;
      Some (mkFsData name (drop (Z.to_nat offset) data_bytes) (zlen len_bytes - less) flags, before 44 next)
  | _ => None
  end.

(** The list from a descriptor on. *)
Fixpoint chain (fuel : nat) (d : declarations) (v : list Z) : option (list fsdata_file) :=
  if bool_decide (v = chars "NULL") then Some []
  else
    match fuel with
    | O => None
    | S fuel =>
        fields ← find_var v (structs d);
        '(f, next) ← read_struct d fields;
        files ← chain fuel d next;
        Some (f :: files)
    end.

(** The files of a program. *)
Definition compile (text : list Z) : option (list fsdata_file) :=
  d ← read (Line []) text no_decls;
  root ← fs_root d;
  chain (length (structs d)) d root.
