(* ===== verification/FsDataText.v ===== *)
(** The text that makefsdata writes means to the reader of C what the tool was given: bytes, comments, and the parts of
    the tool that write them. *)
From S2P Require Import Prelude CString Http HttpLwip HttpRequest MakeFsData FsDataReader.

(** ** Numbers and bytes *)

Lemma dec_spec n : 0 <= n < 10 ^ 20 →
  Forall (λ c, 48 <= c < 58) (dec n) ∧ 0 < zlen (dec n) <= 20 ∧ ∀ r, is_digit (hd 0 r) = false → digits_value (dec n ++ r) 0 = n.
Proof.
  intros Hn. unfold dec. destruct (digits_spec 20 n []) as (ds&->&Hv&Hall&Hl); [done|lia|]. rewrite app_nil_r.
  split; [done|]. split; [done|]. intros r Hr. rewrite Hv. cbn. destruct r as [|c r]; [done|]. cbn [hd digits_value] in *. by rewrite Hr.
Qed.

Lemma hex_byte_read c : is_u8 c →
  hex_value (hex_digit (c / 16)) = Some (c / 16) ∧ hex_value (hex_digit (c mod 16)) = Some (c mod 16) ∧ 16 * (c / 16) + c mod 16 = c.
Proof.
  intros Hc. unfold is_u8 in Hc.
  assert (H : ∀ d, 0 <= d < 16 → hex_value (hex_digit d) = Some d).
  { intros d Hd. unfold hex_value, hex_digit. destruct (Z.ltb_spec d 10).
    - rewrite !(proj2 (Z.leb_le _ _)) by lia. cbn [andb]. f_equal. lia.
    - rewrite (proj2 (Z.leb_gt (87 + d) 57)), andb_false_r, !(proj2 (Z.leb_le _ _)) by lia. cbn [andb]. f_equal. lia. }
  split; [apply H; zdiv|]. split; [apply H; zdiv|zdiv].
Qed.

(** ** Inside an array *)

(** Between two bytes, the text stands for the bytes [bs]. *)
Definition yields (text bs : list Z) : Prop :=
  ∀ v b t d, read (Bytes v Code b) (text ++ t) d = read (Bytes v Code (b ++ bs)) t d.

Lemma yields_nil : yields [] [].
Proof. intros v b t d. by rewrite app_nil_r. Qed.

Lemma yields_app t1 t2 b1 b2 : yields t1 b1 → yields t2 b2 → yields (t1 ++ t2) (b1 ++ b2).
Proof. intros H1 H2 v b t d. by rewrite <- app_assoc, H1, H2, <- app_assoc. Qed.

Lemma yields_newline : yields NEWLINE [].
Proof. intros v b t d. cbn [app NEWLINE read in_array Z.eqb Pos.eqb orb]. by rewrite !app_nil_r. Qed.

Lemma read_step st st' c b1 v b t d : in_array st c = Some (st', b1) → (st = Code → c ≠ 125) →
  read (Bytes v st b) (c :: t) d = read (Bytes v st' (b ++ b1)) t d.
Proof.
  intros E Hc. destruct st; cbn [read]; rewrite ?(proj2 (Z.eqb_neq c 125) (Hc eq_refl)); by rewrite E.
Qed.

Lemma yields_byte c : is_u8 c → yields (hex_byte c) [c].
Proof.
  intros Hc v b t d. destruct (hex_byte_read c Hc) as (H1&H2&E). unfold hex_byte. cbn [app].
  rewrite (read_step Code Zero 48 []) by done. rewrite (read_step Zero Ex 120 []) by done.
  rewrite (read_step Ex (Digit (c / 16)) _ []) by (done || cbn [in_array]; by rewrite H1).
  rewrite (read_step (Digit (c / 16)) (Byte c) _ []) by (done || cbn [in_array]; rewrite H2; cbn; by rewrite E).
  rewrite (read_step (Byte c) Code 44 [c]) by done. by rewrite !app_nil_r.
Qed.

Lemma read_comment c t v b d : 42 ∉ c → read (Bytes v Comment b) (c ++ chars "*/" ++ t) d = read (Bytes v Code b) t d.
Proof.
  induction c as [|x c IH]; intros Hc.
  - change (chars "*/") with [42; 47]. cbn [app]. rewrite (read_step Comment Star 42 []) by done.
    rewrite (read_step Star Code 47 []) by done. by rewrite !app_nil_r.
  - apply not_elem_of_cons in Hc as [Hx Hc]. cbn [app].
    rewrite (read_step Comment Comment x []), app_nil_r by (done || cbn [in_array]; by rewrite (proj2 (Z.eqb_neq x 42)) by congruence).
    by apply IH.
Qed.

Lemma yields_comment c : 42 ∉ c → yields (chars "/*" ++ c ++ chars "*/") [].
Proof.
  intros Hc v b t d. change (chars "/*") with [47; 42]. cbn [app]. rewrite (read_step Code Slash 47 []) by done.
  rewrite (read_step Slash Comment 42 []) by done. rewrite !app_nil_r, <- app_assoc. by apply read_comment.
Qed.

Create HintDb yields.
#[export] Hint Resolve yields_nil yields_app yields_newline yields_byte yields_comment : yields.

Lemma put_ascii_yields l i : Forall is_u8 l → yields (put_ascii l i).1 l ∧ (put_ascii l i).2 = i + zlen l.
Proof.
  intros Hl. revert i. induction Hl as [|c l Hc _ IH]; intros i; cbn [put_ascii]; [split; [apply yields_nil|cbn; lia]|].
  destruct (IH (i + 1)) as [Hy Hj]. destruct (put_ascii l (i + 1)) as [t j]. cbn [fst snd] in *. split; [|cbn [length]; lia].
  change (c :: l) with ([c] ++ [] ++ l). apply yields_app; [by apply yields_byte|]. apply yields_app; [|done].
  destruct (_ =? 0); auto with yields.
Qed.

(** ** Steps that only write *)

(** The step writes [td] and [ts] and leaves the rest of the state alone. *)
Definition writes {A} (m : tool A) (a : A) (td ts : list Z) : Prop := ∀ s,
  m s = Ok (Some (a, mkTool (data_file s ++ td) (struct_file s ++ ts) (curSubdir s) (lastFileVar s) (first_file s)
                       (payload_alingment_dummy_counter s))).

Lemma writes_ret {A} (a : A) : writes (mret a) a [] [].
Proof. intros [d st cur l f n]. cbn. by rewrite !app_nil_r. Qed.

Lemma writes_bind {A B} (m : tool A) (f : A → tool B) a b td1 ts1 td2 ts2 : writes m a td1 ts1 → writes (f a) b td2 ts2 →
  writes (m ≫= f) b (td1 ++ td2) (ts1 ++ ts2).
Proof. intros H1 H2 s. unfold mbind, tool_bind. rewrite H1, H2. cbn. by rewrite !app_assoc. Qed.

Lemma writes_data t : writes (write_data t) tt t [].
Proof. intros s. unfold write_data, tool_mod. by rewrite app_nil_r. Qed.

Lemma writes_struct t : writes (write_struct t) tt [] t.
Proof. intros s. unfold write_struct, tool_mod. by rewrite app_nil_r. Qed.

Lemma writes_run {A B} (m : tool A) (f : A → tool B) a td ts s : writes m a td ts →
  (m ≫= f) s = f a (mkTool (data_file s ++ td) (struct_file s ++ ts) (curSubdir s) (lastFileVar s) (first_file s)
                      (payload_alingment_dummy_counter s)).
Proof. intros H. unfold mbind, tool_bind. by rewrite H. Qed.

(** The step writes bytes of an array. *)
Definition emits {A} (m : tool A) (a : A) (bs : list Z) : Prop := ∃ td, writes m a td [] ∧ yields td bs.

Lemma emits_ret {A} (a : A) : emits (mret a) a [].
Proof. exists []. split; [apply writes_ret|apply yields_nil]. Qed.

Lemma emits_bind {A B} (m : tool A) (f : A → tool B) a b bs1 bs2 : emits m a bs1 → emits (f a) b bs2 → emits (m ≫= f) b (bs1 ++ bs2).
Proof.
  intros (t1&H1&Y1) (t2&H2&Y2). exists (t1 ++ t2). split; [|by apply yields_app]. by apply (writes_bind m f a b t1 [] t2 []).
Qed.

Lemma emits_result {A B} (m : tool A) a (b : B) bs : emits m a bs → emits (m;; mret b) b bs.
Proof. intros H. rewrite <- (app_nil_r bs). by eapply emits_bind; [|apply emits_ret]. Qed.

Lemma emits_data t bs : yields t bs → emits (write_data t) tt bs.
Proof. intros H. exists t. split; [apply writes_data|done]. Qed.

Lemma emits_ascii l i : Forall is_u8 l → emits (file_put_ascii l i) (i + zlen l) l.
Proof.
  intros Hl. destruct (put_ascii_yields l i Hl) as [Hy Hj]. unfold file_put_ascii. destruct (put_ascii l i) as [t j]. cbn [fst snd] in *.
  subst j. exists t. split; [|done]. rewrite <- (app_nil_r t) at 2. apply (writes_bind _ _ tt _ t [] [] []); [apply writes_data|apply writes_ret].
Qed.

(** Characters a comment can hold, as bytes of an array. *)
Definition plain (s : list Z) : Prop := Forall is_u8 s ∧ 42 ∉ s.

Lemma plain_app s1 s2 : plain s1 → plain s2 → plain (s1 ++ s2).
Proof. intros [H1 H1'] [H2 H2']. split; [by apply Forall_app|]. rewrite elem_of_app. tauto. Qed.

Lemma digits_plain ds : Forall (λ c, 48 <= c < 58) ds → plain ds.
Proof.
  intros H. split; [eapply Forall_impl; [exact H|]; intros c Hc; unfold is_u8; cbn in *; lia|].
  intros Hin. rewrite Forall_forall in H. specialize (H 42 Hin). lia.
Qed.

Lemma dec_plain n : 0 <= n < 10 ^ 20 → plain (dec n).
Proof. intros Hn. apply digits_plain. by apply dec_spec. Qed.

Lemma plain_decide s : forallb (λ c, (0 <=? c) && (c <? 256) && negb (c =? 42)) s = true → plain s.
Proof.
  intros H. rewrite forallb_forall in H. split.
  - rewrite Forall_forall. intros c Hc. specialize (H c ltac:(by apply list_elem_of_In)). unfold is_u8. lia.
  - intros Hin. by specialize (H 42 ltac:(by apply list_elem_of_In)).
Qed.

(** Closed strings. *)
Ltac plain_literal := apply plain_decide; vm_compute; reflexivity.

Create HintDb plain.
#[export] Hint Resolve plain_app dec_plain : plain.
#[export] Hint Extern 1 (plain ?s) => (plain_literal) : plain.
