(* ===== verification/FsDataFiles.v ===== *)
(** What makefsdata writes for one file: an array with the name, the header and the content, and its descriptor; the
    names of the variables. *)
From S2P Require Import Prelude CString Http HttpLwip HttpRequest MakeFsData FsDataReader FsDataText.

(** ** The content *)

(** [file_buffer_c] never runs over, and what passes through it is what [put_ascii] would write. *)
Lemma file_data_loop_writes l buf off : zlen buf + 20 < FILE_BUFFER_C_SIZE → ∃ buf' td,
  writes (file_data_loop l buf off) buf' td [] ∧ td ++ buf' = buf ++ (put_ascii l off).1.
Proof.
  assert (HB : FILE_BUFFER_C_SIZE = 5439488) by reflexivity.
  revert buf off. induction l as [|c l IH]; intros buf off Hb; cbn [file_data_loop put_ascii].
  { exists buf, []. split; [apply writes_ret|by rewrite app_nil_r]. }
  set (nl := if (off + 1) mod HEX_BYTES_PER_LINE =? 0 then NEWLINE else []).
  set (buf1 := buf ++ hex_byte c ++ nl).
  assert (Hstep : ∀ k : list Z → tool (list Z), (tool_assert (zlen buf <? FILE_BUFFER_C_SIZE - 5);;
      buf0 ← (if (off + 1) mod HEX_BYTES_PER_LINE =? 0
              then tool_assert (zlen (buf ++ hex_byte c) <? FILE_BUFFER_C_SIZE - NEWLINE_LEN);; mret ((buf ++ hex_byte c) ++ NEWLINE)
              else mret (buf ++ hex_byte c)); k buf0) = k buf1).
  { intros k. unfold tool_assert. rewrite (proj2 (Z.ltb_lt (zlen buf) _)) by lia.
    unfold buf1, nl. destruct (_ =? 0); cbn [mret mbind tool_ret tool_bind].
    - rewrite (proj2 (Z.ltb_lt _ _)) by (unfold hex_byte, NEWLINE_LEN; lens). cbn [mret mbind tool_ret tool_bind]. by rewrite <- app_assoc.
    - by rewrite app_nil_r. }
  rewrite Hstep. clear Hstep. destruct (put_ascii l (off + 1)) as [t j] eqn:E. cbn [fst].
  assert (Hbuf : zlen buf1 < FILE_BUFFER_C_SIZE) by (unfold buf1, nl, hex_byte, NEWLINE; destruct (_ =? 0); lens).
  destruct (Z.leb_spec FILE_BUFFER_C_SIZE (zlen buf1 + 20)).
  - destruct (IH [] (off + 1)) as (buf'&td&H1&H2); [cbn; lia|]. exists buf', (buf1 ++ td).
    split; [apply (writes_bind _ _ tt _ buf1 [] td []); [apply writes_data|done]|]. by rewrite <- app_assoc, H2, E; unfold buf1; rewrite <- !app_assoc.
  - destruct (IH buf1 (off + 1)) as (buf'&td&H1&H2); [lia|]. exists buf', td. split; [done|].
    by rewrite H2, E; unfold buf1; rewrite <- !app_assoc.
Qed.

Lemma emits_file_data contents : Forall is_u8 contents → emits (process_file_data contents) tt contents.
Proof.
  intros Hc. destruct (file_data_loop_writes contents [] 0) as (buf&td&H1&H2); [done|].
  destruct (put_ascii_yields contents 0 Hc) as [Hy _]. cbn [app] in H2. rewrite <- H2 in Hy.
  exists (td ++ buf). split; [|done]. apply (writes_bind _ _ buf _ td [] buf []); [done|apply writes_data].
Qed.

Lemma emits_padding i : emits (pad_payload i) (i + (- i) mod 4) (replicate (Z.to_nat ((- i) mod 4)) 0).
Proof.
  unfold pad_payload. change PAYLOAD_ALIGNMENT with 4. set (n := Z.to_nat _). rewrite <- (app_nil_r (replicate n 0)).
  eapply emits_bind; [|apply emits_ret]. apply emits_data. induction n as [|n IH]; [apply yields_nil|].
  change (yields (hex_byte 0 ++ concat (replicate n (hex_byte 0))) ([0] ++ replicate n 0)). by apply yields_app; [apply yields_byte|].
Qed.

(** ** The header *)

Lemma emits_string e s i : 42 ∉ e → plain s → emits (put_string (e ++ chars "*/" ++ NEWLINE) s i) (i + zlen s) s.
Proof.
  intros He [Hs Hs']. unfold put_string. change s with ([] ++ s) at 4. eapply emits_bind; [|by apply emits_ascii].
  apply emits_data. replace (NEWLINE ++ [47; 42; 32; 34] ++ s ++ e ++ chars "*/" ++ NEWLINE)
    with (NEWLINE ++ (chars "/*" ++ ([32; 34] ++ s ++ e) ++ chars "*/") ++ NEWLINE) by (rewrite <- !app_assoc; done).
  apply (yields_app _ _ [] []); [apply yields_newline|]. apply (yields_app _ _ [] []); [|apply yields_newline].
  apply yields_comment. rewrite !elem_of_app. intros [H|[H|H]]; [|done..]. by apply list_elem_of_In in H as [|[|[]]].
Qed.

Lemma emits_counted s i : plain s → zlen s < 10 ^ 20 → emits (put_string (bytes_comment (zlen s)) s i) (i + zlen s) s.
Proof.
  intros Hs Hl. pose proof (emits_string ([34] ++ chars " (" ++ dec (zlen s) ++ chars " bytes) ") s i) as H.
  unfold bytes_comment. rewrite <- !app_assoc in H. apply H; [|done].
  destruct (plain_app [34] (chars " (" ++ dec (zlen s) ++ chars " bytes) ")) as [_ Hp]; [plain_literal| |exact Hp].
  apply plain_app; [plain_literal|]. apply plain_app; [apply dec_plain; lia|plain_literal].
Qed.

Section Header.
Context {lwip : Lwip} {lwip_ok : LwipOk}.

(** The header of the response for a file of [n] bytes. *)
Definition response_header (o : options) (filename mtime : list Z) (n : Z) (provide_content_len : bool) : list Z :=
  response_type o filename ++ serverID o ++
  (if provide_content_len then HTTP_HDR_CONTENT_LENGTH ++ lwip_itoa MAX_PATH_LEN n ++ NEWLINE else []) ++
  (if includeLastModified o then chars "Last-Modified: " ++ mtime ++ NEWLINE else []) ++
  (if useHttp11 o then
     if provide_content_len then chars "Connection: keep-alive" ++ NEWLINE else HTTP_HDR_CONN_CLOSE
   else []) ++
  file_type filename.

Lemma response_type_plain o filename : plain (response_type o filename) ∧ 0 < zlen (response_type o filename) < 100.
Proof.
  unfold response_type. destruct (useHttp11 o); repeat destruct (is_prefix _ _); (split; [plain_literal|vm_compute; done]).
Qed.

Lemma file_type_plain filename : plain (file_type filename) ∧ 0 < zlen (file_type filename) < 200.
Proof.
  assert (Hall : Forall (λ h, plain h.2 ∧ 0 < zlen h.2 < 200) g_psHTTPHeaders).
  { repeat (apply List.Forall_cons; [split; [plain_literal|vm_compute; done]|]). constructor. }
  assert (Hd : plain HTTP_HDR_DEFAULT_TYPE ∧ 0 < zlen HTTP_HDR_DEFAULT_TYPE < 200) by (split; [plain_literal|vm_compute; done]).
  unfold file_type. destruct (bool_decide _); [done|]. destruct (list_find _ _) as [[i [e t]]|] eqn:E; [|done].
  apply list_find_Some in E as (E&_). rewrite Forall_lookup in Hall. by apply (Hall _ _ E).
Qed.

Lemma emits_length_lines n : 0 <= n < 1000000000 →
  emits (i ← put_string (dec n ++ NEWLINE ++ [34] ++ chars " (" ++ dec (zlen HTTP_HDR_CONTENT_LENGTH + 2) ++ chars "+ bytes) */" ++ NEWLINE)
           HTTP_HDR_CONTENT_LENGTH 0;
         file_put_ascii (lwip_itoa MAX_PATH_LEN n ++ NEWLINE) i;;
         mret (HTTP_HDR_CONTENT_LENGTH ++ lwip_itoa MAX_PATH_LEN n ++ NEWLINE))
    (HTTP_HDR_CONTENT_LENGTH ++ lwip_itoa MAX_PATH_LEN n ++ NEWLINE) (HTTP_HDR_CONTENT_LENGTH ++ lwip_itoa MAX_PATH_LEN n ++ NEWLINE).
Proof.
  intros Hn. destruct (itoa_digits MAX_PATH_LEN n) as (Hd&_&_); [done|done|]. set (ds := lwip_itoa MAX_PATH_LEN n) in *.
  eapply emits_bind.
  - pose proof (emits_string (dec n ++ NEWLINE ++ [34] ++ chars " (" ++ dec (zlen HTTP_HDR_CONTENT_LENGTH + 2) ++ chars "+ bytes) ")
      HTTP_HDR_CONTENT_LENGTH 0) as H. rewrite <- !app_assoc in H. apply H; [|plain_literal].
    destruct (plain_app (dec n) (NEWLINE ++ [34] ++ chars " (" ++ dec (zlen HTTP_HDR_CONTENT_LENGTH + 2) ++ chars "+ bytes) ")) as [_ Hp];
      [apply dec_plain; lia|plain_literal|exact Hp].
  - eapply emits_result, emits_ascii. destruct (plain_app ds NEWLINE) as [Hp _]; [by apply digits_plain|plain_literal|done].
Qed.

Lemma emits_modified mtime : plain mtime → zlen mtime < 1000 →
  emits (i ← put_string ([34] ++ NEWLINE ++ [34] ++ chars " (" ++ dec (zlen (chars "Last-Modified: " ++ mtime) + 2) ++ chars "+ bytes) */" ++ NEWLINE)
           (chars "Last-Modified: " ++ mtime) 0;
         file_put_ascii NEWLINE i;; mret ((chars "Last-Modified: " ++ mtime) ++ NEWLINE))
    (chars "Last-Modified: " ++ mtime ++ NEWLINE) (chars "Last-Modified: " ++ mtime ++ NEWLINE).
Proof.
  intros Hm Hl. set (line := chars "Last-Modified: " ++ mtime). rewrite (app_assoc _ mtime NEWLINE). fold line.
  assert (Hp : plain line) by (apply plain_app; [plain_literal|done]).
  assert (Hll : zlen line < 2000) by (unfold line; change (zlen (chars "Last-Modified: " ++ mtime) < 2000); rewrite length_app; change (length (chars "Last-Modified: ")) with 15%nat; lia).
  eapply emits_bind.
  - pose proof (emits_string ([34] ++ NEWLINE ++ [34] ++ chars " (" ++ dec (zlen line + 2) ++ chars "+ bytes) ") line 0) as H.
    rewrite <- !app_assoc in H. apply H; [|done].
    destruct (plain_app ([34] ++ NEWLINE ++ [34] ++ chars " (") (dec (zlen line + 2) ++ chars "+ bytes) ")) as [_ Hp'];
      [plain_literal|apply plain_app; [apply dec_plain; lia|plain_literal]|]. by rewrite <- !app_assoc in Hp'.
  - eapply emits_result, emits_ascii. by apply (plain_decide NEWLINE).
Qed.

Lemma emits_choice {A} (b : bool) (m1 m2 : tool A) a1 a2 bs1 bs2 : (b = true → emits m1 a1 bs1) → (b = false → emits m2 a2 bs2) →
  emits (if b then m1 else m2) (if b then a1 else a2) (if b then bs1 else bs2).
Proof. destruct b; auto. Qed.

Lemma emits_http_header o filename mtime n provide : plain (serverID o) → zlen (serverID o) < 2000 → plain mtime → zlen mtime < 1000 →
  0 <= n < 1000000000 →
  emits (file_write_http_header o filename mtime n provide) (response_header o filename mtime n provide) (response_header o filename mtime n provide).
Proof.
  intros Hs Hsl Hm Hml Hn. unfold file_write_http_header.
  destruct (response_type_plain o filename) as [Hr Hrl]. destruct (file_type_plain filename) as [Ht Htl].
  assert (Htitle : emits (write_data (NEWLINE ++ chars "/* HTTP header */")) tt []).
  { apply emits_data. change (chars "/* HTTP header */") with (chars "/*" ++ chars " HTTP header " ++ chars "*/").
    apply (yields_app _ _ [] []); [apply yields_newline|]. apply yields_comment. by apply (plain_decide (chars " HTTP header ")). }
  set (line := if provide then chars "Connection: keep-alive" ++ NEWLINE else HTTP_HDR_CONN_CLOSE).
  assert (Hline : plain line ∧ zlen line < 100) by (unfold line; destruct provide; (split; [plain_literal|by vm_compute])).
  change (response_header o filename mtime n provide) with ([] ++ response_header o filename mtime n provide) at 2.
  unfold response_header. fold line.
  eapply emits_bind; [exact Htitle|]. eapply emits_bind; [apply emits_counted; [done|lia]|].
  eapply emits_bind; [apply emits_counted; [done|lia]|].
  eapply emits_bind; [apply emits_choice; intros _; [by apply emits_length_lines|apply emits_ret]|].
  eapply emits_bind; [apply emits_choice; intros _; [by apply emits_modified|apply emits_ret]|].
  eapply emits_bind; [apply emits_choice; intros _; [eapply emits_result, emits_counted; [apply Hline|lia]|apply emits_ret]|].
  eapply emits_result, emits_counted; [done|lia].
Qed.

Lemma response_header_short o filename mtime n provide : zlen (serverID o) < 2000 → zlen mtime < 1000 → 0 <= n < 1000000000 →
  0 < zlen (response_header o filename mtime n provide) < 4096.
Proof.
  intros Hs Hm Hn. destruct (response_type_plain o filename) as [_ Hr], (file_type_plain filename) as [_ Ht].
  destruct (itoa_digits MAX_PATH_LEN n) as (_&_&Hd); [done..|]. unfold response_header. rewrite !length_app.
  assert (H1 : zlen (if provide then HTTP_HDR_CONTENT_LENGTH ++ lwip_itoa MAX_PATH_LEN n ++ NEWLINE else []) <= 100).
  { destruct provide; [|done]. rewrite !length_app. change (length HTTP_HDR_CONTENT_LENGTH) with 16%nat. cbn [NEWLINE length]. lia. }
  assert (H2 : zlen (if includeLastModified o then chars "Last-Modified: " ++ mtime ++ NEWLINE else []) <= 1017).
  { destruct (includeLastModified o); [|done]. rewrite !length_app. change (length (chars "Last-Modified: ")) with 15%nat. cbn [NEWLINE length]. lia. }
  assert (H3 : zlen (if useHttp11 o then if provide then chars "Connection: keep-alive" ++ NEWLINE else HTTP_HDR_CONN_CLOSE else []) <= 100)
    by (destruct (useHttp11 o), provide; by vm_compute).
  lia.
Qed.
End Header.
