(* ===== verification/FsDataNames.v ===== *)
(** The names that makefsdata gives its variables, and the declarations it writes with them. *)
From S2P Require Import Prelude CString Http HttpLwip HttpRequest MakeFsData FsDataReader FsDataText FsDataFiles.

(** ** Unique names *)

(** The names tried for a file, in their order. *)
Definition candidate (base : list Z) (k : Z) : list Z := if k =? 0 then base else base ++ dec k.

Lemma dec_digit k : 0 <= k < 10 → dec k = [48 + k].
Proof.
  intros Hk. unfold dec. cbn [digits]. rewrite (proj2 (Z.ltb_lt _ _)) by lia. by rewrite Z.mod_small by lia.
Qed.

Lemma candidates_differ base i j : 0 <= i < 10 → 0 <= j < 10 → candidate base i = candidate base j → i = j.
Proof.
  intros Hi Hj E. unfold candidate in E. rewrite !dec_digit in E by done.
  destruct (Z.eqb_spec i 0) as [->|], (Z.eqb_spec j 0) as [->|]; [done|..].
  - apply (f_equal length) in E. lens.
  - apply (f_equal length) in E. lens.
  - apply app_inv_head in E. injection E. lia.
Qed.

Definition ten : list Z := [0; 1; 2; 3; 4; 5; 6; 7; 8; 9].

(** The first candidate that is not in use. *)
Lemma free_candidate used base : base ∉ used ∨ (length used <= 9)%nat →
  ∃ k, 0 <= k < 10 ∧ (candidate base k ∉ used) ∧ (∀ j, 0 <= j < k → candidate base j ∈ used).
Proof.
  intros Hfree. assert (Hk : ∃ n, (n < 10)%nat ∧ candidate base (Z.of_nat n) ∉ used).
  { destruct Hfree as [Hb|Hl]; [exists 0%nat; split; [lia|done]|].
    destruct (decide (Forall (λ k, candidate base k ∈ used) ten)) as [Hall|Hno].
    - exfalso. assert (Hnd : NoDup (map (candidate base) ten)).
      { apply NoDup_fmap_2_strong; [|apply (bool_decide_unpack _); vm_compute; exact I].
        assert (Hr : ∀ x, x ∈ ten → 0 <= x < 10) by (apply Forall_forall; repeat constructor; lia).
        intros x y Hx Hy. apply candidates_differ; auto. }
      assert (Hsub : (map (candidate base) ten) ⊆ used).
      { intros x Hx. apply list_elem_of_fmap in Hx as (k&->&Hk). rewrite Forall_forall in Hall. by apply Hall. }
      pose proof (submseteq_length _ _ (NoDup_submseteq _ _ Hnd Hsub)) as Hlen. cbn in Hlen. lia.
    - apply not_Forall_Exists, Exists_exists in Hno as (k&Hk&Hn); [|apply _].
      assert (0 <= k < 10) by (revert k Hk Hn; apply (Forall_forall (λ k, candidate base k ∉ used → 0 <= k < 10)); repeat constructor; lia).
      exists (Z.to_nat k). split; [lia|]. by rewrite Z2Nat.id by lia. }
  destruct Hk as (n&Hn&Hc). revert Hc. induction (lt_wf n) as [n _ IH]. intros Hc.
  destruct (decide (Forall (λ j, candidate base (Z.of_nat j) ∈ used) (seq 0 n))) as [Hall|Hno].
  - exists (Z.of_nat n). split; [lia|]. split; [done|]. intros j Hj. rewrite Forall_forall in Hall.
    specialize (Hall (Z.to_nat j)). rewrite elem_of_seq, Z2Nat.id in Hall by lia. apply Hall. lia.
  - apply not_Forall_Exists, Exists_exists in Hno as (m&Hm&Hnm); [|apply _]. apply elem_of_seq in Hm. apply (IH m); [lia|lia|done].
Qed.

Lemma unique_name_step fuel used base k : 0 <= k < 9 → candidate base k ∈ used →
  unique_name (S fuel) used base (candidate base k) k = unique_name fuel used base (candidate base (k + 1)) (k + 1).
Proof.
  intros Hk Hc. cbn [unique_name]. rewrite bool_decide_true by done. rewrite dec_digit by lia. cbn [length].
  rewrite (proj2 (Z.ltb_ge _ _)) by lia. rewrite (proj2 (Z.ltb_lt (k + 1) 999)) by lia.
  unfold candidate. by rewrite (proj2 (Z.eqb_neq _ _)), dec_digit by lia.
Qed.

Lemma unique_name_from fuel used base j k : 0 <= j <= k → k < 10 → (∀ i, 0 <= i < k → candidate base i ∈ used) →
  (Z.to_nat (k - j) <= fuel)%nat →
  unique_name fuel used base (candidate base j) j = unique_name (fuel - Z.to_nat (k - j)) used base (candidate base k) k.
Proof.
  intros Hj Hk Hused. remember (Z.to_nat (k - j)) as n eqn:En. revert fuel j Hj En. induction n as [|n IH]; intros fuel j Hj En Hf.
  - replace j with k by lia. by rewrite Nat.sub_0_r.
  - destruct fuel as [|fuel]; [lia|]. rewrite unique_name_step by (lia || apply Hused; lia). apply IH; lia.
Qed.

Lemma unique_name_ends used base : base ∉ used ∨ (length used <= 9)%nat →
  ∃ k, 0 <= k < 10 ∧ (candidate base k ∉ used) ∧ unique_name 1000 used base base 0 = Ok (Some (candidate base k)).
Proof.
  intros Hfree. destruct (free_candidate used base Hfree) as (k&Hk&Hn&Hused). exists k. split; [done|]. split; [done|].
  pose proof (unique_name_from 1000 used base 0 k) as E. change (candidate base 0) with base in E. rewrite E by (done || lia). clear E.
  destruct (1000 - Z.to_nat (k - 0))%nat as [|f] eqn:E; [lia|]. cbn [unique_name]. by rewrite bool_decide_false.
Qed.

(** The block of a name has room for a number of one digit: when a name and nine numbered ones are in use, the tenth
    number is written beyond its end. *)
Theorem tenth_number_overflows used base : (∀ k, 0 <= k < 10 → candidate base k ∈ used) → unique_name 1000 used base base 0 = Ub.
Proof.
  intros Hused. pose proof (unique_name_from 1000 used base 0 9) as E. change (candidate base 0) with base in E.
  rewrite E by (lia || intros; apply Hused; lia). clear E.
  change (1000 - Z.to_nat (9 - 0))%nat with 991%nat. cbn [unique_name]. rewrite bool_decide_true by (apply Hused; lia).
  change (dec (9 + 1)) with [49; 48]. cbn [length]. rewrite (proj2 (Z.ltb_lt _ _)) by lia. done.
Qed.

(** ** Characters of names *)

Definition valid_name (v : list Z) : Prop := Forall (λ c, is_valid_char_for_c_var c = true) v.

Lemma fix_char_valid c : is_valid_char_for_c_var (fix_char c) = true.
Proof. unfold fix_char. by destruct (is_valid_char_for_c_var c) eqn:E. Qed.

Lemma candidate_valid q k : 0 <= k < 10 → valid_name (candidate (map fix_char q) k).
Proof.
  intros Hk. assert (Hb : valid_name (map fix_char q)) by (apply Forall_map, Forall_true; intros c; apply fix_char_valid).
  unfold candidate. destruct (k =? 0); [done|]. apply Forall_app. split; [done|]. rewrite dec_digit by done. constructor; [|constructor].
  unfold is_valid_char_for_c_var. rewrite (proj2 (Z.leb_le 48 _)), (proj2 (Z.leb_le _ 57)) by lia. cbn [andb]. by rewrite orb_true_r.
Qed.

Lemma valid_name_not v c : valid_name v → is_valid_char_for_c_var c = false → c ∉ v.
Proof. intros Hv Hc Hin. unfold valid_name in Hv. rewrite Forall_forall in Hv. specialize (Hv c Hin). congruence. Qed.

Lemma before_app c v r : c ∉ v → before c (v ++ c :: r) = v.
Proof.
  induction v as [|x v IH]; intros Hc; cbn [app before]; [by rewrite Z.eqb_refl|].
  apply not_elem_of_cons in Hc as [Hx Hc]. rewrite (proj2 (Z.eqb_neq x c)) by congruence. by rewrite IH.
Qed.

Lemma before_none c v : c ∉ v → before c v = v.
Proof.
  induction v as [|x v IH]; intros Hc; cbn [before]; [done|].
  apply not_elem_of_cons in Hc as [Hx Hc]. rewrite (proj2 (Z.eqb_neq x c)) by congruence. by rewrite IH.
Qed.

(** ** Lines *)

Definition one_line (l : list Z) : Prop := (10 ∉ l) ∧ (13 ∉ l).

Lemma one_line_app l1 l2 : one_line l1 → one_line l2 → one_line (l1 ++ l2).
Proof. intros [??] [??]. split; rewrite elem_of_app; tauto. Qed.

Lemma valid_one_line v : valid_name v → one_line v.
Proof. intros Hv. split; by apply (valid_name_not v). Qed.

Lemma digits_one_line n : 0 <= n < 10 ^ 20 → one_line (dec n).
Proof.
  intros Hn. destruct (dec_spec n Hn) as (Hd&_). rewrite Forall_forall in Hd.
  split; intros Hin; specialize (Hd _ Hin); lia.
Qed.

Lemma one_line_decide l : forallb (λ c, negb (c =? 10) && negb (c =? 13)) l = true → one_line l.
Proof.
  intros H. rewrite forallb_forall in H. split; intros Hin; apply list_elem_of_In in Hin; by specialize (H _ Hin).
Qed.

Create HintDb lines.
#[export] Hint Resolve one_line_app valid_one_line digits_one_line : lines.
#[export] Hint Extern 1 (one_line (chars _)) => (apply one_line_decide; vm_compute; reflexivity) : lines.

Lemma read_newline l t d : one_line l → read (Line []) (l ++ NEWLINE ++ t) d = let '(p, d) := read_line l d in read p t d.
Proof.
  intros [H10 H13]. assert (H : ∀ a, read (Line a) (l ++ NEWLINE ++ t) d = let '(p, d) := read_line (strip_cr (a ++ l ++ [13])) d in read p t d).
  { induction l as [|c l IH]; intros a; [done|]. apply not_elem_of_cons in H10 as [Hc H10]. apply not_elem_of_cons in H13 as [_ H13].
    cbn [app read]. rewrite (proj2 (Z.eqb_neq c 10)) by congruence. rewrite IH by done. by rewrite <- !app_assoc. }
  rewrite H. unfold strip_cr. cbn [app]. by rewrite before_app.
Qed.

Lemma read_field v fs l t d : one_line l → l ≠ chars "}};" →
  read (Fields v fs []) (l ++ NEWLINE ++ t) d = read (Fields v (fs ++ [l]) []) t d.
Proof.
  intros [H10 H13] Hl. assert (H : ∀ a, strip_cr (a ++ l ++ [13]) ≠ chars "}};" →
    read (Fields v fs a) (l ++ NEWLINE ++ t) d = read (Fields v (fs ++ [strip_cr (a ++ l ++ [13])]) []) t d).
  { clear Hl. induction l as [|c l IH]; intros a Ha.
    - cbn [app NEWLINE read Z.eqb Pos.eqb] in *. by rewrite bool_decide_false.
    - apply not_elem_of_cons in H10 as [Hc H10]. apply not_elem_of_cons in H13 as [_ H13].
      cbn [app read]. rewrite (proj2 (Z.eqb_neq c 10)) by congruence. rewrite IH by (done || by rewrite <- app_assoc).
      by rewrite <- !app_assoc. }
  assert (E : strip_cr ([] ++ l ++ [13]) = l) by (unfold strip_cr; cbn [app]; by rewrite before_app).
  rewrite H by (by rewrite E). by rewrite E.
Qed.

(** At the beginning of a line, the text declares what [f] adds. *)
Definition declares (text : list Z) (f : declarations → declarations) : Prop :=
  ∀ t d, read (Line []) (text ++ t) d = read (Line []) t (f d).

Lemma declares_app t1 t2 f1 f2 : declares t1 f1 → declares t2 f2 → declares (t1 ++ t2) (λ d, f2 (f1 d)).
Proof. intros H1 H2 t d. by rewrite <- app_assoc, H1, H2. Qed.

Lemma declares_nothing l : one_line l → (∀ d, read_line l d = (Line [], d)) → declares (l ++ NEWLINE) id.
Proof. intros Hl Hr t d. rewrite <- app_assoc, read_newline by done. by rewrite Hr. Qed.

Lemma declares_root v : one_line v → declares ((ROOT ++ v) ++ NEWLINE) (λ d, mkDecls (arrays d) (structs d) (Some v)).
Proof.
  intros Hv t d. rewrite <- app_assoc, read_newline; [|apply one_line_app; [by apply one_line_decide|done]]. reflexivity.
Qed.
