(* ===== verification/FsDataPages.v ===== *)
(** makefsdata on one page: the array and the descriptor it writes, and what the reader of C makes of the descriptor. *)
From S2P Require Import Prelude CString Http HttpLwip HttpRequest MakeFsData FsDataReader FsDataText FsDataFiles FsDataNames.

Record page := mkPage { pg_dir : list Z; pg_name : list Z; pg_contents : list Z; pg_mtime : list Z }.

Definition pg_path (p : page) : list Z := pg_dir p ++ [47] ++ pg_name p.

(** A page whose path fits the buffers, and the comments. *)
Record page_ok (p : page) : Prop := {
  path_short : zlen (pg_path p) <= 252;
  path_plain : plain (pg_path p);
  path_text : no_nul (pg_path p);
  contents_bytes : Forall is_u8 (pg_contents p);
  contents_short : zlen (pg_contents p) < 1000000000;
  mtime_plain : plain (pg_mtime p) ∧ zlen (pg_mtime p) < 1000 }.

(** Options other than for checksums and lists of names. *)
Record usable (o : options) : Prop := {
  with_subs : processSubs o = true;
  without_checksums : precalcChksum o = false;
  nothing_excluded : exclude_list o = None;
  nothing_uncompressed : ncompress_list o = None;
  no_ssi_list : ssi_file_lines o = None;
  id_plain : plain (serverID o) ∧ zlen (serverID o) < 2000 }.

Lemma default_usable agent : plain agent → zlen agent < 1000 → usable (default_options agent).
Proof.
  intros Ha Hl. split; try done. cbn [default_options serverID]. split.
  - apply plain_app; [plain_literal|]. apply plain_app; [done|plain_literal].
  - rewrite !length_app. change (length (chars "Server: ")) with 8%nat. cbn [NEWLINE length]. lia.
Qed.

Definition is_ssi (o : options) (name : list Z) : bool :=
  supportSsi o && match has_ssi_extension g_pcSSIExtensions name with Ok b => b | _ => false end.

Lemma has_ssi_extension_total exts name : Forall no_nul exts → ∃ b, has_ssi_extension exts name = Ok b.
Proof.
  induction 1 as [|e exts He _ IH]; [by exists false|]. cbn [has_ssi_extension]. unfold strstr. change (Z.to_nat 0) with 0%nat. rewrite drop_0.
  destruct (strstr_from_safe e (literal name) 0 He) as [->|(p&r&_&_&->)]; [|done|by exists true].
  unfold literal. apply elem_of_app. right. left.
Qed.

Lemma is_ssi_file_spec o cur name : ssi_file_lines o = None → is_ssi_file o cur name = Ok (is_ssi o name).
Proof.
  intros Hl. unfold is_ssi_file, is_ssi. rewrite Hl. destruct (supportSsi o); [|done].
  destruct (has_ssi_extension_total g_pcSSIExtensions name) as [b ->]; [|done]. repeat constructor; done.
Qed.

Section Page.
Context {lwip : Lwip} {lwip_ok : LwipOk}.
Context (inet_chksum : list Z → Z) (fuel : nat) (o : options).

Definition page_header (p : page) : list Z :=
  if includeHttpHeader o
  then response_header o (pg_name p) (pg_mtime p) (zlen (pg_contents p)) (negb (is_ssi o (pg_name p))) else [].

Definition page_flags (p : page) : Z :=
  Z.lor (if is_ssi o (pg_name p) then FS_FILE_FLAGS_SSI else 0)
    (if includeHttpHeader o then
       Z.lor FS_FILE_FLAGS_HEADER_INCLUDED
         (if negb (is_ssi o (pg_name p)) then
            Z.lor FS_FILE_FLAGS_HEADER_PERSISTENT (if useHttp11 o then FS_FILE_FLAGS_HEADER_HTTPVER_1_1 else 0)
          else 0)
     else 0).

(** The file as [fs_open] finds it. *)
Definition page_file (p : page) : fsdata_file :=
  mkFsData (pg_path p) (page_header p ++ pg_contents p) (zlen (page_header p ++ pg_contents p)) (page_flags p).

(** The name, padded; the array; the members of the descriptor. *)
Definition padded_name (p : page) : list Z :=
  (pg_path p ++ [0]) ++ replicate (Z.to_nat ((- zlen (pg_path p ++ [0])) mod 4)) 0.
Definition page_array (p : page) : list Z := padded_name p ++ page_header p ++ pg_contents p.
Definition page_fields (p : page) (v last : list Z) : list (list Z) :=
  let i := zlen (padded_name p) in
  [chars "file_" ++ last ++ chars ","; chars "data_" ++ v ++ chars ","; chars "data_" ++ v ++ chars " + " ++ dec i ++ chars ",";
   chars "sizeof(data_" ++ v ++ chars ") - " ++ dec i ++ chars ","; flag_names (page_flags p) ++ chars ","].

Lemma padded_name_short p : page_ok p → 0 < zlen (padded_name p) < 300.
Proof.
  intros Hp. unfold padded_name. pose proof (path_short p Hp). pose proof (Z.mod_pos_bound (- zlen (pg_path p ++ [0])) 4 ltac:(lia)).
  rewrite !length_app, length_replicate in *. cbn [length] in *. lia.
Qed.

Lemma tool_run {A B} (m : tool A) (f : A → tool B) a s s' : m s = Ok (Some (a, s')) → (m ≫= f) s = f a s'.
Proof. intros E. unfold mbind, tool_bind. by rewrite E. Qed.

Lemma lift_run {A B} (a : A) (f : A → tool B) s : (tool_lift (Ok a) ≫= f) s = f a s.
Proof. done. Qed.
Lemma get_run {A B} (g : tool_state → A) (f : A → tool B) s : (tool_get g ≫= f) s = f (g s) s.
Proof. done. Qed.
Lemma ret_run {A B} (a : A) (f : A → tool B) s : ((mret a : tool A) ≫= f) s = f a s.
Proof. done. Qed.
Lemma mod_run {B} (g : tool_state → tool_state) (f : unit → tool B) s : (tool_mod g ≫= f) s = f tt (g s).
Proof. done. Qed.

(** *** What is written *)

Definition data_text (v : list Z) (dummy : Z) (body : list Z) : list Z :=
  (chars "#if FSDATA_FILE_ALIGNMENT==1" ++ NEWLINE) ++
  ((chars "static const unsigned int dummy_align_" ++ v ++ chars " = " ++ dec dummy ++ chars ";") ++ NEWLINE) ++
  (chars "#endif" ++ NEWLINE) ++
  ((ARRAY ++ v ++ chars "[] FSDATA_ALIGN_POST = {") ++ NEWLINE) ++ body ++ chars "};" ++ NEWLINE ++ NEWLINE.

Lemma data_text_declares v dummy body bs : valid_name v → 0 <= dummy < 10 ^ 20 → yields body bs →
  declares (data_text v dummy body) (add_arrays [(v, bs)]).
Proof.
  intros Hv Hd Hb t d. unfold data_text. rewrite <- !(app_assoc _ _ t).
  rewrite (declares_nothing (chars "#if FSDATA_FILE_ALIGNMENT==1")) by (auto with lines || done). unfold id at 1.
  rewrite (declares_nothing (chars "static const unsigned int dummy_align_" ++ v ++ chars " = " ++ dec dummy ++ chars ";"))
    by (auto 10 with lines || done). unfold id at 1.
  rewrite (declares_nothing (chars "#endif")) by (auto with lines || done). unfold id at 1.
  rewrite <- (app_assoc (ARRAY ++ _) NEWLINE).
  rewrite read_newline by (apply one_line_app; [by apply one_line_decide|auto with lines]).
  assert (E : read_line (ARRAY ++ v ++ chars "[] FSDATA_ALIGN_POST = {") d = (Bytes v Code [], d)).
  { unfold read_line. rewrite is_prefix_app, drop_app_length. change (chars "[] FSDATA_ALIGN_POST = {") with (91 :: chars "] FSDATA_ALIGN_POST = {").
    by rewrite before_app by (by apply (valid_name_not v)). }
  rewrite E, Hb. reflexivity.
Qed.

Definition struct_text (v : list Z) (fields : list (list Z)) : list Z :=
  ((STRUCT ++ v ++ chars "[] = { {") ++ NEWLINE) ++ concat (map (λ l, l ++ NEWLINE) fields) ++ chars "}};" ++ NEWLINE ++ NEWLINE.

Lemma struct_text_declares v fields : valid_name v → Forall (λ l, one_line l ∧ l ≠ chars "}};") fields →
  declares (struct_text v fields) (add_structs [(v, fields)]).
Proof.
  intros Hv Hf t d. unfold struct_text. rewrite <- !(app_assoc _ _ t), <- (app_assoc (STRUCT ++ _) NEWLINE).
  rewrite read_newline by (apply one_line_app; [by apply one_line_decide|auto with lines]).
  assert (E : read_line (STRUCT ++ v ++ chars "[] = { {") d = (Fields v [] [], d)).
  { unfold read_line. change (is_prefix ARRAY (STRUCT ++ v ++ chars "[] = { {")) with false. cbv iota.
    rewrite is_prefix_app, drop_app_length. change (chars "[] = { {") with (91 :: chars "] = { {").
    by rewrite before_app by (by apply (valid_name_not v)). }
  rewrite E. assert (H : ∀ fs, read (Fields v fs []) (concat (map (λ l, l ++ NEWLINE) fields) ++ chars "}};" ++ NEWLINE ++ NEWLINE ++ t) d =
    read (Line []) t (add_structs [(v, fs ++ fields)] d)).
  { clear E. induction Hf as [|l fields [Hl Hne] _ IH]; intros fs; [by rewrite app_nil_r|].
    cbn [map concat]. rewrite <- !app_assoc. rewrite read_field by done. rewrite IH. by rewrite <- app_assoc. }
  by rewrite H.
Qed.

Lemma page_fields_lines p v last : page_ok p → valid_name v → valid_name last →
  Forall (λ l, one_line l ∧ l ≠ chars "}};") (page_fields p v last).
Proof.
  intros Hp Hv Hl. pose proof (padded_name_short p Hp). assert (0 <= zlen (padded_name p) < 10 ^ 20) by lia.
  do 4 (apply List.Forall_cons; [split; [auto 10 with lines|done]|]); apply List.Forall_cons; [|constructor].
  split; [|unfold flag_names, page_flags; destruct (is_ssi _ _), (includeHttpHeader o), (useHttp11 o); done].
  apply one_line_app; [|auto with lines].
  unfold flag_names, page_flags; destruct (is_ssi _ _), (includeHttpHeader o), (useHttp11 o); by apply one_line_decide.
Qed.

(** *** The step for a file *)

Lemma emits_page_header p : usable o → page_ok p →
  emits (if includeHttpHeader o
         then file_write_http_header o (pg_name p) (pg_mtime p) (zlen (pg_contents p)) (negb (is_ssi o (pg_name p))) else mret [])
    (page_header p) (page_header p).
Proof.
  intros Ho Hp. unfold page_header. destruct (includeHttpHeader o); [|apply emits_ret].
  apply emits_http_header; [apply Ho|apply Ho|apply Hp|apply Hp|]. pose proof (contents_short p Hp). lia.
Qed.

Lemma yields_name_comment p : page_ok p →
  yields (chars "/* " ++ pg_path p ++ chars " (" ++ dec (zlen (pg_path p) + 1) ++ chars " chars) */" ++ NEWLINE) [].
Proof.
  intros Hp. pose proof (path_short p Hp). destruct (plain_app (pg_path p) (chars " (" ++ dec (zlen (pg_path p) + 1) ++ chars " chars) ")) as [_ Hc].
  - apply Hp.
  - apply plain_app; [plain_literal|]. apply plain_app; [apply dec_plain; lia|plain_literal].
  - pose proof (yields_app _ _ [] [] (yields_comment ([32] ++ pg_path p ++ chars " (" ++ dec (zlen (pg_path p) + 1) ++ chars " chars) ")
      ltac:(rewrite elem_of_app; intros [H1|H1]; [by apply list_elem_of_In in H1 as [|[]]|done])) yields_newline) as H1.
    rewrite <- !app_assoc in H1. exact H1.
Qed.

Lemma yields_contents_comment n : 0 <= n < 10 ^ 20 → yields (NEWLINE ++ chars "/* raw file data (" ++ dec n ++ chars " bytes) */" ++ NEWLINE) [].
Proof.
  intros Hn. apply (yields_app _ _ [] []); [apply yields_newline|].
  destruct (plain_app (chars " raw file data (") (dec n ++ chars " bytes) ")) as [_ Hc];
    [plain_literal|apply plain_app; [by apply dec_plain|plain_literal]|].
  pose proof (yields_app _ _ [] [] (yields_comment _ Hc) yields_newline) as H1. rewrite <- !app_assoc in H1. exact H1.
Qed.

Ltac step_writes W := rewrite (writes_run _ _ _ _ _ _ W);
  cbn [data_file struct_file curSubdir lastFileVar first_file payload_alingment_dummy_counter].
Ltac step_data := match goal with |- context [(write_data ?t ≫= _) _] => step_writes (writes_data t) end.
Ltac step_struct := match goal with |- context [(write_struct ?t ≫= _) _] => step_writes (writes_struct t) end.

Lemma fixed_name s path v : zlen path <= 252 → unique_name 1000 (first_file s) (map fix_char path) (map fix_char path) 0 = Ok (Some v) →
  zlen v <= 253 → fix_filename_for_c path MAX_PATH_LEN s = Ok (Some (v, s)).
Proof.
  intros Hl Hname Hv. unfold fix_filename_for_c, MAX_PATH_LEN. rewrite (tool_run (tool_get first_file) _ (first_file s) s s) by done.
  rewrite (proj2 (Z.eqb_neq _ _)) by lia. unfold tool_lift. cbn zeta. unfold mbind at 1, tool_bind. rewrite Hname. cbn [mbind outcome_bind].
  by rewrite (proj2 (Z.ltb_ge _ _)) by lia.
Qed.

(** The text of the array, from the four parts that the steps of [process_file] write. *)
Definition array_text (p : page) (t1 t2 t3 t4 : list Z) : list Z :=
  (chars "/* " ++ pg_path p ++ chars " (" ++ dec (zlen (pg_path p) + 1) ++ chars " chars) */" ++ NEWLINE) ++
  (t1 ++ t2) ++ NEWLINE ++ t3 ++ (NEWLINE ++ chars "/* raw file data (" ++ dec (zlen (pg_contents p)) ++ chars " bytes) */" ++ NEWLINE) ++ t4.

Lemma array_text_yields p t1 t2 t3 t4 : page_ok p → yields t1 (pg_path p ++ [0]) →
  yields t2 (replicate (Z.to_nat ((- zlen (pg_path p ++ [0])) mod 4)) 0) → yields t3 (page_header p) → yields t4 (pg_contents p) →
  yields (array_text p t1 t2 t3 t4) (page_array p).
Proof.
  intros Hp Y1 Y2 Y3 Y4. pose proof (contents_short p Hp). pose proof (yields_contents_comment (zlen (pg_contents p)) ltac:(lia)) as Y5.
  unfold page_array, padded_name. apply (yields_app _ _ [] _ (yields_name_comment p Hp)). apply yields_app; [by apply yields_app|].
  apply (yields_app _ _ [] _ yields_newline). apply yields_app; [done|]. by apply (yields_app _ _ [] _ Y5).
Qed.

Lemma process_file_spec p s v : usable o → page_ok p → curSubdir s = pg_dir p →
  unique_name 1000 (first_file s) (map fix_char (pg_path p)) (map fix_char (pg_path p)) 0 = Ok (Some v) → zlen v <= 253 →
  ∃ body, yields body (page_array p) ∧
    process_file inet_chksum fuel o (pg_name p) (pg_contents p) (pg_mtime p) s =
    Ok (Some (tt, mkTool (data_file s ++ data_text v (payload_alingment_dummy_counter s) body)
      (struct_file s ++ struct_text v (page_fields p v (lastFileVar s))) (curSubdir s) v (first_file s ++ [v])
      (payload_alingment_dummy_counter s + 1))).
Proof.
  intros Ho Hp Hcur Hname Hv. pose proof (path_short p Hp) as Hlen.
  destruct (emits_ascii (pg_path p ++ [0]) 0) as (t1&W1&Y1); [apply Forall_app; split; [apply Hp|repeat constructor; done]|].
  destruct (emits_padding (0 + zlen (pg_path p ++ [0]))) as (t2&W2&Y2). rewrite Z.add_0_l in Y2.
  destruct (emits_page_header p Ho Hp) as (t3&W3&Y3). destruct (emits_file_data (pg_contents p) (contents_bytes p Hp)) as (t4&W4&Y4).
  exists (array_text p t1 t2 t3 t4). split; [by apply array_text_yields|]. unfold array_text.
  unfold process_file. rewrite (tool_run (tool_get curSubdir) _ (pg_dir p) s s) by (unfold tool_get; by rewrite Hcur).
  fold (pg_path p). rewrite take_ge by (unfold MAX_PATH_LEN; lia).
  rewrite (tool_run _ _ v s s (fixed_name s (pg_path p) v ltac:(lia) Hname Hv)).
  destruct s as [d st cur last used dummy]. cbn [curSubdir lastFileVar payload_alingment_dummy_counter first_file] in *. subst cur.
  rewrite (tool_run (register_filename v) _ tt _ (mkTool d st (pg_dir p) last (used ++ [v]) dummy)) by done.
  rewrite (tool_run (tool_get _) _ dummy _ (mkTool d st (pg_dir p) last (used ++ [v]) dummy)) by done. do 2 step_data.
  unfold set_dummy_counter. rewrite mod_run. cbn [data_file struct_file curSubdir lastFileVar first_file payload_alingment_dummy_counter].
  do 3 step_data. step_writes W1. step_writes W2. step_data. rewrite is_ssi_file_spec by apply Ho.
  rewrite lift_run.
  unfold file_can_be_compressed. rewrite (nothing_uncompressed o Ho).
  assert (Ew : writes (if includeHttpHeader o && negb (is_ssi o (pg_name p)) then _ ← tool_lift (Ok true); mret tt else mret tt) tt [] [])
    by (destruct (_ && _); apply (writes_ret tt)).
  step_writes Ew.
  step_writes W3. rewrite (without_checksums o Ho). rewrite ret_run.
  rewrite get_run. cbn [lastFileVar]. do 7 step_struct.
  rewrite ret_run. step_struct.
  unfold set_lastFileVar. rewrite mod_run. cbn [data_file struct_file curSubdir lastFileVar first_file payload_alingment_dummy_counter].
  step_data. step_writes W4. rewrite (writes_data _ _). cbn [data_file struct_file curSubdir lastFileVar first_file payload_alingment_dummy_counter].
  do 3 f_equal. f_equal.
  - unfold data_text, ARRAY. by rewrite !app_nil_r, <- !app_assoc.
  - unfold struct_text, page_fields, STRUCT. cbn [map concat]. fold (page_flags p). rewrite !app_nil_r, <- !app_assoc.
    assert (Ei : 0 + zlen (pg_path p ++ [0]) + (- (0 + zlen (pg_path p ++ [0]))) mod 4 = zlen (padded_name p)).
    { unfold padded_name. rewrite (length_app (pg_path p ++ [0])), length_replicate, Z.add_0_l.
      pose proof (Z.mod_pos_bound (- zlen (pg_path p ++ [0])) 4). lia. }
    by rewrite Ei.
Qed.
End Page.
