(* ===== verification/MakeFsDataTree.v ===== *)
(** makefsdata on a directory: the files of the tree, each under a name of its own, in a list that the compiled program
    searches. *)
From S2P Require Import Prelude CString Http HttpLwip HttpRequest MakeFsData FsDataReader FsDataText FsDataFiles FsDataNames FsDataPages.

(** ** The pages of a directory *)

Definition own_page (cur : list Z) (e : entry) : list page :=
  match e with
  | File name contents mtime =>
      if bool_decide (name = chars "fsdata.tmp") || bool_decide (name = chars "fshdr.tmp") then [] else [mkPage cur name contents mtime]
  | Dir _ _ => []
  end.

Definition hidden (name : list Z) : bool := bool_decide (head name = Some 46).

(** Those of the directories in it come first. *)
Fixpoint pages_of (cur : list Z) (d : entry) : list page :=
  match d with
  | File _ _ _ => []
  | Dir _ es =>
      (fix subs (es : list entry) : list page :=
         match es with
         | [] => []
         | e :: es =>
             match e with
             | Dir name _ => if hidden name then [] else pages_of (cur ++ [47] ++ name) e
             | File _ _ _ => []
             end ++ subs es
         end) es ++ concat (map (own_page cur) es)
  end.

(** The paths of the directories fit [curSubdir]. *)
Fixpoint dirs_short (cur : list Z) (d : entry) : Prop :=
  match d with
  | File _ _ _ => True
  | Dir _ es =>
      (fix subs (es : list entry) : Prop :=
         match es with
         | [] => True
         | e :: es =>
             match e with
             | Dir name _ => hidden name = true ∨ (zlen cur + 1 + zlen name <= 252 ∧ dirs_short (cur ++ [47] ++ name) e)
             | File _ _ _ => True
             end ∧ subs es
         end) es
  end.

(** The names of the variables can be told apart: the paths stay different when what C does not allow is replaced, or
    the files are few enough to be numbered with one digit. *)
Definition tellable (ps : list page) : Prop := NoDup (map (λ p, map fix_char (pg_path p)) ps) ∨ (length ps <= 10)%nat.

Section Tree.
Context {lwip : Lwip} {lwip_ok : LwipOk}.
Context (inet_chksum : list Z → Z) (fuel : nat) (o : options).
Hypothesis o_usable : usable o.

(** ** Descriptors in a row *)

Fixpoint chained (last : list Z) (fs : list (list Z * page)) : list (list Z * list (list Z)) :=
  match fs with [] => [] | (v, p) :: fs => (v, page_fields o p v last) :: chained v fs end.
Fixpoint last_var (last : list Z) (fs : list (list Z * page)) : list Z :=
  match fs with [] => last | (v, _) :: fs => last_var v fs end.

Definition NULL : list Z := chars "NULL".
Definition fs_arrays (fs : list (list Z * page)) : list (list Z * list Z) := map (λ f, (f.1, page_array o f.2)) fs.

Lemma chained_app last fs1 fs2 : chained last (fs1 ++ fs2) = chained last fs1 ++ chained (last_var last fs1) fs2.
Proof. revert last. induction fs1 as [|[v p] fs1 IH]; intros last; [done|]. cbn [app chained last_var]. by rewrite IH. Qed.

Lemma last_var_app last fs v p : last_var last (fs ++ [(v, p)]) = v.
Proof. revert last. induction fs as [|[w q] fs IH]; intros last; [done|]. apply IH. Qed.

Lemma chained_keys last fs : map fst (chained last fs) = map fst fs.
Proof. revert last. induction fs as [|[v p] fs IH]; intros last; [done|]. cbn [chained map fst]. by rewrite IH. Qed.

Lemma find_var_app {A} v (a : A) l1 l2 : v ∉ map fst l1 → find_var v (l1 ++ (v, a) :: l2) = Some a.
Proof.
  induction l1 as [|[w b] l1 IH]; intros Hv; cbn [app find_var]; [by rewrite bool_decide_true|].
  cbn [map fst] in Hv. apply not_elem_of_cons in Hv as [Hv Hl]. rewrite bool_decide_false by done. by apply IH.
Qed.

(** What the compiler makes of a descriptor. *)
Lemma name_and_number_spec v sep n r : sep ≠ [] → hd 0 sep ∉ v → 0 <= n < 10 ^ 20 → is_digit (hd 0 r) = false →
  name_and_number sep (v ++ sep ++ dec n ++ r) = Some (v, n).
Proof.
  intros Hs Hv Hn Hr. destruct sep as [|c sep]; [done|]. unfold name_and_number. cbn [hd] in *.
  change ((c :: sep) ++ dec n ++ r) with (c :: (sep ++ dec n ++ r)). rewrite before_app by done.
  rewrite drop_app_length. change (c :: (sep ++ dec n ++ r)) with ((c :: sep) ++ dec n ++ r).
  unfold strip. rewrite is_prefix_app, drop_app_length. cbn [mbind option_bind]. f_equal. f_equal. by apply dec_spec.
Qed.

Lemma read_page_flags p : read_flags 5 (flag_names (page_flags o p) ++ chars ",") = Some (page_flags o p).
Proof. unfold page_flags. destruct (is_ssi _ _), (includeHttpHeader o), (useHttp11 o); reflexivity. Qed.

Lemma strip_app l r : strip l (l ++ r) = Some r.
Proof. unfold strip. by rewrite is_prefix_app, drop_app_length. Qed.

Lemma read_struct_page d p v last : page_ok p → valid_name v → valid_name last → find_var v (arrays d) = Some (page_array o p) →
  read_struct d (page_fields o p v last) = Some (page_file o p, last).
Proof.
  intros Hp Hv Hl Hd. pose proof (padded_name_short p Hp) as Hn. unfold read_struct, page_fields.
  assert (Hcomma : ∀ w, valid_name w → before 44 (w ++ chars ",") = w) by (intros w Hw; apply before_app; by apply (valid_name_not w)).
  rewrite !strip_app. cbn [mbind option_bind]. rewrite !Hcomma by done. rewrite Hd. cbn [mbind option_bind].
  assert (Hname : c_str (page_array o p) = Ok (pg_path p)).
  { unfold page_array, padded_name. rewrite <- !app_assoc. cbn [app]. apply c_str_app, Hp. }
  rewrite Hname. cbn [mbind option_bind].
  rewrite name_and_number_spec by (done || lia || by apply (valid_name_not v)). cbn [mbind option_bind]. rewrite Hd. cbn [mbind option_bind].
  rewrite name_and_number_spec by (done || lia || by apply (valid_name_not v)). cbn [mbind option_bind]. rewrite Hd. cbn [mbind option_bind].
  rewrite read_page_flags. cbn [mbind option_bind]. unfold page_array. rewrite drop_app_length' by lia.
  unfold page_file. do 3 f_equal. rewrite (length_app (padded_name p)). lia.
Qed.

(** A row that the compiled program can follow. *)
Record row_ok (fs : list (list Z * page)) : Prop := {
  row_names : NoDup (map fst fs);
  row_valid : Forall (λ f, valid_name f.1 ∧ 95 ∈ f.1) fs;
  row_pages : Forall page_ok (map snd fs) }.

Lemma chain_row d fs : row_ok fs → arrays d = fs_arrays fs → structs d = chained NULL fs →
  chain (length fs) d (last_var NULL fs) = Some (map (page_file o) (rev (map snd fs))).
Proof.
  intros Hrow Ha Hs. enough (H : ∀ fs1 fs2 n, fs = fs1 ++ fs2 → (length fs1 <= n)%nat →
    chain n d (last_var NULL fs1) = Some (map (page_file o) (rev (map snd fs1)))) by (by apply (H fs []); rewrite ?app_nil_r).
  intros fs1. induction fs1 as [|[v p] fs1 IH] using rev_ind; intros fs2 n E Hn; [by destruct n|].
  rewrite <- app_assoc in E. cbn [app] in E. rewrite last_var_app. destruct Hrow as [Hnd Hval Hok].
  assert (Hin : (v, p) ∈ fs) by (rewrite E; apply elem_of_app; right; left).
  assert (Hv : valid_name v ∧ 95 ∈ v) by (rewrite Forall_forall in Hval; apply (Hval (v, p) Hin)).
  assert (Hp : page_ok p) by (rewrite Forall_forall in Hok; apply Hok, list_elem_of_fmap; by exists (v, p)).
  assert (Hfresh : v ∉ map fst fs1).
  { rewrite E, map_app in Hnd. cbn [map fst] in Hnd. apply NoDup_app in Hnd as (_&Hd&_). intros Hv1. apply (Hd v Hv1). left. }
  assert (Hlast : valid_name (last_var NULL fs1)).
  { destruct fs1 as [|[w q] fs0 _] using rev_ind; [by repeat constructor|]. rewrite last_var_app.
    rewrite Forall_forall in Hval. apply (Hval (w, q)). rewrite E, !elem_of_app. left. right. left. }
  assert (Hfs : find_var v (structs d) = Some (page_fields o p v (last_var NULL fs1))).
  { rewrite Hs, E, chained_app. cbn [chained]. apply find_var_app. by rewrite chained_keys. }
  assert (Hfa : find_var v (arrays d) = Some (page_array o p)).
  { rewrite Ha, E. unfold fs_arrays. rewrite map_app. cbn [map fst snd]. apply find_var_app. by rewrite map_map. }
  rewrite length_app in Hn. cbn [length] in Hn. destruct n as [|n]; [lia|]. cbn [chain].
  rewrite bool_decide_false by (intros ->; destruct Hv as [_ Hv]; apply list_elem_of_In in Hv; repeat destruct Hv as [Hv|Hv]; done).
  rewrite Hfs. cbn [mbind option_bind]. rewrite read_struct_page by (done || apply Hv). cbn [mbind option_bind].
  rewrite (IH ((v, p) :: fs2) n) by (done || lia). cbn [mbind option_bind]. by rewrite map_app, rev_app_distr.
Qed.
(** ** The walk through the tree *)

Context (all : list page).
Hypothesis all_ok : Forall page_ok all.
Hypothesis all_tellable : tellable all.
Hypothesis all_few : zlen all < 10 ^ 19.

Local Abbreviation fixed := (λ p, map fix_char (pg_path p)).

(** The tool has processed the files [fs], under the names they have there, and is in the directory [cur]. *)
Record described (s : tool_state) (cur : list Z) (fs : list (list Z * page)) : Prop := {
  at_dir : curSubdir s = cur;
  data_read : declares (data_file s) (add_arrays (fs_arrays fs));
  structs_read : declares (struct_file s) (add_structs (chained NULL fs));
  last_is : lastFileVar s = last_var NULL fs;
  used_are : first_file s = map fst fs;
  counter_is : payload_alingment_dummy_counter s = zlen fs;
  is_row : row_ok fs;
  named_as : NoDup (map fixed all) → map fst fs = map fixed (map snd fs) }.

Lemma add_arrays_app l1 l2 d : add_arrays l2 (add_arrays l1 d) = add_arrays (l1 ++ l2) d.
Proof. unfold add_arrays. cbn. by rewrite app_assoc. Qed.
Lemma add_structs_app l1 l2 d : add_structs l2 (add_structs l1 d) = add_structs (l1 ++ l2) d.
Proof. unfold add_structs. cbn. by rewrite app_assoc. Qed.

Lemma fixed_has_slash p : 95 ∈ fixed p.
Proof. apply list_elem_of_fmap. exists 47. split; [done|]. unfold pg_path. rewrite !elem_of_app. right. left. left. Qed.

Lemma fresh_name s cur fs p rest : described s cur fs → all = map snd fs ++ p :: rest →
  ∃ v, unique_name 1000 (first_file s) (fixed p) (fixed p) 0 = Ok (Some v) ∧ (v ∉ map fst fs) ∧ valid_name v ∧ 95 ∈ v ∧
    zlen v <= 253 ∧ (NoDup (map fixed all) → v = fixed p).
Proof.
  intros Hs E. rewrite (used_are _ _ _ Hs).
  assert (Hp : page_ok p) by (rewrite Forall_forall in all_ok; apply all_ok; rewrite E; apply elem_of_app; right; left).
  assert (Hbase : NoDup (map fixed all) → fixed p ∉ map fst fs).
  { intros Hnd. rewrite (named_as _ _ _ Hs Hnd). rewrite E, map_app in Hnd. apply NoDup_app in Hnd as (_&Hd&_).
    intros Hin. apply (Hd _ Hin). cbn [map]. left. }
  assert (Hfree : fixed p ∉ map fst fs ∨ (length (map fst fs) <= 9)%nat).
  { destruct all_tellable as [Hnd|Hl]; [left; auto|right]. rewrite E, !length_app in Hl. rewrite length_map in *. cbn [length] in Hl. lia. }
  destruct (unique_name_ends (map fst fs) (fixed p) Hfree) as (k&Hk&Hn&Hu). exists (candidate (fixed p) k).
  split; [exact Hu|]. split; [done|]. split; [by apply candidate_valid|].
  pose proof (fixed_has_slash p). pose proof (path_short p Hp). unfold candidate in *.
  split; [destruct (k =? 0); [done|by apply elem_of_app; left]|].
  split; [destruct (k =? 0); rewrite ?dec_digit, ?length_app, length_map by done; cbn [length]; lia|].
  intros Hnd. specialize (Hbase Hnd). cbn [unique_name] in Hu. rewrite bool_decide_false in Hu by done. by injection Hu as <-.
Qed.

Lemma page_step s fs p rest : described s (pg_dir p) fs → all = map snd fs ++ p :: rest →
  ∃ s' v, process_file inet_chksum fuel o (pg_name p) (pg_contents p) (pg_mtime p) s = Ok (Some (tt, s')) ∧
    described s' (pg_dir p) (fs ++ [(v, p)]).
Proof.
  intros Hs E. destruct (fresh_name s _ fs p rest Hs E) as (v&Hu&Hn&Hv&Hv95&Hvl&Hvn).
  assert (Hp : page_ok p) by (rewrite Forall_forall in all_ok; apply all_ok; rewrite E; apply elem_of_app; right; left).
  destruct (process_file_spec inet_chksum fuel o p s v o_usable Hp (at_dir _ _ _ Hs) Hu Hvl) as (body&Hb&Er).
  destruct Hs as [Hcur Hd Hst Hlast Hused Hcnt [Hnd Hval Hok] Hnamed].
  assert (Hlastv : valid_name (last_var NULL fs)).
  { clear -Hval. destruct fs as [|[w q] fs _] using rev_ind; [by repeat constructor|]. rewrite last_var_app.
    apply Forall_app in Hval as [_ Hval]. by inversion Hval as [|? ? [? _]]. }
  assert (Hfew : zlen fs < 10 ^ 19) by (pose proof all_few as Hf; rewrite E, !length_app, length_map in Hf; cbn [length] in Hf; lia).
  eexists _, v. split; [exact Er|]. split; cbn [data_file struct_file curSubdir lastFileVar first_file payload_alingment_dummy_counter].
  - done.
  - rewrite Hcnt. intros t d. rewrite (declares_app _ _ _ _ Hd (data_text_declares v (zlen fs) body _ Hv ltac:(lia) Hb) t d). unfold fs_arrays.
    by rewrite add_arrays_app, map_app.
  - rewrite Hlast. intros t d. rewrite (declares_app _ _ _ _ Hst (struct_text_declares v _ Hv (page_fields_lines o p v _ Hp Hv Hlastv)) t d).
    by rewrite add_structs_app, chained_app.
  - by rewrite last_var_app.
  - by rewrite Hused, map_app.
  - rewrite Hcnt, length_app. cbn [length]. lia.
  - split.
    + rewrite map_app. apply NoDup_app. split; [done|]. split; [|apply NoDup_singleton]. intros x Hx Hx2. apply list_elem_of_singleton in Hx2 as ->. done.
    + apply Forall_app. split; [done|]. by apply Forall_singleton.
    + rewrite map_app. apply Forall_app. split; [done|]. by apply Forall_singleton.
  - intros Hnda. rewrite !map_app, (Hnamed Hnda). cbn [map fst snd]. by rewrite (Hvn Hnda).
Qed.

(** The step processes the pages [ps] of the directory it is in, and counts them. *)
Definition handles (m : tool Z) (cur : list Z) (ps : list page) : Prop := ∀ s fs rest,
  described s cur fs → all = map snd fs ++ ps ++ rest →
  ∃ s' fs', m s = Ok (Some (zlen ps, s')) ∧ described s' cur (fs ++ fs') ∧ map snd fs' = ps.

Lemma handles_nil cur : handles (mret 0) cur [].
Proof. intros s fs rest Hs E. exists s, []. rewrite app_nil_r. done. Qed.

Lemma handles_seq m1 m2 cur ps1 ps2 : handles m1 cur ps1 → handles m2 cur ps2 →
  handles (n ← m1; m ← m2; mret (n + m)) cur (ps1 ++ ps2).
Proof.
  intros H1 H2 s fs rest Hs E. rewrite <- app_assoc in E. destruct (H1 s fs (ps2 ++ rest) Hs E) as (s1&fs1&E1&Hs1&Hp1).
  destruct (H2 s1 (fs ++ fs1) rest Hs1) as (s2&fs2&E2&Hs2&Hp2).
  { rewrite map_app, Hp1, <- app_assoc. done. }
  exists s2, (fs1 ++ fs2). rewrite (tool_run _ _ _ _ _ E1), (tool_run _ _ _ _ _ E2). split.
  - unfold mret, tool_ret. by rewrite length_app, Nat2Z.inj_add.
  - split; [by rewrite app_assoc|]. by rewrite map_app, Hp1, Hp2.
Qed.

Lemma own_file_handled cur e : handles (process_own_file inet_chksum fuel o e) cur (own_page cur e).
Proof.
  destruct e as [name contents mtime|name es]; [|apply handles_nil]. cbn [process_own_file own_page].
  destruct (bool_decide (name = chars "fsdata.tmp")); [apply handles_nil|].
  destruct (bool_decide (name = chars "fshdr.tmp")); [apply handles_nil|]. cbn [orb].
  intros s fs rest Hs E. unfold file_to_exclude. rewrite (nothing_excluded o o_usable), lift_run.
  destruct (page_step s fs (mkPage cur name contents mtime) rest Hs E) as (s'&v&Er&Hs').
  exists s', [(v, mkPage cur name contents mtime)]. cbn [pg_name pg_contents pg_mtime] in Er. by rewrite (tool_run _ _ _ _ _ Er).
Qed.

Lemma own_files_handled cur es : handles (process_own_files inet_chksum fuel o es) cur (concat (map (own_page cur) es)).
Proof. induction es as [|e es IH]; [apply handles_nil|]. apply handles_seq; [apply own_file_handled|exact IH]. Qed.

Lemma subdir_with_fits cur name : zlen cur + 1 + zlen name <= 252 → subdir_with cur name = Ok (cur ++ [47] ++ name).
Proof.
  intros Hl. unfold subdir_with, strncat_subdir. change CURSUBDIR_SIZE with 253.
  rewrite (take_ge [47]) by (cbn [length]; lia). rewrite (proj2 (Z.ltb_ge 253 _)) by lens. cbn [mbind outcome_bind].
  unfold u64. rewrite Z.mod_small, (take_ge name) by lia. rewrite (proj2 (Z.ltb_ge 253 _)) by lens. by rewrite <- app_assoc.
Qed.

(** Into a directory and back. *)
Lemma subdir_handled cur name e : zlen cur + 1 + zlen name <= 252 →
  handles (process_sub inet_chksum fuel o e) (cur ++ [47] ++ name) (pages_of (cur ++ [47] ++ name) e) →
  handles (path ← tool_lift (subdir_with cur name); set_curSubdir path;; n ← process_sub inet_chksum fuel o e; set_curSubdir cur;; mret n)
    cur (pages_of (cur ++ [47] ++ name) e).
Proof.
  intros Hl He s fs rest Hs E. rewrite (subdir_with_fits cur name Hl), lift_run. unfold set_curSubdir. rewrite mod_run.
  set (s0 := mkTool _ _ _ _ _ _). assert (Hs0 : described s0 (cur ++ [47] ++ name) fs) by (destruct Hs; split; first [assumption|reflexivity]).
  destruct (He s0 fs rest Hs0 E) as (s1&fs1&E1&Hs1&Hp1). rewrite (tool_run _ _ _ _ _ E1).
  rewrite mod_run. eexists _, fs1. split; [done|]. split; [|done]. destruct Hs1; split; first [assumption|reflexivity].
Qed.

(** Induction on a tree. *)
Lemma entry_tree_ind (P : entry → Prop) : (∀ n c m, P (File n c m)) → (∀ n es, Forall P es → P (Dir n es)) → ∀ e, P e.
Proof.
  intros Hf Hd. fix IH 1. intros [n c m|n es]; [apply Hf|]. apply Hd. induction es as [|e es IHes]; constructor; [apply IH|exact IHes].
Qed.

Lemma process_sub_handles e : ∀ cur, dirs_short cur e → handles (process_sub inet_chksum fuel o e) cur (pages_of cur e).
Proof.
  induction e as [n c m|n es IH] using entry_tree_ind; intros cur Hshort; [apply handles_nil|].
  cbn [process_sub pages_of]. rewrite (with_subs o o_usable). intros s fs rest Hs E. rewrite get_run, (at_dir _ _ _ Hs). revert s fs rest Hs E.
  apply (handles_seq _ _ cur); [|apply own_files_handled]. cbn [dirs_short] in Hshort.
  induction IH as [|e es He _ IHes]; [apply handles_nil|]. destruct Hshort as [Hd Hshort]. specialize (IHes Hshort).
  apply (handles_seq _ _ cur); [|exact IHes]. destruct e as [|name es']; [apply handles_nil|].
  unfold hidden in *. destruct Hd as [Hd|[Hl Hd]]; [rewrite Hd; apply handles_nil|].
  destruct (bool_decide (head name = Some 46)); [apply handles_nil|].
  rewrite (proj2 (Z.ltb_lt _ _)) by (unfold CURSUBDIR_SIZE, MAX_PATH_LEN; lia). apply subdir_handled; [done|]. by apply He.
Qed.
End Tree.
