(* ===== verification/MakeFsDataOk.v ===== *)
(** makefsdata as a whole: the file it writes, compiled, is the directory it was called for; and what goes wrong with
    some of its options. *)
From S2P Require Import Prelude CString Http HttpLwip HttpRequest MakeFsData FsDataReader FsDataText FsDataFiles FsDataNames FsDataPages MakeFsDataTree.

Section Main.
Context {lwip : Lwip} {lwip_ok : LwipOk}.
Context (inet_chksum : list Z → Z) (fuel : nat).

Lemma preamble_declares : declares preamble (add_arrays []).
Proof.
  intros t d. assert (E : add_arrays [] d = d) by (destruct d; unfold add_arrays; cbn; by rewrite app_nil_r). rewrite E. reflexivity.
Qed.

Lemma start_described o all : described o all (mkTool preamble [] [] NULL [] 0) [] [].
Proof.
  split; try done; [apply preamble_declares| |split; constructor].
  intros t d. cbn [struct_file app chained]. unfold add_structs. rewrite app_nil_r. by destruct d.
Qed.

(** The last lines of the file: the root of the list. *)
Definition root_text (v : list Z) (n : Z) : list Z :=
  ((ROOT ++ v) ++ NEWLINE) ++ ((chars "#define FS_NUMFILES " ++ dec n) ++ NEWLINE) ++ ([] ++ NEWLINE).

Lemma root_text_declares v n : valid_name v → 0 <= n < 10 ^ 20 → declares (root_text v n) (λ d, mkDecls (arrays d) (structs d) (Some v)).
Proof.
  intros Hv Hn t d. unfold root_text. rewrite <- app_assoc, declares_root by (by apply valid_one_line).
  rewrite <- app_assoc, declares_nothing by (done || auto with lines). unfold id at 1.
  by rewrite declares_nothing by (done || by apply one_line_decide).
Qed.

(** What is read when the tool is done. *)
Lemma compile_described o all s cur fs n : described o all s cur fs → 0 <= n < 10 ^ 20 →
  compile ((data_file s ++ NEWLINE ++ NEWLINE) ++ struct_file s ++ ROOT ++ lastFileVar s ++ NEWLINE ++
    chars "#define FS_NUMFILES " ++ dec n ++ NEWLINE ++ NEWLINE) = Some (map (page_file o) (rev (map snd fs))).
Proof.
  intros Hs Hn. pose proof (is_row _ _ _ _ _ Hs) as Hrow. rewrite (last_is _ _ _ _ _ Hs).
  assert (Hlast : valid_name (last_var NULL fs)).
  { destruct fs as [|[w q] fs0 _] using rev_ind; [by repeat constructor|]. rewrite last_var_app.
    pose proof (row_valid _ Hrow) as Hval. apply Forall_app in Hval as [_ Hval]. by inversion Hval as [|? ? [? _]]. }
  assert (Hblank : ∀ d t, read (Line []) (NEWLINE ++ NEWLINE ++ t) d = read (Line []) t d) by done.
  pose proof (root_text_declares (last_var NULL fs) n Hlast Hn) as Hroot. unfold root_text in Hroot. rewrite <- !app_assoc in Hroot. cbn [app] in Hroot.
  unfold compile. rewrite <- !app_assoc, (data_read _ _ _ _ _ Hs), Hblank, (structs_read _ _ _ _ _ Hs).
  specialize (Hroot [] (add_structs (chained o NULL fs) (add_arrays (fs_arrays o fs) no_decls))). rewrite app_nil_r in Hroot.
  rewrite Hroot. cbn [read mbind option_bind fs_root structs arrays add_structs add_arrays no_decls app].
  assert (Hl : length (chained o NULL fs) = length fs) by (rewrite <- (length_map fst), chained_keys; by rewrite length_map).
  rewrite Hl. by apply chain_row.
Qed.

(** What is asked of a directory: paths that fit the buffers and the comments, names of variables that can be told apart. *)
Record directory_ok (entries : list entry) : Prop := {
  pages_ok : Forall page_ok (pages_of [] (Dir [] entries));
  pages_tellable : tellable (pages_of [] (Dir [] entries));
  pages_few : zlen (pages_of [] (Dir [] entries)) < 10 ^ 19;
  subdirs_short : dirs_short [] (Dir [] entries) }.

Lemma main_compiles o entries : usable o → directory_ok entries →
  ∃ text, main inet_chksum fuel o entries = Ok (Some text) ∧ compile text = Some (map (page_file o) (rev (pages_of [] (Dir [] entries)))).
Proof.
  intros Ho [Hok Htell Hfew Hshort]. set (pages := pages_of [] (Dir [] entries)) in *.
  destruct (process_sub_handles inet_chksum fuel o Ho pages Hok Htell Hfew (Dir [] entries) [] Hshort (mkTool preamble [] [] NULL [] 0) [] []
    (start_described o pages) ltac:(by rewrite app_nil_r)) as (s&fs&E&Hs&Hps).
  unfold main. fold NULL. rewrite E. cbn [mbind outcome_bind]. eexists. split; [done|].
  cbn [app] in Hs, Hps.
  assert (Hn : 0 <= zlen (pages_of [] (Dir [] entries)) < 10 ^ 20) by (subst pages; lia).
  pose proof (compile_described o pages s [] fs _ Hs Hn) as Hc. rewrite Hps in Hc. exact Hc.
Qed.

(** C10: The web pages get into the firmware as they are.  The file that makefsdata writes for a directory, read by a C
    compiler, is the list of its files that [fs_open] searches: every file under its path, as a response header with
    its length and type, followed by the bytes of the file; the variables have names of their own, and the descriptors
    are linked in a chain that ends. *)
Theorem fsdata_is_the_directory o entries : usable o → directory_ok entries →
  ∃ text, main inet_chksum fuel o entries = Ok (Some text) ∧ compile text = Some (map (page_file o) (rev (pages_of [] (Dir [] entries)))).
Proof. apply main_compiles. Qed.

(** ** Options *)

(** [-s], which is meant to leave out the subdirectories, leaves out everything: the list of files is empty. *)
Theorem without_subdirectories_nothing o entries : processSubs o = false →
  ∃ text, main inet_chksum fuel o entries = Ok (Some text) ∧ compile text = Some [].
Proof.
  intros Ho. unfold main. cbn [process_sub]. rewrite Ho. eexists. split; [reflexivity|].
  exact (compile_described o [] (mkTool preamble [] [] NULL [] 0) [] [] 0 (start_described o []) ltac:(lia)).
Qed.

(** [-c]: the loop over the chunks of a file never moves on. *)
Theorem checksums_never_end n contents offset i s : contents ≠ [] →
  checksums_loop inet_chksum n contents 0 offset i s = OutOfFuel.
Proof.
  intros Hc. revert offset i s. induction n as [|n IH]; intros offset i s; [done|]. cbn [checksums_loop].
  assert (0 < zlen contents) by (destruct contents; [done|cbn [length]; lia]). unfold TCP_MSS.
  rewrite (proj2 (Z.eqb_neq _ _)) by lia.
  assert (E : ∃ l, rd_n contents 0 (Z.min 1460 (zlen contents - 0)) = Ok l) by (unfold rd_n; rewrite decide_True by lia; by eexists).
  destruct E as [l ->]. rewrite lift_run. unfold write_struct. rewrite mod_run. apply IH.
Qed.
End Main.


(** ** Lists of extensions *)

Lemma strncmp_eq_differs a b r rest : length a = length b → no_nul a → a ≠ b → strncmp_eq (length b) (a ++ r) (b ++ rest) = Ok false.
Proof.
  revert a. induction b as [|y b IH]; intros [|x a] Hl Ha Hne; try done. cbn [length] in *. cbn [app strncmp_eq].
  destruct (Z.eqb_spec x y) as [->|Hxy]; [|done]. apply Forall_cons in Ha as [Hy Ha]. cbn [negb].
  rewrite (proj2 (Z.eqb_neq _ _) Hy). apply IH; [lia|done|]. by intros ->.
Qed.

Lemma last_part (filename e : list Z) : zlen e < zlen filename → ∃ b c t, filename = b ++ c :: t ∧ length t = length e.
Proof.
  intros Hl. set (n := (length filename - length e - 1)%nat). destruct (drop n filename) as [|c t] eqn:E.
  { apply (f_equal length) in E. rewrite length_drop in E. cbn [length] in E. lia. }
  exists (take n filename), c, t. split; [by rewrite <- E, take_drop|].
  apply (f_equal length) in E. rewrite length_drop in E. cbn [length] in E. lia.
Qed.

(** [-x:] and [-xc:] with one extension: the loop goes on behind the end of the list, unless the file has the extension. *)
Theorem unlisted_extension_is_overread filename e : e ≠ [] → no_nul e → 44 ∉ e → no_nul filename → zlen e < zlen filename →
  (∀ b, filename ≠ b ++ [46] ++ e) → ext_in_list filename (Some (literal e)) = Ub.
Proof.
  intros He Hn Hc Hf Hl Hno. destruct (last_part filename e Hl) as (b&c&t&->&Ht). unfold ext_in_list, literal.
  rewrite length_app. cbn [length]. rewrite Nat.add_1_r. cbn [ext_in_list_from].
  assert (H0 : 0 ∉ e) by (intros H0; unfold no_nul in Hn; rewrite Forall_forall in Hn; by apply (Hn 0)).
  assert (E0 : ∃ x, rd (e ++ [0]) 0 = Ok x ∧ x ≠ 0) by (destruct e as [|x e]; [done|]; exists x; split; [done|by inversion Hn]).
  destruct E0 as (x&->&Hx). cbn [mbind outcome_bind]. rewrite (proj2 (Z.eqb_neq _ _) Hx). unfold strchr. change (Z.to_nat 0) with 0%nat.
  rewrite !drop_0, (strchr_from_absent 44), (strchr_from_found 0) by (done || lia).
  cbn [mbind outcome_bind]. rewrite Z.add_0_l.
  replace (zlen (b ++ c :: t) - zlen e - 1) with (zlen b) by (rewrite length_app; cbn [length]; lia).
  replace (Z.to_nat (zlen (b ++ c :: t) - zlen e)) with (length (b ++ [c])) by (rewrite !length_app; cbn [length]; lia).
  unfold literal. rewrite <- (app_assoc b). cbn [app]. rewrite rd_app. cbn [mbind outcome_bind].
  replace (b ++ c :: t ++ [0]) with ((b ++ [c]) ++ t ++ [0]) by (by rewrite <- !app_assoc).
  assert (E : (if c =? 46 then strncmp_eq (Z.to_nat (zlen e)) (drop (length (b ++ [c])) ((b ++ [c]) ++ t ++ [0])) (e ++ [0]) else Ok false) = Ok false).
  { destruct (Z.eqb_spec c 46) as [->|]; [|done]. rewrite drop_app_length, Nat2Z.id. apply strncmp_eq_differs; [done| |].
    - apply Forall_app in Hf as [_ Hf]. by inversion Hf.
    - intros ->. by apply (Hno b). }
  rewrite E. cbn [mbind outcome_bind]. rewrite drop_ge by (rewrite length_app; cbn [length]; lia). done.
Qed.

(** ** The command line *)

(** [check_path] leaves every path as it is: the loop that strips slashes starts at the NUL behind them. *)
Theorem check_path_strips_nothing path rest size : no_nul path →
  check_path (literal path ++ rest) size = Ok (bool_decide (path ≠ [] ∧ zlen path < size), literal path ++ rest).
Proof.
  intros Hn. unfold check_path, literal. rewrite <- app_assoc. cbn [app]. destruct path as [|c p]; [done|].
  change (rd ((c :: p) ++ 0 :: rest) 0) with (Ok c : outcome Z). cbn [mbind outcome_bind].
  assert (Hc : c ≠ 0) by (by inversion Hn). rewrite (proj2 (Z.eqb_neq _ _) Hc), (c_str_app (c :: p)) by done. cbn [mbind outcome_bind].
  destruct (Z.leb_spec size (zlen (c :: p))); [by rewrite bool_decide_false by (intros [_ H1]; lia)|].
  rewrite bool_decide_true by (split; [done|lia]). cbn [length strip_path].
  change (S (length p)) with (length (c :: p)). rewrite rd_app. reflexivity.
Qed.

Lemma ssi_lines_one b in_line : no_nul b → length (ssi_lines b in_line) = if in_line then 0%nat else if b is [] then 0%nat else 1%nat.
Proof.
  intros Hb. assert (H : ssi_lines b true = []).
  { induction Hb as [|x b Hx _ IH]; [done|]. cbn [ssi_lines]. by rewrite (proj2 (Z.eqb_neq _ _) Hx). }
  destruct in_line; [by rewrite H|]. destruct b as [|x b]; [done|]. inversion Hb as [|? ? Hx Hb']; subst. cbn [ssi_lines] in *.
  rewrite (proj2 (Z.eqb_neq _ _) Hx) in *. cbn [length]. by rewrite H.
Qed.

(** [-ssi:]: a list of one line that is not terminated fails the assertion on the number of lines. *)
Theorem unterminated_list_fails ssi l : l ≠ [] → no_nul l → 10 ∉ l → 13 ∉ l → checkSsiByFilelist ssi (Some l) = None.
Proof.
  intros Hl Hn H10 H13. destruct l as [|c r]; [done|]. cbn [checkSsiByFilelist].
  assert (Hm : map (λ c, if (c =? 10) || (c =? 13) then 0 else c) (c :: r) = c :: r).
  { clear Hl Hn. induction (c :: r) as [|x l IH]; [done|]. apply not_elem_of_cons in H10 as [Hx H10], H13 as [Hy H13]. cbn [map].
    rewrite (proj2 (Z.eqb_neq x 10)), (proj2 (Z.eqb_neq x 13)) by done. cbn [orb]. f_equal. by apply IH. }
  assert (Hf : filter (λ c, c = 10) (c :: r) = []).
  { clear Hl Hn Hm. induction (c :: r) as [|x l IH]; [done|]. apply not_elem_of_cons in H10 as [Hx H10]. apply not_elem_of_cons in H13 as [_ H13].
    rewrite filter_cons, decide_False by done. by apply IH. }
  rewrite Hm, Hf, ssi_lines_one by done. done.
Qed.

(** The command line of the build, with the directory and the target, leaves the options at their defaults. *)
Lemma build_command read_file agent dir target : head dir ≠ Some 45 → dir ≠ chars "/?" → zlen dir < MAX_PATH_LEN → zlen target < MAX_PATH_LEN →
  parse_args read_file [dir; chars "-f:" ++ target] (default_command agent) = Some (mkCommand (default_options agent) dir target).
Proof.
  intros Hd Hq Hl Ht. cbn [parse_args].
  assert (E1 : parse_arg read_file dir (default_command agent) = Some (mkCommand (default_options agent) dir (chars "fsdata.c"))).
  { unfold parse_arg. destruct dir as [|c r]; [done|]. cbn [head] in *.
    assert (E : ∀ A (x y : A), match Some c with Some 45 => x | _ => y end = y).
    { intros A x y. destruct c as [|[[[|[]|]|[|[]|]|]|[[]|[]|]|]|]; repeat (done || destruct p); done. }
    rewrite E. rewrite bool_decide_false by done. rewrite take_ge by (unfold MAX_PATH_LEN in *; lia). done. }
  rewrite E1. cbn [mbind option_bind]. unfold parse_arg.
  change (head (chars "-f:" ++ target)) with (Some 45 : option Z). cbv iota.
  assert (Hne : ∀ s, is_prefix (chars "-f:") (chars s) = false → bool_decide (chars "-f:" ++ target = chars s) = false).
  { intros s Hs. apply bool_decide_eq_false. intros E. rewrite <- E, is_prefix_app in Hs. done. }
  rewrite !Hne by done. rewrite is_prefix_app. change (is_prefix (chars "-svr:") (chars "-f:" ++ target)) with false.
  change (is_prefix (chars "-ssi:") (chars "-f:" ++ target)) with false. cbv iota.
  change (drop 3 (chars "-f:" ++ target)) with target. by rewrite take_ge by (unfold MAX_PATH_LEN in *; lia).
Qed.
