(* ===== verification/WebPages.v ===== *)
(** The web pages on their way from the directory on the developer's machine to the browser: makefsdata writes them into
    the firmware, and the HTTP server sends them to who asks for them. *)
From S2P Require Import Prelude CString StateMonad Http HttpLwip HttpRequest HttpSend HttpGet MakeFsData FsDataReader FsDataText FsDataFiles FsDataNames FsDataPages MakeFsDataTree MakeFsDataOk.

(** The firmware is compiled with the file that the tool, with the options [o], writes for the directory. *)
Definition built_from {lwip : Lwip} {site : Site} (inet_chksum : list Z → Z) (fuel : nat) (o : options) (entries : list entry) : Prop :=
  ∃ text, main inet_chksum fuel o entries = Ok (Some text) ∧ compile text = Some FS_ROOT.

(** The page that the URI of a request asks for: by its path, with or without parameters; as the root; or because the
    path is none of a page. *)
Inductive asks_for (pages : list page) (uri : list Z) (p : page) : Prop :=
  | AsksPath : nth (length uri - 1) uri 0 ≠ 47 → before 63 uri = pg_path p → asks_for pages uri p
  | AsksRoot : uri = [47] → pg_path p = chars "/index.html" →
      Forall (λ name, name ∉ map pg_path pages) [chars "/index.shtml"; chars "/index.ssi"; chars "/index.shtm"] → asks_for pages uri p
  | AsksUnknown : nth (length uri - 1) uri 0 ≠ 47 → before 63 uri ∉ map pg_path pages → pg_path p = chars "/404.html" →
      asks_for pages uri p.

Section WebPages.
Context {T G : Type} {tcp : Tcp T} {tcp_ok : TcpOk T} {lwip : Lwip} {lwip_ok : LwipOk} {site : Site}.
Context (process : list Z → list Z → G → outcome (option (list Z) * G)) (ack : T → T).
Context (inet_chksum : list Z → Z) (fuel : nat) (o : options).

Lemma opened_page pages p : p ∈ pages → NoDup (map pg_path pages) →
  fs_open (map (page_file o) pages) (pg_path p) = Some (mkFile (page_header o p ++ pg_contents p)
    (zlen (page_header o p ++ pg_contents p)) (zlen (page_header o p ++ pg_contents p)) (page_flags o p)).
Proof.
  induction pages as [|q pages IH]; intros Hin Hnd; [by apply not_elem_of_nil in Hin|]. cbn [map fs_open page_file fd_name fd_data fd_len fd_flags].
  cbn [map] in Hnd. apply NoDup_cons in Hnd as [Hq Hnd]. apply elem_of_cons in Hin as [->|Hin]; [by rewrite bool_decide_true|].
  rewrite bool_decide_false; [by apply IH|]. intros E. apply Hq. rewrite <- E. by apply list_elem_of_fmap_2.
Qed.

Lemma unknown_page pages name : name ∉ map pg_path pages → fs_open (map (page_file o) pages) name = None.
Proof.
  induction pages as [|q pages IH]; intros Hn; [done|]. cbn [map fs_open page_file fd_name] in *.
  apply not_elem_of_cons in Hn as [Hq Hn]. rewrite bool_decide_false by done. by apply IH.
Qed.

Lemma page_file_ok p : usable o → includeHttpHeader o = true → page_ok p → file_ok (page_file o p).
Proof.
  intros Ho Hh Hp. unfold file_ok. cbn [page_file fd_len fd_data fd_flags].
  pose proof (contents_short p Hp). pose proof (proj2 (id_plain o Ho)). pose proof (proj2 (mtime_plain p Hp)).
  assert (zlen (page_header o p) < 4096).
  { unfold page_header. rewrite Hh. apply response_header_short; lia. }
  rewrite length_app. split; [lia|]. split; [lia|]. unfold page_flags. rewrite Hh.
  destruct (is_ssi o (pg_name p)), (useHttp11 o); done.
Qed.

Context (entries : list entry).
Local Abbreviation pages := (pages_of [] (Dir [] entries)).
Hypothesis o_usable : usable o.
Hypothesis o_headers : includeHttpHeader o = true.
Hypothesis entries_ok : directory_ok entries.
Hypothesis paths_differ : NoDup (map pg_path pages).
Hypothesis built : built_from inet_chksum fuel o entries.

Lemma root_is_pages : FS_ROOT = map (page_file o) (rev pages).
Proof.
  destruct built as (text&Hm&Hc). destruct (main_compiles inet_chksum fuel o entries o_usable entries_ok) as (text'&Hm'&Hc').
  rewrite Hm in Hm'. injection Hm' as <-. rewrite Hc in Hc'. by injection Hc'.
Qed.

Lemma root_files_ok : Forall file_ok FS_ROOT.
Proof.
  rewrite root_is_pages. apply Forall_map, Forall_rev. eapply Forall_impl; [exact (pages_ok _ entries_ok)|].
  intros p Hp. by apply page_file_ok.
Qed.

Lemma opened p : p ∈ pages → fs_open FS_ROOT (pg_path p) = Some (mkFile (page_header o p ++ pg_contents p)
    (zlen (page_header o p ++ pg_contents p)) (zlen (page_header o p ++ pg_contents p)) (page_flags o p)).
Proof.
  intros Hp. rewrite root_is_pages. apply opened_page; [by rewrite <- Permutation_rev|].
  rewrite map_rev. by rewrite <- Permutation_rev.
Qed.

Lemma not_opened name : name ∉ map pg_path pages → fs_open FS_ROOT name = None.
Proof. intros Hn. rewrite root_is_pages. apply unknown_page. rewrite map_rev. by rewrite <- Permutation_rev. Qed.

Definition page_handle (p : page) : fs_file :=
  mkFile (page_header o p ++ pg_contents p) (zlen (page_header o p ++ pg_contents p)) (zlen (page_header o p ++ pg_contents p)) (page_flags o p).

Lemma asked_resource uri p : p ∈ pages → asks_for pages uri p → resource uri (page_handle p).
Proof.
  intros Hp Ha. pose proof (opened p Hp) as Hopen. destruct Ha as [Hd E| -> E Hno|Hd Hno E].
  - apply ResFile; [done|]. by rewrite E.
  - apply (ResRoot _ _ (chars "/index.html")); [done|]. apply Forall_cons in Hno as [H1 Hno]. apply Forall_cons in Hno as [H2 Hno].
    apply Forall_cons in Hno as [H3 _]. unfold httpd_default_filenames. cbn [open_first].
    rewrite !not_opened by done. by rewrite <- E, Hopen.
  - apply (Res404 _ _ (chars "/404.html")); [done|by apply not_opened|]. unfold http_get_404_file. cbn [open_first]. by rewrite <- E, Hopen.
Qed.

(** C5: What is put into the directory is what the browser shows.  In a firmware that is compiled with what makefsdata
    wrote and is in normal operation, not in its configuration mode, a GET request - in any number of pbufs the server waits for, whatever TCP takes at a time - that asks for a
    page of the directory, by its path or as the root, or for a path that is none, is answered with the page's header
    and the bytes of the file, and then the end of the connection. *)
Theorem page_reaches_browser uri p ps d t g : p ∈ pages → asks_for pages uri p →
  initial_config = false → zlen httpd_req_buf = 1024 → (∀ t, ready (ack t)) → (∀ t, segments (ack t) = segments t) →
  get_request uri (concat (ps ++ [d])) → queue_parsed (ps ++ [d]) → fits ps →
  (∀ k, (0 < k <= length ps)%nat → pending (concat (take k ps))) →
  ∃ s', (recv_all process (ps ++ [d]);; acknowledge process ack (S (Z.to_nat (f_len (page_handle p))))) (http_accept t g) = Ok (tt, s') ∧
    hs s' = None ∧ bytes (pcb s') = bytes t ++ page_header o p ++ pg_contents p.
Proof.
  intros Hp Ha Hic Hb Hready Hseg Hget Hq Hf Hpend.
  destruct (get_serves_file process ack uri (page_handle p) ps d t g) as (s'&E&Hs&Hby); [done|done|apply root_files_ok|done|done| |done..|].
  - by apply asked_resource.
  - exists s'. split; [done|]. split; [done|]. rewrite Hby. cbn [page_handle f_len f_data]. by rewrite Nat2Z.id, firstn_all.
Qed.
End WebPages.

(** ** A web site *)

(** A page's conditions, decided. *)
Definition page_check (p : page) : bool :=
  (zlen (pg_path p) <=? 252) && forallb (λ c, (0 <=? c) && (c <? 256) && negb (c =? 42)) (pg_path p) &&
  forallb (λ c, negb (c =? 0)) (pg_path p) && forallb (λ c, (0 <=? c) && (c <? 256)) (pg_contents p) &&
  (zlen (pg_contents p) <? 1000000000) && forallb (λ c, (0 <=? c) && (c <? 256) && negb (c =? 42)) (pg_mtime p) &&
  (zlen (pg_mtime p) <? 1000).

Lemma forallb_Forall' {A} (f : A → bool) (P : A → Prop) l : (∀ x, f x = true → P x) → forallb f l = true → Forall P l.
Proof. intros H E. rewrite forallb_forall in E. apply Forall_forall. intros x Hx. apply H, E. by apply list_elem_of_In. Qed.

Lemma page_check_ok p : page_check p = true → page_ok p.
Proof.
  unfold page_check. rewrite !andb_true_iff. intros ((((((H1&H2)&H3)&H4)&H5)&H6)&H7). split; try lia.
  - by apply plain_decide.
  - eapply forallb_Forall'; [|exact H3]. intros x Hx. cbn in Hx. lia.
  - eapply forallb_Forall'; [|exact H4]. intros x Hx. cbn in Hx. unfold is_u8. lia.
  - split; [by apply plain_decide|lia].
Qed.

Lemma page_checks ps : forallb page_check ps = true → Forall page_ok ps.
Proof. apply forallb_Forall', page_check_ok. Qed.

(** The page of httpserver/fsdata.c for what is not there. *)
Definition data__404_html : list Z := concat [
  [0x2f; 0x34; 0x30; 0x34; 0x2e; 0x68; 0x74; 0x6d; 0x6c; 0x00; 0x00; 0x00];
  [0x48; 0x54; 0x54; 0x50; 0x2f; 0x31; 0x2e; 0x30; 0x20; 0x34; 0x30; 0x34; 0x20; 0x46; 0x69; 0x6c];
  [0x65; 0x20; 0x6e; 0x6f; 0x74; 0x20; 0x66; 0x6f; 0x75; 0x6e; 0x64; 0x0d; 0x0a];
  [0x53; 0x65; 0x72; 0x76; 0x65; 0x72; 0x3a; 0x20; 0x6c; 0x77; 0x49; 0x50; 0x2f; 0x32; 0x2e; 0x32];
  [0x2e; 0x31; 0x64; 0x20; 0x28; 0x68; 0x74; 0x74; 0x70; 0x3a; 0x2f; 0x2f; 0x73; 0x61; 0x76; 0x61];
  [0x6e; 0x6e; 0x61; 0x68; 0x2e; 0x6e; 0x6f; 0x6e; 0x67; 0x6e; 0x75; 0x2e; 0x6f; 0x72; 0x67; 0x2f];
  [0x70; 0x72; 0x6f; 0x6a; 0x65; 0x63; 0x74; 0x73; 0x2f; 0x6c; 0x77; 0x69; 0x70; 0x29; 0x0d; 0x0a];
  [0x43; 0x6f; 0x6e; 0x74; 0x65; 0x6e; 0x74; 0x2d; 0x4c; 0x65; 0x6e; 0x67; 0x74; 0x68; 0x3a; 0x20];
  [0x35; 0x34; 0x34; 0x0d; 0x0a];
  [0x43; 0x6f; 0x6e; 0x74; 0x65; 0x6e; 0x74; 0x2d; 0x54; 0x79; 0x70; 0x65; 0x3a; 0x20; 0x74; 0x65];
  [0x78; 0x74; 0x2f; 0x68; 0x74; 0x6d; 0x6c; 0x0d; 0x0a; 0x0d; 0x0a];
  [0x3c; 0x68; 0x74; 0x6d; 0x6c; 0x3e; 0x0a; 0x3c; 0x68; 0x65; 0x61; 0x64; 0x3e; 0x3c; 0x74; 0x69];
  [0x74; 0x6c; 0x65; 0x3e; 0x6c; 0x77; 0x49; 0x50; 0x20; 0x2d; 0x20; 0x41; 0x20; 0x4c; 0x69; 0x67];
  [0x68; 0x74; 0x77; 0x65; 0x69; 0x67; 0x68; 0x74; 0x20; 0x54; 0x43; 0x50; 0x2f; 0x49; 0x50; 0x20];
  [0x53; 0x74; 0x61; 0x63; 0x6b; 0x3c; 0x2f; 0x74; 0x69; 0x74; 0x6c; 0x65; 0x3e; 0x3c; 0x2f; 0x68];
  [0x65; 0x61; 0x64; 0x3e; 0x0a; 0x3c; 0x62; 0x6f; 0x64; 0x79; 0x20; 0x62; 0x67; 0x63; 0x6f; 0x6c];
  [0x6f; 0x72; 0x3d; 0x22; 0x77; 0x68; 0x69; 0x74; 0x65; 0x22; 0x20; 0x74; 0x65; 0x78; 0x74; 0x3d];
  [0x22; 0x62; 0x6c; 0x61; 0x63; 0x6b; 0x22; 0x3e; 0x0a; 0x0a; 0x20; 0x20; 0x20; 0x20; 0x3c; 0x74];
  [0x61; 0x62; 0x6c; 0x65; 0x20; 0x77; 0x69; 0x64; 0x74; 0x68; 0x3d; 0x22; 0x31; 0x30; 0x30; 0x25];
  [0x22; 0x3e; 0x0a; 0x20; 0x20; 0x20; 0x20; 0x20; 0x20; 0x3c; 0x74; 0x72; 0x20; 0x76; 0x61; 0x6c];
  [0x69; 0x67; 0x6e; 0x3d; 0x22; 0x74; 0x6f; 0x70; 0x22; 0x3e; 0x3c; 0x74; 0x64; 0x20; 0x77; 0x69];
  [0x64; 0x74; 0x68; 0x3d; 0x22; 0x38; 0x30; 0x22; 0x3e; 0x09; 0x20; 0x20; 0x0a; 0x09; 0x20; 0x20];
  [0x3c; 0x61; 0x20; 0x68; 0x72; 0x65; 0x66; 0x3d; 0x22; 0x68; 0x74; 0x74; 0x70; 0x3a; 0x2f; 0x2f];
  [0x77; 0x77; 0x77; 0x2e; 0x73; 0x69; 0x63; 0x73; 0x2e; 0x73; 0x65; 0x2f; 0x22; 0x3e; 0x3c; 0x69];
  [0x6d; 0x67; 0x20; 0x73; 0x72; 0x63; 0x3d; 0x22; 0x2f; 0x69; 0x6d; 0x67; 0x2f; 0x73; 0x69; 0x63];
  [0x73; 0x2e; 0x67; 0x69; 0x66; 0x22; 0x0a; 0x09; 0x20; 0x20; 0x62; 0x6f; 0x72; 0x64; 0x65; 0x72];
  [0x3d; 0x22; 0x30; 0x22; 0x20; 0x61; 0x6c; 0x74; 0x3d; 0x22; 0x53; 0x49; 0x43; 0x53; 0x20; 0x6c];
  [0x6f; 0x67; 0x6f; 0x22; 0x20; 0x74; 0x69; 0x74; 0x6c; 0x65; 0x3d; 0x22; 0x53; 0x49; 0x43; 0x53];
  [0x20; 0x6c; 0x6f; 0x67; 0x6f; 0x22; 0x3e; 0x3c; 0x2f; 0x61; 0x3e; 0x0a; 0x09; 0x3c; 0x2f; 0x74];
  [0x64; 0x3e; 0x3c; 0x74; 0x64; 0x20; 0x77; 0x69; 0x64; 0x74; 0x68; 0x3d; 0x22; 0x35; 0x30; 0x30];
  [0x22; 0x3e; 0x09; 0x20; 0x20; 0x0a; 0x09; 0x20; 0x20; 0x3c; 0x68; 0x31; 0x3e; 0x6c; 0x77; 0x49];
  [0x50; 0x20; 0x2d; 0x20; 0x41; 0x20; 0x4c; 0x69; 0x67; 0x68; 0x74; 0x77; 0x65; 0x69; 0x67; 0x68];
  [0x74; 0x20; 0x54; 0x43; 0x50; 0x2f; 0x49; 0x50; 0x20; 0x53; 0x74; 0x61; 0x63; 0x6b; 0x3c; 0x2f];
  [0x68; 0x31; 0x3e; 0x0a; 0x09; 0x20; 0x20; 0x3c; 0x68; 0x32; 0x3e; 0x34; 0x30; 0x34; 0x20; 0x2d];
  [0x20; 0x50; 0x61; 0x67; 0x65; 0x20; 0x6e; 0x6f; 0x74; 0x20; 0x66; 0x6f; 0x75; 0x6e; 0x64; 0x3c];
  [0x2f; 0x68; 0x32; 0x3e; 0x0a; 0x09; 0x20; 0x20; 0x3c; 0x70; 0x3e; 0x0a; 0x09; 0x20; 0x20; 0x20];
  [0x20; 0x53; 0x6f; 0x72; 0x72; 0x79; 0x2c; 0x20; 0x74; 0x68; 0x65; 0x20; 0x70; 0x61; 0x67; 0x65];
  [0x20; 0x79; 0x6f; 0x75; 0x20; 0x61; 0x72; 0x65; 0x20; 0x72; 0x65; 0x71; 0x75; 0x65; 0x73; 0x74];
  [0x69; 0x6e; 0x67; 0x20; 0x77; 0x61; 0x73; 0x20; 0x6e; 0x6f; 0x74; 0x20; 0x66; 0x6f; 0x75; 0x6e];
  [0x64; 0x20; 0x6f; 0x6e; 0x20; 0x74; 0x68; 0x69; 0x73; 0x0a; 0x09; 0x20; 0x20; 0x20; 0x20; 0x73];
  [0x65; 0x72; 0x76; 0x65; 0x72; 0x2e; 0x20; 0x0a; 0x09; 0x20; 0x20; 0x3c; 0x2f; 0x70; 0x3e; 0x0a];
  [0x09; 0x3c; 0x2f; 0x74; 0x64; 0x3e; 0x3c; 0x74; 0x64; 0x3e; 0x0a; 0x09; 0x20; 0x20; 0x26; 0x6e];
  [0x62; 0x73; 0x70; 0x3b; 0x0a; 0x09; 0x3c; 0x2f; 0x74; 0x64; 0x3e; 0x3c; 0x2f; 0x74; 0x72; 0x3e];
  [0x0a; 0x20; 0x20; 0x20; 0x20; 0x20; 0x20; 0x3c; 0x2f; 0x74; 0x61; 0x62; 0x6c; 0x65; 0x3e; 0x0a];
  [0x3c; 0x2f; 0x62; 0x6f; 0x64; 0x79; 0x3e; 0x0a; 0x3c; 0x2f; 0x68; 0x74; 0x6d; 0x6c; 0x3e; 0x0a]].

Definition file__404_html : fsdata_file := mkFsData (before 0 data__404_html) (drop 12 data__404_html) (zlen data__404_html - 12)
  (Z.lor FS_FILE_FLAGS_HEADER_INCLUDED FS_FILE_FLAGS_HEADER_PERSISTENT).

(** With the file of httpserver/fs, which the array ends with. *)
Definition page_404 : page :=
  mkPage [] (chars "404.html") (drop 153 data__404_html) (chars "Thu, 01 Jan 1970 00:00:00 GMT").

Definition lwip_agent : list Z := chars "lwIP/2.2.1d (http://savannah.nongnu.org/projects/lwip)".

(** The file in the repository is what the tool makes of it. *)
Example committed_page_is_made : page_file (lwip := plain_lwip) (default_options lwip_agent) page_404 = file__404_html ∧
  page_array (lwip := plain_lwip) (default_options lwip_agent) page_404 = data__404_html.
Proof. split; vm_compute; reflexivity. Qed.

Definition demo_mtime : list Z := chars "Thu, 01 Jan 1970 00:00:00 GMT".

Definition demo_entries : list entry :=
  [File (chars "404.html") (pg_contents page_404) demo_mtime; File (chars "index.html") (chars "<p>hi</p>") demo_mtime;
   Dir (chars "img") [File (chars "dot.css") (chars "p { }") demo_mtime]].

Definition demo_pages : list page := pages_of [] (Dir [] demo_entries).

Lemma demo_entries_ok : directory_ok demo_entries.
Proof.
  split.
  - apply page_checks. vm_compute; reflexivity.
  - right. vm_compute. lia.
  - by vm_compute.
  - cbn. split; [done|]. split; [done|]. split; [|done]. right. split; [by vm_compute|done].
Qed.

(** A device with the pages of that directory. *)
Definition pages_site : Site := {|
  FS_ROOT := map (page_file (lwip := plain_lwip) (default_options lwip_agent)) (rev demo_pages);
  hostname := chars "device"; domain_name := chars "local"; ip_address := 0; initial_config := false;
  fresh n := replicate (Z.to_nat n) 0; httpd_req_buf := replicate 1024 0; stack_word := 1 |}.

Lemma demo_built : built_from (site := pages_site) (λ _, 0) 0 (default_options lwip_agent) demo_entries.
Proof. apply main_compiles; [apply default_usable; [by apply plain_decide|done]|exact demo_entries_ok]. Qed.

Definition gone_request : list (list Z) := [chars "GET /gone HTTP/1.0" ++ [13]; [10] ++ chars "Host: me" ++ CRLFCRLF].

Lemma gone_get_request : get_request (chars "/gone") (concat gone_request).
Proof.
  split; [nn|]. split; [by eexists (chars "HTTP/1.0" ++ cr_lf ++ chars "Host: me" ++ CRLFCRLF)|].
  split; [apply (bool_decide_unpack _); vm_compute; exact I|].
  split; [exists 20, 28; split_and!|exists 28]; apply (bool_decide_unpack _); vm_compute; exact I.
Qed.

Lemma page_reaches_browser_witness :
  ∃ s', (recv_all (site := pages_site) no_post ([chars "GET /gone HTTP/1.0" ++ [13]] ++ [[10] ++ chars "Host: me" ++ CRLFCRLF]);;
         acknowledge no_post refill (S (Z.to_nat (f_len (page_handle (default_options lwip_agent) page_404))))) (http_accept (mkWire 0 []) tt) = Ok (tt, s') ∧
    hs s' = None ∧
    bytes (pcb s') = bytes (mkWire 0 []) ++ page_header (default_options lwip_agent) page_404 ++ pg_contents page_404.
Proof.
  apply (page_reaches_browser (site := pages_site) no_post refill (λ _, 0) 0 (default_options lwip_agent) demo_entries) with (uri := chars "/gone");
    try done.
  - apply default_usable; [by apply plain_decide|done].
  - exact demo_entries_ok.
  - apply (bool_decide_unpack _); vm_compute; exact I.
  - exact demo_built.
  - right. left.
  - apply AsksUnknown; [done|apply (bool_decide_unpack _); vm_compute; exact I|done].
  - apply refill_ready.
  - exact gone_get_request.
  - split; [done|]. split; [done|]. by right.
  - intros k Hk. left. apply absent_check; [done|]. assert (k = 1%nat) as -> by (cbn in Hk; lia). reflexivity.
Defined.

Lemma fsdata_is_the_directory_witness :
  ∃ text, main (lwip := plain_lwip) (λ _, 0) 0 (default_options lwip_agent) demo_entries = Ok (Some text) ∧
    compile text = Some (map (page_file (lwip := plain_lwip) (default_options lwip_agent)) (rev (pages_of [] (Dir [] demo_entries)))).
Proof.
  apply fsdata_is_the_directory; [apply default_usable; [by apply plain_decide|done]|exact demo_entries_ok].
Defined.
