(* ===== verification/Wifi.v ===== *)
(** The Wi-Fi networks that a scan finds (src/wifi_fns.cpp, inc/settings.h) and the document with them
    (src/post.cpp, wifi_nets_fn).

    The set is [etl::set], of the Embedded Template Library, with at most [MAX_WIFI_NETWORKS] elements in the order of
    the program's [operator<]: the class [NetSet]. *)
From Stdlib Require Import Sorted.
From S2P Require Import Prelude CString Settings.

Definition MAX_WIFI_NETWORKS : Z := 20.

(** What the program uses of a [cyw43_ev_scan_result_t]. *)
Record network := mkNet { n_ssid : list Z; n_bssid : list Z; n_rssi : Z; n_channel : Z; n_auth : Z }.

(** [memcmp] of as many bytes [< 0] *)
Fixpoint memcmp_lt (a b : list Z) : bool :=
  match a, b with
  | x :: a, y :: b => (x <? y) || ((x =? y) && memcmp_lt a b)
  | _, _ => false
  end.

(** [operator<] *)
Definition net_lt (m n : network) : Prop := memcmp_lt (n_bssid m) (n_bssid n) = true.

Class NetSet (S : Type) := {
  elements : S → list network;
  insert : network → S → S;
  full : S → bool;
  empty_set : S;
}.

Class NetSetOk (S : Type) `{NetSet S} := {
  elements_empty : elements empty_set = [];
  insert_old n s : (∃ m, m ∈ elements s ∧ n_bssid m = n_bssid n) → elements (insert n s) = elements s;
  insert_new n s : zlen (n_bssid n) = 6 → ¬ (∃ m, m ∈ elements s ∧ n_bssid m = n_bssid n) → full s = false →
    ∃ l1 l2, elements s = l1 ++ l2 ∧ elements (insert n s) = l1 ++ n :: l2 ∧
      Forall (λ m, ¬ net_lt n m) l1 ∧ Forall (λ m, ¬ net_lt m n) l2;
  full_ok s : full s = true ↔ MAX_WIFI_NETWORKS <= zlen (elements s);
}.

Definition wifi_scan_cb {S} `{NetSet S} (result : option network) (s : S) : S :=
  match result with Some n => if full s then s else insert n s | None => s end.

(** The callbacks of a scan, and of the scans before it: nothing empties the set. *)
Definition scan {S} `{NetSet S} (results : list (option network)) (s : S) : S := foldl (λ s r, wifi_scan_cb r s) s results.

(** ** The document *)

Definition hex_lower (d : Z) : Z := if d <? 10 then 48 + d else 87 + d.
Definition hex_byte_lower (b : Z) : list Z := [hex_lower (b / 16); hex_lower (b mod 16)].

(** The characters of ["%02x:%02x:%02x:%02x:%02x:%02x"]. *)
Definition bssid_chars (b : list Z) : list Z :=
  match map hex_byte_lower b with [] => [] | h :: t => h ++ concat (map (cons 58) t) end.

(** [junk]: the uninitialised array of the characters. *)
Definition wifi_net_to_json (junk : list Z) (n : network) : outcome json :=
  s ← c_str (n_ssid n);
  '(b, _) ← snprintf junk 18 (bssid_chars (n_bssid n));
  t ← c_str b;
  Ok (JObj [("ssid", JStr s); ("rssi", JNum (n_rssi n)); ("chann", JNum (n_channel n));
            ("auth_mode", JNum (n_auth n)); ("bssid", JStr t)])%string.

Definition wifi_nets_fn {S} `{NetSet S} (junk : list Z) (s : S) : outcome json :=
  l ← map_json (wifi_net_to_json junk) (elements s); Ok (JArr l).

(** ** What is listed *)

Lemma memcmp_lt_irrefl a : memcmp_lt a a = false.
Proof. induction a as [|x a IH]; cbn; [done|]. by rewrite Z.ltb_irrefl, Z.eqb_refl, IH. Qed.

Lemma memcmp_lt_total a b : length a = length b → a ≠ b → memcmp_lt a b = true ∨ memcmp_lt b a = true.
Proof.
  revert b. induction a as [|x a IH]; intros [|y b] Hl Hne; cbn in *; try done.
  destruct (Z.lt_trichotomy x y) as [H|[->|H]].
  - left. by rewrite (proj2 (Z.ltb_lt _ _)).
  - rewrite Z.ltb_irrefl, Z.eqb_refl. cbn. apply IH; [by injection Hl|congruence].
  - right. by rewrite (proj2 (Z.ltb_lt _ _)).
Qed.

(** The networks by their addresses: in order, each address once. *)
Definition by_address (l : list network) : Prop := StronglySorted net_lt l.

Definition addresses_ok (l : list network) : Prop := Forall (λ n, zlen (n_bssid n) = 6) l.

Section Scan.
Context {S : Type} {nets : NetSet S} {nets_ok : NetSetOk S}.

Lemma net_lt_other m n : zlen (n_bssid m) = 6 → zlen (n_bssid n) = 6 → n_bssid m ≠ n_bssid n → ¬ net_lt m n → net_lt n m.
Proof. intros Hm Hn Hne Hlt. destruct (memcmp_lt_total (n_bssid m) (n_bssid n)); [lia|done|done|done]. Qed.

Lemma net_lt_trans l m n : net_lt l m → net_lt m n → net_lt l n.
Proof.
  unfold net_lt. generalize (n_bssid l) (n_bssid m) (n_bssid n). induction l0 as [|x a IH]; intros [|y b] [|z c]; cbn; try done.
  rewrite !orb_true_iff, !andb_true_iff, !Z.ltb_lt, !Z.eqb_eq. intros [H1|[-> H1]] [H2|[-> H2]]; eauto; left; lia.
Qed.

Lemma insert_by_address n l1 l2 : by_address (l1 ++ l2) → addresses_ok (n :: l1 ++ l2) →
  ¬ (∃ m, m ∈ l1 ++ l2 ∧ n_bssid m = n_bssid n) → Forall (λ m, ¬ net_lt n m) l1 → Forall (λ m, ¬ net_lt m n) l2 →
  by_address (l1 ++ n :: l2).
Proof.
  intros Hs Ha Hno H1 H2. inversion Ha as [|? ? Hn Ha']; subst. rewrite Forall_forall in Ha'.
  assert (Hbefore : Forall (λ m, net_lt m n) l1).
  { rewrite Forall_forall in H1 |- *. intros m Hm. assert (Hin : m ∈ l1 ++ l2) by (apply elem_of_app; by left).
    apply net_lt_other; [done|by apply Ha'|intros E; apply Hno; by exists m|by apply H1]. }
  assert (Hafter : Forall (net_lt n) l2).
  { rewrite Forall_forall in H2 |- *. intros m Hm. assert (Hin : m ∈ l1 ++ l2) by (apply elem_of_app; by right).
    apply net_lt_other; [by apply Ha'|done|intros E; apply Hno; by exists m|by apply H2]. }
  clear -Hs Hbefore Hafter. induction l1 as [|m l1 IH]; cbn in *; [by constructor|].
  inversion Hs as [|? ? Hs' Hm]; subst. inversion Hbefore as [|? ? Hmn Hb']; subst. constructor; [by apply IH|].
  rewrite Forall_app in Hm |- *. destruct Hm. split; [done|]. constructor; [done|]. eapply Forall_impl; [exact Hafter|].
  intros x Hx. by eapply net_lt_trans.
Qed.

Lemma by_address_NoDup l : by_address l → NoDup l.
Proof.
  induction 1 as [|n l _ IH Hn]; constructor; [|done]. intros Hin. rewrite Forall_forall in Hn. specialize (Hn n Hin).
  unfold net_lt in Hn. by rewrite memcmp_lt_irrefl in Hn.
Qed.

(** The networks reported so far, the first report of an address first. *)
Definition reported (rs : list (option network)) (n : network) : Prop := Some n ∈ rs.

Lemma scan_invariant rs s : Forall (λ r, match r with Some n => zlen (n_bssid n) = 6 | None => True end) rs →
  by_address (elements s) → addresses_ok (elements s) → zlen (elements s) <= 20 →
  let l := elements (scan rs s) in
  by_address l ∧ addresses_ok l ∧ zlen l <= 20 ∧ (∀ n, n ∈ l → n ∈ elements s ∨ reported rs n) ∧ (∀ n, n ∈ elements s → n ∈ l) ∧
  (zlen l < 20 → ∀ n, reported rs n → ∃ m, m ∈ l ∧ n_bssid m = n_bssid n).
Proof.
  intros Hrs. revert s. induction Hrs as [|r rs Hr Hrs IH]; intros s Hs Ha Hl; cbn [scan foldl].
  { split; [done|]. split; [done|]. split; [done|]. split; [by left|]. split; [done|]. intros _ n Hn. by apply elem_of_nil in Hn. }
  assert (Hstep : let s1 := wifi_scan_cb r s in by_address (elements s1) ∧ addresses_ok (elements s1) ∧ zlen (elements s1) <= 20 ∧
    (∀ n, n ∈ elements s1 → n ∈ elements s ∨ r = Some n) ∧ (∀ n, n ∈ elements s → n ∈ elements s1) ∧
    (zlen (elements s1) < 20 → ∀ n, r = Some n → ∃ m, m ∈ elements s1 ∧ n_bssid m = n_bssid n)).
  { destruct r as [n|]; cbn [wifi_scan_cb].
    2: { cbv zeta. repeat (split; [by auto|]). done. }
    destruct (full s) eqn:Hf.
    { apply full_ok in Hf. unfold MAX_WIFI_NETWORKS in Hf. repeat (split; [by auto|]). lia. }
    assert (Hlt : zlen (elements s) < 20).
    { destruct (Z.ltb_spec (zlen (elements s)) 20); [done|]. assert (full s = true) by (by apply full_ok). congruence. }
    destruct (decide (Exists (λ m, n_bssid m = n_bssid n) (elements s))) as [He|He]; rewrite Exists_exists in He.
    - cbv zeta. rewrite insert_old by done. repeat (split; [by auto|]). by intros _ ? [= <-].
    - destruct (insert_new n s Hr He Hf) as (l1&l2&E&E'&H1&H2). cbv zeta. rewrite E'. rewrite E in *.
      assert (Hok : addresses_ok (n :: l1 ++ l2)) by (by constructor).
      split; [by apply insert_by_address|]. split; [|split; [lens|split; [|split]]].
      + unfold addresses_ok in *. rewrite Forall_cons, Forall_app in Hok. rewrite Forall_app, Forall_cons. tauto.
      + intros m. rewrite !elem_of_app, elem_of_cons. intros [Hm|[->|Hm]]; auto.
      + intros m. rewrite !elem_of_app, elem_of_cons. intros [Hm|Hm]; auto.
      + intros _ ? [= <-]. exists n. split; [|done]. rewrite elem_of_app, elem_of_cons. auto. }
  destruct Hstep as (Hs1&Ha1&Hl1&Hin1&Hold1&Hc1). destruct (IH (wifi_scan_cb r s) Hs1 Ha1 Hl1) as (H1&H2&H3&H4&H5&H6).
  split; [exact H1|]. split; [exact H2|]. split; [exact H3|]. split; [|split].
  - intros n Hn. destruct (H4 n Hn) as [Hn'|Hn']; [destruct (Hin1 n Hn') as [?| ->]; [by left|]|]; right; unfold reported; rewrite elem_of_cons; auto.
  - intros n Hn. apply H5, Hold1, Hn.
  - intros Hlt n Hn. unfold reported in Hn. rewrite elem_of_cons in Hn. destruct Hn as [<-|Hn]; [|by apply H6].
    destruct (Hc1) with n as (m&Hm&Em); [|done|exists m; split; [by apply H5|done]].
    destruct (Z.ltb_spec (zlen (elements (wifi_scan_cb (Some n) s))) 20); [done|]. exfalso.
    assert (Hnd : NoDup (elements (wifi_scan_cb (Some n) s))) by (by apply by_address_NoDup).
    assert (zlen (elements (wifi_scan_cb (Some n) s)) <= zlen (elements (scan rs (wifi_scan_cb (Some n) s))));
      [|unfold scan in *; lia]. apply inj_le. by apply submseteq_length, NoDup_submseteq.
Qed.

(** The list of networks.  After any number of scans it holds at most 20 networks, in the order of their addresses and
    each address once; each was found by a scan; and while it is shorter every network that was found is in it. *)
Theorem scan_lists_networks rs : Forall (λ r, match r with Some n => zlen (n_bssid n) = 6 | None => True end) rs →
  let l := elements (scan rs empty_set) in
  by_address l ∧ zlen l <= MAX_WIFI_NETWORKS ∧ (∀ n, n ∈ l → reported rs n) ∧
  (zlen l < MAX_WIFI_NETWORKS → ∀ n, reported rs n → ∃ m, m ∈ l ∧ n_bssid m = n_bssid n).
Proof.
  intros Hrs. destruct (scan_invariant rs empty_set Hrs) as (H1&_&H3&H4&_&H6);
    [rewrite elements_empty; constructor|rewrite elements_empty; constructor|by rewrite elements_empty|].
  split; [done|]. split; [done|]. split; [|done]. intros n Hn. destruct (H4 n Hn) as [Hn'|?]; [|done].
  rewrite elements_empty in Hn'. by apply elem_of_nil in Hn'.
Qed.
End Scan.

(** ** A set *)

(** The networks as they were inserted; [elements] puts them in order. *)
Fixpoint place (n : network) (l : list network) : list network :=
  match l with [] => [n] | m :: l => if memcmp_lt (n_bssid m) (n_bssid n) then m :: place n l else n :: m :: l end.

Definition add (l : list network) (n : network) : list network :=
  if decide (zlen (n_bssid n) = 6 ∧ ¬ Exists (λ m, n_bssid m = n_bssid n) l ∧ zlen l < 20) then place n l else l.

#[export] Instance list_nets : NetSet (list network) := {|
  elements s := foldl add [] s; insert n s := s ++ [n]; full s := 20 <=? zlen (foldl add [] s); empty_set := [] |}.

Lemma place_split n l : by_address l → ∃ l1 l2, l = l1 ++ l2 ∧ place n l = l1 ++ n :: l2 ∧
  Forall (λ m, net_lt m n) l1 ∧ Forall (λ m, ¬ net_lt m n) l2.
Proof.
  induction 1 as [|m l Hs IH Hm]; cbn [place]; [by exists [], []|].
  destruct (memcmp_lt (n_bssid m) (n_bssid n)) eqn:E.
  - destruct IH as (l1&l2&->&->&H1&H2). exists (m :: l1), l2. split; [done|]. split; [done|]. split; [by constructor|done].
  - exists [], (m :: l). split; [done|]. split; [done|]. split; [done|]. constructor; [unfold net_lt; by rewrite E|].
    eapply Forall_impl; [exact Hm|]. intros x Hx Hxn. enough (net_lt m n) by (unfold net_lt in *; congruence). by eapply net_lt_trans.
Qed.

Lemma net_lt_asym m n : net_lt m n → ¬ net_lt n m.
Proof. intros H1 H2. pose proof (net_lt_trans _ _ _ H1 H2) as H. unfold net_lt in H. by rewrite memcmp_lt_irrefl in H. Qed.

Lemma add_new n l : by_address l → addresses_ok l → zlen (n_bssid n) = 6 → ¬ (∃ m, m ∈ l ∧ n_bssid m = n_bssid n) → zlen l < 20 →
  ∃ l1 l2, l = l1 ++ l2 ∧ add l n = l1 ++ n :: l2 ∧ Forall (λ m, ¬ net_lt n m) l1 ∧ Forall (λ m, ¬ net_lt m n) l2.
Proof.
  intros Hs Ha Hn Hno Hl. unfold add. rewrite decide_True by (split; [done|split; [by rewrite Exists_exists|done]]).
  destruct (place_split n l Hs) as (l1&l2&E&E'&H1&H2). exists l1, l2. split; [done|]. split; [done|]. split; [|done].
  eapply Forall_impl; [exact H1|]. intros m Hm. by apply net_lt_asym.
Qed.

Lemma elements_ok (s : list network) : by_address (elements s) ∧ addresses_ok (elements s).
Proof.
  cbn [elements list_nets]. induction s as [|n s IH] using rev_ind; [by repeat constructor|].
  rewrite foldl_app. cbn [foldl]. set (l := foldl add [] s) in *. destruct IH as [Hs Ha].
  destruct (decide (zlen (n_bssid n) = 6 ∧ ¬ Exists (λ m, n_bssid m = n_bssid n) l ∧ zlen l < 20)) as [(Hn&Hno&Hl)|H].
  - rewrite Exists_exists in Hno. destruct (add_new n l Hs Ha Hn Hno Hl) as (l1&l2&E&->&H1&H2). rewrite E in *.
    assert (Hok : addresses_ok (n :: l1 ++ l2)) by (by constructor). split; [by apply insert_by_address|].
    unfold addresses_ok in *. rewrite Forall_cons, Forall_app in Hok. rewrite Forall_app, Forall_cons. tauto.
  - unfold add. by rewrite decide_False.
Qed.

#[export] Instance list_nets_ok : NetSetOk (list network).
Proof.
  split.
  - done.
  - intros n s He. cbn [elements insert list_nets]. rewrite foldl_app. cbn [foldl]. unfold add at 1.
    rewrite decide_False; [done|]. intros (_&Hno&_). by rewrite Exists_exists in Hno.
  - intros n s Hn Hno Hf. cbn [elements insert list_nets]. rewrite foldl_app. cbn [foldl].
    destruct (elements_ok s) as [Hs Ha]. apply (add_new n _ Hs Ha Hn Hno). cbn [full list_nets] in Hf. by apply Z.leb_gt in Hf.
  - intros s. cbn [full elements list_nets]. apply Z.leb_le.
Qed.

Definition demo_net (a : Z) (rssi : Z) : network := mkNet (literal (chars "home")) [2; 0; 0; 0; 0; a] rssi 6 5.

Lemma scan_lists_networks_witness :
  elements (scan [Some (demo_net 9 (-40)); None; Some (demo_net 3 (-70)); Some (demo_net 9 (-90))] ([] : list network))
    = [demo_net 3 (-70); demo_net 9 (-40)] ∧
  by_address (elements (scan [Some (demo_net 9 (-40)); None; Some (demo_net 3 (-70)); Some (demo_net 9 (-90))] ([] : list network))).
Proof.
  split; [vm_compute; reflexivity|].
  destruct (scan_lists_networks (S := list network) [Some (demo_net 9 (-40)); None; Some (demo_net 3 (-70)); Some (demo_net 9 (-90))]) as [H _].
  - by repeat constructor.
  - exact H.
Defined.
