(* ===== verification/WebHandlers.v ===== *)
(** The handlers of the web interface behind the HTTP server (src/post.cpp, httpd_process_post_data): which handler an
    address gets, what a request can change without the password, and a settings form on its way from the network into
    the flash. *)
From Stdlib Require Import Floats.SpecFloat DecimalString.
From S2P Require Import Prelude CString StateMonad Sensor Settings SettingsStore Post SettingsForm Wifi.
From S2P Require Import Http HttpLwip HttpRequest HttpSend HttpGet HttpPost.

Section Web.
Context {J F S : Type} {doc : JsonDoc J} {flash : Flash F} {layout : Layout} {modes : AuthModes} {nets : NetSet S}.
Context {lwip : Lwip} {site : Site}.
(** [atof]; the text ArduinoJson makes of a document; the hardware; the uninitialised rest of the union of the settings. *)
Context (atof : list Z → spec_float) (serializeJson : json → list Z) (hw : hardware) (junk : list Z).

(** What the handlers share: the flash and the rest of the device, and the networks. *)
Record web := mkWeb { device : env (F := F); networks : S }.

Definition on_device {A} (m : ST (env (F := F)) A) : ST web A := λ w,
  match m (device w) with Ok (a, e) => Ok (a, mkWeb e (networks w)) | Ub => Ub | OutOfFuel => OutOfFuel end.

(** A document without members is [null]. *)
Definition save_document (r : Post.response) : json := match r with [] => JNull | _ => JObj r end.

Definition settings_save (body : list Z) : ST web json :=
  r ← on_device (settings_save_fn atof ip4addr_aton initial_config junk body); mret (save_document r).

Definition wifi_nets (body : list Z) : ST web json :=
  w ← gets networks; lift (wifi_nets_fn (take 18 junk) w).

(** [wifi_nets_scan_fn]: the scan is begun, its results come later. *)
Definition wifi_nets_scan (body : list Z) : ST web json :=
  on_device (emit (ScanNetworks false));; wifi_nets body.

Definition post_handlers : list (list Z * (list Z → ST web json)) :=
  [(chars "/settings_get.cgi", λ _, on_device (settings_get_fn initial_config hw));
   (chars "/settings_save.cgi", settings_save);
   (chars "/wifi_nets.cgi", wifi_nets);
   (chars "/wifi_nets_scan.cgi", wifi_nets_scan);
   (chars "/restart.cgi", λ _, on_device restart_fn)].

(** The first handler whose name the address begins with. *)
Fixpoint find_handler (l : list (list Z * (list Z → ST web json))) (uri : list Z) : outcome (option (list Z → ST web json)) :=
  match l with
  | [] => Ok None
  | (name, f) :: l => same ← strncmp_eq (length name) uri (literal name); if same : bool then Ok (Some f) else find_handler l uri
  end.

Definition httpd_process_post_data (uri body : list Z) (w : web) : outcome (option (list Z) * web) :=
  f ← find_handler post_handlers uri;
  match f with
  | Some f => '(j, w) ← f body w; Ok (Some (serializeJson j), w)
  | None => Ok (None, w)
  end.

(** ** The address *)

Lemma strncmp_prefix name s r : no_nul name → (length name ≤ length s)%nat →
  strncmp_eq (length name) s (name ++ r) = Ok (is_prefix name s).
Proof.
  intros Hz. revert s. induction Hz as [|x name Hx Hz IH]; intros s Hl; [by destruct s|].
  destruct s as [|y s]; [cbn in Hl; lia|]. cbn [length strncmp_eq app is_prefix].
  destruct (Z.eqb_spec y x) as [->|Hne]; cbn [negb].
  - rewrite (proj2 (Z.eqb_neq _ _)) by done. rewrite Z.eqb_refl. apply IH. cbn in Hl. lia.
  - by rewrite (proj2 (Z.eqb_neq _ _)) by congruence.
Qed.

Lemma strncpy_post_uri uri : length (strncpy uri POST_URI_SIZE) = 128%nat.
Proof. unfold strncpy, POST_URI_SIZE. change (Z.to_nat 128) with 128%nat. lens. Qed.

(** The addresses of the handlers, and what follows them. *)
Lemma find_handler_spec uri : find_handler post_handlers (strncpy uri POST_URI_SIZE) =
  Ok (fst <$> head (filter (λ x, is_prefix (snd x) (strncpy uri POST_URI_SIZE) = true) (map (λ '(n, f), (f, n)) post_handlers))).
Proof.
  assert (H : ∀ l : list (list Z * (list Z → ST web json)), Forall (λ x, no_nul (fst x) ∧ (length (fst x) ≤ 128)%nat) l →
    find_handler l (strncpy uri POST_URI_SIZE) =
    Ok (fst <$> head (filter (λ x, is_prefix (snd x) (strncpy uri POST_URI_SIZE) = true) (map (λ '(n, f), (f, n)) l)))).
  { induction 1 as [|[name f] l [Hz Hl] _ IH]; [done|]. cbn [find_handler map fst] in *. unfold literal.
    rewrite strncmp_prefix by (done || rewrite strncpy_post_uri; lia). cbn [mbind outcome_bind].
    rewrite filter_cons. cbn [snd]. destruct (is_prefix name (strncpy uri POST_URI_SIZE)) eqn:E.
    - by rewrite decide_True.
    - rewrite decide_False by congruence. exact IH. }
  apply H. repeat (apply List.Forall_cons); try done; (split; [nn|cbn; lia]).
Qed.

Lemma settings_save_handler uri : is_prefix (chars "/settings_save.cgi") (strncpy uri POST_URI_SIZE) = true →
  find_handler post_handlers (strncpy uri POST_URI_SIZE) = Ok (Some settings_save).
Proof.
  intros H. rewrite find_handler_spec. apply is_prefix_spec in H as [r Hr]. rewrite Hr. reflexivity.
Qed.
Lemma settings_save_run uri body w r e : is_prefix (chars "/settings_save.cgi") (strncpy uri POST_URI_SIZE) = true →
  settings_save_fn atof ip4addr_aton initial_config junk body (device w) = Ok (r, e) →
  httpd_process_post_data (strncpy uri POST_URI_SIZE) body w = Ok (Some (serializeJson (save_document r)), mkWeb e (networks w)).
Proof.
  intros Hp E. unfold httpd_process_post_data. rewrite settings_save_handler by done. cbn [mbind outcome_bind].
  unfold settings_save, on_device, mbind, st_bind. by rewrite E.
Qed.

(** ** Who changes what *)

(** The request is for [settings_save_fn] and holds the password [p]. *)
Definition holds_password (address body p : list Z) : Prop :=
  is_prefix (chars "/settings_save.cgi") address = true ∧
  ∃ d, deserializeJson body = Some d ∧ as_cstr (form_password d) = Some p.

(** What anybody can bring about: a scan for networks, and the restart. *)
Definition open_to_all (address : list Z) (es : list event) : Prop :=
  es = [] ∨ (is_prefix (chars "/wifi_nets_scan.cgi") address = true ∧ es = [ScanNetworks false]) ∨
  (is_prefix (chars "/restart.cgi") address = true ∧ es = [WatchdogReboot 1000; SuspendFeedWdTask]).

(** What a request does to the device. *)
Definition allowed (address body p : list Z) (w w' : web) : Prop :=
  networks w' = networks w ∧
  (holds_password address body p ∨
   fl (device w') = fl (device w) ∧ mqtt_reconnect (device w') = mqtt_reconnect (device w) ∧
   ∃ es, events (device w') = events (device w) ++ es ∧ open_to_all address es).

Lemma allowed_events address body p w e es : fl e = fl (device w) → mqtt_reconnect e = mqtt_reconnect (device w) →
  events e = events (device w) ++ es → open_to_all address es → allowed address body p w (mkWeb e (networks w)).
Proof. intros. split; [done|]. right. split; [done|]. split; [done|]. by exists es. Qed.

Lemma allowed_same address body p w : allowed address body p w w.
Proof. destruct w as [e n]. apply (allowed_events _ _ _ (mkWeb e n) e []); cbn; [done|done|by rewrite app_nil_r|by left]. Qed.

Lemma on_device_inv {A} (m : ST (env (F := F)) A) w a w' :
  on_device m w = Ok (a, w') → ∃ e, m (device w) = Ok (a, e) ∧ w' = mkWeb e (networks w).
Proof. unfold on_device. destruct (m (device w)) as [[b e]| |]; [|done|done]. intros [= -> <-]. by exists e. Qed.

Lemma wifi_nets_inv body w j w' : wifi_nets body w = Ok (j, w') → w' = w.
Proof.
  unfold wifi_nets. intros E. apply st_bind_inv in E as (n & w1 & [= <- <-] & E). by apply lift_inv in E as [_ ->].
Qed.

Lemma settings_get_keeps ic s j s' : settings_get_fn ic hw s = Ok (j, s') → s' = s.
Proof.
  unfold settings_get_fn. intros E. apply st_bind_inv in E as (c & s1 & [= <- <-] & E).
  apply st_bind_inv in E as (x & s1 & [_ ->]%lift_inv & E). by injection E as _ <-.
Qed.

(** The handler of an address is one of the five, and its name begins the address. *)
Lemma handler_inv uri (P : (list Z → ST web json) → Prop) f :
  find_handler post_handlers (strncpy uri POST_URI_SIZE) = Ok (Some f) →
  Forall (λ x, is_prefix x.1 (strncpy uri POST_URI_SIZE) = true → P x.2) post_handlers → P f.
Proof.
  rewrite find_handler_spec. generalize post_handlers as l. intros l [= E] HP. apply fmap_Some in E as ([g n] & E & ->). apply head_Some_elem_of in E.
  apply list_elem_of_filter in E as [Hn E]. apply list_elem_of_In, in_map_iff in E as ([n' g'] & [= -> ->] & E%list_elem_of_In).
  rewrite Forall_forall in HP. exact (HP _ E Hn).
Qed.

Lemma handler_allowed {doc_ok : JsonDocOk J} uri f body w p j w' :
  initial_config = false → c_str (password (get_client_mode_settings (fl (device w)))) = Ok p →
  find_handler post_handlers (strncpy uri POST_URI_SIZE) = Ok (Some f) → f body w = Ok (j, w') →
  allowed (strncpy uri POST_URI_SIZE) body p w w'.
Proof.
  intros Hi Hp E. revert j w'. pattern f. apply (handler_inv uri _ _ E).
  repeat (apply List.Forall_cons); [..|done]; cbn [fst snd]; intros Hn j w' Ef.
  - apply on_device_inv in Ef as (e & Ee%settings_get_keeps & ->). subst e. destruct w. apply allowed_same.
  - unfold settings_save in Ef. apply st_bind_inv in Ef as (r & w2 & Ef & [= _ <-]).
    apply on_device_inv in Ef as (e & Ee & ->).
    destruct (save_checks_password _ _ _ _ _ _ _ _ _ Hi Hp Ee) as [->|Hd]; [destruct w; apply allowed_same|].
    split; [done|]. left. by split.
  - apply wifi_nets_inv in Ef as ->. apply allowed_same.
  - unfold wifi_nets_scan in Ef. apply st_bind_inv in Ef as ([] & w2 & Ef & ->%wifi_nets_inv).
    apply on_device_inv in Ef as (e & [= <-] & ->). eapply allowed_events; [done|done|done|]. right. by left.
  - apply on_device_inv in Ef as (e & [= _ <-] & ->).
    eapply (allowed_events _ _ _ _ _ ([WatchdogReboot 1000] ++ [SuspendFeedWdTask])); [done|done|symmetry; apply app_assoc|].
    right. by right.
Qed.

(** C23: what a request can do without the password.  In normal operation, a POST request to any address, with any body,
    that is handled without undefined behaviour leaves the flash and the flag of the MQTT client as they are, unless it is for [settings_save_fn] and
    its document holds the password stored in flash (which has an end); and all it sets off without the password is the
    scan for networks (/wifi_nets_scan.cgi) or the restart (/restart.cgi, for which no password is asked). *)
Theorem changes_need_password {doc_ok : JsonDocOk J} uri body w a w' p :
  initial_config = false → c_str (password (get_client_mode_settings (fl (device w)))) = Ok p →
  httpd_process_post_data (strncpy uri POST_URI_SIZE) body w = Ok (a, w') →
  networks w' = networks w ∧
  (holds_password (strncpy uri POST_URI_SIZE) body p ∨
   fl (device w') = fl (device w) ∧ mqtt_reconnect (device w') = mqtt_reconnect (device w) ∧
   ∃ es, events (device w') = events (device w) ++ es ∧ open_to_all (strncpy uri POST_URI_SIZE) es).
Proof.
  intros Hi Hp. unfold httpd_process_post_data. destruct (find_handler _ _) as [[f|]| |] eqn:E; cbn [mbind outcome_bind]; [..|done|done].
  - destruct (f body w) as [[j w1]| |] eqn:Ef; [|done|done]. intros [= _ <-]. by eapply handler_allowed.
  - intros [= _ <-]. apply allowed_same.
Qed.
End Web.

(** ** A form from the network into the flash *)

Section Save.
Context {J F S T : Type} {doc : JsonDoc J} {doc_ok : JsonDocOk J} {flash : Flash F} {flash_ok : FlashOk F}.
Context {layout : Layout} {layout_ok : LayoutOk} {modes : AuthModes} {nets : NetSet S}.
Context {tcp : Tcp T} {tcp_ok : TcpOk T} {lwip : Lwip} {lwip_ok : LwipOk} {site : Site}.
Context (atof : list Z → spec_float) (serializeJson : json → list Z) (hw : hardware) (junk : list Z).
Context (atof_float : ∀ s, is_float (atof s)) (aton_u32 : ∀ s a, ip4addr_aton s = Some a → is_u32 a).

Abbreviation process := (httpd_process_post_data atof serializeJson hw junk).
Abbreviation settings w := (get_client_mode_settings (fl (device w))).

(** A settings form of somebody who may save, posted to the server in any segmentation: what [settings_save_fn] does with
    it has been done when the answer begins. *)
Lemma form_is_saved n d b ps form g0 t : let old := settings g0 in
  for_us d → zlen (fresh n) = n → n < 1000000000 →
  post_header (chars "/settings_save.cgi") n d → zlen (d ++ b) < 65536 → Forall (λ p, 0 < zlen p < 65536) ps →
  zlen (b ++ concat ps) = n → typed old → padding junk → flash_safe (fl (device g0)) = true →
  deserializeJson (b ++ concat ps) = Some form → complete_form initial_config form = true →
  authorised initial_config form (password old) = true →
  (∀ new, form_settings atof ip4addr_aton form old new → zlen (serializeJson (JObj (save_answer old new))) < 65536) →
  ∃ s1, let new := settings (glob s1) in
    recv_all process ((d ++ b) :: ps) (http_accept t g0) = (http_send process;; mret tt) s1 ∧
    sends_answer (Some (serializeJson (JObj (save_answer old new)))) t (glob s1) s1 ∧
    form_settings atof ip4addr_aton form old new ∧ form_new_password initial_config form (password old) (password new) ∧ typed new ∧
    events (device (glob s1)) = events (device g0) ++ save_events old new.
Proof.
  intros old Hic Hfresh Hn Hph Hlen Hall Hbody Ho Hj Hsafe Hd Hc Ha Hshort.
  pose proof (save_stores atof ip4addr_aton initial_config atof_float aton_u32 junk (b ++ concat ps) (device g0) form Ho Hj Hd) as H.
  cbv zeta in H. fold old in H. rewrite Hc, Ha in H. destruct H as (new&e&E&Hf&Hpw&Ht&En&_&_&Hev). fold old in E, Hf, Hpw, Hev. rewrite Hsafe in En.
  assert (Edoc : save_document (save_answer old new) = JObj (save_answer old new)) by (unfold save_answer; by case_decide).
  destruct (post_handled process (chars "/settings_save.cgi") n d b ps (Some (serializeJson (JObj (save_answer old new)))) g0 (mkWeb e (networks g0)) t)
    as (s1&E1&Hs1); [done..| |by apply Hshort|].
  - rewrite <- Edoc. apply settings_save_run; [by vm_compute|exact E].
  - exists s1. assert (Eg : glob s1 = mkWeb e (networks g0)) by apply Hs1. cbv zeta. rewrite Eg. cbn [device]. by rewrite En.
Qed.

(** C4: From the browser to the flash.  The settings form of somebody who may save, posted to the server in any segmentation,
    is decoded, checked and written into a flash that can be written: when the server begins its answer, the settings in flash
    are those of the form, and the answer tells whether the device restarts for them, which it then does.  Of the text that
    ArduinoJson makes of a document only the two answers to a save are bounded, by the length the server can send. *)
Theorem posted_form_is_stored n d b ps form g0 t : let old := settings g0 in
  for_us d → zlen (fresh n) = n → n < 1000000000 →
  post_header (chars "/settings_save.cgi") n d → zlen (d ++ b) < 65536 → Forall (λ p, 0 < zlen p < 65536) ps →
  zlen (b ++ concat ps) = n → typed old → padding junk → flash_safe (fl (device g0)) = true →
  deserializeJson (b ++ concat ps) = Some form → complete_form initial_config form = true →
  authorised initial_config form (password old) = true →
  zlen (serializeJson (JObj saved_response)) < 65536 → zlen (serializeJson (JObj reboot_response)) < 65536 →
  ∃ s1, let new := settings (glob s1) in
    recv_all (httpd_process_post_data atof serializeJson hw junk) ((d ++ b) :: ps) (http_accept t g0) =
      (http_send (httpd_process_post_data atof serializeJson hw junk);; mret tt) s1 ∧
    sends_answer (Some (serializeJson (JObj (save_answer old new)))) t (glob s1) s1 ∧
    form_settings atof ip4addr_aton form old new ∧ form_new_password initial_config form (password old) (password new) ∧ typed new ∧
    events (device (glob s1)) = events (device g0) ++ save_events old new.
Proof.
  intros old ? ? ? ? ? ? ? ? ? ? ? ? ? ? ?.
  apply (form_is_saved n d b ps form g0 t); [done..|]. intros new _. unfold save_answer. by case_decide.
Qed.
End Save.

(** ** An example *)

Definition demo_web : web (F := Z → Z) (S := list network) := mkWeb demo_env empty_set.

(** A serializer: decimal numbers, a float with its exact value, and the characters below the space, the quotation mark
    and the backslash of a text escaped. *)
Definition int_text (n : Z) : list Z := chars (NilEmpty.string_of_int (Z.to_int n)).
Definition float_text (f : spec_float) : list Z :=
  match f with
  | S754_zero _ => int_text 0
  | S754_finite neg m e =>
      let m := if neg then Z.neg m else Z.pos m in
      if 0 <=? e then int_text (m * 2 ^ e) else int_text (m * 5 ^ (- e)) ++ chars "e" ++ int_text e
  | _ => chars "null"
  end.
Definition escaped (c : Z) : list Z :=
  if bool_decide (c ∈ [34; 92]) then [92; c] else if c <? 32 then [92] ++ chars "u00" ++ hex_byte c else [c].
Definition quoted (s : list Z) : list Z := [34] ++ concat (map escaped s) ++ [34].
Definition listed (open close : Z) (l : list (list Z)) : list Z :=
  [open] ++ match l with [] => [] | x :: l => x ++ concat (map (cons 44) l) end ++ [close].

Fixpoint demo_json (j : json) : list Z :=
  match j with
  | JNull => chars "null"
  | JBool b => if b then chars "true" else chars "false"
  | JNum n => int_text n
  | JFloat f => float_text f
  | JStr s => quoted s
  | JArr l => listed 91 93 (map demo_json l)
  | JObj l => listed 123 125 (map (λ '(k, v), quoted (chars k) ++ [58] ++ demo_json v) l)
  end.

Example demo_json_reboot : demo_json (JObj reboot_response) = [123; 34] ++ chars "OK" ++ [34; 58; 34] ++ chars "Rebooting" ++ [34; 125].
Proof. reflexivity. Qed.
Example demo_json_float : demo_json (JArr [JFloat (f32_of_int 3); JNum (-5); JNull]) = chars "[30000000000000000000000e-22,-5,null]".
Proof. vm_compute. reflexivity. Qed.

Lemma demo_save_header : post_header (chars "/settings_save.cgi") 2 (demo_header (chars "/settings_save.cgi") "2").
Proof.
  split; [decided|]. split; [by eexists (chars "HTTP/1.0" ++ cr_lf ++ chars "Host: me" ++ cr_lf ++ HTTP_HDR_CONTENT_LENGTH ++ chars "2" ++ CRLFCRLF)|].
  split; [decided|]. split; [exists 34, 42; split_and!; decided|]. split; [done|]. split; [decided|].
  split; [apply absent_below; vm_compute; reflexivity|].
  exists 44, (chars "2"). split; [done|]. split; [decided|]. split; [done|].
  split; [|split; [decided|done]]. intros j Hj. apply (absent_below _ _ 44); [vm_compute; reflexivity|apply Hj].
Qed.

Lemma demo_aton_u32 s a : ip4addr_aton s = Some a → is_u32 a.
Proof. done. Qed.

Lemma posted_form_is_stored_witness : let process := httpd_process_post_data (site := demo_site false) (J := json) demo_atof demo_json demo_hw demo_junk in
  ∃ s1, recv_all (site := demo_site false) process
      ((demo_header (chars "/settings_save.cgi") "2" ++ chars "{") :: [chars "}"]) (http_accept (mkWire 5 []) demo_web)
    = (http_send process;; mret tt) s1 ∧
    sends_answer (Some (demo_json (JObj reboot_response))) (mkWire 5 []) (glob s1) s1 ∧
    form_settings (J := json) demo_atof ip4addr_aton demo_form demo_stored (get_client_mode_settings (fl (device (glob s1)))) ∧
    events (device (glob s1)) = [WatchdogReboot 1000; SuspendFeedWdTask].
Proof.
  intros process.
  destruct (posted_form_is_stored (site := demo_site false) (J := json) demo_atof demo_json demo_hw demo_junk demo_float demo_aton_u32 2
    (demo_header (chars "/settings_save.cgi") "2") (chars "{") [chars "}"] demo_form demo_web (mkWire 5 [])) as (s1 & E & Hs & Hf & _ & _ & Hev).
  - done.
  - done.
  - done.
  - exact demo_save_header.
  - done.
  - by repeat constructor.
  - done.
  - exact demo_env_typed.
  - exact demo_padding.
  - done.
  - done.
  - by vm_compute.
  - exact demo_authorised.
  - by vm_compute.
  - by vm_compute.
  - cbn [device demo_web] in Hs, Hf, Hev. rewrite demo_env_settings in Hs, Hf, Hev.
    rewrite (demo_new_answer _ Hf) in Hs. rewrite (demo_new_events _ Hf) in Hev. exists s1. split; [exact E|]. split; [exact Hs|]. split; [exact Hf|exact Hev].
Defined.

(** Somebody with the password saves the form; anybody restarts the device. *)
Lemma changes_need_password_witness : let process := httpd_process_post_data (site := demo_site false) (J := json) demo_atof demo_json demo_hw demo_junk in
  (∃ a w', process (strncpy (chars "/settings_save.cgi") POST_URI_SIZE) [123; 125] demo_web = Ok (a, w') ∧
     events (device w') = [WatchdogReboot 1000; SuspendFeedWdTask] ∧
     holds_password (J := json) (strncpy (chars "/settings_save.cgi") POST_URI_SIZE) [123; 125] (chars "1234")) ∧
  ∃ a w', process (strncpy (chars "/restart.cgi") POST_URI_SIZE) [] demo_web = Ok (a, w') ∧ fl (device w') = fl demo_env.
Proof.
  intros process.
  assert (Hp : c_str (password (get_client_mode_settings (fl (device demo_web)))) = Ok (chars "1234"))
    by (cbn [device demo_web]; rewrite demo_env_settings; by vm_compute).
  pose proof (changes_need_password (site := demo_site false) (J := json) demo_atof demo_json demo_hw demo_junk) as H. split.
  - pose proof (save_stores (J := json) demo_atof ip4addr_aton false demo_float demo_aton_u32 demo_junk [123; 125] demo_env demo_form
      demo_env_typed demo_padding eq_refl) as Hsave.
    assert (complete_form (J := json) false demo_form = true) as Hc by (vm_compute; reflexivity).
    rewrite Hc, demo_authorised in Hsave. destruct Hsave as (new & e & E & Hf & _ & _ & _ & _ & _ & Hev).
    rewrite demo_env_settings in Hf, Hev. rewrite (demo_new_events _ Hf) in Hev.
    pose proof (settings_save_run (site := demo_site false) (J := json) demo_atof demo_json demo_hw demo_junk
      (chars "/settings_save.cgi") [123; 125] demo_web _ _ eq_refl E) as E'.
    eexists _, _. split; [exact E'|]. split; [exact Hev|].
    destruct (H _ _ _ _ _ _ eq_refl Hp E') as (_ & [Hh|(_ & _ & es & Hes & Ho)]); [exact Hh|].
    cbn [device] in Hes. rewrite Hev in Hes. exfalso. cbn [device demo_web demo_env events app] in Hes. subst es.
    destruct Ho as [Ho|[[Ho _]|[Ho _]]]; [done|by vm_compute in Ho..].
  - eexists _, _. assert (E : process (strncpy (chars "/restart.cgi") POST_URI_SIZE) [] demo_web =
      Ok (Some (demo_json (JObj [])), mkWeb (mkEnv (fl demo_env) false [WatchdogReboot 1000; SuspendFeedWdTask]) empty_set)) by reflexivity.
    split; [exact E|].
    destruct (H _ _ _ _ _ _ eq_refl Hp E) as (_ & [[Ho _]|(Hfl & _)]); [by vm_compute in Ho|exact Hfl].
Defined.
