(* ===== verification/Ip4.v ===== *)
(** The patched IPv4 layer (lwip_patch/ip4.c): routing, input and output of packets, and the secondary address that the
    patch adds so that the device answers for another router.

    The options of inc/lwipopts.h hold, with the defaults of lwIP for the others: several interfaces, no forwarding, no
    IGMP, no loopback, DHCP, raw PCBs, ICMP, reassembly and fragmentation, the checksum of the header generated inline.
    A chain of pbufs is the list of their payloads, an address the [u32_t] of its four bytes in memory (the first is
    the low one), the fields of a header stand where RFC 791 puts them.  Reference counts, statistics and debug output
    are left out. *)
From S2P Require Import Prelude StateMonad.

(** ** Interfaces and what the layer calls *)

Record netif := mkNetif {
  netif_num : Z; ip_addr : Z; netmask : Z; gw : Z; is_up : bool; is_link_up : bool; flag_broadcast : bool; mtu : Z }.

Inductive raw_input_state := RAW_INPUT_NONE | RAW_INPUT_EATEN | RAW_INPUT_DELIVERED.

(** [ip_data]: the globals that say which packet is being processed. *)
Record ip_globals := mkIpData {
  current_netif : option netif; current_input_netif : option netif; current_ip4_header : option (list Z);
  current_ip_header_tot_len : Z; current_iphdr_src : Z; current_iphdr_dest : Z }.

Abbreviation pbuf := (list (list Z)).

(** The functions and macros of lwIP.  [W]: the state of the layers above and below. *)
Class Lwip4 (W : Type) := {
  ip4_addr_ismulticast : Z → bool;
  ip4_addr_isloopback : Z → bool;
  ip4_addr_isbroadcast : Z → netif → bool;
  ip4_addr_net_eq : Z → Z → Z → bool;
  inet_chksum : list Z → Z;
  pbuf_realloc : pbuf → Z → pbuf;
  pbuf_remove_header : pbuf → Z → pbuf;
  pbuf_header_force : pbuf → Z → pbuf;
  pbuf_add_header : pbuf → Z → W → option pbuf * W;
  ip4_reass : pbuf → W → option pbuf * W;
  ip4_frag : pbuf → netif → Z → W → Z * W;
  netif_output : netif → pbuf → Z → W → Z * W;
  raw_input : ip_globals → pbuf → netif → W → raw_input_state * W;
  udp_input : ip_globals → pbuf → netif → W → W;
  tcp_input : ip_globals → pbuf → netif → W → W;
  icmp_input : ip_globals → pbuf → netif → W → W;
  icmp_dest_unreach : ip_globals → pbuf → W → W;
}.

Definition IP_HLEN : Z := 20.
Definition IP_OFFMASK : Z := 0x1fff.
Definition IP_MF : Z := 0x2000.
Definition IP_PROTO_ICMP : Z := 1.
Definition IP_PROTO_UDP : Z := 17.
Definition IP_PROTO_TCP : Z := 6.
Definition LWIP_IANA_PORT_DHCP_CLIENT : Z := 68.
Definition ERR_OK : Z := 0.
Definition ERR_BUF : Z := -2.
Definition ERR_RTE : Z := -4.

Definition tot_len (p : pbuf) : Z := u16 (zlen (concat p)).
(** What [p->payload] points to. *)
Definition first (p : pbuf) : list Z := match p with l :: _ => l | [] => [] end.

(** The value of bytes in memory: a 16-bit number in network order, an address. *)
Definition rd16 (b : list Z) (i : Z) : outcome Z := x ← rd b i; y ← rd b (i + 1); Ok (be16 x y).
Definition le16 (a b : Z) : Z := a + 256 * b.
Definition addr_of (l : list Z) : Z :=
  le16 (nth 0 l 0) (nth 1 l 0) + 65536 * le16 (nth 2 l 0) (nth 3 l 0).
Definition rd_addr (b : list Z) (i : Z) : outcome Z := l ← rd_n b i 4; Ok (addr_of l).
Definition addr_bytes (a : Z) : list Z := [a mod 256; a / 256 mod 256; a / 65536 mod 256; a / 16777216 mod 256].
(** [lwip_htons], on a little-endian machine. *)
Definition htons (x : Z) : Z := le16 (x / 256 mod 256) (x mod 256).
Definition mem16 (x : Z) : list Z := [x mod 256; x / 256 mod 256].

Section Ip4.
Context {W : Type} {lwip : Lwip4 W}.

Record ip_layer := mkIp {
  ip_id : Z; ip4_secondary_ip_address : Z; netif_list : list netif; netif_default : option netif;
  ip_data : ip_globals; world : W }.

Definition set_ip_data (f : ip_globals → ip_globals) : ST ip_layer unit := modify (λ s,
  mkIp (ip_id s) (ip4_secondary_ip_address s) (netif_list s) (netif_default s) (f (ip_data s)) (world s)).
Definition call {A} (f : W → A * W) : ST ip_layer A := λ s,
  let '(a, w) := f (world s) in
  Ok (a, mkIp (ip_id s) (ip4_secondary_ip_address s) (netif_list s) (netif_default s) (ip_data s) w).
Definition set_ip_id (n : Z) : ST ip_layer unit := modify (λ s,
  mkIp n (ip4_secondary_ip_address s) (netif_list s) (netif_default s) (ip_data s) (world s)).

(** ** Routing *)

(** [ip4_route]: the test of an interface. *)
Definition route_matches (dest : Z) (n : netif) : bool :=
  is_up n && is_link_up n && negb (ip_addr n =? 0) &&
  (ip4_addr_net_eq dest (ip_addr n) (netmask n) || (negb (flag_broadcast n) && (dest =? gw n))).

Fixpoint first_that (f : netif → bool) (l : list netif) : option netif :=
  match l with [] => None | n :: l => if f n then Some n else first_that f l end.

Definition ip4_route (dest : Z) : ST ip_layer (option netif) :=
  l ← gets netif_list;
  match first_that (route_matches dest) l with
  | Some n => mret (Some n)
  | None =>
      d ← gets netif_default;
      mret match d with
           | Some n => if negb (is_up n) || negb (is_link_up n) || (ip_addr n =? 0) || ip4_addr_isloopback dest
                       then None else Some n
           | None => None
           end
  end.

(** ** Input *)

(** The secondary address is an [int]. *)
Definition ip4_input_accept (n : netif) : ST ip_layer bool :=
  dest ← gets (λ s, current_iphdr_dest (ip_data s));
  secondary ← gets ip4_secondary_ip_address;
  mret (is_up n && negb (ip_addr n =? 0) &&
        ((dest =? ip_addr n) || ip4_addr_isbroadcast dest n || (negb (secondary =? 0) && (dest =? u32 secondary)))).

(** The other interfaces, in their order. *)
Fixpoint accept_other (inp : netif) (l : list netif) : ST ip_layer (option netif) :=
  match l with
  | [] => mret None
  | n :: l =>
      if netif_num n =? netif_num inp then accept_other inp l
      else
        ok ← ip4_input_accept n;
        if ok : bool then mret (Some n) else accept_other inp l
  end.

(** The interface a packet is for. *)
Definition match_netif (inp : netif) : ST ip_layer (option netif) :=
  dest ← gets (λ s, current_iphdr_dest (ip_data s));
  if ip4_addr_ismulticast dest then mret (if is_up inp && negb (ip_addr inp =? 0) then Some inp else None)
  else
    ok ← ip4_input_accept inp;
    if ok : bool then mret (Some inp)
    else if negb (ip4_addr_isloopback dest) then l ← gets netif_list; accept_other inp l
    else mret None.

(** DHCP messages are taken whatever their destination: the interface, and [check_ip_src]. *)
Definition link_layer_addressed (iphdr : list Z) (hlen : Z) (inp : netif) (n : option netif) : outcome (option netif * bool) :=
  match n with
  | Some n => Ok (Some n, true)
  | None =>
      proto ← rd iphdr 9;
      if proto =? IP_PROTO_UDP then
        port ← rd16 iphdr (hlen + 2);
        Ok (if port =? LWIP_IANA_PORT_DHCP_CLIENT then (Some inp, false) else (None, true))
      else Ok (None, true)
  end.

(** The packet goes to the layers above; [hlen]: the length of its header when it came in. *)
Definition upper_layers (p : pbuf) (inp n : netif) (hlen : Z) : ST ip_layer unit :=
  let iphdr := first p in
  v_hl ← lift (rd iphdr 0);
  set_ip_data (λ d, mkIpData (Some n) (Some inp) (Some iphdr) (Z.land v_hl 15 * 4) (current_iphdr_src d) (current_iphdr_dest d));;
  d ← gets ip_data;
  raw_status ← call (raw_input d p inp);
  match raw_status with
  | RAW_INPUT_EATEN => mret tt
  | _ =>
      let q := pbuf_remove_header p hlen in
      proto ← lift (rd iphdr 9);
      if proto =? IP_PROTO_UDP then call (λ w, (tt, udp_input d q inp w))
      else if proto =? IP_PROTO_TCP then call (λ w, (tt, tcp_input d q inp w))
      else if proto =? IP_PROTO_ICMP then call (λ w, (tt, icmp_input d q inp w))
      else
        match raw_status with
        | RAW_INPUT_DELIVERED => mret tt
        | _ =>
            if negb (ip4_addr_isbroadcast (current_iphdr_dest d) n) && negb (ip4_addr_ismulticast (current_iphdr_dest d))
            then call (λ w, (tt, icmp_dest_unreach d (pbuf_header_force q hlen) w)) else mret tt
        end
  end;;
  set_ip_data (λ _, mkIpData None None None 0 0 0).

(** The header of [hlen] bytes is sound: who is the packet for, and is it whole? *)
Definition input_addressed (p : pbuf) (inp : netif) (hlen : Z) : ST ip_layer Z :=
  let iphdr := first p in
  dest ← lift (rd_addr iphdr 16);
  src ← lift (rd_addr iphdr 12);
  set_ip_data (λ d, mkIpData (current_netif d) (current_input_netif d) (current_ip4_header d)
                      (current_ip_header_tot_len d) src dest);;
  n ← match_netif inp;
  '(n, check_ip_src) ← lift (link_layer_addressed iphdr hlen inp n);
  if check_ip_src && negb (src =? 0) && (ip4_addr_isbroadcast src inp || ip4_addr_ismulticast src) then mret ERR_OK
  else
    match n with
    | None => mret ERR_OK
    | Some n =>
        offset ← lift (rd16 iphdr 6);
        q ← (if negb (Z.land offset (Z.lor IP_OFFMASK IP_MF) =? 0) then call (ip4_reass p) else mret (Some p));
        match q with
        | None => mret ERR_OK
        | Some q => upper_layers q inp n hlen;; mret ERR_OK
        end
    end.

Definition ip4_input (p : pbuf) (inp : netif) : ST ip_layer Z :=
  v_hl ← lift (rd (first p) 0);
  if negb (v_hl / 16 =? 4) then mret ERR_OK
  else
    let iphdr_hlen := Z.land v_hl 15 * 4 in
    iphdr_len ← lift (rd16 (first p) 2);
    let p := if iphdr_len <? tot_len p then pbuf_realloc p iphdr_len else p in
    if (zlen (first p) <? iphdr_hlen) || (tot_len p <? iphdr_len) || (iphdr_hlen <? IP_HLEN) then mret ERR_OK
    else
      h ← lift (rd_n (first p) 0 iphdr_hlen);
      if negb (inet_chksum h =? 0) then mret ERR_OK
      else input_addressed p inp iphdr_hlen.

(** ** Output *)

(** The checksum as it is computed along with the header: the words of memory, each with its own order of bytes. *)
Definition header_chksum (ttl tos proto len id src dest : Z) : Z :=
  let chk_sum := u32 (htons (Z.lor proto (Z.shiftl ttl 8))) in
  let chk_sum := u32 (chk_sum + Z.land dest 0xFFFF) in
  let chk_sum := u32 (chk_sum + Z.shiftr dest 16) in
  let chk_sum := u32 (chk_sum + htons (Z.lor tos (Z.shiftl 0x45 8))) in
  let chk_sum := u32 (chk_sum + htons len) in
  let chk_sum := u32 (chk_sum + htons id) in
  let chk_sum := u32 (chk_sum + Z.land src 0xFFFF) in
  let chk_sum := u32 (chk_sum + Z.shiftr src 16) in
  let chk_sum := u32 (Z.shiftr chk_sum 16 + Z.land chk_sum 0xFFFF) in
  let chk_sum := u32 (Z.shiftr chk_sum 16 + chk_sum) in
  u16 (u32 (Z.lnot chk_sum)).

(** The header in memory. *)
Definition ip_header (ttl tos proto len id src dest : Z) : list Z :=
  [0x45; tos] ++ mem16 (htons len) ++ mem16 (htons id) ++ [0; 0] ++ [ttl; proto] ++
  mem16 (header_chksum ttl tos proto len id src dest) ++ addr_bytes src ++ addr_bytes dest.

(** [src]: nothing for a null pointer; [dest]: nothing for [LWIP_IP_HDRINCL]. *)
Definition ip4_output_if_src (p : pbuf) (src dest : option Z) (ttl tos proto : Z) (n : netif) : ST ip_layer Z :=
  r ← match dest with
      | Some dest =>
          q ← call (pbuf_add_header p IP_HLEN);
          match q with
          | None => mret None
          | Some q =>
              id ← gets ip_id;
              let header := ip_header ttl tos proto (tot_len q) id (default 0 src) dest in
              l ← lift (wr_n (first q) 0 header);
              set_ip_id (u16 (id + 1));;
              mret (Some (l :: tail q, dest))
          end
      | None =>
          if zlen (first p) <? IP_HLEN then mret None
          else dest ← lift (rd_addr (first p) 16); mret (Some (p, dest))
      end;
  match r with
  | None => mret ERR_BUF
  | Some (q, dest) =>
      if negb (mtu n =? 0) && (mtu n <? tot_len q) then call (ip4_frag q n dest)
      else call (netif_output n q dest)
  end.

Definition ip4_output_if (p : pbuf) (src dest : option Z) (ttl tos proto : Z) (n : netif) : ST ip_layer Z :=
  let src_used :=
    match dest, src with
    | Some _, None => Some (ip_addr n)
    | Some _, Some a => if a =? 0 then Some (ip_addr n) else src
    | None, _ => src
    end in
  ip4_output_if_src p src_used dest ttl tos proto n.

Definition ip4_output (p : pbuf) (src : option Z) (dest : Z) (ttl tos proto : Z) : ST ip_layer Z :=
  n ← ip4_route dest;
  match n with
  | None => mret ERR_RTE
  | Some n => ip4_output_if p src (Some dest) ttl tos proto n
  end.
End Ip4.
