(* ===== verification/Ip4Packets.v ===== *)
(** The IPv4 layer: what its packets are.  The checksum of a header is the one of RFC 1071; a packet that is put out is
    taken in as it was given; a packet that comes in goes to the layers above exactly when it is sound and for this
    device, at its own address or the secondary one. *)
From S2P Require Import Prelude StateMonad Ip4.

(** ** One's complement sums (RFC 1071) *)

Fixpoint words (l : list Z) : list Z :=
  match l with a :: b :: l => le16 a b :: words l | _ => [] end.

(** Addition with the carry put in again at the low end. *)
Definition ones_add (s w : Z) : Z := (s + w) mod 65536 + (s + w) / 65536.
Definition ones_sum (l : list Z) : Z := foldl ones_add 0 (words l).
Definition total (ws : list Z) : Z := foldr Z.add 0 ws.

Lemma ones_add_ok s w : is_u16 s → is_u16 w →
  is_u16 (ones_add s w) ∧ ones_add s w mod 65535 = (s + w) mod 65535 ∧ (0 < s + w → 0 < ones_add s w).
Proof. unfold is_u16, ones_add. intros. repeat split; zdiv. Qed.

(** The sum keeps its value modulo 65535, and is zero only for zeros. *)
Lemma ones_foldl ws s : is_u16 s → Forall is_u16 ws → let r := foldl ones_add s ws in
  is_u16 r ∧ r mod 65535 = (s + total ws) mod 65535 ∧ (0 < s + total ws → 0 < r).
Proof.
  revert s. induction ws as [|w ws IH]; intros s Hs Hws; cbn.
  - rewrite Z.add_0_r. auto.
  - inversion Hws as [|? ? Hw Hws']; subst. destruct (ones_add_ok s w Hs Hw) as (H1 & H2 & H3).
    destruct (IH _ H1 Hws') as (I1 & I2 & I3). split; [done|].
    assert (0 <= total ws).
    { clear -Hws'. induction Hws' as [|x l Hx _ IH]; unfold total in *; cbn; [lia|]. unfold is_u16 in Hx. lia. }
    unfold is_u16 in *. split; [|intros H'; apply I3; fold (total ws) in H'; lia].
    fold (total ws). rewrite I2, Z.add_assoc, Z.add_mod, H2, <- Z.add_mod by lia. done.
Qed.

Lemma words_u16 l : Forall is_u8 l → Forall is_u16 (words l).
Proof.
  revert l. fix IH 1. intros [|a [|b l]] H; cbn; [constructor..|].
  inversion H as [|? ? Ha H']; subst. inversion H' as [|? ? Hb Hl]; subst.
  constructor; [unfold is_u8, is_u16, le16 in *; lia|by apply IH].
Qed.

(** A sum of all ones: the words add up to a multiple of 65535 that is not zero. *)
Lemma ones_sum_full l : Forall is_u8 l → 0 < total (words l) → total (words l) mod 65535 = 0 → ones_sum l = 65535.
Proof.
  intros Hl Hp Hm. destruct (ones_foldl (words l) 0) as (H1 & H2 & H3); [unfold is_u16; lia|by apply words_u16|].
  unfold ones_sum. rewrite Z.add_0_l in *. specialize (H3 Hp). rewrite Hm in H2. revert H1 H2 H3.
  generalize (foldl ones_add 0 (words l)). unfold is_u16. intros. zdiv.
Qed.

(** ** The functions of lwIP *)

Class Lwip4Ok (W : Type) `{Lwip4 W} := {
  inet_chksum_ok l : Forall is_u8 l → zlen l mod 2 = 0 → inet_chksum l = 0 ↔ ones_sum l = 65535;
  remove_header_ok h t n : 0 <= n <= zlen h → pbuf_remove_header (h :: t) n = drop (Z.to_nat n) h :: t;
  add_header_ok h t n w q w' : 0 <= n → pbuf_add_header (h :: t) n w = (Some q, w') → ∃ pre, zlen pre = n ∧ q = (pre ++ h) :: t;
  realloc_ok h t n : 0 <= n <= zlen (concat (h :: t)) → ∃ t',
    pbuf_realloc (h :: t) n = take (Z.to_nat n) h :: t' ∧ concat (pbuf_realloc (h :: t) n) = take (Z.to_nat n) (concat (h :: t));
}.

(** ** The checksum of a header *)

Lemma addr_bytes_u8 a : Forall is_u8 (addr_bytes a).
Proof. unfold addr_bytes. repeat constructor; unfold is_u8; zdiv. Qed.
Lemma mem16_u8 a : Forall is_u8 (mem16 a).
Proof. unfold mem16. repeat constructor; unfold is_u8; zdiv. Qed.
Lemma htons_u16 x : is_u16 (htons x).
Proof. unfold is_u16, htons, le16. zdiv. Qed.

Lemma le16_mem x : is_u16 x → le16 (x mod 256) (x / 256 mod 256) = x.
Proof. unfold is_u16, le16. zdiv. Qed.

Lemma addr_low a : is_u32 a → le16 (a mod 256) (a / 256 mod 256) = a mod 65536.
Proof. unfold is_u32, le16. zdiv. Qed.
Lemma addr_high a : is_u32 a → le16 (a / 65536 mod 256) (a / 16777216 mod 256) = a / 65536.
Proof. unfold is_u32, le16. zdiv. Qed.

Lemma htons_lor a b : is_u8 a → is_u8 b → htons (Z.lor a (Z.shiftl b 8)) = le16 b a.
Proof. intros Ha Hb. rewrite Z.lor_comm, lor_be16 by done. unfold is_u8, htons, be16, le16 in *. zdiv. Qed.

(** The end of the computation, from the sum [S] of nine words. *)
Lemma fold_chksum S : 0 < S <= 9 * 65535 → let c := u16 (u32 (Z.lnot (u32 (Z.shiftr (u32 (Z.shiftr S 16 + Z.land S 0xFFFF)) 16
    + u32 (Z.shiftr S 16 + Z.land S 0xFFFF))))) in
  is_u16 c ∧ (S + c) mod 65535 = 0.
Proof.
  intros HS. cbv zeta. change (Z.land S 0xFFFF) with (Z.land S (Z.ones 16)). rewrite Z.land_ones, !Z.shiftr_div_pow2 by lia.
  change (2 ^ 16) with 65536. unfold Z.lnot. split; [apply u16_range|].
  set (f := S / 65536 + S mod 65536). assert (Hf : 0 < f < 65544 ∧ f mod 65535 = S mod 65535) by (unfold f; split; zdiv).
  destruct Hf as [Hf Em]. rewrite (u32_id f) by (unfold is_u32; lia).
  set (g := f / 65536 + f). assert (Hg : f <= g <= f + 1 ∧ (g mod 65536) mod 65535 = f mod 65535 ∧ 0 < g mod 65536).
  { clearbody f. clear Em. unfold g. assert (f / 65536 = 0 ∧ f < 65536 ∨ f / 65536 = 1 ∧ 65536 <= f) as [[-> ?]|[-> ?]] by zdiv; split_and!; zdiv. }
 
  destruct Hg as (Hg & Eg & Hg0). rewrite (u32_id g) by (unfold is_u32; lia).
  assert (u16 (u32 (Z.pred (- g))) = 65535 - g mod 65536) as -> by (unfold u16, u32; zdiv).
  rewrite <- Eg in Em. clearbody f g. clear Eg. revert Em Hg0. generalize (g mod 65536) (Z.mod_pos_bound g 65536 eq_refl). intros m Hm Em _.
  replace (S + (65535 - m)) with (S - m + 1 * 65535) by lia. by rewrite Z_mod_plus_full, Zminus_mod, Em, Z.sub_diag.
Qed.

Section Packets.
Context {W : Type} {lwip : Lwip4 W} {lwip_ok : Lwip4Ok W}.
Implicit Types (s r : ip_layer (W := W)).

Record header_fields (ttl tos proto len id src dest : Z) : Prop := {
  hf_ttl : is_u8 ttl; hf_tos : is_u8 tos; hf_proto : is_u8 proto; hf_len : is_u16 len; hf_id : is_u16 id;
  hf_src : is_u32 src; hf_dest : is_u32 dest }.

(** The sum of the words of the header other than the checksum. *)
Definition other_words (ttl tos proto len id src dest : Z) : Z :=
  le16 ttl proto + dest mod 65536 + dest / 65536 + le16 0x45 tos + htons len + htons id + src mod 65536 + src / 65536.

Lemma header_chksum_ok ttl tos proto len id src dest : header_fields ttl tos proto len id src dest →
  is_u16 (header_chksum ttl tos proto len id src dest) ∧ 0 < other_words ttl tos proto len id src dest ∧
  (other_words ttl tos proto len id src dest + header_chksum ttl tos proto len id src dest) mod 65535 = 0.
Proof.
  intros [H1 H2 H3 H4 H5 H6 H7]. set (S := other_words _ _ _ _ _ _ _).
  pose proof (htons_u16 len) as Hl. pose proof (htons_u16 id) as Hi.
  assert (HS : 0 < S <= 9 * 65535) by (unfold S, other_words, is_u8, is_u16, is_u32, le16 in *; zdiv).
  assert (E : header_chksum ttl tos proto len id src dest = u16 (u32 (Z.lnot (u32 (Z.shiftr (u32 (Z.shiftr S 16 + Z.land S 0xFFFF)) 16
    + u32 (Z.shiftr S 16 + Z.land S 0xFFFF)))))).
  { unfold header_chksum. rewrite !htons_lor by (done || (unfold is_u8; lia)). change 0xFFFF with (Z.ones 16).
    rewrite !(Z.land_ones src), !(Z.land_ones dest), !(Z.shiftr_div_pow2 src), !(Z.shiftr_div_pow2 dest) by lia. change (2 ^ 16) with 65536.
    assert (EU : ∀ a b, u32 (u32 a + b) = u32 (a + b)) by (intros; unfold u32; by rewrite Zplus_mod_idemp_l).
    repeat (rewrite EU || rewrite <- Z.add_assoc).
    match goal with |- context [Z.shiftr (u32 ?x) 16 + Z.land _ _] => replace x with S by (unfold S, other_words; lia) end.
    by rewrite (u32_id S) by (unfold is_u32; lia). }
  rewrite E. destruct (fold_chksum S HS). split; [done|]. split; [lia|done].
Qed.

Lemma ip_header_u8 ttl tos proto len id src dest : header_fields ttl tos proto len id src dest →
  Forall is_u8 (ip_header ttl tos proto len id src dest).
Proof.
  intros [H1 H2 H3 H4 H5 H6 H7]. unfold ip_header. rewrite !Forall_app.
  repeat match goal with |- _ ∧ _ => split end;
    first [apply mem16_u8|apply addr_bytes_u8|repeat (apply Forall_cons; split); [..|by apply Forall_nil]]; done || (unfold is_u8; lia).
Qed.

Lemma ip_header_length ttl tos proto len id src dest : zlen (ip_header ttl tos proto len id src dest) = 20.
Proof. done. Qed.

Lemma ip_header_words ttl tos proto len id src dest : header_fields ttl tos proto len id src dest →
  total (words (ip_header ttl tos proto len id src dest)) =
    other_words ttl tos proto len id src dest + header_chksum ttl tos proto len id src dest.
Proof.
  intros H. destruct (header_chksum_ok _ _ _ _ _ _ _ H) as [Hc _]. destruct H as [H1 H2 H3 H4 H5 H6 H7].
  set (c := header_chksum _ _ _ _ _ _ _) in *. unfold ip_header. fold c. unfold mem16, addr_bytes. cbn [app words total foldr].
  rewrite (le16_mem c), !le16_mem, !addr_low, !addr_high by (done || apply htons_u16).
  unfold other_words. change (le16 0 0) with 0. lia.
Qed.

Lemma header_verifies ttl tos proto len id src dest : header_fields ttl tos proto len id src dest →
  inet_chksum (ip_header ttl tos proto len id src dest) = 0.
Proof.
  intros H. apply inet_chksum_ok; [by apply ip_header_u8|done|]. destruct (header_chksum_ok _ _ _ _ _ _ _ H) as ([??] & ? & ?).
  apply ones_sum_full; [by apply ip_header_u8| |]; rewrite ip_header_words by done; [lia|done].
Qed.

(** ** What comes in *)

(** A header of [hlen] bytes, with any options, for a body of which [len - hlen] bytes are the packet. *)
Record sound_header (iphdr : list Z) (len proto src dest : Z) : Prop := {
  sh_bytes : Forall is_u8 iphdr;
  sh_version : nth 0 iphdr 0 / 16 = 4;
  sh_length : Z.land (nth 0 iphdr 0) 15 * 4 = zlen iphdr;
  sh_min : 20 <= zlen iphdr;
  sh_total : be16 (nth 2 iphdr 0) (nth 3 iphdr 0) = len;
  sh_whole : Z.land (be16 (nth 6 iphdr 0) (nth 7 iphdr 0)) (Z.lor IP_OFFMASK IP_MF) = 0;
  sh_proto : nth 9 iphdr 0 = proto;
  sh_chksum : inet_chksum iphdr = 0;
  sh_src : addr_of (take 4 (drop 12 iphdr)) = src;
  sh_dest : addr_of (take 4 (drop 16 iphdr)) = dest }.

(** The device answers to this address on this interface. *)
Definition answers_to (secondary dest : Z) (n : netif) : Prop :=
  is_up n = true ∧ ip_addr n ≠ 0 ∧
  (dest = ip_addr n ∨ ip4_addr_isbroadcast dest n = true ∨ secondary ≠ 0 ∧ dest = u32 secondary).

Definition accepts (secondary dest : Z) (n : netif) : bool :=
  is_up n && negb (ip_addr n =? 0) &&
  ((dest =? ip_addr n) || ip4_addr_isbroadcast dest n || (negb (secondary =? 0) && (dest =? u32 secondary))).

Lemma accepts_spec secondary dest n : accepts secondary dest n = true ↔ answers_to secondary dest n.
Proof.
  unfold accepts, answers_to. rewrite !andb_true_iff, !orb_true_iff, andb_true_iff, !negb_true_iff, !Z.eqb_eq, !Z.eqb_neq. tauto.
Qed.

Definition valid_source (src : Z) (inp : netif) : Prop :=
  src = 0 ∨ ip4_addr_isbroadcast src inp = false ∧ ip4_addr_ismulticast src = false.

Definition with_world (w : W) s : ip_layer (W := W) :=
  mkIp (ip_id s) (ip4_secondary_ip_address s) (netif_list s) (netif_default s) (ip_data s) w.
Definition with_data (d : ip_globals) s : ip_layer (W := W) :=
  mkIp (ip_id s) (ip4_secondary_ip_address s) (netif_list s) (netif_default s) d (world s).

(** The protocol's function gets the packet. *)
Definition deliver (proto : Z) (d : ip_globals) (q : pbuf) (inp : netif) (w : W) : W :=
  if proto =? IP_PROTO_UDP then udp_input d q inp w
  else if proto =? IP_PROTO_TCP then tcp_input d q inp w
  else icmp_input d q inp w.

Definition no_data : ip_globals := mkIpData None None None 0 0 0.

Lemma rd_first iphdr x i : 0 <= i < zlen iphdr → rd (iphdr ++ x) i = Ok (nth (Z.to_nat i) iphdr 0).
Proof. intros Hi. rewrite rd_nth by lens. f_equal. apply app_nth1. lia. Qed.

Lemma rd_n_first iphdr x i n : 0 <= i → 0 <= n → i + n <= zlen iphdr →
  rd_n (iphdr ++ x) i n = Ok (take (Z.to_nat n) (drop (Z.to_nat i) iphdr)).
Proof.
  intros. unfold rd_n. rewrite decide_True by lens. f_equal. rewrite drop_app_le by lia. by rewrite take_app_le by lens.
Qed.

Lemma accept_spec n s :
  ip4_input_accept n s = Ok (accepts (ip4_secondary_ip_address s) (current_iphdr_dest (ip_data s)) n, s).
Proof. done. Qed.

Lemma upper_layers_spec iphdr x t inp n len proto src dest s w :
  sound_header iphdr len proto src dest → proto ∈ [IP_PROTO_UDP; IP_PROTO_TCP; IP_PROTO_ICMP] →
  let d := mkIpData (Some n) (Some inp) (Some (iphdr ++ x)) (zlen iphdr) (current_iphdr_src (ip_data s)) (current_iphdr_dest (ip_data s)) in
  raw_input d ((iphdr ++ x) :: t) inp (world s) = (RAW_INPUT_NONE, w) →
  upper_layers ((iphdr ++ x) :: t) inp n (zlen iphdr) s = Ok (tt, with_data no_data (with_world (deliver proto d (x :: t) inp w) s)).
Proof.
  intros H Hp d Hr. destruct H as [Hb Hv Hl Hm _ _ <- _ _ _]. unfold upper_layers. cbn [first].
  unfold mbind, st_bind, lift, set_ip_data, modify, gets, call. rewrite !rd_first by lia. cbn [mbind outcome_bind ip_data world].
  change (Z.to_nat 0) with 0%nat. rewrite Hl. fold d. rewrite Hr. cbn [mbind outcome_bind].
  rewrite remove_header_ok by lens. rewrite Nat2Z.id, drop_app_length. change (Z.to_nat 9) with 9%nat. unfold deliver.
  revert Hp. rewrite !elem_of_cons, elem_of_nil. intros [->|[->|[->|[]]]]; done.
Qed.

Lemma input_addressed_spec iphdr x t inp len proto src dest s :
  sound_header iphdr len proto src dest → ip4_addr_ismulticast dest = false → valid_source src inp →
  let s1 := with_data (mkIpData (current_netif (ip_data s)) (current_input_netif (ip_data s)) (current_ip4_header (ip_data s))
                        (current_ip_header_tot_len (ip_data s)) src dest) s in
  accepts (ip4_secondary_ip_address s) dest inp = true →
  input_addressed ((iphdr ++ x) :: t) inp (zlen iphdr) s = (upper_layers ((iphdr ++ x) :: t) inp inp (zlen iphdr);; mret ERR_OK) s1.
Proof.
  intros H Hmc Hs s1 Ha. destruct H as [Hb Hv Hl Hm _ Hw _ _ <- <-]. unfold input_addressed, rd_addr. cbn [first].
  unfold mbind at 1 2 3 4 5, st_bind, lift, set_ip_data, modify. rewrite !rd_n_first by lia. cbn [mbind outcome_bind].
  change (Z.to_nat 16) with 16%nat. change (Z.to_nat 12) with 12%nat. change (Z.to_nat 4) with 4%nat. fold s1.
  unfold match_netif, gets. unfold mbind at 1, st_bind. cbn [current_iphdr_dest ip_data s1 with_data]. rewrite Hmc.
  unfold mbind at 1, st_bind. rewrite accept_spec. cbn [ip4_secondary_ip_address current_iphdr_dest ip_data s1 with_data]. rewrite Ha.
  cbn [mret st_ret link_layer_addressed mbind outcome_bind]. fold s1.
  assert (negb (addr_of (take 4 (drop 12 iphdr)) =? 0) && (ip4_addr_isbroadcast (addr_of (take 4 (drop 12 iphdr))) inp ||
    ip4_addr_ismulticast (addr_of (take 4 (drop 12 iphdr)))) = false) as E.
  { destruct Hs as [->|[-> ->]]; [done|by rewrite andb_false_r]. }
  cbn [andb]. rewrite E. unfold mbind at 1, st_bind, lift, rd16. rewrite !rd_first by lia. cbn [mbind outcome_bind].
  change (Z.to_nat 6) with 6%nat. change (Z.to_nat (6 + 1)) with 7%nat. by rewrite Hw.
Qed.

Lemma ip4_input_sound iphdr x t inp len proto src dest s :
  sound_header iphdr len proto src dest → zlen iphdr <= len <= zlen (concat ((iphdr ++ x) :: t)) ∧ zlen (concat ((iphdr ++ x) :: t)) < 65536 →
  ∃ x' t', x' = take (Z.to_nat (len - zlen iphdr)) x ∧ x' ++ concat t' = take (Z.to_nat (len - zlen iphdr)) (x ++ concat t) ∧
    (len = zlen (concat ((iphdr ++ x) :: t)) → x' = x ∧ t' = t) ∧
    ip4_input ((iphdr ++ x) :: t) inp s = input_addressed ((iphdr ++ x') :: t') inp (zlen iphdr) s.
Proof.
  intros H Hlen. set (p := (iphdr ++ x) :: t) in *.
  assert (∃ x' t', (if len <? tot_len p then pbuf_realloc p len else p) = (iphdr ++ x') :: t' ∧
    x' = take (Z.to_nat (len - zlen iphdr)) x ∧ x' ++ concat t' = take (Z.to_nat (len - zlen iphdr)) (x ++ concat t) ∧ (len = zlen (concat p) → x' = x ∧ t' = t)) as (x' & t' & E & Ex1 & Ex & Exact).
  { unfold tot_len. rewrite u16_id by (unfold is_u16; lia). destruct (Z.ltb_spec len (zlen (concat p))) as [Hlt|Hge].
    - destruct (realloc_ok (iphdr ++ x) t len) as (t' & E1 & E2); [fold p; lia|]. fold p in E1, E2. rewrite E1 in E2 |- *.
      exists (take (Z.to_nat (len - zlen iphdr)) x), t'. rewrite take_app_ge in E2 |- * by lia.
      replace (Z.to_nat len - length iphdr)%nat with (Z.to_nat (len - zlen iphdr)) in * by lia. do 2 (split; [done|]). split; [|lia].
      unfold p in E2. cbn [concat] in E2. rewrite <- !app_assoc, (take_app_ge iphdr) in E2 by lia. apply app_inv_head in E2. rewrite E2. f_equal. lia.
    - exists x, t. unfold p in Hlen, Hge. cbn [concat] in Hlen, Hge. rewrite !take_ge by lens. done. }
  exists x', t'. do 3 (split; [done|]). destruct H as [Hb Hv Hl Hm Ht _ _ Hc _ _]. unfold ip4_input.
  rewrite (st_bind_Ok _ _ s (nth 0 iphdr 0) s) by (unfold lift, p; cbn [first]; by rewrite rd_first by lia).
  rewrite Hv. cbn [Z.eqb Pos.eqb negb]. rewrite (st_bind_Ok _ _ s len s).
  2: { unfold lift, rd16, p. cbn [first]. rewrite !rd_first by lia. by rewrite <- Ht. }
  cbv zeta. rewrite Hl, E. cbn [first].
  assert (tot_len ((iphdr ++ x') :: t') = len) as Htot.
  { unfold tot_len. cbn [concat]. rewrite <- app_assoc, length_app, Ex. unfold p in Hlen. cbn [concat] in Hlen.
    rewrite u16_id by (unfold is_u16; lens). lens. }
  rewrite Htot, Z.ltb_irrefl. unfold IP_HLEN. rewrite !(proj2 (Z.ltb_ge _ _)) by lens. cbn [orb].
  rewrite (st_bind_Ok _ _ s iphdr s).
  2: { unfold lift. rewrite rd_n_first by lia. change (Z.to_nat 0) with 0%nat. by rewrite drop_0, Nat2Z.id, firstn_all. }
  by rewrite Hc.
Qed.

(** Nobody has a raw PCB: the program opens none. *)
Definition no_raw_pcb : Prop := ∀ d q inp w, raw_input d q inp w = (RAW_INPUT_NONE, w).

(** What is given to the layer above. *)
Lemma input_for_us iphdr x t inp len proto src dest s : let p := (iphdr ++ x) :: t in
  sound_header iphdr len proto src dest → zlen iphdr <= len <= zlen (concat p) ∧ zlen (concat p) < 65536 →
  proto ∈ [IP_PROTO_UDP; IP_PROTO_TCP; IP_PROTO_ICMP] →
  answers_to (ip4_secondary_ip_address s) dest inp → ip4_addr_ismulticast dest = false → valid_source src inp → no_raw_pcb →
  ∃ x' t', let d := mkIpData (Some inp) (Some inp) (Some (iphdr ++ x')) (zlen iphdr) src dest in
    x' ++ concat t' = take (Z.to_nat (len - zlen iphdr)) (x ++ concat t) ∧ (len = zlen (concat p) → x' = x ∧ t' = t) ∧
    ip4_input p inp s = Ok (ERR_OK, with_data no_data (with_world (deliver proto d (x' :: t') inp (world s)) s)).
Proof.
  intros p H Hlen Hp Ha Hmc Hs Hraw. destruct (ip4_input_sound iphdr x t inp len proto src dest s H Hlen) as (x' & t' & _ & Ex & Hex & E).
  exists x', t'. split; [done|]. split; [done|]. fold p in E.
  rewrite E, (input_addressed_spec iphdr x' t' inp len proto src dest s H Hmc Hs) by (by apply accepts_spec).
  by rewrite (st_bind_Ok _ _ _ _ _ (upper_layers_spec iphdr x' t' inp inp len proto src dest
    (with_data (mkIpData _ _ _ _ src dest) s) (world s) H Hp (Hraw _ _ _ _))).
Qed.

(** C30: a sound packet for an address the device answers to on the interface it came in by - the interface's own, a
    broadcast one, or the secondary address of the patch - goes to the function of its protocol, without header, options
    and padding, exactly once; afterwards no packet is current. *)
Theorem packet_for_us_is_delivered iphdr x t inp len proto src dest s : let p := (iphdr ++ x) :: t in
  sound_header iphdr len proto src dest → zlen iphdr <= len <= zlen (concat p) ∧ zlen (concat p) < 65536 →
  proto ∈ [IP_PROTO_UDP; IP_PROTO_TCP; IP_PROTO_ICMP] →
  answers_to (ip4_secondary_ip_address s) dest inp → ip4_addr_ismulticast dest = false → valid_source src inp → no_raw_pcb →
  ∃ x' t', let d := mkIpData (Some inp) (Some inp) (Some (iphdr ++ x')) (zlen iphdr) src dest in
    x' ++ concat t' = take (Z.to_nat (len - zlen iphdr)) (x ++ concat t) ∧ (len = zlen (concat p) → x' = x ∧ t' = t) ∧
    ip4_input p inp s = Ok (ERR_OK, with_data no_data (with_world (deliver proto d (x' :: t') inp (world s)) s)).
Proof. apply input_for_us. Qed.

Lemma accept_other_none inp l s : Forall (λ n, ¬ answers_to (ip4_secondary_ip_address s) (current_iphdr_dest (ip_data s)) n) l →
  accept_other inp l s = Ok (None, s).
Proof.
  induction 1 as [|n l Hn _ IH]; cbn [accept_other]; [done|]. case_match; [done|].
  rewrite (st_bind_Ok _ _ _ _ _ (accept_spec n s)). destruct (accepts _ _ n) eqn:E; [by apply accepts_spec in E|done].
Qed.

(** A sound packet for an address that no interface answers to gets to no layer above, unless it is for the port of a
    DHCP client; only its addresses are noted. *)
Theorem packet_for_nobody_is_dropped iphdr x t inp len proto src dest s : let p := (iphdr ++ x) :: t in
  sound_header iphdr len proto src dest → zlen iphdr + 4 <= len <= zlen (concat p) ∧ zlen (concat p) < 65536 → 4 <= zlen x →
  Forall (λ n, ¬ answers_to (ip4_secondary_ip_address s) dest n) (inp :: netif_list s) → ip4_addr_ismulticast dest = false →
  (proto = IP_PROTO_UDP → be16 (nth 2 x 0) (nth 3 x 0) ≠ LWIP_IANA_PORT_DHCP_CLIENT) → 
  ip4_input p inp s = Ok (ERR_OK, with_data (mkIpData (current_netif (ip_data s)) (current_input_netif (ip_data s))
    (current_ip4_header (ip_data s)) (current_ip_header_tot_len (ip_data s)) src dest) s).
Proof.
  intros p H Hlen Hx Hno Hmc Hport.
  destruct (ip4_input_sound iphdr x t inp len proto src dest s H) as (x' & t' & Ex & _ & _ & E); [fold p; lia|]. fold p in E. rewrite E.
  clear E. set (s1 := with_data _ s).
  apply Forall_cons in Hno as [Hi Hl]. destruct H as [Hb Hv Hl' Hm _ _ Hpr _ Hs Hd]. unfold input_addressed. cbn [first].
  assert (Ea : ∀ i, 0 <= i <= 16 → rd_addr (iphdr ++ x') i = Ok (addr_of (take 4 (drop (Z.to_nat i) iphdr)))).
  { intros i Hi'. unfold rd_addr. rewrite rd_n_first by lia. done. }
  rewrite (st_bind_Ok _ _ s dest s) by (unfold lift; rewrite Ea by lia; by rewrite <- Hd).
  rewrite (st_bind_Ok _ _ s src s) by (unfold lift; rewrite Ea by lia; by rewrite <- Hs).
  rewrite (st_bind_Ok _ _ s tt s1) by done.
  rewrite (st_bind_Ok (match_netif inp) _ s1 None s1).
  2: { unfold match_netif, gets. unfold mbind at 1, st_bind. cbn [current_iphdr_dest ip_data s1 with_data]. rewrite Hmc.
       rewrite (st_bind_Ok _ _ _ _ _ (accept_spec inp s1)). cbn [ip4_secondary_ip_address current_iphdr_dest ip_data s1 with_data].
       destruct (accepts _ _ inp) eqn:Ei; [by apply accepts_spec in Ei|]. case_match; [|done].
       unfold mbind, st_bind. by apply accept_other_none. }
  rewrite (st_bind_Ok _ _ s1 (None, true) s1); [by case_match|].
  unfold lift, link_layer_addressed. rewrite rd_first by lia. change (Z.to_nat 9) with 9%nat. cbn [mbind outcome_bind]. rewrite Hpr.
  destruct (Z.eqb_spec proto IP_PROTO_UDP) as [Eu|]; [|done]. specialize (Hport Eu). unfold rd16.
  assert (Ek : ∀ k, 0 <= k < 4 → rd (iphdr ++ x') (zlen iphdr + k) = Ok (nth (Z.to_nat k) x 0)).
  { intros k Hk. rewrite rd_suffix by (rewrite Ex; lens). rewrite Ex, nth_firstn. f_equal. by rewrite (proj2 (Nat.ltb_lt _ _)) by lia. }
  rewrite <- (Z.add_assoc (zlen iphdr)), !Ek by lia. cbn [mbind outcome_bind]. change (Z.to_nat 2) with 2%nat. change (Z.to_nat (2 + 1)) with 3%nat.
  by rewrite (proj2 (Z.eqb_neq _ _) Hport).
Qed.

(** ** What goes out comes in *)

(** A state after a packet was put out. *)
Definition after_output s (w : W) : ip_layer (W := W) :=
  mkIp (u16 (ip_id s + 1)) (ip4_secondary_ip_address s) (netif_list s) (netif_default s) (ip_data s) w.

Lemma output_spec h t n src dest ttl tos proto s q w : let p := h :: t in let len := 20 + zlen (concat p) in
  pbuf_add_header p IP_HLEN (world s) = (Some q, w) → header_fields ttl tos proto len (ip_id s) src dest → src ≠ 0 →
  mtu n = 0 ∨ len <= mtu n →
  ip4_output_if p (Some src) (Some dest) ttl tos proto n s =
    let '(e, w') := netif_output n ((ip_header ttl tos proto len (ip_id s) src dest ++ h) :: t) dest w in Ok (e, after_output s w').
Proof.
  intros p len Ha H Hs Hm. destruct (add_header_ok h t IP_HLEN _ _ _ ltac:(unfold IP_HLEN; lia) Ha) as (pre & Hpre & ->).
  assert (Ht : tot_len ((pre ++ h) :: t) = len).
  { destruct H as [_ _ _ Hl _ _ _]. unfold tot_len. cbn [concat]. rewrite u16_id; unfold len, p, IP_HLEN in *; cbn [concat] in *; [lens|].
    unfold is_u16 in *. lens. }
  unfold ip4_output_if. rewrite (proj2 (Z.eqb_neq _ _) Hs). unfold ip4_output_if_src.
  set (header := ip_header ttl tos proto len (ip_id s) src dest). unfold IP_HLEN in *.
  rewrite (st_bind_Ok _ _ s (Some ((header ++ h) :: t, dest)) (after_output s w)).
  - assert (tot_len ((header ++ h) :: t) = len) as ->.
    { rewrite <- Ht. unfold tot_len. cbn [concat]. f_equal. rewrite !length_app. change (length header) with 20%nat. lia. }
    assert (negb (mtu n =? 0) && (mtu n <? len) = false) as ->; [|done].
    destruct Hm as [->|Hm]; [done|]. rewrite (proj2 (Z.ltb_ge _ _) Hm). apply andb_false_r.
  - rewrite (st_bind_Ok _ _ s (Some ((pre ++ h) :: t)) (with_world w s)) by (unfold call, p in *; by rewrite Ha).
    rewrite (st_bind_Ok _ _ (with_world w s) (ip_id s) (with_world w s)) by done. rewrite Ht. cbn [first tail]. change (default 0 (Some src)) with src.
    rewrite (st_bind_Ok _ _ (with_world w s) (header ++ h) (with_world w s)); [done|]. unfold lift. fold header.
    pose proof (wr_n_app [] (pre ++ h) header) as Ew. cbn [app length] in Ew. change (Z.of_nat 0) with 0 in Ew.
    rewrite Ew by (rewrite length_app; change (length header) with 20%nat; lia). cbn [mbind outcome_bind].
    rewrite drop_app_ge by (change (length header) with 20%nat; lia).
    replace (_ - _)%nat with 0%nat by (change (length header) with 20%nat; lia). done.
Qed.

Lemma header_sound ttl tos proto len id src dest : header_fields ttl tos proto len id src dest →
  sound_header (ip_header ttl tos proto len id src dest) len proto src dest.
Proof.
  intros H. pose proof H as [H1 H2 H3 H4 H5 H6 H7].
  assert (Ea : ∀ a, is_u32 a → addr_of (addr_bytes a) = a).
  { intros a Ha. unfold addr_of, addr_bytes. cbn [nth]. rewrite addr_low, addr_high by done. unfold is_u32 in Ha. zdiv. }
  split; [by apply ip_header_u8|done|done|done| |done|done|by apply header_verifies|by apply Ea|by apply Ea].
  cbn [nth ip_header app mem16]. unfold be16, htons, le16, is_u16 in *. zdiv.
Qed.

(** C11: what one device puts out another one that answers to the address takes in as it was given: the same chain of
    pbufs arrives at the function of the protocol, with the addresses of the sender and the receiver, for every length
    that fits a packet, every identification and every value of the header's fields - so the checksum that is computed
    along with the header is the one its receiver verifies. *)
Theorem output_is_input h t n src dest ttl tos proto s q w : let p := h :: t in let len := 20 + zlen (concat p) in
  pbuf_add_header p IP_HLEN (world s) = (Some q, w) → header_fields ttl tos proto len (ip_id s) src dest → src ≠ 0 →
  mtu n = 0 ∨ len <= mtu n → proto ∈ [IP_PROTO_UDP; IP_PROTO_TCP; IP_PROTO_ICMP] → no_raw_pcb →
  ∃ header, let packet := (header ++ h) :: t in
    ip4_output_if p (Some src) (Some dest) ttl tos proto n s =
      (let '(e, w') := netif_output n packet dest w in Ok (e, after_output s w')) ∧
    ∀ r inp, answers_to (ip4_secondary_ip_address r) dest inp → ip4_addr_ismulticast dest = false → valid_source src inp →
      ip4_input packet inp r = Ok (ERR_OK, with_data no_data (with_world
        (deliver proto (mkIpData (Some inp) (Some inp) (Some (header ++ h)) 20 src dest) p inp (world r)) r)).
Proof.
  intros p len Ha H Hs Hm Hp Hraw. set (header := ip_header ttl tos proto len (ip_id s) src dest). exists header.
  split; [by apply (output_spec _ _ _ _ _ _ _ _ _ q)|]. intros r inp Hans Hmc Hsrc. pose proof (header_sound _ _ _ _ _ _ _ H) as Hsound. fold header in Hsound.
  assert (El : len = zlen (concat ((header ++ h) :: t))).
  { cbn [concat]. rewrite !length_app. change (length header) with 20%nat. unfold len, p. cbn [concat]. lens. }
  destruct (input_for_us header h t inp len proto src dest r Hsound) as (x' & t' & _ & Ex & E); try done.
  - rewrite <- El. change (zlen header) with 20. destruct H as [_ _ _ Hl _ _ _]. unfold is_u16, len in *. lia.
  - destruct (Ex El) as [-> ->]. exact E.
Qed.
End Packets.

(** ** An example: the functions of lwIP on lists *)

(** What was put out and what was delivered: the protocol, the addresses, the payload. *)
Record wire := mkWire { sent : list pbuf; delivered : list (Z * Z * Z * pbuf) }.

Fixpoint shrink (p : pbuf) (n : Z) : pbuf :=
  match p with
  | [] => []
  | h :: t => if zlen h <=? n then h :: shrink t (n - zlen h) else [take (Z.to_nat n) h]
  end.

Definition receive (proto : Z) (d : ip_globals) (p : pbuf) (inp : netif) (w : wire) : wire :=
  mkWire (sent w) (delivered w ++ [(proto, current_iphdr_src d, current_iphdr_dest d, p)]).

#[export] Instance wire_ip4 : Lwip4 wire := {|
  ip4_addr_ismulticast a := a mod 256 / 16 =? 14;
  ip4_addr_isloopback a := a mod 256 =? 127;
  ip4_addr_isbroadcast a n := (a =? 0xFFFFFFFF) || (a =? 0) ||
    (flag_broadcast n && negb (a =? ip_addr n) && (Z.land a (netmask n) =? Z.land (ip_addr n) (netmask n)) &&
     (Z.lor a (netmask n) =? 0xFFFFFFFF));
  ip4_addr_net_eq a b m := Z.land a m =? Z.land b m;
  inet_chksum l := 65535 - ones_sum l;
  pbuf_realloc := shrink;
  pbuf_remove_header p n := match p with h :: t => drop (Z.to_nat n) h :: t | [] => [] end;
  pbuf_header_force p n := p;
  pbuf_add_header p n w :=
    (match p with h :: t => Some ((replicate (Z.to_nat n) 0 ++ h) :: t) | [] => None end, w);
  ip4_reass p w := (None, w);
  ip4_frag p n dest w := (ERR_OK, w);
  netif_output n p dest w := (ERR_OK, mkWire (sent w ++ [p]) (delivered w));
  raw_input d p inp w := (RAW_INPUT_NONE, w);
  udp_input := receive IP_PROTO_UDP;
  tcp_input := receive IP_PROTO_TCP;
  icmp_input := receive IP_PROTO_ICMP;
  icmp_dest_unreach d p w := w;
|}.

Lemma concat_shrink p n : 0 <= n <= zlen (concat p) → concat (shrink p n) = take (Z.to_nat n) (concat p).
Proof.
  revert n. induction p as [|h t IH]; intros n Hn; cbn [shrink concat] in *; [by rewrite take_nil|].
  rewrite length_app in Hn. destruct (Z.leb_spec (zlen h) n); cbn [concat].
  - rewrite IH, take_app_ge by lia. do 2 f_equal. lia.
  - by rewrite app_nil_r, take_app_le by lia.
Qed.

#[export] Instance wire_ip4_ok : Lwip4Ok wire.
Proof.
  split.
  - intros l _ _. cbn. lia.
  - done.
  - intros h t n w q w' Hn [= <- <-]. exists (replicate (Z.to_nat n) 0). split; [lens|done].
  - intros h t n Hn. cbn [pbuf_realloc wire_ip4]. exists (tail (shrink (h :: t) n)). split; [|by apply concat_shrink].
    cbn [shrink]. destruct (Z.leb_spec (zlen h) n); cbn [tail]; [|done]. by rewrite take_ge by lia.
Qed.

Definition demo_address (a b c d : Z) : Z := addr_of [a; b; c; d].

(** The access point at 192.168.4.1, which also answers to 7.7.7.7. *)
Definition demo_if : netif :=
  mkNetif 0 (demo_address 192 168 4 1) (demo_address 255 255 255 0) (demo_address 192 168 4 1) true true true 1500.
Definition demo_ip : ip_layer (W := wire) :=
  mkIp 7 (demo_address 7 7 7 7) [demo_if] (Some demo_if) no_data (mkWire [] []).
Definition demo_header (proto dest : Z) : list Z :=
  ip_header 64 0 proto 24 0xBEEF (demo_address 192 168 4 16) dest.

Lemma demo_fields proto dest : is_u8 proto → is_u32 dest →
  header_fields 64 0 proto 24 0xBEEF (demo_address 192 168 4 16) dest.
Proof. intros. split; try done; decided. Qed.

Lemma packet_for_us_is_delivered_witness : let dest := demo_address 7 7 7 7 in ∃ x' t',
  x' ++ concat t' = [1; 2; 3; 4] ∧
  ip4_input [demo_header IP_PROTO_TCP dest ++ [1; 2]; [3; 4; 0; 0]] demo_if demo_ip =
    Ok (ERR_OK, with_data no_data (with_world (mkWire [] [(IP_PROTO_TCP, demo_address 192 168 4 16, dest, x' :: t')]) demo_ip)).
Proof.
  intros dest.
  destruct (packet_for_us_is_delivered (demo_header IP_PROTO_TCP dest) [1; 2] [[3; 4; 0; 0]] demo_if 24 IP_PROTO_TCP
    (demo_address 192 168 4 16) dest demo_ip) as (x' & t' & Ex & _ & E).
  - apply header_sound, demo_fields; decided.
  - decided.
  - decided.
  - split; [done|]. split; [done|]. right. right. done.
  - done.
  - right. done.
  - done.
  - exists x', t'. split; [exact Ex|exact E].
Defined.

Lemma packet_for_nobody_is_dropped_witness : let dest := demo_address 8 8 8 8 in
  ip4_input [demo_header IP_PROTO_UDP dest ++ [0; 53; 0; 99]] demo_if demo_ip =
    Ok (ERR_OK, with_data (mkIpData None None None 0 (demo_address 192 168 4 16) dest) demo_ip).
Proof.
  intros dest. apply (packet_for_nobody_is_dropped (demo_header IP_PROTO_UDP dest) [0; 53; 0; 99] [] demo_if 24 IP_PROTO_UDP
    (demo_address 192 168 4 16) dest demo_ip).
  - apply header_sound, demo_fields; decided.
  - decided.
  - decided.
  - repeat constructor; intros H; apply accepts_spec in H; by vm_compute in H.
  - done.
  - intros _. decided.
Defined.

Lemma output_is_input_witness : let src := demo_address 192 168 4 16 in let dest := demo_address 192 168 4 1 in
  ∃ header, ip4_output_if [[1; 2; 3]; [4; 5]] (Some src) (Some dest) 255 0 IP_PROTO_UDP demo_if demo_ip =
      Ok (ERR_OK, after_output demo_ip (mkWire [[header ++ [1; 2; 3]; [4; 5]]] [])) ∧
    ip4_input [header ++ [1; 2; 3]; [4; 5]] demo_if demo_ip =
      Ok (ERR_OK, with_data no_data (with_world (mkWire [] [(IP_PROTO_UDP, src, dest, [[1; 2; 3]; [4; 5]])]) demo_ip)).
Proof.
  intros src dest.
  destruct (output_is_input [1; 2; 3] [[4; 5]] demo_if src dest 255 0 IP_PROTO_UDP demo_ip [replicate 20 0 ++ [1; 2; 3]; [4; 5]]
    (mkWire [] [])) as (header & E1 & E2).
  - done.
  - split; decided.
  - decided.
  - right. decided.
  - decided.
  - done.
  - exists header. split; [exact E1|]. apply (E2 demo_ip demo_if); [|done|by right].
    split; [done|]. split; [done|]. left. done.
Defined.
