(* ===== verification/Startup.v ===== *)
(** Start-up: [main_task] of src/main.cpp with [wifi_connect] and [wifi_networks_scan] of src/wifi_fns.cpp and
    [ethernet_connect] of src/ethernet_fns.cpp.

    What the task asks of the SDK, lwIP and the other parts of the program is an [action]; the board, of type [W],
    answers every action with a number, and the trace keeps the actions with the answers.  The arguments are the
    values that the code passes: an array for a pointer to characters, the [u32_t] of an address. *)
From S2P Require Import Prelude CString StateMonad Settings.

(** ** Actions *)

Inductive iface := sta | ap | ethernet.

Inductive action :=
| cyw43_arch_init | cyw43_wifi_pm | enc28j60_init | watchdog_enable_caused_reboot | led_put (b : bool)
| cyw43_arch_enable_sta_mode | cyw43_wifi_scan | cyw43_wifi_scan_active | vTaskDelay (ticks : Z) | sleep_ms (ms : Z)
| httpd_init (hostname domain_name : list Z) (ip : Z) | ws_server_init
| cyw43_wifi_get_mac (byte : Z)
| cyw43_arch_enable_ap_mode (ssid password : list Z) (auth : Z)
| netif_set_addr (i : iface) (addr mask gw : Z)
| dhcp_server_init (addr mask : Z) (domain_name : list Z)
| dns_server_init (primary secondary : Z) (hostname domain_name : list Z) (ignores_suffix : Z)
| set_secondary_ip_address (addr : Z)
| cyw43_arch_wifi_connect_timeout_ms (ssid password : list Z) (auth ms : Z)
| cyw43_wifi_link_status | ip_addr (i : iface) | cyw43_arch_lwip_begin | cyw43_arch_lwip_end | dhcp_stop (i : iface)
| dhcp_start (i : iface) | dns_setserver (i addr : Z) | netif_set_link_down
| enc28j60_driver_os_init (addr mask gw : Z)
| mqtt_init | gpio_init | gpio_set_dir | gpio_put (b : bool)
| serial_init (uart tx rx baud size : Z) | serial_set_timeout (uart ticks : Z) | sensor_init (uart sensor_num : Z).

Class Board (W : Type) := {
  perform : action → W → Z * W;
  CYW43_LINK_JOIN : Z;
}.

Definition WIFI_CONNECTION_MONITOR_DELAY_MS : Z := 1000.
Definition WIFI_RECONNECT_DELAY_MS : Z := 5000.
Definition SERIAL_BUFFERS_SIZE : Z := 256.
Definition pdMS_TO_TICKS (ms : Z) : Z := ms * 1000 / 1000.

(** The settings of the access point. *)
Record ap_mode_settings := mkAp {
  ap_ip : Z; ap_nm : Z; secondary_address : Z; ap_ssid : list Z; ap_password : list Z; ap_hostname : list Z;
  ap_domain_name : list Z; dns_ignores_network_suffix : Z }.

Section Startup.
Context {W : Type} {board : Board W} {modes : AuthModes}.
Context (ap_settings : ap_mode_settings) (client_settings : client_mode_settings).
(** The stack where the name of the access point is put together. *)
Context (junk_ssid : list Z).

Record device := mkDevice { world : W; trace : list (action * Z); initial_config : bool; next_sensor_num : Z }.

Definition act (a : action) : ST device Z := λ s,
  let '(r, w) := perform a (world s) in
  Ok (r, mkDevice w (trace s ++ [(a, r)]) (initial_config s) (next_sensor_num s)).

(** ** Wi-Fi and Ethernet *)

Fixpoint scan_wait (fuel : nat) : ST device unit :=
  match fuel with
  | O => out_of_fuel
  | S fuel =>
      running ← act cyw43_wifi_scan_active;
      if running =? 0 then mret tt else act (vTaskDelay 1000);; scan_wait fuel
  end.

Definition wifi_networks_scan (fuel : nat) (active : bool) : ST device unit :=
  act cyw43_wifi_scan;;
  if active then scan_wait fuel else mret tt.

(** The loop that waits for DHCP. *)
Fixpoint wait_address (fuel : nat) (i : iface) : ST device unit :=
  match fuel with
  | O => out_of_fuel
  | S fuel =>
      addr ← act (ip_addr i);
      if addr =? 0 then act (sleep_ms 1000);; wait_address fuel i else mret tt
  end.

Definition wifi_connect (fuel : nat) : ST device bool :=
  let w := wifi client_settings in
  r ← act (cyw43_arch_wifi_connect_timeout_ms (ssid w) (wifi_password w) (auth_mode w) 30000);
  if r =? 0 then
    status ← act cyw43_wifi_link_status;
    if status =? CYW43_LINK_JOIN then
      (if dhcp (wifi_ipv4 w) then wait_address fuel sta
       else
         act cyw43_arch_lwip_begin;;
         act (dhcp_stop sta);;
         act (netif_set_addr sta (ip (wifi_ipv4 w)) (nm (wifi_ipv4 w)) (gw (wifi_ipv4 w)));;
         act (dns_setserver 0 (dns (wifi_ipv4 w)));;
         act cyw43_arch_lwip_end;;
         mret tt);;
      mret true
    else mret false
  else mret false.

Definition ethernet_connect (fuel : nat) : ST device unit :=
  let e := eth client_settings in
  if dhcp e then
    act (enc28j60_driver_os_init 0 0 0);;
    act (dhcp_start ethernet);;
    wait_address fuel ethernet
  else act (enc28j60_driver_os_init (ip e) (nm e) (gw e));; mret tt.

(** ** Modes *)

(** The name of the access point: ["%s-%02X"], in 32 bytes. *)
Definition ap_name (mac : Z) : outcome (list Z) :=
  s ← c_str (ap_ssid ap_settings);
  '(b, _) ← snprintf junk_ssid 32 (s ++ chars "-" ++ hex_byte (u8 mac));
  Ok b.

(** The address of the interface is the one it was just given. *)
Definition start_config_mode : ST device unit :=
  mac ← act (cyw43_wifi_get_mac 5);
  name ← lift (ap_name mac);
  c ← lift (rd (ap_password ap_settings) 0);
  act (cyw43_arch_enable_ap_mode name (ap_password ap_settings)
        (if negb (c =? 0) then CYW43_AUTH_WPA2_MIXED_PSK else CYW43_AUTH_OPEN));;
  act (netif_set_addr ap (ap_ip ap_settings) (ap_nm ap_settings) (ap_ip ap_settings));;
  act (dhcp_server_init (ap_ip ap_settings) (ap_nm ap_settings) (ap_domain_name ap_settings));;
  act (dns_server_init (ap_ip ap_settings) (secondary_address ap_settings) (ap_hostname ap_settings)
        (ap_domain_name ap_settings) (dns_ignores_network_suffix ap_settings));;
  act (set_secondary_ip_address (secondary_address ap_settings));;
  mret tt.

Definition start_client_mode (fuel : nat) : ST device unit :=
  match conn_type client_settings with
  | WIFI => wifi_connect fuel;; mret tt
  | ETHERNET => ethernet_connect fuel
  end;;
  act mqtt_init;;
  mret tt.

(** ** Sensors *)

(** A [Sensor] takes the next number, and the settings of this number. *)
Definition start_sensor (uart tx rx baud : Z) : ST device unit :=
  act (serial_init uart tx rx baud SERIAL_BUFFERS_SIZE);;
  act (serial_set_timeout uart (pdMS_TO_TICKS 100));;
  n ← gets next_sensor_num;
  modify (λ s, mkDevice (world s) (trace s) (initial_config s) (n + 1));;
  act (sensor_init uart n);;
  mret tt.

Definition start_sensor_if (s : option sensor_settings_entry) (uart tx rx : Z) : ST device unit :=
  e ← lift (match s with Some e => Ok e | None => Ub end);
  if s_enabled e then start_sensor uart tx rx (baudrate e) else mret tt.

Definition start_sensors : ST device unit :=
  let ss := sensor_settings client_settings in
  start_sensor_if (ss !! 0%nat) 0 0 1;;
  start_sensor_if (ss !! 1%nat) 2 2 3;;
  start_sensor_if (ss !! 2%nat) 3 6 7.

(** ** The task *)

(** The chips and the scan; false: the Wi-Fi chip does not start. *)
Definition start_hardware (fuel : nat) : ST device bool :=
  r ← act cyw43_arch_init;
  if negb (r =? 0) then mret false
  else
    act cyw43_wifi_pm;;
    act enc28j60_init;;
    caused ← act watchdog_enable_caused_reboot;
    (if negb (caused =? 0) then act (led_put true);; mret tt else mret tt);;
    act cyw43_arch_enable_sta_mode;;
    wifi_networks_scan fuel true;;
    mret true.

(** Without a Wi-Fi network to join the device is configured first. *)
Definition choose_mode : ST device unit :=
  match conn_type client_settings with
  | WIFI =>
      c ← lift (rd (ssid (wifi client_settings)) 0);
      if c =? 0 then modify (λ s, mkDevice (world s) (trace s) true (next_sensor_num s)) else mret tt
  | ETHERNET => mret tt
  end.

Definition start_servers : ST device unit :=
  act (httpd_init (ap_hostname ap_settings) (ap_domain_name ap_settings) (ap_ip ap_settings));;
  act ws_server_init;;
  mret tt.

Fixpoint reconnect (fuel waits : nat) : ST device unit :=
  match fuel with
  | O => out_of_fuel
  | S fuel =>
      ok ← wifi_connect waits;
      if ok : bool then mret tt else act (vTaskDelay (pdMS_TO_TICKS WIFI_RECONNECT_DELAY_MS));; reconnect fuel waits
  end.

(** A turn of the loop. *)
Definition monitor (fuel : nat) : ST device unit :=
  config ← gets initial_config;
  if config : bool then
    act (gpio_put true);; act (vTaskDelay (pdMS_TO_TICKS 500));;
    act (gpio_put false);; act (vTaskDelay (pdMS_TO_TICKS 500));; mret tt
  else
    (match conn_type client_settings with
     | WIFI =>
         status ← act cyw43_wifi_link_status;
         if negb (status =? CYW43_LINK_JOIN) then act netif_set_link_down;; reconnect fuel fuel else mret tt
     | ETHERNET => mret tt
     end);;
    act (vTaskDelay (pdMS_TO_TICKS WIFI_CONNECTION_MONITOR_DELAY_MS));; mret tt.

Fixpoint monitor_loop (fuel turns : nat) : ST device unit :=
  match turns with O => mret tt | S turns => monitor fuel;; monitor_loop fuel turns end.

(** The task, as far as [turns] turns of its loop. *)
Definition main_task (fuel turns : nat) : ST device unit :=
  up ← start_hardware fuel;
  if negb up then mret tt
  else
    choose_mode;;
    start_servers;;
    config ← gets initial_config;
    (if config : bool then start_config_mode else start_client_mode fuel);;
    act gpio_init;; act gpio_set_dir;;
    start_sensors;;
    monitor_loop fuel turns.
End Startup.
