(* ===== verification/Factory.v ===== *)
(** The settings a device is delivered with: the initialisers of the two flash sectors in src/settings.cpp, with the
    network name and key that CMakeLists.txt defines. *)
From Stdlib Require Import Floats.SpecFloat.
From S2P Require Import Prelude CString Sensor Settings SettingsStore Startup.

(** [PP_HTONL(LWIP_MAKEU32(a, b, c, d))] on the little-endian processor. *)
Definition ip4_const (a b c d : Z) : Z := a + 256 * (b + 256 * (c + 256 * d)).

Definition WIFI_SSID : list Z := chars "RadProt_IoT".
Definition WIFI_PASSWORD : list Z := chars "NASA1234".

(** The access point. *)
Definition s_Settings : ap_mode_settings :=
  mkAp (ip4_const 192 168 123 1) (ip4_const 255 255 255 0) (ip4_const 198 51 100 0) (strncpy WIFI_SSID 28) (strncpy WIFI_PASSWORD 32)
    (strncpy (chars "config") 32) (strncpy (chars "radprot.net") 32) 1.

(** The client: what an initialiser leaves out is 0. *)
Definition default_ipv4 : ipv4_settings :=
  mkIpv4 true (ip4_const 192 168 137 200) (ip4_const 255 255 255 0) (ip4_const 192 168 137 1) (ip4_const 192 168 137 1).

Definition zero_entry : publish_settings_entry := mkEntry false (strncpy [] NAME_SIZE) 0 0 false f32_zero 0 (strncpy [] TOPIC_SIZE).

(** Two entries of each input: the readings, and the average of 180 of them. *)
Definition default_entry (nam : list Z) (cnt : Z) (top : list Z) : publish_settings_entry :=
  mkEntry true (strncpy nam NAME_SIZE) 2 8 true (f32_of_int 1) cnt (strncpy top TOPIC_SIZE).

Definition default_sensor (on : bool) (top : list Z) : sensor_settings_entry :=
  mkSensor 9600 on false
    (default_entry (chars "H3") 0 top :: default_entry (chars "H3AVG") 180 (chars "r/" ++ top) :: replicate 8 zero_entry).

Definition s_Client_Settings : client_mode_settings :=
  mkClient WIFI (mkWifi (strncpy [] SSID_SIZE) (strncpy [] PASSWORD_SIZE) 0 default_ipv4) default_ipv4
    (mkMqtt (strncpy [] BROKER_SIZE) 1883 (strncpy [] USERNAME_SIZE) (strncpy [] PASSWORD_SIZE)) (strncpy [] SETTINGS_PASSWORD_SIZE)
    [default_sensor true (chars "123"); default_sensor false (chars "456"); default_sensor false (chars "789")].

(** ** What the rest of the program needs of them *)

Lemma default_ipv4_typed : ipv4_typed default_ipv4.
Proof. by split. Qed.

Ltac text_in := apply strncpy_field; [done|decided].

Lemma default_entry_typed nam cnt top : Forall is_u8 nam → Forall is_u8 top → is_int cnt → entry_typed (default_entry nam cnt top).
Proof. intros. split; cbn [default_entry name ps_start ps_end scale avg_cnt ps_topic]; try done; by apply strncpy_field. Qed.

Lemma default_sensor_typed on top : Forall is_u8 top → sensor_typed (default_sensor on top).
Proof.
  intros H. split; [done|done|]. cbn [publish_settings default_sensor]. apply Forall_cons. split; [apply default_entry_typed; [decided|done|done]|].
  apply Forall_cons. split; [apply default_entry_typed; [decided|apply Forall_app_2; [decided|done]|done]|].
  apply Forall_replicate. split; cbn [zero_entry name ps_start ps_end scale avg_cnt ps_topic]; first [text_in | done].
Qed.

(** They are well-formed. *)
Lemma factory_typed : typed s_Client_Settings.
Proof.
  split; cbn [wifi eth mqtt password sensor_settings s_Client_Settings]; [| | |text_in|done|].
  - split; cbn [ssid wifi_password auth_mode wifi_ipv4]; [text_in|text_in|done|apply default_ipv4_typed].
  - apply default_ipv4_typed.
  - split; cbn [broker port username mqtt_password]; [text_in|done|text_in|text_in].
  - repeat (apply Forall_cons; split; [apply default_sensor_typed; decided|]). apply Forall_nil_2.
Qed.

(** There is no network to join yet. *)
Lemma factory_unset : conn_type s_Client_Settings = WIFI ∧ rd (ssid (wifi s_Client_Settings)) 0 = Ok 0.
Proof. done. Qed.

(** The sensors find what they suppose of their settings. *)
Lemma factory_sensor_settings serializeJson junk_msg junk_ws ss : ss ∈ map publish_settings (sensor_settings s_Client_Settings) →
  zlen (MqttTask.topic junk_msg) = MqttTask.MQTT_MAX_TOPIC_LENGTH → zlen (MqttTask.payload junk_msg) = MqttTask.MQTT_MAX_PAYLOAD_LENGTH →
  zlen junk_ws = WS_MAX_PAYLOAD_LENGTH → (∀ doc, zlen (serializeJson doc WS_MAX_PAYLOAD_LENGTH) <= WS_MAX_PAYLOAD_LENGTH) →
  sizes_ok serializeJson junk_msg junk_ws ss.
Proof.
  intros H ? ? ? ?.
  assert (Hs : Forall (λ ss, length ss = MAX_PUBLISH_SETTINGS ∧ Forall (λ ps, 0 <= ps_start ps) ss ∧
    Forall (λ ps, 0 ∈ name ps ∧ 0 ∈ ps_topic ps) ss) (map publish_settings (sensor_settings s_Client_Settings))) by decided.
  rewrite Forall_forall in Hs. destruct (Hs ss H) as (? & ? & ?). by constructor.
Qed.
