(* ===== verification/StartupModes.v ===== *)
(** What start-up does: one mode or the other, the access point by its settings, the station joined again whenever its
    link is lost, the numbers of the sensors. *)
From S2P Require Import Prelude CString StateMonad Settings SettingsForm Startup Factory.

Section Modes.
Context {W : Type} {board : Board W} {modes : AuthModes}.
Context (ap_settings : ap_mode_settings) (client_settings : client_mode_settings) (junk_ssid : list Z).
Implicit Types (s : device (W := W)).

(** ** The actions of a computation *)

(** Everything that [m] does satisfies [P]; it leaves the mode alone. *)
Definition does {A} (m : ST device A) (P : action → Prop) : Prop := ∀ s a s', m s = Ok (a, s') →
  ∃ tr, trace s' = trace s ++ tr ∧ Forall (λ x, P x.1) tr ∧ initial_config s' = initial_config s.

Lemma doing_nothing {A} (m : ST device A) P :
  (∀ s a s', m s = Ok (a, s') → trace s' = trace s ∧ initial_config s' = initial_config s) → does m P.
Proof. intros H s a s' E. destruct (H s a s' E) as [Et Ei]. exists []. rewrite app_nil_r. auto. Qed.

Lemma doing_ret {A} (a : A) P : does (mret a) P.
Proof. apply doing_nothing. by intros s b s' [= _ <-]. Qed.

Lemma doing_lift {A} (m : outcome A) P : does (lift m) P.
Proof. apply doing_nothing. intros s b s' [_ ->]%lift_inv. done. Qed.

Lemma doing_gets {A} (f : device → A) P : does (gets f) P.
Proof. apply doing_nothing. by intros s b s' [= _ <-]. Qed.

Lemma doing_fuel {A} P : does (A := A) out_of_fuel P.
Proof. done. Qed.

Lemma doing_act a (P : action → Prop) : P a → does (act a) P.
Proof.
  intros HP s r s'. unfold act. destruct (perform a (world s)) as [r1 w]. intros [= <- <-]. exists [(a, r1)]. cbn. auto.
Qed.

Lemma doing_bind {A B} (m : ST device A) (f : A → ST device B) P : does m P → (∀ a, does (f a) P) → does (m ≫= f) P.
Proof.
  intros Hm Hf s b s' (a & s1 & E1 & E2)%st_bind_inv. destruct (Hm _ _ _ E1) as (t1 & T1 & F1 & I1).
  destruct (Hf _ _ _ _ E2) as (t2 & T2 & F2 & I2). exists (t1 ++ t2). rewrite T2, T1, <- app_assoc, Forall_app. split_and!; congruence.
Qed.

Lemma doing_mono {A} (m : ST device A) (P Q : action → Prop) : does m P → (∀ a, P a → Q a) → does m Q.
Proof. intros H HPQ s a s' E. destruct (H _ _ _ E) as (t & T & F & I). exists t. split_and!; try done. eapply Forall_impl; [exact F|]. auto. Qed.

Lemma doing_if {A} (b : bool) (m1 m2 : ST device A) P : does m1 P → does m2 P → does (if b then m1 else m2) P.
Proof. by destruct b. Qed.
End Modes.

Create HintDb does.
#[export] Hint Resolve doing_ret doing_lift doing_gets doing_fuel doing_act doing_if : does.
#[export] Hint Extern 2 (does (_ ≫= _) _) => apply doing_bind; [|intros ?] : does.
#[export] Hint Extern 1 (does (match ?x with _ => _ end) _) => destruct x : does.


(** All actions of a computation that calls nothing without its own [does]. *)
Ltac acts := repeat (first [match goal with H : _ |- does _ _ => solve [apply H] end | apply doing_bind; [|intros ?] | case_match | progress cbn [mbind outcome_bind]]);
  try (by auto with does); try (by apply doing_act).

Section Boot.
Context {W : Type} {board : Board W} {modes : AuthModes}.
Context (ap_settings : ap_mode_settings) (client_settings : client_mode_settings) (junk_ssid : list Z).
Implicit Types (s : device (W := W)).

(** What belongs to one mode only. *)
Definition is_client_action (a : action) : bool :=
  match a with
  | cyw43_arch_wifi_connect_timeout_ms _ _ _ _ | enc28j60_driver_os_init _ _ _ | dhcp_start _ | mqtt_init | netif_set_link_down => true
  | _ => false
  end.
Definition is_config_action (a : action) : bool :=
  match a with
  | cyw43_arch_enable_ap_mode _ _ _ | dhcp_server_init _ _ _ | dns_server_init _ _ _ _ _ | set_secondary_ip_address _ => true
  | _ => false
  end.

Definition common (a : action) : Prop := is_client_action a = false ∧ is_config_action a = false.
Definition client_only (a : action) : Prop := is_config_action a = false.
Definition config_only (a : action) : Prop := is_client_action a = false.

Lemma common_client a : common a → client_only a. Proof. by intros []. Qed.
Lemma common_config a : common a → config_only a. Proof. by intros []. Qed.

Lemma scan_wait_does fuel P : P cyw43_wifi_scan_active → (∀ n, P (vTaskDelay n)) → does (scan_wait (board := board) fuel) P.
Proof. intros ? ?. induction fuel; cbn [scan_wait]; auto 10 with does. Qed.

Lemma wait_address_does fuel i P : P (ip_addr i) → (∀ n, P (sleep_ms n)) → does (wait_address (board := board) fuel i) P.
Proof. intros ? ?. induction fuel; cbn [wait_address]; auto 10 with does. Qed.

Lemma wifi_connect_does fuel : does (wifi_connect client_settings fuel) client_only.
Proof.
  unfold wifi_connect. pose proof (wait_address_does fuel sta client_only eq_refl ltac:(done)).
  acts.
Qed.

Lemma ethernet_connect_does fuel : does (ethernet_connect client_settings fuel) client_only.
Proof. unfold ethernet_connect. pose proof (wait_address_does fuel ethernet client_only eq_refl ltac:(done)). acts. Qed.

Lemma start_client_mode_does fuel : does (start_client_mode client_settings fuel) client_only.
Proof. unfold start_client_mode. pose proof (wifi_connect_does fuel). pose proof (ethernet_connect_does fuel). acts. Qed.

Lemma start_config_mode_does : does (start_config_mode ap_settings junk_ssid) config_only.
Proof. unfold start_config_mode. acts. Qed.

Lemma start_sensor_does uart tx rx baud : does (start_sensor (board := board) uart tx rx baud) common.
Proof. unfold start_sensor. acts. apply doing_nothing. by intros ? ? ? [= _ <-]. Qed.

Lemma start_sensors_does : does (start_sensors client_settings) common.
Proof.
  assert (H : ∀ o u t r, does (start_sensor_if (board := board) o u t r) common).
  { intros. unfold start_sensor_if. pose proof start_sensor_does. acts. }
  unfold start_sensors. acts.
Qed.

Lemma reconnect_does fuel waits : does (reconnect client_settings fuel waits) client_only.
Proof. pose proof (wifi_connect_does waits). induction fuel; cbn [reconnect]; acts. Qed.

(** A turn of the loop keeps to its mode. *)
Definition mode_only (config : bool) (a : action) : Prop := if config then config_only a else client_only a.

Lemma monitor_does fuel s a s' : monitor client_settings fuel s = Ok (a, s') →
  ∃ tr, trace s' = trace s ++ tr ∧ Forall (λ x, mode_only (initial_config s) x.1) tr ∧ initial_config s' = initial_config s.
Proof.
  unfold monitor, gets. unfold mbind at 1, st_bind. pose proof (reconnect_does fuel fuel).
  destruct (initial_config s) eqn:Ei; intros E.
  - assert (D : does (act (gpio_put true);; act (vTaskDelay (pdMS_TO_TICKS 500));; act (gpio_put false);;
      act (vTaskDelay (pdMS_TO_TICKS 500));; mret tt) config_only) by acts. destruct (D _ _ _ E) as (t & T & F & I). exists t. split; [done|]. split; [exact F|congruence].
  - match type of E with ?m s = _ => assert (D : does m client_only) by acts end.
    destruct (D _ _ _ E) as (t & T & F & I). exists t. split; [done|]. split; [exact F|congruence].
Qed.

Lemma monitor_loop_does fuel turns s a s' : monitor_loop client_settings fuel turns s = Ok (a, s') →
  ∃ tr, trace s' = trace s ++ tr ∧ Forall (λ x, mode_only (initial_config s) x.1) tr ∧ initial_config s' = initial_config s.
Proof.
  revert s. induction turns as [|turns IH]; intros s; cbn [monitor_loop]; [intros [= _ <-]; exists []; by rewrite app_nil_r|].
  intros (u & s1 & E1 & E2)%st_bind_inv. destruct (monitor_does _ _ _ _ E1) as (t1 & T1 & F1 & I1).
  destruct (IH _ E2) as (t2 & T2 & F2 & I2). rewrite I1 in *. exists (t1 ++ t2). rewrite T2, T1, <- app_assoc, Forall_app. done.
Qed.

(** Whether there is no Wi-Fi network to join. *)
Definition unconfigured : bool :=
  match conn_type client_settings with WIFI => bool_decide (rd (ssid (wifi client_settings)) 0 = Ok 0) | ETHERNET => false end.

Lemma start_hardware_does fuel : does (start_hardware (board := board) fuel) common.
Proof.
  unfold start_hardware, wifi_networks_scan. pose proof (scan_wait_does fuel common (conj eq_refl eq_refl) (λ n, conj eq_refl eq_refl)). acts.
Qed.

Lemma start_servers_does : does (start_servers ap_settings) common.
Proof. unfold start_servers. acts. Qed.

Lemma choose_mode_does s a s' : choose_mode client_settings s = Ok (a, s') →
  trace s' = trace s ∧ initial_config s' = initial_config s || unconfigured.
Proof.
  unfold choose_mode, unconfigured. destruct (conn_type client_settings); [|intros [= _ <-]; by rewrite orb_false_r].
  intros (c & s1 & [Ec ->]%lift_inv & E)%st_bind_inv. rewrite Ec.
  destruct (Z.eqb_spec c 0) as [->|Hne]; injection E as _ <-; cbn [trace initial_config].
  - by rewrite bool_decide_true, orb_true_r.
  - rewrite bool_decide_false by congruence. by rewrite orb_false_r.
Qed.

Lemma start_hardware_up fuel s up s' : start_hardware fuel s = Ok (up, s') → fst (perform cyw43_arch_init (world s)) = 0 → up = true.
Proof.
  unfold start_hardware. intros (r & s1 & E1 & E)%st_bind_inv H0. unfold act in E1. rewrite (surjective_pairing (perform _ _)), H0 in E1.
  injection E1 as <- _. cbn [Z.eqb negb] in E.
  match type of E with ?m s1 = _ => assert (R : results m (λ b, b = true)) end; [|exact (R _ _ _ E)].
  repeat (apply results_bind with (λ _, True); [apply results_any|intros ? _]). by apply results_ret.
Qed.

Lemma mode_only_common config a : common a → mode_only config a.
Proof. intros []. by destruct config. Qed.

(** Two parts of a computation, one after the other. *)
Lemma does_then {A} s (m : ST device A) s1 a P tr (Q : action → Prop) : m s = Ok (a, s1) → does m P → (∀ x, P x → Q x) →
  Forall (λ x : action * Z, Q x.1) tr →
  ∃ tr', trace s1 = trace s ++ tr' ∧ Forall (λ x, Q x.1) (tr ++ tr') ∧ initial_config s1 = initial_config s.
Proof.
  intros E D HPQ Htr. destruct (doing_mono _ _ Q D HPQ _ _ _ E) as (t & T & F & I). exists t. rewrite Forall_app. auto.
Qed.

(** C12: The device is in one mode.  When start-up gets past the Wi-Fi chip, it is in the configuration mode exactly when
    the button is held or there is no Wi-Fi network to join; then it never joins a network and starts no MQTT client, and
    otherwise it never opens an access point, serves no addresses and no names and has no secondary address - in
    start-up and in every turn of the loop, however often the station has to be joined again. *)
Theorem modes_are_exclusive fuel turns s s' :
  main_task ap_settings client_settings junk_ssid fuel turns s = Ok (tt, s') →
  ∃ tr, trace s' = trace s ++ tr ∧
    (fst (perform cyw43_arch_init (world s)) = 0 → initial_config s' = initial_config s || unconfigured) ∧
    Forall (λ x, mode_only (initial_config s') x.1) tr.
Proof.
  unfold main_task. intros (up & s1 & E1 & E)%st_bind_inv.
  destruct (start_hardware_does _ _ _ _ E1) as (t1 & T1 & F1 & I1).
  assert (C : ∀ config, Forall (λ x : action * Z, mode_only config x.1) t1).
  { intros. eapply Forall_impl; [exact F1|]. intros x. apply mode_only_common. }
  destruct up; cbn [negb] in E.
  2: { injection E as <-. exists t1. split; [done|]. split; [|apply C]. intros H0. by specialize (start_hardware_up _ _ _ _ E1 H0). }
  apply st_bind_inv in E as ([] & s2 & E2 & E). destruct (choose_mode_does _ _ _ E2) as [T2 I2].
  apply st_bind_inv in E as ([] & s3 & E3 & E). rewrite I1 in I2.
  unfold gets in E. unfold mbind at 1, st_bind in E.
  destruct (does_then s2 _ s3 tt common t1 (mode_only (initial_config s3)) E3 start_servers_does) as (t3 & T3 & F3 & I3); [apply mode_only_common|apply C|].
  set (config := initial_config s3) in *.
  apply st_bind_inv in E as ([] & s4 & E4 & E).
  assert (D4 : does (if config then start_config_mode ap_settings junk_ssid else start_client_mode client_settings fuel) (mode_only config)).
  { destruct config; [apply start_config_mode_does|apply start_client_mode_does]. }
  destruct (does_then s3 _ s4 tt _ _ _ E4 D4 (λ _ H, H) F3) as (t4 & T4 & F4 & I4).
  apply st_bind_inv in E as (r5 & s5 & E5 & E). apply st_bind_inv in E as (r6 & s6 & E6 & E). apply st_bind_inv in E as ([] & s7 & E7 & E).
  assert (D5 : does (act (board := board) gpio_init) common) by (by apply doing_act).
  assert (D6 : does (act (board := board) gpio_set_dir) common) by (by apply doing_act).
  destruct (does_then s4 _ s5 r5 _ _ _ E5 D5 (mode_only_common config) F4) as (t5 & T5 & F5 & I5).
  destruct (does_then s5 _ s6 r6 _ _ _ E6 D6 (mode_only_common config) F5) as (t6 & T6 & F6 & I6).
  destruct (does_then s6 _ s7 tt _ _ _ E7 start_sensors_does (mode_only_common config) F6) as (t7 & T7 & F7 & I7).
  destruct (monitor_loop_does _ _ _ _ _ E) as (t8 & T8 & F8 & I8).
  assert (Ic : initial_config s7 = config) by (by rewrite I7, I6, I5, I4). rewrite Ic in *. rewrite I8.
  exists (((((t1 ++ t3) ++ t4) ++ t5) ++ t6) ++ t7 ++ t8). split; [by rewrite T8, T7, T6, T5, T4, T3, T2, T1, !app_assoc|].
  split; [intros _; by rewrite <- I2, <- I3|]. rewrite app_assoc. apply Forall_app. done.
Qed.
End Boot.

(** ** An example: a board on which the next attempts and polls, as many as its state says, are in vain *)

#[export] Instance flaky : Board nat := {|
  perform a n :=
    match a with
    | cyw43_arch_wifi_connect_timeout_ms _ _ _ _ => (if bool_decide (n = 0%nat) then 0 else -2, pred n)
    | cyw43_wifi_link_status => (if bool_decide (n = 0%nat) then 1 else 0, pred n)
    | ip_addr _ => (if bool_decide (n = 0%nat) then 0x1004A8C0 else 0, pred n)
    | cyw43_wifi_get_mac _ => (0xAB, n)
    | _ => (0, n)
    end;
  CYW43_LINK_JOIN := 1;
|}.

Definition demo_start (n : nat) (button : bool) : device (W := nat) := mkDevice n [] button 0.

(** The device of the example settings, that are for Wi-Fi. *)
Abbreviation demo_run button := (main_task s_Settings demo_stored (replicate 32 0) 20 2 (demo_start 5 button)).

Definition acts_by (f : action → bool) (tr : list (action * Z)) : bool := existsb (λ x, f x.1) tr.

Lemma modes_are_exclusive_witness : ∃ s1 s2, demo_run true = Ok (tt, s1) ∧ demo_run false = Ok (tt, s2) ∧
  Forall (λ x, config_only x.1) (trace s1) ∧ Forall (λ x, client_only x.1) (trace s2) ∧
  acts_by is_config_action (trace s1) = true ∧ acts_by is_client_action (trace s2) = true.
Proof.
  assert (A1 : match demo_run true with Ok (_, s) => acts_by is_config_action (trace s) = true | _ => False end) by (by vm_compute).
  assert (A2 : match demo_run false with Ok (_, s) => acts_by is_client_action (trace s) = true | _ => False end) by (by vm_compute).
  destruct (demo_run true) as [[[] s1]| |] eqn:E1; [|destruct A1..].
  destruct (demo_run false) as [[[] s2]| |] eqn:E2; [|destruct A2..].
  exists s1, s2. split; [reflexivity|]. split; [reflexivity|].
  destruct (modes_are_exclusive s_Settings demo_stored (replicate 32 0) 20 2 (demo_start 5 true) s1 E1) as (t1 & T1 & I1 & F1).
  destruct (modes_are_exclusive s_Settings demo_stored (replicate 32 0) 20 2 (demo_start 5 false) s2 E2) as (t2 & T2 & I2 & F2).
  specialize (I1 eq_refl). specialize (I2 eq_refl). assert (U : unconfigured demo_stored = false) by (by vm_compute).
  rewrite U in I1, I2. cbn [demo_start trace initial_config app orb] in T1, T2, I1, I2. rewrite I1, <- T1 in F1. rewrite I2, <- T2 in F2.
  split; [exact F1|]. split; [exact F2|]. by split.
Defined.
