(* ===== verification/StartupLinks.v ===== *)
(** Start-up: what it brings about.  The access point by its settings, the station joined again when its link is lost,
    the settings that each sensor gets, and an Ethernet controller that is not there. *)
From S2P Require Import Prelude CString StateMonad Settings SettingsForm Startup StartupModes.

(** A board on which nothing fails for ever: at most [patience] more attempts to join, polls of the link or of an
    address, or polls of a scan, are in vain. *)
Class Patient (W : Type) `{Board W} := {
  patience : W → nat;
  patience_mono a w : (patience (snd (perform a w)) ≤ patience w)%nat;
  patience_connect s p m t w : fst (perform (cyw43_arch_wifi_connect_timeout_ms s p m t) w) ≠ 0 →
    (patience (snd (perform (cyw43_arch_wifi_connect_timeout_ms s p m t) w)) < patience w)%nat;
  patience_link w : fst (perform cyw43_wifi_link_status w) ≠ CYW43_LINK_JOIN →
    (patience (snd (perform cyw43_wifi_link_status w)) < patience w)%nat;
  patience_scan w : fst (perform cyw43_wifi_scan_active w) ≠ 0 → (patience (snd (perform cyw43_wifi_scan_active w)) < patience w)%nat;
  patience_addr i w : fst (perform (ip_addr i) w) = 0 → (patience (snd (perform (ip_addr i) w)) < patience w)%nat;
}.

Section Links.
Context {W : Type} {board : Board W} {modes : AuthModes}.
Context (ap_settings : ap_mode_settings) (client_settings : client_mode_settings) (junk_ssid : list Z).
Implicit Types (s : device (W := W)).

(** The last answer about the link. *)
Definition last_link (tr : list (action * Z)) : option Z :=
  foldl (λ o x, match x.1 with cyw43_wifi_link_status => Some x.2 | _ => o end) None tr.

Lemma last_link_app tr a r : last_link (tr ++ [(a, r)]) =
  match a with cyw43_wifi_link_status => Some r | _ => last_link tr end.
Proof. unfold last_link. rewrite foldl_app. by destruct a. Qed.

(** An action takes place. *)
Definition acted (a : action) s : device :=
  mkDevice (snd (perform a (world s))) (trace s ++ [(a, fst (perform a (world s)))]) (initial_config s) (next_sensor_num s).

Lemma wp_act a Q s : Q (fst (perform a (world s))) (acted a s) → wp (act a) Q s.
Proof. unfold wp, act, acted. by destruct (perform a (world s)). Qed.

Lemma wp_act_bind {A} a (f : Z → ST device A) Q s : wp (f (fst (perform a (world s)))) Q (acted a s) → wp (act a ≫= f) Q s.
Proof. intros H. by apply wp_bind, wp_act. Qed.

Context {patient : Patient W}.

(** What an action keeps: the mode, the last answer about the link if it is no question about it; it costs no patience. *)
Definition keeps s s' : Prop := initial_config s' = initial_config s ∧ (patience (world s') ≤ patience (world s))%nat.

Lemma acted_keeps a s : keeps s (acted a s).
Proof. split; [done|apply patience_mono]. Qed.

Lemma keeps_acted a s s' : keeps s s' → keeps s (acted a s').
Proof. intros [H1 H2]. destruct (acted_keeps a s') as [H3 H4]. split; [congruence|lia]. Qed.

Lemma last_link_acted a s : a ≠ cyw43_wifi_link_status → last_link (trace (acted a s)) = last_link (trace s).
Proof. intros H. unfold acted. cbn [trace]. rewrite last_link_app. by destruct a. Qed.

Lemma wait_address_joins fuel i s link : (patience (world s) < fuel)%nat → last_link (trace s) = Some link →
  wp (wait_address fuel i) (λ _ s', keeps s s' ∧ last_link (trace s') = Some link) s.
Proof.
  revert s. induction fuel as [|fuel IH]; intros s Hp Hl; [lia|]. cbn [wait_address]. apply wp_act_bind.
  destruct (acted_keeps (ip_addr i) s) as [Hi Hm].
  destruct (Z.eqb_spec (fst (perform (ip_addr i) (world s))) 0) as [E|].
  - pose proof (patience_addr i (world s) E) as Hlt. change (snd (perform (ip_addr i) (world s))) with (world (acted (ip_addr i) s)) in Hlt.
    apply wp_act_bind. set (s1 := acted (sleep_ms 1000) _). destruct (acted_keeps (sleep_ms 1000) (acted (ip_addr i) s)) as [Hi1 Hm1].
    eapply wp_mono; [apply (IH s1)|].
    + unfold s1. lia.
    + unfold s1, acted. cbn [trace]. by rewrite !last_link_app.
    + intros _ s' [[Hi' Hm'] Hl']. split; [|done]. split; [by rewrite Hi'|]. unfold s1 in *. lia.
  - apply wp_ret. split; [done|]. unfold acted. cbn [trace]. by rewrite last_link_app.
Qed.

(** An attempt to join: it succeeds, and the last answer was that the link is joined, or patience was lost. *)
Lemma wifi_connect_joins fuel s : (patience (world s) < fuel)%nat →
  wp (wifi_connect client_settings fuel) (λ ok s', keeps s s' ∧
    if ok then last_link (trace s') = Some CYW43_LINK_JOIN else (patience (world s') < patience (world s))%nat) s.
Proof.
  intros Hp. unfold wifi_connect. set (w := wifi client_settings). set (a := cyw43_arch_wifi_connect_timeout_ms _ _ _ _).
  apply wp_act_bind. destruct (acted_keeps a s) as [Hi Hm].
  destruct (Z.eqb_spec (fst (perform a (world s))) 0) as [_|Hne].
  2: { apply wp_ret. split; [done|]. by apply patience_connect. }
  apply wp_act_bind. set (s1 := acted a s) in *. set (s2 := acted cyw43_wifi_link_status s1). destruct (acted_keeps cyw43_wifi_link_status s1) as [Hi2 Hm2].
  fold s2 in Hi2, Hm2.
  destruct (Z.eqb_spec (fst (perform cyw43_wifi_link_status (world s1))) CYW43_LINK_JOIN) as [Ej|Hne].
  2: { apply wp_ret. split; [split; [by rewrite Hi2|lia]|]. apply patience_link in Hne.
       change (snd (perform cyw43_wifi_link_status (world s1))) with (world s2) in Hne. lia. }
  assert (Hl : last_link (trace s2) = Some CYW43_LINK_JOIN) by (unfold s2, acted; cbn [trace]; by rewrite last_link_app, Ej).
  apply wp_bind. destruct (dhcp (wifi_ipv4 w)).
  - eapply wp_mono; [apply (wait_address_joins fuel sta s2 CYW43_LINK_JOIN); [lia|done]|].
    intros _ s' [[Hi' Hm'] Hl']. apply wp_ret. split; [|done]. split; [congruence|lia].
  - do 5 apply wp_act_bind. apply wp_ret, wp_ret. rewrite !last_link_acted by done. split; [|done].
    repeat apply keeps_acted. split; [congruence|lia].
Qed.

Lemma reconnect_joins fuel waits s : (patience (world s) < fuel)%nat → (patience (world s) < waits)%nat →
  wp (reconnect client_settings fuel waits) (λ _ s', keeps s s' ∧ last_link (trace s') = Some CYW43_LINK_JOIN) s.
Proof.
  revert s. induction fuel as [|fuel IH]; intros s Hf Hw; [lia|]. cbn [reconnect]. apply wp_bind.
  eapply wp_mono; [by apply wifi_connect_joins|]. intros [] s1 [[Hi Hm] H1]; [by apply wp_ret|].
  apply wp_act_bind. destruct (acted_keeps (vTaskDelay (pdMS_TO_TICKS WIFI_RECONNECT_DELAY_MS)) s1) as [Hi2 Hm2].
  eapply wp_mono; [apply IH; lia|]. intros _ s' [[Hi' Hm'] Hl]. split; [|done]. split; [congruence|lia].
Qed.

Lemma monitor_joins fuel s : initial_config s = false → conn_type client_settings = WIFI → (patience (world s) < fuel)%nat →
  wp (monitor client_settings fuel) (λ _ s', keeps s s' ∧ last_link (trace s') = Some CYW43_LINK_JOIN) s.
Proof.
  intros Hc Hw Hf. unfold monitor. apply wp_bind, wp_gets. rewrite Hc, Hw. apply wp_bind, wp_act_bind.
  set (s1 := acted cyw43_wifi_link_status s). destruct (acted_keeps cyw43_wifi_link_status s) as [Hi Hm]. fold s1 in Hi, Hm.
  destruct (Z.eqb_spec (fst (perform cyw43_wifi_link_status (world s))) CYW43_LINK_JOIN) as [E|_].
  - apply wp_ret, wp_act_bind, wp_ret. rewrite last_link_acted by done. split; [by apply keeps_acted|].
    unfold s1, acted. cbn [trace]. by rewrite last_link_app, E.
  - apply wp_act_bind. destruct (acted_keeps netif_set_link_down s1) as [Hi2 Hm2]. eapply wp_mono; [apply reconnect_joins; lia|].
    intros _ s2 [[Hi' Hm'] Hl]. apply wp_act_bind, wp_ret. rewrite last_link_acted by done. split; [|done].
    apply keeps_acted. split; [congruence|lia].
Qed.

(** C13: In the client mode with Wi-Fi, a turn of the loop of [main_task] ends, and it ends with the station joined: when
    the link was lost the station tries to join, every five seconds, until it has succeeded and has its address - provided
    that the network comes back, that is, only finitely many attempts and polls fail. *)
Theorem station_is_joined_again fuel s : initial_config s = false → conn_type client_settings = WIFI →
  (patience (world s) < fuel)%nat →
  ∃ s', monitor client_settings fuel s = Ok (tt, s') ∧ last_link (trace s') = Some CYW43_LINK_JOIN ∧ initial_config s' = false.
Proof.
  intros Hc Hw Hf. destruct (wp_inv _ _ _ (monitor_joins fuel s Hc Hw Hf)) as ([] & s' & E & [Hi _] & Hl).
  exists s'. split; [done|]. split; [done|congruence].
Qed.

(** ** Sensors *)

Definition started (tr : list (action * Z)) : list (Z * Z) :=
  omap (λ x, match x.1 with sensor_init uart n => Some (uart, n) | _ => None end) tr.

Lemma act_acted a s : act a s = Ok (fst (perform a (world s)), acted a s).
Proof. unfold act, acted. by destruct (perform a (world s)). Qed.

Lemma started_acted a s : started (trace (acted a s)) =
  started (trace s) ++ match a with sensor_init uart n => [(uart, n)] | _ => [] end.
Proof. unfold started, acted. cbn [trace]. rewrite omap_app. f_equal. by destruct a. Qed.

Lemma start_sensor_if_started e uart tx rx s : ∃ s', start_sensor_if (Some e) uart tx rx s = Ok (tt, s') ∧
  started (trace s') = started (trace s) ++ (if s_enabled e then [(uart, next_sensor_num s)] else []) ∧
  next_sensor_num s' = if s_enabled e then next_sensor_num s + 1 else next_sensor_num s.
Proof.
  unfold start_sensor_if. rewrite (st_bind_Ok _ _ s e s) by done. destruct (s_enabled e); [|exists s; by rewrite app_nil_r].
  unfold start_sensor. rewrite !(st_bind_Ok _ _ _ _ _ (act_acted _ _)). set (s1 := acted (serial_set_timeout _ _) _).
  rewrite (st_bind_Ok _ _ s1 (next_sensor_num s) s1) by done. set (s2 := mkDevice (world s1) (trace s1) (initial_config s1) (next_sensor_num s + 1)).
  rewrite (st_bind_Ok _ _ s1 tt s2) by done. rewrite (st_bind_Ok _ _ _ _ _ (act_acted _ _)). eexists. split; [done|]. split; [|done].
  rewrite started_acted. cbn [s2 trace]. unfold s1. by rewrite !started_acted, !app_nil_r.
Qed.

(** The UARTs, by the number of the sensor they are meant for. *)
Definition sensor_uarts : list Z := [0; 2; 3].

Definition own_number (x : Z * Z) : Prop := sensor_uarts !! Z.to_nat x.2 = Some x.1.

(** C37: Every sensor that is started works with the settings of its own input exactly when no enabled sensor follows a
    disabled one.  Sensors are numbered in the order they are started, and take the settings of their number: otherwise
    one reads its input at the rate of its own settings and publishes by those of another. *)
Theorem sensors_use_their_settings_iff a b c s : sensor_settings client_settings = [a; b; c] → next_sensor_num s = 0 →
  ∃ s' new, start_sensors client_settings s = Ok (tt, s') ∧ started (trace s') = started (trace s) ++ new ∧
    (Forall own_number new ↔ (s_enabled b = true → s_enabled a = true) ∧ (s_enabled c = true → s_enabled a = true ∧ s_enabled b = true)).
Proof.
  intros Hs Hn. unfold start_sensors. rewrite Hs.
  destruct (start_sensor_if_started a 0 0 1 s) as (s1 & E1 & T1 & N1).
  destruct (start_sensor_if_started b 2 2 3 s1) as (s2 & E2 & T2 & N2).
  destruct (start_sensor_if_started c 3 6 7 s2) as (s3 & E3 & T3 & N3).
  rewrite N1, Hn in N2. rewrite N1, Hn in T2. rewrite N2 in T3. rewrite Hn in T1.
  exists s3. eexists. split.
  - rewrite (st_bind_Ok _ _ _ _ _ E1), (st_bind_Ok _ _ _ _ _ E2). exact E3.
  - split; [rewrite T3, T2, T1, <- !app_assoc; reflexivity|].
    destruct (s_enabled a), (s_enabled b), (s_enabled c); cbn [app]; rewrite ?Forall_cons, ?Forall_nil; clear; vm_compute; intuition congruence.
Qed.

(** ** Ethernet *)

(** Without the controller no address ever comes: start-up waits for ever, and neither MQTT nor a sensor is started. *)
Lemma ethernet_waits_for_ever fuel s : conn_type client_settings = ETHERNET → dhcp (eth client_settings) = true →
  (∀ w, fst (perform (ip_addr ethernet) w) = 0) → start_client_mode client_settings fuel s = OutOfFuel.
Proof.
  intros Hc Hd H0. assert (Hw : ∀ n t, wait_address n ethernet t = OutOfFuel).
  { induction n as [|n IH]; intros t; cbn [wait_address]; [done|]. rewrite (st_bind_Ok _ _ _ _ _ (act_acted _ _)), H0, Z.eqb_refl.
    by rewrite (st_bind_Ok _ _ _ _ _ (act_acted _ _)). }
  unfold start_client_mode, ethernet_connect. rewrite Hc, Hd.
  unfold mbind, st_bind. rewrite !act_acted. by rewrite Hw.
Qed.

(** ** The access point *)

(** What the configuration mode does; [mac]: the last byte of the station's address. *)
Definition config_actions (name : list Z) (open : bool) : list action :=
  [cyw43_wifi_get_mac 5;
   cyw43_arch_enable_ap_mode name (ap_password ap_settings) (if open then CYW43_AUTH_OPEN else CYW43_AUTH_WPA2_MIXED_PSK);
   netif_set_addr ap (ap_ip ap_settings) (ap_nm ap_settings) (ap_ip ap_settings);
   dhcp_server_init (ap_ip ap_settings) (ap_nm ap_settings) (ap_domain_name ap_settings);
   dns_server_init (ap_ip ap_settings) (secondary_address ap_settings) (ap_hostname ap_settings) (ap_domain_name ap_settings)
     (dns_ignores_network_suffix ap_settings);
   set_secondary_ip_address (secondary_address ap_settings)].

Lemma start_config_mode_actions ssid0 c s : zlen junk_ssid = 32 → c_str (ap_ssid ap_settings) = Ok ssid0 → zlen ssid0 < 28 →
  no_nul ssid0 → rd (ap_password ap_settings) 0 = Ok c →
  ∃ mac name s', start_config_mode ap_settings junk_ssid s = Ok (tt, s') ∧ c_str name = Ok (ssid0 ++ chars "-" ++ hex_byte (u8 mac)) ∧
    map fst (trace s') = map fst (trace s) ++ config_actions name (c =? 0).
Proof.
  intros Hj Hs Hl Hn Hc. unfold start_config_mode. rewrite (st_bind_Ok _ _ _ _ _ (act_acted _ _)).
  set (mac := fst _). exists mac. set (text := ssid0 ++ chars "-" ++ hex_byte (u8 mac)).
  assert (Ht : no_nul text).
  { unfold text, no_nul. rewrite !Forall_app. split; [done|]. split; [by repeat constructor|].
    pose proof (u8_range mac) as Hu. revert Hu. generalize (u8 mac). intros b Hb.
    assert (E : forallb (λ b, forallb (λ c, negb (c =? 0)) (hex_byte b)) (seqZ 0 256) = true) by (by vm_compute).
    pose proof (byte_check _ E b Hb) as E'. cbn beta in E'. rewrite forallb_forall in E'. rewrite Forall_forall. intros x Hx.
    specialize (E' x ltac:(by apply list_elem_of_In)). rewrite negb_true_iff in E'. by apply Z.eqb_neq. }
  destruct (snprintf_truncates junk_ssid 32 text) as (name & En & Ecs & _); [lia|lia|done|]. exists name.
  set (s1 := acted _ s). rewrite (st_bind_Ok _ _ s1 name s1).
  2: { unfold lift, ap_name. rewrite Hs. cbn [mbind outcome_bind]. fold text. by rewrite En. }
  rewrite (st_bind_Ok _ _ s1 c s1) by (unfold lift; by rewrite Hc).
  rewrite !(st_bind_Ok _ _ _ _ _ (act_acted _ _)). eexists. split; [done|]. split.
  - rewrite Ecs. f_equal. apply take_ge. unfold text. rewrite !length_app. cbn. lia.
  - unfold acted. cbn [trace]. unfold s1, acted. cbn [trace]. rewrite !map_app, <- !app_assoc. cbn. by destruct (c =? 0).
Qed.
End Links.

(** ** Examples *)

#[export] Instance flaky_patient : Patient nat.
Proof.
  refine {| patience n := n |}.
  - intros [] n; cbn; lia.
  - intros s p m t [|n]; cbn; [done|lia].
  - intros [|n]; cbn; [done|lia].
  - done.
  - intros i [|n]; cbn; [done|lia].
Defined.

(** The link is lost, two attempts to join fail, and two polls of the address. *)
Lemma station_is_joined_again_witness :
  ∃ s', monitor demo_stored 6 (demo_start 5 false) = Ok (tt, s') ∧ last_link (trace s') = Some CYW43_LINK_JOIN ∧ initial_config s' = false.
Proof. apply (station_is_joined_again demo_stored 6 (demo_start 5 false)); [done|done|cbn; lia]. Defined.

Definition demo_sensors (e : bool) : client_mode_settings :=
  mkClient WIFI (wifi demo_stored) (eth demo_stored) (mqtt demo_stored) (password demo_stored)
    [mkSensor 9600 e false []; mkSensor 19200 true false []; mkSensor 9600 false false []].

(** With the first input disabled, the sensor of the second one, on UART 2, is number 0. *)
Lemma sensors_use_their_settings_iff_witness : ∃ s' new, start_sensors (demo_sensors false) (demo_start 0 false) = Ok (tt, s') ∧
  started (trace s') = new ∧ ¬ Forall own_number new ∧ new = [(2, 0)].
Proof.
  destruct (sensors_use_their_settings_iff (demo_sensors false) (mkSensor 9600 false false []) (mkSensor 19200 true false [])
    (mkSensor 9600 false false []) (demo_start 0 false) eq_refl eq_refl) as (s' & new & E & T & H).
  exists s', new. split; [exact E|]. split; [exact T|]. split; [rewrite H; intros [H' _]; by specialize (H' eq_refl)|].
  assert (Some (started (trace s')) = match start_sensors (demo_sensors false) (demo_start 0 false) with Ok (_, s) => Some (started (trace s)) | _ => None end)
    as A by (by rewrite E). rewrite T in A. vm_compute in A. injection A as A. exact A.
Defined.
