(* ===== verification/CaptivePortal.v ===== *)
(** The captive portal: start-up (Startup), the names (Dns), the packets (Ip4) and the redirection (HttpRequest)
    together.  In the configuration mode every name leads to the device, and the name that a client is redirected to is
    one the device answers for itself. *)
From S2P Require Import Prelude CString StateMonad Settings.
From S2P Require SettingsForm HttpLwip Dns Ip4 Ip4Packets Http HttpRequest HttpGet Startup StartupModes StartupLinks.
Import Startup StartupLinks Ip4 Ip4Packets.

(** The settings of an access point whose host name is one label and whose names fit the server's copy of a host. *)
Record portal_ok (ap : ap_mode_settings) (host domain : list Z) : Prop := {
  po_host : c_str (ap_hostname ap) = Ok host;
  po_domain : c_str (ap_domain_name ap) = Ok domain;
  po_host_nul : no_nul host;
  po_domain_nul : no_nul domain;
  po_fits : zlen host + 1 + zlen domain < 32;
  po_ip : is_u32 (ap_ip ap) ∧ ap_ip ap ≠ 0;
  po_secondary : is_u32 (secondary_address ap) ∧ secondary_address ap ≠ 0;
}.

(** The servers as an action starts them. *)
Definition dns_started (a : action) (st : Dns.dns_settings) : Prop :=
  match a with
  | dns_server_init primary secondary host domain ignores => ∃ h d, c_str host = Ok h ∧ c_str domain = Ok d ∧
      st = Dns.mkDns (addr_bytes primary) (addr_bytes secondary) (literal h) (literal d) (negb (ignores =? 0))
  | _ => False
  end.

(** [ip4_secondary_ip_address] is an [int]. *)
Definition secondary_set (a : action) (z : Z) : Prop :=
  match a with set_secondary_ip_address addr => z = s32 addr | _ => False end.

Lemma u32_s32 a : is_u32 a → u32 (s32 a) = a.
Proof. unfold is_u32, s32, u32. intros Ha. case_match; zdiv. Qed.

Section Portal.
Context {B W : Type} {board : Board B} {modes : AuthModes} {lwip : Lwip4 W} {lwip_ok : Lwip4Ok W}.
Context (ap : ap_mode_settings) (host domain : list Z) (Hap : portal_ok ap host domain).

Definition portal_dns : Dns.dns_settings :=
  Dns.mkDns (addr_bytes (ap_ip ap)) (addr_bytes (secondary_address ap)) (literal host) (literal domain)
    (negb (dns_ignores_network_suffix ap =? 0)).

Lemma portal_dns_ok : Dns.dns_ok portal_dns host domain.
Proof. destruct Hap. by split. Qed.

(** The address that a name is resolved to. *)
Definition resolved (labels : list (list Z)) : Z :=
  if Dns.is_own_name host domain (negb (dns_ignores_network_suffix ap =? 0)) labels then ap_ip ap else secondary_address ap.

Lemma resolved_bytes labels :
  (if Dns.is_own_name host domain (Dns.ignore_network_suffix portal_dns) labels
   then Dns.primary_ip portal_dns else Dns.secondary_ip portal_dns) = addr_bytes (resolved labels).
Proof. unfold resolved. cbn. by case_match. Qed.

(** The device answers to it on the interface of the access point. *)
Lemma resolved_is_ours labels (n : netif) : is_up n = true → ip_addr n = ap_ip ap →
  answers_to (s32 (secondary_address ap)) (resolved labels) n.
Proof.
  destruct Hap as [_ _ _ _ _ [Hi Hi0] [Hs Hs0]]. intros Hup Ha. split; [done|]. split; [congruence|].
  unfold resolved. case_match; [by left|]. right. right. rewrite u32_s32 by done. split; [|done].
  intros E. apply Hs0. rewrite <- (u32_s32 _ Hs), E. done.
Qed.

(** C6: In the configuration mode every name leads to the device.  Start-up gives the DNS server and the IPv4 layer the
    same secondary address; so whatever name a client asks for, the address in the answer is one whose packets, when
    they come in at the access point, are given to TCP - not forwarded, and not dropped as somebody else's. *)
Theorem every_name_leads_to_the_device (d d' : device (W := B)) (junk ssid0 : list Z) (c : Z) :
  zlen junk = 32 → c_str (ap_ssid ap) = Ok ssid0 → zlen ssid0 < 28 → no_nul ssid0 → rd (ap_password ap) 0 = Ok c →
  start_config_mode ap junk d = Ok (tt, d') →
  let z := s32 (secondary_address ap) in
  (∃ a, a ∈ map fst (trace d') ∧ dns_started a portal_dns) ∧ (∃ a, a ∈ map fst (trace d') ∧ secondary_set a z) ∧
  ∀ fuel jumps id b2 b3 labels rest junk',
    length id = 2%nat → 0 <= b2 < 128 → b2 / 8 mod 16 = 0 → Forall Dns.label_ok labels → (length labels < fuel)%nat →
    let question := Dns.name_bytes labels ++ rest in
    zlen (Dns.query_head id b2 b3 ++ question ++ junk') = 1536 → 12 + zlen question < 1520 →
    let addr := resolved labels in
    (∃ packet, Dns.dns_turn fuel (S jumps) portal_dns (Dns.query_head id b2 b3 ++ question ++ junk') (12 + zlen question) =
       Ok (packet, Some (Dns.answer id b2 b3 question (addr_bytes addr)))) ∧
    ∀ iphdr x t (inp : netif) len src (s : ip_layer (W := W)), let p := (iphdr ++ x) :: t in
      is_up inp = true → ip_addr inp = ap_ip ap → ip4_secondary_ip_address s = z →
      sound_header iphdr len IP_PROTO_TCP src addr → zlen iphdr <= len <= zlen (concat p) ∧ zlen (concat p) < 65536 →
      ip4_addr_ismulticast addr = false → valid_source src inp → no_raw_pcb →
      ∃ x' t', let dt := mkIpData (Some inp) (Some inp) (Some (iphdr ++ x')) (zlen iphdr) src addr in
        x' ++ concat t' = take (Z.to_nat (len - zlen iphdr)) (x ++ concat t) ∧ (len = zlen (concat p) → x' = x ∧ t' = t) ∧
        ip4_input p inp s = Ok (ERR_OK, with_data no_data (with_world (tcp_input dt (x' :: t') inp (world s)) s)).
Proof.
  intros Hj Hs Hl Hn Hc E z.
  destruct (start_config_mode_actions ap junk ssid0 c d Hj Hs Hl Hn Hc) as (mac & name & d1 & E1 & _ & T).
  rewrite E in E1. injection E1 as <-. rewrite T.
  split. { eexists. split; [apply elem_of_app; right; do 4 (apply elem_of_cons; right); by left|].
           destruct Hap. by exists host, domain. }
  split. { eexists. split; [apply elem_of_app; right; do 5 (apply elem_of_cons; right); by left|]. done. }
  intros fuel jumps id b2 b3 labels rest junk' Hid Hb2 Hop Hlab Hf question Hq Hq2 addr. split.
  { destruct (Dns.query_answered fuel jumps portal_dns host domain id b2 b3 labels rest junk' portal_dns_ok Hid Hb2 Hop Hlab Hf Hq Hq2)
      as (packet & Ed & _). rewrite resolved_bytes in Ed. by exists packet. }
  intros iphdr x t inp len src s p Hup Ha Hz Hsound Hlen Hmc Hsrc Hraw.
  destruct (input_for_us iphdr x t inp len IP_PROTO_TCP src addr s Hsound Hlen ltac:(decided)) as (x' & t' & Ex & Hex & Ei); try done.
  - rewrite Hz. unfold z. by apply resolved_is_ours.
  - by exists x', t'.
Qed.
End Portal.

(** ** The redirection *)

Lemma same_prefix n h r x : no_nul h → n = length h → strncasecmp_eq n (h ++ r) (h ++ 0 :: x) = Ok true.
Proof.
  intros Hh ->. induction Hh as [|c h Hc _ IH]; cbn [length strncasecmp_eq app]; [done|].
  rewrite Z.eqb_refl. cbn [negb]. by rewrite (proj2 (Z.eqb_neq c 0) Hc).
Qed.

Lemma suffix_refl l : Dns.suffix_matches l l = true.
Proof. induction l as [|c l IH]; cbn; [done|]. rewrite IH, andb_true_r. by apply bool_decide_eq_true. Qed.

Section Redirection.
Context {lw : Http.Lwip} {site : HttpRequest.Site}.
Context (ap : ap_mode_settings) (host domain : list Z) (Hap : portal_ok ap host domain).
(** What [httpd_init] was given. *)
Context (Hhost : HttpRequest.hostname = host) (Hdomain : HttpRequest.domain_name = domain).

Definition target : list Z := host ++ chars "." ++ domain.

Lemma target_fits : zlen target < 32.
Proof. destruct Hap. unfold target. rewrite !length_app. change (length (chars ".")) with 1%nat. lia. Qed.

Lemma target_no_nul : no_nul target.
Proof. destruct Hap. unfold target, no_nul. rewrite !Forall_app. split; [done|]. split; [by repeat constructor|done]. Qed.

(** The redirection of the portal ends.  Its text is sent whole, and the name in it is the device's own in both places
    where a name is looked at: the DNS server resolves it to the address of the access point, and the HTTP server, in
    whose copy of 31 characters it fits, serves a request for it instead of redirecting it again. *)
Theorem redirection_is_not_redirected : let target := host ++ chars "." ++ domain in
  HttpGet.redirection = chars "HTTP/1.0 302 Found" ++ Http.cr_lf ++ chars "Location: http://" ++ target ++ Http.cr_lf ++ Http.HTTP_HDR_CONN_CLOSE ∧
  HttpRequest.host_name_matches (target ++ replicate (32 - length target) 0) = Ok true ∧
  resolved ap host domain (host :: Dns.components domain) = ap_ip ap.
Proof.
  intros t. pose proof target_fits as Hf. pose proof target_no_nul as Hn. fold t in Hf, Hn. unfold target in Hf, Hn. fold t in Hf, Hn.
  destruct Hap as [_ _ Hh Hd _ _ _]. split_and!.
  - unfold HttpGet.redirection. rewrite Hhost, Hdomain.
    assert (Et : chars "HTTP/1.0 302 Found" ++ Http.cr_lf ++ chars "Location: http://" ++ host ++ chars "." ++ domain ++ Http.cr_lf =
      (chars "HTTP/1.0 302 Found" ++ Http.cr_lf ++ chars "Location: http://") ++ t ++ Http.cr_lf) by (unfold t; by rewrite <- !app_assoc).
    rewrite Et, take_ge; [by rewrite <- !app_assoc|]. rewrite !length_app. cbn. lia.
  - unfold HttpRequest.host_name_matches. case_match; [|done].
    assert (Ec : c_str (t ++ replicate (32 - length t) 0) = Ok t).
    { replace (32 - length t)%nat with (S (31 - length t)) by lia. cbn [replicate]. by apply c_str_app. }
    rewrite Ec, bind_ok. case_match; [done|]. rewrite Hhost, Hdomain.
    replace (t ++ replicate (32 - length t) 0) with (host ++ 46 :: domain ++ replicate (32 - length t) 0) by (unfold t; by rewrite <- !app_assoc).
    unfold literal. rewrite same_prefix, bind_ok by done. cbn [negb].
    rewrite rd_app, bind_ok. cbn [Z.eqb Pos.eqb].
    rewrite (cons_middle 46 host), (app_assoc host [46]).
    replace (S (length host)) with (length (host ++ [46])) by lens. rewrite drop_app_length.
    replace (32 - length t)%nat with (S (31 - length t)) by lia. cbn [replicate]. unfold strcasecmp_eq.
    rewrite !c_str_app, bind_ok by done. cbn [mbind outcome_bind]. by rewrite bool_decide_true.
  - unfold resolved. cbn [Dns.is_own_name]. rewrite firstn_all, suffix_refl, orb_true_r.
    unfold Dns.same_name. by rewrite bool_decide_true.
Qed.
End Redirection.

(** ** Examples: the settings the firmware is built with *)

#[local] Existing Instances StartupModes.flaky SettingsForm.sdk_modes HttpLwip.plain_lwip.

Lemma demo_portal_ok : portal_ok Factory.s_Settings (chars "config") (chars "radprot.net").
Proof. split; decided. Qed.

Definition demo_layer : ip_layer (W := wire) :=
  mkIp 1 (s32 0x006433C6) [] None no_data (mkWire [] []).
Definition demo_ap_if : netif := mkNetif 1 0x017BA8C0 0x00FFFFFF 0x017BA8C0 true true true 1500.

(** The check for a captive portal of a client at 192.168.123.16: the name example.org, a segment to the address it got. *)
Lemma every_name_leads_to_the_device_witness :
  let st := portal_dns Factory.s_Settings (chars "config") (chars "radprot.net") in
  let question := Dns.name_bytes [chars "example"; chars "org"] ++ [0; 1; 0; 1] in
  ∃ d' packet, start_config_mode Factory.s_Settings
      (replicate 32 0) (StartupModes.demo_start 0 true) = Ok (tt, d') ∧
    Dns.dns_turn 10 1 st (Dns.query_head [7; 7] 1 0 ++ question ++ replicate 1507 0) 29 =
      Ok (packet, Some (Dns.answer [7; 7] 1 0 question [198; 51; 100; 0])) ∧
    ip4_input [ip_header 64 0 IP_PROTO_TCP 23 9 0x107BA8C0 0x006433C6 ++ [1; 2; 3]] demo_ap_if demo_layer =
      Ok (ERR_OK, with_data no_data (with_world (mkWire [] [(IP_PROTO_TCP, 0x107BA8C0, 0x006433C6, [[1; 2; 3]])]) demo_layer)).
Proof.
  intros st question.
  destruct (start_config_mode_actions Factory.s_Settings
    (replicate 32 0) (chars "RadProt_IoT") 78 (StartupModes.demo_start 0 true)) as (mac & name & d' & E & _); [done|done|done|decided|done|].
  exists d'.
  destruct (every_name_leads_to_the_device (W := wire) Factory.s_Settings (chars "config") (chars "radprot.net") demo_portal_ok
    (StartupModes.demo_start 0 true) d' (replicate 32 0) (chars "RadProt_IoT") 78 eq_refl eq_refl eq_refl ltac:(decided) eq_refl E)
    as (_ & _ & H).
  destruct (H 10%nat 0%nat [7; 7] 1 0 [chars "example"; chars "org"] [0; 1; 0; 1] (replicate 1507 0) eq_refl ltac:(decided) eq_refl
    ltac:(decided) ltac:(decided) ltac:(decided) ltac:(decided)) as [[packet Ed] Hp].
  exists packet. split; [exact E|]. split; [exact Ed|].
  destruct (Hp (ip_header 64 0 IP_PROTO_TCP 23 9 0x107BA8C0 0x006433C6) [1; 2; 3] [] demo_ap_if 23 0x107BA8C0 demo_layer)
    as (x' & t' & Ex & Hex & Ei).
  - done.
  - done.
  - done.
  - apply header_sound. split; decided.
  - decided.
  - done.
  - by right.
  - done.
  - destruct (Hex eq_refl) as [-> ->]. exact Ei.
Defined.

#[local] Instance demo_portal_site : HttpRequest.Site := {|
  HttpRequest.FS_ROOT := []; HttpRequest.hostname := chars "config"; HttpRequest.domain_name := chars "radprot.net";
  HttpRequest.ip_address := 0x017BA8C0; HttpRequest.initial_config := true; HttpRequest.fresh n := replicate (Z.to_nat n) 0;
  HttpRequest.httpd_req_buf := replicate 1024 0; HttpRequest.stack_word := 0 |}.

Lemma redirection_is_not_redirected_witness :
  HttpRequest.host_name_matches (chars "config.radprot.net" ++ replicate 14 0) = Ok true ∧
  resolved Factory.s_Settings (chars "config") (chars "radprot.net") [chars "config"; chars "radprot"; chars "net"] = 0x017BA8C0.
Proof.
  destruct (redirection_is_not_redirected (site := demo_portal_site) Factory.s_Settings (chars "config") (chars "radprot.net") demo_portal_ok eq_refl eq_refl)
    as (_ & H & R). split; [exact H|exact R].
Defined.
