(* ===== verification/Provisioning.v ===== *)
(** From the box into the network: a settings form posted to the access point of a device that has no network yet, the
    settings in flash, the restart, and the start-up of main.cpp that joins the network of the form - the HTTP server,
    the handlers, the store and the start-up together. *)
From Stdlib Require Import Floats.SpecFloat.
From S2P Require Import Prelude CString StateMonad Sensor Settings SettingsStore Post SettingsForm Wifi.
From S2P Require Import Http HttpLwip HttpRequest HttpSend HttpGet HttpPost WebHandlers Startup Factory StartupModes StartupLinks.

Section Boot.
Context {W : Type} {board : Board W} {patient : Patient W} {modes : AuthModes}.
Context (ap_settings : ap_mode_settings) (client_settings : client_mode_settings) (junk_ssid : list Z).
Implicit Types (s : Startup.device (W := W)).

(** ** What start-up does *)

(** Every attempt to join is to the network of the settings, in their way. *)
Definition own_network (a : action) : Prop :=
  match a with
  | cyw43_arch_wifi_connect_timeout_ms name key auth _ =>
      let w := wifi client_settings in name = ssid w ∧ key = wifi_password w ∧ auth = auth_mode w
  | _ => True
  end.

Lemma common_own a : common a → own_network a.
Proof. intros []. by destruct a. Qed.

Lemma keeps_trans s1 s2 s3 : keeps s1 s2 → keeps s2 s3 → keeps s1 s3.
Proof. intros [] []. split; [congruence|lia]. Qed.

(** A part of start-up: it ends in the same mode, costs no patience and attempts only what is right. *)
Definition follows s s' : Prop := keeps s s' ∧ ∃ tr, Startup.trace s' = Startup.trace s ++ tr ∧ Forall (λ x, own_network x.1) tr.

Lemma follows_refl s : follows s s.
Proof. split; [done|]. exists []. by rewrite app_nil_r. Qed.

Lemma follows_trans s1 s2 s3 : follows s1 s2 → follows s2 s3 → follows s1 s3.
Proof.
  intros (K1 & t1 & T1 & F1) (K2 & t2 & T2 & F2). split; [by eapply keeps_trans|].
  exists (t1 ++ t2). rewrite T2, T1, app_assoc, Forall_app. done.
Qed.

(** What a computation brings about, and what it does on the way. *)
Lemma wp_follows {A} (m : ST Startup.device A) (Q : A → Startup.device → Prop) s : does m own_network →
  wp m (λ a s', keeps s s' ∧ Q a s') s → wp m (λ a s', follows s s' ∧ Q a s') s.
Proof.
  intros D H. apply wp_inv in H as (a & s' & E & Hk & HQ). eapply wp_Ok; [exact E|]. split; [|done]. split; [done|].
  destruct (D _ _ _ E) as (tr & T & F & _). by exists tr.
Qed.

(** One part after another. *)
Lemma wp_then {A B} (m : ST Startup.device A) (f : A → ST Startup.device B) (Q : A → Startup.device → Prop) R s s1 :
  follows s s1 → wp m (λ a s', follows s1 s' ∧ Q a s') s1 → (∀ a s', Q a s' → follows s s' → wp (f a) R s') → wp (m ≫= f) R s1.
Proof.
  intros Hf Hm Hn. apply wp_bind. eapply wp_mono; [exact Hm|]. intros a s' [Hf' HQ]. apply Hn; [done|]. by eapply follows_trans.
Qed.

Lemma act_follows a s : own_network a → wp (act a) (λ _ s', follows s s' ∧ True) s.
Proof. intros H. apply wp_follows; [by apply doing_act|]. apply wp_act. split; [apply acted_keeps|done]. Qed.

Lemma scan_wait_ends fuel s : (patience (Startup.world s) < fuel)%nat → wp (scan_wait fuel) (λ _ s', keeps s s' ∧ True) s.
Proof.
  revert s. induction fuel as [|fuel IH]; intros s Hp; [lia|]. cbn [scan_wait]. apply wp_act_bind.
  destruct (acted_keeps cyw43_wifi_scan_active s) as [Hi Hm]. set (s1 := acted cyw43_wifi_scan_active s) in *.
  destruct (Z.eqb_spec (fst (perform cyw43_wifi_scan_active (Startup.world s))) 0) as [_|Hne]; [by apply wp_ret|].
  pose proof (patience_scan (Startup.world s) Hne) as Hlt. change (snd (perform cyw43_wifi_scan_active (Startup.world s))) with (Startup.world s1) in Hlt.
  apply wp_act_bind. destruct (acted_keeps (vTaskDelay 1000) s1) as [Hi' Hm'].
  eapply wp_mono; [apply IH; lia|]. intros _ s' [[Hi2 Hm2] _]. split; [|done]. split; [congruence|lia].
Qed.

Lemma start_hardware_ends fuel s : (patience (Startup.world s) < fuel)%nat → fst (perform cyw43_arch_init (Startup.world s)) = 0 →
  wp (start_hardware fuel) (λ up s', follows s s' ∧ up = true) s.
Proof.
  intros Hp H0. apply wp_follows.
  { eapply doing_mono; [apply start_hardware_does|apply common_own]. }
  unfold start_hardware. apply wp_act_bind. rewrite H0. cbn [Z.eqb negb]. do 3 apply wp_act_bind.
  assert (K : keeps s (acted watchdog_enable_caused_reboot (acted enc28j60_init (acted cyw43_wifi_pm (acted cyw43_arch_init s)))))
    by (by repeat apply keeps_acted).
  set (s1 := acted watchdog_enable_caused_reboot _) in *. set (caused := negb _). clearbody s1 caused.
  apply wp_bind. assert (Hled : wp (if caused then act (led_put true);; mret tt else mret tt) (λ _ s', keeps s1 s') s1).
  { destruct caused; [|done]. apply wp_act_bind, wp_ret. by apply keeps_acted. }
  eapply wp_mono; [exact Hled|]. intros [] s2 K2. pose proof (keeps_trans _ _ _ K K2) as K'. apply wp_act_bind. unfold wifi_networks_scan. apply wp_bind, wp_act_bind.
  set (s3 := acted cyw43_wifi_scan _). assert (K3 : keeps s s3) by (by repeat apply keeps_acted). destruct K3 as [I3 P3].
  eapply wp_mono; [apply scan_wait_ends; lia|]. intros _ s4 [[I4 P4] _]. apply wp_ret. split; [|done]. split; [congruence|lia].
Qed.

Lemma wifi_connect_own fuel : does (wifi_connect client_settings fuel) own_network.
Proof. unfold wifi_connect. pose proof (wait_address_does fuel sta own_network I (λ _, I)). acts. Qed.

Lemma reconnect_own fuel waits : does (reconnect client_settings fuel waits) own_network.
Proof. pose proof (wifi_connect_own waits). induction fuel; cbn [reconnect]; acts. Qed.

Lemma monitor_own fuel : does (monitor client_settings fuel) own_network.
Proof. unfold monitor. pose proof (reconnect_own fuel fuel). acts. Qed.

Lemma start_sensor_keeps o uart tx rx s : is_Some o → wp (start_sensor_if o uart tx rx) (λ _ s', keeps s s' ∧ True) s.
Proof.
  intros [e ->]. unfold start_sensor_if. apply wp_bind. eapply wp_lift; [done|]. case_match; [|done].
  unfold start_sensor. do 2 apply wp_act_bind. apply wp_bind, wp_gets, wp_bind. set (s1 := acted (serial_set_timeout _ _) _).
  assert (K : keeps s s1) by (by repeat apply keeps_acted). destruct K as [I1 P1].
  unfold wp at 1. cbn [modify]. apply wp_act_bind, wp_ret. split; [|done]. by apply keeps_acted.
Qed.

Lemma start_sensors_keeps s : length (sensor_settings client_settings) = 3%nat → wp (start_sensors client_settings) (λ _ s', follows s s' ∧ True) s.
Proof.
  intros Hl. apply wp_follows; [eapply doing_mono; [apply start_sensors_does|apply common_own]|].
  assert (Hs : ∀ i, (i < 3)%nat → is_Some (sensor_settings client_settings !! i)) by (intros i Hi; apply lookup_lt_is_Some; lia).
  unfold start_sensors. apply wp_bind. eapply wp_mono; [apply start_sensor_keeps, Hs; lia|]. intros _ s1 [K1 _].
  apply wp_bind. eapply wp_mono; [apply start_sensor_keeps, Hs; lia|]. intros _ s2 [K2 _].
  eapply wp_mono; [apply start_sensor_keeps, Hs; lia|]. intros _ s3 [K3 _]. split; [|done]. eauto using keeps_trans.
Qed.

(** ** The access point of a device without a network *)

Lemma monitor_loop_runs fuel turns s : initial_config s = true →
  wp (monitor_loop client_settings fuel turns) (λ _ s', follows s s' ∧ True) s.
Proof.
  revert s. induction turns as [|turns IH]; intros s Hc; cbn [monitor_loop]; [apply wp_ret; by split; [apply follows_refl|]|].
  apply wp_bind. assert (Hm : wp (monitor client_settings fuel) (λ _ s', follows s s' ∧ True) s).
  { apply wp_follows; [apply monitor_own|]. unfold monitor. apply wp_bind, wp_gets. rewrite Hc. do 4 apply wp_act_bind. apply wp_ret.
    split; [|done]. by repeat apply keeps_acted. }
  eapply wp_mono; [exact Hm|]. intros [] s1 [F1 _]. assert (F1' := F1). destruct F1' as [[I1 _] _].
  eapply wp_mono; [apply (IH s1); congruence|]. intros _ s2 [F2 _]. split; [by eapply follows_trans|done].
Qed.

(** A device without a network to join opens its access point, whose name ends in the last byte of its address, and
    serves addresses and names on it, in start-up and for every number of turns of the loop. *)
Theorem unset_device_opens_access_point fuel turns s name c : zlen junk_ssid = 32 → c_str (ap_ssid ap_settings) = Ok name →
  zlen name < 28 → no_nul name → rd (ap_password ap_settings) 0 = Ok c →
  conn_type client_settings = WIFI → rd (ssid (wifi client_settings)) 0 = Ok 0 →
  length (sensor_settings client_settings) = 3%nat → fst (perform cyw43_arch_init (Startup.world s)) = 0 →
  (patience (Startup.world s) < fuel)%nat →
  ∃ s' mac ap_name pre post, main_task ap_settings client_settings junk_ssid fuel turns s = Ok (tt, s') ∧
    initial_config s' = true ∧ c_str ap_name = Ok (name ++ chars "-" ++ hex_byte (u8 mac)) ∧
    map fst (Startup.trace s') = pre ++ config_actions ap_settings ap_name (c =? 0) ++ post.
Proof.
  intros Hj Hn Hl Hz Hk Hw Hu Hs Hup Hp.
  enough (H : wp (main_task ap_settings client_settings junk_ssid fuel turns) (λ _ s', initial_config s' = true ∧
    ∃ mac ap_name pre post, c_str ap_name = Ok (name ++ chars "-" ++ hex_byte (u8 mac)) ∧
      map fst (Startup.trace s') = pre ++ config_actions ap_settings ap_name (c =? 0) ++ post) s).
  { apply wp_inv in H as ([] & s' & E & Hi & mac & ap_name & pre & post & En & Et). by exists s', mac, ap_name, pre, post. }
  unfold main_task. apply (wp_then _ _ _ _ s s (follows_refl s) (start_hardware_ends fuel s Hp Hup)). intros up s1 -> F1. cbn [negb].
  apply wp_bind. unfold choose_mode. rewrite Hw. apply wp_bind. apply (wp_lift _ 0); [done|]. cbn [Z.eqb].
  unfold wp at 1, modify. set (s2 := mkDevice _ _ true _). unfold start_servers. do 2 apply wp_bind.
  eapply wp_mono; [apply act_follows; exact I|]. intros _ s3 [F3 _]. apply wp_bind.
  eapply wp_mono; [apply act_follows; exact I|]. intros _ s4 [F4 _]. apply wp_ret, wp_bind, wp_gets.
  assert (F : follows s2 s4) by eauto using follows_trans. destruct F as [[I4 _] _]. rewrite I4. cbn [initial_config s2].
  destruct (start_config_mode_actions ap_settings junk_ssid name c s4 Hj Hn Hl Hz Hk) as (mac & nm & s5 & E5 & En & T5).
  apply wp_bind. eapply wp_Ok; [exact E5|]. assert (I5 : initial_config s5 = true).
  { destruct (start_config_mode_does ap_settings junk_ssid _ _ _ E5) as (_ & _ & _ & ->). exact I4. }
  apply (wp_then _ _ _ _ s5 s5 (follows_refl s5) (act_follows gpio_init s5 I)). intros _ s6 _ F6.
  apply (wp_then _ _ _ _ s5 s6 F6 (act_follows gpio_set_dir s6 I)). intros _ s7 _ F7.
  apply (wp_then _ _ _ _ s5 s7 F7 (start_sensors_keeps s7 Hs)). intros _ s8 _ F8.
  assert (I8 : initial_config s8 = true) by (destruct F8 as [[-> _] _]; exact I5).
  eapply wp_mono; [by apply monitor_loop_runs|]. intros _ s9 [F9 _].
  destruct (follows_trans _ _ _ F8 F9) as [[I9 _] (tr & Et & _)]. split; [congruence|].
  exists mac, nm, (map fst (Startup.trace s4)), (map fst tr). split; [done|]. by rewrite Et, map_app, T5, app_assoc.
Qed.

Section Station.
Context (wifi_device : conn_type client_settings = WIFI).



End Station.
End Boot.

(** ** From the form to the network *)

Section FirstUse.
Context {J F S T W : Type} {doc : JsonDoc J} {doc_ok : JsonDocOk J} {flash : Flash F} {flash_ok : FlashOk F}.
Context {layout : Layout} {layout_ok : LayoutOk} {modes : AuthModes} {nets : NetSet S}.
Context {tcp : Tcp T} {tcp_ok : TcpOk T} {lwip : Lwip} {lwip_ok : LwipOk} {site : Site}.
Context {board : Board W} {patient : Patient W}.
Context (atof : list Z → spec_float) (serializeJson : json → list Z) (hw : hardware) (junk : list Z).
Context (atof_float : ∀ s, is_float (atof s)) (aton_u32 : ∀ s a, ip4addr_aton s = Some a → is_u32 a).



End FirstUse.

(** ** An example: a device as it comes, whose access point serves the form *)

#[local] Existing Instance tree_doc.







(** A device with the settings it is delivered with: its access point. *)
Lemma unset_device_opens_access_point_witness : ∃ s' mac ap_name pre post,
  main_task s_Settings s_Client_Settings (replicate 32 0) 6 2 (mkDevice 5%nat [] false 0) = Ok (tt, s') ∧ Startup.initial_config s' = true ∧
  c_str ap_name = Ok (chars "RadProt_IoT-" ++ hex_byte (u8 mac)) ∧
  map fst (Startup.trace s') = pre ++ config_actions s_Settings ap_name false ++ post.
Proof.
  apply (unset_device_opens_access_point s_Settings s_Client_Settings (replicate 32 0) 6 2 (mkDevice 5%nat [] false 0) (chars "RadProt_IoT") 78);
    try done; [decided|cbn; lia].
Defined.
